(* ===== verification/_CoqProject ===== *)
-Q . S2P
Prelude.v
Float64.v
TraceUtil.v
Sampling.v
H2Defs.v
H2Sniff.v
H2Huffman.v
H2Scan.v
HpackParse.v
H2Txn.v
H2Sock.v
H2Inject.v
H2Send.v
H1Inject.v
SockOps.v
Entry.v
IovIter.v
ConnInfo.v
Packet.v
Flows.v
LargeBuf.v
HttpInfo.v
TcpReq.v
TraceMaps.v
TraceParent.v
Dns.v
Rdns.v
Pid.v
TraceLife.v
HttpSpan.v
HttpTrace.v
H2Stream.v
H2Frames.v
H2Walk.v
H2Spans.v
H2Cut.v
H2Wire.v
TlsRecord.v
TlsPrefix.v
Sql.v
Postgres.v
Mysql.v
Mssql.v
Sunrpc.v
Aerospike.v
Kafka.v
TcpSpan.v
Dispatch.v
H2Start.v
SslProbes.v
KProbes.v
SkFilter.v
UnixSock.v
Runtimes.v
Stats.v
