(* ===== verification/Prelude.v ===== *)
(** * OpenTelemetry eBPF Instrumentation: the in-kernel tracing code

    This library models C code of the repository's [bpf/] directory, the programs the agent loads
    into the kernel, and proves what they promise to each other and to user space.

    ** The program

    Two groups of eBPF programs cooperate.  The _generic tracer_ ([bpf/generictracer/]) watches
    socket traffic: it classifies each buffer by protocol, reads the trace context a request
    carries, and ships captured payloads to user space over a ring buffer.  The _injector_
    ([bpf/tpinjector/]) sees outgoing messages before they leave: it decides whether a socket
    speaks HTTP/2, finds the header block of a request and inserts a [traceparent] field into it.
    They share the code of [bpf/common/]: HTTP/2 and HPACK vocabulary, the text form of a trace
    context, connection identity, event emission.  Beside them, programs of their own account for
    network flows ([bpf/netolly/]), TCP statistics ([bpf/statsolly/]) and DNS answers ([bpf/rdns/]).

    ** The files

    - [Prelude.v]: machine integers, memory views, bounded loops, shared lemmas and automation.
    - [Float64.v]: [common/float64.h], the software subtraction used on Node.js async ids.
    - [TraceUtil.v]: [common/trace_util.h], [tp_info.h], [tracing.h]: hexadecimal codec, printing
      of a trace context, the two scans for the HTTP/1 header.
    - [Sampling.v]: [common/sampling.h], [sampler.h], [trace_helpers.h]: the sampling decision of a
      trace, validity of identifiers, the random source.
    - [H2Defs.v]: [common/h2_defs.h]: frame rules, HPACK openers, size updates, sniff state.
    - [H2Sniff.v]: [generictracer/http2_grpc.h] and [sniff_http2_frames] of
      [tpinjector/tpinjector.c]: recognition of a connection in mid-stream.
    - [H2Huffman.v]: [common/h2_tp_huffman.h]: decoding a Huffman-coded trace context.
    - [H2Scan.v]: [common/h2_tp_scan.h]: where a header block may hold a trace context.
    - [HpackParse.v]: [generictracer/hpack_traceparent_parse.h]: reading it.
    - [H2Txn.v]: [tpinjector/h2_write_transaction.h]: inserting it, with rollback.
    - [H2Sock.v]: [tpinjector/h2_parse.h], [inject_policy.h] and the detection programs of
      [tpinjector.c]: the per-socket classification and the tail-call chain.
    - [H2Inject.v]: the injection programs of [tpinjector.c] behind the detection: find, validate,
      create, write, and the loop of tail calls over the frames of one send.
    - [H2Send.v]: the composition of the two files above: one send as an edit of HTTP/2 frames.
    - [H1Inject.v]: the HTTP/1 chain of [tpinjector.c] and [common/tc_common.h].
    - [SockOps.v]: the sock_ops program of [tpinjector.c]: enrolment of sockets and the TCP option.
    - [Entry.v]: [obi_packet_extender], the program every send enters first, with
      [common/http_types.h] and [msg_buffer.h].
    - [IovIter.v]: [common/iov_iter.h]: the buffers of a socket call, in every layout of the kernel.
    - [ConnInfo.v]: [common/connection_info.h], [egress_key.h]: connection identity.
    - [Packet.v]: [common/tcp_info.h]: reading the headers and the payload of a packet.
    - [Flows.v]: [netolly/flows_common.h], [flows.c], [flows_sock.c]: accounting of network flows.
    - [LargeBuf.v]: [common/large_buf_emit.h], [large_buffers.h]: chunked events.
    - [HttpInfo.v]: [common/http_info.h]: the record of one HTTP/1 request.
    - [TraceMaps.v]: [common/tracing.h], [trace_helpers.h], [shared/obi_ctx.h], [bpf/maps/]: the
      maps trace contexts live in.
    - [TraceParent.v]: [common/trace_parent.h], [http_trace_parent.h], [python_task.h]: the search
      for the span a client call belongs to, across threads, tasks and runtimes.
    - [Dns.v]: [generictracer/dns.h] and the UDP probes of [k_tracer.c]: queries, answers, records.
    - [Rdns.v]: [rdns/rdns_xdp.c]: DNS answers from packets.
    - [TraceLife.v]: [common/trace_lifecycle.h], [generictracer/http_server_trace.h]: how a context
      is stored, taken over, invalidated and deleted.
    - [HttpSpan.v], [HttpTrace.v]: [generictracer/protocol_http.h] and its helpers: the life of a
      request's record until its event, and the programs that give it a context and capture its
      payload.
    - [TcpReq.v], [TcpSpan.v]: [generictracer/protocol_tcp.h], [failed_connect.h]: the record of a TCP
      request, its life and its event.
    - [H2Stream.v], [H2Frames.v]: [generictracer/protocol_http2.h]: the record of an HTTP/2 stream, and
      the chain of programs that scans the frames of a buffer, starts and ends streams and resumes a
      frame that a read cut.  Their properties are in [H2Walk.v] (header blocks), [H2Spans.v]
      (streams), [H2Cut.v] (cut frames) and [H2Wire.v] (contexts and reports).
    - [Dispatch.v]: [generictracer/protocol_handler.c], [k_tracer_defs.h]: which parser a buffer
      goes to, and the whole path of one buffer through the tracer; [H2Start.v]: the path of the
      first buffer of an HTTP/2 connection.
    - [TlsRecord.v]: [common/tls_record.h]: correlation keys of TLS records.
    - [TlsPrefix.v]: [generictracer/tls_prefix.h], [common/ssl_helpers.h], [ssl_args.h]: binding the SSL
      behind a memory BIO to its socket.
    - [SslProbes.v]: [generictracer/libssl.c], [ssl_defs.h]: the OpenSSL probes, over the dispatcher.
    - [KProbes.v]: [generictracer/k_tracer.c], [k_send_receive.h], [send_buffer.h], [common/sockaddr.h]:
      the probes on connect, accept, send, receive and close, over the dispatcher and the TLS maps.
    - [SkFilter.v]: the socket filters of [k_tracer.c], which capture what the probes cannot read.
    - [UnixSock.v]: [generictracer/k_unix_sock.h]: connections over Unix sockets.
    - [Runtimes.v]: [generictracer/nginx.c], [ruby.c]: hand-over of a request inside nginx and Puma.
    - [Stats.v]: [statsolly/k_tcp.c], [tp_tcp.c]: transfers, failures, resets and round-trip times.
    - [Pid.v]: [pid/pid.h], [pid_helpers.h]: which processes are instrumented, and by which number.
    - [Sql.v]: [common/sql.h], [strings.h]: SQL keywords.
    - [Postgres.v], [Mysql.v], [Mssql.v], [Sunrpc.v], [Aerospike.v], [Kafka.v]: the protocol files
      of the same names in [generictracer/]: classification and capture.

    A definition has the name of the C function, type or constant it models.  Arguments that C
    passes by pointer and modifies are returned; a map is a [gmap] that is passed and returned; a
    function that fails returns an option or the code's own return value.  What a program reads
    from configuration or from code outside the model (whether a scratch buffer is available, SSL
    marks, who owns a stream) is an argument.

    ** The theorems

    - Exactness: a recogniser accepts exactly a grammar written down independently of the code:
      HTTP/2 framing ([H2Sniff]), the RFC 7541 code ([H2Huffman]), RPC messages ([Sunrpc]), TDS
      packets ([Mssql]), PostgreSQL messages ([Postgres]), SQL keywords ([Sql]), HPACK openers
      ([H2Defs]), the fields of a header block ([H2Scan]).
    - Round trips: what the printer writes, plain or Huffman coded, the parsers read back
      ([TraceUtil], [HpackParse]).
    - Safety of injection: the insertion is all-or-nothing whatever the kernel helpers do
      ([H2Txn]); a frame is handed to it only on a socket with the evidence the policy demands
      ([H2Sock]); the class of a socket after a send is given exactly by a table over its class before and
      the message, in which rejection is final; a
      field is written only when the scan has shown that the block has none ([H2Inject],
      [H1Inject]); a whole send turns a sequence of frames into the same sequence with at most one
      field added to, or one span id replaced in, each request ([H2Send]).
    - Propagation: a context found on the wire is adopted and published, a written one is published
      as written, the TCP option is sent once and read back on the other side, and the sampling
      decision follows the configured ratio ([H2Inject], [H1Inject], [SockOps], [Sampling]).
    - Parents: a search constrained by a wire context returns only parents of that trace; a call
      inherits trace, span and flags of the request it is made for; a context the application
      wrote keeps its identity; the index of server requests never picks one of two candidates
      ([TraceParent]).
    - Life of a context: two requests on one thread are not confused, a correlated context is used
      once, the context stored for a request is found by the calls made for it, and a TLS
      connection's context is never written in clear text ([TraceLife], with [Entry]).
    - HTTP spans: no request is reported twice whatever probes run, an exchange is reported with
      its status and times, the header one host injects is the parent of the other host's span,
      and captured payloads are exact ([HttpSpan], [HttpTrace], with [H1Inject]).
    - HTTP/2 spans: every header block is handed to user space in a new event of its own or the
      connection is marked, whatever fails once the chain of programs has begun ([H2Walk], and from the
      connection preface on [H2Start]); the streams of a connection
      refine a machine that opens a stream once and reports it once ([H2Spans]); a frame that any
      number of reads cut leaves the scan on a frame boundary ([H2Cut]); the field the injector writes
      is the parent of the server's span, behind priority fields and before padding too, and a stream that ends is reported ([H2Wire], with
      [H2Txn] and [HpackParse]).
    - TCP spans: the record of a connection refines a three-state machine that answers each request
      at most once, an exchange is reported as it happened, and a failed connect leaves no context
      behind ([TcpSpan]).
    - Dispatch: a classified connection keeps its protocol, an HTTP exchange in flight is not taken
      for TCP, and a header that arrives alone reaches the span ([Dispatch], over all recognisers).
    - Error paths: a failing HTTP/1 write leaves the request alone or complete ([H1Inject]); a bail
      of the entry program withdraws the copy an earlier send left ([Entry]).
    - Waiting and termination: both chains of tail calls end within the kernel's limit ([H2Inject],
      [H1Inject]); a response capture waits exactly until the message is complete or the limit is used up
      ([Mssql], [Aerospike], [Kafka], with the rule [feed_waits] of [LargeBuf]).
    - Reassembly and budgets: events carry exactly the captured prefix and never exceed the
      configured limit ([LargeBuf], [Postgres], [Mysql]).
    - Split delivery: a header that arrives in a buffer of its own does not change the
      classification ([Mysql], [Kafka]).
    - Memory bounds: scans depend only on the bytes of their window ([TraceUtil], [H2Scan],
      [HpackParse]).
    - Socket probes: ciphertext is not parsed, a message that is sent in several pieces is parsed once, the
      close of a socket clears what the probes keep under its ends, a refused connect is reported once
      ([KProbes]); what a
      splice hides from the probes is captured and parsed ([SkFilter], with [Packet]); the first message
      of a Unix socket finds its context ([UnixSock]).
    - Hand-over: a call that nginx makes for a request, and a call of the Puma worker that serves it, have
      the request's context as their parent ([Runtimes], with [TraceLife] and [TraceParent]).
    - DNS: a datagram of an unknown peer is reported only as the answer to a query, and every answer in
      time is reported, over every interleaving ([Dns]); an answer on the wire is copied whole, exactly when its
      header bits are those the program accepts ([Rdns]).
    - Accounting: the packets and octets of the flows are those of the frames on the wire, segments that the
      kernel merged counted singly, and none is missed unless the map and the ring had no room ([Flows]); no
      transfer is counted twice or missed ([Stats]); both directions of a connection agree on who opened it, over
      any packets of both programs ([Flows]), and a connection's end is reported with the role of its handshake ([Stats]).
    - TLS: a connection is bound only to an SSL that wrote the record it carries, and is bound when it
      carries one, with evictions from the maps as steps ([TlsPrefix]); an SSL is released once and
      completely, and plain text seen before the binding does not keep it from happening ([SslProbes]).
    - Process selection: the filter is exact for both kinds of pid namespace, and CPUs that race for
      the shared namespace level all get the right number ([Pid]).
    - Identity: both directions of a connection, and both observers of a TLS record, derive one
      key ([ConnInfo], [TlsRecord]); integer subtraction on float64 patterns is exact ([Float64]).

    ** Bounds and fuel

    A [for] loop with a constant bound is a Fixpoint whose fuel is that bound, so no result depends
    on a choice made here.  [bpf_loop] is the kernel's helper with its early exit.  [h2_run], the
    detection chain, and [h2_chain] and [h1_chain], whole sends, have explicit fuel;
    [h2_chain_terminates], [h2_send_within_tail_call_limit] and [h1_chain_terminates] show that 9,
    31 and 6 programs always suffice, below the kernel's limit of 33 tail calls.  The chain of the
    HTTP/2 handler has no bound of its own: [protocol_http2] refuses tail calls beyond the kernel's
    limit, so its fuel of 34 programs is never used up ([protocol_total]).

    ** What is not modelled

    A Java HTTP/1 reservation is an input of a run of [protocol_http] and is not made by the socket
    probes (the feature is off by default).  Per-CPU scratch memory is always found.  The probes on
    language runtimes ([java_tls.c], [jvm.c], [nodejs.c], [python.c], [gotracer/])
    read runtime structures at offsets that user space supplies; the maps they fill are inputs of the
    parent search.  Log enrichment, GPU events, the configuration watcher, the debug printers, the
    iterators over existing sockets and the user-space agent are outside.  Eviction from LRU maps is
    modelled for the TLS, DNS and statistics maps, concurrent access by several CPUs for the pid
    namespace level; the size of the ring buffer is represented by whether a reservation finds room.

    ** This file

    - [u8], [u16], [u32], [u64], [s16], [s32], [s64]: the C conversions to a fixed width; every
      definition that can leave its width applies one.
    - [buf]: the view a C pointer gives of directly addressable memory (stack, map value,
      verified packet window): the byte at each offset from the pointer.  [shift p n] is [p + n].
    - [umem]: memory behind [bpf_probe_read], where any byte may be unmapped; [probe_read] is
      all-or-nothing, and [probe_read0] is the read whose result code the caller ignores: the
      helper zeroes the destination on a fault.
    - [bpf_loop]: the kernel's bounded loop helper, with its early exit.
    - the automation ([bdes], [kunfold], the [bytes] and [kconst] databases). *)

From Stdlib Require Import ZArith Lia ZifyBool List Bool.
From stdpp Require Import base list gmap.

Create HintDb bytes.
Create HintDb kconst.
Create Rewrite HintDb bytes_rw.

Local Open Scope Z_scope.

(** ** Fixed-width integers *)

Definition wrap (w x : Z) : Z := x mod 2 ^ w.

Definition swrap (w x : Z) : Z := (x + 2 ^ (w - 1)) mod 2 ^ w - 2 ^ (w - 1).

Abbreviation u8 := (wrap 8).
Abbreviation u16 := (wrap 16).
Abbreviation u32 := (wrap 32).
Abbreviation u64 := (wrap 64).
Abbreviation s16 := (swrap 16).
Abbreviation s32 := (swrap 32).
Abbreviation s64 := (swrap 64).

(** C's truth value of a comparison used as an integer. *)
Definition b2z (b : bool) : Z := if b then 1 else 0.

(** C's test of an integer used as a condition. *)
Definition nz (x : Z) : bool := negb (x =? 0).

(** [bpf_clamp_umax] and [bpf_clamp_umin] on an unsigned value. *)
Definition clamp_umax (x m : Z) : Z := if x <=? m then x else m.

(** ** Directly addressable memory *)

Definition buf := Z -> Z.

Definition byteb (x : Z) : bool := (0 <=? x) && (x <? 256).

Definition is_bytes (l : list Z) : Prop := Forall (fun x => 0 <= x < 256) l.

Definition list_buf (l : list Z) : buf :=
  fun i => if 0 <=? i then nth (Z.to_nat i) l 0 else 0.

Definition shift (p : buf) (off : Z) : buf := fun i => p (off + i).

Definition take_buf (p : buf) (n : nat) : list Z := map (fun i => p (Z.of_nat i)) (seq 0 n).

Definition upd (p : buf) (i v : Z) : buf := fun j => if j =? i then v else p j.

(** Length of a list as an integer. *)
Definition zlen {A} (l : list A) : Z := Z.of_nat (length l).

(** [memcmp(p, s, strlen(s)) == 0]. *)
Fixpoint mem_eqb (p : buf) (s : list Z) : bool :=
  match s with
  | [] => true
  | c :: s' => (p 0 =? c) && mem_eqb (shift p 1) s'
  end.

(** Two memories agree on the first [n] bytes from the pointer. *)
Definition agree (n : Z) (p q : buf) : Prop := forall i, 0 <= i < n -> p i = q i.

(** ** Big- and little-endian words *)

Definition be16 (p : buf) : Z := Z.lor (Z.shiftl (p 0) 8) (p 1).

Definition be32 (p : buf) : Z :=
  Z.lor (Z.shiftl (p 0) 24) (Z.lor (Z.shiftl (p 1) 16) (Z.lor (Z.shiftl (p 2) 8) (p 3))).

Definition le_bytes (n : nat) (x : Z) : list Z :=
  map (fun i => Z.shiftr x (8 * Z.of_nat i) mod 256) (seq 0 n).

Definition be_bytes (n : nat) (x : Z) : list Z := rev (le_bytes n x).

(** Byte swap of a 32-bit and a 16-bit word ([bpf_ntohl], [bpf_ntohs] on a little-endian host). *)
Definition bswap32 (x : Z) : Z :=
  Z.lor (Z.shiftl (x mod 256) 24) (Z.lor (Z.shiftl (Z.shiftr x 8 mod 256) 16)
    (Z.lor (Z.shiftl (Z.shiftr x 16 mod 256) 8) (Z.shiftr x 24 mod 256))).

Definition bswap16 (x : Z) : Z := Z.lor (Z.shiftl (x mod 256) 8) (Z.shiftr x 8 mod 256).

(** The word a little-endian load of the bytes gives. *)
Fixpoint le_word (l : list Z) : Z :=
  match l with [] => 0 | b :: l' => b + 256 * le_word l' end.

(** ** Memory behind the probe-read helpers *)

Definition umem := Z -> option Z.

Definition ushift (m : umem) (off : Z) : umem := fun a => m (off + a).

Fixpoint probe_read (m : umem) (n : nat) : option (list Z) :=
  match n with
  | O => Some []
  | S n' =>
      match m 0, probe_read (ushift m 1) n' with
      | Some b, Some l => Some (b :: l)
      | _, _ => None
      end
  end.

(** The read into a zeroed destination; a fault leaves the zeroes. *)
Definition probe_read0 (m : umem) (n : nat) : list Z :=
  match probe_read m n with Some l => l | None => repeat 0 n end.

(** A list of bytes at the start of the memory, unmapped after it. *)
Definition list_umem (l : list Z) : umem :=
  fun a => if 0 <=? a then nth_error l (Z.to_nat a) else None.

Definition uagree (n : Z) (m m' : umem) : Prop := forall a, 0 <= a < n -> m a = m' a.

(** ** Bounded loops *)

(** The number of tail calls the kernel allows in one chain. *)
Definition MAX_TAIL_CALL_CNT : nat := 33.

(** [bpf_loop(n, cb, ctx)]: calls [cb i ctx] for [i] from 0 while it returns 0 (here [false]). *)
Fixpoint bpf_loop_from {St} (n : nat) (i : Z) (cb : Z -> St -> St * bool) (s : St) : St :=
  match n with
  | O => s
  | S n' =>
      let '(s', stop) := cb i s in
      if stop then s' else bpf_loop_from n' (i + 1) cb s'
  end.

Definition bpf_loop {St} (n : Z) (cb : Z -> St -> St * bool) (s : St) : St :=
  bpf_loop_from (Z.to_nat n) 0 cb s.

(** The first index of [lo, lo + n) that satisfies [f]. *)
Fixpoint first_from (n : nat) (lo : Z) (f : Z -> bool) : option Z :=
  match n with
  | O => None
  | S n' => if f lo then Some lo else first_from n' (lo + 1) f
  end.

(** ** Automation *)

(** Case analysis on the boolean tests of the goal and the hypotheses. *)
Ltac bdes :=
  repeat match goal with
  | H : context [if ?b then _ else _] |- _ => destruct b eqn:?; simplify_eq
  | |- context [if ?b then _ else _] => destruct b eqn:?; simplify_eq
  end.

Ltac bdes_goal :=
  repeat match goal with
  | |- context [if ?b then _ else _] => destruct b eqn:?; simplify_eq
  end.

Ltac kunfold := autounfold with kconst in *.

(** Reads of a list view at constant offsets. *)
Ltac lbuf :=
  repeat match goal with
  | |- context [list_buf ?l ?i] =>
      let j := eval lazy beta iota delta [Z.add Pos.add Pos.add_carry Pos.succ] in i in
      let v := eval lazy beta iota zeta delta [list_buf nth app Z.to_nat Pos.to_nat Pos.iter_op
        Nat.add Z.leb Z.compare] in (list_buf l j) in
      lazymatch v with context [match _ with _ => _ end] => fail | _ => change (list_buf l i) with v end
  end.

(** Division and modulo by constants. *)
Ltac zdm := Z.div_mod_to_equations; lia.

(** Destructs the first [match] or [if] on a non-variable of a hypothesis. *)
Ltac mdes H :=
  repeat match type of H with
  | context [match ?x with _ => _ end] => destruct x eqn:?; simplify_eq/=
  end.

(** ** Lemmas: integers *)

Lemma wrap_small w x : 0 <= x < 2 ^ w -> wrap w x = x.
Proof. intros. by apply Z.mod_small. Qed.

Lemma wrap_range w x : 0 <= w -> 0 <= wrap w x < 2 ^ w.
Proof. intros. apply Z.mod_pos_bound. lia. Qed.

Lemma swrap_small w x : 0 < w -> - 2 ^ (w - 1) <= x < 2 ^ (w - 1) -> swrap w x = x.
Proof.
  intros Hw Hx. unfold swrap.
  assert (2 ^ w = 2 * 2 ^ (w - 1)) as E by (rewrite <- Z.pow_succ_r by lia; f_equal; lia).
  rewrite Z.mod_small by lia. lia.
Qed.

Lemma range_of_mod x n : 0 <= n -> x = x mod 2 ^ n -> 0 <= x < 2 ^ n.
Proof. intros ? ->. apply Z.mod_pos_bound. lia. Qed.

Lemma land_range_l a b n : 0 <= n -> 0 <= a < 2 ^ n -> 0 <= Z.land a b < 2 ^ n.
Proof.
  intros Hn Ha. apply range_of_mod; [done|]. rewrite <- Z.land_ones by done.
  rewrite <- Z.land_assoc, (Z.land_comm b), Z.land_assoc, Z.land_ones by done.
  by rewrite (Z.mod_small a) by done.
Qed.

Lemma lor_range a b n : 0 <= n -> 0 <= a < 2 ^ n -> 0 <= b < 2 ^ n -> 0 <= Z.lor a b < 2 ^ n.
Proof.
  intros Hn Ha Hb. apply range_of_mod; [done|]. rewrite <- Z.land_ones by done.
  rewrite Z.land_lor_distr_l, !Z.land_ones by done. by rewrite !Z.mod_small by done.
Qed.

(** A bitwise or of values with disjoint bits is their sum. *)
Lemma lor_add_disjoint a b n :
  0 <= n -> 0 <= b < 2 ^ n -> Z.lor (Z.shiftl a n) b = Z.shiftl a n + b.
Proof.
  intros Hn Hb. rewrite <- Z.lxor_lor.
  - rewrite <- Z.add_nocarry_lxor; [done|].
    apply Z.bits_inj'. intros i Hi. rewrite Z.land_spec, Z.bits_0, Z.shiftl_spec by lia.
    destruct (Z.ltb_spec i n).
    + by rewrite (Z.testbit_neg_r a) by lia.
    + rewrite <- (Z.mod_small b (2 ^ n)) by lia. rewrite Z.mod_pow2_bits_high by lia. by rewrite andb_comm.
  - apply Z.bits_inj'. intros i Hi. rewrite Z.land_spec, Z.bits_0, Z.shiftl_spec by lia.
    destruct (Z.ltb_spec i n).
    + by rewrite (Z.testbit_neg_r a) by lia.
    + rewrite <- (Z.mod_small b (2 ^ n)) by lia. rewrite Z.mod_pow2_bits_high by lia. by rewrite andb_comm.
Qed.

Lemma land_ones_mod a n : 0 <= n -> Z.land a (2 ^ n - 1) = a mod 2 ^ n.
Proof. intros. rewrite <- Z.land_ones by lia. by rewrite Z.ones_equiv. Qed.

Lemma land_ff x : Z.land x 0xff = x mod 256.
Proof. exact (land_ones_mod x 8 ltac:(lia)). Qed.

Lemma land_ff_range x : 0 <= Z.land x 0xff < 256.
Proof. rewrite land_ff. apply Z.mod_pos_bound. lia. Qed.

(** Words as sums of scaled bytes. *)
Lemma lor_bytes2 a b : 0 <= b < 256 -> Z.lor (Z.shiftl a 8) b = a * 256 + b.
Proof. intros. rewrite lor_add_disjoint, Z.shiftl_mul_pow2 by lia. lia. Qed.

Lemma lor_bytes3 a b c :
  0 <= b < 256 -> 0 <= c < 256 ->
  Z.lor (Z.lor (Z.shiftl a 16) (Z.shiftl b 8)) c = a * 65536 + b * 256 + c.
Proof.
  intros. rewrite <- Z.lor_assoc, lor_bytes2 by lia. rewrite lor_add_disjoint, Z.shiftl_mul_pow2 by lia.
  lia.
Qed.

Lemma lor_bytes4 a b c d :
  0 <= b < 256 -> 0 <= c < 256 -> 0 <= d < 256 ->
  Z.lor (Z.lor (Z.lor (Z.shiftl a 24) (Z.shiftl b 16)) (Z.shiftl c 8)) d
  = a * 16777216 + b * 65536 + c * 256 + d.
Proof.
  intros. rewrite <- !Z.lor_assoc, lor_bytes2 by lia.
  rewrite (lor_add_disjoint b), (Z.shiftl_mul_pow2 b) by lia.
  rewrite (lor_add_disjoint a), Z.shiftl_mul_pow2 by lia. lia.
Qed.

Lemma bswap32_spec x :
  bswap32 x = x mod 256 * 16777216 + x / 256 mod 256 * 65536 + x / 65536 mod 256 * 256
              + x / 16777216 mod 256.
Proof.
  unfold bswap32. rewrite !Z.shiftr_div_pow2 by lia. rewrite !Z.lor_assoc.
  rewrite lor_bytes4; [done|apply Z.mod_pos_bound; lia..].
Qed.

Lemma bswap16_spec x : bswap16 x = x mod 256 * 256 + x / 256 mod 256.
Proof.
  unfold bswap16. rewrite !Z.shiftr_div_pow2 by lia. apply lor_bytes2. apply Z.mod_pos_bound. lia.
Qed.

Lemma le_word_range l : is_bytes l -> 0 <= le_word l < 256 ^ zlen l.
Proof.
  induction l as [|b l IH]; intros Hl; [done|]. apply Forall_cons in Hl as [Hb Hl].
  specialize (IH Hl). unfold zlen in *. cbn [le_word length]. rewrite Nat2Z.inj_succ, Z.pow_succ_r by lia.
  lia.
Qed.

Lemma be_bytes_3 x : be_bytes 3 x = [x / 65536 mod 256; x / 256 mod 256; x mod 256].
Proof.
  unfold be_bytes, le_bytes. cbn -[Z.shiftr Z.modulo]. rewrite Z.shiftr_0_r.
  by rewrite !Z.shiftr_div_pow2 by lia.
Qed.

Lemma be_bytes_4 x :
  be_bytes 4 x = [x / 16777216 mod 256; x / 65536 mod 256; x / 256 mod 256; x mod 256].
Proof.
  unfold be_bytes, le_bytes. cbn -[Z.shiftr Z.modulo]. rewrite Z.shiftr_0_r.
  by rewrite !Z.shiftr_div_pow2 by lia.
Qed.

Lemma be_bytes_2 x : be_bytes 2 x = [x / 256 mod 256; x mod 256].
Proof.
  unfold be_bytes, le_bytes. cbn -[Z.shiftr Z.modulo]. rewrite Z.shiftr_0_r. by rewrite !Z.shiftr_div_pow2 by lia.
Qed.

(** Loading a big-endian word and swapping it gives its value back. *)
Lemma be32_le_word len : 0 <= len < 2 ^ 32 -> bswap32 (le_word (be_bytes 4 len)) = len.
Proof.
  intros Hl. rewrite be_bytes_4, bswap32_spec. cbn [le_word].
  set (a := len / 16777216 mod 256). set (b := len / 65536 mod 256). set (c := len / 256 mod 256). set (d := len mod 256).
  assert (len = a * 16777216 + b * 65536 + c * 256 + d) as E by (unfold a, b, c, d; zdm).
  assert (0 <= a < 256 /\ 0 <= b < 256 /\ 0 <= c < 256 /\ 0 <= d < 256) as (Ha & Hb & Hc & Hd)
    by (unfold a, b, c, d; split_and!; apply Z.mod_pos_bound; lia).
  clearbody a b c d. set (x := a + _). rewrite E.
  assert (x mod 256 = a) as -> by (unfold x; zdm). assert (x / 256 mod 256 = b) as -> by (unfold x; zdm).
  assert (x / 65536 mod 256 = c) as -> by (unfold x; zdm). assert (x / 16777216 mod 256 = d) as -> by (unfold x; zdm).
  lia.
Qed.

Lemma be16_le_word x : 0 <= x < 2 ^ 16 -> bswap16 (le_word (be_bytes 2 x)) = x.
Proof.
  intros Hx. rewrite be_bytes_2, bswap16_spec. cbn [le_word].
  set (a := x / 256 mod 256). set (b := x mod 256).
  assert (x = a * 256 + b) as E by (unfold a, b; zdm).
  assert (0 <= a < 256 /\ 0 <= b < 256) as [Ha Hb] by (unfold a, b; split; apply Z.mod_pos_bound; lia).
  clearbody a b. zdm.
Qed.

(** ** Lemmas: memory views *)

Lemma shift_shift p a b i : shift (shift p a) b i = shift p (a + b) i.
Proof. unfold shift. f_equal. lia. Qed.

Lemma shift_0 p i : shift p 0 i = p i.
Proof. done. Qed.

Lemma list_buf_nth l i : 0 <= i -> list_buf l i = nth (Z.to_nat i) l 0.
Proof. intros. unfold list_buf. bdes_goal; [done|lia]. Qed.

Lemma list_buf_app_l l1 l2 i : 0 <= i < zlen l1 -> list_buf (l1 ++ l2) i = list_buf l1 i.
Proof. unfold zlen. intros. rewrite !list_buf_nth by lia. apply app_nth1. lia. Qed.

Lemma list_buf_app_r l1 l2 i :
  0 <= i -> list_buf (l1 ++ l2) (zlen l1 + i) = list_buf l2 i.
Proof.
  unfold zlen. intros. rewrite !list_buf_nth by lia. rewrite app_nth2 by lia. f_equal. lia.
Qed.

Lemma list_buf_range l i : is_bytes l -> 0 <= list_buf l i < 256.
Proof.
  intros Hl. unfold list_buf. bdes_goal; [|lia].
  destruct (nth_in_or_default (Z.to_nat i) l 0) as [Hin| ->]; [|lia].
  unfold is_bytes in Hl. rewrite Forall_forall in Hl. apply Hl. by apply list_elem_of_In.
Qed.

Lemma take_buf_length p n : length (take_buf p n) = n.
Proof. unfold take_buf. by rewrite length_map, length_seq. Qed.

Lemma take_buf_S p n : take_buf p (S n) = p 0 :: take_buf (shift p 1) n.
Proof.
  unfold take_buf. simpl. f_equal. rewrite <- seq_shift, map_map. apply map_ext.
  intros. unfold shift. f_equal. lia.
Qed.

Lemma take_buf_ext p q n : agree (Z.of_nat n) p q -> take_buf p n = take_buf q n.
Proof.
  intros H. unfold take_buf. apply map_ext_in. intros i Hi%in_seq. apply H. lia.
Qed.

Lemma agree_shift n p q off k :
  agree n p q -> 0 <= off -> off + k <= n -> agree k (shift p off) (shift q off).
Proof. intros H ? ? i ?. apply H. lia. Qed.

Lemma agree_le n k p q : agree n p q -> k <= n -> agree k p q.
Proof. intros H ? i ?. apply H. lia. Qed.

Lemma mem_eqb_ext s p q : agree (zlen s) p q -> mem_eqb p s = mem_eqb q s.
Proof.
  revert p q. induction s as [|c s IH]; intros p q H; [done|]. simpl. unfold zlen in *. simpl in H.
  rewrite (H 0) by lia. f_equal. apply IH. eapply agree_shift; [exact H|lia|lia].
Qed.

Lemma mem_eqb_spec s p :
  mem_eqb p s = true <-> forall i, 0 <= i < zlen s -> p i = list_buf s i.
Proof.
  revert p. unfold zlen. induction s as [|c s IH]; intros p; simpl.
  - split; [intros _ i ?; lia|done].
  - rewrite andb_true_iff, IH, Z.eqb_eq. split.
    + intros [H0 H] i Hi. destruct (Z.eq_dec i 0) as [->|]; [done|].
      specialize (H (i - 1) ltac:(lia)). unfold shift in H. rewrite Zplus_minus in H. rewrite H.
      rewrite !list_buf_nth by lia. by replace (Z.to_nat i) with (S (Z.to_nat (i - 1))) by lia.
    + intros H. split; [apply (H 0); lia|]. intros i Hi. unfold shift. rewrite H by lia.
      rewrite !list_buf_nth by lia. by replace (Z.to_nat (1 + i)) with (S (Z.to_nat i)) by lia.
Qed.

Lemma mem_eqb_list_buf s l : mem_eqb (list_buf (s ++ l)) s = true.
Proof. apply mem_eqb_spec. intros. by apply list_buf_app_l. Qed.

(** ** Lemmas: probe reads *)

Lemma probe_read_length m n l : probe_read m n = Some l -> length l = n.
Proof.
  revert m l. induction n as [|n IH]; intros m l H; simpl in H; simplify_eq/=; [done|].
  mdes H. f_equal. by eapply IH.
Qed.

Lemma probe_read_ext n m m' : uagree (Z.of_nat n) m m' -> probe_read m n = probe_read m' n.
Proof.
  revert m m'. induction n as [|n IH]; intros m m' H; [done|]. simpl.
  rewrite (H 0) by lia. rewrite (IH (ushift m 1) (ushift m' 1)); [done|].
  intros a Ha. apply H. lia.
Qed.

Lemma probe_read0_ext n m m' : uagree (Z.of_nat n) m m' -> probe_read0 m n = probe_read0 m' n.
Proof. intros. unfold probe_read0. by erewrite probe_read_ext. Qed.

Lemma probe_read0_length m n : length (probe_read0 m n) = n.
Proof.
  unfold probe_read0. destruct (probe_read m n) eqn:E.
  - by eapply probe_read_length.
  - apply repeat_length.
Qed.

Lemma uagree_shift n m m' off k :
  uagree n m m' -> 0 <= off -> off + k <= n -> uagree k (ushift m off) (ushift m' off).
Proof. intros H ? ? a ?. apply H. lia. Qed.

Lemma uagree_le n k m m' : uagree n m m' -> k <= n -> uagree k m m'.
Proof. intros H ? a ?. apply H. lia. Qed.

Lemma probe_read_list l1 l2 : probe_read (list_umem (l1 ++ l2)) (length l1) = Some l1.
Proof.
  induction l1 as [|b l1 IH]; [done|]. simpl.
  rewrite (probe_read_ext _ _ (list_umem (l1 ++ l2))); [by rewrite IH|].
  intros a Ha. unfold ushift, list_umem. rewrite !(proj2 (Z.leb_le _ _)) by lia.
  by replace (Z.to_nat (1 + a)) with (S (Z.to_nat a)) by lia.
Qed.

Lemma zlen_app {A} (l1 l2 : list A) : zlen (l1 ++ l2) = zlen l1 + zlen l2.
Proof. unfold zlen. rewrite length_app. lia. Qed.

Lemma zlen_nonneg {A} (l : list A) : 0 <= zlen l.
Proof. unfold zlen. lia. Qed.

Lemma zlen_split {A} (l : list A) n : 0 <= n <= zlen l ->
  exists l1 l2, l = l1 ++ l2 /\ zlen l1 = n.
Proof.
  unfold zlen. intros. exists (take (Z.to_nat n) l), (drop (Z.to_nat n) l).
  rewrite take_drop, length_take. split; [done|lia].
Qed.

Lemma list_umem_shift l1 l2 n : uagree n (ushift (list_umem (l1 ++ l2)) (zlen l1)) (list_umem l2).
Proof.
  intros a Ha. unfold ushift, list_umem, zlen. rewrite !(proj2 (Z.leb_le 0 _)) by lia.
  rewrite nth_error_app2 by lia. f_equal. lia.
Qed.

Lemma probe_read_at l1 l2 l3 : probe_read (ushift (list_umem (l1 ++ l2 ++ l3)) (zlen l1)) (length l2) = Some l2.
Proof. erewrite probe_read_ext; [|apply list_umem_shift]. apply probe_read_list. Qed.

(** ** Lemmas: loops *)

Lemma bpf_loop_from_ext {St} n i (cb cb' : Z -> St -> St * bool) s :
  (forall j t, i <= j < i + Z.of_nat n -> cb j t = cb' j t) ->
  bpf_loop_from n i cb s = bpf_loop_from n i cb' s.
Proof.
  revert i s. induction n as [|n IH]; intros i s H; [done|]. simpl.
  rewrite <- H by lia. destruct (cb i s) as [s' []]; [done|]. apply IH. intros. apply H. lia.
Qed.

(** The invariant rule: a property of the index and the state that the callback preserves. *)
Lemma bpf_loop_from_inv {St} (P : Z -> St -> Prop) (Q : St -> Prop) n i cb s :
  P i s ->
  (forall j t, i <= j < i + Z.of_nat n -> P j t ->
     let '(t', stop) := cb j t in if stop : bool then Q t' else P (j + 1) t') ->
  (forall t, P (i + Z.of_nat n) t -> Q t) ->
  Q (bpf_loop_from n i cb s).
Proof.
  revert i s. induction n as [|n IH]; intros i s Hs Hstep Hend; simpl.
  - apply Hend. by rewrite Z.add_0_r.
  - pose proof (Hstep i s ltac:(lia) Hs) as H. destruct (cb i s) as [s' []]; [done|].
    apply IH; [done| |].
    + intros j t Hj. apply Hstep. lia.
    + intros t Ht. apply Hend. by replace (i + Z.of_nat (S n)) with (i + 1 + Z.of_nat n) by lia.
Qed.

Lemma first_from_ext n lo f g :
  (forall i, lo <= i < lo + Z.of_nat n -> f i = g i) -> first_from n lo f = first_from n lo g.
Proof.
  revert lo. induction n as [|n IH]; intros lo H; [done|]. simpl. rewrite <- H by lia.
  rewrite (IH (lo + 1)); [done|]. intros. apply H. lia.
Qed.

Lemma first_from_Some n lo f i :
  first_from n lo f = Some i <->
  lo <= i < lo + Z.of_nat n /\ f i = true /\ forall j, lo <= j < i -> f j = false.
Proof.
  revert lo. induction n as [|n IH]; intros lo; simpl.
  - split; [done|]. intros [? _]. lia.
  - destruct (f lo) eqn:E.
    + split.
      * intros [= <-]. split_and!; [lia|lia|done|]. intros. lia.
      * intros (? & Hi & Hlt). destruct (Z.eq_dec i lo) as [->|]; [done|].
        rewrite Hlt in E by lia. done.
    + rewrite IH. split; intros (? & Hi & Hlt).
      * split_and!; [lia|lia|done|]. intros j ?. destruct (Z.eq_dec j lo) as [->|]; [done|].
        apply Hlt. lia.
      * split_and!; [|lia|done|].
        { destruct (Z.eq_dec i lo) as [->|]; [congruence|lia]. }
        intros. apply Hlt. lia.
Qed.

Lemma first_from_None n lo f :
  first_from n lo f = None <-> forall j, lo <= j < lo + Z.of_nat n -> f j = false.
Proof.
  revert lo. induction n as [|n IH]; intros lo; simpl.
  - split; [intros; lia|done].
  - destruct (f lo) eqn:E; [split; [done|]|rewrite IH].
    + intros H. rewrite H in E by lia. done.
    + split; intros H j ?; [destruct (Z.eq_dec j lo) as [->|]; [done|]|]; apply H; lia.
Qed.

(** Every byte of a finite range, for proofs by exhaustive evaluation. *)
Definition zrange (n : nat) : list Z := map Z.of_nat (seq 0 n).

Lemma zrange_forallb n f : forallb f (zrange n) = true -> forall i, 0 <= i < Z.of_nat n -> f i = true.
Proof.
  intros H i Hi. rewrite forallb_forall in H. apply H. unfold zrange.
  apply in_map_iff. exists (Z.to_nat i). split; [lia|]. apply in_seq. lia.
Qed.

#[export] Hint Resolve agree_le uagree_le take_buf_length probe_read0_length : bytes.
#[export] Hint Rewrite take_buf_length probe_read0_length @length_app @repeat_length : bytes_rw.
