(* ===== verification/Float64.v ===== *)
(** * Software float64 subtraction ([bpf/common/float64.h]).

    eBPF has no floating point instructions; the Node.js tracer reads async ids, which V8 stores
    as float64, and subtracts them with this routine.  Values are the 64-bit patterns.  The file
    models every function of the header and shows that leading-zero counting is exact and that
    the subtraction is exact, with the right sign, on the integers a JavaScript number holds. *)

From Stdlib Require Import ZArith Lia ZifyBool List Bool.
From stdpp Require Import base list.
From S2P Require Import Prelude.

Local Open Scope Z_scope.

(** ** Definitions *)

Definition count_leading_zeros_high : list Z :=
  [8; 7] ++ repeat 6 2 ++ repeat 5 4 ++ repeat 4 8 ++ repeat 3 16 ++ repeat 2 32 ++ repeat 1 64
  ++ repeat 0 128.

(** [<<] and [>>] on u64: BPF masks the shift amount to six bits. *)
Definition shl64 (a n : Z) : Z := u64 (Z.shiftl a (n mod 64)).

Definition shr64 (a n : Z) : Z := Z.shiftr a (n mod 64).

Definition extract_float64_frac (a : Z) : Z := Z.land a 0xFFFFFFFFFFFFF.

Definition extract_float64_exp (a : Z) : Z := Z.land (shr64 a 52) 0x7FF.

Definition extract_float64_sign (a : Z) : Z := shr64 a 63.

Definition pack_float64 (z_sign z_exp z_sig : Z) : Z :=
  u64 (shl64 z_sign 63 + shl64 (u64 z_exp) 52 + z_sig).

Definition shift64_right_jamming (a count : Z) : Z :=
  if count =? 0 then a
  else if count <? 64 then
    Z.lor (shr64 a count) (b2z (nz (shl64 a (Z.land (- count) 63))))
  else b2z (nz a).

Definition count_leading_zeros32 (a : Z) : Z :=
  let '(shift_count, a) := if a <? 0x10000 then (16, u32 (Z.shiftl a 16)) else (0, a) in
  let '(shift_count, a) :=
    if a <? 0x1000000 then (u8 (shift_count + 8), u32 (Z.shiftl a 8)) else (shift_count, a) in
  u8 (shift_count + nth (Z.to_nat (Z.shiftr a 24)) count_leading_zeros_high 0).

Definition count_leading_zeros64 (a : Z) : Z :=
  let '(shift_count, a) :=
    if a <? shl64 1 32 then (32, a) else (0, shr64 a 32) in
  u8 (shift_count + count_leading_zeros32 (u32 a)).

Definition normalize_and_pack_float64 (z_sign z_exp z_sig : Z) : Z :=
  let shift_count := u8 (count_leading_zeros64 z_sig - 1) in
  let z_sig := shl64 z_sig shift_count in
  let z_sig := shr64 z_sig 10 in
  let z_exp := if z_sig =? 0 then 0 else z_exp in
  pack_float64 z_sign (z_exp - shift_count) z_sig.

(** The tail of [sub_float64] after the labels [b_bigger] and [a_bigger]. *)
Definition sub_b_bigger (a_sig b_sig b_exp z_sign : Z) : Z :=
  normalize_and_pack_float64 (Z.lxor z_sign 1) (b_exp - 1) (u64 (b_sig - a_sig)).

Definition sub_a_bigger (a_sig b_sig a_exp z_sign : Z) : Z :=
  normalize_and_pack_float64 z_sign (a_exp - 1) (u64 (a_sig - b_sig)).

Definition sub_float64 (a b z_sign : Z) : Z :=
  let a_sig := shl64 (extract_float64_frac a) 10 in
  let a_exp := extract_float64_exp a in
  let b_sig := shl64 (extract_float64_frac b) 10 in
  let b_exp := extract_float64_exp b in
  let exp_diff := a_exp - b_exp in
  if 0 <? exp_diff then
    (* a_exp_bigger *)
    if a_exp =? 0x7FF then if nz a_sig then u64 (-1) else a
    else
      let '(exp_diff, b_sig) :=
        if b_exp =? 0 then (exp_diff - 1, b_sig)
        else (exp_diff, Z.lor b_sig 0x4000000000000000) in
      let b_sig := shift64_right_jamming b_sig exp_diff in
      sub_a_bigger (Z.lor a_sig 0x4000000000000000) b_sig a_exp z_sign
  else if exp_diff <? 0 then
    (* b_exp_bigger *)
    if b_exp =? 0x7FF then
      if nz b_sig then u64 (-1) else pack_float64 (Z.lxor z_sign 1) 0x7FF 0
    else
      let '(exp_diff, a_sig) :=
        if a_exp =? 0 then (exp_diff + 1, a_sig)
        else (exp_diff, Z.lor a_sig 0x4000000000000000) in
      let a_sig := shift64_right_jamming a_sig (- exp_diff) in
      sub_b_bigger a_sig (Z.lor b_sig 0x4000000000000000) b_exp z_sign
  else if a_exp =? 0x7FF then u64 (-1)
  else
    let '(a_exp, b_exp) := if a_exp =? 0 then (1, 1) else (a_exp, b_exp) in
    if b_sig <? a_sig then sub_a_bigger a_sig b_sig a_exp z_sign
    else if a_sig <? b_sig then sub_b_bigger a_sig b_sig b_exp z_sign
    else pack_float64 0 0 0.

(** The IEEE 754 binary64 pattern of a natural number below 2^53. *)
Definition float64_of_int (n : Z) : Z :=
  if n =? 0 then 0
  else (1022 + Z.log2 n) * 2 ^ 52 + n * 2 ^ (52 - Z.log2 n).

(** The pattern of an integer of magnitude below 2^53: sign bit and magnitude. *)
Definition float64_of_sint (n : Z) : Z :=
  if 0 <=? n then float64_of_int n else 2 ^ 63 + float64_of_int (- n).

(** ** Counting leading zeroes *)

Lemma clz_table x :
  0 <= x < 256 ->
  nth (Z.to_nat x) count_leading_zeros_high 0 = if x =? 0 then 8 else 7 - Z.log2 x.
Proof.
  intros Hx. apply Z.eqb_eq.
  refine (zrange_forallb 256
    (fun x => nth (Z.to_nat x) count_leading_zeros_high 0 =? if x =? 0 then 8 else 7 - Z.log2 x)
    _ x Hx).
  by vm_compute.
Qed.

Lemma log2_shiftr_pos a n : 0 <= n -> 2 ^ n <= a -> Z.log2 (Z.shiftr a n) = Z.log2 a - n.
Proof.
  intros Hn Ha. rewrite Z.log2_shiftr by lia.
  assert (n <= Z.log2 a) by (apply Z.log2_le_pow2; lia). lia.
Qed.

Lemma shiftr_bound a n m : 0 <= n -> 0 <= m -> 0 <= a < 2 ^ (n + m) -> 0 <= Z.shiftr a n < 2 ^ m.
Proof.
  intros Hn Hm Ha. rewrite Z.shiftr_div_pow2 by lia. rewrite Z.pow_add_r in Ha by lia.
  split; [apply Z.div_pos; lia|]. apply Z.div_lt_upper_bound; lia.
Qed.

Lemma clz_top a : 0 < a < 2 ^ 32 -> 2 ^ 24 <= a ->
  nth (Z.to_nat (Z.shiftr a 24)) count_leading_zeros_high 0 = 31 - Z.log2 a.
Proof.
  intros Ha Hlo. pose proof (shiftr_bound a 24 8 ltac:(lia) ltac:(lia) ltac:(lia)).
  rewrite clz_table by lia. rewrite log2_shiftr_pos by lia.
  assert (0 < Z.shiftr a 24).
  { rewrite Z.shiftr_div_pow2 by lia. apply Z.div_str_pos. lia. }
  rewrite (proj2 (Z.eqb_neq _ _)) by lia. lia.
Qed.

Lemma log2_bounds a lo hi : 0 <= lo -> 2 ^ lo <= a < 2 ^ hi -> lo <= Z.log2 a < hi.
Proof.
  intros ? [? ?]. split; [apply Z.log2_le_pow2; lia|]. apply Z.log2_lt_pow2; lia.
Qed.

(** Scaling by a power of two into a range. *)
Lemma shiftl_range a k lo hi :
  0 <= k -> 0 <= lo -> 2 ^ lo <= a < 2 ^ hi -> k + hi <= 32 ->
  u32 (Z.shiftl a k) = a * 2 ^ k /\ 2 ^ (lo + k) <= a * 2 ^ k < 2 ^ (hi + k).
Proof.
  intros Hk Hlo [Ha Hb] Hhi.
  assert (0 < a) by (pose proof (Z.pow_pos_nonneg 2 lo); lia).
  assert (0 <= hi) by (destruct (Z.ltb_spec hi 0); [rewrite Z.pow_neg_r in Hb by lia; lia|lia]).
  pose proof (Z.pow_pos_nonneg 2 k). rewrite Z.shiftl_mul_pow2, !Z.pow_add_r by lia.
  assert (2 ^ hi * 2 ^ k <= 2 ^ 32) by (rewrite <- Z.pow_add_r by lia; apply Z.pow_le_mono_r; lia).
  split; [apply wrap_small|]; nia.
Qed.

Lemma count_leading_zeros32_spec a :
  0 <= a < 2 ^ 32 -> count_leading_zeros32 a = if a =? 0 then 32 else 31 - Z.log2 a.
Proof.
  intros Ha. destruct (Z.eqb_spec a 0) as [->|Hne]; [by vm_compute|].
  unfold count_leading_zeros32.
  destruct (Z.ltb_spec a 0x10000).
  - destruct (Z.ltb_spec a 256).
    + destruct (shiftl_range a 16 0 8) as [-> ?]; [lia..|].
      rewrite (proj2 (Z.ltb_lt _ _)) by lia. rewrite <- Z.mul_comm.
      assert (E : u32 (Z.shiftl (2 ^ 16 * a) 8) = a * 2 ^ 24).
      { rewrite Z.shiftl_mul_pow2 by lia. rewrite wrap_small by lia. lia. }
      rewrite E, clz_top by lia.
      rewrite Z.log2_mul_pow2 by lia. pose proof (log2_bounds a 0 8 ltac:(lia) ltac:(lia)).
      unfold wrap. rewrite (Z.mod_small (16 + 8)) by lia. rewrite Z.mod_small by lia. lia.
    + destruct (shiftl_range a 16 8 16) as [-> ?]; [lia..|].
      rewrite (proj2 (Z.ltb_ge _ _)) by lia. rewrite clz_top by lia.
      rewrite Z.log2_mul_pow2 by lia. pose proof (log2_bounds a 8 16 ltac:(lia) ltac:(lia)).
      unfold wrap. rewrite Z.mod_small by lia. lia.
  - destruct (Z.ltb_spec a 0x1000000).
    + destruct (shiftl_range a 8 16 24) as [-> ?]; [lia..|]. rewrite clz_top by lia.
      rewrite Z.log2_mul_pow2 by lia. pose proof (log2_bounds a 16 24 ltac:(lia) ltac:(lia)).
      unfold wrap. rewrite (Z.mod_small (0 + 8)) by lia. rewrite Z.mod_small by lia. lia.
    + rewrite clz_top by lia. pose proof (log2_bounds a 24 32 ltac:(lia) ltac:(lia)).
      unfold wrap. rewrite Z.mod_small by lia. lia.
Qed.

Lemma shr64_spec a n : 0 <= n < 64 -> shr64 a n = a / 2 ^ n.
Proof. intros. unfold shr64. rewrite Z.mod_small by lia. apply Z.shiftr_div_pow2. lia. Qed.

Lemma shl64_exact a n : 0 <= n < 64 -> 0 <= a * 2 ^ n < 2 ^ 64 -> shl64 a n = a * 2 ^ n.
Proof.
  intros. unfold shl64. rewrite (Z.mod_small n) by lia. rewrite Z.shiftl_mul_pow2 by lia.
  by apply wrap_small.
Qed.

Lemma clz64_spec a :
  0 <= a < 2 ^ 64 -> count_leading_zeros64 a = if a =? 0 then 64 else 63 - Z.log2 a.
Proof.
  intros Ha. unfold count_leading_zeros64. rewrite shl64_exact by lia.
  destruct (Z.ltb_spec a (1 * 2 ^ 32)).
  - rewrite (wrap_small 32) by lia. rewrite count_leading_zeros32_spec by lia.
    destruct (Z.eqb_spec a 0); [by vm_compute|].
    pose proof (log2_bounds a 0 32 ltac:(lia) ltac:(lia)).
    unfold wrap. rewrite Z.mod_small by lia. lia.
  - rewrite shr64_spec by lia.
    assert (0 < a / 2 ^ 32 < 2 ^ 32).
    { split; [apply Z.div_str_pos; lia|apply Z.div_lt_upper_bound; lia]. }
    rewrite (wrap_small 32), count_leading_zeros32_spec by lia.
    rewrite !(proj2 (Z.eqb_neq _ _)) by lia.
    rewrite <- Z.shiftr_div_pow2, log2_shiftr_pos by lia.
    pose proof (log2_bounds a 32 64 ltac:(lia) ltac:(lia)).
    unfold wrap. rewrite Z.mod_small by lia. lia.
Qed.

(** ** The encoding of integers *)

Section encoding.

Context (n : Z) (Hn : 0 < n < 2 ^ 53).

Lemma log2_int : 0 <= Z.log2 n <= 52.
Proof. pose proof (log2_bounds n 0 53 ltac:(lia) ltac:(lia)). lia. Qed.

(** The normalised significand of an integer: bit 52 set, nothing above it. *)
Lemma int_sig_range : 2 ^ 52 <= n * 2 ^ (52 - Z.log2 n) < 2 ^ 53.
Proof.
  pose proof log2_int. destruct (Z.log2_spec n) as [Hlo Hhi]; [lia|].
  pose proof (Z.pow_pos_nonneg 2 (52 - Z.log2 n) ltac:(lia) ltac:(lia)).
  replace (2 ^ 52) with (2 ^ Z.log2 n * 2 ^ (52 - Z.log2 n))
    by (rewrite <- Z.pow_add_r by lia; f_equal; lia).
  replace (2 ^ 53) with (2 ^ Z.succ (Z.log2 n) * 2 ^ (52 - Z.log2 n))
    by (rewrite <- Z.pow_add_r by lia; f_equal; lia).
  nia.
Qed.

Lemma float64_of_int_split :
  float64_of_int n = (1023 + Z.log2 n) * 2 ^ 52 + (n * 2 ^ (52 - Z.log2 n) - 2 ^ 52).
Proof. unfold float64_of_int. rewrite (proj2 (Z.eqb_neq _ _)) by lia. lia. Qed.

Lemma extract_frac_int :
  extract_float64_frac (float64_of_int n) = n * 2 ^ (52 - Z.log2 n) - 2 ^ 52.
Proof.
  pose proof int_sig_range. unfold extract_float64_frac.
  change 0xFFFFFFFFFFFFF with (2 ^ 52 - 1). rewrite land_ones_mod by lia.
  rewrite float64_of_int_split, Z.add_comm, Z.mod_add by lia. apply Z.mod_small. lia.
Qed.

Lemma extract_exp_int : extract_float64_exp (float64_of_int n) = 1023 + Z.log2 n.
Proof.
  pose proof int_sig_range. pose proof log2_int. unfold extract_float64_exp.
  rewrite shr64_spec by lia. change 0x7FF with (2 ^ 11 - 1). rewrite land_ones_mod by lia.
  rewrite float64_of_int_split, Z.add_comm, Z.div_add, Z.div_small by lia.
  apply Z.mod_small. lia.
Qed.

(** The 63-bit significand the subtraction works on. *)
Lemma sig63 : n * 2 ^ (62 - Z.log2 n) = n * 2 ^ (52 - Z.log2 n) * 2 ^ 10.
Proof.
  pose proof log2_int. rewrite <- Z.mul_assoc, <- Z.pow_add_r by lia. do 2 f_equal. lia.
Qed.

Lemma shl64_frac_int :
  shl64 (extract_float64_frac (float64_of_int n)) 10 = n * 2 ^ (62 - Z.log2 n) - 2 ^ 62.
Proof.
  pose proof int_sig_range. rewrite extract_frac_int, sig63.
  rewrite shl64_exact by lia. lia.
Qed.

Lemma lor_hidden_bit :
  Z.lor (shl64 (extract_float64_frac (float64_of_int n)) 10) 0x4000000000000000
  = n * 2 ^ (62 - Z.log2 n).
Proof.
  pose proof int_sig_range. rewrite shl64_frac_int, Z.lor_comm.
  change 0x4000000000000000 with (Z.shiftl 1 62).
  rewrite sig63, lor_add_disjoint by lia. rewrite Z.shiftl_mul_pow2 by lia. lia.
Qed.

End encoding.

Lemma extract_0 : extract_float64_frac (float64_of_int 0) = 0 /\ extract_float64_exp (float64_of_int 0) = 0.
Proof. by vm_compute. Qed.

(** A right shift that drops only zero bits has nothing to jam. *)
Lemma shift64_right_jamming_exact x d :
  0 <= d < 64 -> 0 <= x -> x * 2 ^ d < 2 ^ 64 -> shift64_right_jamming (x * 2 ^ d) d = x.
Proof.
  intros Hd Hx Hb. unfold shift64_right_jamming.
  destruct (Z.eqb_spec d 0) as [->|]; [lia|].
  rewrite (proj2 (Z.ltb_lt _ _)) by lia.
  pose proof (Z.pow_pos_nonneg 2 d ltac:(lia) ltac:(lia)).
  rewrite shr64_spec, Z.div_mul by lia.
  change 63 with (2 ^ 6 - 1). rewrite land_ones_mod by lia.
  replace (- d) with (64 - d + (-1) * 2 ^ 6) by lia.
  rewrite Z.mod_add, (Z.mod_small (64 - d)) by lia.
  assert (E : shl64 (x * 2 ^ d) (64 - d) = 0).
  { unfold shl64. rewrite Z.mod_small by lia. rewrite Z.shiftl_mul_pow2 by lia.
    rewrite <- Z.mul_assoc, <- Z.pow_add_r by lia. replace (d + (64 - d)) with 64 by lia.
    unfold wrap. apply Z.mod_mul. lia. }
  rewrite E. apply Z.lor_0_r.
Qed.

(** Normalisation rebuilds the pattern of [r] from any scaled significand [r * 2^(62-k)]. *)
Lemma normalize_int r k z_sign :
  0 < r < 2 ^ 53 -> Z.log2 r <= k <= 52 -> 0 <= z_sign <= 1 ->
  normalize_and_pack_float64 z_sign (1022 + k) (r * 2 ^ (62 - k))
  = z_sign * 2 ^ 63 + float64_of_int r.
Proof.
  intros Hr Hk Hs. pose proof (log2_int r Hr). pose proof (int_sig_range r Hr).
  assert (Hscale : r * 2 ^ (62 - k) * 2 ^ (k - Z.log2 r) = r * 2 ^ (62 - Z.log2 r)).
  { rewrite <- Z.mul_assoc, <- Z.pow_add_r by lia. do 2 f_equal. lia. }
  pose proof (sig63 r Hr).
  pose proof (Z.pow_pos_nonneg 2 (k - Z.log2 r) ltac:(lia) ltac:(lia)).
  pose proof (Z.pow_pos_nonneg 2 (62 - k) ltac:(lia) ltac:(lia)).
  assert (0 < r * 2 ^ (62 - k) < 2 ^ 63) by nia.
  unfold normalize_and_pack_float64. rewrite clz64_spec by lia.
  rewrite (proj2 (Z.eqb_neq (r * _) 0)) by lia. rewrite Z.log2_mul_pow2 by lia.
  replace (63 - (62 - k + Z.log2 r) - 1) with (k - Z.log2 r) by lia.
  rewrite (wrap_small 8) by lia. rewrite shl64_exact by lia.
  rewrite Hscale, shr64_spec by lia. rewrite H1, Z.div_mul by lia.
  rewrite (proj2 (Z.eqb_neq _ _)) by lia. replace (1022 + k - (k - Z.log2 r)) with (1022 + Z.log2 r) by lia.
  unfold pack_float64, float64_of_int. rewrite (proj2 (Z.eqb_neq r 0)) by lia.
  rewrite (wrap_small 64 (1022 + _)) by lia. rewrite !shl64_exact by lia.
  rewrite wrap_small by lia. lia.
Qed.

(** ** Exact subtraction *)

Lemma sub_a_bigger_int m n z_sign :
  0 <= n < m -> m < 2 ^ 53 -> 0 <= z_sign <= 1 ->
  normalize_and_pack_float64 z_sign (1023 + Z.log2 m - 1)
    (u64 (m * 2 ^ (62 - Z.log2 m) - n * 2 ^ (62 - Z.log2 m)))
  = z_sign * 2 ^ 63 + float64_of_int (m - n).
Proof.
  intros. pose proof (int_sig_range m ltac:(lia)). pose proof (sig63 m ltac:(lia)).
  pose proof (log2_int m ltac:(lia)).
  assert (Z.log2 (m - n) <= Z.log2 m) by (apply Z.log2_le_mono; lia).
  pose proof (Z.pow_pos_nonneg 2 (62 - Z.log2 m) ltac:(lia) ltac:(lia)).
  rewrite <- Z.mul_sub_distr_r. rewrite wrap_small by nia.
  replace (1023 + Z.log2 m - 1) with (1022 + Z.log2 m) by lia. apply normalize_int; lia.
Qed.

(** The smaller operand aligned to the larger exponent is exact: its shift drops zero bits only. *)
Lemma align_smaller m n :
  0 < n < 2 ^ 53 -> 0 < m < 2 ^ 53 -> Z.log2 n < Z.log2 m ->
  shift64_right_jamming (n * 2 ^ (62 - Z.log2 n)) (Z.log2 m - Z.log2 n)
  = n * 2 ^ (62 - Z.log2 m).
Proof.
  intros Hn Hm Hlt. pose proof (log2_int m Hm). pose proof (log2_int n Hn).
  pose proof (int_sig_range n Hn). pose proof (sig63 n Hn).
  assert (E : n * 2 ^ (62 - Z.log2 n) = n * 2 ^ (62 - Z.log2 m) * 2 ^ (Z.log2 m - Z.log2 n)).
  { rewrite <- Z.mul_assoc, <- Z.pow_add_r by lia. do 2 f_equal. lia. }
  rewrite E in *. pose proof (Z.pow_pos_nonneg 2 (62 - Z.log2 m) ltac:(lia) ltac:(lia)).
  apply shift64_right_jamming_exact; nia.
Qed.

(** Branch [a_bigger] reached with operand [m] the larger, [b_bigger] with [n] the larger. *)
Lemma sub_a_bigger_sint m n :
  0 <= n < m -> m < 2 ^ 53 ->
  sub_a_bigger (m * 2 ^ (62 - Z.log2 m)) (n * 2 ^ (62 - Z.log2 m)) (1023 + Z.log2 m) 0
  = float64_of_sint (m - n).
Proof.
  intros. unfold sub_a_bigger, float64_of_sint. rewrite sub_a_bigger_int by lia.
  rewrite (proj2 (Z.leb_le _ _)) by lia. lia.
Qed.

Lemma sub_b_bigger_sint m n :
  0 <= m < n -> n < 2 ^ 53 ->
  sub_b_bigger (m * 2 ^ (62 - Z.log2 n)) (n * 2 ^ (62 - Z.log2 n)) (1023 + Z.log2 n) 0
  = float64_of_sint (m - n).
Proof.
  intros. unfold sub_b_bigger, float64_of_sint. change (Z.lxor 0 1) with 1.
  rewrite sub_a_bigger_int by lia. rewrite (proj2 (Z.leb_gt _ _)) by lia.
  replace (- (m - n)) with (n - m) by lia. lia.
Qed.

(** The hidden bits of operands with equal exponents cancel. *)
Lemma sub_bigger_hidden x y k e s :
  sub_a_bigger (x - k) (y - k) e s = sub_a_bigger x y e s
  /\ sub_b_bigger (x - k) (y - k) e s = sub_b_bigger x y e s.
Proof. unfold sub_a_bigger, sub_b_bigger. split; do 2 f_equal; lia. Qed.

Lemma shift64_right_jamming_0 k : shift64_right_jamming (shl64 0 10) k = 0.
Proof.
  change (shl64 0 10) with 0. unfold shift64_right_jamming, shr64. rewrite Z.shiftr_0_l.
  unfold shl64. rewrite Z.shiftl_0_l. by destruct (k =? 0), (k <? 64).
Qed.

Lemma sub_float64_pos m n :
  0 < m < 2 ^ 53 -> 0 < n < 2 ^ 53 ->
  sub_float64 (float64_of_int m) (float64_of_int n) 0 = float64_of_sint (m - n).
Proof.
  intros Hm Hn. pose proof (log2_int m Hm). pose proof (log2_int n Hn). unfold sub_float64.
  rewrite !extract_exp_int, !lor_hidden_bit, !shl64_frac_int by done.
  rewrite !(proj2 (Z.eqb_neq (1023 + _) _)) by lia.
  replace (1023 + Z.log2 m - (1023 + Z.log2 n)) with (Z.log2 m - Z.log2 n) by lia.
  destruct (Z.ltb_spec 0 (Z.log2 m - Z.log2 n)).
  { rewrite align_smaller by lia. apply sub_a_bigger_sint; [|lia].
    split; [lia|]. apply Z.log2_lt_cancel. lia. }
  destruct (Z.ltb_spec (Z.log2 m - Z.log2 n) 0).
  { replace (- (Z.log2 m - Z.log2 n)) with (Z.log2 n - Z.log2 m) by lia.
    rewrite align_smaller by lia. apply sub_b_bigger_sint; [|lia].
    split; [lia|]. apply Z.log2_lt_cancel. lia. }
  assert (E : Z.log2 m = Z.log2 n) by lia.
  rewrite !(proj1 (sub_bigger_hidden _ _ _ _ _)), !(proj2 (sub_bigger_hidden _ _ _ _ _)), E.
  pose proof (Z.pow_pos_nonneg 2 (62 - Z.log2 n) ltac:(lia) ltac:(lia)).
  destruct (Z.ltb_spec (n * 2 ^ (62 - Z.log2 n) - 2 ^ 62) (m * 2 ^ (62 - Z.log2 n) - 2 ^ 62)).
  { rewrite <- E. apply sub_a_bigger_sint; nia. }
  destruct (Z.ltb_spec (m * 2 ^ (62 - Z.log2 n) - 2 ^ 62) (n * 2 ^ (62 - Z.log2 n) - 2 ^ 62)).
  { apply sub_b_bigger_sint; nia. }
  assert (m - n = 0) as -> by nia. vm_compute. reflexivity.
Qed.

Lemma sub_float64_0_r m :
  0 < m < 2 ^ 53 -> sub_float64 (float64_of_int m) (float64_of_int 0) 0 = float64_of_sint (m - 0).
Proof.
  intros Hm. pose proof (log2_int m Hm). unfold sub_float64. destruct extract_0 as [-> ->].
  rewrite !extract_exp_int, !lor_hidden_bit by done.
  rewrite (proj2 (Z.ltb_lt _ _)) by lia. rewrite (proj2 (Z.eqb_neq (1023 + _) _)) by lia.
  change (0 =? 0) with true. cbv iota. rewrite shift64_right_jamming_0.
  rewrite <- (Z.mul_0_l (2 ^ (62 - Z.log2 m))) at 1. apply sub_a_bigger_sint; lia.
Qed.

Lemma sub_float64_0_l n :
  0 < n < 2 ^ 53 -> sub_float64 (float64_of_int 0) (float64_of_int n) 0 = float64_of_sint (0 - n).
Proof.
  intros Hm. pose proof (log2_int n Hm). unfold sub_float64. destruct extract_0 as [-> ->].
  rewrite !extract_exp_int, !lor_hidden_bit by done.
  rewrite (proj2 (Z.ltb_ge _ _)) by lia. rewrite (proj2 (Z.ltb_lt _ _)) by lia.
  rewrite (proj2 (Z.eqb_neq (1023 + _) _)) by lia.
  change (0 =? 0) with true. cbv iota. rewrite shift64_right_jamming_0.
  rewrite <- (Z.mul_0_l (2 ^ (62 - Z.log2 n))) at 1. apply sub_b_bigger_sint; lia.
Qed.

(** Exact float64 subtraction.  On the patterns of any two natural numbers below 2^53, the
    integers every JavaScript number represents exactly, [sub_float64] returns the pattern of
    their exact difference, with the sign bit set when it is negative and the pattern of +0 when
    they are equal: neither the alignment shift nor the normalisation loses a bit. *)
Theorem sub_float64_exact m n :
  0 <= m < 2 ^ 53 -> 0 <= n < 2 ^ 53 ->
  sub_float64 (float64_of_int m) (float64_of_int n) 0 = float64_of_sint (m - n).
Proof.
  intros Hm Hn. destruct (Z.eq_dec m 0) as [->|], (Z.eq_dec n 0) as [->|].
  - vm_compute. reflexivity.
  - apply sub_float64_0_l. lia.
  - apply sub_float64_0_r. lia.
  - apply sub_float64_pos; lia.
Qed.

(** 43 - 41 = 2.0 and 41 - 43 = -2.0, as patterns. *)
Lemma sub_float64_exact_witness :
  sub_float64 0x4045800000000000 0x4044800000000000 0 = 0x4000000000000000
  /\ sub_float64 0x4044800000000000 0x4045800000000000 0 = 0xC000000000000000.
Proof.
  split.
  - exact (sub_float64_exact 43 41 ltac:(lia) ltac:(lia)).
  - exact (sub_float64_exact 41 43 ltac:(lia) ltac:(lia)).
Defined.
