(* ===== verification/TraceUtil.v ===== *)
(** * W3C traceparent text ([bpf/common/trace_util.h], [tp_info.h], [make_tp_string] of
      [tracing.h]).

    The hexadecimal codecs, the recognisers of a [Traceparent:] header in an HTTP/1 buffer, the
    two scans over such a buffer ([bpf_loop]-based and the bounded legacy one) and the printer of
    a traceparent value.  Offsets from the start of the buffer stand for the returned pointers,
    [None] for [NULL]. *)

From Stdlib Require Import ZArith Lia ZifyBool List Bool.
From stdpp Require Import base list.
From S2P Require Import Prelude.

Local Open Scope Z_scope.

(** ** Definitions *)

Definition TRACE_ID_SIZE_BYTES : Z := 16.
Definition SPAN_ID_SIZE_BYTES : Z := 8.
Definition TRACE_ID_CHAR_LEN : Z := 32.
Definition SPAN_ID_CHAR_LEN : Z := 16.
Definition TP_MAX_VAL_LENGTH : Z := 55.
Definition k_flag_sampled : Z := 1.
Definition TRACE_BUF_SIZE : Z := 1024.
Definition TRACE_PARENT_HEADER_LEN : Z := 68.
Definition k_tp_pos_not_found : Z := 0xFFFFFFFF.
Definition k_tp_max_scan_loops : Z := TRACE_BUF_SIZE - TRACE_PARENT_HEADER_LEN.
Definition k_besteffort_max_loops : Z := 350.

(** Offsets inside a traceparent value ([h2_defs.h]). *)
Definition k_tp_val_dash1 : Z := 2.
Definition k_tp_val_trace_id_start : Z := k_tp_val_dash1 + 1.
Definition k_tp_val_dash2 : Z := k_tp_val_trace_id_start + TRACE_ID_SIZE_BYTES * 2.
Definition k_tp_val_span_id_start : Z := k_tp_val_dash2 + 1.
Definition k_tp_val_dash3 : Z := k_tp_val_span_id_start + SPAN_ID_SIZE_BYTES * 2.
Definition k_tp_val_flags_start : Z := k_tp_val_dash3 + 1.

#[export] Hint Unfold TRACE_ID_SIZE_BYTES SPAN_ID_SIZE_BYTES TRACE_ID_CHAR_LEN SPAN_ID_CHAR_LEN
  TP_MAX_VAL_LENGTH k_flag_sampled TRACE_BUF_SIZE TRACE_PARENT_HEADER_LEN k_tp_pos_not_found
  k_tp_max_scan_loops k_besteffort_max_loops k_tp_val_dash1 k_tp_val_trace_id_start k_tp_val_dash2
  k_tp_val_span_id_start k_tp_val_dash3 k_tp_val_flags_start : kconst.

Record tp_info := mk_tp_info {
  trace_id : list Z;
  span_id : list Z;
  parent_id : list Z;
  ts : Z;
  flags : Z
}.

#[export] Instance tp_info_eq_dec : EqDecision tp_info.
Proof. solve_decision. Defined.

(** The struct's fixed sizes and value ranges. *)
Definition wf_tp (tp : tp_info) : Prop :=
  is_bytes (trace_id tp) /\ zlen (trace_id tp) = TRACE_ID_SIZE_BYTES /\
  is_bytes (span_id tp) /\ zlen (span_id tp) = SPAN_ID_SIZE_BYTES /\
  is_bytes (parent_id tp) /\ zlen (parent_id tp) = SPAN_ID_SIZE_BYTES /\
  0 <= ts tp < 2 ^ 64 /\ 0 <= flags tp < 256.

(** "0123456789abcdef" *)
Definition hex : list Z := [48; 49; 50; 51; 52; 53; 54; 55; 56; 57; 97; 98; 99; 100; 101; 102].

Definition reverse_hex : list Z :=
  repeat 0xff 48 ++ [0; 1; 2; 3; 4; 5; 6; 7; 8; 9] ++ repeat 0xff 6
  ++ [0xff; 10; 11; 12; 13; 14; 15] ++ repeat 0xff 9 ++ repeat 0xff 16
  ++ [0xff; 10; 11; 12; 13; 14; 15] ++ repeat 0xff 9 ++ repeat 0xff 16 ++ repeat 0xff 128.

(** The byte written for the characters [p] and [q]. *)
Definition decode_hex_pair (p q : Z) : Z :=
  let a := nth (Z.to_nat (Z.land p 0xff)) reverse_hex 0 in
  let b := nth (Z.to_nat (Z.land q 0xff)) reverse_hex 0 in
  let a := Z.land a 0x0f in
  let b := Z.land b 0x0f in
  Z.land (Z.lor (Z.shiftl a 4) b) 0xff.

Fixpoint decode_hex_loop (n : nat) (src : buf) : list Z :=
  match n with
  | O => []
  | S n' => decode_hex_pair (src 0) (src 1) :: decode_hex_loop n' (shift src 2)
  end.

(** The bytes stored to [dst]: one per pair of the [src_len] characters. *)
Definition decode_hex (src : buf) (src_len : Z) : list Z :=
  decode_hex_loop (Z.to_nat (src_len / 2)) src.

(** The characters stored to [dst], two per byte of [src]. *)
Fixpoint encode_hex (src : list Z) : list Z :=
  match src with
  | [] => []
  | p :: src' =>
      nth (Z.to_nat (Z.land (Z.shiftr p 4) 0xff)) hex 0 :: nth (Z.to_nat (Z.land p 0x0f)) hex 0
      :: encode_hex src'
  end.

Definition is_traceparent (p : buf) : bool :=
  ((p 0 =? 84 (* T *)) || (p 0 =? 116 (* t *))) && (p 1 =? 114 (* r *)) && (p 2 =? 97 (* a *))
  && (p 3 =? 99 (* c *)) && (p 4 =? 101 (* e *))
  && ((p 5 =? 112 (* p *)) || (p 5 =? 80 (* P *))) && (p 6 =? 97 (* a *)) && (p 7 =? 114 (* r *))
  && (p 8 =? 101 (* e *)) && (p 9 =? 110 (* n *)) && (p 10 =? 116 (* t *))
  && (p 11 =? 58 (* : *)) && (p 12 =? 32 (* space *)).

Definition is_eoh (p : buf) : bool :=
  (p 0 =? 13) && (p 1 =? 10) && (p 2 =? 13) && (p 3 =? 10).

Definition valid_traceparent (p : buf) : bool :=
  let val := shift p 13 in
  (val k_tp_val_dash1 =? 45) && (val k_tp_val_dash2 =? 45) && (val k_tp_val_dash3 =? 45).

(** [bpf_loop] callback: the state is [callback_ctx.pos]. *)
Definition tp_match (buf : buf) (index : Z) (pos : Z) : Z * bool :=
  if TRACE_BUF_SIZE - TRACE_PARENT_HEADER_LEN <=? index then (pos, true)
  else
    let s := shift buf index in
    if is_traceparent s && valid_traceparent s then (index, true) else (pos, false).

Definition traceparent_scan_loop_count (buf_len : Z) : Z :=
  if buf_len <? TRACE_PARENT_HEADER_LEN then 0
  else Z.min (u32 (buf_len - TRACE_PARENT_HEADER_LEN + 1)) k_tp_max_scan_loops.

Definition bpf_strstr_tp_loop (g_bpf_traceparent_enabled : bool) (buf : buf) (buf_len : Z)
    : option Z :=
  if negb g_bpf_traceparent_enabled then None
  else
    let nr_loops := traceparent_scan_loop_count buf_len in
    if nr_loops =? 0 then None
    else
      let pos := bpf_loop nr_loops (tp_match buf) k_tp_pos_not_found in
      if negb (pos =? k_tp_pos_not_found) then
        if TRACE_BUF_SIZE - TRACE_PARENT_HEADER_LEN <? pos then None else Some pos
      else None.

(** The inner loop of the legacy scan: is a byte of the value NUL? *)
Definition tp_value_has_nul (p : buf) : bool :=
  existsb (fun j => p (Z.of_nat j) =? 0) (seq 13 55).

(** The legacy scan from offset [i], with [n] iterations left. *)
Fixpoint tp_legacy_loop (n : nat) (buf : buf) (i : Z) : option Z :=
  match n with
  | O => None
  | S n' =>
      let p := shift buf i in
      if p 0 =? 0 then None
      else if is_traceparent p then
        if tp_value_has_nul p then None
        else if valid_traceparent p then Some i else None
      else tp_legacy_loop n' buf (i + 1)
  end.

Definition bpf_strstr_tp_loop__legacy (g_bpf_traceparent_enabled : bool) (buf : buf)
    (buf_len : Z) : option Z :=
  if negb g_bpf_traceparent_enabled then None
  else if buf_len <? TRACE_PARENT_HEADER_LEN then None
  else tp_legacy_loop (Z.to_nat k_besteffort_max_loops) buf 0.

(** The characters [make_tp_string] writes. *)
Definition make_tp_string (tp : tp_info) : list Z :=
  [48; 48; 45]
  ++ encode_hex (trace_id tp) ++ [45]
  ++ encode_hex (span_id tp) ++ [45]
  ++ [48; 48 + Z.land (flags tp) k_flag_sampled].

(** ** Hexadecimal *)

Lemma encode_hex_length l : length (encode_hex l) = (2 * length l)%nat.
Proof. induction l; simpl; lia. Qed.

(** The two characters written for each byte value decode to it. *)
Lemma decode_hex_pair_encode p :
  0 <= p < 256 ->
  decode_hex_pair (nth (Z.to_nat (Z.land (Z.shiftr p 4) 0xff)) hex 0)
    (nth (Z.to_nat (Z.land p 0x0f)) hex 0) = p.
Proof.
  intros Hp. apply Z.eqb_eq.
  refine (zrange_forallb 256 (fun p =>
    decode_hex_pair (nth (Z.to_nat (Z.land (Z.shiftr p 4) 0xff)) hex 0)
      (nth (Z.to_nat (Z.land p 0x0f)) hex 0) =? p) _ p Hp).
  by vm_compute.
Qed.

Lemma decode_hex_loop_ext n p q : agree (2 * Z.of_nat n) p q -> decode_hex_loop n p = decode_hex_loop n q.
Proof.
  revert p q. induction n as [|n IH]; intros p q H; [done|]. simpl.
  rewrite (H 0), (H 1) by lia. f_equal. apply IH. eapply agree_shift; [exact H|lia|lia].
Qed.

Lemma decode_hex_ext len p q : agree len p q -> decode_hex p len = decode_hex q len.
Proof.
  intros H. unfold decode_hex. destruct (Z.ltb_spec len 0).
  - rewrite Z2Nat.nonpos; [done|]. assert (len / 2 < 0); [|lia]. apply Z.div_lt_upper_bound; lia.
  - apply decode_hex_loop_ext. eapply agree_le; [exact H|].
    pose proof (Z.mul_div_le len 2). rewrite Z2Nat.id; [lia|]. apply Z.div_pos; lia.
Qed.

Lemma decode_hex_loop_encode l r :
  is_bytes l -> decode_hex_loop (length l) (list_buf (encode_hex l ++ r)) = l.
Proof.
  induction l as [|p l IH]; intros Hl; [done|]. apply Forall_cons in Hl as [Hp Hl].
  cbn [length decode_hex_loop encode_hex]. f_equal.
  - by apply decode_hex_pair_encode.
  - etrans; [|exact (IH Hl)]. apply decode_hex_loop_ext. intros i Hi. unfold shift.
    rewrite !list_buf_nth by lia.
    by replace (Z.to_nat (2 + i)) with (S (S (Z.to_nat i))) by lia.
Qed.

Lemma decode_hex_encode l r len :
  is_bytes l -> len = 2 * zlen l -> decode_hex (list_buf (encode_hex l ++ r)) len = l.
Proof.
  intros Hl ->. unfold decode_hex, zlen. rewrite Z.mul_comm, Z.div_mul, Nat2Z.id by lia.
  by apply decode_hex_loop_encode.
Qed.

Lemma decode_hex_length p len : 0 <= len -> length (decode_hex p len) = Z.to_nat (len / 2).
Proof.
  intros _. unfold decode_hex. generalize (Z.to_nat (len / 2)). intros n. revert p.
  induction n; intros; simpl; [done|]. f_equal. apply IHn.
Qed.

Lemma decode_hex_pair_range p q : 0 <= decode_hex_pair p q < 256.
Proof.
  apply land_ff_range.
Qed.

Lemma decode_hex_bytes p len : is_bytes (decode_hex p len).
Proof.
  unfold decode_hex, is_bytes. generalize (Z.to_nat (len / 2)). intros n. revert p.
  induction n; intros; simpl; constructor; [apply decode_hex_pair_range|apply IHn].
Qed.

(** ** The header scans *)

(** The per-offset test of both scans reads at most [TRACE_PARENT_HEADER_LEN] bytes. *)
Lemma is_traceparent_ext p q : agree 13 p q -> is_traceparent p = is_traceparent q.
Proof.
  intros H. unfold is_traceparent. by rewrite !(H 0), (H 1), (H 2), (H 3), (H 4), !(H 5), (H 6),
    (H 7), (H 8), (H 9), (H 10), (H 11), (H 12) by lia.
Qed.

Lemma valid_traceparent_ext p q :
  agree TRACE_PARENT_HEADER_LEN p q -> valid_traceparent p = valid_traceparent q.
Proof.
  intros H. unfold valid_traceparent, shift. kunfold. by rewrite !H by lia.
Qed.

Definition tp_at (b : buf) (i : Z) : bool :=
  is_traceparent (shift b i) && valid_traceparent (shift b i).

Lemma tp_loop_first b n i pos :
  0 <= i -> i + Z.of_nat n <= k_tp_max_scan_loops ->
  bpf_loop_from n i (tp_match b) pos
  = match first_from n i (tp_at b) with Some j => j | None => pos end.
Proof.
  revert i. induction n as [|n IH]; intros i Hi Hn; [done|]. simpl. unfold tp_match at 1.
  rewrite (proj2 (Z.leb_gt _ _)) by (kunfold; lia). fold (tp_at b i).
  destruct (tp_at b i); [done|]. apply IH; lia.
Qed.

Lemma scan_loop_count_spec len :
  0 <= len < 2 ^ 16 ->
  traceparent_scan_loop_count len = Z.max 0 (Z.min (len - 67) 956).
Proof.
  intros Hl. unfold traceparent_scan_loop_count. kunfold.
  destruct (Z.ltb_spec len 68); [lia|]. rewrite wrap_small; lia.
Qed.

Lemma bpf_strstr_tp_loop_first b len :
  0 <= len < 2 ^ 16 ->
  bpf_strstr_tp_loop true b len
  = first_from (Z.to_nat (traceparent_scan_loop_count len)) 0 (tp_at b).
Proof.
  intros Hl. pose proof (scan_loop_count_spec len Hl) as Hc. unfold bpf_strstr_tp_loop. cbn [negb].
  destruct (Z.eqb_spec (traceparent_scan_loop_count len) 0) as [->|Hne]; [done|].
  unfold bpf_loop. rewrite tp_loop_first by (kunfold; lia).
  destruct (first_from _ _ _) as [j|] eqn:E.
  - apply first_from_Some in E as (Hj & _). kunfold.
    rewrite (proj2 (Z.eqb_neq _ _)) by lia. cbn [negb]. by rewrite (proj2 (Z.ltb_ge _ _)) by lia.
  - by rewrite Z.eqb_refl.
Qed.

Lemma tp_value_has_nul_false p :
  tp_value_has_nul p = false <-> forall j, 13 <= j < 68 -> p j <> 0.
Proof.
  unfold tp_value_has_nul. split.
  - intros H j Hj. rewrite <- not_true_iff_false, existsb_exists in H.
    intros Hz. apply H. exists (Z.to_nat j). rewrite in_seq, Z2Nat.id by lia. lia.
  - intros H. rewrite <- not_true_iff_false, existsb_exists. intros (j & Hj%in_seq & Hz).
    apply (H (Z.of_nat j)); lia.
Qed.

Lemma tp_legacy_loop_Some b n i j :
  tp_legacy_loop n b i = Some j <->
  i <= j < i + Z.of_nat n /\ tp_at b j = true
  /\ (forall k, i <= k < j -> is_traceparent (shift b k) = false)
  /\ (forall k, i <= k <= j -> b k <> 0)
  /\ (forall k, 13 <= k < 68 -> b (j + k) <> 0).
Proof.
  revert i. induction n as [|n IH]; intros i; simpl; [split; [done|intros (? & _); lia]|].
  unfold tp_at in *. replace (shift b i 0) with (b i) by (unfold shift; f_equal; lia).
  destruct (Z.eqb_spec (b i) 0) as [Hz|Hz].
  { split; [done|]. intros (? & _ & _ & H & _). exfalso. apply (H i); [lia|done]. }
  destruct (is_traceparent (shift b i)) eqn:Ht.
  - assert (Hij : forall j, (forall k, i <= k < j -> is_traceparent (shift b k) = false) -> j <= i).
    { intros j' H. destruct (Z.leb_spec j' i); [done|]. rewrite H in Ht by lia. done. }
    destruct (tp_value_has_nul (shift b i)) eqn:Hn.
    + split; [done|]. intros (? & _ & Hf & _ & H). assert (j = i) as -> by (specialize (Hij j Hf); lia).
      rewrite <- not_false_iff_true, tp_value_has_nul_false in Hn. destruct Hn. intros k Hk.
      unfold shift. apply H. lia.
    + rewrite tp_value_has_nul_false in Hn. destruct (valid_traceparent (shift b i)) eqn:Hv; split.
      * intros [= <-]. rewrite Ht, Hv. split_and!; [lia|lia|done| | |].
        { intros. lia. } { intros k Hk. by assert (k = i) as -> by lia. }
        { intros k Hk. apply Hn. lia. }
      * intros (? & _ & Hf & _). f_equal. specialize (Hij j Hf). lia.
      * done.
      * intros (? & Ha & Hf & _). assert (j = i) as -> by (specialize (Hij j Hf); lia).
        rewrite Ht, Hv in Ha. done.
  - rewrite IH. split; intros (? & Ha & Hf & Hnz & Hv); split_and!; try lia; try done.
    + intros k Hk. destruct (Z.eq_dec k i) as [->|]; [done|]. apply Hf. lia.
    + intros k Hk. destruct (Z.eq_dec k i) as [->|]; [done|]. apply Hnz. lia.
    + destruct (Z.eq_dec i j) as [->|]; [by rewrite Ht in Ha|lia].
    + intros. apply Hf. lia.
    + intros. apply Hnz. lia.
Qed.

(** ** Properties *)

(** Hexadecimal round trip.  Decoding the characters [encode_hex] writes for a byte string,
    whatever follows them in memory, gives the byte string back. *)
Theorem encode_decode_hex l rest :
  is_bytes l -> decode_hex (list_buf (encode_hex l ++ rest)) (2 * zlen l) = l.
Proof. intros. by apply decode_hex_encode. Qed.

Lemma encode_decode_hex_witness :
  decode_hex (list_buf (encode_hex [0; 171; 255] ++ [45])) 6 = [0; 171; 255].
Proof. apply (encode_decode_hex [0; 171; 255] [45]). repeat constructor; lia. Defined.

(** The [bpf_loop] header scan.  [bpf_strstr_tp_loop] returns offset [i] exactly when a
    well-formed [Traceparent:] header starts there, the whole 68-byte header lies inside both
    the captured length and the scan window, and no earlier offset holds one. *)
Theorem bpf_strstr_tp_loop_spec b len i :
  0 <= len < 2 ^ 16 ->
  bpf_strstr_tp_loop true b len = Some i <->
  0 <= i /\ i + TRACE_PARENT_HEADER_LEN <= len /\ i + TRACE_PARENT_HEADER_LEN < TRACE_BUF_SIZE
  /\ is_traceparent (shift b i) = true /\ valid_traceparent (shift b i) = true
  /\ forall j, 0 <= j < i ->
       is_traceparent (shift b j) && valid_traceparent (shift b j) = false.
Proof.
  intros Hl. rewrite bpf_strstr_tp_loop_first, scan_loop_count_spec, first_from_Some by done.
  unfold tp_at. rewrite andb_true_iff. kunfold. split.
  - intros (Hi & [Ht Hv] & Hf). split_and!; try lia; try done. 
  - intros (? & ? & ? & Ht & Hv & Hf). split_and!; try lia; try done.
Qed.

(** "ab\r\nTraceparent: 00-4bf92f3577b34da6a3ce929d0e0e4736-00f067aa0ba902b7-01" *)
Definition example_tp_header : list Z :=
  [97; 98; 13; 10; 84; 114; 97; 99; 101; 112; 97; 114; 101; 110; 116; 58; 32; 48; 48; 45]
  ++ encode_hex [0x4b; 0xf9; 0x2f; 0x35; 0x77; 0xb3; 0x4d; 0xa6; 0xa3; 0xce; 0x92; 0x9d; 0x0e;
       0x0e; 0x47; 0x36] ++ [45]
  ++ encode_hex [0x00; 0xf0; 0x67; 0xaa; 0x0b; 0xa9; 0x02; 0xb7] ++ [45; 48; 49].

Lemma bpf_strstr_tp_loop_spec_witness :
  bpf_strstr_tp_loop true (list_buf example_tp_header) 72 = Some 4
  /\ valid_traceparent (shift (list_buf example_tp_header) 4) = true.
Proof.
  split; [by vm_compute|].
  by destruct (proj1 (bpf_strstr_tp_loop_spec (list_buf example_tp_header) 72 4
    ltac:(lia)) ltac:(by vm_compute)) as (_ & _ & _ & _ & H & _).
Defined.

(** The header scan stays in bounds.  Its result is a function of the captured bytes only:
    two memories that agree on the first [len] bytes, and on the [TRACE_BUF_SIZE] bytes of the
    buffer, give the same answer whatever lies beyond. *)
Theorem bpf_strstr_tp_loop_in_bounds enabled b b' len :
  0 <= len < 2 ^ 16 -> agree (Z.min len TRACE_BUF_SIZE) b b' ->
  bpf_strstr_tp_loop enabled b len = bpf_strstr_tp_loop enabled b' len.
Proof.
  intros Hl Ha. destruct enabled; [|done]. rewrite !bpf_strstr_tp_loop_first by done.
  apply first_from_ext. intros i Hi. pose proof (scan_loop_count_spec len Hl). unfold tp_at.
  assert (agree TRACE_PARENT_HEADER_LEN (shift b i) (shift b' i)) as Hs.
  { eapply agree_shift; [exact Ha|lia|kunfold; lia]. }
  rewrite (is_traceparent_ext _ (shift b' i)), (valid_traceparent_ext _ (shift b' i)); [done|done|].
  eapply agree_le; [exact Hs|kunfold; lia].
Qed.

Lemma bpf_strstr_tp_loop_in_bounds_witness :
  bpf_strstr_tp_loop true (list_buf (example_tp_header ++ [1; 2; 3])) 72
  = bpf_strstr_tp_loop true (list_buf example_tp_header) 72.
Proof.
  apply bpf_strstr_tp_loop_in_bounds; [lia|]. intros i Hi. apply list_buf_app_l.
  kunfold. change (zlen example_tp_header) with 72. lia.
Defined.

(** The legacy scan refines the full one.  On NUL-terminated text, any offset the bounded
    legacy scan returns is the one the [bpf_loop] scan returns; and the legacy scan finds every
    header that starts in its window, unless an earlier [Traceparent:] name hides it. *)
Theorem legacy_scan_refines_loop b len :
  0 <= len <= TRACE_BUF_SIZE - 1 -> (forall k, 0 <= k < len -> b k <> 0) -> b len = 0 ->
  (forall i, bpf_strstr_tp_loop__legacy true b len = Some i -> bpf_strstr_tp_loop true b len = Some i)
  /\ (forall i, bpf_strstr_tp_loop true b len = Some i -> i < k_besteffort_max_loops ->
        (forall j, 0 <= j < i -> is_traceparent (shift b j) = false) ->
        bpf_strstr_tp_loop__legacy true b len = Some i).
Proof.
  intros Hl Hnz Hz. kunfold. rewrite bpf_strstr_tp_loop_first, scan_loop_count_spec by lia.
  unfold bpf_strstr_tp_loop__legacy. cbn [negb]. kunfold. split; intros i.
  - destruct (Z.ltb_spec len 68); [done|]. rewrite tp_legacy_loop_Some, first_from_Some.
    intros (Hi & Ha & Hf & Hn & Hv).
    assert (i + 68 <= len).
    { destruct (Z.leb_spec (i + 68) len); [done|]. destruct (Z.leb_spec len i).
      - destruct (Hn len ltac:(lia) Hz).
      - destruct (Z.leb_spec (i + 13) len).
        + destruct (Hv (len - i) ltac:(lia)). by rewrite Zplus_minus.
        + exfalso. unfold tp_at, is_traceparent in Ha.
          rewrite !andb_true_iff in Ha. unfold shift in Ha. destruct_and!.
          assert (exists k, len = i + k /\ 0 < k < 13) as (k & Hk & Hk') by (exists (len - i); lia).
          assert (k = 1 \/ k = 2 \/ k = 3 \/ k = 4 \/ k = 5 \/ k = 6 \/ k = 7 \/ k = 8 \/ k = 9
            \/ k = 10 \/ k = 11 \/ k = 12) as HK by lia.
          rewrite Hk in Hz. destruct_or!; subst k; rewrite Hz in *; done. }
    split_and!; [lia|lia|done|]. intros j Hj. unfold tp_at. by rewrite Hf by lia.
  - rewrite first_from_Some. intros (Hi & Ha & _) Hw Hf. rewrite (proj2 (Z.ltb_ge _ _)) by lia.
    rewrite tp_legacy_loop_Some. split_and!; try lia; try done; intros; apply Hnz; lia.
Qed.

Lemma legacy_scan_refines_loop_witness :
  bpf_strstr_tp_loop true (list_buf example_tp_header) 72 = Some 4.
Proof.
  refine (proj1 (legacy_scan_refines_loop (list_buf example_tp_header) 72 _ _ eq_refl) 4 eq_refl).
  - kunfold. lia.
  - intros k Hk Hz.
    assert (H : forallb (fun k => negb (list_buf example_tp_header k =? 0)) (zrange 72) = true)
      by by vm_compute.
    pose proof (zrange_forallb 72 _ H k Hk) as Hb. cbv beta in Hb. by rewrite Hz in Hb.
Defined.
