(* ===== verification/Sampling.v ===== *)
(** * Trace contexts the injector creates ([bpf/common/sampling.h], [sampler.h],
      [trace_helpers.h], [tracing.h], [tp_info.h]).

    The sampling decision of a new trace, the validity tests of ids, and the random bytes the ids
    are made of.  [bpf_get_prandom_u32] is the function [rnd]: the value of the [k]-th call. *)

From Stdlib Require Import ZArith Lia ZifyBool List Bool.
From stdpp Require Import base list.
From S2P Require Import Prelude TraceUtil.

Local Open Scope Z_scope.

(** ** Definitions *)

Definition k_event_type_http_client : Z := 3.

#[export] Hint Unfold k_event_type_http_client : kconst.

Record tp_info_pid := mk_tp_info_pid {
  tpp_tp : tp_info;
  tpp_pid : Z;
  tpp_valid : Z;
  tpp_written : Z;
  tpp_req_type : Z;
  tpp_response_sent : Z
}.

#[export] Instance tp_info_pid_eq_dec : EqDecision tp_info_pid.
Proof. solve_decision. Defined.

Record sampler := mk_sampler { threshold : Z; parent_based : Z }.

(** A [u64] loaded through a pointer, on a little-endian machine. *)
Definition load_u64 (l : list Z) : Z := le_word (take 8 l).

Definition valid_span (span_id : list Z) : bool := nz (load_u64 span_id).

Definition valid_trace (trace_id : list Z) : bool :=
  nz (load_u64 trace_id) || nz (load_u64 (drop 8 trace_id)).

(** [bpf_be64_to_cpu]: the byte swap. *)
Definition be64_to_cpu (x : Z) : Z := le_word (rev (le_bytes 8 x)).

Definition trace_id_ratio_key (trace_id : list Z) : Z :=
  let low := load_u64 (drop (Z.to_nat (TRACE_ID_SIZE_BYTES - 8)) trace_id) in
  Z.shiftr (be64_to_cpu low) 1.

Definition sampler_decision (s : sampler) (tp : tp_info) : Z :=
  if trace_id_ratio_key (trace_id tp) <? threshold s then k_flag_sampled else 0.

Definition with_flags (tp : tp_info) (f : Z) : tp_info :=
  mk_tp_info (trace_id tp) (span_id tp) (parent_id tp) (ts tp) f.

(** The sampler is the one [sampler_for_pid] finds. *)
Definition sample_new_trace_for_pid (tp : tp_info) (s : option sampler) : tp_info :=
  with_flags tp (match s with Some s => sampler_decision s tp | None => k_flag_sampled end).

Definition sample_remote_child_for_pid (tp : tp_info) (s : option sampler) : tp_info :=
  match s with
  | None => tp
  | Some s =>
      if nz (parent_based s) then tp
      else with_flags tp (Z.lor (u8 (Z.land (flags tp) (Z.lnot k_flag_sampled))) (sampler_decision s tp))
  end.

(** The bytes written from the [k]-th random word on, and the words used. *)
Fixpoint urand_words (n : nat) (rnd : nat -> Z) (k : nat) : list Z :=
  match n with O => [] | S n' => le_bytes 4 (rnd k) ++ urand_words n' rnd (S k) end.

(** [size] is a multiple of four at every call. *)
Definition urand_bytes (rnd : nat -> Z) (k : nat) (size : Z) : list Z * nat :=
  let n := Z.to_nat (size / 4) in (urand_words n rnd k, (k + n)%nat).

(** ** Lemmas *)

Lemma le_bytes_length n x : length (le_bytes n x) = n.
Proof. unfold le_bytes. by rewrite length_map, length_seq. Qed.

Lemma le_bytes_bytes n x : is_bytes (le_bytes n x).
Proof.
  unfold is_bytes, le_bytes. apply Forall_map, Forall_forall. intros i _. apply Z.mod_pos_bound. lia.
Qed.

Lemma urand_words_length n rnd k : length (urand_words n rnd k) = (4 * n)%nat.
Proof.
  revert k. induction n as [|n IH]; intros k; [done|]. cbn [urand_words].
  rewrite length_app, le_bytes_length, IH. lia.
Qed.

Lemma urand_words_bytes n rnd k : is_bytes (urand_words n rnd k).
Proof.
  revert k. induction n as [|n IH]; intros k; [constructor|]. cbn [urand_words].
  apply Forall_app. split; [apply le_bytes_bytes|apply IH].
Qed.

Lemma le_word_le_bytes l : is_bytes l -> le_bytes (length l) (le_word l) = l.
Proof.
  induction l as [|b l IH]; intros Hb; [done|]. apply Forall_cons in Hb as [Hb0 Hb]. unfold le_bytes in *.
  cbn [length le_word]. rewrite <- cons_seq, <- seq_shift. cbn [map]. rewrite map_map. f_equal.
  - rewrite Z.shiftr_0_r, (Z.mul_comm 256), Z_mod_plus_full. by apply Z.mod_small.
  - rewrite <- IH at 2 by done. apply map_ext. intros i.
    replace (8 * Z.of_nat (S i)) with (8 + 8 * Z.of_nat i) by lia.
    rewrite <- Z.shiftr_shiftr by lia. f_equal. f_equal. rewrite Z.shiftr_div_pow2 by lia.
    change (2 ^ 8) with 256. rewrite (Z.mul_comm 256), Z.div_add, Z.div_small by lia. lia.
Qed.

Lemma le_word_zero l : is_bytes l -> le_word l = 0 -> l = repeat 0 (length l).
Proof.
  induction l as [|b l IH]; intros Hb Hz; [done|]. apply Forall_cons in Hb as [Hb0 Hb].
  pose proof (le_word_range l Hb). cbn [le_word length repeat] in *. f_equal; [lia|]. apply IH; [done|lia].
Qed.

Lemma le_word_repeat n : le_word (repeat 0 n) = 0.
Proof. induction n as [|n IH]; [done|]. cbn [repeat le_word]. lia. Qed.

(** The ratio key is half of the big-endian value of the last eight octets. *)
Lemma ratio_key_spec id :
  is_bytes id -> length id = 16%nat ->
  trace_id_ratio_key id = le_word (rev (drop 8 id)) / 2 /\ 0 <= trace_id_ratio_key id < 2 ^ 63.
Proof.
  intros Hb Hl. unfold trace_id_ratio_key, load_u64, be64_to_cpu.
  change (Z.to_nat (TRACE_ID_SIZE_BYTES - 8)) with 8%nat.
  assert (Hd : is_bytes (drop 8 id)) by by apply Forall_drop.
  assert (Hn : length (drop 8 id) = 8%nat) by (rewrite length_drop; lia).
  pose proof (le_word_le_bytes _ Hd) as E. rewrite Hn in E. rewrite take_ge, E by lia.
  rewrite Z.shiftr_div_pow2 by lia. change (2 ^ 1) with 2. split; [done|].
  assert (Hr : is_bytes (rev (drop 8 id))) by by apply Forall_rev.
  pose proof (le_word_range _ Hr) as Hrange. unfold zlen in Hrange. rewrite length_rev, Hn in Hrange.
  change (256 ^ Z.of_nat 8) with (2 * 2 ^ 63) in Hrange.
  split; [apply Z.div_pos; lia|apply Z.div_lt_upper_bound; lia].
Qed.

Lemma sampled_bit0 f b :
  0 <= f < 256 -> (b = 0 \/ b = 1) ->
  let r := Z.lor (u8 (Z.land f (Z.lnot k_flag_sampled))) b in
  Z.testbit r 0 = (b =? 1) /\ forall i, i <> 0 -> Z.testbit r i = Z.testbit f i.
Proof.
  intros Hf Hb r. subst r.
  assert (E : Z.land f (Z.lnot k_flag_sampled) mod 2 ^ 8 = Z.land f (Z.lnot k_flag_sampled)).
  { apply Z.mod_small. rewrite <- Z.ldiff_land. change k_flag_sampled with (Z.ones 1).
    rewrite Z.ldiff_ones_r, Z.shiftl_mul_pow2, Z.shiftr_div_pow2 by lia.
    change (2 ^ 1) with 2. change (2 ^ 8) with 256.
    pose proof (Z.mul_div_le f 2). pose proof (Z.div_pos f 2). lia. }
  unfold wrap. rewrite E. split.
  - rewrite Z.lor_spec, Z.land_spec, Z.lnot_spec by lia.
    destruct Hb as [-> | ->]; cbn; by rewrite andb_false_r.
  - intros i Hi. rewrite Z.lor_spec, Z.land_spec.
    destruct (Z.neg_nonneg_cases i) as [Hneg|Hpos]; [by rewrite !Z.testbit_neg_r|].
    rewrite Z.lnot_spec by lia. unfold k_flag_sampled.
    assert (H1 : Z.testbit 1 i = false) by (apply Z.bits_above_log2; [lia|cbn; lia]).
    rewrite H1, andb_true_r. destruct Hb as [-> | ->]; [by rewrite Z.bits_0, orb_false_r|].
    by rewrite H1, orb_false_r.
Qed.

(** ** Properties *)

(** Sampling follows the trace-id ratio and touches nothing else.  For a 16-octet trace id a new
    trace is sampled exactly when half the big-endian value of the last eight octets is below the
    process's threshold, so a threshold of 0 samples nothing and one of 2^63 everything, and a
    process without a sampler always samples; a child of a remote parent keeps the parent's
    decision under a parent-based sampler and otherwise has only bit 0 of its flags replaced. *)
Theorem sampling_follows_ratio tp s :
  is_bytes (trace_id tp) -> length (trace_id tp) = 16%nat -> 0 <= flags tp < 256 ->
  let key := le_word (rev (drop 8 (trace_id tp))) / 2 in
  flags (sample_new_trace_for_pid tp (Some s)) = b2z (key <? threshold s)
  /\ flags (sample_new_trace_for_pid tp None) = k_flag_sampled
  /\ (threshold s = 0 -> flags (sample_new_trace_for_pid tp (Some s)) = 0)
  /\ (threshold s = 2 ^ 63 -> flags (sample_new_trace_for_pid tp (Some s)) = k_flag_sampled)
  /\ (parent_based s <> 0 -> sample_remote_child_for_pid tp (Some s) = tp)
  /\ (parent_based s = 0 ->
      Z.testbit (flags (sample_remote_child_for_pid tp (Some s))) 0 = (key <? threshold s)
      /\ forall i, i <> 0 ->
           Z.testbit (flags (sample_remote_child_for_pid tp (Some s))) i = Z.testbit (flags tp) i).
Proof.
  intros Hb Hl Hf key. destruct (ratio_key_spec _ Hb Hl) as [Hk Hr]. fold key in Hk.
  assert (Hd : sampler_decision s tp = b2z (key <? threshold s))
    by (unfold sampler_decision; rewrite Hk; by destruct (_ <? _)).
  unfold sample_new_trace_for_pid, sample_remote_child_for_pid. cbn [with_flags flags]. rewrite Hd.
  split_and!; [done|done|..].
  - intros ->. by rewrite (proj2 (Z.ltb_ge _ _)) by lia.
  - intros ->. by rewrite (proj2 (Z.ltb_lt _ _)) by lia.
  - intros Hp. unfold nz. by rewrite (proj2 (Z.eqb_neq _ _) Hp).
  - intros ->. cbn [nz Z.eqb negb with_flags flags].
    destruct (sampled_bit0 (flags tp) (b2z (key <? threshold s)) Hf) as [H0 Hi];
      [destruct (_ <? _); [by right|by left]|].
    split; [|done]. rewrite H0. by destruct (key <? threshold s).
Qed.

Lemma sampling_follows_ratio_witness :
  let tp := mk_tp_info (repeat 0 8 ++ [64] ++ repeat 0 7) (repeat 1 8) (repeat 0 8) 0 0 in
  flags (sample_new_trace_for_pid tp (Some (mk_sampler (2 ^ 61) 1))) = 0
  /\ flags (sample_new_trace_for_pid tp (Some (mk_sampler (2 ^ 61 + 1) 1))) = 1.
Proof.
  cbv zeta. split;
    [etrans; [exact (proj1 (sampling_follows_ratio (mk_tp_info (repeat 0 8 ++ [64] ++ repeat 0 7) (repeat 1 8) (repeat 0 8) 0 0)
       (mk_sampler (2 ^ 61) 1) ltac:(by repeat constructor) eq_refl ltac:(done)))|by vm_compute]
    |etrans; [exact (proj1 (sampling_follows_ratio (mk_tp_info (repeat 0 8 ++ [64] ++ repeat 0 7) (repeat 1 8) (repeat 0 8) 0 0)
       (mk_sampler (2 ^ 61 + 1) 1) ltac:(by repeat constructor) eq_refl ltac:(done)))|by vm_compute]].
Defined.
