(* ===== verification/H2Defs.v ===== *)
(** * HTTP/2 framing and HPACK rules ([bpf/common/h2_defs.h]).

    The constants of the header, the classification of the first byte of an HPACK block, the
    skipping of dynamic table size updates, and the frame rules of the mid-stream sniffer. *)

From Stdlib Require Import ZArith Lia ZifyBool List Bool.
From stdpp Require Import base list.
From S2P Require Import Prelude TraceUtil.

Local Open Scope Z_scope.

(** ** Constants *)

Definition k_h2_preface_len : Z := 24.
Definition k_h2_preface_check_len : Z := 4.
Definition k_h2_max_frames_per_packet : Z := 4.
Definition k_h2_max_tp_retries : Z := 2.
Definition k_h2_frame_header_len : Z := 9.
Definition k_h2_frame_data : Z := 0.
Definition k_h2_frame_headers : Z := 1.
Definition k_h2_frame_priority : Z := 2.
Definition k_h2_frame_rst_stream : Z := 3.
Definition k_h2_frame_settings : Z := 4.
Definition k_h2_frame_push_promise : Z := 5.
Definition k_h2_frame_ping : Z := 6.
Definition k_h2_frame_goaway : Z := 7.
Definition k_h2_frame_window_update : Z := 8.
Definition k_h2_frame_continuation : Z := 9.
Definition k_h2_flag_end_stream : Z := 1.
Definition k_h2_flag_ack : Z := 1.
Definition k_h2_flag_end_headers : Z := 4.
Definition k_h2_flag_padded : Z := 8.
Definition k_h2_flag_priority : Z := 0x20.
Definition k_h2_priority_prefix_len : Z := 5.
Definition k_h2_max_frame_len : Z := 65535.
Definition k_h2_max_frame_scan : Z := 4.
Definition k_h2_reserved_bit_mask : Z := 0x80.
Definition k_h2_priority_payload_len : Z := 5.
Definition k_h2_rst_stream_payload_len : Z := 4.
Definition k_h2_settings_entry_len : Z := 6.
Definition k_h2_ping_payload_len : Z := 8.
Definition k_h2_goaway_min_payload_len : Z := 8.
Definition k_h2_window_update_payload_len : Z := 4.
Definition k_h2_push_promise_min_payload_len : Z := 4.
Definition k_h2_max_extension_frame : Z := 0x1f.
Definition k_h2_sniff_max_frames : Z := 8.
Definition k_h2_max_hpack_scan : Z := 256.
Definition k_h2_default_max_frame_size : Z := 16384.
Definition k_hpack_literal_no_index : Z := 0.
Definition k_hpack_literal_never_index : Z := 0x10.
Definition k_hpack_literal_incr_index : Z := 0x40.
Definition k_hpack_size_update : Z := 0x20.
Definition k_hpack_size_update_mask : Z := 0xe0.
Definition k_hpack_int_prefix5 : Z := 0x1f.
Definition k_hpack_int_more : Z := 0x80.
Definition k_hpack_int_max_octets : Z := 5.
Definition k_hpack_huffman_flag : Z := 0x80.
Definition k_h2_hpack_opener_window : Z := 16.
Definition k_h2_hpack_opener_mask : Z := k_h2_hpack_opener_window - 1.
Definition k_hpack_tp_name_len : Z := 11.
Definition k_hpack_tp_name_huffman_len : Z := 8.
Definition k_hpack_tp_name_offset : Z := 2.
Definition k_hpack_value_len_tp : Z := k_tp_val_dash3 + 3.
Definition k_hpack_tp_val_offset : Z := k_hpack_tp_name_offset + k_hpack_tp_name_len + 1.
Definition k_hpack_tp_val_offset_huffman : Z :=
  k_hpack_tp_name_offset + k_hpack_tp_name_huffman_len + 1.
Definition k_kprobes_http2_buf_size : Z := 256.
Definition k_hpack_tp_max_scan : Z := 256 - k_h2_frame_header_len.
Definition k_h2_tp_hpack_size : Z := k_hpack_tp_val_offset + k_hpack_value_len_tp.
Definition k_h2_tp_hpack_huffman_size : Z := k_hpack_tp_val_offset_huffman + k_hpack_value_len_tp.

#[export] Hint Unfold k_h2_preface_len k_h2_preface_check_len k_h2_max_frames_per_packet
  k_h2_max_tp_retries k_h2_frame_header_len k_h2_frame_data k_h2_frame_headers k_h2_frame_priority
  k_h2_frame_rst_stream k_h2_frame_settings k_h2_frame_push_promise k_h2_frame_ping
  k_h2_frame_goaway k_h2_frame_window_update k_h2_frame_continuation k_h2_flag_end_stream
  k_h2_flag_ack k_h2_flag_end_headers k_h2_flag_padded k_h2_flag_priority k_h2_priority_prefix_len
  k_h2_max_frame_len k_h2_max_frame_scan k_h2_reserved_bit_mask k_h2_priority_payload_len
  k_h2_rst_stream_payload_len k_h2_settings_entry_len k_h2_ping_payload_len
  k_h2_goaway_min_payload_len k_h2_window_update_payload_len k_h2_push_promise_min_payload_len
  k_h2_max_extension_frame k_h2_sniff_max_frames k_h2_max_hpack_scan k_h2_default_max_frame_size
  k_hpack_literal_no_index k_hpack_literal_never_index k_hpack_literal_incr_index
  k_hpack_size_update k_hpack_size_update_mask k_hpack_int_prefix5 k_hpack_int_more
  k_hpack_int_max_octets k_hpack_huffman_flag k_h2_hpack_opener_window k_h2_hpack_opener_mask
  k_hpack_tp_name_len k_hpack_tp_name_huffman_len k_hpack_tp_name_offset k_hpack_value_len_tp
  k_hpack_tp_val_offset k_hpack_tp_val_offset_huffman k_kprobes_http2_buf_size k_hpack_tp_max_scan
  k_h2_tp_hpack_size k_h2_tp_hpack_huffman_size : kconst.

(** "traceparent" *)
Definition k_hpack_tp_name : list Z := [116; 114; 97; 99; 101; 112; 97; 114; 101; 110; 116].

Definition k_hpack_tp_huffman : list Z := [0x4d; 0x83; 0x21; 0x6b; 0x1d; 0x85; 0xa9; 0x3f].

(** ** HPACK block openers *)

Definition h2_hpack_prefix_len (flags : Z) : Z :=
  (if nz (Z.land flags k_h2_flag_padded) then 1 else 0)
  + (if nz (Z.land flags k_h2_flag_priority) then k_h2_priority_prefix_len else 0).

Definition h2_hpack_is_literal (b : Z) : bool :=
  (b =? k_hpack_literal_no_index) || (b =? k_hpack_literal_never_index)
  || (b =? k_hpack_literal_incr_index).

Definition h2_hpack_is_size_update (b : Z) : bool :=
  Z.land b k_hpack_size_update_mask =? k_hpack_size_update.

(** The [while] of [h2_hpack_size_update_len], [fuel] bounding its iterations. *)
Fixpoint size_update_octets (fuel : nat) (w : buf) (i have octets : Z) : Z :=
  match fuel with
  | O => octets
  | S fuel' =>
      if (octets <? k_hpack_int_max_octets) && (i + octets <? have)
         && nz (Z.land (w (Z.land (i + octets) k_h2_hpack_opener_mask)) k_hpack_int_more)
      then size_update_octets fuel' w i have (octets + 1)
      else octets
  end.

Definition h2_hpack_size_update_len (w : buf) (i have : Z) : Z :=
  let prefix := w (Z.land i k_h2_hpack_opener_mask) in
  if negb (Z.land prefix k_hpack_int_prefix5 =? k_hpack_int_prefix5) then 1
  else 1 + size_update_octets (Z.to_nat k_hpack_int_max_octets) w i have 1.

Definition h2_hpack_skip_size_updates (w : buf) (have : Z) : Z :=
  let i := 0 in
  let i :=
    if (i <? have) && h2_hpack_is_size_update (w (Z.land i k_h2_hpack_opener_mask))
    then i + h2_hpack_size_update_len w i have else i in
  if (i <? have) && h2_hpack_is_size_update (w (Z.land i k_h2_hpack_opener_mask))
  then i + h2_hpack_size_update_len w i have else i.

Definition h2_hpack_opens_request (b : Z) : bool :=
  if nz (Z.land b 0x80) then
    let idx := u8 (Z.land b (Z.lnot 0x80)) in
    ((1 <=? idx) && (idx <=? 7)) || (62 <=? idx)
  else
    let mask := Z.lor k_hpack_literal_incr_index k_hpack_literal_never_index in
    let idx := u8 (Z.land b (Z.lnot mask)) in
    let form := u8 (Z.land b mask) in
    if (idx <? 1) || (7 <? idx) then false
    else (form =? k_hpack_literal_incr_index) || (form =? k_hpack_literal_never_index)
         || (form =? k_hpack_literal_no_index).

Definition h2_hpack_opens_response (b : Z) : bool :=
  if nz (Z.land b 0x80) then
    let idx := u8 (Z.land b (Z.lnot 0x80)) in
    (8 <=? idx) && (idx <=? 14)
  else
    let mask := Z.lor k_hpack_literal_incr_index k_hpack_literal_never_index in
    let idx := u8 (Z.land b (Z.lnot mask)) in
    let form := u8 (Z.land b mask) in
    if (idx <? 8) || (14 <? idx) then false
    else (form =? k_hpack_literal_incr_index) || (form =? k_hpack_literal_never_index)
         || (form =? k_hpack_literal_no_index).

(** ** The frame rules of the sniffer *)

Record h2_sniff_state := mk_sniff {
  continuation_stream : Z;
  seen_headers : bool;
  expect_continuation : bool
}.

Definition sniff_init : h2_sniff_state := mk_sniff 0 false false.

(** Does [flags] set a bit outside [allowed]? *)
Definition has_other_flags (flags allowed : Z) : bool := nz (Z.land flags (Z.lnot allowed)).

(** [None] is the rejecting return; the state is only written on acceptance. *)
Definition h2_sniff_check_frame (st : h2_sniff_state) (length type flags r_bit stream_id : Z)
    : option h2_sniff_state :=
  if (k_h2_max_frame_len <? length) || nz r_bit then None
  else if (if expect_continuation st
           then negb (type =? k_h2_frame_continuation)
                || negb (stream_id =? continuation_stream st)
           else type =? k_h2_frame_continuation)
  then None
  else
    let end_headers := nz (Z.land flags k_h2_flag_end_headers) in
    if type =? k_h2_frame_data then
      if has_other_flags flags (Z.lor k_h2_flag_end_stream k_h2_flag_padded) || (stream_id =? 0)
         || ((length =? 0) && negb (nz (Z.land flags k_h2_flag_end_stream)))
      then None else Some st
    else if type =? k_h2_frame_headers then
      if has_other_flags flags
           (Z.lor (Z.lor (Z.lor k_h2_flag_end_stream k_h2_flag_end_headers) k_h2_flag_priority)
              k_h2_flag_padded)
         || negb (nz (Z.land stream_id 1)) || (length =? 0)
      then None else Some (mk_sniff stream_id true (negb end_headers))
    else if type =? k_h2_frame_push_promise then
      if has_other_flags flags (Z.lor k_h2_flag_end_headers k_h2_flag_padded) || (stream_id =? 0)
         || (length <? k_h2_push_promise_min_payload_len)
      then None else Some (mk_sniff stream_id (seen_headers st) (negb end_headers))
    else if type =? k_h2_frame_priority then
      if nz flags || negb (length =? k_h2_priority_payload_len) || (stream_id =? 0)
      then None else Some st
    else if type =? k_h2_frame_rst_stream then
      if nz flags || negb (length =? k_h2_rst_stream_payload_len) || (stream_id =? 0)
      then None else Some st
    else if type =? k_h2_frame_settings then
      if has_other_flags flags k_h2_flag_ack || negb (stream_id =? 0)
         || nz (length mod k_h2_settings_entry_len)
         || (nz (Z.land flags k_h2_flag_ack) && nz length)
      then None else Some st
    else if type =? k_h2_frame_ping then
      if has_other_flags flags k_h2_flag_ack || negb (stream_id =? 0)
         || negb (length =? k_h2_ping_payload_len)
      then None else Some st
    else if type =? k_h2_frame_goaway then
      if nz flags || negb (stream_id =? 0) || (length <? k_h2_goaway_min_payload_len)
      then None else Some st
    else if type =? k_h2_frame_window_update then
      if nz flags || negb (length =? k_h2_window_update_payload_len)
      then None else Some st
    else if type =? k_h2_frame_continuation then
      if has_other_flags flags k_h2_flag_end_headers || ((length =? 0) && negb end_headers)
      then None
      else Some (mk_sniff (continuation_stream st) (seen_headers st) (negb end_headers))
    else if k_h2_max_extension_frame <? type then None
    else Some st.

Definition h2_frame_payload_len (d : buf) : Z :=
  Z.lor (Z.lor (Z.shiftl (d 0) 16) (Z.shiftl (d 1) 8)) (d 2).

(** The stream identifier with the reserved bit masked off. *)
Definition h2_stream_id (d : buf) : Z :=
  Z.lor (Z.lor (Z.lor (Z.shiftl (Z.land (d 5) (Z.lnot k_h2_reserved_bit_mask)) 24)
    (Z.shiftl (d 6) 16)) (Z.shiftl (d 7) 8)) (d 8).

Definition h2_sniff_frame_header (st : h2_sniff_state) (d : buf) : option h2_sniff_state * Z :=
  let frame_len := h2_frame_payload_len d in
  (h2_sniff_check_frame st frame_len (d 3) (d 4) (Z.land (d 5) k_h2_reserved_bit_mask)
     (h2_stream_id d), frame_len).

Definition h2_sniff_tiles (st : h2_sniff_state) (pos buf_len : Z) : bool :=
  nz buf_len && (pos =? buf_len) && negb (expect_continuation st).

Inductive h2_walk_result := k_h2_walk_mismatch | k_h2_walk_tiled | k_h2_walk_unfinished.

#[export] Instance h2_walk_result_eq_dec : EqDecision h2_walk_result.
Proof. solve_decision. Defined.

Definition h2_sniff_walk_result (st : h2_sniff_state) (pos buf_len : Z) : h2_walk_result :=
  if pos <? buf_len then k_h2_walk_unfinished
  else if h2_sniff_tiles st pos buf_len then k_h2_walk_tiled else k_h2_walk_mismatch.

Definition h2_sniff_accept (st : h2_sniff_state) (pos buf_len : Z) : bool :=
  seen_headers st && h2_sniff_tiles st pos buf_len.

(** ** RFC 7541 reference: what a first octet says *)

(** The representations a header field can open with. *)
Inductive hpack_repr :=
  | hpack_indexed (idx : Z)
  | hpack_literal_name_ref (idx : Z)
  | hpack_literal_new_name
  | hpack_table_size_update
  | hpack_multi_octet_index.

(** RFC 7541 section 6: decodes the first octet; an index that fills its prefix continues in the
    next octets. *)
Definition hpack_first_octet (b : Z) : hpack_repr :=
  if 128 <=? b then
    if b - 128 =? 127 then hpack_multi_octet_index else hpack_indexed (b - 128)
  else if 64 <=? b then
    if b - 64 =? 63 then hpack_multi_octet_index
    else if b - 64 =? 0 then hpack_literal_new_name else hpack_literal_name_ref (b - 64)
  else if 32 <=? b then hpack_table_size_update
  else
    if b mod 16 =? 15 then hpack_multi_octet_index
    else if b mod 16 =? 0 then hpack_literal_new_name else hpack_literal_name_ref (b mod 16).

(** RFC 7541 5.1: the octets of an integer whose prefix is full: all but the last continue. *)
Definition hpack_int_continues (l : list Z) : Prop :=
  exists init last, l = init ++ [last] /\ Forall (fun b => 128 <= b < 256) init /\ 0 <= last < 128.

(** The wire form of one dynamic table size update. *)
Definition hpack_size_update_wire (l : list Z) : Prop :=
  exists b tl, l = b :: tl /\ 0x20 <= b < 0x40 /\
    (b < 0x3f /\ tl = [] \/ b = 0x3f /\ hpack_int_continues tl /\ zlen tl <= k_hpack_int_max_octets).

(** The openers OBI takes for the start of a request or of a response, in RFC terms. *)
Definition opens_request_spec (b : Z) : bool :=
  match hpack_first_octet b with
  | hpack_indexed i => ((1 <=? i) && (i <=? 7)) || (62 <=? i)
  | hpack_literal_name_ref i => (1 <=? i) && (i <=? 7)
  | hpack_multi_octet_index => 128 <=? b
  | _ => false
  end.

Definition opens_response_spec (b : Z) : bool :=
  match hpack_first_octet b with
  | hpack_indexed i | hpack_literal_name_ref i => (8 <=? i) && (i <=? 14)
  | _ => false
  end.

(** ** Size updates *)

Lemma land_opener_mask i : 0 <= i < 16 -> Z.land i k_h2_hpack_opener_mask = i.
Proof.
  intros. change k_h2_hpack_opener_mask with (2 ^ 4 - 1). rewrite land_ones_mod by lia.
  apply Z.mod_small. lia.
Qed.

Lemma size_update_octets_count fuel w i have o n :
  0 <= i -> 1 <= o -> o + n <= 5 -> 0 <= n -> i + o + n < have -> have <= 16 ->
  (Z.to_nat n < fuel)%nat ->
  (forall j, 0 <= j < n -> 128 <= w (i + o + j) < 256) -> 0 <= w (i + o + n) < 128 ->
  size_update_octets fuel w i have o = o + n.
Proof.
  revert o n. induction fuel as [|fuel IH]; intros o n Hi Ho Hon Hn Hh Hh' Hf Hall Hlast; [lia|].
  simpl. rewrite land_opener_mask by lia. kunfold.
  assert (Hbit : forall x, 0 <= x < 256 -> nz (Z.land x 128) = (128 <=? x)).
  { intros x Hx. apply eqb_prop. refine (zrange_forallb 256
      (fun x => eqb (nz (Z.land x 128)) (128 <=? x)) _ x Hx). by vm_compute. }
  destruct (Z.eq_dec n 0) as [->|].
  - rewrite !Z.add_0_r in Hlast. rewrite Hbit by lia. rewrite (proj2 (Z.leb_gt _ _)) by lia.
    rewrite andb_false_r. lia.
  - specialize (Hall 0 ltac:(lia)) as H0. rewrite Z.add_0_r in H0. rewrite Hbit by lia.
    rewrite (proj2 (Z.leb_le _ _)), !(proj2 (Z.ltb_lt _ _)) by lia. simpl.
    rewrite (IH (o + 1) (n - 1)); try lia.
    + intros j Hj. replace (i + (o + 1) + j) with (i + o + (1 + j)) by lia. apply Hall. lia.
    + by replace (i + (o + 1) + (n - 1)) with (i + o + n) by lia.
Qed.

Lemma prefix5 b : 0x20 <= b < 0x40 -> (Z.land b 0x1f =? 0x1f) = (b =? 0x3f).
Proof.
  intros Hb. apply eqb_prop.
  assert (H : (b <? 32) || eqb (Z.land b 31 =? 31) (b =? 63) = true).
  { refine (zrange_forallb 64 (fun b => (b <? 32) || eqb (Z.land b 31 =? 31) (b =? 63)) _ b _);
      [by vm_compute|lia]. }
  rewrite (proj2 (Z.ltb_ge _ _)) in H by lia. done.
Qed.

Lemma is_size_update_range b : 0 <= b < 256 -> h2_hpack_is_size_update b = (0x20 <=? b) && (b <? 0x40).
Proof.
  intros Hb. apply eqb_prop. refine (zrange_forallb 256
    (fun b => eqb (h2_hpack_is_size_update b) ((0x20 <=? b) && (b <? 0x40))) _ b Hb).
  by vm_compute.
Qed.

(** One update at offset [zlen pre] of the window. *)
Lemma size_update_len_wire pre u post have :
  hpack_size_update_wire u -> zlen pre + zlen u <= have <= 16 ->
  h2_hpack_size_update_len (list_buf (pre ++ u ++ post)) (zlen pre) have = zlen u.
Proof.
  intros (b & tl & -> & Hb & Htl) Hh. unfold h2_hpack_size_update_len.
  assert (0 <= zlen pre) by (unfold zlen; lia).
  assert (zlen (b :: tl) = 1 + zlen tl) as Hz by (unfold zlen; simpl; lia).
  assert (0 <= zlen tl) by (unfold zlen; lia).
  rewrite land_opener_mask by lia. kunfold.
  assert (Hat : forall i, 0 <= i -> list_buf (pre ++ (b :: tl) ++ post) (zlen pre + i)
    = list_buf ((b :: tl) ++ post) i) by (intros; by apply list_buf_app_r).
  pose proof (Hat 0 ltac:(lia)) as Hat0. rewrite Z.add_0_r in Hat0. rewrite Hat0.
  change (list_buf ((b :: tl) ++ post) 0) with b. rewrite prefix5 by done.
  destruct Htl as [[Hlt ->]|(-> & (init & last & -> & Hinit & Hlast) & Hmax)].
  - rewrite (proj2 (Z.eqb_neq _ _)) by lia. done.
  - change (negb (63 =? 63)) with false. cbv iota.
    assert (Hlen : zlen (init ++ [last]) = zlen init + 1)
      by (unfold zlen; rewrite length_app; simpl; lia).
    assert (Hcons : forall i, 0 <= i ->
      list_buf (pre ++ (63 :: init ++ [last]) ++ post) (zlen pre + 1 + i)
      = list_buf ((init ++ [last]) ++ post) i).
    { intros i Hi. rewrite <- Z.add_assoc, Hat by lia. rewrite !list_buf_nth by lia.
      by replace (Z.to_nat (1 + i)) with (S (Z.to_nat i)) by lia. }
    assert (0 <= zlen init) by (unfold zlen; lia).
    rewrite (size_update_octets_count _ _ _ _ _ (zlen init)); [lia| | | | | | | | |]; try lia.
    + intros j Hj. rewrite Hcons by lia. rewrite !list_buf_app_l by lia.
      rewrite list_buf_nth by lia. rewrite Forall_forall in Hinit. apply Hinit.
      apply list_elem_of_In, nth_In. unfold zlen in *. lia.
    + rewrite Hcons by lia. rewrite list_buf_app_l by lia.
      rewrite <- (Z.add_0_r (zlen init)), list_buf_app_r by lia. done.
Qed.

Lemma size_update_wire_first u post : hpack_size_update_wire u ->
  exists b, list_buf (u ++ post) 0 = b /\ 0x20 <= b < 0x40 /\ 0 < zlen u.
Proof.
  intros (b & tl & -> & Hb & _). exists b. split_and!; [done|lia|lia|]. unfold zlen. simpl. lia.
Qed.

(** The test made at the offset reached after [pre]. *)
Lemma size_update_at pre rest :
  0 <= zlen pre < 16 -> 0 <= list_buf rest 0 < 256 ->
  h2_hpack_is_size_update (list_buf (pre ++ rest) (Z.land (zlen pre) k_h2_hpack_opener_mask))
  = (0x20 <=? list_buf rest 0) && (list_buf rest 0 <? 0x40).
Proof.
  intros Hp Hb. rewrite land_opener_mask by lia.
  rewrite <- (Z.add_0_r (zlen pre)) at 1. rewrite list_buf_app_r by lia. by apply is_size_update_range.
Qed.

(** ** Properties *)

(** Block openers.  For every byte, [h2_hpack_opens_request] accepts exactly the RFC 7541
    openers of a request pseudo-header (static index 1-7, indexed or as a name reference, or an
    index in the dynamic table), [h2_hpack_opens_response] exactly those of [:status] (static
    index 8-14), and no byte is taken for both. *)
Theorem hpack_openers_exact b :
  0 <= b < 256 ->
  h2_hpack_opens_request b = opens_request_spec b
  /\ h2_hpack_opens_response b = opens_response_spec b
  /\ h2_hpack_opens_request b && h2_hpack_opens_response b = false.
Proof.
  intros Hb.
  assert (H : eqb (h2_hpack_opens_request b) (opens_request_spec b)
    && eqb (h2_hpack_opens_response b) (opens_response_spec b)
    && negb (h2_hpack_opens_request b && h2_hpack_opens_response b) = true).
  { refine (zrange_forallb 256 (fun b => eqb (h2_hpack_opens_request b) (opens_request_spec b)
      && eqb (h2_hpack_opens_response b) (opens_response_spec b)
      && negb (h2_hpack_opens_request b && h2_hpack_opens_response b)) _ b Hb). by vm_compute. }
  rewrite !andb_true_iff, negb_true_iff in H. destruct H as [[?%eqb_prop ?%eqb_prop] ?]. done.
Qed.

Lemma hpack_openers_exact_witness :
  h2_hpack_opens_request 0x83 = true /\ h2_hpack_opens_response 0x88 = true.
Proof.
  split.
  - exact (eq_trans (proj1 (hpack_openers_exact 0x83 ltac:(lia))) eq_refl).
  - exact (eq_trans (proj1 (proj2 (hpack_openers_exact 0x88 ltac:(lia)))) eq_refl).
Defined.

(** Size updates are skipped exactly.  When an HPACK block opens with at most two dynamic
    table size updates in their RFC 7541 wire form, followed inside the 16-byte window by the
    first octet of a field, [h2_hpack_skip_size_updates] returns the offset of that field. *)
Theorem skip_size_updates_exact (ups : list (list Z)) f rest :
  Forall hpack_size_update_wire ups -> (length ups <= 2)%nat ->
  0 <= f < 256 -> h2_hpack_is_size_update f = false ->
  zlen (concat ups) < k_h2_hpack_opener_window ->
  h2_hpack_skip_size_updates (list_buf (concat ups ++ f :: rest)) k_h2_hpack_opener_window
  = zlen (concat ups).
Proof.
  intros Hups Hn Hf Hnf Hlen. rewrite is_size_update_range in Hnf by done.
  unfold h2_hpack_skip_size_updates. cbv zeta. unfold k_h2_hpack_opener_window in *.
  assert (Hstop : forall pre, zlen pre < 16 ->
    h2_hpack_is_size_update (list_buf (pre ++ f :: rest) (Z.land (zlen pre) k_h2_hpack_opener_mask)) = false).
  { intros pre Hp. rewrite size_update_at; [exact Hnf|unfold zlen in *; lia|exact Hf]. }
  destruct ups as [|u1 [|u2 [|]]]; [| | |simpl in Hn; lia]; simpl concat in *; rewrite ?app_nil_r in *.
  - pose proof (Hstop [] ltac:(unfold zlen; simpl; lia)) as H. simpl app in H.
    change (zlen []) with 0 in *. simpl app. rewrite H, andb_false_r. cbv iota. by rewrite H.
  - inversion_clear Hups as [|? ? H1 _]. 
    destruct (size_update_wire_first u1 (f :: rest) H1) as (b & Hb0 & Hb & Hpos).
    pose proof (size_update_at [] (u1 ++ f :: rest)) as Ht. change (zlen []) with 0 in Ht.
    simpl app in Ht. rewrite Hb0 in Ht. rewrite Ht by lia.
    replace ((32 <=? b) && (b <? 64)) with true by lia. change (0 <? 16) with true. simpl.
    pose proof (size_update_len_wire [] u1 (f :: rest) 16 H1) as Hl.
    change (zlen []) with 0 in Hl. simpl app in Hl. rewrite Hl by lia.
    rewrite Hstop by done. by rewrite andb_false_r.
  - inversion_clear Hups as [|? ? H1 H2']. inversion_clear H2' as [|? ? H2 _].
    assert (Hz : zlen (u1 ++ u2) = zlen u1 + zlen u2) by (unfold zlen; rewrite length_app; lia).
    destruct (size_update_wire_first u1 (u2 ++ f :: rest) H1) as (b & Hb0 & Hb & Hpos).
    destruct (size_update_wire_first u2 (f :: rest) H2) as (b2 & Hb20 & Hb2 & Hpos2).
    rewrite <- app_assoc.
    pose proof (size_update_at [] (u1 ++ u2 ++ f :: rest)) as Ht. change (zlen []) with 0 in Ht.
    simpl app in Ht. rewrite Hb0 in Ht. rewrite Ht by lia.
    replace ((32 <=? b) && (b <? 64)) with true by lia. change (0 <? 16) with true. simpl.
    pose proof (size_update_len_wire [] u1 (u2 ++ f :: rest) 16 H1) as Hl.
    change (zlen []) with 0 in Hl. simpl app in Hl. rewrite Hl by lia.
    rewrite size_update_at by lia. rewrite Hb20.
    replace ((32 <=? b2) && (b2 <? 64)) with true by lia. rewrite (proj2 (Z.ltb_lt _ _)) by lia. simpl.
    rewrite size_update_len_wire by (done || lia). lia.
Qed.

(** Sizes 31+31*2^14 and 0, then ":method GET" indexed. *)
Lemma skip_size_updates_exact_witness :
  h2_hpack_skip_size_updates (list_buf (concat [[0x3f; 0xe1; 0xff; 0x03]; [0x20]] ++ 0x82 :: [0x87])) 16
  = 5.
Proof.
  apply (skip_size_updates_exact [[0x3f; 0xe1; 0xff; 0x03]; [0x20]] 0x82 [0x87]);
    [|simpl; lia|lia|done|done].
  constructor; [|constructor; [|constructor]].
  - exists 0x3f, [0xe1; 0xff; 0x03]. split_and!; [done|lia|lia|]. right. split_and!; [done| |done].
    exists [0xe1; 0xff], 3. split_and!; [done| |lia|lia]. repeat constructor; lia.
  - exists 0x20, []. split_and!; [done|lia|lia|]. left. split; [lia|done].
Defined.
