(* ===== verification/H2Sniff.v ===== *)
(** * Recognising HTTP/2 ([bpf/generictracer/http2_grpc.h] and the frame walk of
      [bpf/tpinjector/tpinjector.c]).

    The frame header reader of the generic tracer, the connection preface, and the two
    mid-stream sniffers: [looks_like_http2_frames] on a probed user buffer and
    [sniff_http2_frames] on an sk_msg.  An sk_msg is its bytes with, as a parameter, the outcome
    of every [bpf_msg_pull_data].  The reference is a grammar of HTTP/2 frame sequences: the
    per-frame rules the sniffer enforces and RFC 7540's header-block contiguity. *)

From Stdlib Require Import ZArith Lia ZifyBool List Bool.
From stdpp Require Import base list.
From S2P Require Import Prelude TraceUtil H2Defs.

Local Open Scope Z_scope.

(** ** Definitions *)

Definition FrameData : Z := 0.
Definition FrameHeaders : Z := 1.
Definition FrameContinuation : Z := 9.
Definition k_flag_data_end_stream : Z := 1.
Definition k_frame_header_len : Z := 9.
Definition MIN_HTTP2_SIZE : Z := 24.

#[export] Hint Unfold FrameData FrameHeaders FrameContinuation k_flag_data_end_stream
  k_frame_header_len MIN_HTTP2_SIZE : kconst.

(** "PRI * HTTP/2.0\r\n\r\nSM\r\n\r\n" *)
Definition HTTP2_GRPC_PREFACE : list Z :=
  [80; 82; 73; 32; 42; 32; 72; 84; 84; 80; 47; 50; 46; 48; 13; 10; 13; 10; 83; 77; 13; 10; 13; 10].

Record frame_header := mk_fh {
  fh_length : Z;
  fh_type : Z;
  fh_flags : Z;
  fh_ignore : Z;
  fh_stream_id : Z
}.

(** The packed bit-field load: little-endian words, the 1-bit field first. *)
Definition load_frame_header (p : buf) : frame_header :=
  let w := le_word (take_buf (shift p 5) 4) in
  mk_fh (le_word (take_buf p 3)) (p 3) (p 4) (w mod 2) (w / 2).

(** The frame as left by the function, and its return value. *)
Definition read_http2_grpc_frame_header (frame : frame_header) (p : buf) (len : Z)
    : frame_header * bool :=
  if len <? k_frame_header_len then (frame, false)
  else
    let frame := load_frame_header p in
    if (fh_length frame =? 0) || (FrameContinuation <? fh_type frame) then (frame, false)
    else
      (mk_fh (wrap 24 (bswap32 (u32 (Z.shiftl (fh_length frame) 8)))) (fh_type frame)
         (fh_flags frame) (fh_ignore frame)
         (wrap 31 (bswap32 (u32 (Z.shiftl (fh_stream_id frame) 1)))), true).

Definition is_headers_frame (frame : frame_header) : bool :=
  (fh_type frame =? FrameHeaders) && nz (fh_stream_id frame).

(** [obi_bpf_memcmp]: 0 when equal, else one more than the first differing index. *)
Fixpoint obi_bpf_memcmp_from (n : nat) (i : Z) (s1 s2 : buf) : Z :=
  match n with
  | O => 0
  | S n' => if negb (s1 i =? s2 i) then i + 1 else obi_bpf_memcmp_from n' (i + 1) s1 s2
  end.

Definition obi_bpf_memcmp (s1 s2 : buf) (size : Z) : Z :=
  obi_bpf_memcmp_from (Z.to_nat size) 0 s1 s2.

Definition has_preface (p : buf) (len : Z) : bool :=
  if len <? MIN_HTTP2_SIZE then false
  else negb (nz (obi_bpf_memcmp p (list_buf HTTP2_GRPC_PREFACE) MIN_HTTP2_SIZE)).

Definition is_http2_or_grpc (p : buf) (len : Z) : bool := has_preface p len.

(** The loop of [looks_like_http2_frames]; [None] is its [return 0]. *)
Fixpoint sniff_loop (n : nat) (u_buf : umem) (len pos : Z) (st : h2_sniff_state)
    : option (h2_sniff_state * Z) :=
  match n with
  | O => Some (st, pos)
  | S n' =>
      if pos <? len then
        if len <? u32 (pos + k_h2_frame_header_len) then None
        else
          match probe_read (ushift u_buf pos) (Z.to_nat k_h2_frame_header_len) with
          | None => None
          | Some buf =>
              let '(st', frame_len) := h2_sniff_frame_header st (list_buf buf) in
              match st' with
              | None => None
              | Some st' =>
                  sniff_loop n' u_buf len (u32 (pos + (k_h2_frame_header_len + frame_len))) st'
              end
          end
      else Some (st, pos)
  end.

Definition looks_like_http2_frames (u_buf : umem) (bytes_len : Z) : bool :=
  if bytes_len <? k_h2_frame_header_len then false
  else
    let len := u32 bytes_len in
    match sniff_loop (Z.to_nat k_h2_sniff_max_frames) u_buf len 0 sniff_init with
    | None => false
    | Some (st, pos) => h2_sniff_accept st pos len
    end.

Definition http_grpc_stream_ended (frame : frame_header) : bool :=
  is_headers_frame frame
  && (Z.land (fh_flags frame) k_flag_data_end_stream =? k_flag_data_end_stream).

Definition is_invalid_frame (frame : frame_header) : bool :=
  (fh_type frame =? FrameData) && (fh_stream_id frame =? 0).

Definition http_grpc_data_stream_ended (frame : frame_header) : bool :=
  (fh_type frame =? FrameData)
  && (Z.land (fh_flags frame) k_flag_data_end_stream =? k_flag_data_end_stream).

Definition is_flags_only_frame (frame : frame_header) : bool := fh_length frame <=? 2.

(** What [bpf_msg_pull_data] followed by the [data]/[data_end] check finds. *)
Inductive pull_result := pull_failed | pull_short | pull_ok.

#[export] Instance pull_result_eq_dec : EqDecision pull_result.
Proof. solve_decision. Defined.

Record sk_msg := mk_msg {
  msg_bytes : list Z;
  msg_pull : Z -> Z -> pull_result
}.

Definition msg_size (msg : sk_msg) : Z := zlen (msg_bytes msg).

(** The loop of [sniff_http2_frames] and its return, with [hpack_at]. *)
Fixpoint sniff_msg_loop (n : nat) (msg : sk_msg) (strict : bool) (pos : Z) (st : h2_sniff_state)
    (hpack_at : Z) : h2_walk_result * Z :=
  match n with
  | O => (h2_sniff_walk_result st pos (msg_size msg), hpack_at)
  | S n' =>
      if pos <? msg_size msg then
        if msg_size msg <? u32 (pos + k_h2_frame_header_len) then (k_h2_walk_mismatch, hpack_at)
        else if negb (bool_decide
                  (msg_pull msg pos (u32 (pos + k_h2_frame_header_len)) = pull_ok))
        then (k_h2_walk_unfinished, hpack_at)
        else
          let d := shift (list_buf (msg_bytes msg)) pos in
          let ftype := d 3 in
          let fflags := d 4 in
          let first_headers := negb (seen_headers st) in
          let '(st', frame_len) :=
            if strict then h2_sniff_frame_header st d else (Some st, h2_frame_payload_len d) in
          match st' with
          | None => (k_h2_walk_mismatch, hpack_at)
          | Some st' =>
              let hpack_at :=
                if (ftype =? k_h2_frame_headers) && first_headers
                then u32 (pos + k_h2_frame_header_len + h2_hpack_prefix_len fflags)
                else hpack_at in
              sniff_msg_loop n' msg strict (u32 (pos + (k_h2_frame_header_len + frame_len))) st'
                hpack_at
          end
      else (h2_sniff_walk_result st pos (msg_size msg), hpack_at)
  end.

Definition sniff_http2_frames (msg : sk_msg) (strict : bool) : h2_walk_result * Z :=
  sniff_msg_loop (Z.to_nat k_h2_sniff_max_frames) msg strict 0 sniff_init 0.

(** ** The reference grammar *)

Record h2_frame := mk_frame {
  fr_type : Z;
  fr_flags : Z;
  fr_stream : Z;
  fr_payload : list Z
}.

Definition frame_wf (f : h2_frame) : Prop :=
  0 <= fr_type f < 256 /\ 0 <= fr_flags f < 256 /\ 0 <= fr_stream f < 2 ^ 31
  /\ is_bytes (fr_payload f).

(** RFC 7540 4.1: length, type, flags, R and stream identifier, then the payload. *)
Definition frame_bytes (f : h2_frame) : list Z :=
  be_bytes 3 (zlen (fr_payload f)) ++ [fr_type f; fr_flags f] ++ be_bytes 4 (fr_stream f)
  ++ fr_payload f.

Definition flags_within (flags allowed : Z) : Prop := Z.land flags (Z.lnot allowed) = 0.

Definition end_headers (flags : Z) : bool := nz (Z.land flags k_h2_flag_end_headers).

(** The per-frame rules, on length, type, flags and stream. *)
Inductive frame_rule : Z -> Z -> Z -> Z -> Prop :=
  | rule_data len flags sid :
      flags_within flags 0x9 -> sid <> 0 -> (len <> 0 \/ Z.land flags 1 <> 0) ->
      frame_rule len 0 flags sid
  | rule_headers len flags sid :
      flags_within flags 0x2d -> Z.land sid 1 <> 0 -> len <> 0 -> frame_rule len 1 flags sid
  | rule_priority flags sid : flags = 0 -> sid <> 0 -> frame_rule 5 2 flags sid
  | rule_rst_stream flags sid : flags = 0 -> sid <> 0 -> frame_rule 4 3 flags sid
  | rule_settings len flags :
      flags_within flags 1 -> len mod 6 = 0 -> (Z.land flags 1 <> 0 -> len = 0) ->
      frame_rule len 4 flags 0
  | rule_push_promise len flags sid :
      flags_within flags 0xc -> sid <> 0 -> 4 <= len -> frame_rule len 5 flags sid
  | rule_ping flags : flags_within flags 1 -> frame_rule 8 6 flags 0
  | rule_goaway len flags : flags = 0 -> 8 <= len -> frame_rule len 7 flags 0
  | rule_window_update flags sid : flags = 0 -> frame_rule 4 8 flags sid
  | rule_continuation len flags sid :
      flags_within flags 4 -> (len <> 0 \/ end_headers flags = true) -> frame_rule len 9 flags sid
  | rule_extension len type flags sid :
      9 < type <= 0x1f -> frame_rule len type flags sid.

(** The stream whose header block is open, and how a frame changes it: nothing but CONTINUATION
    of that stream may come before the block ends. *)
Inductive block_step : option Z -> Z -> Z -> Z -> option Z -> Prop :=
  | block_open type flags sid :
      (type = 1 \/ type = 5) ->
      block_step None type flags sid (if end_headers flags then None else Some sid)
  | block_other type flags sid :
      type <> 1 -> type <> 5 -> type <> 9 -> block_step None type flags sid None
  | block_continue flags sid :
      block_step (Some sid) 9 flags sid (if end_headers flags then None else Some sid).

Inductive header_blocks : option Z -> list h2_frame -> Prop :=
  | blocks_done : header_blocks None []
  | blocks_frame o f o' fs :
      block_step o (fr_type f) (fr_flags f) (fr_stream f) o' ->
      header_blocks o' fs -> header_blocks o (f :: fs).

Definition frame_ok (f : h2_frame) : Prop :=
  frame_wf f /\ zlen (fr_payload f) <= k_h2_max_frame_len
  /\ frame_rule (zlen (fr_payload f)) (fr_type f) (fr_flags f) (fr_stream f).

(** A sequence of frames a conforming sender can emit, with no block left open. *)
Definition conforming (fs : list h2_frame) : Prop := Forall frame_ok fs /\ header_blocks None fs.

(** ** One frame *)

Definition open_of (st : h2_sniff_state) : option Z :=
  if expect_continuation st then Some (continuation_stream st) else None.

Ltac flags_norm :=
  unfold has_other_flags, flags_within, end_headers, nz, open_of in *; kunfold;
  change (Z.lor 1 8) with 9 in *; change (Z.lor (Z.lor (Z.lor 1 4) 32) 8) with 45 in *;
  change (Z.lor 4 8) with 12 in *.

Lemma open_of_mk sid seen fl :
  open_of (mk_sniff sid seen (negb (nz (Z.land fl 4)))) = if end_headers fl then None else Some sid.
Proof. unfold open_of, end_headers, k_h2_flag_end_headers. simpl. by destruct (nz (Z.land fl 4)). Qed.

Lemma check_frame_sound st len ty fl sid st' :
  0 <= len -> 0 <= ty -> h2_sniff_check_frame st len ty fl 0 sid = Some st' ->
  len <= k_h2_max_frame_len /\ frame_rule len ty fl sid
  /\ block_step (open_of st) ty fl sid (open_of st')
  /\ seen_headers st' = seen_headers st || (ty =? 1).
Proof.
  intros Hl Hty H. unfold h2_sniff_check_frame in H.
  destruct ((k_h2_max_frame_len <? len) || nz 0) eqn:Hmax; [done|].
  apply orb_false_iff in Hmax as [Hmax%Z.ltb_ge _]. split; [done|].
  destruct (if expect_continuation st then _ else _) eqn:Hcont in H; [done|].
  assert (Hopen : ty <> 9 -> open_of st = None).
  { intros. unfold open_of. destruct (expect_continuation st); [|done]. flags_norm. lia. }
  assert (Hopen9 : ty = 9 -> open_of st = Some sid).
  { intros ->. unfold open_of. destruct (expect_continuation st); [|done]. flags_norm. f_equal. lia. }
  assert (Hsame : forall P : Prop, ty <> 1 -> ty <> 5 -> ty <> 9 -> (st = st' -> P) -> Some st = Some st' ->
    P /\ block_step (open_of st) ty fl sid (open_of st')
    /\ seen_headers st' = seen_headers st || (ty =? 1)).
  { intros P H1 H5 H9 HP [= <-]. split_and!; [by apply HP| |].
    - rewrite Hopen by done. by constructor.
    - rewrite (proj2 (Z.eqb_neq _ _)) by done. by rewrite orb_false_r. }
  cbv zeta in H.
  destruct (Z.eqb_spec ty k_h2_frame_data) as [->|]; [|destruct (Z.eqb_spec ty k_h2_frame_headers) as [->|];
    [|destruct (Z.eqb_spec ty k_h2_frame_push_promise) as [->|];
    [|destruct (Z.eqb_spec ty k_h2_frame_priority) as [->|];
    [|destruct (Z.eqb_spec ty k_h2_frame_rst_stream) as [->|];
    [|destruct (Z.eqb_spec ty k_h2_frame_settings) as [->|];
    [|destruct (Z.eqb_spec ty k_h2_frame_ping) as [->|];
    [|destruct (Z.eqb_spec ty k_h2_frame_goaway) as [->|];
    [|destruct (Z.eqb_spec ty k_h2_frame_window_update) as [->|];
    [|destruct (Z.eqb_spec ty k_h2_frame_continuation) as [->|]]]]]]]]]];
    destruct (_ : bool) eqn:Hc in H; try done;
    first [refine (Hsame _ _ _ _ _ H); [done|done|done|]; intros _ | injection H as <-].
  - flags_norm. constructor; unfold flags_within; lia.
  - rewrite open_of_mk, Hopen by done. split_and!; [|apply block_open; by left|by rewrite orb_true_r].
    flags_norm. constructor; unfold flags_within; lia.
  - rewrite open_of_mk, Hopen by done. split_and!; [|apply block_open; by right|by rewrite orb_false_r].
    flags_norm. constructor; unfold flags_within; lia.
  - flags_norm. assert (len = 5) as -> by lia. constructor; lia.
  - flags_norm. assert (len = 4) as -> by lia. constructor; lia.
  - flags_norm. assert (sid = 0) as -> by lia. constructor; unfold flags_within; lia.
  - flags_norm. assert (sid = 0) as -> by lia. assert (len = 8) as -> by lia.
    constructor; unfold flags_within; lia.
  - flags_norm. assert (sid = 0) as -> by lia. constructor; lia.
  - flags_norm. assert (len = 4) as -> by lia. constructor; lia.
  - assert (continuation_stream st = sid) as ->.
    { specialize (Hopen9 eq_refl). unfold open_of in Hopen9. bdes; congruence. }
    rewrite open_of_mk, Hopen9 by done. split_and!; [|apply block_continue|by rewrite orb_false_r].
    flags_norm. constructor; unfold flags_within, end_headers, nz; kunfold; lia.
  - kunfold. constructor. lia.
Qed.

Lemma check_frame_complete st len ty fl sid o' :
  0 <= ty -> len <= k_h2_max_frame_len -> frame_rule len ty fl sid ->
  block_step (open_of st) ty fl sid o' ->
  exists st', h2_sniff_check_frame st len ty fl 0 sid = Some st' /\ open_of st' = o'.
Proof.
  intros Hty Hmax Hr Hb. unfold h2_sniff_check_frame.
  replace ((k_h2_max_frame_len <? len) || nz 0) with false by (unfold nz; lia).
  assert (Hcont : (if expect_continuation st then negb (ty =? k_h2_frame_continuation)
    || negb (sid =? continuation_stream st) else ty =? k_h2_frame_continuation) = false).
  { unfold open_of in Hb. destruct (expect_continuation st); inversion Hb; subst; kunfold; lia. }
  rewrite Hcont.
  inversion Hr; subst; simpl.
  all: try (match goal with |- context [if ?c then None else _] => replace c with false by (flags_norm; lia) end).
  all: try (eexists; split; [reflexivity|]; rewrite ?open_of_mk; inversion Hb; first [congruence|lia]).
  - eexists. split; [reflexivity|]. unfold open_of in Hb.
    destruct (expect_continuation st); inversion Hb; subst; try lia. by rewrite open_of_mk.
  - kunfold. rewrite !(proj2 (Z.eqb_neq ty _)) by lia.
    eexists. split; [reflexivity|]. inversion Hb; subst; try lia. congruence.
Qed.

Lemma land_7f s : 0 <= s < 256 ->
  Z.land s (Z.lnot k_h2_reserved_bit_mask) = s mod 128
  /\ nz (Z.land s k_h2_reserved_bit_mask) = (128 <=? s).
Proof.
  intros Hs.
  assert (H : (Z.land s (Z.lnot 128) =? s mod 128) && eqb (nz (Z.land s 128)) (128 <=? s) = true).
  { refine (zrange_forallb 256 (fun s => (Z.land s (Z.lnot 128) =? s mod 128)
      && eqb (nz (Z.land s 128)) (128 <=? s)) _ s Hs). by vm_compute. }
  apply andb_true_iff in H as [?%Z.eqb_eq ?%eqb_prop]. done.
Qed.

Definition be24 (a b c : Z) : Z := a * 65536 + b * 256 + c.

Lemma frame_header_decode st a b c ty fl s0 s1 s2 s3 r :
  is_bytes [a; b; c; ty; fl; s0; s1; s2; s3] ->
  h2_sniff_frame_header st (list_buf ([a; b; c; ty; fl; s0; s1; s2; s3] ++ r))
  = (h2_sniff_check_frame st (be24 a b c) ty fl (Z.land s0 k_h2_reserved_bit_mask)
       (s0 mod 128 * 16777216 + be24 s1 s2 s3), be24 a b c).
Proof.
  intros Hb. unfold is_bytes in Hb. rewrite !Forall_cons in Hb. destruct_and! Hb.
  unfold h2_sniff_frame_header, h2_frame_payload_len, h2_stream_id, be24.
  lbuf. destruct (land_7f s0) as [-> _]; [done|]. rewrite lor_bytes3, lor_bytes4 by done.
  by rewrite !Z.add_assoc.
Qed.

Lemma frame_bytes_cons f : frame_wf f -> zlen (fr_payload f) <= k_h2_max_frame_len ->
  exists a b c s0 s1 s2 s3,
    frame_bytes f = [a; b; c; fr_type f; fr_flags f; s0; s1; s2; s3] ++ fr_payload f
    /\ is_bytes [a; b; c; fr_type f; fr_flags f; s0; s1; s2; s3]
    /\ be24 a b c = zlen (fr_payload f) /\ s0 < 128
    /\ s0 mod 128 * 16777216 + be24 s1 s2 s3 = fr_stream f.
Proof.
  intros (Ht & Hf & Hs & _) Hl. unfold frame_bytes. rewrite be_bytes_3, be_bytes_4.
  do 7 eexists. split; [reflexivity|]. unfold is_bytes, be24. rewrite !Forall_cons.
  assert (0 <= zlen (fr_payload f)) by (unfold zlen; lia). kunfold.
  split_and!; try done; try (apply Z.mod_pos_bound; lia); zdm.
Qed.

(** A header block the walk accepts, as a frame. *)
Lemma frame_of_bytes a b c ty fl s0 s1 s2 s3 r :
  is_bytes ([a; b; c; ty; fl; s0; s1; s2; s3] ++ r) -> s0 < 128 -> zlen r = be24 a b c ->
  let f := mk_frame ty fl (s0 mod 128 * 16777216 + be24 s1 s2 s3) r in
  frame_wf f /\ frame_bytes f = [a; b; c; ty; fl; s0; s1; s2; s3] ++ r.
Proof.
  intros Hb Hs0 Hr. unfold is_bytes in Hb. rewrite Forall_app, !Forall_cons in Hb. destruct_and! Hb.
  unfold frame_wf, frame_bytes, be24 in *. cbn [fr_type fr_flags fr_stream fr_payload]. rewrite Hr.
  split; [split_and!; try done; zdm|].
  rewrite be_bytes_3, be_bytes_4. cbn [app]. repeat f_equal; zdm.
Qed.

Lemma check_frame_reserved st len ty fl r sid st' :
  h2_sniff_check_frame st len ty fl r sid = Some st' ->
  nz r = false /\ h2_sniff_check_frame st len ty fl 0 sid = Some st'.
Proof.
  unfold h2_sniff_check_frame. change (nz 0) with false. rewrite orb_false_r.
  destruct (k_h2_max_frame_len <? len); [done|]. by destruct (nz r).
Qed.

Lemma length_9_inv {A} (l : list A) : zlen l = 9 ->
  exists a b c d e f g h i, l = [a; b; c; d; e; f; g; h; i].
Proof.
  unfold zlen. intros H. do 9 (destruct l as [|? l]; [simpl in H; lia|]).
  destruct l; [by eauto 10|simpl in H; lia].
Qed.

(** ** The walk *)

Definition has_headers (fs : list h2_frame) : bool := existsb (fun f => fr_type f =? 1) fs.

Lemma sniff_loop_past n m len pos st : len <= pos -> sniff_loop n m len pos st = Some (st, pos).
Proof. intros. destruct n; [done|]. simpl. by rewrite (proj2 (Z.ltb_ge pos len)) by lia. Qed.

Lemma sniff_loop_cons n pre h r st :
  zlen h = 9 -> zlen (pre ++ h ++ r) < 2 ^ 31 ->
  sniff_loop (S n) (list_umem (pre ++ h ++ r)) (zlen (pre ++ h ++ r)) (zlen pre) st
  = let '(st', fl) := h2_sniff_frame_header st (list_buf h) in
    match st' with
    | None => None
    | Some st' =>
        sniff_loop n (list_umem (pre ++ h ++ r)) (zlen (pre ++ h ++ r))
          (u32 (zlen pre + (k_h2_frame_header_len + fl))) st'
    end.
Proof.
  intros Hh Hlen. cbn [sniff_loop]. pose proof (zlen_nonneg pre). pose proof (zlen_nonneg r).
  pose proof (zlen_app pre (h ++ r)) as E1. pose proof (zlen_app h r) as E2.
  rewrite (proj2 (Z.ltb_lt (zlen pre) _)) by lia.
  rewrite (wrap_small 32) by (kunfold; lia).
  rewrite (proj2 (Z.ltb_ge _ (zlen pre + k_h2_frame_header_len))) by (kunfold; lia).
  replace (Z.to_nat k_h2_frame_header_len) with (length h) by (unfold zlen in Hh; kunfold; lia).
  by rewrite probe_read_at.
Qed.

Lemma sniff_loop_short n m len pos st st' :
  0 <= pos < len -> len < 2 ^ 31 -> len < pos + 9 ->
  sniff_loop n m len pos st = Some (st', len) -> False.
Proof.
  intros Hp Hl Hs. destruct n; [intros [= _ ?]; lia|]. cbn [sniff_loop].
  rewrite (proj2 (Z.ltb_lt pos len)), (wrap_small 32), (proj2 (Z.ltb_lt len _)) by (kunfold; lia). done.
Qed.

Lemma sniff_loop_sound n pre rest st st' :
  is_bytes rest -> zlen (pre ++ rest) < 2 ^ 31 -> expect_continuation st' = false ->
  sniff_loop n (list_umem (pre ++ rest)) (zlen (pre ++ rest)) (zlen pre) st
  = Some (st', zlen (pre ++ rest)) ->
  exists fs, rest = concat (map frame_bytes fs) /\ (length fs <= n)%nat /\ Forall frame_ok fs
    /\ header_blocks (open_of st) fs /\ seen_headers st' = seen_headers st || has_headers fs.
Proof.
  revert pre rest st. induction n as [|n IH]; intros pre rest st Hb Hlen Hend H;
    pose proof (zlen_app pre rest) as E; pose proof (zlen_nonneg pre);
    (destruct (decide (rest = [])) as [->|Hne];
    [exists []; rewrite app_nil_r, sniff_loop_past in H by lia; injection H as ->;
     split_and!; [done|simpl; lia|done|unfold open_of; rewrite Hend; constructor|by rewrite orb_false_r]|]);
    assert (0 < zlen rest) by (destruct rest; [done|unfold zlen; simpl; lia]).
  { injection H. lia. }
  destruct (Z.lt_ge_cases (zlen rest) 9); [exfalso; eapply sniff_loop_short; [| | |exact H]; lia|].
  destruct (zlen_split rest 9 ltac:(lia)) as (h & r & -> & Hh). rewrite sniff_loop_cons in H by done.
  destruct (length_9_inv h Hh) as (a & b & c & ty & fl & s0 & s1 & s2 & s3 & ->).
  assert (is_bytes [a; b; c; ty; fl; s0; s1; s2; s3] /\ is_bytes r) as [Hbh Hbr]
    by by apply Forall_app.
  pose proof (frame_header_decode st a b c ty fl s0 s1 s2 s3 [] Hbh) as Hd.
  rewrite app_nil_r in Hd. rewrite Hd in H. clear Hd.
  destruct (h2_sniff_check_frame _ _ _ _ _ _) as [st1|] eqn:Hc in H; [|done].
  apply check_frame_reserved in Hc as [Hres Hc].
  assert (Hbh' := Hbh). unfold is_bytes in Hbh'. rewrite !Forall_cons in Hbh'.
  destruct Hbh' as (?&?&?&?&?&Hs0&?). rewrite (proj2 (land_7f s0 Hs0)) in Hres.
  pose proof (zlen_nonneg r). rewrite !zlen_app in H.
  apply check_frame_sound in Hc as (Hmax & Hrule & Hblock & Hseen); [|unfold be24; lia|lia].
  assert (0 <= be24 a b c) by (unfold be24; lia).
  rewrite (wrap_small 32) in H by (kunfold; lia).
  destruct (Z.lt_ge_cases (zlen r) (be24 a b c)).
  { exfalso. rewrite sniff_loop_past in H by (kunfold; lia). injection H. kunfold. lia. }
  destruct (zlen_split r (be24 a b c) ltac:(lia)) as (pay & r' & -> & Hpay).
  apply Forall_app in Hbr as [Hbp Hbr].
  set (h := [a; b; c; ty; fl; s0; s1; s2; s3]) in *.
  rewrite zlen_app in H.
  replace (zlen pre + (k_h2_frame_header_len + be24 a b c)) with (zlen (pre ++ h ++ pay)) in H
    by (rewrite !zlen_app; kunfold; lia).
  replace (zlen pre + (zlen h + (zlen pay + zlen r'))) with (zlen ((pre ++ h ++ pay) ++ r')) in H
    by (rewrite !zlen_app; lia).
  replace (pre ++ h ++ pay ++ r') with ((pre ++ h ++ pay) ++ r') in H by by rewrite <- !app_assoc.
  apply IH in H as (fs & -> & Hn & Hok & Hblocks & Hs); [|done|rewrite <- !app_assoc; exact Hlen|done].
  destruct (frame_of_bytes a b c ty fl s0 s1 s2 s3 pay) as [Hwf Hfb]; [by apply Forall_app|lia|done|].
  eexists (mk_frame ty fl _ pay :: fs). split_and!.
  - cbn [map concat]. rewrite Hfb. by rewrite <- app_assoc.
  - simpl. lia.
  - constructor; [|done]. split_and!; [done|kunfold; simpl; lia|]. simpl. by rewrite Hpay.
  - econstructor; [exact Hblock|exact Hblocks].
  - rewrite Hs, Hseen. simpl. by rewrite orb_assoc.
Qed.

(** The header of a frame the grammar allows is accepted. *)
Lemma frame_header_accepts f st o' :
  frame_ok f -> block_step (open_of st) (fr_type f) (fr_flags f) (fr_stream f) o' ->
  exists h st', frame_bytes f = h ++ fr_payload f /\ zlen h = 9
    /\ list_buf h 3 = fr_type f /\ list_buf h 4 = fr_flags f
    /\ h2_sniff_frame_header st (list_buf h) = (Some st', zlen (fr_payload f))
    /\ open_of st' = o' /\ seen_headers st' = seen_headers st || (fr_type f =? 1).
Proof.
  intros (Hwf & Hmax & Hrule) Hstep.
  destruct (frame_bytes_cons f Hwf Hmax) as (a & b & c & s0 & s1 & s2 & s3 & Hfb & Hbh & Hl & Hs0 & Hsid).
  pose proof (frame_header_decode st a b c (fr_type f) (fr_flags f) s0 s1 s2 s3 [] Hbh) as Hd.
  rewrite app_nil_r, Hsid, Hl in Hd.
  assert (0 <= s0 < 256) as Hs by (unfold is_bytes in Hbh; rewrite !Forall_cons in Hbh; tauto).
  assert (Z.land s0 k_h2_reserved_bit_mask = 0) as Hr.
  { pose proof (proj2 (land_7f s0 Hs)) as Hr. unfold nz in Hr. lia. }
  rewrite Hr in Hd. pose proof (zlen_nonneg (fr_payload f)).
  destruct (check_frame_complete st (zlen (fr_payload f)) (fr_type f) (fr_flags f) (fr_stream f) o')
    as (st1 & Hc & Ho); [destruct Hwf; lia|done..|].
  do 2 eexists. split_and!; [exact Hfb|done..|by rewrite Hd, Hc|done|].
  apply check_frame_sound in Hc as (_ & _ & _ & Hseen); [done|lia|destruct Hwf; lia].
Qed.

Lemma sniff_loop_complete fs n pre st :
  zlen (pre ++ concat (map frame_bytes fs)) < 2 ^ 31 -> (length fs <= n)%nat -> Forall frame_ok fs ->
  header_blocks (open_of st) fs ->
  exists st', sniff_loop n (list_umem (pre ++ concat (map frame_bytes fs)))
      (zlen (pre ++ concat (map frame_bytes fs))) (zlen pre) st
    = Some (st', zlen (pre ++ concat (map frame_bytes fs))) /\ expect_continuation st' = false
      /\ seen_headers st' = seen_headers st || has_headers fs.
Proof.
  revert n pre st. induction fs as [|f fs IH]; intros n pre st Hlen Hn Hok Hb.
  - exists st. cbn [map concat]. rewrite app_nil_r, sniff_loop_past by lia.
    rewrite orb_false_r. split_and!; [done| |done]. unfold open_of in Hb.
    by destruct (expect_continuation st); [inversion Hb|].
  - destruct n as [|n]; [simpl in Hn; lia|]. inversion_clear Hb as [|? ? o' ? Hstep Hrest].
    apply Forall_cons in Hok as [Hf Hok].
    destruct (frame_header_accepts f st o' Hf Hstep) as (h & st1 & Hfb & Hh & _ & _ & Hd & <- & Hseen).
    cbn [map concat] in *. rewrite Hfb, <- app_assoc in *. rewrite sniff_loop_cons, Hd by done.
    assert (Hlen' := Hlen). rewrite !zlen_app in Hlen'. pose proof (zlen_nonneg pre).
    pose proof (zlen_nonneg (fr_payload f)). pose proof (zlen_nonneg (concat (map frame_bytes fs))).
    rewrite (wrap_small 32) by (kunfold; lia).
    replace (zlen pre + (k_h2_frame_header_len + zlen (fr_payload f)))
      with (zlen (pre ++ h ++ fr_payload f)) by (rewrite !zlen_app; kunfold; lia).
    replace (pre ++ h ++ fr_payload f ++ concat (map frame_bytes fs))
      with ((pre ++ h ++ fr_payload f) ++ concat (map frame_bytes fs)) in * by by rewrite <- !app_assoc.
    destruct (IH n (pre ++ h ++ fr_payload f) st1) as (st' & -> & ? & Hs); [done|simpl in Hn; lia|done|done|].
    exists st'. split_and!; [done|done|]. rewrite Hs, Hseen. simpl. by rewrite orb_assoc.
Qed.

(** ** The walk over an sk_msg *)

Definition pulls_ok (msg : sk_msg) : Prop := forall a b, msg_pull msg a b = pull_ok.

Lemma frame_header_ext st p q :
  agree 9 p q -> h2_sniff_frame_header st p = h2_sniff_frame_header st q.
Proof.
  intros H. unfold h2_sniff_frame_header, h2_frame_payload_len, h2_stream_id.
  by rewrite !H by lia.
Qed.

(** One iteration of the sk_msg walk over a 9-byte header [h]. *)
Lemma msg_loop_cons n msg pre h r st hp :
  pulls_ok msg -> msg_bytes msg = pre ++ h ++ r -> zlen h = 9 -> msg_size msg < 2 ^ 31 ->
  sniff_msg_loop (S n) msg true (zlen pre) st hp
  = let '(st', fl) := h2_sniff_frame_header st (list_buf h) in
    match st' with
    | None => (k_h2_walk_mismatch, hp)
    | Some st' =>
        sniff_msg_loop n msg true (u32 (zlen pre + (k_h2_frame_header_len + fl))) st'
          (if (list_buf h 3 =? k_h2_frame_headers) && negb (seen_headers st)
           then zlen pre + k_h2_frame_header_len + h2_hpack_prefix_len (list_buf h 4) else hp)
    end.
Proof.
  intros Hp Hm Hh Hlen. cbn [sniff_msg_loop]. unfold msg_size in *. rewrite Hm in *.
  pose proof (zlen_nonneg pre). pose proof (zlen_nonneg r).
  pose proof (zlen_app pre (h ++ r)). pose proof (zlen_app h r).
  rewrite (proj2 (Z.ltb_lt (zlen pre) _)), (wrap_small 32 (zlen pre + k_h2_frame_header_len)) by (kunfold; lia).
  rewrite (proj2 (Z.ltb_ge _ (zlen pre + k_h2_frame_header_len))) by (kunfold; lia).
  rewrite bool_decide_eq_true_2 by done. cbn [negb].
  assert (Hag : agree 9 (shift (list_buf (pre ++ h ++ r)) (zlen pre)) (list_buf h)).
  { intros i Hi. unfold shift. rewrite list_buf_app_r, list_buf_app_l by lia. done. }
  rewrite (frame_header_ext st _ _ Hag), !Hag by lia.
  destruct (h2_sniff_frame_header st (list_buf h)) as [[st'|] fl]; [|done]. f_equal.
  destruct (_ && _); [|done]. unfold h2_hpack_prefix_len. bdes_goal; rewrite ?(wrap_small 32) by (kunfold; lia); done.
Qed.

Lemma msg_loop_past n msg pos st hp : msg_size msg <= pos ->
  sniff_msg_loop n msg true pos st hp = (h2_sniff_walk_result st pos (msg_size msg), hp).
Proof. intros. destruct n; [done|]. cbn [sniff_msg_loop]. by rewrite (proj2 (Z.ltb_ge pos _)) by lia. Qed.

(** Where the first HEADERS frame's header block starts, from offset [at]. *)
Fixpoint first_hpack_offset (at_ : Z) (fs : list h2_frame) : option Z :=
  match fs with
  | [] => None
  | f :: fs' =>
      if fr_type f =? 1 then Some (at_ + 9 + h2_hpack_prefix_len (fr_flags f))
      else first_hpack_offset (at_ + zlen (frame_bytes f)) fs'
  end.

Lemma msg_loop_frames fs n msg pre st hp :
  pulls_ok msg -> msg_bytes msg = pre ++ concat (map frame_bytes fs) -> 0 < msg_size msg < 2 ^ 31 ->
  (length fs <= n)%nat -> Forall frame_ok fs -> header_blocks (open_of st) fs ->
  sniff_msg_loop n msg true (zlen pre) st hp
  = (k_h2_walk_tiled, if seen_headers st then hp else default hp (first_hpack_offset (zlen pre) fs)).
Proof.
  intros Hp. revert n pre st hp. induction fs as [|f fs IH]; intros n pre st hp Hm Hlen Hn Hok Hb.
  - cbn [map concat] in Hm. rewrite app_nil_r in Hm.
    assert (E : msg_size msg = zlen pre) by by unfold msg_size; rewrite Hm.
    rewrite msg_loop_past by lia. unfold h2_sniff_walk_result, h2_sniff_tiles, nz.
    rewrite (proj2 (Z.ltb_ge _ _)) by lia. unfold open_of in Hb.
    destruct (expect_continuation st); [by inversion Hb|].
    replace (_ && _) with true by lia. by destruct (seen_headers st).
  - destruct n as [|n]; [simpl in Hn; lia|]. inversion_clear Hb as [|? ? o' ? Hstep Hrest].
    apply Forall_cons in Hok as [Hf Hok].
    destruct (frame_header_accepts f st o' Hf Hstep) as (h & st1 & Hfb & Hh & H3 & H4 & Hd & <- & Hseen).
    cbn [map concat first_hpack_offset] in *. rewrite Hfb, <- app_assoc in Hm.
    rewrite (msg_loop_cons n msg pre h _ st hp Hp Hm Hh), Hd, H3, H4 by lia.
    assert (Hlen' := Hlen). unfold msg_size in Hlen'. rewrite Hm, !zlen_app in Hlen'.
    pose proof (zlen_nonneg pre). pose proof (zlen_nonneg (fr_payload f)).
    pose proof (zlen_nonneg (concat (map frame_bytes fs))).
    rewrite (wrap_small 32) by (kunfold; lia).
    replace (zlen pre + (k_h2_frame_header_len + zlen (fr_payload f)))
      with (zlen (pre ++ frame_bytes f)) by (rewrite Hfb, !zlen_app; kunfold; lia).
    rewrite IH; [|by rewrite Hm, Hfb, <- !app_assoc|done|simpl in Hn; lia|done|done].
    rewrite Hseen, zlen_app. f_equal. kunfold.
    destruct (seen_headers st), (fr_type f =? 1); simpl; done.
Qed.

Lemma has_headers_Exists fs : has_headers fs = true <-> Exists (fun f => fr_type f = 1) fs.
Proof.
  unfold has_headers. rewrite existsb_exists, Exists_exists. setoid_rewrite Z.eqb_eq.
  by setoid_rewrite list_elem_of_In.
Qed.

(** The bytes are at most eight conforming frames, HEADERS among them. *)
Definition h2_frames_with_headers (l : list Z) : Prop :=
  exists fs, l = concat (map frame_bytes fs) /\ (length fs <= 8)%nat /\ conforming fs
             /\ Exists (fun f => fr_type f = 1) fs.

(** ** Properties *)

(** C11: the sniffer accepts exactly conforming HTTP/2.  For every readable buffer below 2 GiB,
    [looks_like_http2_frames] returns 1 if and only if the buffer is the concatenation of at most
    eight HTTP/2 frames that obey the per-frame rules, never interleave a header block, leave no
    block open, and include HEADERS. *)
Theorem looks_like_http2_frames_exact l :
  is_bytes l -> 0 < zlen l < 2 ^ 31 ->
  looks_like_http2_frames (list_umem l) (zlen l) = true <-> h2_frames_with_headers l.
Proof.
  intros Hb Hlen. unfold looks_like_http2_frames, h2_frames_with_headers, conforming.
  rewrite (wrap_small 32) by lia. change (Z.to_nat k_h2_sniff_max_frames) with 8%nat.
  split.
  - destruct (zlen l <? k_h2_frame_header_len); [done|].
    destruct (sniff_loop _ _ _ _ _) as [[st pos]|] eqn:H; [|done].
    unfold h2_sniff_accept, h2_sniff_tiles. rewrite !andb_true_iff, negb_true_iff, Z.eqb_eq.
    intros [Hs [[_ ->] Hc]].
    apply (sniff_loop_sound 8 [] l) in H as (fs & -> & ? & ? & ? & Hseen); [|done..|simpl; lia|done].
    exists fs. split_and!; [done..|]. apply has_headers_Exists. by rewrite Hs in Hseen.
  - intros (fs & -> & Hn & [Hok Hbl] & Hh%has_headers_Exists).
    destruct (sniff_loop_complete fs 8 [] sniff_init) as (st' & H & Hc & Hs); [simpl; lia|done..|].
    simpl app in H. change (zlen []) with 0 in H. rewrite H.
    rewrite (proj2 (Z.ltb_ge _ _)).
    + unfold h2_sniff_accept, h2_sniff_tiles, nz. rewrite Hs, Hh, Hc. simpl. lia.
    + destruct fs as [|f fs]; [by inversion Hh|]. cbn [map concat]. rewrite zlen_app.
      unfold frame_bytes. rewrite be_bytes_3, be_bytes_4, !zlen_app. unfold zlen. simpl. kunfold. lia.
Qed.

(** SETTINGS and an END_HEADERS HEADERS frame of stream 1 with a one-byte block. *)
Definition example_frames : list h2_frame := [mk_frame 4 0 0 []; mk_frame 1 4 1 [0x82]].

Lemma example_frames_conforming : conforming example_frames.
Proof.
  split.
  - unfold example_frames. repeat constructor; simpl; try lia; kunfold; done.
  - eapply blocks_frame; [by apply block_other|]. eapply blocks_frame; [apply block_open; by left|].
    constructor.
Qed.

Lemma looks_like_http2_frames_exact_witness :
  looks_like_http2_frames (list_umem (concat (map frame_bytes example_frames))) 19 = true.
Proof.
  apply (looks_like_http2_frames_exact (concat (map frame_bytes example_frames)));
    [unfold is_bytes; vm_compute; repeat constructor; done|vm_compute; split; done|].
  exists example_frames. split_and!; [done|simpl; lia|exact example_frames_conforming|].
  right. by left.
Defined.

(** The sk_msg walk finds the first header block.  On a message below 2 GiB whose ranges can
    all be pulled, the strict walk over at most eight conforming frames reports [k_h2_walk_tiled],
    and the HPACK offset of the first HEADERS frame past its padding and priority prefix (0 when
    there is none). *)
Theorem sniff_http2_frames_first_headers msg fs :
  pulls_ok msg -> 0 < msg_size msg < 2 ^ 31 -> msg_bytes msg = concat (map frame_bytes fs) ->
  (length fs <= 8)%nat -> conforming fs ->
  sniff_http2_frames msg true = (k_h2_walk_tiled, default 0 (first_hpack_offset 0 fs)).
Proof. intros Hp Hl Hm Hn [Hok Hb]. by apply (msg_loop_frames fs 8 msg [] sniff_init 0). Qed.

Lemma sniff_http2_frames_first_headers_witness :
  sniff_http2_frames (mk_msg (concat (map frame_bytes example_frames)) (fun _ _ => pull_ok)) true
  = (k_h2_walk_tiled, 18).
Proof.
  apply (sniff_http2_frames_first_headers (mk_msg _ _) example_frames);
    [done|vm_compute; done|done|simpl; lia|exact example_frames_conforming].
Defined.

(** The two byte swaps of the reader, on the packed little-endian words. *)
Lemma swap_length a b c :
  0 <= a < 256 -> 0 <= b < 256 -> 0 <= c < 256 ->
  wrap 24 (bswap32 (u32 (Z.shiftl (le_word [a; b; c]) 8))) = be24 a b c.
Proof.
  intros. rewrite Z.shiftl_mul_pow2 by lia. unfold be24. cbn [le_word].
  rewrite (wrap_small 32) by lia. rewrite bswap32_spec.
  set (x := _ * 2 ^ 8).
  assert (x mod 256 = 0) as -> by (unfold x; zdm).
  assert (x / 256 mod 256 = a) as -> by (unfold x; zdm).
  assert (x / 65536 mod 256 = b) as -> by (unfold x; zdm).
  assert (x / 16777216 mod 256 = c) as -> by (unfold x; zdm).
  apply wrap_small. lia.
Qed.

Lemma swap_stream_id a b c d :
  0 <= a < 128 -> 0 <= b < 256 -> 0 <= c < 256 -> 0 <= d < 256 ->
  wrap 31 (bswap32 (u32 (Z.shiftl (le_word [a; b; c; d] / 2) 1))) = a / 2 * 33554432 + be24 b c d.
Proof.
  intros. rewrite Z.shiftl_mul_pow2 by lia. unfold be24. cbn [le_word].
  set (x := _ / 2 * 2 ^ 1).
  assert (x = a / 2 * 2 + 256 * b + 65536 * c + 16777216 * d) as E by (unfold x; zdm).
  clearbody x. subst x. rewrite (wrap_small 32) by zdm. rewrite bswap32_spec.
  set (x := _ + 16777216 * d). assert (0 <= a / 2 < 64) by zdm.
  assert (x mod 256 = a / 2 * 2) as -> by (unfold x; zdm).
  assert (x / 256 mod 256 = b) as -> by (unfold x; zdm).
  assert (x / 65536 mod 256 = c) as -> by (unfold x; zdm).
  assert (x / 16777216 mod 256 = d) as -> by (unfold x; zdm).
  rewrite (wrap_small 31) by lia. lia.
Qed.

(** The frame header reader.  On the nine header octets of a frame with a non-empty payload
    and a type up to CONTINUATION, [read_http2_grpc_frame_header] succeeds with the frame's
    length, type and flags; the stream identifier comes back with bit 24 cleared, because the
    1-bit [__ignore] field is the low bit of the identifier's first octet.  So it is exact below
    stream 2^24, and stream 2^24 + k is taken for stream k when k < 2^24. *)
Theorem read_frame_header_fields frame len ty fl sid r :
  0 < len < 2 ^ 24 -> 0 <= ty <= 9 -> 0 <= fl < 256 -> 0 <= sid < 2 ^ 31 ->
  exists ign,
    read_http2_grpc_frame_header frame
      (list_buf (be_bytes 3 len ++ [ty; fl] ++ be_bytes 4 sid ++ r)) k_frame_header_len
    = (mk_fh len ty fl ign (sid - sid / 2 ^ 24 mod 2 * 2 ^ 24), true).
Proof.
  intros Hlen Hty Hfl Hsid. unfold read_http2_grpc_frame_header, load_frame_header.
  change (k_frame_header_len <? k_frame_header_len) with false. cbv iota zeta.
  rewrite be_bytes_3, be_bytes_4. rewrite !take_buf_S. unfold shift. lbuf.
  change (take_buf _ 0) with (@nil Z). cbn [fh_length fh_type fh_flags fh_ignore fh_stream_id].
  assert (le_word [len / 65536 mod 256; len / 256 mod 256; len mod 256] <> 0) as Hnz
    by (cbn [le_word]; zdm).
  rewrite (proj2 (Z.eqb_neq _ 0) Hnz), (proj2 (Z.ltb_ge FrameContinuation ty)) by (kunfold; lia).
  cbn [orb]. eexists. f_equal.
  rewrite swap_length, swap_stream_id by zdm. unfold be24. f_equal; zdm.
Qed.

Lemma read_frame_header_fields_witness :
  exists ign, read_http2_grpc_frame_header (mk_fh 0 0 0 0 0)
    (list_buf (be_bytes 3 7 ++ [1; 4] ++ be_bytes 4 (2 ^ 24 + 1) ++ [])) 9 = (mk_fh 7 1 4 ign 1, true).
Proof. apply (read_frame_header_fields _ 7 1 4 (2 ^ 24 + 1) []); lia. Defined.
