(* ===== verification/H2Huffman.v ===== *)
(** * Huffman-coded traceparent values ([bpf/common/h2_tp_huffman.h]).

    The table-driven decoder of a 55-character traceparent value.  The reference is the RFC 7541
    code of its alphabet, as bit strings: [huffman_string w len v] says that the [len] octets at
    [w] are the code of [v] with the padding section 5.2 asks for. *)

From Stdlib Require Import ZArith Lia ZifyBool List Bool.
From stdpp Require Import base list.
From S2P Require Import Prelude TraceUtil H2Defs.

Local Open Scope Z_scope.

(** ** Definitions *)

Definition k_h2_tp_huff_min : Z := 35.
Definition k_h2_tp_huff_max : Z := 42.
Definition k_h2_tp_huff_window : Z := 64.
Definition k_h2_tp_huff_mask : Z := k_h2_tp_huff_window - 1.
Definition k_h2_tp_huff_lookahead : Z := 6.
Definition k_h2_tp_huff_wide : Z := 0x80.
Definition k_h2_tp_hpack_huff_min : Z := k_hpack_tp_val_offset_huffman + k_h2_tp_huff_min.
Definition k_h2_tp_huff_at_max : Z := k_hpack_tp_max_scan + k_hpack_tp_val_offset.
Definition k_h2_tp_huff_max_candidates : Z := 3.

#[export] Hint Unfold k_h2_tp_huff_min k_h2_tp_huff_max k_h2_tp_huff_window k_h2_tp_huff_mask
  k_h2_tp_huff_lookahead k_h2_tp_huff_wide k_h2_tp_hpack_huff_min k_h2_tp_huff_at_max
  k_h2_tp_huff_max_candidates : kconst.

Definition k_h2_tp_huff : list Z :=
  [0x30; 0x30; 0x31; 0x31; 0x32; 0x32; 0x61; 0x61; 0x63; 0x63; 0x65; 0x65] ++ repeat 0 10
  ++ [0xad; 0; 0; 0xb3; 0xb4; 0xb5; 0xb6; 0xb7; 0xb8; 0xb9] ++ repeat 0 3
  ++ [0xe2; 0xe4; 0xe6] ++ repeat 0 26.

Record h2_tp_huff_candidate := mk_candidate { cand_at : Z; cand_len : Z }.

Record h2_tp_huff_scan := mk_huff_scan {
  scan_at : buf;
  scan_len : buf;
  scan_count : Z;
  scan_idx : Z;
  scan_done : Z;
  scan_resume : Z
}.

Definition h2_tp_huff_len_plausible (len_byte : Z) : bool :=
  if negb (nz (Z.land len_byte k_hpack_huffman_flag)) then false
  else
    let len := u8 (Z.land len_byte (Z.lnot k_hpack_huffman_flag)) in
    (k_h2_tp_huff_min <=? len) && (len <=? k_h2_tp_huff_max).

Record h2_huff_ctx := mk_huff_ctx {
  huff_out : buf;
  huff_bit : Z;
  huff_invalid : Z
}.

(** The six bits at the cursor. *)
Definition huff_lookahead (w : buf) (bit : Z) : Z :=
  let first_byte := Z.land (bit / 8) k_h2_tp_huff_mask in
  let bits_into_byte := bit mod 8 in
  let two_bytes :=
    Z.lor (Z.shiftl (w first_byte) 8) (w (Z.land (first_byte + 1) k_h2_tp_huff_mask)) in
  Z.land (Z.shiftr two_bytes (16 - k_h2_tp_huff_lookahead - bits_into_byte)) 0x3f.

Definition h2_huff_step (w : buf) (i : Z) (c : h2_huff_ctx) : h2_huff_ctx * bool :=
  if k_hpack_value_len_tp <=? i then (c, true)
  else
    let entry := nth (Z.to_nat (huff_lookahead w (huff_bit c))) k_h2_tp_huff 0 in
    let is_wide := b2z (nz (Z.land entry k_h2_tp_huff_wide)) in
    (mk_huff_ctx (upd (huff_out c) i (Z.land entry (u8 (Z.lnot k_h2_tp_huff_wide))))
       (u32 (huff_bit c + (5 + is_wide))) (u32 (huff_invalid c + b2z (entry =? 0))), false).

(** The context after the [bpf_loop] over the 55 characters. *)
Definition huff_final (w out : buf) : h2_huff_ctx :=
  bpf_loop k_hpack_value_len_tp (h2_huff_step w) (mk_huff_ctx out 0 0).

(** The result and the output buffer. *)
Definition h2_huff_decode_tp (w : buf) (len : Z) (out : buf) : bool * buf :=
  if (len <? k_h2_tp_huff_min) || (k_h2_tp_huff_max <? len) then (false, out)
  else
    let c := huff_final w out in
    let out := huff_out c in
    if nz (huff_invalid c) || negb (u32 (huff_bit c + 7) / 8 =? len) then (false, out)
    else
      let pad := u32 (len * 8 - huff_bit c) in
      if 7 <? pad then (false, out)
      else
        let pad_mask := u8 (Z.shiftl 1 pad - 1) in
        let last := clamp_umax (len - 1) k_h2_tp_huff_mask in
        if nz pad && negb (Z.land (w last) pad_mask =? pad_mask) then (false, out)
        else
          ((out 0 =? 48) && (out 1 =? 48) && (out k_tp_val_dash1 =? 45)
           && (out k_tp_val_dash2 =? 45) && (out k_tp_val_dash3 =? 45), out).

(** ** The reference code *)

(** RFC 7541 appendix B for the traceparent alphabet: code value and width. *)
Definition rfc7541_code (c : Z) : option (Z * nat) :=
  if c =? 45 (* - *) then Some (0x16, 6%nat)
  else if (48 <=? c) && (c <=? 50) (* 0-2 *) then Some (c - 48, 5%nat)
  else if (51 <=? c) && (c <=? 57) (* 3-9 *) then Some (c - 51 + 0x19, 6%nat)
  else if c =? 97 (* a *) then Some (0x3, 5%nat)
  else if c =? 98 (* b *) then Some (0x23, 6%nat)
  else if c =? 99 (* c *) then Some (0x4, 5%nat)
  else if c =? 100 (* d *) then Some (0x24, 6%nat)
  else if c =? 101 (* e *) then Some (0x5, 5%nat)
  else if c =? 102 (* f *) then Some (0x25, 6%nat)
  else None.

(** The [n] low bits of [x], most significant first. *)
Definition msb_bits (n : nat) (x : Z) : list bool :=
  map (fun k => Z.testbit x (Z.of_nat n - 1 - Z.of_nat k)) (seq 0 n).

Definition huff_bits (c : Z) : list bool :=
  match rfc7541_code c with Some (v, n) => msb_bits n v | None => [] end.

Definition huff_char (c : Z) : bool :=
  match rfc7541_code c with Some _ => true | None => false end.

(** The bit of the octet string at bit offset [k]. *)
Definition bit_at (w : buf) (k : Z) : bool := Z.testbit (w (k / 8)) (7 - k mod 8).

Fixpoint wbits (w : buf) (at_ : Z) (n : nat) : list bool :=
  match n with
  | O => []
  | S n' => bit_at w at_ :: wbits w (at_ + 1) n'
  end.

Definition huff_code (v : list Z) : list bool := concat (map huff_bits v).

(** The [len] octets are the code of [v], padded with fewer than 8 ones. *)
Definition huffman_string (w : buf) (len : Z) (v : list Z) : Prop :=
  exists pad, (pad < 8)%nat /\ wbits w 0 (Z.to_nat (8 * len)) = huff_code v ++ repeat true pad.

(** Text with the shape of a version 00 traceparent value. *)
Definition tp_text (v : list Z) : Prop :=
  zlen v = 55 /\ Forall (fun c => huff_char c = true) v
  /\ list_buf v 0 = 48 /\ list_buf v 1 = 48 /\ list_buf v 2 = 45 /\ list_buf v 35 = 45
  /\ list_buf v 52 = 45.

(** ** Bits *)

Lemma wbits_length w a n : length (wbits w a n) = n.
Proof. revert a. induction n; intros; simpl; auto. Qed.

Lemma wbits_app w a n m : wbits w a (n + m) = wbits w a n ++ wbits w (a + Z.of_nat n) m.
Proof.
  revert a. induction n as [|n IH]; intros a; simpl; [by rewrite Z.add_0_r|].
  rewrite IH. do 3 f_equal. lia.
Qed.

Lemma wbits_map w a n : wbits w a n = map (fun k => bit_at w (a + Z.of_nat k)) (seq 0 n).
Proof.
  revert a. induction n as [|n IH]; intros a; simpl; [done|]. rewrite Z.add_0_r. f_equal.
  rewrite IH, <- seq_shift, map_map. apply map_ext. intros. f_equal. lia.
Qed.

Lemma wbits_ones w a n :
  wbits w a n = repeat true n <-> forall k, 0 <= k < Z.of_nat n -> bit_at w (a + k) = true.
Proof.
  revert a. induction n as [|n IH]; intros a; simpl; [split; [intros; lia|done]|]. split.
  - intros [= H0 H] k Hk. destruct (Z.eq_dec k 0) as [->|]; [by rewrite Z.add_0_r|].
    replace (a + k) with (a + 1 + (k - 1)) by lia. apply IH; [done|lia].
  - intros H. f_equal; [rewrite <- (H 0) by lia; by rewrite Z.add_0_r|].
    apply IH. intros k Hk. rewrite <- (H (1 + k)) by lia. f_equal. lia.
Qed.

Lemma wbits_ext w w' a n :
  (forall k, a <= k < a + Z.of_nat n -> bit_at w k = bit_at w' k) -> wbits w a n = wbits w' a n.
Proof.
  revert a. induction n as [|n IH]; intros a H; simpl; [done|].
  rewrite (H a) by lia. f_equal. apply IH. intros. apply H. lia.
Qed.

Lemma land_63 x : Z.land x 63 = x mod 64.
Proof. exact (land_ones_mod x 6 ltac:(lia)). Qed.

(** The lookahead holds the six window bits at the cursor. *)
Lemma huff_lookahead_testbit w bit k :
  (forall i, 0 <= w i < 256) -> 0 <= bit < 504 -> 0 <= k < 6 ->
  Z.testbit (huff_lookahead w bit) (5 - k) = bit_at w (bit + k).
Proof.
  intros Hw Hb Hk. unfold huff_lookahead, k_h2_tp_huff_mask, k_h2_tp_huff_window, k_h2_tp_huff_lookahead.
  change (64 - 1) with 63. rewrite !land_63. change (16 - 6) with 10.
  assert (0 <= bit / 8 < 63) by zdm. assert (0 <= bit mod 8 < 8) by zdm.
  rewrite (Z.mod_small (bit / 8) 64), (Z.mod_small (bit / 8 + 1) 64) by lia.
  rewrite <- (Z.mod_pow2_bits_low _ 6) by lia. change (2 ^ 6) with 64. rewrite Z.mod_mod by lia.
  change 64 with (2 ^ 6). rewrite Z.mod_pow2_bits_low, Z.shiftr_spec by lia.
  rewrite Z.lor_spec, Z.shiftl_spec by lia. unfold bit_at.
  destruct (Z.lt_ge_cases (bit mod 8 + k) 8).
  - assert ((bit + k) / 8 = bit / 8) as -> by zdm. assert ((bit + k) mod 8 = bit mod 8 + k) as -> by zdm.
    rewrite <- (Z.mod_small (w (bit / 8 + 1)) (2 ^ 8)) by (change (2 ^ 8) with 256; apply Hw).
    rewrite Z.mod_pow2_bits_high by lia. rewrite orb_false_r. f_equal. lia.
  - assert ((bit + k) / 8 = bit / 8 + 1) as -> by zdm. assert ((bit + k) mod 8 = bit mod 8 + k - 8) as -> by zdm.
    rewrite (Z.testbit_neg_r (w (bit / 8))) by lia. simpl. f_equal. lia.
Qed.

Lemma huff_lookahead_range w bit : 0 <= huff_lookahead w bit < 64.
Proof. unfold huff_lookahead. rewrite land_63. apply Z.mod_pos_bound. lia. Qed.

Lemma huff_lookahead_bits w bit :
  (forall i, 0 <= w i < 256) -> 0 <= bit < 504 -> msb_bits 6 (huff_lookahead w bit) = wbits w bit 6.
Proof.
  intros Hw Hb. rewrite wbits_map. unfold msb_bits. apply map_ext_in. intros k Hk%in_seq.
  rewrite <- huff_lookahead_testbit by (done || lia). done.
Qed.

(** ** The table against the code *)

Definition entry_ok (x : Z) : bool :=
  let e := nth (Z.to_nat x) k_h2_tp_huff 0 in
  let c := Z.land e (u8 (Z.lnot k_h2_tp_huff_wide)) in
  (e =? 0)
  || (huff_char c && (Z.of_nat (length (huff_bits c)) =? 5 + b2z (nz (Z.land e k_h2_tp_huff_wide)))
      && bool_decide (take (length (huff_bits c)) (msb_bits 6 x) = huff_bits c)).

Definition char_ok (c x : Z) : bool :=
  let e := nth (Z.to_nat x) k_h2_tp_huff 0 in
  negb (huff_char c && bool_decide (take (length (huff_bits c)) (msb_bits 6 x) = huff_bits c))
  || (negb (e =? 0) && (Z.land e (u8 (Z.lnot k_h2_tp_huff_wide)) =? c)).

Lemma huff_char_range c : huff_char c = true -> 0 <= c < 256.
Proof.
  unfold huff_char. destruct (rfc7541_code c) eqn:E; [|done]. intros _. revert E.
  unfold rfc7541_code. bdes_goal; intros; (done || lia).
Qed.

Lemma huff_bits_length c : huff_char c = true -> (5 <= length (huff_bits c) <= 6)%nat.
Proof.
  unfold huff_char, huff_bits. destruct (rfc7541_code c) as [[v n]|] eqn:E; [|done]. intros _.
  unfold msb_bits. rewrite length_map, length_seq. revert E. unfold rfc7541_code. bdes_goal; intros; simplify_eq; lia.
Qed.

Lemma entry_sound x : 0 <= x < 64 -> entry_ok x = true.
Proof. intros. refine (zrange_forallb 64 entry_ok _ x ltac:(lia)). by vm_compute. Qed.

Lemma char_complete c x : 0 <= c < 256 -> 0 <= x < 64 -> char_ok c x = true.
Proof.
  intros Hc Hx. refine (zrange_forallb 64 (char_ok c) _ x ltac:(lia)).
  refine (zrange_forallb 256 (fun c => forallb (char_ok c) (zrange 64)) _ c ltac:(lia)). by vm_compute.
Qed.

(** One lookup at the cursor. *)
Definition huff_entry (w : buf) (bit : Z) : Z := nth (Z.to_nat (huff_lookahead w bit)) k_h2_tp_huff 0.
Definition entry_char (e : Z) : Z := Z.land e (u8 (Z.lnot k_h2_tp_huff_wide)).
Definition entry_width (e : Z) : Z := 5 + b2z (nz (Z.land e k_h2_tp_huff_wide)).

Lemma wbits_take w a n m : (n <= m)%nat -> take n (wbits w a m) = wbits w a n.
Proof.
  intros. replace m with (n + (m - n))%nat by lia. rewrite wbits_app.
  rewrite take_app_le, take_ge; rewrite ?wbits_length; done.
Qed.

Lemma lookup_sound w bit :
  (forall i, 0 <= w i < 256) -> 0 <= bit < 504 -> huff_entry w bit <> 0 ->
  let c := entry_char (huff_entry w bit) in
  huff_char c = true /\ Z.of_nat (length (huff_bits c)) = entry_width (huff_entry w bit)
  /\ wbits w bit (length (huff_bits c)) = huff_bits c.
Proof.
  intros Hw Hb He. pose proof (entry_sound _ (huff_lookahead_range w bit)) as H.
  unfold entry_ok in H. fold (huff_entry w bit) in H. cbv zeta in *.
  fold (entry_char (huff_entry w bit)) in H. fold (entry_width (huff_entry w bit)) in H.
  rewrite (proj2 (Z.eqb_neq _ 0) He) in H. cbn [orb] in H. rewrite !andb_true_iff in H.
  destruct H as [[Hc Hl%Z.eqb_eq] Hbits%bool_decide_eq_true]. split_and!; [done|done|].
  rewrite huff_lookahead_bits, wbits_take in Hbits; [done| |done|done].
  pose proof (huff_bits_length _ Hc). lia.
Qed.

Lemma lookup_complete w bit c :
  (forall i, 0 <= w i < 256) -> 0 <= bit < 504 -> huff_char c = true ->
  wbits w bit (length (huff_bits c)) = huff_bits c ->
  huff_entry w bit <> 0 /\ entry_char (huff_entry w bit) = c.
Proof.
  intros Hw Hb Hc Hbits.
  pose proof (char_complete c _ (huff_char_range c Hc) (huff_lookahead_range w bit)) as H.
  unfold char_ok in H. fold (huff_entry w bit) in H. cbv zeta in *.
  fold (entry_char (huff_entry w bit)) in H. pose proof (huff_bits_length _ Hc).
  rewrite huff_lookahead_bits, wbits_take, Hc, bool_decide_eq_true_2 in H by (done || lia).
  cbn [negb orb andb] in H. lia.
Qed.

Lemma entry_width_range e : 5 <= entry_width e <= 6.
Proof. unfold entry_width, b2z. bdes_goal; lia. Qed.

Lemma take_buf_snoc p n : take_buf p (S n) = take_buf p n ++ [p (Z.of_nat n)].
Proof. unfold take_buf. by rewrite seq_S, map_app. Qed.

Lemma take_buf_upd p n v : take_buf (upd p (Z.of_nat n) v) (S n) = take_buf p n ++ [v].
Proof.
  rewrite take_buf_snoc. unfold upd at 2. rewrite Z.eqb_refl. f_equal. apply take_buf_ext.
  intros i Hi. unfold upd. by rewrite (proj2 (Z.eqb_neq _ _)) by lia.
Qed.

Lemma huff_code_snoc v c : huff_code (v ++ [c]) = huff_code v ++ huff_bits c.
Proof. unfold huff_code. rewrite map_app, concat_app. simpl. by rewrite app_nil_r. Qed.

Lemma huff_step_eq w i c :
  0 <= i < 55 -> 0 <= huff_bit c < 504 -> 0 <= huff_invalid c < 100 ->
  h2_huff_step w i c
  = (mk_huff_ctx (upd (huff_out c) i (entry_char (huff_entry w (huff_bit c))))
       (huff_bit c + entry_width (huff_entry w (huff_bit c)))
       (huff_invalid c + b2z (huff_entry w (huff_bit c) =? 0)), false).
Proof.
  intros. unfold h2_huff_step. rewrite (proj2 (Z.leb_gt _ i)) by (kunfold; lia).
  fold (huff_entry w (huff_bit c)). cbv zeta. fold (entry_char (huff_entry w (huff_bit c))).
  fold (entry_width (huff_entry w (huff_bit c))). pose proof (entry_width_range (huff_entry w (huff_bit c))).
  rewrite (wrap_small 32 (_ + entry_width _)), (wrap_small 32) by (unfold b2z; bdes_goal; lia). done.
Qed.

(** ** The loop *)

Lemma huff_loop_sound w out :
  (forall i, 0 <= w i < 256) ->
  let c := huff_final w out in
  0 <= huff_bit c <= 330 /\ 0 <= huff_invalid c <= 55 /\
  (huff_invalid c = 0 -> wbits w 0 (Z.to_nat (huff_bit c)) = huff_code (take_buf (huff_out c) 55)
    /\ Forall (fun x => huff_char x = true) (take_buf (huff_out c) 55)).
Proof.
  intros Hw. unfold huff_final, bpf_loop. change (Z.to_nat k_hpack_value_len_tp) with 55%nat.
  apply (bpf_loop_from_inv (fun i c => 0 <= huff_bit c <= 6 * i /\ 0 <= huff_invalid c <= i /\
    (huff_invalid c = 0 ->
       wbits w 0 (Z.to_nat (huff_bit c)) = huff_code (take_buf (huff_out c) (Z.to_nat i))
       /\ Forall (fun x => huff_char x = true) (take_buf (huff_out c) (Z.to_nat i))))); [simpl; split_and!; done || lia| |].
  - intros i c Hi (Hb & Hv & H). rewrite huff_step_eq by lia. cbn [huff_bit huff_invalid huff_out].
    pose proof (entry_width_range (huff_entry w (huff_bit c))).
    split_and!; [lia|lia|unfold b2z; bdes_goal; lia|unfold b2z; bdes_goal; lia|].
    intros Hz. destruct (Z.eqb_spec (huff_entry w (huff_bit c)) 0) as [|He]; simpl in Hz; [lia|].
    destruct H as [Hbits Hall]; [lia|]. destruct (lookup_sound w (huff_bit c) Hw ltac:(lia) He) as (Hc & Hl & Hn).
    replace (Z.to_nat (i + 1)) with (S (Z.to_nat i)) by lia.
    replace i with (Z.of_nat (Z.to_nat i)) at 1 3 by lia. rewrite take_buf_upd.
    rewrite huff_code_snoc, <- Hbits. split; [|apply Forall_app; by split; [|constructor]].
    rewrite Z2Nat.inj_add, wbits_app, Z2Nat.id by lia. f_equal. rewrite <- Hl, Nat2Z.id. exact Hn.
  - intros c H. replace (0 + Z.of_nat 55) with 55 in H by done. split_and!; [lia..|apply H].
Qed.

Lemma huff_code_app v v' : huff_code (v ++ v') = huff_code v ++ huff_code v'.
Proof. unfold huff_code. by rewrite map_app, concat_app. Qed.

Lemma huff_code_length v : Forall (fun x => huff_char x = true) v ->
  (5 * length v <= length (huff_code v) <= 6 * length v)%nat.
Proof.
  induction 1 as [|c v Hc Hv IH]; [done|]. unfold huff_code in *. cbn [map concat].
  rewrite length_app. pose proof (huff_bits_length c Hc). simpl length. lia.
Qed.

Lemma huff_loop_complete w out v :
  (forall i, 0 <= w i < 256) -> length v = 55%nat -> Forall (fun x => huff_char x = true) v ->
  wbits w 0 (length (huff_code v)) = huff_code v ->
  let c := huff_final w out in
  huff_bit c = zlen (huff_code v) /\ huff_invalid c = 0 /\ take_buf (huff_out c) 55 = v.
Proof.
  intros Hw Hl Hv Hbits. unfold huff_final, bpf_loop. change (Z.to_nat k_hpack_value_len_tp) with 55%nat.
  apply (bpf_loop_from_inv (fun i c => huff_bit c = zlen (huff_code (take (Z.to_nat i) v)) /\ huff_invalid c = 0
    /\ take_buf (huff_out c) (Z.to_nat i) = take (Z.to_nat i) v)); [done| |].
  - intros i c Hi (Hb & Hi0 & Ho).
    destruct (lookup_lt_is_Some_2 v (Z.to_nat i)) as [x Hx]; [lia|].
    pose proof (take_S_r _ _ _ Hx) as Ht.
    assert (Hvt := Hv). rewrite <- (take_drop (S (Z.to_nat i)) v) in Hvt. rewrite Ht in Hvt.
    apply Forall_app in Hvt as [[Hvt [Hc _]%Forall_cons]%Forall_app _].
    pose proof (huff_code_length _ Hvt) as Hlt. rewrite length_take in Hlt.
    assert (Hbit : 0 <= huff_bit c < 504) by (rewrite Hb; unfold zlen; lia).
    assert (Hn : wbits w (huff_bit c) (length (huff_bits x)) = huff_bits x).
    { rewrite <- (take_drop (S (Z.to_nat i)) v), Ht, huff_code_app, huff_code_snoc, !length_app in Hbits.
      rewrite !wbits_app in Hbits. apply app_inj_1 in Hbits as [Hbits _];
        [|by rewrite !length_app, !wbits_length].
      apply app_inj_1 in Hbits as [_ Hbits]; [|by rewrite wbits_length]. by rewrite Hb. }
    destruct (lookup_complete w (huff_bit c) x Hw Hbit Hc Hn) as [He Hec].
    destruct (lookup_sound w (huff_bit c) Hw Hbit He) as (_ & Hwd & _). rewrite Hec in Hwd.
    rewrite huff_step_eq by lia. cbn [huff_bit huff_invalid huff_out].
    rewrite Hec, <- Hwd, (proj2 (Z.eqb_neq _ 0) He). simpl b2z.
    replace (Z.to_nat (i + 1)) with (S (Z.to_nat i)) by lia. rewrite Ht, huff_code_snoc.
    split_and!; [unfold zlen in *; rewrite length_app; lia|lia|].
    replace i with (Z.of_nat (Z.to_nat i)) at 1 by lia. by rewrite take_buf_upd, Ho.
  - intros c (Hb & Hi & Ho). change (Z.to_nat (0 + Z.of_nat 55)) with 55%nat in *.
    rewrite <- Hl, firstn_all in *. done.
Qed.

Lemma pad_mask_ones b pad : 0 <= b < 256 -> 0 <= pad < 8 ->
  (Z.land b (u8 (Z.shiftl 1 pad - 1)) = u8 (Z.shiftl 1 pad - 1)
   <-> forall k, 0 <= k < pad -> Z.testbit b k = true).
Proof.
  intros Hb Hp.
  assert (u8 (Z.shiftl 1 pad - 1) = Z.ones pad) as ->.
  { rewrite Z.shiftl_mul_pow2, Z.mul_1_l, Z.ones_equiv by lia. apply wrap_small.
    assert (2 ^ pad <= 2 ^ 8) by (apply Z.pow_le_mono_r; lia). lia. }
  split.
  - intros H k Hk. assert (Z.testbit (Z.land b (Z.ones pad)) k = true)
      by (rewrite H; apply Z.ones_spec_low; lia).
    rewrite Z.land_spec in H0. apply andb_true_iff in H0. tauto.
  - intros H. apply Z.bits_inj'. intros k Hk. rewrite Z.land_spec.
    destruct (Z.lt_ge_cases k pad); [rewrite H, Z.ones_spec_low by lia; done|].
    rewrite Z.ones_spec_high by lia. apply andb_false_r.
Qed.

Lemma pad_bits w len pad : (forall i, 0 <= w i < 256) -> 0 < len -> 0 <= pad < 8 ->
  (Z.land (w (len - 1)) (u8 (Z.shiftl 1 pad - 1)) = u8 (Z.shiftl 1 pad - 1)
   <-> wbits w (8 * len - pad) (Z.to_nat pad) = repeat true (Z.to_nat pad)).
Proof.
  intros Hw Hl Hp. rewrite pad_mask_ones, wbits_ones by done. unfold bit_at.
  assert (E : forall k, 0 <= k < pad -> (8 * len - pad + k) / 8 = len - 1
    /\ 7 - (8 * len - pad + k) mod 8 = pad - 1 - k) by (intros; split; zdm).
  split; intros H k Hk.
  - destruct (E k) as [-> ->]; [lia|]. apply H. lia.
  - specialize (H (pad - 1 - k) ltac:(lia)). destruct (E (pad - 1 - k)) as [E1 E2]; [lia|].
    rewrite E1, E2 in H. by replace (pad - 1 - (pad - 1 - k)) with k in H by lia.
Qed.

Lemma take_buf_list_buf p n i : 0 <= i < Z.of_nat n -> list_buf (take_buf p n) i = p i.
Proof.
  intros Hi. rewrite list_buf_nth by lia. unfold take_buf.
  rewrite nth_indep with (d' := p (Z.of_nat 0)) by (rewrite length_map, length_seq; lia).
  rewrite (map_nth (fun i => p (Z.of_nat i)) (seq 0 n) 0%nat), seq_nth by lia. f_equal. lia.
Qed.

(** ** Properties *)

(** What the decoder accepts is a coded trace context, and its output is the text. *)
Lemma huff_decode_sound w len out v :
  (forall i, 0 <= w i < 256) -> 0 <= len ->
  fst (h2_huff_decode_tp w len out) = true /\ take_buf (snd (h2_huff_decode_tp w len out)) 55 = v -> tp_text v /\ huffman_string w len v.
Proof.
  intros Hw Hlen. unfold h2_huff_decode_tp. destruct (huff_loop_sound w out Hw) as (Hbit & Hinv & Hsound).
  generalize dependent (huff_final w out). intros c. intros Hbit Hinv Hsound. cbv zeta in *.
  destruct (_ || _) eqn:Hr; [by intros [? _]|].
  destruct (nz (huff_invalid c) || _) eqn:Hf; [by intros [? _]|].
  assert (Hlr : 35 <= len <= 42) by (kunfold; lia).
  rewrite (wrap_small 32) in Hf by lia. unfold nz in Hf.
  rewrite (wrap_small 32 (len * 8 - huff_bit c)) by zdm.
  destruct (7 <? _) eqn:Hp; [by intros [? _]|].
  destruct (nz _ && _) eqn:Hpad; [by intros [? _]|]. intros [Hlay <-]. cbn [fst snd] in *.
  destruct Hsound as [Hbits Hall]; [lia|].
  rewrite !andb_true_iff, !Z.eqb_eq in Hlay. destruct Hlay as [[[[? ?] ?] ?] ?]. split.
  + split_and!; [by unfold zlen; rewrite take_buf_length|assumption|..];
      rewrite take_buf_list_buf by lia; assumption.
  + exists (Z.to_nat (len * 8 - huff_bit c)). split; [lia|].
    replace (Z.to_nat (8 * len)) with (Z.to_nat (huff_bit c) + Z.to_nat (len * 8 - huff_bit c))%nat by zdm.
    rewrite wbits_app, Hbits. f_equal.
    pose proof (pad_bits w len (len * 8 - huff_bit c) Hw ltac:(lia) ltac:(zdm)) as Hpb.
    replace (0 + Z.of_nat (Z.to_nat (huff_bit c))) with (8 * len - (len * 8 - huff_bit c)) by lia.
    apply Hpb. unfold nz, clamp_umax in Hpad. kunfold.
    destruct (Z.eqb_spec (len * 8 - huff_bit c) 0) as [->|]; [by rewrite Z.land_0_r|].
    rewrite (proj2 (Z.leb_le (len - 1) _)) in Hpad by lia. simpl in Hpad. lia.
Qed.

(** Every coded trace context is accepted and decoded. *)
Lemma huff_decode_complete w len out v :
  (forall i, 0 <= w i < 256) -> 0 <= len ->
  tp_text v /\ huffman_string w len v -> fst (h2_huff_decode_tp w len out) = true /\ take_buf (snd (h2_huff_decode_tp w len out)) 55 = v.
Proof.
  intros Hw Hlen. unfold h2_huff_decode_tp. pose proof (huff_loop_complete w out v Hw) as Hcomp.
  destruct (huff_loop_sound w out Hw) as (Hbit & Hinv & _).
  generalize dependent (huff_final w out). intros c. intros Hcomp Hbit Hinv. cbv zeta in *.
  intros [(Hl & Hall & ? & ? & ? & ? & ?) (pad & Hp & Hb)].
  assert (Hlv : length v = 55%nat) by (unfold zlen in Hl; lia).
  pose proof (huff_code_length v Hall) as Hcl.
  assert (Hlen8 : 8 * len = zlen (huff_code v) + Z.of_nat pad).
  { apply (f_equal length) in Hb. rewrite wbits_length, length_app, repeat_length in Hb. unfold zlen. lia. }
  assert (Hb' : wbits w 0 (length (huff_code v)) = huff_code v
                /\ wbits w (zlen (huff_code v)) pad = repeat true pad).
  { replace (Z.to_nat (8 * len)) with (length (huff_code v) + pad)%nat in Hb by (unfold zlen in *; lia).
    rewrite wbits_app in Hb. apply app_inj_1 in Hb as [? ?]; [done|]. by rewrite wbits_length. }
  destruct Hb' as [Hb1 Hb2].
  destruct (Hcomp Hlv Hall Hb1) as (Hcb & Hci & Hco).
  assert (35 <= len <= 42) by (unfold zlen in *; lia).
  assert (Hbr : 0 <= huff_bit c <= 330) by lia.
  replace (_ || _) with false by (kunfold; lia).
  rewrite Hci, (wrap_small 32 (huff_bit c + 7)) by lia. change (nz 0) with false.
  assert ((huff_bit c + 7) / 8 = len) as -> by zdm. rewrite Z.eqb_refl. cbn [negb orb].
  rewrite (wrap_small 32) by lia. replace (len * 8 - huff_bit c) with (Z.of_nat pad) by lia.
  rewrite (proj2 (Z.ltb_ge 7 _)) by lia.
  unfold clamp_umax. rewrite (proj2 (Z.leb_le (len - 1) _)) by (kunfold; lia).
  pose proof (pad_bits w len (Z.of_nat pad) Hw ltac:(lia) ltac:(lia)) as Hpb.
  replace (8 * len - Z.of_nat pad) with (zlen (huff_code v)) in Hpb by lia.
  rewrite Nat2Z.id in Hpb. rewrite (proj2 Hpb Hb2), Z.eqb_refl, andb_false_r. cbn [fst snd].
  split; [|exact Hco]. subst v. clear Hb Hb1 Hb2 Hpb Hcl Hcb Hlen8. rewrite !take_buf_list_buf in * by lia.
  rewrite !andb_true_iff, !Z.eqb_eq. split_and!; assumption.
Qed.

(** C12: the Huffman decoder is the inverse of RFC 7541's encoder on traceparent values.  For every
    window of octets and announced length, [h2_huff_decode_tp] succeeds with the text [v] if and
    only if [v] is 55 characters of the alphabet with the traceparent layout and the announced
    octets are exactly the Huffman code of [v], padded with at most seven ones. *)
Theorem h2_huff_decode_tp_exact w len out v :
  (forall i, 0 <= w i < 256) -> 0 <= len ->
  (fst (h2_huff_decode_tp w len out) = true /\ take_buf (snd (h2_huff_decode_tp w len out)) 55 = v)
  <-> (tp_text v /\ huffman_string w len v).
Proof. intros Hw Hlen. split; [by apply huff_decode_sound|by apply huff_decode_complete]. Qed.

(** "00-0af7651916cd43dd8448eb211c80319c-b7ad6b7169203331-01" *)
Definition example_tp_value : list Z :=
  [48; 48; 45; 48; 97; 102; 55; 54; 53; 49; 57; 49; 54; 99; 100; 52; 51; 100; 100; 56; 52; 52;
   56; 101; 98; 50; 49; 49; 99; 56; 48; 51; 49; 57; 99; 45; 98; 55; 97; 100; 54; 98; 55; 49;
   54; 57; 50; 48; 51; 51; 51; 49; 45; 48; 49].

Definition example_tp_huffman : list Z :=
  [0; 22; 0; 229; 117; 198; 194; 248; 92; 36; 141; 51; 36; 143; 52; 211; 197; 140; 65; 9; 30;
   3; 33; 124; 139; 70; 232; 228; 114; 55; 66; 227; 226; 3; 44; 178; 21; 128; 31].

Lemma h2_huff_decode_tp_exact_witness :
  fst (h2_huff_decode_tp (list_buf example_tp_huffman) 39 (fun _ => 0)) = true.
Proof.
  apply (h2_huff_decode_tp_exact (list_buf example_tp_huffman) 39 (fun _ => 0) example_tp_value).
  - intros i. apply list_buf_range. unfold is_bytes, example_tp_huffman. repeat constructor; lia.
  - lia.
  - split; [split_and!; [done|by repeat constructor|done..]|]. exists 4%nat. split; [lia|by vm_compute].
Defined.
