(* ===== verification/H2Scan.v ===== *)
(** * Recognising a traceparent header field in an HPACK block ([bpf/common/h2_tp_scan.h]).

    [h2_tp_is_candidate] is the three-byte filter of the scan, [h2_tp_classify] the full test at
    a candidate.  [avail] is the number of bytes between the pointer and [end]. *)

From Stdlib Require Import ZArith Lia ZifyBool List Bool.
From stdpp Require Import base list.
From S2P Require Import Prelude TraceUtil H2Defs.

Local Open Scope Z_scope.

(** ** Definitions *)

Definition k_h2_nlb_plain : Z := k_hpack_tp_name_len.
Definition k_h2_nlb_huffman : Z := Z.lor k_hpack_tp_name_huffman_len 0x80.
Definition k_h2_tp_need_name_huffman : Z := k_hpack_tp_name_offset + k_hpack_tp_name_huffman_len.
Definition k_h2_tp_need_name_plain : Z := k_hpack_tp_name_offset + k_hpack_tp_name_len.
Definition k_h2_tp_need_indexed_value : Z := 1 + k_hpack_value_len_tp.

#[export] Hint Unfold k_h2_nlb_plain k_h2_nlb_huffman k_h2_tp_need_name_huffman
  k_h2_tp_need_name_plain k_h2_tp_need_indexed_value : kconst.

Definition h2_tp_match_name_plain (p : buf) : bool :=
  mem_eqb (shift p k_hpack_tp_name_offset) k_hpack_tp_name.

Definition h2_tp_match_name_huffman (p : buf) : bool :=
  mem_eqb (shift p k_hpack_tp_name_offset) k_hpack_tp_huffman.

Definition h2_tp_match_plain (p : buf) : bool :=
  h2_tp_match_name_plain p
  && (p (k_hpack_tp_name_offset + k_hpack_tp_name_len) =? k_hpack_value_len_tp).

Definition h2_tp_match_huffman (p : buf) : bool :=
  h2_tp_match_name_huffman p
  && (p (k_hpack_tp_name_offset + k_hpack_tp_name_huffman_len) =? k_hpack_value_len_tp).

Definition h2_tp_match_indexed_value (p : buf) : bool :=
  (p 0 =? k_hpack_value_len_tp) && (p 1 =? 48) && (p 2 =? 48) && (p 3 =? 45)
  && (p (1 + k_tp_val_dash2) =? 45) && (p (1 + k_tp_val_dash3) =? 45).

Definition h2_tp_is_candidate (b0 b1 b2 : Z) : bool :=
  if b0 =? k_hpack_value_len_tp then (b1 =? 48) && (b2 =? 48)
  else if negb (h2_hpack_is_literal b0) then false
  else if b1 =? k_h2_nlb_plain then b2 =? list_buf k_hpack_tp_name 0
  else (b1 =? k_h2_nlb_huffman) && (b2 =? list_buf k_hpack_tp_huffman 0).

Inductive h2_tp_kind := k_h2_tp_none | k_h2_tp_present | k_h2_tp_adoptable.

#[export] Instance h2_tp_kind_eq_dec : EqDecision h2_tp_kind.
Proof. solve_decision. Defined.

Definition h2_tp_classify (p : buf) (avail : Z) : h2_tp_kind :=
  if avail <? k_h2_tp_need_name_huffman then k_h2_tp_none
  else if p 0 =? k_hpack_value_len_tp then
    if (k_h2_tp_need_indexed_value <=? avail) && h2_tp_match_indexed_value p
    then k_h2_tp_present else k_h2_tp_none
  else if p 1 =? k_h2_nlb_huffman then
    if (k_h2_tp_hpack_huffman_size <=? avail) && h2_tp_match_huffman p then k_h2_tp_adoptable
    else if h2_tp_match_name_huffman p then k_h2_tp_present else k_h2_tp_none
  else if (p 1 =? k_h2_nlb_plain) && (k_h2_tp_need_name_plain <=? avail) then
    if (k_h2_tp_hpack_size <=? avail) && h2_tp_match_plain p then k_h2_tp_adoptable
    else if h2_tp_match_name_plain p then k_h2_tp_present else k_h2_tp_none
  else k_h2_tp_none.

(** ** The reference: fields on the wire *)

(** The two string literals of the name (RFC 7541 5.2), length octet included. *)
Definition tp_name_literal (huffman : bool) : list Z :=
  if huffman then k_h2_nlb_huffman :: k_hpack_tp_huffman else k_h2_nlb_plain :: k_hpack_tp_name.

(** A literal field with a new name: representation octet, name, value length octet, value. *)
Definition tp_field (form : Z) (huffman : bool) (vlb : Z) (val : list Z) : list Z :=
  form :: tp_name_literal huffman ++ vlb :: val.

(** A field whose name is an index: only the value literal can be recognised. *)
Definition tp_indexed_value (val : list Z) : list Z := k_hpack_value_len_tp :: val.

Definition tp_value_layout (val : list Z) : Prop :=
  zlen val = k_hpack_value_len_tp /\ list_buf val 0 = 48 /\ list_buf val 1 = 48
  /\ list_buf val 2 = 45 /\ list_buf val k_tp_val_dash2 = 45 /\ list_buf val k_tp_val_dash3 = 45.

(** ** Lemmas *)

Lemma match_name_ext p q n :
  agree n p q -> (10 <= n -> h2_tp_match_name_huffman p = h2_tp_match_name_huffman q)
  /\ (13 <= n -> h2_tp_match_name_plain p = h2_tp_match_name_plain q).
Proof.
  intros H. split; intros Hn; apply mem_eqb_ext; eapply agree_shift; try exact H; kunfold;
    unfold zlen; simpl; lia.
Qed.

Lemma indexed_value_ext p q :
  agree 56 p q -> h2_tp_match_indexed_value p = h2_tp_match_indexed_value q.
Proof. intros H. unfold h2_tp_match_indexed_value. kunfold. by rewrite !H by lia. Qed.

Lemma classify_ext p q avail : agree avail p q -> h2_tp_classify p avail = h2_tp_classify q avail.
Proof.
  intros H. unfold h2_tp_classify, h2_tp_match_huffman, h2_tp_match_plain.
  destruct (match_name_ext p q avail H) as [Hh Hp].
  destruct (Z.ltb_spec avail k_h2_tp_need_name_huffman); [done|].
  rewrite (H 0), (H 1) by (kunfold; lia). rewrite Hh by (kunfold; lia).
  destruct (q 0 =? k_hpack_value_len_tp).
  - destruct (Z.leb_spec k_h2_tp_need_indexed_value avail); [|done].
    rewrite (indexed_value_ext p q); [done|]. eapply agree_le; [done|]. kunfold. lia.
  - destruct (q 1 =? k_h2_nlb_huffman).
    + destruct (Z.leb_spec k_h2_tp_hpack_huffman_size avail); [|done]. by rewrite H by (kunfold; lia).
    + destruct (Z.leb_spec k_h2_tp_need_name_plain avail); [|by rewrite !andb_false_r].
      rewrite Hp by (kunfold; lia).
      destruct (Z.leb_spec k_h2_tp_hpack_size avail); [|done]. by rewrite H by (kunfold; lia).
Qed.

Lemma candidate_filter p avail :
  h2_hpack_is_literal (p 0) = true \/ p 0 = k_hpack_value_len_tp ->
  h2_tp_classify p avail <> k_h2_tp_none -> h2_tp_is_candidate (p 0) (p 1) (p 2) = true.
Proof.
  intros Hlit Hk. unfold h2_tp_classify in Hk. unfold h2_tp_is_candidate.
  destruct (avail <? _); [done|].
  destruct (Z.eqb_spec (p 0) k_hpack_value_len_tp) as [E|].
  - destruct (_ <=? avail); [|done]. cbn [andb] in Hk.
    destruct (h2_tp_match_indexed_value p) eqn:Hm; [|done]. unfold h2_tp_match_indexed_value in Hm. lia.
  - destruct Hlit as [-> |]; [|done]. cbn [negb].
    assert (Hname : forall s, mem_eqb (shift p k_hpack_tp_name_offset) s = true -> s <> [] ->
      p 2 = list_buf s 0).
    { intros s Hs Hne. rewrite mem_eqb_spec in Hs. apply (Hs 0). unfold zlen. destruct s; [done|simpl; lia]. }
    destruct (Z.eqb_spec (p 1) k_h2_nlb_huffman) as [E|].
    + rewrite E. cbn -[list_buf k_hpack_tp_huffman]. unfold h2_tp_match_huffman, h2_tp_match_name_huffman in Hk.
      destruct (mem_eqb _ _) eqn:Hm; [|by rewrite andb_false_r in Hk].
      apply Z.eqb_eq. by apply Hname.
    + destruct (p 1 =? k_h2_nlb_plain); [|done].
      destruct (_ <=? avail); [|done]. cbn [andb] in Hk.
      unfold h2_tp_match_plain, h2_tp_match_name_plain in Hk.
      destruct (mem_eqb _ _) eqn:Hm; [|by rewrite andb_false_r in Hk].
      apply Z.eqb_eq. by apply Hname.
Qed.

Lemma field_name_match form huffman vlb val rest :
  let p := list_buf (tp_field form huffman vlb val ++ rest) in
  (if huffman then h2_tp_match_name_huffman p else h2_tp_match_name_plain p) = true.
Proof. by destruct huffman. Qed.

Lemma literal_not_value_len form : h2_hpack_is_literal form = true -> form <> k_hpack_value_len_tp.
Proof. unfold h2_hpack_is_literal. kunfold. lia. Qed.

(** ** Properties *)

(** The classifier stays inside its window.  [h2_tp_classify] gives the same verdict on two
    memories that agree on the [avail] bytes before [end], so no byte past [end] influences it;
    and, wherever a field can start, the three-byte filter lets every position through that the
    classifier would report. *)
Theorem h2_tp_classify_in_bounds p q avail :
  agree avail p q ->
  h2_tp_classify p avail = h2_tp_classify q avail
  /\ (h2_hpack_is_literal (p 0) = true \/ p 0 = k_hpack_value_len_tp ->
      h2_tp_classify p avail <> k_h2_tp_none -> h2_tp_is_candidate (p 0) (p 1) (p 2) = true).
Proof. intros H. split; [by apply classify_ext|apply candidate_filter]. Qed.

Lemma h2_tp_classify_in_bounds_witness :
  h2_tp_classify (list_buf (tp_field 0x40 false 55 (repeat 48 55))) 69
  = h2_tp_classify (list_buf (tp_field 0x40 false 55 (repeat 48 55) ++ [1; 2; 3])) 69.
Proof.
  apply (h2_tp_classify_in_bounds _ (list_buf (tp_field 0x40 false 55 (repeat 48 55) ++ [1; 2; 3]))).
  intros i Hi. by rewrite list_buf_app_l.
Defined.

(** Every traceparent field is classified.  A literal field named "traceparent", its name
    plain or Huffman-coded and in any of the three literal forms, is a candidate whose class is
    [k_h2_tp_adoptable] when its value is 55 plain octets inside the window and [k_h2_tp_present]
    otherwise; a value with the traceparent layout behind an indexed name is a candidate of class
    [k_h2_tp_present]. *)
Theorem h2_tp_classify_fields form huffman vlb val rest :
  h2_hpack_is_literal form = true ->
  let l := tp_field form huffman vlb val ++ rest in
  let p := list_buf l in
  h2_tp_is_candidate (p 0) (p 1) (p 2) = true
  /\ h2_tp_classify p (zlen (tp_field form huffman vlb val))
     = (if (vlb =? k_hpack_value_len_tp) && (k_hpack_value_len_tp <=? zlen val)
        then k_h2_tp_adoptable else k_h2_tp_present)
  /\ (tp_value_layout val ->
      let q := list_buf (tp_indexed_value val ++ rest) in
      h2_tp_is_candidate (q 0) (q 1) (q 2) = true
      /\ h2_tp_classify q (zlen (tp_indexed_value val)) = k_h2_tp_present).
Proof.
  intros Hform l p. pose proof (literal_not_value_len form Hform) as Hne.
  pose proof (field_name_match form huffman vlb val rest) as Hname. fold l in Hname. fold p in Hname.
  cbv zeta in Hname.
  assert (H0 : p 0 = form) by done.
  assert (Hc : h2_tp_classify p (zlen (tp_field form huffman vlb val))
    = (if (vlb =? k_hpack_value_len_tp) && (k_hpack_value_len_tp <=? zlen val)
       then k_h2_tp_adoptable else k_h2_tp_present)).
  { unfold h2_tp_classify, h2_tp_match_huffman, h2_tp_match_plain.
    rewrite H0, (proj2 (Z.eqb_neq _ _) Hne). pose proof (zlen_nonneg val).
    assert (Hz : zlen (tp_field form huffman vlb val) = (if huffman then 11 else 14) + zlen val).
    { unfold zlen. destruct huffman; simpl length; lia. }
    destruct huffman; rewrite Hz, (proj2 (Z.ltb_ge _ _)) by (kunfold; lia).
    - change (p 1 =? k_h2_nlb_huffman) with true. cbv iota. rewrite Hname.
      change (p (k_hpack_tp_name_offset + k_hpack_tp_name_huffman_len)) with vlb. cbn [andb].
      replace (k_h2_tp_hpack_huffman_size <=? 11 + zlen val) with (k_hpack_value_len_tp <=? zlen val)
        by (kunfold; lia). by rewrite andb_comm.
    - change (p 1 =? k_h2_nlb_huffman) with false. change (p 1 =? k_h2_nlb_plain) with true. cbn [andb].
      rewrite (proj2 (Z.leb_le k_h2_tp_need_name_plain _)), Hname by (kunfold; lia).
      change (p (k_hpack_tp_name_offset + k_hpack_tp_name_len)) with vlb. cbn [andb].
      replace (k_h2_tp_hpack_size <=? 14 + zlen val) with (k_hpack_value_len_tp <=? zlen val)
        by (kunfold; lia). by rewrite andb_comm. }
  split_and!; [|exact Hc|].
  - apply candidate_filter with (avail := zlen (tp_field form huffman vlb val)); [by left|].
    rewrite Hc. by destruct (_ && _).
  - intros (Hl & ? & ? & ? & ? & ?) q.
    assert (Hq : forall i, 0 <= i < 55 -> q (1 + i) = list_buf val i).
    { intros i Hi. unfold q, tp_indexed_value. change (k_hpack_value_len_tp :: val) with ([k_hpack_value_len_tp] ++ val).
      rewrite <- app_assoc. change 1 with (zlen [k_hpack_value_len_tp]). rewrite list_buf_app_r by lia.
      apply list_buf_app_l. rewrite Hl. kunfold. lia. }
    assert (Hk : h2_tp_classify q (zlen (tp_indexed_value val)) = k_h2_tp_present).
    { unfold h2_tp_classify, h2_tp_match_indexed_value.
      assert (zlen (tp_indexed_value val) = 56) as -> by (unfold zlen, tp_indexed_value in *; simpl length; kunfold; lia).
      change (q 0) with k_hpack_value_len_tp. change (56 <? k_h2_tp_need_name_huffman) with false.
      rewrite Z.eqb_refl. change (k_h2_tp_need_indexed_value <=? 56) with true. cbn [andb].
      change (q 1) with (q (1 + 0)). change (q 2) with (q (1 + 1)). change (q 3) with (q (1 + 2)).
      rewrite !Hq by (kunfold; lia). replace (_ && _) with true by lia. done. }
    split; [|done]. apply candidate_filter with (avail := zlen (tp_indexed_value val)); [by right|].
    by rewrite Hk.
Qed.

Lemma h2_tp_classify_fields_witness :
  h2_tp_classify (list_buf (tp_field 0x10 true 55 (repeat 48 55) ++ []))
    (zlen (tp_field 0x10 true 55 (repeat 48 55))) = k_h2_tp_adoptable.
Proof. apply (h2_tp_classify_fields 0x10 true 55 (repeat 48 55) []). done. Defined.
