(* ===== verification/HpackParse.v ===== *)
(** * Extracting a traceparent from an HPACK block ([bpf/generictracer/hpack_traceparent_parse.h]).

    The name-fingerprint scan, the scan for a plain value behind an indexed name, the sweep that
    collects Huffman-coded candidates and their decoding.  A function that fills a [tp_info_t]
    returns its result code with the record it leaves. *)

From Stdlib Require Import ZArith Lia ZifyBool List Bool.
From stdpp Require Import base list.
From S2P Require Import Prelude TraceUtil H2Defs H2Huffman H2Scan.

Local Open Scope Z_scope.

(** ** Definitions *)

Definition try_parse_tp_value (val : buf) (tp : tp_info) : Z * tp_info :=
  if negb (val k_tp_val_dash1 =? 45) || negb (val k_tp_val_dash2 =? 45)
     || negb (val k_tp_val_dash3 =? 45)
  then (0, tp)
  else
    (1, mk_tp_info
          (decode_hex (shift val k_tp_val_trace_id_start) (TRACE_ID_SIZE_BYTES * 2))
          (span_id tp)
          (decode_hex (shift val k_tp_val_span_id_start) (SPAN_ID_SIZE_BYTES * 2))
          (ts tp)
          (list_buf (decode_hex (shift val k_tp_val_flags_start) (1 * 2)) 0)).

Definition k_hex_chars (c : Z) : Z :=
  b2z (((48 <=? c) && (c <=? 57)) || ((97 <=? c) && (c <=? 102)) || ((65 <=? c) && (c <=? 70))).

(** The context of the sweep; the scan record it points to is the loop's state. *)
Record h2_huff_scan_loop_ctx := mk_scan_loop_ctx {
  slc_base : buf;
  slc_off : Z;
  slc_max_pos : Z
}.

Definition h2_huff_scan_step (c : h2_huff_scan_loop_ctx) (i : Z) (scan : h2_tp_huff_scan)
    : h2_tp_huff_scan * bool :=
  if (k_hpack_tp_max_scan <=? i) || (slc_max_pos c <? i) then (scan, true)
  else
    let b := slc_base c (Z.land (u32 (slc_off c + i)) (k_kprobes_http2_buf_size - 1)) in
    if negb (h2_tp_huff_len_plausible b) || (i + 1 <=? scan_resume scan) then (scan, false)
    else
      let cand := scan_count scan in
      if k_h2_tp_huff_max_candidates <=? cand then (scan, true)
      else
        let cand := clamp_umax cand (k_h2_tp_huff_max_candidates - 1) in
        (mk_huff_scan (upd (scan_at scan) cand (u16 (i + 1)))
           (upd (scan_len scan) cand (u8 (Z.land b (u8 (Z.lnot k_hpack_huffman_flag)))))
           (u8 (cand + 1)) (scan_idx scan) (scan_done scan) (scan_resume scan), false).

Definition find_hpack_traceparent_huffman (base : buf) (off data_len : Z) (scan : h2_tp_huff_scan)
    : Z * h2_tp_huff_scan :=
  let scan := mk_huff_scan (scan_at scan) (scan_len scan) 0 0 (scan_done scan) (scan_resume scan) in
  if data_len <? k_h2_tp_huff_min + 1 then (0, scan)
  else
    let c := mk_scan_loop_ctx base off (data_len - k_h2_tp_huff_min - 1) in
    let scan := bpf_loop k_hpack_tp_max_scan (h2_huff_scan_step c) scan in
    (b2z (nz (scan_count scan)), scan).

(** The test one iteration of [find_hpack_traceparent_value] makes before it parses. *)
Definition tp_value_at (data : buf) (i : Z) : bool :=
  if negb (data i =? k_hpack_value_len_tp) then false
  else
    let val := shift data (i + 1) in
    if negb (val 0 =? 48) || negb (val 1 =? 48) || negb (val 2 =? 45) then false
    else if negb (val k_tp_val_dash2 =? 45) || negb (val k_tp_val_dash3 =? 45) then false
    else
      let ok :=
        Z.land (Z.land (Z.land (Z.land (Z.land (Z.land (Z.land
          (k_hex_chars (val k_tp_val_trace_id_start)) (k_hex_chars (val (k_tp_val_trace_id_start + 1))))
          (k_hex_chars (val (k_tp_val_dash2 - 2)))) (k_hex_chars (val (k_tp_val_dash2 - 1))))
          (k_hex_chars (val k_tp_val_span_id_start))) (k_hex_chars (val (k_tp_val_span_id_start + 1))))
          (k_hex_chars (val (k_tp_val_dash3 - 2)))) (k_hex_chars (val (k_tp_val_dash3 - 1))) in
      nz ok.

Fixpoint find_value_loop (n : nat) (data : buf) (max_pos : Z) (tp : tp_info) (i : Z)
    : Z * tp_info :=
  match n with
  | O => (0, tp)
  | S n' =>
      if i <=? max_pos then
        if tp_value_at data i then try_parse_tp_value (shift data (i + 1)) tp
        else find_value_loop n' data max_pos tp (i + 1)
      else (0, tp)
  end.

Definition find_hpack_traceparent_value (data : buf) (data_len : Z) (tp : tp_info) : Z * tp_info :=
  if data_len <? k_hpack_value_len_tp + 1 then (0, tp)
  else
    find_value_loop (Z.to_nat k_hpack_tp_max_scan) data (data_len - k_hpack_value_len_tp - 1) tp 0.

(** The scratch window: [k_h2_tp_huff_min] octets copied, then the tail while it lasts, then
    the zeroes of [bpf_memset]. *)
Definition huff_window (data : buf) (data_len val_at : Z) : buf :=
  fun i =>
    if (0 <=? i) && (i <? k_h2_tp_huff_min) then data (val_at + i)
    else if (k_h2_tp_huff_min <=? i) && (i <? k_h2_tp_huff_max) then
      if val_at + i <? data_len then data (val_at + i) else 0
    else 0.

Definition try_parse_tp_huffman_value (data : buf) (data_len : Z) (huff : h2_tp_huff_candidate)
    (out : buf) (tp : tp_info) : Z * tp_info :=
  let val_at := clamp_umax (cand_at huff) k_h2_tp_huff_at_max in
  let vlen := cand_len huff in
  if negb (nz vlen) || (data_len <? val_at + vlen) then (0, tp)
  else
    let w := huff_window data data_len val_at in
    let '(ok, out) := h2_huff_decode_tp w vlen out in
    if negb ok then (0, tp) else try_parse_tp_value out tp.

(** What one literal name form does at [i]: [voff] the offset of its value. *)
Definition parse_named (data : buf) (data_len : Z) (tp : tp_info) (i : Z) (name : list Z)
    (voff : Z) : option (Z * tp_info * h2_tp_huff_candidate) :=
  if data_len <? i + voff then None
  else if negb (mem_eqb (shift data (i + k_hpack_tp_name_offset)) name) then None
  else
    let vlb := data (i + k_hpack_tp_name_offset + zlen name) in
    if vlb =? k_hpack_value_len_tp then
      if data_len <? i + (voff + k_hpack_value_len_tp) then None
      else Some (try_parse_tp_value (shift data (i + voff)) tp, mk_candidate 0 0)
    else if h2_tp_huff_len_plausible vlb then
      Some (0, tp, mk_candidate (u16 (i + voff)) (u8 (Z.land vlb (u8 (Z.lnot k_hpack_huffman_flag)))))
    else None.

(** The loop body of [parse_hpack_traceparent]: [None] is [continue]. *)
Definition parse_hpack_step (data : buf) (data_len : Z) (tp : tp_info) (i : Z)
    : option (Z * tp_info * h2_tp_huff_candidate) :=
  if negb (h2_hpack_is_literal (data i)) then None
  else
    let name_len_byte := data (i + 1) in
    if name_len_byte =? k_hpack_tp_name_len then
      parse_named data data_len tp i k_hpack_tp_name k_hpack_tp_val_offset
    else if name_len_byte =? Z.lor k_hpack_tp_name_huffman_len 0x80 then
      parse_named data data_len tp i k_hpack_tp_huffman k_hpack_tp_val_offset_huffman
    else None.

Fixpoint parse_hpack_loop (n : nat) (data : buf) (data_len max_pos : Z) (tp : tp_info) (i : Z)
    : Z * tp_info * h2_tp_huff_candidate :=
  match n with
  | O => (0, tp, mk_candidate 0 0)
  | S n' =>
      if i <=? max_pos then
        match parse_hpack_step data data_len tp i with
        | Some r => r
        | None => parse_hpack_loop n' data data_len max_pos tp (i + 1)
        end
      else (0, tp, mk_candidate 0 0)
  end.

Definition parse_hpack_traceparent (data : buf) (data_len : Z) (tp : tp_info)
    : Z * tp_info * h2_tp_huff_candidate :=
  if k_h2_tp_hpack_huff_min <=? data_len then
    parse_hpack_loop (Z.to_nat k_hpack_tp_max_scan) data data_len
      (data_len - k_h2_tp_hpack_huff_min) tp 0
  else (0, tp, mk_candidate 0 0).

(** ** Lemmas: the value *)

Lemma try_parse_ext p q tp : agree 55 p q -> try_parse_tp_value p tp = try_parse_tp_value q tp.
Proof.
  intros H. unfold try_parse_tp_value. rewrite !H by (kunfold; lia).
  rewrite (decode_hex_ext _ (shift p k_tp_val_trace_id_start) (shift q k_tp_val_trace_id_start)),
    (decode_hex_ext _ (shift p k_tp_val_span_id_start) (shift q k_tp_val_span_id_start)),
    (decode_hex_ext _ (shift p k_tp_val_flags_start) (shift q k_tp_val_flags_start)); [done|..];
    eapply agree_shift; try exact H; kunfold; lia.
Qed.

(** The traceparent a receiver gets from the text of [tp]. *)
Definition tp_received (tp tp0 : tp_info) : tp_info :=
  mk_tp_info (trace_id tp) (span_id tp0) (span_id tp) (ts tp0) (Z.land (flags tp) k_flag_sampled).

Lemma make_tp_string_length tp : wf_tp tp -> zlen (make_tp_string tp) = 55.
Proof.
  intros (_ & H1 & _ & H2 & _). unfold zlen, make_tp_string in *. kunfold.
  rewrite !length_app, !encode_hex_length. simpl length. lia.
Qed.

Lemma shift_app_buf l1 l2 n i : n = zlen l1 -> 0 <= i -> shift (list_buf (l1 ++ l2)) n i = list_buf l2 i.
Proof. intros -> Hi. unfold shift. by apply list_buf_app_r. Qed.

Lemma land_1_cases x : Z.land x k_flag_sampled = 0 \/ Z.land x k_flag_sampled = 1.
Proof.
  unfold k_flag_sampled. assert (Z.land x 1 = x mod 2) as -> by exact (land_ones_mod x 1 ltac:(lia)).
  pose proof (Z.mod_pos_bound x 2). lia.
Qed.

(** The offsets of a value as numerals. *)
Ltac tp_consts :=
  change k_tp_val_dash1 with 2; change k_tp_val_trace_id_start with 3; change k_tp_val_dash2 with 35;
  change k_tp_val_span_id_start with 36; change k_tp_val_dash3 with 52;
  change k_tp_val_flags_start with 53; change (TRACE_ID_SIZE_BYTES * 2) with 32;
  change (SPAN_ID_SIZE_BYTES * 2) with 16; change (1 * 2) with 2.

Lemma try_parse_make tp tp0 rest :
  wf_tp tp -> try_parse_tp_value (list_buf (make_tp_string tp ++ rest)) tp0 = (1, tp_received tp tp0).
Proof.
  intros (Ht & Htl & Hs & Hsl & _). unfold zlen in *. kunfold.
  assert (E1 : zlen (encode_hex (trace_id tp)) = 32) by (unfold zlen; rewrite encode_hex_length; lia).
  assert (E2 : zlen (encode_hex (span_id tp)) = 16) by (unfold zlen; rewrite encode_hex_length; lia).
  unfold make_tp_string. rewrite <- !app_assoc.
  set (f := [48; 48 + Z.land (flags tp) k_flag_sampled]).
  set (L := [48; 48; 45] ++ _).
  assert (A1 : forall i, 0 <= i -> shift (list_buf L) 3 i
    = list_buf (encode_hex (trace_id tp) ++ [45] ++ encode_hex (span_id tp) ++ [45] ++ f ++ rest) i)
    by (intros; by apply shift_app_buf).
  assert (A2 : forall i, 0 <= i -> shift (list_buf L) 35 i
    = list_buf ([45] ++ encode_hex (span_id tp) ++ [45] ++ f ++ rest) i).
  { intros. unfold L. rewrite app_assoc. apply shift_app_buf; [rewrite zlen_app, E1; done|done]. }
  assert (A3 : forall i, 0 <= i -> shift (list_buf L) 36 i
    = list_buf (encode_hex (span_id tp) ++ [45] ++ f ++ rest) i).
  { intros i Hi. replace (shift (list_buf L) 36 i) with (shift (list_buf L) 35 (1 + i)) by (unfold shift; f_equal; lia).
    rewrite A2 by lia. change 1 with (zlen [45]). by apply list_buf_app_r. }
  assert (A4 : forall i, 0 <= i -> shift (list_buf L) 52 i = list_buf ([45] ++ f ++ rest) i).
  { intros i Hi. replace (shift (list_buf L) 52 i) with (shift (list_buf L) 36 (16 + i)) by (unfold shift; f_equal; lia).
    rewrite A3 by lia. rewrite <- E2. by apply list_buf_app_r. }
  assert (A5 : forall i, 0 <= i -> shift (list_buf L) 53 i = list_buf (f ++ rest) i).
  { intros i Hi. replace (shift (list_buf L) 53 i) with (shift (list_buf L) 52 (1 + i)) by (unfold shift; f_equal; lia).
    rewrite A4 by lia. change 1 with (zlen [45]). by apply list_buf_app_r. }
  unfold try_parse_tp_value. tp_consts.
  change (list_buf L 2) with 45.
  replace (list_buf L 35) with 45 by (symmetry; exact (A2 0 ltac:(lia))).
  replace (list_buf L 52) with 45 by (symmetry; exact (A4 0 ltac:(lia))).
  cbn [Z.eqb Pos.eqb negb orb]. unfold tp_received. do 2 f_equal.
  - rewrite (decode_hex_ext _ _ (list_buf (encode_hex (trace_id tp) ++ [45] ++ encode_hex (span_id tp) ++ [45] ++ f ++ rest)))
      by (intros i Hi; apply A1; lia). apply decode_hex_encode; [done|unfold zlen; lia].
  - rewrite (decode_hex_ext _ _ (list_buf (encode_hex (span_id tp) ++ [45] ++ f ++ rest)))
      by (intros i Hi; apply A3; lia). apply decode_hex_encode; [done|unfold zlen; lia].
  - rewrite (decode_hex_ext _ _ (list_buf (f ++ rest))) by (intros i Hi; apply A5; lia).
    unfold f. destruct (land_1_cases (flags tp)) as [-> | ->]; done.
Qed.

Lemma encode_hex_huff_chars l : is_bytes l -> Forall (fun c => huff_char c = true) (encode_hex l).
Proof.
  assert (Hp : forall p, 0 <= p < 256 -> forallb huff_char (encode_hex [p]) = true).
  { intros p Hp. refine (zrange_forallb 256 (fun p => forallb huff_char (encode_hex [p])) _ p Hp). by vm_compute. }
  induction 1 as [|p l Hb Hl IH]; [constructor|]. specialize (Hp p Hb).
  cbn [encode_hex forallb] in *. rewrite andb_true_r in Hp. apply andb_true_iff in Hp as [? ?].
  by repeat constructor.
Qed.

Lemma make_tp_string_text tp : wf_tp tp -> tp_text (make_tp_string tp).
Proof.
  intros Hwf. pose proof (make_tp_string_length tp Hwf) as Hl.
  pose proof (try_parse_make tp tp [] Hwf) as Hp. rewrite app_nil_r in Hp.
  unfold try_parse_tp_value in Hp. destruct (_ || _) eqn:Hd in Hp; [done|].
  rewrite !orb_false_iff, !negb_false_iff, !Z.eqb_eq in Hd. destruct Hd as [[_ Hd2] Hd3].
  destruct Hwf as (Ht & _ & Hs & _). split_and!; [exact Hl| |done|done|done|exact Hd2|exact Hd3].
  unfold make_tp_string. rewrite !Forall_app. split_and!; try (by repeat constructor);
    try (by apply encode_hex_huff_chars). repeat constructor.
  destruct (land_1_cases (flags tp)) as [-> | ->]; done.
Qed.

(** ** Lemmas: the scans *)

Lemma parse_named_ext p q data_len tp i name voff :
  agree data_len p q -> 0 <= i -> voff = 2 + zlen name + 1 ->
  parse_named p data_len tp i name voff = parse_named q data_len tp i name voff.
Proof.
  intros H Hi ->. unfold parse_named. destruct (Z.ltb_spec data_len (i + (2 + zlen name + 1))); [done|].
  pose proof (zlen_nonneg name). kunfold.
  rewrite (mem_eqb_ext _ (shift p (i + 2)) (shift q (i + 2))) by (eapply agree_shift; [exact H|lia|lia]).
  rewrite (H (i + 2 + zlen name)) by lia. destruct (negb _); [done|].
  destruct (_ =? _); [|done]. destruct (Z.ltb_spec data_len (i + (2 + zlen name + 1 + (2 + 1 + 16 * 2 + 1 + 8 * 2 + 3)))); [done|].
  erewrite try_parse_ext; [done|]. eapply agree_shift; [exact H|lia|lia].
Qed.

Lemma parse_step_ext p q data_len tp i :
  agree data_len p q -> 0 <= i -> i + 2 <= data_len ->
  parse_hpack_step p data_len tp i = parse_hpack_step q data_len tp i.
Proof.
  intros H Hi Hl. unfold parse_hpack_step. rewrite !H by lia.
  by rewrite (parse_named_ext p q data_len tp i k_hpack_tp_name),
    (parse_named_ext p q data_len tp i k_hpack_tp_huffman).
Qed.

Lemma parse_loop_ext n p q data_len max_pos tp i :
  agree data_len p q -> 0 <= i -> max_pos + 2 <= data_len ->
  parse_hpack_loop n p data_len max_pos tp i = parse_hpack_loop n q data_len max_pos tp i.
Proof.
  intros H. revert i. induction n as [|n IH]; intros i Hi Hm; [done|]. cbn [parse_hpack_loop].
  destruct (Z.leb_spec i max_pos); [|done]. rewrite (parse_step_ext p q) by (done || lia).
  destruct (parse_hpack_step _ _ _ _); [done|]. apply IH; lia.
Qed.

Lemma value_at_ext p q i : agree (i + 56) p q -> 0 <= i -> tp_value_at p i = tp_value_at q i.
Proof.
  intros H Hi. unfold tp_value_at, shift. rewrite (H i) by lia. kunfold.
  by rewrite !H by lia.
Qed.

Lemma find_value_loop_ext n p q data_len max_pos tp i :
  agree data_len p q -> 0 <= i -> max_pos + 56 <= data_len ->
  find_value_loop n p max_pos tp i = find_value_loop n q max_pos tp i.
Proof.
  intros H. revert i. induction n as [|n IH]; intros i Hi Hm; [done|]. cbn [find_value_loop].
  destruct (Z.leb_spec i max_pos); [|done].
  rewrite (value_at_ext p q) by (done || (eapply agree_le; [exact H|lia])).
  rewrite (try_parse_ext _ (shift q (i + 1))) by (eapply agree_shift; [exact H|lia|lia]).
  rewrite IH by lia. done.
Qed.

Lemma parse_loop_first n data data_len max_pos tp i k r :
  (forall j, i <= j < k -> parse_hpack_step data data_len tp j = None) ->
  parse_hpack_step data data_len tp k = Some r -> i <= k <= max_pos -> k < i + Z.of_nat n ->
  parse_hpack_loop n data data_len max_pos tp i = r.
Proof.
  revert i. induction n as [|n IH]; intros i Hno Hk Hi Hn; [lia|]. cbn [parse_hpack_loop].
  rewrite (proj2 (Z.leb_le i max_pos)) by lia.
  destruct (Z.eq_dec i k) as [->|]; [by rewrite Hk|]. rewrite Hno by lia.
  apply IH; [|done|lia|lia]. intros. apply Hno. lia.
Qed.

(** A literal field named "traceparent" starts at [j]. *)
Definition tp_name_at (data : buf) (j : Z) : Prop :=
  h2_hpack_is_literal (data j) = true
  /\ exists huffman, mem_eqb (shift data (j + 1)) (tp_name_literal huffman) = true.

Lemma mem_eqb_cons p c s : mem_eqb p (c :: s) = (p 0 =? c) && mem_eqb (shift p 1) s.
Proof. done. Qed.

Lemma mem_eqb_shift p a b c s : c = a + b -> mem_eqb (shift (shift p a) b) s = mem_eqb (shift p c) s.
Proof. intros ->. apply mem_eqb_ext. intros i _. apply shift_shift. Qed.

Lemma parse_step_name data data_len tp j r :
  parse_hpack_step data data_len tp j = Some r -> tp_name_at data j.
Proof.
  unfold parse_hpack_step, parse_named, tp_name_at. destruct (h2_hpack_is_literal (data j)); [|done].
  cbn [negb]. intros H. split; [done|].
  destruct (Z.eqb_spec (data (j + 1)) k_hpack_tp_name_len) as [E|].
  - exists false. destruct (_ <? _); [done|]. destruct (mem_eqb _ _) eqn:Hm in H; [|done].
    cbn [tp_name_literal]. rewrite mem_eqb_cons. unfold shift at 1. rewrite Z.add_0_r, E.
    erewrite mem_eqb_shift; [exact Hm|kunfold; lia].
  - destruct (Z.eqb_spec (data (j + 1)) (Z.lor k_hpack_tp_name_huffman_len 128)) as [E|]; [|done].
    exists true. destruct (_ <? _); [done|]. destruct (mem_eqb _ _) eqn:Hm in H; [|done].
    cbn [tp_name_literal]. rewrite mem_eqb_cons. unfold shift at 1. rewrite Z.add_0_r, E.
    erewrite mem_eqb_shift; [exact Hm|kunfold; lia].
Qed.

(** What the step does at a field of the wire format. *)
Lemma parse_step_field pre form huffman vlb val post tp :
  let l := pre ++ tp_field form huffman vlb val ++ post in
  let voff := if huffman then k_hpack_tp_val_offset_huffman else k_hpack_tp_val_offset in
  h2_hpack_is_literal form = true ->
  parse_hpack_step (list_buf l) (zlen l) tp (zlen pre)
  = if vlb =? k_hpack_value_len_tp then
      if zlen val + zlen post <? k_hpack_value_len_tp then None
      else Some (try_parse_tp_value (list_buf (val ++ post)) tp, mk_candidate 0 0)
    else if h2_tp_huff_len_plausible vlb then
      Some (0, tp, mk_candidate (u16 (zlen pre + voff)) (u8 (Z.land vlb (u8 (Z.lnot k_hpack_huffman_flag)))))
    else None.
Proof.
  intros l voff Hform. set (F := tp_field form huffman vlb val ++ post).
  assert (Hat : forall i, 0 <= i -> list_buf l (zlen pre + i) = list_buf F i)
    by (intros; by apply list_buf_app_r).
  pose proof (Hat 0 ltac:(lia)) as H0. rewrite Z.add_0_r in H0.
  set (name := if huffman then k_hpack_tp_huffman else k_hpack_tp_name).
  assert (Hvoff : voff = 2 + zlen name + 1) by by destruct huffman.
  assert (HF : F = (form :: tp_name_literal huffman) ++ [vlb] ++ val ++ post)
    by (unfold F, tp_field; destruct huffman; reflexivity).
  assert (Hz : zlen (form :: tp_name_literal huffman) = 2 + zlen name) by by destruct huffman.
  assert (Hl : zlen l = zlen pre + (voff + (zlen val + zlen post))).
  { unfold l. rewrite zlen_app. fold F. rewrite HF, !zlen_app, Hz. change (zlen [vlb]) with 1. lia. }
  assert (Hname : mem_eqb (shift (list_buf l) (zlen pre + k_hpack_tp_name_offset)) name = true).
  { apply mem_eqb_spec. intros i Hi. unfold shift. rewrite <- Z.add_assoc, Hat by (kunfold; lia).
    rewrite HF, list_buf_app_l by (rewrite Hz; kunfold; lia). kunfold. rewrite !list_buf_nth by lia.
    replace (Z.to_nat (2 + i)) with (S (S (Z.to_nat i))) by lia. by destruct huffman. }
  assert (Hv : list_buf l (zlen pre + k_hpack_tp_name_offset + zlen name) = vlb).
  { pose proof (zlen_nonneg name). rewrite <- Z.add_assoc, Hat by (kunfold; lia). kunfold.
    rewrite <- Hz, <- (Z.add_0_r (zlen (form :: _))), HF, list_buf_app_r by lia. done. }
  assert (Hval : agree 55 (shift (list_buf l) (zlen pre + voff)) (list_buf (val ++ post))).
  { intros i Hi. pose proof (zlen_nonneg name). unfold shift. rewrite <- Z.add_assoc, Hat by lia.
    replace (voff + i) with (zlen (form :: tp_name_literal huffman) + (zlen [vlb] + i))
      by (rewrite Hz, Hvoff; change (zlen [vlb]) with 1; lia).
    rewrite HF, !list_buf_app_r by (change (zlen [vlb]) with 1; lia). done. }
  assert (Hstep : parse_named (list_buf l) (zlen l) tp (zlen pre) name voff
    = parse_hpack_step (list_buf l) (zlen l) tp (zlen pre)).
  { unfold parse_hpack_step. rewrite H0. change (list_buf F 0) with form. rewrite Hform. cbn [negb].
    rewrite (Hat 1) by lia. unfold F, tp_field, name, voff. by destruct huffman. }
  rewrite <- Hstep. unfold parse_named. rewrite Hname, Hv. cbn [negb].
  pose proof (zlen_nonneg val). pose proof (zlen_nonneg post).
  rewrite (proj2 (Z.ltb_ge (zlen l) (zlen pre + voff))) by lia.
  replace (zlen l <? zlen pre + (voff + k_hpack_value_len_tp))
    with (zlen val + zlen post <? k_hpack_value_len_tp) by lia.
  by rewrite (try_parse_ext _ _ tp Hval).
Qed.

(** ** Lemmas: the Huffman sweep *)

(** Offsets below [n] whose octet announces a plausible Huffman length, past [resume]. *)
Definition huff_offsets (base : buf) (off resume : Z) (n : nat) : list Z :=
  List.filter (fun i => h2_tp_huff_len_plausible (base (off + i)) && (resume <? i + 1)) (zrange n).

Definition huff_len_of (base : buf) (off i : Z) : Z := base (off + i) - 128.

Lemma zrange_app n m : zrange (n + m) = zrange n ++ map (Z.add (Z.of_nat n)) (zrange m).
Proof.
  unfold zrange. rewrite seq_app, map_app. f_equal. rewrite map_map. simpl.
  rewrite <- (Nat.add_0_r n) at 1. rewrite <- fmap_add_seq. rewrite <- list_fmap_compose.
  apply map_ext. intros. simpl. lia.
Qed.

Lemma huff_offsets_app base off resume n m :
  exists tl, huff_offsets base off resume (n + m) = huff_offsets base off resume n ++ tl.
Proof. unfold huff_offsets. rewrite zrange_app, List.filter_app. by eexists. Qed.

Lemma huff_offsets_S base off resume n :
  huff_offsets base off resume (S n) = huff_offsets base off resume n
    ++ (if h2_tp_huff_len_plausible (base (off + Z.of_nat n)) && (resume <? Z.of_nat n + 1)
        then [Z.of_nat n] else []).
Proof.
  unfold huff_offsets. replace (S n) with (n + 1)%nat by lia. rewrite zrange_app, List.filter_app.
  f_equal. unfold zrange. cbn [seq map List.filter]. by rewrite Z.add_0_r.
Qed.

Lemma plausible_len b : 0 <= b < 256 -> h2_tp_huff_len_plausible b = true ->
  u8 (Z.land b (u8 (Z.lnot k_hpack_huffman_flag))) = b - 128 /\ 35 <= b - 128 <= 42.
Proof.
  intros Hb H.
  assert (Hx : negb (h2_tp_huff_len_plausible b)
    || ((u8 (Z.land b (u8 (Z.lnot k_hpack_huffman_flag))) =? b - 128) && (35 <=? b - 128) && (b - 128 <=? 42)) = true).
  { refine (zrange_forallb 256 (fun b => negb (h2_tp_huff_len_plausible b)
      || ((u8 (Z.land b (u8 (Z.lnot k_hpack_huffman_flag))) =? b - 128) && (35 <=? b - 128) && (b - 128 <=? 42))) _ b Hb).
    by vm_compute. }
  rewrite H in Hx. cbn [negb orb] in Hx. lia.
Qed.

(** What the scan record holds for the offsets [l]. *)
Definition scan_holds (base : buf) (off : Z) (scan : h2_tp_huff_scan) (l : list Z) : Prop :=
  scan_count scan = zlen l
  /\ take_buf (scan_at scan) (length l) = map (fun i => i + 1) l
  /\ take_buf (scan_len scan) (length l) = map (huff_len_of base off) l.

Lemma take_le_3 {A} (l tl : list A) : (3 <= length l)%nat -> take 3 (l ++ tl) = take 3 l.
Proof. intros. by rewrite take_app_le. Qed.

Lemma scan_step_spec base off max_pos i scan :
  (forall j, 0 <= base j < 256) -> 0 <= off -> 0 <= i < 247 -> i <= max_pos -> off + i < 256 ->
  scan_holds base off scan (take 3 (huff_offsets base off (scan_resume scan) (Z.to_nat i))) ->
  let '(scan', stop) := h2_huff_scan_step (mk_scan_loop_ctx base off max_pos) i scan in
  scan_resume scan' = scan_resume scan
  /\ scan_holds base off scan'
       (take 3 (huff_offsets base off (scan_resume scan) (S (Z.to_nat i))))
  /\ (stop = true -> (3 <= length (huff_offsets base off (scan_resume scan) (Z.to_nat i)))%nat).
Proof.
  intros Hb Ho Hi Hm Hr (Hc & Ha & Hl). unfold h2_huff_scan_step. cbn [slc_base slc_off slc_max_pos].
  replace (_ || _) with false by (kunfold; lia). rewrite (wrap_small 32) by lia.
  assert (Z.land (off + i) (k_kprobes_http2_buf_size - 1) = off + i) as ->.
  { change (k_kprobes_http2_buf_size - 1) with 255. rewrite land_ff. apply Z.mod_small. lia. }
  rewrite huff_offsets_S. replace (Z.of_nat (Z.to_nat i)) with i by lia.
  set (L := huff_offsets base off (scan_resume scan) (Z.to_nat i)) in *. cbv zeta.
  destruct (h2_tp_huff_len_plausible (base (off + i))) eqn:Hp; cbn [negb orb andb].
  2: { rewrite app_nil_r. split_and!; done. }
  destruct (Z.leb_spec (i + 1) (scan_resume scan)).
  { rewrite (proj2 (Z.ltb_ge _ (i + 1))), app_nil_r by lia. split_and!; done. }
  rewrite (proj2 (Z.ltb_lt _ (i + 1))) by lia.
  assert (Hlen : length (take 3 L) = Nat.min 3 (length L)) by apply length_take.
  destruct (Z.leb_spec k_h2_tp_huff_max_candidates (scan_count scan)) as [Hmax|Hlt].
  - rewrite Hc in Hmax. unfold zlen in Hmax. kunfold.
    rewrite take_le_3 by lia. split_and!; [done..|]. intros _. lia.
  - rewrite Hc in Hlt. unfold zlen in Hlt. kunfold.
    assert (take 3 L = L) as E by (apply take_ge; lia).
    rewrite E in *. rewrite (take_ge (L ++ [i])) by (rewrite length_app; simpl; lia).
    unfold clamp_umax. rewrite (proj2 (Z.leb_le (scan_count scan) _)) by (rewrite Hc; unfold zlen; lia).
    destruct (plausible_len _ (Hb (off + i)) Hp) as [Hpl _]. change 128 with k_hpack_huffman_flag at 1.
    cbn [scan_resume scan_count scan_at scan_len]. split_and!; [done| |done].
    unfold scan_holds. cbn [scan_count scan_at scan_len]. rewrite Hc. unfold zlen.
    rewrite length_app, Nat.add_comm. simpl (length [i] + _)%nat. rewrite !take_buf_upd, !map_app, Ha, Hl.
    rewrite !(wrap_small 8), !(wrap_small 16) by lia.
    split_and!; [lia|done|]. f_equal. cbn [map]. f_equal. exact Hpl.
Qed.

Lemma tp_field_length form huffman vlb val :
  zlen (tp_field form huffman vlb val) = (if huffman then 11 else 14) + zlen val.
Proof.
  unfold tp_field, zlen. cbn [length]. rewrite length_app. cbn [length].
  assert (length (tp_name_literal huffman) = if huffman then 9%nat else 12%nat) as -> by by destruct huffman.
  destruct huffman; lia.
Qed.

(** ** Properties *)

(** Parsing what the tracer prints.  For every well-formed [tp_info], parsing the text
    [make_tp_string] writes yields the trace id unchanged, the span id as the parent id and the
    sampled flag, and leaves the receiver's own span id and timestamp alone. *)
Theorem traceparent_print_parse tp tp0 rest :
  wf_tp tp ->
  try_parse_tp_value (list_buf (make_tp_string tp ++ rest)) tp0 = (1, tp_received tp tp0).
Proof. apply try_parse_make. Qed.

Definition example_tp : tp_info :=
  mk_tp_info [10; 247; 101; 25; 22; 205; 67; 221; 132; 72; 235; 33; 28; 128; 49; 156]
    [183; 173; 107; 113; 105; 32; 51; 49] (repeat 0 8) 7 1.

Lemma example_tp_wf : wf_tp example_tp.
Proof. unfold wf_tp, is_bytes, example_tp, zlen. simpl. split_and!; try lia; repeat constructor; lia. Qed.

Lemma traceparent_print_parse_witness :
  fst (try_parse_tp_value (list_buf (make_tp_string example_tp ++ [])) example_tp) = 1.
Proof. by rewrite (traceparent_print_parse example_tp example_tp [] example_tp_wf). Defined.

(** A plain traceparent field is found and read.  In any HPACK block whose first literal field
    named "traceparent" starts before offset 247, in any literal form, the name plain or Huffman
    coded and the value printed by [make_tp_string], [parse_hpack_traceparent] returns 1 with that
    trace context. *)
Theorem parse_hpack_traceparent_plain pre form huffman tp post tp0 :
  wf_tp tp -> h2_hpack_is_literal form = true -> zlen pre < k_hpack_tp_max_scan ->
  let l := pre ++ tp_field form huffman k_hpack_value_len_tp (make_tp_string tp) ++ post in
  (forall j, 0 <= j < zlen pre -> ~ tp_name_at (list_buf l) j) ->
  parse_hpack_traceparent (list_buf l) (zlen l) tp0 = (1, tp_received tp tp0, mk_candidate 0 0).
Proof.
  intros Hwf Hform Hpre l Hno. unfold parse_hpack_traceparent.
  pose proof (make_tp_string_length tp Hwf) as Hl. pose proof (zlen_nonneg pre). pose proof (zlen_nonneg post).
  assert (Hlen : zlen l = zlen pre + (if huffman then 66 else 69) + zlen post).
  { unfold l. rewrite !zlen_app, tp_field_length, Hl. destruct huffman; lia. }
  rewrite (proj2 (Z.leb_le k_h2_tp_hpack_huff_min _)) by (kunfold; destruct huffman; lia).
  pose proof (parse_step_field pre form huffman k_hpack_value_len_tp (make_tp_string tp) post tp0 Hform) as Hs.
  fold l in Hs. rewrite Z.eqb_refl, (proj2 (Z.ltb_ge _ _)), try_parse_make in Hs by (done || (kunfold; lia)).
  eapply parse_loop_first; [|exact Hs|split; [lia|kunfold; destruct huffman; lia]|kunfold; lia].
  intros j Hj. destruct (parse_hpack_step _ _ _ j) eqn:E; [|done].
  exfalso. eapply Hno; [exact Hj|]. by eapply parse_step_name.
Qed.

(** An indexed ":method GET", then the field. *)
Lemma parse_hpack_traceparent_plain_witness :
  let l := [0x82] ++ tp_field 0x40 false k_hpack_value_len_tp (make_tp_string example_tp) ++ [0x83] in
  fst (fst (parse_hpack_traceparent (list_buf l) (zlen l) example_tp)) = 1.
Proof.
  cbv zeta. rewrite (parse_hpack_traceparent_plain [0x82] 0x40 false example_tp [0x83] example_tp
    example_tp_wf eq_refl eq_refl); [done|].
  intros j Hj [H _]. change (zlen [130]) with 1 in Hj. assert (j = 0) as -> by lia. done.
Defined.

(** A Huffman-coded traceparent field is found and read.  When the value of the first literal
    "traceparent" field is the RFC 7541 Huffman code of the text of [tp], the name scan hands out
    its position and length and the decode program recovers the trace context from them. *)
Theorem parse_hpack_traceparent_huffman pre form huffman tp enc post tp0 out :
  wf_tp tp -> h2_hpack_is_literal form = true -> zlen pre < k_hpack_tp_max_scan ->
  huffman_string (list_buf enc) (zlen enc) (make_tp_string tp) ->
  let l := pre ++ tp_field form huffman (128 + zlen enc) enc ++ post in
  is_bytes l -> (forall j, 0 <= j < zlen pre -> ~ tp_name_at (list_buf l) j) ->
  exists huff,
    parse_hpack_traceparent (list_buf l) (zlen l) tp0 = (0, tp0, huff)
    /\ try_parse_tp_huffman_value (list_buf l) (zlen l) huff out tp0 = (1, tp_received tp tp0).
Proof.
  intros Hwf Hform Hpre Henc l Hb Hno. pose proof (zlen_nonneg pre). pose proof (zlen_nonneg post).
  pose proof (make_tp_string_text tp Hwf) as Htext.
  assert (Hl : 35 <= zlen enc <= 42).
  { destruct Henc as (pad & Hp & Hbits). apply (f_equal length) in Hbits.
    rewrite wbits_length, length_app, repeat_length in Hbits. destruct Htext as (Hl & Hc & _).
    pose proof (huff_code_length _ Hc). unfold zlen in *. lia. }
  assert (Hlen : zlen l = zlen pre + (if huffman then 11 else 14) + zlen enc + zlen post).
  { unfold l. rewrite !zlen_app, tp_field_length. lia. }
  assert (Hplaus : h2_tp_huff_len_plausible (128 + zlen enc) = true
    /\ u8 (Z.land (128 + zlen enc) (u8 (Z.lnot k_hpack_huffman_flag))) = zlen enc).
  { assert (zlen enc = 35 \/ zlen enc = 36 \/ zlen enc = 37 \/ zlen enc = 38 \/ zlen enc = 39
      \/ zlen enc = 40 \/ zlen enc = 41 \/ zlen enc = 42) as Hcase by lia.
    destruct Hcase as [->|[->|[->|[->|[->|[->|[->| ->]]]]]]]; done. }
  destruct Hplaus as [Hplaus Hclen].
  pose proof (parse_step_field pre form huffman (128 + zlen enc) enc post tp0 Hform) as Hs.
  fold l in Hs. cbv zeta in Hs. rewrite Hplaus, Hclen, (proj2 (Z.eqb_neq (128 + zlen enc) _)) in Hs by (kunfold; lia).
  set (voff := if huffman then k_hpack_tp_val_offset_huffman else k_hpack_tp_val_offset) in *.
  assert (Hv : voff = if huffman then 11 else 14) by by destruct huffman.
  eexists. split.
  { unfold parse_hpack_traceparent.
    rewrite (proj2 (Z.leb_le k_h2_tp_hpack_huff_min _)) by (kunfold; destruct huffman; lia).
    eapply parse_loop_first; [|exact Hs|split; [lia|kunfold; destruct huffman; lia]|kunfold; lia].
    intros j Hj. destruct (parse_hpack_step _ _ _ j) eqn:E; [|done].
    exfalso. eapply Hno; [exact Hj|]. by eapply parse_step_name. }
  unfold try_parse_tp_huffman_value. cbn [cand_at cand_len]. kunfold.
  rewrite (wrap_small 16) by (destruct huffman; lia).
  unfold clamp_umax. rewrite (proj2 (Z.leb_le (zlen pre + voff) _)) by (destruct huffman; lia).
  replace (negb (nz (zlen enc)) || _) with false by (unfold nz; destruct huffman; lia).
  assert (Hw : forall i, 0 <= huff_window (list_buf l) (zlen l) (zlen pre + voff) i < 256).
  { intros i. unfold huff_window. pose proof (list_buf_range l (zlen pre + voff + i) Hb). bdes_goal; lia. }
  assert (Hag : agree (zlen enc) (huff_window (list_buf l) (zlen l) (zlen pre + voff)) (list_buf enc)).
  { intros i Hi. unfold huff_window. kunfold.
    assert (list_buf l (zlen pre + voff + i) = list_buf enc i) as E.
    { unfold l, tp_field. rewrite <- Z.add_assoc, list_buf_app_r by (destruct huffman; lia).
      replace ((form :: tp_name_literal huffman ++ (128 + zlen enc) :: enc) ++ post)
        with ((form :: tp_name_literal huffman ++ [128 + zlen enc]) ++ enc ++ post)
        by (cbn [app]; rewrite <- !app_assoc; done).
      replace voff with (zlen (form :: tp_name_literal huffman ++ [128 + zlen enc]))
        by (rewrite Hv; by destruct huffman).
      rewrite list_buf_app_r, list_buf_app_l by lia. done. }
    rewrite E. bdes_goal; first [done|destruct huffman; lia]. }
  assert (Hstr : huffman_string (huff_window (list_buf l) (zlen l) (zlen pre + voff)) (zlen enc) (make_tp_string tp)).
  { destruct Henc as (pad & Hp & Hbits). exists pad. split; [done|]. rewrite <- Hbits.
    apply wbits_ext. intros k Hk. unfold bit_at. rewrite Hag by zdm. done. }
  destruct (proj2 (h2_huff_decode_tp_exact _ _ out _ Hw (zlen_nonneg enc)) (conj Htext Hstr)) as [Hok Ho].
  destruct (h2_huff_decode_tp _ _ _) as [ok o]. cbn [fst snd] in Hok, Ho. subst ok. cbn [negb].
  rewrite <- (try_parse_make tp tp0 [] Hwf), app_nil_r. apply try_parse_ext. intros i Hi.
  rewrite <- Ho. by rewrite take_buf_list_buf by lia.
Qed.

Lemma parse_hpack_traceparent_huffman_witness :
  let l := [] ++ tp_field 0 true (128 + zlen example_tp_huffman) example_tp_huffman ++ [] in
  exists huff, parse_hpack_traceparent (list_buf l) (zlen l) example_tp = (0, example_tp, huff)
    /\ try_parse_tp_huffman_value (list_buf l) (zlen l) huff (fun _ => 0) example_tp
       = (1, tp_received example_tp example_tp).
Proof.
  apply (parse_hpack_traceparent_huffman [] 0 true example_tp example_tp_huffman [] example_tp (fun _ => 0)
    example_tp_wf eq_refl eq_refl).
  - exists 4%nat. split; [lia|by vm_compute].
  - unfold is_bytes. vm_compute. repeat constructor; done.
  - intros j Hj. change (zlen []) with 0 in Hj. lia.
Defined.

(** The parsers read only the block.  On memories that agree on the [data_len] bytes of the
    block, the name scan and the indexed-value scan give the same result. *)
Theorem hpack_scans_in_bounds data data' data_len tp :
  agree data_len data data' ->
  parse_hpack_traceparent data data_len tp = parse_hpack_traceparent data' data_len tp
  /\ find_hpack_traceparent_value data data_len tp = find_hpack_traceparent_value data' data_len tp.
Proof.
  intros H. unfold parse_hpack_traceparent, find_hpack_traceparent_value. split.
  - destruct (Z.leb_spec k_h2_tp_hpack_huff_min data_len); [|done].
    apply parse_loop_ext; [done|lia|kunfold; lia].
  - destruct (Z.ltb_spec data_len (k_hpack_value_len_tp + 1)); [done|].
    apply find_value_loop_ext with (data_len := data_len); [done|lia|kunfold; lia].
Qed.

Lemma hpack_scans_in_bounds_witness :
  parse_hpack_traceparent (list_buf (repeat 64 80)) 80 example_tp
  = parse_hpack_traceparent (list_buf (repeat 64 80 ++ [11; 116])) 80 example_tp.
Proof.
  apply (hpack_scans_in_bounds _ (list_buf (repeat 64 80 ++ [11; 116]))).
  intros i Hi. by rewrite list_buf_app_l.
Defined.

(** The Huffman sweep records the first three candidates.  When the block lies inside the
    256-byte capture, [find_hpack_traceparent_huffman] leaves in the scan record exactly the
    first three offsets past [resume], among the positions a value of the minimal size still fits
    after, whose octet announces a Huffman string of plausible length, with those lengths. *)
Theorem find_hpack_traceparent_huffman_first base off data_len scan :
  (forall j, 0 <= base j < 256) -> 0 <= off -> 36 <= data_len -> off + data_len <= 256 ->
  let '(r, scan') := find_hpack_traceparent_huffman base off data_len scan in
  let l := take 3 (huff_offsets base off (scan_resume scan) (Z.to_nat (Z.min 247 (data_len - 35)))) in
  scan_holds base off scan' l /\ r = b2z (nz (zlen l)) /\ scan_resume scan' = scan_resume scan.
Proof.
  intros Hb Ho Hd Hr. unfold find_hpack_traceparent_huffman.
  rewrite (proj2 (Z.ltb_ge data_len _)) by (kunfold; lia). cbv zeta.
  set (scan0 := mk_huff_scan _ _ _ _ _ _). set (N := Z.min 247 (data_len - 35)).
  set (res := bpf_loop _ _ _).
  enough (H : scan_holds base off res (take 3 (huff_offsets base off (scan_resume scan) (Z.to_nat N)))
    /\ scan_resume res = scan_resume scan).
  { destruct H as [H Hres]. split_and!; [done| |done]. destruct H as [-> _]. done. }
  unfold res, bpf_loop. change (Z.to_nat k_hpack_tp_max_scan) with 247%nat.
  apply (bpf_loop_from_inv (fun i s => scan_resume s = scan_resume scan
    /\ scan_holds base off s (take 3 (huff_offsets base off (scan_resume scan) (Z.to_nat (Z.min i N)))))).
  - split; [done|]. replace (Z.min 0 N) with 0 by lia. done.
  - intros i s Hi [Hres Hs]. destruct (Z.lt_ge_cases i N).
    + replace (Z.min i N) with i in Hs by lia.
      pose proof (scan_step_spec base off (data_len - k_h2_tp_huff_min - 1) i s Hb Ho ltac:(lia)
        ltac:(kunfold; lia) ltac:(lia)) as Hstep. rewrite Hres in Hstep. specialize (Hstep Hs).
      destruct (h2_huff_scan_step _ _ _) as [s' stop]. destruct Hstep as (Hres' & Hs' & Hstop).
      destruct stop.
      * specialize (Hstop eq_refl). split; [|congruence].
        destruct (huff_offsets_app base off (scan_resume scan) (S (Z.to_nat i)) (Z.to_nat N - S (Z.to_nat i)))
          as [tl Htl]. replace (S (Z.to_nat i) + _)%nat with (Z.to_nat N) in Htl by lia.
        rewrite Htl, take_le_3; [done|]. rewrite huff_offsets_S, length_app. lia.
      * split; [congruence|]. by replace (Z.to_nat (Z.min (i + 1) N)) with (S (Z.to_nat i)) by lia.
    + unfold h2_huff_scan_step. cbn [slc_max_pos]. replace (_ || _) with true by (kunfold; lia).
      replace (Z.min i N) with N in Hs by lia. done.
  - intros s [Hres Hs]. replace (Z.min (0 + Z.of_nat 247) N) with N in Hs by lia. done.
Qed.

Lemma find_hpack_traceparent_huffman_first_witness :
  scan_count (snd (find_hpack_traceparent_huffman (list_buf (repeat 0xa3 100)) 9 91
    (mk_huff_scan (fun _ => 0) (fun _ => 0) 0 0 0 0))) = 3.
Proof.
  pose proof (find_hpack_traceparent_huffman_first (list_buf (repeat 0xa3 100)) 9 91
    (mk_huff_scan (fun _ => 0) (fun _ => 0) 0 0 0 0)) as H.
  destruct (find_hpack_traceparent_huffman _ _ _ _) as [r s]. cbv zeta in H.
  destruct H as [[H _] _]; [|lia|lia|lia|].
  - intros j. apply list_buf_range. unfold is_bytes. apply Forall_forall. intros x Hx%list_elem_of_In%repeat_spec. lia.
  - cbn [snd]. rewrite H. by vm_compute.
Defined.
