(* ===== verification/H2Txn.v ===== *)
(** * The socket-message write transaction ([bpf/tpinjector/h2_write_transaction.h]) and the HPACK
      field it writes ([make_h2_tp_hpack] of [tpinjector.c]).

    The sk_msg helpers are kernel code: [SkMsgOps] is their interface, [SkMsgLaws] what their
    documentation promises, and the transaction is proved against it.  Every helper may fail at
    every call.  [scripted] is an instance whose helpers fail when a script says so. *)

From Stdlib Require Import ZArith Lia ZifyBool List Bool.
From stdpp Require Import base list.
From S2P Require Import Prelude TraceUtil H2Defs H2Sniff H2Scan.

Local Open Scope Z_scope.

(** ** The helper interface *)

Class SkMsgOps (M : Type) := {
  (** the message, [size] being its length *)
  m_bytes : M -> list Z;
  (** [bpf_msg_pull_data(msg, start, end, 0) == 0] *)
  m_pull : M -> Z -> Z -> bool * M;
  (** [data_end - data] after a pull; [None] when [data] is NULL *)
  m_view : M -> option Z;
  (** [bpf_msg_push_data(msg, start, len, 0) == 0] *)
  m_push : M -> Z -> Z -> bool * M;
  (** [bpf_msg_pop_data(msg, start, len, 0) == 0] *)
  m_pop : M -> Z -> Z -> bool * M;
  (** the bytes stored through [data], at a message offset *)
  m_store : M -> Z -> list Z -> M
}.

Definition m_size {M} `{SkMsgOps M} (m : M) : Z := zlen (m_bytes m).

(** [del] bytes at [off] replaced by [ins]. *)
Definition splice (l : list Z) (off del : Z) (ins : list Z) : list Z :=
  take (Z.to_nat off) l ++ ins ++ drop (Z.to_nat (off + del)) l.

Class SkMsgLaws (M : Type) `{SkMsgOps M} := {
  pull_bytes m a b : m_bytes (snd (m_pull m a b)) = m_bytes m;
  push_failed m off len : fst (m_push m off len) = false -> m_bytes (snd (m_push m off len)) = m_bytes m;
  push_inserts m off len :
    fst (m_push m off len) = true -> 0 <= off <= m_size m -> 0 <= len ->
    exists fill, zlen fill = len /\ m_bytes (snd (m_push m off len)) = splice (m_bytes m) off 0 fill;
  pop_failed m off len : fst (m_pop m off len) = false -> m_bytes (snd (m_pop m off len)) = m_bytes m;
  pop_removes m off len :
    fst (m_pop m off len) = true -> 0 <= off -> 0 <= len -> off + len <= m_size m ->
    m_bytes (snd (m_pop m off len)) = splice (m_bytes m) off len [];
  store_writes m off bs :
    0 <= off -> off + zlen bs <= m_size m ->
    m_bytes (m_store m off bs) = splice (m_bytes m) off (zlen bs) bs
}.

(** ** Definitions *)

Inductive h2_socket_transaction_outcome :=
  | k_h2_socket_transaction_no_mutation
  | k_h2_socket_transaction_committed
  | k_h2_socket_transaction_rollback_verified
  | k_h2_socket_transaction_rollback_uncertain.

Definition k_h2_frame_len_field_size : Z := 3.

#[export] Hint Unfold k_h2_frame_len_field_size : kconst.

Definition h2_frame_len_bytes_are (data : buf) (expected : Z) : bool :=
  (data 0 =? Z.land (Z.shiftr expected 16) 0xff) && (data 1 =? Z.land (Z.shiftr expected 8) 0xff)
  && (data 2 =? Z.land expected 0xff).

(** The bytes stored. *)
Definition h2_store_frame_len (len : Z) : list Z :=
  [Z.land (Z.shiftr len 16) 0xff; Z.land (Z.shiftr len 8) 0xff; Z.land len 0xff].

(** The bytes [make_h2_tp_hpack] writes when the room check passes. *)
Definition make_h2_tp_hpack (tp : tp_info) : list Z :=
  [k_hpack_literal_no_index; k_hpack_tp_name_len;
   116; 114; 97; 99; 101; 112; 97; 114; 101; 110; 116;
   k_hpack_value_len_tp; 48; 48; 45]
  ++ encode_hex (trace_id tp) ++ [45] ++ encode_hex (span_id tp) ++ [45]
  ++ [48; 48 + Z.land (flags tp) k_flag_sampled].

Section transaction.
Context {M : Type} `{SkMsgOps M}.

(** [!data || data + n > data_end] is false. *)
Definition view_ok (m : M) (n : Z) : bool :=
  match m_view m with Some w => n <=? w | None => false end.

(** [msg->data] after a pull at [off]. *)
Definition m_data (m : M) (off : Z) : buf := shift (list_buf (m_bytes m)) off.

(** A helper tried a second time when the first call fails. *)
Definition retry_once (f : M -> bool * M) (m : M) : bool * M :=
  let '(ok, m) := f m in if ok then (ok, m) else f m.

Definition h2_restore_socket_message (m : M) (original_size frame_offset payload_len inject_offset : Z)
    : bool * M :=
  let '(popped, m) := retry_once (fun m => m_pop m inject_offset k_h2_tp_hpack_size) m in
  if negb popped then (false, m)
  else if negb (m_size m =? original_size) then (false, m)
  else
    let '(pulled, m) :=
      retry_once (fun m => m_pull m frame_offset (u32 (frame_offset + k_h2_frame_len_field_size))) m in
    if negb pulled then (false, m)
    else if negb (view_ok m k_h2_frame_len_field_size) then (false, m)
    else
      let m := m_store m frame_offset (h2_store_frame_len payload_len) in
      (h2_frame_len_bytes_are (m_data m frame_offset) payload_len, m).

Definition roll_back (m : M) (original_size frame_offset payload_len inject_offset : Z)
    : h2_socket_transaction_outcome * M :=
  let '(ok, m) := h2_restore_socket_message m original_size frame_offset payload_len inject_offset in
  (if ok then k_h2_socket_transaction_rollback_verified
   else k_h2_socket_transaction_rollback_uncertain, m).

Definition h2_write_socket_transaction (m : M) (frame_offset payload_len inject_offset : Z)
    (expected : option (list Z)) : h2_socket_transaction_outcome * M :=
  let original_size := m_size m in
  match expected with
  | None => (k_h2_socket_transaction_no_mutation, m)
  | Some expected =>
  if (k_h2_default_max_frame_size - k_h2_tp_hpack_size <? payload_len)
     || (original_size <? frame_offset)
     || (original_size - frame_offset <? k_h2_frame_header_len)
     || (original_size - frame_offset - k_h2_frame_header_len <? payload_len)
     || (inject_offset <? u32 (frame_offset + k_h2_frame_header_len))
     || (u32 (frame_offset + k_h2_frame_header_len + payload_len) <? inject_offset)
     || (2 ^ 32 - 1 - k_h2_tp_hpack_size <? original_size)
  then (k_h2_socket_transaction_no_mutation, m)
  else
    let '(ok, m) := m_pull m 0 original_size in
    if negb ok then (k_h2_socket_transaction_no_mutation, m)
    else
    let '(ok, m) := m_pull m frame_offset (u32 (frame_offset + k_h2_frame_len_field_size)) in
    if negb ok then (k_h2_socket_transaction_no_mutation, m)
    else if negb (view_ok m k_h2_frame_len_field_size)
            || negb (h2_frame_len_bytes_are (m_data m frame_offset) payload_len)
    then (k_h2_socket_transaction_no_mutation, m)
    else
    let '(ok, m) := m_push m inject_offset k_h2_tp_hpack_size in
    if negb ok then (k_h2_socket_transaction_no_mutation, m)
    else
    let '(ok, m) := m_pull m inject_offset (u32 (inject_offset + k_h2_tp_hpack_size)) in
    if negb ok then roll_back m original_size frame_offset payload_len inject_offset
    else if negb (view_ok m k_h2_tp_hpack_size)
    then roll_back m original_size frame_offset payload_len inject_offset
    else
    let m := m_store m inject_offset (take (Z.to_nat k_h2_tp_hpack_size) expected) in
    let '(ok, m) := m_pull m frame_offset (u32 (frame_offset + k_h2_frame_len_field_size)) in
    if negb ok then roll_back m original_size frame_offset payload_len inject_offset
    else if negb (view_ok m k_h2_frame_len_field_size)
    then roll_back m original_size frame_offset payload_len inject_offset
    else
    let m := m_store m frame_offset (h2_store_frame_len (payload_len + k_h2_tp_hpack_size)) in
    let '(_, m) := m_pull m 0 (u32 (original_size + k_h2_tp_hpack_size)) in
    (k_h2_socket_transaction_committed, m)
  end.

End transaction.

(** ** A scripted instance *)

(** A message whose helpers consume one boolean of the script per call, succeeding when it runs
    out; every successful pull maps the whole message. *)
Record scripted := mk_scripted { sc_bytes : list Z; sc_script : list bool }.

Definition sc_next (m : scripted) : bool * list bool :=
  match sc_script m with [] => (true, []) | b :: s => (b, s) end.

Definition sc_update (m : scripted) (f : list Z -> list Z) : bool * scripted :=
  let '(ok, s) := sc_next m in (ok, mk_scripted (if ok then f (sc_bytes m) else sc_bytes m) s).

#[export] Instance scripted_ops : SkMsgOps scripted := {|
  m_bytes := sc_bytes;
  m_pull m a b := sc_update m (fun l => l);
  m_view m := Some (zlen (sc_bytes m));
  m_push m off len := sc_update m (fun l => splice l off 0 (repeat 0 (Z.to_nat len)));
  m_pop m off len := sc_update m (fun l => splice l off len []);
  m_store m off bs := mk_scripted (splice (sc_bytes m) off (zlen bs) bs) (sc_script m)
|}.

#[export] Instance scripted_laws : SkMsgLaws scripted.
Proof.
  constructor; intros m off len; simpl; unfold sc_update; destruct (sc_next m) as [[] s]; simpl; try done.
  intros _ _ Hl. exists (repeat 0 (Z.to_nat len)). split; [|done]. unfold zlen. rewrite repeat_length. lia.
Qed.

(** ** Lemmas *)

Lemma splice_app a d b off del ins :
  zlen a = off -> zlen d = del -> splice (a ++ d ++ b) off del ins = a ++ ins ++ b.
Proof.
  unfold zlen. intros <- <-. unfold splice. rewrite Nat2Z.id.
  replace (Z.to_nat (Z.of_nat (length a) + Z.of_nat (length d))) with (length a + length d)%nat by lia.
  rewrite take_app_length. f_equal. f_equal. rewrite <- drop_drop, drop_app_length. apply drop_app_length.
Qed.

Lemma frame_len_bytes_are_iff a x b n rest :
  h2_frame_len_bytes_are (list_buf (a :: x :: b :: rest)) n = true -> [a; x; b] = h2_store_frame_len n.
Proof.
  unfold h2_frame_len_bytes_are, h2_store_frame_len. lbuf. rewrite !andb_true_iff, !Z.eqb_eq.
  by intros [[-> ->] ->].
Qed.

Lemma store_frame_len_be n : h2_store_frame_len n = be_bytes 3 n.
Proof.
  unfold h2_store_frame_len. rewrite be_bytes_3, !land_ff, !Z.shiftr_div_pow2 by lia. done.
Qed.

Lemma frame_len_bytes_are_be n rest :
  h2_frame_len_bytes_are (list_buf (be_bytes 3 n ++ rest)) n = true.
Proof.
  unfold h2_frame_len_bytes_are. rewrite be_bytes_3. lbuf. rewrite !land_ff, !Z.shiftr_div_pow2 by lia.
  change (2 ^ 16) with 65536. change (2 ^ 8) with 256. by rewrite !Z.eqb_refl.
Qed.

Section laws.
Context {M : Type} `{SkMsgLaws M}.

Lemma m_data_app m a b off i : m_bytes m = a ++ b -> zlen a = off -> 0 <= i -> m_data m off i = list_buf b i.
Proof. intros E <- Hi. unfold m_data, shift. rewrite E. by apply list_buf_app_r. Qed.

Lemma len_bytes_at m a b off n :
  m_bytes m = a ++ b -> zlen a = off ->
  h2_frame_len_bytes_are (m_data m off) n = h2_frame_len_bytes_are (list_buf b) n.
Proof. intros E Ha. unfold h2_frame_len_bytes_are. by rewrite !(m_data_app m a b off) by (done || lia). Qed.

Lemma retry_pull m a b : m_bytes (snd (retry_once (fun m => m_pull m a b) m)) = m_bytes m.
Proof.
  unfold retry_once. pose proof (pull_bytes m a b) as E. destruct (m_pull m a b) as [[] m1]; [done|].
  simpl in E. by rewrite pull_bytes.
Qed.

Lemma retry_pop m off len :
  0 <= off -> 0 <= len -> off + len <= m_size m ->
  let '(ok, m') := retry_once (fun m => m_pop m off len) m in
  m_bytes m' = if ok then splice (m_bytes m) off len [] else m_bytes m.
Proof.
  intros Ho Hl Hs. unfold retry_once. destruct (m_pop m off len) as [[] m1] eqn:E1.
  - rewrite <- pop_removes by (done || by rewrite E1). by rewrite E1.
  - assert (E : m_bytes m1 = m_bytes m) by (rewrite <- (pop_failed m off len); by rewrite E1).
    destruct (m_pop m1 off len) as [[] m2] eqn:E2.
    + rewrite <- E, <- pop_removes; [by rewrite E2|by rewrite E2|done|done|]. unfold m_size in *. by rewrite E.
    + rewrite <- E, <- (pop_failed m1 off len); by rewrite E2.
Qed.

(** A rollback that reports success leaves the original message. *)
Lemma roll_back_restores m a mid b pl lenb rest fo io osz :
  m_bytes m = a ++ lenb ++ rest ++ mid ++ b -> zlen a = fo -> lenb = h2_store_frame_len pl ->
  io = fo + 3 + zlen rest -> zlen mid = k_h2_tp_hpack_size -> 0 <= pl ->
  let '(o, m') := roll_back m osz fo pl io in
  o = k_h2_socket_transaction_rollback_uncertain
  \/ o = k_h2_socket_transaction_rollback_verified /\ m_bytes m' = a ++ lenb ++ rest ++ b.
Proof.
  intros E Ha Hlen Hio Hmid Hpl. unfold roll_back, h2_restore_socket_message.
  pose proof (zlen_nonneg a). pose proof (zlen_nonneg rest).
  assert (Hl3 : zlen lenb = 3) by (by rewrite Hlen).
  pose proof (retry_pop m io k_h2_tp_hpack_size) as Hp.
  destruct (retry_once _ m) as [[] m1]; cbn [negb]; [|by left].
  rewrite E in Hp. replace (a ++ lenb ++ rest ++ mid ++ b) with ((a ++ lenb ++ rest) ++ mid ++ b) in Hp
    by by rewrite <- !app_assoc.
  rewrite splice_app in Hp by (rewrite ?zlen_app; lia). cbn [app] in Hp. rewrite <- !app_assoc in Hp.
  assert (E1 : m_bytes m1 = a ++ lenb ++ rest ++ b).
  { apply Hp; [lia|by unfold k_h2_tp_hpack_size|]. unfold m_size. rewrite E, !zlen_app, Hmid.
    pose proof (zlen_nonneg b). lia. }
  destruct (m_size m1 =? osz); cbn [negb]; [|by left].
  pose proof (retry_pull m1 fo (u32 (fo + k_h2_frame_len_field_size))) as Hr.
  destruct (retry_once _ m1) as [[] m2]; cbn [negb]; [|by left]. cbn [snd] in Hr. rewrite E1 in Hr.
  destruct (view_ok m2 _); cbn [negb]; [|by left].
  assert (E2 : m_bytes (m_store m2 fo (h2_store_frame_len pl)) = a ++ lenb ++ rest ++ b).
  { rewrite store_writes; [|lia|].
    - rewrite Hr, splice_app by (done || by rewrite Hl3). by rewrite Hlen.
    - unfold m_size. rewrite Hr, !zlen_app, Hl3. change (zlen (h2_store_frame_len pl)) with 3.
      pose proof (zlen_nonneg b). lia. }
  destruct (h2_frame_len_bytes_are _ _); [by right|by left].
Qed.

(** What the transaction leaves, by outcome, on a message split at the length field and at the
    insertion point. *)
Definition transaction_result (a lenb rest b expected : list Z) (pl : Z)
    (o : h2_socket_transaction_outcome) (m' : M) : Prop :=
  match o with
  | k_h2_socket_transaction_committed =>
      lenb = h2_store_frame_len pl
      /\ m_bytes m' = a ++ h2_store_frame_len (pl + k_h2_tp_hpack_size) ++ rest ++ expected ++ b
  | k_h2_socket_transaction_rollback_uncertain => True
  | _ => m_bytes m' = a ++ lenb ++ rest ++ b
  end.

Lemma len_field_check m a lenb r pl fo :
  m_bytes m = a ++ lenb ++ r -> zlen a = fo -> zlen lenb = 3 ->
  h2_frame_len_bytes_are (m_data m fo) pl = true -> lenb = h2_store_frame_len pl.
Proof.
  intros E Ha Hl. rewrite (len_bytes_at m a (lenb ++ r) fo pl E Ha).
  destruct lenb as [|x [|y [|z []]]]; try (unfold zlen in Hl; simpl in Hl; lia).
  apply frame_len_bytes_are_iff.
Qed.

Lemma roll_back_result m a mid b pl lenb rest expected osz :
  m_bytes m = a ++ lenb ++ rest ++ mid ++ b -> lenb = h2_store_frame_len pl ->
  zlen mid = k_h2_tp_hpack_size -> 0 <= pl ->
  let '(o, m') := roll_back m osz (zlen a) pl (zlen a + 3 + zlen rest) in
  transaction_result a lenb rest b expected pl o m'.
Proof.
  intros E Hl Hm Hpl.
  pose proof (roll_back_restores m a mid b pl lenb rest (zlen a) (zlen a + 3 + zlen rest) osz E eq_refl Hl eq_refl Hm Hpl).
  destruct (roll_back _ _ _ _ _) as [o m']. by destruct H1 as [-> | [-> ?]].
Qed.

Lemma transaction_spec m a lenb rest b pl expected :
  m_bytes m = a ++ lenb ++ rest ++ b -> zlen lenb = 3 -> 0 <= pl ->
  zlen expected = k_h2_tp_hpack_size ->
  let '(o, m') := h2_write_socket_transaction m (zlen a) pl (zlen a + 3 + zlen rest) (Some expected) in
  transaction_result a lenb rest b expected pl o m'.
Proof.
  intros E Hl Hpl Hexp. unfold h2_write_socket_transaction. destruct (_ || _); [done|].
  pose proof (zlen_nonneg a). pose proof (zlen_nonneg rest). pose proof (zlen_nonneg b).
  assert (Hexp' : take (Z.to_nat k_h2_tp_hpack_size) expected = expected)
    by (apply take_ge; unfold zlen in Hexp; lia).
  assert (Hpull : forall m x y l, m_bytes m = l -> m_bytes (snd (m_pull m x y)) = l)
    by (intros ? ? ? ? <-; apply pull_bytes).
  pose proof (Hpull m 0 (m_size m) _ E) as E1. destruct (m_pull m 0 _) as [[] m1]; [|done].
  cbn [negb snd] in *.
  pose proof (Hpull m1 (zlen a) (u32 (zlen a + k_h2_frame_len_field_size)) _ E1) as E2.
  destruct (m_pull m1 _ _) as [[] m2]; [|done]. cbn [negb snd] in *.
  destruct (view_ok m2 _); [|done]. cbn [negb orb].
  destruct (h2_frame_len_bytes_are _ pl) eqn:Hchk; [|done]. cbn [negb].
  pose proof (len_field_check m2 a lenb _ pl (zlen a) E2 eq_refl Hl Hchk) as Hlb.
  assert (Hsz : m_size m2 = zlen a + 3 + zlen rest + zlen b) by (unfold m_size; rewrite E2, !zlen_app; lia).
  pose proof (push_failed m2 (zlen a + 3 + zlen rest) k_h2_tp_hpack_size) as Hpf.
  pose proof (push_inserts m2 (zlen a + 3 + zlen rest) k_h2_tp_hpack_size) as Hpi.
  destruct (m_push m2 _ _) as [[] m3]; cbn [negb fst snd] in *; [|cbn [transaction_result]; rewrite Hpf by done; exact E2].
  destruct Hpi as (fill & Hfill & E3); [done|lia|done|]. rewrite E2 in E3.
  replace (a ++ lenb ++ rest ++ b) with ((a ++ lenb ++ rest) ++ [] ++ b) in E3 by (rewrite <- !app_assoc; done).
  rewrite splice_app in E3 by (rewrite ?zlen_app; try done; lia). rewrite <- !app_assoc in E3.
  pose proof (fun osz m E => roll_back_result m a fill b pl lenb rest expected osz E Hlb Hfill Hpl) as Hback.
  pose proof (Hpull m3 (zlen a + 3 + zlen rest) (u32 (zlen a + 3 + zlen rest + k_h2_tp_hpack_size)) _ E3) as E4.
  destruct (m_pull m3 _ _) as [[] m4]; cbn [negb snd] in *; [|by apply Hback].
  destruct (view_ok m4 _); cbn [negb]; [|by apply Hback]. rewrite Hexp'.
  assert (E5 : m_bytes (m_store m4 (zlen a + 3 + zlen rest) expected) = a ++ lenb ++ rest ++ expected ++ b).
  { rewrite store_writes; [|lia|unfold m_size; rewrite E4, !zlen_app; lia]. rewrite E4.
    replace (a ++ lenb ++ rest ++ fill ++ b) with ((a ++ lenb ++ rest) ++ fill ++ b) by (rewrite <- !app_assoc; done).
    rewrite splice_app by (rewrite ?zlen_app; lia). by rewrite <- !app_assoc. }
  revert E5. generalize (m_store m4 (zlen a + 3 + zlen rest) expected). intros m5 E5.
  pose proof (fun osz m E => roll_back_result m a expected b pl lenb rest expected osz E Hlb Hexp Hpl) as Hback2.
  pose proof (Hpull m5 (zlen a) (u32 (zlen a + k_h2_frame_len_field_size)) _ E5) as E6.
  destruct (m_pull m5 _ _) as [[] m6]; cbn [negb snd] in *; [|by apply Hback2].
  destruct (view_ok m6 _); cbn [negb]; [|by apply Hback2].
  assert (E7 : m_bytes (m_store m6 (zlen a) (h2_store_frame_len (pl + k_h2_tp_hpack_size)))
    = a ++ h2_store_frame_len (pl + k_h2_tp_hpack_size) ++ rest ++ expected ++ b).
  { assert (zlen (h2_store_frame_len (pl + k_h2_tp_hpack_size)) = 3) by done.
    pose proof (zlen_nonneg expected). rewrite store_writes; [|lia|unfold m_size; rewrite E6, !zlen_app; lia].
    by rewrite E6, splice_app by done. }
  revert E7. generalize (m_store m6 (zlen a) (h2_store_frame_len (pl + k_h2_tp_hpack_size))). intros m7 E7.
  pose proof (Hpull m7 0 (u32 (m_size m + k_h2_tp_hpack_size)) _ E7) as E8.
  destruct (m_pull m7 _ _) as [ok m8]. cbn [snd] in E8. split; done.
Qed.

End laws.

(** The field is the literal, plain-named traceparent of the scanner's wire format. *)
Lemma make_h2_tp_hpack_field tp :
  make_h2_tp_hpack tp = tp_field k_hpack_literal_no_index false k_hpack_value_len_tp (make_tp_string tp).
Proof. reflexivity. Qed.

(** The frame with [ins] inserted in its payload after [p1]. *)
Definition with_payload (f : h2_frame) (p : list Z) : h2_frame :=
  mk_frame (fr_type f) (fr_flags f) (fr_stream f) p.

(** The transaction on a frame, for any behaviour of the helpers. *)
Lemma transaction_frame {M} `{SkMsgLaws M} (m : M) pre f p1 p2 post expected :
  fr_payload f = p1 ++ p2 -> zlen expected = k_h2_tp_hpack_size ->
  m_bytes m = pre ++ frame_bytes f ++ post ->
  let '(o, m') := h2_write_socket_transaction m (zlen pre) (zlen (fr_payload f))
                    (zlen pre + k_h2_frame_header_len + zlen p1) (Some expected) in
  match o with
  | k_h2_socket_transaction_committed =>
      m_bytes m' = pre ++ frame_bytes (with_payload f (p1 ++ expected ++ p2)) ++ post
  | k_h2_socket_transaction_no_mutation | k_h2_socket_transaction_rollback_verified =>
      m_bytes m' = m_bytes m
  | k_h2_socket_transaction_rollback_uncertain => True
  end.
Proof.
  intros Hp Hexp E. set (hdr := [fr_type f; fr_flags f] ++ be_bytes 4 (fr_stream f)).
  assert (Eb : m_bytes m = pre ++ be_bytes 3 (zlen (fr_payload f)) ++ (hdr ++ p1) ++ p2 ++ post).
  { rewrite E. unfold frame_bytes, hdr. rewrite Hp, <- !app_assoc. done. }
  pose proof (transaction_spec m pre _ (hdr ++ p1) (p2 ++ post) (zlen (fr_payload f)) expected Eb
    ltac:(by rewrite be_bytes_3) (zlen_nonneg _) Hexp) as Ht.
  replace (zlen pre + 3 + zlen (hdr ++ p1)) with (zlen pre + k_h2_frame_header_len + zlen p1) in Ht
    by (rewrite zlen_app; unfold hdr; rewrite be_bytes_4; change (zlen ([_; _] ++ [_; _; _; _])) with 6; kunfold; lia).
  destruct (h2_write_socket_transaction _ _ _ _ _) as [o m']. destruct o; cbn [transaction_result] in Ht.
  - by rewrite Ht, Eb.
  - destruct Ht as [_ Ht]. rewrite Ht, store_frame_len_be. unfold frame_bytes, with_payload, hdr.
    cbn [fr_payload fr_type fr_flags fr_stream].
    rewrite <- !app_assoc. do 2 f_equal. f_equal. rewrite Hp, !zlen_app, Hexp. lia.
  - by rewrite Ht, Eb.
  - done.
Qed.

(** ** Properties *)

(** C5: the injection is all-or-nothing.  Whatever the kernel helpers do, on a message holding the
    frame [f] between other bytes, with the insertion point inside its payload: when the
    transaction reports [committed], the message is the same with exactly one frame changed, its
    payload now [p1 ++ expected ++ p2] and its length field consistent; when it reports
    [no_mutation] or [rollback_verified], every byte of the message is what it was. *)
Theorem h2_write_socket_transaction_atomic {M} `{SkMsgLaws M} (m : M) pre f p1 p2 post expected :
  fr_payload f = p1 ++ p2 -> zlen expected = k_h2_tp_hpack_size ->
  m_bytes m = pre ++ frame_bytes f ++ post ->
  let '(o, m') := h2_write_socket_transaction m (zlen pre) (zlen (fr_payload f))
                    (zlen pre + k_h2_frame_header_len + zlen p1) (Some expected) in
  match o with
  | k_h2_socket_transaction_committed =>
      m_bytes m' = pre ++ frame_bytes (with_payload f (p1 ++ expected ++ p2)) ++ post
  | k_h2_socket_transaction_no_mutation | k_h2_socket_transaction_rollback_verified =>
      m_bytes m' = m_bytes m
  | k_h2_socket_transaction_rollback_uncertain => True
  end.
Proof. exact (transaction_frame m pre f p1 p2 post expected). Qed.

Definition example_headers : h2_frame := mk_frame 1 4 1 [0x82; 0x87].

(** Committed when every helper succeeds, rolled back when the pull after the push fails. *)
Lemma h2_write_socket_transaction_atomic_witness :
  let run script := h2_write_socket_transaction
    (mk_scripted ([1] ++ frame_bytes example_headers ++ [2]) script) 1 2 12 (Some (repeat 7 69)) in
  m_bytes (snd (run [])) = [1] ++ frame_bytes (with_payload example_headers ([0x82; 0x87] ++ repeat 7 69 ++ [])) ++ [2]
  /\ m_bytes (snd (run [true; true; true; false])) = [1] ++ frame_bytes example_headers ++ [2].
Proof.
  cbv zeta. split.
  - exact (h2_write_socket_transaction_atomic (mk_scripted ([1] ++ frame_bytes example_headers ++ [2]) [])
      [1] example_headers [0x82; 0x87] [] [2] (repeat 7 69) eq_refl eq_refl eq_refl).
  - exact (h2_write_socket_transaction_atomic
      (mk_scripted ([1] ++ frame_bytes example_headers ++ [2]) [true; true; true; false])
      [1] example_headers [0x82; 0x87] [] [2] (repeat 7 69) eq_refl eq_refl eq_refl).
Defined.

(** The injection succeeds when the kernel cooperates.  If every pull and push succeeds and
    maps what was asked for, a frame whose payload leaves room for the field under the default
    maximum frame size is always extended: the outcome is [committed]. *)
Theorem h2_write_socket_transaction_commits {M} `{SkMsgLaws M} (m : M) pre f p1 p2 post expected :
  (forall m a b, fst (m_pull m a b) = true) -> (forall m a b, fst (m_push m a b) = true) ->
  (forall m n, n <= k_h2_tp_hpack_size -> view_ok m n = true) ->
  fr_payload f = p1 ++ p2 -> m_bytes m = pre ++ frame_bytes f ++ post ->
  zlen (fr_payload f) + k_h2_tp_hpack_size <= k_h2_default_max_frame_size ->
  m_size m + k_h2_tp_hpack_size < 2 ^ 32 ->
  fst (h2_write_socket_transaction m (zlen pre) (zlen (fr_payload f))
         (zlen pre + k_h2_frame_header_len + zlen p1) (Some expected))
  = k_h2_socket_transaction_committed.
Proof.
  intros Hpull Hpush Hview Hp E Hmax Hsz. unfold h2_write_socket_transaction.
  pose proof (zlen_nonneg pre). pose proof (zlen_nonneg p1). pose proof (zlen_nonneg p2). pose proof (zlen_nonneg post).
  assert (Hf : zlen (frame_bytes f) = 9 + zlen (fr_payload f)).
  { unfold frame_bytes. rewrite !zlen_app, be_bytes_3, be_bytes_4. unfold zlen. simpl length. lia. }
  assert (Hs : m_size m = zlen pre + 9 + zlen (fr_payload f) + zlen post)
    by (unfold m_size; rewrite E, !zlen_app; lia).
  assert (Hpl : zlen (fr_payload f) = zlen p1 + zlen p2) by by rewrite Hp, zlen_app.
  kunfold. rewrite !(wrap_small 32 (zlen pre + 9)), !(wrap_small 32 (zlen pre + 9 + _)) by lia.
  replace (_ || _) with false by lia.
  pose proof (Hpull m 0 (m_size m)) as Hok1. pose proof (pull_bytes m 0 (m_size m)) as E1.
  destruct (m_pull m 0 _) as [ok m1]. cbn [fst snd] in *. subst ok. cbn [negb].
  pose proof (Hpull m1 (zlen pre) (u32 (zlen pre + 3))) as Hok2.
  pose proof (pull_bytes m1 (zlen pre) (u32 (zlen pre + 3))) as E2.
  destruct (m_pull m1 _ _) as [ok m2]. cbn [fst snd] in *. subst ok. cbn [negb]. rewrite Hview by (kunfold; lia). cbn [negb orb].
  rewrite (len_bytes_at m2 pre (frame_bytes f ++ post)) by (congruence || done).
  unfold frame_bytes at 1. rewrite <- app_assoc, frame_len_bytes_are_be. cbn [negb].
  pose proof (Hpush m2 (zlen pre + 9 + zlen p1) (2 + 11 + 1 + (2 + 1 + 16 * 2 + 1 + 8 * 2 + 3))) as Hok3.
  destruct (m_push m2 _ _) as [ok m3]. cbn [fst] in Hok3. subst ok. cbn [negb].
  match goal with |- context [m_pull m3 ?a ?b] => pose proof (Hpull m3 a b) as Hok4; destruct (m_pull m3 a b) as [ok m4] end.
  cbn [fst] in Hok4. subst ok. cbn [negb]. rewrite Hview by (kunfold; lia). cbn [negb].
  match goal with |- context [m_pull ?x (zlen pre) ?b] => pose proof (Hpull x (zlen pre) b) as Hok5; destruct (m_pull x (zlen pre) b) as [ok m5] end.
  cbn [fst] in Hok5. subst ok. cbn [negb]. rewrite Hview by (kunfold; lia). cbn [negb].
  by destruct (m_pull _ 0 _).
Qed.

(** A message whose helpers always succeed and map everything. *)
Definition ideal := list Z.

#[export] Instance ideal_ops : SkMsgOps ideal := {|
  m_bytes l := l;
  m_pull l a b := (true, l);
  m_view l := Some (2 ^ 32);
  m_push l off len := (true, splice l off 0 (repeat 0 (Z.to_nat len)));
  m_pop l off len := (true, splice l off len []);
  m_store l off bs := splice l off (zlen bs) bs
|}.

#[export] Instance ideal_laws : SkMsgLaws ideal.
Proof.
  constructor; intros m off len; simpl; try done.
  intros _ _ Hl. exists (repeat 0 (Z.to_nat len)). split; [|done]. unfold zlen. rewrite repeat_length. lia.
Qed.

Lemma h2_write_socket_transaction_commits_witness :
  fst (h2_write_socket_transaction (M := ideal) ([1] ++ frame_bytes example_headers ++ [2]) (zlen [1])
         (zlen (fr_payload example_headers)) (zlen [1] + k_h2_frame_header_len + zlen [0x82; 0x87])
         (Some (make_h2_tp_hpack (mk_tp_info (repeat 1 16) (repeat 2 8) (repeat 0 8) 0 1))))
  = k_h2_socket_transaction_committed.
Proof.
  apply (h2_write_socket_transaction_commits (M := ideal) _ [1] example_headers [0x82; 0x87] [] [2]);
    try done.
  intros m n Hn. unfold view_ok. simpl. kunfold. lia.
Defined.
