(* ===== verification/H2Sock.v ===== *)
(** * The per-socket HTTP/2 state machine of the injector ([bpf/tpinjector/tpinjector.c],
      [h2_parse.h], [inject_policy.h]).

    The classification kept in socket storage ([none], [preface], [confirmed], [rejected],
    [probation]) and the sk_msg programs that drive it: [wrap_http2_traceparent],
    [obi_packet_extender_sniff_h2] and [obi_packet_extender_detect_h2].  A tail call is a value
    of [h2_next]; [h2_run] chains the programs of one send.  The lookups in maps other programs
    fill (SSL marks, application-owned streams, stored trace contexts) are the fields of
    [h2_env], over which every statement quantifies. *)

From Stdlib Require Import ZArith Lia ZifyBool List Bool.
From stdpp Require Import base list relations.
From S2P Require Import Prelude TraceUtil H2Defs H2Sniff.

Local Open Scope Z_scope.

(** ** The frame parser *)

Record h2_frame_info := mk_frame_info {
  fi_stream_id : Z;
  fi_payload_len : Z;
  fi_hpack_offset_in_msg : Z;
  fi_hpack_len : Z;
  fi_is_headers_end : bool;
  fi_ftype : Z;
  fi_flags : Z;
  fi_r_bit : Z
}.

Definition pulled (msg : sk_msg) (a b : Z) : bool := bool_decide (msg_pull msg a b = pull_ok).

(** [None] is the return value 0; [out] holds the caller's uninitialised fields. *)
Definition parse_h2_frame_at (msg : sk_msg) (pos msg_size : Z) (out : h2_frame_info)
    : option h2_frame_info :=
  if msg_size <? u32 (pos + k_h2_frame_header_len) then None
  else if negb (pulled msg pos (u32 (pos + k_h2_frame_header_len))) then None
  else
    let d := shift (list_buf (msg_bytes msg)) pos in
    let len := Z.lor (Z.lor (Z.shiftl (d 0) 16) (Z.shiftl (d 1) 8)) (d 2) in
    let ftype := d 3 in
    let flags := d 4 in
    if k_h2_max_frame_len <? len then None
    else
      let is_headers_end :=
        (ftype =? k_h2_frame_headers) && nz (Z.land flags k_h2_flag_end_headers) && (0 <? len) in
      let out :=
        mk_frame_info (h2_stream_id d) len (fi_hpack_offset_in_msg out) (fi_hpack_len out)
          is_headers_end ftype flags (Z.land (d 5) k_h2_reserved_bit_mask) in
      if negb is_headers_end then Some out
      else
        let padded := nz (Z.land flags k_h2_flag_padded) in
        if padded && ((msg_size <? u32 (pos + k_h2_frame_header_len + 1))
                      || negb (pulled msg pos (u32 (pos + k_h2_frame_header_len + 1))))
        then None
        else
          let pad_len := if padded then d k_h2_frame_header_len else 0 in
          let prefix :=
            (if padded then 1 else 0)
            + (if nz (Z.land flags k_h2_flag_priority) then k_h2_priority_prefix_len else 0) in
          if len <=? prefix + pad_len then None
          else
            Some (mk_frame_info (fi_stream_id out) len (u32 (pos + k_h2_frame_header_len + prefix))
                    (len - prefix - pad_len) is_headers_end ftype flags (fi_r_bit out)).

(** ** The injection policy *)

Inductive h2_inject_verdict_t :=
  | k_h2_inject_allow
  | k_h2_skip_unreadable
  | k_h2_skip_not_request
  | k_h2_skip_server_socket
  | k_h2_skip_uprobe_wrote
  | k_h2_skip_go_no_tp
  | k_h2_skip_app_propagates
  | k_h2_skip_unscanned.

#[export] Instance h2_inject_verdict_eq_dec : EqDecision h2_inject_verdict_t.
Proof. solve_decision. Defined.

Record h2_inject_facts := mk_facts {
  fact_opener : Z;
  fact_opener_readable : bool;
  fact_sk_server : bool;
  fact_frame_tp_present : bool;
  fact_sk_app_tp : bool;
  fact_uprobe_wrote : bool;
  fact_go_conn_without_tp : bool;
  fact_scan_incomplete : bool
}.

Definition h2_inject_verdict (f : h2_inject_facts) : h2_inject_verdict_t :=
  if negb (fact_opener_readable f) then k_h2_skip_unreadable
  else if negb (h2_hpack_opens_request (fact_opener f)) then k_h2_skip_not_request
  else if fact_sk_server f then k_h2_skip_server_socket
  else if fact_uprobe_wrote f then k_h2_skip_uprobe_wrote
  else if fact_go_conn_without_tp f then k_h2_skip_go_no_tp
  else if fact_frame_tp_present f || fact_sk_app_tp f then k_h2_skip_app_propagates
  else if fact_scan_incomplete f then k_h2_skip_unscanned
  else k_h2_inject_allow.

(** ** Socket storage *)

Definition k_h2_sock_none : Z := 0.
Definition k_h2_sock_preface : Z := 1.
Definition k_h2_sock_confirmed : Z := 2.
Definition k_h2_sock_rejected : Z := 3.
Definition k_h2_sock_probation : Z := 4.
Definition k_h2_sk_server : Z := 1.
Definition k_h2_sk_app_tp : Z := 2.

#[export] Hint Unfold k_h2_sock_none k_h2_sock_preface k_h2_sock_confirmed k_h2_sock_rejected
  k_h2_sock_probation k_h2_sk_server k_h2_sk_app_tp : kconst.

(** [msg->sk] (absent or not), its two storage entries, and whether storage can be created. *)
Record h2_sock := mk_sock {
  sk_present : bool;
  sk_can_create : bool;
  sk_h2_conn_flag : option Z;
  sk_h2_flags : option Z
}.

Definition h2_sock_state (s : h2_sock) : Z :=
  if negb (sk_present s) then k_h2_sock_none else default k_h2_sock_none (sk_h2_conn_flag s).

Definition h2_sk_flag (s : h2_sock) (flag : Z) : bool :=
  if negb (sk_present s) then false
  else match sk_h2_flags s with Some f => nz (Z.land f flag) | None => false end.

Definition set_h2_sk_flag (s : h2_sock) (flag : Z) : h2_sock :=
  if negb (sk_present s) then s
  else
    let flags :=
      match sk_h2_flags s with
      | Some f => Some (Z.lor f flag)
      | None => if sk_can_create s then Some (Z.lor flag flag) else None
      end in
    mk_sock (sk_present s) (sk_can_create s) (sk_h2_conn_flag s) flags.

Definition set_h2_sock_state (s : h2_sock) (state : Z) : h2_sock :=
  if negb (sk_present s) then s
  else
    let flag :=
      match sk_h2_conn_flag s with
      | Some _ => Some state
      | None => if sk_can_create s then Some state else None
      end in
    mk_sock (sk_present s) (sk_can_create s) flag (sk_h2_flags s).

Definition is_h2_socket (s : h2_sock) : bool :=
  let state := h2_sock_state s in
  (state =? k_h2_sock_preface) || (state =? k_h2_sock_probation) || (state =? k_h2_sock_confirmed).

(** [None] when the opener cannot be read. *)
Definition h2_headers_opener (msg : sk_msg) (hpack_offset msg_size : Z) : option Z :=
  let d := shift (list_buf (msg_bytes msg)) hpack_offset in
  let r := msg_pull msg hpack_offset (u32 (hpack_offset + k_h2_hpack_opener_window)) in
  if (u32 (hpack_offset + k_h2_hpack_opener_window) <=? msg_size)
     && negb (bool_decide (r = pull_failed))
  then
    if bool_decide (r = pull_short) then None
    else
      let skip := h2_hpack_skip_size_updates d k_h2_hpack_opener_window in
      if k_h2_hpack_opener_window <=? skip then None
      else Some (d (Z.land skip k_h2_hpack_opener_mask))
  else if (msg_size <? u32 (hpack_offset + 1))
          || negb (pulled msg hpack_offset (u32 (hpack_offset + 1)))
  then None
  else if h2_hpack_is_size_update (d 0) then None
  else Some (d 0).

Definition is_http2_preface (d : buf) : bool :=
  (d 0 =? 80) && (d 1 =? 82) && (d 2 =? 73) && (d 3 =? 32).

(** The socket with the server flag set when a response block was seen, and the verdict. *)
Definition sniffed_block_is_h2 (msg : sk_msg) (s : h2_sock) (hpack_at msg_size : Z) : h2_sock * bool :=
  match h2_headers_opener msg hpack_at msg_size with
  | None => (s, false)
  | Some opener =>
      if h2_hpack_opens_response opener then (set_h2_sk_flag s k_h2_sk_server, true)
      else (s, h2_hpack_opens_request opener)
  end.

(** ** The programs *)

(** How a program ends: [SK_PASS], or the tail call it makes. *)
Inductive h2_next := next_pass | next_sniff | next_detect | next_find_existing_h2_tp.

#[export] Instance h2_next_eq_dec : EqDecision h2_next.
Proof. solve_decision. Defined.

(** The fields of [tailcall_ctx] these programs use. *)
Record tailcall_ctx := mk_tctx {
  t_stream_id : Z;
  t_h2_frame_offset : Z;
  t_h2_payload_len : Z;
  t_h2_hpack_offset : Z;
  t_h2_hpack_len : Z;
  t_h2_scan_pos : Z;
  t_h2_tp_candidate_pos : Z;
  t_h2_framing : h2_sniff_state;
  t_h2_frames : Z;
  t_h2_tp_retries : Z;
  t_tp_present : bool;
  t_scan_exhausted : bool;
  t_opener : Z
}.

Record h2_env := mk_env {
  (** [is_ssl_connection(&t_ctx->p_conn)] *)
  env_is_ssl : bool;
  (** [already_tracked_ssl_http2(p_conn)] *)
  env_tracked_ssl : bool;
  (** [consume_grpc_h2_owned_stream] or [consume_go_h2_owned_stream], by stream *)
  env_application_owned : Z -> bool;
  (** the stored trace context of the stream is valid and written *)
  env_tp_written : Z -> bool
}.

Definition h2_resume_after (t : tailcall_ctx) (next_pos : Z) : tailcall_ctx :=
  mk_tctx (t_stream_id t) (t_h2_frame_offset t) (t_h2_payload_len t) (t_h2_hpack_offset t)
    (t_h2_hpack_len t) next_pos (t_h2_tp_candidate_pos t) (t_h2_framing t) (u8 (t_h2_frames t + 1))
    (t_h2_tp_retries t) (t_tp_present t) (t_scan_exhausted t) (t_opener t).

Definition set_framing (t : tailcall_ctx) (st : h2_sniff_state) : tailcall_ctx :=
  mk_tctx (t_stream_id t) (t_h2_frame_offset t) (t_h2_payload_len t) (t_h2_hpack_offset t)
    (t_h2_hpack_len t) (t_h2_scan_pos t) (t_h2_tp_candidate_pos t) st (t_h2_frames t)
    (t_h2_tp_retries t) (t_tp_present t) (t_scan_exhausted t) (t_opener t).

(** The context written before the trace context of the frame is looked for. *)
Definition set_frame (t : tailcall_ctx) (pos : Z) (f : h2_frame_info) (opener candidate : Z)
    : tailcall_ctx :=
  mk_tctx (fi_stream_id f) pos (fi_payload_len f) (fi_hpack_offset_in_msg f) (fi_hpack_len f)
    (t_h2_scan_pos t) candidate (t_h2_framing t) (t_h2_frames t) 0 false false opener.

Definition no_frame_info : h2_frame_info := mk_frame_info 0 0 0 0 false 0 0 0.

(** The frame loop of [detect_h2] and what follows it. *)
Fixpoint detect_scan (n : nat) (env : h2_env) (msg : sk_msg) (msg_size pos : Z) (s : h2_sock)
    (t : tailcall_ctx) : h2_sock * tailcall_ctx * h2_next :=
  match n with
  | O => if pos <? msg_size then (s, h2_resume_after t pos, next_detect) else (s, t, next_pass)
  | S n' =>
      match parse_h2_frame_at msg pos msg_size no_frame_info with
      | None => (s, t, next_pass)
      | Some f =>
          match h2_sniff_check_frame (t_h2_framing t) (fi_payload_len f) (fi_ftype f) (fi_flags f)
                  (fi_r_bit f) (fi_stream_id f) with
          | None => (s, t, next_pass)
          | Some st =>
              let t := set_framing t st in
              let next_pos := u32 (pos + (k_h2_frame_header_len + fi_payload_len f)) in
              if fi_is_headers_end f then
                let opener := h2_headers_opener msg (fi_hpack_offset_in_msg f) msg_size in
                let s :=
                  match opener with
                  | Some o => if h2_hpack_opens_response o then set_h2_sk_flag s k_h2_sk_server else s
                  | None => s
                  end in
                let facts :=
                  mk_facts (default 0 opener) (bool_decide (is_Some opener)) (h2_sk_flag s k_h2_sk_server)
                    false false false false false in
                if negb (bool_decide (h2_inject_verdict facts = k_h2_inject_allow))
                then (s, h2_resume_after t next_pos, next_detect)
                else if env_application_owned env (fi_stream_id f)
                then (s, h2_resume_after t next_pos, next_detect)
                else
                  let t := set_frame t pos f (default 0 opener) (t_h2_tp_candidate_pos t) in
                  if env_tp_written env (fi_stream_id f)
                  then (s, h2_resume_after t next_pos, next_detect)
                  else (s, set_frame t pos f (default 0 opener) 0, next_find_existing_h2_tp)
              else detect_scan n' env msg msg_size next_pos s t
          end
      end
  end.

(** [detect_h2] from its last guards on. *)
Definition detect_confirmed (env : h2_env) (msg : sk_msg) (msg_size pos state : Z) (s : h2_sock)
    (t : tailcall_ctx) : h2_sock * tailcall_ctx * h2_next :=
  if negb (state =? k_h2_sock_confirmed) then (s, t, next_pass)
  else if h2_sk_flag s k_h2_sk_server then (s, t, next_pass)
  else detect_scan (Z.to_nat k_h2_max_frame_scan) env msg msg_size pos s t.

Definition obi_packet_extender_detect_h2 (env : h2_env) (msg : sk_msg) (s : h2_sock)
    (t : tailcall_ctx) : h2_sock * tailcall_ctx * h2_next :=
  if k_h2_max_frames_per_packet <=? t_h2_frames t then (s, t, next_pass)
  else
    let msg_size := msg_size msg in
    let pos := t_h2_scan_pos t in
    let state := h2_sock_state s in
    if state =? k_h2_sock_rejected then (s, t, next_pass)
    else if (pos =? 0) && env_is_ssl env then (set_h2_sock_state s k_h2_sock_rejected, t, next_pass)
    else if state =? k_h2_sock_probation then (s, t, next_sniff)
    else
      let is_preface :=
        (pos =? 0) && (state =? k_h2_sock_none) && (k_h2_preface_check_len <=? msg_size)
        && pulled msg 0 k_h2_preface_check_len && is_http2_preface (list_buf (msg_bytes msg)) in
      let s := if is_preface then set_h2_sock_state s k_h2_sock_preface else s in
      let state := if is_preface then k_h2_sock_preface else state in
      if is_preface && negb (k_h2_preface_len + k_h2_frame_header_len <=? msg_size)
      then (s, t, next_pass)
      else
        let pos := if is_preface then k_h2_preface_len else pos in
        if (msg_size <? k_h2_frame_header_len) || (msg_size <=? pos) then (s, t, next_pass)
        else if state =? k_h2_sock_preface then
          match parse_h2_frame_at msg pos msg_size no_frame_info with
          | None => (s, t, next_pass)
          | Some sf =>
              if negb (fi_ftype sf =? k_h2_frame_settings)
              then (set_h2_sock_state s k_h2_sock_rejected, t, next_pass)
              else
                let s := set_h2_sock_state s k_h2_sock_confirmed in
                let pos := u32 (pos + (k_h2_frame_header_len + fi_payload_len sf)) in
                if (msg_size <? k_h2_frame_header_len) || (msg_size <=? pos) then (s, t, next_pass)
                else detect_confirmed env msg msg_size pos k_h2_sock_confirmed s t
          end
        else detect_confirmed env msg msg_size pos state s t.

Definition obi_packet_extender_sniff_h2 (msg : sk_msg) (s : h2_sock) : h2_sock * h2_next :=
  let msg_size := msg_size msg in
  let on_probation := h2_sock_state s =? k_h2_sock_probation in
  let '(walk, hpack_at) := sniff_http2_frames msg (negb on_probation) in
  if on_probation then
    if bool_decide (walk = k_h2_walk_unfinished) then (s, next_pass)
    else if negb (bool_decide (walk = k_h2_walk_tiled))
    then (set_h2_sock_state s k_h2_sock_rejected, next_pass)
    else (set_h2_sock_state s k_h2_sock_confirmed, next_detect)
  else if bool_decide (walk = k_h2_walk_tiled) && nz hpack_at then
    let '(s, is_h2) := sniffed_block_is_h2 msg s hpack_at msg_size in
    ((if is_h2 then set_h2_sock_state s k_h2_sock_probation else s), next_pass)
  else (s, next_pass).

Definition wrap_http2_traceparent (env : h2_env) (msg : sk_msg) (s : h2_sock) : h2_next :=
  if msg_size msg <? k_h2_frame_header_len then next_pass
  else if h2_sock_state s =? k_h2_sock_rejected then next_pass
  else if is_h2_socket s then next_detect
  else if msg_size msg <? k_h2_preface_check_len then next_pass
  else if bool_decide (msg_pull msg 0 k_h2_preface_check_len = pull_failed) then next_pass
  else if pulled msg 0 k_h2_preface_check_len && is_http2_preface (list_buf (msg_bytes msg))
  then next_detect
  else if env_tracked_ssl env then next_pass
  else next_sniff.

(** The tail-call chain of one send, up to the injection programs: [None] when [fuel] program
    runs were not enough. *)
Fixpoint h2_run (fuel : nat) (env : h2_env) (msg : sk_msg) (s : h2_sock) (t : tailcall_ctx)
    (prog : h2_next) : option (h2_sock * tailcall_ctx * h2_next) :=
  match fuel with
  | O => None
  | S fuel' =>
      match prog with
      | next_pass | next_find_existing_h2_tp => Some (s, t, prog)
      | next_sniff =>
          let '(s', next) := obi_packet_extender_sniff_h2 msg s in h2_run fuel' env msg s' t next
      | next_detect =>
          let '(s', t', next) := obi_packet_extender_detect_h2 env msg s t in
          h2_run fuel' env msg s' t' next
      end
  end.

(** ** The abstract machine *)

(** The message opens with the first octets of the connection preface. *)
Definition opens_with_preface (msg : sk_msg) : bool :=
  (k_h2_preface_check_len <=? msg_size msg) && pulled msg 0 k_h2_preface_check_len
  && is_http2_preface (list_buf (msg_bytes msg)).

(** What the frame expected behind the preface makes of a socket: nothing while it is not
    readable, a confirmed socket when it is SETTINGS, a rejected one otherwise. *)
Definition class_by_settings (msg : sk_msg) (pos : Z) : Z :=
  match parse_h2_frame_at msg pos (msg_size msg) no_frame_info with
  | None => k_h2_sock_preface
  | Some sf => if fi_ftype sf =? k_h2_frame_settings then k_h2_sock_confirmed else k_h2_sock_rejected
  end.

(** The message is conforming frames end to end, and its first header block opens with a request
    or a response pseudo-header. *)
Definition sniffs_as_h2 (msg : sk_msg) : bool :=
  let '(walk, hpack_at) := sniff_http2_frames msg true in
  bool_decide (walk = k_h2_walk_tiled) && nz hpack_at
  && match h2_headers_opener msg hpack_at (msg_size msg) with
     | Some o => h2_hpack_opens_request o || h2_hpack_opens_response o
     | None => false
     end.

(** The classification after one message, from the classification before it.  [go_grpc] says that
    the connection is known as a Go gRPC client. *)
Definition h2_class_after (env : h2_env) (go_grpc : bool) (msg : sk_msg) (x : Z) : Z :=
  if x =? k_h2_sock_rejected then k_h2_sock_rejected
  else if x =? k_h2_sock_none then
    if go_grpc || (k_h2_frame_header_len <=? msg_size msg) && opens_with_preface msg then
      if env_is_ssl env then k_h2_sock_rejected
      else if negb (opens_with_preface msg) then k_h2_sock_none
      else if msg_size msg <? k_h2_preface_len + k_h2_frame_header_len then k_h2_sock_preface
      else class_by_settings msg k_h2_preface_len
    else if (k_h2_frame_header_len <=? msg_size msg)
            && negb (bool_decide (msg_pull msg 0 k_h2_preface_check_len = pull_failed))
            && negb (env_tracked_ssl env) && sniffs_as_h2 msg
    then k_h2_sock_probation
    else k_h2_sock_none
  else if env_is_ssl env then k_h2_sock_rejected
  else if x =? k_h2_sock_preface then class_by_settings msg 0
  else if x =? k_h2_sock_probation then
    let walk := fst (sniff_http2_frames msg false) in
    if bool_decide (walk = k_h2_walk_unfinished) then k_h2_sock_probation
    else if bool_decide (walk = k_h2_walk_tiled) then k_h2_sock_confirmed
    else k_h2_sock_rejected
  else k_h2_sock_confirmed.

Definition sock_wf (s : h2_sock) : Prop := 0 <= h2_sock_state s <= 4.

(** ** Lemmas *)

Lemma state_set_flag s f : h2_sock_state (set_h2_sk_flag s f) = h2_sock_state s.
Proof. unfold set_h2_sk_flag, h2_sock_state. by destruct (sk_present s) eqn:E; simpl; rewrite ?E. Qed.

(** Setting the state works, or storage cannot be created and the socket stays unclassified. *)
Definition storage_ok (s : h2_sock) : bool :=
  sk_present s && (bool_decide (is_Some (sk_h2_conn_flag s)) || sk_can_create s).

Lemma state_set s x :
  h2_sock_state (set_h2_sock_state s x) = (if storage_ok s then x else k_h2_sock_none)
  /\ storage_ok (set_h2_sock_state s x) = storage_ok s
  /\ (storage_ok s = false -> h2_sock_state s = k_h2_sock_none).
Proof.
  unfold set_h2_sock_state, storage_ok, h2_sock_state.
  destruct s as [[] [] [] ?]; simpl; split_and!; done.
Qed.

Lemma state_set_eq s x : h2_sock_state s <> k_h2_sock_none -> h2_sock_state (set_h2_sock_state s x) = x.
Proof. intros Hs. destruct (state_set s x) as (-> & _ & H). destruct (storage_ok s); [done|]. by rewrite H in Hs. Qed.

Lemma storage_set_flag s f : storage_ok (set_h2_sk_flag s f) = storage_ok s.
Proof. unfold set_h2_sk_flag, storage_ok. by destruct (sk_present s) eqn:E; simpl; rewrite ?E. Qed.

Lemma storage_set_state s x : storage_ok (set_h2_sock_state s x) = storage_ok s.
Proof. apply state_set. Qed.

Lemma no_storage_none s : storage_ok s = false -> h2_sock_state s = k_h2_sock_none.
Proof. apply (state_set s 0). Qed.

Lemma state_set_ok s x : storage_ok s = true -> h2_sock_state (set_h2_sock_state s x) = x.
Proof. intros H. destruct (state_set s x) as (-> & _). by rewrite H. Qed.

Create Rewrite HintDb h2sock.
#[export] Hint Rewrite storage_set_flag storage_set_state state_set_flag : h2sock.

Lemma detect_scan_state n env msg sz pos s t :
  h2_sock_state (fst (fst (detect_scan n env msg sz pos s t))) = h2_sock_state s.
Proof.
  revert pos s t. induction n as [|n IH]; intros pos s t; cbn [detect_scan]; [by destruct (_ <? _)|].
  destruct (parse_h2_frame_at _ _ _ _) as [f|]; [|done].
  destruct (h2_sniff_check_frame _ _ _ _ _ _) as [st|]; [|done]. cbv zeta.
  destruct (fi_is_headers_end f); [|apply IH].
  set (s1 := match _ with Some _ => _ | None => s end).
  assert (Hs1 : h2_sock_state s1 = h2_sock_state s)
    by (unfold s1; destruct (h2_headers_opener _ _ _); [|done]; destruct (h2_hpack_opens_response _); [apply state_set_flag|done]).
  destruct (negb _); [done|]. destruct (env_application_owned env _); [done|]. by destruct (env_tp_written env _).
Qed.

Lemma detect_confirmed_state env msg sz pos state s t :
  h2_sock_state (fst (fst (detect_confirmed env msg sz pos state s t))) = h2_sock_state s.
Proof.
  unfold detect_confirmed. destruct (negb _); [done|]. destruct (h2_sk_flag _ _); [done|]. apply detect_scan_state.
Qed.

Lemma detect_scan_storage n env msg sz pos s t :
  storage_ok (fst (fst (detect_scan n env msg sz pos s t))) = storage_ok s.
Proof.
  revert pos s t. induction n as [|n IH]; intros pos s t; cbn [detect_scan]; [by destruct (_ <? _)|].
  destruct (parse_h2_frame_at _ _ _ _) as [f|]; [|done].
  destruct (h2_sniff_check_frame _ _ _ _ _ _) as [st|]; [|done]. cbv zeta.
  destruct (fi_is_headers_end f); [|apply IH].
  repeat case_match; cbn; by autorewrite with h2sock.
Qed.

Lemma detect_confirmed_storage env msg sz pos state s t :
  storage_ok (fst (fst (detect_confirmed env msg sz pos state s t))) = storage_ok s.
Proof.
  unfold detect_confirmed. destruct (negb _); [done|]. destruct (h2_sk_flag _ _); [done|]. apply detect_scan_storage.
Qed.

Lemma detect_storage env msg s t :
  storage_ok (fst (fst (obi_packet_extender_detect_h2 env msg s t))) = storage_ok s.
Proof.
  unfold obi_packet_extender_detect_h2.
  repeat (case_match; cbn [fst]; rewrite ?storage_set_state, ?detect_confirmed_storage, ?storage_set_state; try done).
Qed.

Lemma sniff_storage msg s : storage_ok (fst (obi_packet_extender_sniff_h2 msg s)) = storage_ok s.
Proof.
  unfold obi_packet_extender_sniff_h2, sniffed_block_is_h2.
  repeat case_match; simplify_eq; cbn [fst]; by autorewrite with h2sock.
Qed.

Lemma settings_class_off_probation msg pos : class_by_settings msg pos <> k_h2_sock_probation.
Proof. unfold class_by_settings. by repeat case_match. Qed.

(** One run of [detect_h2] on a socket that is neither rejected nor on probation, and whose
    connection is not SSL: the class it leaves, and that it goes on only on a confirmed socket. *)
Definition detect_class (msg : sk_msg) (pos x : Z) : Z :=
  let ip := (pos =? 0) && (x =? k_h2_sock_none) && opens_with_preface msg in
  if ip then
    if msg_size msg <? k_h2_preface_len + k_h2_frame_header_len then k_h2_sock_preface
    else class_by_settings msg k_h2_preface_len
  else if (x =? k_h2_sock_preface) && negb ((msg_size msg <? k_h2_frame_header_len) || (msg_size msg <=? pos))
  then class_by_settings msg pos
  else x.

Lemma detect_confirmed_next env msg sz pos state s t s' t' next :
  detect_confirmed env msg sz pos state s t = (s', t', next) ->
  h2_sock_state s' = h2_sock_state s /\ (next = next_pass \/ state = k_h2_sock_confirmed).
Proof.
  intros H. pose proof (detect_confirmed_state env msg sz pos state s t) as E. rewrite H in E.
  split; [exact E|]. unfold detect_confirmed in H.
  destruct (Z.eqb_spec state k_h2_sock_confirmed); [by right|]. by left; simplify_eq/=.
Qed.

Lemma detect_step env msg s t s' t' next :
  t_h2_frames t < k_h2_max_frames_per_packet -> storage_ok s = true ->
  h2_sock_state s <> k_h2_sock_rejected -> h2_sock_state s <> k_h2_sock_probation ->
  (t_h2_scan_pos t =? 0) && env_is_ssl env = false ->
  obi_packet_extender_detect_h2 env msg s t = (s', t', next) ->
  h2_sock_state s' = detect_class msg (t_h2_scan_pos t) (h2_sock_state s)
  /\ (next = next_pass \/ h2_sock_state s' = k_h2_sock_confirmed).
Proof.
  intros Hf Hok Hr Hp Hssl. unfold obi_packet_extender_detect_h2, detect_class, class_by_settings.
  replace (_ <=? t_h2_frames t) with false by lia. rewrite Hssl.
  rewrite (proj2 (Z.eqb_neq _ _) Hr), (proj2 (Z.eqb_neq _ _) Hp). unfold opens_with_preface. rewrite !andb_assoc.
  destruct (_ && is_http2_preface _) eqn:Hip; cbn [andb].
  - assert (Hs : h2_sock_state (set_h2_sock_state s k_h2_sock_preface) = k_h2_sock_preface) by by apply state_set_ok.
    replace (msg_size msg <? k_h2_preface_len + k_h2_frame_header_len)
      with (negb (k_h2_preface_len + k_h2_frame_header_len <=? msg_size msg)) by lia.
    destruct (k_h2_preface_len + k_h2_frame_header_len <=? msg_size msg) eqn:Hsz; cbn [negb]; [|intros; simplify_eq; rewrite Hs; auto].
    replace (_ || _) with false by (kunfold; lia). rewrite Z.eqb_refl.
    destruct (parse_h2_frame_at _ _ _ _) as [sf|]; [|intros; simplify_eq; rewrite Hs; auto].
    destruct (_ =? k_h2_frame_settings); cbn [negb];
      [|intros; simplify_eq; rewrite state_set_ok by (by rewrite storage_set_state); auto].
    destruct ((msg_size msg <? _) || (_ <=? u32 _)); [intros; simplify_eq; rewrite state_set_ok by (by rewrite storage_set_state); auto|].
    intros [-> _]%detect_confirmed_next. rewrite state_set_ok by (by rewrite storage_set_state). auto.
  - destruct (_ || _) eqn:Hsz; [intros; simplify_eq; rewrite andb_false_r; auto|]. rewrite andb_true_r.
    destruct (Z.eqb_spec (h2_sock_state s) k_h2_sock_preface) as [E|E].
    + destruct (parse_h2_frame_at _ _ _ _) as [sf|]; [|intros; simplify_eq; auto].
      destruct (_ =? k_h2_frame_settings); cbn [negb]; [|intros; simplify_eq; rewrite state_set_ok by done; auto].
      destruct ((msg_size msg <? _) || (_ <=? u32 _)); [intros; simplify_eq; rewrite state_set_ok by done; auto|].
      intros [-> _]%detect_confirmed_next. rewrite state_set_ok by done. auto.
    + intros [-> [-> | ->]]%detect_confirmed_next; auto.
Qed.

Lemma detect_keeps_off_probation env msg s t s' t' next :
  obi_packet_extender_detect_h2 env msg s t = (s', t', next) ->
  h2_sock_state s <> k_h2_sock_probation -> h2_sock_state s' <> k_h2_sock_probation.
Proof.
  intros E Hp. assert (Hset : forall s0 x, x <> k_h2_sock_probation -> h2_sock_state (set_h2_sock_state s0 x) <> k_h2_sock_probation).
  { intros s0 x Hx. destruct (state_set s0 x) as (-> & _). by destruct (storage_ok s0). }
  revert E. unfold obi_packet_extender_detect_h2.
  repeat (case_match; try (intros; simplify_eq; (done || by apply Hset)));
    intros [-> _]%detect_confirmed_next; done || by apply Hset.
Qed.

(** [detect_h2] hands over to [sniff_h2] only on probation. *)
Lemma detect_sniff env msg s t s' t' :
  obi_packet_extender_detect_h2 env msg s t = (s', t', next_sniff) ->
  h2_sock_state s' = k_h2_sock_probation.
Proof.
  assert (Hscan : forall n sz pos s t, snd (detect_scan n env msg sz pos s t) <> next_sniff).
  { induction n as [|n IH]; intros sz pos s0 t0; cbn [detect_scan]; [by destruct (_ <? _)|].
    destruct (parse_h2_frame_at _ _ _ _) as [f|]; [|done].
    destruct (h2_sniff_check_frame _ _ _ _ _ _); [|done]. cbv zeta. destruct (fi_is_headers_end f); [|apply IH].
    destruct (negb _); [done|]. destruct (env_application_owned env _); [done|]. by destruct (env_tp_written env _). }
  assert (Hconf : forall sz pos st s t, snd (detect_confirmed env msg sz pos st s t) <> next_sniff).
  { intros. unfold detect_confirmed. destruct (negb _); [done|]. destruct (h2_sk_flag _ _); [done|]. apply Hscan. }
  unfold obi_packet_extender_detect_h2. destruct (_ <=? t_h2_frames t); [done|].
  destruct (_ =? k_h2_sock_rejected); [done|]. destruct (_ && env_is_ssl env); [done|].
  destruct (Z.eqb_spec (h2_sock_state s) k_h2_sock_probation); [by intros [= <- <-]|]. cbv zeta.
  destruct (_ && negb _); [done|]. destruct (_ || _); [done|].
  destruct (_ =? k_h2_sock_preface).
  - destruct (parse_h2_frame_at _ _ _ _) as [sf|]; [|done]. destruct (negb _); [done|].
    destruct (_ || _); [done|]. intros H. exfalso. eapply Hconf. by rewrite H.
  - intros H. exfalso. eapply Hconf. by rewrite H.
Qed.

Lemma wrap_sniff env msg s :
  sock_wf s -> wrap_http2_traceparent env msg s = next_sniff -> h2_sock_state s = k_h2_sock_none.
Proof.
  unfold sock_wf, wrap_http2_traceparent, is_h2_socket. intros Hwf.
  destruct (msg_size msg <? _); [done|].
  destruct (Z.eqb_spec (h2_sock_state s) k_h2_sock_rejected); [done|]. cbv zeta.
  destruct (_ || _) eqn:Hh; [done|]. intros _. kunfold. lia.
Qed.

(** [sniff_h2] on an unclassified socket, and on one on probation. *)
Lemma sniff_unclassified msg s s' next :
  h2_sock_state s = k_h2_sock_none -> storage_ok s = true ->
  obi_packet_extender_sniff_h2 msg s = (s', next) ->
  next = next_pass
  /\ h2_sock_state s' = (if sniffs_as_h2 msg then k_h2_sock_probation else k_h2_sock_none).
Proof.
  intros Hs Hok. unfold obi_packet_extender_sniff_h2, sniffs_as_h2, sniffed_block_is_h2. rewrite Hs.
  change (k_h2_sock_none =? k_h2_sock_probation) with false. cbn [negb].
  destruct (sniff_http2_frames msg true) as [walk hpack_at].
  destruct (_ && nz hpack_at); cbn [andb]; [|by intros [= <- <-]].
  destruct (h2_headers_opener _ _ _) as [o|]; [|by intros [= <- <-]].
  destruct (h2_hpack_opens_response o).
  - rewrite orb_true_r. intros [= <- <-]. split; [done|]. apply state_set_ok. by rewrite storage_set_flag.
  - rewrite orb_false_r. destruct (h2_hpack_opens_request o); intros [= <- <-]; [|done].
    split; [done|]. by apply state_set_ok.
Qed.

Lemma sniff_probation msg s s' next :
  h2_sock_state s = k_h2_sock_probation ->
  obi_packet_extender_sniff_h2 msg s = (s', next) ->
  let walk := fst (sniff_http2_frames msg false) in
  (next = next_pass \/ next = next_detect /\ h2_sock_state s' = k_h2_sock_confirmed)
  /\ h2_sock_state s' =
     (if bool_decide (walk = k_h2_walk_unfinished) then k_h2_sock_probation
      else if bool_decide (walk = k_h2_walk_tiled) then k_h2_sock_confirmed else k_h2_sock_rejected).
Proof.
  intros Hs. unfold obi_packet_extender_sniff_h2. rewrite Hs, Z.eqb_refl. cbn [negb].
  assert (Hset : forall x, h2_sock_state (set_h2_sock_state s x) = x) by (intros; apply state_set_eq; by rewrite Hs).
  destruct (sniff_http2_frames msg false) as [walk hpack_at]. cbn [fst].
  destruct (bool_decide (walk = k_h2_walk_unfinished)); [intros [= <- <-]; auto|].
  destruct (bool_decide (walk = k_h2_walk_tiled)); cbn [negb]; intros [= <- <-]; rewrite Hset; auto.
Qed.

(** A confirmed socket stays confirmed for the rest of the message. *)
Lemma run_confirmed fuel env msg s t prog s' t' next :
  env_is_ssl env = false -> h2_sock_state s = k_h2_sock_confirmed -> prog <> next_sniff ->
  h2_run fuel env msg s t prog = Some (s', t', next) -> h2_sock_state s' = k_h2_sock_confirmed.
Proof.
  intros Hssl. revert s t prog. induction fuel as [|fuel IH]; intros s t prog Hs Hp H; [done|].
  destruct prog; cbn [h2_run] in H; try (by simplify_eq).
  destruct (obi_packet_extender_detect_h2 env msg s t) as [[s1 t1] n1] eqn:E.
  assert (Hs1 : h2_sock_state s1 = k_h2_sock_confirmed).
  { destruct (Z.ltb_spec (t_h2_frames t) k_h2_max_frames_per_packet) as [Hf|Hf].
    - assert (Hok : storage_ok s = true).
      { destruct (storage_ok s) eqn:Hok; [done|]. apply no_storage_none in Hok. by rewrite Hs in Hok. }
      eapply detect_step in E as [-> _]; [|done|done|by rewrite Hs|by rewrite Hs|by rewrite Hssl, andb_false_r].
      unfold detect_class. rewrite Hs. change (k_h2_sock_confirmed =? k_h2_sock_none) with false.
      by rewrite andb_false_r.
    - unfold obi_packet_extender_detect_h2 in E. replace (_ <=? t_h2_frames t) with true in E by lia.
      by simplify_eq. }
  eapply IH; [exact Hs1| |exact H]. intros ->. apply detect_sniff in E. by rewrite Hs1 in E.
Qed.

Lemma run_pass fuel env msg s t s' t' next :
  h2_run fuel env msg s t next_pass = Some (s', t', next) -> s' = s /\ next = next_pass.
Proof. destruct fuel; [done|]. cbn. by intros [= <- <- <-]. Qed.

(** What a run that ends at the injection programs has shown. *)
Definition run_injects (env : h2_env) (s' : h2_sock) (next : h2_next) : Prop :=
  next = next_find_existing_h2_tp -> h2_sock_state s' = k_h2_sock_confirmed /\ env_is_ssl env = false.

(** The message's first [detect_h2], at position 0. *)
Lemma run_detect_class fuel env msg s t s' t' next :
  t_h2_scan_pos t = 0 -> t_h2_frames t = 0 -> storage_ok s = true ->
  h2_sock_state s <> k_h2_sock_probation ->
  h2_run fuel env msg s t next_detect = Some (s', t', next) ->
  h2_sock_state s' =
    (if h2_sock_state s =? k_h2_sock_rejected then k_h2_sock_rejected
     else if env_is_ssl env then k_h2_sock_rejected else detect_class msg 0 (h2_sock_state s))
  /\ run_injects env s' next.
Proof.
  intros Hpos Hf Hok Hp H. destruct fuel as [|fuel]; [done|]. cbn [h2_run] in H.
  destruct (obi_packet_extender_detect_h2 env msg s t) as [[s1 t1] n1] eqn:E. pose proof E as E0.
  destruct (Z.eqb_spec (h2_sock_state s) k_h2_sock_rejected) as [Hr|Hr];
    [|destruct (env_is_ssl env) eqn:Hssl].
  - unfold obi_packet_extender_detect_h2 in E. rewrite Hf, Hr in E. cbn in E. simplify_eq.
    by apply run_pass in H as [-> ->].
  - unfold obi_packet_extender_detect_h2 in E. rewrite Hf, Hpos, Hssl, (proj2 (Z.eqb_neq _ _) Hr) in E. cbn in E.
    simplify_eq. apply run_pass in H as [-> ->]. split; [by apply state_set_ok|done].
  - eapply detect_step in E as [E Hn]; [|by rewrite Hf|done|done|done|by rewrite Hssl, andb_false_r].
    rewrite Hpos in E. rewrite <- E. destruct Hn as [-> |Hn]; [by apply run_pass in H as [-> ->]|].
    eapply run_confirmed in H; [split; [congruence|done]|done|done|].
    intros ->. apply detect_sniff in E0. by rewrite Hn in E0.
Qed.

Lemma run_probation_class fuel env msg s t s' t' next :
  t_h2_scan_pos t = 0 -> t_h2_frames t = 0 -> h2_sock_state s = k_h2_sock_probation ->
  h2_run fuel env msg s t next_detect = Some (s', t', next) ->
  h2_sock_state s' = h2_class_after env false msg k_h2_sock_probation /\ run_injects env s' next.
Proof.
  intros Hpos Hf Hs H. destruct fuel as [|fuel]; [done|]. cbn [h2_run] in H.
  unfold obi_packet_extender_detect_h2 in H. rewrite Hpos, Hf, Hs in H. cbn in H.
  unfold h2_class_after. cbn. destruct (env_is_ssl env) eqn:Hssl.
  - apply run_pass in H as [-> ->]. split; [apply state_set_eq; by rewrite Hs|done].
  - destruct fuel as [|fuel]; [done|]. cbn [h2_run] in H.
    destruct (obi_packet_extender_sniff_h2 msg s) as [s1 n1] eqn:E.
    apply sniff_probation in E as [Hn E]; [|done]. rewrite <- E.
    destruct Hn as [-> |[-> Hn]]; [by apply run_pass in H as [-> ->]|].
    eapply run_confirmed in H; [|done..]. split; [congruence|done].
Qed.

Lemma class_by_settings_short msg : msg_size msg < k_h2_frame_header_len -> class_by_settings msg 0 = k_h2_sock_preface.
Proof.
  intros H. unfold class_by_settings, parse_h2_frame_at. change (u32 (0 + k_h2_frame_header_len)) with k_h2_frame_header_len.
  by rewrite (proj2 (Z.ltb_lt _ _) H).
Qed.

Lemma run_entry fuel env (go : bool) msg s t s' t' next :
  t_h2_scan_pos t = 0 -> t_h2_frames t = 0 -> sock_wf s -> storage_ok s = true ->
  h2_run fuel env msg s t
    (if go || is_h2_socket s then next_detect else wrap_http2_traceparent env msg s)
  = Some (s', t', next) ->
  h2_sock_state s' = h2_class_after env go msg (h2_sock_state s) /\ run_injects env s' next.
Proof.
  intros Hpos Hf Hwf Hok H. assert (Hx : h2_sock_state s = k_h2_sock_none \/ h2_sock_state s = k_h2_sock_rejected
    \/ h2_sock_state s = k_h2_sock_probation \/ h2_sock_state s = k_h2_sock_preface \/ h2_sock_state s = k_h2_sock_confirmed)
    by (unfold sock_wf in Hwf; kunfold; lia).
  unfold wrap_http2_traceparent, is_h2_socket in H.
  destruct Hx as [Hx|[Hx|[Hx|Hx]]]; cycle 2.
  - rewrite Hx in *. cbn in H. rewrite orb_true_r in H.
    by eapply run_probation_class in H.
  - assert (Hd : h2_run fuel env msg s t next_detect = Some (s', t', next))
      by (destruct Hx as [Hx|Hx]; rewrite Hx in H; cbn in H; by rewrite orb_true_r in H).
    eapply run_detect_class in Hd as [-> Hi]; [|done|done|done|by destruct Hx as [-> | ->]]. split; [|done].
    unfold h2_class_after, detect_class. destruct Hx as [-> | ->]; cbn; destruct (env_is_ssl env); [done| |done|done].
    destruct ((msg_size msg <? _) || _) eqn:Hz; cbn [negb]; [|done]. symmetry. apply class_by_settings_short. kunfold. lia.
  - rewrite Hx in *. cbn in H. unfold h2_class_after. cbn [Z.eqb k_h2_sock_none k_h2_sock_rejected].
    destruct go; cbn [orb] in *.
    { eapply run_detect_class in H as [-> Hi]; [|done|done|done|by rewrite Hx]. split; [|done].
      rewrite Hx. unfold detect_class. cbn. destruct (env_is_ssl env); [done|]. by destruct (opens_with_preface msg). }
    unfold opens_with_preface in *. rewrite Z.ltb_antisym in H.
    destruct (k_h2_frame_header_len <=? msg_size msg) eqn:Hsz; cbn [negb andb] in *;
      [|apply run_pass in H as [-> ->]; done].
    replace (k_h2_preface_check_len <=? msg_size msg) with true by (kunfold; lia).
    replace (msg_size msg <? k_h2_preface_check_len) with false in H by (kunfold; lia).
    destruct (bool_decide (_ = pull_failed)) eqn:Hpf; cbn [negb andb] in *.
    { apply run_pass in H as [-> ->]. apply bool_decide_eq_true in Hpf. unfold pulled. by rewrite Hpf. }
    destruct (pulled _ _ _ && _) eqn:Hop; cbn [negb andb].
    { eapply run_detect_class in H as [-> Hi]; [|done|done|done|by rewrite Hx]. split; [|done].
      rewrite Hx. unfold detect_class, opens_with_preface. cbn.
      replace (k_h2_preface_check_len <=? msg_size msg) with true by (kunfold; lia).
      cbn. by rewrite Hop. }
    destruct (env_tracked_ssl env); cbn [negb andb]; [apply run_pass in H as [-> ->]; done|].
    destruct fuel as [|fuel]; [done|]. cbn [h2_run] in H.
    destruct (obi_packet_extender_sniff_h2 msg s) as [s1 n1] eqn:E.
    apply sniff_unclassified in E as [-> E]; [|done|done]. apply run_pass in H as [-> ->]. by split.
  - rewrite Hx in *. cbn in H. destruct go; cbn [orb] in H.
    + eapply run_detect_class in H as [-> Hi]; [|done|done|done|by rewrite Hx]. by rewrite Hx.
    + destruct (_ <? _); by apply run_pass in H as [-> ->].
Qed.

(** One message on the socket: the chain from the entry program, with the context it starts from,
    and, after each hand-over to the injection programs, the chain they resume, with or without
    the mark they leave on the socket. *)
Inductive h2_send (env : h2_env) (go_grpc : bool) (msg : sk_msg) : h2_sock -> h2_sock -> h2_next -> Prop :=
  | send_entry s t s' t' next fuel :
      t_h2_scan_pos t = 0 -> t_h2_frames t = 0 ->
      h2_run fuel env msg s t
        (if go_grpc || is_h2_socket s then next_detect else wrap_http2_traceparent env msg s)
      = Some (s', t', next) ->
      h2_send env go_grpc msg s s' next
  | send_marked s s' :
      h2_send env go_grpc msg s s' next_find_existing_h2_tp ->
      h2_send env go_grpc msg s (set_h2_sk_flag s' k_h2_sk_app_tp) next_find_existing_h2_tp
  | send_resumed s s1 t s' t' next fuel :
      h2_send env go_grpc msg s s1 next_find_existing_h2_tp ->
      h2_run fuel env msg s1 t next_detect = Some (s', t', next) ->
      h2_send env go_grpc msg s s' next.

Lemma run_storage fuel env msg s t prog s' t' next :
  h2_run fuel env msg s t prog = Some (s', t', next) -> storage_ok s' = storage_ok s.
Proof.
  revert s t prog. induction fuel as [|fuel IH]; intros s t prog H; [done|].
  destruct prog; cbn [h2_run] in H; try (by simplify_eq).
  - pose proof (sniff_storage msg s) as E. destruct (obi_packet_extender_sniff_h2 msg s). cbn in E.
    rewrite <- E. by eapply IH.
  - pose proof (detect_storage env msg s t) as E. destruct (obi_packet_extender_detect_h2 env msg s t) as [[??]?].
    cbn in E. rewrite <- E. by eapply IH.
Qed.

Lemma send_class env go msg s s' next :
  h2_send env go msg s s' next -> sock_wf s ->
  storage_ok s' = storage_ok s
  /\ (storage_ok s = true ->
       h2_sock_state s' = h2_class_after env go msg (h2_sock_state s) /\ run_injects env s' next).
Proof.
  intros H Hwf. induction H as [s t s' t' next fuel Hpos Hf H|s s' H IH|s s1 t s' t' next fuel H IH Hr].
  - split; [by eapply run_storage|]. intros Hok. by eapply run_entry.
  - destruct (IH Hwf) as [Hst Hc]. rewrite storage_set_flag. split; [done|]. intros Hok.
    destruct (Hc Hok) as [Hs Hi]. unfold run_injects. by rewrite state_set_flag.
  - destruct (IH Hwf) as [Hst Hc]. split; [by rewrite <- Hst; eapply run_storage|]. intros Hok.
    destruct (Hc Hok) as [Hs Hi]. destruct (Hi eq_refl) as [Hcf Hssl].
    eapply run_confirmed in Hr; [|done..]. split; [congruence|done].
Qed.

Lemma detect_scan_next n env msg sz pos s t s' t' next :
  detect_scan n env msg sz pos s t = (s', t', next) -> 0 <= t_h2_frames t < 4 ->
  next = next_pass \/ next = next_find_existing_h2_tp
  \/ next = next_detect /\ t_h2_frames t' = t_h2_frames t + 1.
Proof.
  revert pos s t. induction n as [|n IH]; intros pos s t H Hf; cbn [detect_scan] in H.
  - destruct (_ <? _); simplify_eq; [|by left]. right. right. split; [done|].
    cbn. by rewrite (wrap_small 8) by lia.
  - destruct (parse_h2_frame_at _ _ _ _) as [f|]; [|simplify_eq; by left].
    destruct (h2_sniff_check_frame _ _ _ _ _ _); [|simplify_eq; by left]. cbv zeta in H.
    destruct (fi_is_headers_end f); [|by eapply IH in H].
    assert (Hr : forall s0 t0 p, t_h2_frames t0 = t_h2_frames t -> (s0, h2_resume_after t0 p, next_detect) = (s', t', next) ->
      next = next_pass \/ next = next_find_existing_h2_tp \/ next = next_detect /\ t_h2_frames t' = t_h2_frames t + 1).
    { intros s0 t0 p Ht [= <- <- <-]. right. right. split; [done|]. cbn. by rewrite Ht, (wrap_small 8) by lia. }
    destruct (negb _); [by eapply Hr in H|]. destruct (env_application_owned env _); [by eapply Hr in H|].
    destruct (env_tp_written env _); [by eapply Hr in H|]. simplify_eq. right. by left.
Qed.

Lemma detect_next env msg s t s' t' next :
  obi_packet_extender_detect_h2 env msg s t = (s', t', next) -> 0 <= t_h2_frames t ->
  next = next_pass \/ next = next_find_existing_h2_tp
  \/ next = next_sniff /\ s' = s /\ t' = t /\ h2_sock_state s = k_h2_sock_probation
  \/ next = next_detect /\ t_h2_frames t < 4 /\ t_h2_frames t' = t_h2_frames t + 1
     /\ h2_sock_state s <> k_h2_sock_probation.
Proof.
  intros H Hf. unfold obi_packet_extender_detect_h2 in H.
  destruct (Z.leb_spec k_h2_max_frames_per_packet (t_h2_frames t)); [simplify_eq; by left|].
  destruct (_ =? k_h2_sock_rejected); [simplify_eq; by left|].
  destruct (_ && env_is_ssl env); [simplify_eq; by left|].
  destruct (Z.eqb_spec (h2_sock_state s) k_h2_sock_probation);
    [simplify_eq; right; right; left; done|]. cbv zeta in H.
  destruct (_ && negb _); [simplify_eq; by left|]. destruct (_ || _); [simplify_eq; by left|].
  assert (Hc : forall sz pos st s0, detect_confirmed env msg sz pos st s0 t = (s', t', next) ->
    next = next_pass \/ next = next_find_existing_h2_tp
    \/ next = next_detect /\ t_h2_frames t' = t_h2_frames t + 1).
  { intros sz pos st s0. unfold detect_confirmed. destruct (negb _); [intros; simplify_eq; by left|].
    destruct (h2_sk_flag _ _); [intros; simplify_eq; by left|]. intros Hd.
    eapply detect_scan_next; [exact Hd|kunfold; lia]. }
  destruct (_ =? k_h2_sock_preface).
  - destruct (parse_h2_frame_at _ _ _ _) as [sf|]; [|simplify_eq; by left].
    destruct (negb _); [simplify_eq; by left|]. destruct (_ || _); [simplify_eq; by left|].
    apply Hc in H as [-> |[-> |[-> ?]]]; kunfold; [by left|right; by left|right; right; by right].
  - apply Hc in H as [-> |[-> |[-> ?]]]; kunfold; [by left|right; by left|right; right; by right].
Qed.

Lemma run_detect_terminates k env msg s t fuel :
  h2_sock_state s <> k_h2_sock_probation ->
  0 <= t_h2_frames t -> 4 - t_h2_frames t <= Z.of_nat k -> (k + 2 <= fuel)%nat ->
  h2_run fuel env msg s t next_detect <> None.
Proof.
  revert s t fuel. induction k as [|k IH]; intros s t fuel Hs Hf Hk Hfuel;
    (destruct fuel as [|fuel]; [lia|]); cbn [h2_run];
    destruct (obi_packet_extender_detect_h2 env msg s t) as [[s1 t1] n1] eqn:E;
    destruct (detect_next _ _ _ _ _ _ _ E Hf) as [-> |[-> |[(_ & _ & _ & ?)|(-> & Hlt & Hf1 & _)]]];
    try (by destruct fuel; [lia|]); try done.
  - lia.
  - apply IH; [|lia..]. by eapply detect_keeps_off_probation.
Qed.

Lemma sniff_next msg s s' next :
  obi_packet_extender_sniff_h2 msg s = (s', next) ->
  next = next_pass \/ next = next_detect /\ h2_sock_state s' = k_h2_sock_confirmed.
Proof.
  unfold obi_packet_extender_sniff_h2. destruct (sniff_http2_frames _ _) as [w h].
  destruct (Z.eqb_spec (h2_sock_state s) k_h2_sock_probation) as [Hp|].
  - destruct (bool_decide _); [intros; simplify_eq; by left|]. destruct (negb _); intros; simplify_eq; [by left|].
    right. split; [done|]. apply state_set_eq. by rewrite Hp.
  - destruct (_ && _); [|intros; simplify_eq; by left]. destruct (sniffed_block_is_h2 _ _ _ _).
    intros; simplify_eq. by left.
Qed.

Lemma verdict_allow f :
  h2_inject_verdict f = k_h2_inject_allow ->
  fact_opener_readable f = true /\ h2_hpack_opens_request (fact_opener f) = true
  /\ fact_sk_server f = false /\ fact_frame_tp_present f = false /\ fact_sk_app_tp f = false
  /\ fact_uprobe_wrote f = false /\ fact_go_conn_without_tp f = false /\ fact_scan_incomplete f = false.
Proof.
  unfold h2_inject_verdict. destruct f as [o [] [] [] [] [] [] []]; simpl; try done;
    destruct (h2_hpack_opens_request o); done.
Qed.

(** What a tail call into the injection programs says about the frame. *)
Definition injectable_frame (env : h2_env) (msg : sk_msg) (s : h2_sock) (t : tailcall_ctx) : Prop :=
  exists f,
    parse_h2_frame_at msg (t_h2_frame_offset t) (msg_size msg) no_frame_info = Some f
    /\ fi_is_headers_end f = true
    /\ t_stream_id t = fi_stream_id f /\ t_h2_payload_len t = fi_payload_len f
    /\ t_h2_hpack_offset t = fi_hpack_offset_in_msg f /\ t_h2_hpack_len t = fi_hpack_len f
    /\ h2_headers_opener msg (t_h2_hpack_offset t) (msg_size msg) = Some (t_opener t)
    /\ h2_hpack_opens_request (t_opener t) = true
    /\ h2_sk_flag s k_h2_sk_server = false
    /\ env_application_owned env (t_stream_id t) = false /\ env_tp_written env (t_stream_id t) = false.

Lemma detect_scan_injects n env msg pos s t s' t' :
  detect_scan n env msg (msg_size msg) pos s t = (s', t', next_find_existing_h2_tp) ->
  injectable_frame env msg s' t'.
Proof.
  revert pos s t. induction n as [|n IH]; intros pos s t H; cbn [detect_scan] in H; [by destruct (_ <? _)|].
  destruct (parse_h2_frame_at _ _ _ _) as [f|] eqn:Hparse; [|done].
  destruct (h2_sniff_check_frame _ _ _ _ _ _); [|done]. cbv zeta in H.
  destruct (fi_is_headers_end f) eqn:Hend; [|by eapply IH].
  set (s1 := match _ with Some _ => _ | None => s end) in H.
  destruct (bool_decide _) eqn:Hv in H; cbn [negb] in H; [|done]. apply bool_decide_eq_true in Hv.
  destruct (env_application_owned env _) eqn:Ho in H; [done|].
  destruct (env_tp_written env _) eqn:Hw in H; [done|].
  injection H as Hs Ht. subst s' t'. apply verdict_allow in Hv as (Hr & Hq & Hsrv & _).
  cbn in Hr, Hq, Hsrv. apply bool_decide_eq_true in Hr as [o Eo]. rewrite Eo in Hq. cbn in Hq.
  exists f. cbn. rewrite Eo. cbn. split_and!; done.
Qed.

(** Evidence that the socket carries HTTP/2 when injection is asked for. *)
Definition h2_evidence (msg : sk_msg) (s : h2_sock) : Prop :=
  h2_sock_state s = k_h2_sock_confirmed
  \/ exists pos sf,
       parse_h2_frame_at msg pos (msg_size msg) no_frame_info = Some sf
       /\ fi_ftype sf = k_h2_frame_settings
       /\ (h2_sock_state s = k_h2_sock_preface
           \/ h2_sock_state s = k_h2_sock_none /\ pos = k_h2_preface_len
              /\ is_http2_preface (list_buf (msg_bytes msg)) = true).

Lemma detect_injects env msg s t s' t' :
  obi_packet_extender_detect_h2 env msg s t = (s', t', next_find_existing_h2_tp) ->
  h2_evidence msg s /\ injectable_frame env msg s' t' /\ t_h2_frames t < k_h2_max_frames_per_packet
  /\ (t_h2_scan_pos t = 0 -> env_is_ssl env = false).
Proof.
  unfold obi_packet_extender_detect_h2.
  destruct (Z.leb_spec k_h2_max_frames_per_packet (t_h2_frames t)); [done|].
  destruct (_ =? k_h2_sock_rejected); [done|].
  destruct (_ && env_is_ssl env) eqn:Hssl; [done|].
  destruct (_ =? k_h2_sock_probation); [done|]. cbv zeta.
  set (ip := _ && is_http2_preface _).
  assert (Hip : ip = true -> h2_sock_state s = k_h2_sock_none /\ is_http2_preface (list_buf (msg_bytes msg)) = true).
  { unfold ip. rewrite !andb_true_iff, !Z.eqb_eq. tauto. }
  destruct (ip && negb _); [done|]. destruct (_ || _); [done|].
  assert (Hc : forall pos st s0, detect_confirmed env msg (msg_size msg) pos st s0 t
    = (s', t', next_find_existing_h2_tp) -> st = k_h2_sock_confirmed /\ injectable_frame env msg s' t').
  { intros pos st s0. unfold detect_confirmed. destruct (Z.eqb_spec st k_h2_sock_confirmed); [|done].
    cbn [negb]. destruct (h2_sk_flag _ _); [done|]. intros Hd. split; [done|]. by eapply detect_scan_injects. }
  assert (Hs0 : t_h2_scan_pos t = 0 -> env_is_ssl env = false)
    by (intros Hz; rewrite Hz in Hssl; by destruct (env_is_ssl env)).
  destruct (Z.eqb_spec (if ip then k_h2_sock_preface else h2_sock_state s) k_h2_sock_preface) as [Est|].
  - destruct (parse_h2_frame_at _ _ _ _) as [sf|] eqn:Hparse; [|done].
    destruct (Z.eqb_spec (fi_ftype sf) k_h2_frame_settings); cbn [negb]; [|done].
    destruct (_ || _); [done|]. intros [_ Hi]%Hc. split_and!; [|done|done|done]. right. exists (if ip then k_h2_preface_len else t_h2_scan_pos t), sf.
    split_and!; [done|done|]. destruct ip; [|by left]. right. destruct Hip as [? ?]; done.
  - intros [Hst Hi]%Hc. split_and!; [|done|done|done]. left. by destruct ip.
Qed.

(** A HEADERS payload as RFC 7540 6.2 lays it out. *)
Definition headers_payload (fl : Z) (priority hpack padding : list Z) : list Z :=
  (if nz (Z.land fl k_h2_flag_padded) then [zlen padding] else []) ++ priority ++ hpack ++ padding.

Lemma frame_header_at pre f post i :
  frame_wf f -> zlen (fr_payload f) <= k_h2_max_frame_len ->
  let d := shift (list_buf (pre ++ frame_bytes f ++ post)) (zlen pre) in
  h2_frame_payload_len d = zlen (fr_payload f) /\ d 3 = fr_type f /\ d 4 = fr_flags f
  /\ h2_stream_id d = fr_stream f /\ nz (Z.land (d 5) k_h2_reserved_bit_mask) = false
  /\ (0 <= i -> d (9 + i) = list_buf (fr_payload f ++ post) i).
Proof.
  intros Hwf Hmax d.
  destruct (frame_bytes_cons f Hwf Hmax) as (a & b & c & s0 & s1 & s2 & s3 & Hfb & Hbh & Hl & Hs0 & Hsid).
  assert (Hd : forall j, 0 <= j -> d j = list_buf ([a; b; c; fr_type f; fr_flags f; s0; s1; s2; s3] ++ fr_payload f ++ post) j).
  { intros j Hj. unfold d, shift. rewrite list_buf_app_r by done. by rewrite Hfb, <- app_assoc. }
  unfold is_bytes in Hbh. rewrite !Forall_cons in Hbh. destruct Hbh as (?&?&?&?&?&Hs0'&?&?&?&_).
  unfold h2_frame_payload_len, h2_stream_id. rewrite !Hd by lia. lbuf.
  destruct (land_7f s0 Hs0') as [-> ->]. rewrite lor_bytes3, lor_bytes4 by done.
  unfold be24 in *. split_and!; try lia; try done.
  intros Hi. rewrite Hd by lia. change 9 with (zlen [a; b; c; fr_type f; fr_flags f; s0; s1; s2; s3]).
  by apply list_buf_app_r.
Qed.

(** ** Properties *)

(** The HPACK window of a HEADERS frame is exact.  On a message whose ranges can be pulled and
    that holds, between other bytes, a HEADERS frame with END_HEADERS laid out as RFC 7540 says
    (pad length, priority fields, header block, padding), [parse_h2_frame_at] delimits exactly the
    header block and reports the frame's stream and length. *)
Theorem parse_h2_headers_window msg pre f priority hpack padding post :
  pulls_ok msg -> msg_bytes msg = pre ++ frame_bytes f ++ post -> msg_size msg < 2 ^ 31 ->
  frame_wf f -> fr_type f = 1 -> nz (Z.land (fr_flags f) k_h2_flag_end_headers) = true ->
  fr_payload f = headers_payload (fr_flags f) priority hpack padding ->
  zlen (fr_payload f) <= k_h2_max_frame_len ->
  zlen priority = (if nz (Z.land (fr_flags f) k_h2_flag_priority) then 5 else 0) ->
  hpack <> [] -> (nz (Z.land (fr_flags f) k_h2_flag_padded) = false -> padding = []) ->
  exists fi,
    parse_h2_frame_at msg (zlen pre) (msg_size msg) no_frame_info = Some fi
    /\ fi_is_headers_end fi = true /\ fi_stream_id fi = fr_stream f
    /\ fi_payload_len fi = zlen (fr_payload f) /\ fi_hpack_len fi = zlen hpack
    /\ take (Z.to_nat (fi_hpack_len fi)) (drop (Z.to_nat (fi_hpack_offset_in_msg fi)) (msg_bytes msg)) = hpack.
Proof.
  intros Hpull Hm Hsz Hwf Hty Hend Hpay Hmax Hprio Hne Hpad.
  destruct (frame_header_at pre f post 0 Hwf Hmax) as (Hlen & H3 & H4 & Hsid & Hr & H9).
  specialize (H9 ltac:(lia)). rewrite Hpay in H9.
  pose proof (zlen_nonneg pre). pose proof (zlen_nonneg post). pose proof (zlen_nonneg padding).
  pose proof (zlen_nonneg priority).
  assert (Hf : zlen (frame_bytes f) = 9 + zlen (fr_payload f)).
  { unfold frame_bytes. rewrite !zlen_app, be_bytes_3, be_bytes_4. unfold zlen. simpl length. lia. }
  assert (Hs : msg_size msg = zlen pre + 9 + zlen (fr_payload f) + zlen post)
    by (unfold msg_size; rewrite Hm, !zlen_app; lia).
  assert (Hh : 0 < zlen hpack) by (unfold zlen; destruct hpack; [done|simpl; lia]).
  set (padded := nz (Z.land (fr_flags f) k_h2_flag_padded)) in *.
  assert (Hpl : zlen (fr_payload f) = (if padded then 1 else 0) + zlen priority + zlen hpack + zlen padding).
  { rewrite Hpay. unfold headers_payload. fold padded. rewrite !zlen_app. destruct padded; unfold zlen; simpl; lia. }
  unfold parse_h2_frame_at. rewrite Hm in *.
  rewrite !(wrap_small 32 (zlen pre + k_h2_frame_header_len)) by (kunfold; lia).
  rewrite (proj2 (Z.ltb_ge _ (zlen pre + k_h2_frame_header_len))) by (kunfold; lia).
  assert (Hp : forall a b, pulled msg a b = true) by (intros; by apply bool_decide_eq_true_2).
  rewrite !Hp. cbn [negb]. cbv zeta.
  fold (h2_frame_payload_len (shift (list_buf (pre ++ frame_bytes f ++ post)) (zlen pre))).
  rewrite Hlen, H3, H4, Hsid, Hty, Hend, (proj2 (Z.ltb_ge k_h2_max_frame_len _)) by done.
  change (1 =? k_h2_frame_headers) with true. rewrite (proj2 (Z.ltb_lt 0 _)) by lia. cbn [andb negb].
  fold padded. rewrite (proj2 (Z.ltb_ge _ (u32 (zlen pre + k_h2_frame_header_len + 1))))
    by (rewrite (wrap_small 32) by (kunfold; lia); kunfold; lia).
  cbn [orb]. rewrite andb_false_r.
  assert (Hpadlen : (if padded then shift (list_buf (pre ++ frame_bytes f ++ post)) (zlen pre) k_h2_frame_header_len else 0) = zlen padding).
  { destruct padded eqn:E; [|by rewrite Hpad]. change k_h2_frame_header_len with (9 + 0). rewrite H9.
    unfold headers_payload. fold padded. by rewrite E. }
  rewrite Hpadlen. fold (h2_hpack_prefix_len (fr_flags f)).
  set (prefix := (if padded then 1 else 0) + _).
  assert (Hprefix : prefix = (if padded then 1 else 0) + zlen priority)
    by (unfold prefix; rewrite Hprio; done).
  rewrite (proj2 (Z.leb_gt _ (prefix + zlen padding))) by lia.
  eexists. split; [reflexivity|]. cbn [fi_is_headers_end fi_stream_id fi_payload_len fi_hpack_len fi_hpack_offset_in_msg].
  split_and!; [done|done|done|lia|].
  rewrite (wrap_small 32) by (destruct padded; kunfold; lia).
  replace (zlen (fr_payload f) - prefix - zlen padding) with (zlen hpack) by lia.
  set (A := pre ++ be_bytes 3 (zlen (fr_payload f)) ++ [fr_type f; fr_flags f] ++ be_bytes 4 (fr_stream f)
    ++ (if padded then [zlen padding] else []) ++ priority).
  replace (pre ++ frame_bytes f ++ post) with (A ++ hpack ++ padding ++ post).
  2: { unfold A, frame_bytes. generalize (be_bytes 3 (zlen (fr_payload f))). intros L. rewrite Hpay. unfold headers_payload. fold padded. rewrite <- !app_assoc. done. }
  replace (Z.to_nat (zlen pre + k_h2_frame_header_len + prefix)) with (length A).
  2: { unfold A. rewrite !length_app, be_bytes_3, be_bytes_4. unfold zlen in *. kunfold.
       destruct padded; simpl length; lia. }
  rewrite drop_app_length. unfold zlen. by rewrite Nat2Z.id, take_app_length.
Qed.

Definition example_settings : h2_frame := mk_frame 4 0 0 [].

(** A padded HEADERS frame of stream 1 with a two-octet block. *)
Definition example_padded : h2_frame := mk_frame 1 0xc 1 [3; 0x82; 0x87; 0; 0; 0].

Definition msg_of (l : list Z) : sk_msg := mk_msg l (fun _ _ => pull_ok).

Lemma parse_h2_headers_window_witness :
  exists fi,
    parse_h2_frame_at (msg_of ([7] ++ frame_bytes example_padded ++ [])) 1 16 no_frame_info = Some fi
    /\ fi_hpack_len fi = 2.
Proof.
  destruct (parse_h2_headers_window (msg_of ([7] ++ frame_bytes example_padded ++ [])) [7] example_padded
    [] [0x82; 0x87] [0; 0; 0] []) as (fi & H1 & _ & _ & _ & H2 & _);
    [done|done|by vm_compute| |done|done|done|by vm_compute|done|done|done|].
  - split_and!; [done..|]. unfold is_bytes. simpl. repeat constructor; lia.
  - exists fi. done.
Defined.

Definition example_env : h2_env := mk_env false false (fun _ => false) (fun _ => false).
Definition example_sock : h2_sock := mk_sock true true None None.
Definition example_tctx : tailcall_ctx :=
  mk_tctx 0 0 0 0 0 0 0 sniff_init 0 0 false false 0.

(** Preface and SETTINGS in one send. *)
Definition example_opening : list Z := HTTP2_GRPC_PREFACE ++ frame_bytes example_settings.

(** C10: the classification of a socket, message by message.  Whatever its entry point, and over all
    the hops of its tail-call chain (those resumed after an injection included), one message moves
    a socket exactly as [h2_class_after] says, where the socket can hold the state and the SSL
    mark of its connection is the same on every hop.  An unclassified socket is confirmed by one
    message only when that message carries the preface and a SETTINGS frame right behind it at
    octet 24; it is put on probation only when the message is conforming frames end to end that
    open with a pseudo-header; a socket on probation is confirmed only by a further message, one
    that tiles as frames, stays on probation when the walk does not finish, and is rejected
    otherwise; a socket that has shown the preface is confirmed or rejected by the first frame of
    its next message; a confirmed socket is rejected only when its connection turns out to be SSL,
    and a rejected one stays rejected.  Where the state cannot be stored the socket stays
    unclassified. *)
Theorem h2_send_follows_machine env go_grpc msg s s' next :
  sock_wf s -> h2_send env go_grpc msg s s' next ->
  h2_sock_state s' =
    (if storage_ok s then h2_class_after env go_grpc msg (h2_sock_state s) else k_h2_sock_none).
Proof.
  intros Hwf H. destruct (send_class _ _ _ _ _ _ H Hwf) as [Hst Hc].
  destruct (storage_ok s); [by apply Hc|]. by apply no_storage_none.
Qed.

(** Two conforming messages, none of them with the preface: probation, then confirmed. *)
Lemma h2_send_follows_machine_witness :
  let m := msg_of (frame_bytes example_padded) in
  exists s1 s2, h2_send example_env false m example_sock s1 next_pass
    /\ h2_sock_state s1 = k_h2_sock_probation
    /\ h2_send example_env false m s1 s2 next_find_existing_h2_tp
    /\ h2_sock_state s2 = k_h2_sock_confirmed.
Proof.
  cbv zeta. set (m := msg_of (frame_bytes example_padded)).
  assert (H1 : h2_send example_env false m example_sock (mk_sock true true (Some k_h2_sock_probation) None) next_pass).
  { eapply (send_entry _ _ _ _ example_tctx _ _ _ 3); [done..|]. vm_compute. reflexivity. }
  assert (H2 : h2_send example_env false m (mk_sock true true (Some k_h2_sock_probation) None)
    (mk_sock true true (Some k_h2_sock_confirmed) None) next_find_existing_h2_tp).
  { eapply (send_entry _ _ _ _ example_tctx _ _ _ 4); [done..|]. vm_compute. reflexivity. }
  exists (mk_sock true true (Some k_h2_sock_probation) None), (mk_sock true true (Some k_h2_sock_confirmed) None).
  split_and!; [exact H1| |exact H2|].
  - rewrite (fun W => h2_send_follows_machine example_env false m example_sock _ _ W H1); [vm_compute; reflexivity|].
    by vm_compute.
  - rewrite (fun W => h2_send_follows_machine example_env false m _ _ _ W H2); [vm_compute; reflexivity|].
    by vm_compute.
Defined.

(** Over any sequence of messages a rejected socket stays rejected, and a confirmed one is
    afterwards confirmed or rejected, never back in doubt. *)
Definition h2_history : h2_sock -> h2_sock -> Prop :=
  rtc (fun s s' => exists env go msg next, h2_send env go msg s s' next).

Lemma class_after_wf env go msg x : 0 <= x <= 4 -> 0 <= h2_class_after env go msg x <= 4.
Proof.
  intros Hx. unfold h2_class_after, class_by_settings. kunfold. repeat case_match; lia.
Qed.

Theorem h2_rejected_is_final s s' :
  sock_wf s -> h2_history s s' ->
  (h2_sock_state s = k_h2_sock_rejected -> h2_sock_state s' = k_h2_sock_rejected)
  /\ (h2_sock_state s = k_h2_sock_confirmed ->
      h2_sock_state s' = k_h2_sock_confirmed \/ h2_sock_state s' = k_h2_sock_rejected).
Proof.
  intros Hwf H. induction H as [s|s s1 s' (env & go & msg & next & Hs) _ IH]; [by split; [|left]|].
  destruct (send_class _ _ _ _ _ _ Hs Hwf) as [Hst Hc].
  destruct (storage_ok s) eqn:Hok;
    [|apply no_storage_none in Hok; rewrite Hok; split; intros Hk; kunfold; lia].
  destruct (Hc eq_refl) as [E _].
  assert (Hwf1 : sock_wf s1) by (unfold sock_wf; rewrite E; by apply class_after_wf).
  destruct (IH Hwf1) as [IHr IHc]. split; intros Hk; rewrite Hk in E; unfold h2_class_after in E; cbn in E.
  - by apply IHr.
  - destruct (env_is_ssl env); [right; by apply IHr|by apply IHc].
Qed.

(** C9: injection needs evidence.  When [detect_h2] hands a frame to the injection programs, the
    socket was confirmed before, or this very message carries the mandatory SETTINGS frame after
    the preface; the frame is HEADERS with END_HEADERS and its block opens with a request
    pseudo-header; the socket was never seen sending responses; the application does not own the
    stream, no uprobe wrote its trace context, the per-packet frame budget is not spent, and the
    connection is not marked SSL on the first hop. *)
Theorem h2_inject_needs_evidence env msg s t s' t' :
  obi_packet_extender_detect_h2 env msg s t = (s', t', next_find_existing_h2_tp) ->
  h2_evidence msg s /\ injectable_frame env msg s' t' /\ t_h2_frames t < k_h2_max_frames_per_packet
  /\ (t_h2_scan_pos t = 0 -> env_is_ssl env = false).
Proof. apply detect_injects. Qed.

Lemma h2_inject_needs_evidence_witness :
  let s := mk_sock true true (Some k_h2_sock_confirmed) None in
  exists t', obi_packet_extender_detect_h2 example_env (msg_of (frame_bytes example_padded)) s example_tctx
    = (s, t', next_find_existing_h2_tp) /\ h2_evidence (msg_of (frame_bytes example_padded)) s.
Proof.
  cbv zeta. eexists. split; [vm_compute; reflexivity|].
  eapply (h2_inject_needs_evidence example_env (msg_of (frame_bytes example_padded)) _ example_tctx).
  vm_compute. reflexivity.
Defined.

(** The chain of a send ends.  From any program and any state, the tail calls between the
    detection programs reach [SK_PASS] or the injection programs within eight program runs, below
    the kernel's limit of 33 tail calls. *)
Theorem h2_chain_terminates env msg s t prog :
  0 <= t_h2_frames t -> h2_run 9 env msg s t prog <> None.
Proof.
  intros Hf.
  assert (Hsniff : forall s t fuel, 0 <= t_h2_frames t -> (7 <= fuel)%nat -> h2_run fuel env msg s t next_sniff <> None).
  { intros s0 t0 fuel Hf0 Hfuel. destruct fuel as [|fuel]; [lia|]. cbn [h2_run].
    destruct (obi_packet_extender_sniff_h2 msg s0) as [s1 n1] eqn:E.
    destruct (sniff_next _ _ _ _ E) as [-> |[-> Hc]]; [by destruct fuel; [lia|]|].
    eapply (run_detect_terminates 4); [by rewrite Hc|lia..]. }
  destruct prog; [done|by apply Hsniff; [|lia]| |done].
  destruct (Z.eq_dec (h2_sock_state s) k_h2_sock_probation) as [Hp|];
    [|eapply (run_detect_terminates 4); [done|lia..]].
  assert (Hrun : forall fuel, h2_run (S fuel) env msg s t next_detect
    = let '(s', t', next) := obi_packet_extender_detect_h2 env msg s t in h2_run fuel env msg s' t' next) by done.
  rewrite Hrun.
  destruct (obi_packet_extender_detect_h2 env msg s t) as [[s1 t1] n1] eqn:E.
  destruct (detect_next _ _ _ _ _ _ _ E Hf) as [-> |[-> |[(-> & -> & -> & _)|(_ & _ & _ & ?)]]];
    [done|done|by apply Hsniff; [|lia]|done].
Qed.

Lemma h2_chain_terminates_witness :
  h2_run 9 example_env (msg_of example_opening) example_sock example_tctx next_detect <> None.
Proof. apply (h2_chain_terminates example_env (msg_of example_opening) example_sock example_tctx). done. Defined.
