(* ===== verification/H2Inject.v ===== *)
(** * The HTTP/2 injection programs ([bpf/tpinjector/tpinjector.c]).

    What follows [detect_h2] for one HEADERS frame: [find_existing_h2_tp] looks for a traceparent
    field in the header block, [validate_h2_tp] adopts it, records that it is there, or goes on
    looking, [create_h2_tp] decides whether one may be added and makes the trace context, and
    [write_h2_tp] adds the field through the write transaction.  Each ends in a tail call, a value
    of [inj_next]; [h2_chain] runs the programs of a whole send, the detection programs included.

    The message is behind [SkMsgOps], so every helper may fail.  What other programs and the kernel
    decide (the parent trace, time, random words, map updates) are oracles of [inj_env], indexed by
    a counter of the consultations so far, over which every statement quantifies. *)

From Stdlib Require Import ZArith Lia ZifyBool List Bool.
From stdpp Require Import base list relations gmap.
From S2P Require Import Prelude TraceUtil Sampling H2Defs H2Sniff H2Scan HpackParse H2Sock H2Txn.

Local Open Scope Z_scope.

(** ** Reading a field *)

Definition k_inject_http_headers : Z := 1.
Definition FLAGS_CHAR_LEN : Z := 2.

#[export] Hint Unfold k_inject_http_headers FLAGS_CHAR_LEN : kconst.

Definition decode_tp_value (val : buf) (tp : tp_info) : option tp_info :=
  if negb (val k_tp_val_dash1 =? 45) || negb (val k_tp_val_dash2 =? 45) || negb (val k_tp_val_dash3 =? 45)
  then None
  else
    Some (mk_tp_info (decode_hex (shift val k_tp_val_trace_id_start) TRACE_ID_CHAR_LEN)
            (decode_hex (shift val k_tp_val_span_id_start) SPAN_ID_CHAR_LEN)
            (parent_id tp) (ts tp)
            (hd 0 (decode_hex (shift val k_tp_val_flags_start) FLAGS_CHAR_LEN))).

(** The offset of the span id in the field and the context read, or [None] for the return value 0. *)
Definition validate_h2_tp_plain (p : buf) (avail : Z) (tp : tp_info) : option (Z * tp_info) :=
  if avail <? k_h2_tp_hpack_size then None
  else if negb (mem_eqb (shift p k_hpack_tp_name_offset) k_hpack_tp_name) then None
  else if negb (p (k_hpack_tp_name_offset + k_hpack_tp_name_len) =? k_hpack_value_len_tp) then None
  else match decode_tp_value (shift p k_hpack_tp_val_offset) tp with
       | None => None
       | Some tp => Some (k_hpack_tp_val_offset + k_tp_val_span_id_start, tp)
       end.

Definition validate_h2_tp_huffman (p : buf) (avail : Z) (tp : tp_info) : option (Z * tp_info) :=
  if avail <? k_h2_tp_hpack_huffman_size then None
  else if negb (mem_eqb (shift p k_hpack_tp_name_offset) k_hpack_tp_huffman) then None
  else if negb (p (k_hpack_tp_name_offset + k_hpack_tp_name_huffman_len) =? k_hpack_value_len_tp) then None
  else match decode_tp_value (shift p k_hpack_tp_val_offset_huffman) tp with
       | None => None
       | Some tp => Some (k_hpack_tp_val_offset_huffman + k_tp_val_span_id_start, tp)
       end.

(** The loop of [find_first_h2_tp_candidate] from [i] on. *)
Fixpoint candidate_loop (n : nat) (data : buf) (avail hpack_len i : Z) : Z :=
  match n with
  | O => k_h2_max_hpack_scan
  | S n' =>
      if hpack_len <? i + k_h2_tp_need_name_huffman then k_h2_max_hpack_scan
      else if avail <? i + k_h2_tp_need_name_huffman then k_h2_max_hpack_scan
      else if h2_tp_is_candidate (data i) (data (i + 1)) (data (i + 2)) then i
      else candidate_loop n' data avail hpack_len (i + 1)
  end.

(** ** The parent trace *)

Definition set_ids (tp : tp_info) (span parent : list Z) : tp_info :=
  mk_tp_info (trace_id tp) span parent (ts tp) (flags tp).

Definition set_ts (tp : tp_info) (now : Z) : tp_info :=
  mk_tp_info (trace_id tp) (span_id tp) (parent_id tp) now (flags tp).

(** [parent] is [parent_tp] when [has_parent_tp]; [fresh] is what [urand_bytes] would write. *)
Definition apply_parent_tp (parent : option tp_info) (tp : tp_info) (fresh : list Z) : tp_info * bool :=
  match parent with
  | None => (tp, false)
  | Some p =>
      if negb (bool_decide (trace_id tp = trace_id p)) then (tp, false)
      else
        let tp := set_ids tp (span_id tp) (span_id p) in
        if negb (bool_decide (span_id tp = parent_id p)) then (tp, false)
        else (set_ids tp fresh (parent_id tp), true)
  end.

Definition zero_tp : tp_info := mk_tp_info (repeat 0 16) (repeat 0 8) (repeat 0 8) 0 0.
Definition zero_tp_info_pid : tp_info_pid := mk_tp_info_pid zero_tp 0 0 0 0 0.

Definition create_trace_info (parent : option tp_info) (pid : Z) (rnd : nat -> Z) (k : nat)
    (s : option sampler) (tp_p : tp_info_pid) : tp_info_pid * nat :=
  let '(span, k) := urand_bytes rnd k SPAN_ID_SIZE_BYTES in
  match parent with
  | Some p =>
      (mk_tp_info_pid (mk_tp_info (trace_id p) span (span_id p) (ts (tpp_tp tp_p)) (flags p))
         pid 1 (tpp_written tp_p) k_event_type_http_client (tpp_response_sent tp_p), k)
  | None =>
      let '(trace, k) := urand_bytes rnd k TRACE_ID_SIZE_BYTES in
      (mk_tp_info_pid
         (sample_new_trace_for_pid (mk_tp_info trace span (repeat 0 8) (ts (tpp_tp tp_p)) 1) s)
         pid 1 (tpp_written tp_p) k_event_type_http_client (tpp_response_sent tp_p), k)
  end.

(** ** The programs *)

(** How a program ends: [SK_PASS], [SK_DROP], or the tail call it makes. *)
Inductive inj_next :=
  | inj_pass | inj_drop | inj_detect | inj_sniff | inj_find | inj_validate | inj_create | inj_write.

#[export] Instance inj_next_eq_dec : EqDecision inj_next.
Proof. solve_decision. Defined.

Record inj_env := mk_inj_env {
  (** [t_ctx->p_conn.pid] *)
  ie_pid : Z;
  ie_go_grpc_conn : bool;
  ie_inject_flags : Z;
  (** the loader put [write_h2_tp] in the jump table, not [write_h2_tp_no_rollback] *)
  ie_can_roll_back : bool;
  ie_sampler : option sampler;
  (** [find_parent_trace_for_client_request], [None] when it returns false *)
  ie_parent : nat -> option tp_info;
  (** [bpf_ktime_get_ns] *)
  ie_now : nat -> Z;
  (** [bpf_get_prandom_u32] *)
  ie_rnd : nat -> Z;
  (** whether [bpf_map_update_elem] finds room in [outgoing_trace_map] *)
  ie_room : nat -> bool
}.

(** The message, the socket, the tail-call context with [parent_tp], the scratch [tp_info_pid_t],
    [outgoing_trace_map] (for the ports of the connection, by stream id) and the counter of the
    oracles. *)
Record inj (M : Type) := mk_inj {
  i_msg : M;
  i_sock : h2_sock;
  i_t : tailcall_ctx;
  i_parent : option tp_info;
  i_tp : tp_info_pid;
  i_map : gmap Z tp_info_pid;
  i_tick : nat
}.
Arguments mk_inj {M}.
Arguments i_msg {M}.
Arguments i_sock {M}.
Arguments i_t {M}.
Arguments i_parent {M}.
Arguments i_tp {M}.
Arguments i_map {M}.
Arguments i_tick {M}.

Definition get_tp_info_pid (map : gmap Z tp_info_pid) (stream pid : Z) : option tp_info_pid :=
  match map !! stream with
  | Some tp => if tpp_pid tp =? pid then Some tp else None
  | None => None
  end.

Definition set_tp_info_pid (map : gmap Z tp_info_pid) (room : bool) (stream : Z) (tp_p : tp_info_pid)
    : gmap Z tp_info_pid :=
  if room || bool_decide (is_Some (map !! stream)) then <[stream := tp_p]> map else map.

(** [tailcall_ctx] with the four fields the scan changes. *)
Definition set_scan (t : tailcall_ctx) (candidate retries : Z) (present exhausted : bool) : tailcall_ctx :=
  mk_tctx (t_stream_id t) (t_h2_frame_offset t) (t_h2_payload_len t) (t_h2_hpack_offset t)
    (t_h2_hpack_len t) (t_h2_scan_pos t) candidate (t_h2_framing t) (t_h2_frames t)
    retries present exhausted (t_opener t).

Definition set_candidate (t : tailcall_ctx) (candidate : Z) : tailcall_ctx :=
  set_scan t candidate (t_h2_tp_retries t) (t_tp_present t) (t_scan_exhausted t).

(** Where [h2_resume_after] is told to resume when the frame was left as it is. *)
Definition frame_end (t : tailcall_ctx) : Z :=
  u32 (t_h2_frame_offset t + k_h2_frame_header_len + t_h2_payload_len t).

Section programs.
Context {M : Type} `{SkMsgOps M}.

Definition set_msg (st : inj M) (m : M) : inj M :=
  mk_inj m (i_sock st) (i_t st) (i_parent st) (i_tp st) (i_map st) (i_tick st).
Definition set_t (st : inj M) (t : tailcall_ctx) : inj M :=
  mk_inj (i_msg st) (i_sock st) t (i_parent st) (i_tp st) (i_map st) (i_tick st).
Definition set_sock (st : inj M) (s : h2_sock) : inj M :=
  mk_inj (i_msg st) s (i_t st) (i_parent st) (i_tp st) (i_map st) (i_tick st).

Definition resume (st : inj M) (next_pos : Z) : inj M * inj_next :=
  (set_t st (h2_resume_after (i_t st) next_pos), inj_detect).

Definition pull_hpack_window (m : M) (hpack_start hpack_len : Z) : bool * M :=
  if hpack_len <? k_h2_tp_need_name_huffman then (false, m)
  else
    let pull_len :=
      if hpack_len <? k_h2_max_hpack_scan + k_h2_tp_hpack_size then hpack_len
      else k_h2_max_hpack_scan + k_h2_tp_hpack_size in
    m_pull m hpack_start (u32 (hpack_start + pull_len)).

Definition find_first_h2_tp_candidate (m : M) (hpack_start hpack_len : Z) : Z * M :=
  let '(ok, m) := pull_hpack_window m hpack_start hpack_len in
  if negb ok then (k_h2_max_hpack_scan, m)
  else match m_view m with
       | None => (k_h2_max_hpack_scan, m)
       | Some avail =>
           (candidate_loop (Z.to_nat k_h2_max_hpack_scan) (m_data m hpack_start) avail hpack_len 0, m)
       end.

Definition obi_packet_extender_find_existing_h2_tp (st : inj M) : inj M * inj_next :=
  let t := i_t st in
  let scan_start := t_h2_tp_candidate_pos t in
  if (k_h2_max_hpack_scan <=? scan_start) || (t_h2_hpack_len t <=? scan_start)
  then (set_t st (set_candidate t k_h2_max_hpack_scan), inj_validate)
  else
    let max_search_len := k_h2_max_hpack_scan - scan_start + k_h2_tp_hpack_huffman_size - 1 in
    let search_len := Z.min (t_h2_hpack_len t - scan_start) max_search_len in
    let '(candidate, m) :=
      find_first_h2_tp_candidate (i_msg st) (u32 (t_h2_hpack_offset t + scan_start)) search_len in
    let st := set_msg st m in
    if (candidate <? k_h2_max_hpack_scan) && (scan_start + candidate <? k_h2_max_hpack_scan)
    then (set_t st (set_candidate t (scan_start + candidate)), inj_validate)
    else (set_t st (set_candidate t k_h2_max_hpack_scan), inj_validate).

(** The branch of [validate_h2_tp] taken when the field was read: [off] is the offset of its span
    id from the candidate. *)
Definition adopt_h2_tp (e : inj_env) (st : inj M) (target off : Z) (tp : tp_info) : inj M * inj_next :=
  let t := i_t st in
  let parent := ie_parent e (i_tick st) in
  let tp := set_ids tp (span_id tp) (repeat 0 8) in
  let span_id_offset := u32 (t_h2_hpack_offset t + target + off) in
  let '(fresh, _) := urand_bytes (ie_rnd e) (S (i_tick st)) SPAN_ID_SIZE_BYTES in
  let '(tp, forwarded) := apply_parent_tp parent tp fresh in
  let m :=
    if forwarded then
      let '(ok, m) := m_pull (i_msg st) span_id_offset (u32 (span_id_offset + SPAN_ID_CHAR_LEN)) in
      if ok && view_ok m SPAN_ID_CHAR_LEN then m_store m span_id_offset (encode_hex (span_id tp)) else m
    else i_msg st in
  let tp_p :=
    mk_tp_info_pid (set_ts tp (ie_now e (i_tick st))) (ie_pid e) 1 1 k_event_type_http_client
      (tpp_response_sent (i_tp st)) in
  let map := set_tp_info_pid (i_map st) (ie_room e (i_tick st)) (t_stream_id t) tp_p in
  resume (mk_inj m (i_sock st) t parent tp_p map (S (i_tick st) + 2)%nat) (frame_end t).

(** The end of [validate_h2_tp]: the candidate was not a traceparent. *)
Definition retry_h2_tp (st : inj M) (next_candidate_pos : Z) : inj M * inj_next :=
  let t := i_t st in
  if k_h2_max_hpack_scan <=? next_candidate_pos then (st, inj_create)
  else if k_h2_max_tp_retries <=? t_h2_tp_retries t + 1
  then (set_t st (set_scan t (t_h2_tp_candidate_pos t) (t_h2_tp_retries t) (t_tp_present t) true), inj_create)
  else (set_t st (set_scan t next_candidate_pos (u8 (t_h2_tp_retries t + 1)) (t_tp_present t)
                    (t_scan_exhausted t)), inj_find).

Definition obi_packet_extender_validate_h2_tp (e : inj_env) (st : inj M) : inj M * inj_next :=
  let t := i_t st in
  let target := t_h2_tp_candidate_pos t in
  let hpack_start := t_h2_hpack_offset t in
  let hpack_len := t_h2_hpack_len t in
  if k_h2_max_hpack_scan <=? target then (st, inj_create)
  else if hpack_len <=? target then (st, inj_create)
  else
    let '(ok, m) := pull_hpack_window (i_msg st) (u32 (hpack_start + target)) (hpack_len - target) in
    let st := set_msg st m in
    if negb ok || negb (view_ok m k_h2_tp_need_name_huffman) then (st, inj_create)
    else
      let data := m_data m (u32 (hpack_start + target)) in
      let avail := default 0 (m_view m) in
      match h2_tp_classify data avail with
      | k_h2_tp_present =>
          (set_t (set_sock st (set_h2_sk_flag (i_sock st) k_h2_sk_app_tp))
             (set_scan t target (t_h2_tp_retries t) true (t_scan_exhausted t)), inj_create)
      | k_h2_tp_adoptable =>
          let '(next_candidate_pos, r) :=
            if data 1 =? k_h2_nlb_plain
            then (target + k_h2_tp_hpack_size, validate_h2_tp_plain data avail (tpp_tp (i_tp st)))
            else (target + k_h2_tp_hpack_huffman_size,
                  validate_h2_tp_huffman data avail (tpp_tp (i_tp st))) in
          match r with
          | Some (off, tp) => adopt_h2_tp e st target off tp
          | None => retry_h2_tp st next_candidate_pos
          end
      | k_h2_tp_none => retry_h2_tp st (target + 1)
      end.

(** The trace context [create_h2_tp] ends with, and the map. *)
Definition create_h2_context (e : inj_env) (st : inj M) (existing : option tp_info_pid) : inj M :=
  let t := i_t st in
  match existing with
  | Some existing =>
      mk_inj (i_msg st) (i_sock st) t (i_parent st) existing (i_map st) (i_tick st)
  | None =>
      let parent := ie_parent e (i_tick st) in
      let '(tp_p, k) :=
        create_trace_info parent (ie_pid e) (ie_rnd e) (S (i_tick st)) (ie_sampler e) zero_tp_info_pid in
      match i_map st !! t_stream_id t with
      | None =>
          let map := if ie_room e (i_tick st) then <[t_stream_id t := tp_p]> (i_map st) else i_map st in
          mk_inj (i_msg st) (i_sock st) t parent tp_p map k
      | Some _ =>
          let tp_p := default tp_p (get_tp_info_pid (i_map st) (t_stream_id t) (ie_pid e)) in
          mk_inj (i_msg st) (i_sock st) t parent tp_p (i_map st) k
      end
  end.

(** [existing] when it is valid and has a trace id. *)
Definition existing_tp (e : inj_env) (st : inj M) : option tp_info_pid :=
  match get_tp_info_pid (i_map st) (t_stream_id (i_t st)) (ie_pid e) with
  | Some x => if nz (tpp_valid x) && valid_trace (trace_id (tpp_tp x)) then Some x else None
  | None => None
  end.

Definition create_facts (e : inj_env) (st : inj M) : h2_inject_facts :=
  let t := i_t st in
  let existing := existing_tp e st in
  mk_facts (t_opener t) true (h2_sk_flag (i_sock st) k_h2_sk_server) (t_tp_present t)
    (h2_sk_flag (i_sock st) k_h2_sk_app_tp)
    (match existing with Some x => nz (tpp_written x) | None => false end)
    (match existing with Some _ => false | None => ie_go_grpc_conn e end)
    (t_scan_exhausted t || (k_h2_max_hpack_scan <? t_h2_hpack_len t)).

Definition obi_packet_extender_create_h2_tp (e : inj_env) (st : inj M) : inj M * inj_next :=
  let t := i_t st in
  let st := mk_inj (i_msg st) (i_sock st) t (i_parent st) zero_tp_info_pid (i_map st) (i_tick st) in
  if negb (bool_decide (h2_inject_verdict (create_facts e st) = k_h2_inject_allow))
  then resume st (frame_end t)
  else
    let st := create_h2_context e st (existing_tp e st) in
    (st, if nz (Z.land (ie_inject_flags e) k_inject_http_headers) then inj_write else inj_pass).

Definition obi_packet_extender_write_h2_tp (e : inj_env) (st : inj M) : inj M * inj_next :=
  let t := i_t st in
  let payload_len := t_h2_payload_len t in
  if k_h2_default_max_frame_size <? u32 (payload_len + k_h2_tp_hpack_size) then (st, inj_pass)
  else
    let inject_offset := u32 (t_h2_hpack_offset t + t_h2_hpack_len t) in
    let expected := make_h2_tp_hpack (tpp_tp (i_tp st)) in
    let '(outcome, m) :=
      h2_write_socket_transaction (i_msg st) (t_h2_frame_offset t) payload_len inject_offset (Some expected) in
    let st := set_msg st m in
    match outcome with
    | k_h2_socket_transaction_rollback_uncertain => (st, inj_drop)
    | k_h2_socket_transaction_committed =>
        let x := i_tp st in
        let tp_p := mk_tp_info_pid (tpp_tp x) (tpp_pid x) (tpp_valid x) 1 (tpp_req_type x) (tpp_response_sent x) in
        let map := set_tp_info_pid (i_map st) (ie_room e (i_tick st)) (t_stream_id t) tp_p in
        resume (mk_inj m (i_sock st) t (i_parent st) tp_p map (S (i_tick st)))
          (u32 (frame_end t + k_h2_tp_hpack_size))
    | _ => resume st (frame_end t)
    end.

Definition obi_packet_extender_write_h2_tp_no_rollback (st : inj M) : inj M * inj_next :=
  resume st (frame_end (i_t st)).

End programs.

Lemma create_context_keeps {M} (e : inj_env) (st : inj M) x :
  i_msg (create_h2_context e st x) = i_msg st /\ i_t (create_h2_context e st x) = i_t st
  /\ i_sock (create_h2_context e st x) = i_sock st.
Proof.
  unfold create_h2_context. destruct x; [done|]. destruct (create_trace_info _ _ _ _ _ _).
  by destruct (_ !! _).
Qed.

(** ** A whole send *)

Section chain.
Context {M : Type} `{SkMsgOps M}.

(** What the detection programs see of a message: its bytes, and the results of their pulls. *)
Variable snap : M -> sk_msg.

(** [go_tp && go_tp->valid && go_tp->written] *)
Definition tp_written (e : inj_env) (map : gmap Z tp_info_pid) (stream : Z) : bool :=
  match get_tp_info_pid map stream (ie_pid e) with
  | Some x => nz (tpp_valid x) && nz (tpp_written x)
  | None => false
  end.

Definition detect_env (env : h2_env) (e : inj_env) (st : inj M) : h2_env :=
  mk_env (env_is_ssl env) (env_tracked_ssl env) (env_application_owned env) (tp_written e (i_map st)).

Definition of_next (n : h2_next) : inj_next :=
  match n with
  | next_pass => inj_pass
  | next_sniff => inj_sniff
  | next_detect => inj_detect
  | next_find_existing_h2_tp => inj_find
  end.

(** One program; [SK_PASS] and [SK_DROP] stay. *)
Definition h2_step (env : h2_env) (e : inj_env) (st : inj M) (prog : inj_next) : inj M * inj_next :=
  match prog with
  | inj_pass | inj_drop => (st, prog)
  | inj_detect =>
      let '(s, t, next) :=
        obi_packet_extender_detect_h2 (detect_env env e st) (snap (i_msg st)) (i_sock st) (i_t st) in
      (set_t (set_sock st s) t, of_next next)
  | inj_sniff =>
      let '(s, next) := obi_packet_extender_sniff_h2 (snap (i_msg st)) (i_sock st) in
      (set_sock st s, of_next next)
  | inj_find => obi_packet_extender_find_existing_h2_tp st
  | inj_validate => obi_packet_extender_validate_h2_tp e st
  | inj_create => obi_packet_extender_create_h2_tp e st
  | inj_write =>
      if ie_can_roll_back e then obi_packet_extender_write_h2_tp e st
      else obi_packet_extender_write_h2_tp_no_rollback st
  end.

(** The tail calls of one send: [None] when [fuel] programs were not enough. *)
Fixpoint h2_chain (fuel : nat) (env : h2_env) (e : inj_env) (st : inj M) (prog : inj_next)
    : option (inj M * inj_next) :=
  match prog with
  | inj_pass | inj_drop => Some (st, prog)
  | _ =>
      match fuel with
      | O => None
      | S fuel' => let '(st', next) := h2_step env e st prog in h2_chain fuel' env e st' next
      end
  end.

(** ** The chain ends within the kernel's limit *)

(** [n] programs from here on are enough. *)
Definition ends (n : nat) (env : h2_env) (e : inj_env) (st : inj M) (prog : inj_next) : Prop :=
  forall k, (n <= k)%nat -> h2_chain k env e st prog <> None.

Lemma ends_done n env e st prog : prog = inj_pass \/ prog = inj_drop -> ends n env e st prog.
Proof. intros [-> | ->] [|k] _; done. Qed.

Lemma ends_step n env e st prog :
  (let '(st', next) := h2_step env e st prog in ends n env e st' next) -> ends (S n) env e st prog.
Proof.
  intros Hs [|k] Hk; [lia|]. cbn [h2_chain]. destruct (h2_step env e st prog) as [st' next].
  destruct prog; try done; apply Hs; lia.
Qed.

Lemma ends_le n m env e st prog : (n <= m)%nat -> ends n env e st prog -> ends m env e st prog.
Proof. intros Hle He k Hk. apply He. lia. Qed.

End chain.

Section ends.
Context {M : Type} `{SkMsgOps M} (snap : M -> sk_msg) (env : h2_env) (e : inj_env).

(** The socket is off probation and [r] frames of the packet's budget are left. *)
Definition budget (st : inj M) (r : nat) : Prop :=
  h2_sock_state (i_sock st) <> k_h2_sock_probation /\ 0 <= t_h2_frames (i_t st) <= 4
  /\ 4 - t_h2_frames (i_t st) <= Z.of_nat r.

Lemma resume_budget st p r :
  budget st (S r) -> t_h2_frames (i_t st) < 4 -> budget (fst (resume st p)) r.
Proof. intros (Hs & Hf & Hr) Hlt. unfold budget. cbn. rewrite (wrap_small 8) by lia. split_and!; [done|lia..]. Qed.

Lemma ends_resume n st p r :
  (forall st, budget st r -> ends snap n env e st inj_detect) ->
  budget st (S r) -> t_h2_frames (i_t st) < 4 ->
  let '(st', next) := resume st p in ends snap n env e st' next.
Proof. intros Hd Hb Hf. unfold resume. apply Hd. by apply (resume_budget st p r). Qed.

Lemma ends_write n st r :
  (forall st, budget st r -> ends snap n env e st inj_detect) ->
  budget st (S r) -> t_h2_frames (i_t st) < 4 -> ends snap (S n) env e st inj_write.
Proof.
  intros Hd Hb Hf. apply ends_step. cbn [h2_step]. destruct (ie_can_roll_back e); [|by apply (ends_resume n st _ r)].
  unfold obi_packet_extender_write_h2_tp. destruct (_ <? _); [apply ends_done; by left|].
  destruct (h2_write_socket_transaction _ _ _ _ _) as [[] m]; try (by apply ends_done; right);
    apply (ends_resume n _ _ r); done.
Qed.

Lemma ends_create n st r :
  (forall st, budget st r -> ends snap n env e st inj_detect) ->
  budget st (S r) -> t_h2_frames (i_t st) < 4 -> ends snap (S (S n)) env e st inj_create.
Proof.
  intros Hd Hb Hf. apply ends_step. cbn [h2_step]. unfold obi_packet_extender_create_h2_tp. cbv zeta.
  destruct (negb _).
  - apply (ends_resume (S n) _ _ r); [|done..]. intros st1 H1. eapply ends_le; [|by apply Hd]. lia.
  - destruct (nz _); [|apply ends_done; by left]. apply (ends_write n _ r); [done|..];
      unfold create_h2_context; destruct (existing_tp e _); try done;
      destruct (create_trace_info _ _ _ _ _ _); destruct (_ !! _); done.
Qed.

(** [validate_h2_tp] goes to [create], resumes, or looks again when the retry is not spent. *)
Lemma ends_validate n st r :
  (forall st, budget st r -> ends snap n env e st inj_detect) ->
  budget st (S r) -> t_h2_frames (i_t st) < 4 -> 0 <= t_h2_tp_retries (i_t st) ->
  (t_h2_tp_retries (i_t st) = 0 ->
   forall st', budget st' (S r) -> t_h2_frames (i_t st') < 4 -> t_h2_tp_retries (i_t st') = 1 ->
   ends snap (S (S n) + 2) env e st' inj_find) ->
  ends snap (if t_h2_tp_retries (i_t st) =? 0 then S (S n) + 3 else S (S n) + 1) env e st inj_validate.
Proof.
  intros Hd Hb Hf Hr Hagain.
  assert (Hc : forall st', budget st' (S r) -> t_h2_frames (i_t st') < 4 ->
    forall x, (S (S n) <= x)%nat -> ends snap x env e st' inj_create)
    by (intros st' H1 H2 x Hx; eapply ends_le; [exact Hx|by apply (ends_create n st' r)]).
  set (x := if t_h2_tp_retries (i_t st) =? 0 then (S (S n) + 2)%nat else S (S n)).
  assert (Hx : (S (S n) <= x)%nat) by (unfold x; destruct (_ =? _); lia).
  replace (if t_h2_tp_retries (i_t st) =? 0 then _ else _) with (S x) by (unfold x; destruct (_ =? _); lia).
  apply ends_step. cbn [h2_step]. unfold obi_packet_extender_validate_h2_tp. cbv zeta.
  destruct (_ <=? t_h2_tp_candidate_pos _); [by apply Hc|]. destruct (_ <=? _); [by apply Hc|].
  destruct (pull_hpack_window _ _ _) as [ok m]. destruct (_ || _); [by apply Hc|].
  assert (Hretry : forall p, let '(st', next) := retry_h2_tp (set_msg st m) p in ends snap x env e st' next).
  { intros p. unfold retry_h2_tp. cbn [i_t set_msg]. destruct (_ <=? p); [by apply Hc|].
    destruct (Z.leb_spec k_h2_max_tp_retries (t_h2_tp_retries (i_t st) + 1)); [by apply Hc|].
    assert (Hz : t_h2_tp_retries (i_t st) = 0) by (kunfold; lia).
    unfold x. rewrite Hz. cbn [Z.eqb]. apply Hagain; [done|done|done|]. done. }
  destruct (h2_tp_classify _ _); [apply Hretry| |].
  - apply Hc; [|done|done]. destruct Hb as (H1 & H2 & H3). unfold budget. cbn. by rewrite state_set_flag.
  - assert (Ha : forall p r', let '(st', next) :=
        match r' with Some (off, tp) => adopt_h2_tp e (set_msg st m) (t_h2_tp_candidate_pos (i_t st)) off tp
        | None => retry_h2_tp (set_msg st m) p end in ends snap x env e st' next).
    { intros p [[off tp]|]; [|apply Hretry]. unfold adopt_h2_tp. destruct (urand_bytes _ _ _).
      destruct (apply_parent_tp _ _ _) as [? []]; [destruct (m_pull _ _ _)|];
        (apply (ends_resume x _ _ r); [|done..]; intros st1 H1; eapply ends_le; [|by apply Hd]; lia). }
    destruct (_ =? k_h2_nlb_plain); apply Ha.
Qed.

(** [find_existing_h2_tp] always goes to [validate_h2_tp], and changes only the candidate. *)
Lemma find_next (st : inj M) :
  exists m c, obi_packet_extender_find_existing_h2_tp st
    = (set_t (set_msg st m) (set_candidate (i_t st) c), inj_validate).
Proof.
  unfold obi_packet_extender_find_existing_h2_tp. cbv zeta.
  destruct (_ || _); [by exists (i_msg st); eexists|].
  destruct (find_first_h2_tp_candidate _ _ _) as [c m]. destruct (_ && _); eauto.
Qed.

Lemma ends_find n st r :
  (forall st, budget st r -> ends snap n env e st inj_detect) ->
  budget st (S r) -> t_h2_frames (i_t st) < 4 -> t_h2_tp_retries (i_t st) = 0 ->
  ends snap (n + 6) env e st inj_find.
Proof.
  intros Hd Hb Hf Hr. assert (Hgo : forall st, budget st (S r) -> t_h2_frames (i_t st) < 4 ->
    t_h2_tp_retries (i_t st) = 1 -> ends snap (S (S n) + 2) env e st inj_find).
  { intros st1 H1 H2 H3. replace (S (S n) + 2)%nat with (S (S (S n) + 1)) by lia. apply ends_step. cbn [h2_step].
    destruct (find_next st1) as (m & c & ->).
    pose proof (ends_validate n (set_t (set_msg st1 m) (set_candidate (i_t st1) c)) r Hd H1 H2) as Hv.
    cbn in Hv. rewrite H3 in Hv. cbn [Z.eqb] in Hv. by apply Hv. }
  replace (n + 6)%nat with (S (S (S n) + 3)) by lia. apply ends_step. cbn [h2_step].
  destruct (find_next st) as (m & c & ->).
  pose proof (ends_validate n (set_t (set_msg st m) (set_candidate (i_t st) c)) r Hd Hb Hf) as Hv.
  cbn in Hv. rewrite Hr in Hv. cbn [Z.eqb] in Hv. apply Hv; [done|]. intros _. exact Hgo.
Qed.

End ends.

(** A frame about to be scanned. *)
Definition fresh_scan (t : tailcall_ctx) : Prop :=
  t_h2_tp_candidate_pos t = 0 /\ t_h2_tp_retries t = 0 /\ t_tp_present t = false
  /\ t_scan_exhausted t = false.

Lemma detect_scan_fresh n env msg sz pos s t s' t' :
  detect_scan n env msg sz pos s t = (s', t', next_find_existing_h2_tp) ->
  fresh_scan t' /\ t_h2_frames t' = t_h2_frames t.
Proof.
  revert pos s t. induction n as [|n IH]; intros pos s t Hd; cbn [detect_scan] in Hd; [by destruct (_ <? _)|].
  destruct (parse_h2_frame_at _ _ _ _) as [f|]; [|done].
  destruct (h2_sniff_check_frame _ _ _ _ _ _) as [st|]; [|done]. cbv zeta in Hd.
  destruct (fi_is_headers_end f); [|by apply IH in Hd].
  destruct (negb _); [done|]. destruct (env_application_owned env _); [done|].
  destruct (env_tp_written env _); [done|]. by injection Hd as <- <-.
Qed.

Lemma detect_fresh env msg s t s' t' :
  obi_packet_extender_detect_h2 env msg s t = (s', t', next_find_existing_h2_tp) ->
  fresh_scan t' /\ t_h2_frames t' = t_h2_frames t.
Proof.
  unfold obi_packet_extender_detect_h2. destruct (_ <=? t_h2_frames t); [done|].
  destruct (_ =? k_h2_sock_rejected); [done|]. destruct (_ && env_is_ssl env); [done|].
  destruct (_ =? k_h2_sock_probation); [done|]. cbv zeta.
  destruct (_ && negb _); [done|]. destruct (_ || _); [done|].
  assert (Hc : forall pos st s0, detect_confirmed env msg (msg_size msg) pos st s0 t
    = (s', t', next_find_existing_h2_tp) -> fresh_scan t' /\ t_h2_frames t' = t_h2_frames t).
  { intros pos st s0. unfold detect_confirmed. destruct (negb _); [done|]. destruct (h2_sk_flag _ _); [done|].
    apply detect_scan_fresh. }
  destruct (_ =? k_h2_sock_preface); [|apply Hc]. destruct (parse_h2_frame_at _ _ _ _); [|done].
  destruct (negb _); [done|]. destruct (_ || _); [done|]. apply Hc.
Qed.

Lemma ends_detect {M} `{SkMsgOps M} (snap : M -> sk_msg) env e r st :
  budget st r -> ends snap (7 * r + 1) env e st inj_detect.
Proof.
  revert st. induction r as [|r IH]; intros st (Hs & Hf & Hr).
  - apply ends_step. cbn [h2_step]. unfold obi_packet_extender_detect_h2.
    rewrite (proj2 (Z.leb_le _ _)) by (kunfold; lia). apply ends_done. by left.
  - replace (7 * S r + 1)%nat with (S (7 * r + 1 + 6)) by lia. apply ends_step. cbn [h2_step].
    destruct (obi_packet_extender_detect_h2 _ _ _ _) as [[s1 t1] n1] eqn:E.
    pose proof (detect_keeps_off_probation _ _ _ _ _ _ _ E Hs) as Hs1.
    destruct (detect_next _ _ _ _ _ _ _ E ltac:(lia)) as [-> |[-> |[(_ & _ & _ & ?)|(-> & Hlt & Hf1 & _)]]].
    + apply ends_done. by left.
    + destruct (detect_fresh _ _ _ _ _ _ E) as [(_ & Hz & _) Hfr].
      destruct (detect_injects _ _ _ _ _ _ E) as (_ & _ & Hlt & _).
      apply (ends_find snap env e (7 * r + 1) _ r); [by apply IH| |cbn; kunfold; lia|done].
      unfold budget. cbn. split_and!; [done|lia..].
    + done.
    + cbn [of_next]. eapply ends_le; [|apply IH]; [lia|]. unfold budget. cbn. split_and!; [done|lia..].
Qed.

(** ** What the scan proves about the block *)

(** Ranges inside the message can be pulled, and [data], [data_end] then delimit the range. *)
Class SkMsgReads (M : Type) `{SkMsgOps M} := {
  pull_reads m a b :
    0 <= a < b -> b <= m_size m ->
    fst (m_pull m a b) = true /\ m_view (snd (m_pull m a b)) = Some (b - a)
}.

(** The class of the field that would start at octet [i] of the block [l]. *)
Definition block_avail (l : list Z) (i : Z) : Z :=
  Z.min (zlen l - i) (k_h2_max_hpack_scan + k_h2_tp_hpack_size).

Definition candidate_at (l : list Z) (i : Z) : bool :=
  (i + k_h2_tp_need_name_huffman <=? zlen l)
  && h2_tp_is_candidate (list_buf l i) (list_buf l (i + 1)) (list_buf l (i + 2)).

Definition kind_at (l : list Z) (i : Z) : h2_tp_kind :=
  if candidate_at l i then h2_tp_classify (shift (list_buf l) i) (block_avail l i) else k_h2_tp_none.

(** Octets of a field with a 55-octet value, by the form of its name. *)
Definition field_size_at (l : list Z) (i : Z) : Z :=
  if list_buf l (i + 1) =? k_h2_nlb_plain then k_h2_tp_hpack_size else k_h2_tp_hpack_huffman_size.

(** The context read from the field at [i]. *)
Definition context_at (l : list Z) (i : Z) : option tp_info :=
  decode_tp_value (shift (list_buf l) (i + (field_size_at l i - k_hpack_value_len_tp))) zero_tp.

Definition malformed_at (l : list Z) (i : Z) : Prop :=
  kind_at l i = k_h2_tp_adoptable /\ context_at l i = None.

(** Every traceparent field that starts before [c] lies in a malformed one. *)
Definition passed (l : list Z) (c : Z) : Prop :=
  forall i, 0 <= i < c -> kind_at l i <> k_h2_tp_none ->
  exists j, 0 <= j /\ malformed_at l j /\ j <= i < j + field_size_at l j.

(** [l] is the header block of the frame [t] describes, inside the message. *)
Definition block_in (bytes : list Z) (t : tailcall_ctx) (l : list Z) : Prop :=
  exists a b, bytes = a ++ l ++ b /\ zlen a = t_h2_hpack_offset t /\ zlen l = t_h2_hpack_len t
  /\ zlen bytes < 2 ^ 32.

Lemma candidate_loop_spec n data avail len i :
  0 <= i -> i + Z.of_nat n <= k_h2_max_hpack_scan -> len <= avail ->
  let r := candidate_loop n data avail len i in
  (r = k_h2_max_hpack_scan
   /\ forall k, i <= k < i + Z.of_nat n -> k + 10 <= len -> h2_tp_is_candidate (data k) (data (k + 1)) (data (k + 2)) = false)
  \/ (i <= r < i + Z.of_nat n /\ r + 10 <= len /\ h2_tp_is_candidate (data r) (data (r + 1)) (data (r + 2)) = true
     /\ forall k, i <= k < r -> h2_tp_is_candidate (data k) (data (k + 1)) (data (k + 2)) = false).
Proof.
  revert i. induction n as [|n IH]; intros i Hi Hn Ha; cbn [candidate_loop].
  - left. split; [done|]. intros. lia.
  - change k_h2_tp_need_name_huffman with 10.
    destruct (Z.ltb_spec len (i + 10)); [left; split; [done|intros; lia]|].
    rewrite (proj2 (Z.ltb_ge avail _)) by lia.
    destruct (h2_tp_is_candidate _ _ _) eqn:E; [right; split_and!; [lia..|done|intros; lia]|].
    destruct (IH (i + 1) ltac:(lia) ltac:(lia) Ha) as [[-> Hk]|(Hr & Hl & Hc & Hk)]; [left|right].
    + split; [done|]. intros k Hk1 Hk2. destruct (Z.eq_dec k i) as [-> |]; [done|]. apply Hk; lia.
    + split_and!; [lia..|done|]. intros k Hk1. destruct (Z.eq_dec k i) as [-> |]; [done|]. apply Hk; lia.
Qed.

Section scan.
Context {M : Type} `{SkMsgLaws M} `{!SkMsgReads M} (e : inj_env).

(** A window of the block is read as the block's octets. *)
Lemma window_reads (m : M) t l c n :
  block_in (m_bytes m) t l -> 0 <= c -> 10 <= n -> c + n <= zlen l ->
  let '(ok, m') := pull_hpack_window m (u32 (t_h2_hpack_offset t + c)) n in
  ok = true /\ m_bytes m' = m_bytes m
  /\ m_view m' = Some (Z.min n (k_h2_max_hpack_scan + k_h2_tp_hpack_size))
  /\ agree n (m_data m' (u32 (t_h2_hpack_offset t + c))) (shift (list_buf l) c).
Proof.
  intros (a & b & Hm & Ha & Hl & Hs) Hc Hn Hcn. unfold pull_hpack_window.
  rewrite (proj2 (Z.ltb_ge n _)) by (kunfold; lia). set (pl := if n <? _ then _ else _).
  assert (Hpl : pl = Z.min n (k_h2_max_hpack_scan + k_h2_tp_hpack_size))
    by (unfold pl; destruct (Z.ltb_spec n (k_h2_max_hpack_scan + k_h2_tp_hpack_size)); lia).
  assert (Hb : 10 <= pl <= n) by (rewrite Hpl; kunfold; lia).
  pose proof (zlen_nonneg a). pose proof (zlen_nonneg b).
  assert (Hsz : m_size m = zlen a + zlen l + zlen b) by (unfold m_size; rewrite Hm, !zlen_app; lia).
  assert (zlen (m_bytes m) = m_size m) by done.
  rewrite !(wrap_small 32) by lia.
  destruct (pull_reads m (t_h2_hpack_offset t + c) (t_h2_hpack_offset t + c + pl)) as [Hok Hv]; [lia..|].
  pose proof (pull_bytes m (t_h2_hpack_offset t + c) (t_h2_hpack_offset t + c + pl)) as Hby.
  destruct (m_pull _ _ _) as [ok m']. cbn in *. split_and!; [done|done|rewrite Hv; f_equal; lia|].
  intros i Hi. unfold m_data, shift. rewrite Hby, Hm, <- Ha.
  replace (zlen a + c + i) with (zlen a + (c + i)) by lia.
  rewrite list_buf_app_r by lia. apply list_buf_app_l. lia.
Qed.

(** [find_existing_h2_tp] stops at the first candidate. *)
Lemma find_spec (st : inj M) l :
  block_in (m_bytes (i_msg st)) (i_t st) l -> 0 <= t_h2_tp_candidate_pos (i_t st) ->
  exists m c, obi_packet_extender_find_existing_h2_tp st
    = (set_t (set_msg st m) (set_candidate (i_t st) c), inj_validate)
  /\ m_bytes m = m_bytes (i_msg st)
  /\ (c = k_h2_max_hpack_scan
      /\ (forall k, t_h2_tp_candidate_pos (i_t st) <= k < k_h2_max_hpack_scan -> candidate_at l k = false)
      \/ t_h2_tp_candidate_pos (i_t st) <= c < k_h2_max_hpack_scan /\ candidate_at l c = true
         /\ forall k, t_h2_tp_candidate_pos (i_t st) <= k < c -> candidate_at l k = false).
Proof.
  intros Hb Hc. unfold obi_packet_extender_find_existing_h2_tp. cbv zeta.
  set (c0 := t_h2_tp_candidate_pos (i_t st)) in *. pose proof Hb as (_ & _ & _ & _ & Hl & _).
  assert (Hshort : forall k, zlen l < k + 10 -> candidate_at l k = false).
  { intros k Hk. unfold candidate_at. by rewrite (proj2 (Z.leb_gt _ _)) by (kunfold; lia). }
  destruct (_ || _) eqn:E.
  - exists (i_msg st), k_h2_max_hpack_scan. split_and!; [by destruct st|done|]. left. split; [done|].
    intros k Hk. apply Hshort. lia.
  - set (n := Z.min _ _). unfold find_first_h2_tp_candidate.
    destruct (Z.lt_ge_cases n 10) as [Hn|Hn].
    { unfold pull_hpack_window. rewrite (proj2 (Z.ltb_lt n _)) by (kunfold; lia). cbn [negb].
      exists (i_msg st), k_h2_max_hpack_scan. split_and!; [done|done|]. left. split; [done|].
      intros k Hk. apply Hshort. unfold n in Hn. kunfold. lia. }
    pose proof (window_reads (i_msg st) (i_t st) l c0 n Hb Hc Hn ltac:(unfold n; lia)) as Hw.
    destruct (pull_hpack_window _ _ _) as [ok m]. destruct Hw as (-> & Hby & -> & Hag). cbn [negb].
    assert (Hn' : Z.min n (k_h2_max_hpack_scan + k_h2_tp_hpack_size) = n) by (unfold n; kunfold; lia).
    rewrite Hn'. set (data := m_data m _) in *.
    assert (Hcand : forall k, 0 <= k -> k + 10 <= n ->
      candidate_at l (c0 + k) = h2_tp_is_candidate (data k) (data (k + 1)) (data (k + 2))).
    { intros k Hk1 Hk2. unfold candidate_at. rewrite (proj2 (Z.leb_le _ _)) by (unfold n in Hk2; kunfold; lia).
      rewrite !Hag by lia. unfold shift. cbn [andb]. by rewrite !Z.add_assoc. }
    destruct (candidate_loop_spec (Z.to_nat k_h2_max_hpack_scan) data n n 0 ltac:(lia) ltac:(by kunfold) ltac:(lia))
      as [[-> Hk]|(Hr & Hl10 & Hcd & Hk)].
    + cbn [andb]. exists m, k_h2_max_hpack_scan. split_and!; [done|done|]. left. split; [done|].
      intros k Hk1. replace k with (c0 + (k - c0)) by lia.
      destruct (Z.le_gt_cases (k - c0 + 10) n); [rewrite Hcand by lia; apply Hk; kunfold; lia|].
      apply Hshort. unfold n in *. kunfold. lia.
    + set (r := candidate_loop _ _ _ _ _) in *. rewrite (proj2 (Z.ltb_lt r _)) by (kunfold; lia). cbn [andb].
      destruct (Z.ltb_spec (c0 + r) k_h2_max_hpack_scan).
      * exists m, (c0 + r). split_and!; [done|done|]. right. split_and!; [lia|done|by rewrite Hcand by lia|].
        intros k Hk1. replace k with (c0 + (k - c0)) by lia. rewrite Hcand by lia. apply Hk. lia.
      * exists m, k_h2_max_hpack_scan. split_and!; [done|done|]. left. split; [done|].
        intros k Hk1. replace k with (c0 + (k - c0)) by lia. rewrite Hcand by lia. apply Hk. lia.
Qed.

Lemma decode_value_ext p q tp : agree 55 p q -> decode_tp_value p tp = decode_tp_value q tp.
Proof.
  intros Ha. unfold decode_tp_value. rewrite !Ha by (kunfold; lia).
  assert (Hd : forall off n, 0 <= off -> off + n <= 55 -> decode_hex (shift p off) n = decode_hex (shift q off) n)
    by (intros off n Ho Hn; apply decode_hex_ext; intros i Hi; apply Ha; lia).
  by rewrite !Hd by (kunfold; lia).
Qed.

Lemma decode_value_scratch p tp :
  decode_tp_value p tp
  = option_map (fun x => mk_tp_info (trace_id x) (span_id x) (parent_id tp) (ts tp) (flags x)) (decode_tp_value p zero_tp).
Proof. unfold decode_tp_value. by destruct (_ || _). Qed.

(** The scratch fields an adopted context does not come from are overwritten. *)
Lemma adopt_scratch (st : inj M) target off x pid t0 :
  adopt_h2_tp e st target off (mk_tp_info (trace_id x) (span_id x) pid t0 (flags x))
  = adopt_h2_tp e st target off x.
Proof.
  unfold adopt_h2_tp, apply_parent_tp. destruct (urand_bytes _ _ _). destruct (ie_parent _ _) as [pt|]; [|done].
  cbn. destruct (bool_decide (trace_id x = _)); [|done]. cbn. by destruct (bool_decide (span_id x = _)).
Qed.

Lemma classify_adoptable p avail :
  h2_tp_classify p avail = k_h2_tp_adoptable ->
  if p 1 =? k_h2_nlb_plain then k_h2_tp_hpack_size <= avail /\ h2_tp_match_plain p = true
  else k_h2_tp_hpack_huffman_size <= avail /\ h2_tp_match_huffman p = true.
Proof.
  unfold h2_tp_classify. destruct (avail <? _); [done|]. destruct (p 0 =? _); [by destruct (_ && _)|].
  destruct (Z.eqb_spec (p 1) k_h2_nlb_huffman) as [-> |].
  - change (k_h2_nlb_huffman =? k_h2_nlb_plain) with false. cbv iota.
    destruct (_ && _) eqn:E; [|by destruct (h2_tp_match_name_huffman p)]. intros _. lia.
  - destruct (p 1 =? k_h2_nlb_plain); [|done]. cbn [andb]. destruct (_ <=? avail); [|done].
    destruct (_ && _) eqn:E; [|by destruct (h2_tp_match_name_plain p)]. intros _. lia.
Qed.

(** At an adoptable field only the layout of the value is left to check. *)
Lemma validate_plain_match p avail tp :
  k_h2_tp_hpack_size <= avail -> h2_tp_match_plain p = true ->
  validate_h2_tp_plain p avail tp
  = option_map (pair (k_hpack_tp_val_offset + k_tp_val_span_id_start)) (decode_tp_value (shift p k_hpack_tp_val_offset) tp).
Proof.
  intros Ha [Hn Hv]%andb_true_iff. unfold validate_h2_tp_plain. rewrite (proj2 (Z.ltb_ge _ _)) by lia.
  unfold h2_tp_match_name_plain in Hn. rewrite Hn, Hv. by destruct (decode_tp_value _ _).
Qed.

Lemma validate_huffman_match p avail tp :
  k_h2_tp_hpack_huffman_size <= avail -> h2_tp_match_huffman p = true ->
  validate_h2_tp_huffman p avail tp
  = option_map (pair (k_hpack_tp_val_offset_huffman + k_tp_val_span_id_start))
      (decode_tp_value (shift p k_hpack_tp_val_offset_huffman) tp).
Proof.
  intros Ha [Hn Hv]%andb_true_iff. unfold validate_h2_tp_huffman. rewrite (proj2 (Z.ltb_ge _ _)) by lia.
  unfold h2_tp_match_name_huffman in Hn. rewrite Hn, Hv. by destruct (decode_tp_value _ _).
Qed.

(** The offset of the span id in the field at [i]. *)
Definition span_off_at (l : list Z) (i : Z) : Z :=
  field_size_at l i - k_hpack_value_len_tp + k_tp_val_span_id_start.

(** [validate_h2_tp] at a candidate, by the class of the field. *)
Lemma validate_spec (st : inj M) l :
  let c := t_h2_tp_candidate_pos (i_t st) in
  block_in (m_bytes (i_msg st)) (i_t st) l -> 0 <= c < k_h2_max_hpack_scan -> candidate_at l c = true ->
  exists m, m_bytes m = m_bytes (i_msg st) /\
    obi_packet_extender_validate_h2_tp e st =
    match kind_at l c with
    | k_h2_tp_none => retry_h2_tp (set_msg st m) (c + 1)
    | k_h2_tp_present =>
        (set_t (set_sock (set_msg st m) (set_h2_sk_flag (i_sock st) k_h2_sk_app_tp))
           (set_scan (i_t st) c (t_h2_tp_retries (i_t st)) true (t_scan_exhausted (i_t st))), inj_create)
    | k_h2_tp_adoptable =>
        match context_at l c with
        | Some tp => adopt_h2_tp e (set_msg st m) c (span_off_at l c) tp
        | None => retry_h2_tp (set_msg st m) (c + field_size_at l c)
        end
    end.
Proof.
  intros c Hb Hc Hcand. unfold obi_packet_extender_validate_h2_tp. cbv zeta. fold c.
  assert (Hl : c + 10 <= zlen l) by (unfold candidate_at in Hcand; kunfold; lia).
  pose proof Hb as (_ & _ & _ & _ & Hlen & _). rewrite <- Hlen.
  rewrite (proj2 (Z.leb_gt _ c)), (proj2 (Z.leb_gt _ c)) by lia.
  pose proof (window_reads (i_msg st) (i_t st) l c (zlen l - c) Hb ltac:(lia) ltac:(lia) ltac:(lia)) as Hw.
  destruct (pull_hpack_window _ _ _) as [ok m]. destruct Hw as (-> & Hby & Hv & Hag).
  exists m. split; [done|]. unfold view_ok. rewrite Hv. cbn [default negb orb].
  fold (block_avail l c). assert (Hav : 10 <= block_avail l c <= zlen l - c) by (unfold block_avail; kunfold; lia).
  unfold id. rewrite (proj2 (Z.leb_le _ (block_avail l c))) by (kunfold; lia). cbn [negb].
  set (data := m_data m _) in *. unfold kind_at. rewrite Hcand.
  rewrite <- (classify_ext data (shift (list_buf l) c)) by (eapply agree_le; [exact Hag|lia]).
  destruct (h2_tp_classify data _) eqn:Hk; [done|done|].
  apply classify_adoptable in Hk. unfold context_at, span_off_at, field_size_at.
  replace (list_buf l (c + 1)) with (data 1) by (rewrite Hag by lia; done).
  assert (Hval : forall off, 0 <= off -> off + 55 <= zlen l - c ->
    decode_tp_value (shift data off) (tpp_tp (i_tp (set_msg st m)))
    = option_map (fun x => mk_tp_info (trace_id x) (span_id x) (parent_id (tpp_tp (i_tp st))) (ts (tpp_tp (i_tp st))) (flags x))
        (decode_tp_value (shift (list_buf l) (c + off)) zero_tp)).
  { intros off Ho Hn. rewrite decode_value_scratch. f_equal. apply decode_value_ext. intros i Hi. unfold shift.
    rewrite Hag by lia. unfold shift. f_equal. lia. }
  destruct (data 1 =? k_h2_nlb_plain); destruct Hk as [Hsz Hm].
  - rewrite validate_plain_match, Hval by (done || kunfold; lia).
    change (k_h2_tp_hpack_size - k_hpack_value_len_tp) with k_hpack_tp_val_offset.
    destruct (decode_tp_value _ zero_tp); [apply adopt_scratch|done].
  - rewrite validate_huffman_match, Hval by (done || kunfold; lia).
    change (k_h2_tp_hpack_huffman_size - k_hpack_value_len_tp) with k_hpack_tp_val_offset_huffman.
    destruct (decode_tp_value _ zero_tp); [apply adopt_scratch|done].
Qed.

(** The programs between [detect_h2] and the write, as steps. *)
Inductive scan_step : inj M * inj_next -> inj M * inj_next -> Prop :=
  | scan_find st : scan_step (st, inj_find) (obi_packet_extender_find_existing_h2_tp st)
  | scan_validate st : scan_step (st, inj_validate) (obi_packet_extender_validate_h2_tp e st)
  | scan_create st : scan_step (st, inj_create) (obi_packet_extender_create_h2_tp e st).

(** Nothing the scan left behind is a traceparent it could have read. *)
Definition absent (l : list Z) : Prop :=
  zlen l <= k_h2_max_hpack_scan /\ passed l (zlen l).

(** The flags the injection was decided on. *)
Definition no_propagation (s : h2_sock) : Prop :=
  h2_sk_flag s k_h2_sk_server = false /\ h2_sk_flag s k_h2_sk_app_tp = false.

Definition scan_inv (bytes l : list Z) (x : inj M * inj_next) : Prop :=
  let '(st, prog) := x in
  let t := i_t st in
  match prog with
  | inj_find => m_bytes (i_msg st) = bytes /\ block_in bytes t l /\ 0 <= t_h2_tp_candidate_pos t
                /\ passed l (t_h2_tp_candidate_pos t)
  | inj_validate =>
      m_bytes (i_msg st) = bytes /\ block_in bytes t l /\ passed l (t_h2_tp_candidate_pos t)
      /\ (t_h2_tp_candidate_pos t = k_h2_max_hpack_scan
          \/ 0 <= t_h2_tp_candidate_pos t < k_h2_max_hpack_scan
             /\ candidate_at l (t_h2_tp_candidate_pos t) = true)
  | inj_create =>
      m_bytes (i_msg st) = bytes /\ block_in bytes t l
      /\ (t_tp_present t = true \/ t_scan_exhausted t = true \/ passed l k_h2_max_hpack_scan)
  | inj_write => m_bytes (i_msg st) = bytes /\ block_in bytes t l /\ absent l /\ no_propagation (i_sock st)
  | _ => True
  end.

Lemma kind_candidate l i : candidate_at l i = false -> kind_at l i = k_h2_tp_none.
Proof. intros E. unfold kind_at. by rewrite E. Qed.

Lemma passed_extend l c c' :
  passed l c -> (forall k, c <= k < c' -> candidate_at l k = false) -> passed l c'.
Proof.
  intros Hp Hn i Hi Hk. destruct (Z.lt_ge_cases i c); [apply Hp; [lia|done]|].
  exfalso. apply Hk, kind_candidate, Hn. lia.
Qed.

Lemma passed_malformed l c :
  0 <= c -> passed l c -> malformed_at l c -> passed l (c + field_size_at l c).
Proof.
  intros Hc Hp Hm i Hi Hk. destruct (Z.lt_ge_cases i c); [apply Hp; [lia|done]|].
  exists c. split_and!; [done|done|lia..].
Qed.

Lemma passed_le l c c' : c' <= c -> passed l c -> passed l c'.
Proof. intros Hle Hp i Hi. apply Hp. lia. Qed.

Lemma retry_inv st bytes l c :
  m_bytes (i_msg st) = bytes -> block_in bytes (i_t st) l -> 0 <= c -> passed l c ->
  scan_inv bytes l (retry_h2_tp st c).
Proof.
  intros Hm Hb Hc Hp. unfold retry_h2_tp. destruct (Z.leb_spec k_h2_max_hpack_scan c).
  - split_and!; [done|done|]. right. right. by eapply passed_le.
  - destruct (_ <=? _); [split_and!; [done|done|]; right; by left|done].
Qed.

Lemma scan_step_inv bytes l x y : scan_step x y -> scan_inv bytes l x -> scan_inv bytes l y.
Proof.
  intros [st|st|st] Hi; cbn [scan_inv] in Hi.
  - destruct Hi as (Hm & Hb & Hc & Hp). rewrite <- Hm in Hb.
    destruct (find_spec st l Hb Hc) as (m & c & -> & Hm' & Hf). cbn. rewrite Hm', Hm. rewrite Hm in Hb.
    destruct Hf as [[-> Hn]|(Hr & Hcand & Hn)]; (split_and!; [done|done|by eapply passed_extend|]); [by left|].
    right. split; [lia|done].
  - destruct Hi as (Hm & Hb & Hp & [Hc|[Hc Hcand]]).
    + unfold obi_packet_extender_validate_h2_tp. rewrite Hc. cbn. split_and!; [done|done|].
      right. right. by rewrite Hc in Hp.
    + rewrite <- Hm in Hb. destruct (validate_spec st l Hb Hc Hcand) as (m & Hm' & ->).
      rewrite Hm in Hm', Hb. set (c := t_h2_tp_candidate_pos (i_t st)) in *.
      destruct (kind_at l c) eqn:Hk.
      * apply retry_inv; [done|done|lia|]. intros i Hi Hne.
        destruct (Z.eq_dec i c) as [-> |]; [done|]. apply Hp; [lia|done].
      * cbn. split_and!; [done|done|by left].
      * destruct (context_at l c) eqn:Hctx.
        { unfold adopt_h2_tp. destruct (urand_bytes _ _ _). by destruct (apply_parent_tp _ _ _). }
        assert (Hmal : malformed_at l c) by done.
        apply retry_inv; [done|done| |by apply passed_malformed; [lia|..]].
        unfold field_size_at. destruct (_ =? _); kunfold; lia.
  - destruct Hi as (Hm & Hb & Hor). unfold obi_packet_extender_create_h2_tp. cbv zeta.
    destruct (bool_decide _) eqn:Hv; cbn [negb]; [|done]. apply bool_decide_eq_true in Hv.
    apply verdict_allow in Hv as (_ & _ & Hsrv & Hpres & Happ & _ & _ & Hinc). cbn in Hsrv, Hpres, Happ, Hinc.
    destruct (nz _); [|done].
    cbn [scan_inv]. set (st0 := mk_inj _ _ _ _ _ _ _).
    destruct (create_context_keeps e st0 (existing_tp e st0)) as (-> & -> & ->). cbn. pose proof Hb as (_ & _ & _ & _ & Hl & _).
    apply orb_false_iff in Hinc as [Hex Hlen]. apply Z.ltb_ge in Hlen.
    split_and!; [done|done| |done]. split; [lia|].
    destruct Hor as [Hor|[Hor|Hor]]; [congruence|congruence|]. eapply passed_le; [|done]. lia.
Qed.

Lemma scan_inv_run bytes l x y : rtc scan_step x y -> scan_inv bytes l x -> scan_inv bytes l y.
Proof. induction 1 as [|x y z Hs _ IH]; [done|]. intros Hi. by apply IH, (scan_step_inv _ _ _ _ Hs). Qed.

End scan.

(** ** Properties *)

(** C8: a send stays within the kernel's tail-call budget.  Whatever the message, the helpers, the
    maps and the oracles do, the programs of one send, entered at [detect_h2] or [sniff_h2] with
    the packet's counters reset, end in [SK_PASS] or [SK_DROP] after at most 31 programs: four
    frames of seven programs each, the hop through probation, and the last [detect_h2].  So no
    tail call is ever refused and no program stops half-way. *)
Theorem h2_send_within_tail_call_limit {M} `{SkMsgOps M} (snap : M -> sk_msg) env e st prog :
  prog = inj_detect \/ prog = inj_sniff -> t_h2_frames (i_t st) = 0 ->
  (31 <= MAX_TAIL_CALL_CNT)%nat
  /\ exists st' next, h2_chain snap 31 env e st prog = Some (st', next) /\ (next = inj_pass \/ next = inj_drop).
Proof.
  intros Hp Hf. split; [unfold MAX_TAIL_CALL_CNT; lia|].
  assert (Hsniff : forall st, t_h2_frames (i_t st) = 0 -> ends snap 30 env e st inj_sniff).
  { intros st0 Hf0. apply (ends_step snap 29). cbn [h2_step].
    destruct (obi_packet_extender_sniff_h2 _ _) as [s1 n1] eqn:E.
    destruct (sniff_next _ _ _ _ E) as [-> |[-> Hc]]; [apply ends_done; by left|].
    apply (ends_detect snap env e 4). unfold budget. cbn. rewrite Hc, Hf0. by split_and!. }
  assert (He : ends snap 31 env e st prog).
  { destruct Hp as [-> | ->]; [|eapply ends_le; [|by apply Hsniff]; lia].
    destruct (Z.eq_dec (h2_sock_state (i_sock st)) k_h2_sock_probation) as [Hs|Hs].
    - apply (ends_step snap 30). cbn [h2_step].
      destruct (obi_packet_extender_detect_h2 _ _ _ _) as [[s1 t1] n1] eqn:E.
      destruct (detect_next _ _ _ _ _ _ _ E ltac:(lia)) as [-> |[-> |[(-> & -> & -> & _)|(_ & _ & _ & ?)]]];
        [apply ends_done; by left| |by apply Hsniff|done].
      unfold obi_packet_extender_detect_h2 in E. rewrite Hf, Hs in E. cbn in E. by destruct (_ && _).
    - eapply ends_le; [|apply (ends_detect snap env e 4)]; [lia|]. unfold budget. rewrite Hf. by split_and!. }
  specialize (He 31%nat ltac:(lia)). destruct (h2_chain _ _ _ _ _ _) as [[st' next]|] eqn:E; [|done].
  exists st', next. split; [done|]. clear -E. revert st prog E. generalize 31%nat as fuel.
  induction fuel as [|fuel IH]; intros st prog E; destruct prog; cbn [h2_chain] in E; simplify_eq; auto;
    destruct (h2_step _ _ _ _ _); by eapply IH.
Qed.

Definition example_inj_env : inj_env :=
  mk_inj_env 7 false 1 true None (fun _ => None) (fun _ => 5) (fun k => Z.of_nat k) (fun _ => true).

Definition example_inj {M} (m : M) (t : tailcall_ctx) : inj M :=
  mk_inj m (mk_sock true true (Some k_h2_sock_confirmed) None) t None zero_tp_info_pid ∅ 0.

(** Two frames with a request each, both extended. *)
Definition example_request : h2_frame := mk_frame 1 4 1 [0x82; 0x87].
Definition example_request' : h2_frame := mk_frame 1 4 3 [0x82; 0x87].

Lemma h2_send_within_tail_call_limit_witness :
  exists st', h2_chain (fun m : scripted => msg_of (m_bytes m)) 31 example_env example_inj_env
    (example_inj (mk_scripted (frame_bytes example_request ++ frame_bytes example_request') []) example_tctx) inj_detect
    = Some (st', inj_pass)
  /\ zlen (m_bytes (i_msg st')) = 22 + 2 * k_h2_tp_hpack_size.
Proof.
  destruct (h2_send_within_tail_call_limit (fun m : scripted => msg_of (m_bytes m)) example_env example_inj_env
    (example_inj (mk_scripted (frame_bytes example_request ++ frame_bytes example_request') []) example_tctx) inj_detect)
    as (_ & st' & next & Hr & _); [by left|done|].
  exists st'. rewrite Hr. vm_compute in Hr. simplify_eq. done.
Defined.

(** C7: a traceparent is added only where there is none.  When the kernel can pull what lies inside
    the message, a header block for which the scan reaches [write_h2_tp] is at most 256 octets
    long and was looked through to its end: every octet at which a traceparent field of any
    recognised form starts lies inside a field whose value does not have the traceparent layout;
    and the socket was seen neither answering requests nor carrying a traceparent that could not
    be adopted.  The scan itself changes no octet of the message. *)
Theorem h2_write_needs_absence {M} `{SkMsgLaws M} `{!SkMsgReads M} e (st st' : inj M) l :
  fresh_scan (i_t st) -> block_in (m_bytes (i_msg st)) (i_t st) l ->
  rtc (scan_step e) (st, inj_find) (st', inj_write) ->
  m_bytes (i_msg st') = m_bytes (i_msg st) /\ zlen l <= k_h2_max_hpack_scan
  /\ no_propagation (i_sock st')
  /\ forall i, 0 <= i -> kind_at l i <> k_h2_tp_none ->
       exists j, 0 <= j /\ malformed_at l j /\ j <= i < j + field_size_at l j.
Proof.
  intros (Hc & _ & _ & _) Hb Hr.
  pose proof (scan_inv_run e (m_bytes (i_msg st)) l _ _ Hr) as Hi. cbn [scan_inv] in Hi.
  destruct Hi as (Hm & _ & [Hl Hp] & Hn).
  { rewrite Hc. split_and!; [done|done|done|]. intros i Hi. lia. }
  split_and!; [done|done|exact Hn|]. intros i Hi Hk.
  destruct (Z.lt_ge_cases i (zlen l)); [apply Hp; [lia|done]|]. exfalso. apply Hk, kind_candidate.
  unfold candidate_at. by rewrite (proj2 (Z.leb_gt _ _)) by (kunfold; lia).
Qed.

(** A message whose pulls map exactly the range asked for, and fail outside the message. *)
Record windowed := mk_windowed { wd_bytes : list Z; wd_view : option Z }.

#[export] Instance windowed_ops : SkMsgOps windowed := {|
  m_bytes := wd_bytes;
  m_pull m a b :=
    let ok := (0 <=? a) && (a <? b) && (b <=? zlen (wd_bytes m)) in
    (ok, if ok then mk_windowed (wd_bytes m) (Some (b - a)) else m);
  m_view := wd_view;
  m_push m off len := (true, mk_windowed (splice (wd_bytes m) off 0 (repeat 0 (Z.to_nat len))) None);
  m_pop m off len := (true, mk_windowed (splice (wd_bytes m) off len []) None);
  m_store m off bs := mk_windowed (splice (wd_bytes m) off (zlen bs) bs) (wd_view m)
|}.

#[export] Instance windowed_laws : SkMsgLaws windowed.
Proof.
  constructor; intros m off len; simpl; try done.
  - by destruct (_ && _).
  - intros _ _ Hl. exists (repeat 0 (Z.to_nat len)). split; [|done]. unfold zlen. rewrite repeat_length. lia.
Qed.

#[export] Instance windowed_reads : SkMsgReads windowed.
Proof.
  constructor. intros m a b Hab Hb. change (b <= zlen (wd_bytes m)) in Hb. cbn.
  rewrite (proj2 (Z.leb_le 0 a)), (proj2 (Z.ltb_lt a b)), (proj2 (Z.leb_le b _)) by lia. done.
Qed.

(** The context after [detect_h2] on [example_request]. *)
Definition example_request_tctx : tailcall_ctx :=
  mk_tctx 1 0 2 9 2 0 0 sniff_init 0 0 false false 0x82.

Lemma h2_write_needs_absence_witness :
  exists st', rtc (scan_step example_inj_env)
      (example_inj (mk_windowed (frame_bytes example_request) None) example_request_tctx, inj_find) (st', inj_write)
  /\ m_bytes (i_msg st') = frame_bytes example_request.
Proof.
  assert (Hr : exists st', rtc (scan_step example_inj_env)
      (example_inj (mk_windowed (frame_bytes example_request) None) example_request_tctx, inj_find) (st', inj_write)).
  { eexists. eapply rtc_l; [apply scan_find|]. eapply rtc_l; [apply scan_validate|].
    eapply rtc_l; [apply scan_create|]. vm_compute. apply rtc_refl. }
  destruct Hr as [st' Hr]. exists st'. split; [exact Hr|].
  refine (proj1 (h2_write_needs_absence _ _ _ [0x82; 0x87] _ _ Hr)); [done|].
  exists (be_bytes 3 2 ++ [1; 4] ++ be_bytes 4 1), []. by split_and!.
Defined.

(** Whether the context on the wire is the parent's own, passed on by a proxy. *)
Definition forwarded_tp (parent : option tp_info) (tp : tp_info) : bool :=
  match parent with
  | Some p => bool_decide (trace_id tp = trace_id p) && bool_decide (span_id tp = parent_id p)
  | None => false
  end.

(** The context published for the wire context [tp]. *)
Definition adopted_tp (parent : option tp_info) (tp : tp_info) (fresh : list Z) (now : Z) : tp_info :=
  mk_tp_info (trace_id tp) (if forwarded_tp parent tp then fresh else span_id tp)
    (match parent with
     | Some p => if bool_decide (trace_id tp = trace_id p) then span_id p else repeat 0 8
     | None => repeat 0 8
     end) now (flags tp).

Lemma apply_parent_adopts parent tp fresh now :
  let '(tp', fwd) := apply_parent_tp parent (set_ids tp (span_id tp) (repeat 0 8)) fresh in
  fwd = forwarded_tp parent tp /\ set_ts tp' now = adopted_tp parent tp fresh now
  /\ (fwd = true -> span_id tp' = fresh).
Proof.
  unfold apply_parent_tp, forwarded_tp, adopted_tp. destruct parent as [p|]; [|done]. cbn.
  destruct (bool_decide (trace_id tp = _)); [|done]. cbn. by destruct (bool_decide (span_id tp = _)).
Qed.

Lemma encode_hex_zlen l : zlen (encode_hex l) = 2 * zlen l.
Proof. unfold zlen. rewrite encode_hex_length. lia. Qed.

Lemma urand_span rnd k : zlen (fst (urand_bytes rnd k SPAN_ID_SIZE_BYTES)) = SPAN_ID_SIZE_BYTES.
Proof. unfold urand_bytes, zlen. cbn [fst]. rewrite urand_words_length. by kunfold. Qed.

(** The application's own traceparent is adopted.  When the first candidate of the header block is
    a well-formed traceparent field, two programs later the stream's context is the one on the
    wire, marked valid and written for this process, and nothing is injected: the chain resumes
    after the frame.  The message is unchanged, except when the field is the parent's own context
    passed on by a proxy: then exactly the 16 characters of its span id are replaced by a fresh
    span id, which is the one published, with the parent's span as its parent. *)
Theorem h2_adopts_wire_context {M} `{SkMsgLaws M} `{!SkMsgReads M} e (st : inj M) l i tp :
  fresh_scan (i_t st) -> block_in (m_bytes (i_msg st)) (i_t st) l ->
  0 <= i < k_h2_max_hpack_scan -> (forall k, 0 <= k < i -> candidate_at l k = false) ->
  kind_at l i = k_h2_tp_adoptable -> context_at l i = Some tp ->
  let fresh := fst (urand_bytes (ie_rnd e) (S (i_tick st)) SPAN_ID_SIZE_BYTES) in
  let parent := ie_parent e (i_tick st) in
  let '(st1, next1) := obi_packet_extender_find_existing_h2_tp st in
  let '(st2, next2) := obi_packet_extender_validate_h2_tp e st1 in
  next1 = inj_validate /\ next2 = inj_detect /\ t_h2_scan_pos (i_t st2) = frame_end (i_t st)
  /\ m_bytes (i_msg st2)
     = (if forwarded_tp parent tp
        then splice (m_bytes (i_msg st)) (t_h2_hpack_offset (i_t st) + i + span_off_at l i) SPAN_ID_CHAR_LEN
               (encode_hex fresh)
        else m_bytes (i_msg st))
  /\ (ie_room e (i_tick st) = true ->
      i_map st2 !! t_stream_id (i_t st)
      = Some (mk_tp_info_pid (adopted_tp parent tp fresh (ie_now e (i_tick st))) (ie_pid e) 1 1
                k_event_type_http_client (tpp_response_sent (i_tp st)))).
Proof.
  intros (Hc & _ & _ & _) Hb Hi Hfirst Hk Hctx fresh parent.
  assert (Hcand : candidate_at l i = true) by (destruct (candidate_at l i) eqn:E; [done|by rewrite kind_candidate in Hk]).
  destruct (find_spec st l Hb ltac:(lia)) as (m & c & -> & Hm & Hf). rewrite Hc in Hf.
  assert (c = i) as ->.
  { destruct Hf as [[-> Hn]|(Hr & Hcd & Hn)]; [by rewrite Hn in Hcand by lia|].
    destruct (Z.lt_trichotomy c i) as [|[|]]; [by rewrite Hfirst in Hcd by lia|done|by rewrite Hn in Hcand by lia]. }
  set (st1 := set_t (set_msg st m) (set_candidate (i_t st) i)).
  assert (Hb1 : block_in (m_bytes (i_msg st1)) (i_t st1) l) by (cbn; by rewrite Hm).
  destruct (validate_spec e st1 l Hb1 Hi Hcand) as (m' & Hm' & ->). cbn in Hm'. rewrite Hm in Hm'.
  change (t_h2_tp_candidate_pos (i_t st1)) with i. rewrite Hk, Hctx.
  pose proof (apply_parent_adopts parent tp fresh (ie_now e (i_tick st))) as Ha.
  pose proof (urand_span (ie_rnd e) (S (i_tick st))) as Hspan. fold fresh in Hspan.
  unfold adopt_h2_tp. cbn [i_tick i_t set_msg set_t set_candidate set_scan st1 i_msg i_map i_tp i_sock t_h2_hpack_offset t_stream_id].
  rewrite (surjective_pairing (urand_bytes _ _ _)). fold fresh parent.
  destruct (apply_parent_tp parent _ fresh) as [tp' fwd]. destruct Ha as (-> & -> & Hsp). cbn [resume].
  split_and!; [done|done|done| |].
  2: { intros Hroom. unfold set_tp_info_pid. rewrite Hroom. cbn [orb i_map set_t]. by rewrite lookup_insert_eq. }
  cbn [i_msg set_t]. destruct (forwarded_tp parent tp); [|done].
  destruct Hb as (a & b & Hby & Ha & Hl & Hsz). pose proof (zlen_nonneg a). pose proof (zlen_nonneg b).
  assert (Hav : span_off_at l i + 16 <= zlen l - i /\ 0 <= span_off_at l i).
  { unfold kind_at in Hk. rewrite Hcand in Hk. apply classify_adoptable in Hk. unfold shift in Hk.
    unfold span_off_at, field_size_at. unfold block_avail in Hk. destruct (_ =? k_h2_nlb_plain); kunfold; lia. }
  assert (Hbz : zlen (m_bytes (i_msg st)) = zlen a + zlen l + zlen b) by (rewrite Hby, !zlen_app; lia).
  rewrite Hsp by done. rewrite (wrap_small 32) by lia. set (off := _ + _ + _).
  rewrite (wrap_small 32) by (kunfold; lia).
  destruct (pull_reads m' off (off + SPAN_ID_CHAR_LEN)) as [Hok Hv];
    [kunfold; lia|unfold m_size; rewrite Hm'; kunfold; lia|].
  pose proof (pull_bytes m' off (off + SPAN_ID_CHAR_LEN)) as Hpb.
  destruct (m_pull m' _ _) as [ok m'']. cbn in Hok, Hv, Hpb. subst ok. unfold view_ok. rewrite Hv. cbn [andb].
  rewrite (proj2 (Z.leb_le _ _)) by lia.
  assert (Hez : zlen (encode_hex fresh) = SPAN_ID_CHAR_LEN) by (rewrite encode_hex_zlen, Hspan; done).
  rewrite store_writes, Hpb, Hm', Hez; [done|lia|].
  unfold m_size. rewrite Hpb, Hm', Hez. kunfold. lia.
Qed.

(** A request whose block carries a traceparent after its first field. *)
Definition example_wire_tp : tp_info := mk_tp_info (repeat 0xab 16) (repeat 0xcd 8) (repeat 0 8) 0 1.
Definition example_block : list Z := 0x82 :: make_h2_tp_hpack example_wire_tp.
Definition example_carrier : h2_frame := mk_frame 1 4 1 example_block.
Definition example_carrier_tctx : tailcall_ctx := mk_tctx 1 0 70 9 70 0 0 sniff_init 0 0 false false 0x82.
Definition example_forward_env : inj_env :=
  mk_inj_env 7 false 1 true None
    (fun _ => Some (mk_tp_info (repeat 0xab 16) (repeat 0x11 8) (repeat 0xcd 8) 0 1))
    (fun _ => 5) (fun _ => 0x01020304) (fun _ => true).

Lemma example_carrier_block : block_in (frame_bytes example_carrier) example_carrier_tctx example_block.
Proof. exists (be_bytes 3 70 ++ [1; 4] ++ be_bytes 4 1), []. by split_and!. Qed.

Lemma h2_adopts_wire_context_witness :
  let st := example_inj (mk_windowed (frame_bytes example_carrier) None) example_carrier_tctx in
  let '(st1, next1) := obi_packet_extender_find_existing_h2_tp st in
  let '(st2, next2) := obi_packet_extender_validate_h2_tp example_forward_env st1 in
  next2 = inj_detect
  /\ m_bytes (i_msg st2) = splice (frame_bytes example_carrier) 60 16 (encode_hex [4; 3; 2; 1; 4; 3; 2; 1])
  /\ is_Some (i_map st2 !! 1).
Proof.
  cbv zeta.
  pose proof (h2_adopts_wire_context example_forward_env
    (example_inj (mk_windowed (frame_bytes example_carrier) None) example_carrier_tctx) example_block 1
    (mk_tp_info (repeat 0xab 16) (repeat 0xcd 8) (repeat 0 8) 0 1)
    ltac:(done) example_carrier_block ltac:(done)
    ltac:(intros k Hk; replace k with 0 by lia; by vm_compute) ltac:(by vm_compute) ltac:(by vm_compute)) as Hw.
  cbv zeta in Hw. destruct (obi_packet_extender_find_existing_h2_tp _) as [st1 n1].
  destruct (obi_packet_extender_validate_h2_tp _ _) as [st2 n2].
  destruct Hw as (_ & Hn & _ & Hm & Hmap). split_and!; [done| |].
  - rewrite Hm. by vm_compute.
  - eexists. by apply Hmap.
Defined.

(** ** What a committed write publishes *)

Lemma make_h2_tp_hpack_zlen tp :
  zlen (trace_id tp) = TRACE_ID_SIZE_BYTES -> zlen (span_id tp) = SPAN_ID_SIZE_BYTES ->
  zlen (make_h2_tp_hpack tp) = k_h2_tp_hpack_size.
Proof.
  intros Ht Hs. unfold make_h2_tp_hpack. rewrite !zlen_app, !encode_hex_zlen, Ht, Hs. by kunfold.
Qed.

(** [t] describes the frame [f] at [pre]; the header block ends [p1]. *)
Definition frame_at (bytes : list Z) (t : tailcall_ctx) (pre : list Z) (f : h2_frame) (p1 p2 post : list Z) : Prop :=
  bytes = pre ++ frame_bytes f ++ post /\ fr_payload f = p1 ++ p2
  /\ t_h2_frame_offset t = zlen pre /\ t_h2_payload_len t = zlen (fr_payload f)
  /\ t_h2_hpack_offset t + t_h2_hpack_len t = zlen pre + k_h2_frame_header_len + zlen p1
  /\ zlen bytes + k_h2_tp_hpack_size < 2 ^ 32.

Lemma frame_bytes_zlen f : zlen (frame_bytes f) = k_h2_frame_header_len + zlen (fr_payload f).
Proof. unfold frame_bytes. rewrite !zlen_app, be_bytes_3, be_bytes_4. unfold zlen. cbn [length]. kunfold. lia. Qed.

Lemma frame_end_at bytes t pre f p1 p2 post :
  frame_at bytes t pre f p1 p2 post -> frame_end t = zlen (pre ++ frame_bytes f).
Proof.
  intros (Hb & _ & Hfo & Hpl & _ & Hsz). unfold frame_end. rewrite Hfo, Hpl, zlen_app, frame_bytes_zlen.
  rewrite Hb, !zlen_app, frame_bytes_zlen in Hsz. pose proof (zlen_nonneg pre). pose proof (zlen_nonneg post).
  pose proof (zlen_nonneg (fr_payload f)). rewrite wrap_small by (kunfold; lia). lia.
Qed.

(** The four ways [write_h2_tp] ends. *)
Lemma write_cases {M} `{SkMsgLaws M} e (st : inj M) pre f p1 p2 post :
  frame_at (m_bytes (i_msg st)) (i_t st) pre f p1 p2 post ->
  zlen (trace_id (tpp_tp (i_tp st))) = TRACE_ID_SIZE_BYTES ->
  zlen (span_id (tpp_tp (i_tp st))) = SPAN_ID_SIZE_BYTES ->
  let field := make_h2_tp_hpack (tpp_tp (i_tp st)) in
  let f' := with_payload f (p1 ++ field ++ p2) in
  let '(st', next) := obi_packet_extender_write_h2_tp e st in
  next = inj_drop
  \/ (next = inj_pass /\ st' = st /\ k_h2_default_max_frame_size < zlen (fr_payload f) + k_h2_tp_hpack_size)
  \/ (next = inj_detect /\ m_bytes (i_msg st') = m_bytes (i_msg st) /\ i_map st' = i_map st
      /\ t_h2_scan_pos (i_t st') = zlen (pre ++ frame_bytes f))
  \/ (next = inj_detect /\ m_bytes (i_msg st') = pre ++ frame_bytes f' ++ post
      /\ t_h2_scan_pos (i_t st') = zlen (pre ++ frame_bytes f')
      /\ zlen (fr_payload f') <= k_h2_default_max_frame_size
      /\ (ie_room e (i_tick st) = true ->
          exists x, i_map st' !! t_stream_id (i_t st) = Some x
          /\ tpp_tp x = tpp_tp (i_tp st) /\ tpp_written x = 1)).
Proof.
  intros Hf Htl Hsl field f'. pose proof (frame_end_at _ _ _ _ _ _ _ Hf) as Hend.
  pose proof (make_h2_tp_hpack_zlen _ Htl Hsl) as Hfield. fold field in Hfield.
  destruct Hf as (Hb & Hp & Hfo & Hpl & Hio & Hsz).
  pose proof (zlen_nonneg pre). pose proof (zlen_nonneg post). pose proof (zlen_nonneg p1). pose proof (zlen_nonneg p2).
  assert (Hz : zlen (m_bytes (i_msg st)) = zlen pre + (k_h2_frame_header_len + (zlen p1 + zlen p2)) + zlen post)
    by (rewrite Hb, !zlen_app, frame_bytes_zlen, Hp, zlen_app; lia).
  assert (Hpz : zlen (fr_payload f) = zlen p1 + zlen p2) by (by rewrite Hp, zlen_app).
  unfold obi_packet_extender_write_h2_tp. cbv zeta. rewrite Hpl, (wrap_small 32) by (kunfold; lia).
  destruct (Z.ltb_spec k_h2_default_max_frame_size (zlen (fr_payload f) + k_h2_tp_hpack_size)); [right; by left|].
  rewrite Hio, Hfo, (wrap_small 32) by (kunfold; lia).
  pose proof (transaction_frame (i_msg st) pre f p1 p2 post field Hp Hfield Hb) as Ht.
  destruct (h2_write_socket_transaction _ _ _ _ _) as [o m].
  destruct o; cbn [resume].
  - right. right. left. cbn. by rewrite Hend.
  - right. right. right. cbn [i_t i_msg i_map set_t h2_resume_after t_h2_scan_pos].
    assert (Hz' : zlen (pre ++ frame_bytes f') = zlen (pre ++ frame_bytes f) + k_h2_tp_hpack_size)
      by (rewrite !zlen_app, !frame_bytes_zlen; unfold f'; cbn [fr_payload with_payload]; rewrite !zlen_app, Hfield; lia).
    split_and!; [done|exact Ht| |unfold f'; cbn [fr_payload with_payload]; rewrite !zlen_app, Hfield; lia|].
    + rewrite Hend, Hz', wrap_small; [done|]. rewrite zlen_app, frame_bytes_zlen. kunfold. lia.
    + intros Hroom. unfold set_tp_info_pid. cbn [i_tick set_msg i_map]. rewrite Hroom. cbn [orb].
      eexists. by rewrite lookup_insert_eq.
  - right. right. left. cbn. by rewrite Hend.
  - by left.
Qed.

(** What is published is what is on the wire.  Whatever the helpers do, [write_h2_tp] on a frame
    inside the message ends in one of four ways: the frame had no room and the chain stops; the
    message may be damaged and is dropped; nothing changed and the chain resumes after the frame;
    or the frame now ends its header block with the traceparent field of the scratch context, the
    chain resumes after the longer frame, and the stream's entry in [outgoing_trace_map] is that
    very context, marked written. *)
Theorem h2_write_publishes {M} `{SkMsgLaws M} e (st : inj M) pre f p1 p2 post :
  frame_at (m_bytes (i_msg st)) (i_t st) pre f p1 p2 post ->
  zlen (trace_id (tpp_tp (i_tp st))) = TRACE_ID_SIZE_BYTES ->
  zlen (span_id (tpp_tp (i_tp st))) = SPAN_ID_SIZE_BYTES ->
  let field := make_h2_tp_hpack (tpp_tp (i_tp st)) in
  let f' := with_payload f (p1 ++ field ++ p2) in
  let '(st', next) := obi_packet_extender_write_h2_tp e st in
  next = inj_drop
  \/ (next = inj_pass /\ st' = st /\ k_h2_default_max_frame_size < zlen (fr_payload f) + k_h2_tp_hpack_size)
  \/ (next = inj_detect /\ m_bytes (i_msg st') = m_bytes (i_msg st) /\ i_map st' = i_map st
      /\ t_h2_scan_pos (i_t st') = zlen (pre ++ frame_bytes f))
  \/ (next = inj_detect /\ m_bytes (i_msg st') = pre ++ frame_bytes f' ++ post
      /\ t_h2_scan_pos (i_t st') = zlen (pre ++ frame_bytes f')
      /\ zlen (fr_payload f') <= k_h2_default_max_frame_size
      /\ (ie_room e (i_tick st) = true ->
          exists x, i_map st' !! t_stream_id (i_t st) = Some x
          /\ tpp_tp x = tpp_tp (i_tp st) /\ tpp_written x = 1)).
Proof. exact (write_cases e st pre f p1 p2 post). Qed.

Lemma h2_write_publishes_witness :
  exists st', obi_packet_extender_write_h2_tp example_inj_env
    (mk_inj (mk_windowed (frame_bytes example_request) None) example_sock example_request_tctx None
       (mk_tp_info_pid example_wire_tp 7 1 0 3 0) ∅ 0) = (st', inj_detect)
  /\ m_bytes (i_msg st') = frame_bytes (with_payload example_request ([0x82; 0x87] ++ make_h2_tp_hpack example_wire_tp ++ [])) ++ []
  /\ i_map st' !! 1 = Some (mk_tp_info_pid example_wire_tp 7 1 1 3 0).
Proof.
  pose proof (h2_write_publishes example_inj_env
    (mk_inj (mk_windowed (frame_bytes example_request) None) example_sock example_request_tctx None
       (mk_tp_info_pid example_wire_tp 7 1 0 3 0) ∅ 0) [] example_request [0x82; 0x87] [] []
    ltac:(by split_and!) ltac:(done) ltac:(done)) as Hw. cbv zeta in Hw.
  eexists. split_and!; [vm_compute; reflexivity| |by vm_compute].
  destruct (obi_packet_extender_write_h2_tp _ _) as [st' next] eqn:E. vm_compute in E. injection E as <- <-.
  destruct Hw as [Hw|[(Hw & _)|[(_ & Hw & _)|(_ & Hw & _)]]]; [done|done|done|exact Hw].
Defined.

(** ** A block that could not be read *)

(** An unreadable block counts as a block without a traceparent: when the one pull of
    [find_existing_h2_tp] fails and the pulls of the write succeed, a second traceparent field is
    written into a block that carries one, and published. *)
Theorem h2_unreadable_block_injected :
  let st := example_inj (mk_scripted (frame_bytes example_carrier) [false]) example_carrier_tctx in
  kind_at example_block 1 = k_h2_tp_adoptable
  /\ exists st' st'', rtc (scan_step example_inj_env) (st, inj_find) (st', inj_write)
     /\ obi_packet_extender_write_h2_tp example_inj_env st' = (st'', inj_detect)
     /\ m_bytes (i_msg st'')
        = frame_bytes (with_payload example_carrier (example_block ++ make_h2_tp_hpack (tpp_tp (i_tp st'))))
     /\ is_Some (i_map st'' !! 1).
Proof.
  cbv zeta. split; [by vm_compute|]. eexists _, _. split_and!.
  - eapply rtc_l; [apply scan_find|]. eapply rtc_l; [apply scan_validate|].
    eapply rtc_l; [apply scan_create|]. vm_compute. apply rtc_refl.
  - vm_compute. reflexivity.
  - by vm_compute.
  - vm_compute. by eexists.
Qed.

(** [decode_tp_value] and the receiver's parser read the same text. *)
Lemma decode_value_make tp rest :
  wf_tp tp ->
  decode_tp_value (list_buf (make_tp_string tp ++ rest)) zero_tp
  = Some (mk_tp_info (trace_id tp) (span_id tp) (repeat 0 8) 0 (Z.land (flags tp) k_flag_sampled)).
Proof.
  intros Hwf. pose proof (try_parse_make tp zero_tp rest Hwf) as Hp.
  unfold try_parse_tp_value, tp_received in Hp. unfold decode_tp_value. destruct (_ || _); [done|].
  injection Hp as Ht Hs Hf. f_equal. f_equal; [exact Ht|exact Hs|exact Hf].
Qed.

(** An injected field reads back.  The field [write_h2_tp] appends to a header block is, for any
    injector that scans the extended block, an adoptable field holding the same trace id and span
    id, and the sampled bit of the flags. *)
Theorem h2_injected_field_reads_back hpack tp :
  wf_tp tp -> zlen hpack <= k_h2_max_hpack_scan ->
  let l := hpack ++ make_h2_tp_hpack tp in
  kind_at l (zlen hpack) = k_h2_tp_adoptable
  /\ context_at l (zlen hpack)
     = Some (mk_tp_info (trace_id tp) (span_id tp) (repeat 0 8) 0 (Z.land (flags tp) k_flag_sampled)).
Proof.
  intros Hwf Hl l. pose proof Hwf as (Hbt & Hlt & Hbs & Hls & _).
  pose proof (make_h2_tp_hpack_zlen tp Hlt Hls) as Hf. pose proof (zlen_nonneg hpack).
  assert (Hz : zlen l = zlen hpack + 69) by (unfold l; rewrite zlen_app, Hf; done).
  assert (Hr : forall i, 0 <= i -> list_buf l (zlen hpack + i) = list_buf (make_h2_tp_hpack tp) i)
    by (intros i Hi; unfold l; by apply list_buf_app_r).
  assert (Hp1 : list_buf l (zlen hpack + 1) = k_h2_nlb_plain) by (rewrite Hr by lia; reflexivity).
  assert (Hcand : candidate_at l (zlen hpack) = true).
  { unfold candidate_at. rewrite (proj2 (Z.leb_le _ _)) by (kunfold; lia).
    rewrite <- (Z.add_0_r (zlen hpack)) at 1. rewrite !Hr by lia. reflexivity. }
  split.
  - unfold kind_at. rewrite Hcand. unfold block_avail. rewrite Z.min_l by (kunfold; lia).
    replace (zlen l - zlen hpack) with 69 by lia.
    rewrite (classify_ext _ (list_buf (make_h2_tp_hpack tp))); [|intros i Hi; unfold shift; apply Hr; lia].
    reflexivity.
  - unfold context_at, field_size_at. rewrite Hp1, Z.eqb_refl.
    rewrite (decode_value_ext _ (list_buf (make_tp_string tp ++ []))).
    + by apply decode_value_make.
    + intros i Hi. unfold shift. rewrite <- Z.add_assoc, Hr by (kunfold; lia). rewrite app_nil_r, make_h2_tp_hpack_field.
      unfold tp_field. rewrite app_comm_cons, cons_middle, app_assoc. apply list_buf_app_r. lia.
Qed.

Lemma h2_injected_field_reads_back_witness :
  kind_at ([0x82] ++ make_h2_tp_hpack example_wire_tp) 1 = k_h2_tp_adoptable.
Proof.
  refine (proj1 (h2_injected_field_reads_back [0x82] example_wire_tp _ _)); [|done].
  unfold wf_tp, is_bytes, example_wire_tp, zlen. simpl. split_and!; try lia; repeat constructor; lia.
Defined.
