(* ===== verification/H2Send.v ===== *)
(** * A whole HTTP/2 send keeps its framing ([bpf/tpinjector/tpinjector.c]).

    The composition of the detection programs ([H2Sock]), the injection programs ([H2Inject]) and
    the write transaction ([H2Txn]): whatever the chain of tail calls does to a message that is a
    sequence of HTTP/2 frames, with or without the connection preface in front, the message that
    passes is again that sequence, with frames edited only in the two ways the injector means to. *)

From Stdlib Require Import ZArith Lia ZifyBool List Bool.
From stdpp Require Import base list relations gmap.
From S2P Require Import Prelude TraceUtil Sampling H2Defs H2Sniff H2Scan H2Sock H2Txn H2Inject.

Local Open Scope Z_scope.

(** ** The specification *)

(** What may happen to one frame: nothing; a traceparent field inserted in a HEADERS payload; a
    span id of 16 characters overwritten in it. *)
Inductive frame_edit : h2_frame -> h2_frame -> Prop :=
  | edit_none f : frame_edit f f
  | edit_insert f p1 field p2 :
      fr_type f = k_h2_frame_headers -> fr_payload f = p1 ++ p2 -> zlen field = k_h2_tp_hpack_size ->
      frame_edit f (with_payload f (p1 ++ field ++ p2))
  | edit_span f p1 old span p2 :
      fr_type f = k_h2_frame_headers -> fr_payload f = p1 ++ old ++ p2 ->
      zlen old = SPAN_ID_CHAR_LEN -> zlen span = SPAN_ID_CHAR_LEN ->
      frame_edit f (with_payload f (p1 ++ span ++ p2)).

Definition frames_bytes (fs : list h2_frame) : list Z := concat (map frame_bytes fs).

(** A frame [parse_h2_frame_at] can describe. *)
Definition frame_small (f : h2_frame) : Prop := frame_wf f /\ zlen (fr_payload f) <= k_h2_max_frame_len.

(** A pull that succeeds makes [data] and [data_end] delimit the range. *)
Class SkMsgView (M : Type) `{SkMsgOps M} := {
  pull_view m a b w : fst (m_pull m a b) = true -> m_view (snd (m_pull m a b)) = Some w -> w = b - a
}.

#[export] Instance windowed_view : SkMsgView windowed.
Proof. constructor. intros m a b w Hok. cbn in *. rewrite Hok. cbn. congruence. Qed.

(** ** Parsing at a frame boundary *)

Lemma frames_bytes_app a b : frames_bytes (a ++ b) = frames_bytes a ++ frames_bytes b.
Proof. unfold frames_bytes. by rewrite map_app, concat_app. Qed.

Lemma frames_bytes_cons f fs : frames_bytes (f :: fs) = frame_bytes f ++ frames_bytes fs.
Proof. done. Qed.

Lemma parse_size msg pos fi :
  parse_h2_frame_at msg pos (msg_size msg) no_frame_info = Some fi ->
  u32 (pos + k_h2_frame_header_len) <= msg_size msg.
Proof. unfold parse_h2_frame_at. destruct (Z.ltb_spec (msg_size msg) (u32 (pos + k_h2_frame_header_len))); done. Qed.

(** A first length octet that is not 0 cannot be parsed. *)
Lemma parse_long msg pos :
  is_bytes (msg_bytes msg) -> list_buf (msg_bytes msg) pos <> 0 ->
  parse_h2_frame_at msg pos (msg_size msg) no_frame_info = None.
Proof.
  intros Hb Hd. unfold parse_h2_frame_at. destruct (_ <? _); [done|]. destruct (negb _); [done|]. cbv zeta.
  unfold shift. rewrite Z.add_0_r. set (d := list_buf (msg_bytes msg)) in *.
  pose proof (list_buf_range _ pos Hb) as H0. pose proof (list_buf_range _ (pos + 1) Hb) as H1.
  pose proof (list_buf_range _ (pos + 2) Hb) as H2. fold d in H0, H1, H2.
  rewrite lor_bytes3 by done. unfold be24. rewrite (proj2 (Z.ltb_lt _ _)) by (kunfold; lia). done.
Qed.

(** What the parser says of the frame at a boundary. *)
Lemma parse_at_frame msg pre f post fi :
  msg_bytes msg = pre ++ frame_bytes f ++ post -> frame_small f -> msg_size msg < 2 ^ 31 ->
  parse_h2_frame_at msg (zlen pre) (msg_size msg) no_frame_info = Some fi ->
  fi_payload_len fi = zlen (fr_payload f)
  /\ (fi_is_headers_end fi = true ->
      fr_type f = k_h2_frame_headers
      /\ exists prefix, 0 <= prefix /\ fi_hpack_offset_in_msg fi = zlen pre + k_h2_frame_header_len + prefix
         /\ 0 < fi_hpack_len fi /\ prefix + fi_hpack_len fi <= zlen (fr_payload f)).
Proof.
  intros Hm [Hwf Hmax] Hsz.
  destruct (frame_header_at pre f post 0 Hwf Hmax) as (Hlen & H3 & H4 & Hsid & Hr & H9).
  pose proof (zlen_nonneg pre). pose proof (zlen_nonneg post). pose proof (zlen_nonneg (fr_payload f)).
  assert (Hs : msg_size msg = zlen pre + (k_h2_frame_header_len + zlen (fr_payload f)) + zlen post)
    by (unfold msg_size; rewrite Hm, !zlen_app, frame_bytes_zlen; lia).
  unfold parse_h2_frame_at. rewrite Hm. destruct (_ <? _); [done|]. destruct (negb _); [done|]. cbv zeta.
  fold (h2_frame_payload_len (shift (list_buf (pre ++ frame_bytes f ++ post)) (zlen pre))).
  rewrite Hlen, H3, H4, Hsid. set (d := shift _ _) in *. destruct (_ <? _); [done|].
  destruct (_ && _) eqn:Hend; cbn [negb].
  2: { intros [= <-]. done. }
  destruct (nz (Z.land (fr_flags f) k_h2_flag_padded) && _) eqn:Hq; [done|].
  assert (Hpad : 0 < zlen (fr_payload f) -> 0 <= d k_h2_frame_header_len).
  { intros Hpos. change k_h2_frame_header_len with (9 + 0). rewrite H9 by lia.
    destruct Hwf as (_ & _ & _ & Hby). rewrite list_buf_app_l by lia. apply (list_buf_range _ 0 Hby). }
  rewrite !andb_true_iff in Hend. destruct Hend as [[Hty _] Hpos].
  set (pl := if nz _ then d _ else 0). set (prefix := (if nz _ then 1 else 0) + _).
  assert (Hprefix : 0 <= prefix <= 6) by (unfold prefix, k_h2_priority_prefix_len; clear; do 2 destruct (nz _); lia).
  assert (Hpl : 0 <= pl) by (unfold pl; destruct (nz _); lia).
  destruct (Z.leb_spec (zlen (fr_payload f)) (prefix + pl)); [done|]. intros [= <-]. cbn.
  split; [done|]. intros _. split; [lia|]. exists prefix. rewrite wrap_small by (kunfold; lia). split_and!; lia.
Qed.

Lemma parse_at_end msg : msg_size msg < 2 ^ 31 -> parse_h2_frame_at msg (msg_size msg) (msg_size msg) no_frame_info = None.
Proof.
  intros Hs. pose proof (zlen_nonneg (msg_bytes msg)). unfold parse_h2_frame_at.
  rewrite (proj2 (Z.ltb_lt (msg_size msg) _)); [done|]. unfold msg_size in *. rewrite wrap_small by (kunfold; lia).
  kunfold. lia.
Qed.

Lemma parse_preface msg rest :
  msg_bytes msg = HTTP2_GRPC_PREFACE ++ rest -> parse_h2_frame_at msg 0 (msg_size msg) no_frame_info = None.
Proof.
  intros Hm. unfold parse_h2_frame_at. destruct (_ <? _); [done|]. destruct (negb _); [done|]. cbv zeta.
  rewrite Hm. done.
Qed.

(** ** The detection programs on whole frames *)

(** [t] describes the HEADERS frame [f] behind the octets [pre]. *)
Definition describes (t : tailcall_ctx) (pre : list Z) (f : h2_frame) : Prop :=
  fr_type f = k_h2_frame_headers /\ t_h2_frame_offset t = zlen pre
  /\ t_h2_payload_len t = zlen (fr_payload f) /\ 0 < t_h2_hpack_len t
  /\ exists prefix, 0 <= prefix /\ t_h2_hpack_offset t = zlen pre + k_h2_frame_header_len + prefix
     /\ prefix + t_h2_hpack_len t <= zlen (fr_payload f).

(** Where a detection program that starts at [pre] leaves the chain. *)
Definition detected (pre : list Z) (fs : list h2_frame) (t t' : tailcall_ctx) (next : h2_next) : Prop :=
  match next with
  | next_pass => True
  | next_sniff => t' = t
  | next_detect =>
      t_h2_frames t' = u8 (t_h2_frames t + 1)
      /\ exists fa fb, fs = fa ++ fb /\ t_h2_scan_pos t' = zlen (pre ++ frames_bytes fa)
  | next_find_existing_h2_tp =>
      t_h2_frames t' = t_h2_frames t /\ t_h2_tp_candidate_pos t' = 0
      /\ exists fa f fb, fs = fa ++ f :: fb /\ describes t' (pre ++ frames_bytes fa) f
  end.

Lemma detected_cons pre f fs t t1 t' next :
  t_h2_frames t1 = t_h2_frames t -> next <> next_sniff ->
  detected (pre ++ frame_bytes f) fs t1 t' next -> detected pre (f :: fs) t t' next.
Proof.
  intros Hf Hn. destruct next; cbn; [done|done|..]; rewrite Hf.
  - intros (? & fa & fb & -> & Hp). split; [done|]. exists (f :: fa), fb. by rewrite frames_bytes_cons, app_assoc.
  - intros (? & ? & fa & g & fb & -> & Hd). split_and!; [done..|]. exists (f :: fa), g, fb.
    by rewrite frames_bytes_cons, app_assoc.
Qed.

Lemma detect_scan_detected n env msg pre fs s t s' t' next :
  msg_bytes msg = pre ++ frames_bytes fs -> Forall frame_small fs -> msg_size msg < 2 ^ 31 ->
  detect_scan n env msg (msg_size msg) (zlen pre) s t = (s', t', next) ->
  next <> next_sniff /\ detected pre fs t t' next.
Proof.
  revert pre fs s t. induction n as [|n IH]; intros pre fs s t Hm Hfs Hsz Hd; cbn [detect_scan] in Hd.
  - destruct (_ <? _); simplify_eq; [|done]. split; [done|]. split; [done|]. exists [], fs. cbn. by rewrite app_nil_r.
  - destruct fs as [|f fs].
    { assert (msg_size msg = zlen pre) as E by (unfold msg_size; by rewrite Hm, app_nil_r).
      rewrite <- E, parse_at_end in Hd by done. by simplify_eq. }
    destruct (parse_h2_frame_at _ _ _ _) as [fi|] eqn:Hp; [|by simplify_eq].
    apply Forall_cons in Hfs as [Hf Hfs]. rewrite frames_bytes_cons in Hm.
    destruct (parse_at_frame msg pre f (frames_bytes fs) fi Hm Hf Hsz Hp) as (Hlen & Hh).
    destruct (h2_sniff_check_frame _ _ _ _ _ _) as [st|]; [|by simplify_eq]. cbv zeta in Hd.
    assert (Hz : zlen (pre ++ frame_bytes f) = zlen pre + (k_h2_frame_header_len + zlen (fr_payload f)))
      by (rewrite zlen_app, frame_bytes_zlen; lia).
    assert (Hpos : u32 (zlen pre + (k_h2_frame_header_len + fi_payload_len fi)) = zlen (pre ++ frame_bytes f)).
    { rewrite Hlen, <- Hz, wrap_small; [done|]. pose proof (zlen_nonneg (pre ++ frame_bytes f)).
      pose proof (zlen_nonneg (frames_bytes fs)). unfold msg_size in Hsz.
      rewrite Hm, app_assoc, zlen_app in Hsz. lia. }
    rewrite Hpos in Hd. destruct (fi_is_headers_end fi).
    + destruct (Hh eq_refl) as (Hty & pfx & H0 & Hoff & Hl0 & Hle).
      assert (Hres : forall s0 t0, t_h2_frames t0 = t_h2_frames t ->
        (s0, h2_resume_after t0 (zlen (pre ++ frame_bytes f)), next_detect) = (s', t', next) ->
        next <> next_sniff /\ detected pre (f :: fs) t t' next).
      { intros s0 t0 Ht [= <- <- <-]. split; [done|]. cbn. rewrite Ht. split; [done|]. exists [f], fs.
        cbn. by rewrite app_nil_r. }
      destruct (negb _); [by eapply Hres in Hd|]. destruct (env_application_owned _ _); [by eapply Hres in Hd|].
      destruct (env_tp_written _ _); [by eapply Hres in Hd|]. injection Hd as <- <- <-. split; [done|].
      cbn. split_and!; [done|done|]. exists [], f, fs. cbn. rewrite app_nil_r. split; [done|].
      unfold describes. cbn. split_and!; [done..|lia|]. exists pfx. split_and!; lia.
    + eapply IH in Hd as [Hn Hd]; [|by rewrite Hm, app_assoc|done|done]. split; [done|].
      eapply (detected_cons _ _ _ _ (set_framing t st)); done.
Qed.

(** Offset [pos] is the boundary after [pre], or nothing can be parsed there. *)
Definition parsable_at (msg : sk_msg) (pos : Z) (pre : list Z) : Prop :=
  pos = zlen pre \/ parse_h2_frame_at msg pos (msg_size msg) no_frame_info = None.

Lemma detect_confirmed_detected env msg pre fs pos st s t s' t' next :
  msg_bytes msg = pre ++ frames_bytes fs -> Forall frame_small fs -> msg_size msg < 2 ^ 31 ->
  parsable_at msg pos pre ->
  detect_confirmed env msg (msg_size msg) pos st s t = (s', t', next) ->
  detected pre fs t t' next.
Proof.
  intros Hm Hfs Hsz Hpos. unfold detect_confirmed. destruct (negb _); [by intros [= <- <- <-]|].
  destruct (h2_sk_flag _ _); [by intros [= <- <- <-]|]. destruct Hpos as [-> |Hn].
  - intros Hd. by eapply detect_scan_detected in Hd as [_ Hd].
  - intros Hd. change (Z.to_nat k_h2_max_frame_scan) with 4%nat in Hd. cbn [detect_scan] in Hd.
    rewrite Hn in Hd. by injection Hd as <- <- <-.
Qed.

(** The message opens with the preface, or [pos] is a boundary after which frames follow. *)
Lemma detect_detected env msg pre fs s t s' t' next :
  msg_bytes msg = pre ++ frames_bytes fs -> Forall frame_small fs -> msg_size msg < 2 ^ 31 ->
  t_h2_scan_pos t = zlen pre \/ t_h2_scan_pos t = 0 /\ pre = HTTP2_GRPC_PREFACE ->
  obi_packet_extender_detect_h2 env msg s t = (s', t', next) -> detected pre fs t t' next.
Proof.
  intros Hm Hfs Hsz Hpos. unfold obi_packet_extender_detect_h2.
  destruct (_ <=? t_h2_frames t); [by intros [= <- <- <-]|].
  destruct (_ =? k_h2_sock_rejected); [by intros [= <- <- <-]|].
  destruct (_ && env_is_ssl env); [by intros [= <- <- <-]|].
  destruct (_ =? k_h2_sock_probation); [by intros [= <- <- <-]|]. cbv zeta.
  set (ip := _ && is_http2_preface _). set (pos := if ip then k_h2_preface_len else t_h2_scan_pos t).
  assert (Hat : parsable_at msg pos pre).
  { unfold pos. destruct Hpos as [E|[E ->]].
    - left. destruct ip eqn:Hip; [|done]. exfalso. unfold ip in Hip. rewrite !andb_true_iff in Hip.
      destruct Hip as [[[[H0 _] Hs4] _] Hpre]. rewrite E in H0.
      assert (pre = []) as -> by (destruct pre; [done|unfold zlen in H0; simpl in H0; lia]).
      cbn [app] in Hm. destruct fs as [|f fs].
      + unfold msg_size in Hs4. rewrite Hm in Hs4. done.
      + apply Forall_cons in Hfs as [[_ Hmax] _]. rewrite Hm in Hpre. unfold is_http2_preface in Hpre.
        rewrite frames_bytes_cons in Hpre. unfold frame_bytes in Hpre. rewrite be_bytes_3 in Hpre.
        cbn [app] in Hpre. change (list_buf (_ :: _) 0) with (zlen (fr_payload f) / 65536 mod 256) in Hpre.
        pose proof (zlen_nonneg (fr_payload f)). rewrite Z.div_small in Hpre by (kunfold; lia). done.
    - destruct ip; [by left|]. right. rewrite E. by eapply parse_preface. }
  destruct (ip && negb _); [by intros [= <- <- <-]|].
  destruct (_ || _); [by intros [= <- <- <-]|].
  destruct (_ =? k_h2_sock_preface); [|intros Hd; by eapply detect_confirmed_detected in Hd].
  destruct (parse_h2_frame_at _ pos _ _) as [sf|] eqn:Hp; [|by intros [= <- <- <-]].
  destruct Hat as [Hat|Hn]; [|by rewrite Hn in Hp].
  destruct (negb _); [by intros [= <- <- <-]|]. destruct fs as [|f fs].
  { assert (msg_size msg = zlen pre) as E by (unfold msg_size; by rewrite Hm, app_nil_r).
    by rewrite Hat, <- E, parse_at_end in Hp. }
  apply Forall_cons in Hfs as [Hf Hfs]. rewrite frames_bytes_cons in Hm. rewrite Hat in Hp |- *.
  destruct (parse_at_frame msg pre f (frames_bytes fs) sf Hm Hf Hsz Hp) as (Hlen & _).
  assert (Hnext : u32 (zlen pre + (k_h2_frame_header_len + fi_payload_len sf)) = zlen (pre ++ frame_bytes f)).
  { rewrite Hlen, zlen_app, frame_bytes_zlen, wrap_small; [done|]. unfold msg_size in Hsz.
    rewrite Hm, !zlen_app, frame_bytes_zlen in Hsz. pose proof (zlen_nonneg (frames_bytes fs)).
    pose proof (zlen_nonneg pre). pose proof (zlen_nonneg (fr_payload f)). kunfold. lia. }
  rewrite Hnext. destruct (_ || _); [by intros [= <- <- <-]|]. intros Hd.
  assert (Hn : next <> next_sniff).
  { intros ->. unfold detect_confirmed in Hd. destruct (negb _); [done|]. destruct (h2_sk_flag _ _); [done|].
    eapply detect_scan_detected in Hd as [Hd _]; [done|by rewrite Hm, app_assoc|done|done]. }
  eapply (detected_cons _ _ _ _ t); [done|done|].
  eapply detect_confirmed_detected; [| | | |exact Hd]; [by rewrite Hm, app_assoc|done|done|by left].
Qed.

(** ** Trace contexts stay well formed *)

(** What the code outside the injector hands it: a parent is a [tp_info_t], time a [u64]. *)
Class EnvTyped (e : inj_env) := {
  env_parent_wf k p : ie_parent e k = Some p -> wf_tp p;
  env_now_u64 k : 0 <= ie_now e k < 2 ^ 64
}.

Definition typed {M} (st : inj M) : Prop :=
  wf_tp (tpp_tp (i_tp st)) /\ map_Forall (fun _ x => wf_tp (tpp_tp x)) (i_map st).

Lemma zeros_bytes n : is_bytes (repeat 0 n).
Proof. induction n; constructor; [lia|done]. Qed.

Lemma wf_zero_tp : wf_tp zero_tp.
Proof. unfold wf_tp. split_and!; first [apply zeros_bytes|done]. Qed.

Lemma urand_wf rnd k n : is_bytes (fst (urand_bytes rnd k (4 * Z.of_nat n))) /\ zlen (fst (urand_bytes rnd k (4 * Z.of_nat n))) = 4 * Z.of_nat n.
Proof.
  unfold urand_bytes, zlen. cbn [fst]. rewrite Z.mul_comm, Z.div_mul, Nat2Z.id by lia.
  split; [apply urand_words_bytes|rewrite urand_words_length; lia].
Qed.

Lemma decode_hex_wf p len : 0 <= len -> is_bytes (decode_hex p len) /\ zlen (decode_hex p len) = len / 2.
Proof.
  intros Hl. split; [apply decode_hex_bytes|]. unfold zlen. rewrite decode_hex_length by done.
  rewrite Z2Nat.id; [done|]. apply Z.div_pos; lia.
Qed.

Lemma decode_value_wf p tp tp' : wf_tp tp -> decode_tp_value p tp = Some tp' -> wf_tp tp'.
Proof.
  intros (_ & _ & _ & _ & Hp & Hpl & Hts & _). unfold decode_tp_value. destruct (_ || _); [done|]. intros [= <-].
  unfold wf_tp. cbn [trace_id span_id parent_id ts flags].
  destruct (decode_hex_wf (shift p k_tp_val_trace_id_start) TRACE_ID_CHAR_LEN ltac:(done)) as [? Hz1].
  destruct (decode_hex_wf (shift p k_tp_val_span_id_start) SPAN_ID_CHAR_LEN ltac:(done)) as [? Hz2].
  destruct (decode_hex_pair_range (shift p k_tp_val_flags_start 0) (shift p k_tp_val_flags_start 1)), Hts.
  by split_and!.
Qed.

Lemma apply_parent_wf parent tp fresh :
  (forall p, parent = Some p -> wf_tp p) -> wf_tp tp -> is_bytes fresh -> zlen fresh = SPAN_ID_SIZE_BYTES ->
  wf_tp (fst (apply_parent_tp parent tp fresh)).
Proof.
  intros Hp Htp Hb Hl. unfold apply_parent_tp. destruct parent as [p|]; [|done].
  destruct (Hp p eq_refl) as (_ & _ & Hs & Hsl & _). destruct Htp as (? & ? & ? & ? & ? & ? & ? & ?).
  destruct_and?. destruct (negb _); [by split_and!|]. destruct (negb _); by split_and!.
Qed.

Lemma create_trace_wf parent pid rnd k s x :
  (forall p, parent = Some p -> wf_tp p) -> wf_tp (tpp_tp x) ->
  wf_tp (tpp_tp (fst (create_trace_info parent pid rnd k s x))).
Proof.
  intros Hp (_ & _ & _ & _ & _ & _ & Hts & _). unfold create_trace_info.
  destruct (urand_wf rnd k 2) as [Hb Hl]. change (4 * Z.of_nat 2) with SPAN_ID_SIZE_BYTES in *.
  destruct (urand_bytes rnd k _) as [span k1]. cbn [fst] in Hb, Hl. destruct parent as [p|].
  - destruct (Hp p eq_refl) as (? & ? & ? & ? & ? & ? & ? & ?). destruct_and?. by split_and!.
  - destruct_and?. destruct (urand_wf rnd k1 4) as [Hb' Hl']. change (4 * Z.of_nat 4) with TRACE_ID_SIZE_BYTES in *.
    destruct (urand_bytes rnd k1 _) as [trace k2]. cbn [fst] in Hb', Hl'. unfold wf_tp. cbn -[sampler_decision].
    split_and!; try done; try apply (zeros_bytes 8); destruct s; try done; unfold sampler_decision;
      by destruct (_ <? _).
Qed.

Section typed.
Context {M : Type} `{SkMsgOps M} (snap : M -> sk_msg) (env : h2_env) (e : inj_env) `{!EnvTyped e}.

Lemma typed_map_set (map : gmap Z tp_info_pid) room k x :
  map_Forall (fun _ y => wf_tp (tpp_tp y)) map -> wf_tp (tpp_tp x) ->
  map_Forall (fun _ y => wf_tp (tpp_tp y)) (set_tp_info_pid map room k x).
Proof. intros Hm Hx. unfold set_tp_info_pid. destruct (_ || _); [by apply map_Forall_insert_2|done]. Qed.

Lemma typed_existing (st : inj M) k pid x :
  typed st -> get_tp_info_pid (i_map st) k pid = Some x -> wf_tp (tpp_tp x).
Proof.
  intros [_ Hm]. unfold get_tp_info_pid. destruct (i_map st !! k) as [y|] eqn:E; [|done].
  destruct (_ =? _); [|done]. intros [= <-]. by apply (Hm k).
Qed.

Lemma adopt_typed st target off tp : typed st -> wf_tp tp -> typed (fst (adopt_h2_tp e st target off tp)).
Proof.
  intros [Hs Hm] Htp. unfold adopt_h2_tp. destruct (urand_wf (ie_rnd e) (S (i_tick st)) 2) as [Hb Hl].
  change (4 * Z.of_nat 2) with SPAN_ID_SIZE_BYTES in *. destruct (urand_bytes _ _ _) as [fresh k]. cbn [fst] in Hb, Hl.
  assert (Hz : wf_tp (set_ids tp (span_id tp) (repeat 0 8)))
    by (destruct Htp as (? & ? & ? & ? & _ & _ & ? & ?); destruct_and?; split_and!; try done; apply (zeros_bytes 8)).
  pose proof (apply_parent_wf (ie_parent e (i_tick st)) _ fresh (env_parent_wf (i_tick st)) Hz Hb Hl) as Hw.
  destruct (apply_parent_tp _ _ _) as [tp' fwd]. cbn [fst] in Hw.
  assert (Hn : wf_tp (set_ts tp' (ie_now e (i_tick st)))).
  { pose proof (env_now_u64 (i_tick st)). destruct Hw as (? & ? & ? & ? & ? & ? & _ & ?). destruct_and?. by split_and!. }
  split; [exact Hn|]. by apply typed_map_set.
Qed.

Lemma retry_typed (st : inj M) p : typed st -> typed (fst (retry_h2_tp st p)).
Proof. intros Ht. unfold retry_h2_tp. destruct (_ <=? p); [done|]. by destruct (_ <=? _). Qed.

Lemma validate_typed st : typed st -> typed (fst (obi_packet_extender_validate_h2_tp e st)).
Proof.
  intros Ht. unfold obi_packet_extender_validate_h2_tp. cbv zeta. destruct (_ <=? t_h2_tp_candidate_pos _); [done|].
  destruct (_ <=? _); [done|]. destruct (pull_hpack_window _ _ _) as [ok m]. destruct (_ || _); [done|].
  destruct (h2_tp_classify _ _); [by apply retry_typed|done|].
  assert (Hv : forall r : option (Z * tp_info), (forall off tp, r = Some (off, tp) -> wf_tp tp) -> forall p,
    typed (fst (match r with Some (off, tp) => adopt_h2_tp e (set_msg st m) (t_h2_tp_candidate_pos (i_t st)) off tp
                | None => retry_h2_tp (set_msg st m) p end))).
  { intros [[off tp]|] Hr p; [apply adopt_typed; [done|by eapply Hr]|by apply retry_typed]. }
  destruct (_ =? k_h2_nlb_plain); apply Hv; intros off tp; unfold validate_h2_tp_plain, validate_h2_tp_huffman;
    (destruct (_ <? _); [done|]); (destruct (negb _); [done|]); (destruct (negb _); [done|]);
    (destruct (decode_tp_value _ _) eqn:E; [|done]); intros [= _ <-]; (eapply decode_value_wf; [apply Ht|done]).
Qed.

Lemma create_typed (st : inj M) : typed st -> typed (fst (obi_packet_extender_create_h2_tp e st)).
Proof.
  intros [_ Hm]. unfold obi_packet_extender_create_h2_tp. cbv zeta. set (st0 := mk_inj _ _ _ _ _ _ _).
  assert (Ht : typed st0) by (split; [apply wf_zero_tp|done]).
  destruct (negb _); [done|]. cbn [fst]. unfold create_h2_context. destruct (existing_tp e st0) as [x|] eqn:Ex.
  - split; [|done]. unfold existing_tp in Ex. destruct (get_tp_info_pid _ _ _) as [y|] eqn:Eg; [|done].
    destruct (_ && _); [|done]. simplify_eq. by eapply (typed_existing st0).
  - pose proof (create_trace_wf (ie_parent e (i_tick st0)) (ie_pid e) (ie_rnd e) (S (i_tick st0)) (ie_sampler e)
      zero_tp_info_pid (env_parent_wf (i_tick st0)) wf_zero_tp) as Hw.
    destruct (create_trace_info _ _ _ _ _ _) as [tp_p k]. cbn [fst] in Hw. destruct (i_map st0 !! _).
    + split; [|done]. cbn [i_tp]. destruct (get_tp_info_pid _ _ _) eqn:Eg; [by eapply (typed_existing st0)|done].
    + split; [done|]. cbn [i_map]. destruct (ie_room _ _); [by apply map_Forall_insert_2|done].
Qed.

Lemma write_typed (st : inj M) : typed st -> typed (fst (obi_packet_extender_write_h2_tp e st)).
Proof.
  intros Ht. unfold obi_packet_extender_write_h2_tp. cbv zeta. destruct (_ <? _); [done|].
  destruct (h2_write_socket_transaction _ _ _ _ _) as [[] m]; try done.
  split; [apply Ht|]. cbn [fst resume set_t i_map]. by apply typed_map_set; apply Ht.
Qed.

Lemma write_frames (st : inj M) :
  let '(st', next) := obi_packet_extender_write_h2_tp e st in
  next = inj_detect -> t_h2_frames (i_t st') = u8 (t_h2_frames (i_t st) + 1).
Proof.
  unfold obi_packet_extender_write_h2_tp. cbv zeta. destruct (_ <? _); [done|].
  by destruct (h2_write_socket_transaction _ _ _ _ _) as [[] m].
Qed.

Lemma step_typed st prog : typed st -> typed (fst (h2_step snap env e st prog)).
Proof.
  intros Ht. destruct prog; cbn [h2_step]; [done|done|..].
  - by destruct (obi_packet_extender_detect_h2 _ _ _ _) as [[? ?] ?].
  - by destruct (obi_packet_extender_sniff_h2 _ _).
  - destruct (find_next st) as (m & c & ->). done.
  - by apply validate_typed.
  - by apply create_typed.
  - destruct (ie_can_roll_back e); [by apply write_typed|done].
Qed.

End typed.

(** ** The invariant of the chain *)

Section framing.
Context {M : Type} `{SkMsgLaws M} `{!SkMsgView M} (snap : M -> sk_msg).
Context (Hsnap : forall m, msg_bytes (snap m) = m_bytes m).
Context (env : h2_env) (e : inj_env) `{!EnvTyped e}.

(** The message sent: the connection preface or nothing, then frames. *)
Variables (pre0 : list Z) (fs0 : list h2_frame).
Context (Hfs0 : Forall frame_small fs0).

(** The frames [fs1] became [fs1'], the frames [fs2] are still to come. *)
Definition split_at (bytes : list Z) (fs1 fs1' fs2 : list h2_frame) : Prop :=
  fs0 = fs1 ++ fs2 /\ Forall2 frame_edit fs1 fs1'
  /\ bytes = pre0 ++ frames_bytes fs1' ++ frames_bytes fs2.

Definition framed (bytes : list Z) : Prop :=
  exists fs, Forall2 frame_edit fs0 fs /\ bytes = pre0 ++ frames_bytes fs.

(** Room for the insertions the packet's budget still allows. *)
Definition size_ok (bytes : list Z) (t : tailcall_ctx) : Prop :=
  0 <= t_h2_frames t <= 4 /\ zlen bytes + k_h2_tp_hpack_size * (4 - t_h2_frames t) < 2 ^ 31.

Definition at_boundary (bytes : list Z) (t : tailcall_ctx) : Prop :=
  size_ok bytes t /\ exists fs1 fs1' fs2, split_at bytes fs1 fs1' fs2
  /\ (t_h2_scan_pos t = zlen (pre0 ++ frames_bytes fs1')
      \/ t_h2_scan_pos t = 0 /\ fs1' = [] /\ pre0 = HTTP2_GRPC_PREFACE).

Definition in_frame (bytes : list Z) (t : tailcall_ctx) : Prop :=
  size_ok bytes t /\ t_h2_frames t < 4 /\ 0 <= t_h2_tp_candidate_pos t
  /\ exists fs1 fs1' f fs2, split_at bytes fs1 fs1' (f :: fs2)
     /\ describes t (pre0 ++ frames_bytes fs1') f.

Definition chain_inv (x : inj M * inj_next) : Prop :=
  let '(st, prog) := x in
  let bytes := m_bytes (i_msg st) in
  typed st /\
  match prog with
  | inj_drop => True
  | inj_pass => framed bytes
  | inj_detect | inj_sniff => at_boundary bytes (i_t st)
  | _ => in_frame bytes (i_t st)
  end.

Lemma edits_refl fs : Forall2 frame_edit fs fs.
Proof. induction fs; constructor; [apply edit_none|done]. Qed.

Lemma split_framed bytes fs1 fs1' fs2 : split_at bytes fs1 fs1' fs2 -> framed bytes.
Proof.
  intros (Hf & He & ->). exists (fs1' ++ fs2). rewrite frames_bytes_app. split; [|done].
  rewrite Hf. apply Forall2_app; [done|apply edits_refl].
Qed.

Lemma boundary_framed bytes t : at_boundary bytes t -> framed bytes.
Proof. intros (_ & ? & ? & ? & Hs & _). by eapply split_framed. Qed.

Lemma frame_framed bytes t : in_frame bytes t -> framed bytes.
Proof. intros (_ & _ & _ & ? & ? & ? & ? & Hs & _). by eapply split_framed. Qed.

Lemma split_move bytes fs1 fs1' fa fb :
  split_at bytes fs1 fs1' (fa ++ fb) -> split_at bytes (fs1 ++ fa) (fs1' ++ fa) fb.
Proof.
  intros (Hf & He & Hb). split_and!.
  - by rewrite <- app_assoc.
  - apply Forall2_app; [done|apply edits_refl].
  - rewrite Hb, !frames_bytes_app, <- !app_assoc. done.
Qed.

(** The frame being looked at becomes [f'], and the chain resumes behind it. *)
Lemma resume_boundary bytes t fs1 fs1' f f' fs2 t' :
  split_at bytes fs1 fs1' (f :: fs2) -> frame_edit f f' -> size_ok bytes t -> t_h2_frames t < 4 ->
  zlen (fr_payload f') <= zlen (fr_payload f) + k_h2_tp_hpack_size ->
  t_h2_frames t' = u8 (t_h2_frames t + 1) ->
  t_h2_scan_pos t' = zlen (pre0 ++ frames_bytes fs1' ++ frame_bytes f') ->
  at_boundary (pre0 ++ frames_bytes fs1' ++ frame_bytes f' ++ frames_bytes fs2) t'.
Proof.
  intros (Hf & He & Hb) Hedit [Hr Hsz] Hlt Hlen Hf' Hpos. rewrite (wrap_small 8) in Hf' by lia. split.
  - split; [lia|]. rewrite Hf'. rewrite Hb in Hsz. rewrite frames_bytes_cons, !zlen_app, frame_bytes_zlen in *.
    kunfold. lia.
  - exists (fs1 ++ [f]), (fs1' ++ [f']), fs2. split; [split_and!|].
    + by rewrite <- app_assoc.
    + apply Forall2_app; [done|]. by repeat constructor.
    + rewrite frames_bytes_app, <- !app_assoc. cbn. by rewrite app_nil_r.
    + left. rewrite Hpos, frames_bytes_app. cbn. by rewrite app_nil_r.
Qed.

(** The chain resumes behind the frame, which did not change. *)
Lemma resume_unchanged (st : inj M) :
  in_frame (m_bytes (i_msg st)) (i_t st) -> typed st -> chain_inv (resume st (frame_end (i_t st))).
Proof.
  intros (Hsz & Hlt & _ & fs1 & fs1' & f & fs2 & Hs & Hty & Hfo & Hpl & _) Ht. split; [done|]. cbn [set_t i_msg i_t].
  pose proof Hs as (_ & _ & Hb). rewrite Hb, frames_bytes_cons.
  eapply resume_boundary; [exact Hs|apply edit_none|done|done|kunfold; lia|done|].
  cbn [t_h2_scan_pos h2_resume_after]. unfold frame_end. rewrite Hfo, Hpl. destruct Hsz as [? Hsz]. rewrite Hb, frames_bytes_cons, !zlen_app, frame_bytes_zlen in Hsz.
  rewrite !zlen_app, frame_bytes_zlen. pose proof (zlen_nonneg pre0). pose proof (zlen_nonneg (frames_bytes fs1')).
  pose proof (zlen_nonneg (fr_payload f)). pose proof (zlen_nonneg (frames_bytes fs2)).
  rewrite wrap_small by (kunfold; lia). lia.
Qed.

(** Pulls, and so the programs that only look, change no octet. *)
Lemma window_bytes (m : M) a n : m_bytes (snd (pull_hpack_window m a n)) = m_bytes m.
Proof. unfold pull_hpack_window. destruct (_ <? _); [done|]. apply pull_bytes. Qed.

Lemma candidate_loop_nonneg n data avail len i : 0 <= i -> 0 <= candidate_loop n data avail len i.
Proof.
  revert i. induction n as [|n IH]; intros i Hi; cbn [candidate_loop]; [done|].
  destruct (_ <? _); [done|]. destruct (_ <? _); [done|]. destruct (h2_tp_is_candidate _ _ _); [done|]. apply IH. lia.
Qed.

Lemma find_looks (st : inj M) :
  0 <= t_h2_tp_candidate_pos (i_t st) ->
  exists m c, obi_packet_extender_find_existing_h2_tp st
    = (set_t (set_msg st m) (set_candidate (i_t st) c), inj_validate)
  /\ m_bytes m = m_bytes (i_msg st) /\ 0 <= c.
Proof.
  intros Hc. unfold obi_packet_extender_find_existing_h2_tp. cbv zeta.
  destruct (_ || _); [by exists (i_msg st), k_h2_max_hpack_scan|]. unfold find_first_h2_tp_candidate.
  match goal with |- context [pull_hpack_window ?m ?a ?n] => pose proof (window_bytes m a n) as Hb end.
  destruct (pull_hpack_window _ _ _) as [ok m]. cbn [snd] in Hb.
  assert (Hr : forall r, 0 <= r -> exists m0 c, (if (r <? k_h2_max_hpack_scan)
      && (t_h2_tp_candidate_pos (i_t st) + r <? k_h2_max_hpack_scan)
    then (set_t (set_msg st m) (set_candidate (i_t st) (t_h2_tp_candidate_pos (i_t st) + r)), inj_validate)
    else (set_t (set_msg st m) (set_candidate (i_t st) k_h2_max_hpack_scan), inj_validate))
    = (set_t (set_msg st m0) (set_candidate (i_t st) c), inj_validate) /\ m_bytes m0 = m_bytes (i_msg st) /\ 0 <= c).
  { intros r Hr. destruct (_ && _); [exists m, (t_h2_tp_candidate_pos (i_t st) + r)|exists m, k_h2_max_hpack_scan];
      (split_and!; [done|done|kunfold; lia]). }
  destruct (negb ok); [by apply Hr|]. destruct (m_view m); [|by apply Hr]. apply Hr.
  by apply candidate_loop_nonneg.
Qed.

Lemma in_frame_candidate bytes t c r p x :
  in_frame bytes t -> 0 <= c -> in_frame bytes (set_scan t c r p x).
Proof. intros (H1 & H2 & _ & H3) Hc. by split_and!. Qed.

(** The window of a candidate lies in the payload. *)
Lemma describes_window t pre f : describes t pre f ->
  forall c n, 0 <= c -> 0 <= n -> c + n <= t_h2_hpack_len t ->
  exists p1 w p2, fr_payload f = p1 ++ w ++ p2 /\ zlen w = n
  /\ t_h2_hpack_offset t + c = zlen pre + k_h2_frame_header_len + zlen p1.
Proof.
  intros (_ & _ & _ & _ & pfx & Hpfx & Hoff & Hle) c n Hc Hn Hcn.
  destruct (zlen_split (fr_payload f) (pfx + c)) as (p1 & r & Hp & Hz); [lia|].
  assert (zlen r = zlen (fr_payload f) - (pfx + c)) by (rewrite Hp, zlen_app; lia).
  destruct (zlen_split r n) as (w & p2 & -> & Hw); [lia|]. exists p1, w, p2. split_and!; [done|done|lia].
Qed.

Lemma splice_frame pre f p1 old p2 post new :
  fr_payload f = p1 ++ old ++ p2 -> zlen new = zlen old ->
  splice (pre ++ frame_bytes f ++ post) (zlen pre + k_h2_frame_header_len + zlen p1) (zlen old) new
  = pre ++ frame_bytes (with_payload f (p1 ++ new ++ p2)) ++ post.
Proof.
  intros Hp Hn. unfold frame_bytes, with_payload. cbn [fr_payload fr_type fr_flags fr_stream].
  set (h := be_bytes 3 (zlen (fr_payload f)) ++ [fr_type f; fr_flags f] ++ be_bytes 4 (fr_stream f)).
  assert (Hh : zlen h = 9) by (unfold h; rewrite be_bytes_3, be_bytes_4; done).
  replace (be_bytes 3 (zlen (p1 ++ new ++ p2))) with (be_bytes 3 (zlen (fr_payload f)))
    by (f_equal; rewrite Hp, !zlen_app; lia).
  transitivity (splice ((pre ++ h ++ p1) ++ old ++ (p2 ++ post)) (zlen pre + k_h2_frame_header_len + zlen p1) (zlen old) new).
  - f_equal. unfold h. rewrite Hp at 2. by rewrite <- !app_assoc.
  - rewrite splice_app; [|rewrite !zlen_app, Hh; kunfold; lia|done]. unfold h. by rewrite <- !app_assoc.
Qed.

(** Adopting the field at [target] rewrites at most its span id. *)
Lemma adopt_inv (st : inj M) target off tp :
  typed st -> wf_tp tp -> in_frame (m_bytes (i_msg st)) (i_t st) ->
  0 <= target -> 0 <= off -> target + off + SPAN_ID_CHAR_LEN <= t_h2_hpack_len (i_t st) ->
  chain_inv (adopt_h2_tp e st target off tp).
Proof.
  intros Ht Htp Hin Htg Hof Hle. pose proof (adopt_typed e st target off tp Ht Htp) as Hty.
  unfold adopt_h2_tp in *. destruct (urand_bytes _ _ _) as [fresh k].
  destruct (apply_parent_tp _ _ _) as [tp' fwd] eqn:Happ. cbv zeta in *.
  set (soff := u32 (_ + _ + _)) in *.
  assert (Hkeep : forall m par x mp tk, m_bytes m = m_bytes (i_msg st) ->
    typed (mk_inj m (i_sock st) (i_t st) par x mp tk) ->
    chain_inv (resume (mk_inj m (i_sock st) (i_t st) par x mp tk) (frame_end (i_t st)))).
  { intros m par x mp tk Hm Hx. apply (resume_unchanged (mk_inj m _ _ par x mp tk)); [by cbn; rewrite Hm|done]. }
  destruct fwd; [|by apply Hkeep]. pose proof (pull_bytes (i_msg st) soff (u32 (soff + SPAN_ID_CHAR_LEN))) as Hpb.
  destruct (m_pull _ _ _) as [ok m1]. cbn [snd] in Hpb. destruct (ok && _); [|by apply Hkeep].
  split; [exact Hty|]. destruct Hin as (Hsz & Hlt & _ & fs1 & fs1' & f & fs2 & Hs & Hd).
  destruct (describes_window _ _ _ Hd (target + off) SPAN_ID_CHAR_LEN ltac:(lia) ltac:(done) ltac:(lia))
    as (p1 & w & p2 & Hp & Hw & Hoff). pose proof Hs as (_ & _ & Hb). destruct Hd as (Hh & Hfo & Hpl & _).
  assert (Hspan : zlen (encode_hex (span_id tp')) = zlen w).
  { rewrite encode_hex_zlen, Hw. destruct Hty as [(_ & _ & _ & Hsl & _) _]. cbn in Hsl. by rewrite Hsl. }
  assert (Hz : zlen (m_bytes (i_msg st)) = zlen (pre0 ++ frames_bytes fs1') + (k_h2_frame_header_len
    + (zlen p1 + (zlen w + zlen p2))) + zlen (frames_bytes fs2))
    by (rewrite Hb, frames_bytes_cons, !zlen_app, frame_bytes_zlen, Hp, !zlen_app; lia).
  pose proof (zlen_nonneg (pre0 ++ frames_bytes fs1')). pose proof (zlen_nonneg p1). pose proof (zlen_nonneg p2).
  pose proof (zlen_nonneg (frames_bytes fs2)). pose proof Hsz as [? Hsz'].
  assert (Hso : soff = zlen (pre0 ++ frames_bytes fs1') + k_h2_frame_header_len + zlen p1)
    by (unfold soff; rewrite <- Z.add_assoc, Hoff, wrap_small by (kunfold; lia); done).
  cbn [set_t i_msg i_t]. rewrite store_writes, Hpb, Hso, Hb, frames_bytes_cons, app_assoc, Hspan.
  2: { rewrite Hso. kunfold. lia. }
  2: { unfold m_size. rewrite Hpb, Hso, Hspan. lia. }
  rewrite (splice_frame _ f p1 w p2) by done. rewrite <- app_assoc.
  set (f' := with_payload f (p1 ++ encode_hex (span_id tp') ++ p2)).
  assert (Hl : zlen (fr_payload f') = zlen (fr_payload f)) by (unfold f'; cbn; rewrite Hp, !zlen_app; lia).
  eapply resume_boundary; [exact Hs|exact (edit_span f p1 w _ p2 Hh Hp Hw (eq_trans Hspan Hw))|done|done|kunfold; lia|done|].
  cbn [t_h2_scan_pos h2_resume_after]. unfold frame_end. rewrite Hfo, Hpl, Hp, wrap_small; rewrite !zlen_app in *.
  - rewrite frame_bytes_zlen, Hl, Hp, !zlen_app. lia.
  - kunfold. lia.
Qed.

Lemma validate_plain_off p avail tp off tp' :
  wf_tp tp -> validate_h2_tp_plain p avail tp = Some (off, tp') ->
  wf_tp tp' /\ 0 <= off /\ off + SPAN_ID_CHAR_LEN <= avail.
Proof.
  intros Hwf. unfold validate_h2_tp_plain. destruct (Z.ltb_spec avail k_h2_tp_hpack_size); [done|].
  destruct (negb _); [done|]. destruct (negb _); [done|]. destruct (decode_tp_value _ _) eqn:E; [|done].
  intros [= <- <-]. split_and!; [by eapply decode_value_wf|done|kunfold; lia].
Qed.

Lemma validate_huffman_off p avail tp off tp' :
  wf_tp tp -> validate_h2_tp_huffman p avail tp = Some (off, tp') ->
  wf_tp tp' /\ 0 <= off /\ off + SPAN_ID_CHAR_LEN <= avail.
Proof.
  intros Hwf. unfold validate_h2_tp_huffman. destruct (Z.ltb_spec avail k_h2_tp_hpack_huffman_size); [done|].
  destruct (negb _); [done|]. destruct (negb _); [done|]. destruct (decode_tp_value _ _) eqn:E; [|done].
  intros [= <- <-]. split_and!; [by eapply decode_value_wf|done|kunfold; lia].
Qed.

Lemma retry_chain_inv (st : inj M) p :
  typed st -> in_frame (m_bytes (i_msg st)) (i_t st) -> 0 <= p -> chain_inv (retry_h2_tp st p).
Proof.
  intros Ht Hin Hp. unfold retry_h2_tp. pose proof Hin as (_ & _ & Hc & _). destruct (_ <=? p); [done|].
  destruct (_ <=? _); (split; [done|]); by apply in_frame_candidate.
Qed.

Lemma validate_inv (st : inj M) :
  typed st -> in_frame (m_bytes (i_msg st)) (i_t st) -> chain_inv (obi_packet_extender_validate_h2_tp e st).
Proof.
  intros Ht Hin. unfold obi_packet_extender_validate_h2_tp. cbv zeta.
  destruct (_ <=? t_h2_tp_candidate_pos _); [done|].
  destruct (Z.leb_spec (t_h2_hpack_len (i_t st)) (t_h2_tp_candidate_pos (i_t st))) as [|Hlt]; [done|].
  set (tg := t_h2_tp_candidate_pos (i_t st)) in *. set (start := u32 _).
  pose proof (window_bytes (i_msg st) start (t_h2_hpack_len (i_t st) - tg)) as Hb.
  assert (Hview : forall w, fst (pull_hpack_window (i_msg st) start (t_h2_hpack_len (i_t st) - tg)) = true ->
    m_view (snd (pull_hpack_window (i_msg st) start (t_h2_hpack_len (i_t st) - tg))) = Some w ->
    w <= t_h2_hpack_len (i_t st) - tg).
  { intros w. unfold pull_hpack_window. destruct (_ <? _) eqn:E1; [done|]. set (pl := if _ <? _ then _ else _).
    assert (Hpl : 0 <= pl <= t_h2_hpack_len (i_t st) - tg).
    { unfold pl. destruct (Z.ltb_spec (t_h2_hpack_len (i_t st) - tg) (k_h2_max_hpack_scan + k_h2_tp_hpack_size));
        kunfold; lia. }
    intros Hok Hv. pose proof (pull_view _ _ _ _ Hok Hv) as ->.
    destruct Hin as ([_ Hsz] & Hf4 & _ & fs1 & fs1' & f & fs2 & (_ & _ & Hby) & (_ & _ & _ & _ & pfx & Hx0 & Hx1 & Hx2)).
    rewrite Hby, frames_bytes_cons, app_assoc in Hsz. rewrite !(zlen_app (pre0 ++ _)), (zlen_app (frame_bytes f)), frame_bytes_zlen in Hsz.
    pose proof (zlen_nonneg (pre0 ++ frames_bytes fs1')). pose proof (zlen_nonneg (frames_bytes fs2)).
    assert (0 <= start) by apply Z.mod_pos_bound, eq_refl.
    assert (u32 (start + pl) <= start + pl) by (apply Z.mod_le; lia). lia. }
  destruct (pull_hpack_window _ _ _) as [ok m]. cbn [fst snd] in Hb, Hview.
  pose proof Hin as (_ & _ & Htg & _). fold tg in Htg.
  assert (Hm : in_frame (m_bytes m) (i_t st)) by by rewrite Hb.
  destruct (negb ok || _) eqn:Eok; [by split|].
  apply orb_false_iff in Eok as [Hok Hvo]. destruct ok; [|done]. unfold view_ok in Hvo.
  destruct (m_view m) as [w|] eqn:Hv; [|done]. cbn [default]. unfold id. specialize (Hview w eq_refl eq_refl).
  destruct (h2_tp_classify _ _).
  - apply retry_chain_inv; [done|exact Hm|lia].
  - split; [done|]. by apply in_frame_candidate.
  - destruct (_ =? k_h2_nlb_plain).
    + destruct (validate_h2_tp_plain _ _ _) as [[off tp]|] eqn:Ev.
      * apply validate_plain_off in Ev as (Hwf & Ho & Hl); [|apply Ht]. apply adopt_inv; [done|done|exact Hm|done|done|cbn; lia].
      * apply retry_chain_inv; [done|exact Hm|kunfold; lia].
    + destruct (validate_h2_tp_huffman _ _ _) as [[off tp]|] eqn:Ev.
      * apply validate_huffman_off in Ev as (Hwf & Ho & Hl); [|apply Ht]. apply adopt_inv; [done|done|exact Hm|done|done|cbn; lia].
      * apply retry_chain_inv; [done|exact Hm|kunfold; lia].
Qed.

Lemma create_inv (st : inj M) :
  typed st -> in_frame (m_bytes (i_msg st)) (i_t st) -> chain_inv (obi_packet_extender_create_h2_tp e st).
Proof.
  intros Ht Hin. pose proof (create_typed e st Ht) as Hty. unfold obi_packet_extender_create_h2_tp in *. cbv zeta in *.
  set (st0 := mk_inj _ _ _ _ _ _ _) in *.
  destruct (negb _); [by apply (resume_unchanged st0)|]. cbn [fst] in Hty. split; [exact Hty|].
  destruct (create_context_keeps e st0 (existing_tp e st0)) as (-> & -> & _).
  destruct (nz _); [exact Hin|]. by eapply frame_framed.
Qed.

Lemma write_inv (st : inj M) :
  typed st -> in_frame (m_bytes (i_msg st)) (i_t st) -> chain_inv (obi_packet_extender_write_h2_tp e st).
Proof.
  intros Ht Hin. pose proof Hin as (Hsz & Hlt & _ & fs1 & fs1' & f & fs2 & Hs & Hd).
  destruct (describes_window _ _ _ Hd (t_h2_hpack_len (i_t st)) 0) as (p1 & w & p2 & Hp & Hw & Hoff);
    [destruct Hd as (_ & _ & _ & ? & _); lia|lia|lia|].
  assert (w = []) as -> by (destruct w; [done|unfold zlen in Hw; simpl in Hw; lia]). cbn [app] in Hp.
  pose proof Hs as (_ & _ & Hb). rewrite frames_bytes_cons, app_assoc in Hb. pose proof Hd as (Hh & Hfo & Hpl & _).
  assert (Hfa : frame_at (m_bytes (i_msg st)) (i_t st) (pre0 ++ frames_bytes fs1') f p1 p2 (frames_bytes fs2)).
  { destruct Hsz as [? Hsz]. split_and!; try done. kunfold. lia. }
  pose proof (write_typed e st Ht) as Hty'. pose proof (write_frames e st) as Hfr.
  pose proof (write_cases e st _ _ _ _ _ Hfa) as Hc.
  destruct Ht as [(_ & Htl & _ & Hsl & _) _]. specialize (Hc Htl Hsl). cbv zeta in Hc.
  destruct (obi_packet_extender_write_h2_tp e st) as [st' next] eqn:Ew. cbn [fst] in Hty'.
  destruct Hc as [-> |[(-> & -> & _)|[(-> & Hm & _ & Hpos)|(-> & Hm & Hpos & _)]]]; (split; [done|]).
  - done.
  - by eapply frame_framed.
  - rewrite Hm, Hb, <- !app_assoc. rewrite <- app_assoc in Hpos.
    eapply resume_boundary; [exact Hs|apply edit_none|done|done|kunfold; lia|by apply Hfr|done].
  - rewrite Hm, <- !app_assoc. rewrite <- app_assoc in Hpos. set (field := make_h2_tp_hpack _) in *.
    assert (Hfl : zlen field = k_h2_tp_hpack_size) by by apply make_h2_tp_hpack_zlen.
    eapply resume_boundary; [exact Hs|by apply edit_insert|done|done| |by apply Hfr|done].
    cbn [fr_payload with_payload]. rewrite Hp, !zlen_app. lia.
Qed.

Lemma detect_inv (st : inj M) :
  typed st -> at_boundary (m_bytes (i_msg st)) (i_t st) -> chain_inv (h2_step snap env e st inj_detect).
Proof.
  intros Ht Hbd. pose proof Hbd as ([Hr Hsz] & fs1 & fs1' & fs2 & Hs & Hpos). pose proof Hs as (Hf & _ & Hb).
  cbn [h2_step]. set (msg := snap (i_msg st)). set (env' := detect_env env e st).
  destruct (obi_packet_extender_detect_h2 env' msg (i_sock st) (i_t st)) as [[s' t'] next] eqn:Ed.
  assert (Hm : msg_bytes msg = (pre0 ++ frames_bytes fs1') ++ frames_bytes fs2)
    by (unfold msg; rewrite Hsnap, Hb, app_assoc; done).
  assert (Hfs2 : Forall frame_small fs2) by (rewrite Hf in Hfs0; by apply Forall_app in Hfs0 as [_ ?]).
  assert (Hsm : msg_size msg < 2 ^ 31).
  { unfold msg_size. rewrite Hm, <- app_assoc, <- Hb. kunfold. lia. }
  assert (Hd : detected (pre0 ++ frames_bytes fs1') fs2 (i_t st) t' next).
  { eapply detect_detected; [exact Hm|done|done| |exact Ed]. destruct Hpos as [Hpos|(Hpos & -> & ->)]; [by left|].
    right. split; [done|]. apply app_nil_r. }
  split; [done|]. cbn [i_msg i_t set_t set_sock]. destruct next; cbn [of_next].
  - by eapply boundary_framed.
  - cbn [detected] in Hd. by subst t'.
  - destruct Hd as (Hfr & fa & fb & -> & Hp).
    destruct (detect_next _ _ _ _ _ _ _ Ed ltac:(lia)) as [?|[?|[(? & _)|(_ & Hlt & _)]]]; try done.
    rewrite wrap_small in Hfr by lia. split; [split; [lia|rewrite Hfr; kunfold; lia]|].
    exists (fs1 ++ fa), (fs1' ++ fa), fb. split; [by apply split_move|]. left.
    by rewrite frames_bytes_app, app_assoc.
  - destruct Hd as (Hfr & Hc & fa & f & fb & -> & Hdesc).
    destruct (detect_injects _ _ _ _ _ _ Ed) as (_ & _ & Hlt & _).
    split_and!; [by unfold size_ok; rewrite Hfr|by rewrite Hfr|by rewrite Hc|].
    exists (fs1 ++ fa), (fs1' ++ fa), f, fb. split; [by apply split_move|]. by rewrite frames_bytes_app, app_assoc.
Qed.

(** Every program keeps the invariant. *)
Lemma step_inv st prog : chain_inv (st, prog) -> chain_inv (h2_step snap env e st prog).
Proof.
  intros [Ht Hi]. destruct prog; cbn [h2_step]; try done.
  - by apply detect_inv.
  - destruct (obi_packet_extender_sniff_h2 _ _) as [s' next] eqn:Es.
    destruct (sniff_next _ _ _ _ Es) as [-> |[-> _]]; (split; [done|]); [by eapply boundary_framed|done].
  - pose proof Hi as (_ & _ & Hc & _). destruct (find_looks st Hc) as (m & c & -> & Hm & Hc').
    split; [done|]. cbn [set_t set_msg i_msg i_t]. rewrite Hm. by apply in_frame_candidate.
  - by apply validate_inv.
  - by apply create_inv.
  - destruct (ie_can_roll_back e); [by apply write_inv|by apply resume_unchanged].
Qed.

Lemma chain_inv_run fuel st prog x :
  chain_inv (st, prog) -> h2_chain snap fuel env e st prog = Some x -> chain_inv x.
Proof.
  revert st prog. induction fuel as [|fuel IH]; intros st prog Hi Hr.
  - destruct prog; cbn [h2_chain] in Hr; by simplify_eq.
  - pose proof (step_inv st prog Hi) as Hs.
    destruct prog; cbn [h2_chain] in Hr; simplify_eq; try done;
      destruct (h2_step _ _ _ _ _) as [st' next]; by eapply IH.
Qed.

End framing.

(** ** Properties *)

(** C6: a send keeps its framing.  Take a message that is HTTP/2 frames, or the connection preface and
    HTTP/2 frames, sent on any socket in any state, and run the whole chain of tail calls on it,
    detection, scan and injection, with any behaviour of the kernel helpers, the maps and the
    oracles.  If the message passes, it is the same prefix followed by the same frames in the same
    order, each one unchanged, or a HEADERS frame with one 69-octet field inserted in its payload
    and its length field in step, or a HEADERS frame with the 16 characters of a span id
    overwritten. *)
Theorem h2_send_keeps_framing {M} `{SkMsgLaws M} `{!SkMsgView M} (snap : M -> sk_msg) env e `{!EnvTyped e}
    fuel (st st' : inj M) prog pre fs :
  (forall m, msg_bytes (snap m) = m_bytes m) ->
  Forall frame_small fs -> pre = [] \/ pre = HTTP2_GRPC_PREFACE ->
  m_bytes (i_msg st) = pre ++ frames_bytes fs -> zlen (m_bytes (i_msg st)) + 4 * k_h2_tp_hpack_size < 2 ^ 31 ->
  typed st -> t_h2_scan_pos (i_t st) = 0 -> t_h2_frames (i_t st) = 0 ->
  prog = inj_detect \/ prog = inj_sniff ->
  h2_chain snap fuel env e st prog = Some (st', inj_pass) ->
  exists fs', Forall2 frame_edit fs fs' /\ m_bytes (i_msg st') = pre ++ frames_bytes fs'.
Proof.
  intros Hsnap Hfs Hpre Hb Hsz Ht Hpos Hfr Hprog Hr.
  assert (Hi : chain_inv pre fs (st, prog)).
  { assert (Ha : at_boundary pre fs (m_bytes (i_msg st)) (i_t st)).
    { split; [unfold size_ok; rewrite Hfr; split; [lia|kunfold; lia]|]. exists [], [], fs.
      split; [by split_and!|]. rewrite Hpos. destruct Hpre as [-> | ->]; [by left|by right]. }
    by destruct Hprog as [-> | ->]. }
  by destruct (chain_inv_run snap Hsnap env e pre fs Hfs fuel _ _ _ Hi Hr) as [_ Hf].
Qed.

#[export] Instance example_env_typed : EnvTyped example_inj_env.
Proof. constructor; intros; [done|]. cbn. lia. Qed.

(** The preface, SETTINGS and two requests in one send, both requests extended. *)
Definition example_send : list h2_frame := [example_settings; example_request; example_request'].

Lemma example_send_small : Forall frame_small example_send.
Proof.
  unfold example_send. rewrite !Forall_cons. unfold frame_small, frame_wf, is_bytes.
  split_and!; try done; cbn [fr_payload example_settings example_request example_request']; by repeat constructor.
Qed.

Lemma h2_send_keeps_framing_witness :
  exists st' fs', h2_chain (fun m => msg_of (m_bytes m)) 31 example_env example_inj_env
    (mk_inj (mk_windowed (HTTP2_GRPC_PREFACE ++ frames_bytes example_send) None) example_sock example_tctx None
       zero_tp_info_pid ∅ 0) inj_detect = Some (st', inj_pass)
  /\ Forall2 frame_edit example_send fs' /\ m_bytes (i_msg st') = HTTP2_GRPC_PREFACE ++ frames_bytes fs'
  /\ zlen (m_bytes (i_msg st')) = 24 + 9 + 11 + 11 + 2 * 69.
Proof.
  set (st := mk_inj (mk_windowed (HTTP2_GRPC_PREFACE ++ frames_bytes example_send) None) example_sock example_tctx None
    zero_tp_info_pid ∅ 0).
  destruct (h2_chain (fun m => msg_of (m_bytes m)) 31 example_env example_inj_env st inj_detect) as [[st' next]|] eqn:E;
    [|vm_compute in E; discriminate].
  assert (next = inj_pass /\ zlen (m_bytes (i_msg st')) = 24 + 9 + 11 + 11 + 2 * 69) as [-> Hz]
    by (vm_compute in E; injection E as <- <-; by vm_compute).
  destruct (h2_send_keeps_framing (fun m => msg_of (m_bytes m)) example_env example_inj_env 31 st st' inj_detect
    HTTP2_GRPC_PREFACE example_send (fun _ => eq_refl) example_send_small (or_intror eq_refl) ltac:(by vm_compute) ltac:(by vm_compute)
    (conj wf_zero_tp (map_Forall_empty _)) eq_refl eq_refl (or_introl eq_refl) E) as (fs' & He & Hm).
  exists st', fs'. exact (conj eq_refl (conj He (conj Hm Hz))).
Defined.

