(* ===== verification/H1Inject.v ===== *)
(** * The HTTP/1 injection programs ([bpf/tpinjector/tpinjector.c], [bpf/common/tc_common.h]).

    [find_existing_tp] looks for a Traceparent header in the first four kilobytes of a request,
    [parse_existing_tp] adopts it, [create_tp] makes a trace context, and [write_msg_tp] inserts the
    header behind the request line.  As in [H2Inject] the message is behind [SkMsgOps], what other
    programs decide is in [inj_env], and a tail call is a value, here of [h1_next].  The programs read
    the window the entry program pulled at offset 0. *)

From Stdlib Require Import ZArith Lia ZifyBool List Bool.
From stdpp Require Import base list relations.
From S2P Require Import Prelude TraceUtil Sampling H2Defs HpackParse H2Txn H2Inject.

Local Open Scope Z_scope.

(** ** Definitions *)

Definition TP_SIZE : Z := 70.
Definition TP_TID_PREFIX_SIZE : Z := 16.
Definition MAX_INLINE_LEN : Z := 0x3ff.
Definition INVALID_POS : Z := 0xffffffff.
Definition k_http1_max_scan_iters : Z := 4.
Definition k_http1_scan_chunk_size : Z := 1024.
Definition k_inject_tcp_options : Z := 2.

#[export] Hint Unfold TP_SIZE TP_TID_PREFIX_SIZE MAX_INLINE_LEN INVALID_POS k_http1_max_scan_iters
  k_http1_scan_chunk_size k_inject_tcp_options : kconst.

(** The loop of [memchar_pos] from [i] on; [avail] is [end - haystack]. *)
Fixpoint memchar_loop (n : nat) (haystack : buf) (needle avail i : Z) : Z :=
  match n with
  | O => INVALID_POS
  | S n' =>
      if avail <? i + 2 then INVALID_POS
      else if haystack i =? needle then i
      else memchar_loop n' haystack needle avail (i + 1)
  end.

Definition memchar_pos (haystack : buf) (needle avail size : Z) : Z :=
  memchar_loop (Z.to_nat size) haystack needle avail 0.

Definition find_first_pos_of (data : buf) (avail ch : Z) : Z := memchar_pos data ch avail MAX_INLINE_LEN.

(** The loop of [memchar] from [i] on: the offset, or [None] for the null pointer. *)
Fixpoint memchar_ptr_loop (n : nat) (haystack : buf) (needle avail i : Z) : option Z :=
  match n with
  | O => None
  | S n' =>
      if avail <? i + 1 then None
      else if haystack i =? needle then Some i
      else memchar_ptr_loop n' haystack needle avail (i + 1)
  end.

Definition find_first_of (data : buf) (avail ch : Z) : option Z :=
  memchar_ptr_loop (Z.to_nat MAX_INLINE_LEN) data ch avail 0.

(** The bytes [make_tp_string_skb] writes when the room check passes. *)
Definition make_tp_string_skb (tp : tp_info) : list Z :=
  [84; 114; 97; 99; 101; 112; 97; 114; 101; 110; 116; 58; 32; 48; 48; 45]
  ++ encode_hex (trace_id tp) ++ [45] ++ encode_hex (span_id tp) ++ [45]
  ++ [48; 48 + Z.land (flags tp) k_flag_sampled; 13; 10].

(** How a program ends. *)
Inductive h1_next := h1_pass | h1_find | h1_parse | h1_create | h1_write.

#[export] Instance h1_next_eq_dec : EqDecision h1_next.
Proof. solve_decision. Defined.

(** The message, the two fields of [tailcall_ctx] the chain uses, the scratch [tp_info_pid_t], the
    connection's entry of [outgoing_trace_map], whether [msg->sk] can hold storage, its
    [sk_tp_info_pid_map] entry, and the counter of the oracles. *)
Record h1 (M : Type) := mk_h1 {
  h_msg : M;
  h_niter : Z;
  h_tp_offset : Z;
  h_tp : tp_info_pid;
  h_entry : option tp_info_pid;
  h_sk_storage : bool;
  h_option : option tp_info_pid;
  h_tick : nat
}.
Arguments mk_h1 {M}.
Arguments h_msg {M}.
Arguments h_niter {M}.
Arguments h_tp_offset {M}.
Arguments h_tp {M}.
Arguments h_entry {M}.
Arguments h_sk_storage {M}.
Arguments h_option {M}.
Arguments h_tick {M}.

Definition set_written (x : tp_info_pid) : tp_info_pid :=
  mk_tp_info_pid (tpp_tp x) (tpp_pid x) (tpp_valid x) 1 (tpp_req_type x) (tpp_response_sent x).

Section h1_programs.
Context {M : Type} `{SkMsgOps M}.

Definition extend_and_write_tp (m : M) (offset : Z) (tp : tp_info) : bool * M :=
  let '(ok, m) := m_push m offset TP_SIZE in
  if negb ok then (false, m)
  else
    let '(_, m) := m_pull m 0 (m_size m) in
    match m_view m with
    | None => (false, m)
    | Some w =>
        if w <? offset + TP_SIZE + 1 then (false, m)
        else (true, m_store m offset (make_tp_string_skb tp))
    end.

Definition write_msg_traceparent (m : M) (tp : tp_info) : bool * M :=
  match m_view m with
  | None => (false, m)
  | Some w =>
      let newline_pos := find_first_pos_of (m_data m 0) w 10 in
      if newline_pos =? INVALID_POS then (false, m) else extend_and_write_tp m (newline_pos + 1) tp
  end.

(** The loop of [find_existing_tp] over [n] octets from offset [pos]: the offset of a header, the
    end of the headers, or [None] when the chunk is through. *)
Fixpoint find_tp_loop (n : nat) (data : buf) (avail pos : Z) : option (option Z) :=
  match n with
  | O => None
  | S n' =>
      if (avail <? pos + TP_SIZE + 1) || is_eoh (shift data pos) then Some None
      else if is_traceparent (shift data pos) then Some (Some pos)
      else find_tp_loop n' data avail (pos + 1)
  end.

Definition set_h1 (st : h1 M) (niter offset : Z) : h1 M :=
  mk_h1 (h_msg st) niter offset (h_tp st) (h_entry st) (h_sk_storage st) (h_option st) (h_tick st).

Definition obi_packet_extender_find_existing_tp (st : h1 M) : h1 M * h1_next :=
  let niter := h_niter st in
  if k_http1_max_scan_iters <=? niter then (st, h1_pass)
  else match m_view (h_msg st) with
  | None => (st, h1_pass)
  | Some avail =>
      let start := niter * k_http1_scan_chunk_size in
      if avail <? start + 1 then (st, h1_pass)
      else
        let data_size := Z.min (avail - start) k_http1_scan_chunk_size in
        match find_tp_loop (Z.to_nat data_size) (m_data (h_msg st) 0) avail start with
        | Some None => (st, h1_create)
        | Some (Some pos) => (set_h1 st niter pos, h1_parse)
        | None =>
            let niter := u8 (niter + 1) in
            let st := set_h1 st niter (h_tp_offset st) in
            (st, if niter <? k_http1_max_scan_iters then h1_find else h1_create)
        end
  end.

Definition schedule_write_tcp_option (st : h1 M) (tp_p : tp_info_pid) : option tp_info_pid * tp_info_pid :=
  if h_sk_storage st then (Some tp_p, set_written tp_p) else (h_option st, tp_p).

(** What [parse_existing_tp] and [create_tp] share: publish, and offer to the TCP option. *)
Definition publish_tp (e : inj_env) (st : h1 M) (m : M) (tp_p : tp_info_pid) (tick : nat) : h1 M :=
  let entry := if ie_room e (h_tick st) || bool_decide (is_Some (h_entry st)) then Some tp_p else h_entry st in
  let '(opt, tp_p) :=
    if nz (Z.land (ie_inject_flags e) k_inject_tcp_options) then schedule_write_tcp_option st tp_p
    else (h_option st, tp_p) in
  mk_h1 m (h_niter st) (h_tp_offset st) tp_p entry (h_sk_storage st) opt tick.

(** The scratch context with the ids and flags read so far. *)
Definition set_scratch (st : h1 M) (trace span : list Z) (fl : Z) : h1 M :=
  let x := h_tp st in
  mk_h1 (h_msg st) (h_niter st) (h_tp_offset st)
    (mk_tp_info_pid (mk_tp_info trace span (parent_id (tpp_tp x)) (ts (tpp_tp x)) fl)
       (tpp_pid x) (tpp_valid x) (tpp_written x) (tpp_req_type x) (tpp_response_sent x))
    (h_entry st) (h_sk_storage st) (h_option st) (h_tick st).

Definition obi_packet_extender_parse_existing_tp (e : inj_env) (st : h1 M) : h1 M * h1_next :=
  let x := tpp_tp (h_tp st) in
  let offset := clamp_umax (h_tp_offset st) (k_http1_max_scan_iters * k_http1_scan_chunk_size - 1) in
  let p := m_data (h_msg st) offset in
  match m_view (h_msg st) with
  | None => (st, h1_pass)
  | Some avail =>
      if (avail <? offset + TP_SIZE + 1) || negb (is_traceparent p) then (st, h1_pass)
      else
        let trace := decode_hex (shift p TP_TID_PREFIX_SIZE) TRACE_ID_CHAR_LEN in
        if negb (p 48 =? 45) then (set_scratch st trace (span_id x) (flags x), h1_pass)
        else
          let span := decode_hex (shift p 49) SPAN_ID_CHAR_LEN in
          if negb (p 65 =? 45) then (set_scratch st trace span (flags x), h1_pass)
          else
            let fl := hd 0 (decode_hex (shift p 66) FLAGS_CHAR_LEN) in
            if negb (p 68 =? 13) || negb (p 69 =? 10) then (set_scratch st trace span fl, h1_pass)
            else
              let tp := mk_tp_info trace span (repeat 0 8) (ie_now e (h_tick st)) fl in
              let parent := ie_parent e (h_tick st) in
              let '(fresh, _) := urand_bytes (ie_rnd e) (S (h_tick st)) SPAN_ID_SIZE_BYTES in
              let '(tp, forwarded) := apply_parent_tp parent tp fresh in
              let m := if forwarded then m_store (h_msg st) (offset + 49) (encode_hex (span_id tp)) else h_msg st in
              let tp_p := mk_tp_info_pid tp (ie_pid e) 1 1 k_event_type_http_client (tpp_response_sent (h_tp st)) in
              (publish_tp e st m tp_p (S (h_tick st) + 2), h1_pass)
  end.

Definition obi_packet_extender_create_tp (e : inj_env) (st : h1 M) : h1 M * h1_next :=
  let parent := ie_parent e (h_tick st) in
  let '(tp_p, k) :=
    create_trace_info parent (ie_pid e) (ie_rnd e) (S (h_tick st)) (ie_sampler e) (h_tp st) in
  (publish_tp e st (h_msg st) (set_written tp_p) k,
   if nz (Z.land (ie_inject_flags e) k_inject_http_headers) then h1_write else h1_pass).

Definition obi_packet_extender_write_msg_tp (st : h1 M) : h1 M * h1_next :=
  let '(_, m) := m_pull (h_msg st) 0 (m_size (h_msg st)) in
  let '(_, m) := write_msg_traceparent m (tpp_tp (h_tp st)) in
  (mk_h1 m (h_niter st) (h_tp_offset st) (h_tp st) (h_entry st) (h_sk_storage st) (h_option st) (h_tick st), h1_pass).

Definition h1_step (e : inj_env) (st : h1 M) (prog : h1_next) : h1 M * h1_next :=
  match prog with
  | h1_pass => (st, h1_pass)
  | h1_find => obi_packet_extender_find_existing_tp st
  | h1_parse => obi_packet_extender_parse_existing_tp e st
  | h1_create => obi_packet_extender_create_tp e st
  | h1_write => obi_packet_extender_write_msg_tp st
  end.

Fixpoint h1_chain (fuel : nat) (e : inj_env) (st : h1 M) (prog : h1_next) : option (h1 M) :=
  match prog with
  | h1_pass => Some st
  | _ =>
      match fuel with
      | O => None
      | S fuel' => let '(st', next) := h1_step e st prog in h1_chain fuel' e st' next
      end
  end.

End h1_programs.

(** ** The scan *)

(** Offset [i] starts neither a Traceparent header nor the end of the headers, and a header that
    started there would fit. *)
Definition clean_at (data : buf) (avail i : Z) : Prop :=
  i + TP_SIZE + 1 <= avail /\ is_eoh (shift data i) = false /\ is_traceparent (shift data i) = false.

Lemma find_tp_loop_spec n data avail pos :
  match find_tp_loop n data avail pos with
  | None => forall i, pos <= i < pos + Z.of_nat n -> clean_at data avail i
  | Some None =>
      exists k, pos <= k < pos + Z.of_nat n /\ (avail < k + TP_SIZE + 1 \/ is_eoh (shift data k) = true)
      /\ forall i, pos <= i < k -> clean_at data avail i
  | Some (Some k) =>
      pos <= k < pos + Z.of_nat n /\ k + TP_SIZE + 1 <= avail /\ is_traceparent (shift data k) = true
      /\ forall i, pos <= i < k -> clean_at data avail i
  end.
Proof.
  revert pos. induction n as [|n IH]; intros pos; cbn [find_tp_loop]; [intros; lia|].
  destruct (Z.ltb_spec avail (pos + TP_SIZE + 1)); cbn [orb].
  { exists pos. split_and!; [lia..|by left|intros; lia]. }
  destruct (is_eoh (shift data pos)) eqn:He; [exists pos; split_and!; [lia..|by right|intros; lia]|].
  destruct (is_traceparent (shift data pos)) eqn:Ht; [split_and!; [lia..|done|intros; lia]|].
  assert (Hpos : clean_at data avail pos) by done.
  assert (Hext : forall k (P : Prop), (forall i, pos + 1 <= i < k -> clean_at data avail i) ->
    forall i, pos <= i < k -> clean_at data avail i)
    by (intros k P Hk i Hi; destruct (Z.eq_dec i pos) as [-> |]; [done|apply Hk; lia]).
  specialize (IH (pos + 1)). destruct (find_tp_loop n data avail (pos + 1)) as [[k|]|].
  - destruct IH as (Hk & ? & ? & Hc). split_and!; [lia..|done|by apply (Hext k True)].
  - destruct IH as (k & Hk & ? & Hc). exists k. split_and!; [lia..|done|by apply (Hext k True)].
  - apply (Hext _ True). intros i Hi. apply IH. lia.
Qed.

Section scan.
Context {M : Type} `{SkMsgOps M} (e : inj_env).

Inductive h1_steps_to : h1 M * h1_next -> h1 M * h1_next -> Prop :=
  | h1_does st prog : prog <> h1_pass -> h1_steps_to (st, prog) (h1_step e st prog).

(** Where the scan of the message [m] can stand. *)
Definition h1_scan_inv (m : M) (avail : Z) (x : h1 M * h1_next) : Prop :=
  let '(st, prog) := x in
  let data := m_data m 0 in
  match prog with
  | h1_find => h_msg st = m /\ 0 <= h_niter st < 4
               /\ forall i, 0 <= i < k_http1_scan_chunk_size * h_niter st -> clean_at data avail i
  | h1_parse =>
      h_msg st = m /\ 0 <= h_tp_offset st < 4096 /\ h_tp_offset st + TP_SIZE + 1 <= avail
      /\ is_traceparent (shift data (h_tp_offset st)) = true
      /\ forall i, 0 <= i < h_tp_offset st -> clean_at data avail i
  | h1_create =>
      h_msg st = m /\ exists k, 0 <= k <= 4096
      /\ (k = 4096 \/ avail < k + TP_SIZE + 1 \/ is_eoh (shift data k) = true)
      /\ forall i, 0 <= i < k -> clean_at data avail i
  | _ => True
  end.

Lemma h1_find_inv m avail st :
  m_view m = Some avail -> h1_scan_inv m avail (st, h1_find) ->
  h1_scan_inv m avail (obi_packet_extender_find_existing_tp st).
Proof.
  intros Hv (Hm & Hn & Hc). unfold obi_packet_extender_find_existing_tp. rewrite Hm, Hv.
  destruct (_ <=? _); [done|]. destruct (Z.ltb_spec avail (h_niter st * k_http1_scan_chunk_size + 1)); [done|].
  set (start := h_niter st * k_http1_scan_chunk_size) in *. set (n := Z.min _ _).
  assert (Hnn : 0 < n <= k_http1_scan_chunk_size) by (unfold n; kunfold; lia).
  assert (Hs : 0 <= start <= 3072) by (unfold start; kunfold; lia).
  assert (Hall : forall k, (forall i, start <= i < k -> clean_at (m_data m 0) avail i) ->
    forall i, 0 <= i < k -> clean_at (m_data m 0) avail i).
  { intros k Hk i Hi. destruct (Z.lt_ge_cases i start); [apply Hc; unfold start in *; lia|apply Hk; lia]. }
  pose proof (find_tp_loop_spec (Z.to_nat n) (m_data m 0) avail start) as Hl. rewrite Z2Nat.id in Hl by lia.
  destruct (find_tp_loop _ _ _ _) as [[k|]|].
  - destruct Hl as (Hk & Hf & Ht & Hcl). cbn. split_and!; [done|lia|kunfold; lia|lia|done|by apply Hall].
  - destruct Hl as (k & Hk & Hend & Hcl). split; [done|]. exists k.
    split_and!; [lia|kunfold; lia|by right|by apply Hall].
  - rewrite (wrap_small 8) by lia.
    assert (Hfull : n = k_http1_scan_chunk_size).
    { unfold n in *. apply Z.min_r. destruct (Z.le_gt_cases k_http1_scan_chunk_size (avail - start)); [done|].
      destruct (Hl (avail - 1)) as [? _]; [unfold start; kunfold; lia|]. kunfold. lia. }
    rewrite Hfull in Hl.
    assert (Hcl : forall i, 0 <= i < k_http1_scan_chunk_size * (h_niter st + 1) -> clean_at (m_data m 0) avail i)
      by (apply Hall; intros i Hi; apply Hl; unfold start; lia).
    destruct (Z.ltb_spec (h_niter st + 1) k_http1_max_scan_iters).
    + cbn. split_and!; [done|kunfold; lia..|done].
    + split; [done|]. exists 4096. split_and!; [lia..|by left|]. intros i Hi. apply Hcl. kunfold. lia.
Qed.

Lemma h1_step_inv m avail x y :
  m_view m = Some avail -> h1_steps_to x y -> h1_scan_inv m avail x -> h1_scan_inv m avail y.
Proof.
  intros Hv [st prog Hp] Hi. destruct prog; cbn [h1_step]; [done|by apply h1_find_inv|..].
  - unfold obi_packet_extender_parse_existing_tp. cbv zeta. destruct (m_view (h_msg st)); [|done].
    destruct (_ || _); [done|]. destruct (negb _); [done|]. destruct (negb _); [done|].
    destruct (_ || _); [done|]. destruct (urand_bytes _ _ _). by destruct (apply_parent_tp _ _ _).
  - unfold obi_packet_extender_create_tp. destruct (create_trace_info _ _ _ _ _ _). by destruct (nz _).
  - unfold obi_packet_extender_write_msg_tp. destruct (m_pull _ _ _). by destruct (write_msg_traceparent _ _).
Qed.

End scan.

(** ** Properties *)

(** An HTTP/1 header is added only to a request without one.  When the chain reaches [create_tp],
    the message is untouched and the scan has passed over it from the start to an offset [k], where
    the headers end, or too little is left of the message for another header, or four kilobytes
    are through: no Traceparent header, in either spelling, starts before [k]. *)
Theorem h1_create_needs_absence {M} `{SkMsgOps M} e (st st' : h1 M) avail :
  h_niter st = 0 -> m_view (h_msg st) = Some avail ->
  rtc (h1_steps_to e) (st, h1_find) (st', h1_create) ->
  h_msg st' = h_msg st
  /\ exists k, 0 <= k <= 4096
     /\ (k = 4096 \/ avail < k + TP_SIZE + 1 \/ is_eoh (shift (m_data (h_msg st) 0) k) = true)
     /\ forall i, 0 <= i < k -> is_traceparent (shift (m_data (h_msg st) 0) i) = false.
Proof.
  intros Hn Hv Hr.
  assert (Hi : h1_scan_inv (h_msg st) avail (st', h1_create)).
  { assert (H0 : h1_scan_inv (h_msg st) avail (st, h1_find))
      by (cbn; rewrite Hn; split_and!; [done|lia..|intros; lia]).
    revert H0. clear Hn. induction Hr as [|x y z Hs _ IH]; [done|]. intros Hx. by apply IH, (h1_step_inv e _ _ x). }
  destruct Hi as (Hm & k & Hk & Hend & Hc). split; [done|]. exists k. split_and!; [lia..|done|].
  intros i Hi. by apply Hc.
Qed.

(** "GET / HTTP/1.1", Host header, end of headers. *)
Definition example_get : list Z :=
  [71; 69; 84; 32; 47; 32; 72; 84; 84; 80; 47; 49; 46; 49; 13; 10]
  ++ [72; 111; 115; 116; 58; 32; 97; 13; 10; 13; 10].

Definition example_h1 (l : list Z) : h1 windowed :=
  mk_h1 (mk_windowed l (Some (zlen l))) 0 0 zero_tp_info_pid None true None 0.

Lemma h1_create_needs_absence_witness :
  exists st', rtc (h1_steps_to example_inj_env) (example_h1 example_get, h1_find) (st', h1_create)
  /\ h_msg st' = mk_windowed example_get (Some 27).
Proof.
  assert (Hr : exists st', rtc (h1_steps_to example_inj_env) (example_h1 example_get, h1_find) (st', h1_create)).
  { eexists. eapply rtc_l; [by apply h1_does|]. vm_compute. apply rtc_refl. }
  destruct Hr as [st' Hr]. exists st'. split; [exact Hr|].
  exact (proj1 (h1_create_needs_absence example_inj_env (example_h1 example_get) st' 27 eq_refl eq_refl Hr)).
Defined.

(** ** The write *)

Lemma memchar_loop_spec n data needle avail i :
  0 <= i -> i + Z.of_nat n < INVALID_POS ->
  let r := memchar_loop n data needle avail i in
  (r = INVALID_POS /\ forall k, i <= k < i + Z.of_nat n -> k + 2 <= avail -> data k <> needle)
  \/ (i <= r < i + Z.of_nat n /\ r + 2 <= avail /\ data r = needle /\ forall k, i <= k < r -> data k <> needle).
Proof.
  revert i. induction n as [|n IH]; intros i Hi Hn; cbn [memchar_loop]; [left; split; [done|intros; lia]|].
  destruct (Z.ltb_spec avail (i + 2)); [left; split; [done|intros; lia]|].
  destruct (Z.eqb_spec (data i) needle); [right; split_and!; [lia..|done|intros; lia]|].
  destruct (IH (i + 1)) as [[-> Hk]|(Hr & Ha & Hd & Hk)]; [lia..| |].
  - left. split; [done|]. intros k Hk1. destruct (Z.eq_dec k i) as [-> |]; [done|]. apply Hk. lia.
  - right. split_and!; [lia..|done|]. intros k Hk1. destruct (Z.eq_dec k i) as [-> |]; [done|]. apply Hk. lia.
Qed.

Lemma make_tp_string_skb_zlen tp :
  zlen (trace_id tp) = TRACE_ID_SIZE_BYTES -> zlen (span_id tp) = SPAN_ID_SIZE_BYTES ->
  zlen (make_tp_string_skb tp) = TP_SIZE.
Proof. intros Ht Hs. unfold make_tp_string_skb. rewrite !zlen_app, !encode_hex_zlen, Ht, Hs. by kunfold. Qed.

Section write.
Context {M : Type} `{SkMsgLaws M} `{!SkMsgReads M}.

(** A push that succeeds is followed by a pull that maps the message, so the header is written. *)
Lemma extend_writes (m : M) off tp :
  0 <= off < m_size m ->
  zlen (trace_id tp) = TRACE_ID_SIZE_BYTES -> zlen (span_id tp) = SPAN_ID_SIZE_BYTES ->
  let '(ok, m') := extend_and_write_tp m off tp in
  ok = fst (m_push m off TP_SIZE)
  /\ m_bytes m' = if ok then splice (m_bytes m) off 0 (make_tp_string_skb tp) else m_bytes m.
Proof.
  intros Hoff Ht Hs. unfold extend_and_write_tp. pose proof (make_tp_string_skb_zlen tp Ht Hs) as Hz.
  pose proof (push_failed m off TP_SIZE) as Hpf. pose proof (push_inserts m off TP_SIZE) as Hpi.
  destruct (m_push m off TP_SIZE) as [[] m1]; cbn [negb fst snd] in *; [|split; [done|by apply Hpf]].
  destruct Hpi as (fill & Hfl & Hb1); [done|lia|done|].
  destruct (zlen_split (m_bytes m) off) as (a & b & Hab & Ha); [unfold m_size in Hoff; lia|].
  assert (Hs1 : m_bytes m1 = a ++ fill ++ b) by (rewrite Hb1, Hab; apply (splice_app a [] b); done).
  assert (Hsz : m_size m1 = m_size m + TP_SIZE)
    by (unfold m_size; rewrite Hs1, Hab, !zlen_app; lia).
  destruct (pull_reads m1 0 (m_size m1)) as [_ Hv]; [kunfold; lia|lia|].
  pose proof (pull_bytes m1 0 (m_size m1)) as Hb2. destruct (m_pull m1 0 _) as [ok2 m2]. cbn [snd] in Hv, Hb2.
  rewrite Hv. rewrite (proj2 (Z.ltb_ge _ _)) by lia. split; [done|].
  rewrite store_writes; [|lia|unfold m_size; rewrite Hb2; fold (m_size m1); kunfold; lia].
  rewrite Hb2, Hs1, Hz, Hab. rewrite (splice_app a fill b) by (done || lia).
  symmetry. apply (splice_app a [] b); done.
Qed.

Lemma write_msg_cases (m : M) tp :
  m_view m = Some (m_size m) ->
  zlen (trace_id tp) = TRACE_ID_SIZE_BYTES -> zlen (span_id tp) = SPAN_ID_SIZE_BYTES ->
  let '(ok, m') := write_msg_traceparent m tp in
  (exists line rest, m_bytes m = line ++ 10 :: rest /\ Forall (fun c => c <> 10) line
     /\ zlen line < MAX_INLINE_LEN /\ rest <> []
     /\ ok = fst (m_push m (zlen line + 1) TP_SIZE)
     /\ m_bytes m' = if ok then line ++ 10 :: make_tp_string_skb tp ++ rest else m_bytes m)
  \/ (ok = false /\ m' = m
     /\ forall line rest, m_bytes m = line ++ 10 :: rest -> MAX_INLINE_LEN <= zlen line \/ rest = []).
Proof.
  intros Hv Ht Hs. unfold write_msg_traceparent. rewrite Hv. unfold find_first_pos_of, memchar_pos.
  assert (Hd : forall i, m_data m 0 i = list_buf (m_bytes m) i) by done.
  destruct (memchar_loop_spec (Z.to_nat MAX_INLINE_LEN) (m_data m 0) 10 (m_size m) 0 ltac:(lia) ltac:(done))
    as [[-> Hk]|(Hr & Ha & Hn & Hk)].
  - rewrite Z.eqb_refl. right. split_and!; [done|done|]. intros line rest Hm.
    destruct (Z.le_gt_cases MAX_INLINE_LEN (zlen line)); [by left|]. right. destruct rest as [|c rest]; [done|].
    exfalso. pose proof (zlen_nonneg line). apply (Hk (zlen line)); [kunfold; lia| |].
    + unfold m_size. rewrite Hm, zlen_app. unfold zlen. cbn [length]. lia.
    + rewrite Hd, Hm, <- (Z.add_0_r (zlen line)), list_buf_app_r by lia. done.
  - set (r := memchar_loop _ _ _ _ _) in *. clearbody r. rewrite (proj2 (Z.eqb_neq r INVALID_POS)) by (kunfold; lia).
    pose proof (extend_writes m (r + 1) tp ltac:(lia) Ht Hs) as He.
    destruct (extend_and_write_tp _ _ _) as [ok m']. destruct He as [Hok Hb]. left.
    destruct (zlen_split (m_bytes m) r) as (line & rest & Hm & Hz); [unfold m_size in Ha; lia|].
    assert (Hrest : exists rest', rest = 10 :: rest' /\ rest' <> []).
    { assert (zlen rest = m_size m - r) by (unfold m_size; rewrite Hm, zlen_app; lia).
      rewrite Hd, Hm, <- Hz, <- (Z.add_0_r (zlen line)), list_buf_app_r in Hn by lia.
      destruct rest as [|c [|c' rest']]; [unfold zlen in *; simpl in *; lia..|]. exists (c' :: rest').
      split; [|done]. f_equal. exact Hn. }
    destruct Hrest as (rest' & -> & Hne). exists line, rest'. split_and!; [done| |kunfold; lia|done|by rewrite Hz|].
    + apply Forall_forall. intros c Hin. apply list_elem_of_lookup in Hin as [i Hi].
      pose proof (lookup_lt_Some _ _ _ Hi). intros ->. apply (Hk (Z.of_nat i)); [unfold zlen in Hz; lia|].
      rewrite Hd, Hm, list_buf_app_l by (unfold zlen; lia). rewrite list_buf_nth, Nat2Z.id by lia.
      by apply nth_lookup_Some.
    + rewrite Hb. destruct ok; [|done]. rewrite Hm.
      replace (line ++ 10 :: rest') with ((line ++ [10]) ++ [] ++ rest') by (by rewrite <- app_assoc).
      rewrite splice_app by (rewrite ?zlen_app, ?Hz; done). by rewrite <- app_assoc.
Qed.

End write.

(** The message opens with a line of fewer than 1023 octets, its line feed not the last octet. *)
Definition first_line (msg line rest : list Z) : Prop :=
  msg = line ++ 10 :: rest /\ Forall (fun c => c <> 10) line /\ zlen line < 1023 /\ rest <> [].

Lemma first_line_unique (line line' rest rest' : list Z) :
  line ++ 10 :: rest = line' ++ 10 :: rest' -> Forall (fun c => c <> 10) line ->
  Forall (fun c => c <> 10) line' -> line' = line /\ rest' = rest.
Proof.
  intros E Hl Hl'. revert line' E Hl'. induction line as [|c line IH]; intros [|c' line'] E Hl'; simplify_eq/=; try done.
  - by apply Forall_cons in Hl' as [? _].
  - by apply Forall_cons in Hl as [? _].
  - apply Forall_cons in Hl as [_ Hl]. apply Forall_cons in Hl' as [_ Hl'].
    by destruct (IH Hl line') as [-> ->].
Qed.

(** C14: the HTTP/1 header goes in whole, behind the request line, or not at all.  For a kernel whose
    pull of the whole message succeeds and maps it, and a trace context of full length,
    [write_msg_tp] inserts the 70-octet header directly behind the message's first line when that
    line ends within its first 1023 octets with something behind it and the kernel can grow the
    message there, and leaves every octet of the message as it was in all other cases: when the
    line is longer, when its line feed is the last octet or missing, and when the kernel refuses
    to grow the message. *)
Theorem h1_write_atomic {M} `{SkMsgLaws M} `{!SkMsgReads M} (st : h1 M) :
  0 < m_size (h_msg st) ->
  zlen (trace_id (tpp_tp (h_tp st))) = TRACE_ID_SIZE_BYTES ->
  zlen (span_id (tpp_tp (h_tp st))) = SPAN_ID_SIZE_BYTES ->
  let msg := m_bytes (h_msg st) in
  let pulled := snd (m_pull (h_msg st) 0 (m_size (h_msg st))) in
  let header := make_tp_string_skb (tpp_tp (h_tp st)) in
  let '(st', next) := obi_packet_extender_write_msg_tp st in
  next = h1_pass
  /\ (forall line rest, first_line msg line rest ->
      m_bytes (h_msg st') =
        (if fst (m_push pulled (zlen line + 1) TP_SIZE) then line ++ 10 :: header ++ rest else msg))
  /\ ((forall line rest, ~ first_line msg line rest) -> m_bytes (h_msg st') = msg).
Proof.
  intros Hsz Ht Hs msg pm header. unfold obi_packet_extender_write_msg_tp.
  destruct (pull_reads (h_msg st) 0 (m_size (h_msg st))) as [_ Hv]; [lia..|].
  pose proof (pull_bytes (h_msg st) 0 (m_size (h_msg st))) as Hb. subst pm.
  destruct (m_pull _ _ _) as [ok0 m]. cbn [snd] in *.
  assert (Hv' : m_view m = Some (m_size m)) by (rewrite Hv; unfold m_size; rewrite Hb; f_equal; lia).
  pose proof (write_msg_cases m (tpp_tp (h_tp st)) Hv' Ht Hs) as Hw.
  destruct (write_msg_traceparent _ _) as [ok m']. cbn [h_msg]. subst msg. rewrite <- Hb. split; [done|].
  destruct Hw as [(line & rest & Hm & Hl & Hlen & Hne & Hok & Hm')|(-> & -> & Hno)].
  - split; [|intros Hno; exfalso; by apply (Hno line rest)].
    intros line' rest' (E & Hl' & _). rewrite Hm in E.
    destruct (first_line_unique _ _ _ _ E Hl Hl') as [-> ->]. by rewrite <- Hok.
  - split; [|done]. intros line rest (E & _ & Hlen & Hne).
    destruct (Hno line rest E) as [Hl| ->]; [kunfold; lia|done].
Qed.

(** A request whose line is written behind, and one that is a single line without an end. *)
Lemma h1_write_atomic_witness :
  let st l := mk_h1 (mk_windowed l None) 0 0 (mk_tp_info_pid example_wire_tp 7 1 1 3 0) None true None 0 in
  m_bytes (h_msg (fst (obi_packet_extender_write_msg_tp (st example_get))))
  = take 16 example_get ++ make_tp_string_skb example_wire_tp ++ drop 16 example_get
  /\ m_bytes (h_msg (fst (obi_packet_extender_write_msg_tp (st [71; 69; 84])))) = [71; 69; 84].
Proof.
  cbv zeta. split.
  - pose proof (h1_write_atomic (mk_h1 (mk_windowed example_get None) 0 0 (mk_tp_info_pid example_wire_tp 7 1 1 3 0) None true None 0)
      ltac:(done) eq_refl eq_refl) as Hw. cbv zeta in Hw.
    destruct (obi_packet_extender_write_msg_tp _) as [st' next]. destruct Hw as (_ & Hw & _).
    cbn [fst]. rewrite (Hw (take 15 example_get) (drop 16 example_get)); [done|].
    split_and!; [done| |by vm_compute|done]. by repeat constructor.
  - pose proof (h1_write_atomic (mk_h1 (mk_windowed [71; 69; 84] None) 0 0 (mk_tp_info_pid example_wire_tp 7 1 1 3 0) None true None 0)
      ltac:(done) eq_refl eq_refl) as Hw. cbv zeta in Hw.
    destruct (obi_packet_extender_write_msg_tp _) as [st' next]. destruct Hw as (_ & _ & Hw).
    cbn [fst]. rewrite Hw; [done|]. intros line rest (E & _).
    assert (Hin : 10 ∈ [71; 69; 84]); [|by rewrite !elem_of_cons, elem_of_nil in Hin; lia].
    change [71; 69; 84] with (m_bytes (mk_windowed [71; 69; 84] None)). cbn [h_msg] in E. rewrite E. set_solver.
Defined.

(** The HTTP/1 chain ends.  From any state, at most six programs run: four scans, [create_tp] or
    [parse_existing_tp], and the write. *)
Theorem h1_chain_terminates {M} `{SkMsgOps M} e (st : h1 M) prog :
  0 <= h_niter st -> h1_chain 6 e st prog <> None.
Proof.
  intros Hn.
  assert (Hw : forall st k, h1_chain (S k) e st h1_write <> None).
  { intros st0 k. cbn [h1_chain h1_step]. unfold obi_packet_extender_write_msg_tp.
    destruct (m_pull _ _ _). destruct (write_msg_traceparent _ _). by destruct k. }
  assert (Hc : forall st k, h1_chain (S (S k)) e st h1_create <> None).
  { intros st0 k. cbn [h1_chain h1_step]. unfold obi_packet_extender_create_tp.
    destruct (create_trace_info _ _ _ _ _ _). destruct (nz _); [apply Hw|by destruct k]. }
  assert (Hp : forall st k, h1_chain (S k) e st h1_parse <> None).
  { intros st0 k. change (h1_chain (S k) e st0 h1_parse) with
      (let '(st', next) := obi_packet_extender_parse_existing_tp e st0 in h1_chain k e st' next).
    assert (Hpass : forall x, h1_chain k e x h1_pass <> None) by (intros; by destruct k).
    unfold obi_packet_extender_parse_existing_tp. cbv zeta. destruct (m_view _); [|done].
    destruct (_ || _); [done|]. destruct (negb _); [done|]. destruct (negb _); [done|].
    destruct (_ || _); [done|]. destruct (urand_bytes _ _ _). by destruct (apply_parent_tp _ _ _). }
  assert (Hf : forall n st k, 4 - h_niter st <= Z.of_nat n -> 0 <= h_niter st -> (n + 2 <= k)%nat ->
    h1_chain k e st h1_find <> None).
  { induction n as [|n IH]; intros st0 k Hle H0 Hk; (destruct k as [|k]; [lia|]);
      change (h1_chain (S k) e st0 h1_find) with
        (let '(st', next) := obi_packet_extender_find_existing_tp st0 in h1_chain k e st' next);
      unfold obi_packet_extender_find_existing_tp; cbv zeta;
      (destruct (Z.leb_spec k_http1_max_scan_iters (h_niter st0)); [by destruct k|]); [kunfold; lia|].
    destruct (m_view _) as [avail|]; [|by destruct k]. destruct (_ <? _); [by destruct k|].
    destruct k as [|[|k]]; [lia..|]. destruct (find_tp_loop _ _ _ _) as [[pos|]|]; [apply Hp|apply Hc|].
    rewrite (wrap_small 8) by (kunfold; lia).
    destruct (_ <? _); [|apply Hc]. apply IH; cbn; lia. }
  destruct prog; [done|apply (Hf 4%nat); [lia|done|lia]|apply Hp|apply Hc|apply Hw].
Qed.

Lemma h1_chain_terminates_witness : h1_chain 6 example_inj_env (example_h1 example_get) h1_find <> None.
Proof. apply (h1_chain_terminates example_inj_env (example_h1 example_get) h1_find). done. Defined.

(** ** Reading the header back *)

(** What the scan meets at an offset of the message before the header. *)
Definition header_at {M} `{SkMsgOps M} (m : M) (a : list Z) (tp : tp_info) (b : list Z) : Prop :=
  m_bytes m = a ++ make_tp_string_skb tp ++ b /\ m_view m = Some (m_size m) /\ b <> [] /\ zlen a < 4096
  /\ forall i, 0 <= i < zlen a -> is_eoh (shift (m_data m 0) i) = false /\ is_traceparent (shift (m_data m 0) i) = false.

Section read_back.
Context {M : Type} `{SkMsgLaws M} (e : inj_env).

Lemma header_data (m : M) a tp b : header_at m a tp b ->
  forall i, 0 <= i -> m_data m (zlen a) i = list_buf (make_tp_string_skb tp ++ b) i.
Proof. intros (Hm & _) i Hi. unfold m_data, shift. rewrite Hm. by apply list_buf_app_r. Qed.

Lemma header_starts (m : M) a tp b : header_at m a tp b ->
  is_traceparent (shift (m_data m 0) (zlen a)) = true /\ is_eoh (shift (m_data m 0) (zlen a)) = false.
Proof.
  intros Hh. assert (Hd : forall i, 0 <= i -> shift (m_data m 0) (zlen a) i = list_buf (make_tp_string_skb tp ++ b) i)
    by (intros i Hi; rewrite <- (header_data m a tp b Hh i Hi); unfold m_data, shift; f_equal; lia).
  unfold is_traceparent, is_eoh. rewrite !Hd by lia. done.
Qed.

Lemma find_reaches_header (st : h1 M) a tp b :
  header_at (h_msg st) a tp b -> zlen (make_tp_string_skb tp) = TP_SIZE ->
  0 <= h_niter st -> k_http1_scan_chunk_size * h_niter st <= zlen a ->
  obi_packet_extender_find_existing_tp st
  = if zlen a <? k_http1_scan_chunk_size * (h_niter st + 1) then (set_h1 st (h_niter st) (zlen a), h1_parse)
    else (set_h1 st (h_niter st + 1) (h_tp_offset st), h1_find).
Proof.
  intros Hh Hz Hn Hle. destruct (header_starts _ _ _ _ Hh) as [Ht He]. destruct Hh as (Hm & Hv & Hb & Hlt & Hcl).
  assert (Hb1 : 1 <= zlen b) by (destruct b; [done|unfold zlen; simpl; lia]).
  assert (Hs : m_size (h_msg st) = zlen a + TP_SIZE + zlen b) by (unfold m_size; rewrite Hm, !zlen_app; lia).
  unfold obi_packet_extender_find_existing_tp. rewrite Hv. cbv zeta.
  rewrite (proj2 (Z.leb_gt _ _)) by (kunfold; lia). rewrite (proj2 (Z.ltb_ge _ _)) by (kunfold; lia).
  set (start := h_niter st * k_http1_scan_chunk_size). set (n := Z.min _ _).
  assert (Hst : start = 1024 * h_niter st) by (unfold start; kunfold; lia). clearbody start.
  change k_http1_scan_chunk_size with 1024 in *.
  assert (Hn0 : 0 < n <= 1024) by (unfold n; kunfold; lia).
  pose proof (find_tp_loop_spec (Z.to_nat n) (m_data (h_msg st) 0) (m_size (h_msg st)) start) as Hl.
  rewrite Z2Nat.id in Hl by lia.
  assert (Hnc : forall k, start <= k -> (forall i, start <= i < k -> clean_at (m_data (h_msg st) 0) (m_size (h_msg st)) i) -> k <= zlen a).
  { intros k Hk Hc. destruct (Z.le_gt_cases k (zlen a)); [done|]. destruct (Hc (zlen a)) as (_ & _ & Hx);
      [lia|]. congruence. }
  destruct (find_tp_loop _ _ _ _) as [[k|]|].
  - destruct Hl as (Hk & _ & Htk & Hc). assert (k = zlen a) as ->.
    { pose proof (Hnc k ltac:(lia) Hc). destruct (Z.eq_dec k (zlen a)); [done|].
      destruct (Hcl k) as [_ Hx]; [lia|]. congruence. }
    rewrite (proj2 (Z.ltb_lt _ _)) by lia. done.
  - exfalso. destruct Hl as (k & Hk & Hend & Hc). pose proof (Hnc k ltac:(lia) Hc).
    destruct Hend as [?|Hend]; [kunfold; lia|]. destruct (Z.eq_dec k (zlen a)) as [-> |]; [congruence|].
    destruct (Hcl k) as [Hx _]; [lia|]. congruence.
  - assert (Hfull : start + n <= zlen a) by (apply Hnc; [lia|exact Hl]).
    assert (n = 1024) by (unfold n in *; kunfold; lia).
    rewrite (proj2 (Z.ltb_ge (zlen a) _)) by (kunfold; lia).
    rewrite (wrap_small 8), (proj2 (Z.ltb_lt _ _)) by (kunfold; lia). done.
Qed.

Lemma skb_string tp : make_tp_string_skb tp = [84; 114; 97; 99; 101; 112; 97; 114; 101; 110; 116; 58; 32] ++ make_tp_string tp ++ [13; 10].
Proof. unfold make_tp_string_skb, make_tp_string. rewrite <- !app_assoc. done. Qed.

(** The context the text of [tp] carries. *)
Definition wire_tp (tp : tp_info) : tp_info :=
  mk_tp_info (trace_id tp) (span_id tp) (repeat 0 8) 0 (Z.land (flags tp) k_flag_sampled).

(** What [parse_existing_tp] reads of a header. *)
Lemma header_fields (p : buf) tp b :
  wf_tp tp -> (forall i, 0 <= i -> p i = list_buf (make_tp_string_skb tp ++ b) i) ->
  is_traceparent p = true /\ p 48 = 45 /\ p 65 = 45 /\ p 68 = 13 /\ p 69 = 10
  /\ decode_hex (shift p TP_TID_PREFIX_SIZE) TRACE_ID_CHAR_LEN = trace_id tp
  /\ decode_hex (shift p 49) SPAN_ID_CHAR_LEN = span_id tp
  /\ hd 0 (decode_hex (shift p 66) FLAGS_CHAR_LEN) = Z.land (flags tp) k_flag_sampled.
Proof.
  intros Hwf Hp. pose proof (make_tp_string_length tp Hwf) as Hl. rewrite skb_string, <- !app_assoc in Hp.
  set (r := [13; 10] ++ b) in *.
  assert (Hq : forall i, 0 <= i -> p (13 + i) = list_buf (make_tp_string tp ++ r) i)
    by (intros i Hi; rewrite Hp by lia; by apply (list_buf_app_r [84; 114; 97; 99; 101; 112; 97; 114; 101; 110; 116; 58; 32])).
  assert (Hr : forall i, 0 <= i -> p (68 + i) = list_buf r i).
  { intros i Hi. replace (68 + i) with (13 + (55 + i)) by lia. rewrite Hq, <- Hl by lia. by apply list_buf_app_r. }
  pose proof (decode_value_make tp r Hwf) as Hv. unfold decode_tp_value in Hv. destruct (_ || _) eqn:Hd; [done|].
  rewrite !orb_false_iff, !negb_false_iff, !Z.eqb_eq in Hd. destruct Hd as [[_ Hd2] Hd3].
  injection Hv as Ht Hs Hf.
  assert (Hdec : forall o n, 0 <= o -> decode_hex (shift p (13 + o)) n = decode_hex (shift (list_buf (make_tp_string tp ++ r)) o) n).
  { intros o n Ho. apply decode_hex_ext. intros i Hi. unfold shift. rewrite <- Z.add_assoc. apply Hq. lia. }
  split_and!.
  - unfold is_traceparent. rewrite !Hp by lia. done.
  - change 48 with (13 + 35). rewrite Hq by lia. exact Hd2.
  - change 65 with (13 + 52). rewrite Hq by lia. exact Hd3.
  - exact (Hr 0 ltac:(lia)).
  - exact (Hr 1 ltac:(lia)).
  - change TP_TID_PREFIX_SIZE with (13 + 3). rewrite Hdec by lia. exact Ht.
  - change 49 with (13 + 36). rewrite Hdec by lia. exact Hs.
  - change 66 with (13 + 53). rewrite Hdec by lia. exact Hf.
Qed.

Lemma apply_parent_ts parent tp fresh : ts (fst (apply_parent_tp parent tp fresh)) = ts tp.
Proof. unfold apply_parent_tp. destruct parent; [|done]. destruct (negb _); [done|]. by destruct (negb _). Qed.

Lemma parse_adopts (st : h1 M) a tp b :
  header_at (h_msg st) a tp b -> wf_tp tp -> h_tp_offset st = zlen a ->
  let parent := ie_parent e (h_tick st) in
  let fresh := fst (urand_bytes (ie_rnd e) (S (h_tick st)) SPAN_ID_SIZE_BYTES) in
  let x := mk_tp_info_pid (adopted_tp parent (wire_tp tp) fresh (ie_now e (h_tick st))) (ie_pid e) 1 1
             k_event_type_http_client (tpp_response_sent (h_tp st)) in
  obi_packet_extender_parse_existing_tp e st
  = (publish_tp e st (if forwarded_tp parent (wire_tp tp)
                      then m_store (h_msg st) (zlen a + 49) (encode_hex fresh) else h_msg st) x (S (h_tick st) + 2), h1_pass).
Proof.
  intros Hh Hwf Hoff parent fresh x. pose proof Hwf as (_ & Htl & _ & Hsl & _).
  pose proof (make_tp_string_skb_zlen tp Htl Hsl) as Hz. pose proof Hh as (Hm & Hv & Hb & Hlt & _).
  destruct (header_fields (m_data (h_msg st) (zlen a)) tp b Hwf (header_data _ _ _ _ Hh))
    as (H1 & H2 & H3 & H4 & H5 & H6 & H7 & H8).
  assert (Hb1 : 1 <= zlen b) by (destruct b; [done|unfold zlen; simpl; lia]).
  assert (Hs : m_size (h_msg st) = zlen a + TP_SIZE + zlen b) by (unfold m_size; rewrite Hm, !zlen_app; lia).
  unfold obi_packet_extender_parse_existing_tp. cbv zeta.
  assert (clamp_umax (h_tp_offset st) (k_http1_max_scan_iters * k_http1_scan_chunk_size - 1) = zlen a) as ->
    by (unfold clamp_umax; rewrite Hoff, (proj2 (Z.leb_le _ _)) by (kunfold; lia); done).
  rewrite Hv, (proj2 (Z.ltb_ge _ _)), H1, H2, H3, H4, H5, H6, H7, H8 by (kunfold; lia). cbn [Z.eqb Pos.eqb negb orb].
  fold parent. rewrite (surjective_pairing (urand_bytes _ _ _)). fold fresh.
  set (w := mk_tp_info _ _ _ _ _). pose proof (apply_parent_ts parent w fresh) as Hts.
  pose proof (apply_parent_adopts parent w fresh (ie_now e (h_tick st))) as Ha.
  change (set_ids w (span_id w) (repeat 0 8)) with w in Ha.
  destruct (apply_parent_tp parent w fresh) as [tp' fwd]. cbn [fst] in Hts. destruct Ha as (-> & Ha & Hsp).
  assert (Htp' : tp' = adopted_tp parent (wire_tp tp) fresh (ie_now e (h_tick st))).
  { etrans; [|exact Ha]. destruct tp'. cbn in Hts. by rewrite Hts. }
  change (forwarded_tp parent w) with (forwarded_tp parent (wire_tp tp)) in *.
  destruct (forwarded_tp parent (wire_tp tp)); [rewrite Hsp by done|]; by rewrite Htp'.
Qed.

End read_back.

(** A Traceparent header in a request is adopted.  When the first thing the scan meets is a header
    in the form this injector writes, at any offset below four kilobytes with something behind it,
    the chain publishes the context of its text for the connection, as written, and adds nothing:
    the message is unchanged but for the 16 characters of the span id when the header is the
    parent's own, passed on by a proxy. *)
Theorem h1_adopts_wire_header {M} `{SkMsgLaws M} e (st : h1 M) a tp b :
  header_at (h_msg st) a tp b -> wf_tp tp -> h_niter st = 0 -> ie_room e (h_tick st) = true ->
  let parent := ie_parent e (h_tick st) in
  let fresh := fst (urand_bytes (ie_rnd e) (S (h_tick st)) SPAN_ID_SIZE_BYTES) in
  exists st', h1_chain 5 e st h1_find = Some st'
  /\ h_entry st' = Some (mk_tp_info_pid (adopted_tp parent (wire_tp tp) fresh (ie_now e (h_tick st)))
                           (ie_pid e) 1 1 k_event_type_http_client (tpp_response_sent (h_tp st)))
  /\ m_bytes (h_msg st')
     = if forwarded_tp parent (wire_tp tp)
       then splice (m_bytes (h_msg st)) (zlen a + 49) SPAN_ID_CHAR_LEN (encode_hex fresh)
       else m_bytes (h_msg st).
Proof.
  intros Hh Hwf Hn Hroom parent fresh. pose proof Hwf as (_ & Htl & _ & Hsl & _).
  pose proof (make_tp_string_skb_zlen tp Htl Hsl) as Hz. pose proof Hh as (Hm & _ & Hb & Hlt & _).
  assert (Hrun : forall n st0 k, header_at (h_msg st0) a tp b -> 0 <= h_niter st0 ->
    k_http1_scan_chunk_size * h_niter st0 <= zlen a -> 4 - h_niter st0 <= Z.of_nat n -> (n + 1 <= k)%nat ->
    exists k' st1, h1_chain k e st0 h1_find = h1_chain (S k') e st1 h1_parse
    /\ st1 = set_h1 st0 (h_niter st1) (zlen a)).
  { induction n as [|n IH]; intros st0 k Hh0 Hi0 Hle Hn4 Hk; [kunfold; lia|]. destruct k as [|k]; [lia|].
    change (h1_chain (S k) e st0 h1_find) with
      (let '(st', next) := obi_packet_extender_find_existing_tp st0 in h1_chain k e st' next).
    rewrite (find_reaches_header st0 a tp b Hh0 Hz Hi0 Hle). destruct (Z.ltb_spec (zlen a) (k_http1_scan_chunk_size * (h_niter st0 + 1))).
    - destruct k as [|k]; [lia|]. by exists k, (set_h1 st0 (h_niter st0) (zlen a)).
    - destruct (IH (set_h1 st0 (h_niter st0 + 1) (h_tp_offset st0)) k Hh0) as (k' & st1 & -> & Hst); [cbn; lia..|].
      exists k', st1. split; [done|]. by rewrite Hst at 1. }
  destruct (Hrun 4%nat st 5%nat Hh) as (k' & st1 & -> & Hst); [lia|rewrite Hn; pose proof (zlen_nonneg a); lia|lia|lia|].
  change (h1_chain (S k') e st1 h1_parse) with
    (let '(st', next) := obi_packet_extender_parse_existing_tp e st1 in h1_chain k' e st' next).
  assert (Hh1 : header_at (h_msg st1) a tp b) by by rewrite Hst.
  rewrite (parse_adopts e st1 a tp b Hh1 Hwf) by by rewrite Hst.
  rewrite Hst. unfold publish_tp. cbn [set_h1 h_tick h_msg h_entry h_option h_sk_storage h_tp h_niter h_tp_offset].
  fold parent fresh. rewrite Hroom. cbn [orb]. set (m' := if forwarded_tp _ _ then _ else _).
  assert (Hm' : m_bytes m' = if forwarded_tp parent (wire_tp tp)
    then splice (m_bytes (h_msg st)) (zlen a + 49) SPAN_ID_CHAR_LEN (encode_hex fresh) else m_bytes (h_msg st)).
  { unfold m'. destruct (forwarded_tp parent (wire_tp tp)); [|done].
    assert (Hez : zlen (encode_hex fresh) = SPAN_ID_CHAR_LEN) by (unfold fresh; rewrite encode_hex_zlen, urand_span; done).
    pose proof (zlen_nonneg a). pose proof (zlen_nonneg b).
    rewrite store_writes, Hez; [done|lia|]. unfold m_size. rewrite Hm, Hez, !zlen_app, Hz. kunfold. lia. }
  destruct (nz _); [destruct (schedule_write_tcp_option _ _)|]; (eexists; split; [by destruct k'|done]).
Qed.

Definition example_request_with_tp : list Z := take 16 example_get ++ make_tp_string_skb example_wire_tp ++ drop 16 example_get.

Lemma h1_adopts_wire_header_witness :
  exists st', h1_chain 5 example_forward_env (example_h1 example_request_with_tp) h1_find = Some st'
  /\ m_bytes (h_msg st') = splice example_request_with_tp 65 16 (encode_hex [4; 3; 2; 1; 4; 3; 2; 1]).
Proof.
  destruct (h1_adopts_wire_header example_forward_env (example_h1 example_request_with_tp) (take 16 example_get)
    example_wire_tp (drop 16 example_get)) as (st' & Hr & _ & Hm).
  - split_and!; [done|done|done|done|]. change (zlen (take 16 example_get)) with 16. intros i Hi.
    assert (Hc : Forall (fun i => is_eoh (shift (m_data (h_msg (example_h1 example_request_with_tp)) 0) i) = false
      /\ is_traceparent (shift (m_data (h_msg (example_h1 example_request_with_tp)) 0) i) = false)
      (map Z.of_nat (seq 0 16))) by (cbn [seq map]; repeat constructor).
    rewrite Forall_forall in Hc. apply Hc. apply list_elem_of_In, in_map_iff.
    exists (Z.to_nat i). split; [lia|]. apply in_seq. lia.
  - unfold wf_tp, is_bytes, example_wire_tp, zlen. simpl. split_and!; try lia; repeat constructor; lia.
  - done.
  - done.
  - exists st'. split; [exact Hr|]. rewrite Hm. by vm_compute.
Defined.

(** A message that cannot be pulled once it has grown. *)
Record brittle := mk_brittle { br_bytes : list Z; br_view : option Z; br_grown : bool }.

#[export] Instance brittle_ops : SkMsgOps brittle := {|
  m_bytes := br_bytes;
  m_pull m a b := (negb (br_grown m), if br_grown m then m else mk_brittle (br_bytes m) (Some (b - a)) false);
  m_view := br_view;
  m_push m off len := (true, mk_brittle (splice (br_bytes m) off 0 (repeat 0 (Z.to_nat len))) (Some off) true);
  m_pop m off len := (true, mk_brittle (splice (br_bytes m) off len []) None (br_grown m));
  m_store m off bs := mk_brittle (splice (br_bytes m) off (zlen bs) bs) (br_view m) (br_grown m)
|}.

#[export] Instance brittle_laws : SkMsgLaws brittle.
Proof.
  constructor; intros m off len; simpl; try done.
  - by destruct (br_grown m).
  - intros _ _ Hl. exists (repeat 0 (Z.to_nat len)). split; [|done]. unfold zlen. rewrite repeat_length. lia.
Qed.

(** A pull that fails after the push leaves the message longer by 70 octets that are no header:
    unlike the HTTP/2 write, the HTTP/1 write does not roll back. *)
Theorem h1_failed_pull_corrupts :
  let st := mk_h1 (mk_brittle example_get None false) 0 0 (mk_tp_info_pid example_wire_tp 7 1 1 3 0) None true None 0 in
  let '(st', next) := obi_packet_extender_write_msg_tp st in
  next = h1_pass /\ m_bytes (h_msg st') = take 16 example_get ++ repeat 0 70 ++ drop 16 example_get.
Proof. by vm_compute. Qed.
