(* ===== verification/SockOps.v ===== *)
(** * The sock_ops program of the injector: socket enrolment and the trace context as a TCP option
      ([bpf/tpinjector/tpinjector.c], from [bpf_sock_ops_set_flags] to [obi_sockmap_tracker]).

    One connection: the storage on its socket, its marks in the enrolment maps, and the trace
    context received for it.  [run_ops] feeds callbacks to [obi_sockmap_tracker].  The helpers that
    touch the packet are the kernel's: what [bpf_load_hdr_opt] finds is an argument of the callback,
    what [bpf_store_hdr_opt] stores is its result. *)

From Stdlib Require Import ZArith Lia ZifyBool List Bool.
From stdpp Require Import base list.
From S2P Require Import Prelude TraceUtil Sampling H2Inject H1Inject.

Local Open Scope Z_scope.

(** ** Definitions *)

Definition k_tcp_option_kind_otel : Z := 25.
Definition tp_option_size : Z := 27.
Definition BPF_TCP_CLOSE : Z := 7.
Definition BPF_SOCK_OPS_STATE_CB_FLAG : Z := 4.
Definition BPF_SOCK_OPS_PARSE_ALL_HDR_OPT_CB_FLAG : Z := 16.
Definition BPF_SOCK_OPS_WRITE_HDR_OPT_CB_FLAG : Z := 64.

#[export] Hint Unfold k_tcp_option_kind_otel tp_option_size : kconst.

Record tp_option := mk_tp_option {
  opt_kind : Z;
  opt_len : Z;
  opt_trace_id : list Z;
  opt_span_id : list Z;
  opt_flags : Z
}.

(** The struct's octets; it has no padding. *)
Definition opt_bytes (o : tp_option) : list Z :=
  [opt_kind o; opt_len o] ++ opt_trace_id o ++ opt_span_id o ++ [opt_flags o].

(** The struct an octet sequence fills, over the initial zeroes. *)
Definition opt_of_bytes (l : list Z) : tp_option :=
  let b := take 27 (l ++ repeat 0 27) in
  mk_tp_option (list_buf b 0) (list_buf b 1) (take 16 (drop 2 b)) (take 8 (drop 18 b)) (list_buf b 26).

(** [bpf_load_hdr_opt]: the option of the kind asked for, if the packet has one.  A negative result
    is an error; an option longer than the buffer is one. *)
Definition load_hdr_opt (received : option (list Z)) : Z * tp_option :=
  match received with
  | None => (- 42, opt_of_bytes [k_tcp_option_kind_otel])
  | Some l => if tp_option_size <? zlen l then (- 28, opt_of_bytes l) else (zlen l, opt_of_bytes l)
  end.

Record sockops := mk_sockops {
  (** [sk_tp_info_pid_map] and [socket_cookie] storage of the socket *)
  so_option : option tp_info_pid;
  so_cookie : option Z;
  so_cb_flags : Z;
  (** the cookie is in [sock_dir], and in [tracked_sock_cookies] *)
  so_in_sock_dir : bool;
  so_tracked : bool;
  (** the connection's entry of [incoming_trace_map] *)
  so_incoming : option tp_info_pid
}.

Record ops_env := mk_ops_env {
  oe_inject_flags : Z;
  oe_enroll_instrumented_only : bool;
  (** [owner_instrumented()] in the context of [connect] *)
  oe_owner_instrumented : bool;
  (** [bpf_get_socket_cookie] *)
  oe_cookie : Z;
  (** [bpf_sock_hash_update] succeeds *)
  oe_sock_hash_ok : bool
}.

Inductive sock_op :=
  | BPF_SOCK_OPS_TCP_CONNECT_CB
  | BPF_SOCK_OPS_ACTIVE_ESTABLISHED_CB
  | BPF_SOCK_OPS_PASSIVE_ESTABLISHED_CB
  | BPF_SOCK_OPS_HDR_OPT_LEN_CB
  | BPF_SOCK_OPS_WRITE_HDR_OPT_CB
  | BPF_SOCK_OPS_PARSE_HDR_OPT_CB (received : option (list Z))
  | BPF_SOCK_OPS_STATE_CB (new_state : Z)
  | other_op.

Definition bpf_sock_ops_set_flags (s : sockops) (f : Z) : sockops :=
  mk_sockops (so_option s) (so_cookie s) (Z.lor (so_cb_flags s) f) (so_in_sock_dir s) (so_tracked s) (so_incoming s).

(** Creating storage keeps an existing value. *)
Definition set_cookie_storage (s : sockops) (c : Z) : sockops :=
  mk_sockops (so_option s) (Some (default c (so_cookie s))) (so_cb_flags s) (so_in_sock_dir s) (so_tracked s) (so_incoming s).

Definition bpf_sock_ops_connect_cb (e : ops_env) (s : sockops) : sockops :=
  if negb (oe_enroll_instrumented_only e) || negb (oe_owner_instrumented e) then s
  else set_cookie_storage s (oe_cookie e).

Definition bpf_sock_ops_active_est_cb (e : ops_env) (s : sockops) : sockops :=
  let s :=
    if nz (Z.land (oe_inject_flags e) k_inject_tcp_options)
    then bpf_sock_ops_set_flags s BPF_SOCK_OPS_WRITE_HDR_OPT_CB_FLAG else s in
  let enrol s :=
    if oe_sock_hash_ok e then
      bpf_sock_ops_set_flags
        (mk_sockops (so_option s) (so_cookie s) (so_cb_flags s) true true (so_incoming s)) BPF_SOCK_OPS_STATE_CB_FLAG
    else s in
  if negb (oe_enroll_instrumented_only e) then enrol (set_cookie_storage s (oe_cookie e))
  else match so_cookie s with None => s | Some _ => enrol s end.

(** The kernel takes the socket out of [sock_dir] on the same transition. *)
Definition bpf_sock_ops_state_cb (s : sockops) (new_state : Z) : sockops :=
  if negb (new_state =? BPF_TCP_CLOSE) then s
  else mk_sockops (so_option s) (so_cookie s) (so_cb_flags s) false false (so_incoming s).

Definition bpf_sock_ops_passive_est_cb (e : ops_env) (s : sockops) : sockops :=
  if negb (nz (Z.land (oe_inject_flags e) k_inject_tcp_options)) then s
  else bpf_sock_ops_set_flags s BPF_SOCK_OPS_PARSE_ALL_HDR_OPT_CB_FLAG.

(** The octets reserved in the header. *)
Definition bpf_sock_ops_opt_len_cb (s : sockops) : option Z :=
  match so_option s with None => None | Some _ => Some tp_option_size end.

(** The option stored in the packet. *)
Definition bpf_sock_ops_write_hdr_cb (s : sockops) : sockops * option (list Z) :=
  match so_option s with
  | None => (s, None)
  | Some x =>
      let o := mk_tp_option k_tcp_option_kind_otel tp_option_size (trace_id (tpp_tp x)) (span_id (tpp_tp x)) (flags (tpp_tp x)) in
      (mk_sockops None (so_cookie s) (so_cb_flags s) (so_in_sock_dir s) (so_tracked s) (so_incoming s),
       Some (opt_bytes o))
  end.

Definition bpf_sock_ops_parse_hdr_cb (e : ops_env) (s : sockops) (received : option (list Z)) : sockops :=
  if negb (nz (Z.land (oe_inject_flags e) k_inject_tcp_options)) then s
  else
    let '(ret, opt) := load_hdr_opt received in
    if ret <? 0 then s
    else
      let fl := if ret <? tp_option_size then k_flag_sampled else opt_flags opt in
      let tp := mk_tp_info_pid (mk_tp_info (opt_trace_id opt) (opt_span_id opt) (repeat 0 8) 0 fl) 0 1 0 0 0 in
      mk_sockops (so_option s) (so_cookie s) (so_cb_flags s) (so_in_sock_dir s) (so_tracked s) (Some tp).

(** The socket afterwards, and the option written by a [WRITE_HDR_OPT] callback. *)
Definition obi_sockmap_tracker (e : ops_env) (s : sockops) (op : sock_op) : sockops * option (list Z) :=
  match op with
  | BPF_SOCK_OPS_TCP_CONNECT_CB => (bpf_sock_ops_connect_cb e s, None)
  | BPF_SOCK_OPS_ACTIVE_ESTABLISHED_CB => (bpf_sock_ops_active_est_cb e s, None)
  | BPF_SOCK_OPS_PASSIVE_ESTABLISHED_CB => (bpf_sock_ops_passive_est_cb e s, None)
  | BPF_SOCK_OPS_HDR_OPT_LEN_CB => (s, None)
  | BPF_SOCK_OPS_WRITE_HDR_OPT_CB => bpf_sock_ops_write_hdr_cb s
  | BPF_SOCK_OPS_PARSE_HDR_OPT_CB received => (bpf_sock_ops_parse_hdr_cb e s received, None)
  | BPF_SOCK_OPS_STATE_CB new_state => (bpf_sock_ops_state_cb s new_state, None)
  | other_op => (s, None)
  end.

(** A sequence of callbacks, and the options written, in order. *)
Fixpoint run_ops (e : ops_env) (s : sockops) (ops : list sock_op) : sockops * list (list Z) :=
  match ops with
  | [] => (s, [])
  | op :: ops =>
      let '(s, w) := obi_sockmap_tracker e s op in
      let '(s, ws) := run_ops e s ops in
      (s, match w with Some b => b :: ws | None => ws end)
  end.

(** [schedule_write_tcp_option] on the socket. *)
Definition schedule (s : sockops) (x : tp_info_pid) : sockops :=
  mk_sockops (Some x) (so_cookie s) (so_cb_flags s) (so_in_sock_dir s) (so_tracked s) (so_incoming s).

(** ** Lemmas *)

Definition opt_wf (o : tp_option) : Prop := length (opt_trace_id o) = 16%nat /\ length (opt_span_id o) = 8%nat.

Lemma opt_bytes_zlen o : opt_wf o -> zlen (opt_bytes o) = tp_option_size.
Proof. intros [Ht Hs]. unfold zlen, opt_bytes. rewrite !length_app, Ht, Hs. done. Qed.

Lemma opt_of_opt_bytes o : opt_wf o -> opt_of_bytes (opt_bytes o) = o.
Proof.
  intros Hwf. pose proof (opt_bytes_zlen o Hwf) as Hz. destruct Hwf as [Ht Hs]. unfold opt_of_bytes.
  rewrite take_app_le, take_ge by (unfold zlen in Hz; kunfold; lia).
  destruct o as [k n tr sp f]. cbn [opt_trace_id opt_span_id opt_kind opt_len opt_flags] in *.
  unfold opt_bytes. cbn [opt_trace_id opt_span_id opt_kind opt_len opt_flags]. f_equal.
  - change (take 16 (tr ++ sp ++ [f]) = tr). rewrite take_app_le, take_ge by lia. done.
  - change (take 8 (drop 16 (tr ++ sp ++ [f])) = sp). rewrite <- Ht at 1. rewrite drop_app_length, take_app_le, take_ge by lia. done.
  - change 26 with (zlen [k; n] + 24). rewrite list_buf_app_r by lia.
    replace 24 with (zlen (tr ++ sp) + 0) by (unfold zlen; rewrite length_app; lia).
    by rewrite app_assoc, list_buf_app_r by lia.
Qed.

Lemma opt_of_old_bytes k n tr sp :
  length tr = 16%nat -> length sp = 8%nat ->
  opt_trace_id (opt_of_bytes ([k; n] ++ tr ++ sp)) = tr /\ opt_span_id (opt_of_bytes ([k; n] ++ tr ++ sp)) = sp.
Proof.
  intros Ht Hs. pose proof (opt_of_opt_bytes (mk_tp_option k n tr sp 0) (conj Ht Hs)) as E.
  assert (Hb : take 27 (([k; n] ++ tr ++ sp) ++ repeat 0 27) = take 27 (opt_bytes (mk_tp_option k n tr sp 0) ++ repeat 0 27)).
  { unfold opt_bytes. cbn [opt_trace_id opt_span_id opt_kind opt_len opt_flags]. rewrite <- !app_assoc.
    change ([0] ++ repeat 0 27) with (repeat 0 27 ++ [0]). rewrite !app_assoc.
    rewrite (take_app_le _ [0]); [done|]. rewrite !length_app, Ht, Hs. simpl. lia. }
  unfold opt_of_bytes in *. rewrite Hb. by injection E.
Qed.

(** The option that carries a context. *)
Definition option_of (x : tp_info_pid) : list Z :=
  opt_bytes (mk_tp_option k_tcp_option_kind_otel tp_option_size (trace_id (tpp_tp x)) (span_id (tpp_tp x)) (flags (tpp_tp x))).

(** A header write takes the scheduled context; every other callback leaves it. *)
Lemma step_option e s op :
  let '(s', w) := obi_sockmap_tracker e s op in
  (so_option s' = None /\ w = option_map option_of (so_option s)) \/ (so_option s' = so_option s /\ w = None).
Proof.
  destruct op; cbn; try by right.
  - right. unfold bpf_sock_ops_connect_cb. by destruct (_ || _).
  - right. unfold bpf_sock_ops_active_est_cb. destruct (nz _), (negb _), (oe_sock_hash_ok e); cbn; try done;
      by destruct (so_cookie s).
  - right. unfold bpf_sock_ops_passive_est_cb. by destruct (negb _).
  - unfold bpf_sock_ops_write_hdr_cb. destruct (so_option s) eqn:E; [by left|by right].
  - right. unfold bpf_sock_ops_parse_hdr_cb. destruct (negb _); [done|]. destruct (load_hdr_opt _) as [r o].
    by destruct (r <? 0).
  - right. unfold bpf_sock_ops_state_cb. by destruct (negb _).
Qed.

Lemma run_writes e s ops : snd (run_ops e s ops) = [] \/ exists x, so_option s = Some x /\ snd (run_ops e s ops) = [option_of x].
Proof.
  revert s. induction ops as [|op ops IH]; intros s; [by left|]. cbn [run_ops]. pose proof (step_option e s op) as Hs.
  destruct (obi_sockmap_tracker e s op) as [s1 w]. specialize (IH s1). destruct (run_ops e s1 ops) as [s2 ws].
  cbn [snd] in *. destruct Hs as [[Hn ->]|[Hk ->]].
  - destruct IH as [-> |(x & Hx & _)]; [|congruence]. destruct (so_option s) as [x|]; [right; by exists x|by left].
  - rewrite Hk in IH. done.
Qed.

Lemma parse_received e s l :
  nz (Z.land (oe_inject_flags e) k_inject_tcp_options) = true -> zlen l <= tp_option_size ->
  let o := opt_of_bytes l in
  so_incoming (bpf_sock_ops_parse_hdr_cb e s (Some l))
  = Some (mk_tp_info_pid (mk_tp_info (opt_trace_id o) (opt_span_id o) (repeat 0 8) 0
            (if zlen l <? tp_option_size then k_flag_sampled else opt_flags o)) 0 1 0 0 0).
Proof.
  intros Hf Hl o. pose proof (zlen_nonneg l). unfold bpf_sock_ops_parse_hdr_cb, load_hdr_opt. rewrite Hf. cbn [negb].
  rewrite (proj2 (Z.ltb_ge tp_option_size _)), (proj2 (Z.ltb_ge (zlen l) 0)) by lia. done.
Qed.

(** Enrolment needs the mark [connect] leaves. *)
Definition enrolled_ok (e : ops_env) (s : sockops) : Prop :=
  (so_tracked s = true -> so_in_sock_dir s = true /\ is_Some (so_cookie s))
  /\ (oe_enroll_instrumented_only e = true -> is_Some (so_cookie s) -> oe_owner_instrumented e = true).

Lemma step_enrolled e s op : enrolled_ok e s -> enrolled_ok e (fst (obi_sockmap_tracker e s op)).
Proof.
  intros [Ht Hc]. destruct op; cbn; try done.
  - unfold bpf_sock_ops_connect_cb. destruct (oe_enroll_instrumented_only e) eqn:E1; [|by split; [|rewrite E1]].
    destruct (oe_owner_instrumented e) eqn:E2; [|by split; [|rewrite E1, E2]]. cbn. split; cbn; [|by rewrite E2].
    intros H. split; [by apply Ht|by eexists].
  - unfold bpf_sock_ops_active_est_cb. destruct (oe_enroll_instrumented_only e) eqn:E1; cbn [negb];
      destruct (nz _); cbn; (try destruct (so_cookie s) as [c|] eqn:Ec); destruct (oe_sock_hash_ok e); cbn;
      split; cbn; rewrite ?E1, ?Ec; try done; try (intros; split; [|by eexists]; try done; by apply Ht).
  - unfold bpf_sock_ops_passive_est_cb. by destruct (negb _).
  - unfold bpf_sock_ops_write_hdr_cb. by destruct (so_option s).
  - unfold bpf_sock_ops_parse_hdr_cb. destruct (negb _); [done|]. destruct (load_hdr_opt _) as [r o]. by destruct (r <? 0).
  - unfold bpf_sock_ops_state_cb. destruct (negb _); [done|]. by split.
Qed.

(** ** Properties *)

(** The trace context crosses the TCP option.  After a context was scheduled on the sending
    socket, its next header write puts out one option of 27 octets, reserved by the length
    callback; a receiver with TCP options enabled that finds it stores exactly the same trace id,
    span id and flags as the incoming context.  An option of an older sender, which lacks the flags
    octet, is taken as sampled; without an option, or with one that is too long, nothing changes. *)
Theorem tcp_option_round_trip e s r x :
  zlen (trace_id (tpp_tp x)) = TRACE_ID_SIZE_BYTES -> zlen (span_id (tpp_tp x)) = SPAN_ID_SIZE_BYTES ->
  nz (Z.land (oe_inject_flags e) k_inject_tcp_options) = true ->
  let tp fl := mk_tp_info (trace_id (tpp_tp x)) (span_id (tpp_tp x)) (repeat 0 8) 0 fl in
  let old := [k_tcp_option_kind_otel; 26] ++ trace_id (tpp_tp x) ++ span_id (tpp_tp x) in
  bpf_sock_ops_opt_len_cb (schedule s x) = Some tp_option_size
  /\ exists w, snd (obi_sockmap_tracker e (schedule s x) BPF_SOCK_OPS_WRITE_HDR_OPT_CB) = Some w
     /\ zlen w = tp_option_size
     /\ so_incoming (fst (obi_sockmap_tracker e r (BPF_SOCK_OPS_PARSE_HDR_OPT_CB (Some w))))
        = Some (mk_tp_info_pid (tp (flags (tpp_tp x))) 0 1 0 0 0)
     /\ so_incoming (fst (obi_sockmap_tracker e r (BPF_SOCK_OPS_PARSE_HDR_OPT_CB (Some old))))
        = Some (mk_tp_info_pid (tp k_flag_sampled) 0 1 0 0 0)
     /\ fst (obi_sockmap_tracker e r (BPF_SOCK_OPS_PARSE_HDR_OPT_CB None)) = r
     /\ fst (obi_sockmap_tracker e r (BPF_SOCK_OPS_PARSE_HDR_OPT_CB (Some (w ++ [0])))) = r.
Proof.
  intros Ht Hs Hfl tp old. split; [done|].
  set (o := mk_tp_option k_tcp_option_kind_otel tp_option_size (trace_id (tpp_tp x)) (span_id (tpp_tp x)) (flags (tpp_tp x))).
  assert (Htl : length (trace_id (tpp_tp x)) = 16%nat) by (unfold zlen in Ht; kunfold; lia).
  assert (Hsl : length (span_id (tpp_tp x)) = 8%nat) by (unfold zlen in Hs; kunfold; lia).
  assert (Hwf : opt_wf o) by (by split). pose proof (opt_bytes_zlen o Hwf) as Hz.
  assert (Hold : zlen old = 26) by (unfold old, zlen; rewrite !length_app, Htl, Hsl; done).
  destruct (opt_of_old_bytes k_tcp_option_kind_otel 26 _ _ Htl Hsl) as [E1 E2].
  exists (opt_bytes o). cbn [obi_sockmap_tracker fst]. split_and!; [done|done|..].
  - rewrite parse_received, opt_of_opt_bytes, Hz by (done || kunfold; lia). done.
  - rewrite parse_received by (done || kunfold; lia). fold old in E1, E2. by rewrite E1, E2, Hold.
  - unfold bpf_sock_ops_parse_hdr_cb. by rewrite Hfl.
  - unfold bpf_sock_ops_parse_hdr_cb, load_hdr_opt. rewrite Hfl, zlen_app, Hz. done.
Qed.

Definition example_sockops : sockops := mk_sockops None None 0 false false None.
Definition example_ops_env : ops_env := mk_ops_env 3 true true 99 true.

Lemma tcp_option_round_trip_witness :
  so_incoming (fst (obi_sockmap_tracker example_ops_env example_sockops
    (BPF_SOCK_OPS_PARSE_HDR_OPT_CB (Some ([25; 27] ++ repeat 0xab 16 ++ repeat 0xcd 8 ++ [1])))))
  = Some (mk_tp_info_pid (mk_tp_info (repeat 0xab 16) (repeat 0xcd 8) (repeat 0 8) 0 1) 0 1 0 0 0).
Proof.
  destruct (tcp_option_round_trip example_ops_env example_sockops example_sockops (mk_tp_info_pid example_wire_tp 7 1 1 3 0)
    eq_refl eq_refl eq_refl) as (_ & w & Hw & _ & Hin & _). cbn in Hw. injection Hw as <-. exact Hin.
Defined.

(** A scheduled context is written once.  Over any sequence of callbacks after a context was
    scheduled on a socket, at most one TCP option goes out, and it carries that context; on a socket
    without a scheduled context none does. *)
Theorem tcp_option_written_once e s x ops :
  (snd (run_ops e (schedule s x) ops) = [] \/ snd (run_ops e (schedule s x) ops) = [option_of x])
  /\ (so_option s = None -> snd (run_ops e s ops) = []).
Proof.
  split.
  - destruct (run_writes e (schedule s x) ops) as [Hw|(y & Hy & Hw)]; [by left|]. right. cbn in Hy. congruence.
  - intros Hn. destruct (run_writes e s ops) as [Hw|(y & Hy & _)]; [done|congruence].
Qed.

(** Nothing scheduled, nothing written. *)
Lemma tcp_option_written_once_witness :
  snd (run_ops example_ops_env example_sockops [BPF_SOCK_OPS_WRITE_HDR_OPT_CB; BPF_SOCK_OPS_WRITE_HDR_OPT_CB]) = [].
Proof.
  exact (proj2 (tcp_option_written_once example_ops_env example_sockops (mk_tp_info_pid example_wire_tp 7 1 1 3 0)
    [BPF_SOCK_OPS_WRITE_HDR_OPT_CB; BPF_SOCK_OPS_WRITE_HDR_OPT_CB]) eq_refl).
Defined.

(** Only marked sockets are enrolled.  Over any sequence of callbacks on a new socket, a tracked
    cookie belongs to a socket that is in [sock_dir] and carries the cookie in its storage; with
    enrolment restricted to instrumented processes, the owner that called [connect] was one. *)
Theorem enrolment_invariant e ops :
  enrolled_ok e (fst (run_ops e (mk_sockops None None 0 false false None) ops)).
Proof.
  assert (Hg : forall s, enrolled_ok e s -> enrolled_ok e (fst (run_ops e s ops))).
  { induction ops as [|op ops IH]; intros s Hs; [done|]. cbn [run_ops]. pose proof (step_enrolled e s op Hs) as H1.
    destruct (obi_sockmap_tracker e s op) as [s1 w]. cbn [fst] in H1. specialize (IH s1 H1).
    by destruct (run_ops e s1 ops). }
  apply Hg. split; [done|]. intros _ Hc. by apply is_Some_None in Hc.
Qed.
