(* ===== verification/Entry.v ===== *)
(** * The entry program of the injector ([obi_packet_extender], [bpf/tpinjector/tpinjector.c];
      [bpf/common/http_types.h], [msg_buffer.h]).

    What every send of an enrolled socket goes through first: the copy of the message for the
    kprobes ([fill_msg_buffers]), the HTTP/1 test on that copy ([protocol_detector]), and the choice
    of the chain that handles the message, a value of [ext_next].  Lookups other programs answer
    (SSL marks, tracked connections, Go gRPC clients, the process filter) are fields of [ext_env]. *)

From Stdlib Require Import ZArith Lia ZifyBool List Bool.
From stdpp Require Import base list sets.
From S2P Require Import Prelude TraceUtil Sampling H2Defs H2Sniff H2Huffman H2Sock H2Txn H2Inject H1Inject.

Local Open Scope Z_scope.

(** ** Definitions *)

Definition k_msg_buffer_size_max : Z := 8192.
Definition MIN_HTTP_SIZE : Z := 12.

#[export] Hint Unfold k_msg_buffer_size_max MIN_HTTP_SIZE : kconst.

Definition is_http_request_target (c : Z) : bool := (c =? 47) || (Z.lor c 0x20 =? 104).

(** "GET ", "POST ", "PUT ", "PATCH ", "DELETE ", "HEAD ", "OPTIONS " *)
Definition http_methods : list (list Z) :=
  [[71; 69; 84; 32]; [80; 79; 83; 84; 32]; [80; 85; 84; 32]; [80; 65; 84; 67; 72; 32];
   [68; 69; 76; 69; 84; 69; 32]; [72; 69; 65; 68; 32]; [79; 80; 84; 73; 79; 78; 83; 32]].

(** The chain of comparisons of [is_http_request_buf]. *)
Fixpoint match_method (methods : list (list Z)) (p : buf) : bool :=
  match methods with
  | [] => false
  | m :: ms => if mem_eqb p m then is_http_request_target (p (zlen m)) else match_method ms p
  end.

Definition is_http_request_buf (p : buf) : bool := match_method http_methods p.

Record msg_buffer := mk_msg_buffer {
  fallback_buf : list Z;
  mb_pos : Z;
  real_size : Z;
  cpu_id : Z
}.

Inductive ext_next := ext_pass | ext_find_existing_tp | ext_write_msg_tp | ext_detect_h2 | ext_sniff_h2.

#[export] Instance ext_next_eq_dec : EqDecision ext_next.
Proof. solve_decision. Defined.

Record ext_env := mk_ext_env {
  xe_inject_flags : Z;
  xe_pid : Z;
  xe_cpu : Z;
  xe_is_ssl : bool;
  xe_already_tracked : bool;
  xe_tracked_ssl_http2 : bool;
  xe_go_grpc_client : bool;
  xe_valid_pid : bool;
  (** [bpf_map_update_elem(&msg_buffers, ...)] succeeds *)
  xe_buffers_ok : bool
}.

(** The message, the socket, the connection's entry of [outgoing_trace_map], the per-CPU
    [msg_buffer_mem], the connection's entry of [msg_buffers], the storage for the TCP option, and
    the scratch context. *)
Record ext (M : Type) := mk_ext {
  x_msg : M;
  x_sock : h2_sock;
  x_entry : option tp_info_pid;
  x_mem : list Z;
  x_buffers : option msg_buffer;
  x_sk_storage : bool;
  x_option : option tp_info_pid;
  x_tp : tp_info_pid
}.
Arguments mk_ext {M}.
Arguments x_msg {M}.
Arguments x_sock {M}.
Arguments x_entry {M}.
Arguments x_mem {M}.
Arguments x_buffers {M}.
Arguments x_sk_storage {M}.
Arguments x_option {M}.
Arguments x_tp {M}.

(** [src] written over the front of [dst]. *)
Definition overlay (src dst : list Z) : list Z := src ++ drop (length src) dst.

Section entry.
Context {M : Type} `{SkMsgOps M}.

Definition set_buffers (st : ext M) (mem : list Z) (b : option msg_buffer) : ext M :=
  mk_ext (x_msg st) (x_sock st) (x_entry st) mem b (x_sk_storage st) (x_option st) (x_tp st).

Definition invalidate_msg_buffers (st : ext M) : ext M := set_buffers st (x_mem st) None.

Definition fill_msg_buffers (e : ext_env) (st : ext M) : bool * ext M :=
  if (m_size (x_msg st) =? 0) || xe_is_ssl e then (false, invalidate_msg_buffers st)
  else match m_view (x_msg st) with
  | None => (false, invalidate_msg_buffers st)
  | Some w =>
      if w <? 1 then (false, invalidate_msg_buffers st)
      else
        let window := clamp_umax w k_msg_buffer_size_max in
        let fallback := clamp_umax window 256 in
        let data := take_buf (m_data (x_msg st) 0) in
        let mb := mk_msg_buffer (overlay (data (Z.to_nat fallback)) (repeat 0 256)) 0 window (xe_cpu e) in
        let mem := overlay (data (Z.to_nat window)) (overlay [0] (x_mem st)) in
        if xe_buffers_ok e then (true, set_buffers st mem (Some mb))
        else (false, set_buffers st mem None)
  end.

Definition protocol_detector (e : ext_env) (st : ext M) : bool :=
  if xe_already_tracked e then false else is_http_request_buf (list_buf (x_mem st)).

Definition clear_tp_info_pid (st : ext M) : ext M :=
  mk_ext (x_msg st) (x_sock st) None (x_mem st) (x_buffers st) (x_sk_storage st) (x_option st) (x_tp st).

Definition set_ext_msg (st : ext M) (m : M) : ext M :=
  mk_ext m (x_sock st) (x_entry st) (x_mem st) (x_buffers st) (x_sk_storage st) (x_option st) (x_tp st).

(** [bpf_msg_pull_data(msg, 0, msg->size, 0)], its result ignored. *)
Definition pull_all (st : ext M) : ext M := set_ext_msg st (snd (m_pull (x_msg st) 0 (m_size (x_msg st)))).

(** [tp_pid] points into [outgoing_trace_map]: setting [written] changes the entry.  [None] is the
    return value false. *)
Definition handle_existing_tp_pid (e : ext_env) (st : ext M) (tp_pid : tp_info_pid) : ext M * option ext_next :=
  let schedule := nz (Z.land (xe_inject_flags e) k_inject_tcp_options) && x_sk_storage st in
  let entry := if schedule then set_written tp_pid else tp_pid in
  let opt := if schedule then Some tp_pid else x_option st in
  let st :=
    mk_ext (x_msg st) (x_sock st) (Some entry) (x_mem st) (x_buffers st) (x_sk_storage st) opt (x_tp st) in
  if tpp_valid entry =? 0 then (clear_tp_info_pid st, Some ext_pass)
  else
    let '(ok, st) := fill_msg_buffers e (pull_all st) in
    if negb ok then (clear_tp_info_pid st, None)
    else if protocol_detector e st then
      if nz (Z.land (xe_inject_flags e) k_inject_http_headers) then
        let entry := set_written entry in
        (mk_ext (x_msg st) (x_sock st) (Some entry) (x_mem st) (x_buffers st) (x_sk_storage st) (x_option st) entry,
         Some ext_write_msg_tp)
      else (clear_tp_info_pid st, Some ext_pass)
    else (clear_tp_info_pid st, None).

Variable snap : M -> sk_msg.

Definition wrap_next (n : h2_next) : ext_next :=
  match n with next_detect => ext_detect_h2 | next_sniff => ext_sniff_h2 | _ => ext_pass end.

(** [obi_packet_extender] after [handle_existing_tp_pid]. *)
Definition extend_rest (e : ext_env) (st : ext M) : ext M * ext_next :=
  if xe_go_grpc_client e then (snd (fill_msg_buffers e (pull_all st)), ext_detect_h2)
  else if negb (xe_valid_pid e) then (st, ext_pass)
  else
    let '(ready, st) := fill_msg_buffers e (pull_all st) in
    if is_h2_socket (x_sock st) then (st, ext_detect_h2)
    else if negb ready || (m_size (x_msg st) <=? MIN_HTTP_SIZE) then (st, ext_pass)
    else if protocol_detector e st then (st, ext_find_existing_tp)
    else
      (st, wrap_next (wrap_http2_traceparent (mk_env (xe_is_ssl e) (xe_tracked_ssl_http2 e) (fun _ => false) (fun _ => false))
                        (snap (x_msg st)) (x_sock st))).

Definition obi_packet_extender (e : ext_env) (st : ext M) : ext M * ext_next :=
  if negb (nz (Z.land (xe_inject_flags e) (Z.lor k_inject_http_headers k_inject_tcp_options))) then (st, ext_pass)
  else match x_entry st with
  | Some tp_pid =>
      if (tpp_pid tp_pid =? xe_pid e) && negb (is_h2_socket (x_sock st)) then
        match handle_existing_tp_pid e st tp_pid with
        | (st, Some next) => (st, next)
        | (st, None) => extend_rest e st
        end
      else extend_rest e st
  | None => extend_rest e st
  end.

End entry.

(** ** The request line *)

Lemma match_method_spec ms p :
  match_method ms p = true -> exists m, m ∈ ms /\ mem_eqb p m = true /\ is_http_request_target (p (zlen m)) = true.
Proof.
  induction ms as [|m ms IH]; simpl; [done|]. destruct (mem_eqb p m) eqn:Hm.
  - intros Ht. exists m. split_and!; [apply list_elem_of_here|done|done].
  - intros (m' & Hin & Hr)%IH. exists m'. split; [by apply list_elem_of_further|done].
Qed.

(** No method is a prefix of another: the first comparison that succeeds is the only one. *)
Lemma methods_disjoint m m' p :
  m ∈ http_methods -> m' ∈ http_methods -> mem_eqb p m = true -> mem_eqb p m' = true -> m = m'.
Proof.
  unfold http_methods. intros Hm Hm' H1 H2. set_unfold.
  destruct_or! Hm; destruct_or! Hm'; subst; try done; exfalso; simpl in H1, H2; unfold shift in *; simpl in *; lia.
Qed.

Lemma match_method_complete ms m p :
  (forall m', m' ∈ ms -> m' ∈ http_methods) -> m ∈ ms ->
  mem_eqb p m = true -> is_http_request_target (p (zlen m)) = true -> match_method ms p = true.
Proof.
  intros Hs Hin Hm Ht. induction ms as [|m0 ms IH]; [by apply elem_of_nil in Hin|]. simpl.
  destruct (mem_eqb p m0) eqn:H0.
  - by rewrite (methods_disjoint m0 m p) by (done || apply Hs; (done || apply list_elem_of_here)).
  - apply elem_of_cons in Hin as [->|Hin]; [congruence|]. apply IH; [|done].
    intros. apply Hs. by apply list_elem_of_further.
Qed.

(** The text starts with a method, a space, and [/] or [h]. *)
Definition request_line (l : list Z) : Prop :=
  exists m t rest, m ∈ http_methods /\ l = m ++ t :: rest /\ (t = 47 \/ t = 104 \/ t = 72).

Lemma request_target_spec t : 0 <= t < 256 -> is_http_request_target t = true <-> t = 47 \/ t = 104 \/ t = 72.
Proof.
  intros Ht. split; [|by intros [->|[->| ->]]].
  pose proof (zrange_forallb 256 (fun t => negb (is_http_request_target t) || (t =? 47) || (t =? 104) || (t =? 72))
    ltac:(vm_compute; reflexivity) t ltac:(lia)) as H. intros E. cbv beta in H. rewrite E in H. simpl in H. lia.
Qed.

Lemma methods_short m : m ∈ http_methods -> 4 <= zlen m <= 8.
Proof. unfold http_methods. intros Hm. set_unfold. destruct_or! Hm; subst; unfold zlen; simpl; lia. Qed.

Lemma is_http_request_buf_ext p q : agree 9 p q -> is_http_request_buf p = is_http_request_buf q.
Proof.
  intros Ha. unfold is_http_request_buf. assert (Hs : forall m, m ∈ http_methods -> zlen m <= 8).
  { intros m Hm. apply methods_short in Hm. lia. }
  induction http_methods as [|m ms IH]; [done|]. simpl.
  specialize (Hs m (list_elem_of_here _ _)) as Hm.
  rewrite (mem_eqb_ext m p q) by (eapply agree_le; [exact Ha|lia]).
  rewrite (Ha (zlen m)) by (pose proof (zlen_nonneg m); lia). rewrite IH; [done|].
  intros m' Hm'. apply Hs. by apply list_elem_of_further.
Qed.

(** [is_http_request_buf] recognises the request lines, on a buffer long enough for every method. *)
Lemma is_http_request_buf_spec l :
  is_bytes l -> 9 <= zlen l -> is_http_request_buf (list_buf l) = true <-> request_line l.
Proof.
  intros Hb Hl. split.
  - intros (m & Hin & Hm & Ht)%match_method_spec. pose proof (methods_short m Hin) as Hs.
    destruct (zlen_split l (zlen m) ltac:(lia)) as (l1 & l2 & -> & Hl1).
    rewrite zlen_app in Hl. destruct l2 as [|t rest]; [unfold zlen in Hl; simpl in Hl; unfold zlen in *; lia|].
    exists m, t, rest. split; [done|]. split.
    + f_equal. apply (nth_ext _ _ 0 0); [unfold zlen in Hl1; lia|]. intros n Hn.
      rewrite mem_eqb_spec in Hm. specialize (Hm (Z.of_nat n) ltac:(unfold zlen in *; lia)).
      rewrite list_buf_app_l in Hm by (unfold zlen in *; lia).
      rewrite !list_buf_nth, Nat2Z.id in Hm by lia. done.
    + apply request_target_spec; [by apply Forall_app in Hb as [_ [? _]%Forall_cons]|].
      rewrite <- Hl1 in Ht. replace (zlen l1) with (zlen l1 + 0) in Ht by lia. by rewrite list_buf_app_r in Ht.
  - intros (m & t & rest & Hin & -> & Ht). apply (match_method_complete _ m); [done|done|apply mem_eqb_list_buf|].
    replace (zlen m) with (zlen m + 0) by lia. rewrite list_buf_app_r by lia.
    apply request_target_spec; [by apply Forall_app in Hb as [_ [? _]%Forall_cons]|]. done.
Qed.

(** ** The copy of the message *)

Lemma take_buf_take l n : (n <= length l)%nat -> take_buf (list_buf l) n = take n l.
Proof.
  intros Hn. apply (nth_ext _ _ 0 0); [rewrite take_buf_length, length_take; lia|].
  rewrite take_buf_length. intros i Hi. rewrite <- (Nat2Z.id i), <- (list_buf_nth _ (Z.of_nat i)) by lia.
  rewrite take_buf_list_buf by lia. rewrite list_buf_nth, Nat2Z.id by lia.
  by rewrite !nth_lookup, lookup_take_lt.
Qed.

Lemma overlay_take src dst n : (n <= length src)%nat -> take n (overlay src dst) = take n src.
Proof. intros. unfold overlay. by rewrite take_app_le. Qed.

Lemma overlay_length src dst : (length src <= length dst)%nat -> length (overlay src dst) = length dst.
Proof. intros. unfold overlay. rewrite length_app, length_drop. lia. Qed.

Lemma clamp_min x m : clamp_umax x m = Z.min x m.
Proof. unfold clamp_umax. destruct (Z.leb_spec x m); lia. Qed.

(** The entry of [msg_buffers] is absent, or holds the front of [l]: the copy in [msg_buffer_mem]
    up to 8192 octets, the one in the entry up to 256. *)
Definition fresh_buffers (l mem : list Z) (b : option msg_buffer) : Prop :=
  match b with
  | None => True
  | Some mb =>
      real_size mb = Z.min (zlen l) k_msg_buffer_size_max
      /\ take (Z.to_nat (real_size mb)) mem = take (Z.to_nat (real_size mb)) l
      /\ length (fallback_buf mb) = 256%nat
      /\ take (Z.to_nat (Z.min (zlen l) 256)) (fallback_buf mb) = take (Z.to_nat (Z.min (zlen l) 256)) l
  end.

Section entry_proofs.
Context {M : Type} `{SkMsgLaws M} `{!SkMsgReads M}.
Implicit Types (st : ext M) (e : ext_env).

Lemma m_data_0 (m : M) n : (n <= length (m_bytes m))%nat -> take_buf (m_data m 0) n = take n (m_bytes m).
Proof. intros. rewrite <- take_buf_take by done. by apply take_buf_ext. Qed.

Lemma pull_all_bytes st : m_bytes (x_msg (pull_all st)) = m_bytes (x_msg st).
Proof. apply pull_bytes. Qed.

Lemma pull_all_view st : 0 < m_size (x_msg st) -> m_view (x_msg (pull_all st)) = Some (m_size (x_msg st)).
Proof.
  intros Hp. unfold pull_all. simpl. edestruct (pull_reads (x_msg st) 0) as [_ Hv]; [|reflexivity|].
  - lia.
  - rewrite Hv. by rewrite Z.sub_0_r.
Qed.

(** [fill_msg_buffers] changes the two copies only. *)
Lemma fill_frame e st :
  let st' := snd (fill_msg_buffers e st) in
  x_msg st' = x_msg st /\ x_sock st' = x_sock st /\ x_entry st' = x_entry st /\ x_option st' = x_option st.
Proof. unfold fill_msg_buffers, set_buffers, invalidate_msg_buffers. repeat case_match; done. Qed.

Lemma fill_spec e st :
  let '(ok, st') := fill_msg_buffers e (pull_all st) in
  fresh_buffers (m_bytes (x_msg st)) (x_mem st') (x_buffers st')
  /\ (ok = true <-> x_buffers st' <> None)
  /\ (ok = true <-> 0 < m_size (x_msg st) /\ xe_is_ssl e = false /\ xe_buffers_ok e = true).
Proof.
  assert (Hs : m_size (x_msg (pull_all st)) = m_size (x_msg st)) by (unfold m_size; by rewrite pull_all_bytes).
  assert (Hv : 0 < m_size (x_msg st) -> m_view (x_msg (pull_all st)) = Some (m_size (x_msg st))) by apply pull_all_view.
  pose proof (pull_all_bytes st) as Hb. revert Hs Hv Hb. generalize (pull_all st). intros st1 Hs Hv Hb.
  unfold fill_msg_buffers. rewrite Hs. pose proof (zlen_nonneg (m_bytes (x_msg st))) as Hnn. fold (m_size (x_msg st)) in Hnn.
  destruct (Z.eqb_spec (m_size (x_msg st)) 0) as [Hz|Hz]; [simpl; split_and!; [done| |]; split; (done || lia)|].
  destruct (xe_is_ssl e); [simpl; split_and!; [done| |]; split; (done || intuition discriminate)|]. simpl orb.
  rewrite Hv by lia. destruct (Z.ltb_spec (m_size (x_msg st)) 1); [lia|]. cbv zeta.
  destruct (xe_buffers_ok e); simpl; [|split_and!; [done| |]; split; (done || intuition discriminate)].
  rewrite !clamp_min. split_and!; [done| | | |done|split; [lia|done]].
  all: unfold m_size in *; kunfold; set (l := m_bytes (x_msg st)) in *.
  all: rewrite ?m_data_0 by (rewrite Hb; unfold zlen in *; lia); rewrite ?Hb.
  - rewrite overlay_take by (rewrite length_take; unfold zlen in *; lia). rewrite take_take. f_equal. lia.
  - rewrite overlay_length; [done|]. rewrite length_take. simpl. lia.
  - rewrite overlay_take by (rewrite length_take; unfold zlen in *; lia). rewrite take_take. f_equal. lia.
Qed.

(** What the entry program has established when it hands a message to the HTTP/1 chain. *)
Definition http1_send e (st : ext M) : Prop :=
  nz (Z.land (xe_inject_flags e) (Z.lor k_inject_http_headers k_inject_tcp_options)) = true
  /\ xe_go_grpc_client e = false /\ xe_valid_pid e = true /\ xe_is_ssl e = false /\ xe_buffers_ok e = true
  /\ xe_already_tracked e = false /\ is_h2_socket (x_sock st) = false
  /\ MIN_HTTP_SIZE < m_size (x_msg st) /\ request_line (m_bytes (x_msg st)).

Lemma wrap_next_h2 n : wrap_next n <> ext_find_existing_tp.
Proof. by destruct n. Qed.

(** After a fill that succeeds the detector sees the message, whatever [msg_buffer_mem] held. *)
Lemma detector_fresh e st :
  is_bytes (m_bytes (x_msg st)) -> MIN_HTTP_SIZE < m_size (x_msg st) ->
  fst (fill_msg_buffers e (pull_all st)) = true ->
  protocol_detector e (snd (fill_msg_buffers e (pull_all st))) = true
  <-> xe_already_tracked e = false /\ request_line (m_bytes (x_msg st)).
Proof.
  intros Hb Hs. pose proof (fill_spec e st) as Hf. destruct (fill_msg_buffers e (pull_all st)) as [ok st'].
  simpl. intros ->. destruct Hf as (Hf & [Hn _] & _). specialize (Hn eq_refl).
  destruct (x_buffers st') as [mb|]; [|done]. destruct Hf as (Hr & Ht & _). unfold m_size in Hs.
  rewrite <- is_http_request_buf_spec by (done || kunfold; lia).
  unfold protocol_detector. destruct (xe_already_tracked e); [split; [done|intuition discriminate]|].
  assert (Ha : agree 9 (list_buf (x_mem st')) (list_buf (m_bytes (x_msg st)))).
  { intros i Hi. rewrite !list_buf_nth, !nth_lookup by lia.
    rewrite <- (lookup_take_lt (x_mem st') (Z.to_nat (real_size mb))) by (kunfold; lia).
    rewrite <- (lookup_take_lt (m_bytes (x_msg st)) (Z.to_nat (real_size mb))) by (kunfold; lia).
    by rewrite Ht. }
  rewrite (is_http_request_buf_ext _ _ Ha). split; [done|by intros [_ ?]].
Qed.

Lemma rest_routes snap e st st' next :
  is_bytes (m_bytes (x_msg st)) ->
  nz (Z.land (xe_inject_flags e) (Z.lor k_inject_http_headers k_inject_tcp_options)) = true ->
  extend_rest snap e st = (st', next) -> next = ext_find_existing_tp <-> http1_send e st.
Proof.
  intros Hb Hfl. unfold extend_rest, http1_send.
  destruct (xe_go_grpc_client e). { intros [= <- <-]. split; [done|intuition discriminate]. }
  destruct (xe_valid_pid e); simpl; [|intros [= <- <-]; split; [done|intuition discriminate]].
  pose proof (fill_spec e st) as Hf. pose proof (detector_fresh e st Hb) as Hd.
  pose proof (fill_frame e (pull_all st)) as (Hm & Hk & _). pose proof (pull_all_bytes st) as Hp.
  destruct (fill_msg_buffers e (pull_all st)) as [ok st1]. simpl in *. destruct Hf as (_ & _ & Hok).
  assert (Hz : m_size (x_msg st1) = m_size (x_msg st)) by (unfold m_size; by rewrite Hm, Hp).
  rewrite Hz, Hk. destruct (is_h2_socket (x_sock st)); [intros [= <- <-]; split; [done|intuition discriminate]|].
  destruct ok; simpl; [|intros [= <- <-]; split; [done|]; kunfold; intuition (discriminate || lia)].
  destruct (Z.leb_spec (m_size (x_msg st)) MIN_HTTP_SIZE); [intros [= <- <-]; split; [done|lia]|].
  specialize (Hd ltac:(lia) eq_refl). destruct (proj1 Hok eq_refl) as (_ & -> & ->).
  destruct (protocol_detector e st1); intros [= <- <-].
  - split; [intros _|done]. destruct (proj1 Hd eq_refl). split_and!; done.
  - split; [intros Hw; by apply wrap_next_h2 in Hw|]. intros (_ & _ & _ & _ & _ & Ht & _ & _ & Hr).
    by specialize (proj2 Hd (conj Ht Hr)).
Qed.

(** The path of a stored context ends, or leaves a message and a socket that are as before. *)
Lemma existing_frame e st tp :
  match handle_existing_tp_pid e st tp with
  | (_, Some next) => next <> ext_find_existing_tp
  | (st', None) => m_bytes (x_msg st') = m_bytes (x_msg st) /\ x_sock st' = x_sock st
  end.
Proof.
  unfold handle_existing_tp_pid. cbv zeta. destruct (tpp_valid _ =? 0); [done|].
  match goal with |- context [fill_msg_buffers e (pull_all ?s)] => set (st0 := s) end.
  pose proof (fill_frame e (pull_all st0)) as (Hm & Hk & _). pose proof (pull_all_bytes st0) as Hp.
  destruct (fill_msg_buffers e (pull_all st0)) as [ok st1]. cbn [snd] in *.
  rewrite <- Hm in Hp. destruct ok; simpl; [|done].
  destruct (protocol_detector e st1); [|done].
  by destruct (nz (Z.land (xe_inject_flags e) k_inject_http_headers)).
Qed.

Lemma existing_fresh e st tp :
  tpp_valid tp <> 0 ->
  let st' := fst (handle_existing_tp_pid e st tp) in
  fresh_buffers (m_bytes (x_msg st)) (x_mem st') (x_buffers st')
  /\ (m_size (x_msg st) = 0 \/ xe_is_ssl e = true -> x_buffers st' = None)
  /\ m_bytes (x_msg st') = m_bytes (x_msg st).
Proof.
  intros Hv. unfold handle_existing_tp_pid. cbv zeta.
  match goal with |- context [if tpp_valid ?x =? 0 then _ else _] => replace (tpp_valid x) with (tpp_valid tp) by (by destruct (_ && _)) end.
  destruct (Z.eqb_spec (tpp_valid tp) 0); [done|].
  match goal with |- context [fill_msg_buffers e (pull_all ?s)] => set (st0 := s) end.
  pose proof (fill_frame e (pull_all st0)) as (Hm & _). pose proof (pull_all_bytes st0) as Hp.
  pose proof (fill_spec e st0) as Hf. change (x_msg st0) with (x_msg st) in *.
  destruct (fill_msg_buffers e (pull_all st0)) as [ok st1]. destruct Hf as (Hf & Hn & Hok). cbn [snd] in Hm.
  assert (Hg : m_size (x_msg st) = 0 \/ xe_is_ssl e = true -> x_buffers st1 = None).
  { intros Hc. destruct (x_buffers st1); [|done]. exfalso. destruct Hn as [_ Hn]. specialize (Hn ltac:(done)).
    apply Hok in Hn as (? & ? & _). destruct Hc; [lia|congruence]. }
  rewrite <- Hm in Hp. destruct ok; simpl; [|done]. destruct (protocol_detector e st1); [|done].
  by destruct (nz (Z.land (xe_inject_flags e) k_inject_http_headers)).
Qed.

Lemma rest_fresh snap e st :
  xe_go_grpc_client e || xe_valid_pid e = true ->
  let st' := fst (extend_rest snap e st) in
  fresh_buffers (m_bytes (x_msg st)) (x_mem st') (x_buffers st')
  /\ (m_size (x_msg st) = 0 \/ xe_is_ssl e = true -> x_buffers st' = None)
  /\ m_bytes (x_msg st') = m_bytes (x_msg st).
Proof.
  intros Hv. pose proof (fill_frame e (pull_all st)) as (Hm & _). pose proof (pull_all_bytes st) as Hp.
  rewrite <- Hm in Hp. pose proof (fill_spec e st) as Hf. unfold extend_rest.
  destruct (fill_msg_buffers e (pull_all st)) as [ok st1]. destruct Hf as (Hf & Hn & Hok). cbn [fst snd] in *.
  assert (Hg : m_size (x_msg st) = 0 \/ xe_is_ssl e = true -> x_buffers st1 = None).
  { intros Hc. destruct (x_buffers st1); [|done]. exfalso. destruct Hn as [_ Hn]. specialize (Hn ltac:(done)).
    apply Hok in Hn as (? & ? & _). destruct Hc; [lia|congruence]. }
  destruct (xe_go_grpc_client e); [done|]. destruct (xe_valid_pid e); [|done]. simpl.
  destruct (is_h2_socket (x_sock st1)); [done|]. destruct (negb ok || _); [done|]. by destruct (protocol_detector _ _).
Qed.

End entry_proofs.

(** ** Properties *)

(** The entry program hands a message to the HTTP/1 chain only when that very message starts
    with a request line, on a plain-text, untracked connection of a selected process that is not
    HTTP/2 and with more than twelve octets to send; what an earlier send left in the shared copy
    of the message has no influence.  For a connection without a stored context the conditions are
    also sufficient. *)
Theorem entry_routes_request_lines {M} `{SkMsgLaws M} `{!SkMsgReads M} snap e (st st' : ext M) next :
  is_bytes (m_bytes (x_msg st)) -> obi_packet_extender snap e st = (st', next) ->
  (next = ext_find_existing_tp -> http1_send e st)
  /\ (x_entry st = None -> http1_send e st -> next = ext_find_existing_tp).
Proof.
  intros Hb. unfold obi_packet_extender.
  destruct (nz _) eqn:Hfl; simpl; [|intros [= <- <-]; split; [done|]; intros _ [? _]; congruence].
  assert (Hrest : forall st0, m_bytes (x_msg st0) = m_bytes (x_msg st) -> x_sock st0 = x_sock st ->
    extend_rest snap e st0 = (st', next) -> next = ext_find_existing_tp -> http1_send e st).
  { intros st0 Hm Hk Hr Hn. eapply rest_routes in Hr; [|by rewrite Hm|done]. apply Hr in Hn.
    unfold http1_send, m_size in *. by rewrite Hm, Hk in Hn. }
  destruct (x_entry st) as [tp|] eqn:He.
  - intros Hr. split; [|done]. destruct (_ && _); [|by eapply Hrest].
    pose proof (existing_frame e st tp) as Hf. destruct (handle_existing_tp_pid e st tp) as [st0 [n|]].
    + injection Hr as <- <-. done.
    + destruct Hf. by eapply Hrest.
  - intros Hr. split; [by eapply Hrest|]. intros _ Hs. by apply (rest_routes snap e st st' next).
Qed.

(** When the entry program runs for a selected process or a Go gRPC client, the copy it leaves
    for the [tcp_sendmsg] probe is the front of this message or is withdrawn; it is withdrawn
    for an empty or an encrypted send, and the message itself is untouched. *)
Theorem entry_buffers_fresh {M} `{SkMsgLaws M} `{!SkMsgReads M} snap e (st : ext M) :
  nz (Z.land (xe_inject_flags e) (Z.lor k_inject_http_headers k_inject_tcp_options)) = true ->
  xe_go_grpc_client e || xe_valid_pid e = true ->
  (forall tp, x_entry st = Some tp -> tpp_valid tp <> 0) ->
  let st' := fst (obi_packet_extender snap e st) in
  fresh_buffers (m_bytes (x_msg st)) (x_mem st') (x_buffers st')
  /\ (m_size (x_msg st) = 0 \/ xe_is_ssl e = true -> x_buffers st' = None)
  /\ m_bytes (x_msg st') = m_bytes (x_msg st).
Proof.
  intros Hfl Hv Hc. unfold obi_packet_extender. rewrite Hfl. simpl negb. cbv iota.
  destruct (x_entry st) as [tp|] eqn:He; [|by apply rest_fresh].
  destruct (_ && _); [|by apply rest_fresh].
  pose proof (existing_fresh e st tp (Hc tp eq_refl)) as Hf. cbv zeta in Hf.
  destruct (handle_existing_tp_pid e st tp) as [st0 [n|]]; [exact Hf|]. cbn [fst] in Hf. destruct Hf as (_ & _ & Hb).
  pose proof (rest_fresh snap e st0 Hv) as Hr. cbv zeta in Hr. unfold m_size in *. by rewrite Hb in Hr.
Qed.

(** ** Witnesses *)

Definition example_ext_env : ext_env := mk_ext_env 3 7 0 false false false false true true.

(** "GET / HTTP/1.1", CR, LF *)
Definition example_line : list Z := [71; 69; 84; 32; 47; 32; 72; 84; 84; 80; 47; 49; 46; 49; 13; 10].

Definition example_ext (bytes mem : list Z) (entry : option tp_info_pid) : ext windowed :=
  mk_ext (mk_windowed bytes None) (mk_sock true true None None) entry mem None true None zero_tp_info_pid.

Lemma entry_routes_request_lines_witness :
  exists st', obi_packet_extender (fun m => msg_of (m_bytes m)) example_ext_env (example_ext example_line [] None)
    = (st', ext_find_existing_tp)
  /\ http1_send example_ext_env (example_ext example_line [] None).
Proof.
  destruct (obi_packet_extender (fun m => msg_of (m_bytes m)) example_ext_env (example_ext example_line [] None))
    as [st' next] eqn:E.
  assert (next = ext_find_existing_tp) as -> by (vm_compute in E; by injection E).
  exists st'. split; [reflexivity|].
  refine (proj1 (entry_routes_request_lines _ _ _ _ _ _ E) eq_refl). repeat constructor; vm_compute; congruence.
Defined.

Lemma entry_buffers_fresh_witness :
  fresh_buffers example_line
    (x_mem (fst (obi_packet_extender (fun m => msg_of (m_bytes m)) example_ext_env (example_ext example_line (repeat 88 20) None))))
    (x_buffers (fst (obi_packet_extender (fun m => msg_of (m_bytes m)) example_ext_env (example_ext example_line (repeat 88 20) None)))).
Proof.
  refine (proj1 (entry_buffers_fresh _ example_ext_env (example_ext example_line (repeat 88 20) None) _ _ _));
    [reflexivity|reflexivity|discriminate].
Defined.

(** ** A short send *)

Definition example_stored : tp_info_pid := mk_tp_info_pid zero_tp 7 1 0 0 0.

(** The one-octet send "G" on a connection with a stored context, after a send that started with a
    request line on the same CPU: the detector reads on into the older copy, takes the octet for a
    request, and the stored context is marked as written although the message cannot carry it. *)
Theorem entry_short_send_reads_stale_copy :
  let '(st', next) := obi_packet_extender (fun m => msg_of (m_bytes m))
    (mk_ext_env k_inject_http_headers 7 0 false false false false true true)
    (example_ext [71] example_line (Some example_stored)) in
  next = ext_write_msg_tp /\ (tpp_written <$> x_entry st') = Some 1
  /\ fst (write_msg_traceparent (x_msg st') zero_tp) = false.
Proof. vm_compute. done. Qed.
