(* ===== verification/IovIter.v ===== *)
(** * Reading the buffers of a socket call ([bpf/common/iov_iter.h], [read_msghdr_buf]).

    A send or a receive hands the kernel one buffer or an array of segments.  [iovec_iter_ctx] is the
    part of the kernel's iterator the tracer keeps; [read_iovec_ctx] copies the front of the data into
    scratch memory.  [kernel_iter] is the iterator as the running kernel lays it out: a field that this
    kernel does not have is [None]. *)

From Stdlib Require Import ZArith Lia ZifyBool List Bool.
From stdpp Require Import base list.
From S2P Require Import Prelude Entry.

Local Open Scope Z_scope.

(** ** Definitions *)

Definition k_iovec_max_len : Z := 8192.
Definition max_segments : nat := 64.

#[export] Hint Unfold k_iovec_max_len : kconst.

Record iovec := mk_iovec { iov_base : Z; iov_len : Z }.

Record kernel_iter := mk_kernel_iter {
  ki_type : option Z;
  ki_iter_type : Z;
  ki_ubuf : option Z;
  ki_iov : option Z;
  ki__iov : option Z;
  ki_nr_segs : Z
}.

Record iovec_iter_ctx := mk_iter { it_type : Z; it_ubuf : Z; it_iov : Z; it_nr_segs : Z }.

Definition get_iovec_ctx (k : kernel_iter) : iovec_iter_ctx :=
  let type := match ki_type k with Some t => u8 (Z.land t 0xfe) | None => ki_iter_type k end in
  let ubuf := match ki_ubuf k with Some p => p | None => 0 end in
  let iov := match ki_iov k with Some p => p | None => match ki__iov k with Some p => p | None => 0 end end in
  mk_iter type ubuf iov (ki_nr_segs k).

(** What the running kernel gives: the enumerators, its own memory where the segment array is, and
    the memory of the task by address. *)
Record iov_env := mk_iov_env {
  iter_ubuf : option Z;
  iter_iovec : Z;
  kernel_vec : Z -> option iovec;
  user_mem : Z -> umem
}.

Definition write_at (b : list Z) (off : Z) (src : list Z) : list Z :=
  take (Z.to_nat off) b ++ overlay src (drop (Z.to_nat off) b).

Section read.
Variable (e : iov_env).

(** The [for] loop over the segments, [n] rounds from segment [i]. *)
Fixpoint iov_loop (n : nat) (i : Z) (ctx : iovec_iter_ctx) (b : list Z) (max_len tot_len : Z) : Z * list Z :=
  match n with
  | O => (tot_len, b)
  | S n' =>
      if (it_nr_segs ctx <=? i) || (max_len <=? tot_len) then (tot_len, b)
      else
        match kernel_vec e (it_iov ctx + 16 * i) with
        | None => (tot_len, b)
        | Some vec =>
            if (iov_base vec =? 0) || (iov_len vec =? 0) then iov_loop n' (i + 1) ctx b max_len tot_len
            else
              let iov_size := clamp_umax (u32 (Z.min (iov_len vec) (u64 (max_len - tot_len)))) k_iovec_max_len in
              let tot_len := clamp_umax tot_len k_iovec_max_len in
              let b := write_at b tot_len (probe_read0 (user_mem e (iov_base vec)) (Z.to_nat iov_size)) in
              iov_loop n' (i + 1) ctx b max_len (u32 (tot_len + iov_size))
        end
  end.

(** The number of octets read and the scratch memory [b] after the read; [max_len] is a [size_t]. *)
Definition read_iovec_ctx (ctx : iovec_iter_ctx) (b : list Z) (max_len : Z) : Z * list Z :=
  if max_len =? 0 then (0, b)
  else
    let max_len := clamp_umax max_len k_iovec_max_len in
    if match iter_ubuf e with Some u => negb (it_ubuf ctx =? 0) && (it_type ctx =? u) | None => false end then
      let n := Z.to_nat max_len in
      match probe_read (user_mem e (it_ubuf ctx)) n with
      | Some l => (max_len, write_at b 0 l)
      | None => (0, write_at b 0 (repeat 0 n))
      end
    else if negb (it_type ctx =? iter_iovec e) then (0, b)
    else
      let '(tot_len, b) := iov_loop max_segments 0 ctx b max_len 0 in
      (clamp_umax tot_len k_iovec_max_len, b).

Definition read_msghdr_buf (msg_iter : kernel_iter) (b : list Z) (max_len : Z) : Z * list Z :=
  if max_len =? 0 then (0, b) else read_iovec_ctx (get_iovec_ctx msg_iter) b max_len.

End read.

(** ** Lemmas *)

Lemma write_at_length b off src :
  0 <= off -> off + zlen src <= zlen b -> length (write_at b off src) = length b.
Proof.
  unfold zlen, write_at, overlay. intros. rewrite !length_app, length_take, !length_drop. lia.
Qed.

(** A write at the end of what is already there. *)
Lemma write_at_next l src b :
  zlen l + zlen src <= zlen b -> write_at (overlay l b) (zlen l) src = overlay (l ++ src) b.
Proof.
  intros H. unfold write_at, overlay, zlen in *. rewrite Nat2Z.id, take_app_length, drop_app_length, drop_drop, length_app, <- app_assoc.
  done.
Qed.

(** Segments [segs] of the array at [iov], each readable in the task's memory. *)
Definition iov_segment (e : iov_env) (iov i : Z) (seg : list Z) : Prop :=
  exists base, kernel_vec e (iov + 16 * i) = Some (mk_iovec base (zlen seg))
  /\ (seg = [] \/ base <> 0) /\ zlen seg < 2 ^ 64
  /\ forall n, (n <= length seg)%nat -> probe_read (user_mem e base) n = Some (take n seg).

Fixpoint iov_segments (e : iov_env) (iov i : Z) (segs : list (list Z)) : Prop :=
  match segs with [] => True | seg :: segs' => iov_segment e iov i seg /\ iov_segments e iov (i + 1) segs' end.

Lemma segments_take e iov n segs i : iov_segments e iov i segs -> iov_segments e iov i (take n segs).
Proof. revert i n. induction segs as [|s segs IH]; intros i [|n]; simpl; try done. intros [? ?]. auto. Qed.

Lemma iov_loop_done e n i ctx b max_len tot : max_len <= tot -> iov_loop e n i ctx b max_len tot = (tot, b).
Proof. destruct n; [done|]. intros. simpl. rewrite (proj2 (Z.leb_le max_len tot)), orb_true_r by lia. done. Qed.

(** The loop gathers the segments that are left behind what [l] already holds. *)
Lemma iov_loop_gathers e ctx (b : list Z) max_len segs : 0 < max_len <= k_iovec_max_len -> max_len <= zlen b ->
  forall n i (l : list Z), (length segs <= n)%nat -> 0 <= i ->
  iov_segments e (it_iov ctx) i segs -> ((length segs < n)%nat -> it_nr_segs ctx <= i + zlen segs) -> i + zlen segs <= it_nr_segs ctx ->
  zlen l <= max_len ->
  iov_loop e n i ctx (overlay l b) max_len (zlen l)
  = (Z.min max_len (zlen (l ++ concat segs)), overlay (take (Z.to_nat max_len) (l ++ concat segs)) b).
Proof.
  intros Hm Hb. kunfold. induction segs as [|seg segs IH]; intros n i l Hn Hi Hs Hlt Hle Hl.
  - simpl. rewrite app_nil_r, take_ge by (unfold zlen in *; lia).
    replace (Z.min max_len (zlen l)) with (zlen l) by lia.
    destruct n as [|n]; [done|]. simpl. unfold zlen in Hlt. simpl in Hlt.
    rewrite (proj2 (Z.leb_le (it_nr_segs ctx) i)) by lia. done.
  - destruct n as [|n]; [simpl in Hn; lia|]. destruct Hs as [(base & Hk & Hbase & H64 & Hrd) Hs]. simpl. unfold zlen in Hle, Hlt; simpl in Hle, Hlt.
    rewrite (proj2 (Z.leb_gt (it_nr_segs ctx) i)) by lia. simpl.
    destruct (Z.leb_spec max_len (zlen l)) as [Hfull|Hroom].
    { f_equal; [rewrite zlen_app; pose proof (zlen_nonneg (seg ++ concat segs)); lia|].
      rewrite take_app_le, take_ge by (unfold zlen in *; lia). done. }
    rewrite Hk. simpl.
    destruct (decide (seg = [])) as [->|Hne].
    { rewrite orb_true_r. apply IH; try done; unfold zlen; simpl in *; lia. }
    assert (Hbz : (base =? 0) = false) by (destruct Hbase; [done|lia]).
    assert (Hpos : 0 < zlen seg) by (destruct seg; [done|unfold zlen; simpl; lia]).
    rewrite Hbz, (proj2 (Z.eqb_neq (zlen seg) 0)) by lia. simpl.
    pose proof (zlen_nonneg l). set (k := Z.min (zlen seg) (max_len - zlen l)).
    assert (Hk64 : u64 (max_len - zlen l) = max_len - zlen l) by (apply wrap_small; lia).
    assert (Hk32 : u32 k = k) by (apply wrap_small; lia).
    rewrite Hk64. fold k. rewrite Hk32, !clamp_min. rewrite (Z.min_l k), (Z.min_l (zlen l)) by (unfold k; kunfold; lia).
    assert (Hp : probe_read0 (user_mem e base) (Z.to_nat k) = take (Z.to_nat k) seg).
    { unfold probe_read0. rewrite Hrd by (unfold k, zlen in *; lia). done. }
    assert (Hlen : zlen (take (Z.to_nat k) seg) = k) by (unfold zlen; rewrite length_take; unfold k, zlen in *; lia).
    rewrite Hp, write_at_next by (rewrite Hlen; unfold k; lia).
    replace (u32 (zlen l + k)) with (zlen (l ++ take (Z.to_nat k) seg)) by (rewrite zlen_app, Hlen, (wrap_small 32 (zlen l + k)) by lia; done).
    destruct (Z.le_gt_cases (zlen seg) (max_len - zlen l)) as [Hfit|Hcut].
    + rewrite (take_ge seg) by (unfold k, zlen in *; lia). rewrite IH; [by rewrite <- app_assoc|simpl in *; lia|lia|done|simpl in *; unfold zlen; lia|unfold zlen; lia|].
      rewrite zlen_app. lia.
    + rewrite iov_loop_done by (rewrite zlen_app, Hlen; unfold k; lia).
      f_equal; [rewrite !zlen_app, Hlen; pose proof (zlen_nonneg (concat segs)); unfold k; lia|].
      f_equal. rewrite take_app, (take_ge l) by (unfold zlen in *; lia). f_equal.
      rewrite take_app_le by (unfold zlen in *; lia). f_equal. unfold k, zlen in *. lia.
Qed.

(** ** What a read returns *)

(** The iterator holds [data]: one buffer that holds the octets asked for, or an array of
    segments, of which the first 64 are read. *)
Inductive iter_holds (e : iov_env) (ctx : iovec_iter_ctx) (max_len : Z) : list Z -> Prop :=
  | holds_ubuf data :
      iter_ubuf e = Some (it_type ctx) -> it_ubuf ctx <> 0 -> Z.min max_len k_iovec_max_len <= zlen data ->
      (forall n, (n <= length data)%nat -> probe_read (user_mem e (it_ubuf ctx)) n = Some (take n data)) ->
      iter_holds e ctx max_len data
  | holds_iovec segs :
      iter_ubuf e <> Some (it_type ctx) \/ it_ubuf ctx = 0 -> it_type ctx = iter_iovec e ->
      iov_segments e (it_iov ctx) 0 segs -> it_nr_segs ctx = zlen segs ->
      iter_holds e ctx max_len (concat (take max_segments segs)).

Lemma not_ubuf e ctx : iter_ubuf e <> Some (it_type ctx) \/ it_ubuf ctx = 0 ->
  match iter_ubuf e with Some u => negb (it_ubuf ctx =? 0) && (it_type ctx =? u) | None => false end = false.
Proof.
  intros [H| ->]; destruct (iter_ubuf e) as [u|]; try done. destruct (Z.eqb_spec (it_type ctx) u); [congruence|]. apply andb_false_r.
Qed.

Lemma read_iovec_front e ctx b max_len data :
  0 < max_len < 2 ^ 64 -> k_iovec_max_len <= zlen b -> iter_holds e ctx max_len data ->
  let n := Z.min max_len k_iovec_max_len in
  read_iovec_ctx e ctx b max_len = (Z.min n (zlen data), overlay (take (Z.to_nat n) data) b).
Proof.
  intros Hm Hb Hd n. unfold read_iovec_ctx. rewrite (proj2 (Z.eqb_neq max_len 0)), clamp_min by lia. fold n.
  assert (Hn : 0 < n <= k_iovec_max_len) by (unfold n; kunfold; lia).
  destruct Hd as [data Hu Hnz Hlen Hrd|segs Hu Ht Hs Hnr].
  - rewrite Hu, Z.eqb_refl, (proj2 (Z.eqb_neq (it_ubuf ctx) 0)) by done. simpl. fold n in Hlen.
    rewrite Hrd by (unfold zlen in *; lia). rewrite Z.min_l by done. done.
  - rewrite not_ubuf, Ht, Z.eqb_refl by done. cbn [negb].
    pose proof (iov_loop_gathers e ctx b n (take max_segments segs) Hn ltac:(lia) max_segments 0 []) as H.
    rewrite (surjective_pairing (iov_loop _ _ _ _ _ _ _)). change (overlay [] b) with b in H. change (zlen []) with 0 in H.
    assert (Hl : zlen (take max_segments segs) = Z.min 64 (zlen segs)) by (unfold zlen; rewrite length_take; unfold max_segments; lia).
    rewrite H; [|unfold zlen, max_segments in *; lia|lia|by apply segments_take|unfold zlen, max_segments in *; lia|lia|lia].
    cbn [fst snd app]. rewrite clamp_min. f_equal. lia.
Qed.

(** Reading the buffers of a send copies exactly the front of the data they hold, in order and without
    a gap across segments, up to the length asked for, 8192 octets and 64 segments, and leaves the rest of
    the scratch memory as it was; this holds for each layout of the kernel's iterator. *)
Theorem msghdr_read_gathers e k b max_len data :
  0 < max_len < 2 ^ 64 -> k_iovec_max_len <= zlen b -> iter_holds e (get_iovec_ctx k) max_len data ->
  let n := Z.min max_len k_iovec_max_len in
  read_msghdr_buf e k b max_len = (Z.min n (zlen data), overlay (take (Z.to_nat n) data) b).
Proof.
  intros Hm Hb Hd. unfold read_msghdr_buf. rewrite (proj2 (Z.eqb_neq max_len 0)) by lia. by apply read_iovec_front.
Qed.

Definition example_iov_env : iov_env :=
  mk_iov_env (Some 0) 1
    (fun a => if a =? 500 then Some (mk_iovec 1000 2) else if a =? 516 then Some (mk_iovec 2000 3) else None)
    (fun a => if a =? 1000 then list_umem [7; 8] else if a =? 2000 then list_umem [9; 10; 11] else list_umem []).

(** A kernel before 5.14: the type with the direction bit, no single-buffer form. *)
Definition example_iter : kernel_iter := mk_kernel_iter (Some 5) 0 None (Some 500) None 2.

Lemma msghdr_read_gathers_witness :
  read_msghdr_buf (mk_iov_env None 4 (kernel_vec example_iov_env) (user_mem example_iov_env)) example_iter (repeat 0 (Z.to_nat 8192)) 4
  = (4, [7; 8; 9; 10] ++ drop 4 (repeat 0 (Z.to_nat 8192))).
Proof.
  apply (msghdr_read_gathers (mk_iov_env None 4 (kernel_vec example_iov_env) (user_mem example_iov_env)) example_iter
           (repeat 0 (Z.to_nat 8192)) 4 [7; 8; 9; 10; 11]).
  - split; reflexivity.
  - unfold zlen. rewrite repeat_length. kunfold. lia.
  - apply (holds_iovec _ (get_iovec_ctx example_iter) 4 [[7; 8]; [9; 10; 11]]); try reflexivity.
    + left. discriminate.
    + split; [|split; [|exact I]]; [exists 1000|exists 2000]; (split; [reflexivity|]); (split; [by right|]); (split; [reflexivity|]);
        intros n Hn; do 4 (destruct n as [|n]; [first [reflexivity|simpl in Hn; lia]|]); simpl in Hn; lia.
Defined.
