(* ===== verification/ConnInfo.v ===== *)
(** * Connection identity ([bpf/common/connection_info.h], [egress_key.h]).

    The sorted connection and the ports-only egress key under which requests and responses meet,
    and the repair of the orientation before an event leaves for user space. *)

From Stdlib Require Import ZArith Lia ZifyBool List Bool.
From stdpp Require Import base list countable gmap.
From S2P Require Import Prelude.

Local Open Scope Z_scope.

(** ** Definitions *)

Inductive protocol_type :=
  | k_protocol_type_unknown
  | k_protocol_type_mysql
  | k_protocol_type_postgres
  | k_protocol_type_http
  | k_protocol_type_kafka
  | k_protocol_type_mqtt
  | k_protocol_type_mssql
  | k_protocol_type_sunrpc
  | k_protocol_type_nats
  | k_protocol_type_amqp
  | k_protocol_type_aerospike.

#[export] Instance protocol_type_eq_dec : EqDecision protocol_type.
Proof. solve_decision. Defined.

Record connection_info := mk_conn {
  s_addr : list Z;
  d_addr : list Z;
  s_port : Z;
  d_port : Z
}.

#[export] Instance connection_info_eq_dec : EqDecision connection_info.
Proof. solve_decision. Defined.

#[export] Instance connection_info_countable : Countable connection_info.
Proof.
  refine (inj_countable' (fun c => (s_addr c, d_addr c, s_port c, d_port c))
            (fun '(a, b, p, q) => mk_conn a b p q) _). by intros [].
Defined.

(** The classified connections. *)
Definition protocol_cache := gmap connection_info protocol_type.

Record pid_connection_info := mk_pid_conn { pc_conn : connection_info; pc_pid : Z }.

Record egress_key := mk_egress { ek_s_port : Z; ek_d_port : Z; ek_stream_id : Z }.

Record connection_info_part := mk_part {
  part_addr : list Z;
  part_pid : Z;
  part_port : Z;
  part_type : Z
}.

Definition EPHEMERAL_PORT_MIN : Z := 32768.
Definition FD_CLIENT : Z := 0.
Definition FD_SERVER : Z := 1.

#[export] Hint Unfold EPHEMERAL_PORT_MIN FD_CLIENT FD_SERVER : kconst.

Definition likely_ephemeral_port (port : Z) : bool := EPHEMERAL_PORT_MIN <=? port.

Definition swap_connection_info_order (c : connection_info) : connection_info :=
  mk_conn (d_addr c) (s_addr c) (d_port c) (s_port c).

Definition sort_connection_info (c : connection_info) : connection_info :=
  if likely_ephemeral_port (s_port c) && negb (likely_ephemeral_port (d_port c)) then c
  else if (likely_ephemeral_port (d_port c) && negb (likely_ephemeral_port (s_port c)))
          || (s_port c <? d_port c)
  then swap_connection_info_order c
  else c.

Definition sort_egress_key (k : egress_key) : egress_key :=
  if likely_ephemeral_port (ek_s_port k) && negb (likely_ephemeral_port (ek_d_port k)) then k
  else if (likely_ephemeral_port (ek_d_port k) && negb (likely_ephemeral_port (ek_s_port k)))
          || (ek_s_port k <? ek_d_port k)
  then mk_egress (ek_d_port k) (ek_s_port k) (ek_stream_id k)
  else k.

Definition client_call (c : connection_info) : bool :=
  likely_ephemeral_port (s_port c) && negb (likely_ephemeral_port (d_port c)).

Definition fixup_connection_info (c : connection_info) (client : bool) (orig_dport : Z)
    : connection_info :=
  if orig_dport =? 0 then c
  else if (client && negb (d_port c =? orig_dport)) || (negb client && (d_port c =? orig_dport))
  then swap_connection_info_order c
  else c.

Definition populate_partial_info (part : connection_info_part) (addr : list Z) (port : Z)
    : connection_info_part :=
  mk_part addr (part_pid part) port (part_type part).

Definition populate_ephemeral_info (part : connection_info_part) (sorted_conn : connection_info)
    (orig_dport pid type : Z) : connection_info_part :=
  let part :=
    if ((type =? FD_CLIENT) && negb (d_port sorted_conn =? orig_dport))
       || ((type =? FD_SERVER) && (d_port sorted_conn =? orig_dport))
    then populate_partial_info part (d_addr sorted_conn) (d_port sorted_conn)
    else populate_partial_info part (s_addr sorted_conn) (s_port sorted_conn) in
  mk_part (part_addr part) pid (part_port part) type.

Definition is_empty_connection_info (c : connection_info) : bool :=
  (s_port c =? 0) && (d_port c =? 0).

Definition make_egress_key (c : connection_info) : egress_key :=
  sort_egress_key (mk_egress (s_port c) (d_port c) 0).

(** ** Lemmas *)

Lemma swap_involutive c : swap_connection_info_order (swap_connection_info_order c) = c.
Proof. by destruct c. Qed.

Lemma sort_cases c :
  sort_connection_info c = c \/ sort_connection_info c = swap_connection_info_order c.
Proof. unfold sort_connection_info. bdes_goal; auto. Qed.

Lemma sort_swap c :
  s_port c <> d_port c -> sort_connection_info (swap_connection_info_order c) = sort_connection_info c.
Proof.
  intros Hne. unfold sort_connection_info, likely_ephemeral_port. cbn [s_port d_port swap_connection_info_order].
  kunfold. rewrite swap_involutive. bdes_goal; try done; lia.
Qed.

Lemma egress_of_sort c : make_egress_key (sort_connection_info c) = make_egress_key c.
Proof.
  unfold make_egress_key, sort_egress_key, sort_connection_info, likely_ephemeral_port.
  destruct c as [sa da sp dp]. simpl. kunfold. bdes_goal; simpl in *; try done; try lia; repeat f_equal; lia.
Qed.

Lemma egress_swap c : make_egress_key (swap_connection_info_order c) = make_egress_key c.
Proof.
  unfold make_egress_key, sort_egress_key, likely_ephemeral_port. destruct c as [sa da sp dp]. simpl. kunfold.
  bdes_goal; simpl in *; try done; try lia; repeat f_equal; lia.
Qed.

(** ** Properties *)

(** The sorted connection is a canonical key.  Sorting keeps the two endpoints, is idempotent,
    and gives both directions of a connection the same key exactly when the ports differ (or the
    addresses coincide); the egress key derived from either direction, sorted or not, is one and
    the same. *)
Theorem sort_connection_info_canonical c :
  (sort_connection_info c = c \/ sort_connection_info c = swap_connection_info_order c)
  /\ sort_connection_info (sort_connection_info c) = sort_connection_info c
  /\ (sort_connection_info (swap_connection_info_order c) = sort_connection_info c
      <-> s_port c <> d_port c \/ s_addr c = d_addr c)
  /\ make_egress_key (sort_connection_info c) = make_egress_key c
  /\ make_egress_key (swap_connection_info_order c) = make_egress_key c.
Proof.
  split_and!; [apply sort_cases| | |apply egress_of_sort|apply egress_swap].
  - destruct (Z.eq_dec (s_port c) (d_port c)) as [E|Hne].
    + unfold sort_connection_info, likely_ephemeral_port. rewrite !E. kunfold. bdes_goal; try done; lia.
    + destruct (sort_cases c) as [H|H]; rewrite H; [done|]. by rewrite sort_swap, H.
  - split.
    + intros H. destruct (Z.eq_dec (s_port c) (d_port c)) as [E|]; [|by left]. right.
      unfold sort_connection_info in H. cbn [s_port d_port swap_connection_info_order] in H. rewrite !E in H.
      destruct c as [sa da sp dp]. cbn in *. unfold swap_connection_info_order in H. simpl in H.
      bdes; try lia; congruence.
    + intros [Hne|E]; [by apply sort_swap|].
      destruct (Z.eq_dec (s_port c) (d_port c)) as [Ep|Hne]; [|by apply sort_swap].
      destruct c as [sa da sp dp]. simpl in *. subst. done.
Qed.

(** User space sees the server as destination.  Whatever the sort did, repairing the sorted
    connection with the original destination port gives a client socket its own view back and a
    server socket the client's view, and the endpoint recorded for the connection is the client's
    in both roles. *)
Theorem fixup_connection_info_orients c part pid :
  s_port c <> d_port c -> d_port c <> 0 ->
  fixup_connection_info (sort_connection_info c) true (d_port c) = c
  /\ fixup_connection_info (sort_connection_info c) false (d_port c) = swap_connection_info_order c
  /\ (let p := populate_ephemeral_info part (sort_connection_info c) (d_port c) pid FD_CLIENT in
      part_addr p = s_addr c /\ part_port p = s_port c)
  /\ (let p := populate_ephemeral_info part (sort_connection_info c) (d_port c) pid FD_SERVER in
      part_addr p = d_addr c /\ part_port p = d_port c).
Proof.
  intros Hne Hd. unfold fixup_connection_info, populate_ephemeral_info.
  rewrite (proj2 (Z.eqb_neq (d_port c) 0)) by done.
  destruct (sort_cases c) as [-> | ->]; cbn [d_port swap_connection_info_order];
    rewrite ?Z.eqb_refl, ?(proj2 (Z.eqb_neq (s_port c) (d_port c))) by done; cbn; rewrite ?swap_involutive; done.
Qed.

Lemma fixup_connection_info_orients_witness :
  fixup_connection_info (sort_connection_info (mk_conn [1] [2] 33000 45000)) true 45000
  = mk_conn [1] [2] 33000 45000.
Proof.
  apply (fixup_connection_info_orients (mk_conn [1] [2] 33000 45000) (mk_part [] 0 0 0) 7); simpl; lia.
Defined.
