(* ===== verification/Packet.v ===== *)
(** * Packets at the socket filter ([bpf/common/tcp_info.h], [protocol_defs.h]).

    [read_sk_buff] reads the addresses, ports, sequence numbers and the length of the headers of an
    Ethernet frame.  A packet is the list of its octets; [bpf_skb_load_bytes] past its end fails and
    leaves zeroes.  The second part builds frames from their fields and shows that the reader takes them
    apart again, with IPv4 options, an IPv6 destination-options header and TCP options in between. *)

From Stdlib Require Import ZArith Lia ZifyBool List Bool.
From stdpp Require Import base list.
From S2P Require Import Prelude Entry ConnInfo.

Local Open Scope Z_scope.

(** ** Definitions *)

Definition IP_V6_DEST_OPTS : Z := 60.
Definition ETH_HLEN : Z := 14.
Definition ETH_P_IP : Z := 0x0800.
Definition ETH_P_IPV6 : Z := 0x86DD.
Definition TCPHDR_FIN : Z := 0x01.
Definition TCPHDR_RST : Z := 0x04.
Definition IPPROTO_TCP : Z := 6.
Definition IPPROTO_UDP : Z := 17.

#[export] Hint Unfold IP_V6_DEST_OPTS ETH_HLEN ETH_P_IP ETH_P_IPV6 TCPHDR_FIN TCPHDR_RST IPPROTO_TCP IPPROTO_UDP : kconst.

Record protocol_info := mk_protocol_info {
  pi_hdr_len : Z;
  pi_seq : Z;
  pi_ack : Z;
  pi_h_proto : Z;
  pi_tot_len : Z;
  pi_opts_off : Z;
  pi_flags : Z;
  pi_ip_len : Z;
  pi_l4_proto : Z
}.

Definition empty_protocol_info : protocol_info := mk_protocol_info 0 0 0 0 0 0 0 0 0.
Definition empty_conn : connection_info := mk_conn (repeat 0 16) (repeat 0 16) 0 0.

Definition ip4ip6_prefix : list Z := repeat 0 10 ++ [0xff; 0xff].

Definition skb_load_bytes (skb : list Z) (off : Z) (n : nat) : option (list Z) :=
  if (0 <=? off) && (off + Z.of_nat n <=? zlen skb) then Some (take n (drop (Z.to_nat off) skb)) else None.

Definition skb_load (skb : list Z) (off : Z) (n : nat) : list Z :=
  match skb_load_bytes skb off n with Some l => l | None => repeat 0 n end.

Definition load_u8 (skb : list Z) (off : Z) : Z := le_word (skb_load skb off 1).
Definition load_u16 (skb : list Z) (off : Z) : Z := le_word (skb_load skb off 2).
Definition load_u32 (skb : list Z) (off : Z) : Z := le_word (skb_load skb off 4).

(** The network header: the protocol of the level above it, or [None] when the packet is rejected. *)
Definition read_network (skb : list Z) (h_proto : Z) (tcp : protocol_info) (conn : connection_info)
    : option Z * protocol_info * connection_info :=
  let set_lens (tcp : protocol_info) tot hdr :=
    mk_protocol_info hdr (pi_seq tcp) (pi_ack tcp) (pi_h_proto tcp) tot (pi_opts_off tcp) (pi_flags tcp) (u8 hdr) (pi_l4_proto tcp) in
  if h_proto =? ETH_P_IP then
    let hdr_len := u8 (Z.land (load_u8 skb ETH_HLEN) 0x0f * 4) in
    if hdr_len <? 20 then (None, tcp, conn)
    else
      let tot := load_u16 skb (ETH_HLEN + 2) in
      let proto := load_u8 skb (ETH_HLEN + 9) in
      let conn := mk_conn (ip4ip6_prefix ++ skb_load skb (ETH_HLEN + 12) 4) (ip4ip6_prefix ++ skb_load skb (ETH_HLEN + 16) 4)
                    (s_port conn) (d_port conn) in
      (Some proto, set_lens tcp tot (ETH_HLEN + hdr_len), conn)
  else if h_proto =? ETH_P_IPV6 then
    let tot := load_u16 skb (ETH_HLEN + 4) in
    let proto := load_u8 skb (ETH_HLEN + 6) in
    let conn := mk_conn (skb_load skb (ETH_HLEN + 8) 16) (skb_load skb (ETH_HLEN + 24) 16) (s_port conn) (d_port conn) in
    (Some proto, set_lens tcp tot (ETH_HLEN + 40), conn)
  else (None, tcp, conn).

(** The TCP header at [pi_hdr_len tcp]; the packet is bad when it says it is longer than the packet. *)
Definition read_tcp_header (skb : list Z) (h_proto : Z) (tcp : protocol_info) : bool * protocol_info :=
  let hdr := pi_hdr_len tcp in
  let seq := bswap32 (load_u32 skb (hdr + 4)) in
  let ack := bswap32 (load_u32 skb (hdr + 8)) in
  let doff := u8 (Z.shiftr (Z.land (load_u8 skb (hdr + 12)) 0xf0) 4 * 4) in
  let flags := load_u8 skb (hdr + 13) in
  let tcp := mk_protocol_info (u32 (hdr + doff)) seq ack h_proto (pi_tot_len tcp) (u8 (hdr + 20)) flags (pi_ip_len tcp) (pi_l4_proto tcp) in
  (negb (zlen skb <? pi_hdr_len tcp), tcp).

Definition read_sk_buff (skb : list Z) (tcp : protocol_info) (conn : connection_info) : bool * protocol_info * connection_info :=
  let h_proto := bswap16 (load_u16 skb 12) in
  let tcp := mk_protocol_info (pi_hdr_len tcp) (pi_seq tcp) (pi_ack tcp) (pi_h_proto tcp) (pi_tot_len tcp) (pi_opts_off tcp)
               (pi_flags tcp) 0 (pi_l4_proto tcp) in
  match read_network skb h_proto tcp conn with
  | (None, tcp, conn) => (false, tcp, conn)
  | (Some proto, tcp, conn) =>
      let set_hdr hdr := mk_protocol_info hdr (pi_seq tcp) (pi_ack tcp) (pi_h_proto tcp) (pi_tot_len tcp) (pi_opts_off tcp)
                           (pi_flags tcp) (pi_ip_len tcp) proto in
      let '(proto, tcp) :=
        if (proto =? IP_V6_DEST_OPTS) && (h_proto =? ETH_P_IPV6) then
          let proto := load_u8 skb (pi_ip_len tcp) in
          (proto,
           set_hdr (if proto =? IPPROTO_TCP then u32 (pi_hdr_len tcp + (load_u8 skb (pi_ip_len tcp + 1) + 1) * 8) else pi_hdr_len tcp))
        else (proto, set_hdr (pi_hdr_len tcp)) in
      let conn := mk_conn (s_addr conn) (d_addr conn) (bswap16 (load_u16 skb (pi_hdr_len tcp))) (bswap16 (load_u16 skb (pi_hdr_len tcp + 2))) in
      if negb (proto =? IPPROTO_TCP) then (false, tcp, conn)
      else let '(ok, tcp) := read_tcp_header skb h_proto tcp in (ok, tcp, conn)
  end.

Definition tcp_closing (tcp : protocol_info) : bool := nz (Z.land (pi_flags tcp) (Z.lor TCPHDR_FIN TCPHDR_RST)).
Definition tcp_empty (tcp : protocol_info) (skb : list Z) : bool := pi_hdr_len tcp =? zlen skb.

(** [read_skb_bytes] of [k_tracer_defs.h]: blocks of 16 octets while more than one is left, then the
    last; [b] is the destination from [pos] on. *)
Fixpoint skb_blocks (n : nat) (skb : list Z) (offset : Z) (b : list Z) (pos : nat) (remaining : Z) : list Z * nat * Z * Z :=
  match n with
  | O => (b, pos, offset, remaining)
  | S n' =>
      if remaining <=? 16 then (b, pos, offset, remaining)
      else skb_blocks n' skb (offset + 16) (take pos b ++ skb_load skb offset 16 ++ drop (pos + 16) b) (pos + 16) (remaining - 16)
  end.

Definition read_skb_bytes (skb : list Z) (offset : Z) (b : list Z) (len max_len : Z) : list Z :=
  let remaining := if max_len <? len then max_len else len in
  let '(b, pos, offset, remaining) := skb_blocks (Z.to_nat (max_len / 16)) skb offset b 0 remaining in
  let last := u64 (remaining - 1) in
  if 16 <=? last then b
  else let n := Z.to_nat (last + 1) in take pos b ++ skb_load skb offset n ++ drop (pos + n) b.

(** ** Lemmas *)

(** The octets [l] stand at offset [off] of the packet. *)
Definition octets_at (skb : list Z) (off : Z) (l : list Z) : Prop :=
  exists pre post, skb = pre ++ l ++ post /\ zlen pre = off.

Lemma octets_at_whole l : octets_at l 0 l.
Proof. exists [], []. by rewrite app_nil_r. Qed.

Lemma octets_at_app skb off a b : octets_at skb off (a ++ b) -> octets_at skb off a /\ octets_at skb (off + zlen a) b.
Proof.
  intros (pre & post & -> & <-). split.
  - exists pre, (b ++ post). by rewrite <- !app_assoc.
  - exists (pre ++ a), post. by rewrite <- !app_assoc, zlen_app.
Qed.

Lemma skb_load_at skb off l : octets_at skb off l -> skb_load skb off (length l) = l.
Proof.
  intros (pre & post & -> & <-). unfold skb_load, skb_load_bytes, zlen. rewrite !length_app.
  rewrite (proj2 (Z.leb_le 0 _)), (proj2 (Z.leb_le (_ + _) _)) by lia. simpl.
  rewrite Nat2Z.id, drop_app_length, take_app_length. done.
Qed.

Lemma load_u8_at skb off x : octets_at skb off [x] -> load_u8 skb off = x.
Proof. intros H. apply skb_load_at in H. unfold load_u8. simpl in H. rewrite H. simpl. lia. Qed.

Lemma load_be16_at skb off x : 0 <= x < 2 ^ 16 -> octets_at skb off (be_bytes 2 x) -> bswap16 (load_u16 skb off) = x.
Proof. intros Hx H. unfold load_u16. apply skb_load_at in H. change (length (be_bytes 2 x)) with 2%nat in H. rewrite H. by apply be16_le_word. Qed.

Lemma load_be32_at skb off x : 0 <= x < 2 ^ 32 -> octets_at skb off (be_bytes 4 x) -> bswap32 (load_u32 skb off) = x.
Proof. intros Hx H. unfold load_u32. apply skb_load_at in H. change (length (be_bytes 4 x)) with 4%nat in H. rewrite H. by apply be32_le_word. Qed.

Lemma load_n_at skb off l n : length l = n -> octets_at skb off l -> skb_load skb off n = l.
Proof. intros <-. apply skb_load_at. Qed.

(** ** Copying a payload *)

Lemma overlay_step (D b : list Z) pos k : (pos + k <= length D)%nat -> (pos + k <= length b)%nat ->
  take pos (overlay (take pos D) b) ++ take k (drop pos D) ++ drop (pos + k) (overlay (take pos D) b) = overlay (take (pos + k) D) b.
Proof.
  intros HD Hb. unfold overlay. rewrite !length_take, !Nat.min_l by lia.
  rewrite take_app_le, (take_ge (take pos D)) by (rewrite length_take; lia).
  rewrite drop_app_ge, drop_drop, length_take by (rewrite length_take; lia).
  rewrite Nat.min_l by lia. replace (pos + (pos + k - pos))%nat with (pos + k)%nat by lia.
  rewrite app_assoc, take_take_drop. done.
Qed.

Lemma skb_load_within skb off n : 0 <= off -> off + Z.of_nat n <= zlen skb -> skb_load skb off n = take n (drop (Z.to_nat off) skb).
Proof. intros. unfold skb_load, skb_load_bytes. rewrite (proj2 (Z.leb_le 0 off)), (proj2 (Z.leb_le (_ + _) _)) by lia. done. Qed.

Section copy.
Variables (skb b : list Z) (off len : Z).
Hypothesis (Hoff : 0 <= off) (Hskb : off + len <= zlen skb) (Hb : len <= zlen b).
Let D := drop (Z.to_nat off) skb.

Lemma D_length : len <= zlen D.
Proof. unfold D, zlen in *. rewrite length_drop. lia. Qed.

Lemma load_D pos k : (Z.of_nat (pos + k) <= len) -> skb_load skb (off + Z.of_nat pos) k = take k (drop pos D).
Proof.
  intros. rewrite skb_load_within by lia. unfold D. rewrite drop_drop. do 2 f_equal. lia.
Qed.

Lemma skb_blocks_copies n : forall pos, 0 < len - Z.of_nat pos <= 16 * (Z.of_nat n + 1) ->
  exists pos', 0 < len - Z.of_nat pos' <= 16
  /\ skb_blocks n skb (off + Z.of_nat pos) (overlay (take pos D) b) pos (len - Z.of_nat pos)
     = (overlay (take pos' D) b, pos', off + Z.of_nat pos', len - Z.of_nat pos').
Proof.
  pose proof D_length as HD. induction n as [|n IH]; intros pos Hpos; [exists pos; split; [lia|done]|]. simpl.
  destruct (Z.leb_spec (len - Z.of_nat pos) 16); [exists pos; split; [lia|done]|].
  destruct (IH (pos + 16)%nat) as (pos' & Hr & He); [lia|]. exists pos'. split; [done|].
  rewrite (load_D pos 16), overlay_step by (unfold zlen in *; lia). rewrite <- He. f_equal; lia.
Qed.

(** The blocks and the rest are exactly the [len] octets at [off]. *)
Lemma read_skb_bytes_copies max_len : 0 < len <= max_len -> max_len mod 16 = 0 ->
  read_skb_bytes skb off b len max_len = overlay (take (Z.to_nat len) D) b.
Proof.
  intros Hl Hm. unfold read_skb_bytes. rewrite (proj2 (Z.ltb_ge max_len len)) by lia.
  destruct (skb_blocks_copies (Z.to_nat (max_len / 16)) 0) as (pos & Hr & He); [rewrite Z2Nat.id; zdm|].
  change (overlay (take 0 D) b) with b in He. rewrite Z.add_0_r, Z.sub_0_r in He. rewrite He.
  assert (H64 : u64 (len - Z.of_nat pos - 1) = len - Z.of_nat pos - 1) by (apply wrap_small; lia).
  rewrite H64, (proj2 (Z.leb_gt 16 _)) by lia. pose proof D_length.
  rewrite load_D, overlay_step by (unfold zlen in *; lia). do 2 f_equal. lia.
Qed.
End copy.

(** ** Frames *)

(** A TCP segment; [sg_mid] is window, checksum and urgent pointer. *)
Record segment := mk_segment {
  sg_sport : Z;
  sg_dport : Z;
  sg_seq : Z;
  sg_ack : Z;
  sg_res : Z;
  sg_flags : Z;
  sg_mid : list Z;
  sg_opts : list Z;
  sg_payload : list Z
}.

Record segment_ok (s : segment) : Prop := mk_segment_ok {
  so_sport : 0 <= sg_sport s < 2 ^ 16;
  so_dport : 0 <= sg_dport s < 2 ^ 16;
  so_seq : 0 <= sg_seq s < 2 ^ 32;
  so_ack : 0 <= sg_ack s < 2 ^ 32;
  so_res : 0 <= sg_res s < 16;
  so_flags : 0 <= sg_flags s < 256;
  so_mid : zlen (sg_mid s) = 6;
  so_opts : exists k, 0 <= k <= 10 /\ zlen (sg_opts s) = 4 * k
}.

Definition tcp_header (s : segment) : list Z :=
  be_bytes 2 (sg_sport s) ++ be_bytes 2 (sg_dport s) ++ be_bytes 4 (sg_seq s) ++ be_bytes 4 (sg_ack s)
  ++ [(5 + zlen (sg_opts s) / 4) * 16 + sg_res s] ++ [sg_flags s] ++ sg_mid s ++ sg_opts s.

(** The network header: fields the reader skips are lists of octets. *)
Inductive network :=
  | net_ip4 (tos : Z) (len mid sum src dst opts : list Z)
  | net_ip6 (flow len : list Z) (hops : Z) (src dst : list Z) (dest_opts : option (list Z)).

Definition network_ok (n : network) : Prop :=
  match n with
  | net_ip4 tos len mid sum src dst opts =>
      length len = 2%nat /\ length mid = 5%nat /\ length sum = 2%nat /\ length src = 4%nat /\ length dst = 4%nat
      /\ exists k, 0 <= k <= 10 /\ zlen opts = 4 * k
  | net_ip6 flow len hops src dst dest_opts =>
      length flow = 4%nat /\ length len = 2%nat /\ length src = 16%nat /\ length dst = 16%nat
      /\ match dest_opts with None => True | Some o => exists k, 0 <= k < 256 /\ zlen o + 2 = (k + 1) * 8 end
  end.

Definition dest_header (o : option (list Z)) : list Z :=
  match o with None => [] | Some o => [IPPROTO_TCP] ++ [(zlen o + 2) / 8 - 1] ++ o end.

Definition network_header (n : network) : list Z :=
  match n with
  | net_ip4 tos len mid sum src dst opts =>
      [4 * 16 + (5 + zlen opts / 4)] ++ [tos] ++ len ++ mid ++ [IPPROTO_TCP] ++ sum ++ src ++ dst ++ opts
  | net_ip6 flow len hops src dst o =>
      flow ++ len ++ [match o with None => IPPROTO_TCP | Some _ => IP_V6_DEST_OPTS end] ++ [hops] ++ src ++ dst ++ dest_header o
  end.

Definition ethertype (n : network) : Z := match n with net_ip4 _ _ _ _ _ _ _ => ETH_P_IP | net_ip6 _ _ _ _ _ _ => ETH_P_IPV6 end.

Definition frame (macs : list Z) (n : network) (s : segment) : list Z :=
  macs ++ be_bytes 2 (ethertype n) ++ network_header n ++ tcp_header s ++ sg_payload s.

Definition network_addrs (n : network) : list Z * list Z :=
  match n with
  | net_ip4 _ _ _ _ src dst _ => (ip4ip6_prefix ++ src, ip4ip6_prefix ++ dst)
  | net_ip6 _ _ _ src dst _ => (src, dst)
  end.

Lemma zlen_be n x : zlen (be_bytes n x) = Z.of_nat n.
Proof. unfold zlen, be_bytes, le_bytes. rewrite length_rev, length_map, length_seq. done. Qed.

Lemma zlen_of {A} (l : list A) n : length l = n -> zlen l = Z.of_nat n.
Proof. by intros <-. Qed.

Lemma tcp_header_length s k : zlen (sg_mid s) = 6 -> zlen (sg_opts s) = 4 * k -> zlen (tcp_header s) = 20 + 4 * k.
Proof. intros Hm Ho. unfold tcp_header. rewrite !zlen_app, !zlen_be, Hm, Ho. change (zlen [_]) with 1. lia. Qed.

(** The TCP header, wherever it stands. *)
Lemma read_tcp_header_ok skb h_proto tcp s pos :
  segment_ok s -> pi_hdr_len tcp = pos -> 0 <= pos < 2 ^ 30 -> octets_at skb pos (tcp_header s) ->
  let '(ok, tcp') := read_tcp_header skb h_proto tcp in
  ok = true /\ pi_hdr_len tcp' = pos + zlen (tcp_header s) /\ pi_seq tcp' = sg_seq s /\ pi_ack tcp' = sg_ack s
  /\ pi_flags tcp' = sg_flags s /\ pi_h_proto tcp' = h_proto.
Proof.
  intros [Hsp Hdp Hsq Hak Hrs Hfl Hmd (k & Hk & Hop)] <- Hpos Hat.
  pose proof (tcp_header_length s k Hmd Hop) as Hlen.
  assert (Hend : pi_hdr_len tcp + zlen (tcp_header s) <= zlen skb).
  { destruct Hat as (pre & post & -> & <-). rewrite !zlen_app. pose proof (zlen_nonneg post). lia. }
  unfold tcp_header in Hat.
  apply octets_at_app in Hat as [_ Hat]. apply octets_at_app in Hat as [_ Hat].
  apply octets_at_app in Hat as [Hseq Hat]. apply octets_at_app in Hat as [Hack Hat].
  apply octets_at_app in Hat as [Hdoff Hat]. apply octets_at_app in Hat as [Hflags _].
  rewrite !zlen_be in *. change (zlen [_]) with 1 in *. unfold read_tcp_header. cbv zeta. set (h := pi_hdr_len tcp) in *.
  replace (h + Z.of_nat 2 + Z.of_nat 2) with (h + 4) in * by lia.
  replace (h + 4 + Z.of_nat 4) with (h + 8) in * by lia. replace (h + 8 + Z.of_nat 4) with (h + 12) in * by lia.
  replace (h + 12 + 1) with (h + 13) in * by lia.
  rewrite (load_be32_at _ _ _ Hsq Hseq), (load_be32_at _ _ _ Hak Hack), (load_u8_at _ _ _ Hdoff), (load_u8_at _ _ _ Hflags).
  assert (Hd : Z.shiftr (Z.land ((5 + zlen (sg_opts s) / 4) * 16 + sg_res s) 0xf0) 4 = 5 + k).
  { replace (zlen (sg_opts s) / 4) with k by (rewrite Hop; zdm). change 0xf0 with (Z.shiftl 15 4). rewrite Z.shiftr_land, Z.shiftr_shiftl_l by lia.
    rewrite Z.sub_diag, Z.shiftl_0_r. change 15 with (2 ^ 4 - 1). rewrite land_ones_mod, Z.shiftr_div_pow2 by lia. zdm. }
  rewrite Hd, (wrap_small 8 ((5 + k) * 4)), (wrap_small 32 (h + _)) by lia. cbn [pi_hdr_len pi_seq pi_ack pi_flags pi_h_proto].
  rewrite (proj2 (Z.ltb_ge (zlen skb) _)) by lia. repeat split; lia.
Qed.

Definition headers_end (n : network) : Z := ETH_HLEN + zlen (network_header n).

Lemma zlen_1 {A} (x : A) : zlen [x] = 1.
Proof. done. Qed.

Lemma network_header_length n : network_ok n ->
  zlen (network_header n) =
  match n with
  | net_ip4 _ _ _ _ _ _ opts => 20 + zlen opts
  | net_ip6 _ _ _ _ _ None => 40
  | net_ip6 _ _ _ _ _ (Some o) => 42 + zlen o
  end.
Proof.
  unfold network_ok, network_header. destruct n as [tos len mid sum src dst opts|flow len hops src dst o].
  - intros (H1 & H2 & H3 & H4 & H5 & _). rewrite !zlen_app, !zlen_1. apply zlen_of in H1, H2, H3, H4, H5. lia.
  - intros (H1 & H2 & H3 & H4 & _). rewrite !zlen_app, !zlen_1. apply zlen_of in H1, H2, H3, H4.
    destruct o; unfold dest_header; rewrite ?zlen_app, ?zlen_1; [lia|change (zlen []) with 0; lia].
Qed.

Lemma headers_end_range n : network_ok n -> ETH_HLEN + 20 <= headers_end n < 2 ^ 30.
Proof.
  intros Hn. unfold headers_end. rewrite network_header_length by done. kunfold.
  destruct n as [tos len mid sum src dst opts|flow len hops src dst [o|]]; simpl in Hn.
  - destruct Hn as (_ & _ & _ & _ & _ & k & Hk & ->). lia.
  - destruct Hn as (_ & _ & _ & _ & k & Hk & Ho). lia.
  - lia.
Qed.

(** The network header: protocol, addresses, and where the next header starts. *)
Lemma read_network_ok skb n tcp conn : network_ok n -> octets_at skb ETH_HLEN (network_header n) ->
  exists tot, read_network skb (ethertype n) tcp conn =
    (Some (match n with net_ip6 _ _ _ _ _ (Some _) => IP_V6_DEST_OPTS | _ => IPPROTO_TCP end),
     let hdr := match n with net_ip4 _ _ _ _ _ _ _ => headers_end n | _ => ETH_HLEN + 40 end in
     mk_protocol_info hdr (pi_seq tcp) (pi_ack tcp) (pi_h_proto tcp) tot (pi_opts_off tcp) (pi_flags tcp) hdr (pi_l4_proto tcp),
     mk_conn (fst (network_addrs n)) (snd (network_addrs n)) (s_port conn) (d_port conn)).
Proof.
  intros Hok Hat. pose proof (network_header_length n Hok) as Hlen. unfold read_network, headers_end. rewrite Hlen. clear Hlen.
  unfold network_header in Hat. destruct n as [tos len mid sum src dst opts|flow len hops src dst o]; cbn [ethertype network_addrs fst snd].
  - destruct Hok as (H1 & H2 & H3 & H4 & H5 & k & Hk & Hop).
    apply octets_at_app in Hat as [Hihl Hat]. apply octets_at_app in Hat as [_ Hat]. apply octets_at_app in Hat as [_ Hat].
    apply octets_at_app in Hat as [_ Hat]. apply octets_at_app in Hat as [Hproto Hat]. apply octets_at_app in Hat as [_ Hat].
    apply octets_at_app in Hat as [Hsrc Hat]. apply octets_at_app in Hat as [Hdst _].
    rewrite ?zlen_1, ?(zlen_of len 2), ?(zlen_of mid 5), ?(zlen_of sum 2), ?(zlen_of src 4) in * by done.
    apply load_u8_at in Hihl, Hproto. apply load_n_at with (n := 4%nat) in Hsrc; [|done]. apply load_n_at with (n := 4%nat) in Hdst; [|done].
    assert (Hl : u8 (Z.land (load_u8 skb ETH_HLEN) 0x0f * 4) = 20 + 4 * k).
    { rewrite Hihl. replace (zlen opts / 4) with k by (rewrite Hop; zdm). change 0x0f with (2 ^ 4 - 1). rewrite land_ones_mod by lia.
      replace ((4 * 16 + (5 + k)) mod 2 ^ 4) with (5 + k) by zdm. rewrite (wrap_small 8); lia. }
    exists (load_u16 skb (ETH_HLEN + 2)). rewrite Z.eqb_refl, Hl. rewrite (proj2 (Z.ltb_ge (20 + 4 * k) 20)) by lia.
    change (ETH_HLEN + 1 + 1 + Z.of_nat 2 + Z.of_nat 5) with (ETH_HLEN + 9) in *.
    change (ETH_HLEN + 9 + 1 + Z.of_nat 2) with (ETH_HLEN + 12) in *. change (ETH_HLEN + 12 + Z.of_nat 4) with (ETH_HLEN + 16) in *.
    rewrite Hproto, Hsrc, Hdst, Hop. cbn [pi_seq pi_ack pi_h_proto pi_opts_off pi_flags pi_l4_proto].
    rewrite (wrap_small 8) by (kunfold; lia). done.
  - destruct Hok as (H1 & H2 & H3 & H4 & _).
    apply octets_at_app in Hat as [_ Hat]. apply octets_at_app in Hat as [_ Hat]. apply octets_at_app in Hat as [Hproto Hat].
    apply octets_at_app in Hat as [_ Hat]. apply octets_at_app in Hat as [Hsrc Hat]. apply octets_at_app in Hat as [Hdst _].
    rewrite ?zlen_1, ?(zlen_of flow 4), ?(zlen_of len 2), ?(zlen_of src 16) in * by done.
    change (ETH_HLEN + Z.of_nat 4 + Z.of_nat 2) with (ETH_HLEN + 6) in *. change (ETH_HLEN + 6 + 1 + 1) with (ETH_HLEN + 8) in *.
    change (ETH_HLEN + 8 + Z.of_nat 16) with (ETH_HLEN + 24) in *.
    apply load_u8_at in Hproto. apply load_n_at with (n := 16%nat) in Hsrc; [|done]. apply load_n_at with (n := 16%nat) in Hdst; [|done].
    exists (load_u16 skb (ETH_HLEN + 4)). rewrite Hproto, Hsrc, Hdst. cbn [pi_seq pi_ack pi_h_proto pi_opts_off pi_flags pi_l4_proto].
    destruct o; done.
Qed.

(** What follows the network header, once its start is known. *)
Lemma read_transport_ok skb h_proto tcp s pos :
  segment_ok s -> pi_hdr_len tcp = pos -> 0 <= pos < 2 ^ 30 -> octets_at skb pos (tcp_header s) ->
  bswap16 (load_u16 skb pos) = sg_sport s /\ bswap16 (load_u16 skb (pos + 2)) = sg_dport s
  /\ exists tcp', read_tcp_header skb h_proto tcp = (true, tcp') /\ pi_hdr_len tcp' = pos + zlen (tcp_header s)
     /\ pi_seq tcp' = sg_seq s /\ pi_ack tcp' = sg_ack s /\ pi_flags tcp' = sg_flags s /\ pi_h_proto tcp' = h_proto.
Proof.
  intros Hs Hp Hr Hat. pose proof (read_tcp_header_ok skb h_proto tcp s pos Hs Hp Hr Hat) as H. destruct Hs as [Hsp Hdp _ _ _ _ _ _].
  unfold tcp_header in Hat. apply octets_at_app in Hat as [Hsport Hat]. apply octets_at_app in Hat as [Hdport _]. rewrite zlen_be in Hdport.
  split; [by apply load_be16_at|]. split; [by apply load_be16_at|].
  destruct (read_tcp_header skb h_proto tcp) as [ok tcp']. destruct H as [-> H]. by exists tcp'.
Qed.

Lemma dest_header_at skb o : (exists k, 0 <= k < 256 /\ zlen o + 2 = (k + 1) * 8) ->
  octets_at skb (ETH_HLEN + 40) (dest_header (Some o)) ->
  load_u8 skb (ETH_HLEN + 40) = IPPROTO_TCP /\ (load_u8 skb (ETH_HLEN + 41) + 1) * 8 = zlen o + 2.
Proof.
  intros (k & Hk & Ho) Hat. unfold dest_header in Hat. apply octets_at_app in Hat as [H1 Hat]. apply octets_at_app in Hat as [H2 _].
  change (ETH_HLEN + 40 + zlen [IPPROTO_TCP]) with (ETH_HLEN + 41) in H2. apply load_u8_at in H1, H2. rewrite H1, H2. split; [done|].
  rewrite Ho, Z.div_mul; lia.
Qed.

(** Where the transport header starts, with a destination-options header or without. *)
Lemma transport_start skb n : network_ok n -> octets_at skb ETH_HLEN (network_header n) ->
  match n with net_ip6 _ _ _ _ _ (Some o) => octets_at skb (ETH_HLEN + 40) (dest_header (Some o)) | _ => True end.
Proof.
  destruct n as [|flow len hops src dst [o|]]; try done. intros (H1 & H2 & H3 & H4 & _) Hat. unfold network_header in Hat.
  do 6 apply octets_at_app in Hat as [_ Hat]. rewrite ?zlen_1, (zlen_of flow 4), (zlen_of len 2), (zlen_of src 16), (zlen_of dst 16) in Hat by done.
  done.
Qed.

(** The reader on a frame. *)
Lemma read_frame macs n s :
  length macs = 12%nat -> network_ok n -> segment_ok s ->
  let skb := frame macs n s in
  exists tcp, read_sk_buff skb empty_protocol_info empty_conn
              = (true, tcp, mk_conn (fst (network_addrs n)) (snd (network_addrs n)) (sg_sport s) (sg_dport s))
  /\ drop (Z.to_nat (pi_hdr_len tcp)) skb = sg_payload s
  /\ pi_seq tcp = sg_seq s /\ pi_ack tcp = sg_ack s /\ pi_flags tcp = sg_flags s /\ pi_h_proto tcp = ethertype n.
Proof.
  intros Hm Hn Hs skb. pose proof (network_header_length n Hn) as Hnl.
  assert (Hat : octets_at skb 0 (macs ++ be_bytes 2 (ethertype n) ++ network_header n ++ tcp_header s ++ sg_payload s)) by apply octets_at_whole.
  apply octets_at_app in Hat as [_ Hat]. apply octets_at_app in Hat as [Het Hat].
  apply octets_at_app in Hat as [Hnet Hat]. apply octets_at_app in Hat as [Htcp _].
  rewrite (zlen_of macs 12), zlen_be in * by done. change (0 + Z.of_nat 12 + Z.of_nat 2) with ETH_HLEN in *.
  apply load_be16_at in Het; [|destruct n; simpl; kunfold; lia]. change (0 + Z.of_nat 12) with 12 in Het.
  unfold read_sk_buff. rewrite Het. cbv zeta.
  match goal with |- context [read_network skb _ ?t ?c] => destruct (read_network_ok skb n t c Hn Hnet) as [tot ->] end.
  pose proof (transport_start skb n Hn Hnet) as Hdest. fold (headers_end n) in Htcp.
  pose proof (headers_end_range n Hn) as Hpos.
  assert (Hdrop : drop (Z.to_nat (headers_end n + zlen (tcp_header s))) skb = sg_payload s).
  { unfold skb, frame. rewrite !app_assoc. apply drop_app_length'. rewrite !length_app, Hm. unfold headers_end, zlen, ETH_HLEN.
    change (length (be_bytes 2 (ethertype n))) with 2%nat. lia. }
  assert (Hfin : forall tcp (c : connection_info), pi_hdr_len tcp = headers_end n ->
    exists tcp', (let '(ok, tcp) := read_tcp_header skb (ethertype n) tcp in (ok, tcp, c)) = (true, tcp', c)
    /\ drop (Z.to_nat (pi_hdr_len tcp')) skb = sg_payload s
    /\ pi_seq tcp' = sg_seq s /\ pi_ack tcp' = sg_ack s /\ pi_flags tcp' = sg_flags s /\ pi_h_proto tcp' = ethertype n).
  { intros tcp c Hh. edestruct (read_transport_ok skb (ethertype n) tcp s) as (_ & _ & tcp' & -> & Hl & H); [done|exact Hh|kunfold; lia|done|].
    exists tcp'. rewrite Hl. done. }
  destruct (read_transport_ok skb 0 (mk_protocol_info (headers_end n) 0 0 0 0 0 0 0 0) s (headers_end n) Hs eq_refl ltac:(kunfold; lia) Htcp) as (Hsp & Hdp & _).
  destruct n as [tos len mid sum src dst opts|flow len hops src dst [o|]]; cbn [ethertype network_addrs fst snd s_port d_port pi_hdr_len pi_ip_len] in *.
  - change ((IPPROTO_TCP =? IP_V6_DEST_OPTS) && _) with false. cbn match. cbn [pi_hdr_len negb]. rewrite Hsp, Hdp.
    change (IPPROTO_TCP =? IPPROTO_TCP) with true. by apply Hfin.
  - apply dest_header_at in Hdest as [Hp Hl]; [|by destruct Hn as (_ & _ & _ & _ & ?)].
    change ((IP_V6_DEST_OPTS =? IP_V6_DEST_OPTS) && (ETH_P_IPV6 =? ETH_P_IPV6)) with true. cbn match. rewrite Hp.
    change (IPPROTO_TCP =? IPPROTO_TCP) with true. cbn match. cbn [pi_hdr_len negb].
    assert (He : u32 (ETH_HLEN + 40 + (load_u8 skb (ETH_HLEN + 40 + 1) + 1) * 8) = headers_end (net_ip6 flow len hops src dst (Some o))).
    { change (ETH_HLEN + 40 + 1) with (ETH_HLEN + 41). rewrite Hl. unfold headers_end in *. rewrite Hnl in *. rewrite (wrap_small 32); kunfold; lia. }
    rewrite He, Hsp, Hdp. by apply Hfin.
  - change ((IPPROTO_TCP =? IP_V6_DEST_OPTS) && _) with false. cbn match. cbn [pi_hdr_len negb].
    assert (He : ETH_HLEN + 40 = headers_end (net_ip6 flow len hops src dst None)) by (unfold headers_end; by rewrite Hnl).
    rewrite He, Hsp, Hdp. change (IPPROTO_TCP =? IPPROTO_TCP) with true. by apply Hfin.
Qed.

(** C13: Reading a packet recovers what it was built from.  For every Ethernet frame that carries a well-formed TCP header, with or without
    options, behind an IPv4 header, with or without options, or an IPv6 header, with or without one destination-options
    header, the reader accepts the frame, finds the addresses, the ports, the sequence and acknowledgement numbers and the
    flags, and the header length it returns is where the payload starts. *)
Theorem read_sk_buff_roundtrip macs n s :
  length macs = 12%nat -> network_ok n -> segment_ok s ->
  let skb := frame macs n s in
  exists tcp, read_sk_buff skb empty_protocol_info empty_conn
              = (true, tcp, mk_conn (fst (network_addrs n)) (snd (network_addrs n)) (sg_sport s) (sg_dport s))
  /\ drop (Z.to_nat (pi_hdr_len tcp)) skb = sg_payload s
  /\ pi_seq tcp = sg_seq s /\ pi_ack tcp = sg_ack s /\ pi_flags tcp = sg_flags s /\ pi_h_proto tcp = ethertype n.
Proof. exact (read_frame macs n s). Qed.

Definition example_frame : list Z :=
  frame (repeat 1 12) (net_ip6 (repeat 6 4) [0; 40] 64 (repeat 2 16) (repeat 3 16) (Some (repeat 0 14)))
    (mk_segment 40000 8080 7 9 0 0x18 (repeat 0 6) (repeat 1 12) [71; 69; 84]).

Lemma read_sk_buff_roundtrip_witness :
  exists tcp, read_sk_buff example_frame empty_protocol_info empty_conn
              = (true, tcp, mk_conn (repeat 2 16) (repeat 3 16) 40000 8080)
  /\ drop (Z.to_nat (pi_hdr_len tcp)) example_frame = [71; 69; 84]
  /\ pi_seq tcp = 7 /\ pi_ack tcp = 9 /\ pi_flags tcp = 0x18 /\ pi_h_proto tcp = ETH_P_IPV6.
Proof.
  apply (read_sk_buff_roundtrip (repeat 1 12) (net_ip6 (repeat 6 4) [0; 40] 64 (repeat 2 16) (repeat 3 16) (Some (repeat 0 14)))
           (mk_segment 40000 8080 7 9 0 0x18 (repeat 0 6) (repeat 1 12) [71; 69; 84])).
  - reflexivity.
  - repeat split; try reflexivity. exists 1. split; [lia|reflexivity].
  - split; simpl; try lia; try reflexivity. exists 3. split; [lia|reflexivity].
Defined.
