(* ===== verification/Flows.v ===== *)
(** * Network flows ([bpf/netolly/flow.h], [flows_common.h], [flows.c], [flows_sock.c]).

    Every packet of an interface is accounted to its flow: source, destination, ports, protocol, interface.
    [flow_monitor] is the traffic-control program, which reads the linear part of the packet; [socket_filter]
    the socket-filter program, which loads octets from anywhere in it.  Both end in the same accounting
    ([account_flow]): an element of [aggregated_flows] per flow, a record of its own through the ring buffer
    when the element cannot be created, a count of the packets that reached neither.

    [flow_state] holds the maps of one CPU; [flow_env] is what a packet's run reads besides the packet: the
    constants set by user space, a random word, the clock, the result of the update of [aggregated_flows]
    and whether the ring has room.  User space takes elements out of the map between packets ([fl_take]).

    [flows_conserved] compares what the programs count with the frames of the wire behind the packets
    ([presents]: the kernel may have merged segments); [initiator_agreed] follows a connection through any
    packets of both programs. *)

From Stdlib Require Import ZArith Lia ZifyBool List Bool.
From stdpp Require Import base list countable gmap fin_maps.
From S2P Require Import Prelude Sampling IovIter ConnInfo Packet.

Local Open Scope Z_scope.

(** ** Data *)

Definition INGRESS : Z := 0.
Definition EGRESS : Z := 1.
Definition UNKNOWN : Z := 255.
Definition FIN_FLAG : Z := 0x01.
Definition SYN_FLAG : Z := 0x02.
Definition RST_FLAG : Z := 0x04.
Definition PSH_FLAG : Z := 0x08.
Definition ACK_FLAG : Z := 0x10.
Definition URG_FLAG : Z := 0x20.
Definition ECE_FLAG : Z := 0x40.
Definition CWR_FLAG : Z := 0x80.
Definition SYN_ACK_FLAG : Z := 0x100.
Definition FIN_ACK_FLAG : Z := 0x200.
Definition RST_ACK_FLAG : Z := 0x400.
Definition INITIATOR_LOW : Z := 1.
Definition INITIATOR_HIGH : Z := 2.
Definition INITIATOR_SRC : Z := 1.
Definition INITIATOR_DST : Z := 2.
Definition INITIATOR_UNKNOWN : Z := 0.
Definition PORT_GUESSING_ORDINAL : Z := 1.

Record flow_metrics := mk_metrics {
  fm_bytes : Z;
  fm_start : Z;
  fm_end : Z;
  fm_packets : Z;
  fm_flags : Z;
  fm_direction : Z;
  fm_initiator : Z;
  fm_errno : Z
}.

Record flow_id := mk_flow_id {
  src_ip : list Z;
  dst_ip : list Z;
  if_index : Z;
  eth_protocol : Z;
  src_port : Z;
  dst_port : Z;
  transport_protocol : Z
}.

#[export] Instance flow_id_eq_dec : EqDecision flow_id.
Proof. solve_decision. Defined.

#[export] Instance flow_id_countable : Countable flow_id.
Proof.
  refine (inj_countable' (fun f => (src_ip f, dst_ip f, if_index f, eth_protocol f, src_port f, dst_port f, transport_protocol f))
            (fun '(a, b, i, e, s, d, t) => mk_flow_id a b i e s d t) _). by intros [].
Defined.

Record flow_record := mk_record { rec_metrics : flow_metrics; rec_id : flow_id }.

Record packet_count := mk_count { pk_total : Z; pk_ignored : Z }.

Record conn_initiator_key := mk_ikey { low_ip : list Z; high_ip : list Z; low_ip_port : Z; high_ip_port : Z }.

#[export] Instance conn_initiator_key_eq_dec : EqDecision conn_initiator_key.
Proof. solve_decision. Defined.

#[export] Instance conn_initiator_key_countable : Countable conn_initiator_key.
Proof.
  refine (inj_countable' (fun k => (low_ip k, high_ip k, low_ip_port k, high_ip_port k)) (fun '(a, b, p, q) => mk_ikey a b p q) _). by intros [].
Defined.

Record flow_state := mk_flows {
  aggregated_flows : gmap flow_id flow_metrics;
  flow_directions : gmap flow_id Z;
  conn_initiators : gmap conn_initiator_key Z;
  direct_flows : list flow_record;
  flow_packet_stats : packet_count
}.

(** A [struct __sk_buff]: the octets of the packet, how many of them lie between [data] and [data_end],
    [gso_segs] where the kernel has the field, and the interface. *)
Record flow_skb := mk_flow_skb { fk_octets : list Z; fk_linear : Z; fk_gso_segs : option Z; fk_ifindex : Z }.

Definition fk_len (skb : flow_skb) : Z := zlen (fk_octets skb).

Record flow_env := mk_flow_env {
  fl_sampling : Z;
  fl_random : Z;
  fl_trace_messages : bool;
  fl_port_guessing : Z;
  fl_now : Z;
  (** the result of the update of [aggregated_flows]: 0, or a negative errno *)
  fl_ret : Z;
  fl_room : bool
}.

(** ** [flows_common.h] *)

Definition skb_wire_size (skb : flow_skb) (seg_hdr_len : Z) : Z * Z :=
  let segs := match fk_gso_segs skb with Some n => n | None => 1 end in
  if (0 <? seg_hdr_len) && (1 <? segs) then (segs, u64 (fk_len skb + u64 (segs - 1) * seg_hdr_len)) else (1, fk_len skb).

Definition ip_word (ip : list Z) (i : nat) : Z := le_word (take 4 (drop (4 * i) ip)).

Fixpoint compare_words (n : nat) (i : nat) (a b : list Z) : Z :=
  match n with
  | O => 0
  | S n' => let diff := s32 (ip_word a i - ip_word b i) in if diff =? 0 then compare_words n' (S i) a b else diff
  end.

Definition compare_ipv6 (fid : flow_id) : Z := compare_words 4 0 (src_ip fid) (dst_ip fid).

Definition fill_conn_initiator_key (id : flow_id) : bool * conn_initiator_key :=
  let cmp := compare_ipv6 id in
  if cmp <? 0 then (true, mk_ikey (src_ip id) (dst_ip id) (src_port id) (dst_port id))
  else if (0 <? cmp) || (dst_port id <? src_port id) then (false, mk_ikey (dst_ip id) (src_ip id) (dst_port id) (src_port id))
  else (true, mk_ikey (dst_ip id) (src_ip id) (src_port id) (dst_port id)).

Definition has (flags bit : Z) : bool := nz (Z.land flags bit).

Definition closes_flow (flags : Z) : bool := has flags FIN_FLAG || has flags RST_FLAG || has flags FIN_ACK_FLAG || has flags RST_ACK_FLAG.

(** The index of the endpoint that opened the connection, from the first packet seen of it. *)
Definition initiator_of_flags (low_is_src : bool) (flags : Z) : Z :=
  if Z.land flags (Z.lor SYN_FLAG ACK_FLAG) =? Z.lor SYN_FLAG ACK_FLAG then (if low_is_src then INITIATOR_HIGH else INITIATOR_LOW)
  else if has flags SYN_FLAG then (if low_is_src then INITIATOR_LOW else INITIATOR_HIGH)
  else INITIATOR_UNKNOWN.

Definition get_connection_initiator (m : gmap conn_initiator_key Z) (id : flow_id) (flags : Z) : Z * gmap conn_initiator_key Z :=
  let '(low_is_src, key) := fill_conn_initiator_key id in
  let '(index, m) :=
    match m !! key with
    | Some i => (i, m)
    | None => let i := initiator_of_flags low_is_src flags in (i, if i =? INITIATOR_UNKNOWN then m else <[key := i]> m)
    end in
  let m := if closes_flow flags then delete key m else m in
  let flow_initiator :=
    if index =? INITIATOR_LOW then (if low_is_src then INITIATOR_SRC else INITIATOR_DST)
    else if index =? INITIATOR_HIGH then (if low_is_src then INITIATOR_DST else INITIATOR_SRC)
    else INITIATOR_UNKNOWN in
  (flow_initiator, m).

(** ** The accounting of both programs *)

Section account.
Variable (e : flow_env).

(** The packet of a flow that has an element: the element is updated in place; the update that follows
    writes it back. *)
Definition add_packet (m : flow_metrics) (packets bytes flags : Z) : flow_metrics :=
  mk_metrics (u64 (fm_bytes m + bytes)) (if fm_start m =? 0 then fl_now e else fm_start m) (fl_now e) (u32 (fm_packets m + packets))
    (Z.lor (fm_flags m) flags) (fm_direction m) (fm_initiator m) (fm_errno m).

(** The direction of a new flow, and the directions remembered; [of_flags] is what the flags say. *)
Definition new_direction (dirs : gmap flow_id Z) (id : flow_id) (of_flags : Z) : Z * gmap flow_id Z :=
  match dirs !! id with
  | Some d => (d, dirs)
  | None =>
      if negb (of_flags =? UNKNOWN) then (of_flags, <[id := of_flags]> dirs)
      else if fl_port_guessing e =? PORT_GUESSING_ORDINAL then ((if dst_port id <? src_port id then EGRESS else INGRESS), dirs)
      else (UNKNOWN, dirs)
  end.

Definition count_packet (c : packet_count) : packet_count := mk_count (u64 (pk_total c + 1)) (pk_ignored c).
Definition count_ignored (c : packet_count) : packet_count := mk_count (pk_total c) (u64 (pk_ignored c + 1)).

Definition account_flow (st : flow_state) (id : flow_id) (flags packets bytes of_flags : Z) (closing : bool) : flow_state :=
  let stats := count_packet (flow_packet_stats st) in
  let st :=
    match aggregated_flows st !! id with
    | Some m =>
        let stats := if fl_trace_messages e && nz (fl_ret e) then count_ignored stats else stats in
        mk_flows (<[id := add_packet m packets bytes flags]> (aggregated_flows st)) (flow_directions st) (conn_initiators st) (direct_flows st) stats
    | None =>
        let '(direction, dirs) := new_direction (flow_directions st) id of_flags in
        let '(initiator, inits) := get_connection_initiator (conn_initiators st) id flags in
        let m err := mk_metrics bytes (fl_now e) (fl_now e) packets flags direction initiator err in
        if fl_ret e =? 0 then mk_flows (<[id := m 0]> (aggregated_flows st)) dirs inits (direct_flows st) stats
        else if fl_room e then
          mk_flows (aggregated_flows st) dirs inits (direct_flows st ++ [mk_record (m (u8 (- fl_ret e))) id]) stats
        else mk_flows (aggregated_flows st) dirs inits (direct_flows st) (count_ignored stats)
    end in
  mk_flows (aggregated_flows st) (if closing then delete id (flow_directions st) else flow_directions st) (conn_initiators st) (direct_flows st)
    (flow_packet_stats st).

Definition sampled_out : bool := nz (fl_sampling e) && nz (fl_random e mod fl_sampling e).

End account.

(** ** The traffic-control program ([flows.c]) *)

Definition zero_ip : list Z := repeat 0 16.
Definition zero_id : flow_id := mk_flow_id zero_ip zero_ip 0 0 0 0 0.

Definition set_flags (tcp_flags : Z) : Z :=
  let ack := has tcp_flags ACK_FLAG in
  let syn := has tcp_flags SYN_FLAG in
  let fin := has tcp_flags FIN_FLAG in
  let rst := has tcp_flags RST_FLAG in
  if ack && syn then SYN_ACK_FLAG else if ack && fin then FIN_ACK_FLAG else if ack && rst then RST_ACK_FLAG
  else if fin then FIN_FLAG else if syn then SYN_FLAG else if rst then RST_FLAG
  else if has tcp_flags PSH_FLAG then PSH_FLAG else if has tcp_flags URG_FLAG then URG_FLAG
  else if has tcp_flags ECE_FLAG then ECE_FLAG else if has tcp_flags CWR_FLAG then CWR_FLAG else 0.

(** The transport header at [off] of the linear octets [d]: ports, flags and the length of a segment's headers. *)
Definition fill_ports (d : list Z) (proto off : Z) : Z * Z * Z * Z :=
  let ports := (bswap16 (load_u16 d off), bswap16 (load_u16 d (off + 2))) in
  if (proto =? IPPROTO_TCP) && (off + 20 <=? zlen d) then
    (fst ports, snd ports, set_flags (load_u8 d (off + 13)), off + Z.shiftr (load_u8 d (off + 12)) 4 * 4)
  else if (proto =? IPPROTO_UDP) && (off + 8 <=? zlen d) then (fst ports, snd ports, 0, 0)
  else (0, 0, 0, 0).

(** The three parsers: the flow, the flags and the length of a segment's headers, or [None] to discard. *)
Definition fill_iphdr (d : list Z) (ip eth : Z) : option (flow_id * Z * Z) :=
  if zlen d <? ip + 20 then None
  else
    let proto := load_u8 d (ip + 9) in
    let ip_hdr_len := Z.land (load_u8 d ip) 0x0f * 4 in
    let '(sp, dp, flags, seg) := if ip_hdr_len <? 20 then (0, 0, 0, 0) else fill_ports d proto (ip + ip_hdr_len) in
    Some (mk_flow_id (ip4ip6_prefix ++ skb_load d (ip + 12) 4) (ip4ip6_prefix ++ skb_load d (ip + 16) 4) 0 eth sp dp proto, flags, seg).

Definition fill_ip6hdr (d : list Z) (ip eth : Z) : option (flow_id * Z * Z) :=
  if zlen d <? ip + 40 then None
  else
    let proto := load_u8 d (ip + 6) in
    let '(sp, dp, flags, seg) := fill_ports d proto (ip + 40) in
    Some (mk_flow_id (skb_load d (ip + 8) 16) (skb_load d (ip + 24) 16) 0 eth sp dp proto, flags, seg).

Definition fill_ethhdr (d : list Z) : option (flow_id * Z * Z) :=
  if zlen d <? ETH_HLEN then None
  else
    let eth := bswap16 (load_u16 d 12) in
    if eth =? ETH_P_IP then fill_iphdr d ETH_HLEN eth
    else if eth =? ETH_P_IPV6 then fill_ip6hdr d ETH_HLEN eth
    else Some (mk_flow_id zero_ip zero_ip 0 eth 0 0 0, 0, 0).

Definition set_if_index (id : flow_id) (i : Z) : flow_id :=
  mk_flow_id (src_ip id) (dst_ip id) i (eth_protocol id) (src_port id) (dst_port id) (transport_protocol id).

Definition tc_direction (flags : Z) : Z :=
  if Z.land flags SYN_ACK_FLAG =? SYN_ACK_FLAG then INGRESS else if Z.land flags SYN_FLAG =? SYN_FLAG then EGRESS else UNKNOWN.

Definition flow_monitor (e : flow_env) (st : flow_state) (skb : flow_skb) : flow_state :=
  if sampled_out e then st
  else
    match fill_ethhdr (take (Z.to_nat (fk_linear skb)) (fk_octets skb)) with
    | None => st
    | Some (id, flags, seg_hdr_len) =>
        let '(packets, bytes) := skb_wire_size skb seg_hdr_len in
        account_flow e st (set_if_index id (fk_ifindex skb)) flags packets bytes (tc_direction flags) (closes_flow flags)
    end.

(** ** The socket-filter program ([flows_sock.c]) *)

(** The flags of a segment with the combined ones, as the source combines them. *)
Definition custom_flags (flags : Z) : Z :=
  if has flags (Z.lor ACK_FLAG SYN_FLAG) then Z.lor flags SYN_ACK_FLAG
  else if has flags (Z.lor ACK_FLAG FIN_FLAG) then Z.lor flags FIN_ACK_FLAG
  else if has flags (Z.lor ACK_FLAG RST_FLAG) then Z.lor flags RST_ACK_FLAG
  else flags.

(** [read_sk_buff] of [flows_sock.c]; [hdr_len] is a [u8], and the test for a header longer than the packet
    compares an unsigned difference with zero. *)
Definition read_flow (skb : flow_skb) : option (flow_id * Z * Z) :=
  let d := fk_octets skb in
  let eth := bswap16 (load_u16 d 12) in
  let net :=
    if eth =? ETH_P_IP then
      let hdr_len := u8 (Z.land (load_u8 d ETH_HLEN) 0x0f * 4) in
      if hdr_len <? 20 then None
      else Some (load_u8 d (ETH_HLEN + 9), ip4ip6_prefix ++ skb_load d (ETH_HLEN + 12) 4, ip4ip6_prefix ++ skb_load d (ETH_HLEN + 16) 4, u8 (ETH_HLEN + hdr_len))
    else if eth =? ETH_P_IPV6 then
      Some (load_u8 d (ETH_HLEN + 6), skb_load d (ETH_HLEN + 8) 16, skb_load d (ETH_HLEN + 24) 16, u8 (ETH_HLEN + 40))
    else None in
  match net with
  | None => None
  | Some (proto, src, dst, hdr_len) =>
      let id := mk_flow_id src dst (fk_ifindex skb) eth (bswap16 (load_u16 d hdr_len)) (bswap16 (load_u16 d (hdr_len + 2))) proto in
      if proto =? IPPROTO_TCP then
        let doff := u8 (Z.shiftr (Z.land (load_u8 d (hdr_len + 12)) 0xf0) 4 * 4) in
        let hdr := u8 (hdr_len + doff) in
        if u32 (fk_len skb - hdr) <? 0 then None else Some (id, custom_flags (load_u8 d (hdr_len + 13)), hdr)
      else if proto =? IPPROTO_UDP then Some (id, custom_flags 0, 0)
      else None
  end.

Definition same_ip (ip1 ip2 : list Z) : bool :=
  forallb (fun i => ip_word ip1 i =? ip_word ip2 i) [0%nat; 1%nat; 2%nat; 3%nat].

Definition sock_direction (flags : Z) : Z :=
  if Z.land flags (Z.lor SYN_FLAG ACK_FLAG) =? Z.lor SYN_FLAG ACK_FLAG then INGRESS
  else if Z.land flags SYN_FLAG =? SYN_FLAG then EGRESS else UNKNOWN.

Definition socket_filter (e : flow_env) (st : flow_state) (skb : flow_skb) : flow_state :=
  if sampled_out e then st
  else
    match read_flow skb with
    | None => st
    | Some (id, flags, seg_hdr_len) =>
        let '(packets, bytes) := skb_wire_size skb seg_hdr_len in
        if same_ip (src_ip id) (dst_ip id) then st
        else account_flow e st id flags packets bytes (sock_direction flags) (has flags FIN_FLAG || has flags RST_FLAG)
    end.

(** ** Sums over the maps *)

Definition metrics_sum (f : flow_metrics -> Z) (m : gmap flow_id flow_metrics) : Z := map_fold (fun _ x acc => f x + acc) 0 m.

Lemma metrics_sum_new f m id x : m !! id = None -> metrics_sum f (<[id := x]> m) = f x + metrics_sum f m.
Proof. intros H. unfold metrics_sum. rewrite map_fold_insert_L; [done| |done]. intros. lia. Qed.

Lemma metrics_sum_take f m id x : m !! id = Some x -> metrics_sum f m = f x + metrics_sum f (delete id m).
Proof. intros H. rewrite <- (insert_delete_id _ _ _ H) at 1. apply metrics_sum_new, lookup_delete_eq. Qed.

Lemma metrics_sum_change f m id x y : m !! id = Some x -> metrics_sum f (<[id := y]> m) = metrics_sum f m - f x + f y.
Proof. intros H. rewrite (metrics_sum_take f m id x H), <- insert_delete_eq, metrics_sum_new by apply lookup_delete_eq. lia. Qed.

(** What is on its way to user space: in the map and in the ring. *)
Definition in_flight (f : flow_metrics -> Z) (st : flow_state) : Z :=
  metrics_sum f (aggregated_flows st) + foldr Z.add 0 (map (f ∘ rec_metrics) (direct_flows st)).

Lemma foldr_add_app l l' : foldr Z.add 0 (l ++ l') = foldr Z.add 0 l + foldr Z.add 0 l'.
Proof. induction l as [|x l IH]; cbn; [done|]. rewrite IH. lia. Qed.

(** ** Packets and the frames they stand for *)

(** The two programs. *)
Inductive flow_prog := prog_tc | prog_sock.

Definition run_flow (p : flow_prog) (e : flow_env) (st : flow_state) (skb : flow_skb) : flow_state :=
  match p with prog_tc => flow_monitor e st skb | prog_sock => socket_filter e st skb end.

(** The flow, the flags and the length of the headers a program takes a packet for; [None] when it leaves the
    packet alone: sampled out, not parsed, or, for the socket filter, between one address and itself. *)
Definition seen (p : flow_prog) (e : flow_env) (skb : flow_skb) : option (flow_id * Z * Z) :=
  if sampled_out e then None
  else
    match p with
    | prog_tc =>
        match fill_ethhdr (take (Z.to_nat (fk_linear skb)) (fk_octets skb)) with
        | Some (id, flags, seg) => Some (set_if_index id (fk_ifindex skb), flags, seg)
        | None => None
        end
    | prog_sock =>
        match read_flow skb with
        | Some (id, flags, seg) => if same_ip (src_ip id) (dst_ip id) then None else Some (id, flags, seg)
        | None => None
        end
    end.

Lemma run_flow_unseen p e st skb : seen p e skb = None -> run_flow p e st skb = st.
Proof.
  unfold seen, run_flow, flow_monitor, socket_filter. destruct (sampled_out e); [by destruct p|]. destruct p.
  - by destruct (fill_ethhdr _) as [[[id fl] seg]|].
  - destruct (read_flow skb) as [[[id fl] seg]|]; [|done]. destruct (skb_wire_size skb seg). by destruct (same_ip _ _).
Qed.

Lemma run_flow_seen p e st skb id fl seg : seen p e skb = Some (id, fl, seg) ->
  exists d c, run_flow p e st skb = account_flow e st id fl (fst (skb_wire_size skb seg)) (snd (skb_wire_size skb seg)) d c.
Proof.
  unfold seen, run_flow, flow_monitor, socket_filter. destruct (sampled_out e); [done|]. destruct p.
  - destruct (fill_ethhdr _) as [[[id' fl'] seg']|]; [|done]. intros [= <- <- <-]. destruct (skb_wire_size skb seg'). by repeat eexists.
  - destruct (read_flow skb) as [[[id' fl'] seg']|]; [|done]. destruct (same_ip (src_ip id') (dst_ip id')); [done|].
    intros [= <- <- <-]. destruct (skb_wire_size skb seg'). by repeat eexists.
Qed.

(** The headers of a TCP segment, from the Ethernet header on. *)
Definition frame_headers (macs : list Z) (n : network) (s : segment) : list Z := macs ++ be_bytes 2 (ethertype n) ++ network_header n ++ tcp_header s.

Definition no_dest_opts (n : network) : Prop := match n with net_ip6 _ _ _ _ _ (Some _) => False | _ => True end.

(** [presents skb frames]: the packet the kernel hands to a program stands for these frames of the wire.
    Either it is one frame, or the kernel has merged (or not yet split) TCP segments: the headers of one of them
    before the payloads of all, where the wire has headers of that length before each payload. *)
Inductive presents (skb : flow_skb) : list (list Z) -> Prop :=
  | presents_one : match fk_gso_segs skb with Some n => n <= 1 | None => True end -> presents skb [fk_octets skb]
  | presents_merged macs n s payloads frames :
      length macs = 12%nat -> network_ok n -> no_dest_opts n -> segment_ok s ->
      fk_octets skb = frame_headers macs n s ++ concat payloads ->
      zlen (frame_headers macs n s) <= fk_linear skb ->
      fk_gso_segs skb = Some (zlen payloads) -> 2 <= zlen payloads ->
      Forall2 (fun f p => exists hdr, f = hdr ++ p /\ zlen hdr = zlen (frame_headers macs n s)) frames payloads ->
      presents skb frames.

(** *** The length of the headers is found *)

Lemma octets_at_within d pos l : octets_at d pos l -> pos + zlen l <= zlen d.
Proof. intros (pre & post & -> & <-). rewrite !zlen_app. pose proof (zlen_nonneg post). lia. Qed.

Lemma tcp_doff d pos s : segment_ok s -> octets_at d pos (tcp_header s) ->
  Z.shiftr (load_u8 d (pos + 12)) 4 * 4 = zlen (tcp_header s)
  /\ Z.shiftr (Z.land (load_u8 d (pos + 12)) 0xf0) 4 * 4 = zlen (tcp_header s) /\ 20 <= zlen (tcp_header s) <= 60.
Proof.
  intros [_ _ _ _ Hr _ Hm (k & Hk & Ho)] Hat. rewrite (tcp_header_length s k Hm Ho). unfold tcp_header in Hat.
  do 4 apply octets_at_app in Hat as [_ Hat]. apply octets_at_app in Hat as [Hat _]. rewrite !zlen_be in Hat. apply load_u8_at in Hat.
  replace (pos + Z.of_nat 2 + Z.of_nat 2 + Z.of_nat 4 + Z.of_nat 4) with (pos + 12) in Hat by lia.
  rewrite Hat, Ho, (Z.mul_comm 4 k), Z.div_mul by lia. change 0xf0 with (Z.shiftl 15 4). rewrite Z.shiftr_land, Z.shiftr_shiftl_l by lia.
  rewrite Z.sub_diag, Z.shiftl_0_r. change 15 with (2 ^ 4 - 1). rewrite land_ones_mod, Z.shiftr_div_pow2 by lia. split_and!; zdm.
Qed.

(** The network header: its length, and that TCP follows. *)
Lemma network_fields d n : network_ok n -> no_dest_opts n -> octets_at d ETH_HLEN (network_header n) ->
  match n with
  | net_ip4 _ _ _ _ _ _ _ =>
      Z.land (load_u8 d ETH_HLEN) 0x0f * 4 = zlen (network_header n) /\ load_u8 d (ETH_HLEN + 9) = IPPROTO_TCP /\ 20 <= zlen (network_header n) <= 60
  | net_ip6 _ _ _ _ _ _ => zlen (network_header n) = 40 /\ load_u8 d (ETH_HLEN + 6) = IPPROTO_TCP
  end.
Proof.
  intros Hok Hno Hat. rewrite (network_header_length n Hok). unfold network_header in Hat.
  destruct n as [tos len mid sum src dst opts|flow len hops src dst [o|]]; [|done|].
  - destruct Hok as (H1 & H2 & H3 & H4 & H5 & k & Hk & Hop).
    apply octets_at_app in Hat as [Hihl Hat]. do 3 apply octets_at_app in Hat as [_ Hat]. apply octets_at_app in Hat as [Hproto _].
    rewrite ?zlen_1, ?(zlen_of len 2), ?(zlen_of mid 5) in * by done. apply load_u8_at in Hihl, Hproto. rewrite Hihl, Hop.
    rewrite (Z.mul_comm 4 k), Z.div_mul by lia. change 0x0f with (2 ^ 4 - 1). rewrite land_ones_mod by lia.
    replace ((4 * 16 + (5 + k)) mod 2 ^ 4) with (5 + k) by zdm. split_and!; [lia|exact Hproto|lia..].
  - destruct Hok as (H1 & H2 & H3 & H4 & _). do 2 apply octets_at_app in Hat as [_ Hat]. apply octets_at_app in Hat as [Hproto _].
    rewrite ?(zlen_of flow 4), ?(zlen_of len 2) in Hproto by done. by apply load_u8_at in Hproto.
Qed.

Section headers.
Context (macs : list Z) (n : network) (s : segment) (d rest : list Z).
Context (Hm : length macs = 12%nat) (Hn : network_ok n) (Hno : no_dest_opts n) (Hs : segment_ok s) (Hd : d = frame_headers macs n s ++ rest).

Lemma headers_at : bswap16 (load_u16 d 12) = ethertype n /\ octets_at d ETH_HLEN (network_header n) /\ octets_at d (headers_end n) (tcp_header s).
Proof.
  assert (Hat : octets_at d 0 (macs ++ be_bytes 2 (ethertype n) ++ network_header n ++ tcp_header s)) by (exists [], rest; by rewrite Hd).
  apply octets_at_app in Hat as [_ Hat]. apply octets_at_app in Hat as [Het Hat]. apply octets_at_app in Hat as [Hnet Htcp].
  rewrite (zlen_of macs 12), zlen_be in * by done. change (0 + Z.of_nat 12 + Z.of_nat 2) with ETH_HLEN in *.
  apply load_be16_at in Het; [|destruct n; simpl; kunfold; lia]. done.
Qed.

Lemma frame_headers_length : zlen (frame_headers macs n s) = headers_end n + zlen (tcp_header s).
Proof. unfold frame_headers, headers_end, ETH_HLEN. rewrite !zlen_app, zlen_be, (zlen_of macs 12) by done. lia. Qed.

Lemma fill_ethhdr_headers : exists id fl, fill_ethhdr d = Some (id, fl, zlen (frame_headers macs n s)).
Proof.
  destruct headers_at as (He & Hnet & Htcp). pose proof (network_fields d n Hn Hno Hnet) as Hf. destruct (tcp_doff d _ s Hs Htcp) as (Ho & _ & Hl).
  pose proof (octets_at_within _ _ _ Htcp). rewrite frame_headers_length. unfold fill_ethhdr, headers_end in *. rewrite He.
  destruct n as [tos len mid sum src dst opts|flow len hops src dst o]; cbn [ethertype] in *.
  - destruct Hf as (Hi & Hp & Hr). rewrite (proj2 (Z.ltb_ge (zlen d) _)) by (kunfold; lia). cbn [Z.eqb Pos.eqb ETH_P_IP].
    unfold fill_iphdr. rewrite (proj2 (Z.ltb_ge (zlen d) _)), Hi, Hp by (kunfold; lia). rewrite (proj2 (Z.ltb_ge _ 20)) by lia.
    unfold fill_ports. rewrite (proj2 (Z.leb_le _ (zlen d))) by lia. cbn [andb]. rewrite Z.eqb_refl, Ho. by repeat eexists.
  - destruct Hf as (Hi & Hp). rewrite Hi in *. rewrite (proj2 (Z.ltb_ge (zlen d) _)) by (kunfold; lia).
    change (ETH_P_IPV6 =? ETH_P_IP) with false. rewrite Z.eqb_refl. unfold fill_ip6hdr. rewrite (proj2 (Z.ltb_ge (zlen d) _)), Hp by (kunfold; lia).
    unfold fill_ports. rewrite (proj2 (Z.leb_le _ (zlen d))) by lia. rewrite Z.eqb_refl, Ho. by repeat eexists.
Qed.

Lemma read_flow_headers skb : fk_octets skb = d -> exists id fl, read_flow skb = Some (id, fl, zlen (frame_headers macs n s)).
Proof.
  intros Hk. destruct headers_at as (He & Hnet & Htcp). pose proof (network_fields d n Hn Hno Hnet) as Hf. destruct (tcp_doff d _ s Hs Htcp) as (_ & Ho & Hl).
  rewrite frame_headers_length. unfold read_flow, headers_end in *. rewrite Hk, He.
  destruct n as [tos len mid sum src dst opts|flow len hops src dst o]; cbn [ethertype] in *.
  - destruct Hf as (Hi & Hp & Hr). rewrite Z.eqb_refl, Hi, (wrap_small 8 (zlen _)) by lia. rewrite (proj2 (Z.ltb_ge _ 20)) by lia. rewrite Hp, Z.eqb_refl.
    rewrite (wrap_small 8 (ETH_HLEN + _)), Ho, (wrap_small 8 (zlen _)), (wrap_small 8 (_ + _)) by (kunfold; lia).
    rewrite (proj2 (Z.ltb_ge _ 0)) by (apply wrap_range; lia). by repeat eexists.
  - destruct Hf as (Hi & Hp). rewrite Hi in *. change (ETH_P_IPV6 =? ETH_P_IP) with false. rewrite Z.eqb_refl, Hp, Z.eqb_refl.
    rewrite (wrap_small 8 (ETH_HLEN + _)), Ho, (wrap_small 8 (zlen _)), (wrap_small 8 (_ + _)) by (kunfold; lia).
    rewrite (proj2 (Z.ltb_ge _ 0)) by (apply wrap_range; lia). by repeat eexists.
Qed.
End headers.

Lemma seen_merged p e skb id fl seg macs n s rest :
  length macs = 12%nat -> network_ok n -> no_dest_opts n -> segment_ok s ->
  fk_octets skb = frame_headers macs n s ++ rest -> zlen (frame_headers macs n s) <= fk_linear skb ->
  seen p e skb = Some (id, fl, seg) -> seg = zlen (frame_headers macs n s).
Proof.
  intros Hm Hn Hno Hs Ho Hl. unfold seen. destruct (sampled_out e); [done|]. destruct p.
  - assert (Ht : take (Z.to_nat (fk_linear skb)) (fk_octets skb) = frame_headers macs n s ++ take (Z.to_nat (fk_linear skb) - length (frame_headers macs n s)) rest).
    { rewrite Ho, take_app, take_ge; [done|]. unfold zlen in Hl. lia. }
    destruct (fill_ethhdr_headers macs n s _ _ Hm Hn Hno Hs Ht) as (id' & fl' & ->). by intros [= <- <- <-].
  - destruct (read_flow_headers macs n s _ _ Hm Hn Hno Hs eq_refl skb Ho) as (id' & fl' & ->). destruct (same_ip _ _); [done|]. by intros [= <- <- <-].
Qed.

(** The size of a packet is the size of the frames it stands for. *)
Definition octets (frames : list (list Z)) : Z := foldr Z.add 0 (map zlen frames).

Lemma octets_app l l' : octets (l ++ l') = octets l + octets l'.
Proof. unfold octets. by rewrite map_app, foldr_add_app. Qed.

Lemma octets_merged len (frames payloads : list (list Z)) :
  Forall2 (fun f p => exists hdr, f = hdr ++ p /\ zlen hdr = len) frames payloads ->
  zlen frames = zlen payloads /\ octets frames = zlen payloads * len + zlen (concat payloads).
Proof.
  induction 1 as [|f p fs ps (hdr & -> & <-) _ [IH1 IH2]]; [done|]. unfold octets in *. cbn [map foldr concat].
  rewrite IH2, !zlen_app. unfold zlen in *. cbn [length]. lia.
Qed.

Lemma wire_size_presented p e skb id fl seg frames : presents skb frames -> seen p e skb = Some (id, fl, seg) ->
  fst (skb_wire_size skb seg) = zlen frames /\ snd (skb_wire_size skb seg) mod 2 ^ 64 = octets frames mod 2 ^ 64.
Proof.
  intros [Hg|macs n s payloads fs Hm Hn Hno Hs Ho Hl Hg H2 HF] Hseen; unfold skb_wire_size, fk_len.
  - rewrite (proj2 (Z.ltb_ge 1 _)) by (destruct (fk_gso_segs skb); lia). rewrite andb_false_r. unfold octets. cbn. by rewrite Z.add_0_r.
  - rewrite (seen_merged p e skb id fl seg macs n s _ Hm Hn Hno Hs Ho Hl Hseen). destruct (octets_merged _ _ _ HF) as [Hz ->]. rewrite Hz, Hg, Ho.
    pose proof (frame_headers_length macs n s Hm). pose proof (zlen_nonneg (tcp_header s)). pose proof (headers_end_range n Hn).
    rewrite (proj2 (Z.ltb_lt 0 _)), (proj2 (Z.ltb_lt 1 _)) by (kunfold; lia). cbn [andb fst snd]. split; [done|].
    rewrite zlen_app. unfold wrap. rewrite Zmod_mod, Zplus_mod, Zmult_mod, Zmod_mod, <- Zmult_mod, <- Zplus_mod. f_equal. lia.
Qed.

(** ** Conservation *)

(** What becomes of a packet: left alone; kept, in the map or in the ring, and [marked] when the write-back of an element
    that is there fails and trace messages are on; or lost, when there is neither an element nor room for a new one
    nor room in the ring. *)
Inductive fate := fate_unseen | fate_kept (marked : bool) | fate_lost.

Definition packet_fate (p : flow_prog) (e : flow_env) (st : flow_state) (skb : flow_skb) : fate :=
  match seen p e skb with
  | None => fate_unseen
  | Some (id, _, _) =>
      match aggregated_flows st !! id with
      | Some _ => fate_kept (fl_trace_messages e && negb (fl_ret e =? 0))
      | None => if (fl_ret e =? 0) || fl_room e then fate_kept false else fate_lost
      end
  end.

(** A packet through one of the programs, or user space (or the kernel, when the map is full) taking an
    element out of the map. *)
Inductive flow_event := fl_packet (p : flow_prog) (e : flow_env) (skb : flow_skb) | fl_take (id : flow_id).

Definition flow_next (st : flow_state) (ev : flow_event) : flow_state :=
  match ev with
  | fl_packet p e skb => run_flow p e st skb
  | fl_take id => mk_flows (delete id (aggregated_flows st)) (flow_directions st) (conn_initiators st) (direct_flows st) (flow_packet_stats st)
  end.

(** The state, each packet with what became of it, and what was taken. *)
Definition flow_run_state : Type := flow_state * list (fate * flow_skb) * list flow_metrics.

Definition flow_step (r : flow_run_state) (ev : flow_event) : flow_run_state :=
  let '(st, log, taken) := r in
  match ev with
  | fl_packet p e skb => (flow_next st ev, log ++ [(packet_fate p e st skb, skb)], taken)
  | fl_take id => (flow_next st ev, log, taken ++ match aggregated_flows st !! id with Some m => [m] | None => [] end)
  end.

Definition no_flows : flow_state := mk_flows ∅ ∅ ∅ [] (mk_count 0 0).
Definition flow_run (h : list flow_event) : flow_run_state := fold_left flow_step h (no_flows, [], []).

Definition is_seen (x : fate * flow_skb) : bool := match fst x with fate_unseen => false | _ => true end.
Definition is_kept (x : fate * flow_skb) : bool := match fst x with fate_kept _ => true | _ => false end.
Definition is_ignored (x : fate * flow_skb) : bool := match fst x with fate_lost => true | fate_kept marked => marked | fate_unseen => false end.

Definition how_many (f : fate * flow_skb -> bool) (log : list (fate * flow_skb)) : Z := zlen (List.filter f log).

(** The frames of the wire behind the packets that were kept. *)
Definition kept_frames (wire : flow_skb -> list (list Z)) (log : list (fate * flow_skb)) : list (list Z) :=
  concat (map (fun x => wire (snd x)) (List.filter is_kept log)).

(** A counter of the metrics with its width, and what it counts: octets or packets. *)
Record counter (w : Z) (f : flow_metrics -> Z) (of_size : Z * Z -> Z) (of_frames : list (list Z) -> Z) : Prop := mk_counter {
  ct_add : forall e m p b fl, f (add_packet e m p b fl) mod 2 ^ w = (f m + of_size (p, b)) mod 2 ^ w;
  ct_new : forall t1 t2 p b fl d i er, f (mk_metrics b t1 t2 p fl d i er) = of_size (p, b);
  ct_size : forall pr e skb id fl seg frames, presents skb frames -> seen pr e skb = Some (id, fl, seg) ->
    of_size (skb_wire_size skb seg) mod 2 ^ w = of_frames frames mod 2 ^ w;
  ct_app : forall l l', of_frames (l ++ l') = of_frames l + of_frames l';
  ct_nil : of_frames [] = 0
}.

Lemma bytes_counter : counter 64 fm_bytes snd octets.
Proof.
  split; [intros; cbn; unfold wrap; by rewrite Zmod_mod|done| |apply octets_app|done].
  intros pr e skb id fl seg frames Hp Hs. by apply (wire_size_presented pr e skb id fl).
Qed.

Lemma packets_counter : counter 32 fm_packets fst zlen.
Proof.
  split; [intros; cbn; unfold wrap; by rewrite Zmod_mod|done| |apply zlen_app|done].
  intros pr e skb id fl seg frames Hp Hs. f_equal. by apply (wire_size_presented pr e skb id fl).
Qed.

Section conserve.
Context (w : Z) (f : flow_metrics -> Z) (of_size : Z * Z -> Z) (of_frames : list (list Z) -> Z) (Hc : counter w f of_size of_frames).
Context (wire : flow_skb -> list (list Z)).

Lemma account_conserves e st id flags p b d c :
  in_flight f (account_flow e st id flags p b d c) mod 2 ^ w
  = (in_flight f st + match aggregated_flows st !! id with Some _ => of_size (p, b) | None => if (fl_ret e =? 0) || fl_room e then of_size (p, b) else 0 end) mod 2 ^ w.
Proof.
  destruct Hc as [Hadd Hnew _ _ _]. unfold account_flow, in_flight. destruct (aggregated_flows st !! id) as [m|] eqn:Hm.
  - cbn [aggregated_flows direct_flows]. rewrite (metrics_sum_change f _ id m) by done.
    set (s := metrics_sum f _). set (r := foldr _ _ _). set (x := f (add_packet _ _ _ _ _)).
    rewrite (Zplus_mod (s + r) (of_size _)). replace (s - f m + x + r) with (s + r - f m + x) by lia.
    rewrite (Zplus_mod (s + r - f m) x). unfold x. rewrite Hadd, <- !Zplus_mod. f_equal. lia.
  - destruct (new_direction e (flow_directions st) id d) as [dir dirs]. destruct (get_connection_initiator (conn_initiators st) id flags) as [i inits].
    destruct (fl_ret e =? 0); [|destruct (fl_room e)]; cbn [aggregated_flows direct_flows orb].
    + rewrite metrics_sum_new, Hnew by done. f_equal. lia.
    + rewrite map_app, foldr_add_app. cbn. rewrite Hnew. f_equal. lia.
    + f_equal. lia.
Qed.

(** The accounts of a run: what is on its way and what was taken, against the frames of what was kept. *)
Definition balanced (r : flow_run_state) : Prop :=
  let '(st, log, taken) := r in
  (in_flight f st + foldr Z.add 0 (map f taken)) mod 2 ^ w = of_frames (kept_frames wire log) mod 2 ^ w.

Lemma kept_frames_snoc log x : of_frames (kept_frames wire (log ++ [x])) = of_frames (kept_frames wire log) + if is_kept x then of_frames (wire (snd x)) else 0.
Proof.
  destruct Hc as [_ _ _ Happ Hnil]. unfold kept_frames. rewrite List.filter_app, map_app, concat_app, Happ. f_equal.
  cbn [List.filter]. destruct (is_kept x); cbn; [by rewrite app_nil_r|done].
Qed.

Lemma packet_conserves pr e st skb : presents skb (wire skb) ->
  in_flight f (run_flow pr e st skb) mod 2 ^ w
  = (in_flight f st + if is_kept (packet_fate pr e st skb, skb) then of_frames (wire skb) else 0) mod 2 ^ w.
Proof.
  intros Hp. unfold is_kept, packet_fate. cbn [fst]. destruct (seen pr e skb) as [[[id fl] seg]|] eqn:Hs.
  - destruct (run_flow_seen pr e st skb id fl seg Hs) as (d & c & ->). rewrite account_conserves, <- surjective_pairing.
    pose proof (ct_size _ _ _ _ Hc _ _ _ _ _ _ _ Hp Hs) as Hz.
    destruct (aggregated_flows st !! id); [|destruct ((fl_ret e =? 0) || fl_room e)]; [..|done]; rewrite Zplus_mod, Hz, <- Zplus_mod; done.
  - rewrite run_flow_unseen by done. f_equal. lia.
Qed.

Lemma step_balanced r ev : match ev with fl_packet _ _ skb => presents skb (wire skb) | fl_take _ => True end -> balanced r -> balanced (flow_step r ev).
Proof.
  intros Hp Hb. destruct r as [[st log] taken]. destruct ev as [p e skb|id]; cbn [flow_step flow_next].
  - unfold balanced in *. rewrite kept_frames_snoc. cbn [snd]. rewrite (Zplus_mod (of_frames _)), <- Hb, <- Zplus_mod.
    rewrite (Zplus_mod (in_flight f (run_flow _ _ _ _))), (packet_conserves p e st skb Hp), <- Zplus_mod. f_equal. lia.
  - unfold balanced, in_flight in *. cbn [flow_next aggregated_flows direct_flows]. rewrite map_app, foldr_add_app, <- Hb.
    destruct (aggregated_flows st !! id) as [m|] eqn:Hm; [rewrite (metrics_sum_take f _ id m Hm)|rewrite (delete_id _ _ Hm)]; cbn; f_equal; lia.
Qed.
End conserve.

(** The statistics of one packet. *)
Lemma account_stats e st id fl p b d c :
  let s := flow_packet_stats st in let s' := flow_packet_stats (account_flow e st id fl p b d c) in
  pk_total s' = u64 (pk_total s + 1)
  /\ pk_ignored s' =
     if match aggregated_flows st !! id with Some _ => fl_trace_messages e && negb (fl_ret e =? 0) | None => negb ((fl_ret e =? 0) || fl_room e) end
     then u64 (pk_ignored s + 1) else pk_ignored s.
Proof.
  unfold account_flow. destruct (aggregated_flows st !! id).
  - cbn [flow_packet_stats]. unfold nz. by destruct (fl_trace_messages e && negb (fl_ret e =? 0)).
  - destruct (new_direction e (flow_directions st) id d). destruct (get_connection_initiator (conn_initiators st) id fl).
    destruct (fl_ret e =? 0); [done|]. by destruct (fl_room e).
Qed.

(** The packets are counted, and the ones that are ignored. *)
Definition tallied (r : flow_run_state) : Prop :=
  let '(st, log, _) := r in
  pk_total (flow_packet_stats st) = u64 (how_many is_seen log) /\ pk_ignored (flow_packet_stats st) = u64 (how_many is_ignored log).

Lemma u64_succ x n : x = u64 n -> u64 (x + 1) = u64 (n + 1).
Proof. intros ->. unfold wrap. by rewrite Zplus_mod_idemp_l. Qed.

Lemma how_many_snoc f log x : how_many f (log ++ [x]) = how_many f log + if f x then 1 else 0.
Proof. unfold how_many. rewrite List.filter_app, zlen_app. cbn [List.filter]. by destruct (f x). Qed.

Lemma step_tallied r ev : tallied r -> tallied (flow_step r ev).
Proof.
  destruct r as [[st log] taken]. destruct ev as [p e skb|id]; cbn [flow_step flow_next]; [|done].
  intros [Ht Hi]. unfold tallied. rewrite !how_many_snoc. unfold is_seen, is_ignored, packet_fate. cbn [fst].
  destruct (seen p e skb) as [[[id fl] seg]|] eqn:Hs; [|rewrite run_flow_unseen, !Z.add_0_r by done; done].
  destruct (run_flow_seen p e st skb id fl seg Hs) as (d & c & ->). edestruct account_stats as [-> ->].
  destruct (aggregated_flows st !! id); [destruct (fl_trace_messages e && negb (fl_ret e =? 0))|destruct ((fl_ret e =? 0) || fl_room e)];
    cbn [negb]; rewrite ?Z.add_0_r; split; try done; by apply u64_succ.
Qed.

(** [wire] says which frames each packet of the history stands for. *)
Definition presented (wire : flow_skb -> list (list Z)) (ev : flow_event) : Prop :=
  match ev with fl_packet _ _ skb => presents skb (wire skb) | fl_take _ => True end.


(** ** Who opened a connection *)

Definition reverse_flow (id : flow_id) : flow_id :=
  mk_flow_id (dst_ip id) (src_ip id) (if_index id) (eth_protocol id) (dst_port id) (src_port id) (transport_protocol id).

Record flow_ok (id : flow_id) : Prop := mk_flow_ok {
  fo_src : is_bytes (src_ip id) /\ length (src_ip id) = 16%nat;
  fo_dst : is_bytes (dst_ip id) /\ length (dst_ip id) = 16%nat
}.

(** The first word in which the addresses differ, differs in its top bit and nothing else: both
    differences wrap to the same negative number. *)
Fixpoint halfway_from (n : nat) (i : nat) (a b : list Z) : bool :=
  match n with
  | O => false
  | S n' => if ip_word a i =? ip_word b i then halfway_from n' (S i) a b else (ip_word a i - ip_word b i) mod 2 ^ 32 =? 2 ^ 31
  end.
Definition halfway (id : flow_id) : bool := halfway_from 4 0 (src_ip id) (dst_ip id).

Lemma ip_word_range ip i : is_bytes ip -> 0 <= ip_word ip i < 2 ^ 32.
Proof.
  intros H. unfold ip_word. pose proof (le_word_range (take 4 (drop (4 * i) ip))) as Hr.
  assert (is_bytes (take 4 (drop (4 * i) ip))) by (by apply Forall_take, Forall_drop).
  assert (length (take 4 (drop (4 * i) ip)) <= 4)%nat by (rewrite length_take; lia).
  specialize (Hr ltac:(done)). assert (256 ^ zlen (take 4 (drop (4 * i) ip)) <= 256 ^ 4) by (apply Z.pow_le_mono_r; unfold zlen; lia).
  change (256 ^ 4) with (2 ^ 32) in *. lia.
Qed.

Lemma s32_diff x y : 0 <= x < 2 ^ 32 -> 0 <= y < 2 ^ 32 ->
  (s32 (x - y) = 0 <-> x = y)
  /\ (if (x - y) mod 2 ^ 32 =? 2 ^ 31 then s32 (x - y) < 0 /\ s32 (y - x) < 0 else s32 (y - x) = - s32 (x - y)).
Proof.
  intros Hx Hy. unfold swrap. change (2 ^ (32 - 1)) with (2 ^ 31).
  pose proof (Z.div_mod (x - y) (2 ^ 32) ltac:(lia)). pose proof (Z.mod_pos_bound (x - y) (2 ^ 32) ltac:(lia)).
  pose proof (Z.div_mod (x - y + 2 ^ 31) (2 ^ 32) ltac:(lia)). pose proof (Z.mod_pos_bound (x - y + 2 ^ 31) (2 ^ 32) ltac:(lia)).
  pose proof (Z.div_mod (y - x + 2 ^ 31) (2 ^ 32) ltac:(lia)). pose proof (Z.mod_pos_bound (y - x + 2 ^ 31) (2 ^ 32) ltac:(lia)).
  destruct (Z.eqb_spec ((x - y) mod 2 ^ 32) (2 ^ 31)); lia.
Qed.

Lemma compare_flip n : forall i a b, is_bytes a -> is_bytes b ->
  (compare_words n i a b = 0 <-> forall j, (i <= j < i + n)%nat -> ip_word a j = ip_word b j)
  /\ (if halfway_from n i a b then compare_words n i a b < 0 /\ compare_words n i b a < 0 else compare_words n i b a = - compare_words n i a b).
Proof.
  induction n as [|n IH]; intros i a b Ha Hb; [split; [split; [intros; lia|done]|done]|]. cbn [compare_words halfway_from].
  destruct (s32_diff (ip_word a i) (ip_word b i)) as [Hz Hf]; [by apply ip_word_range..|].
  destruct (s32_diff (ip_word b i) (ip_word a i)) as [Hz' _]; [by apply ip_word_range..|].
  destruct (Z.eqb_spec (ip_word a i) (ip_word b i)) as [E|Hne].
  - rewrite (proj2 Hz E), (proj2 Hz' (eq_sym E)), Z.eqb_refl. destruct (IH (S i) a b Ha Hb) as [I1 I2]. split; [|done].
    rewrite I1. split; intros H j Hj; [destruct (decide (j = i)) as [->|]; [done|apply H; lia]|apply H; lia].
  - rewrite (proj2 (Z.eqb_neq (s32 (ip_word a i - ip_word b i)) 0)) by (by rewrite Hz).
    rewrite (proj2 (Z.eqb_neq (s32 (ip_word b i - ip_word a i)) 0)) by (rewrite Hz'; congruence). split; [|done].
    split; [intros H; by apply Hz in H|]. intros H. exfalso. apply Hne, H. lia.
Qed.

Lemma ip_split ip : length ip = 16%nat -> ip = @concat Z (map (fun i => take 4 (drop (4 * i) ip)) (seq 0 4)).
Proof. intros H. do 16 (destruct ip as [|? ip]; [done|]). by destruct ip. Qed.

Lemma same_words a b : is_bytes a -> is_bytes b -> length a = 16%nat -> length b = 16%nat ->
  (forall j, (0 <= j < 0 + 4)%nat -> ip_word a j = ip_word b j) -> a = b.
Proof.
  intros Ha Hb La Lb H. rewrite (ip_split a La), (ip_split b Lb). f_equal. apply map_ext_in. intros j [_ Hj]%in_seq.
  assert (Hl : forall ip : list Z, length ip = 16%nat -> length (take 4 (drop (4 * j) ip)) = 4%nat) by (intros ip Hip; rewrite length_take, length_drop; lia).
  rewrite <- (le_word_le_bytes (take 4 (drop (4 * j) a))), <- (le_word_le_bytes (take 4 (drop (4 * j) b))) by (by apply Forall_take, Forall_drop).
  rewrite !Hl by done. f_equal. apply H. lia.
Qed.

(** Both directions of a connection make the same key, with the ends the other way round, unless the
    addresses lie half the range of a word apart. *)
Lemma key_reversed id : flow_ok id -> halfway id = false -> src_ip id <> dst_ip id \/ src_port id <> dst_port id ->
  fill_conn_initiator_key (reverse_flow id) = (negb (fst (fill_conn_initiator_key id)), snd (fill_conn_initiator_key id)).
Proof.
  intros [[Ha La] [Hb Lb]] Hh Hne. destruct (compare_flip 4 0 (src_ip id) (dst_ip id) Ha Hb) as [Hz Hf]. unfold halfway in Hh. rewrite Hh in Hf.
  unfold fill_conn_initiator_key, compare_ipv6. cbn [reverse_flow src_ip dst_ip src_port dst_port]. rewrite Hf.
  set (c := compare_words 4 0 (src_ip id) (dst_ip id)) in *. destruct (Z.eq_dec c 0) as [E|Hc].
  - assert (Hip : src_ip id = dst_ip id) by (apply same_words; [done..|by apply Hz]). rewrite E, Hip. cbn [Z.ltb Z.opp Z.compare orb].
    destruct (Z.ltb_spec (src_port id) (dst_port id)), (Z.ltb_spec (dst_port id) (src_port id)); try done; try lia.
    destruct Hne as [?|?]; [done|lia].
  - destruct (Z.ltb_spec c 0), (Z.ltb_spec (- c) 0); try lia; cbn [fst snd negb].
    + rewrite (proj2 (Z.ltb_lt 0 (- c))) by lia. done.
    + rewrite (proj2 (Z.ltb_lt 0 c)) by lia. done.
Qed.

Lemma key_halfway id : flow_ok id -> halfway id = true -> snd (fill_conn_initiator_key (reverse_flow id)) <> snd (fill_conn_initiator_key id).
Proof.
  intros [[Ha La] [Hb Lb]] Hh. destruct (compare_flip 4 0 (src_ip id) (dst_ip id) Ha Hb) as [Hz Hf]. unfold halfway in Hh. rewrite Hh in Hf.
  destruct Hf as [F1 F2]. unfold fill_conn_initiator_key, compare_ipv6. cbn [reverse_flow src_ip dst_ip src_port dst_port].
  rewrite (proj2 (Z.ltb_lt _ 0) F1), (proj2 (Z.ltb_lt _ 0) F2). cbn [snd]. intros H. apply (f_equal low_ip) in H. cbn in H.
  assert (compare_words 4 0 (src_ip id) (dst_ip id) = 0) by (apply Hz; by rewrite H). lia.
Qed.

Lemma syn_ack_test flags : has flags SYN_FLAG = true ->
  (Z.land flags (Z.lor SYN_FLAG ACK_FLAG) =? Z.lor SYN_FLAG ACK_FLAG) = has flags ACK_FLAG.
Proof.
  intros Hs. unfold has, nz in *. rewrite Z.land_lor_distr_r.
  assert (E : forall k, Z.land flags (2 ^ Z.of_nat k) = if Z.testbit flags (Z.of_nat k) then 2 ^ Z.of_nat k else 0).
  { intros k. apply Z.bits_inj'. intros n Hn. rewrite Z.land_spec, Z.pow2_bits_eqb by lia. destruct (Z.testbit flags (Z.of_nat k)) eqn:Hb.
    - rewrite Z.pow2_bits_eqb by lia. destruct (Z.eqb_spec (Z.of_nat k) n) as [<-|]; [by rewrite Hb|by rewrite andb_false_r].
    - rewrite Z.bits_0. destruct (Z.eqb_spec (Z.of_nat k) n) as [<-|]; [by rewrite Hb|by rewrite andb_false_r]. }
  pose proof (E 1%nat) as E1. pose proof (E 4%nat) as E4. change (2 ^ Z.of_nat 1) with SYN_FLAG in E1. change (2 ^ Z.of_nat 4) with ACK_FLAG in E4.
  rewrite E1 in Hs |- *. rewrite E4. destruct (Z.testbit flags (Z.of_nat 1)), (Z.testbit flags (Z.of_nat 4)); done.
Qed.

(** *** Connections in the maps *)

(** [id'] goes from the source of [id] to its destination, on any interface. *)
Definition forth (id id' : flow_id) : Prop :=
  src_ip id' = src_ip id /\ dst_ip id' = dst_ip id /\ src_port id' = src_port id /\ dst_port id' = dst_port id.

Definition along (id id' : flow_id) : Prop := forth id id' \/ forth (reverse_flow id) id'.

#[export] Instance along_dec id id' : Decision (along id id').
Proof. unfold along, forth. apply _. Defined.

(** The element names the source of [id] as the end that opened the connection. *)
Definition names_opener (id id' : flow_id) (m : flow_metrics) : Prop :=
  (forth id id' -> fm_initiator m = INITIATOR_SRC) /\ (forth (reverse_flow id) id' -> fm_initiator m = INITIATOR_DST).

Definition all_name_opener (id : flow_id) (st : flow_state) : Prop :=
  (forall id' m, aggregated_flows st !! id' = Some m -> names_opener id id' m)
  /\ Forall (fun r => names_opener id (rec_id r) (rec_metrics r)) (direct_flows st).

(** Nothing is there of a connection between these ends. *)
Definition unheard_of (id : flow_id) (st : flow_state) : Prop :=
  conn_initiators st !! snd (fill_conn_initiator_key id) = None
  /\ (forall id' m, aggregated_flows st !! id' = Some m -> ~ along id id')
  /\ Forall (fun r => ~ along id (rec_id r)) (direct_flows st).

(** The first packet of a connection, from either end: SYN from the end that opens it, or SYN and ACK back. *)
Definition opens_connection (id first : flow_id) (flags : Z) : Prop :=
  has flags SYN_FLAG = true /\ (forth id first /\ has flags ACK_FLAG = false \/ forth (reverse_flow id) first /\ has flags ACK_FLAG = true).

(** No packet of the connection for which an element is to be made closes it. *)
Fixpoint stays_open (id : flow_id) (st : flow_state) (h : list flow_event) : Prop :=
  match h with
  | [] => True
  | ev :: h =>
      match ev with
      | fl_packet p e skb =>
          is_bytes (fk_octets skb)
          /\ forall id' flags seg, seen p e skb = Some (id', flags, seg) -> along id id' -> aggregated_flows st !! id' = None -> closes_flow flags = false
      | fl_take _ => True
      end /\ stays_open id (flow_next st ev) h
  end.

Lemma key_forth id id' : forth id id' -> fill_conn_initiator_key id' = fill_conn_initiator_key id.
Proof. intros (Hs & Hd & Hp & Hq). unfold fill_conn_initiator_key, compare_ipv6. by rewrite Hs, Hd, Hp, Hq. Qed.

(** The key holds the ends of the flow, in one order or the other. *)
Lemma key_ends id : flow_ok id ->
  snd (fill_conn_initiator_key id) =
  if fst (fill_conn_initiator_key id) then mk_ikey (src_ip id) (dst_ip id) (src_port id) (dst_port id)
  else mk_ikey (dst_ip id) (src_ip id) (dst_port id) (src_port id).
Proof.
  intros [[Ha La] [Hb Lb]]. destruct (compare_flip 4 0 (src_ip id) (dst_ip id) Ha Hb) as [Hz _].
  unfold fill_conn_initiator_key, compare_ipv6. destruct (Z.ltb_spec (compare_words 4 0 (src_ip id) (dst_ip id)) 0); [done|].
  destruct (Z.ltb_spec 0 (compare_words 4 0 (src_ip id) (dst_ip id))); [done|]. cbn [orb]. destruct (dst_port id <? src_port id); [done|]. cbn [fst snd].
  assert (src_ip id = dst_ip id) as -> by (apply same_words; [done..|apply Hz; lia]). done.
Qed.

Lemma key_apart id id' : flow_ok id -> flow_ok id' -> ~ along id id' -> snd (fill_conn_initiator_key id') <> snd (fill_conn_initiator_key id).
Proof.
  intros H H' Hna. rewrite (key_ends id H), (key_ends id' H'). unfold along, forth in Hna. cbn [reverse_flow src_ip dst_ip src_port dst_port] in Hna.
  destruct (fst (fill_conn_initiator_key id)), (fst (fill_conn_initiator_key id')); intros [= E1 E2 E3 E4]; apply Hna; tauto.
Qed.

(** Flows with other keys do not touch the entry. *)
Lemma initiator_other m id flags k : snd (fill_conn_initiator_key id) <> k -> snd (get_connection_initiator m id flags) !! k = m !! k.
Proof.
  intros Hk. unfold get_connection_initiator. destruct (fill_conn_initiator_key id) as [low key]. cbn [snd] in Hk.
  destruct (m !! key) as [i|]; [|destruct (initiator_of_flags low flags =? INITIATOR_UNKNOWN)]; destruct (closes_flow flags); cbn [snd];
    rewrite ?lookup_delete_ne, ?lookup_insert_ne by done; done.
Qed.

(** The entry of a connection opened by the source of [id]. *)
Definition opener_index (id : flow_id) : Z := if fst (fill_conn_initiator_key id) then INITIATOR_LOW else INITIATOR_HIGH.
Definition remembered (id : flow_id) (m : gmap conn_initiator_key Z) : Prop := m !! snd (fill_conn_initiator_key id) = Some (opener_index id).

Section opened.
Context (id : flow_id) (Hok : flow_ok id) (Hh : halfway id = false) (Hne : src_ip id <> dst_ip id \/ src_port id <> dst_port id).

Lemma forth_back id' : forth id id' -> ~ forth (reverse_flow id) id'.
Proof.
  intros (H1 & H2 & H3 & H4) (H5 & H6 & H7 & H8). cbn [reverse_flow src_ip dst_ip src_port dst_port] in *. destruct Hne as [N|N]; apply N; congruence.
Qed.

(** The first packet leaves the entry, and is told who opened the connection. *)
Lemma initiator_first m first flags : opens_connection id first flags -> closes_flow flags = false -> m !! snd (fill_conn_initiator_key id) = None ->
  get_connection_initiator m first flags
  = (if decide (forth id first) then INITIATOR_SRC else INITIATOR_DST, <[snd (fill_conn_initiator_key id) := opener_index id]> m).
Proof.
  intros (Hs & Hop) Hc Hm. pose proof (key_reversed id Hok Hh Hne) as Hrev. unfold get_connection_initiator, opener_index, initiator_of_flags.
  destruct Hop as [[Hf Ha]|[Hf Ha]].
  - rewrite (key_forth _ _ Hf). rewrite decide_True by done. destruct (fill_conn_initiator_key id) as [low key]. cbn [fst snd] in *.
    rewrite Hm, Hc, syn_ack_test, Ha, Hs by done. by destruct low.
  - rewrite (key_forth _ _ Hf), Hrev. rewrite decide_False by (intros H; by apply (forth_back first)).
    destruct (fill_conn_initiator_key id) as [low key]. cbn [fst snd] in *. rewrite Hm, Hc, syn_ack_test, Ha by done. by destruct low.
Qed.

(** Later ones of either direction are told the same. *)
Lemma initiator_known m id' flags : along id id' -> closes_flow flags = false -> remembered id m ->
  get_connection_initiator m id' flags = (if decide (forth id id') then INITIATOR_SRC else INITIATOR_DST, m).
Proof.
  intros Hal Hc Hm. pose proof (key_reversed id Hok Hh Hne) as Hrev. unfold get_connection_initiator, remembered, opener_index in *.
  destruct Hal as [Hf|Hf]; rewrite (key_forth _ _ Hf).
  - rewrite decide_True by done. destruct (fill_conn_initiator_key id) as [low key]. cbn [fst snd] in *. rewrite Hm, Hc. by destruct low.
  - rewrite Hrev, decide_False by (intros H; by apply (forth_back id')). destruct (fill_conn_initiator_key id) as [low key]. cbn [fst snd] in *.
    rewrite Hm, Hc. by destruct low.
Qed.

Lemma told_names id' m : along id id' -> fm_initiator m = (if decide (forth id id') then INITIATOR_SRC else INITIATOR_DST) -> names_opener id id' m.
Proof.
  intros Hal Hm. split; intros Hf; rewrite Hm; [by rewrite decide_True|]. rewrite decide_False; [done|]. intros H. by apply (forth_back id').
Qed.

(** An account whose new element, where one is made, names the opener. *)
Lemma account_names e st id' flags p b d c :
  all_name_opener id st ->
  (aggregated_flows st !! id' = None -> along id id' ->
   fst (get_connection_initiator (conn_initiators st) id' flags) = if decide (forth id id') then INITIATOR_SRC else INITIATOR_DST) ->
  all_name_opener id (account_flow e st id' flags p b d c).
Proof.
  intros [Ha Hd] Ht. assert (Hnew : aggregated_flows st !! id' = None ->
    forall m, fm_initiator m = fst (get_connection_initiator (conn_initiators st) id' flags) -> names_opener id id' m).
  { intros Hnone m Hm. destruct (decide (along id id')) as [Hal|Hal]; [apply told_names; [done|by rewrite Hm; apply Ht]|].
    split; intros Hf; exfalso; apply Hal; [by left|by right]. }
  unfold account_flow. destruct (aggregated_flows st !! id') as [m|] eqn:Hm.
  - split; [|done]. cbn [aggregated_flows]. intros id2 m2. rewrite lookup_insert_Some. intros [[<- <-]|[_ H2]]; [exact (Ha id' m Hm)|by apply Ha].
  - specialize (Hnew eq_refl). destruct (new_direction e (flow_directions st) id' d) as [dir dirs].
    destruct (get_connection_initiator (conn_initiators st) id' flags) as [i inits]. cbn [fst] in Hnew.
    destruct (fl_ret e =? 0); [|destruct (fl_room e)]; split; cbn [aggregated_flows direct_flows]; try done.
    + intros id2 m2. rewrite lookup_insert_Some. intros [[<- <-]|[_ H2]]; [by apply Hnew|by apply Ha].
    + apply Forall_app. split; [done|]. apply Forall_singleton. by apply Hnew.
Qed.

Lemma account_initiators e st id' flags p b d c :
  conn_initiators (account_flow e st id' flags p b d c)
  = match aggregated_flows st !! id' with Some _ => conn_initiators st | None => snd (get_connection_initiator (conn_initiators st) id' flags) end.
Proof.
  unfold account_flow. destruct (aggregated_flows st !! id'); [done|]. destruct (new_direction e (flow_directions st) id' d).
  destruct (get_connection_initiator (conn_initiators st) id' flags). destruct (fl_ret e =? 0); [done|]. by destruct (fl_room e).
Qed.

Definition opener_known (st : flow_state) : Prop := remembered id (conn_initiators st) /\ all_name_opener id st.

Lemma account_known e st id' flags p b d c : flow_ok id' -> opener_known st ->
  (along id id' -> aggregated_flows st !! id' = None -> closes_flow flags = false) -> opener_known (account_flow e st id' flags p b d c).
Proof.
  intros Hok' [Hr Ha] Hc. split.
  - unfold remembered. rewrite account_initiators. destruct (aggregated_flows st !! id') eqn:Hm; [done|]. destruct (decide (along id id')) as [Hal|Hal].
    + rewrite initiator_known by auto. done.
    + rewrite initiator_other by (by apply key_apart). done.
  - apply account_names; [done|]. intros Hm Hal. by rewrite initiator_known by auto.
Qed.
End opened.

(** *** The flows of packets have addresses of sixteen octets *)

Lemma skb_load_bytes_ok d off n : is_bytes d -> is_bytes (skb_load d off n) /\ length (skb_load d off n) = n.
Proof.
  intros Hd. unfold skb_load, skb_load_bytes. destruct ((0 <=? off) && (off + Z.of_nat n <=? zlen d)) eqn:E.
  - apply andb_prop in E as [E1%Z.leb_le E2%Z.leb_le]. split; [by apply Forall_take, Forall_drop|]. rewrite length_take, length_drop. unfold zlen in E2. lia.
  - split; [|apply repeat_length]. apply Forall_forall. intros x Hx%list_elem_of_In%repeat_spec. lia.
Qed.

Lemma mapped_ok d off : is_bytes d -> is_bytes (ip4ip6_prefix ++ skb_load d off 4) /\ length (ip4ip6_prefix ++ skb_load d off 4) = 16%nat.
Proof.
  intros Hd. destruct (skb_load_bytes_ok d off 4 Hd) as [H1 H2]. split; [|by rewrite length_app, H2]. apply Forall_app. split; [|done]. repeat constructor; lia.
Qed.

Lemma fill_ethhdr_ok d id fl seg : is_bytes d -> fill_ethhdr d = Some (id, fl, seg) -> flow_ok id.
Proof.
  intros Hd. unfold fill_ethhdr, fill_iphdr, fill_ip6hdr. destruct (_ <? _); [done|]. destruct (_ =? ETH_P_IP); [|destruct (_ =? ETH_P_IPV6)].
  - destruct (_ <? _); [done|]. destruct (if _ <? 20 then _ else _) as [[[sp dp] fl'] seg']. intros [= <- _ _]. split; by apply mapped_ok.
  - destruct (_ <? _); [done|]. destruct (fill_ports _ _ _) as [[[sp dp] fl'] seg']. intros [= <- _ _]. split; by apply skb_load_bytes_ok.
  - intros [= <- _ _]. split; (split; [|done]); repeat constructor; lia.
Qed.

Lemma read_flow_ok skb id fl seg : is_bytes (fk_octets skb) -> read_flow skb = Some (id, fl, seg) -> flow_ok id.
Proof.
  intros Hd. unfold read_flow. destruct (_ =? ETH_P_IP); [|destruct (_ =? ETH_P_IPV6); [|done]].
  - destruct (_ <? 20); [done|]. destruct (_ =? IPPROTO_TCP); [destruct (_ <? 0); [done|]|destruct (_ =? IPPROTO_UDP); [|done]];
      intros [= <- _ _]; split; by apply mapped_ok.
  - destruct (_ =? IPPROTO_TCP); [destruct (_ <? 0); [done|]|destruct (_ =? IPPROTO_UDP); [|done]]; intros [= <- _ _]; split; by apply skb_load_bytes_ok.
Qed.

Lemma seen_ok p e skb id fl seg : is_bytes (fk_octets skb) -> seen p e skb = Some (id, fl, seg) -> flow_ok id.
Proof.
  intros Hd. unfold seen. destruct (sampled_out e); [done|]. destruct p.
  - destruct (fill_ethhdr _) as [[[id' fl'] seg']|] eqn:Hf; [|done]. intros [= <- _ _]. apply fill_ethhdr_ok in Hf as [H1 H2]; [done|by apply Forall_take].
  - destruct (read_flow skb) as [[[id' fl'] seg']|] eqn:Hf; [|done]. destruct (same_ip _ _); [done|]. intros [= <- _ _]. by apply read_flow_ok in Hf.
Qed.

Lemma history_known id h : flow_ok id -> halfway id = false -> src_ip id <> dst_ip id \/ src_port id <> dst_port id ->
  forall st, opener_known id st -> stays_open id st h -> opener_known id (fold_left flow_next h st).
Proof.
  intros Hok Hh Hne. induction h as [|ev h IH]; intros st Hk Hs; [done|]. destruct Hs as [He Hs]. cbn [fold_left]. apply IH; [|done]. clear IH Hs.
  destruct ev as [p e skb|id']; cbn [flow_next].
  - destruct He as [Hb Hc]. destruct (seen p e skb) as [[[id' fl] seg]|] eqn:Hseen; [|by rewrite run_flow_unseen].
    destruct (run_flow_seen p e st skb id' fl seg Hseen) as (d & c & ->). apply account_known; [done..| |done|]; [by apply (seen_ok p e skb id' fl seg)|]. by apply (Hc id' fl seg).
  - destruct Hk as (Hr & Ha & Hd). split; [done|]. split; [|done]. cbn [aggregated_flows]. intros id2 m [_ H2]%lookup_delete_Some. by apply Ha.
Qed.

(** C38: Both directions agree on who opened a connection.  Let the first packet either program sees of a connection be its
    SYN, from the source of [id], or, with the flags the socket filter passes, the SYN and ACK that answers it; it does not
    close the connection, and neither an entry of [conn_initiators] nor an element or a record of these ends is there.  Then,
    after any further packets of any connections through either program on any interface, with elements taken at
    any time, every element and every record of the connection, in both directions, names that end, as long
    as the entry is not evicted and no packet that makes an element of the connection closes it.  This
    needs that the two directions have one key, which is so exactly when no word of the two addresses decides their
    order by half its range. *)
Theorem initiator_agreed id :
  flow_ok id -> src_ip id <> dst_ip id \/ src_port id <> dst_port id ->
  (snd (fill_conn_initiator_key (reverse_flow id)) = snd (fill_conn_initiator_key id) <-> halfway id = false)
  /\ forall st p e skb first flags seg h,
     halfway id = false -> unheard_of id st ->
     seen p e skb = Some (first, flags, seg) -> opens_connection id first flags -> closes_flow flags = false ->
     stays_open id (run_flow p e st skb) h ->
     all_name_opener id (fold_left flow_next h (run_flow p e st skb)).
Proof.
  intros Hok Hne. split.
  { split; [|intros H; by rewrite key_reversed]. intros H. destruct (halfway id) eqn:E; [|done]. by apply key_halfway in E. }
  intros st p e skb first flags seg h Hh (Hm & Hel & Hrec) Hseen Hop Hc Hs.
  apply history_known; [done..| |done]. clear Hs h. destruct (run_flow_seen p e st skb first flags seg Hseen) as (d & c & ->).
  assert (Hal : along id first) by (destruct Hop as (_ & [[H _]|[H _]]); [by left|by right]).
  assert (Hnone : aggregated_flows st !! first = None) by (destruct (aggregated_flows st !! first) eqn:H; [|done]; by apply Hel in H).
  assert (Hnames : forall id' m, ~ along id id' -> names_opener id id' m) by (intros id' m Hna; split; intros Hf; exfalso; apply Hna; [by left|by right]).
  split.
  - unfold remembered. rewrite account_initiators, Hnone, (initiator_first id Hok Hh Hne) by done. apply lookup_insert_eq.
  - apply account_names; [done| |intros _ _; by rewrite (initiator_first id Hok Hh Hne)].
    split; [intros id' m H; apply Hnames; by apply (Hel id' m)|]. apply (Forall_impl _ _ _ Hrec). intros r. apply Hnames.
Qed.

(** ** Examples *)

Definition flow_ip (d : Z) : list Z := ip4ip6_prefix ++ [10; 0; 0; d].
Definition example_flow (d : Z) : flow_id := mk_flow_id (flow_ip 1) (flow_ip d) 3 ETH_P_IP 40000 80 IPPROTO_TCP.

Lemma example_flow_ok d : 0 <= d < 256 -> flow_ok (example_flow d).
Proof.
  intros Hd. split; (split; [|reflexivity]); cbn; repeat constructor; lia.
Qed.

Definition flow_skb_of (src dst : Z) (sport dport flags : Z) : flow_skb :=
  mk_flow_skb (frame (repeat 1 12) (net_ip4 0 [0; 40] (repeat 0 5) [0; 0] [10; 0; 0; src] [10; 0; 0; dst] [])
                 (mk_segment sport dport 7 9 0 flags (repeat 0 6) [] [])) 54 (Some 0) 3.

Definition plain_env : flow_env := mk_flow_env 0 0 false 0 5 0 true.

(** Three segments of 2, 2 and 1 octets that the kernel has merged. *)
Definition merged_skb : flow_skb :=
  mk_flow_skb (frame (repeat 1 12) (net_ip4 0 [0; 45] (repeat 0 5) [0; 0] [10; 0; 0; 1] [10; 0; 0; 2] [])
                 (mk_segment 40000 80 7 9 0 0x18 (repeat 0 6) [] [71; 69; 84; 32; 47])) 59 (Some 3) 3.

Definition merged_frames : list (list Z) :=
  let f p := frame (repeat 1 12) (net_ip4 0 [0; 42] (repeat 0 5) [0; 0] [10; 0; 0; 1] [10; 0; 0; 2] []) (mk_segment 40000 80 7 9 0 0x18 (repeat 0 6) [] p) in
  [f [71; 69]; f [84; 32]; f [47]].

Definition example_wire (skb : flow_skb) : list (list Z) := match fk_gso_segs skb with Some 3 => merged_frames | _ => [fk_octets skb] end.


(** A SYN, its answer, and then the answer's element: both name the end that sent the SYN. *)
Lemma initiator_agreed_witness :
  all_name_opener (example_flow 2)
    (fold_left flow_next [fl_packet prog_sock plain_env (flow_skb_of 2 1 80 40000 0x12)] (run_flow prog_tc plain_env no_flows (flow_skb_of 1 2 40000 80 SYN_FLAG))).
Proof.
  destruct (initiator_agreed (example_flow 2)) as [_ H]; [by apply example_flow_ok|right; discriminate|].
  apply (H no_flows prog_tc plain_env (flow_skb_of 1 2 40000 80 SYN_FLAG) (example_flow 2) SYN_FLAG 54).
  - vm_compute; reflexivity.
  - split; [apply lookup_empty|]. split; [|constructor]. intros id' m Hm. change ((∅ : gmap flow_id flow_metrics) !! id' = Some m) in Hm. by rewrite lookup_empty in Hm.
  - vm_compute; reflexivity.
  - split; [reflexivity|]. left. split; [by repeat split|reflexivity].
  - reflexivity.
  - split; [|exact I]. split; [vm_compute; repeat constructor; discriminate|]. intros id' fl seg Hs _ _. vm_compute in Hs. injection Hs as _ <- _. reflexivity.
Defined.

(** Two hosts of one network, 128 addresses apart, are each other's lower end. *)
Example hosts_halfway_apart :
  halfway (example_flow 129) = true
  /\ fst (get_connection_initiator (snd (get_connection_initiator ∅ (example_flow 129) SYN_FLAG)) (reverse_flow (example_flow 129)) ACK_FLAG) = INITIATOR_UNKNOWN.
Proof. split; vm_compute; reflexivity. Qed.

(** The flags of the traffic-control program do not have the bits that are tested for a SYN and ACK. *)
Example tc_syn_ack_unknown :
  get_connection_initiator ∅ (reverse_flow (example_flow 2)) (set_flags (Z.lor SYN_FLAG ACK_FLAG)) = (INITIATOR_UNKNOWN, ∅).
Proof. vm_compute. reflexivity. Qed.

(** The socket filter marks a plain acknowledgement as a SYN and ACK. *)
Example ack_marked_syn_ack : custom_flags ACK_FLAG = Z.lor ACK_FLAG SYN_ACK_FLAG /\ custom_flags (Z.lor ACK_FLAG FIN_FLAG) = Z.lor (Z.lor ACK_FLAG FIN_FLAG) SYN_ACK_FLAG.
Proof. done. Qed.

(** An in-place update that is reported as ignored: the packet is in the map all the same. *)
Example ignored_but_counted :
  let e ret := mk_flow_env 0 0 true 0 5 ret true in
  let st := account_flow (e 0) no_flows (example_flow 2) 0 1 100 UNKNOWN false in
  let st := account_flow (e (-16)) st (example_flow 2) 0 1 100 UNKNOWN false in
  pk_ignored (flow_packet_stats st) = 1 /\ in_flight fm_bytes st = 200.
Proof. vm_compute. split; reflexivity. Qed.

(** The connection's end arrives on a flow that has an element: who opened it is not forgotten. *)
Example fin_keeps_initiator :
  let st := account_flow plain_env no_flows (example_flow 2) SYN_FLAG 1 60 EGRESS false in
  let st := account_flow plain_env st (example_flow 2) FIN_ACK_FLAG 1 60 UNKNOWN true in
  conn_initiators st !! snd (fill_conn_initiator_key (example_flow 2)) = Some INITIATOR_LOW /\ flow_directions st !! example_flow 2 = None.
Proof. vm_compute. split; reflexivity. Qed.
