(* ===== verification/LargeBuf.v ===== *)
(** * Large-buffer events ([bpf/common/large_buf_emit.h], [large_buffers.h]).

    A captured payload leaves the kernel as ring-buffer events of at most 16 KiB.  The ring is the
    list of events accepted so far with the outcome of the coming outputs as a script (an output
    past the script succeeds).  [C] is the type of the connection the events are tagged with. *)

From Stdlib Require Import ZArith Lia ZifyBool List Bool.
From stdpp Require Import base list.
From S2P Require Import Prelude TraceUtil.

Local Open Scope Z_scope.

(** ** Definitions *)

Definition k_large_buf_payload_max_size : Z := 16384.
Definition k_large_buf_max_size : Z := 32768.
Definition k_large_buf_per_emit_max : Z := 65536.
Definition k_large_buf_max_mysql_captured_bytes : Z := 65536.
Definition k_large_buf_max_postgres_captured_bytes : Z := 65536.
Definition k_large_buf_max_kafka_captured_bytes : Z := 65536.
Definition k_large_buf_max_mssql_captured_bytes : Z := 65536.
Definition k_large_buf_max_tcp_captured_bytes : Z := 65536.
Definition k_large_buf_max_aerospike_captured_bytes : Z := 65536.
Definition k_large_buffer_source_kprobes : Z := 0.
Definition PACKET_TYPE_REQUEST : Z := 1.
Definition PACKET_TYPE_RESPONSE : Z := 2.

#[export] Hint Unfold k_large_buf_payload_max_size k_large_buf_max_size k_large_buf_per_emit_max
  k_large_buf_max_mysql_captured_bytes k_large_buf_max_postgres_captured_bytes
  k_large_buf_max_kafka_captured_bytes k_large_buf_max_mssql_captured_bytes
  k_large_buf_max_tcp_captured_bytes k_large_buf_max_aerospike_captured_bytes
  k_large_buffer_source_kprobes PACKET_TYPE_REQUEST PACKET_TYPE_RESPONSE : kconst.

Inductive large_buf_action := k_large_buf_action_init | k_large_buf_action_append.

Inductive large_buf_kind := k_large_buf_layer_wire | k_large_buf_layer_app.

(** [lb_buf] is the part of the trailing array that [lb_len] delimits. *)
Record tcp_large_buffer (C : Type) := mk_lb {
  lb_packet_type : Z;
  lb_action : large_buf_action;
  lb_direction : Z;
  lb_len : Z;
  lb_conn_info : C;
  lb_kind : large_buf_kind;
  lb_source : Z;
  lb_tp : tp_info;
  lb_buf : list Z
}.
Arguments mk_lb {C}.
Arguments lb_packet_type {C}.
Arguments lb_action {C}.
Arguments lb_direction {C}.
Arguments lb_len {C}.
Arguments lb_conn_info {C}.
Arguments lb_kind {C}.
Arguments lb_source {C}.
Arguments lb_tp {C}.
Arguments lb_buf {C}.

(** The fields of [tcp_req_t] the capture uses. *)
Record tcp_req (C : Type) := mk_req {
  req_conn_info : C;
  req_tp : tp_info;
  req_lb_req_bytes : Z;
  req_lb_res_bytes : Z;
  req_has_large_buffers : bool;
  req_end_monotime_ns : Z;
  req_resp_len : Z;
  req_rbuf : list Z
}.
Arguments mk_req {C}.
Arguments req_conn_info {C}.
Arguments req_tp {C}.
Arguments req_lb_req_bytes {C}.
Arguments req_lb_res_bytes {C}.
Arguments req_has_large_buffers {C}.
Arguments req_end_monotime_ns {C}.
Arguments req_resp_len {C}.
Arguments req_rbuf {C}.

Record ringbuf (C : Type) := mk_ring {
  ring_events : list (tcp_large_buffer C);
  ring_script : list bool
}.
Arguments mk_ring {C}.
Arguments ring_events {C}.
Arguments ring_script {C}.

Section emit.
Context {C : Type}.

Implicit Types (lb : tcp_large_buffer C) (ring : ringbuf C) (req : tcp_req C).

(** [events_ringbuf_output(lb, _) == 0], and the ring after it. *)
Definition events_ringbuf_output ring lb : bool * ringbuf C :=
  match ring_script ring with
  | false :: s => (false, mk_ring (ring_events ring) s)
  | true :: s => (true, mk_ring (ring_events ring ++ [lb]) s)
  | [] => (true, mk_ring (ring_events ring ++ [lb]) [])
  end.

Definition lb_set_payload lb (l : list Z) : tcp_large_buffer C :=
  mk_lb (lb_packet_type lb) (lb_action lb) (lb_direction lb) (zlen l) (lb_conn_info lb) (lb_kind lb)
    (lb_source lb) (lb_tp lb) l.

Definition lb_set_action lb (a : large_buf_action) : tcp_large_buffer C :=
  mk_lb (lb_packet_type lb) a (lb_direction lb) (lb_len lb) (lb_conn_info lb) (lb_kind lb)
    (lb_source lb) (lb_tp lb) (lb_buf lb).

(** The [for] loop of [large_buf_emit_chunks]: [p] is [u_buf]. *)
Fixpoint emit_loop (n : nat) (b : Z) lb ring (p : umem) (available_bytes consumed_bytes : Z)
    : Z * tcp_large_buffer C * ringbuf C :=
  match n with
  | O => (consumed_bytes, lb, ring)
  | S n' =>
      let offset := u32 (b * k_large_buf_payload_max_size) in
      let read_size :=
        clamp_umax (Z.min available_bytes k_large_buf_payload_max_size) k_large_buf_payload_max_size in
      match probe_read (ushift p offset) (Z.to_nat read_size) with
      | None => (consumed_bytes, lb, ring)
      | Some data =>
          let lb := lb_set_payload lb data in
          let '(ok, ring) := events_ringbuf_output ring lb in
          if negb ok then (consumed_bytes, lb, ring)
          else
            emit_loop n' (b + 1) (lb_set_action lb k_large_buf_action_append) ring p
              (u32 (available_bytes - read_size)) (u32 (consumed_bytes + read_size))
      end
  end.

Definition large_buf_emit_chunks lb ring (u_buf : umem) (available_bytes : Z)
    : Z * tcp_large_buffer C * ringbuf C :=
  let available_bytes := clamp_umax available_bytes k_large_buf_per_emit_max in
  let niter :=
    available_bytes / k_large_buf_payload_max_size
    + b2z (0 <? available_bytes mod k_large_buf_payload_max_size) in
  emit_loop (Z.to_nat niter) 0 lb ring u_buf available_bytes 0.

(** The bytes already captured in the packet's direction, and their update. *)
Definition req_bytes_sent (req : tcp_req C) (packet_type : Z) : Z :=
  if packet_type =? PACKET_TYPE_REQUEST then req_lb_req_bytes req else req_lb_res_bytes req.

Definition req_add_bytes (req : tcp_req C) (packet_type consumed : Z) : tcp_req C :=
  let more := 0 <? consumed in
  if packet_type =? PACKET_TYPE_REQUEST then
    mk_req (req_conn_info req) (req_tp req) (u32 (req_lb_req_bytes req + consumed))
      (req_lb_res_bytes req) (if more then true else req_has_large_buffers req)
      (req_end_monotime_ns req) (req_resp_len req) (req_rbuf req)
  else
    mk_req (req_conn_info req) (req_tp req) (req_lb_req_bytes req)
      (u32 (req_lb_res_bytes req + consumed)) (if more then true else req_has_large_buffers req)
      (req_end_monotime_ns req) (req_resp_len req) (req_rbuf req).

(** ** Lemmas *)

(** The events [evs], sent with action [a] first, carry the bytes [l]. *)
Fixpoint chunks_of (a : large_buf_action) (evs : list (tcp_large_buffer C)) (l : list Z) : Prop :=
  match evs with
  | [] => l = []
  | e :: evs' =>
      exists l1 l2, l = l1 ++ l2 /\ lb_buf e = l1 /\ lb_len e = zlen l1
        /\ 0 < zlen l1 <= k_large_buf_payload_max_size /\ lb_action e = a
        /\ chunks_of k_large_buf_action_append evs' l2
  end.

Lemma chunks_of_concat a evs l : chunks_of a evs l -> concat (map lb_buf evs) = l.
Proof.
  revert a l. induction evs as [|e evs IH]; intros a l H; [done|].
  destruct H as (l1 & l2 & -> & Hb & _ & _ & _ & H). simpl. rewrite Hb. f_equal. by eapply IH.
Qed.

Lemma probe_read_app p n m l1 l2 :
  probe_read p n = Some l1 -> probe_read (ushift p (Z.of_nat n)) m = Some l2 ->
  probe_read p (n + m) = Some (l1 ++ l2).
Proof.
  revert p l1. induction n as [|n IH]; intros p l1 H1 H2; cbn [probe_read Nat.add] in *.
  - injection H1 as <-. etrans; [|exact H2]. by apply probe_read_ext.
  - destruct (p 0) as [b|]; [|done]. destruct (probe_read (ushift p 1) n) as [l|] eqn:E; [|done].
    injection H1 as <-. erewrite IH; [done|done|]. etrans; [|exact H2]. apply probe_read_ext.
    intros a Ha. unfold ushift. f_equal. lia.
Qed.

Lemma probe_read_prefix p n m l : probe_read p (n + m) = Some l -> exists l1, probe_read p n = Some l1.
Proof.
  revert p l. induction n as [|n IH]; intros p l H; cbn [probe_read Nat.add] in *; [by exists []|].
  destruct (p 0) as [b|]; [|done]. destruct (probe_read (ushift p 1) (n + m)) as [l'|] eqn:E; [|done].
  apply IH in E as [l1 ->]. by eexists.
Qed.

Lemma probe_read_suffix p n m l :
  probe_read p (n + m) = Some l -> exists l2, probe_read (ushift p (Z.of_nat n)) m = Some l2.
Proof.
  revert p l. induction n as [|n IH]; intros p l H; cbn [probe_read Nat.add] in *.
  - exists l. etrans; [|exact H]. by apply probe_read_ext.
  - destruct (p 0) as [b|]; [|done]. destruct (probe_read (ushift p 1) (n + m)) as [l'|] eqn:E; [|done].
    apply IH in E as [l2 E]. exists l2. etrans; [|exact E]. apply probe_read_ext.
    intros a Ha. unfold ushift. f_equal. lia.
Qed.

Lemma emit_loop_spec n b lb ring p avail consumed :
  0 <= b -> consumed = b * 16384 -> 0 <= avail -> avail + consumed <= 65536 ->
  Z.of_nat n = (avail + 16383) / 16384 ->
  let '(c, lb', ring') := emit_loop n b lb ring p avail consumed in
  exists evs l,
    ring_events ring' = ring_events ring ++ evs
    /\ consumed <= c <= consumed + avail /\ c = consumed + zlen l
    /\ probe_read (ushift p consumed) (length l) = Some l /\ chunks_of (lb_action lb) evs l
    /\ lb_tp lb' = lb_tp lb
    /\ (ring_script ring = [] ->
        (exists m, probe_read (ushift p consumed) (Z.to_nat avail) = Some m) -> c = consumed + avail).
Proof.
  revert b lb ring avail consumed. induction n as [|n IH]; intros b lb ring avail consumed Hb Hc Ha Hac Hn;
    cbn [emit_loop].
  { exists [], []. rewrite app_nil_r. split_and!; try done; try (unfold zlen; simpl; lia). intros _ _. zdm. }
  assert (Hpos : 0 < avail) by zdm.
  cbv zeta. unfold clamp_umax. kunfold.
  rewrite (proj2 (Z.leb_le (Z.min avail 16384) 16384)) by lia.
  rewrite (wrap_small 32) by lia. rewrite <- Hc.
  set (rs := Z.min avail 16384).
  assert (Hsplit : Z.to_nat avail = (Z.to_nat rs + Z.to_nat (avail - rs))%nat) by lia.
  assert (Hstop : exists evs l, ring_events ring = ring_events ring ++ evs
    /\ consumed <= consumed <= consumed + avail /\ consumed = consumed + zlen l
    /\ probe_read (ushift p consumed) (length l) = Some l /\ chunks_of (lb_action lb) evs l).
  { exists [], []. rewrite app_nil_r. split_and!; try done; unfold zlen; simpl; lia. }
  destruct (probe_read (ushift p consumed) (Z.to_nat rs)) as [data|] eqn:Hr.
  2: { destruct Hstop as (evs & l & ? & ? & ? & ? & ?). exists evs, l. split_and!; try done; try lia.
       intros _ [m Hm]. exfalso. rewrite Hsplit in Hm. apply probe_read_prefix in Hm as [m1 Hm]. congruence. }
  pose proof (probe_read_length _ _ _ Hr) as Hlen.
  assert (Hz : zlen data = rs) by (unfold zlen; lia).
  assert (Hout : events_ringbuf_output ring (lb_set_payload lb data)
    = match ring_script ring with
      | false :: s => (false, mk_ring (ring_events ring) s)
      | true :: s => (true, mk_ring (ring_events ring ++ [lb_set_payload lb data]) s)
      | [] => (true, mk_ring (ring_events ring ++ [lb_set_payload lb data]) [])
      end) by done.
  destruct (events_ringbuf_output ring _) as [ok ring1] eqn:Eo. destruct ok; cbn [negb].
  2: { destruct (ring_script ring) as [|[] s]; [done|done|]. injection Hout as ->.
       destruct Hstop as (evs & l & ? & ? & ? & ? & ?). exists evs, l. split_and!; (done || lia). }
  assert (Hev : ring_events ring1 = ring_events ring ++ [lb_set_payload lb data]
    /\ (ring_script ring = [] -> ring_script ring1 = []))
    by (destruct (ring_script ring) as [|[] s]; [by simplify_eq|by simplify_eq|done]).
  destruct Hev as [Hev Hs1].
  rewrite !(wrap_small 32) by lia.
  assert (Hn' : Z.of_nat n = (avail - rs + 16383) / 16384) by zdm.
  assert (Hcase : avail - rs = 0 \/ rs = 16384) by lia.
  destruct (Z.eq_dec rs 16384) as [Hrs|Hrs].
  - specialize (IH (b + 1) (lb_set_action (lb_set_payload lb data) k_large_buf_action_append) ring1
      (avail - rs) (consumed + rs) ltac:(lia) ltac:(lia) ltac:(lia) ltac:(lia) Hn').
    destruct (emit_loop n _ _ _ _ _ _) as [[c lb'] ring']. destruct IH as (evs & l & He & Hcr & Hcl & Hp & Hch & Htp & Hfull).
    exists (lb_set_payload lb data :: evs), (data ++ l). rewrite zlen_app, Hz.
    split_and!; [by rewrite He, Hev, <- app_assoc|lia|lia|lia| | |done|].
    + rewrite length_app. apply probe_read_app; [by rewrite Hlen|]. rewrite <- Hp. apply probe_read_ext.
      intros a _. unfold ushift. f_equal. unfold zlen in Hz. lia.
    + exists data, l. cbn. kunfold. split_and!; (done || lia).
    + intros Hsc [m Hm]. rewrite Hfull; [lia|by apply Hs1|]. rewrite Hsplit in Hm.
      apply probe_read_suffix in Hm as [m2 Hm]. exists m2. rewrite <- Hm. apply probe_read_ext.
      intros a _. unfold ushift. f_equal. lia.
  - assert (n = 0%nat) as -> by zdm. cbn [emit_loop].
    exists [lb_set_payload lb data], data. rewrite Hz.
    split_and!; [done|lia|lia|lia|by rewrite Hlen| |done|intros; lia].
    exists data, []. rewrite app_nil_r. cbn. kunfold. split_and!; (done || lia).
Qed.

Lemma emit_chunks_spec lb ring p avail :
  0 <= avail < 2 ^ 32 ->
  let '(c, lb', ring') := large_buf_emit_chunks lb ring p avail in
  exists evs l,
    ring_events ring' = ring_events ring ++ evs
    /\ 0 <= c <= Z.min avail k_large_buf_per_emit_max /\ c = zlen l
    /\ probe_read p (length l) = Some l /\ chunks_of (lb_action lb) evs l
    /\ (ring_script ring = [] -> (exists m, probe_read p (Z.to_nat avail) = Some m) ->
        c = Z.min avail k_large_buf_per_emit_max).
Proof.
  intros Ha. unfold large_buf_emit_chunks. cbv zeta.
  assert (clamp_umax avail k_large_buf_per_emit_max = Z.min avail 65536) as ->
    by (unfold clamp_umax; kunfold; bdes_goal; lia).
  set (av := Z.min avail 65536). kunfold.
  assert (Hni : Z.of_nat (Z.to_nat (av / 16384 + b2z (0 <? av mod 16384))) = (av + 16383) / 16384).
  { unfold b2z. destruct (Z.ltb_spec 0 (av mod 16384)); zdm. }
  pose proof (emit_loop_spec _ 0 lb ring p av 0 ltac:(lia) ltac:(lia) ltac:(lia) ltac:(lia) Hni) as H.
  destruct (emit_loop _ _ _ _ _ _ _) as [[c lb'] ring']. destruct H as (evs & l & He & Hc & Hl & Hp & Hch & _ & Hf).
  assert (Hsh : forall n, probe_read (ushift p 0) n = probe_read p n) by (intros; by apply probe_read_ext).
  rewrite Hsh in Hp. exists evs, l. split_and!; try done; try lia.
  intros Hs [m Hm]. rewrite Hf; [lia|done|]. rewrite Hsh.
  replace (Z.to_nat avail) with (Z.to_nat av + (Z.to_nat avail - Z.to_nat av))%nat in Hm by lia.
  by eapply probe_read_prefix.
Qed.

Lemma emit_loop_script n b lb ring p avail consumed :
  ring_script ring = [] -> ring_script (snd (emit_loop n b lb ring p avail consumed)) = [].
Proof.
  revert b lb ring avail consumed. induction n as [|n IH]; intros b lb ring avail consumed H; cbn [emit_loop]; [done|].
  cbv zeta. destruct (probe_read _ _); [|done]. unfold events_ringbuf_output. rewrite H. cbn [negb]. by apply IH.
Qed.

(** A ring that drops nothing and a readable buffer: everything available is emitted. *)
Lemma emit_chunks_all lb ring l avail :
  ring_script ring = [] -> 0 <= avail <= zlen l -> avail <= k_large_buf_per_emit_max ->
  let '(c, _, ring') := large_buf_emit_chunks lb ring (list_umem l) avail in
  c = avail /\ ring_script ring' = []
  /\ exists evs, ring_events ring' = ring_events ring ++ evs /\ concat (map lb_buf evs) = take (Z.to_nat avail) l.
Proof.
  intros Hs Ha Hm. pose proof (emit_chunks_spec lb ring (list_umem l) avail ltac:(kunfold; lia)) as H.
  assert (Hr : ring_script (snd (large_buf_emit_chunks lb ring (list_umem l) avail)) = [])
    by (unfold large_buf_emit_chunks; by apply emit_loop_script).
  assert (Hrd : probe_read (list_umem l) (Z.to_nat avail) = Some (take (Z.to_nat avail) l)).
  { rewrite <- (take_drop (Z.to_nat avail) l) at 1. rewrite <- (probe_read_list (take (Z.to_nat avail) l) (drop (Z.to_nat avail) l)).
    f_equal. rewrite length_take. unfold zlen in Ha. lia. }
  destruct (large_buf_emit_chunks _ _ _ _) as [[c lb'] ring'].
  destruct H as (evs & x & He & Hc & Hx & Hp & Hch & Hfull).
  rewrite Hfull in * by (done || by eexists). split_and!; [lia|done|]. exists evs. split; [done|].
  apply chunks_of_concat in Hch. rewrite Hch.
  replace (length x) with (Z.to_nat avail) in Hp by (unfold zlen in Hx; lia). congruence.
Qed.

(** What a capture of [bytes_len] bytes under the limit [max] does to the request and the ring. *)
Definition captured (max : Z) (req : tcp_req C) (ring : ringbuf C) (u_buf : umem) (bytes_len pt : Z)
    (action : large_buf_action) (req' : tcp_req C) (ring' : ringbuf C) : Prop :=
  exists evs l,
    ring_events ring' = ring_events ring ++ evs /\ chunks_of action evs l
    /\ probe_read u_buf (length l) = Some l /\ zlen l <= bytes_len
    /\ (forall pt', req_bytes_sent req' pt'
          = if Bool.eqb (pt' =? PACKET_TYPE_REQUEST) (pt =? PACKET_TYPE_REQUEST)
            then req_bytes_sent req pt' + zlen l else req_bytes_sent req pt')
    /\ req_bytes_sent req' pt <= max
    /\ (0 < zlen l -> req_has_large_buffers req' = true).

Lemma captured_nothing max req ring u_buf bytes_len pt action :
  req_bytes_sent req pt <= max -> 0 <= bytes_len ->
  captured max req ring u_buf bytes_len pt action req ring.
Proof.
  intros Hs Hl. exists [], []. rewrite app_nil_r. change (zlen []) with 0.
  split_and!; try done; try lia. intros pt'. rewrite Z.add_0_r. by destruct (Bool.eqb _ _).
Qed.

Lemma req_add_bytes_sent req pt c pt' :
  0 <= req_bytes_sent req pt + c < 2 ^ 32 ->
  req_bytes_sent (req_add_bytes req pt c) pt'
  = if Bool.eqb (pt' =? PACKET_TYPE_REQUEST) (pt =? PACKET_TYPE_REQUEST)
    then req_bytes_sent req pt' + c else req_bytes_sent req pt'.
Proof.
  unfold req_bytes_sent, req_add_bytes. intros H.
  destruct (pt =? PACKET_TYPE_REQUEST), (pt' =? PACKET_TYPE_REQUEST); cbn; rewrite ?(wrap_small 32) by lia; done.
Qed.

Lemma captured_emit max lb req ring u_buf bytes_len pt cap :
  0 <= max < 2 ^ 31 -> 0 <= bytes_len < 2 ^ 32 -> 0 <= cap ->
  0 <= req_bytes_sent req pt <= max ->
  let '(c, _, ring') := large_buf_emit_chunks lb ring u_buf
    (Z.min bytes_len (clamp_umax (max - req_bytes_sent req pt) cap)) in
  captured max req ring u_buf bytes_len pt (lb_action lb) (req_add_bytes req pt c) ring'.
Proof.
  intros Hmax Hlen Hcap Hs. set (av := Z.min _ _).
  assert (Hav : 0 <= av <= Z.min bytes_len (max - req_bytes_sent req pt))
    by (unfold av, clamp_umax; bdes_goal; lia).
  pose proof (emit_chunks_spec lb ring u_buf av ltac:(lia)) as H.
  destruct (large_buf_emit_chunks _ _ _ _) as [[c lb'] ring'].
  destruct H as (evs & l & He & Hc & Hl & Hp & Hch & _). exists evs, l. rewrite <- Hl.
  split_and!; try done; try lia.
  - intros pt'. apply req_add_bytes_sent. lia.
  - rewrite req_add_bytes_sent by lia. rewrite Bool.eqb_reflx. lia.
  - intros Hpos. unfold req_add_bytes. rewrite (proj2 (Z.ltb_lt 0 c)) by lia. by destruct (pt =? _).
Qed.

End emit.

(** ** Captures that wait for the rest of a message *)

(** Splitting a prefix of a concatenation. *)
Lemma take_app_split {A} (l1 l2 : list A) n : (length l1 <= n)%nat -> take n (l1 ++ l2) = l1 ++ take (n - length l1) l2.
Proof. intros H. rewrite take_app. by rewrite (take_ge l1) by done. Qed.

Section waiting.
(** A capture is a function of the chunk and of its state, whose result is -1 to wait and 0 to go
    on; [events] are the events it has shipped so far. *)
Context {C S : Type} (capture : list Z -> S -> Z * S) (events : S -> list (tcp_large_buffer C)).

Fixpoint feed (cs : list (list Z)) (s : S) : list Z * S :=
  match cs with
  | [] => ([], s)
  | c :: cs' =>
      let '(r, s1) := capture c s in
      let '(rs, s2) := feed cs' s1 in
      (r :: rs, s2)
  end.

(** What one call owes: [Inv seen c s] is the state after [seen] bytes and before the chunk [c],
    [Done seen s] the state once the wait is over, [total] the length of the message, [ok] what the
    chunks satisfy. *)
Context (total max : Z) (ok : list Z -> Prop) (Inv : Z -> list Z -> S -> Prop) (Done : Z -> S -> Prop).

Context (capture_step : forall seen c s,
  Inv seen c s -> ok c -> 0 <= seen -> seen < Z.min total max ->
  let '(r, s') := capture c s in
  (exists evs, events s' = events s ++ evs /\ concat (map lb_buf evs) = take (Z.to_nat (max - seen)) c)
  /\ if seen + zlen c <? Z.min total max
     then r = -1 /\ forall c', Inv (seen + zlen c) c' s'
     else r = 0 /\ Done (seen + zlen c) s').

(** The wait goes on until the chunk that completes the message or uses up the limit. *)
Lemma feed_waits seen c cs s :
  Inv seen c s -> Forall ok (c :: cs) -> 0 <= seen ->
  seen + zlen (concat (removelast (c :: cs))) < Z.min total max <= seen + zlen (concat (c :: cs)) ->
  let '(rs, s') := feed (c :: cs) s in
  rs = repeat (-1) (length cs) ++ [0] /\ Done (seen + zlen (concat (c :: cs))) s'
  /\ exists evs, events s' = events s ++ evs
        /\ concat (map lb_buf evs) = take (Z.to_nat (max - seen)) (concat (c :: cs)).
Proof.
  revert seen c s. induction cs as [|c' cs IH]; intros seen c s Hi Hok Hs Hsum; apply Forall_cons in Hok as [Hc Hok].
  - pose proof (zlen_nonneg c). cbn [concat removelast] in *. rewrite app_nil_r in *. change (zlen []) with 0 in Hsum.
    pose proof (capture_step seen c s Hi Hc Hs ltac:(lia)) as Hstep. cbn [feed].
    destruct (capture c s) as [r s']. destruct Hstep as [Hev Hif].
    rewrite (proj2 (Z.ltb_ge _ _)) in Hif by lia. by destruct Hif as [-> Hd].
  - change (concat (removelast (c :: c' :: cs))) with (c ++ concat (removelast (c' :: cs))) in *.
    change (concat (c :: c' :: cs)) with (c ++ concat (c' :: cs)) in *. rewrite !zlen_app in *.
    pose proof (zlen_nonneg c). pose proof (zlen_nonneg (concat (removelast (c' :: cs)))).
    pose proof (capture_step seen c s Hi Hc Hs ltac:(lia)) as Hstep.
    change (feed (c :: c' :: cs) s) with (let '(r, s1) := capture c s in let '(rs, s2) := feed (c' :: cs) s1 in (r :: rs, s2)).
    destruct (capture c s) as [r s1]. destruct Hstep as [(evs & Hev & Hcat) Hif].
    rewrite (proj2 (Z.ltb_lt _ _)) in Hif by lia. destruct Hif as [-> Hi'].
    specialize (IH (seen + zlen c) c' s1 (Hi' c') Hok ltac:(lia) ltac:(lia)).
    destruct (feed (c' :: cs) s1) as [rs s2]. destruct IH as (-> & Hd & evs2 & Hev2 & Hcat2).
    rewrite <- Z.add_assoc in Hd. split_and!; [done|done|]. exists (evs ++ evs2). split; [by rewrite Hev2, Hev, <- app_assoc|].
    rewrite map_app, concat_app, Hcat, Hcat2, (take_app_split c) by (unfold zlen in *; lia).
    f_equal; [apply take_ge; unfold zlen in *; lia|]. f_equal. unfold zlen. lia.
Qed.
End waiting.

(** ** Properties *)

(** Chunked emission reassembles to what was captured.  The events one call appends to the ring,
    concatenated, are exactly the first [consumed] bytes of the source buffer; each carries
    between 1 and 16384 bytes, the first keeps the caller's action and the others append; never
    more than the requested bytes or 64 KiB are consumed, and exactly that many when the buffer
    is readable and the ring accepts every event. *)
Theorem large_buf_emit_chunks_reassembles {C} (lb : tcp_large_buffer C) ring p avail :
  0 <= avail < 2 ^ 32 ->
  let '(c, lb', ring') := large_buf_emit_chunks lb ring p avail in
  exists evs l,
    ring_events ring' = ring_events ring ++ evs
    /\ 0 <= c <= Z.min avail k_large_buf_per_emit_max /\ c = zlen l
    /\ probe_read p (length l) = Some l /\ chunks_of (lb_action lb) evs l
    /\ (ring_script ring = [] -> (exists m, probe_read p (Z.to_nat avail) = Some m) ->
        c = Z.min avail k_large_buf_per_emit_max).
Proof. apply emit_chunks_spec. Qed.

Definition example_lb : tcp_large_buffer unit :=
  mk_lb 1 k_large_buf_action_init 0 0 tt k_large_buf_layer_app 0
    (mk_tp_info (repeat 0 16) (repeat 0 8) (repeat 0 8) 0 0) [].

Lemma large_buf_emit_chunks_reassembles_witness :
  fst (fst (large_buf_emit_chunks example_lb (mk_ring [] []) (list_umem (repeat 5 20)) 20)) = 20.
Proof.
  pose proof (large_buf_emit_chunks_reassembles example_lb (mk_ring [] []) (list_umem (repeat 5 20)) 20 ltac:(lia)) as H.
  destruct (large_buf_emit_chunks _ _ _ _) as [[c lb'] ring']. destruct H as (evs & l & _ & _ & _ & _ & _ & H).
  cbn [fst]. rewrite H; [done|done|]. exists (repeat 5 20). by vm_compute.
Defined.
