(* ===== verification/HttpInfo.v ===== *)
(** * The record of one HTTP/1 request ([bpf/common/http_info.h], [http_types.h], [event_defs.h],
      [protocol_defs.h]).

    [http_info] with the predicates the probes ask of it and the transitions that do not touch any
    map.  A record is reading until a status is parsed, its bytes arrive unread, or something else
    ends it. *)

From Stdlib Require Import ZArith Lia ZifyBool List Bool.
From stdpp Require Import base list.
From S2P Require Import Prelude TraceUtil Sampling ConnInfo LargeBuf.

Local Open Scope Z_scope.

(** ** Definitions *)

Definition TCP_SEND : Z := 1.
Definition TCP_RECV : Z := 0.
Definition k_event_type_http_request : Z := 1.
Definition k_event_type_k_http_request : Z := 6.
Definition k_event_type_tcp_request : Z := 8.
Definition http_response_parsed : Z := 0.
Definition http_response_received : Z := 1.
Definition http_response_silent : Z := 2.
Definition http_response_unread : Z := 3.
Definition HTTP_RESPONSE_BYTES_FIN_TOLERANCE : Z := 1.
Definition FULL_BUF_SIZE : Z := 256.

#[export] Hint Unfold TCP_SEND TCP_RECV k_event_type_http_request k_event_type_k_http_request k_event_type_tcp_request http_response_parsed
  http_response_received http_response_silent http_response_unread HTTP_RESPONSE_BYTES_FIN_TOLERANCE FULL_BUF_SIZE : kconst.

Record pid_info := mk_pid_info { host_pid : Z; user_pid : Z; pid_ns : Z }.

Record http_info := mk_http_info {
  hi_flags : Z;
  hi_type : Z;
  hi_ssl : Z;
  hi_delayed : Z;
  hi_conn_info : connection_info;
  hi_start_monotime_ns : Z;
  hi_end_monotime_ns : Z;
  hi_req_monotime_ns : Z;
  hi_extra_id : Z;
  hi_response_bytes_at_request : Z;
  hi_tp : tp_info;
  hi_pid : pid_info;
  hi_len : Z;
  hi_resp_len : Z;
  hi_task_tid : Z;
  hi_lb_req_bytes : Z;
  hi_lb_res_bytes : Z;
  hi_status : Z;
  hi_buf : list Z;
  hi_has_large_buffers : Z;
  hi_direction : Z;
  hi_submitted : Z;
  hi_parent_status : Z;
  hi_event_source : Z;
  hi_response_observation : Z
}.

Definition http_response_bytes_advanced (at_request at_close : Z) : bool :=
  if at_close <=? at_request then false
  else HTTP_RESPONSE_BYTES_FIN_TOLERANCE <? at_close - at_request.

Definition http_response_observation_at_close (at_request at_close : Z) : Z :=
  if http_response_bytes_advanced at_request at_close then http_response_received else http_response_silent.

Definition still_responding (i : http_info) : bool := negb (hi_status i =? 0).

Definition still_reading (i : http_info) : bool :=
  (hi_status i =? 0) && (hi_response_observation i =? http_response_parsed)
  && negb (hi_start_monotime_ns i =? 0).

Definition response_unread (i : http_info) : bool :=
  (hi_status i =? 0) && (hi_response_observation i =? http_response_unread).

Definition http_response_pending (i : http_info) (response_bytes : Z) : bool :=
  still_reading i && negb (http_response_bytes_advanced (hi_response_bytes_at_request i) response_bytes).

Definition http_response_direction (i : http_info) (direction : Z) : bool :=
  if hi_type i =? k_event_type_http_client then direction =? TCP_RECV else direction =? TCP_SEND.

Definition unparsed_response_buffer (i : http_info) (direction : Z) : bool :=
  if still_responding i then false
  else if negb (still_reading i) && negb (response_unread i) then false
  else http_response_direction i direction.

(** The fields that end a record. *)
Definition set_end (i : http_info) (resp_len end_ns observation : Z) : http_info :=
  mk_http_info (hi_flags i) (hi_type i) (hi_ssl i) (hi_delayed i) (hi_conn_info i)
    (hi_start_monotime_ns i) end_ns (hi_req_monotime_ns i) (hi_extra_id i)
    (hi_response_bytes_at_request i) (hi_tp i) (hi_pid i) (hi_len i) resp_len (hi_task_tid i)
    (hi_lb_req_bytes i) (hi_lb_res_bytes i) (hi_status i) (hi_buf i) (hi_has_large_buffers i)
    (hi_direction i) (hi_submitted i) (hi_parent_status i) (hi_event_source i) observation.

Definition note_unread_response (i : http_info) (at_ns : Z) : http_info :=
  set_end i (hi_resp_len i) at_ns http_response_unread.

Definition note_displaced_by_next_request (i : http_info) (at_ns : Z) : http_info :=
  if negb (still_reading i) then i else set_end i 0 at_ns http_response_received.

Definition http_info_complete (i : http_info) : bool :=
  negb (hi_start_monotime_ns i =? 0) && negb (hi_status i =? 0) && negb (host_pid (hi_pid i) =? 0).

Definition http_info_emittable (i : http_info) : bool :=
  if http_info_complete i then true
  else negb (hi_response_observation i =? http_response_parsed)
       && negb (hi_start_monotime_ns i =? 0) && negb (host_pid (hi_pid i) =? 0).
