(* ===== verification/TcpReq.v ===== *)
(** * The record of one TCP request ([tcp_req_t] of [bpf/common/common.h]).

    [tq_cap] holds the fields of the record that the captures of the protocol files read and write
    ([tcp_req] of [LargeBuf.v]); the record has the others. *)

From Stdlib Require Import ZArith List Bool.
From stdpp Require Import base list.
From S2P Require Import Prelude TraceUtil Sampling ConnInfo LargeBuf HttpInfo.

Local Open Scope Z_scope.

(** ** Definitions *)

Definition k_tcp_max_len : Z := 256.
Definition k_tcp_res_len : Z := 128.

#[export] Hint Unfold k_tcp_max_len k_tcp_res_len : kconst.

Record tcp_req_t := mk_tcp_req {
  tq_flags : Z;
  tq_ssl : Z;
  tq_direction : Z;
  tq_protocol_type : protocol_type;
  tq_is_server : bool;
  tq_parent_status : Z;
  tq_len : Z;
  tq_start_monotime_ns : Z;
  tq_extra_id : Z;
  tq_task_tid : Z;
  tq_req_len : Z;
  tq_event_source : Z;
  tq_buf : list Z;
  tq_pid : pid_info;
  tq_cap : tcp_req connection_info
}.

Definition tq_tp (q : tcp_req_t) : tp_info := req_tp (tq_cap q).
Definition tq_end (q : tcp_req_t) : Z := req_end_monotime_ns (tq_cap q).
Definition tq_resp_len (q : tcp_req_t) : Z := req_resp_len (tq_cap q).
Definition tq_rbuf (q : tcp_req_t) : list Z := req_rbuf (tq_cap q).

Definition set_cap (q : tcp_req_t) (x : tcp_req connection_info) : tcp_req_t :=
  mk_tcp_req (tq_flags q) (tq_ssl q) (tq_direction q) (tq_protocol_type q) (tq_is_server q) (tq_parent_status q)
    (tq_len q) (tq_start_monotime_ns q) (tq_extra_id q) (tq_task_tid q) (tq_req_len q) (tq_event_source q)
    (tq_buf q) (tq_pid q) x.

Definition set_tcp_context (q : tcp_req_t) (tp : tp_info) (status : Z) : tcp_req_t :=
  let r := tq_cap q in
  mk_tcp_req (tq_flags q) (tq_ssl q) (tq_direction q) (tq_protocol_type q) (tq_is_server q) status
    (tq_len q) (tq_start_monotime_ns q) (tq_extra_id q) (tq_task_tid q) (tq_req_len q) (tq_event_source q)
    (tq_buf q) (tq_pid q)
    (mk_req (req_conn_info r) tp (req_lb_req_bytes r) (req_lb_res_bytes r) (req_has_large_buffers r)
       (req_end_monotime_ns r) (req_resp_len r) (req_rbuf r)).

Definition set_tcp_lens (q : tcp_req_t) (len req_len : Z) (b : list Z) : tcp_req_t :=
  mk_tcp_req (tq_flags q) (tq_ssl q) (tq_direction q) (tq_protocol_type q) (tq_is_server q) (tq_parent_status q)
    len (tq_start_monotime_ns q) (tq_extra_id q) (tq_task_tid q) req_len (tq_event_source q)
    b (tq_pid q) (tq_cap q).

(** The end of a request: its time, the length of the response and its first octets. *)
Definition set_tcp_end (q : tcp_req_t) (end_ns resp_len : Z) (rbuf : list Z) : tcp_req_t :=
  let r := tq_cap q in
  set_cap q
    (mk_req (req_conn_info r) (req_tp r) (req_lb_req_bytes r) (req_lb_res_bytes r) (req_has_large_buffers r)
       end_ns resp_len rbuf).
