(* ===== verification/TraceMaps.v ===== *)
(** * The maps trace contexts live in ([bpf/common/tracing.h], [trace_helpers.h], [trace_key.h],
      [trace_map_key.h], [cp_support_data.h], [shared/obi_ctx.h], [bpf/maps/]).

    [tmaps] holds the maps the tracing code writes, [links] the ones that tie threads, tasks,
    descriptors and runtimes together and that other probes fill.  [bpf_map_lookup_elem] returns a
    pointer into a map: [tp_ptr] names the entry, so that a write through the pointer changes the
    map.  All of these are LRU maps, whose updates do not fail; eviction is not represented. *)

From Stdlib Require Import ZArith Lia ZifyBool List Bool.
From stdpp Require Import base list countable gmap.
From S2P Require Import Prelude TraceUtil Sampling ConnInfo LargeBuf HttpInfo.

Local Open Scope Z_scope.

(** ** Keys *)

Record pid_key := mk_pid_key { pk_tid : Z; pk_pid : Z; pk_ns : Z }.
Record trace_key := mk_trace_key { tk_extra_id : Z; tk_p_key : pid_key }.
Record trace_map_key := mk_tmk { tmk_conn : connection_info; tmk_type : Z }.
Record fd_info := mk_fd_info { fi_pid : pid_key; fi_fd : Z; fi_type : Z }.
Record fd_key := mk_fd_key { fk_pid_tgid : Z; fk_fd : Z }.
Record puma_task_id := mk_puma { puma_item : Z; puma_pid : Z }.
Record go_addr_key := mk_go_key { go_pid : Z; go_addr : Z }.
Record python_addr_key := mk_py_key { py_pid : Z; py_addr : Z }.
Record http2_conn_stream := mk_stream { cs_pid_conn : pid_connection_info; cs_stream_id : Z }.
Record http_server_trace_key := mk_hst_key { hsk_trace_id : list Z; hsk_pid : Z }.

#[export] Instance pid_key_eq_dec : EqDecision pid_key.
Proof. solve_decision. Defined.
#[export] Instance trace_key_eq_dec : EqDecision trace_key.
Proof. solve_decision. Defined.
#[export] Instance trace_map_key_eq_dec : EqDecision trace_map_key.
Proof. solve_decision. Defined.
#[export] Instance fd_info_eq_dec : EqDecision fd_info.
Proof. solve_decision. Defined.
#[export] Instance fd_key_eq_dec : EqDecision fd_key.
Proof. solve_decision. Defined.
#[export] Instance puma_task_id_eq_dec : EqDecision puma_task_id.
Proof. solve_decision. Defined.
#[export] Instance go_addr_key_eq_dec : EqDecision go_addr_key.
Proof. solve_decision. Defined.
#[export] Instance python_addr_key_eq_dec : EqDecision python_addr_key.
Proof. solve_decision. Defined.
#[export] Instance connection_info_part_eq_dec : EqDecision connection_info_part.
Proof. solve_decision. Defined.
#[export] Instance pid_connection_info_eq_dec : EqDecision pid_connection_info.
Proof. solve_decision. Defined.
#[export] Instance egress_key_eq_dec : EqDecision egress_key.
Proof. solve_decision. Defined.
#[export] Instance http2_conn_stream_eq_dec : EqDecision http2_conn_stream.
Proof. solve_decision. Defined.
#[export] Instance http_server_trace_key_eq_dec : EqDecision http_server_trace_key.
Proof. solve_decision. Defined.

(** A record is countable through the tuple of its fields. *)
Ltac countable_by f g := refine (inj_countable' f g _); by intros [].

#[export] Instance pid_key_countable : Countable pid_key.
Proof. countable_by (fun k => (pk_tid k, pk_pid k, pk_ns k)) (fun '(a, b, c) => mk_pid_key a b c). Defined.
#[export] Instance trace_key_countable : Countable trace_key.
Proof. countable_by (fun k => (tk_extra_id k, tk_p_key k)) (fun '(a, b) => mk_trace_key a b). Defined.
#[export] Instance trace_map_key_countable : Countable trace_map_key.
Proof. countable_by (fun k => (tmk_conn k, tmk_type k)) (fun '(a, b) => mk_tmk a b). Defined.
#[export] Instance fd_info_countable : Countable fd_info.
Proof. countable_by (fun k => (fi_pid k, fi_fd k, fi_type k)) (fun '(a, b, c) => mk_fd_info a b c). Defined.
#[export] Instance fd_key_countable : Countable fd_key.
Proof. countable_by (fun k => (fk_pid_tgid k, fk_fd k)) (fun '(a, b) => mk_fd_key a b). Defined.
#[export] Instance puma_task_id_countable : Countable puma_task_id.
Proof. countable_by (fun k => (puma_item k, puma_pid k)) (fun '(a, b) => mk_puma a b). Defined.
#[export] Instance go_addr_key_countable : Countable go_addr_key.
Proof. countable_by (fun k => (go_pid k, go_addr k)) (fun '(a, b) => mk_go_key a b). Defined.
#[export] Instance python_addr_key_countable : Countable python_addr_key.
Proof. countable_by (fun k => (py_pid k, py_addr k)) (fun '(a, b) => mk_py_key a b). Defined.
#[export] Instance connection_info_part_countable : Countable connection_info_part.
Proof.
  countable_by (fun k => (part_addr k, part_pid k, part_port k, part_type k))
    (fun '(a, b, c, d) => mk_part a b c d).
Defined.
#[export] Instance pid_connection_info_countable : Countable pid_connection_info.
Proof. countable_by (fun k => (pc_conn k, pc_pid k)) (fun '(a, b) => mk_pid_conn a b). Defined.
#[export] Instance egress_key_countable : Countable egress_key.
Proof. countable_by (fun k => (ek_s_port k, ek_d_port k, ek_stream_id k)) (fun '(a, b, c) => mk_egress a b c). Defined.
#[export] Instance http2_conn_stream_countable : Countable http2_conn_stream.
Proof. countable_by (fun k => (cs_pid_conn k, cs_stream_id k)) (fun '(a, b) => mk_stream a b). Defined.
#[export] Instance http_server_trace_key_countable : Countable http_server_trace_key.
Proof. countable_by (fun k => (hsk_trace_id k, hsk_pid k)) (fun '(a, b) => mk_hst_key a b). Defined.

(** ** Values *)

Record obi_ctx_info := mk_obi_ctx { oc_trace_id : list Z; oc_span_id : list Z }.

Record cp_support_data := mk_cp_data {
  cp_t_key : trace_key;
  cp_ts : Z;
  cp_real_client : Z;
  cp_established : Z;
  cp_failed : Z
}.

Record python_task_ref := mk_task_ref { tr_addr : Z; tr_generation : Z }.
Record python_task_state := mk_task_state {
  ps_parent : python_task_ref;
  ps_generation : Z;
  ps_conn : connection_info_part
}.
Record python_context_task := mk_context_task { ct_task : python_task_ref; ct_vars : Z }.
Record python_thread_state := mk_thread_state {
  th_current_task : Z;
  th_current_context : Z;
  th_inflight_task : Z;
  th_start_monotime_ns : Z
}.

Record http2_grpc_request := mk_h2_request {
  hr_flags : Z;
  hr_ssl : Z;
  hr_type : Z;
  hr_parent_status : Z;
  hr_conn_info : connection_info;
  hr_start_monotime_ns : Z;
  hr_end_monotime_ns : Z;
  hr_data : list Z;
  hr_ret_data : list Z;
  hr_len : Z;
  hr_stream_id : Z;
  hr_hpack_flags : Z;
  hr_pid : pid_info;
  hr_new_conn_id : Z;
  hr_tp : tp_info
}.

Record http2_conn_info_data := mk_h2_conn {
  hc_id : Z;
  hc_flags : Z;
  hc_req_hpack_poisoned : Z;
  hc_resp_hpack_poisoned : Z
}.

Record http_server_trace_ref := mk_hst_ref {
  hsr_stream : http2_conn_stream;
  hsr_span_id : list Z;
  hsr_ambiguous : Z
}.

(** ** State *)

(** What the loader sets. *)
Record tconf := mk_tconf {
  max_transaction_time : Z;
  high_request_volume : bool;
  disable_black_box_cp : bool;
  g_traces_ctx_v1_enabled : bool;
  capture_header_buffer : bool
}.

(** The running task: [bpf_get_current_pid_tgid()], [task_tid] and [task_pid]. *)
Record task := mk_task { cur_pid_tgid : Z; cur_tid : pid_key; cur_pid : pid_info }.

Record links := mk_links {
  clone_map : gmap pid_key pid_key;
  java_tasks : gmap pid_key pid_key;
  java_vt_threads : gmap pid_key Z;
  active_unix_socks : gmap Z Z;
  fd_map : gmap connection_info_part fd_info;
  nginx_upstream : gmap fd_info connection_info_part;
  puma_worker_tasks : gmap Z puma_task_id;
  puma_task_connections : gmap puma_task_id connection_info_part;
  nodejs_fd_map : gmap Z Z;
  fd_to_connection : gmap fd_key connection_info;
  ongoing_goroutines : gmap go_addr_key go_addr_key;
  python_thread_states : gmap Z python_thread_state;
  python_task_states : gmap python_addr_key python_task_state;
  python_context_tasks : gmap python_addr_key python_context_task;
  node_manual_ctx_shadow : gmap Z obi_ctx_info;
  (** an eight-octet read of the task's memory, [None] on a fault *)
  user_u64 : Z -> option Z
}.

Record tmaps := mk_tmaps {
  server_traces : gmap trace_key tp_info_pid;
  server_traces_aux : gmap connection_info_part tp_info_pid;
  trace_map : gmap trace_map_key tp_info_pid;
  outgoing_trace_map : gmap egress_key tp_info_pid;
  incoming_trace_map : gmap connection_info tp_info_pid;
  traces_ctx_v1 : gmap Z obi_ctx_info;
  go_trace_map : gmap go_addr_key tp_info;
  cp_support_connect_info : gmap pid_connection_info cp_support_data;
  http_server_trace_index : gmap http_server_trace_key http_server_trace_ref;
  ongoing_http : gmap pid_connection_info http_info;
  ongoing_http2_grpc : gmap http2_conn_stream http2_grpc_request;
  ongoing_http2_connections : gmap pid_connection_info http2_conn_info_data;
  (** [tp_info_backup_mem], the scratch context of the lookups *)
  backup_mem : tp_info_pid
}.

Definition set_server_traces (m : tmaps) x : tmaps :=
  mk_tmaps x (server_traces_aux m) (trace_map m) (outgoing_trace_map m) (incoming_trace_map m) (traces_ctx_v1 m)
    (go_trace_map m) (cp_support_connect_info m) (http_server_trace_index m) (ongoing_http m)
    (ongoing_http2_grpc m) (ongoing_http2_connections m) (backup_mem m).
Definition set_server_traces_aux (m : tmaps) x : tmaps :=
  mk_tmaps (server_traces m) x (trace_map m) (outgoing_trace_map m) (incoming_trace_map m) (traces_ctx_v1 m)
    (go_trace_map m) (cp_support_connect_info m) (http_server_trace_index m) (ongoing_http m)
    (ongoing_http2_grpc m) (ongoing_http2_connections m) (backup_mem m).
Definition set_trace_map (m : tmaps) x : tmaps :=
  mk_tmaps (server_traces m) (server_traces_aux m) x (outgoing_trace_map m) (incoming_trace_map m)
    (traces_ctx_v1 m) (go_trace_map m) (cp_support_connect_info m) (http_server_trace_index m)
    (ongoing_http m) (ongoing_http2_grpc m) (ongoing_http2_connections m) (backup_mem m).
Definition set_outgoing (m : tmaps) x : tmaps :=
  mk_tmaps (server_traces m) (server_traces_aux m) (trace_map m) x (incoming_trace_map m)
    (traces_ctx_v1 m) (go_trace_map m) (cp_support_connect_info m) (http_server_trace_index m)
    (ongoing_http m) (ongoing_http2_grpc m) (ongoing_http2_connections m) (backup_mem m).
Definition set_incoming (m : tmaps) x : tmaps :=
  mk_tmaps (server_traces m) (server_traces_aux m) (trace_map m) (outgoing_trace_map m) x
    (traces_ctx_v1 m) (go_trace_map m) (cp_support_connect_info m) (http_server_trace_index m)
    (ongoing_http m) (ongoing_http2_grpc m) (ongoing_http2_connections m) (backup_mem m).
Definition set_traces_ctx (m : tmaps) x : tmaps :=
  mk_tmaps (server_traces m) (server_traces_aux m) (trace_map m) (outgoing_trace_map m) (incoming_trace_map m)
    x (go_trace_map m) (cp_support_connect_info m) (http_server_trace_index m)
    (ongoing_http m) (ongoing_http2_grpc m) (ongoing_http2_connections m) (backup_mem m).
Definition set_go_trace_map (m : tmaps) x : tmaps :=
  mk_tmaps (server_traces m) (server_traces_aux m) (trace_map m) (outgoing_trace_map m) (incoming_trace_map m)
    (traces_ctx_v1 m) x (cp_support_connect_info m) (http_server_trace_index m)
    (ongoing_http m) (ongoing_http2_grpc m) (ongoing_http2_connections m) (backup_mem m).
Definition set_cp_support (m : tmaps) x : tmaps :=
  mk_tmaps (server_traces m) (server_traces_aux m) (trace_map m) (outgoing_trace_map m) (incoming_trace_map m)
    (traces_ctx_v1 m) (go_trace_map m) x (http_server_trace_index m)
    (ongoing_http m) (ongoing_http2_grpc m) (ongoing_http2_connections m) (backup_mem m).
Definition set_index (m : tmaps) x : tmaps :=
  mk_tmaps (server_traces m) (server_traces_aux m) (trace_map m) (outgoing_trace_map m) (incoming_trace_map m)
    (traces_ctx_v1 m) (go_trace_map m) (cp_support_connect_info m) x
    (ongoing_http m) (ongoing_http2_grpc m) (ongoing_http2_connections m) (backup_mem m).
Definition set_ongoing_http (m : tmaps) x : tmaps :=
  mk_tmaps (server_traces m) (server_traces_aux m) (trace_map m) (outgoing_trace_map m) (incoming_trace_map m)
    (traces_ctx_v1 m) (go_trace_map m) (cp_support_connect_info m) (http_server_trace_index m)
    x (ongoing_http2_grpc m) (ongoing_http2_connections m) (backup_mem m).
Definition set_backup (m : tmaps) x : tmaps :=
  mk_tmaps (server_traces m) (server_traces_aux m) (trace_map m) (outgoing_trace_map m) (incoming_trace_map m)
    (traces_ctx_v1 m) (go_trace_map m) (cp_support_connect_info m) (http_server_trace_index m)
    (ongoing_http m) (ongoing_http2_grpc m) (ongoing_http2_connections m) x.

(** ** Pointers to contexts *)

Inductive tp_ptr :=
  | at_server (k : trace_key)
  | at_aux (k : connection_info_part)
  | at_conn (k : trace_map_key)
  | at_backup.

Definition deref (m : tmaps) (a : tp_ptr) : option tp_info_pid :=
  match a with
  | at_server k => server_traces m !! k
  | at_aux k => server_traces_aux m !! k
  | at_conn k => trace_map m !! k
  | at_backup => Some (backup_mem m)
  end.

(** A store of the whole context through the pointer. *)
Definition store_at (m : tmaps) (a : tp_ptr) (x : tp_info_pid) : tmaps :=
  match a with
  | at_server k => set_server_traces m (<[k := x]> (server_traces m))
  | at_aux k => set_server_traces_aux m (<[k := x]> (server_traces_aux m))
  | at_conn k => set_trace_map m (<[k := x]> (trace_map m))
  | at_backup => set_backup m x
  end.

(** [bpf_map_lookup_elem]: the pointer when there is an entry. *)
Definition lookup_at (m : tmaps) (a : tp_ptr) : option tp_ptr :=
  match deref m a with Some _ => Some a | None => None end.

Definition set_valid (x : tp_info_pid) (v : Z) : tp_info_pid :=
  mk_tp_info_pid (tpp_tp x) (tpp_pid x) v (tpp_written x) (tpp_req_type x) (tpp_response_sent x).

Definition set_response_sent (x : tp_info_pid) (v : Z) : tp_info_pid :=
  mk_tp_info_pid (tpp_tp x) (tpp_pid x) (tpp_valid x) (tpp_written x) (tpp_req_type x) v.

(** ** [tracing.h], [trace_helpers.h], [obi_ctx.h] *)

Definition TRACE_TYPE_SERVER : Z := 1.
Definition TRACE_TYPE_CLIENT : Z := 2.
Definition NANOSECONDS_PER_EPOCH : Z := 15 * 1000000000.
Definition NANOSECONDS_PER_IMM_EPOCH : Z := 100000000.

#[export] Hint Unfold TRACE_TYPE_SERVER TRACE_TYPE_CLIENT NANOSECONDS_PER_EPOCH NANOSECONDS_PER_IMM_EPOCH : kconst.

Definition trace_key_from_conn (conn : connection_info) (type : Z) : trace_map_key :=
  mk_tmk (mk_conn (s_addr conn) (repeat 0 16) (s_port conn) 0) type.

Definition trace_info_for_connection (m : tmaps) (conn : connection_info) (type : Z) : option tp_ptr :=
  lookup_at m (at_conn (trace_key_from_conn conn type)).

Definition set_trace_info_for_connection (m : tmaps) (conn : connection_info) (type : Z)
    (info : tp_info_pid) : tmaps :=
  set_trace_map m (<[trace_key_from_conn conn type := info]> (trace_map m)).

Definition delete_trace_info_for_connection (m : tmaps) (conn : connection_info) (type : Z) : tmaps :=
  set_trace_map m (delete (trace_key_from_conn conn type) (trace_map m)).

Definition current_immediate_epoch (ts : Z) : Z :=
  u64 (ts / NANOSECONDS_PER_IMM_EPOCH * NANOSECONDS_PER_IMM_EPOCH).

Definition correlated_requests (tp : tp_info) (existing_tp : option tp_info_pid) : bool :=
  match existing_tp with
  | None => false
  | Some x =>
      if ts (tpp_tp x) <=? ts tp then ts tp - ts (tpp_tp x) <? NANOSECONDS_PER_EPOCH else false
  end.

Definition should_be_in_same_transaction (c : tconf) (parent_tp child_tp : tp_info) : bool :=
  if ts child_tp <? ts parent_tp then false
  else ts child_tp - ts parent_tp <? max_transaction_time c.

Definition parent_trace_is_stale (parent_tp child_tp : tp_info) : bool := ts parent_tp <=? ts child_tp.

Definition obi_ctx__get (m : tmaps) (pid_tgid : Z) : option obi_ctx_info := traces_ctx_v1 m !! pid_tgid.

Definition obi_ctx__set (c : tconf) (m : tmaps) (pid_tgid : Z) (info : tp_info) : tmaps :=
  if negb (g_traces_ctx_v1_enabled c) then m
  else set_traces_ctx m (<[pid_tgid := mk_obi_ctx (trace_id info) (span_id info)]> (traces_ctx_v1 m)).

Definition obi_ctx__del (c : tconf) (m : tmaps) (pid_tgid : Z) : tmaps :=
  if negb (g_traces_ctx_v1_enabled c) then m
  else set_traces_ctx m (delete pid_tgid (traces_ctx_v1 m)).

(** ** Lemmas *)

Lemma deref_store m a x : deref (store_at m a x) a = Some x.
Proof. destruct a; simpl; by rewrite ?lookup_insert_eq. Qed.

Lemma deref_store_ne m a b x : a <> b -> deref (store_at m a x) b = deref m b.
Proof. intros Hne. destruct a, b; simpl; try done; rewrite lookup_insert_ne; congruence. Qed.

Lemma lookup_at_Some m a b : lookup_at m a = Some b -> b = a /\ is_Some (deref m a).
Proof. unfold lookup_at. destruct (deref m a) eqn:E; [|done]. intros [= <-]. split; [done|by eexists]. Qed.
