(* ===== verification/TraceParent.v ===== *)
(** * The parent of a client span ([bpf/common/trace_parent.h], [http_trace_parent.h],
      [python_task.h], [runtime.h], [bpf/maps/java_vt_threads.h], [fd_map.h],
      [find_parent_goroutine] of [gotracer/go_common.h]).

    A client call belongs to the server request that its thread, task, goroutine, descriptor or
    worker is serving.  [find_parent_trace] tries the links one after the other; a context read
    from the wire constrains which request may be the parent.  The index of server requests by
    trace id serves calls that leave the request's thread.  Results are pointers ([tp_ptr]); keys
    that C modifies through a pointer are returned. *)

From Stdlib Require Import ZArith Lia ZifyBool List Bool.
From stdpp Require Import base list countable gmap relations.
From S2P Require Import Prelude TraceUtil Sampling ConnInfo LargeBuf HttpInfo TraceMaps.

Local Open Scope Z_scope.

(** ** Constants *)

Definition k_parent_status_none : Z := 0.
Definition k_parent_status_live : Z := 1.
Definition k_parent_status_conditional : Z := 2.
Definition JAVA_VT_TID_FLAG : Z := 0x80000000.
Definition k_lw_thread_none : Z := 0.
Definition k_python_context_vars_offset : Z := 16 + 8.

#[export] Hint Unfold k_parent_status_none k_parent_status_live k_parent_status_conditional
  JAVA_VT_TID_FLAG k_lw_thread_none k_python_context_vars_offset : kconst.

(** ** Threads and descriptors *)

Definition pid_from_pid_tgid (id : Z) : Z := u32 (Z.shiftr id 32).

Definition extra_runtime_id_with_task_id (l : links) (id : Z) : Z :=
  default 0 (active_unix_socks l !! id).

Definition extra_runtime_id (l : links) (t : task) : Z := extra_runtime_id_with_task_id l (cur_pid_tgid t).

(** The key, and whether it was rewritten. *)
Definition java_vt_translate_tid (l : links) (k : pid_key) : pid_key * bool :=
  match java_vt_threads l !! k with
  | Some vt_id =>
      (mk_pid_key (Z.lor JAVA_VT_TID_FLAG (Z.land (u32 vt_id) 0x7fffffff)) (pk_pid k) (pk_ns k), true)
  | None => (k, false)
  end.

Definition java_vt_mounted (l : links) (t : task) : bool := bool_decide (is_Some (java_vt_threads l !! cur_tid t)).

Definition vt_keyed (k : pid_key) : bool := nz (Z.land (pk_tid k) JAVA_VT_TID_FLAG).

Definition trace_key_from_pid_tid (l : links) (t : task) : trace_key :=
  mk_trace_key (extra_runtime_id l t) (fst (java_vt_translate_tid l (cur_tid t))).

Definition empty_part : connection_info_part := mk_part (repeat 0 16) 0 0 0.

Definition fd_info_for_conn (l : links) (part : connection_info_part) : option fd_info := fd_map l !! part.

(** ** The test every candidate passes *)

Definition parent_kind (c : tconf) (server_tp : tp_info_pid) : Z :=
  if tpp_req_type server_tp =? k_event_type_tcp_request then k_parent_status_conditional
  else if nz (tpp_response_sent server_tp) && negb (high_request_volume c) then k_parent_status_conditional
  else k_parent_status_live.

Definition parent_trace_matches (c : tconf) (parent_tp : option tp_info_pid) (wire_tp : option tp_info) : bool :=
  match parent_tp with
  | None => false
  | Some p =>
      match wire_tp with
      | None => true
      | Some w =>
          if tpp_valid p =? 0 then false
          else if negb (bool_decide (trace_id (tpp_tp p) = trace_id w)) then false
          else should_be_in_same_transaction c (tpp_tp p) w
      end
  end.

(** The same test of what a pointer, which may be NULL, points to. *)
Definition matches_at (c : tconf) (m : tmaps) (wire : option tp_info) (a : option tp_ptr) : bool :=
  parent_trace_matches c (a ≫= deref m) wire.

(** ** The index of server requests *)

Definition http_server_trace_key_of (pid : Z) (trace_id : list Z) : http_server_trace_key :=
  mk_hst_key trace_id pid.

Definition indexes_request (ref : http_server_trace_ref) (span_id : list Z) : bool :=
  bool_decide (hsr_span_id ref = span_id).

Definition indexed_server_tp (m : tmaps) (ref : http_server_trace_ref) : option tp_info :=
  let tp :=
    if nz (cs_stream_id (hsr_stream ref)) then
      match ongoing_http2_grpc m !! hsr_stream ref, ongoing_http2_connections m !! cs_pid_conn (hsr_stream ref) with
      | Some server, Some conn =>
          if negb (hr_new_conn_id server =? hc_id conn) || negb (hr_type server =? k_event_type_http_request)
             || nz (hr_end_monotime_ns server) || negb (nz (hr_start_monotime_ns server))
          then None else Some (hr_tp server)
      | _, _ => None
      end
    else
      match ongoing_http m !! cs_pid_conn (hsr_stream ref) with
      | Some server =>
          if negb (hi_type server =? k_event_type_http_request) || nz (hi_submitted server)
             || negb (still_reading server)
          then None else Some (hi_tp server)
      | None => None
      end in
  match tp with
  | Some tp => if negb (indexes_request ref (span_id tp)) then None else Some tp
  | None => None
  end.

Definition index_http_server_context (m : tmaps) (stream : http2_conn_stream) (tp : tp_info) : tmaps :=
  if negb (valid_trace (trace_id tp)) || negb (valid_span (span_id tp)) then m
  else
    let key := http_server_trace_key_of (pc_pid (cs_pid_conn stream)) (trace_id tp) in
    let ref := mk_hst_ref stream (span_id tp) 0 in
    match http_server_trace_index m !! key with
    | None => set_index m (<[key := ref]> (http_server_trace_index m))
    | Some existing =>
        if indexes_request existing (span_id tp) then m
        else if negb (nz (hsr_ambiguous existing)) && bool_decide (indexed_server_tp m existing = None)
        then set_index m (<[key := ref]> (http_server_trace_index m))
        else
          set_index m (<[key := mk_hst_ref (hsr_stream existing) (hsr_span_id existing) 1]> (http_server_trace_index m))
    end.

Definition unindex_http_server_trace (m : tmaps) (pid : Z) (tp : tp_info) : tmaps :=
  let key := http_server_trace_key_of pid (trace_id tp) in
  match http_server_trace_index m !! key with
  | Some ref =>
      if negb (nz (hsr_ambiguous ref)) && indexes_request ref (span_id tp)
      then set_index m (delete key (http_server_trace_index m)) else m
  | None => m
  end.

Definition index_http_server_trace (m : tmaps) (pid_conn : pid_connection_info) (info : http_info) : tmaps :=
  if negb (hi_type info =? k_event_type_http_request) then m
  else index_http_server_context m (mk_stream pid_conn 0) (hi_tp info).

Definition find_http_server_trace (m : tmaps) (pid : Z) (wire_tp : tp_info) : option tp_ptr * tmaps :=
  match http_server_trace_index m !! http_server_trace_key_of pid (trace_id wire_tp) with
  | None => (None, m)
  | Some ref =>
      if nz (hsr_ambiguous ref) then (None, m)
      else match indexed_server_tp m ref with
      | None => (None, m)
      | Some server_tp =>
          if negb (bool_decide (trace_id server_tp = trace_id wire_tp)) then (None, m)
          else (Some at_backup, set_backup m (mk_tp_info_pid server_tp pid 1 0 k_event_type_http_request 0))
      end
  end.

Definition find_wire_server_parent (c : tconf) (m : tmaps) (pid : Z) (wire_tp : tp_info) : option tp_ptr * tmaps :=
  let '(parent, m) := find_http_server_trace m pid wire_tp in
  (if matches_at c m (Some wire_tp) parent then parent else None, m).

(** ** Python tasks *)

Inductive python_task_resolution := PYTHON_TASK_NOT_FOUND | PYTHON_TASK_RESOLVED | PYTHON_TASK_STALE.

#[export] Instance python_task_resolution_eq_dec : EqDecision python_task_resolution.
Proof. solve_decision. Defined.

Definition read_python_context_vars (l : links) (context : Z) : Z :=
  default 0 (user_u64 l (u64 (context + k_python_context_vars_offset))).

Definition python_addr_key_of (pid_tgid addr : Z) : python_addr_key := mk_py_key (pid_from_pid_tgid pid_tgid) addr.

Definition resolve_python_task_ref (l : links) (pid_tgid tsk : Z) : option python_task_ref :=
  if tsk =? 0 then None
  else match python_task_states l !! python_addr_key_of pid_tgid tsk with
  | Some s => if ps_generation s =? 0 then None else Some (mk_task_ref tsk (ps_generation s))
  | None => None
  end.

(** The second lookup of the code repeats the first unless another CPU writes in between. *)
Definition copy_python_task_state (l : links) (pid_tgid : Z) (ref : python_task_ref) : option python_task_state :=
  if (tr_addr ref =? 0) || (tr_generation ref =? 0) then None
  else match python_task_states l !! python_addr_key_of pid_tgid (tr_addr ref) with
  | Some s => if negb (ps_generation s =? tr_generation ref) then None else Some s
  | None => None
  end.

Definition resolve_python_context_task (l : links) (pid_tgid : Z) (ct : python_context_task) : option python_task_ref :=
  if tr_addr (ct_task ct) =? 0 then None
  else match copy_python_task_state l pid_tgid (ct_task ct) with
  | Some _ => Some (ct_task ct)
  | None => None
  end.

Definition resolve_python_task_from_context (l : links) (pid_tgid context : Z)
    : python_task_resolution * option python_task_ref :=
  if context =? 0 then (PYTHON_TASK_NOT_FOUND, None)
  else match python_context_tasks l !! python_addr_key_of pid_tgid context with
  | None => (PYTHON_TASK_STALE, None)
  | Some ct =>
      if negb (ct_vars ct =? read_python_context_vars l context) then (PYTHON_TASK_STALE, None)
      else if (tr_addr (ct_task ct) =? 0) && (tr_generation (ct_task ct) =? 0)
      then (PYTHON_TASK_NOT_FOUND, None)
      else match resolve_python_context_task l pid_tgid ct with
      | None => (PYTHON_TASK_STALE, None)
      | Some ref => (PYTHON_TASK_RESOLVED, Some ref)
      end
  end.

(** Up to [n] tasks of the parent chain. *)
Fixpoint python_owner_walk (n : nat) (l : links) (m : tmaps) (pid_tgid : Z) (ref : python_task_ref)
    : option tp_ptr * python_task_resolution :=
  match n with
  | O => (None, PYTHON_TASK_NOT_FOUND)
  | S n' =>
      match copy_python_task_state l pid_tgid ref with
      | None => (None, PYTHON_TASK_STALE)
      | Some s =>
          let tp := if negb (part_port (ps_conn s) =? 0) then lookup_at m (at_aux (ps_conn s)) else None in
          match tp with
          | Some a => (Some a, PYTHON_TASK_RESOLVED)
          | None =>
              if tr_addr (ps_parent s) =? 0 then (None, PYTHON_TASK_NOT_FOUND)
              else python_owner_walk n' l m pid_tgid (ps_parent s)
          end
      end
  end.

Definition find_python_owning_server_trace (l : links) (m : tmaps) (pid_tgid : Z) (ref : python_task_ref) :=
  python_owner_walk 4 l m pid_tgid ref.

Definition resolve_python_current_task (l : links) (pid_tgid : Z) : python_task_resolution * option python_task_ref :=
  match python_thread_states l !! pid_tgid with
  | None => (PYTHON_TASK_NOT_FOUND, None)
  | Some th =>
      if negb (th_current_task th =? 0) then
        match resolve_python_task_ref l pid_tgid (th_current_task th) with
        | Some ref => (PYTHON_TASK_RESOLVED, Some ref)
        | None => (PYTHON_TASK_STALE, None)
        end
      else if th_current_context th =? 0 then (PYTHON_TASK_NOT_FOUND, None)
      else resolve_python_task_from_context l pid_tgid (th_current_context th)
  end.

(** The pointer, and [allow_parent_fallback]. *)
Definition find_python_parent_trace (l : links) (m : tmaps) (pid_tgid : Z) : option tp_ptr * bool :=
  match resolve_python_current_task l pid_tgid with
  | (PYTHON_TASK_RESOLVED, Some ref) =>
      let '(server_tp, owning) := find_python_owning_server_trace l m pid_tgid ref in
      (server_tp, negb (bool_decide (owning = PYTHON_TASK_STALE)))
  | (resolution, _) => (None, negb (bool_decide (resolution = PYTHON_TASK_STALE)))
  end.

(** ** The other links *)

Definition find_nginx_parent_trace (l : links) (m : tmaps) (p_conn : pid_connection_info) (orig_dport : Z)
    : option tp_ptr :=
  let part := populate_ephemeral_info empty_part (pc_conn p_conn) orig_dport (pc_pid p_conn) FD_CLIENT in
  match fd_info_for_conn l part with
  | Some fd => match nginx_upstream l !! fd with
               | Some parent => lookup_at m (at_aux parent)
               | None => None
               end
  | None => None
  end.

Definition find_puma_parent_trace (l : links) (m : tmaps) (id : Z) : option tp_ptr :=
  match puma_worker_tasks l !! id with
  | Some task_id => match puma_task_connections l !! task_id with
                    | Some part => lookup_at m (at_aux part)
                    | None => None
                    end
  | None => None
  end.

Definition find_nodejs_parent_trace (l : links) (m : tmaps) (p_conn : pid_connection_info) (orig_dport pid_tgid : Z)
    : option tp_ptr :=
  let part := populate_ephemeral_info empty_part (pc_conn p_conn) orig_dport (pc_pid p_conn) FD_CLIENT in
  match fd_info_for_conn l part with
  | None => None
  | Some fd =>
      let client_key := Z.lor (u64 (Z.shiftl pid_tgid 32)) (u64 (fi_fd fd)) in
      match nodejs_fd_map l !! client_key with
      | None => None
      | Some request_fd =>
          match fd_to_connection l !! mk_fd_key pid_tgid request_fd with
          | None => None
          | Some conn => trace_info_for_connection m conn TRACE_TYPE_SERVER
          end
      end
  end.

(** [n] levels of a thread chain: the pointer, and the key where the walk stopped. *)
Fixpoint thread_walk (n : nat) (c : tconf) (m : tmaps) (parents : gmap pid_key pid_key) (t_key : trace_key)
    (wire : option tp_info) : option tp_ptr * trace_key :=
  match n with
  | O => (None, t_key)
  | S n' =>
      let server_tp := lookup_at m (at_server t_key) in
      if matches_at c m wire server_tp then (server_tp, t_key)
      else match parents !! tk_p_key t_key with
      | None => (None, t_key)
      | Some p_tid => thread_walk n' c m parents (mk_trace_key (tk_extra_id t_key) p_tid) wire
      end
  end.

Definition find_parent_process_trace (c : tconf) (l : links) (m : tmaps) (t_key : trace_key) (wire : option tp_info) :=
  thread_walk 5 c m (clone_map l) t_key wire.

Definition find_parent_java_trace (c : tconf) (l : links) (m : tmaps) (t_key : trace_key) (wire : option tp_info) :=
  thread_walk 3 c m (java_tasks l) t_key wire.

(** At most [n] goroutines: the address of the one that serves a request, 0 when there is none. *)
Fixpoint goroutine_walk (n : nat) (l : links) (m : tmaps) (parent : go_addr_key) : Z :=
  match n with
  | O => 0
  | S n' =>
      match go_trace_map m !! parent with
      | Some _ => go_addr parent
      | None => match ongoing_goroutines l !! parent with
                | Some p => goroutine_walk n' l m p
                | None => 0
                end
      end
  end.

Definition find_parent_goroutine (l : links) (m : tmaps) (current : go_addr_key) : Z := goroutine_walk 6 l m current.

Definition delete_go_trace_info (m : tmaps) (lw_thread pid : Z) : tmaps :=
  set_go_trace_map m (delete (mk_go_key pid lw_thread) (go_trace_map m)).

Definition find_go_parent_trace (l : links) (m : tmaps) (lw_thread pid : Z) : option tp_ptr * tmaps :=
  let parent_id := find_parent_goroutine l m (mk_go_key pid lw_thread) in
  if parent_id =? 0 then (None, m)
  else match go_trace_map m !! mk_go_key pid parent_id with
  | None => (None, m)
  | Some inv =>
      (Some at_backup,
       set_backup m (mk_tp_info_pid inv pid 1 0 k_event_type_http_request (tpp_response_sent (backup_mem m))))
  end.

(** ** The search *)

(** From the Java threads on. *)
Definition find_parent_by_thread (c : tconf) (l : links) (m : tmaps) (p_conn : pid_connection_info)
    (t_key : trace_key) (wire : option tp_info) : option tp_ptr * tmaps :=
  let index_first :=
    match wire with
    | Some _ => negb (vt_keyed (tk_p_key t_key)) && negb (bool_decide (is_Some (java_tasks l !! tk_p_key t_key)))
    | None => false
    end in
  let '(http_parent, m) :=
    match wire with
    | Some w => if index_first then find_wire_server_parent c m (pc_pid p_conn) w else (None, m)
    | None => (None, m)
    end in
  match http_parent with
  | Some a => (Some a, m)
  | None =>
      let '(java_parent, t_key) := find_parent_java_trace c l m t_key wire in
      match java_parent with
      | Some a => (Some a, m)
      | None =>
          let '(http_parent, m) :=
            match wire with
            | Some w => if negb index_first then find_wire_server_parent c m (pc_pid p_conn) w else (None, m)
            | None => (None, m)
            end in
          match http_parent with
          | Some a => (Some a, m)
          | None =>
              let '(proc_parent, _) := find_parent_process_trace c l m t_key wire in
              match proc_parent with
              | Some a => (Some a, m)
              | None =>
                  match cp_support_connect_info m !! p_conn with
                  | Some d =>
                      let parent := lookup_at m (at_server (cp_t_key d)) in
                      (if matches_at c m wire parent then parent else None, m)
                  | None => (None, m)
                  end
              end
          end
      end
  end.

Definition find_parent_trace (c : tconf) (l : links) (m : tmaps) (p_conn : pid_connection_info)
    (pid_tgid lw_thread : Z) (t_key : trace_key) (orig_dport : Z) (wire : option tp_info) : option tp_ptr * tmaps :=
  let node_tp := find_nodejs_parent_trace l m p_conn orig_dport pid_tgid in
  if matches_at c m wire node_tp then (node_tp, m)
  else
    let '(go_parent, m) :=
      if negb (lw_thread =? k_lw_thread_none)
      then find_go_parent_trace l m lw_thread (pid_from_pid_tgid pid_tgid) else (None, m) in
    if matches_at c m wire go_parent then (go_parent, m)
    else
      let '(python_parent, allow_parent_fallback) := find_python_parent_trace l m pid_tgid in
      if negb allow_parent_fallback
      then (if matches_at c m wire python_parent then python_parent else None, m)
      else if matches_at c m wire python_parent then (python_parent, m)
      else
        let nginx_parent := find_nginx_parent_trace l m p_conn orig_dport in
        if matches_at c m wire nginx_parent then (nginx_parent, m)
        else
          let puma_parent := find_puma_parent_trace l m pid_tgid in
          if matches_at c m wire puma_parent then (puma_parent, m)
          else find_parent_by_thread c l m p_conn t_key wire.

(** ** The three callers *)

(** The span id of the Node.js manual span the thread is in, when its trace is this one. *)
Definition nodejs_manual_parent_span_id (l : links) (m : tmaps) (pid_tgid : Z) (trace_id : list Z) : option (list Z) :=
  match node_manual_ctx_shadow l !! pid_tgid, traces_ctx_v1 m !! pid_tgid with
  | Some _, Some live => if negb (bool_decide (oc_trace_id live = trace_id)) then None else Some (oc_span_id live)
  | _, _ => None
  end.

(** [server_tp] when it is valid and has a trace id. *)
Definition usable (m : tmaps) (a : option tp_ptr) : option (tp_ptr * tp_info_pid) :=
  match a with
  | Some a => match deref m a with
              | Some x => if nz (tpp_valid x) && valid_trace (trace_id (tpp_tp x)) then Some (a, x) else None
              | None => None
              end
  | None => None
  end.

(** What the two lookups of a client request share; [adopt] is how the child takes the parent over,
    [manual] where the id of a manual span goes. *)
Definition adopt_parent (c : tconf) (l : links) (m : tmaps) (pid_tgid : Z) (tp : tp_info) (a : tp_ptr)
    (server_tp : tp_info_pid) (adopt : tp_info -> tp_info) (manual : tp_info -> list Z -> tp_info)
    : Z * tp_info * tmaps :=
  if negb (should_be_in_same_transaction c (tpp_tp server_tp) tp) then
    (0, tp, if parent_trace_is_stale (tpp_tp server_tp) tp then store_at m a (set_valid server_tp 0) else m)
  else
    let tp := adopt (tpp_tp server_tp) in
    match nodejs_manual_parent_span_id l m pid_tgid (trace_id tp) with
    | Some span => (k_parent_status_live, manual tp span, m)
    | None => (parent_kind c server_tp, tp, m)
    end.

Definition find_trace_for_client_request_with_t_key (c : tconf) (l : links) (m : tmaps)
    (p_conn : pid_connection_info) (orig_dport : Z) (t_key : trace_key) (pid_tgid lw_thread : Z) (tp : tp_info)
    : Z * tp_info * tmaps :=
  let '(server_tp, m) := find_parent_trace c l m p_conn pid_tgid lw_thread t_key orig_dport None in
  match usable m server_tp with
  | Some (a, x) =>
      adopt_parent c l m pid_tgid tp a x
        (fun p => mk_tp_info (trace_id p) (span_id tp) (span_id p) (ts tp) (flags p))
        (fun tp span => mk_tp_info (trace_id tp) (span_id tp) span (ts tp) (flags tp))
  | None => (k_parent_status_none, tp, m)
  end.

Definition find_trace_for_client_request (c : tconf) (l : links) (m : tmaps) (t : task)
    (p_conn : pid_connection_info) (orig_dport lw_thread : Z) (tp : tp_info) :=
  find_trace_for_client_request_with_t_key c l m p_conn orig_dport (trace_key_from_pid_tid l t) (cur_pid_tgid t)
    lw_thread tp.

Definition find_parent_trace_for_client_request_with_t_key (c : tconf) (l : links) (m : tmaps)
    (p_conn : pid_connection_info) (orig_dport : Z) (t_key : trace_key) (pid_tgid lw_thread : Z) (tp : tp_info)
    (wire_tp : option tp_info) : Z * tp_info * tmaps :=
  let '(server_tp, m) := find_parent_trace c l m p_conn pid_tgid lw_thread t_key orig_dport wire_tp in
  match usable m server_tp with
  | Some (a, x) =>
      adopt_parent c l m pid_tgid tp a x (fun p => p)
        (fun tp span => mk_tp_info (trace_id tp) span (parent_id tp) (ts tp) (flags tp))
  | None => (0, tp, m)
  end.

Definition find_parent_trace_for_client_request (c : tconf) (l : links) (m : tmaps) (t : task)
    (p_conn : pid_connection_info) (orig_dport lw_thread : Z) (tp : tp_info) (wire_tp : option tp_info) :=
  find_parent_trace_for_client_request_with_t_key c l m p_conn orig_dport (trace_key_from_pid_tid l t)
    (cur_pid_tgid t) lw_thread tp wire_tp.

(** [fresh] is what [urand_bytes] would write. *)
Definition find_trace_for_wire_client_request (c : tconf) (l : links) (m : tmaps) (t : task)
    (p_conn : pid_connection_info) (orig_dport lw_thread : Z) (wire_tp : tp_info) (fresh : list Z)
    : Z * tp_info * tmaps :=
  let wire_tp := mk_tp_info (trace_id wire_tp) (span_id wire_tp) (repeat 0 8) (ts wire_tp) (flags wire_tp) in
  if negb (valid_trace (trace_id wire_tp)) || negb (valid_span (span_id wire_tp))
  then (k_parent_status_none, wire_tp, m)
  else
    let '(parent, m) :=
      find_parent_trace c l m p_conn (cur_pid_tgid t) lw_thread (trace_key_from_pid_tid l t) orig_dport (Some wire_tp) in
    match parent ≫= deref m with
    | None => (k_parent_status_none, wire_tp, m)
    | Some p =>
        let span := if bool_decide (span_id wire_tp = parent_id (tpp_tp p)) then fresh else span_id wire_tp in
        match nodejs_manual_parent_span_id l m (cur_pid_tgid t) (trace_id wire_tp) with
        | Some manual =>
            (k_parent_status_live, mk_tp_info (trace_id wire_tp) span manual (ts wire_tp) (flags wire_tp), m)
        | None =>
            (parent_kind c p,
             mk_tp_info (trace_id wire_tp) span (span_id (tpp_tp p)) (ts wire_tp) (flags wire_tp), m)
        end
    end.

(** ** What the search returns *)

(** The lookups leave everything but the scratch context alone. *)
Definition same_but_backup (m m' : tmaps) : Prop := exists x, m' = set_backup m x.

Lemma same_refl m : same_but_backup m m.
Proof. exists (backup_mem m). by destruct m. Qed.

Lemma same_set m x : same_but_backup m (set_backup m x).
Proof. by exists x. Qed.

Lemma same_trans m1 m2 m3 : same_but_backup m1 m2 -> same_but_backup m2 m3 -> same_but_backup m1 m3.
Proof. intros [x ->] [y ->]. by exists y. Qed.

#[export] Instance same_but_backup_preorder : PreOrder same_but_backup.
Proof. split; [exact same_refl|exact same_trans]. Qed.

#[export] Hint Resolve same_refl same_set : core.

(** A candidate the test accepts is an entry; against a wire context it is valid, of the same trace,
    and began within a transaction's time before it. *)
Definition acceptable (c : tconf) (m : tmaps) (wire : option tp_info) (a : tp_ptr) : Prop :=
  exists x, deref m a = Some x
  /\ forall w, wire = Some w ->
       tpp_valid x <> 0 /\ trace_id (tpp_tp x) = trace_id w
       /\ ts (tpp_tp x) <= ts w < ts (tpp_tp x) + max_transaction_time c.

Lemma matches_acceptable c m wire a :
  matches_at c m wire (Some a) = true -> acceptable c m wire a.
Proof.
  unfold matches_at, parent_trace_matches, acceptable. simpl. destruct (deref m a) as [x|]; [|done]. intros Hm.
  exists x. split; [done|]. intros w ->. destruct (Z.eqb_spec (tpp_valid x) 0); [done|].
  case_bool_decide as Ht; [|done]. simpl in Hm. unfold should_be_in_same_transaction in Hm.
  destruct (Z.ltb_spec (ts w) (ts (tpp_tp x))); [done|]. split_and!; [done|done|lia|lia].
Qed.

Lemma matches_cases c m wire a :
  matches_at c m wire a = true -> exists b, a = Some b /\ acceptable c m wire b.
Proof. destruct a as [b|]; [|done]. intros Hm%matches_acceptable. by exists b. Qed.

Lemma find_server_same m pid w : same_but_backup m (snd (find_http_server_trace m pid w)).
Proof. unfold find_http_server_trace. repeat case_match; simpl; auto. Qed.

Lemma find_wire_sound c m pid w :
  same_but_backup m (snd (find_wire_server_parent c m pid w))
  /\ forall a, fst (find_wire_server_parent c m pid w) = Some a ->
       acceptable c (snd (find_wire_server_parent c m pid w)) (Some w) a.
Proof.
  unfold find_wire_server_parent. pose proof (find_server_same m pid w) as Hs.
  destruct (find_http_server_trace m pid w) as [parent m']. simpl in *. split; [done|]. intros a.
  destruct (matches_at c m' (Some w) parent) eqn:Hm; [|done]. apply matches_cases in Hm as (b & -> & Hb). congruence.
Qed.

Lemma thread_walk_sound n c m parents k wire a k' :
  thread_walk n c m parents k wire = (Some a, k') -> acceptable c m wire a.
Proof.
  revert k. induction n as [|n IH]; intros k; simpl; [done|].
  destruct (matches_at _ _ _ _) eqn:Hm; [|destruct (parents !! _); [apply IH|done]].
  apply matches_cases in Hm as (b & -> & Hb). congruence.
Qed.

Lemma go_parent_same l m lw pid : same_but_backup m (snd (find_go_parent_trace l m lw pid)).
Proof. unfold find_go_parent_trace. repeat case_match; simpl; auto. Qed.

(** A search has succeeded with an acceptable context or found none. *)
Definition search_ok (c : tconf) (m : tmaps) (wire : option tp_info) (r : option tp_ptr * tmaps) : Prop :=
  same_but_backup m (snd r) /\ forall a, fst r = Some a -> acceptable c (snd r) wire a.

Lemma search_if c m m' wire a r :
  same_but_backup m m' -> search_ok c m' wire r ->
  search_ok c m wire (if matches_at c m' wire a then (a, m') else r).
Proof.
  intros Hs [Hr Ha]. destruct (matches_at c m' wire a) eqn:Hm.
  - apply matches_cases in Hm as (b & -> & Hb). split; [done|]. intros ? [= <-]. done.
  - split; [by etrans|done].
Qed.

Lemma search_none c m wire : search_ok c m wire (None, m).
Proof. by split. Qed.

Lemma search_end c m wire a : search_ok c m wire (if matches_at c m wire a then a else None, m).
Proof.
  destruct (matches_at c m wire a) eqn:Hm; [|apply search_none].
  apply matches_cases in Hm as (b & -> & Hb). split; [done|]. intros ? [= <-]. done.
Qed.

(** A lookup that is conclusive when it returns a context. *)
Lemma search_or c m wire r (k : tmaps -> option tp_ptr * tmaps) :
  search_ok c m wire r -> (forall m', same_but_backup m m' -> search_ok c m' wire (k m')) ->
  search_ok c m wire (let '(x, m') := r in match x with Some a => (Some a, m') | None => k m' end).
Proof.
  destruct r as [[a|] m']; intros [Hs Ha] Hk; [by split|]. destruct (Hk m' Hs) as [Hk1 Hk2]. split; [by etrans|done].
Qed.

Lemma by_thread_ok c l m p_conn k wire : search_ok c m wire (find_parent_by_thread c l m p_conn k wire).
Proof.
  unfold find_parent_by_thread. cbv zeta.
  assert (Hi : forall (b : bool) m0, search_ok c m0 wire
    match wire with Some w => if b then find_wire_server_parent c m0 (pc_pid p_conn) w else (None, m0) | None => (None, m0) end).
  { intros b m0. destruct wire as [w|]; [|apply search_none]. destruct b; [|apply search_none]. apply find_wire_sound. }
  apply search_or; [apply Hi|]. intros m1 H1.
  destruct (find_parent_java_trace c l m1 k wire) as [[a|] k1] eqn:Hj.
  { split; [done|]. intros ? [= <-]. by eapply thread_walk_sound. }
  apply search_or; [apply Hi|]. intros m2 H2.
  destruct (find_parent_process_trace c l m2 k1 wire) as [[a|] k2] eqn:Hp.
  { split; [done|]. intros ? [= <-]. by eapply thread_walk_sound. }
  destruct (cp_support_connect_info m2 !! p_conn); [apply search_end|apply search_none].
Qed.

Lemma find_parent_ok c l m p_conn id lw k dport wire :
  search_ok c m wire (find_parent_trace c l m p_conn id lw k dport wire).
Proof.
  unfold find_parent_trace. cbv zeta. apply search_if; [done|].
  assert (Hg : same_but_backup m (snd (if negb (lw =? k_lw_thread_none)
    then find_go_parent_trace l m lw (pid_from_pid_tgid id) else (None, m)))).
  { destruct (negb _); [apply go_parent_same|done]. }
  destruct (if negb (lw =? k_lw_thread_none) then _ else _) as [go_parent m1]. simpl in Hg.
  apply search_if; [done|]. destruct (find_python_parent_trace l m1 id) as [py allow].
  destruct allow; simpl negb; cbv iota; [|apply search_end].
  apply search_if; [done|]. apply search_if; [done|]. apply search_if; [done|]. apply by_thread_ok.
Qed.

(** ** Thread chains *)

(** A thread and its ancestors, at most [n] of them. *)
Fixpoint ancestry (n : nat) (parents : gmap pid_key pid_key) (k : pid_key) : list pid_key :=
  match n with
  | O => []
  | S n' => k :: match parents !! k with Some p => ancestry n' parents p | None => [] end
  end.

(** The walk up a chain of threads finds the request of the nearest of the first [n] ancestors,
    the thread itself included, whose request the test accepts, and nothing when none of them has
    one.  The process lookup takes five levels, the Java lookup three. *)
Theorem thread_walk_nearest n c m parents k wire :
  fst (thread_walk n c m parents k wire)
  = at_server <$> head (filter (fun k' => matches_at c m wire (lookup_at m (at_server k')) = true)
                          (mk_trace_key (tk_extra_id k) <$> ancestry n parents (tk_p_key k))).
Proof.
  revert k. induction n as [|n IH]; intros [extra k]; [done|]. cbn [thread_walk ancestry tk_p_key tk_extra_id].
  rewrite fmap_cons, filter_cons. destruct (matches_at _ _ _ _) eqn:Hm.
  - rewrite decide_True by done. simpl. unfold lookup_at in *. simpl in *. by destruct (server_traces m !! _).
  - rewrite decide_False by congruence. destruct (parents !! k); [|done]. by rewrite IH.
Qed.

(** ** The context a client request gets *)

Lemma parent_kind_cases c x : parent_kind c x = k_parent_status_live \/ parent_kind c x = k_parent_status_conditional.
Proof. unfold parent_kind. bdes_goal; auto. Qed.

Lemma usable_Some m a b x :
  usable m a = Some (b, x) ->
  a = Some b /\ deref m b = Some x /\ tpp_valid x <> 0 /\ valid_trace (trace_id (tpp_tp x)) = true.
Proof.
  unfold usable, nz. destruct a as [a|]; [|done]. destruct (deref m a) eqn:Hd; [|done].
  destruct (Z.eqb_spec (tpp_valid t) 0); [done|]. destruct (valid_trace _) eqn:Hv; [|done]. simpl. by intros [= <- <-].
Qed.

(** The server request a child was attached to. *)
Definition attached (c : tconf) (m : tmaps) (child : tp_info) (x : tp_info_pid) : Prop :=
  (exists a, deref m a = Some x) /\ tpp_valid x <> 0 /\ valid_trace (trace_id (tpp_tp x)) = true
  /\ ts (tpp_tp x) <= ts child < ts (tpp_tp x) + max_transaction_time c.

(** Only a request that ended too long ago is retired. *)
Definition retired (c : tconf) (child : tp_info) (m m' : tmaps) : Prop :=
  m' = m \/ exists a x, deref m a = Some x /\ m' = store_at m a (set_valid x 0)
                      /\ ts (tpp_tp x) + max_transaction_time c <= ts child.

Lemma adopt_parent_spec c l m id tp a x adopt manual status tp' m' :
  deref m a = Some x -> tpp_valid x <> 0 -> valid_trace (trace_id (tpp_tp x)) = true -> 0 < max_transaction_time c ->
  adopt_parent c l m id tp a x adopt manual = (status, tp', m') ->
  (status = k_parent_status_none -> tp' = tp /\ retired c tp m m')
  /\ (status <> k_parent_status_none ->
       m' = m /\ attached c m tp x
       /\ (tp' = adopt (tpp_tp x)
           \/ exists span, nodejs_manual_parent_span_id l m id (trace_id (adopt (tpp_tp x))) = Some span
                          /\ tp' = manual (adopt (tpp_tp x)) span)).
Proof.
  intros Hd Hv Ht Hmax. unfold adopt_parent. destruct (should_be_in_same_transaction c (tpp_tp x) tp) eqn:Hs; simpl.
  - assert (Ha : attached c m tp x).
    { unfold should_be_in_same_transaction in Hs. destruct (Z.ltb_spec (ts tp) (ts (tpp_tp x))); [done|].
      split_and!; [by exists a|done|done|lia|lia]. }
    destruct (nodejs_manual_parent_span_id l m id _) as [span|] eqn:Hn; intros [= <- <- <-].
    + split; [done|]. intros _. split_and!; [done|done|]. right. by exists span.
    + destruct (parent_kind_cases c x) as [E|E]; rewrite E; (split; [done|]); intros _; split_and!; auto.
  - intros [= <- <- <-]. split; [|done]. intros _. split; [done|].
    unfold should_be_in_same_transaction in Hs. unfold parent_trace_is_stale.
    destruct (Z.leb_spec (ts (tpp_tp x)) (ts tp)); [|by left].
    destruct (Z.ltb_spec (ts tp) (ts (tpp_tp x))); [lia|]. right. exists a, x. split_and!; [done|done|lia].
Qed.

(** C18: the parent search is sound for a context read from the wire.  Whatever link it follows, the
    context it returns is a live entry that is marked valid, carries the trace id of the wire and
    began before it by less than the longest transaction; the search writes nothing but its own
    scratch context. *)
Theorem parent_matches_wire c l m p_conn id lw k dport w a m' :
  find_parent_trace c l m p_conn id lw k dport (Some w) = (Some a, m') ->
  same_but_backup m m'
  /\ exists x, deref m' a = Some x /\ tpp_valid x <> 0 /\ trace_id (tpp_tp x) = trace_id w
     /\ ts (tpp_tp x) <= ts w < ts (tpp_tp x) + max_transaction_time c.
Proof.
  intros E. pose proof (find_parent_ok c l m p_conn id lw k dport (Some w)) as [Hs Ha]. rewrite E in *. simpl in *.
  split; [done|]. destruct (Ha a eq_refl) as (x & Hd & Hw). exists x. destruct (Hw w eq_refl) as (? & ? & ?). done.
Qed.

(** A client request joins the trace of the server request found for it and takes its span as
    parent, or the manual span its thread is in, keeping its own span id and time.  The request it
    joins is valid and not older than the longest transaction.  When there is none the context is
    unchanged, and the only entry that may be invalidated is one that is too old; one that began
    after the child never is. *)
Theorem client_request_inherits c l m p_conn dport k id lw tp status tp' m' :
  0 < max_transaction_time c ->
  find_trace_for_client_request_with_t_key c l m p_conn dport k id lw tp = (status, tp', m') ->
  (status = k_parent_status_none ->
     tp' = tp /\ exists m1, same_but_backup m m1 /\ retired c tp m1 m')
  /\ (status <> k_parent_status_none ->
     exists x, same_but_backup m m' /\ attached c m' tp x
     /\ trace_id tp' = trace_id (tpp_tp x) /\ flags tp' = flags (tpp_tp x)
     /\ span_id tp' = span_id tp /\ ts tp' = ts tp
     /\ (parent_id tp' = span_id (tpp_tp x)
         \/ nodejs_manual_parent_span_id l m' id (trace_id (tpp_tp x)) = Some (parent_id tp'))).
Proof.
  intros Hmax. unfold find_trace_for_client_request_with_t_key.
  pose proof (find_parent_ok c l m p_conn id lw k dport None) as [Hs _].
  destruct (find_parent_trace c l m p_conn id lw k dport None) as [found m1]. cbn [snd] in Hs.
  destruct (usable m1 found) as [[a x]|] eqn:Hu.
  - apply usable_Some in Hu as (-> & Hd & Hv & Ht). intros Ha. eapply adopt_parent_spec in Ha; [|done..].
    destruct Ha as [H0 H1]. split.
    + intros [-> Hr]%H0. split; [done|]. by exists m1.
    + intros (-> & Hat & Htp)%H1. exists x. split; [done|]. split; [done|].
      destruct Htp as [->|(span & Hn & ->)]; simpl in *; split_and!; auto.
  - intros [= <- <- <-]. split; [|done]. intros _. split; [done|]. exists m1. split; [done|]. by left.
Qed.

(** A client request that already carries a traceparent keeps its identity.  Its trace id, flags
    and time are never changed; its span id changes only when it repeats the caller's of the
    request it belongs to, and then to fresh bytes; its parent is zero, the span of a request in the
    same trace, or the manual span of the thread. *)
Theorem wire_client_keeps_identity c l m t p_conn dport lw w fresh status tp' m' :
  find_trace_for_wire_client_request c l m t p_conn dport lw w fresh = (status, tp', m') ->
  same_but_backup m m' /\ trace_id tp' = trace_id w /\ flags tp' = flags w /\ ts tp' = ts w
  /\ (status = k_parent_status_none -> span_id tp' = span_id w /\ parent_id tp' = repeat 0 8)
  /\ (status <> k_parent_status_none ->
      exists a x, deref m' a = Some x /\ tpp_valid x <> 0 /\ trace_id (tpp_tp x) = trace_id w
        /\ span_id tp' = (if bool_decide (span_id w = parent_id (tpp_tp x)) then fresh else span_id w)
        /\ (parent_id tp' = span_id (tpp_tp x)
            \/ nodejs_manual_parent_span_id l m' (cur_pid_tgid t) (trace_id w) = Some (parent_id tp'))).
Proof.
  unfold find_trace_for_wire_client_request. cbv zeta.
  set (w0 := mk_tp_info (trace_id w) (span_id w) (repeat 0 8) (ts w) (flags w)).
  change (trace_id w0) with (trace_id w) in *. change (span_id w0) with (span_id w) in *.
  destruct (negb _ || negb _); [intros [= <- <- <-]; split_and!; done|].
  pose proof (find_parent_ok c l m p_conn (cur_pid_tgid t) lw (trace_key_from_pid_tid l t) dport (Some w0)) as [Hs Ha].
  destruct (find_parent_trace _ _ _ _ _ _ _ _ _) as [[a|] m1]; cbn [fst snd] in *.
  - destruct (Ha a eq_refl) as (x & Hd & Hw). destruct (Hw w0 eq_refl) as (Hv & Ht & _).
    simpl. rewrite Hd. assert (Hk : parent_kind c x <> k_parent_status_none) by (by destruct (parent_kind_cases c x) as [-> | ->]).
    destruct (nodejs_manual_parent_span_id l m1 (cur_pid_tgid t) (trace_id w)) eqn:Hn; intros [= <- <- <-];
      (split_and!; try done); intros _; exists a, x; split_and!; auto.
  - intros [= <- <- <-]. split_and!; done.
Qed.

(** A stale Python task stops the search.  When the running task cannot be resolved, the
    lookups by proxy, worker and thread are not consulted, so the call is not attached to whatever
    request last ran there. *)
Theorem python_stale_stops_search c l m p_conn id k dport wire :
  find_nodejs_parent_trace l m p_conn dport id = None ->
  fst (resolve_python_current_task l id) = PYTHON_TASK_STALE ->
  find_parent_trace c l m p_conn id k_lw_thread_none k dport wire = (None, m).
Proof.
  intros Hn Hp. unfold find_parent_trace. rewrite Hn. cbn. unfold find_python_parent_trace.
  destruct (resolve_python_current_task l id) as [r o]. simpl in Hp. subst r. done.
Qed.

(** ** The index of server requests *)

(** A change of the index, or of the requests it points at. *)
Inductive index_step : tmaps -> tmaps -> Prop :=
  | ix_index m stream tp : index_step m (index_http_server_context m stream tp)
  | ix_unindex m pid tp : index_step m (unindex_http_server_trace m pid tp)
  | ix_other m m' : http_server_trace_index m' = http_server_trace_index m -> index_step m m'.

Definition ambiguous_key (m : tmaps) (key : http_server_trace_key) : Prop :=
  exists ref, http_server_trace_index m !! key = Some ref /\ hsr_ambiguous ref <> 0.

Lemma index_step_ambiguous m m' key : index_step m m' -> ambiguous_key m key -> ambiguous_key m' key.
Proof.
  intros Hs (ref & Hr & Ha). destruct Hs as [m stream tp|m pid tp|m m' E]; [| |exists ref; by rewrite E].
  - unfold index_http_server_context. destruct (negb _ || negb _); [by exists ref|]. cbv zeta.
    set (key' := http_server_trace_key_of _ _). destruct (decide (key = key')) as [->|Hne].
    + rewrite Hr. destruct (indexes_request ref _); [by exists ref|].
      unfold nz. destruct (Z.eqb_spec (hsr_ambiguous ref) 0); [done|]. simpl.
      eexists. split; [apply lookup_insert_eq|done].
    + exists ref. split; [|done]. destruct (http_server_trace_index m !! key').
      * destruct (indexes_request _ _); [done|]. destruct (_ && _); simpl; by rewrite lookup_insert_ne.
      * simpl. by rewrite lookup_insert_ne.
  - unfold unindex_http_server_trace. cbv zeta. set (key' := http_server_trace_key_of _ _).
    destruct (decide (key = key')) as [->|Hne].
    + rewrite Hr. unfold nz. destruct (Z.eqb_spec (hsr_ambiguous ref) 0); [done|]. simpl. by exists ref.
    + exists ref. split; [|done]. destruct (http_server_trace_index m !! key') as [ref'|]; [|done].
      destruct (_ && _); [|done]. simpl. by rewrite lookup_delete_ne.
Qed.

(** The index never guesses between concurrent requests.  When a second request of a trace is
    indexed while the first is still being served, no later indexing, unindexing or change of
    the requests makes the index return either of them for that trace. *)
Theorem index_never_guesses m stream tp ref tp0 m' w :
  valid_trace (trace_id tp) = true -> valid_span (span_id tp) = true ->
  let pid := pc_pid (cs_pid_conn stream) in
  http_server_trace_index m !! http_server_trace_key_of pid (trace_id tp) = Some ref ->
  indexed_server_tp m ref = Some tp0 -> span_id tp <> hsr_span_id ref ->
  rtc index_step (index_http_server_context m stream tp) m' -> trace_id w = trace_id tp ->
  find_http_server_trace m' pid w = (None, m').
Proof.
  intros Ht Hsp pid Hr Hi Hne Hrtc Hw.
  assert (Ha : ambiguous_key (index_http_server_context m stream tp) (http_server_trace_key_of pid (trace_id tp))).
  { unfold index_http_server_context. rewrite Ht, Hsp. simpl. fold pid. rewrite Hr.
    unfold indexes_request. rewrite bool_decide_false by congruence.
    rewrite (bool_decide_false (indexed_server_tp m ref = None)) by congruence. rewrite andb_false_r.
    eexists. split; [apply lookup_insert_eq|done]. }
  assert (Ha' : ambiguous_key m' (http_server_trace_key_of pid (trace_id tp))).
  { clear -Hrtc Ha. induction Hrtc as [|x y z Hs _ IH]; [done|]. apply IH. by eapply index_step_ambiguous. }
  destruct Ha' as (ref' & Hr' & Ha'). unfold find_http_server_trace. rewrite Hw, Hr'. unfold nz.
  by rewrite (proj2 (Z.eqb_neq _ _) Ha').
Qed.

(** A request that is being read can be found by its trace.  After it is indexed, in a trace
    with no entry or with one of another span whose request has ended, a call with that trace id on the wire gets
    its context as parent; and after it is submitted, or the connection carries another span, it
    is not found. *)
Theorem indexed_request_found m pid_conn info w :
  ongoing_http m !! pid_conn = Some info -> hi_type info = k_event_type_http_request ->
  still_reading info = true -> hi_submitted info = 0 ->
  valid_trace (trace_id (hi_tp info)) = true -> valid_span (span_id (hi_tp info)) = true ->
  (forall ref, http_server_trace_index m !! http_server_trace_key_of (pc_pid pid_conn) (trace_id (hi_tp info)) = Some ref ->
     hsr_ambiguous ref = 0 /\ indexed_server_tp m ref = None /\ hsr_span_id ref <> span_id (hi_tp info)) ->
  trace_id w = trace_id (hi_tp info) ->
  let m1 := index_http_server_trace m pid_conn info in
  let '(a, m2) := find_http_server_trace m1 (pc_pid pid_conn) w in
  a = Some at_backup
  /\ deref m2 at_backup = Some (mk_tp_info_pid (hi_tp info) (pc_pid pid_conn) 1 0 k_event_type_http_request 0)
  /\ forall info', hi_submitted info' <> 0 \/ span_id (hi_tp info') <> span_id (hi_tp info) ->
       fst (find_http_server_trace (set_ongoing_http m1 (<[pid_conn := info']> (ongoing_http m1))) (pc_pid pid_conn) w)
       = None.
Proof.
  intros Ho Hty Hre Hsub Ht Hsp Hold Hw m1.
  set (key := http_server_trace_key_of (pc_pid pid_conn) (trace_id (hi_tp info))) in *.
  set (ref := mk_hst_ref (mk_stream pid_conn 0) (span_id (hi_tp info)) 0).
  assert (Hm1 : m1 = set_index m (<[key := ref]> (http_server_trace_index m))).
  { unfold m1, index_http_server_trace. rewrite Hty. cbn [negb Z.eqb k_event_type_http_request Pos.eqb].
    unfold index_http_server_context. rewrite Ht, Hsp. cbn -[key]. fold key. fold ref.
    destruct (http_server_trace_index m !! key) as [old|] eqn:Hk; [|done].
    destruct (Hold old eq_refl) as (Ha & Hd & Hs). unfold indexes_request. rewrite bool_decide_false by done.
    by rewrite Ha, Hd. }
  assert (Hlk : forall f, http_server_trace_index (set_ongoing_http m1 f) !! key = Some ref).
  { intros f. rewrite Hm1. apply lookup_insert_eq. }
  assert (Hl1 : http_server_trace_index m1 !! key = Some ref) by (rewrite Hm1; apply lookup_insert_eq).
  unfold find_http_server_trace at 1. rewrite Hw. fold key. rewrite Hl1.
  assert (Hi : indexed_server_tp m1 ref = Some (hi_tp info)).
  { rewrite Hm1. unfold indexed_server_tp. cbn. rewrite Ho, Hty, Hsub, Hre. cbn.
    unfold indexes_request. by rewrite bool_decide_true. }
  cbn -[m1]. rewrite Hi, bool_decide_true by done. cbn -[m1]. split_and!; [done|done|].
  intros info' Hinfo. unfold find_http_server_trace. rewrite Hw. fold key. rewrite Hlk. cbn -[m1 indexed_server_tp].
  assert (Hn : indexed_server_tp (set_ongoing_http m1 (<[pid_conn := info']> (ongoing_http m1))) ref = None).
  { unfold indexed_server_tp. cbn -[m1]. rewrite lookup_insert_eq. unfold nz, indexes_request.
    destruct Hinfo as [Hs|Hs].
    - rewrite (proj2 (Z.eqb_neq _ _) Hs). by rewrite orb_true_r.
    - destruct (_ || _); [done|]. by rewrite bool_decide_false by (cbn; congruence). }
  by rewrite Hn.
Qed.

(** ** Witnesses *)

Definition empty_links : links :=
  mk_links ∅ ∅ ∅ ∅ ∅ ∅ ∅ ∅ ∅ ∅ ∅ ∅ ∅ ∅ ∅ (fun _ => None).

Definition no_context : tp_info_pid :=
  mk_tp_info_pid (mk_tp_info (repeat 0 16) (repeat 0 8) (repeat 0 8) 0 0) 0 0 0 0 0.

Definition empty_tmaps : tmaps := mk_tmaps ∅ ∅ ∅ ∅ ∅ ∅ ∅ ∅ ∅ ∅ ∅ ∅ no_context.

Definition example_conf : tconf := mk_tconf 1000 false false true true.

(** Thread 5 serves a request; thread 6 was cloned from it. *)
Definition thread_5 : pid_key := mk_pid_key 5 5 1.
Definition thread_6 : pid_key := mk_pid_key 6 5 1.
Definition example_links : links :=
  mk_links {[thread_6 := thread_5]} ∅ ∅ ∅ ∅ ∅ ∅ ∅ ∅ ∅ ∅ ∅ ∅ ∅ ∅ (fun _ => None).
Definition example_server : tp_info_pid :=
  mk_tp_info_pid (mk_tp_info (repeat 7 16) (repeat 8 8) (repeat 9 8) 100 1) 5 1 0 k_event_type_http_request 0.
Definition example_tmaps : tmaps :=
  mk_tmaps {[mk_trace_key 0 thread_5 := example_server]} ∅ ∅ ∅ ∅ ∅ ∅ ∅ ∅ ∅ ∅ ∅ no_context.
Definition example_task : task := mk_task (Z.shiftl 5 32 + 6) thread_6 (mk_pid_info 5 5 1).
Definition example_pid_conn : pid_connection_info := mk_pid_conn (mk_conn (repeat 1 16) (repeat 2 16) 40000 80) 5.
Definition example_child : tp_info := mk_tp_info (repeat 0 16) (repeat 3 8) (repeat 0 8) 200 1.
Definition example_forwarded : tp_info := mk_tp_info (repeat 7 16) (repeat 9 8) (repeat 0 8) 200 1.

Lemma parent_matches_wire_witness :
  same_but_backup example_tmaps example_tmaps
  /\ exists x, deref example_tmaps (at_server (mk_trace_key 0 thread_5)) = Some x
     /\ tpp_valid x <> 0 /\ trace_id (tpp_tp x) = trace_id example_forwarded
     /\ ts (tpp_tp x) <= ts example_forwarded < ts (tpp_tp x) + max_transaction_time example_conf.
Proof.
  apply (parent_matches_wire example_conf example_links example_tmaps example_pid_conn (Z.shiftl 5 32 + 6) 0
    (mk_trace_key 0 thread_6) 80 example_forwarded). vm_compute. reflexivity.
Defined.

Lemma client_request_inherits_witness :
  exists tp', find_trace_for_client_request_with_t_key example_conf example_links example_tmaps example_pid_conn 80
    (mk_trace_key 0 thread_6) (Z.shiftl 5 32 + 6) 0 example_child = (k_parent_status_live, tp', example_tmaps)
  /\ exists x, trace_id tp' = trace_id (tpp_tp x) /\ attached example_conf example_tmaps example_child x.
Proof.
  eexists. split; [vm_compute; reflexivity|].
  edestruct (client_request_inherits example_conf example_links example_tmaps example_pid_conn 80
    (mk_trace_key 0 thread_6) (Z.shiftl 5 32 + 6) 0 example_child k_parent_status_live) as [_ H];
    [done|vm_compute; reflexivity|].
  destruct (H ltac:(done)) as (x & _ & Ha & Ht & _). exists x. split; [exact Ht|exact Ha].
Defined.

Lemma wire_client_keeps_identity_witness :
  exists tp', find_trace_for_wire_client_request example_conf example_links example_tmaps example_task example_pid_conn
    80 0 example_forwarded (repeat 4 8) = (k_parent_status_live, tp', example_tmaps)
  /\ trace_id tp' = repeat 7 16 /\ span_id tp' = repeat 4 8.
Proof.
  eexists. split; [vm_compute; reflexivity|]. split; [|reflexivity].
  edestruct (wire_client_keeps_identity example_conf example_links example_tmaps example_task example_pid_conn
    80 0 example_forwarded (repeat 4 8)) as (_ & H & _); [vm_compute; reflexivity|]. exact H.
Defined.

(** A thread whose current task has no state. *)
Definition stale_links : links :=
  mk_links {[thread_6 := thread_5]} ∅ ∅ ∅ ∅ ∅ ∅ ∅ ∅ ∅ ∅ {[21 := mk_thread_state 77 0 0 0]} ∅ ∅ ∅ (fun _ => None).

Lemma python_stale_stops_search_witness :
  find_parent_trace example_conf stale_links example_tmaps example_pid_conn 21 k_lw_thread_none
    (mk_trace_key 0 thread_6) 80 None = (None, example_tmaps).
Proof.
  apply (python_stale_stops_search example_conf stale_links example_tmaps example_pid_conn 21); vm_compute; reflexivity.
Defined.

Definition example_info : http_info :=
  mk_http_info 0 k_event_type_http_request 0 0 (pc_conn example_pid_conn) 100 0 100 0 0 (tpp_tp example_server)
    (mk_pid_info 5 5 1) 10 0 5 0 0 0 [] 0 TCP_RECV 0 0 0 http_response_parsed.

Definition serving_tmaps : tmaps := set_ongoing_http example_tmaps {[example_pid_conn := example_info]}.

Lemma indexed_request_found_witness :
  fst (find_http_server_trace (index_http_server_trace serving_tmaps example_pid_conn example_info) 5 example_forwarded)
  = Some at_backup.
Proof.
  pose proof (indexed_request_found serving_tmaps example_pid_conn example_info example_forwarded) as H. cbv zeta in H.
  destruct (find_http_server_trace (index_http_server_trace serving_tmaps example_pid_conn example_info) 5 example_forwarded)
    as [a m2] eqn:E.
  change (pc_pid example_pid_conn) with 5 in H. rewrite E in H. simpl.
  refine (proj1 (H _ _ _ _ _ _ _ _)); try reflexivity. intros ref Hr. exfalso. vm_compute in Hr. discriminate.
Defined.

Lemma index_never_guesses_witness :
  let m := index_http_server_trace serving_tmaps example_pid_conn example_info in
  let tp := mk_tp_info (repeat 7 16) (repeat 6 8) (repeat 9 8) 120 1 in
  let m' := index_http_server_context m (mk_stream example_pid_conn 3) tp in
  find_http_server_trace m' 5 example_forwarded = (None, m').
Proof.
  intros m tp m'.
  refine (index_never_guesses m (mk_stream example_pid_conn 3) tp
    (mk_hst_ref (mk_stream example_pid_conn 0) (repeat 8 8) 0) (tpp_tp example_server) m' example_forwarded
    _ _ _ _ _ (rtc_refl _ _) _); try (vm_compute; reflexivity). discriminate.
Defined.
