(* ===== verification/Dns.v ===== *)
(** * DNS ([bpf/generictracer/dns.h], [bpf/maps/unconn_dns_socks.h], [sock_pids.h], the UDP probes of [k_tracer.c]).

    A DNS message is recognised by a port of its connection, by the port in the name of the call, or,
    when neither names a peer, by the socket: a query sent on an unconnected socket opens a window of two
    seconds in which a nameless datagram on that socket is taken for its answer.  The query is staged on
    the way into [udp_sendmsg] and opens the window when the send returns success.

    A probe is a function of [dns_state] and of what it reads: the socket's connection (the result of
    [parse_sock_info]), the arguments of the call, the clock and the scratch memory [iovec_mem], whose
    content before the probe is arbitrary.  The two window maps and [sock_pids] are LRU maps: an entry can
    go at any time, which is an event of a history. *)

From Stdlib Require Import ZArith Lia ZifyBool List Bool.
From stdpp Require Import base list countable gmap.
From S2P Require Import Prelude TraceUtil Sampling Entry IovIter ConnInfo Packet LargeBuf HttpInfo TraceMaps TraceParent.

Local Open Scope Z_scope.

(** ** The header *)

Definition k_dns_qr_query : Z := 0.
Definition k_dns_qr_resp : Z := 1.
Definition k_dns_port : Z := 53.
Definition k_mdns_port : Z := 5353.
Definition k_dns_max_len : Z := 512.
Definition k_dns_min_question_bytes : Z := 1 + 2 + 2.
Definition k_dns_min_rr_bytes : Z := 1 + 2 + 2 + 4 + 2.
Definition k_event_type_dns_request : Z := 16.
Definition k_unconn_dns_answer_timeout_ns : Z := 2 * 1000000000.
Definition AF_INET : Z := 2.
Definition dnshdr_size : Z := 12.

#[export] Hint Unfold k_dns_qr_query k_dns_qr_resp k_dns_port k_mdns_port k_dns_max_len k_dns_min_question_bytes k_dns_min_rr_bytes
  k_event_type_dns_request k_unconn_dns_answer_timeout_ns AF_INET dnshdr_size : kconst.

(** The fields as they lie in memory, in network order. *)
Record dnshdr := mk_dnshdr { dh_id : Z; dh_flags : Z; dh_qdcount : Z; dh_ancount : Z; dh_nscount : Z; dh_arcount : Z }.

Definition load_dnshdr (l : list Z) : dnshdr :=
  let f i := le_word (take 2 (drop i l)) in
  mk_dnshdr (f 0%nat) (f 2%nat) (f 4%nat) (f 6%nat) (f 8%nat) (f 10%nat).

Definition dns_qr (f : Z) : Z := Z.land (Z.shiftr f 15) 0x1.
Definition dns_opcode (f : Z) : Z := Z.land (Z.shiftr f 11) 0xF.
Definition dns_tc (f : Z) : Z := Z.land (Z.shiftr f 9) 0x1.
Definition dns_z (f : Z) : Z := Z.land (Z.shiftr f 6) 0x1.

Definition dns_header_is_plausible (hdr : dnshdr) (flags size : Z) (mdns : bool) : bool :=
  if nz (dns_opcode flags) then false
  else if nz (dns_z flags) then false
  else
    let qdcount := bswap16 (dh_qdcount hdr) in
    let ancount := bswap16 (dh_ancount hdr) in
    let nscount := bswap16 (dh_nscount hdr) in
    let arcount := bswap16 (dh_arcount hdr) in
    if qdcount + ancount + nscount + arcount =? 0 then false
    else if (dns_qr flags =? k_dns_qr_query) && negb mdns && ((qdcount =? 0) || nz ancount) then false
    else if nz (dns_tc flags) then true
    else
      let payload := u32 (size - dnshdr_size) in
      let needed := u32 (u32 (qdcount * k_dns_min_question_bytes)
                         + u32 (u32 (u32 (ancount + nscount) + arcount) * k_dns_min_rr_bytes)) in
      needed <=? payload.

(** ** Which messages *)

(** [msg_name] as the kernel memory it points to, [None] for a null pointer. *)
Record msghdr := mk_msghdr { msg_name : option umem; msg_namelen : Z; msg_iter : kernel_iter }.

Definition is_mdns_port (port : Z) : bool := port =? k_mdns_port.
Definition is_dns_port (port : Z) : bool := (port =? k_dns_port) || is_mdns_port port.
Definition is_dns (conn : connection_info) : bool := is_dns_port (s_port conn) || is_dns_port (d_port conn).

Definition obi_msg_name_port (msg : option msghdr) : Z :=
  match msg with
  | None => 0
  | Some m =>
      match msg_name m with
      | None => 0
      | Some name =>
          if msg_namelen m <? 16 then 0
          else
            match probe_read name 16 with
            | None => 0
            | Some sa =>
                if negb (le_word (take 2 sa) =? AF_INET) then 0 else bswap16 (le_word (take 2 (drop 2 sa)))
            end
      end
  end.

Definition is_mdns_exchange (conn : connection_info) (msg : option msghdr) : bool :=
  if is_mdns_port (s_port conn) && is_mdns_port (d_port conn) then true
  else if negb (is_mdns_port (s_port conn)) && negb (is_mdns_port (d_port conn)) then false
  else if nz (d_port conn) then false
  else is_mdns_port (obi_msg_name_port msg).

Inductive dns_msg_class := k_dns_msg_unknown | k_dns_msg_yes | k_dns_msg_no.

#[export] Instance dns_msg_class_eq_dec : EqDecision dns_msg_class.
Proof. solve_decision. Defined.

Definition classify_dns_msg (conn : connection_info) (msg : option msghdr) : dns_msg_class :=
  if is_dns conn then k_dns_msg_yes
  else if nz (d_port conn) then k_dns_msg_no
  else
    let peer_port := obi_msg_name_port msg in
    if peer_port =? 0 then k_dns_msg_unknown
    else if is_dns_port peer_port then k_dns_msg_yes
    else k_dns_msg_no.

Definition is_dns_msg (conn : connection_info) (msg : option msghdr) : bool :=
  bool_decide (classify_dns_msg conn msg = k_dns_msg_yes).

(** ** State *)

Record conn_pid := mk_conn_pid { cp_p_info : pid_info; cp_p_key : pid_key; cp_id : Z; cp_pid_ts : Z }.

Record unconn_dns_sock := mk_dns_sock { us_last_query_ns : Z; us_s_addr : list Z; us_s_port : Z }.
Record unconn_dns_pending := mk_dns_pending { up_sk : Z; up_s_addr : list Z; up_s_port : Z }.

Record dns_req := mk_dns_req {
  dr_flags : Z;
  dr_dns_q : Z;
  dr_parent_status : Z;
  dr_len : Z;
  dr_conn : connection_info;
  dr_id : Z;
  dr_tp : tp_info;
  dr_pid : pid_info;
  dr_buf : list Z
}.

Record dns_state := mk_dns {
  ds_maps : tmaps;
  unconn_dns_socks : gmap Z unconn_dns_sock;
  dns_pending : gmap Z unconn_dns_pending;
  sock_pids : gmap connection_info conn_pid;
  dns_events : list dns_req
}.

Definition set_dns_socks (st : dns_state) x : dns_state := mk_dns (ds_maps st) x (dns_pending st) (sock_pids st) (dns_events st).
Definition set_dns_pending (st : dns_state) x : dns_state := mk_dns (ds_maps st) (unconn_dns_socks st) x (sock_pids st) (dns_events st).
Definition set_sock_pids (st : dns_state) x : dns_state := mk_dns (ds_maps st) (unconn_dns_socks st) (dns_pending st) x (dns_events st).

(** Clock (the readings in order), random identifiers and the ring buffer of one probe; [de_stale_tp] and [de_stale_buf] are what
    the reserved record holds before it is written. *)
Record dns_env := mk_dns_env {
  de_now : nat -> Z;
  de_accepts : bool;
  de_span : list Z;
  de_trace : list Z;
  de_sampler : option sampler;
  de_stale_tp : tp_info;
  de_stale_buf : list Z
}.

(** ** The window *)

Definition obi_same_local_addr (state : unconn_dns_sock) (conn : connection_info) : bool :=
  (us_s_port state =? s_port conn) && bool_decide (us_s_addr state = s_addr conn).

Definition obi_forget_unconn_dns_sock (st : dns_state) (sk : Z) : dns_state :=
  set_dns_socks st (delete sk (unconn_dns_socks st)).

Definition obi_note_unconn_dns_query (st : dns_state) (now sk : Z) (conn : connection_info) : dns_state :=
  set_dns_socks st (<[sk := mk_dns_sock now (s_addr conn) (s_port conn)]> (unconn_dns_socks st)).

Definition obi_stage_unconn_dns_query (st : dns_state) (pid_tid sk : Z) (conn : connection_info) : dns_state :=
  set_dns_pending st (<[pid_tid := mk_dns_pending sk (s_addr conn) (s_port conn)]> (dns_pending st)).

Definition obi_discard_unconn_dns_query (st : dns_state) (pid_tid : Z) : dns_state :=
  set_dns_pending st (delete pid_tid (dns_pending st)).

Definition obi_commit_unconn_dns_query (st : dns_state) (now pid_tid : Z) : dns_state :=
  match dns_pending st !! pid_tid with
  | None => st
  | Some pending =>
      let local_conn := mk_conn (up_s_addr pending) (repeat 0 16) (up_s_port pending) 0 in
      obi_discard_unconn_dns_query (obi_note_unconn_dns_query st now (up_sk pending) local_conn) pid_tid
  end.

Definition obi_unconn_dns_answer_expected (st : dns_state) (now sk : Z) (conn : connection_info) : bool * dns_state :=
  match unconn_dns_socks st !! sk with
  | None => (false, st)
  | Some state =>
      if negb (obi_same_local_addr state conn) then (false, obi_forget_unconn_dns_sock st sk)
      else if k_unconn_dns_answer_timeout_ns <? u64 (now - us_last_query_ns state) then (false, obi_forget_unconn_dns_sock st sk)
      else (true, st)
  end.

(** ** The record *)

Section dns.
Variables (c : tconf) (l : links).

Definition populate_dns_record (e : dns_env) (m : tmaps) (p_conn : pid_connection_info) (orig_dport size qr id : Z)
    (p : conn_pid) (b : list Z) : dns_req * tmaps :=
  let tp := mk_tp_info (trace_id (de_stale_tp e)) (span_id (de_stale_tp e)) (parent_id (de_stale_tp e)) (de_now e 1%nat) (flags (de_stale_tp e)) in
  let t_key := mk_trace_key (extra_runtime_id_with_task_id l (cp_id p)) (cp_p_key p) in
  let '(found, tp, m) := find_trace_for_client_request_with_t_key c l m p_conn orig_dport t_key (cp_id p) k_lw_thread_none tp in
  let tp :=
    if nz found then mk_tp_info (trace_id tp) (de_span e) (parent_id tp) (ts tp) (flags tp)
    else sample_new_trace_for_pid (mk_tp_info (de_trace e) (de_span e) (repeat 0 8) (de_now e 2%nat) (flags tp)) (de_sampler e) in
  (mk_dns_req k_event_type_dns_request qr found size (pc_conn p_conn) (bswap16 id) tp (cp_p_info p) b, m).

Definition submit_dns (st : dns_state) (r : dns_req * tmaps) : dns_state :=
  mk_dns (snd r) (unconn_dns_socks st) (dns_pending st) (sock_pids st) (dns_events st ++ [fst r]).

(** [b] is the scratch memory, [size] an [int] compared as a [size_t]. *)
Definition handle_dns_buf (e : dns_env) (st : dns_state) (b : list Z) (size : Z) (p_conn : pid_connection_info) (orig_dport : Z)
    (msg : option msghdr) : bool * dns_state :=
  if u64 size <? dnshdr_size then (false, st)
  else
    let hdr := load_dnshdr b in
    let flags := bswap16 (dh_flags hdr) in
    if dns_header_is_plausible hdr flags (u32 size) (is_mdns_exchange (pc_conn p_conn) msg) then
      match sock_pids st !! pc_conn p_conn with
      | None => (false, st)
      | Some p =>
          (true,
           if de_accepts e then
             submit_dns st (populate_dns_record e (ds_maps st) p_conn orig_dport (u32 size) (dns_qr flags) (dh_id hdr) p
                              (take (Z.to_nat k_dns_max_len) b))
           else st)
      end
    else (false, st).

(** ** The probes *)

Definition store_sock_pid (st : dns_state) (t : task) (now : Z) (sk_conn : option connection_info) : dns_state :=
  match sk_conn with
  | None => st
  | Some conn =>
      let p := mk_conn_pid (cur_pid t) (fst (java_vt_translate_tid l (cur_tid t))) (cur_pid_tgid t) now in
      set_sock_pids st (<[sort_connection_info conn := p]> (sock_pids st))
  end.

(** [ok] is [valid_pid]; [sk_conn] the connection of the socket at address [sk]; [b] the scratch memory. *)
Definition obi_kprobe_udp_sendmsg (e : dns_env) (v : iov_env) (st : dns_state) (t : task) (ok : bool) (sk : Z)
    (sk_conn : option connection_info) (msg : msghdr) (len : Z) (b : list Z) : dns_state :=
  if negb ok then st
  else
    let id := cur_pid_tgid t in
    let st := store_sock_pid st t (de_now e 0%nat) sk_conn in
    let st := obi_discard_unconn_dns_query st id in
    match sk_conn with
    | None => st
    | Some local_conn =>
        let orig_dport := d_port local_conn in
        if is_dns_msg local_conn (Some msg) then
          let p_conn := mk_pid_conn (sort_connection_info local_conn) (pid_from_pid_tgid id) in
          let '(len, b) := read_msghdr_buf v (msg_iter msg) b len in
          if nz len then
            let '(reported, st) := handle_dns_buf e st b len p_conn orig_dport (Some msg) in
            if reported && (orig_dport =? 0) then obi_stage_unconn_dns_query st id sk local_conn else st
          else st
        else st
    end.

Definition obi_kretprobe_udp_sendmsg (st : dns_state) (now id : Z) (ok : bool) (ret : Z) : dns_state :=
  if negb ok then st
  else if 0 <? ret then obi_commit_unconn_dns_query st now id
  else obi_discard_unconn_dns_query st id.

Definition obi_kprobe_udp_destroy_sock (st : dns_state) (sk : Z) : dns_state := obi_forget_unconn_dns_sock st sk.

(** The datagram a receive copied out, read back from the caller's buffers: [ctx] is the iterator kept
    at entry, [copied_len] what the call returned. *)
Definition report_datagram (e : dns_env) (v : iov_env) (st : dns_state) (info : pid_connection_info) (orig_dport : Z)
    (msg : option msghdr) (ctx : iovec_iter_ctx) (copied_len : Z) (b : list Z) : dns_state :=
  if (it_iov ctx =? 0) && (it_ubuf ctx =? 0) then st
  else
    let '(copied_len, b) := read_iovec_ctx v ctx b (u64 copied_len) in
    if copied_len =? 0 then st else snd (handle_dns_buf e st b copied_len info orig_dport msg).

(** The DNS part of the return of [sock_recvmsg]; [local_conn] is the connection as the socket has it. *)
Definition recvmsg_dns (e : dns_env) (v : iov_env) (st : dns_state) (id sk : Z) (local_conn : connection_info) (msg : option msghdr)
    (ctx : iovec_iter_ctx) (copied_len : Z) (b : list Z) : dns_state :=
  let orig_dport := d_port local_conn in
  let conn := sort_connection_info local_conn in
  let dns_class := classify_dns_msg conn msg in
  let '(dns, st) :=
    if bool_decide (dns_class = k_dns_msg_unknown) && (orig_dport =? 0) then
      obi_unconn_dns_answer_expected st (de_now e 0%nat) sk local_conn
    else (bool_decide (dns_class = k_dns_msg_yes), st) in
  if dns then
    report_datagram e v st (mk_pid_conn (sort_connection_info conn) (pid_from_pid_tgid id)) orig_dport msg ctx copied_len b
  else st.

(** The socket filter: a DNS packet over UDP, or at the start of a TCP segment. *)
Definition handle_dns (e : dns_env) (st : dns_state) (skb : list Z) (conn : connection_info) (p_info : protocol_info) : bool * dns_state :=
  let l4_off := pi_ip_len p_info in
  let dns_off :=
    if pi_l4_proto p_info =? IPPROTO_UDP then Some (u16 (l4_off + 8))
    else if pi_l4_proto p_info =? IPPROTO_TCP then
      match skb_load_bytes skb l4_off 20 with
      | None => None
      | Some tcph => Some (u16 (l4_off + u8 (Z.shiftr (nth 12 tcph 0) 4 * 4) + 2))
      end
    else None in
  match dns_off with
  | None => (false, st)
  | Some dns_off =>
      if zlen skb <? dns_off + dnshdr_size then (false, st)
      else
        match skb_load_bytes skb dns_off 12 with
        | None => (false, st)
        | Some h =>
            let hdr := load_dnshdr h in
            let qr := dns_qr (bswap16 (dh_flags hdr)) in
            if (qr =? k_dns_qr_query) || (qr =? k_dns_qr_resp) then
              let orig_dport := d_port conn in
              let conn := sort_connection_info conn in
              match sock_pids st !! conn with
              | None => (false, st)
              | Some p =>
                  let p_conn := mk_pid_conn conn (host_pid (cp_p_info p)) in
                  (true,
                   if de_accepts e then
                     let len := clamp_umax (u32 (zlen skb - dns_off)) k_dns_max_len in
                     submit_dns st (populate_dns_record e (ds_maps st) p_conn orig_dport len qr (dh_id hdr) p
                                      (read_skb_bytes skb dns_off (de_stale_buf e) len k_dns_max_len))
                   else st)
              end
            else (false, st)
        end
  end.

End dns.

(** ** Messages *)

Inductive dns_name := name_root | name_pointer (off : Z) | name_label (label : list Z) (rest : dns_name).

Fixpoint encode_name (n : dns_name) : list Z :=
  match n with
  | name_root => [0]
  | name_pointer off => be_bytes 2 (0xC000 + off)
  | name_label label rest => zlen label :: label ++ encode_name rest
  end.

Record dns_question := mk_question { q_name : dns_name; q_type : Z; q_class : Z }.
Record dns_rr := mk_rr { rr_name : dns_name; rr_type : Z; rr_class : Z; rr_ttl : Z; rr_data : list Z }.

Definition encode_question (q : dns_question) : list Z := encode_name (q_name q) ++ be_bytes 2 (q_type q) ++ be_bytes 2 (q_class q).
Definition encode_rr (r : dns_rr) : list Z :=
  encode_name (rr_name r) ++ be_bytes 2 (rr_type r) ++ be_bytes 2 (rr_class r) ++ be_bytes 4 (rr_ttl r) ++ be_bytes 2 (zlen (rr_data r))
  ++ rr_data r.

Record dns_message := mk_message {
  dm_id : Z;
  dm_flags : Z;
  dm_qd : list dns_question;
  dm_an : list dns_rr;
  dm_ns : list dns_rr;
  dm_ar : list dns_rr
}.

Definition encode_header (m : dns_message) : list Z :=
  be_bytes 2 (dm_id m) ++ be_bytes 2 (dm_flags m) ++ be_bytes 2 (zlen (dm_qd m)) ++ be_bytes 2 (zlen (dm_an m))
  ++ be_bytes 2 (zlen (dm_ns m)) ++ be_bytes 2 (zlen (dm_ar m)).

Definition encode_body (m : dns_message) : list Z :=
  concat (map encode_question (dm_qd m)) ++ concat (map encode_rr (dm_an m ++ dm_ns m ++ dm_ar m)).

Definition encode_message (m : dns_message) : list Z := encode_header m ++ encode_body m.

(** A standard query or its response; only multicast DNS may ask nothing, or answer in a query. *)
Record lookup_message (mdns : bool) (m : dns_message) : Prop := mk_lookup {
  lm_id : 0 <= dm_id m < 2 ^ 16;
  lm_flags : 0 <= dm_flags m < 2 ^ 16;
  lm_qd : zlen (dm_qd m) < 2 ^ 16;
  lm_an : zlen (dm_an m) < 2 ^ 16;
  lm_ns : zlen (dm_ns m) < 2 ^ 16;
  lm_ar : zlen (dm_ar m) < 2 ^ 16;
  lm_opcode : dns_opcode (dm_flags m) = 0;
  lm_reserved : dns_z (dm_flags m) = 0;
  lm_records : 0 < zlen (dm_qd m) + zlen (dm_an m) + zlen (dm_ns m) + zlen (dm_ar m);
  lm_query : dns_qr (dm_flags m) = k_dns_qr_query -> mdns = false -> dm_qd m <> [] /\ dm_an m = []
}.

Lemma encode_name_pos n : 1 <= zlen (encode_name n).
Proof. destruct n; unfold zlen; simpl; lia. Qed.

Lemma concat_min {A} (f : A -> list Z) k : (forall x, k <= zlen (f x)) -> forall xs : list A, k * zlen xs <= zlen (concat (map f xs)).
Proof.
  intros Hf xs. induction xs as [|x xs IH]; [unfold zlen; simpl; lia|]. simpl. rewrite zlen_app. specialize (Hf x).
  change (zlen (x :: xs)) with (Z.of_nat (S (length xs))). unfold zlen in *. lia.
Qed.

Lemma encode_question_min q : k_dns_min_question_bytes <= zlen (encode_question q).
Proof. unfold encode_question. rewrite !zlen_app, !zlen_be. pose proof (encode_name_pos (q_name q)). kunfold. lia. Qed.

Lemma encode_rr_min r : k_dns_min_rr_bytes <= zlen (encode_rr r).
Proof.
  unfold encode_rr. rewrite !zlen_app, !zlen_be. pose proof (encode_name_pos (rr_name r)). pose proof (zlen_nonneg (rr_data r)). kunfold. lia.
Qed.

Lemma encode_body_min m :
  zlen (dm_qd m) * k_dns_min_question_bytes + (zlen (dm_an m) + zlen (dm_ns m) + zlen (dm_ar m)) * k_dns_min_rr_bytes <= zlen (encode_body m).
Proof.
  unfold encode_body. rewrite zlen_app.
  pose proof (concat_min encode_question _ encode_question_min (dm_qd m)).
  pose proof (concat_min encode_rr _ encode_rr_min (dm_an m ++ dm_ns m ++ dm_ar m)) as H2. rewrite !zlen_app in H2. lia.
Qed.

Lemma take2_be x l : take 2 (be_bytes 2 x ++ l) = be_bytes 2 x.
Proof. apply (take_app_length' (be_bytes 2 x)). done. Qed.

Lemma drop2_be n x l : drop (S (S n)) (be_bytes 2 x ++ l) = drop n l.
Proof. done. Qed.

Lemma load_encoded m l :
  let h := load_dnshdr (encode_header m ++ l) in
  dh_id h = le_word (be_bytes 2 (dm_id m)) /\ dh_flags h = le_word (be_bytes 2 (dm_flags m))
  /\ dh_qdcount h = le_word (be_bytes 2 (zlen (dm_qd m))) /\ dh_ancount h = le_word (be_bytes 2 (zlen (dm_an m)))
  /\ dh_nscount h = le_word (be_bytes 2 (zlen (dm_ns m))) /\ dh_arcount h = le_word (be_bytes 2 (zlen (dm_ar m))).
Proof.
  unfold encode_header, load_dnshdr. rewrite <- !app_assoc. cbn [dh_id dh_flags dh_qdcount dh_ancount dh_nscount dh_arcount].
  rewrite !drop2_be, !drop_0, !take2_be. done.
Qed.

(** Every lookup message passes, and so does any front of it when it says that it is truncated. *)
Lemma lookup_is_plausible mdns m l size :
  lookup_message mdns m -> dnshdr_size <= size < 2 ^ 32 -> zlen (encode_message m) <= size \/ dns_tc (dm_flags m) = 1 ->
  dns_header_is_plausible (load_dnshdr (encode_header m ++ l)) (dm_flags m) size mdns = true.
Proof.
  intros [Hid Hfl Hqd Han Hns Har Hop Hz Hrec Hq] Hsize Hlen. unfold dns_header_is_plausible.
  destruct (load_encoded m l) as (_ & _ & -> & -> & -> & ->).
  pose proof (zlen_nonneg (dm_qd m)). pose proof (zlen_nonneg (dm_an m)). pose proof (zlen_nonneg (dm_ns m)). pose proof (zlen_nonneg (dm_ar m)).
  rewrite Hop, Hz, !be16_le_word by lia. cbn [nz negb]. rewrite (proj2 (Z.eqb_neq (_ + _ + _ + _) 0)) by lia.
  assert (Hqf : (dns_qr (dm_flags m) =? k_dns_qr_query) && negb mdns && ((zlen (dm_qd m) =? 0) || nz (zlen (dm_an m))) = false).
  { destruct (Z.eqb_spec (dns_qr (dm_flags m)) k_dns_qr_query) as [Hqr|]; [|done]. destruct mdns; [done|]. destruct (Hq Hqr eq_refl) as [Hne ->].
    destruct (dm_qd m); done. }
  rewrite Hqf. destruct Hlen as [Hlen| ->]; [|done]. destruct (nz (dns_tc (dm_flags m))); [done|].
  pose proof (encode_body_min m) as Hb. unfold encode_message in Hlen. rewrite zlen_app in Hlen.
  assert (Hh : zlen (encode_header m) = dnshdr_size) by (unfold encode_header; rewrite !zlen_app, !zlen_be; done).
  kunfold. rewrite (wrap_small 32 (zlen (dm_an m) + zlen (dm_ns m))), (wrap_small 32 (_ + zlen (dm_ar m))) by lia.
  rewrite (wrap_small 32 (zlen (dm_qd m) * _)), (wrap_small 32 (_ * (1 + 2 + 2 + 4 + 2))), (wrap_small 32 (size - _)) by lia.
  rewrite (wrap_small 32) by lia. apply Z.leb_le. lia.
Qed.

(** The record a message leaves. *)
Definition reports (e : dns_env) (m : dns_message) (size : Z) (conn : connection_info) (p : conn_pid) (b : list Z) (r : dns_req) : Prop :=
  dr_flags r = k_event_type_dns_request /\ dr_dns_q r = dns_qr (dm_flags m) /\ dr_id r = dm_id m /\ dr_len r = size
  /\ dr_conn r = conn /\ dr_pid r = cp_p_info p /\ dr_buf r = take (Z.to_nat k_dns_max_len) b.

(** A buffer with a lookup message, whole or marked as truncated, is reported. *)
Lemma handle_reports c l e st m size b p_conn orig_dport msg p :
  let mdns := is_mdns_exchange (pc_conn p_conn) msg in
  lookup_message mdns m -> firstn 12 b = encode_header m -> dnshdr_size <= size < 2 ^ 31 ->
  zlen (encode_message m) <= size \/ dns_tc (dm_flags m) = 1 -> sock_pids st !! pc_conn p_conn = Some p ->
  let '(ok, st') := handle_dns_buf c l e st b size p_conn orig_dport msg in
  ok = true /\ unconn_dns_socks st' = unconn_dns_socks st /\ dns_pending st' = dns_pending st /\ sock_pids st' = sock_pids st
  /\ if de_accepts e then exists r, dns_events st' = dns_events st ++ [r] /\ reports e m size (pc_conn p_conn) p b r
     else st' = st.
Proof.
  intros mdns Hm Hb Hs Hlen Hp. unfold handle_dns_buf. rewrite (wrap_small 64 size), (wrap_small 32 size) by (kunfold; lia).
  rewrite (proj2 (Z.ltb_ge size dnshdr_size)) by lia. rewrite <- (firstn_skipn 12 b), Hb.
  pose proof (lookup_is_plausible mdns m (skipn 12 b) size Hm ltac:(kunfold; lia) Hlen) as Hpl.
  destruct (load_encoded m (skipn 12 b)) as (Hid & Hfl & _). rewrite Hfl, be16_le_word by apply Hm. fold mdns. rewrite Hpl, Hp.
  destruct (de_accepts e); [|done]. unfold submit_dns, populate_dns_record.
  destruct (find_trace_for_client_request_with_t_key _ _ _ _ _ _ _ _ _) as [[found tp] m']. cbn [unconn_dns_socks dns_pending sock_pids dns_events fst].
  repeat (split; [done|]). eexists. split; [done|]. unfold reports. cbn [dr_flags dr_dns_q dr_id dr_len dr_conn dr_pid dr_buf].
  rewrite Hid, be16_le_word by apply Hm. done.
Qed.

(** ** Histories *)

(** What can happen to the window, in the order in which the probes run: the probes of this file, the
    loss of entries of the LRU maps, and the other probes, which write [sock_pids] and the trace maps. *)
Inductive dns_event :=
  | ev_send (l : links) (e : dns_env) (v : iov_env) (t : task) (ok : bool) (sk : Z) (sk_conn : option connection_info)
      (msg : msghdr) (len : Z) (b : list Z)
  | ev_send_ret (now id : Z) (ok : bool) (ret : Z)
  | ev_destroy (sk : Z)
  | ev_recv (l : links) (e : dns_env) (v : iov_env) (id sk : Z) (local_conn : connection_info) (msg : option msghdr)
      (ctx : iovec_iter_ctx) (copied_len : Z) (b : list Z)
  | ev_evict (socks pending : list Z)
  | ev_others (m : tmaps) (pids : gmap connection_info conn_pid).

Definition forget_keys {A} (ks : list Z) (m : gmap Z A) : gmap Z A := foldr delete m ks.

Definition dns_step (c : tconf) (st : dns_state) (ev : dns_event) : dns_state :=
  match ev with
  | ev_send l e v t ok sk sk_conn msg len b => obi_kprobe_udp_sendmsg c l e v st t ok sk sk_conn msg len b
  | ev_send_ret now id ok ret => obi_kretprobe_udp_sendmsg st now id ok ret
  | ev_destroy sk => obi_kprobe_udp_destroy_sock st sk
  | ev_recv l e v id sk conn msg ctx n b => recvmsg_dns c l e v st id sk conn msg ctx n b
  | ev_evict socks pending =>
      mk_dns (ds_maps st) (forget_keys socks (unconn_dns_socks st)) (forget_keys pending (dns_pending st)) (sock_pids st) (dns_events st)
  | ev_others m pids => mk_dns m (unconn_dns_socks st) (dns_pending st) pids (dns_events st)
  end.

Definition dns_run (c : tconf) (st : dns_state) (h : list dns_event) : dns_state := fold_left (dns_step c) h st.

(** A probe of [udp_sendmsg] on thread [id]. *)
Definition on_thread (id : Z) (ev : dns_event) : Prop :=
  match ev with
  | ev_send _ _ _ t true _ _ _ _ _ => cur_pid_tgid t = id
  | ev_send_ret _ id' true _ => id' = id
  | _ => False
  end.

(** The payload of a send is read and is structurally a DNS message for a DNS port. *)
Definition sends_query (v : iov_env) (lc : connection_info) (msg : msghdr) (len : Z) (b : list Z) : Prop :=
  is_dns_msg lc (Some msg) = true /\ d_port lc = 0
  /\ let '(n, b) := read_msghdr_buf v (msg_iter msg) b len in
     dns_header_is_plausible (load_dnshdr b) (bswap16 (dh_flags (load_dnshdr b))) (u32 n)
       (is_mdns_exchange (sort_connection_info lc) (Some msg)) = true.

(** The history ends in a query staged by thread [id], with nothing of [udp_sendmsg] on the thread since. *)
Definition staged (h : list dns_event) (id : Z) (p : unconn_dns_pending) : Prop :=
  exists h1 h2 l e v t lc msg len b,
    h = h1 ++ ev_send l e v t true (up_sk p) (Some lc) msg len b :: h2 /\ cur_pid_tgid t = id
    /\ up_s_addr p = s_addr lc /\ up_s_port p = s_port lc /\ sends_query v lc msg len b /\ Forall (fun ev => ~ on_thread id ev) h2.

(** The staged query was sent at [us_last_query_ns r], and its socket has not been destroyed since. *)
Definition asked (h : list dns_event) (sk : Z) (r : unconn_dns_sock) : Prop :=
  exists h0 h3 id p ret,
    h = h0 ++ ev_send_ret (us_last_query_ns r) id true ret :: h3 /\ 0 < ret /\ staged h0 id p
    /\ up_sk p = sk /\ us_s_addr r = up_s_addr p /\ us_s_port r = up_s_port p /\ Forall (fun ev => ev <> ev_destroy sk) h3.

Lemma staged_snoc h id p ev : staged h id p -> ~ on_thread id ev -> staged (h ++ [ev]) id p.
Proof.
  intros (h1 & h2 & l & e & v & t & lc & msg & len & b & -> & ? & ? & ? & ? & Hq) Hn. exists h1, (h2 ++ [ev]), l, e, v, t, lc, msg, len, b.
  rewrite <- app_assoc. repeat (split; [done|]). apply Forall_app_2; [done|by constructor].
Qed.

Lemma asked_snoc h sk r ev : asked h sk r -> ev <> ev_destroy sk -> asked (h ++ [ev]) sk r.
Proof.
  intros (h0 & h3 & id & p & ret & -> & ? & ? & ? & ? & ? & Hq) Hn. exists h0, (h3 ++ [ev]), id, p, ret.
  rewrite <- app_assoc. repeat (split; [done|]). apply Forall_app_2; [done|by constructor].
Qed.

Lemma handle_dns_buf_keeps c l e st b size p_conn dport msg :
  let st' := snd (handle_dns_buf c l e st b size p_conn dport msg) in
  unconn_dns_socks st' = unconn_dns_socks st /\ dns_pending st' = dns_pending st.
Proof.
  unfold handle_dns_buf. destruct (_ <? _); [done|]. cbv zeta. destruct (dns_header_is_plausible _ _ _ _); [|done].
  destruct (_ !! _); [|done]. destruct (de_accepts e); done.
Qed.

Lemma handle_dns_buf_plausible c l e st b size p_conn dport msg :
  fst (handle_dns_buf c l e st b size p_conn dport msg) = true ->
  dns_header_is_plausible (load_dnshdr b) (bswap16 (dh_flags (load_dnshdr b))) (u32 size) (is_mdns_exchange (pc_conn p_conn) msg) = true.
Proof.
  unfold handle_dns_buf. destruct (_ <? _); [done|]. cbv zeta. by destruct (dns_header_is_plausible _ _ _ _).
Qed.

(** What a send leaves in the two maps: the windows stay, and its thread has the query or nothing. *)
Lemma sendmsg_effect c l e v st t ok sk sk_conn msg len b :
  let st' := obi_kprobe_udp_sendmsg c l e v st t ok sk sk_conn msg len b in
  unconn_dns_socks st' = unconn_dns_socks st
  /\ (forall id, id <> cur_pid_tgid t -> dns_pending st' !! id = dns_pending st !! id)
  /\ (if ok then forall p, dns_pending st' !! cur_pid_tgid t = Some p ->
        up_sk p = sk /\ exists lc, sk_conn = Some lc /\ up_s_addr p = s_addr lc /\ up_s_port p = s_port lc /\ sends_query v lc msg len b
      else st' = st).
Proof.
  unfold obi_kprobe_udp_sendmsg. cbv zeta. destruct ok; [|done]. cbn [negb]. cbv match. set (id := cur_pid_tgid t).
  set (st1 := obi_discard_unconn_dns_query _ id).
  assert (H1 : unconn_dns_socks st1 = unconn_dns_socks st /\ dns_pending st1 = delete id (dns_pending st))
    by (unfold st1, store_sock_pid; by destruct sk_conn).
  assert (Hnone : unconn_dns_socks st1 = unconn_dns_socks st
    /\ (forall id', id' <> id -> dns_pending st1 !! id' = dns_pending st !! id') /\ dns_pending st1 !! id = None).
  { destruct H1 as [-> ->]. split; [done|]. split; [|by simplify_map_eq]. intros. by rewrite lookup_delete_ne. }
  clearbody st1. clear H1. destruct Hnone as (Hs & Ho & Hid).
  assert (Hkeep : forall st2, unconn_dns_socks st2 = unconn_dns_socks st1 -> dns_pending st2 = dns_pending st1 ->
    unconn_dns_socks st2 = unconn_dns_socks st /\ (forall id', id' <> id -> dns_pending st2 !! id' = dns_pending st !! id')
    /\ forall p, dns_pending st2 !! id = Some p -> up_sk p = sk /\ exists lc, sk_conn = Some lc /\ up_s_addr p = s_addr lc
         /\ up_s_port p = s_port lc /\ sends_query v lc msg len b).
  { intros st2 -> ->. split; [done|]. split; [done|]. intros p. by rewrite Hid. }
  destruct sk_conn as [lc|]; [|by apply Hkeep]. destruct (is_dns_msg lc (Some msg)) eqn:Hdns; [|by apply Hkeep].
  destruct (read_msghdr_buf v (msg_iter msg) b len) as [n b'] eqn:Hrd. destruct (nz n); [|by apply Hkeep].
  match goal with |- context [handle_dns_buf ?c ?l ?e ?st ?b ?n ?pc ?d ?m] =>
    pose proof (handle_dns_buf_keeps c l e st b n pc d m) as [Hk1 Hk2]; pose proof (handle_dns_buf_plausible c l e st b n pc d m) as Hpl;
    destruct (handle_dns_buf c l e st b n pc d m) as [reported st2] end.
  cbn [fst snd pc_conn] in *. destruct reported; [|by apply Hkeep]. destruct (Z.eqb_spec (d_port lc) 0) as [Hd|]; [|by apply Hkeep].
  cbn [andb]. unfold obi_stage_unconn_dns_query. cbn [unconn_dns_socks dns_pending set_dns_pending]. rewrite Hk1, Hk2.
  split; [done|]. split; [intros; rewrite lookup_insert_ne by done; auto|]. intros p. rewrite lookup_insert_eq. intros [= <-].
  split; [done|]. exists lc. repeat (split; [done|]). unfold sends_query. rewrite Hrd. auto.
Qed.

Lemma expected_effect st now sk conn :
  let st' := snd (obi_unconn_dns_answer_expected st now sk conn) in
  dns_pending st' = dns_pending st /\ forall k r, unconn_dns_socks st' !! k = Some r -> unconn_dns_socks st !! k = Some r.
Proof.
  unfold obi_unconn_dns_answer_expected. cbv zeta. destruct (unconn_dns_socks st !! sk) as [r0|]; [|done].
  assert (Hd : forall k r, unconn_dns_socks (obi_forget_unconn_dns_sock st sk) !! k = Some r -> unconn_dns_socks st !! k = Some r).
  { intros k r. cbn [obi_forget_unconn_dns_sock unconn_dns_socks set_dns_socks]. rewrite lookup_delete_Some. tauto. }
  destruct (obi_same_local_addr r0 conn); [|done]. cbn [negb]. destruct (_ <? _); done.
Qed.

Lemma report_datagram_keeps c l e v st info dport msg ctx n b :
  let st' := report_datagram c l e v st info dport msg ctx n b in
  unconn_dns_socks st' = unconn_dns_socks st /\ dns_pending st' = dns_pending st.
Proof.
  unfold report_datagram. destruct (_ && _); [done|]. destruct (read_iovec_ctx v ctx b (u64 n)) as [m b']. destruct (m =? 0); [done|].
  apply handle_dns_buf_keeps.
Qed.

(** A receive only closes windows. *)
Lemma recvmsg_effect c l e v st id sk conn msg ctx n b :
  let st' := recvmsg_dns c l e v st id sk conn msg ctx n b in
  dns_pending st' = dns_pending st /\ forall k r, unconn_dns_socks st' !! k = Some r -> unconn_dns_socks st !! k = Some r.
Proof.
  unfold recvmsg_dns. cbv zeta.
  assert (H : forall st1 (d : bool) pc, dns_pending st1 = dns_pending st ->
    (forall k r, unconn_dns_socks st1 !! k = Some r -> unconn_dns_socks st !! k = Some r) ->
    let st' := if d then report_datagram c l e v st1 pc (d_port conn) msg ctx n b else st1 in
    dns_pending st' = dns_pending st /\ forall k r, unconn_dns_socks st' !! k = Some r -> unconn_dns_socks st !! k = Some r).
  { intros st1 [] pc H1 H2; [|done]. destruct (report_datagram_keeps c l e v st1 pc (d_port conn) msg ctx n b) as [E1 E2].
    cbv zeta. rewrite E1, E2. done. }
  destruct (bool_decide _ && _); [|by apply H].
  pose proof (expected_effect st (de_now e 0%nat) sk conn) as [E1 E2]. destruct (obi_unconn_dns_answer_expected _ _ _ _) as [d st1]. by apply H.
Qed.

(** ** Provenance *)

Lemma forget_keys_Some {A} ks (m : gmap Z A) k x : forget_keys ks m !! k = Some x -> m !! k = Some x.
Proof. induction ks as [|k' ks IH]; [done|]. simpl. rewrite lookup_delete_Some. intros [_ ?]. auto. Qed.

(** Every pending query and every window has its cause in the history. *)
Definition caused (h : list dns_event) (st : dns_state) : Prop :=
  (forall id p, dns_pending st !! id = Some p -> staged h id p) /\ (forall sk r, unconn_dns_socks st !! sk = Some r -> asked h sk r).

Lemma caused_sub h st st' ev : caused h st -> (forall id, ~ on_thread id ev) -> (forall sk, ev <> ev_destroy sk) ->
  (forall id p, dns_pending st' !! id = Some p -> dns_pending st !! id = Some p) ->
  (forall sk r, unconn_dns_socks st' !! sk = Some r -> unconn_dns_socks st !! sk = Some r) -> caused (h ++ [ev]) st'.
Proof. intros [Hp Hs] Ht Hd H1 H2. split; intros; [apply staged_snoc|apply asked_snoc]; auto. Qed.

Lemma caused_send h c l e v st t ok sk sk_conn msg len b : caused h st ->
  caused (h ++ [ev_send l e v t ok sk sk_conn msg len b]) (obi_kprobe_udp_sendmsg c l e v st t ok sk sk_conn msg len b).
Proof.
  intros [Hp Hs]. destruct (sendmsg_effect c l e v st t ok sk sk_conn msg len b) as (E1 & E2 & E3). cbv zeta in *. split.
  - intros id p Hid. destruct ok.
    + destruct (decide (id = cur_pid_tgid t)) as [->|Hne].
      * destruct (E3 p Hid) as (<- & lc & -> & ? & ? & ?). exists h, [], l, e, v, t, lc, msg, len, b. by repeat (split; [done|]).
      * rewrite E2 in Hid by done. apply staged_snoc; [auto|]. simpl. congruence.
    + rewrite E3 in Hid. apply staged_snoc; [auto|]. simpl. tauto.
  - intros k r. rewrite E1. intros. apply asked_snoc; [auto|done].
Qed.

Lemma caused_ret h st now id ok ret : caused h st -> caused (h ++ [ev_send_ret now id ok ret]) (obi_kretprobe_udp_sendmsg st now id ok ret).
Proof.
  intros [Hp Hs]. unfold obi_kretprobe_udp_sendmsg. destruct ok; cbn [negb].
  2:{ split; intros; [apply staged_snoc|apply asked_snoc]; simpl; auto. }
  assert (Hdel : forall id' p, delete id (dns_pending st) !! id' = Some p -> staged (h ++ [ev_send_ret now id true ret]) id' p).
  { intros id' p [? ?]%lookup_delete_Some. apply staged_snoc; [auto|]. simpl. congruence. }
  destruct (Z.ltb_spec 0 ret) as [Hret|].
  2:{ split; [exact Hdel|]. intros. apply asked_snoc; [auto|done]. }
  unfold obi_commit_unconn_dns_query. destruct (dns_pending st !! id) as [p|] eqn:Hid.
  2:{ split; intros id' p Hid'; [apply staged_snoc; [auto|simpl; congruence]|apply asked_snoc; [auto|done]]. }
  split; [exact Hdel|]. intros sk r. cbn [obi_discard_unconn_dns_query obi_note_unconn_dns_query unconn_dns_socks set_dns_pending set_dns_socks s_addr s_port].
  rewrite lookup_insert_Some. intros [[<- <-]|[_ Hr]]; [|apply asked_snoc; [auto|done]].
  exists h, [], id, p, ret. repeat (split; [by auto|]). done.
Qed.

Lemma caused_run c st h : caused [] st -> caused h (dns_run c st h).
Proof.
  intros H0. induction h as [|ev h IH] using rev_ind; [done|]. unfold dns_run in *. rewrite fold_left_app. simpl. set (st' := fold_left _ h st) in *.
  destruct ev as [l e v t ok sk sk_conn msg len b|now id ok ret|sk|l e v id sk conn msg ctx n b|ks ps|m pids]; simpl.
  - by apply caused_send.
  - by apply caused_ret.
  - destruct IH as [Hp Hs]. split; [intros; apply staged_snoc; simpl; auto|]. intros k r. cbn [obi_kprobe_udp_destroy_sock obi_forget_unconn_dns_sock unconn_dns_socks set_dns_socks].
    intros [? ?]%lookup_delete_Some. apply asked_snoc; [auto|congruence].
  - destruct (recvmsg_effect c l e v st' id sk conn msg ctx n b) as [E1 E2]. apply (caused_sub h st'); simpl; try done; [tauto|by rewrite E1].
  - apply (caused_sub h st'); simpl; try done; [tauto| |]; intros *; apply forget_keys_Some.
  - apply (caused_sub h st'); simpl; try done; tauto.
Qed.

Lemma expected_true st now sk conn : fst (obi_unconn_dns_answer_expected st now sk conn) = true ->
  exists r, unconn_dns_socks st !! sk = Some r /\ us_s_addr r = s_addr conn /\ us_s_port r = s_port conn
  /\ u64 (now - us_last_query_ns r) <= k_unconn_dns_answer_timeout_ns.
Proof.
  unfold obi_unconn_dns_answer_expected. destruct (unconn_dns_socks st !! sk) as [r|]; [|done]. unfold obi_same_local_addr.
  destruct (Z.eqb_spec (us_s_port r) (s_port conn)); [|done]. destruct (bool_decide_reflect (us_s_addr r = s_addr conn)); [|done]. cbn [andb negb].
  destruct (Z.ltb_spec k_unconn_dns_answer_timeout_ns (u64 (now - us_last_query_ns r))); [done|]. intros _. by exists r.
Qed.

(** C34: a received datagram that is not known to come from a DNS endpoint is reported only as the answer to a
    query.  Whatever the interleaving of sends, returns, receives, closed sockets and lost map entries, from
    empty maps: if such a receive sends a record, then its peer is unknown, the socket is not connected, and
    earlier a DNS query was sent on that same socket from the same local address and port, the send returned
    success with no other send of the thread in between, at most two seconds ago, and the socket has not been
    destroyed since.  In particular a datagram whose peer is known not to be a DNS endpoint is never
    reported. *)
Theorem dns_answer_owed c l e v m pids h id sk conn msg ctx n b :
  let st := dns_run c (mk_dns m ∅ ∅ pids []) h in
  classify_dns_msg (sort_connection_info conn) msg <> k_dns_msg_yes ->
  dns_events (recvmsg_dns c l e v st id sk conn msg ctx n b) <> dns_events st ->
  classify_dns_msg (sort_connection_info conn) msg = k_dns_msg_unknown /\ d_port conn = 0
  /\ exists h1 h2 h3 l' e' v' t lc msg' len b' sent ret,
    h = h1 ++ ev_send l' e' v' t true sk (Some lc) msg' len b' :: h2 ++ ev_send_ret sent (cur_pid_tgid t) true ret :: h3
    /\ sends_query v' lc msg' len b' /\ 0 < ret /\ s_addr lc = s_addr conn /\ s_port lc = s_port conn
    /\ u64 (de_now e 0%nat - sent) <= k_unconn_dns_answer_timeout_ns
    /\ Forall (fun ev => ~ on_thread (cur_pid_tgid t) ev) h2 /\ Forall (fun ev => ev <> ev_destroy sk) h3.
Proof.
  intros st Hclass Hev.
  assert (Hex : (classify_dns_msg (sort_connection_info conn) msg = k_dns_msg_unknown /\ d_port conn = 0)
    /\ fst (obi_unconn_dns_answer_expected st (de_now e 0%nat) sk conn) = true).
  { unfold recvmsg_dns in Hev. destruct (bool_decide _ && _) eqn:Hu.
    - apply andb_true_iff in Hu as [Hu%bool_decide_eq_true Hz%Z.eqb_eq]. split; [done|].
      destruct (obi_unconn_dns_answer_expected st _ sk conn) as [[|] st1] eqn:E; [done|]. destruct Hev.
      unfold obi_unconn_dns_answer_expected in E. destruct (_ !! _); [|congruence]. destruct (negb _); [by injection E as <-|].
      destruct (_ <? _); [by injection E as <-|done].
    - rewrite bool_decide_false in Hev by done. done. }
  destruct Hex as [[Hun Hz] Hex]. split; [exact Hun|]. split; [exact Hz|].
  destruct (caused_run c (mk_dns m ∅ ∅ pids []) h) as [_ Hs]; [by split; intros ? ? H; simpl in H; apply lookup_empty_Some in H|].
  apply expected_true in Hex as (r & Hr & Ha & Hp & Ht).
  destruct (Hs sk r Hr) as (h0 & h3 & id' & p & ret & -> & Hret & (h1 & h2 & l' & e' & v' & t & lc & msg' & len & b' & -> & <- & Hpa & Hpp & Hq & Hquiet) & <- & Hra & Hrp & Hno).
  exists h1, h2, h3, l', e', v', t, lc, msg', len, b', (us_last_query_ns r), ret. rewrite <- app_assoc. repeat (split; [by first [done|congruence]|]). done.
Qed.

(** ** The answers that come *)

Definition same_endpoint (addr : list Z) (port : Z) (conn : connection_info) : Prop := addr = s_addr conn /\ port = s_port conn.

(** Events from clock [t] to [hi] that leave the socket [sk] with local end [conn] alone: it is not destroyed,
    its window entry is not evicted, and what is sent and received on it has its address. *)
Fixpoint spares (sk : Z) (conn : connection_info) (t hi : Z) (h : list dns_event) : Prop :=
  match h with
  | [] => t <= hi
  | ev :: h' =>
      match ev with
      | ev_send _ _ _ _ _ sk' (Some lc) _ _ _ => (sk' = sk -> same_endpoint (s_addr lc) (s_port lc) conn) /\ spares sk conn t hi h'
      | ev_send_ret now _ _ _ => t <= now /\ spares sk conn now hi h'
      | ev_destroy sk' => sk' <> sk /\ spares sk conn t hi h'
      | ev_recv _ e _ _ sk' lc _ _ _ _ =>
          t <= de_now e 0%nat /\ (sk' = sk -> same_endpoint (s_addr lc) (s_port lc) conn) /\ spares sk conn (de_now e 0%nat) hi h'
      | ev_evict socks _ => ~ In sk socks /\ spares sk conn t hi h'
      | _ => spares sk conn t hi h'
      end
  end.

(** The window of [sk] was opened between [lo] and [t], and queries pending on [sk] are from its end. *)
Definition window_open (sk : Z) (conn : connection_info) (lo t : Z) (st : dns_state) : Prop :=
  (exists r, unconn_dns_socks st !! sk = Some r /\ same_endpoint (us_s_addr r) (us_s_port r) conn /\ lo <= us_last_query_ns r <= t)
  /\ forall id p, dns_pending st !! id = Some p -> up_sk p = sk -> same_endpoint (up_s_addr p) (up_s_port p) conn.

Lemma spares_le sk conn h : forall t hi, spares sk conn t hi h -> t <= hi.
Proof.
  induction h as [|ev h IH]; intros t hi; [done|].
  destruct ev as [? ? ? ? ? ? [|]| | | | |]; simpl; intros; destruct_and?; try (by eauto);
    match goal with H : spares _ _ _ _ _ |- _ => apply IH in H end; lia.
Qed.

Lemma expected_open sk conn lo t now st : window_open sk conn lo t st -> 0 <= lo -> t <= now -> now < 2 ^ 64 ->
  now - lo <= k_unconn_dns_answer_timeout_ns -> obi_unconn_dns_answer_expected st now sk conn = (true, st).
Proof.
  intros [(r & Hr & [Ha Hp] & Hl) _] H0 Ht H64 Hto. unfold obi_unconn_dns_answer_expected, obi_same_local_addr.
  rewrite Hr, Ha, Hp, Z.eqb_refl, bool_decide_true by done. cbn [andb negb]. rewrite (wrap_small 64) by lia.
  rewrite (proj2 (Z.ltb_ge _ _)) by lia. done.
Qed.

Lemma forget_keys_ne {A} ks (m : gmap Z A) k : ~ In k ks -> forget_keys ks m !! k = m !! k.
Proof. induction ks as [|k' ks IH]; simpl; [done|]. intros H. rewrite lookup_delete_ne by tauto. apply IH. tauto. Qed.

Lemma window_ret sk conn lo t now id ok ret st : window_open sk conn lo t st -> t <= now ->
  window_open sk conn lo now (obi_kretprobe_udp_sendmsg st now id ok ret).
Proof.
  intros [(r & Hr & He & Hl) Hp] Ht. unfold obi_kretprobe_udp_sendmsg, obi_commit_unconn_dns_query.
  assert (Hold : exists r, unconn_dns_socks st !! sk = Some r /\ same_endpoint (us_s_addr r) (us_s_port r) conn /\ lo <= us_last_query_ns r <= now)
    by (exists r; repeat split; try apply He; try lia; done).
  assert (Hdel : forall id' p, delete id (dns_pending st) !! id' = Some p -> up_sk p = sk -> same_endpoint (up_s_addr p) (up_s_port p) conn)
    by (intros id' p [_ ?]%lookup_delete_Some; eauto).
  destruct ok; cbn [negb]; [|by split]. destruct (0 <? ret); [|by split]. destruct (dns_pending st !! id) as [p|] eqn:Hid; [|by split].
  split; [|exact Hdel]. cbn [obi_discard_unconn_dns_query obi_note_unconn_dns_query unconn_dns_socks set_dns_pending set_dns_socks s_addr s_port].
  destruct (decide (up_sk p = sk)) as [<-|Hne]; [|by rewrite lookup_insert_ne].
  rewrite lookup_insert_eq. eexists. split; [done|]. simpl. split; [by apply (Hp id)|lia].
Qed.

Lemma window_recv c l e v st id sk' lc msg ctx n b sk conn lo t hi : window_open sk conn lo t st -> 0 <= lo -> hi < 2 ^ 64 ->
  hi - lo <= k_unconn_dns_answer_timeout_ns -> t <= de_now e 0%nat <= hi -> (sk' = sk -> same_endpoint (s_addr lc) (s_port lc) conn) ->
  window_open sk conn lo (de_now e 0%nat) (recvmsg_dns c l e v st id sk' lc msg ctx n b).
Proof.
  intros Hw H0 H64 Hto Ht Hsame. unfold window_open. destruct (recvmsg_effect c l e v st id sk' lc msg ctx n b) as [-> _].
  split; [|apply Hw]. cut (unconn_dns_socks (recvmsg_dns c l e v st id sk' lc msg ctx n b) !! sk = unconn_dns_socks st !! sk).
  { intros ->. destruct Hw as [(r & Hr & He & Hl) _]. exists r. repeat split; try apply He; try lia; done. }
  unfold recvmsg_dns. cbv zeta.
  assert (H : forall st1 (d : bool) pc, unconn_dns_socks st1 !! sk = unconn_dns_socks st !! sk ->
    unconn_dns_socks (if d then report_datagram c l e v st1 pc (d_port lc) msg ctx n b else st1) !! sk = unconn_dns_socks st !! sk).
  { intros st1 [] pc H1; [|done]. by destruct (report_datagram_keeps c l e v st1 pc (d_port lc) msg ctx n b) as [-> _]. }
  destruct (bool_decide _ && _); [|by apply H]. destruct (decide (sk' = sk)) as [->|Hne].
  - assert (E : obi_unconn_dns_answer_expected st (de_now e 0%nat) sk lc = (true, st)).
    { apply (expected_open sk lc lo t); try lia. destruct Hw as [(r & Hr & He & Hl) Hp]. destruct (Hsame eq_refl) as [Ea Ep].
      unfold window_open, same_endpoint in *. rewrite Ea, Ep. eauto. }
    rewrite E. by apply (H st true).
  - unfold obi_unconn_dns_answer_expected. destruct (_ !! sk') as [r0|]; [|by apply (H _ false (mk_pid_conn lc 0))].
    destruct (negb _); [apply (H _ false (mk_pid_conn lc 0))|destruct (_ <? _); [apply (H _ false (mk_pid_conn lc 0))|by apply (H _ true)]];
      cbn [obi_forget_unconn_dns_sock unconn_dns_socks set_dns_socks]; by rewrite lookup_delete_ne.
Qed.

Lemma window_run c sk conn lo h : 0 <= lo -> forall t hi st, window_open sk conn lo t st -> spares sk conn t hi h ->
  hi < 2 ^ 64 -> hi - lo <= k_unconn_dns_answer_timeout_ns -> exists t', t' <= hi /\ window_open sk conn lo t' (dns_run c st h).
Proof.
  intros H0. induction h as [|ev h IH]; intros t hi st Hw Hs H64 Hto; [by exists t|].
  assert (Hgo : forall t1, window_open sk conn lo t1 (dns_step c st ev) -> spares sk conn t1 hi h ->
    exists t', t' <= hi /\ window_open sk conn lo t' (dns_run c st (ev :: h))) by (intros; by eapply IH).
  destruct ev as [l e v tk ok sk' sk_conn msg len b|now id ok ret|sk'|l e v id sk' lc msg ctx n b|ks ps|m pids]; simpl in Hs.
  - apply (Hgo t); [|by destruct sk_conn; destruct_and?]. simpl.
    destruct (sendmsg_effect c l e v st tk ok sk' sk_conn msg len b) as (E1 & E2 & E3). cbv zeta in *. destruct ok; [|by rewrite E3].
    split; [rewrite E1; apply Hw|]. intros id p Hid Hsk. destruct (decide (id = cur_pid_tgid tk)) as [->|Hne].
    + destruct (E3 p Hid) as (E & lc & -> & -> & -> & _). apply Hs. congruence.
    + rewrite E2 in Hid by done. by apply (proj2 Hw id).
  - destruct Hs as [Ht Hs]. apply (Hgo now); [|done]. by apply (window_ret sk conn lo t).
  - destruct Hs as [Hne Hs]. apply (Hgo t); [|done]. split; [|apply Hw]. simpl. rewrite lookup_delete_ne by done. apply Hw.
  - destruct Hs as (Ht & Hsame & Hs). pose proof (spares_le _ _ _ _ _ Hs). apply (Hgo (de_now e 0%nat)); [|done]. simpl.
    apply (window_recv c l e v st id sk' lc msg ctx n b sk conn lo t hi); try done; lia.
  - destruct Hs as [Hni Hs]. apply (Hgo t); [|done]. split; simpl; [rewrite forget_keys_ne by done; apply Hw|].
    intros id p Hid. apply (proj2 Hw id). by apply forget_keys_Some in Hid.
  - apply (Hgo t); done.
Qed.

(** C35: An answer is not missed: once a DNS query on an unconnected socket has been sent, every lookup
    message that arrives on that socket without a peer within two seconds is reported with its id and its
    octets, whatever else happens meanwhile on other sockets and threads, and however many answers and
    further queries pass on the socket itself; only its destruction or the loss of its map entry ends it. *)
Theorem dns_answer_reported c st0 id ret sent p conn h l e v id' msg ctx n b m pid :
  dns_pending st0 !! id = Some p -> 0 < ret -> d_port conn = 0 -> 0 <= sent ->
  (forall k q, dns_pending st0 !! k = Some q -> up_sk q = up_sk p -> same_endpoint (up_s_addr q) (up_s_port q) conn) ->
  spares (up_sk p) conn sent (de_now e 0%nat) h ->
  de_now e 0%nat - sent <= k_unconn_dns_answer_timeout_ns -> de_now e 0%nat < 2 ^ 64 ->
  let st := dns_run c st0 (ev_send_ret sent id true ret :: h) in
  let info := mk_pid_conn (sort_connection_info (sort_connection_info conn)) (pid_from_pid_tgid id') in
  classify_dns_msg (sort_connection_info conn) msg = k_dns_msg_unknown ->
  lookup_message (is_mdns_exchange (pc_conn info) msg) m -> n = zlen (encode_message m) -> n <= k_iovec_max_len <= zlen b ->
  iter_holds v ctx n (encode_message m) -> it_iov ctx <> 0 \/ it_ubuf ctx <> 0 ->
  sock_pids st !! pc_conn info = Some pid -> de_accepts e = true ->
  exists r, dns_events (recvmsg_dns c l e v st id' (up_sk p) conn msg ctx n b) = dns_events st ++ [r]
  /\ reports e m n (pc_conn info) pid (overlay (encode_message m) b) r.
Proof.
  intros Hid Hret Hd Hsent Hpend Hsp Hto H64 st info Hclass Hm Hn [Hmax Hb] Hdesc Hctx Hpid Hacc.
  assert (Hopen : window_open (up_sk p) conn sent sent (dns_step c st0 (ev_send_ret sent id true ret))).
  { simpl. unfold obi_kretprobe_udp_sendmsg, obi_commit_unconn_dns_query. rewrite (proj2 (Z.ltb_lt 0 ret) Hret), Hid. cbn [negb].
    split; simpl; [|intros k q [_ ?]%lookup_delete_Some; eauto]. rewrite lookup_insert_eq. eexists. split; [done|]. simpl. split; [by apply (Hpend id)|lia]. }
  destruct (window_run c (up_sk p) conn sent h Hsent sent (de_now e 0%nat) _ Hopen Hsp H64 Hto) as (t' & Ht' & Hw).
  change (dns_run c (dns_step c st0 (ev_send_ret sent id true ret)) h) with st in Hw.
  assert (Hh : zlen (encode_header m) = 12) by (unfold encode_header; rewrite !zlen_app, !zlen_be; done).
  assert (Hn12 : 12 <= n) by (rewrite Hn; unfold encode_message; rewrite zlen_app; pose proof (zlen_nonneg (encode_body m)); lia).
  unfold recvmsg_dns. rewrite Hclass, Hd, (expected_open (up_sk p) conn sent t') by (try done; lia).
  rewrite bool_decide_true by done. cbn [andb]. rewrite Z.eqb_refl. unfold report_datagram.
  replace ((it_iov ctx =? 0) && (it_ubuf ctx =? 0)) with false by (destruct Hctx; lia).
  pose proof (read_iovec_front v ctx b n (encode_message m) ltac:(kunfold; lia) Hb Hdesc) as Hrd. cbv zeta in Hrd.
  replace (Z.min n k_iovec_max_len) with n in Hrd by lia. rewrite <- Hn, Z.min_id, take_ge in Hrd by (unfold zlen in *; lia).
  rewrite (wrap_small 64 n), Hrd, (proj2 (Z.eqb_neq n 0)) by (kunfold; lia). fold info.
  assert (Hf : take 12 (overlay (encode_message m) b) = encode_header m).
  { unfold overlay, encode_message. rewrite <- app_assoc, take_app_le by (unfold zlen in Hh; lia). apply take_ge. unfold zlen in Hh; lia. }
  pose proof (handle_reports c l e st m n (overlay (encode_message m) b) info 0 msg pid Hm Hf ltac:(kunfold; lia) ltac:(left; lia) Hpid) as H.
  cbv zeta in H. destruct (handle_dns_buf c l e st _ n info 0 msg) as [ok st']. destruct H as (_ & _ & _ & _ & H). by rewrite Hacc in H.
Qed.

(** A DNS query is reported on its way out, for the process that sends it, with its id and its octets;
    on an unconnected socket it is held, with the socket and its local end, for the return of the send, and
    on a connected one nothing is held. *)
Theorem dns_query_reported c l e v st t sk lc msg n b m :
  is_dns_msg lc (Some msg) = true -> lookup_message (is_mdns_exchange (sort_connection_info lc) (Some msg)) m ->
  n = zlen (encode_message m) -> n <= k_iovec_max_len <= zlen b -> iter_holds v (get_iovec_ctx (msg_iter msg)) n (encode_message m) ->
  de_accepts e = true ->
  let st' := obi_kprobe_udp_sendmsg c l e v st t true sk (Some lc) msg n b in
  (exists r pid, dns_events st' = dns_events st ++ [r] /\ cp_p_info pid = cur_pid t
     /\ reports e m n (sort_connection_info lc) pid (overlay (encode_message m) b) r)
  /\ dns_pending st' !! cur_pid_tgid t = (if d_port lc =? 0 then Some (mk_dns_pending sk (s_addr lc) (s_port lc)) else None)
  /\ unconn_dns_socks st' = unconn_dns_socks st.
Proof.
  intros Hdns Hm Hn [Hmax Hb] Hdesc Hacc. cbv zeta. unfold obi_kprobe_udp_sendmsg. cbn [negb]. rewrite Hdns.
  assert (Hh : zlen (encode_header m) = 12) by (unfold encode_header; rewrite !zlen_app, !zlen_be; done).
  assert (Hn12 : 12 <= n) by (rewrite Hn; unfold encode_message; rewrite zlen_app; pose proof (zlen_nonneg (encode_body m)); lia).
  assert (Hrd : read_msghdr_buf v (msg_iter msg) b n = (n, overlay (encode_message m) b)).
  { unfold read_msghdr_buf. rewrite (proj2 (Z.eqb_neq n 0)), (read_iovec_front v _ b n _ ltac:(kunfold; lia) Hb Hdesc) by lia. cbv zeta.
    replace (Z.min n k_iovec_max_len) with n by lia. by rewrite <- Hn, Z.min_id, take_ge by (unfold zlen in *; lia). }
  rewrite Hrd. replace (nz n) with true by (unfold nz; lia).
  set (pid := mk_conn_pid (cur_pid t) (fst (java_vt_translate_tid l (cur_tid t))) (cur_pid_tgid t) (de_now e 0%nat)).
  set (st1 := obi_discard_unconn_dns_query _ _). set (info := mk_pid_conn (sort_connection_info lc) _).
  assert (Hf : take 12 (overlay (encode_message m) b) = encode_header m).
  { unfold overlay, encode_message. rewrite <- app_assoc, take_app_le by (unfold zlen in Hh; lia). apply take_ge. unfold zlen in Hh; lia. }
  assert (Hpid : sock_pids st1 !! pc_conn info = Some pid) by (unfold st1, info; simpl; by rewrite lookup_insert_eq).
  pose proof (handle_reports c l e st1 m n (overlay (encode_message m) b) info (d_port lc) (Some msg) pid Hm Hf ltac:(kunfold; lia) ltac:(left; lia) Hpid) as H.
  cbv zeta in H. destruct (handle_dns_buf c l e st1 _ n info _ _) as [ok st']. destruct H as (-> & Hs & Hp & _ & H). rewrite Hacc in H.
  destruct H as (r & Hev & Hr). cbn [andb].
  assert (Hst' : dns_pending st' !! cur_pid_tgid t = None /\ unconn_dns_socks st' = unconn_dns_socks st)
    by (rewrite Hs, Hp; split; [unfold st1; simpl; by rewrite lookup_delete_eq|done]).
  split; [exists r, pid; split; [destruct (d_port lc =? 0); exact Hev|done]|].
  destruct (d_port lc =? 0); [|done]. split; [simpl; by rewrite lookup_insert_eq|apply Hst'].
Qed.

(** ** Packets *)

(** The packet carries [payload] as a datagram, or as the first message of a TCP segment, behind its length. *)
Inductive carries (skb : list Z) (p_info : protocol_info) (payload : list Z) : Prop :=
  | carries_udp ip udp :
      pi_l4_proto p_info = IPPROTO_UDP -> skb = ip ++ udp ++ payload -> zlen ip = pi_ip_len p_info -> zlen udp = 8 -> carries skb p_info payload
  | carries_tcp ip s size :
      pi_l4_proto p_info = IPPROTO_TCP -> skb = ip ++ tcp_header s ++ size ++ payload -> zlen ip = pi_ip_len p_info -> zlen size = 2 ->
      segment_ok s -> carries skb p_info payload.

Lemma tcp_data_offset s : segment_ok s -> u8 (Z.shiftr (nth 12 (tcp_header s) 0) 4 * 4) = zlen (tcp_header s).
Proof.
  intros [_ _ _ _ Hr _ Hm (k & Hk & Ho)]. rewrite (tcp_header_length s k Hm Ho). unfold tcp_header.
  change (nth 12 _ 0) with ((5 + zlen (sg_opts s) / 4) * 16 + sg_res s). replace (zlen (sg_opts s) / 4) with k by (rewrite Ho; zdm).
  rewrite Z.shiftr_div_pow2 by lia. replace (_ / 2 ^ 4) with (5 + k) by zdm. rewrite (wrap_small 8); lia.
Qed.

(** Where the handler looks is where the payload starts. *)
Lemma dns_offset skb p_info payload : carries skb p_info payload -> 0 <= pi_ip_len p_info < 256 ->
  exists ip off, skb = ip ++ payload /\ zlen ip = off /\ off < 512
  /\ (if pi_l4_proto p_info =? IPPROTO_UDP then Some (u16 (pi_ip_len p_info + 8))
      else if pi_l4_proto p_info =? IPPROTO_TCP then
        match skb_load_bytes skb (pi_ip_len p_info) 20 with
        | None => None
        | Some tcph => Some (u16 (pi_ip_len p_info + u8 (Z.shiftr (nth 12 tcph 0) 4 * 4) + 2))
        end
      else None) = Some off.
Proof.
  intros [ip udp -> Hskb Hip Hu|ip s size -> Hskb Hip Hsz Hs] Hr.
  - exists (ip ++ udp), (pi_ip_len p_info + 8). rewrite Hskb, <- app_assoc, zlen_app, Z.eqb_refl, (wrap_small 16) by lia. repeat split; lia.
  - destruct (so_opts s Hs) as (k & Hk & Ho). pose proof (tcp_header_length s k (so_mid s Hs) Ho) as Hl.
    exists (ip ++ tcp_header s ++ size), (pi_ip_len p_info + zlen (tcp_header s) + 2).
    split; [by rewrite Hskb, <- !app_assoc|]. split; [rewrite !zlen_app; lia|]. split; [lia|].
    change (IPPROTO_TCP =? IPPROTO_UDP) with false. rewrite Z.eqb_refl.
    assert (Hload : skb_load_bytes skb (pi_ip_len p_info) 20 = Some (take 20 (tcp_header s))).
    { unfold skb_load_bytes. rewrite (proj2 (Z.leb_le 0 _)), (proj2 (Z.leb_le (_ + _) _)) by (rewrite ?Hskb, ?zlen_app; pose proof (zlen_nonneg payload); lia).
      cbn [andb]. rewrite Hskb, <- Hip. unfold zlen. rewrite Nat2Z.id, drop_app_length, take_app_le by (unfold zlen in Hl; lia). done. }
    rewrite Hload. assert (Hn : nth 12 (take 20 (tcp_header s)) 0 = nth 12 (tcp_header s) 0) by (rewrite !nth_lookup, lookup_take_lt by lia; done).
    rewrite Hn, tcp_data_offset, (wrap_small 16) by (try done; lia). done.
Qed.

(** A DNS packet seen by the socket filter is reported: for a datagram, and for a message at the start
    of a TCP segment with any options, the record has the id and the direction of the message, the
    process that owns the socket, and the first 512 octets of the message, with their number. *)
Theorem dns_packet_reported c l e st skb conn p_info m rest p :
  carries skb p_info (encode_header m ++ rest) -> 0 <= pi_ip_len p_info < 256 -> zlen skb < 2 ^ 31 ->
  0 <= dm_id m < 2 ^ 16 -> 0 <= dm_flags m < 2 ^ 16 ->
  sock_pids st !! sort_connection_info conn = Some p -> de_accepts e = true -> zlen (de_stale_buf e) = k_dns_max_len ->
  let payload := encode_header m ++ rest in
  let '(ok, st') := handle_dns c l e st skb conn p_info in
  ok = true /\ exists r, dns_events st' = dns_events st ++ [r] /\ dr_id r = dm_id m /\ dr_dns_q r = dns_qr (dm_flags m)
  /\ dr_conn r = sort_connection_info conn /\ dr_pid r = cp_p_info p /\ dr_len r = Z.min (zlen payload) k_dns_max_len
  /\ take (Z.to_nat (dr_len r)) (dr_buf r) = take (Z.to_nat k_dns_max_len) payload.
Proof.
  intros Hc Hip Hlen Hid Hfl Hp Hacc Hst payload. destruct (dns_offset skb p_info payload Hc Hip) as (pre & off & Hskb & Hoff & H512 & Hd).
  assert (Hh : zlen (encode_header m) = 12) by (unfold encode_header; rewrite !zlen_app, !zlen_be; done).
  assert (Hpl : 12 <= zlen payload) by (unfold payload; rewrite zlen_app; pose proof (zlen_nonneg rest); lia).
  assert (Hlp : zlen skb = off + zlen payload) by (rewrite Hskb, zlen_app; lia). pose proof (zlen_nonneg pre).
  unfold handle_dns. cbv zeta. rewrite Hd, (proj2 (Z.ltb_ge (zlen skb) _)) by (kunfold; lia).
  assert (Hdrop : drop (Z.to_nat off) skb = payload) by (rewrite Hskb, <- Hoff; unfold zlen; by rewrite Nat2Z.id, drop_app_length).
  assert (Hload : skb_load_bytes skb off 12 = Some (encode_header m)).
  { unfold skb_load_bytes. rewrite (proj2 (Z.leb_le 0 _)), (proj2 (Z.leb_le (_ + _) _)) by lia. cbn [andb]. rewrite Hdrop.
    unfold payload. by rewrite (take_app_length' (encode_header m)) by (unfold zlen in Hh; lia). }
  destruct (load_encoded m []) as (Hi & Hf & _). rewrite app_nil_r in Hi, Hf.
  rewrite Hload, Hf, be16_le_word by done.
  assert (Hqr : ((dns_qr (dm_flags m) =? k_dns_qr_query) || (dns_qr (dm_flags m) =? k_dns_qr_resp)) = true).
  { unfold dns_qr. change 1 with (2 ^ 1 - 1). rewrite land_ones_mod by lia. kunfold. zdm. }
  rewrite Hqr, Hp, Hacc. split; [done|]. unfold submit_dns, populate_dns_record.
  destruct (find_trace_for_client_request_with_t_key _ _ _ _ _ _ _ _ _) as [[found tp] m']. cbn [dns_events fst].
  eexists. split; [done|]. cbn [dr_id dr_dns_q dr_conn dr_pid dr_len dr_buf pc_conn].
  rewrite Hi, be16_le_word, Hlp, Z.add_simpl_l, (wrap_small 32), clamp_min by lia. repeat (split; [done|]).
  rewrite (read_skb_bytes_copies skb (de_stale_buf e) off) by (try reflexivity; kunfold; lia). rewrite Hdrop.
  unfold overlay. rewrite take_app_le, take_take by (rewrite length_take; unfold zlen; lia). rewrite Nat.min_id.
  destruct (Z.le_gt_cases (zlen payload) k_dns_max_len); [rewrite !take_ge by (unfold zlen in *; lia); done|].
  f_equal. lia.
Qed.

(** ** Examples *)

Definition example_query : dns_message := mk_message 3178 0x0100 [mk_question (name_label [97; 98] name_root) 1 1] [] [] [].
Definition example_answer : dns_message :=
  mk_message 3178 0x8180 [mk_question (name_label [97; 98] name_root) 1 1] [mk_rr (name_pointer 12) 1 1 60 [10; 0; 0; 1]] [] [].

Definition example_dns_env (now : Z) : dns_env :=
  mk_dns_env (fun k => now + Z.of_nat k) true (repeat 4 8) (repeat 5 16) None (mk_tp_info (repeat 6 16) (repeat 6 8) (repeat 6 8) 0 0) (repeat 0 (Z.to_nat 512)).

(** One segment at address 1000, which holds [data]. *)
Definition one_segment (data : list Z) : iov_env :=
  mk_iov_env None 4 (fun a => if a =? 500 then Some (mk_iovec 1000 (zlen data)) else None)
    (fun a => if a =? 1000 then list_umem data else list_umem []).
Definition one_segment_iter : kernel_iter := mk_kernel_iter (Some 5) 0 None (Some 500) None 1.

Definition dns_peer : umem := list_umem ([2; 0] ++ be_bytes 2 53 ++ repeat 0 12).
Definition example_dns_msg : msghdr := mk_msghdr (Some dns_peer) 16 one_segment_iter.
Definition nameless_msg : msghdr := mk_msghdr None 0 one_segment_iter.

(** An unconnected socket at address 77, and a connected one. *)
Definition example_udp : connection_info := mk_conn (repeat 1 16) (repeat 0 16) 40000 0.
Definition example_udp_53 : connection_info := mk_conn (repeat 1 16) (repeat 2 16) 40000 53.
Definition example_scratch : list Z := repeat 0 (Z.to_nat 8192).
Definition example_dns_state : dns_state := mk_dns empty_tmaps ∅ ∅ ∅ [].

Definition example_dns_send : dns_event :=
  ev_send empty_links (example_dns_env 100) (one_segment (encode_message example_query)) example_task true 77 (Some example_udp)
    example_dns_msg (zlen (encode_message example_query)) example_scratch.
Definition example_asked : list dns_event := [example_dns_send; ev_send_ret 200 (cur_pid_tgid example_task) true 20].

Lemma one_segment_holds data max_len : data <> [] -> zlen data < 2 ^ 64 -> iter_holds (one_segment data) (get_iovec_ctx one_segment_iter) max_len data.
Proof.
  intros Hne Hl. pose proof (holds_iovec (one_segment data) (get_iovec_ctx one_segment_iter) max_len [data]) as H.
  simpl concat in H. rewrite app_nil_r in H. apply H; try done; [by left|]. split; [|done]. exists 1000.
  split; [done|]. split; [by right|]. split; [done|]. intros n Hn. change (user_mem (one_segment data) 1000) with (list_umem data).
  rewrite <- (take_drop n data) at 1. pose proof (probe_read_list (take n data) (drop n data)) as Hp. by rewrite length_take, Nat.min_l in Hp by lia.
Qed.

Lemma example_lookup m : m = example_query \/ m = example_answer -> lookup_message false m.
Proof. intros [->| ->]; split; vm_compute; try done; intuition discriminate. Qed.

Lemma example_scratch_size : k_iovec_max_len <= zlen example_scratch.
Proof. unfold zlen, example_scratch. rewrite repeat_length. kunfold. lia. Qed.

Lemma dns_answer_owed_witness :
  exists h1 h2 h3 l' e' v' t lc msg' len b' sent ret,
    example_asked = h1 ++ ev_send l' e' v' t true 77 (Some lc) msg' len b' :: h2 ++ ev_send_ret sent (cur_pid_tgid t) true ret :: h3
    /\ sends_query v' lc msg' len b' /\ 0 < ret /\ s_addr lc = s_addr example_udp /\ s_port lc = s_port example_udp
    /\ u64 (de_now (example_dns_env 300) 0%nat - sent) <= k_unconn_dns_answer_timeout_ns
    /\ Forall (fun ev => ~ on_thread (cur_pid_tgid t) ev) h2 /\ Forall (fun ev => ev <> ev_destroy 77) h3.
Proof.
  apply (dns_answer_owed example_conf empty_links (example_dns_env 300) (one_segment (encode_message example_answer)) empty_tmaps ∅ example_asked
           (cur_pid_tgid example_task) 77 example_udp (Some nameless_msg) (get_iovec_ctx one_segment_iter) (zlen (encode_message example_answer)) example_scratch).
  - vm_compute. discriminate.
  - assert (H : length (dns_events (recvmsg_dns example_conf empty_links (example_dns_env 300) (one_segment (encode_message example_answer))
      (dns_run example_conf (mk_dns empty_tmaps ∅ ∅ ∅ []) example_asked) (cur_pid_tgid example_task) 77 example_udp (Some nameless_msg)
      (get_iovec_ctx one_segment_iter) (zlen (encode_message example_answer)) example_scratch)) = 2%nat) by (vm_compute; reflexivity).
    assert (H1 : length (dns_events (dns_run example_conf (mk_dns empty_tmaps ∅ ∅ ∅ []) example_asked)) = 1%nat) by (vm_compute; reflexivity).
    intros E. rewrite E in H. congruence.
Defined.

Definition example_staged : dns_state := dns_step example_conf example_dns_state example_dns_send.
Definition example_second_answer : dns_event :=
  ev_recv empty_links (example_dns_env 250) (one_segment (encode_message example_answer)) (cur_pid_tgid example_task) 77 example_udp
    (Some nameless_msg) (get_iovec_ctx one_segment_iter) (zlen (encode_message example_answer)) example_scratch.

(** Two answers to one query, the second one 100 ns after the send returned. *)
Lemma dns_answer_reported_witness :
  exists p pid r, dns_pending example_staged !! cur_pid_tgid example_task = Some p
  /\ dns_events (recvmsg_dns example_conf empty_links (example_dns_env 300) (one_segment (encode_message example_answer))
       (dns_run example_conf example_staged [ev_send_ret 200 (cur_pid_tgid example_task) true 20; example_second_answer])
       (cur_pid_tgid example_task) (up_sk p) example_udp (Some nameless_msg) (get_iovec_ctx one_segment_iter)
       (zlen (encode_message example_answer)) example_scratch)
     = dns_events (dns_run example_conf example_staged [ev_send_ret 200 (cur_pid_tgid example_task) true 20; example_second_answer]) ++ [r]
  /\ reports (example_dns_env 300) example_answer (zlen (encode_message example_answer)) example_udp pid
       (overlay (encode_message example_answer) example_scratch) r.
Proof.
  pose (p := mk_dns_pending 77 (repeat 1 16) 40000).
  assert (Hpend : dns_pending example_staged = {[cur_pid_tgid example_task := p]}) by (vm_compute; reflexivity).
  pose (pid := mk_conn_pid (mk_pid_info 5 5 1) (cur_tid example_task) (cur_pid_tgid example_task) 100).
  edestruct (dns_answer_reported example_conf example_staged (cur_pid_tgid example_task) 20 200 p example_udp [example_second_answer] empty_links
      (example_dns_env 300) (one_segment (encode_message example_answer)) (cur_pid_tgid example_task) (Some nameless_msg) (get_iovec_ctx one_segment_iter)
      (zlen (encode_message example_answer)) example_scratch example_answer pid) as (r & Hr & Hrep).
  - rewrite Hpend. apply lookup_singleton_eq.
  - reflexivity.
  - reflexivity.
  - discriminate.
  - intros k q Hk _. rewrite Hpend in Hk. apply lookup_singleton_Some in Hk as [_ <-]. by split.
  - vm_compute. intuition discriminate.
  - vm_compute. discriminate.
  - reflexivity.
  - vm_compute. reflexivity.
  - apply example_lookup. by right.
  - reflexivity.
  - split; [vm_compute; discriminate|apply example_scratch_size].
  - apply one_segment_holds; [discriminate|reflexivity].
  - left. discriminate.
  - vm_compute. reflexivity.
  - reflexivity.
  - exists p, pid, r. split; [rewrite Hpend; apply lookup_singleton_eq|]. split; [exact Hr|exact Hrep].
Defined.

Lemma dns_query_reported_witness :
  let st' := obi_kprobe_udp_sendmsg example_conf empty_links (example_dns_env 100) (one_segment (encode_message example_query)) example_dns_state example_task
               true 77 (Some example_udp) example_dns_msg (zlen (encode_message example_query)) example_scratch in
  (exists r pid, dns_events st' = dns_events example_dns_state ++ [r] /\ cp_p_info pid = cur_pid example_task
     /\ reports (example_dns_env 100) example_query (zlen (encode_message example_query)) (sort_connection_info example_udp) pid
          (overlay (encode_message example_query) example_scratch) r)
  /\ dns_pending st' !! cur_pid_tgid example_task = Some (mk_dns_pending 77 (repeat 1 16) 40000)
  /\ unconn_dns_socks st' = ∅.
Proof.
  apply (dns_query_reported example_conf empty_links (example_dns_env 100) (one_segment (encode_message example_query)) example_dns_state example_task
           77 example_udp example_dns_msg (zlen (encode_message example_query)) example_scratch example_query).
  - vm_compute. reflexivity.
  - apply example_lookup. by left.
  - reflexivity.
  - split; [vm_compute; discriminate|apply example_scratch_size].
  - apply one_segment_holds; [discriminate|reflexivity].
  - reflexivity.
Defined.

Definition example_dns_packet : list Z := repeat 0 34 ++ repeat 0 8 ++ encode_message example_answer.

Lemma dns_packet_reported_witness :
  let '(ok, st') := handle_dns example_conf empty_links (example_dns_env 300)
                      (store_sock_pid empty_links example_dns_state example_task 100 (Some example_udp_53))
                      example_dns_packet (swap_connection_info_order example_udp_53) (mk_protocol_info 34 0 0 0 0 0 0 34 IPPROTO_UDP) in
  ok = true /\ exists r, dns_events st' = [r] /\ dr_id r = 3178 /\ dr_dns_q r = 1 /\ dr_conn r = example_udp_53
  /\ dr_pid r = cur_pid example_task /\ dr_len r = zlen (encode_message example_answer)
  /\ take (Z.to_nat (dr_len r)) (dr_buf r) = encode_message example_answer.
Proof.
  pose (pid := mk_conn_pid (mk_pid_info 5 5 1) (cur_tid example_task) (cur_pid_tgid example_task) 100).
  apply (dns_packet_reported example_conf empty_links (example_dns_env 300)
           (store_sock_pid empty_links example_dns_state example_task 100 (Some example_udp_53))
           example_dns_packet (swap_connection_info_order example_udp_53) (mk_protocol_info 34 0 0 0 0 0 0 34 IPPROTO_UDP)
           example_answer (encode_body example_answer) pid).
  - by apply (carries_udp _ _ _ (repeat 0 34) (repeat 0 8)).
  - split; [discriminate|reflexivity].
  - reflexivity.
  - split; [discriminate|reflexivity].
  - split; [discriminate|reflexivity].
  - vm_compute. reflexivity.
  - reflexivity.
  - reflexivity.
Defined.

(** A receive that fails is still read back: the length [-EAGAIN], as a [size_t], is cut to 8192, and what the
    caller's buffer held from before is reported as one more answer. *)
Example failed_receive_reported :
  let st := store_sock_pid empty_links example_dns_state example_task 100 (Some example_udp_53) in
  length (dns_events (recvmsg_dns example_conf empty_links (example_dns_env 300) (one_segment (encode_message example_answer)) st
    (cur_pid_tgid example_task) 88 example_udp_53 None (get_iovec_ctx one_segment_iter) (-11) example_scratch)) = 1%nat.
Proof. vm_compute. reflexivity. Qed.
