(* ===== verification/Rdns.v ===== *)
(** * Reverse DNS from packets ([bpf/rdns/rdns_xdp.c]).

    The XDP program finds the UDP header of a packet, over IPv4 or behind up to four extension headers of
    IPv6, and, when it comes from port 53 and carries an answer without errors, copies the message to the
    ring buffer for user space.  Packets are always passed on.

    A packet is the list of the octets between [data] and [data_end]; a ring record is 256 octets, of which
    the ones behind the message are what the ring held before.  The tail call from the tracker to the parser
    is taken to succeed, and [data_off] is the per-CPU slot it passes the offset in. *)

From Stdlib Require Import ZArith Lia ZifyBool List Bool.
From stdpp Require Import base list countable gmap.
From S2P Require Import Prelude Entry IovIter ConnInfo Packet Dns.

Local Open Scope Z_scope.

Definition RB_RECORD_LEN : Z := 256.
Definition DNS_PORT : Z := 53.
Definition UDP_HDR_SIZE : Z := 8.
Definition DNS_HDR_SIZE : Z := 12.
Definition IPPROTO_HOPOPTS : Z := 0.
Definition IPPROTO_ROUTING : Z := 43.
Definition IPPROTO_FRAGMENT : Z := 44.
Definition IPPROTO_DSTOPTS : Z := 60.
Definition QR_RESPONSE : Z := 1.
Definition OP_QUERY : Z := 0.
Definition XDP_PASS : Z := 2.

#[export] Hint Unfold RB_RECORD_LEN DNS_PORT UDP_HDR_SIZE DNS_HDR_SIZE : kconst.

Record rdns_state := mk_rdns { rdns_ring : list (list Z); data_off : Z }.

(** What a run reads besides the packet: whether the ring has room, and what the reserved record holds. *)
Record rdns_env := mk_rdns_env { re_room : bool; re_stale : list Z }.

Section packet.
Variable (d : list Z).

(** [p + n > data_end] is false. *)
Definition fits (p n : Z) : bool := p + n <=? zlen d.

Definition ip4_header : option Z := if fits ETH_HLEN 20 then Some ETH_HLEN else None.
Definition ip6_header : option Z := if fits ETH_HLEN 40 then Some ETH_HLEN else None.

Definition udp4_header : option Z :=
  match ip4_header with
  | None => None
  | Some iph =>
      if negb (load_u8 d (iph + 9) =? IPPROTO_UDP) then None
      else let data := iph + Z.land (load_u8 d iph) 0x0f * 4 in if fits data UDP_HDR_SIZE then Some data else None
  end.

(** The loop over the extension headers: where it stops, with the header that follows. *)
Fixpoint ext_loop (n : nat) (ptr curr_hdr : Z) : option (Z * Z) :=
  match n with
  | O => Some (ptr, curr_hdr)
  | S n' =>
      if curr_hdr =? IPPROTO_UDP then Some (ptr, curr_hdr)
      else if negb (fits ptr 2) then None
      else
        let next := load_u8 d ptr in
        if (curr_hdr =? IPPROTO_HOPOPTS) || (curr_hdr =? IPPROTO_ROUTING) || (curr_hdr =? IPPROTO_DSTOPTS)
        then ext_loop n' (ptr + (load_u8 d (ptr + 1) + 1) * 8) next
        else if curr_hdr =? IPPROTO_FRAGMENT then ext_loop n' (ptr + 8) next
        else None
  end.

Definition udp6_header : option Z :=
  match ip6_header with
  | None => None
  | Some iph =>
      if negb (Z.shiftr (load_u8 d iph) 4 =? 6) then None
      else
        match ext_loop 4 (iph + 40) (load_u8 d (iph + 6)) with
        | None => None
        | Some (ptr, curr_hdr) => if negb (curr_hdr =? IPPROTO_UDP) then None else if fits ptr UDP_HDR_SIZE then Some ptr else None
        end
  end.

Definition udp_header : option Z :=
  if negb (fits 0 ETH_HLEN) then None
  else
    let h_proto := bswap16 (load_u16 d 12) in
    if h_proto =? ETH_P_IP then udp4_header else if h_proto =? ETH_P_IPV6 then udp6_header else None.

(** The size of a question, or 0. *)
Fixpoint qsection_loop (n : nat) (data size : Z) : Z :=
  match n with
  | O => 0
  | S n' =>
      if negb (fits data 1) then 0
      else
        let len := load_u8 d data in
        if len =? 0 then (if fits (data + 1) 5 then size + 1 + 4 else 0) else qsection_loop n' (data + 1 + len) (size + 1 + len)
  end.

Definition validate_qsection (data : Z) : Z := qsection_loop 16 data 0.

(** The questions from [ptr] on, [n] of them: whether all are valid. *)
Fixpoint questions_loop (n : nat) (ptr : Z) : bool :=
  match n with
  | O => true
  | S n' => let size := validate_qsection ptr in if size =? 0 then false else questions_loop n' (ptr + size)
  end.

Definition submit_dns_packet (e : rdns_env) (st : rdns_state) (data : Z) : rdns_state :=
  let data_len := Z.land (zlen d - data) 0xffff in
  if (data_len =? 0) || (RB_RECORD_LEN <? data_len) then st
  else if negb (re_room e) then st
  else
    let msg := take (Z.to_nat data_len) (drop (Z.to_nat data) d) in
    mk_rdns (rdns_ring st ++ [overlay msg (re_stale e)]) (data_off st).

Definition parse_dns_response (e : rdns_env) (st : rdns_state) : Z * rdns_state :=
  let off := data_off st in
  if 0x7fff <=? off then (XDP_PASS, st)
  else
    let data := off + UDP_HDR_SIZE in
    if negb (fits data DNS_HDR_SIZE) then (XDP_PASS, st)
    else
      let flags0 := load_u8 d (data + 2) in
      let flags1 := load_u8 d (data + 3) in
      let qr := Z.land (Z.shiftr flags0 7) 1 in
      let opcode := Z.land (Z.shiftr flags0 3) 0xf in
      let z := Z.land (Z.shiftr flags1 4) 0x7 in
      let rcode := Z.land (Z.shiftr flags1 0) 0xf in
      let qdcount := bswap16 (load_u16 d (data + 4)) in
      let ancount := bswap16 (load_u16 d (data + 6)) in
      if negb (qr =? QR_RESPONSE) || negb (opcode =? OP_QUERY) || nz z || nz rcode || (qdcount =? 0) || (ancount =? 0) then (XDP_PASS, st)
      else if negb (questions_loop (Z.to_nat (Z.min 4 qdcount)) (data + DNS_HDR_SIZE)) then (XDP_PASS, st)
      else (XDP_PASS, submit_dns_packet e st data).

Definition dns_response_tracker (e : rdns_env) (st : rdns_state) : Z * rdns_state :=
  match udp_header with
  | None => (XDP_PASS, st)
  | Some udp =>
      if negb (bswap16 (load_u16 d udp) =? DNS_PORT) then (XDP_PASS, st)
      else if bswap16 (load_u16 d (udp + 4)) <? UDP_HDR_SIZE + DNS_HDR_SIZE then (XDP_PASS, st)
      else if negb (fits udp (UDP_HDR_SIZE + DNS_HDR_SIZE + 1)) then (XDP_PASS, st)
      else parse_dns_response e (mk_rdns (rdns_ring st) udp)
  end.

End packet.

(** ** Packets *)

(** An extension header of IPv6: its kind, the octet after the next header, and what follows. *)
Record ip6_ext := mk_ip6_ext { ext_kind : Z; ext_octet : Z; ext_body : list Z }.

Definition ext_ok (x : ip6_ext) : Prop :=
  0 <= ext_octet x < 256
  /\ (((ext_kind x = IPPROTO_HOPOPTS \/ ext_kind x = IPPROTO_ROUTING \/ ext_kind x = IPPROTO_DSTOPTS) /\ 2 + zlen (ext_body x) = (ext_octet x + 1) * 8)
      \/ (ext_kind x = IPPROTO_FRAGMENT /\ zlen (ext_body x) = 6)).

Definition next_kind (xs : list ip6_ext) : Z := match xs with [] => IPPROTO_UDP | x :: _ => ext_kind x end.

Fixpoint encode_exts (xs : list ip6_ext) : list Z :=
  match xs with [] => [] | x :: xs' => [next_kind xs'] ++ [ext_octet x] ++ ext_body x ++ encode_exts xs' end.

Inductive udp_network :=
  | udp4 (tos : Z) (len mid sum addrs opts : list Z)
  | udp6 (flow_lo flow len : list Z) (hops : Z) (addrs : list Z) (exts : list ip6_ext).

Definition udp_network_ok (n : udp_network) : Prop :=
  match n with
  | udp4 tos len mid sum addrs opts =>
      length len = 2%nat /\ length mid = 5%nat /\ length sum = 2%nat /\ length addrs = 8%nat /\ exists k, 0 <= k <= 10 /\ zlen opts = 4 * k
  | udp6 lo flow len hops addrs exts =>
      (exists x, lo = [x] /\ 0 <= x < 16) /\ length flow = 3%nat /\ length len = 2%nat /\ length addrs = 32%nat /\ (length exts <= 4)%nat /\ Forall ext_ok exts
  end.

Definition udp_network_header (n : udp_network) : list Z :=
  match n with
  | udp4 tos len mid sum addrs opts => [4 * 16 + (5 + zlen opts / 4)] ++ [tos] ++ len ++ mid ++ [IPPROTO_UDP] ++ sum ++ addrs ++ opts
  | udp6 lo flow len hops addrs exts => [6 * 16 + nth 0 lo 0] ++ flow ++ len ++ [next_kind exts] ++ [hops] ++ addrs ++ encode_exts exts
  end.

Definition udp_ethertype (n : udp_network) : Z := match n with udp4 _ _ _ _ _ _ => ETH_P_IP | udp6 _ _ _ _ _ _ => ETH_P_IPV6 end.

(** A UDP packet; [sum] is the checksum, [pad] what Ethernet adds. *)
Definition udp_packet (macs : list Z) (n : udp_network) (sport dport : Z) (sum payload pad : list Z) : list Z :=
  macs ++ be_bytes 2 (udp_ethertype n) ++ udp_network_header n
  ++ (be_bytes 2 sport ++ be_bytes 2 dport ++ be_bytes 2 (8 + zlen payload) ++ sum) ++ payload ++ pad.

(** ** Finding the UDP header *)

Lemma octets_at_end skb off l : octets_at skb off l -> 0 <= off /\ off + zlen l <= zlen skb.
Proof. intros (pre & post & -> & <-). rewrite !zlen_app. pose proof (zlen_nonneg pre). pose proof (zlen_nonneg post). lia. Qed.

Lemma fits_at d off l n : octets_at d off l -> n <= zlen l -> fits d off n = true.
Proof. intros H Hn. apply octets_at_end in H. unfold fits. apply Z.leb_le. lia. Qed.

Lemma ext_loop_skips d xs : Forall ext_ok xs -> forall n ptr, (length xs <= n)%nat -> octets_at d ptr (encode_exts xs) ->
  ext_loop d n ptr (next_kind xs) = Some (ptr + zlen (encode_exts xs), IPPROTO_UDP).
Proof.
  intros Hok. induction Hok as [|x xs [Hoct Hx] _ IH]; intros n ptr Hn Hat.
  { cbn [encode_exts next_kind]. change (zlen []) with 0. rewrite Z.add_0_r. by destruct n. }
  destruct n as [|n]; [cbn in Hn; lia|]. cbn [encode_exts] in Hat. pose proof (octets_at_end _ _ _ Hat) as Hend.
  apply octets_at_app in Hat as [Hnext Hat]. apply octets_at_app in Hat as [Hlen Hat]. apply octets_at_app in Hat as [_ Hrest].
  rewrite !zlen_1 in *. apply load_u8_at in Hnext, Hlen. cbn [next_kind encode_exts ext_loop]. rewrite Hnext, Hlen.
  assert (Hf : fits d ptr 2 = true) by (unfold fits; rewrite !zlen_app, !zlen_1 in Hend; pose proof (zlen_nonneg (ext_body x)); pose proof (zlen_nonneg (encode_exts xs)); lia).
  rewrite Hf. cbn [negb]. rewrite !zlen_app, !zlen_1.
  assert (Hudp : forall k, ext_kind x = k -> k <> IPPROTO_UDP -> (ext_kind x =? IPPROTO_UDP) = false) by (intros k -> Hk; by apply Z.eqb_neq).
  destruct Hx as [[Hk Hb]|[Hk Hb]].
  - assert (Hr : (ext_octet x + 1) * 8 = 2 + zlen (ext_body x)) by lia. rewrite Hr.
    replace (ptr + 1 + 1 + zlen (ext_body x)) with (ptr + (2 + zlen (ext_body x))) in Hrest by lia.
    destruct Hk as [Hk|[Hk|Hk]]; rewrite (Hudp _ Hk), Hk by done; cbn [Z.eqb orb]; cbv iota;
      (change (ext_loop d n (ptr + (2 + zlen (ext_body x))) (next_kind xs) = Some (ptr + (1 + (1 + (zlen (ext_body x) + zlen (encode_exts xs)))), IPPROTO_UDP));
       rewrite IH by (cbn in Hn; done || lia); do 2 f_equal; lia).
  - replace (ptr + 1 + 1 + zlen (ext_body x)) with (ptr + 8) in Hrest by lia. rewrite (Hudp _ Hk), Hk by done.
    change (ext_loop d n (ptr + 8) (next_kind xs) = Some (ptr + (1 + (1 + (zlen (ext_body x) + zlen (encode_exts xs)))), IPPROTO_UDP)).
    rewrite IH by (cbn in Hn; done || lia). do 2 f_equal. lia.
Qed.

Lemma udp_network_length n : udp_network_ok n -> zlen (udp_network_header n) =
  match n with udp4 _ _ _ _ _ opts => 20 + zlen opts | udp6 _ _ _ _ _ exts => 40 + zlen (encode_exts exts) end.
Proof.
  destruct n as [tos len mid sum addrs opts|lo flow len hops addrs exts]; cbn [udp_network_ok udp_network_header].
  - intros (H1 & H2 & H3 & H4 & _). rewrite !zlen_app, !zlen_1. apply zlen_of in H1, H2, H3, H4. lia.
  - intros (_ & H1 & H2 & H3 & _). rewrite !zlen_app, !zlen_1. apply zlen_of in H1, H2, H3. lia.
Qed.

(** The header of every UDP packet is found. *)
Lemma udp_header_found d n rest : udp_network_ok n -> 8 <= zlen rest ->
  octets_at d 12 (be_bytes 2 (udp_ethertype n) ++ udp_network_header n ++ rest) ->
  udp_header d = Some (ETH_HLEN + zlen (udp_network_header n)).
Proof.
  intros Hok Hr Hat. pose proof (octets_at_end _ _ _ Hat) as Hend. pose proof (udp_network_length n Hok) as Hl. rewrite !zlen_app, zlen_be in Hend.
  apply octets_at_app in Hat as [Het Hat]. rewrite zlen_be in Hat. change (12 + Z.of_nat 2) with ETH_HLEN in Hat. apply octets_at_app in Hat as [Hnet Hrest].
  apply load_be16_at in Het; [|destruct n; cbn; kunfold; lia]. unfold udp_header. rewrite Het.
  assert (Hf : forall p k, p + k <= ETH_HLEN + zlen (udp_network_header n) + zlen rest -> fits d p k = true) by (intros; unfold fits; kunfold; lia).
  rewrite (Hf 0 ETH_HLEN) by (pose proof (zlen_nonneg (udp_network_header n)); lia). cbn [negb]. rewrite Hl in *.
  destruct n as [tos len mid sum addrs opts|lo flow len hops addrs exts]; cbn [udp_ethertype udp_network_header] in *; cbn [udp_network_ok] in Hok.
  - change (ETH_P_IP =? ETH_P_IP) with true. cbv iota. unfold udp4_header, ip4_header. rewrite Hf by (pose proof (zlen_nonneg opts); lia).
    destruct Hok as (H1 & H2 & H3 & H4 & k & Hk & Hop). apply octets_at_app in Hnet as [Hihl Hnet]. do 3 apply octets_at_app in Hnet as [_ Hnet].
    apply octets_at_app in Hnet as [Hproto _]. rewrite ?zlen_1, ?(zlen_of len 2), ?(zlen_of mid 5) in * by done.
    apply load_u8_at in Hihl, Hproto. change (ETH_HLEN + 1 + 1 + Z.of_nat 2 + Z.of_nat 5) with (ETH_HLEN + 9) in Hproto.
    rewrite Hihl, Hproto, Z.eqb_refl. cbn [negb]. replace (zlen opts / 4) with k by (rewrite Hop; zdm).
    change 0x0f with (2 ^ 4 - 1). rewrite land_ones_mod by lia. replace ((4 * 16 + (5 + k)) mod 2 ^ 4) with (5 + k) by zdm.
    replace (ETH_HLEN + (5 + k) * 4) with (ETH_HLEN + (20 + zlen opts)) by lia. rewrite Hf by (kunfold; lia). done.
  - change (ETH_P_IPV6 =? ETH_P_IP) with false. change (ETH_P_IPV6 =? ETH_P_IPV6) with true. cbv iota. unfold udp6_header, ip6_header.
    rewrite Hf by (pose proof (zlen_nonneg (encode_exts exts)); lia).
    destruct Hok as ((x & -> & Hx) & H1 & H2 & H3 & Hle & Hex). apply octets_at_app in Hnet as [Hver Hnet]. do 2 apply octets_at_app in Hnet as [_ Hnet].
    apply octets_at_app in Hnet as [Hnext Hnet]. do 2 apply octets_at_app in Hnet as [_ Hnet].
    rewrite ?zlen_1, ?(zlen_of flow 3), ?(zlen_of len 2), ?(zlen_of addrs 32) in * by done. apply load_u8_at in Hver, Hnext.
    change (ETH_HLEN + 1 + Z.of_nat 3 + Z.of_nat 2) with (ETH_HLEN + 6) in *. rewrite Hver, Hnext. cbn [nth].
    rewrite Z.shiftr_div_pow2 by lia. replace ((6 * 16 + x) / 2 ^ 4) with 6 by zdm. cbn [Z.eqb Pos.eqb negb].
    change (ETH_HLEN + 6 + 1 + 1 + Z.of_nat 32) with (ETH_HLEN + 40) in Hnet. rewrite ext_loop_skips by done. change (IPPROTO_UDP =? IPPROTO_UDP) with true. cbn [negb].
    replace (ETH_HLEN + 40 + zlen (encode_exts exts)) with (ETH_HLEN + (40 + zlen (encode_exts exts))) by lia. rewrite Hf by (kunfold; lia). done.
Qed.

(** ** Questions *)

(** A name of at most [k] labels, without compression. *)
Fixpoint plain_name (k : nat) (n : dns_name) {struct n} : Prop :=
  match n with
  | name_root => True
  | name_pointer _ => False
  | name_label l rest => match k with O => False | S k' => 1 <= zlen l <= 63 /\ plain_name k' rest end
  end.

Lemma qsection_plain d tail : 5 <= zlen tail -> forall n k fuel pos size, plain_name k n -> (k < fuel)%nat -> octets_at d pos (encode_name n ++ tail) ->
  qsection_loop d fuel pos size = size + zlen (encode_name n) + 4.
Proof.
  intros Ht n. induction n as [|off|l n IH]; intros k fuel pos size Hp Hk Hat; [| done |]; destruct fuel as [|fuel]; try lia; cbn [qsection_loop].
  - pose proof (octets_at_end _ _ _ Hat) as He. cbn [encode_name] in *. apply octets_at_app in Hat as [H0 _]. apply load_u8_at in H0. rewrite H0.
    rewrite zlen_app, zlen_1 in *. unfold fits. rewrite (proj2 (Z.leb_le (pos + 1) _)), (proj2 (Z.leb_le (pos + 1 + 5) _)) by lia. cbn. lia.
  - cbn [plain_name] in Hp. destruct k as [|k]; [done|]. destruct Hp as [Hl Hp]. pose proof (octets_at_end _ _ _ Hat) as He.
    cbn [encode_name] in Hat, He |- *. change (zlen l :: l ++ encode_name n) with ([zlen l] ++ l ++ encode_name n) in *. rewrite <- !app_assoc in *.
    apply octets_at_app in Hat as [H0 Hat]. apply octets_at_app in Hat as [_ Hat]. rewrite zlen_1 in Hat. apply load_u8_at in H0. rewrite H0.
    rewrite !zlen_app, zlen_1 in *. pose proof (zlen_nonneg tail). pose proof (encode_name_pos n).
    unfold fits. rewrite (proj2 (Z.leb_le (pos + 1) _)) by lia. cbn [negb]. rewrite (proj2 (Z.eqb_neq (zlen l) 0)) by lia.
    rewrite (IH k fuel) by (done || lia). lia.
Qed.

Lemma questions_plain d rest : rest <> [] -> forall qs n pos, (n <= length qs)%nat -> Forall (fun q => plain_name 15 (q_name q)) qs ->
  octets_at d pos (concat (map encode_question qs) ++ rest) -> questions_loop d n pos = true.
Proof.
  intros Hr qs. induction qs as [|q qs IH]; intros [|n] pos Hn Hq Hat; try done; [cbn in Hn; lia|].
  apply Forall_cons in Hq as [Hq Hqs]. cbn [map concat] in Hat. rewrite <- app_assoc in Hat. cbn [questions_loop].
  assert (0 < zlen rest) by (destruct rest; [done|unfold zlen; cbn; lia]).
  assert (Hv : validate_qsection d pos = zlen (encode_question q)).
  { set (tail := be_bytes 2 (q_type q) ++ be_bytes 2 (q_class q) ++ concat (map encode_question qs) ++ rest).
    assert (Ht : 5 <= zlen tail) by (unfold tail; rewrite !zlen_app, !zlen_be; pose proof (zlen_nonneg (concat (map encode_question qs))); lia).
    unfold validate_qsection. rewrite (qsection_plain d tail Ht (q_name q) 15 16 pos 0 Hq); [|lia|].
    - unfold encode_question. rewrite !zlen_app, !zlen_be. lia.
    - unfold encode_question at 1 in Hat. rewrite <- !app_assoc in Hat. exact Hat. }
  rewrite Hv. pose proof (encode_question_min q) as Hm. unfold k_dns_min_question_bytes in Hm. rewrite (proj2 (Z.eqb_neq _ 0)) by lia.
  apply octets_at_app in Hat as [_ Hat]. apply (IH n); [cbn in Hn; lia|done|done].
Qed.

(** ** Answers *)

(** A message whose questions have plain names of at most 15 labels. *)
Record plain_message (m : dns_message) : Prop := mk_plain {
  pm_id : 0 <= dm_id m < 2 ^ 16;
  pm_flags : 0 <= dm_flags m < 2 ^ 16;
  pm_qd : zlen (dm_qd m) < 2 ^ 16;
  pm_an : zlen (dm_an m) < 2 ^ 16;
  pm_names : Forall (fun q => plain_name 15 (q_name q)) (dm_qd m)
}.

(** A response to a standard query, without error, whose bits Z, AD and CD are zero, with a question and an
    answer. *)
Definition clean_answer (m : dns_message) : bool :=
  (dns_qr (dm_flags m) =? 1) && (dns_opcode (dm_flags m) =? 0) && ((dm_flags m / 16) mod 8 =? 0) && (dm_flags m mod 16 =? 0)
  && (0 <? zlen (dm_qd m)) && (0 <? zlen (dm_an m)).

Lemma exts_bound xs : Forall ext_ok xs -> zlen (encode_exts xs) <= 2048 * zlen xs.
Proof.
  intros H. induction H as [|x xs [Ho Hx] _ IH]; [done|]. cbn [encode_exts]. rewrite !zlen_app, !zlen_1. change (zlen (x :: xs)) with (Z.of_nat (S (length xs))).
  unfold zlen in *. destruct Hx as [[_ Hb]|[_ Hb]]; lia.
Qed.

Lemma udp_offset_small n : udp_network_ok n -> ETH_HLEN + zlen (udp_network_header n) < 0x7fff.
Proof.
  intros H. rewrite udp_network_length by done. destruct n as [tos len mid sum addrs opts|lo flow len hops addrs exts]; cbn [udp_network_ok] in H.
  - destruct H as (_ & _ & _ & _ & k & Hk & ->). kunfold. lia.
  - destruct H as (_ & _ & _ & _ & Hl & Hx). pose proof (exts_bound exts Hx). unfold zlen in *. kunfold. lia.
Qed.

(** The tests of [parse_dns_response] on the header of a message. *)
Lemma message_tested e d st m off rest :
  plain_message m -> data_off st = off -> 0 <= off < 0x7fff -> octets_at d (off + UDP_HDR_SIZE) (encode_message m ++ rest) ->
  parse_dns_response d e st = (XDP_PASS, if clean_answer m then submit_dns_packet d e st (off + UDP_HDR_SIZE) else st).
Proof.
  intros [Hid Hfl Hqd Han Hn] Hoff Hr Hat. unfold parse_dns_response. rewrite Hoff, (proj2 (Z.leb_gt _ off)) by lia. cbv zeta.
  pose proof (zlen_nonneg (dm_qd m)). pose proof (zlen_nonneg (dm_an m)).
  set (data := off + UDP_HDR_SIZE) in *. unfold encode_message, encode_header in Hat. rewrite <- !app_assoc in Hat. rewrite (be_bytes_2 (dm_flags m)) in Hat.
  change ([dm_flags m / 256 mod 256; dm_flags m mod 256] ++ ?r) with ([dm_flags m / 256 mod 256] ++ [dm_flags m mod 256] ++ r) in Hat.
  pose proof (octets_at_end _ _ _ Hat) as He. rewrite !zlen_app, !zlen_be, !zlen_1 in He.
  apply octets_at_app in Hat as [_ Hat]. apply octets_at_app in Hat as [Hf0 Hat]. apply octets_at_app in Hat as [Hf1 Hat].
  apply octets_at_app in Hat as [Hq Hat]. apply octets_at_app in Hat as [Ha Hat]. do 2 apply octets_at_app in Hat as [_ Hat].
  rewrite ?zlen_be, ?zlen_1 in *. change (Z.of_nat 2) with 2 in *.
  replace (data + 2 + 1 + 1) with (data + 4) in * by lia. replace (data + 2 + 1) with (data + 3) in * by lia.
  replace (data + 4 + 2) with (data + 6) in * by lia. replace (data + 6 + 2 + 2 + 2) with (data + DNS_HDR_SIZE) in * by (kunfold; lia).
  apply load_u8_at in Hf0, Hf1. apply load_be16_at in Hq; [|lia]. apply load_be16_at in Ha; [|lia]. rewrite Hf0, Hf1, Hq, Ha.
  pose proof (zlen_nonneg (encode_body m)). pose proof (zlen_nonneg rest).
  assert (fits d data DNS_HDR_SIZE = true) as -> by (unfold fits; kunfold; lia). cbn [negb].
  assert (Hbits : forall x k j, 0 <= k -> 0 <= j -> Z.land (Z.shiftr x k) (2 ^ j - 1) = (x / 2 ^ k) mod 2 ^ j)
    by (intros; by rewrite land_ones_mod, Z.shiftr_div_pow2 by lia).
  assert (Z.land (Z.shiftr (dm_flags m / 256 mod 256) 7) 1 = dns_qr (dm_flags m)) as ->.
  { unfold dns_qr. change 0x1 with (2 ^ 1 - 1). rewrite !Hbits by lia. zdm. }
  assert (Z.land (Z.shiftr (dm_flags m / 256 mod 256) 3) 0xf = dns_opcode (dm_flags m)) as ->.
  { unfold dns_opcode. change 0xf with (2 ^ 4 - 1). rewrite !Hbits by lia. zdm. }
  assert (Z.land (Z.shiftr (dm_flags m mod 256) 4) 0x7 = (dm_flags m / 16) mod 8) as -> by (change 0x7 with (2 ^ 3 - 1); rewrite Hbits by lia; zdm).
  assert (Z.land (Z.shiftr (dm_flags m mod 256) 0) 0xf = dm_flags m mod 16) as -> by (change 0xf with (2 ^ 4 - 1); rewrite Hbits by lia; zdm).
  match goal with |- context [if ?t then (XDP_PASS, st) else _] => assert (Ht : t = negb (clean_answer m)) end.
  { unfold clean_answer, nz, QR_RESPONSE, OP_QUERY. lia. }
  rewrite Ht. destruct (clean_answer m) eqn:Hc; cbn [negb]; [|done]. unfold clean_answer in Hc.
  assert (Hpos : 0 < zlen (dm_qd m) /\ 0 < zlen (dm_an m)) by lia.
  unfold encode_body in Hat. rewrite <- app_assoc in Hat.
  erewrite questions_plain; [done| | |exact Hn|exact Hat]; [|unfold zlen in *; lia].
  destruct (dm_an m) as [|r rs]; [unfold zlen in Hpos; cbn in Hpos; lia|]. cbn [app map concat]. unfold encode_rr. destruct (encode_name (rr_name r)) eqn:E; [|done].
  pose proof (encode_name_pos (rr_name r)) as H'. rewrite E in H'. unfold zlen in H'. cbn in H'. lia.
Qed.

(** The tests of [dns_response_tracker] on the UDP header in front of a message. *)
Lemma tracker_tested d e st n dport sum m pad :
  udp_network_ok n -> length sum = 2%nat -> plain_message m -> 8 + zlen (encode_message m) < 2 ^ 16 ->
  octets_at d 12 (be_bytes 2 (udp_ethertype n) ++ udp_network_header n
                  ++ (be_bytes 2 DNS_PORT ++ be_bytes 2 dport ++ be_bytes 2 (8 + zlen (encode_message m)) ++ sum) ++ encode_message m ++ pad) ->
  let udp := ETH_HLEN + zlen (udp_network_header n) in
  fst (dns_response_tracker d e st) = XDP_PASS
  /\ rdns_ring (snd (dns_response_tracker d e st))
     = if clean_answer m then rdns_ring (submit_dns_packet d e (mk_rdns (rdns_ring st) udp) (udp + UDP_HDR_SIZE)) else rdns_ring st.
Proof.
  intros Hn Hs Ha Hlen Hat udp. pose proof (encode_body_min m) as Hmin.
  pose proof (zlen_nonneg (dm_qd m)). pose proof (zlen_nonneg (dm_an m)).
  pose proof (zlen_nonneg (dm_ns m)). pose proof (zlen_nonneg (dm_ar m)). pose proof (zlen_nonneg pad). pose proof (zlen_nonneg (udp_network_header n)) as Hn0.
  assert (Hh : zlen (encode_header m) = 12) by (unfold encode_header; rewrite !zlen_app, !zlen_be; done).
  assert (Hpay : 12 <= zlen (encode_message m) /\ (clean_answer m = true -> 13 <= zlen (encode_message m))).
  { unfold encode_message. rewrite zlen_app, Hh. unfold k_dns_min_question_bytes, k_dns_min_rr_bytes, clean_answer in *. lia. }
  set (msg := encode_message m) in *. destruct Hpay as [Hpay Hpos].
  set (rest := (be_bytes 2 DNS_PORT ++ be_bytes 2 dport ++ be_bytes 2 (8 + zlen msg) ++ sum) ++ msg ++ pad) in Hat.
  assert (Hr : 8 <= zlen rest) by (unfold rest; rewrite !zlen_app, !zlen_be, (zlen_of sum 2) by done; lia).
  unfold dns_response_tracker. rewrite (udp_header_found d n rest Hn Hr Hat). fold udp.
  apply octets_at_app in Hat as [_ Hat]. rewrite zlen_be in Hat. change (12 + Z.of_nat 2) with ETH_HLEN in Hat. apply octets_at_app in Hat as [_ Hat].
  fold udp in Hat. unfold rest in Hat. apply octets_at_app in Hat as [Hudp Hat].
  rewrite !zlen_app, !zlen_be, (zlen_of sum 2) in Hat by done. change (Z.of_nat 2 + (Z.of_nat 2 + (Z.of_nat 2 + Z.of_nat 2))) with UDP_HDR_SIZE in Hat.
  pose proof (octets_at_end _ _ _ Hat) as He. rewrite zlen_app in He.
  apply octets_at_app in Hudp as [Hsp Hudp]. apply octets_at_app in Hudp as [_ Hudp]. apply octets_at_app in Hudp as [Hul _]. rewrite !zlen_be in *.
  apply load_be16_at in Hsp; [|kunfold; lia]. replace (udp + Z.of_nat 2 + Z.of_nat 2) with (udp + 4) in Hul by lia.
  apply load_be16_at in Hul; [|lia]. rewrite Hsp, Hul, Z.eqb_refl. cbn [negb].
  rewrite (proj2 (Z.ltb_ge (8 + zlen msg) _)) by (kunfold; lia).
  destruct (fits d udp (UDP_HDR_SIZE + DNS_HDR_SIZE + 1)) eqn:Hf; cbn [negb].
  - pose proof (udp_offset_small n Hn) as Hu. fold udp in Hu.
    rewrite (message_tested e d (mk_rdns (rdns_ring st) udp) m udp pad Ha eq_refl); [by destruct (clean_answer m)| |exact Hat].
    split; [unfold udp; kunfold; lia|exact Hu].
  - destruct (clean_answer m); [|done]. specialize (Hpos eq_refl). unfold fits in Hf. kunfold. lia.
Qed.

(** C36: the answers that reach user space, exactly.  Take a UDP packet from port 53, over IPv4 with any options or
    over IPv6 with up to four hop-by-hop, routing, destination or fragment headers, that carries a DNS message
    whose questions have plain names of at most 15 labels, with or without padding.  The packet is always
    passed on.  One record that begins with exactly the message and its padding is written to the ring when
    the message is a response to a standard query, without error, with a question and an answer, with the
    bits Z, AD and CD all zero, when message and padding have at most 256 octets, and when the ring has
    room; otherwise nothing is written. *)
Theorem rdns_answer_copied e st macs n dport sum m pad :
  length macs = 12%nat -> udp_network_ok n -> length sum = 2%nat -> plain_message m ->
  8 + zlen (encode_message m ++ pad) < 2 ^ 16 ->
  let '(act, st') := dns_response_tracker (udp_packet macs n DNS_PORT dport sum (encode_message m) pad) e st in
  act = XDP_PASS
  /\ rdns_ring st' = rdns_ring st
       ++ (if clean_answer m && (zlen (encode_message m ++ pad) <=? 256) && re_room e
           then [overlay (encode_message m ++ pad) (re_stale e)] else []).
Proof.
  intros Hm Hn Hs Ha Hlen. set (msg := encode_message m) in *. set (udp := ETH_HLEN + zlen (udp_network_header n)).
  remember (udp_packet macs n DNS_PORT dport sum msg pad) as d eqn:Ed. assert (Hlen' := Hlen). rewrite zlen_app in Hlen'. pose proof (zlen_nonneg pad).
  assert (Hat : octets_at d 12 (drop 12 d)).
  { exists (take 12 d), []. rewrite app_nil_r, take_drop. split; [done|]. rewrite Ed. unfold udp_packet, zlen. rewrite take_app_length' by done. by rewrite Hm. }
  assert (Hd : drop (Z.to_nat (udp + UDP_HDR_SIZE)) d = msg ++ pad /\ zlen d = udp + UDP_HDR_SIZE + zlen (msg ++ pad)).
  { rewrite Ed. unfold udp_packet. generalize (msg ++ pad). intros tail. rewrite !app_assoc. rewrite drop_app_length'.
    - split; [done|]. rewrite !zlen_app, !zlen_be, (zlen_of macs 12), (zlen_of sum 2) by done. unfold udp. kunfold. lia.
    - rewrite !length_app. change (length (be_bytes 2 _)) with 2%nat. unfold udp, zlen. kunfold. lia. }
  rewrite Ed in Hat at 2. unfold udp_packet in Hat. rewrite drop_app_length' in Hat by done.
  destruct (tracker_tested d e st n dport sum m pad Hn Hs Ha) as [H1 H2]; [fold msg; lia|exact Hat|]. fold udp in H2. destruct Hd as [Hd Hz].
  destruct (dns_response_tracker d e st) as [act st']. cbn [fst snd] in H1, H2. split; [exact H1|]. rewrite H2.
  destruct (clean_answer m); cbn [andb]; [|by rewrite app_nil_r].
  unfold submit_dns_packet. rewrite Hz. replace (udp + UDP_HDR_SIZE + zlen (msg ++ pad) - (udp + UDP_HDR_SIZE)) with (zlen (msg ++ pad)) by lia.
  assert (Hpos : 0 < zlen (msg ++ pad)) by (unfold msg, encode_message, encode_header; rewrite !zlen_app, !zlen_be; pose proof (zlen_nonneg (encode_body m)); lia).
  unfold RB_RECORD_LEN. change 0xffff with (2 ^ 16 - 1). rewrite land_ones_mod, Z.mod_small by lia.
  rewrite (proj2 (Z.eqb_neq _ 0)) by lia. cbn [orb]. rewrite Z.ltb_antisym. destruct (zlen (msg ++ pad) <=? 256); cbn [negb andb]; [|by rewrite app_nil_r].
  destruct (re_room e); cbn [negb rdns_ring]; [|by rewrite app_nil_r].
  rewrite Hd, take_ge by (unfold zlen; lia). done.
Qed.

(** ** Witnesses *)

Definition example_rdns_network : udp_network :=
  udp6 [0] [0; 0; 0] [0; 60] 64 (repeat 1 32) [mk_ip6_ext IPPROTO_HOPOPTS 0 (repeat 0 6); mk_ip6_ext IPPROTO_FRAGMENT 0 (repeat 0 6)].

Definition example_rdns_answer (flags : Z) : dns_message :=
  mk_message 3178 flags [mk_question (name_label [97; 98] name_root) 1 1] [mk_rr (name_pointer 12) 1 1 60 [10; 0; 0; 7]] [] [].

Lemma example_rdns_network_ok : udp_network_ok example_rdns_network.
Proof.
  split; [exists 0; split; [done|lia]|]. split_and!; try reflexivity; [cbn; lia|].
  apply Forall_cons; split; [split; [cbn; lia|left; split; [left|]; reflexivity]|].
  apply Forall_cons; split; [split; [cbn; lia|right; split; reflexivity]|apply Forall_nil_2].
Defined.

Lemma example_rdns_answer_ok flags : 0 <= flags < 2 ^ 16 -> plain_message (example_rdns_answer flags).
Proof.
  intros Hf. split; try (cbn; unfold zlen; cbn; lia). repeat constructor; cbn; unfold zlen; cbn; lia.
Defined.

(** An answer, and the same answer with the bit AD set. *)
Lemma rdns_answer_copied_witness :
  let run flags := dns_response_tracker (udp_packet (repeat 2 12) example_rdns_network DNS_PORT 40000 [0; 0] (encode_message (example_rdns_answer flags)) [0; 0])
                     (mk_rdns_env true (repeat 0 256)) (mk_rdns [] 0) in
  rdns_ring (snd (run 0x8180)) = [overlay (encode_message (example_rdns_answer 0x8180) ++ [0; 0]) (repeat 0 256)]
  /\ rdns_ring (snd (run 0x81a0)) = [].
Proof.
  cbv zeta. split.
  - pose proof (rdns_answer_copied (mk_rdns_env true (repeat 0 256)) (mk_rdns [] 0) (repeat 2 12) example_rdns_network 40000 [0; 0] (example_rdns_answer 0x8180) [0; 0]
      eq_refl example_rdns_network_ok eq_refl (example_rdns_answer_ok 0x8180 ltac:(lia)) ltac:(vm_compute; reflexivity)) as H.
    destruct (dns_response_tracker _ _ _) as [act st']. exact (proj2 H).
  - pose proof (rdns_answer_copied (mk_rdns_env true (repeat 0 256)) (mk_rdns [] 0) (repeat 2 12) example_rdns_network 40000 [0; 0] (example_rdns_answer 0x81a0) [0; 0]
      eq_refl example_rdns_network_ok eq_refl (example_rdns_answer_ok 0x81a0 ltac:(lia)) ltac:(vm_compute; reflexivity)) as H.
    destruct (dns_response_tracker _ _ _) as [act st']. exact (proj2 H).
Defined.

(** The three bits tested for zero are Z, AD and CD: an answer that a validating resolver marks authentic is not
    copied. *)
Example authentic_answer_skipped :
  dns_response_tracker (udp_packet (repeat 2 12) example_rdns_network DNS_PORT 40000 [0; 0] (encode_message (example_rdns_answer 0x81a0)) [])
    (mk_rdns_env true (repeat 0 256)) (mk_rdns [] 0)
  = (XDP_PASS, mk_rdns [] (ETH_HLEN + zlen (udp_network_header example_rdns_network))).
Proof. vm_compute. reflexivity. Qed.
