(* ===== verification/Pid.v ===== *)
(** * Process selection ([bpf/pid/pid.h], [pid_helpers.h], [types/pid_filter.h], [maps/valid_pids.h]).

    Which processes are instrumented, and by which number.  The agent marks processes in a bitmap by
    the pid its own /proc shows, so a program has to find the number a task has in the agent's pid
    namespace: [numbers] of the kernel's [struct pid] holds one number per namespace, from the initial
    one down to the task's own.  The level of the agent's namespace is learned from the first task
    seen in it, in a variable all CPUs share. *)

From Stdlib Require Import ZArith Lia ZifyBool List Bool.
From stdpp Require Import base list relations gmap.
From S2P Require Import Prelude ConnInfo HttpInfo TraceMaps TraceParent.

Local Open Scope Z_scope.

(** ** Definitions *)

Definition k_pid_ns_mode_init : Z := 0.
Definition k_pid_ns_mode_pod : Z := 1.
Definition k_max_pid_ns_level : Z := 32.
Definition k_valid_pids_words : Z := 2 ^ 22 / 64.

#[export] Hint Unfold k_pid_ns_mode_init k_pid_ns_mode_pod k_max_pid_ns_level : kconst.

(** [struct upid]: the number, and the inode of the namespace it counts in. *)
Record upid := mk_upid { up_nr : Z; up_ns : Z }.

(** [struct pid]: [numbers] has [level + 1] entries; behind them is other memory. *)
Record kpid := mk_kpid { kp_level : Z; kp_numbers : Z -> upid }.

(** What the programs read of a task: its thread group id, its own [struct pid] and that of its group
    leader, and level and inode of [nsproxy->pid_ns_for_children]. *)
Record ktask := mk_ktask { kt_tgid : Z; kt_thread_pid : kpid; kt_leader_pid : kpid; kt_children_level : Z; kt_children_ns : Z }.

(** What the agent sets when it loads the programs. *)
Record pid_conf := mk_pid_conf { filter_pids : Z; pid_ns_mode : Z; obi_pid_ns_ino : Z }.

Section selection.
Variable cf : pid_conf.

Definition pid_nr_at (pid : kpid) (level i : Z) : Z :=
  if level <? i then 0
  else
    let upid := kp_numbers pid i in
    if negb (up_ns upid =? obi_pid_ns_ino cf) then 0 else u32 (up_nr upid).

(** The loop of [find_obi_pid_ns_level] from [i] on. *)
Fixpoint find_level_from (n : nat) (i : Z) (pid : kpid) (level : Z) : Z :=
  match n with
  | O => 0
  | S n => if level <? i then 0 else if nz (pid_nr_at pid level i) then i else find_level_from n (i + 1) pid level
  end.

Definition find_obi_pid_ns_level (pid : kpid) (level : Z) : Z :=
  find_level_from (Z.to_nat k_max_pid_ns_level) 1 pid level.

(** The pid, and [obi_pid_ns_level] afterwards. *)
Definition pid_in_obi_pid_ns (lvl : Z) (task : ktask) : Z * Z :=
  let pid := kt_leader_pid task in
  let level := kp_level pid in
  if lvl =? 0 then
    let found := find_obi_pid_ns_level pid level in
    if found =? 0 then (0, lvl) else (pid_nr_at pid level found, found)
  else (pid_nr_at pid level lvl, lvl).

Definition obi_pid (lvl id : Z) (task : ktask) : Z * Z :=
  if pid_ns_mode cf =? k_pid_ns_mode_init then (u32 (Z.shiftr id 32), lvl) else pid_in_obi_pid_ns lvl task.

Definition obi_parent_pid (lvl : Z) (parent : ktask) : Z :=
  if pid_ns_mode cf =? k_pid_ns_mode_init then u32 (kt_tgid parent)
  else pid_nr_at (kt_leader_pid parent) (kp_level (kt_leader_pid parent)) lvl.

(** The bitmap is an array of words; a lookup beyond the last one finds nothing. *)
Definition pid_selected (bitmap : Z -> Z) (pid : Z) : bool :=
  let word := pid / 64 in
  if word <? k_valid_pids_words then nz (Z.land (Z.shiftr (bitmap word) (Z.land pid 63)) 1) else false.

Definition pid_in_filter (bitmap : Z -> Z) (lvl id : Z) (task parent : ktask) : Z * Z :=
  let host_pid := u32 (Z.shiftr id 32) in
  if filter_pids cf =? 0 then (host_pid, lvl)
  else
    let '(pid, lvl) := obi_pid lvl id task in
    if pid =? 0 then (0, lvl)
    else if pid_selected bitmap pid || pid_selected bitmap (obi_parent_pid lvl parent) then (pid, lvl) else (0, lvl).

Definition valid_pid (valid_pids : Z -> Z) (lvl id : Z) (task parent : ktask) : Z * Z :=
  pid_in_filter valid_pids lvl id task parent.

End selection.

(** ** The identity of the running task *)

Definition tid_from_pid_tgid (id : Z) : Z := u32 (Z.land id 0x0ffffffff).
Definition to_pid_tgid (pid tid : Z) : Z := Z.lor (u64 (Z.shiftl pid 32)) tid.

Definition ns_pid_ppid (task parent : ktask) : Z * Z * Z :=
  (up_nr (kp_numbers (kt_leader_pid task) (kt_children_level task)),
   up_nr (kp_numbers (kt_leader_pid parent) (kt_children_level parent)), kt_children_ns task).

Definition task_pid_of (task : ktask) : pid_info :=
  mk_pid_info (u32 (kt_tgid task)) (u32 (up_nr (kp_numbers (kt_leader_pid task) (kt_children_level task)))) (u32 (kt_children_ns task)).

Definition get_task_tid (task : ktask) : Z := u32 (up_nr (kp_numbers (kt_thread_pid task) (kt_children_level task))).

Definition task_tid (task : ktask) : pid_key :=
  let level := kt_children_level task in
  mk_pid_key (u32 (up_nr (kp_numbers (kt_thread_pid task) level))) (u32 (up_nr (kp_numbers (kt_leader_pid task) level)))
    (u32 (kt_children_ns task)).

(** ** [pid_in_obi_pid_ns] on several CPUs *)

(** Where a CPU stands between its accesses to [obi_pid_ns_level]. *)
Inductive level_pc :=
  | at_test
  | at_store (found : Z)
  | at_read
  | finished_with (pid : Z).

Definition level_step (cf : pid_conf) (pid : kpid) (lvl : Z) (pc : level_pc) : Z * level_pc :=
  match pc with
  | at_test =>
      if lvl =? 0 then
        let found := find_obi_pid_ns_level cf pid (kp_level pid) in
        (lvl, if found =? 0 then finished_with 0 else at_store found)
      else (lvl, at_read)
  | at_store found => (found, at_read)
  | at_read => (lvl, finished_with (pid_nr_at cf pid (kp_level pid) lvl))
  | finished_with r => (lvl, finished_with r)
  end.

(** Each CPU runs the function for a task of its own; any of them makes the next step. *)
Record cpus := mk_cpus { cp_level : Z; cp_at : list (kpid * level_pc) }.

Inductive cpus_step (cf : pid_conf) : cpus -> cpus -> Prop :=
  | cpu_steps lvl l1 pid pc l2 lvl' pc' :
      level_step cf pid lvl pc = (lvl', pc') ->
      cpus_step cf (mk_cpus lvl (l1 ++ (pid, pc) :: l2)) (mk_cpus lvl' (l1 ++ (pid, pc') :: l2)).

(** ** The reference *)

(** The number of a task in the namespace with inode [ino], 0 when it is not visible there. *)
Definition nr_in_ns (ino : Z) (p : kpid) (r : Z) : Prop :=
  (exists i, 0 <= i <= kp_level p /\ up_ns (kp_numbers p i) = ino /\ up_nr (kp_numbers p i) = r)
  \/ (r = 0 /\ forall i, 0 <= i <= kp_level p -> up_ns (kp_numbers p i) <> ino).

(** A [struct pid] in a system whose namespace [ino] is at level [lvl]: a namespace has one level, and
    numbers are positive. *)
Definition kpid_wf (ino lvl : Z) (p : kpid) : Prop :=
  forall i, 0 <= i <= kp_level p -> up_ns (kp_numbers p i) = ino -> i = lvl /\ 0 < up_nr (kp_numbers p i) < 2 ^ 31.

(** The bitmap marks the pids of [s]. *)
Definition marks_pids (bitmap : Z -> Z) (s : gset Z) : Prop :=
  forall p, 0 <= p < 2 ^ 22 -> Z.testbit (bitmap (p / 64)) (p mod 64) = bool_decide (p ∈ s).

Section facts.
Variables (cf : pid_conf) (L : Z).
Hypothesis HL : 1 <= L <= k_max_pid_ns_level.

Lemma nr_at_level p : kpid_wf (obi_pid_ns_ino cf) L p -> nr_in_ns (obi_pid_ns_ino cf) p (pid_nr_at cf p (kp_level p) L).
Proof.
  intros Hwf. unfold pid_nr_at. destruct (Z.ltb_spec (kp_level p) L).
  - right. split; [done|]. intros i Hi Hns. destruct (Hwf i Hi Hns). lia.
  - destruct (Z.eqb_spec (up_ns (kp_numbers p L)) (obi_pid_ns_ino cf)) as [E|E]; cbn [negb].
    + left. exists L. destruct (Hwf L ltac:(lia) E) as [_ ?]. rewrite wrap_small by lia. split_and!; [lia|lia|done|done].
    + right. split; [done|]. intros i Hi Hns. destruct (Hwf i Hi Hns). congruence.
Qed.

(** Another level than [L] has no number. *)
Lemma nr_at_other p i : kpid_wf (obi_pid_ns_ino cf) L p -> 0 <= i -> i <> L -> pid_nr_at cf p (kp_level p) i = 0.
Proof.
  intros Hwf Hi Hne. unfold pid_nr_at. destruct (Z.ltb_spec (kp_level p) i); [done|].
  destruct (Z.eqb_spec (up_ns (kp_numbers p i)) (obi_pid_ns_ino cf)) as [E|E]; [|done]. destruct (Hwf i ltac:(lia) E). lia.
Qed.

Lemma find_level_spec p n i :
  kpid_wf (obi_pid_ns_ino cf) L p -> 1 <= i ->
  find_level_from cf n i p (kp_level p)
  = if (i <=? L) && (L <? i + Z.of_nat n) && nz (pid_nr_at cf p (kp_level p) L) then L else 0.
Proof.
  intros Hwf. revert i. induction n as [|n IH]; intros i Hi; cbn [find_level_from].
  - by replace ((i <=? L) && (L <? i + Z.of_nat 0)) with false by lia.
  - destruct (Z.ltb_spec (kp_level p) i).
    + destruct (Z.leb_spec i L); [|done]. unfold pid_nr_at. rewrite (proj2 (Z.ltb_lt (kp_level p) L)) by lia. by rewrite andb_false_r.
    + destruct (decide (i = L)) as [->|Hne].
      * rewrite Z.leb_refl, (proj2 (Z.ltb_lt L _)) by lia. cbn [andb]. destruct (nz (pid_nr_at cf p (kp_level p) L)) eqn:E; [done|].
        rewrite IH by lia. by rewrite (proj2 (Z.leb_gt _ _)) by lia.
      * rewrite (nr_at_other p i) by (done || lia). cbn [nz negb Z.eqb]. rewrite IH by lia.
        by replace ((i + 1 <=? L) && (L <? i + 1 + Z.of_nat n)) with ((i <=? L) && (L <? i + Z.of_nat (S n))) by lia.
Qed.

Lemma find_level p :
  kpid_wf (obi_pid_ns_ino cf) L p ->
  find_obi_pid_ns_level cf p (kp_level p) = if nz (pid_nr_at cf p (kp_level p) L) then L else 0.
Proof.
  intros Hwf. unfold find_obi_pid_ns_level. rewrite find_level_spec by (done || lia).
  replace ((1 <=? L) && (L <? 1 + Z.of_nat (Z.to_nat k_max_pid_ns_level))) with true by (kunfold; lia). done.
Qed.

(** ** Every CPU finds the number *)

Definition pc_ok (p : kpid) (lvl : Z) (pc : level_pc) : Prop :=
  match pc with
  | at_test => True
  | at_store found => found = L
  | at_read => lvl = L
  | finished_with r => nr_in_ns (obi_pid_ns_ino cf) p r
  end.

Definition cpus_ok (s : cpus) : Prop :=
  (cp_level s = 0 \/ cp_level s = L) /\ Forall (fun x => kpid_wf (obi_pid_ns_ino cf) L x.1 /\ pc_ok x.1 (cp_level s) x.2) (cp_at s).

Lemma level_step_ok p lvl pc lvl' pc' :
  kpid_wf (obi_pid_ns_ino cf) L p -> lvl = 0 \/ lvl = L -> pc_ok p lvl pc -> level_step cf p lvl pc = (lvl', pc') ->
  (lvl' = lvl \/ lvl' = L) /\ pc_ok p lvl' pc'.
Proof.
  intros Hwf Hl Hpc. pose proof (nr_at_level p Hwf) as Hnr. destruct pc; cbn [level_step pc_ok] in *.
  - destruct (Z.eqb_spec lvl 0) as [->|Hne]; intros [= <- <-]; [|by split; [left|destruct Hl]].
    split; [by left|]. rewrite find_level by done. unfold nz. destruct (Z.eqb_spec (pid_nr_at cf p (kp_level p) L) 0) as [E|E]; cbn [negb].
    + by rewrite E in Hnr.
    + rewrite (proj2 (Z.eqb_neq L 0)) by lia. done.
  - intros [= <- <-]. split; [by right|done].
  - subst lvl. intros [= <- <-]. split; [by left|done].
  - intros [= <- <-]. by split; [left|].
Qed.

Lemma pc_ok_level p lvl lvl' pc : lvl = 0 \/ lvl = L -> lvl' = lvl \/ lvl' = L -> pc_ok p lvl pc -> pc_ok p lvl' pc.
Proof. intros Hl Hl'. destruct pc; cbn; [done|done| |done]. intros ->. by destruct Hl'. Qed.

Lemma cpus_step_ok s s' : cpus_step cf s s' -> cpus_ok s -> cpus_ok s'.
Proof.
  intros [lvl l1 p pc l2 lvl' pc' Hstep] [Hl Hall]. cbn [cp_level cp_at] in *. apply Forall_app in Hall as [H1 H2].
  apply Forall_cons in H2 as [[Hwf Hpc] H2]. destruct (level_step_ok p lvl pc lvl' pc' Hwf Hl Hpc Hstep) as [Hl' Hpc'].
  split; [cbn; intuition congruence|]. cbn.
  assert (Hm : forall l, Forall (fun x => kpid_wf (obi_pid_ns_ino cf) L x.1 /\ pc_ok x.1 lvl x.2) l ->
    Forall (fun x => kpid_wf (obi_pid_ns_ino cf) L x.1 /\ pc_ok x.1 lvl' x.2) l).
  { intros l H. eapply Forall_impl; [exact H|]. intros x [? ?]. split; [done|]. by eapply pc_ok_level. }
  apply Forall_app. split; [by apply Hm|]. constructor; [by split|by apply Hm].
Qed.

End facts.

(** C22: a race for the namespace level is harmless.  However the CPUs interleave their reads and writes
    of the shared level, each for a task of its own and starting when nothing is learned, whatever a
    CPU returns is the number its task has in the agent's namespace, 0 for a task outside, and the
    level is never anything but unknown or right. *)
Theorem pid_namespace_race cf L ps s' :
  1 <= L <= k_max_pid_ns_level -> Forall (kpid_wf (obi_pid_ns_ino cf) L) ps ->
  rtc (cpus_step cf) (mk_cpus 0 (map (fun p => (p, at_test)) ps)) s' ->
  (cp_level s' = 0 \/ cp_level s' = L)
  /\ Forall (fun x => forall r, x.2 = finished_with r -> nr_in_ns (obi_pid_ns_ino cf) x.1 r) (cp_at s').
Proof.
  intros HL Hps Hrun. enough (cpus_ok cf L s') as [Hl Hall].
  { split; [done|]. eapply Forall_impl; [exact Hall|]. intros [p pc] [_ Hpc] r E. cbn in *. by subst pc. }
  assert (H0 : cpus_ok cf L (mk_cpus 0 (map (fun p => (p, at_test)) ps))).
  { split; [by left|]. cbn. apply Forall_map. eapply Forall_impl; [exact Hps|]. intros p Hp. by split. }
  clear Hps. induction Hrun as [|s s1 s2 Hst _ IH]; [done|]. apply IH. by eapply cpus_step_ok.
Qed.

(** The function runs the steps of one CPU without interruption. *)
Lemma level_alone cf lvl task :
  let step x := level_step cf (kt_leader_pid task) x.1 x.2 in
  step (step (step (lvl, at_test))) = let '(r, lvl') := pid_in_obi_pid_ns cf lvl task in (lvl', finished_with r).
Proof.
  cbv zeta. unfold pid_in_obi_pid_ns. cbn [fst snd level_step]. destruct (lvl =? 0); [|done]. by destruct (_ =? 0).
Qed.

(** ** The filter *)

Lemma nr_unique ino L p r r' : kpid_wf ino L p -> nr_in_ns ino p r -> nr_in_ns ino p r' -> r = r'.
Proof.
  intros Hwf [(i & Hi & Hn & Hr)|[Hr H]] [(j & Hj & Hn' & Hr')|[Hr' H']]; [|by destruct (H' i Hi)|by destruct (H j Hj)|congruence].
  destruct (Hwf i Hi Hn) as [-> _], (Hwf j Hj Hn') as [-> _]. congruence.
Qed.

Lemma selected_exact bm s p :
  marks_pids bm s -> (forall q, q ∈ s -> 0 < q < 2 ^ 22) -> 0 <= p -> pid_selected bm p = bool_decide (p ∈ s).
Proof.
  intros Hm Hs Hp. unfold pid_selected. change 63 with (Z.ones 6). rewrite Z.land_ones by lia. change (2 ^ 6) with 64.
  destruct (Z.ltb_spec (p / 64) k_valid_pids_words) as [Hw|Hw]; unfold k_valid_pids_words in Hw; change (2 ^ 22 / 64) with 65536 in Hw.
  - assert (p < 2 ^ 22) by (pose proof (Z.div_mod p 64 ltac:(lia)); pose proof (Z.mod_pos_bound p 64 ltac:(lia)); lia).
    rewrite <- (Hm p) by lia. change 1 with (Z.ones 1). rewrite Z.land_ones by lia. change (2 ^ 1) with 2.
    rewrite <- Z.bit0_mod, Z.shiftr_spec, Z.add_0_l by lia. by destruct (Z.testbit _ _).
  - symmetry. apply bool_decide_eq_false_2. intros Hin. apply Hs in Hin.
    pose proof (Z.div_lt_upper_bound p 64 65536 ltac:(lia) ltac:(lia)). lia.
Qed.

(** The numbers of a process with thread group id [tgid] in a system whose agent lives in a namespace
    of level [L].  Level 0 is the initial namespace: every process has a number there, which is its
    thread group id. *)
Definition numbered_in (cf : pid_conf) (L tgid : Z) (p : kpid) : Prop :=
  let ino := obi_pid_ns_ino cf in
  0 <= kp_level p /\ up_nr (kp_numbers p 0) = tgid /\ 0 <= tgid
  /\ (if L =? 0 then up_ns (kp_numbers p 0) = ino /\ forall i, 0 < i <= kp_level p -> up_ns (kp_numbers p i) <> ino
      else kpid_wf ino L p).

(** The agent works in init mode exactly when its namespace is the initial one. *)
Definition mode_matches (cf : pid_conf) (L : Z) : Prop :=
  0 <= L <= k_max_pid_ns_level /\ (pid_ns_mode cf = k_pid_ns_mode_init <-> L = 0).

Lemma init_number cf tgid p r : numbered_in cf 0 tgid p -> nr_in_ns (obi_pid_ns_ino cf) p r -> r = tgid.
Proof.
  intros (Hlv & <- & _ & Hn & Hu) [(i & Hi & Hns & <-)|[_ H]]; [|by destruct (H 0 ltac:(lia))].
  destruct (Z.eq_dec i 0) as [-> |]; [done|]. by destruct (Hu i ltac:(lia)).
Qed.

Lemma nr_nonneg cf L tgid p r : numbered_in cf L tgid p -> nr_in_ns (obi_pid_ns_ino cf) p r -> 0 <= r.
Proof.
  intros Hn Hr. destruct (Z.eqb_spec L 0) as [-> |HL].
  - apply (init_number cf tgid) in Hr as ->; [|done]. by destruct Hn as (_ & _ & ? & _).
  - destruct Hn as (_ & _ & _ & Hwf). rewrite (proj2 (Z.eqb_neq _ _) HL) in Hwf.
    destruct Hr as [(i & Hi & Hns & <-)|[-> _]]; [|done]. pose proof (Hwf i Hi Hns). lia.
Qed.

Lemma pid_numbered_wf cf L tgid p : L <> 0 -> numbered_in cf L tgid p -> kpid_wf (obi_pid_ns_ino cf) L p.
Proof. intros HL (_ & _ & _ & Hwf). by rewrite (proj2 (Z.eqb_neq _ _) HL) in Hwf. Qed.

Lemma obi_pid_spec cf L lvl id task r :
  mode_matches cf L -> numbered_in cf L (u32 (Z.shiftr id 32)) (kt_leader_pid task) -> lvl = 0 \/ lvl = L ->
  nr_in_ns (obi_pid_ns_ino cf) (kt_leader_pid task) r ->
  let '(r', lvl') := obi_pid cf lvl id task in
  r' = r /\ (lvl' = 0 \/ lvl' = L) /\ (r <> 0 -> lvl' = L).
Proof.
  intros [HL Hmode] Hn Hl Hr. unfold obi_pid.
  destruct (Z.eqb_spec (pid_ns_mode cf) k_pid_ns_mode_init) as [Hm|Hm].
  { apply Hmode in Hm as ->. rewrite (init_number _ _ _ _ Hn Hr). by destruct Hl as [-> | ->]; auto. }
  assert (HL0 : L <> 0) by tauto. assert (HL' : 1 <= L <= k_max_pid_ns_level) by lia.
  pose proof (pid_numbered_wf _ _ _ _ HL0 Hn) as Hwf. unfold pid_in_obi_pid_ns.
  pose proof (nr_at_level cf L HL' _ Hwf) as Hnr. pose proof (nr_unique _ _ _ _ _ Hwf Hr Hnr) as E.
  destruct (Z.eqb_spec lvl 0) as [->|Hne].
  - rewrite (find_level cf L HL') by done. rewrite <- E in *. unfold nz. destruct (Z.eqb_spec r 0) as [->|H0]; cbn [negb].
    + split_and!; auto. lia.
    + rewrite (proj2 (Z.eqb_neq L 0)) by lia. rewrite <- E. auto.
  - destruct Hl as [?| ->]; [done|]. rewrite <- E. auto.
Qed.

Lemma parent_pid_spec cf L parent r :
  mode_matches cf L -> numbered_in cf L (u32 (kt_tgid parent)) (kt_leader_pid parent) ->
  nr_in_ns (obi_pid_ns_ino cf) (kt_leader_pid parent) r -> obi_parent_pid cf L parent = r.
Proof.
  intros [HL Hmode] Hn Hr. unfold obi_parent_pid.
  destruct (Z.eqb_spec (pid_ns_mode cf) k_pid_ns_mode_init) as [Hm|Hm].
  { apply Hmode in Hm as ->. by rewrite (init_number _ _ _ _ Hn Hr). }
  assert (HL0 : L <> 0) by tauto. eapply nr_unique; [by eapply pid_numbered_wf| |done].
  apply nr_at_level; [lia|by eapply pid_numbered_wf].
Qed.

(** C23: the filter is exact.  When filtering is on and the bitmap marks the pids of a set as the
    agent's /proc shows them, a process passes if and only if it is visible in the agent's pid
    namespace and its own number there or its parent's is in the set, whether the agent is in the
    initial namespace (init mode) or in one of the 32 levels below it (pod mode), and whether or not
    the namespace level was learned before; it then gets the number the agent knows it by.  A pid
    beyond the bitmap is not taken for another.  The processes are numbered as the kernel numbers
    them: the agent's namespace has one level, numbers in a lower namespace are positive, and the
    number in the initial namespace is the thread group id. *)
Theorem pid_filter_exact cf L valid_pids s lvl id task parent own par :
  marks_pids valid_pids s -> (forall p, p ∈ s -> 0 < p < 2 ^ 22) -> filter_pids cf <> 0 ->
  mode_matches cf L -> lvl = 0 \/ lvl = L ->
  numbered_in cf L (u32 (Z.shiftr id 32)) (kt_leader_pid task) ->
  numbered_in cf L (u32 (kt_tgid parent)) (kt_leader_pid parent) ->
  nr_in_ns (obi_pid_ns_ino cf) (kt_leader_pid task) own -> nr_in_ns (obi_pid_ns_ino cf) (kt_leader_pid parent) par ->
  let '(r, lvl') := valid_pid cf valid_pids lvl id task parent in
  (lvl' = 0 \/ lvl' = L) /\ r = if bool_decide (own <> 0 /\ (own ∈ s \/ par ∈ s)) then own else 0.
Proof.
  intros Hm Hs Hf HL Hl Hwt Hwp Hown Hpar. pose proof (nr_nonneg _ _ _ _ _ Hwt Hown). pose proof (nr_nonneg _ _ _ _ _ Hwp Hpar).
  unfold valid_pid, pid_in_filter. rewrite (proj2 (Z.eqb_neq _ _) Hf).
  pose proof (obi_pid_spec cf L lvl id task own HL Hwt Hl Hown) as Ho. destruct (obi_pid cf lvl id task) as [r lvl'].
  destruct Ho as (-> & Hl' & Hset). destruct (Z.eqb_spec own 0) as [->|Hne].
  { split; [done|]. by rewrite bool_decide_eq_false_2 by tauto. }
  rewrite (Hset Hne), (parent_pid_spec cf L parent par) by done. rewrite !(selected_exact valid_pids s) by done.
  destruct (bool_decide_reflect (own ∈ s)) as [Hi|Hi]; cbn [orb].
  { split; [by right|]. by rewrite bool_decide_eq_true_2 by auto. }
  destruct (bool_decide_reflect (par ∈ s)) as [Hi'|Hi']; (split; [by right|]).
  - by rewrite bool_decide_eq_true_2 by auto.
  - by rewrite bool_decide_eq_false_2 by tauto.
Qed.

(** ** Witnesses *)

(** A task two namespaces below the initial one; the agent's namespace, inode 70, is at level 1. *)
Definition example_kpid (nr : Z) : kpid :=
  mk_kpid 2 (fun i => if i =? 0 then mk_upid (1000 + nr) 50 else if i =? 1 then mk_upid nr 70 else mk_upid 1 90).

Definition example_pid_conf : pid_conf := mk_pid_conf 1 k_pid_ns_mode_pod 70.

Lemma example_kpid_wf nr : 0 < nr < 2 ^ 31 -> kpid_wf 70 1 (example_kpid nr).
Proof.
  intros Hnr i Hi. unfold example_kpid. cbn [kp_numbers kp_level] in *.
  destruct (Z.eqb_spec i 0); cbn [up_ns up_nr]; [done|]. destruct (Z.eqb_spec i 1); cbn [up_ns up_nr]; [done|lia].
Qed.

Lemma pid_namespace_race_witness :
  Forall (fun x => forall r, x.2 = finished_with r -> nr_in_ns 70 x.1 r)
    [(example_kpid 33, finished_with 33); (example_kpid 44, at_store 1)].
Proof.
  refine (proj2 (pid_namespace_race example_pid_conf 1 [example_kpid 33; example_kpid 44]
    (mk_cpus 1 [(example_kpid 33, finished_with 33); (example_kpid 44, at_store 1)]) _ _ _)); [by vm_compute| |].
  - apply Forall_cons_2; [apply example_kpid_wf; lia|]. apply Forall_cons_2; [apply example_kpid_wf; lia|]. apply Forall_nil_2.
  - eapply rtc_l; [by apply (cpu_steps _ 0 [] _ at_test _ 0 (at_store 1))|].
    eapply rtc_l; [by apply (cpu_steps _ 0 [(example_kpid 33, at_store 1)] _ at_test [] 0 (at_store 1))|].
    eapply rtc_l; [by apply (cpu_steps _ 0 [] _ (at_store 1) _ 1 at_read)|].
    eapply rtc_l; [by apply (cpu_steps _ 1 [] _ at_read _ 1 (finished_with 33))|]. apply rtc_refl.
Defined.

Definition example_ktask (tgid nr : Z) : ktask := mk_ktask tgid (example_kpid nr) (example_kpid nr) 2 90.

(** The bitmap of [{130}]. *)
Definition example_bitmap (w : Z) : Z := if w =? 2 then 4 else 0.

Lemma example_marks : marks_pids example_bitmap {[130]}.
Proof.
  intros p Hp. unfold example_bitmap. destruct (Z.eqb_spec (p / 64) 2) as [E|E].
  - pose proof (Z.div_mod p 64 ltac:(lia)) as Hd. pose proof (Z.mod_pos_bound p 64 ltac:(lia)) as Hb. rewrite E in Hd.
    destruct (decide (p mod 64 = 2)) as [H2|H2].
    + rewrite H2, bool_decide_eq_true_2 by (apply elem_of_singleton; lia). done.
    + rewrite bool_decide_eq_false_2 by (rewrite elem_of_singleton; lia). change 4 with (2 ^ 2). apply Z.pow2_bits_false. lia.
  - rewrite Z.bits_0, bool_decide_eq_false_2; [done|]. rewrite elem_of_singleton. intros ->. by apply E.
Qed.

(** An agent in the initial namespace, whose inode is [procPIDInitIno], and a process in a container. *)
Definition example_init_conf : pid_conf := mk_pid_conf 1 k_pid_ns_mode_init 0xEFFFFFFC.
Definition example_host_kpid (nr : Z) : kpid :=
  mk_kpid 1 (fun i => if i =? 0 then mk_upid nr 0xEFFFFFFC else mk_upid 1 90).
Definition example_host_ktask (nr : Z) : ktask := mk_ktask nr (example_host_kpid nr) (example_host_kpid nr) 1 90.

(** A child, pid 200, of the marked process 130, seen by an agent in a pod and by one on the host. *)
Lemma pid_filter_exact_witness :
  (let '(r, lvl') := valid_pid example_pid_conf example_bitmap 0 (Z.shiftl 1200 32) (example_ktask 1200 200) (example_ktask 1130 130) in
   (lvl' = 0 \/ lvl' = 1) /\ r = if bool_decide (200 <> 0 /\ (200 ∈ ({[130]} : gset Z) \/ 130 ∈ ({[130]} : gset Z))) then 200 else 0)
  /\ let '(r, lvl') := valid_pid example_init_conf example_bitmap 0 (Z.shiftl 200 32) (example_host_ktask 200) (example_host_ktask 130) in
     (lvl' = 0 \/ lvl' = 0) /\ r = if bool_decide (200 <> 0 /\ (200 ∈ ({[130]} : gset Z) \/ 130 ∈ ({[130]} : gset Z))) then 200 else 0.
Proof.
  assert (Hs : forall p, p ∈ ({[130]} : gset Z) -> 0 < p < 2 ^ 22) by (intros p Hp; apply elem_of_singleton in Hp; lia).
  assert (Hh : forall nr, 0 <= nr -> numbered_in example_init_conf 0 nr (example_host_kpid nr)).
  { intros nr Hnr. unfold numbered_in. cbn. split_and!; try done; try lia. intros i Hi. destruct (Z.eqb_spec i 0); cbn; lia. }
  split.
  - refine (pid_filter_exact example_pid_conf 1 example_bitmap {[130]} 0 (Z.shiftl 1200 32) (example_ktask 1200 200) (example_ktask 1130 130)
      200 130 example_marks Hs _ _ _ _ _ _ _); [done|split; cbn; kunfold; lia|by left| | |by left; exists 1|by left; exists 1].
    + split_and!; [done..|]. apply example_kpid_wf; lia.
    + split_and!; [done..|]. apply example_kpid_wf; lia.
  - refine (pid_filter_exact example_init_conf 0 example_bitmap {[130]} 0 (Z.shiftl 200 32) (example_host_ktask 200) (example_host_ktask 130)
      200 130 example_marks Hs _ _ _ _ _ _ _); [done|split; cbn; kunfold; lia|by left| | |by left; exists 0|by left; exists 0].
    + apply (Hh 200). lia.
    + apply (Hh 130). lia.
Defined.

(** ** A task that has unshared its pid namespace *)

(** [unshare] with CLONE_NEWPID changes the namespace of the task's future children, not its own.
    [task_tid] and [task_pid_of] index [numbers] with the level of the former: the numbers of such a
    task are whatever memory lies behind its [struct pid], in a namespace it is not in. *)
Example unshared_task_reads_past_its_pid (behind : upid) :
  let p := mk_kpid 0 (fun i => if i =? 0 then mk_upid 500 50 else behind) in
  let t := mk_ktask 500 p p 1 99 in
  task_pid_of t = mk_pid_info 500 (u32 (up_nr behind)) 99 /\ task_tid t = mk_pid_key (u32 (up_nr behind)) (u32 (up_nr behind)) 99.
Proof. done. Qed.
