(* ===== verification/TraceLife.v ===== *)
(** * The life of a stored context ([bpf/common/trace_lifecycle.h],
      [bpf/generictracer/http_server_trace.h]).

    Where the context of a new request is stored, what a server request takes over from the peer,
    and what is removed when a request ends. *)

From Stdlib Require Import ZArith Lia ZifyBool List Bool.
From stdpp Require Import base list countable gmap.
From S2P Require Import Prelude TraceUtil Sampling H2Sniff H2Sock H2Txn H2Inject H1Inject Entry.
From S2P Require Import ConnInfo LargeBuf HttpInfo TraceMaps TraceParent.

Local Open Scope Z_scope.

(** ** Definitions *)

Definition BPF_ANY : Z := 0.
Definition BPF_NOEXIST : Z := 1.

#[export] Hint Unfold BPF_ANY BPF_NOEXIST : kconst.

Definition delete_server_trace (c : tconf) (m : tmaps) (t : task) (pid_conn : pid_connection_info)
    (t_key : trace_key) : tmaps :=
  let m := delete_trace_info_for_connection m (pc_conn pid_conn) TRACE_TYPE_SERVER in
  let m := set_server_traces m (delete t_key (server_traces m)) in
  if negb (vt_keyed (tk_p_key t_key)) then obi_ctx__del c m (cur_pid_tgid t) else m.

Definition obi_ctx__restore_server (c : tconf) (l : links) (m : tmaps) (t : task) (client_tp : tp_info) : tmaps :=
  match obi_ctx__get m (cur_pid_tgid t) with
  | None => m
  | Some current =>
      if negb (load_u64 (oc_span_id current) =? load_u64 (span_id client_tp)) then m
      else
        let '(p_key, vt) := java_vt_translate_tid l (cur_tid t) in
        if vt then m
        else match server_traces m !! mk_trace_key (extra_runtime_id l t) p_key with
        | Some server_tp =>
            if nz (tpp_valid server_tp) && (load_u64 (span_id (tpp_tp server_tp)) =? load_u64 (parent_id client_tp))
            then obi_ctx__set c m (cur_pid_tgid t) (tpp_tp server_tp) else m
        | None => m
        end
  end.

Definition delete_client_trace_info (c : tconf) (l : links) (m : tmaps) (t : task) (pid_conn : pid_connection_info)
    : tmaps :=
  let conn := pc_conn pid_conn in
  let m :=
    match trace_info_for_connection m conn TRACE_TYPE_CLIENT ≫= deref m with
    | Some client_tp => obi_ctx__restore_server c l m t (tpp_tp client_tp)
    | None => m
    end in
  let m := delete_trace_info_for_connection m conn TRACE_TYPE_CLIENT in
  let e_key := sort_egress_key (mk_egress (s_port conn) (d_port conn) 0) in
  let m := set_outgoing m (delete e_key (outgoing_trace_map m)) in
  set_cp_support m (delete pid_conn (cp_support_connect_info m)).

(** [tp] with trace id, parent and flags taken over from a client's context. *)
Definition take_over (tp client : tp_info) : tp_info :=
  mk_tp_info (trace_id client) (span_id tp) (span_id client) (ts tp) (flags client).

Definition find_trace_for_server_request (c : tconf) (m : tmaps) (conn : connection_info) (tp : tp_info) (type : Z)
    : bool * tp_info * tmaps :=
  let sorted_conn := sort_connection_info conn in
  match incoming_trace_map m !! sorted_conn with
  | Some existing =>
      (true, take_over tp (tpp_tp existing), set_incoming m (delete sorted_conn (incoming_trace_map m)))
  | None =>
      let existing := trace_info_for_connection m conn TRACE_TYPE_CLIENT ≫= deref m in
      if negb (disable_black_box_cp c) && correlated_requests tp existing then
        match existing with
        | Some x =>
            if negb (nz (tpp_valid x)) then (false, tp, m)
            else if ((type =? k_event_type_http_request) && (tpp_req_type x =? k_event_type_http_client))
                    || ((type =? k_event_type_tcp_request) && (tpp_req_type x =? k_event_type_tcp_request))
            then (true, take_over tp (tpp_tp x),
                  set_trace_info_for_connection m conn TRACE_TYPE_CLIENT (set_valid x 0))
            else (false, tp, m)
        | None => (false, tp, m)
        end
      else (false, tp, m)
  end.

Definition set_pid (x : tp_info_pid) (pid : Z) : tp_info_pid :=
  mk_tp_info_pid (tpp_tp x) pid (tpp_valid x) (tpp_written x) (tpp_req_type x) (tpp_response_sent x).

(** [bpf_map_update_elem] with its flags. *)
Definition map_update {K V} `{Countable K} (m : gmap K V) (k : K) (v : V) (update_flags : Z) : gmap K V :=
  if (update_flags =? BPF_NOEXIST) && bool_decide (is_Some (m !! k)) then m else <[k := v]> m.

(** The key a server request is stored under, and whether it is a virtual thread's. *)
Definition server_key (l : links) (t : task) : trace_key * bool :=
  let '(p_key, vt) := java_vt_translate_tid l (cur_tid t) in
  (mk_trace_key (extra_runtime_id l t) p_key, vt).

(** A request of the thread that has not been answered. *)
Definition conflicting (existing : option tp_info_pid) (tp_p : tp_info_pid) : bool :=
  match existing with
  | Some x =>
      (tpp_req_type x =? tpp_req_type tp_p) && (tpp_req_type tp_p =? k_event_type_http_request)
      && nz (tpp_valid x) && negb (nz (tpp_response_sent x))
  | None => false
  end.

Definition server_trace (c : tconf) (l : links) (m : tmaps) (t : task) (conn : connection_info) (lw_thread : Z)
    (tp_p : tp_info_pid) (orig_dport : Z) : tmaps * tp_info_pid :=
  let host_pid := pid_from_pid_tgid (cur_pid_tgid t) in
  let tp_p := set_response_sent tp_p 0 in
  let '(t_key, vt) := server_key l t in
  let conn_part := populate_ephemeral_info empty_part conn orig_dport host_pid FD_SERVER in
  let m := set_server_traces_aux m (<[conn_part := tp_p]> (server_traces_aux m)) in
  if conflicting (server_traces m !! t_key) tp_p
  then (set_server_traces m (alter (fun x => set_valid x 0) t_key (server_traces m)), tp_p)
  else
    let m := set_server_traces m (<[t_key := tp_p]> (server_traces m)) in
    let m := if negb vt then obi_ctx__set c m (cur_pid_tgid t) (tpp_tp tp_p) else m in
    (if negb (lw_thread =? k_lw_thread_none)
     then set_go_trace_map m (<[mk_go_key host_pid lw_thread := tpp_tp tp_p]> (go_trace_map m)) else m, tp_p).

Definition client_trace (c : tconf) (l : links) (m : tmaps) (t : task) (conn : connection_info)
    (tp_p : tp_info_pid) (ssl stream_id update_flags : Z) : tmaps * tp_info_pid :=
  let tp_p := set_pid tp_p (pid_from_pid_tgid (cur_pid_tgid t)) in
  let e_key := sort_egress_key (mk_egress (s_port conn) (d_port conn) stream_id) in
  if nz ssl then
    (set_outgoing m (map_update (outgoing_trace_map m) e_key (set_valid tp_p 0) update_flags), tp_p)
  else
    let m := set_outgoing m (map_update (outgoing_trace_map m) e_key tp_p update_flags) in
    (if negb (java_vt_mounted l t) then obi_ctx__set c m (cur_pid_tgid t) (tpp_tp tp_p) else m, tp_p).

(** The maps, and the context with the fields set here. *)
Definition server_or_client_trace (c : tconf) (l : links) (m : tmaps) (t : task) (type : Z) (conn : connection_info)
    (lw_thread : Z) (tp_p : tp_info_pid) (ssl orig_dport stream_id update_flags : Z) : tmaps * tp_info_pid :=
  if type =? k_event_type_http_request then server_trace c l m t conn lw_thread tp_p orig_dport
  else client_trace c l m t conn tp_p ssl stream_id update_flags.

(** ** [http_server_trace.h] *)

Definition http_server_key (info : http_info) : trace_key :=
  mk_trace_key (hi_extra_id info) (mk_pid_key (hi_task_tid info) (user_pid (hi_pid info)) (pid_ns (hi_pid info))).

Definition http_server_thread_trace (m : tmaps) (info : http_info) : option tp_info_pid :=
  match server_traces m !! http_server_key info with
  | None => None
  | Some existing =>
      if negb (bool_decide (trace_id (tpp_tp existing) = trace_id (hi_tp info)))
         || negb (bool_decide (span_id (tpp_tp existing) = span_id (hi_tp info)))
      then None else Some existing
  end.

Definition cleanup_http_server_thread_trace_for_key (m : tmaps) (info : http_info) (current_key : trace_key) : tmaps :=
  match http_server_thread_trace m info with
  | None => m
  | Some _ =>
      if nz (hi_delayed info) && negb (bool_decide (current_key = http_server_key info)) then m
      else set_server_traces m (delete (http_server_key info) (server_traces m))
  end.

(** ** Lemmas *)

Lemma server_key_spec l t : fst (server_key l t) = trace_key_from_pid_tid l t.
Proof. unfold server_key, trace_key_from_pid_tid. by destruct (java_vt_translate_tid l (cur_tid t)). Qed.

Lemma obi_ctx_set_server c m id tp : server_traces (obi_ctx__set c m id tp) = server_traces m.
Proof. unfold obi_ctx__set. by destruct (negb _). Qed.

(** What [server_trace] does to the entry of the thread. *)
Lemma server_trace_entry c l m t conn lw tp_p dport :
  server_traces (fst (server_trace c l m t conn lw tp_p dport))
  = (let k := trace_key_from_pid_tid l t in
     let tp_p := set_response_sent tp_p 0 in
     if conflicting (server_traces m !! k) tp_p then alter (fun x => set_valid x 0) k (server_traces m)
     else <[k := tp_p]> (server_traces m)).
Proof.
  unfold server_trace. rewrite <- server_key_spec. destruct (server_key l t) as [k vt]. cbn [fst]. cbv zeta.
  cbn [server_traces set_server_traces_aux]. destruct (conflicting _ _); [done|].
  destruct vt, (negb (lw =? k_lw_thread_none)); cbn [negb fst]; cbn; by rewrite ?obi_ctx_set_server.
Qed.

(** The thread is free for a new request. *)
Lemma not_conflicting m k tp_p :
  (forall x, server_traces m !! k = Some x -> tpp_valid x = 0 \/ tpp_response_sent x <> 0) ->
  conflicting (server_traces m !! k) tp_p = false.
Proof.
  intros Hold. unfold conflicting, nz. destruct (server_traces m !! k) as [x|] eqn:Hx; [|done].
  destruct (Hold x eq_refl) as [->|Hne]; [by rewrite andb_false_r|].
  rewrite (proj2 (Z.eqb_neq _ _) Hne). by rewrite andb_false_r.
Qed.

(** ** Properties *)

(** C17: two requests that are in flight on one thread are not confused.  Storing the second
    invalidates the first and is not stored for the thread, so a call made on that thread finds no
    usable request there and no request that matches a context on the wire; a request that is
    stored when the previous one has been answered takes its place. *)
Theorem concurrent_requests_not_confused c l m t conn lw tp_p ssl dport sid fl :
  let k := trace_key_from_pid_tid l t in
  let m' := fst (server_or_client_trace c l m t k_event_type_http_request conn lw tp_p ssl dport sid fl) in
  tpp_req_type tp_p = k_event_type_http_request ->
  (forall x, server_traces m !! k = Some x -> tpp_req_type x = k_event_type_http_request ->
     tpp_valid x <> 0 -> tpp_response_sent x = 0 ->
     usable m' (lookup_at m' (at_server k)) = None
     /\ forall w, matches_at c m' (Some w) (lookup_at m' (at_server k)) = false)
  /\ ((forall x, server_traces m !! k = Some x -> tpp_valid x = 0 \/ tpp_response_sent x <> 0) ->
     deref m' (at_server k) = Some (set_response_sent tp_p 0)).
Proof.
  intros k m' Hty.
  assert (Hm : server_traces m' = (if conflicting (server_traces m !! k) (set_response_sent tp_p 0)
    then alter (fun x => set_valid x 0) k (server_traces m) else <[k := set_response_sent tp_p 0]> (server_traces m)))
    by apply server_trace_entry.
  split.
  - intros x Hx Hxt Hv Hr. rewrite Hx in Hm. cbn [conflicting tpp_req_type set_response_sent] in Hm.
    rewrite Hxt, Hty, Hr in Hm. unfold nz in Hm. rewrite (proj2 (Z.eqb_neq _ _) Hv) in Hm. cbn [negb Z.eqb andb] in Hm.
    rewrite Z.eqb_refl in Hm. cbn [andb] in Hm.
    assert (Hd : deref m' (at_server k) = Some (set_valid x 0)) by (cbn; by rewrite Hm, lookup_alter_eq, Hx).
    unfold lookup_at. rewrite Hd. split; [unfold usable; by rewrite Hd|]. intros w. unfold matches_at. cbn [mbind option_bind].
    rewrite Hd. done.
  - intros Hold. cbn. rewrite Hm, not_conflicting by done. apply lookup_insert_eq.
Qed.

(** A stored client context is given to at most one server request.  A context received in the
    TCP option is removed when a request takes it, with nothing else changed; one left by the
    client on the same host is invalidated when it is taken, and no later request on the
    connection gets it. *)
Theorem server_context_used_once c m conn tp type tp1 m1 :
  find_trace_for_server_request c m conn tp type = (true, tp1, m1) ->
  (exists x, incoming_trace_map m !! sort_connection_info conn = Some x /\ tp1 = take_over tp (tpp_tp x)
     /\ m1 = set_incoming m (delete (sort_connection_info conn) (incoming_trace_map m)))
  \/ (incoming_trace_map m !! sort_connection_info conn = None
     /\ (exists x, trace_map m !! trace_key_from_conn conn TRACE_TYPE_CLIENT = Some x /\ tpp_valid x <> 0
           /\ tp1 = take_over tp (tpp_tp x) /\ ts (tpp_tp x) <= ts tp < ts (tpp_tp x) + NANOSECONDS_PER_EPOCH)
     /\ forall tp2 type2, fst (fst (find_trace_for_server_request c m1 conn tp2 type2)) = false).
Proof.
  unfold find_trace_for_server_request at 1. cbv zeta.
  destruct (incoming_trace_map m !! sort_connection_info conn) as [x|] eqn:Hi.
  { intros [= <- <-]. left. by exists x. }
  unfold trace_info_for_connection, lookup_at. cbn [deref].
  destruct (trace_map m !! trace_key_from_conn conn TRACE_TYPE_CLIENT) as [x|] eqn:Hx; cbn [mbind option_bind deref];
    [|by rewrite andb_false_r]. rewrite Hx.
  destruct (negb (disable_black_box_cp c) && correlated_requests tp (Some x)) eqn:Hc; [|done].
  destruct (nz (tpp_valid x)) eqn:Hv; cbn [negb]; [|done]. destruct (_ || _); [|done]. intros [= <- <-]. right.
  split; [done|]. split.
  - exists x. unfold nz in Hv. apply andb_prop in Hc as [_ Hc]. unfold correlated_requests in Hc.
    destruct (Z.leb_spec (ts (tpp_tp x)) (ts tp)); [|done]. split_and!; [done|lia|done|lia|lia].
  - intros tp2 type2. unfold find_trace_for_server_request. cbn [set_trace_info_for_connection set_trace_map incoming_trace_map].
    rewrite Hi. unfold trace_info_for_connection, lookup_at, set_trace_info_for_connection. cbn [deref trace_map set_trace_info_for_connection set_trace_map].
    rewrite lookup_insert_eq. cbn [mbind option_bind deref trace_map set_trace_map]. rewrite lookup_insert_eq.
    by destruct (negb (disable_black_box_cp c) && correlated_requests tp2 (Some (set_valid x 0))).
Qed.

(** The running thread is tied to a request by nothing but itself. *)
Definition plain_thread (l : links) (t : task) (p_conn : pid_connection_info) (dport : Z) : Prop :=
  fd_info_for_conn l (populate_ephemeral_info empty_part (pc_conn p_conn) dport (pc_pid p_conn) FD_CLIENT) = None
  /\ puma_worker_tasks l !! cur_pid_tgid t = None /\ python_thread_states l !! cur_pid_tgid t = None
  /\ node_manual_ctx_shadow l !! cur_pid_tgid t = None.

Lemma plain_thread_search c l m t p_conn dport x :
  plain_thread l t p_conn dport -> server_traces m !! trace_key_from_pid_tid l t = Some x ->
  find_parent_trace c l m p_conn (cur_pid_tgid t) k_lw_thread_none (trace_key_from_pid_tid l t) dport None
  = (Some (at_server (trace_key_from_pid_tid l t)), m).
Proof.
  intros (Hfd & Hpu & Hpy & _) Hx. unfold find_parent_trace, find_nodejs_parent_trace, find_nginx_parent_trace,
    find_puma_parent_trace, find_python_parent_trace, resolve_python_current_task. rewrite Hfd, Hpu, Hpy. cbn.
  unfold find_parent_by_thread. cbn. unfold find_parent_java_trace. cbn [thread_walk].
  unfold lookup_at. cbn [deref]. rewrite Hx. unfold matches_at. cbn. by rewrite Hx.
Qed.

(** A request becomes the parent of the calls its thread makes.  After a server request is
    stored on a thread that is not serving another one, a client request from that thread, within
    the longest transaction, joins its trace as a live child, with its sampling flags. *)
Theorem request_parents_its_calls c l m t conn tp_p ssl dport sid fl p_conn dport' child :
  tpp_req_type tp_p = k_event_type_http_request -> tpp_valid tp_p <> 0 ->
  valid_trace (trace_id (tpp_tp tp_p)) = true ->
  (forall x, server_traces m !! trace_key_from_pid_tid l t = Some x -> tpp_valid x = 0 \/ tpp_response_sent x <> 0) ->
  plain_thread l t p_conn dport' ->
  ts (tpp_tp tp_p) <= ts child < ts (tpp_tp tp_p) + max_transaction_time c ->
  let m' := fst (server_or_client_trace c l m t k_event_type_http_request conn k_lw_thread_none tp_p ssl dport sid fl) in
  find_trace_for_client_request c l m' t p_conn dport' k_lw_thread_none child
  = (k_parent_status_live,
     mk_tp_info (trace_id (tpp_tp tp_p)) (span_id child) (span_id (tpp_tp tp_p)) (ts child) (flags (tpp_tp tp_p)), m').
Proof.
  intros Hty Hv Ht Hold Hpl Hts m'.
  assert (Hd : server_traces m' !! trace_key_from_pid_tid l t = Some (set_response_sent tp_p 0)).
  { change m' with (fst (server_trace c l m t conn k_lw_thread_none tp_p dport)). rewrite server_trace_entry. cbv zeta.
    rewrite not_conflicting by done. apply lookup_insert_eq. }
  unfold find_trace_for_client_request, find_trace_for_client_request_with_t_key.
  rewrite (plain_thread_search c l m' t p_conn dport' _ Hpl Hd). unfold usable. cbn [deref]. rewrite Hd.
  cbn [tpp_valid set_response_sent tpp_tp]. unfold nz at 1. rewrite (proj2 (Z.eqb_neq _ _) Hv), Ht. cbn [negb andb].
  unfold adopt_parent, should_be_in_same_transaction. cbn [tpp_tp set_response_sent].
  destruct (Z.ltb_spec (ts child) (ts (tpp_tp tp_p))); [lia|].
  rewrite (proj2 (Z.ltb_lt _ _)) by lia. cbn [negb].
  unfold nodejs_manual_parent_span_id. destruct Hpl as (_ & _ & _ & ->).
  unfold parent_kind. cbn [tpp_req_type set_response_sent tpp_response_sent]. by rewrite Hty.
Qed.

(** The context of an encrypted call never reaches the wire as a header.  What is stored for a
    TLS client request makes the injector's entry program pass the next plain send of that
    connection as it is and drop the stored context. *)
Theorem ssl_context_not_injected {M} `{SkMsgOps M} (snap : M -> sk_msg) e (st : ext M) c l m t type conn lw tp_p ssl dport sid :
  type <> k_event_type_http_request -> ssl <> 0 ->
  let m' := fst (server_or_client_trace c l m t type conn lw tp_p ssl dport sid BPF_ANY) in
  let key := sort_egress_key (mk_egress (s_port conn) (d_port conn) sid) in
  x_entry st = outgoing_trace_map m' !! key -> xe_pid e = pid_from_pid_tgid (cur_pid_tgid t) ->
  is_h2_socket (x_sock st) = false ->
  nz (Z.land (xe_inject_flags e) (Z.lor k_inject_http_headers k_inject_tcp_options)) = true ->
  let '(st', next) := obi_packet_extender snap e st in
  next = ext_pass /\ x_entry st' = None /\ x_msg st' = x_msg st.
Proof.
  intros Hty Hssl m' key Hx Hpid Hh2 Hfl.
  assert (He : x_entry st = Some (set_valid (set_pid tp_p (pid_from_pid_tgid (cur_pid_tgid t))) 0)).
  { rewrite Hx. unfold m', server_or_client_trace, client_trace. rewrite (proj2 (Z.eqb_neq _ _) Hty). unfold nz.
    rewrite (proj2 (Z.eqb_neq _ _) Hssl). cbn. apply lookup_insert_eq. }
  unfold obi_packet_extender. rewrite Hfl, He, Hh2. cbn [negb tpp_pid set_valid set_pid]. rewrite Hpid, Z.eqb_refl. cbn [andb].
  unfold handle_existing_tp_pid. cbv zeta. by destruct (nz (Z.land (xe_inject_flags e) k_inject_tcp_options) && x_sk_storage st).
Qed.

Lemma restore_frame c l m t tp :
  exists x, obi_ctx__restore_server c l m t tp = set_traces_ctx m x
  /\ forall id, id <> cur_pid_tgid t -> x !! id = traces_ctx_v1 m !! id.
Proof.
  assert (Hid : forall m : tmaps, m = set_traces_ctx m (traces_ctx_v1 m)) by (by intros []).
  unfold obi_ctx__restore_server, obi_ctx__set. destruct (obi_ctx__get m _); [|by eexists].
  destruct (negb _); [by eexists|]. destruct (java_vt_translate_tid l (cur_tid t)) as [k vt]. destruct vt; [by eexists|].
  destruct (server_traces m !! _); [|by eexists]. destruct (_ && _); [|by eexists]. destruct (negb _); [by eexists|].
  eexists. split; [done|]. intros id Hne. by rewrite lookup_insert_ne.
Qed.

(** A client request that ends leaves nothing of itself behind.  Its context is gone from the
    connection, from the outgoing contexts and from the connect records, no other entry of these
    maps and no other map is touched, except for the thread's published context: that one
    changes only for the running thread, and only to the server request the call belonged to. *)
Theorem finished_client_leaves_nothing c l m t pc :
  let m' := delete_client_trace_info c l m t pc in
  trace_map m' = delete (trace_key_from_conn (pc_conn pc) TRACE_TYPE_CLIENT) (trace_map m)
  /\ outgoing_trace_map m'
     = delete (sort_egress_key (mk_egress (s_port (pc_conn pc)) (d_port (pc_conn pc)) 0)) (outgoing_trace_map m)
  /\ cp_support_connect_info m' = delete pc (cp_support_connect_info m)
  /\ server_traces m' = server_traces m /\ server_traces_aux m' = server_traces_aux m
  /\ incoming_trace_map m' = incoming_trace_map m /\ go_trace_map m' = go_trace_map m
  /\ http_server_trace_index m' = http_server_trace_index m /\ ongoing_http m' = ongoing_http m
  /\ (forall id, id <> cur_pid_tgid t -> traces_ctx_v1 m' !! id = traces_ctx_v1 m !! id)
  /\ (traces_ctx_v1 m' !! cur_pid_tgid t <> traces_ctx_v1 m !! cur_pid_tgid t ->
      exists client server, trace_map m !! trace_key_from_conn (pc_conn pc) TRACE_TYPE_CLIENT = Some client
      /\ server_traces m !! trace_key_from_pid_tid l t = Some server /\ tpp_valid server <> 0
      /\ load_u64 (span_id (tpp_tp server)) = load_u64 (parent_id (tpp_tp client))
      /\ traces_ctx_v1 m' !! cur_pid_tgid t = Some (mk_obi_ctx (trace_id (tpp_tp server)) (span_id (tpp_tp server)))).
Proof.
  unfold delete_client_trace_info. cbv zeta. unfold trace_info_for_connection, lookup_at. cbn [deref].
  destruct (trace_map m !! trace_key_from_conn (pc_conn pc) TRACE_TYPE_CLIENT) as [client|] eqn:Hcl;
    cbn [mbind option_bind deref]; [rewrite Hcl|]; [|split_and!; done].
  destruct (restore_frame c l m t (tpp_tp client)) as (x & Hx & Hne).
  assert (Hcur : x !! cur_pid_tgid t <> traces_ctx_v1 m !! cur_pid_tgid t ->
    exists server, server_traces m !! trace_key_from_pid_tid l t = Some server /\ tpp_valid server <> 0
      /\ load_u64 (span_id (tpp_tp server)) = load_u64 (parent_id (tpp_tp client))
      /\ x !! cur_pid_tgid t = Some (mk_obi_ctx (trace_id (tpp_tp server)) (span_id (tpp_tp server)))).
  { apply (f_equal traces_ctx_v1) in Hx. cbn [set_traces_ctx traces_ctx_v1] in Hx. rewrite <- Hx. clear Hx Hne.
    unfold obi_ctx__restore_server, obi_ctx__set, trace_key_from_pid_tid.
    destruct (obi_ctx__get m _); [|done]. destruct (negb _); [done|].
    destruct (java_vt_translate_tid l (cur_tid t)) as [k vt]. destruct vt; [done|]. cbn [fst].
    destruct (server_traces m !! _) as [server|] eqn:Hs; [|done].
    destruct (nz (tpp_valid server)) eqn:Hv; [|done]. destruct (Z.eqb_spec (load_u64 (span_id (tpp_tp server))) (load_u64 (parent_id (tpp_tp client)))); [|done].
    cbn [andb]. destruct (negb _); [done|]. cbn. rewrite lookup_insert_eq. intros _. exists server. unfold nz in Hv. split_and!; [done|lia|done|done]. }
  rewrite Hx. cbn. split_and!; try done. intros (server & Hs)%Hcur. exists client, server. done.
Qed.

(** ** Witnesses *)

Definition request_tp : tp_info_pid :=
  mk_tp_info_pid (mk_tp_info (repeat 6 16) (repeat 5 8) (repeat 4 8) 150 1) 5 1 0 k_event_type_http_request 0.

(** Thread 5 runs. *)
Definition serving_task : task := mk_task (Z.shiftl 5 32 + 5) thread_5 (mk_pid_info 5 5 1).

Lemma concurrent_requests_not_confused_witness :
  let k := trace_key_from_pid_tid empty_links serving_task in
  let m' := fst (server_or_client_trace example_conf empty_links example_tmaps serving_task k_event_type_http_request
    (pc_conn example_pid_conn) 0 request_tp 0 80 0 BPF_ANY) in
  usable m' (lookup_at m' (at_server k)) = None.
Proof.
  refine (proj1 (proj1 (concurrent_requests_not_confused example_conf empty_links example_tmaps serving_task
    (pc_conn example_pid_conn) 0 request_tp 0 80 0 BPF_ANY eq_refl) example_server _ _ _ _)); [vm_compute; reflexivity|done|done|done].
Defined.

Definition peer_tmaps : tmaps :=
  set_trace_map empty_tmaps
    {[trace_key_from_conn (pc_conn example_pid_conn) TRACE_TYPE_CLIENT :=
        mk_tp_info_pid (tpp_tp example_server) 9 1 0 k_event_type_http_client 0]}.

Lemma server_context_used_once_witness :
  exists tp1 m1, find_trace_for_server_request example_conf peer_tmaps (pc_conn example_pid_conn) example_child
    k_event_type_http_request = (true, tp1, m1)
  /\ trace_id tp1 = repeat 7 16
  /\ fst (fst (find_trace_for_server_request example_conf m1 (pc_conn example_pid_conn) example_child
       k_event_type_http_request)) = false.
Proof.
  assert (H0 : let r := find_trace_for_server_request example_conf peer_tmaps (pc_conn example_pid_conn) example_child k_event_type_http_request in
    fst (fst r) = true /\ trace_id (snd (fst r)) = repeat 7 16) by (vm_compute; split; reflexivity).
  assert (H1 : incoming_trace_map peer_tmaps !! sort_connection_info (pc_conn example_pid_conn) = None) by (vm_compute; reflexivity).
  destruct (find_trace_for_server_request _ _ _ _ _) as [[b tp1] m1] eqn:E in H0. cbn [fst snd] in H0. destruct H0 as [-> Ht].
  exists tp1, m1. split; [exact E|]. split; [exact Ht|].
  destruct (server_context_used_once example_conf peer_tmaps (pc_conn example_pid_conn) example_child k_event_type_http_request tp1 m1 E)
    as [(x & Hx & _)|(_ & _ & H)]; [congruence|apply H].
Defined.

Lemma request_parents_its_calls_witness :
  fst (fst (find_trace_for_client_request example_conf empty_links
    (fst (server_or_client_trace example_conf empty_links empty_tmaps serving_task k_event_type_http_request
      (pc_conn example_pid_conn) k_lw_thread_none request_tp 0 80 0 BPF_ANY)) serving_task example_pid_conn 443
    k_lw_thread_none example_child)) = k_parent_status_live.
Proof.
  rewrite (request_parents_its_calls example_conf empty_links empty_tmaps serving_task (pc_conn example_pid_conn)
    request_tp 0 80 0 BPF_ANY example_pid_conn 443 example_child); [reflexivity|done|done|reflexivity| |done|vm_compute; split; congruence].
  intros x Hx. vm_compute in Hx. discriminate.
Defined.

Lemma ssl_context_not_injected_witness :
  let m' := fst (server_or_client_trace example_conf empty_links empty_tmaps serving_task k_event_type_http_client
    (pc_conn example_pid_conn) 0 request_tp 1 443 0 BPF_ANY) in
  let st := example_ext example_line [] (outgoing_trace_map m' !! make_egress_key (pc_conn example_pid_conn)) in
  let '(st', next) := obi_packet_extender (fun m => msg_of (m_bytes m)) (mk_ext_env 3 5 0 false false false false true true) st in
  next = ext_pass /\ x_entry st' = None /\ x_msg st' = x_msg st.
Proof.
  intros m' st.
  apply (ssl_context_not_injected (fun m => msg_of (m_bytes m)) (mk_ext_env 3 5 0 false false false false true true) st
    example_conf empty_links empty_tmaps serving_task k_event_type_http_client (pc_conn example_pid_conn) 0 request_tp 1 443 0);
    [done|done|reflexivity|vm_compute; reflexivity|reflexivity|reflexivity].
Defined.
