(* ===== verification/HttpSpan.v ===== *)
(** * The life of an HTTP/1 span ([bpf/generictracer/protocol_http.h], [http_event.h],
      [tcp_trace_cleanup.h], [protocol_common.h]).

    The record of a request in [ongoing_http]: how it starts, what ends it, and when the event
    leaves for user space.  [hs_events] is the list of records handed to the ring buffer.  [info] is
    a pointer into [ongoing_http]; [put_info] is a write through it.  Each call of
    [bpf_ktime_get_ns] is an argument [now]. *)

From Stdlib Require Import ZArith Lia ZifyBool List Bool.
From stdpp Require Import base list countable gmap.
From S2P Require Import Prelude TraceUtil Sampling H2Sniff Entry ConnInfo LargeBuf HttpInfo TcpReq.
From S2P Require Import TraceMaps TraceParent TraceLife.

Local Open Scope Z_scope.

(** ** State *)

(** The byte counters of [struct tcp_sock]. *)
Record sock_bytes := mk_sock_bytes { bytes_sent : Z; bytes_received : Z }.

Record hstate := mk_hs {
  hs_maps : tmaps;
  active_ssl_connections : gmap pid_connection_info Z;
  ongoing_tcp_req : gmap pid_connection_info tcp_req_t;
  (** [time] of each tracked connection *)
  connection_tracker : gmap connection_info Z;
  hs_events : list http_info
}.

Definition set_maps (st : hstate) (m : tmaps) : hstate :=
  mk_hs m (active_ssl_connections st) (ongoing_tcp_req st) (connection_tracker st) (hs_events st).
Definition set_tracker (st : hstate) (x : gmap connection_info Z) : hstate :=
  mk_hs (hs_maps st) (active_ssl_connections st) (ongoing_tcp_req st) x (hs_events st).
Definition del_ssl (st : hstate) (pc : pid_connection_info) : hstate :=
  mk_hs (hs_maps st) (delete pc (active_ssl_connections st)) (ongoing_tcp_req st) (connection_tracker st) (hs_events st).
Definition emit (st : hstate) (i : http_info) : hstate :=
  mk_hs (hs_maps st) (active_ssl_connections st) (ongoing_tcp_req st) (connection_tracker st) (hs_events st ++ [i]).

Definition http_of (st : hstate) (pc : pid_connection_info) : option http_info := ongoing_http (hs_maps st) !! pc.

Definition set_http (st : hstate) (pc : pid_connection_info) (i : http_info) : hstate :=
  set_maps st (set_ongoing_http (hs_maps st) (<[pc := i]> (ongoing_http (hs_maps st)))).

Definition del_http (st : hstate) (pc : pid_connection_info) : hstate :=
  set_maps st (set_ongoing_http (hs_maps st) (delete pc (ongoing_http (hs_maps st)))).

(** A write through a pointer to the record of [pc]. *)
Definition put_info (st : hstate) (pc : pid_connection_info) (i : http_info) : hstate :=
  match http_of st pc with Some _ => set_http st pc i | None => st end.

(** ** Fields of a record *)

Definition zero_pid_info : pid_info := mk_pid_info 0 0 0.

Definition empty_http_info (conn : connection_info) (ssl : Z) : http_info :=
  mk_http_info 0 0 ssl 0 conn 0 0 0 0 0 (tpp_tp no_context) zero_pid_info 0 0 0 0 0 0 (repeat 0 (Z.to_nat FULL_BUF_SIZE))
    0 0 0 0 0 0.

Definition set_submitted (i : http_info) : http_info :=
  mk_http_info k_event_type_k_http_request (hi_type i) (hi_ssl i) (hi_delayed i) (hi_conn_info i)
    (hi_start_monotime_ns i) (hi_end_monotime_ns i) (hi_req_monotime_ns i) (hi_extra_id i)
    (hi_response_bytes_at_request i) (hi_tp i) (hi_pid i) (hi_len i) (hi_resp_len i) (hi_task_tid i)
    (hi_lb_req_bytes i) (hi_lb_res_bytes i) (hi_status i) (hi_buf i) (hi_has_large_buffers i)
    (hi_direction i) 1 (hi_parent_status i) (hi_event_source i) (hi_response_observation i).

Definition set_delayed (i : http_info) (v : Z) : http_info :=
  mk_http_info (hi_flags i) (hi_type i) (hi_ssl i) v (hi_conn_info i)
    (hi_start_monotime_ns i) (hi_end_monotime_ns i) (hi_req_monotime_ns i) (hi_extra_id i)
    (hi_response_bytes_at_request i) (hi_tp i) (hi_pid i) (hi_len i) (hi_resp_len i) (hi_task_tid i)
    (hi_lb_req_bytes i) (hi_lb_res_bytes i) (hi_status i) (hi_buf i) (hi_has_large_buffers i)
    (hi_direction i) (hi_submitted i) (hi_parent_status i) (hi_event_source i) (hi_response_observation i).

Definition set_status (i : http_info) (v : Z) : http_info :=
  mk_http_info (hi_flags i) (hi_type i) (hi_ssl i) (hi_delayed i) (hi_conn_info i)
    (hi_start_monotime_ns i) (hi_end_monotime_ns i) (hi_req_monotime_ns i) (hi_extra_id i)
    (hi_response_bytes_at_request i) (hi_tp i) (hi_pid i) (hi_len i) (hi_resp_len i) (hi_task_tid i)
    (hi_lb_req_bytes i) (hi_lb_res_bytes i) v (hi_buf i) (hi_has_large_buffers i)
    (hi_direction i) (hi_submitted i) (hi_parent_status i) (hi_event_source i) (hi_response_observation i).

(** [len] and [resp_len]. *)
Definition set_lens (i : http_info) (len resp_len : Z) : http_info :=
  mk_http_info (hi_flags i) (hi_type i) (hi_ssl i) (hi_delayed i) (hi_conn_info i)
    (hi_start_monotime_ns i) (hi_end_monotime_ns i) (hi_req_monotime_ns i) (hi_extra_id i)
    (hi_response_bytes_at_request i) (hi_tp i) (hi_pid i) len resp_len (hi_task_tid i)
    (hi_lb_req_bytes i) (hi_lb_res_bytes i) (hi_status i) (hi_buf i) (hi_has_large_buffers i)
    (hi_direction i) (hi_submitted i) (hi_parent_status i) (hi_event_source i) (hi_response_observation i).

Definition set_direction (i : http_info) (d : Z) : http_info :=
  mk_http_info (hi_flags i) (hi_type i) (hi_ssl i) (hi_delayed i) (hi_conn_info i)
    (hi_start_monotime_ns i) (hi_end_monotime_ns i) (hi_req_monotime_ns i) (hi_extra_id i)
    (hi_response_bytes_at_request i) (hi_tp i) (hi_pid i) (hi_len i) (hi_resp_len i) (hi_task_tid i)
    (hi_lb_req_bytes i) (hi_lb_res_bytes i) (hi_status i) (hi_buf i) (hi_has_large_buffers i)
    d (hi_submitted i) (hi_parent_status i) (hi_event_source i) (hi_response_observation i).

(** The context and how its parent was found. *)
Definition set_context (i : http_info) (tp : tp_info) (parent_status : Z) : http_info :=
  mk_http_info (hi_flags i) (hi_type i) (hi_ssl i) (hi_delayed i) (hi_conn_info i)
    (hi_start_monotime_ns i) (hi_end_monotime_ns i) (hi_req_monotime_ns i) (hi_extra_id i)
    (hi_response_bytes_at_request i) tp (hi_pid i) (hi_len i) (hi_resp_len i) (hi_task_tid i)
    (hi_lb_req_bytes i) (hi_lb_res_bytes i) (hi_status i) (hi_buf i) (hi_has_large_buffers i)
    (hi_direction i) (hi_submitted i) parent_status (hi_event_source i) (hi_response_observation i).

(** ** Classification *)

Definition MAX_HTTP_STATUS : Z := 599.
Definition RESPONSE_STATUS_POS : nat := 9.

#[export] Hint Unfold MAX_HTTP_STATUS : kconst.

(** The packet type, when the text is HTTP/1.  "HTTP/1." *)
Definition is_http (p : buf) (len : Z) : option Z :=
  if len <? MIN_HTTP_SIZE then None
  else if mem_eqb p [72; 84; 84; 80; 47; 49; 46] then Some PACKET_TYPE_RESPONSE
  else if is_http_request_buf p then Some PACKET_TYPE_REQUEST
  else None.

Definition request_type_by_direction (direction packet_type : Z) : Z :=
  if packet_type =? PACKET_TYPE_RESPONSE then
    if direction =? TCP_RECV then k_event_type_http_client else k_event_type_http_request
  else if direction =? TCP_RECV then k_event_type_http_request else k_event_type_http_client.

Definition is_duplicate_info (i : http_info) (now : Z) : bool :=
  negb (hi_start_monotime_ns i =? 0) && (hi_start_monotime_ns i <=? now)
  && (current_immediate_epoch now =? current_immediate_epoch (hi_start_monotime_ns i)).

Definition http_response_bytes_from_sock (sk : option sock_bytes) (type : Z) : Z :=
  match sk with
  | None => 0
  | Some s => if type =? k_event_type_http_request then bytes_sent s else bytes_received s
  end.

(** ** The context of the request's thread *)

Section spans.
Variables (c : tconf) (l : links) (t : task).

Definition cleanup_http_server_response_data (st : hstate) (pc : pid_connection_info) (i : http_info) : hstate :=
  let m := delete_trace_info_for_connection (hs_maps st) (pc_conn pc) TRACE_TYPE_SERVER in
  set_maps st (if negb (nz (Z.land (hi_task_tid i) JAVA_VT_TID_FLAG)) then obi_ctx__del c m (cur_pid_tgid t) else m).

(** [current_key] is [None] for NULL. *)
Definition cleanup_http_server_thread_trace (st : hstate) (i : http_info) (current_key : option trace_key) : hstate :=
  let key :=
    match current_key with
    | Some k => k
    | None => if nz (hi_delayed i) then trace_key_from_pid_tid l t else mk_trace_key 0 (mk_pid_key 0 0 0)
    end in
  set_maps st (cleanup_http_server_thread_trace_for_key (hs_maps st) i key).

Definition cleanup_incomplete_http_server_thread_trace (st : hstate) (i : http_info) (current_key : option trace_key)
    : hstate :=
  if (hi_type i =? k_event_type_http_request) && negb (http_info_complete i)
  then cleanup_http_server_thread_trace st i current_key else st.

Definition mark_http_server_thread_trace_response_sent (st : hstate) (i : http_info) : hstate :=
  match http_server_thread_trace (hs_maps st) i with
  | None => st
  | Some existing =>
      let m := hs_maps st in
      if nz (tpp_valid existing)
      then set_maps st (set_server_traces m (<[http_server_key i := set_response_sent existing 1]> (server_traces m)))
      else set_maps st (set_server_traces m (delete (http_server_key i) (server_traces m)))
  end.

(** A TCP request this thread received and never finished. *)
Definition cleanup_trace_info (st : hstate) (tcp : tcp_req_t) (pc : pid_connection_info) : hstate :=
  if tq_direction tcp =? TCP_RECV then
    let k := cur_tid t in
    let tid := if negb (tq_task_tid tcp =? 0) then tq_task_tid tcp else pk_tid k in
    set_maps st (delete_server_trace c (hs_maps st) t pc
                   (mk_trace_key (tq_extra_id tcp) (mk_pid_key tid (pk_pid k) (pk_ns k))))
  else set_maps st (delete_client_trace_info c l (hs_maps st) t pc).

Definition cleanup_tcp_trace_info_if_needed (st : hstate) (pc : pid_connection_info) : hstate :=
  match ongoing_tcp_req st !! pc with
  | None => st
  | Some existing => if tq_direction existing =? TCP_RECV then cleanup_trace_info st existing pc else st
  end.

(** ** Ending a record *)

(** The state, and the record as the pointer sees it. *)
Definition submit_http_event (st : hstate) (pc : pid_connection_info) (i : http_info) : hstate * http_info :=
  if negb (http_info_emittable i) || nz (hi_submitted i) then (st, i)
  else let i := set_submitted i in (emit (put_info st pc i) i, i).

Definition http_server_index_enabled : bool := capture_header_buffer c.

Definition finish_http (st : hstate) (pc : pid_connection_info) (i : http_info) (current_key : option trace_key)
    : hstate :=
  if negb (http_info_emittable i) then st
  else
    let '(st, i) := submit_http_event st pc i in
    let st :=
      if hi_type i =? k_event_type_http_request then
        let st := cleanup_http_server_thread_trace st i current_key in
        if http_server_index_enabled
        then set_maps st (unindex_http_server_trace (hs_maps st) (pc_pid pc) (hi_tp i)) else st
      else st in
    let st := if nz (hi_delayed i) then del_http st pc else st in
    del_ssl st pc.

Definition force_finish_http (st : hstate) (pc : pid_connection_info) (i : http_info)
    (current_key : option trace_key) (response_bytes now : Z) : hstate :=
  if nz (hi_submitted i) then st
  else
    let i' :=
      if negb (high_request_volume c) && negb (http_info_complete i)
         && (hi_response_observation i =? http_response_parsed)
      then set_end i 0 now (http_response_observation_at_close (hi_response_bytes_at_request i) response_bytes)
      else i in
    finish_http (put_info st pc i') pc i' current_key.

Definition update_http_sent_len (st : hstate) (pc : pid_connection_info) (sent_len : Z) : hstate :=
  match http_of st pc with
  | Some i => set_http st pc (set_lens i (hi_len i) (u32 (hi_resp_len i + sent_len)))
  | None => st
  end.

Definition finish_possible_delayed_http_request (st : hstate) (pc : pid_connection_info) : hstate :=
  match http_of st pc with
  | Some i => if nz (hi_delayed i) then finish_http st pc i None else st
  | None => st
  end.

Definition force_finish_possible_delayed_http_request (st : hstate) (pc : pid_connection_info)
    (current_key : option trace_key) (sk : option sock_bytes) (now : Z) : hstate :=
  let st :=
    match http_of st pc with
    | Some i =>
        let st := cleanup_incomplete_http_server_thread_trace st i current_key in
        if nz (hi_delayed i) then finish_http st pc i current_key
        else force_finish_http st pc i current_key (http_response_bytes_from_sock sk (hi_type i)) now
    | None => st
    end in
  del_http st pc.

Definition terminate_http_request_if_needed (st : hstate) (pc : pid_connection_info) (current_key : option trace_key)
    : hstate :=
  let st :=
    match http_of st pc with
    | Some i =>
        if hi_type i =? k_event_type_http_request
        then cleanup_http_server_thread_trace (cleanup_http_server_response_data st pc i) i current_key
        else set_maps st (delete_client_trace_info c l (hs_maps st) t pc)
    | None => st
    end in
  del_ssl st pc.

(** ** Starting a record *)

(** [None] is the NULL of a duplicate, or of a response without a request. *)
Definition get_or_set_http_info (st : hstate) (info : http_info) (pc : pid_connection_info)
    (packet_type direction : Z) (sk : option sock_bytes) (now1 now2 : Z) : option http_info * hstate :=
  if packet_type =? PACKET_TYPE_REQUEST then
    let st := cleanup_tcp_trace_info_if_needed st pc in
    let displaced :=
      match http_of st pc with
      | Some old =>
          if nz (hi_submitted old) then Some st
          else
            let req_type := request_type_by_direction direction packet_type in
            let response_bytes := http_response_bytes_from_sock sk (hi_type old) in
            if negb (http_info_complete old) then
              if (hi_type old =? req_type) && http_response_pending old response_bytes && is_duplicate_info old now1
              then None
              else
                let st := cleanup_incomplete_http_server_thread_trace st old None in
                let old := note_displaced_by_next_request old now2 in
                Some (finish_http (put_info st pc old) pc old None)
            else Some (finish_http st pc old None)
      | None => Some st
      end in
    match displaced with
    | None => (None, st)
    | Some st => (Some info, set_http st pc info)
    end
  else (http_of st pc, st).

(** The parent id of a call the process makes to itself. *)
Definition self_referencing_request (st : hstate) (pc : pid_connection_info) (packet_type : Z) : option tp_info :=
  if packet_type =? PACKET_TYPE_REQUEST then
    match http_of st pc with
    | Some old =>
        if negb (http_info_complete old) && (hi_type old =? k_event_type_http_client) then Some (hi_tp old) else None
    | None => None
    end
  else None.

Definition event_source (lw_thread : Z) : Z := if negb (lw_thread =? k_lw_thread_none) then 1 else 0.

(** [pid] and [type] are those of the connection's metadata; [now] is the time. *)
Definition process_http_request (st : hstate) (pc : pid_connection_info) (i : http_info) (len type : Z)
    (orig_dport lw_thread : Z) (sk : option sock_bytes) (now : Z) : hstate * http_info :=
  let conn := fixup_connection_info (hi_conn_info i) (type =? k_event_type_http_client) orig_dport in
  let tracked := connection_tracker st !! conn in
  let req_time := match tracked with Some time => if nz time then time else now | None => now end in
  let start_time :=
    match tracked with
    | Some time => if nz time && (type =? k_event_type_http_client) then time else now
    | None => now
    end in
  let st := match tracked with Some _ => set_tracker st (<[conn := 0]> (connection_tracker st)) | None => st end in
  let i :=
    mk_http_info (hi_flags i) type (hi_ssl i) (hi_delayed i) conn start_time (hi_end_monotime_ns i) req_time
      (extra_runtime_id l t) (http_response_bytes_from_sock sk type) (hi_tp i) (cur_pid t) (u32 len) (hi_resp_len i)
      (pk_tid (fst (java_vt_translate_tid l (cur_tid t)))) (hi_lb_req_bytes i) (hi_lb_res_bytes i) 0 (hi_buf i)
      (hi_has_large_buffers i) (hi_direction i) 0 (hi_parent_status i) (event_source lw_thread) http_response_parsed in
  (put_info st pc i, i).

(** ** The response *)

Definition process_http_response (i : http_info) (buf : list Z) (now : Z) : http_info :=
  let d n := nth (RESPONSE_STATUS_POS + n) buf 0 - 48 in
  let status := u16 (u16 (u16 (d 0%nat * 100) + d 1%nat * 10) + d 2%nat) in
  let status := if (status =? 100) || (status =? 103) || (MAX_HTTP_STATUS <? status) then 0 else status in
  set_status (set_end i 0 now http_response_parsed) status.

Definition handle_http_response (st : hstate) (pc : pid_connection_info) (i : http_info) (small_buf : list Z)
    (lw_thread now : Z) : hstate :=
  let i := process_http_response i small_buf now in
  let st := put_info st pc i in
  let st :=
    if hi_type i =? k_event_type_http_request then cleanup_http_server_response_data st pc i
    else set_maps st (delete_client_trace_info c l (hs_maps st) t pc) in
  if negb (lw_thread =? k_lw_thread_none) then
    let st := finish_http st pc i None in
    set_maps st (delete_go_trace_info (hs_maps st) lw_thread (pc_pid pc))
  else if hi_type i =? k_event_type_http_request then
    let i := set_delayed i 1 in
    let st := mark_http_server_thread_trace_response_sent (put_info st pc i) i in
    if high_request_volume c && negb (nz (hi_ssl i)) then fst (submit_http_event st pc i) else st
  else if high_request_volume c && negb (nz (hi_ssl i)) then finish_http st pc i None
  else put_info st pc (set_delayed i 1).

(** A buffer of an ongoing exchange that no parser claims ([obi_handle_buf_with_args]). *)
Definition unclaimed_buffer (st : hstate) (pc : pid_connection_info) (i : http_info) (direction bytes_len now : Z)
    : hstate :=
  if unparsed_response_buffer i direction then
    let i := note_unread_response i now in
    let i := set_lens i (hi_len i) (u32 (hi_resp_len i + bytes_len)) in
    let st := put_info st pc i in
    if hi_type i =? k_event_type_http_request then mark_http_server_thread_trace_response_sent st i else st
  else if still_reading i then put_info st pc (set_lens i (u32 (hi_len i + bytes_len)) (hi_resp_len i))
  else if still_responding i then
    let i := set_end i (u32 (hi_resp_len i + bytes_len)) now (hi_response_observation i) in
    put_info st pc i
  else st.

End spans.

(** ** Counting events *)

(** A record that has started and has not been reported. *)
Definition unreported (i : http_info) : bool := negb (hi_start_monotime_ns i =? 0) && negb (nz (hi_submitted i)).

Definition open_count (o : option http_info) : nat :=
  match o with Some i => if unreported i then 1 else 0 | None => 0 end.

(** Events sent, and events the connection may still cause. *)
Definition event_budget (st : hstate) (pc : pid_connection_info) : nat :=
  (length (hs_events st) + open_count (http_of st pc))%nat.

(** Nothing happened to the records and the events. *)
Definition quiet (st st' : hstate) : Prop :=
  hs_events st' = hs_events st /\ ongoing_http (hs_maps st') = ongoing_http (hs_maps st).

Lemma quiet_refl st : quiet st st.
Proof. done. Qed.

Lemma quiet_trans st1 st2 st3 : quiet st1 st2 -> quiet st2 st3 -> quiet st1 st3.
Proof. intros [Ha Hb] [Hc Hd]. split; congruence. Qed.

#[export] Instance quiet_preorder : PreOrder quiet.
Proof. split; [exact quiet_refl|exact quiet_trans]. Qed.

Lemma quiet_http st st' pc : quiet st st' -> http_of st' pc = http_of st pc.
Proof. intros [_ Ho]. unfold http_of. by rewrite Ho. Qed.

Lemma quiet_budget st st' pc : quiet st st' -> event_budget st' pc = event_budget st pc.
Proof. intros Hq. unfold event_budget. rewrite (quiet_http st st' pc Hq). by destruct Hq as [-> _]. Qed.

Lemma quiet_maps st m : ongoing_http m = ongoing_http (hs_maps st) -> quiet st (set_maps st m).
Proof. done. Qed.

Lemma obi_del_ongoing c m id : ongoing_http (obi_ctx__del c m id) = ongoing_http m.
Proof. unfold obi_ctx__del. by destruct (negb _). Qed.

Lemma obi_set_ongoing c m id tp : ongoing_http (obi_ctx__set c m id tp) = ongoing_http m.
Proof. unfold obi_ctx__set. by destruct (negb _). Qed.

Lemma unindex_ongoing m pid tp : ongoing_http (unindex_http_server_trace m pid tp) = ongoing_http m.
Proof. unfold unindex_http_server_trace. cbv zeta. destruct (_ !! _); [|done]. by destruct (_ && _). Qed.

Lemma index_ongoing m pc i : ongoing_http (index_http_server_trace m pc i) = ongoing_http m.
Proof.
  unfold index_http_server_trace, index_http_server_context. destruct (negb _); [done|]. destruct (_ || _); [done|]. cbv zeta.
  destruct (_ !! _); [|done]. destruct (indexes_request _ _); [done|]. by destruct (_ && _).
Qed.

Lemma client_delete_ongoing c l m t pc : ongoing_http (delete_client_trace_info c l m t pc) = ongoing_http m.
Proof.
  unfold delete_client_trace_info. cbv zeta. cbn [ongoing_http set_cp_support set_outgoing delete_trace_info_for_connection set_trace_map].
  destruct (_ ≫= _); [|done]. by destruct (restore_frame c l m t (tpp_tp t0)) as (x & -> & _).
Qed.

Lemma server_delete_ongoing c m t pc k : ongoing_http (delete_server_trace c m t pc k) = ongoing_http m.
Proof. unfold delete_server_trace. cbv zeta. destruct (negb _); by rewrite ?obi_del_ongoing. Qed.

Section budget.
Variables (c : tconf) (l : links) (t : task) (pc : pid_connection_info).

Lemma response_data_quiet st i : quiet st (cleanup_http_server_response_data c t st pc i).
Proof. apply quiet_maps. destruct (negb _); by rewrite ?obi_del_ongoing. Qed.

Lemma thread_trace_quiet st i ck : quiet st (cleanup_http_server_thread_trace l t st i ck).
Proof.
  apply quiet_maps. unfold cleanup_http_server_thread_trace_for_key. destruct (http_server_thread_trace _ _); [|done].
  by destruct (_ && _).
Qed.

Lemma incomplete_quiet st i ck : quiet st (cleanup_incomplete_http_server_thread_trace l t st i ck).
Proof. unfold cleanup_incomplete_http_server_thread_trace. destruct (_ && _); [apply thread_trace_quiet|done]. Qed.

Lemma mark_quiet st i : quiet st (mark_http_server_thread_trace_response_sent st i).
Proof. unfold mark_http_server_thread_trace_response_sent. destruct (http_server_thread_trace _ _); [|done]. by destruct (nz _). Qed.

Lemma tcp_cleanup_quiet st q : quiet st (cleanup_trace_info c l t st q pc).
Proof.
  unfold cleanup_trace_info. destruct (_ =? _); apply quiet_maps; [apply server_delete_ongoing|apply client_delete_ongoing].
Qed.

Lemma tcp_quiet st : quiet st (cleanup_tcp_trace_info_if_needed c l t st pc).
Proof.
  unfold cleanup_tcp_trace_info_if_needed. destruct (ongoing_tcp_req st !! pc); [|done]. destruct (_ =? _); [|done].
  apply tcp_cleanup_quiet.
Qed.

Lemma put_http st i : http_of (put_info st pc i) pc = match http_of st pc with Some _ => Some i | None => None end.
Proof. unfold put_info. destruct (http_of st pc) eqn:E; [|done]. apply lookup_insert_eq. Qed.

Lemma put_events st i : hs_events (put_info st pc i) = hs_events st.
Proof. unfold put_info. by destruct (http_of st pc). Qed.

Lemma put_budget st i j :
  http_of st pc = Some i -> (unreported j = true -> unreported i = true) ->
  (event_budget (put_info st pc j) pc <= event_budget st pc)%nat.
Proof.
  intros Hi Hj. unfold event_budget. rewrite put_events, put_http, Hi. cbn [open_count].
  destruct (unreported j); [by rewrite Hj|]. destruct (unreported i); lia.
Qed.

Lemma emittable_started i : http_info_emittable i = true -> hi_start_monotime_ns i <> 0.
Proof.
  unfold http_info_emittable, http_info_complete. destruct (Z.eqb_spec (hi_start_monotime_ns i) 0); [|done].
  cbn. by rewrite andb_false_r.
Qed.

Lemma del_budget st : (event_budget (del_http st pc) pc <= event_budget st pc)%nat.
Proof. unfold event_budget, http_of. cbn. rewrite lookup_delete_eq. cbn. lia. Qed.

(** A submission uses up the record's budget, and happens once. *)
Lemma submit_spec st i :
  http_of st pc = Some i ->
  let '(st', i') := submit_http_event st pc i in
  http_of st' pc = Some i' /\ event_budget st' pc = event_budget st pc
  /\ (unreported i' = true -> unreported i = true)
  /\ hi_delayed i' = hi_delayed i /\ hi_type i' = hi_type i /\ hi_tp i' = hi_tp i
  /\ (if http_info_emittable i && negb (nz (hi_submitted i))
      then i' = set_submitted i /\ hs_events st' = hs_events st ++ [set_submitted i]
      else i' = i /\ st' = st).
Proof.
  intros Hi. unfold submit_http_event. destruct (http_info_emittable i) eqn:He; cbn [negb orb andb]; [|done].
  destruct (nz (hi_submitted i)) eqn:Hs; [done|]. cbn [negb orb].
  assert (Hp : http_of (put_info st pc (set_submitted i)) pc = Some (set_submitted i)) by (by rewrite put_http, Hi).
  split_and!; try done.
  - unfold event_budget. change (http_of (emit ?s ?j) pc) with (http_of s pc). rewrite Hp, Hi. cbn [hs_events emit].
    rewrite put_events, length_app. cbn [open_count length]. unfold unreported. rewrite Hs.
    rewrite (proj2 (Z.eqb_neq _ _) (emittable_started i He)). cbn. rewrite andb_false_r. lia.
  - unfold unreported. cbn. by rewrite andb_false_r.
  - cbn [hs_events emit]. by rewrite put_events.
Qed.

Lemma finish_budget st i ck :
  http_of st pc = Some i -> (event_budget (finish_http c l t st pc i ck) pc <= event_budget st pc)%nat.
Proof.
  intros Hi. unfold finish_http. destruct (negb (http_info_emittable i)); [done|].
  pose proof (submit_spec st i Hi) as Hs. destruct (submit_http_event st pc i) as [st1 i1].
  destruct Hs as (_ & Hb & _). cbv zeta. change (event_budget (del_ssl ?s pc) pc) with (event_budget s pc).
  set (st2 := if hi_type i1 =? k_event_type_http_request then _ else st1).
  assert (Hq : quiet st1 st2).
  { unfold st2. destruct (_ =? _); [|done]. destruct (http_server_index_enabled c); [|apply thread_trace_quiet].
    etrans; [apply thread_trace_quiet|]. apply quiet_maps, unindex_ongoing. }
  rewrite <- Hb, <- (quiet_budget st1 st2 pc Hq). destruct (nz _); [apply del_budget|done].
Qed.

Lemma set_end_unreported i a b o : unreported (set_end i a b o) = unreported i.
Proof. done. Qed.

Lemma force_finish_budget st i ck rb now :
  http_of st pc = Some i -> (event_budget (force_finish_http c l t st pc i ck rb now) pc <= event_budget st pc)%nat.
Proof.
  intros Hi. unfold force_finish_http. destruct (nz (hi_submitted i)); [done|]. cbv zeta.
  match goal with |- context [put_info st pc ?x] => set (i' := x) end.
  assert (Hu : unreported i' = unreported i) by (unfold i'; by destruct (_ && _)).
  etrans; [apply finish_budget; by rewrite put_http, Hi|]. apply (put_budget st i); [done|congruence].
Qed.

Lemma close_budget st ck sk now :
  (event_budget (force_finish_possible_delayed_http_request c l t st pc ck sk now) pc <= event_budget st pc)%nat.
Proof.
  unfold force_finish_possible_delayed_http_request. cbv zeta. etrans; [apply del_budget|].
  destruct (http_of st pc) as [i|] eqn:Hi; [|done].
  pose proof (incomplete_quiet st i ck) as Hq. rewrite <- (quiet_budget _ _ pc Hq). rewrite <- (quiet_http _ _ pc Hq) in Hi.
  destruct (nz _); [by apply finish_budget|by apply force_finish_budget].
Qed.

Lemma get_or_set_budget st info pt dir sk now1 now2 r st' :
  unreported info = false -> get_or_set_http_info c l t st info pc pt dir sk now1 now2 = (r, st') ->
  (event_budget st' pc <= event_budget st pc)%nat
  /\ (forall i, r = Some i -> http_of st' pc = Some i)
  /\ (pt = PACKET_TYPE_REQUEST -> forall i, r = Some i -> i = info).
Proof.
  intros Hu. unfold get_or_set_http_info. destruct (Z.eqb_spec pt PACKET_TYPE_REQUEST) as [->|Hpt];
    [|intros [= <- <-]; split_and!; done].
  cbv zeta. pose proof (tcp_quiet st) as Hq. revert Hq.
  generalize (cleanup_tcp_trace_info_if_needed c l t st pc). intros st1 Hq. rewrite <- (quiet_budget _ _ pc Hq).
  assert (Hset : forall s, (event_budget s pc <= event_budget st1 pc)%nat ->
    (Some info, set_http s pc info) = (r, st') ->
    (event_budget st' pc <= event_budget st1 pc)%nat /\ (forall i, r = Some i -> http_of st' pc = Some i)
    /\ (PACKET_TYPE_REQUEST = PACKET_TYPE_REQUEST -> forall i, r = Some i -> i = info)).
  { intros s Hs [= <- <-]. assert (http_of (set_http s pc info) pc = Some info) as Hh by apply lookup_insert_eq.
    split_and!; [|congruence|congruence]. etrans; [|exact Hs]. unfold event_budget. rewrite Hh. cbn [open_count]. rewrite Hu.
    change (hs_events (set_http s pc info)) with (hs_events s). lia. }
  destruct (http_of st1 pc) as [old|] eqn:Hold; [|by apply Hset].
  destruct (nz (hi_submitted old)); [by apply Hset|]. destruct (negb (http_info_complete old)).
  - destruct (_ && _); [intros [= <- <-]; split_and!; done|]. apply Hset.
    pose proof (incomplete_quiet st1 old None) as Hq2. rewrite <- (quiet_budget _ _ pc Hq2).
    rewrite <- (quiet_http _ _ pc Hq2) in Hold.
    etrans; [apply finish_budget; by rewrite put_http, Hold|]. eapply put_budget; [done|].
    unfold note_displaced_by_next_request. by destruct (negb _).
  - apply Hset. by apply finish_budget.
Qed.

Lemma response_budget st i buf lw now :
  http_of st pc = Some i -> (event_budget (handle_http_response c l t st pc i buf lw now) pc <= event_budget st pc)%nat.
Proof.
  intros Hi. unfold handle_http_response. cbv zeta. set (i1 := process_http_response i buf now).
  assert (Hp : (event_budget (put_info st pc i1) pc <= event_budget st pc)%nat) by (by apply (put_budget st i)).
  assert (Hh : http_of (put_info st pc i1) pc = Some i1) by (by rewrite put_http, Hi).
  set (st1 := if hi_type i1 =? k_event_type_http_request then _ else _).
  assert (Hq : quiet (put_info st pc i1) st1).
  { unfold st1. destruct (_ =? _); [apply response_data_quiet|]. apply quiet_maps, client_delete_ongoing. }
  rewrite <- (quiet_http _ _ pc Hq) in Hh. rewrite <- (quiet_budget _ _ pc Hq) in Hp. clearbody st1.
  assert (Hd : (event_budget (put_info st1 pc (set_delayed i1 1)) pc <= event_budget st pc)%nat).
  { etrans; [|exact Hp]. by apply (put_budget st1 i1). }
  destruct (negb _).
  { etrans; [|exact Hp]. etrans; [|apply (finish_budget st1 i1 None Hh)]. done. }
  destruct (_ =? _).
  - pose proof (mark_quiet (put_info st1 pc (set_delayed i1 1)) (set_delayed i1 1)) as Hm.
    assert (Hs : http_of (mark_http_server_thread_trace_response_sent (put_info st1 pc (set_delayed i1 1)) (set_delayed i1 1)) pc
      = Some (set_delayed i1 1)) by (by rewrite (quiet_http _ _ pc Hm), put_http, Hh).
    rewrite <- (quiet_budget _ _ pc Hm) in Hd. destruct (_ && _); [|done].
    pose proof (submit_spec _ _ Hs) as Hsub. destruct (submit_http_event _ pc _) as [st2 i2].
    destruct Hsub as (_ & Hb & _). cbn [fst]. by rewrite Hb.
  - destruct (_ && _); [|done]. etrans; [by apply finish_budget|done].
Qed.

Lemma unclaimed_budget st i dir n now :
  http_of st pc = Some i -> (event_budget (unclaimed_buffer st pc i dir n now) pc <= event_budget st pc)%nat.
Proof.
  intros Hi. unfold unclaimed_buffer. cbv zeta. destruct (unparsed_response_buffer i dir).
  - destruct (_ =? _); [|by apply (put_budget st i)]. rewrite (quiet_budget _ _ pc (mark_quiet _ _)). by apply (put_budget st i).
  - destruct (still_reading i); [by apply (put_budget st i)|]. destruct (still_responding i); [by apply (put_budget st i)|done].
Qed.

End budget.

(** ** What an exchange reports *)

Section reports.
Variables (c : tconf) (l : links) (t : task) (pc : pid_connection_info).

(** The event of a record that is being finished: none when it was sent before. *)
Definition report (i : http_info) : list http_info := if nz (hi_submitted i) then [] else [set_submitted i].

Lemma finish_events st i ck :
  http_of st pc = Some i -> http_info_emittable i = true ->
  hs_events (finish_http c l t st pc i ck) = hs_events st ++ report i
  /\ (hi_delayed i = 0 -> http_of (finish_http c l t st pc i ck) pc
        = Some (if nz (hi_submitted i) then i else set_submitted i)).
Proof.
  intros Hi He. unfold finish_http. rewrite He. cbn [negb].
  pose proof (submit_spec pc st i Hi) as Hs. destruct (submit_http_event st pc i) as [st1 i1].
  destruct Hs as (Hh & _ & _ & Hdel & _ & _ & Hev). rewrite He in Hev. cbn [andb] in Hev. cbv zeta.
  set (st2 := if hi_type i1 =? k_event_type_http_request then _ else st1).
  assert (Hq : quiet st1 st2).
  { unfold st2. destruct (_ =? _); [|done]. destruct (http_server_index_enabled c); [|apply thread_trace_quiet].
    etrans; [apply thread_trace_quiet|]. apply quiet_maps, unindex_ongoing. }
  assert (Hst1 : hs_events st1 = hs_events st ++ report i /\ i1 = if nz (hi_submitted i) then i else set_submitted i).
  { unfold report. destruct (nz (hi_submitted i)); cbn [negb] in *; destruct Hev as [-> Hst1]; [|done].
    rewrite Hst1, app_nil_r. done. }
  destruct Hst1 as [Hst1 Hi1]. destruct Hq as [Hqe Hqo].
  split.
  - destruct (nz (hi_delayed i1)); cbn [hs_events del_ssl del_http set_maps]; congruence.
  - intros Hd. rewrite Hdel, Hd. cbn [nz Z.eqb negb]. rewrite <- Hi1.
    unfold http_of in *. cbn [hs_maps del_ssl]. by rewrite Hqo.
Qed.

Lemma complete_emittable i : http_info_complete i = true -> http_info_emittable i = true.
Proof. unfold http_info_emittable. by intros ->. Qed.

(** Closing reports a complete record unless it was reported. *)
Lemma close_complete st i ck sk now :
  http_of st pc = Some i -> http_info_complete i = true ->
  hs_events (force_finish_possible_delayed_http_request c l t st pc ck sk now) = hs_events st ++ report i
  /\ http_of (force_finish_possible_delayed_http_request c l t st pc ck sk now) pc = None.
Proof.
  intros Hi Hc. split; [|unfold force_finish_possible_delayed_http_request, http_of; cbn; apply lookup_delete_eq].
  unfold force_finish_possible_delayed_http_request. rewrite Hi. cbv zeta.
  unfold cleanup_incomplete_http_server_thread_trace. rewrite Hc. rewrite andb_false_r.
  change (hs_events (del_http ?s pc)) with (hs_events s).
  destruct (nz (hi_delayed i)); [by apply finish_events, complete_emittable|].
  unfold force_finish_http. rewrite Hc. destruct (nz (hi_submitted i)) eqn:Hs; [unfold report; by rewrite Hs, app_nil_r|].
  cbv zeta. cbn [negb]. rewrite andb_false_r. cbn [andb].
  rewrite (proj1 (finish_events _ i ck ltac:(by rewrite put_http, Hi) (complete_emittable i Hc))). by rewrite put_events.
Qed.

(** Closing reports a request that was not answered. *)
Lemma close_unanswered st i ck sk now :
  high_request_volume c = false -> http_of st pc = Some i -> still_reading i = true ->
  host_pid (hi_pid i) <> 0 -> hi_submitted i = 0 -> hi_delayed i = 0 ->
  exists ev, hs_events (force_finish_possible_delayed_http_request c l t st pc ck sk now) = hs_events st ++ [ev]
  /\ hi_status ev = 0 /\ hi_end_monotime_ns ev = now /\ hi_tp ev = hi_tp i
  /\ hi_response_observation ev
     = http_response_observation_at_close (hi_response_bytes_at_request i) (http_response_bytes_from_sock sk (hi_type i)).
Proof.
  intros Hv Hi Hr Hpid Hsub Hdel. unfold force_finish_possible_delayed_http_request. rewrite Hi. cbv zeta.
  change (hs_events (del_http ?s pc)) with (hs_events s). rewrite Hdel. cbn [nz Z.eqb negb].
  pose proof (incomplete_quiet l t st i ck) as Hq. rewrite <- (quiet_http _ _ pc Hq) in Hi. destruct Hq as [Hqe _].
  rewrite <- Hqe. generalize dependent (cleanup_incomplete_http_server_thread_trace l t st i ck). intros st1 Hi _.
  unfold still_reading in Hr. apply andb_prop in Hr as [Hr Hstart]. apply andb_prop in Hr as [Hst Hobs].
  unfold force_finish_http. rewrite Hsub, Hv, Hobs. cbn [nz Z.eqb negb].
  assert (Hc : http_info_complete i = false) by (unfold http_info_complete; rewrite Hst; by rewrite andb_false_r).
  rewrite Hc. cbn [negb andb]. cbv zeta.
  match goal with |- context [finish_http c l t (put_info st1 pc ?x)] => set (j := x) end.
  assert (Hj : http_info_emittable j = true).
  { unfold http_info_emittable. assert (http_info_complete j = false) as -> by exact Hc. cbn [hi_response_observation j set_end].
    change (hi_start_monotime_ns j) with (hi_start_monotime_ns i). change (hi_pid j) with (hi_pid i).
    rewrite Hstart, (proj2 (Z.eqb_neq _ _) Hpid).
    unfold http_response_observation_at_close. by destruct (http_response_bytes_advanced _ _). }
  rewrite (proj1 (finish_events _ j ck ltac:(by rewrite put_http, Hi) Hj)), put_events.
  exists (set_submitted j). split_and!; [|cbn; lia|done|done|done].
  unfold report. change (hi_submitted j) with (hi_submitted i). by rewrite Hsub.
Qed.

(** The status line of a response. *)
Lemma response_status i buf now d0 d1 d2 :
  0 <= d0 <= 9 -> 0 <= d1 <= 9 -> 0 <= d2 <= 9 ->
  nth 9 buf 0 = 48 + d0 -> nth 10 buf 0 = 48 + d1 -> nth 11 buf 0 = 48 + d2 ->
  let s := 100 * d0 + 10 * d1 + d2 in
  hi_status (process_http_response i buf now)
  = if (s =? 100) || (s =? 103) || (MAX_HTTP_STATUS <? s) then 0 else s.
Proof.
  intros H0 H1 H2 E0 E1 E2 s. unfold process_http_response, RESPONSE_STATUS_POS. cbn [hi_status set_status].
  cbn [Nat.add]. rewrite E0, E1, E2.
  rewrite (wrap_small 16 ((48 + d0 - 48) * 100)), (wrap_small 16 (_ + (48 + d1 - 48) * 10)), (wrap_small 16) by lia.
  by replace ((48 + d0 - 48) * 100 + (48 + d1 - 48) * 10 + (48 + d2 - 48)) with s by (unfold s; lia).
Qed.

End reports.

(** The record after a parsed response, and whether it was reported. *)
Lemma response_reports c l t st pc i buf d0 d1 d2 now :
  http_of st pc = Some i -> still_reading i = true -> host_pid (hi_pid i) <> 0 -> hi_submitted i = 0 -> hi_delayed i = 0 ->
  0 <= d0 <= 9 -> 0 <= d1 <= 9 -> 0 <= d2 <= 9 ->
  nth 9 buf 0 = 48 + d0 -> nth 10 buf 0 = 48 + d1 -> nth 11 buf 0 = 48 + d2 ->
  let s := 100 * d0 + 10 * d1 + d2 in
  s <> 0 -> s <> 100 -> s <> 103 -> s <= MAX_HTTP_STATUS ->
  let st1 := handle_http_response c l t st pc i buf k_lw_thread_none now in
  exists j, http_of st1 pc = Some j /\ http_info_complete j = true
  /\ exists ev, hs_events st1 ++ report j = hs_events st ++ [ev] /\ hi_status ev = s /\ hi_tp ev = hi_tp i
     /\ hi_start_monotime_ns ev = hi_start_monotime_ns i /\ hi_end_monotime_ns ev = now.
Proof.
  intros Hi Hr Hpid Hsub Hdel H0 H1 H2 E0 E1 E2 s Hs0 Hs1 Hs2 Hs3 st1.
  set (i1 := process_http_response i buf now).
  assert (Hst : hi_status i1 = s).
  { unfold i1. rewrite (response_status i buf now d0 d1 d2) by done. fold s.
    rewrite (proj2 (Z.eqb_neq _ _) Hs1), (proj2 (Z.eqb_neq _ _) Hs2), (proj2 (Z.ltb_ge _ _) Hs3). done. }
  assert (Hc : http_info_complete i1 = true).
  { unfold still_reading in Hr. apply andb_prop in Hr as [_ Hstart]. unfold http_info_complete. rewrite Hst.
    change (hi_start_monotime_ns i1) with (hi_start_monotime_ns i). change (hi_pid i1) with (hi_pid i).
    by rewrite Hstart, (proj2 (Z.eqb_neq _ _) Hs0), (proj2 (Z.eqb_neq _ _) Hpid). }
  unfold st1, handle_http_response. cbv zeta. fold i1. cbn [negb Z.eqb k_lw_thread_none].
  set (st0 := if hi_type i1 =? k_event_type_http_request then cleanup_http_server_response_data c t _ pc i1 else _).
  assert (Hq : quiet (put_info st pc i1) st0).
  { unfold st0. destruct (_ =? _); [apply response_data_quiet|]. apply quiet_maps, client_delete_ongoing. }
  assert (Hh : http_of st0 pc = Some i1) by (by rewrite (quiet_http _ _ pc Hq), put_http, Hi).
  assert (He : hs_events st0 = hs_events st) by (destruct Hq as [-> _]; apply put_events).
  clearbody st0. destruct (_ =? _).
  - pose proof (mark_quiet (put_info st0 pc (set_delayed i1 1)) (set_delayed i1 1)) as Hm.
    set (st3 := mark_http_server_thread_trace_response_sent _ _) in *.
    assert (H3 : http_of st3 pc = Some (set_delayed i1 1)) by (by rewrite (quiet_http _ _ pc Hm), put_http, Hh).
    assert (He3 : hs_events st3 = hs_events st) by (destruct Hm as [-> _]; by rewrite put_events).
    destruct (_ && _).
    + pose proof (submit_spec pc _ _ H3) as Hs. destruct (submit_http_event st3 pc (set_delayed i1 1)) as [st4 j].
      destruct Hs as (H4 & _ & _ & _ & _ & _ & Hev). rewrite (complete_emittable (set_delayed i1 1) Hc) in Hev.
      change (hi_submitted (set_delayed i1 1)) with (hi_submitted i) in Hev. rewrite Hsub in Hev. cbn in Hev.
      destruct Hev as [-> Hev]. exists (set_submitted (set_delayed i1 1)). split_and!; [done|exact Hc|].
      eexists. split_and!; [cbn [fst report]; unfold report; cbn; rewrite Hev, He3, app_nil_r; reflexivity|exact Hst|done..].
    + exists (set_delayed i1 1). split_and!; [done|exact Hc|]. eexists.
      split_and!; [unfold report; change (hi_submitted (set_delayed i1 1)) with (hi_submitted i); rewrite Hsub, He3; reflexivity|exact Hst|done..].
  - destruct (_ && _).
    + destruct (finish_events c l t pc st0 i1 None Hh (complete_emittable i1 Hc)) as [Hev Hj].
      change (hi_submitted i1) with (hi_submitted i) in *. rewrite Hsub in Hj. specialize (Hj Hdel). cbn in Hj.
      exists (set_submitted i1). split_and!; [exact Hj|exact Hc|]. exists (set_submitted i1).
      split_and!; [|exact Hst|done..]. rewrite Hev, He. unfold report. change (hi_submitted i1) with (hi_submitted i).
      rewrite Hsub. cbn. by rewrite app_nil_r.
    + exists (set_delayed i1 1). split_and!; [by rewrite put_http, Hh|exact Hc|]. eexists.
      split_and!; [unfold report; change (hi_submitted (set_delayed i1 1)) with (hi_submitted i); rewrite Hsub, put_events, He; reflexivity|exact Hst|done..].
Qed.

(** An exchange is reported once, with its status.  When the response's status line is parsed and
    the connection closes later, on any thread, exactly one event has been sent: it carries the
    status, the request's context and start, and the time the response was seen, whether it was
    sent at once (high request volume) or delayed to the close; and the record is gone.  A request
    that is not answered is reported at the close without a status, as silent or as received
    unparsed according to the bytes the peer sent. *)
Theorem http_exchange_reported c l t st pc i :
  http_of st pc = Some i -> still_reading i = true -> host_pid (hi_pid i) <> 0 -> hi_submitted i = 0 -> hi_delayed i = 0 ->
  (forall buf d0 d1 d2 now l' t' ck sk now',
     0 <= d0 <= 9 -> 0 <= d1 <= 9 -> 0 <= d2 <= 9 ->
     nth 9 buf 0 = 48 + d0 -> nth 10 buf 0 = 48 + d1 -> nth 11 buf 0 = 48 + d2 ->
     let s := 100 * d0 + 10 * d1 + d2 in
     s <> 0 -> s <> 100 -> s <> 103 -> s <= MAX_HTTP_STATUS ->
     let st1 := handle_http_response c l t st pc i buf k_lw_thread_none now in
     let st2 := force_finish_possible_delayed_http_request c l' t' st1 pc ck sk now' in
     http_of st2 pc = None
     /\ exists ev, hs_events st2 = hs_events st ++ [ev] /\ hi_status ev = s /\ hi_tp ev = hi_tp i
        /\ hi_start_monotime_ns ev = hi_start_monotime_ns i /\ hi_end_monotime_ns ev = now)
  /\ (forall ck sk now, high_request_volume c = false ->
     exists ev, hs_events (force_finish_possible_delayed_http_request c l t st pc ck sk now) = hs_events st ++ [ev]
     /\ hi_status ev = 0 /\ hi_end_monotime_ns ev = now /\ hi_tp ev = hi_tp i
     /\ hi_response_observation ev
        = http_response_observation_at_close (hi_response_bytes_at_request i)
            (http_response_bytes_from_sock sk (hi_type i))).
Proof.
  intros Hi Hr Hpid Hsub Hdel. split; [|intros; by apply close_unanswered].
  intros buf d0 d1 d2 now l' t' ck sk now' H0 H1 H2 E0 E1 E2 s Hs0 Hs1 Hs2 Hs3 st1 st2.
  destruct (response_reports c l t st pc i buf d0 d1 d2 now) as (j & Hj & Hjc & ev & Hev & Hrest); [done..|].
  destruct (close_complete c l' t' pc st1 j ck sk now' Hj Hjc) as [H3 H4].
  split; [exact H4|]. exists ev. split; [|done]. unfold st2. rewrite H3. exact Hev.
Qed.

Definition serving_state : hstate := mk_hs serving_tmaps ∅ ∅ ∅ [].

(** "HTTP/1.1 204 " *)
Definition example_status_line : list Z := [72; 84; 84; 80; 47; 49; 46; 49; 32; 50; 48; 52; 32].

Lemma http_exchange_reported_witness :
  exists ev, hs_events (force_finish_possible_delayed_http_request example_conf empty_links example_task
    (handle_http_response example_conf empty_links serving_task serving_state example_pid_conn example_info
       example_status_line k_lw_thread_none 300) example_pid_conn None None 400) = [ev]
  /\ hi_status ev = 204 /\ hi_end_monotime_ns ev = 300.
Proof.
  edestruct (http_exchange_reported example_conf empty_links serving_task serving_state example_pid_conn example_info)
    as [H _]; [reflexivity|reflexivity|done|reflexivity|reflexivity|].
  destruct (H example_status_line 2 0 4 300 empty_links example_task None None 400) as (_ & ev & Hev & Hs & _ & _ & He);
    [lia|lia|lia|reflexivity|reflexivity|reflexivity|done|done|done|done|].
  exists ev. split_and!; [exact Hev|exact Hs|exact He].
Defined.
