(* ===== verification/HttpTrace.v ===== *)
(** * The HTTP/1 handler of the generic tracer ([bpf/generictracer/protocol_http.h],
      [large_buf_tailcall.h], [read_request_buf] of [bpf/common/http_types.h]).

    The chain of programs a buffer that is HTTP/1 goes through: [protocol_http], the context of a new
    request ([continue_protocol_http], [continue_protocol_http_tp], the commit), the record
    ([continue2_protocol_http]) and the capture of payloads in batches.  The chain with [bpf_loop]
    and the legacy one differ in the scan for the header; [he_bpf_loop] chooses. *)

From Stdlib Require Import ZArith Lia ZifyBool List Bool.
From stdpp Require Import base list countable gmap.
From S2P Require Import Prelude TraceUtil Sampling H2Sniff HpackParse H2Inject H1Inject Entry ConnInfo LargeBuf HttpInfo.
From S2P Require Import TraceMaps TraceParent TraceLife HttpSpan.

Local Open Scope Z_scope.

(** ** Definitions *)

Definition k_large_buf_max_http_captured_bytes : Z := 262144.
Definition k_large_buf_max_batches : Z := 4.

#[export] Hint Unfold k_large_buf_max_http_captured_bytes k_large_buf_max_batches : kconst.

(** [call_protocol_args_t]; the fields one program sets for the next are arguments. *)
Record http_args := mk_args {
  ha_pid_conn : pid_connection_info;
  ha_ssl : Z;
  ha_direction : Z;
  ha_packet_type : Z;
  ha_small_buf : list Z;
  ha_u_buf : umem;
  ha_bytes_len : Z;
  ha_orig_dport : Z;
  ha_sock : option sock_bytes;
  ha_lw_thread : Z
}.

(** Configuration, oracles and scratch memory of one run. *)
Record henv := mk_henv {
  he_bpf_loop : bool;
  g_bpf_traceparent_enabled : bool;
  http_max_captured_bytes : Z;
  he_sampler : option sampler;
  (** a Java reservation whose traceparent is the one in the plain text, claimed, with its parent status *)
  he_reservation : option (tp_info_pid * Z);
  (** [tp_info_mem] before the run *)
  he_scratch : tp_info_pid;
  he_now : nat -> Z;
  he_span : list Z;
  he_trace : list Z;
  he_wire_span : list Z
}.

(** The tracing state and the ring of captured payloads. *)
Record http_state := mk_http_state { ht_span : hstate; ht_ring : ringbuf connection_info }.

(** ** Capture *)

Definition set_captured (i : http_info) (packet_type consumed : Z) : http_info :=
  let req := packet_type =? PACKET_TYPE_REQUEST in
  mk_http_info (hi_flags i) (hi_type i) (hi_ssl i) (hi_delayed i) (hi_conn_info i)
    (hi_start_monotime_ns i) (hi_end_monotime_ns i) (hi_req_monotime_ns i) (hi_extra_id i)
    (hi_response_bytes_at_request i) (hi_tp i) (hi_pid i) (hi_len i) (hi_resp_len i) (hi_task_tid i)
    (if req then u32 (hi_lb_req_bytes i + consumed) else hi_lb_req_bytes i)
    (if req then hi_lb_res_bytes i else u32 (hi_lb_res_bytes i + consumed))
    (hi_status i) (hi_buf i) 1
    (hi_direction i) (hi_submitted i) (hi_parent_status i) (hi_event_source i) (hi_response_observation i).

(** [obi_large_buf_emit_continue], with [n] batches left: the record, and the ring. *)
Fixpoint large_buf_emit_continue (n : nat) (first : bool) (i : http_info) (ring : ringbuf connection_info) (u_buf : umem)
    (remaining_bytes packet_type direction : Z) (action : large_buf_action) : http_info * ringbuf connection_info :=
  match n with
  | O => (i, ring)
  | S n' =>
      if remaining_bytes =? 0 then (i, ring)
      else
        let lb :=
          mk_lb packet_type (if first then action else k_large_buf_action_append) direction 0 (hi_conn_info i)
            k_large_buf_layer_app k_large_buffer_source_kprobes (hi_tp i) [] in
        let '(consumed_bytes, _, ring) := large_buf_emit_chunks lb ring u_buf remaining_bytes in
        let i := if 0 <? consumed_bytes then set_captured i packet_type consumed_bytes else i in
        let remaining_bytes := u32 (remaining_bytes - consumed_bytes) in
        if (0 <? remaining_bytes) && (0 <? consumed_bytes)
        then large_buf_emit_continue n' false i ring (ushift u_buf consumed_bytes) remaining_bytes packet_type direction action
        else (i, ring)
  end.

Definition lb_bytes_sent (i : http_info) (packet_type : Z) : Z :=
  if packet_type =? PACKET_TYPE_REQUEST then hi_lb_req_bytes i else hi_lb_res_bytes i.

Definition http_send_large_buffer (max : Z) (i : http_info) (ring : ringbuf connection_info) (u_buf : umem)
    (bytes_len packet_type direction : Z) (action : large_buf_action) : http_info * ringbuf connection_info :=
  let bytes_sent := lb_bytes_sent i packet_type in
  if (max =? 0) || (max <=? bytes_sent) || (bytes_len =? 0) then (i, ring)
  else
    let max_available_bytes := clamp_umax (max - bytes_sent) k_large_buf_max_http_captured_bytes in
    large_buf_emit_continue (Z.to_nat k_large_buf_max_batches) true i ring u_buf (Z.min bytes_len max_available_bytes)
      packet_type direction action.

Section handler.
Variables (c : tconf) (l : links) (t : task) (e : henv).

(** Capture for the record of [pc], when it is still there. *)
Definition capture (st : http_state) (pc : pid_connection_info) (i : http_info) (a : http_args)
    (packet_type : Z) (action : large_buf_action) : http_state :=
  match http_of (ht_span st) pc with
  | Some _ =>
      let '(i, ring) :=
        http_send_large_buffer (http_max_captured_bytes e) i (ht_ring st) (ha_u_buf a) (u32 (ha_bytes_len a))
          packet_type (ha_direction a) action in
      mk_http_state (put_info (ht_span st) pc i) ring
  | None => st
  end.

(** ** The record *)

Definition set_buf (i : http_info) (b : list Z) : http_info :=
  mk_http_info (hi_flags i) (hi_type i) (hi_ssl i) (hi_delayed i) (hi_conn_info i)
    (hi_start_monotime_ns i) (hi_end_monotime_ns i) (hi_req_monotime_ns i) (hi_extra_id i)
    (hi_response_bytes_at_request i) (hi_tp i) (hi_pid i) (hi_len i) (hi_resp_len i) (hi_task_tid i)
    (hi_lb_req_bytes i) (hi_lb_res_bytes i) (hi_status i) b (hi_has_large_buffers i)
    (hi_direction i) (hi_submitted i) (hi_parent_status i) (hi_event_source i) (hi_response_observation i).

(** [buf] starts zeroed, and a failing read zeroes what it would have written. *)
Definition read_request_buf (i : http_info) (a : http_args) : http_info :=
  let n := Z.to_nat (clamp_umax (u32 (ha_bytes_len a)) FULL_BUF_SIZE) in
  set_buf i (overlay (probe_read0 (ha_u_buf a) n) (hi_buf i)).

Definition trace_type (type : Z) : Z :=
  if type =? k_event_type_http_client then TRACE_TYPE_CLIENT else TRACE_TYPE_SERVER.

Definition meta_type (a : http_args) : Z := request_type_by_direction (ha_direction a) PACKET_TYPE_REQUEST.

Definition continue2_protocol_http (st : http_state) (a : http_args) (i : http_info) (self_ref_parent_id : list Z)
    : http_state :=
  let pc := ha_pid_conn a in
  let i :=
    if negb (valid_span (span_id (hi_tp i))) then
      match trace_info_for_connection (hs_maps (ht_span st)) (pc_conn pc) (trace_type (meta_type a))
              ≫= deref (hs_maps (ht_span st)) with
      | Some tp_p =>
          let tp := tpp_tp tp_p in
          set_context i
            (if nz (load_u64 self_ref_parent_id)
             then mk_tp_info (trace_id tp) (span_id tp) self_ref_parent_id (ts tp) (flags tp) else tp)
            (hi_parent_status i)
      | None => i
      end
    else i in
  let i := read_request_buf i a in
  let '(sp, i) :=
    process_http_request l t (put_info (ht_span st) pc i) pc i (ha_bytes_len a) (meta_type a) (ha_orig_dport a)
      (ha_lw_thread a) (ha_sock a) (he_now e 0) in
  let sp :=
    if http_server_index_enabled c then set_maps sp (index_http_server_trace (hs_maps sp) pc i) else sp in
  capture (mk_http_state sp (ht_ring st)) pc i a (ha_packet_type a) k_large_buf_action_init.

(** ** The context *)

Definition store_context (m : tmaps) (a : http_args) (tp_p : tp_info_pid) : tmaps :=
  let type := meta_type a in
  let m := set_trace_info_for_connection m (pc_conn (ha_pid_conn a)) (trace_type type) tp_p in
  fst (server_or_client_trace c l m t type (pc_conn (ha_pid_conn a)) (ha_lw_thread a) tp_p (ha_ssl a)
         (ha_orig_dport a) 0 BPF_ANY).

(** [obi_continue_protocol_http_tp_commit] when the client sent a traceparent itself. *)
Definition resolve_wire_client_parent (sp : hstate) (a : http_args) (tp_p : tp_info_pid) : hstate * tp_info_pid :=
  let '(status, tp, m) :=
    find_trace_for_wire_client_request c l (hs_maps sp) t (ha_pid_conn a) (ha_orig_dport a) (ha_lw_thread a)
      (tpp_tp tp_p) (he_wire_span e) in
  let sp := set_maps sp m in
  let sp :=
    match http_of sp (ha_pid_conn a) with
    | Some i => set_http sp (ha_pid_conn a) (set_context i (hi_tp i) status)
    | None => sp
    end in
  (sp, mk_tp_info_pid tp (tpp_pid tp_p) (tpp_valid tp_p) (tpp_written tp_p) (tpp_req_type tp_p) (tpp_response_sent tp_p)).

Definition tp_loop (buf : buf) (buf_len : Z) : option Z :=
  if he_bpf_loop e then bpf_strstr_tp_loop (g_bpf_traceparent_enabled e) buf buf_len
  else bpf_strstr_tp_loop__legacy (g_bpf_traceparent_enabled e) buf buf_len.

(** The header at [p] read into the context; whether it is the client's own. *)
Definition read_header (a : http_args) (tp_p : tp_info_pid) (p : buf) : tp_info_pid * bool :=
  let tp := tpp_tp tp_p in
  let trace := decode_hex (shift p 16) TRACE_ID_CHAR_LEN in
  let span := decode_hex (shift p 49) SPAN_ID_CHAR_LEN in
  let fl := hd 0 (decode_hex (shift p 66) FLAGS_CHAR_LEN) in
  let put tp := mk_tp_info_pid tp (tpp_pid tp_p) (tpp_valid tp_p) (tpp_written tp_p) (tpp_req_type tp_p)
                  (tpp_response_sent tp_p) in
  if meta_type a =? k_event_type_http_client
  then (put (mk_tp_info trace span (parent_id tp) (ts tp) fl), true)
  else (put (sample_remote_child_for_pid (mk_tp_info trace (span_id tp) span (ts tp) fl) (he_sampler e)), false).

Definition continue_protocol_http_tp (st : http_state) (a : http_args) (i : http_info) (tp_p : tp_info_pid)
    (skip_tp_parsing : bool) (self_ref_parent_id : list Z) : http_state :=
  let pc := ha_pid_conn a in
  let sp := ht_span st in
  if g_bpf_traceparent_enabled e && negb skip_tp_parsing && negb (capture_header_buffer c) then
    let tp := tpp_tp tp_p in
    let tp_p :=
      mk_tp_info_pid (mk_tp_info (trace_id tp) (span_id tp) (parent_id tp) (he_now e 1) (flags tp)) (pc_pid pc) 1
        (tpp_written tp_p) (meta_type a) (tpp_response_sent tp_p) in
    continue2_protocol_http (mk_http_state (set_maps sp (store_context (hs_maps sp) a tp_p)) (ht_ring st)) a i
      self_ref_parent_id
  else
    let '(tp_p, wire_tp_found) :=
      if g_bpf_traceparent_enabled e && negb skip_tp_parsing then
        let buf_len := clamp_umax (u16 (ha_bytes_len a)) (TRACE_BUF_SIZE - 1) in
        let text := list_buf (probe_read0 (ha_u_buf a) (Z.to_nat buf_len) ++ [0]) in
        match tp_loop text buf_len with
        | Some off => read_header a tp_p (shift text off)
        | None => (tp_p, false)
        end
      else (tp_p, false) in
    let '(sp, tp_p) := if wire_tp_found then resolve_wire_client_parent sp a tp_p else (sp, tp_p) in
    let i := default i (http_of sp pc) in
    continue2_protocol_http (mk_http_state (set_maps sp (store_context (hs_maps sp) a tp_p)) (ht_ring st)) a i
      self_ref_parent_id.

(** A context the injector has already written into the request, left for this probe. *)
Definition injected_context (m : tmaps) (a : http_args) : option tp_info_pid :=
  let conn := pc_conn (ha_pid_conn a) in
  match outgoing_trace_map m !! sort_egress_key (mk_egress (s_port conn) (d_port conn) 0) with
  | Some x =>
      if (tpp_req_type x =? k_event_type_http_client) && nz (tpp_written x) && (tpp_pid x =? pc_pid (ha_pid_conn a))
      then Some x else None
  | None => None
  end.

(** The context a new request starts with: found for it, or new. *)
Definition initial_context (m : tmaps) (a : http_args) : tp_info_pid * Z * bool * tmaps :=
  let pc := ha_pid_conn a in
  let type := meta_type a in
  let x := he_scratch e in
  let tp := mk_tp_info (trace_id (tpp_tp x)) (he_span e) (parent_id (tpp_tp x)) (he_now e 2) 1 in
  let '(found, status, tp, m) :=
    if type =? k_event_type_http_client then
      let '(status, tp, m) := find_trace_for_client_request c l m t pc (ha_orig_dport a) (ha_lw_thread a) tp in
      (nz status, status, tp, m)
    else
      let '(found, tp, m) := find_trace_for_server_request c m (pc_conn pc) tp k_event_type_http_request in
      (found, 0, if found then sample_remote_child_for_pid tp (he_sampler e) else tp, m) in
  let tp :=
    if negb found
    then sample_new_trace_for_pid (mk_tp_info (he_trace e) (span_id tp) (repeat 0 8) (ts tp) (flags tp)) (he_sampler e)
    else tp in
  (mk_tp_info_pid tp (pc_pid pc) 1 0 type (tpp_response_sent x), status, found, m).

Definition continue_protocol_http (st : http_state) (a : http_args) (i : http_info) (self_ref_parent_id : list Z)
    : http_state :=
  let pc := ha_pid_conn a in
  let conn := pc_conn pc in
  let sp := ht_span st in
  let type := meta_type a in
  match (if nz (ha_ssl a) && (type =? k_event_type_http_client) then he_reservation e else None) with
  | Some (client_span, status) =>
      let i := set_context i (tpp_tp client_span) status in
      let m := store_context (hs_maps sp) a client_span in
      continue2_protocol_http (mk_http_state (put_info (set_maps sp m) pc i) (ht_ring st)) a i self_ref_parent_id
  | None =>
      match injected_context (hs_maps sp) a with
      | Some x =>
          let m := set_trace_info_for_connection (hs_maps sp) conn TRACE_TYPE_CLIENT x in
          let m := set_outgoing m (delete (sort_egress_key (mk_egress (s_port conn) (d_port conn) 0)) (outgoing_trace_map m)) in
          continue2_protocol_http (mk_http_state (set_maps sp m) (ht_ring st)) a i self_ref_parent_id
      | None =>
          let '(tp_p, status, found, m) := initial_context (hs_maps sp) a in
          let sp := set_maps sp m in
          let i := if type =? k_event_type_http_client then set_context i (hi_tp i) status else i in
          let sp := put_info sp pc i in
          let skip := (type =? k_event_type_http_request) && found && nz (ha_ssl a) in
          continue_protocol_http_tp (mk_http_state sp (ht_ring st)) a i tp_p skip self_ref_parent_id
      end
  end.

(** ** The handler *)

Definition protocol_http (st : http_state) (a : http_args) : http_state :=
  let pc := ha_pid_conn a in
  let sp := ht_span st in
  let blank := empty_http_info (pc_conn pc) (ha_ssl a) in
  let self_ref :=
    match self_referencing_request sp pc (ha_packet_type a) with Some tp => parent_id tp | None => repeat 0 8 end in
  match get_or_set_http_info c l t sp blank pc (ha_packet_type a) (ha_direction a) (ha_sock a) (he_now e 3) (he_now e 4) with
  | (None, sp) => mk_http_state sp (ht_ring st)
  | (Some i, sp) =>
      let i := set_direction i (ha_direction a) in
      let sp := put_info sp pc i in
      let st := mk_http_state sp (ht_ring st) in
      if (ha_packet_type a =? PACKET_TYPE_REQUEST) && (hi_status i =? 0) && (hi_start_monotime_ns i =? 0)
      then continue_protocol_http st a i self_ref
      else if (ha_packet_type a =? PACKET_TYPE_RESPONSE) && (hi_status i =? 0) then
        let sp := handle_http_response c l t sp pc i (ha_small_buf a) (ha_lw_thread a) (he_now e 5) in
        capture (mk_http_state sp (ht_ring st)) pc (default i (http_of sp pc)) a (ha_packet_type a) k_large_buf_action_init
      else if still_reading i then
        let i := set_lens i (u32 (hi_len i + ha_bytes_len a)) (hi_resp_len i) in
        capture (mk_http_state (put_info sp pc i) (ht_ring st)) pc i a (ha_packet_type a) k_large_buf_action_append
      else if still_responding i then
        let i := set_end i (u32 (hi_resp_len i + ha_bytes_len a)) (he_now e 5) (hi_response_observation i) in
        capture (mk_http_state (put_info sp pc i) (ht_ring st)) pc i a PACKET_TYPE_RESPONSE k_large_buf_action_append
      else st
  end.

End handler.

(** ** What the context of a request leaves alone *)

Lemma same_ongoing m m' : same_but_backup m m' -> ongoing_http m' = ongoing_http m.
Proof. by intros [x ->]. Qed.

Lemma store_at_ongoing m a x : ongoing_http (store_at m a x) = ongoing_http m.
Proof. by destruct a. Qed.

Lemma adopt_ongoing c l m id tp a x f g :
  ongoing_http (snd (adopt_parent c l m id tp a x f g)) = ongoing_http m.
Proof.
  unfold adopt_parent. destruct (negb _); [|by destruct (nodejs_manual_parent_span_id _ _ _ _)]. cbn [snd].
  destruct (parent_trace_is_stale _ _); [apply store_at_ongoing|done].
Qed.

Lemma client_find_ongoing c l m t pc dport lw tp :
  ongoing_http (snd (find_trace_for_client_request c l m t pc dport lw tp)) = ongoing_http m.
Proof.
  unfold find_trace_for_client_request, find_trace_for_client_request_with_t_key.
  pose proof (find_parent_ok c l m pc (cur_pid_tgid t) lw (trace_key_from_pid_tid l t) dport None) as [Hs _].
  destruct (find_parent_trace _ _ _ _ _ _ _ _ _) as [a m1]. cbn [snd] in Hs. apply same_ongoing in Hs.
  destruct (usable m1 a) as [[b x]|]; [|done]. by rewrite adopt_ongoing.
Qed.

Lemma wire_find_ongoing c l m t pc dport lw w f :
  ongoing_http (snd (find_trace_for_wire_client_request c l m t pc dport lw w f)) = ongoing_http m.
Proof.
  unfold find_trace_for_wire_client_request. cbv zeta. destruct (_ || _); [done|].
  match goal with |- context [find_parent_trace c l m pc ?a ?b ?d ?e ?g] =>
    pose proof (find_parent_ok c l m pc a b d e g) as [Hs _]; destruct (find_parent_trace c l m pc a b d e g) as [p m1] end.
  cbn [snd] in Hs. apply same_ongoing in Hs. destruct (p ≫= deref m1); [|done].
  by destruct (nodejs_manual_parent_span_id _ _ _ _).
Qed.

Lemma server_find_ongoing c m conn tp type :
  ongoing_http (snd (find_trace_for_server_request c m conn tp type)) = ongoing_http m.
Proof.
  unfold find_trace_for_server_request. cbv zeta. destruct (incoming_trace_map m !! _); [done|].
  destruct (_ && _); [|done]. destruct (_ ≫= _); [|done]. destruct (negb _); [done|]. by destruct (_ || _).
Qed.

Lemma server_or_client_ongoing c l m t type conn lw tp_p ssl dport sid fl :
  ongoing_http (fst (server_or_client_trace c l m t type conn lw tp_p ssl dport sid fl)) = ongoing_http m.
Proof.
  unfold server_or_client_trace, server_trace, client_trace. cbv zeta. destruct (_ =? _).
  - destruct (server_key l t) as [k vt]. destruct (conflicting _ _); [done|]. cbn [fst].
    destruct (negb (lw =? _)); cbn [ongoing_http set_go_trace_map]; destruct (negb vt); by rewrite ?obi_set_ongoing.
  - destruct (nz ssl); [done|]. cbn [fst]. destruct (negb (java_vt_mounted l t)); by rewrite ?obi_set_ongoing.
Qed.

Lemma store_context_ongoing c l t m a tp_p : ongoing_http (store_context c l t m a tp_p) = ongoing_http m.
Proof. unfold store_context. by rewrite server_or_client_ongoing. Qed.

(** ** Capture keeps the record *)

(** What the capture counters are not part of is the same after a capture. *)
Lemma emit_continue_keeps {A} (f : http_info -> A) n first i ring u rem pt dir act :
  (forall i p k, f (set_captured i p k) = f i) ->
  f (fst (large_buf_emit_continue n first i ring u rem pt dir act)) = f i.
Proof.
  intros Hf. revert first i ring u rem. induction n as [|n IH]; intros first i ring u rem; [done|]. cbn [large_buf_emit_continue].
  destruct (_ =? _); [done|]. destruct (large_buf_emit_chunks _ _ _ _) as [[cons lb] ring1]. cbv zeta.
  destruct (_ && _); [rewrite IH|]; cbn [fst]; destruct (0 <? cons); by rewrite ?Hf.
Qed.

Lemma send_keeps {A} (f : http_info -> A) max i ring u n pt dir act :
  (forall i p k, f (set_captured i p k) = f i) ->
  f (fst (http_send_large_buffer max i ring u n pt dir act)) = f i.
Proof. intros Hf. unfold http_send_large_buffer. destruct (_ || _); [done|]. by apply emit_continue_keeps. Qed.

Section handler_budget.
Variables (c : tconf) (l : links) (t : task) (e : henv).

Lemma capture_budget st pc i a pt act :
  http_of (ht_span st) pc = Some i ->
  (event_budget (ht_span (capture e st pc i a pt act)) pc <= event_budget (ht_span st) pc)%nat.
Proof.
  intros Hi. unfold capture. rewrite Hi.
  match goal with |- context [http_send_large_buffer ?m ?x ?r ?u ?n ?p ?d ?ac] =>
    pose proof (send_keeps unreported m x r u n p d ac ltac:(done)) as Hu; destruct (http_send_large_buffer m x r u n p d ac) as [j ring] end.
  cbn [fst ht_span] in *. apply (put_budget pc _ i); [done|congruence].
Qed.

Lemma continue2_budget st a i self :
  http_of (ht_span st) (ha_pid_conn a) = Some i ->
  (event_budget (ht_span (continue2_protocol_http c l t e st a i self)) (ha_pid_conn a)
   <= S (length (hs_events (ht_span st))))%nat.
Proof.
  intros Hi. unfold continue2_protocol_http. cbv zeta.
  match goal with |- context [read_request_buf ?x a] => generalize (read_request_buf x a) end. intros i1.
  unfold process_http_request. cbv zeta.
  match goal with |- context [put_info (match ?tr with _ => _ end) _ ?x] => set (i2 := x); set (tr0 := tr) end.
  set (sp := match tr0 with Some _ => _ | None => _ end).
  assert (Hsp : http_of sp (ha_pid_conn a) = Some i1 /\ hs_events sp = hs_events (ht_span st)).
  { assert (Hp : http_of (put_info (ht_span st) (ha_pid_conn a) i1) (ha_pid_conn a) = Some i1) by (by rewrite put_http, Hi).
    unfold sp. destruct tr0; (split; [exact Hp|apply put_events]). }
  destruct Hsp as [Hh Hev]. clearbody sp.
  set (sp2 := if http_server_index_enabled c then _ else _).
  assert (Hq : quiet (put_info sp (ha_pid_conn a) i2) sp2).
  { unfold sp2. destruct (http_server_index_enabled c); [|done]. apply quiet_maps, index_ongoing. }
  etrans; [apply capture_budget; cbn [ht_span]; rewrite (quiet_http _ _ _ Hq), put_http, Hh; reflexivity|].
  cbn [ht_span]. rewrite (quiet_budget _ _ _ Hq). unfold event_budget. rewrite put_http, Hh, put_events, Hev. cbn [open_count].
  destruct (unreported i2); lia.
Qed.

Lemma store_quiet sp a tp_p : quiet sp (set_maps sp (store_context c l t (hs_maps sp) a tp_p)).
Proof. apply quiet_maps, store_context_ongoing. Qed.

Lemma wire_parent_events sp a tp_p i :
  http_of sp (ha_pid_conn a) = Some i ->
  let '(sp', _) := resolve_wire_client_parent c l t e sp a tp_p in
  hs_events sp' = hs_events sp /\ is_Some (http_of sp' (ha_pid_conn a)).
Proof.
  intros Hi. unfold resolve_wire_client_parent.
  match goal with |- context [find_trace_for_wire_client_request c l ?m t ?p ?d ?w ?x ?f] =>
    pose proof (wire_find_ongoing c l m t p d w x f) as Ho; destruct (find_trace_for_wire_client_request c l m t p d w x f) as [[s tp] m1] end.
  cbn [snd] in Ho. cbv zeta.
  assert (Hh : http_of (set_maps sp m1) (ha_pid_conn a) = Some i) by (unfold http_of; cbn; by rewrite Ho).
  rewrite Hh. split; [done|]. unfold http_of. cbn. rewrite lookup_insert_eq. by eexists.
Qed.

Lemma continue_tp_budget st a i tp_p skip self :
  http_of (ht_span st) (ha_pid_conn a) = Some i ->
  (event_budget (ht_span (continue_protocol_http_tp c l t e st a i tp_p skip self)) (ha_pid_conn a)
   <= S (length (hs_events (ht_span st))))%nat.
Proof.
  intros Hi. unfold continue_protocol_http_tp. cbv zeta. destruct (_ && negb (capture_header_buffer c)).
  { etrans; [apply continue2_budget; cbn [ht_span]; by rewrite (quiet_http _ _ _ (store_quiet _ _ _))|done]. }
  match goal with |- context [let '(_, _) := ?r in _] => destruct r as [tp1 wire] end.
  pose proof (wire_parent_events (ht_span st) a tp1 i Hi) as Hw. destruct wire.
  - destruct (resolve_wire_client_parent c l t e (ht_span st) a tp1) as [sp tp2]. destruct Hw as (Hev & j & Hj).
    rewrite Hj. cbn [default]. rewrite <- Hev.
    etrans; [apply continue2_budget; cbn [ht_span]; by rewrite (quiet_http _ _ _ (store_quiet _ _ _))|done].
  - rewrite Hi. cbn [default].
    etrans; [apply continue2_budget; cbn [ht_span]; by rewrite (quiet_http _ _ _ (store_quiet _ _ _))|done].
Qed.

Lemma initial_ongoing m a : ongoing_http (snd (initial_context c l t e m a)) = ongoing_http m.
Proof.
  unfold initial_context. cbv zeta. destruct (_ =? _).
  - match goal with |- context [find_trace_for_client_request c l m t ?p ?d ?w ?x] =>
      pose proof (client_find_ongoing c l m t p d w x) as Ho; destruct (find_trace_for_client_request c l m t p d w x) as [[s tp] m1] end.
    done.
  - match goal with |- context [find_trace_for_server_request c m ?p ?x ?k] =>
      pose proof (server_find_ongoing c m p x k) as Ho; destruct (find_trace_for_server_request c m p x k) as [[s tp] m1] end.
    done.
Qed.

Lemma continue_budget st a i self :
  http_of (ht_span st) (ha_pid_conn a) = Some i ->
  (event_budget (ht_span (continue_protocol_http c l t e st a i self)) (ha_pid_conn a)
   <= S (length (hs_events (ht_span st))))%nat.
Proof.
  intros Hi. unfold continue_protocol_http. cbv zeta.
  destruct (if nz (ha_ssl a) && (meta_type a =? k_event_type_http_client) then he_reservation e else None) as [[span status]|].
  { etrans; [apply continue2_budget; cbn [ht_span]; rewrite put_http, (quiet_http _ _ _ (store_quiet _ _ _)), Hi; reflexivity|].
    cbn [ht_span]. by rewrite put_events. }
  destruct (injected_context (hs_maps (ht_span st)) a) as [x|].
  { etrans; [apply continue2_budget; exact Hi|done]. }
  pose proof (initial_ongoing (hs_maps (ht_span st)) a) as Ho.
  destruct (initial_context c l t e (hs_maps (ht_span st)) a) as [[[tp_p status] found] m1]. cbn [snd] in Ho.
  assert (Hh : http_of (set_maps (ht_span st) m1) (ha_pid_conn a) = Some i) by (unfold http_of; cbn; by rewrite Ho).
  etrans; [apply continue_tp_budget; cbn [ht_span]; rewrite put_http, Hh; reflexivity|]. cbn [ht_span]. by rewrite put_events.
Qed.

Lemma protocol_http_budget st a :
  (event_budget (ht_span (protocol_http c l t e st a)) (ha_pid_conn a)
   <= event_budget (ht_span st) (ha_pid_conn a)
      + (if (ha_packet_type a =? PACKET_TYPE_REQUEST)%Z then 1 else 0))%nat.
Proof.
  unfold protocol_http. cbv zeta. set (pc := ha_pid_conn a).
  destruct (get_or_set_http_info _ _ _ _ _ _ _ _ _ _ _) as [r sp] eqn:Hg.
  apply get_or_set_budget in Hg as (Hb & Hsome & Hreq); [|done]. fold pc in Hb, Hsome.
  destruct r as [i|]; [|cbn [ht_span]; lia]. specialize (Hsome i eq_refl).
  set (i1 := set_direction i (ha_direction a)).
  assert (Hp : http_of (put_info sp pc i1) pc = Some i1) by (by rewrite put_http, Hsome).
  assert (Hpb : (event_budget (put_info sp pc i1) pc <= event_budget sp pc)%nat) by (by apply (put_budget pc sp i)).
  destruct (Z.eqb_spec (ha_packet_type a) PACKET_TYPE_REQUEST) as [Hpt|Hpt].
  - specialize (Hreq Hpt i eq_refl). subst i. cbn [andb hi_status hi_start_monotime_ns i1 set_direction empty_http_info Z.eqb].
    etrans; [apply continue_budget; exact Hp|]. cbn [ht_span]. rewrite put_events. unfold event_budget in Hb at 1. lia.
  - cbn [andb]. rewrite Nat.add_0_r. destruct (_ && _).
    + pose proof (response_budget c l t pc (put_info sp pc i1) i1 (ha_small_buf a) (ha_lw_thread a) (he_now e 5) Hp) as Hr.
      destruct (http_of (handle_http_response c l t (put_info sp pc i1) pc i1 (ha_small_buf a) (ha_lw_thread a) (he_now e 5)) pc)
        as [j|] eqn:Hj.
      * etrans; [apply capture_budget; exact Hj|]. cbn [ht_span]. lia.
      * unfold capture. cbn [ht_span]. rewrite Hj. cbn [ht_span]. lia.
    + destruct (still_reading i1); [|destruct (still_responding i1)].
      * etrans; [apply capture_budget; cbn [ht_span]; by rewrite put_http, Hp|]. cbn [ht_span].
        etrans; [by apply (put_budget pc _ i1)|]. lia.
      * etrans; [apply capture_budget; cbn [ht_span]; by rewrite put_http, Hp|]. cbn [ht_span].
        etrans; [by apply (put_budget pc _ i1)|]. lia.
      * cbn [ht_span]. lia.
Qed.

End handler_budget.

(** ** A connection's life *)

(** What the probes do to one connection: an HTTP/1 buffer, a buffer no parser claims, bytes sent,
    the completion of a delayed request, the close of the socket, its termination. *)
Inductive http_op :=
  | op_buffer (l : links) (t : task) (e : henv) (a : http_args)
  | op_unclaimed (direction bytes_len now : Z)
  | op_sent (n : Z)
  | op_finish (l : links) (t : task)
  | op_close (l : links) (t : task) (current_key : option trace_key) (sk : option sock_bytes) (now : Z)
  | op_terminate (l : links) (t : task) (current_key : option trace_key).

Definition lift (f : hstate -> hstate) (st : http_state) : http_state := mk_http_state (f (ht_span st)) (ht_ring st).

Definition run_op (c : tconf) (pc : pid_connection_info) (st : http_state) (op : http_op) : http_state :=
  match op with
  | op_buffer l t e a => protocol_http c l t e st a
  | op_unclaimed dir n now =>
      match http_of (ht_span st) pc with
      | Some i => if nz (hi_submitted i) then st else lift (fun s => unclaimed_buffer s pc i dir n now) st
      | None => st
      end
  | op_sent n => lift (fun s => update_http_sent_len s pc n) st
  | op_finish l t => lift (fun s => finish_possible_delayed_http_request c l t s pc) st
  | op_close l t ck sk now => lift (fun s => force_finish_possible_delayed_http_request c l t s pc ck sk now) st
  | op_terminate l t ck => lift (fun s => terminate_http_request_if_needed c l t s pc ck) st
  end.

Definition op_on (pc : pid_connection_info) (op : http_op) : Prop :=
  match op with op_buffer _ _ _ a => ha_pid_conn a = pc | _ => True end.

Definition is_request (op : http_op) : bool :=
  match op with op_buffer _ _ _ a => ha_packet_type a =? PACKET_TYPE_REQUEST | _ => false end.

Definition requests (ops : list http_op) : nat := length (filter (fun op => is_request op = true) ops).

Lemma run_op_budget c pc st op :
  op_on pc op ->
  (event_budget (ht_span (run_op c pc st op)) pc
   <= event_budget (ht_span st) pc + (if is_request op then 1 else 0))%nat.
Proof.
  destruct op as [l t e a|dir n now|n|l t|l t ck sk now|l t ck]; cbn [op_on run_op is_request]; intros Hon;
    rewrite ?Nat.add_0_r.
  - subst pc. apply protocol_http_budget.
  - destruct (http_of (ht_span st) pc) as [i|] eqn:Hi; [|done]. destruct (nz _); [done|]. by apply unclaimed_budget.
  - unfold lift, update_http_sent_len. cbn [ht_span]. destruct (http_of (ht_span st) pc) as [i|] eqn:Hi; [|done].
    unfold event_budget. rewrite Hi. unfold http_of. cbn. rewrite lookup_insert_eq. done.
  - unfold lift, finish_possible_delayed_http_request. cbn [ht_span]. destruct (http_of (ht_span st) pc) as [i|] eqn:Hi; [|done].
    destruct (nz _); [by apply finish_budget|done].
  - apply close_budget.
  - unfold lift, terminate_http_request_if_needed. cbn [ht_span]. cbv zeta.
    change (event_budget (del_ssl ?s pc) pc) with (event_budget s pc).
    destruct (http_of (ht_span st) pc) as [i|] eqn:Hi; [|done]. destruct (_ =? _).
    + rewrite (quiet_budget _ _ pc (thread_trace_quiet _ _ _ _ _)). by rewrite (quiet_budget _ _ pc (response_data_quiet _ _ _ _ _)).
    + by rewrite (quiet_budget (ht_span st) _ pc (quiet_maps _ _ (client_delete_ongoing _ _ _ _ _))).
Qed.

Lemma run_ops_budget c pc st ops :
  Forall (op_on pc) ops ->
  (event_budget (ht_span (fold_left (run_op c pc) ops st)) pc <= event_budget (ht_span st) pc + requests ops)%nat.
Proof.
  intros Hon. revert st. induction Hon as [|op ops Ho _ IH]; intros st; cbn [fold_left].
  { unfold requests. cbn. lia. }
  etrans; [apply IH|]. pose proof (run_op_budget c pc st op Ho) as H. unfold requests. rewrite filter_cons.
  destruct (is_request op) eqn:Hr; [rewrite decide_True by done|rewrite decide_False by congruence]; cbn [length]; lia.
Qed.

(** C15: a connection never reports more HTTP spans than it saw requests.  Whatever probes run on it,
    in any order and on any thread, from a connection without a record the events sent, plus the
    one that may still be pending, are at most the requests seen; in particular a response, a late
    buffer, a delayed completion, a close and a termination never report one request twice. *)
Theorem http_one_event_per_request c pc st ops :
  http_of (ht_span st) pc = None -> Forall (op_on pc) ops ->
  let st' := fold_left (run_op c pc) ops st in
  (length (hs_events (ht_span st')) + open_count (http_of (ht_span st') pc)
   <= length (hs_events (ht_span st)) + requests ops)%nat.
Proof.
  intros Hn Hon st'. pose proof (run_ops_budget c pc st ops Hon) as H. unfold event_budget in H. rewrite Hn in H.
  cbn [open_count] in H. fold st' in H. lia.
Qed.

(** ** The capture of a payload *)

Lemma chunks_app {C} a (e1 e2 : list (tcp_large_buffer C)) l1 l2 :
  chunks_of a e1 l1 -> l1 <> [] -> chunks_of k_large_buf_action_append e2 l2 -> chunks_of a (e1 ++ e2) (l1 ++ l2).
Proof.
  revert a l1. induction e1 as [|x e1 IH]; intros a l1 H1 Hne H2; [done|].
  destruct H1 as (p & q & -> & Hb & Hl & Hz & Ha & Hq). cbn [app chunks_of]. exists p, (q ++ l2).
  rewrite app_assoc. do 5 (split; [done|]). destruct (decide (q = [])) as [->|Hqn]; [|by apply IH].
  destruct e1 as [|y e1]; [done|]. destruct Hq as (p' & q' & E & _ & _ & Hz' & _). symmetry in E.
  apply app_eq_nil in E as [-> _]. change (zlen (@nil Z)) with 0 in Hz'. lia.
Qed.

Lemma emit_continue_spec n first i ring u rem pt dir act :
  0 <= rem < 2 ^ 32 -> 0 <= lb_bytes_sent i pt -> lb_bytes_sent i pt + rem < 2 ^ 32 ->
  let '(i', ring') := large_buf_emit_continue n first i ring u rem pt dir act in
  exists evs l,
    ring_events ring' = ring_events ring ++ evs
    /\ chunks_of (if first then act else k_large_buf_action_append) evs l
    /\ probe_read u (length l) = Some l /\ zlen l <= rem
    /\ lb_bytes_sent i' pt = lb_bytes_sent i pt + zlen l
    /\ (ring_script ring = [] -> (exists m, probe_read u (Z.to_nat rem) = Some m) ->
        zlen l = Z.min rem (Z.of_nat n * k_large_buf_per_emit_max)).
Proof.
  revert first i ring u rem. induction n as [|n IH]; intros first i ring u rem Hrem Hs Hsum; cbn [large_buf_emit_continue].
  { exists [], []. change (zlen (@nil Z)) with 0. rewrite app_nil_r. split_and!; try done; lia. }
  destruct (Z.eqb_spec rem 0) as [->|Hr0].
  { exists [], []. change (zlen (@nil Z)) with 0. rewrite app_nil_r. split_and!; try done; kunfold; lia. }
  match goal with |- context [large_buf_emit_chunks ?lb ring u rem] => set (lb0 := lb) end.
  pose proof (emit_chunks_spec lb0 ring u rem Hrem) as He.
  assert (Hscript : ring_script ring = [] -> ring_script (snd (large_buf_emit_chunks lb0 ring u rem)) = []).
  { intros. unfold large_buf_emit_chunks. by apply emit_loop_script. }
  destruct (large_buf_emit_chunks lb0 ring u rem) as [[cons lb1] ring1]. cbn [snd] in Hscript. cbv zeta.
  destruct He as (evs & l & Hev & Hc & Hl & Hp & Hch & Hfull). rewrite (wrap_small 32) by lia.
  set (i1 := if 0 <? cons then set_captured i pt cons else i).
  assert (Hi1 : lb_bytes_sent i1 pt = lb_bytes_sent i pt + cons).
  { unfold i1. destruct (Z.ltb_spec 0 cons); [|unfold lb_bytes_sent in *; lia]. unfold lb_bytes_sent, set_captured in *. cbn.
    destruct (pt =? PACKET_TYPE_REQUEST); cbn; rewrite (wrap_small 32) by lia; done. }
  destruct (Z.ltb_spec 0 (rem - cons)) as [Hmore|Hdone]; cbn [andb];
    [destruct (Z.ltb_spec 0 cons) as [Hpos|Hzero]; cbn [andb]|].
  - specialize (IH false i1 ring1 (ushift u cons) (rem - cons) ltac:(lia) ltac:(lia) ltac:(lia)).
    destruct (large_buf_emit_continue n false i1 ring1 (ushift u cons) (rem - cons) pt dir act) as [i2 ring2].
    destruct IH as (evs2 & l2 & Hev2 & Hch2 & Hp2 & Hz2 & Hb2 & Hf2). exists (evs ++ evs2), (l ++ l2).
    assert (Hlen : length l = Z.to_nat cons) by (unfold zlen in Hl; lia).
    split_and!; [by rewrite Hev2, Hev, app_assoc| | |rewrite zlen_app; lia|rewrite zlen_app; lia|].
    + apply chunks_app; [exact Hch| |exact Hch2]. intros ->. change (zlen (@nil Z)) with 0 in Hl. lia.
    + rewrite length_app. apply probe_read_app; [done|]. by replace (Z.of_nat (length l)) with cons by lia.
    + intros Hs0 [m Hm]. rewrite zlen_app, <- Hl, Hfull by (done || by exists m). rewrite Hf2; [|by apply Hscript|].
      * assert (Hcv : cons = Z.min rem k_large_buf_per_emit_max) by (apply Hfull; [done|by exists m]). kunfold. lia.
      * replace (Z.to_nat rem) with (Z.to_nat cons + Z.to_nat (rem - cons))%nat in Hm by lia.
        apply probe_read_suffix in Hm as [m2 Hm]. exists m2. rewrite <- Hm. f_equal. f_equal. lia.
  - exists evs, l. split_and!; try done; try lia. intros Hs0 Hm.
    assert (cons = Z.min rem k_large_buf_per_emit_max) by (by apply Hfull). kunfold. lia.
  - exists evs, l. split_and!; try done; try lia. intros Hs0 Hm.
    assert (cons = Z.min rem k_large_buf_per_emit_max) by (by apply Hfull). kunfold. lia.
Qed.

(** C19: the capture of an HTTP payload is exact and stays within its budget.  The events appended to
    the ring reassemble to the front of the buffer; the bytes counted for the direction grow by
    exactly their number and never exceed the configured limit; when the buffer is readable and
    the ring accepts every event, everything the limit, the buffer and the 256 KiB of one capture
    allow is sent, over at most four batches. *)
Theorem http_capture_exact max i ring u n pt dir act :
  0 <= max < 2 ^ 32 -> 0 <= n < 2 ^ 32 -> 0 <= lb_bytes_sent i pt <= max ->
  let '(i', ring') := http_send_large_buffer max i ring u n pt dir act in
  exists evs l,
    ring_events ring' = ring_events ring ++ evs /\ chunks_of act evs l
    /\ probe_read u (length l) = Some l /\ zlen l <= n
    /\ lb_bytes_sent i' pt = lb_bytes_sent i pt + zlen l /\ lb_bytes_sent i' pt <= max
    /\ (ring_script ring = [] -> (exists m, probe_read u (Z.to_nat n) = Some m) ->
        zlen l = Z.min n (Z.min (max - lb_bytes_sent i pt) k_large_buf_max_http_captured_bytes)).
Proof.
  intros Hmax Hn Hs. unfold http_send_large_buffer. cbv zeta.
  destruct ((max =? 0) || (max <=? lb_bytes_sent i pt) || (n =? 0)) eqn:Hz.
  { exists [], []. change (zlen (@nil Z)) with 0. rewrite app_nil_r. split_and!; try done; try lia. intros. kunfold. lia. }
  rewrite clamp_min. set (rem := Z.min n (Z.min (max - lb_bytes_sent i pt) k_large_buf_max_http_captured_bytes)).
  assert (Hrem : 0 < rem <= n /\ rem <= max - lb_bytes_sent i pt /\ rem <= 262144) by (unfold rem; kunfold; lia).
  pose proof (emit_continue_spec (Z.to_nat k_large_buf_max_batches) true i ring u rem pt dir act
    ltac:(lia) ltac:(lia) ltac:(lia)) as H.
  destruct (large_buf_emit_continue _ _ _ _ _ _ _ _ _) as [i' ring'].
  destruct H as (evs & l & He & Hch & Hp & Hzl & Hb & Hf). exists evs, l. split_and!; try done; try lia.
  intros Hsc [m Hm]. rewrite Hf; [unfold k_large_buf_max_batches; kunfold; lia|done|].
  replace (Z.to_nat n) with (Z.to_nat rem + (Z.to_nat n - Z.to_nat rem))%nat in Hm by lia. by eapply probe_read_prefix.
Qed.

(** ** The header of a request *)

Lemma server_or_client_trace_map c l m t type conn lw tp_p ssl dport sid fl :
  trace_map (fst (server_or_client_trace c l m t type conn lw tp_p ssl dport sid fl)) = trace_map m.
Proof.
  assert (Ho : forall m k tp, trace_map (obi_ctx__set c m k tp) = trace_map m)
    by (intros; unfold obi_ctx__set; by destruct (negb _)).
  unfold server_or_client_trace, server_trace, client_trace. cbv zeta. destruct (_ =? _).
  - destruct (server_key l t) as [k vt]. destruct (conflicting _ _); [done|]. cbn [fst].
    destruct (negb (lw =? _)); cbn [trace_map set_go_trace_map]; destruct (negb vt); by rewrite ?Ho.
  - destruct (nz ssl); [done|]. cbn [fst]. destruct (negb (java_vt_mounted l t)); by rewrite ?Ho.
Qed.

Lemma encode_hex_no_nul l : is_bytes l -> Forall (fun c => c <> 0) (encode_hex l).
Proof.
  assert (Hh : forall n, (n < 16)%nat -> nth n hex 0 <> 0) by (intros n Hn; do 16 (destruct n as [|n]; [done|]); lia).
  induction 1 as [|p l Hp _ IH]; [constructor|]. cbn [encode_hex]. repeat constructor; [..|exact IH]; apply Hh.
  - assert (0 <= p / 2 ^ 4 < 16) by (split; [apply Z.div_pos|apply Z.div_lt_upper_bound]; lia).
    rewrite (Z.land_ones _ 8), Z.shiftr_div_pow2, Z.mod_small by lia. lia.
  - rewrite (Z.land_ones _ 4) by lia. pose proof (Z.mod_pos_bound p (2 ^ 4)). lia.
Qed.

Lemma skb_no_nul tp : wf_tp tp -> Forall (fun c => c <> 0) (make_tp_string_skb tp).
Proof.
  intros (Ht & _ & Hs & _). unfold make_tp_string_skb.
  rewrite !Forall_app. split_and!; try (by apply encode_hex_no_nul); repeat constructor; try done.
  unfold k_flag_sampled. rewrite (Z.land_ones _ 1) by lia. pose proof (Z.mod_pos_bound (flags tp) (2 ^ 1)). lia.
Qed.

Lemma list_buf_elem l i : 0 <= i < zlen l -> list_buf l i ∈ l.
Proof.
  intros Hi. rewrite list_buf_nth by lia. apply list_elem_of_In, nth_In. unfold zlen in Hi. lia.
Qed.

(** Starting a record moves no context other than the server context of its connection. *)
Definition contexts_kept (m m' : tmaps) : Prop :=
  outgoing_trace_map m' = outgoing_trace_map m /\ incoming_trace_map m' = incoming_trace_map m
  /\ trace_map m' ⊆ trace_map m.

#[export] Instance contexts_kept_preorder : PreOrder contexts_kept.
Proof.
  split; [done|]. intros m1 m2 m3 (? & ? & ?) (? & ? & ?). split_and!; [congruence..|by etrans].
Qed.

Lemma put_kept s p i : contexts_kept (hs_maps s) (hs_maps (put_info s p i)).
Proof. unfold put_info. by destruct (http_of s p). Qed.

Lemma thread_trace_kept l t s i ck :
  contexts_kept (hs_maps s) (hs_maps (cleanup_http_server_thread_trace l t s i ck)).
Proof.
  unfold cleanup_http_server_thread_trace, cleanup_http_server_thread_trace_for_key. cbn.
  by repeat case_match.
Qed.

Lemma finish_kept c l t s pc i ck : contexts_kept (hs_maps s) (hs_maps (finish_http c l t s pc i ck)).
Proof.
  unfold finish_http. destruct (negb _); [done|]. unfold submit_http_event.
  set (x := if _ || _ then _ else _).
  assert (Hx : contexts_kept (hs_maps s) (hs_maps (fst x))) by (unfold x; destruct (_ || _); [done|]; apply put_kept).
  destruct x as [s1 i1]. cbn [fst] in Hx. etrans; [exact Hx|].
  set (s2 := if hi_type i1 =? _ then _ else s1).
  assert (H2 : contexts_kept (hs_maps s1) (hs_maps s2)).
  { unfold s2. destruct (_ =? _); [|done]. etrans; [apply (thread_trace_kept l t s1 i1 ck)|].
    destruct (http_server_index_enabled c); [|done]. unfold unindex_http_server_trace. cbn. by repeat case_match. }
  etrans; [exact H2|]. by destruct (nz (hi_delayed i1)).
Qed.

(** A request on a connection whose earlier requests were all answered starts a new record. *)
Lemma new_record c l t s blank pc dir sk now1 now2 :
  (forall old, http_of s pc = Some old -> http_info_complete old = true) ->
  exists s', get_or_set_http_info c l t s blank pc PACKET_TYPE_REQUEST dir sk now1 now2 = (Some blank, set_http s' pc blank)
  /\ contexts_kept (hs_maps s) (hs_maps s').
Proof.
  intros Hold. unfold get_or_set_http_info. change (PACKET_TYPE_REQUEST =? PACKET_TYPE_REQUEST) with true. cbv iota.
  set (s1 := cleanup_tcp_trace_info_if_needed c l t s pc).
  assert (H1 : contexts_kept (hs_maps s) (hs_maps s1) /\ http_of s1 pc = http_of s pc).
  { unfold s1, cleanup_tcp_trace_info_if_needed, cleanup_trace_info. destruct (ongoing_tcp_req s !! pc) as [q|]; [|done].
    destruct (_ =? _); [|done]. cbn. unfold delete_server_trace, obi_ctx__del.
    repeat case_match; (split; [split_and!; try done; cbn; apply delete_subseteq|done]). }
  destruct H1 as [Hk Hh]. rewrite Hh. destruct (http_of s pc) as [old|]; [|by exists s1].
  rewrite (Hold old eq_refl). cbn [negb]. destruct (nz (hi_submitted old)); [by exists s1|].
  eexists. split; [reflexivity|]. etrans; [exact Hk|]. apply finish_kept.
Qed.

Section wire_header.
Variables (c : tconf) (l : links) (t : task) (e : henv).

Lemma capture_context st pc i a pt act :
  http_of (ht_span st) pc = Some i ->
  exists j, http_of (ht_span (capture e st pc i a pt act)) pc = Some j /\ hi_tp j = hi_tp i.
Proof.
  intros Hi. unfold capture. rewrite Hi.
  match goal with |- context [http_send_large_buffer ?m ?x ?r ?u ?n ?p ?d ?ac] =>
    pose proof (send_keeps hi_tp m x r u n p d ac ltac:(done)) as Hu; destruct (http_send_large_buffer m x r u n p d ac) as [j ring] end.
  exists j. cbn [ht_span]. by rewrite put_http, Hi.
Qed.

(** A record without a context takes the one stored for its connection. *)
Lemma continue2_context st a i x :
  http_of (ht_span st) (ha_pid_conn a) = Some i -> valid_span (span_id (hi_tp i)) = false ->
  trace_map (hs_maps (ht_span st)) !! trace_key_from_conn (pc_conn (ha_pid_conn a)) (trace_type (meta_type a)) = Some x ->
  exists j, http_of (ht_span (continue2_protocol_http c l t e st a i (repeat 0 8))) (ha_pid_conn a) = Some j
  /\ hi_tp j = tpp_tp x.
Proof.
  intros Hi Hv Hx. unfold continue2_protocol_http. cbv zeta. rewrite Hv. cbn [negb].
  assert (trace_info_for_connection (hs_maps (ht_span st)) (pc_conn (ha_pid_conn a)) (trace_type (meta_type a))
            ≫= deref (hs_maps (ht_span st)) = Some x) as ->.
  { unfold trace_info_for_connection, lookup_at. change (deref (hs_maps (ht_span st)) (at_conn ?k)) with (trace_map (hs_maps (ht_span st)) !! k).
    rewrite Hx. exact Hx. }
  cbn [nz load_u64]. unfold process_http_request. cbv zeta.
  match goal with |- context [put_info (match ?tr with _ => _ end) _ ?y] => set (i2 := y); set (tr0 := tr) end.
  set (sp := match tr0 with Some _ => _ | None => _ end).
  assert (Hsp : is_Some (http_of sp (ha_pid_conn a))).
  { assert (Hp : is_Some (http_of (put_info (ht_span st) (ha_pid_conn a) (read_request_buf (set_context i (tpp_tp x) (hi_parent_status i)) a)) (ha_pid_conn a)))
      by (rewrite put_http, Hi; by eexists).
    unfold sp. destruct tr0; exact Hp. }
  clearbody sp. destruct Hsp as [i0 Hsp].
  set (sp2 := if http_server_index_enabled c then _ else _).
  assert (Hq : quiet (put_info sp (ha_pid_conn a) i2) sp2).
  { unfold sp2. destruct (http_server_index_enabled c); [|done]. apply quiet_maps, index_ongoing. }
  edestruct (capture_context (mk_http_state sp2 (ht_ring st)) (ha_pid_conn a) i2) as (j & Hj & Hjt).
  { cbn [ht_span]. rewrite (quiet_http _ _ _ Hq), put_http, Hsp. reflexivity. }
  exists j. split; [exact Hj|exact Hjt].
Qed.

(** Where the kernel has no [bpf_loop], the scan stops at a NUL and looks only at the first 350
    octets. *)
Definition scan_reaches (pre : list Z) : Prop :=
  he_bpf_loop e = false -> zlen pre < k_besteffort_max_loops /\ Forall (fun c => c <> 0) pre.

(** The scan finds the header [tp] was printed as, and reads it back. *)
Lemma header_found a tp_p pre tp post :
  wf_tp tp -> meta_type a = k_event_type_http_request -> g_bpf_traceparent_enabled e = true -> scan_reaches pre ->
  let text := list_buf ((pre ++ make_tp_string_skb tp ++ post) ++ [0]) in
  let len := zlen (pre ++ make_tp_string_skb tp ++ post) in
  len < TRACE_BUF_SIZE -> (forall j, 0 <= j < zlen pre -> is_traceparent (shift text j) = false) ->
  tp_loop e text len = Some (zlen pre)
  /\ exists x, read_header e a tp_p (shift text (zlen pre)) = (x, false)
     /\ trace_id (tpp_tp x) = trace_id tp /\ parent_id (tpp_tp x) = span_id tp /\ span_id (tpp_tp x) = span_id (tpp_tp tp_p).
Proof.
  intros Hwf Hmt Hen Hscan text len Hlen Hno. pose proof Hwf as (_ & Htl & _ & Hsl & _).
  pose proof (make_tp_string_skb_zlen tp Htl Hsl) as Hz. pose proof (zlen_nonneg pre). pose proof (zlen_nonneg post).
  assert (Hl : len = zlen pre + TP_SIZE + zlen post) by (unfold len; rewrite !zlen_app; lia).
  assert (Hp : forall i, 0 <= i -> shift text (zlen pre) i = list_buf (make_tp_string_skb tp ++ post ++ [0]) i).
  { intros i Hi. unfold shift, text. rewrite <- !app_assoc. by apply list_buf_app_r. }
  destruct (header_fields _ tp _ Hwf Hp) as (H1 & H2 & H3 & _ & _ & H6 & H7 & H8).
  assert (Hd : shift text (zlen pre) 15 = 45) by (rewrite Hp by lia; reflexivity).
  assert (Hat : tp_at text (zlen pre) = true).
  { unfold tp_at. rewrite H1. unfold valid_traceparent. unfold shift at 1 3 5. change (13 + k_tp_val_dash1) with 15.
    change (13 + k_tp_val_dash2) with 48. change (13 + k_tp_val_dash3) with 65. by rewrite Hd, H2, H3. }
  split.
  - unfold tp_loop. rewrite Hen. destruct (he_bpf_loop e) eqn:Hloop.
    + rewrite bpf_strstr_tp_loop_first, scan_loop_count_spec by (kunfold; lia).
      apply first_from_Some. split_and!; [kunfold; lia..|exact Hat|].
      intros j Hj. unfold tp_at. by rewrite Hno by lia.
    + destruct (Hscan Hloop) as [Hw Hnz]. unfold bpf_strstr_tp_loop__legacy. cbn [negb].
      rewrite (proj2 (Z.ltb_ge _ _)) by (kunfold; lia). apply tp_legacy_loop_Some.
      assert (Hhd : forall k, 0 <= k < TP_SIZE -> text (zlen pre + k) <> 0).
      { intros k Hk. change (text (zlen pre + k)) with (shift text (zlen pre) k). rewrite Hp, list_buf_app_l by lia.
        pose proof (skb_no_nul tp Hwf) as Hf. rewrite Forall_forall in Hf. apply Hf, list_buf_elem. lia. }
      split_and!; [lia|kunfold; lia|done|done| |intros k Hk; apply Hhd; kunfold; lia].
      intros k Hk. destruct (Z.eq_dec k (zlen pre)) as [-> |]; [rewrite <- (Z.add_0_r (zlen pre)); apply Hhd; kunfold; lia|].
      unfold text. rewrite <- app_assoc, list_buf_app_l by lia. rewrite Forall_forall in Hnz. apply Hnz, list_buf_elem. lia.
  - unfold read_header. rewrite Hmt. eexists. split; [reflexivity|]. cbn [tpp_tp].
    change TP_TID_PREFIX_SIZE with 16 in H6. unfold sample_remote_child_for_pid.
    destruct (he_sampler e); [destruct (nz _)|]; cbn; by rewrite ?H6, ?H7.
Qed.

Lemma initial_span m a : span_id (tpp_tp (fst (fst (fst (initial_context c l t e m a))))) = he_span e
  \/ meta_type a = k_event_type_http_client.
Proof.
  unfold initial_context. cbv zeta. destruct (Z.eqb_spec (meta_type a) k_event_type_http_client) as [|Hm]; [by right|]. left.
  unfold find_trace_for_server_request, sample_new_trace_for_pid, sample_remote_child_for_pid. cbv zeta.
  repeat (case_match; simplify_eq/=); done.
Qed.

Lemma tp_step_reads_header st a i tp_p pre tp post :
  let req := pre ++ make_tp_string_skb tp ++ post in
  wf_tp tp -> zlen pre + TP_SIZE < TRACE_BUF_SIZE -> zlen req < 2 ^ 16 ->
  (forall j, 0 <= j < zlen pre -> is_traceparent (shift (list_buf (pre ++ make_tp_string_skb tp)) j) = false) ->
  ha_u_buf a = list_umem req -> ha_bytes_len a = zlen req -> meta_type a = k_event_type_http_request ->
  scan_reaches pre -> g_bpf_traceparent_enabled e = true -> capture_header_buffer c = true ->
  http_of (ht_span st) (ha_pid_conn a) = Some i -> valid_span (span_id (hi_tp i)) = false ->
  exists j, http_of (ht_span (continue_protocol_http_tp c l t e st a i tp_p false (repeat 0 8))) (ha_pid_conn a) = Some j
  /\ trace_id (hi_tp j) = trace_id tp /\ parent_id (hi_tp j) = span_id tp /\ span_id (hi_tp j) = span_id (tpp_tp tp_p).
Proof.
  intros req Hwf Hpre Hlen Hno Hu Hb Hmt Hscan Hen Hcap Hi Hv. unfold continue_protocol_http_tp. cbv zeta.
  rewrite Hen, Hcap, Hu, Hb. cbn [andb negb]. pose proof (zlen_nonneg req). pose proof (zlen_nonneg pre).
  pose proof Hwf as (_ & Htl & _ & Hsl & _). pose proof (make_tp_string_skb_zlen tp Htl Hsl) as Hz.
  set (n := (Z.to_nat (TRACE_BUF_SIZE - 1) - (length pre + length (make_tp_string_skb tp)))%nat).
  assert (Hreq : req = (pre ++ make_tp_string_skb tp ++ take n post) ++ drop n post)
    by (unfold req; rewrite <- !app_assoc, take_drop; done).
  set (text := pre ++ make_tp_string_skb tp ++ take n post) in *.
  assert (Htext : zlen text = Z.min (zlen req) (TRACE_BUF_SIZE - 1)).
  { unfold text, req. rewrite !zlen_app. unfold zlen in *. rewrite length_take. unfold n. kunfold. lia. }
  assert (clamp_umax (u16 (zlen req)) (TRACE_BUF_SIZE - 1) = zlen text) as ->
    by (rewrite clamp_min, (wrap_small 16), Htext by lia; done).
  assert (probe_read0 (list_umem req) (Z.to_nat (zlen text)) = text) as ->.
  { unfold probe_read0. replace (Z.to_nat (zlen text)) with (length text) by (unfold zlen; lia).
    by rewrite Hreq, probe_read_list. }
  destruct (header_found a tp_p pre tp (take n post) Hwf Hmt Hen Hscan) as (Hl & x & Hx & Hx1 & Hx2 & Hx3);
    [fold text; kunfold; lia| |].
  { intros j Hj. rewrite <- (Hno j Hj). apply is_traceparent_ext. intros k Hk. unfold shift.
    rewrite <- !app_assoc, (app_assoc pre). apply list_buf_app_l. rewrite zlen_app, Hz. kunfold. lia. }
  fold text in Hl, Hx. rewrite Hl, Hx. rewrite Hi. cbn [default].
  destruct (continue2_context (mk_http_state (set_maps (ht_span st) (store_context c l t (hs_maps (ht_span st)) a x)) (ht_ring st)) a i x)
    as (j & Hj & Hjt).
  - cbn [ht_span]. by rewrite (quiet_http _ _ _ (store_quiet _ _ _ _ _ _)).
  - exact Hv.
  - cbn [ht_span hs_maps set_maps]. unfold store_context. rewrite server_or_client_trace_map. apply lookup_insert_eq.
  - exists j. split; [exact Hj|]. by rewrite Hjt.
Qed.

(** No context waits for the connection: none a peer's packets carried, and none of a client of
    this host. *)
Definition no_context_waits (m : tmaps) (conn : connection_info) : Prop :=
  incoming_trace_map m !! sort_connection_info conn = None
  /\ trace_map m !! trace_key_from_conn conn TRACE_TYPE_CLIENT = None.

Lemma none_waits_kept m m' conn : contexts_kept m m' -> no_context_waits m conn -> no_context_waits m' conn.
Proof. intros (_ & Hi & Ht) [H1 H2]. split; [by rewrite Hi|]. by eapply lookup_weaken_None. Qed.

Lemma none_waits_not_found m a :
  meta_type a = k_event_type_http_request -> no_context_waits m (pc_conn (ha_pid_conn a)) ->
  snd (fst (initial_context c l t e m a)) = false.
Proof.
  intros Hmt [H1 H2]. unfold initial_context, find_trace_for_server_request, trace_info_for_connection, lookup_at.
  rewrite Hmt. cbn. by rewrite H1, H2, andb_false_r.
Qed.

End wire_header.

(** C16: a wire context reaches the span.  Take the first buffer of a request a server receives, on a
    connection whose earlier requests, if any, were all answered, and the header a peer printed for
    [tp] in it, with no [traceparent] name before it and its 70 octets within the first 1023.  Then
    the record of the request has the trace of [tp], the span of [tp] as its parent and a span id
    of its own, when the request is shorter than 64 KiB and readable, traceparent parsing and
    header capture are on, the injector left no written client context of the same process for the
    connection, and the connection is not TLS or no context waits for it.  (Over TLS a context that
    was found for the connection is kept instead of the header.)  On a kernel without [bpf_loop]
    the header must start within the first 350 octets, behind no NUL. *)
Theorem wire_context_reaches_span c l t e st a pre tp post :
  let pc := ha_pid_conn a in
  let m := hs_maps (ht_span st) in
  let req := pre ++ make_tp_string_skb tp ++ post in
  wf_tp tp -> zlen pre + TP_SIZE < TRACE_BUF_SIZE -> zlen req < 2 ^ 16 ->
  (forall j, 0 <= j < zlen pre -> is_traceparent (shift (list_buf (pre ++ make_tp_string_skb tp)) j) = false) ->
  scan_reaches e pre -> g_bpf_traceparent_enabled e = true -> capture_header_buffer c = true ->
  ha_u_buf a = list_umem req -> ha_bytes_len a = zlen req ->
  ha_packet_type a = PACKET_TYPE_REQUEST -> ha_direction a = TCP_RECV ->
  (ha_ssl a = 0 \/ no_context_waits m (pc_conn pc)) ->
  (forall old, http_of (ht_span st) pc = Some old -> http_info_complete old = true) ->
  injected_context m a = None ->
  exists i, http_of (ht_span (protocol_http c l t e st a)) pc = Some i
  /\ trace_id (hi_tp i) = trace_id tp /\ parent_id (hi_tp i) = span_id tp /\ span_id (hi_tp i) = he_span e.
Proof.
  intros pc m req Hwf Hpre Hlen Hno Hscan Hen Hcap Hu Hb Hpt Hdir Hssl Hold Hinj.
  assert (Hmt : meta_type a = k_event_type_http_request) by (unfold meta_type; by rewrite Hdir).
  unfold protocol_http. cbv zeta. fold pc.
  assert (self_referencing_request (ht_span st) pc (ha_packet_type a) = None) as ->.
  { unfold self_referencing_request. rewrite Hpt. cbn. destruct (http_of (ht_span st) pc) as [old|]; [|done].
    by rewrite (Hold old eq_refl). }
  rewrite Hpt. edestruct (new_record c l t (ht_span st)) as (s1 & Hg & Hk); [exact Hold|]. rewrite Hg. clear Hg.
  set (i := set_direction (empty_http_info (pc_conn pc) (ha_ssl a)) (ha_direction a)).
  set (sp := put_info (set_http s1 pc (empty_http_info (pc_conn pc) (ha_ssl a))) pc i).
  assert (Hi : http_of sp pc = Some i) by (unfold sp; rewrite put_http; unfold http_of; cbn; by rewrite lookup_insert_eq).
  assert (Hks : contexts_kept m (hs_maps sp)).
  { etrans; [exact Hk|]. unfold sp. etrans; [|apply put_kept]. done. }
  change (PACKET_TYPE_REQUEST =? PACKET_TYPE_REQUEST) with true.
  change (hi_status i =? 0) with true. change (hi_start_monotime_ns i =? 0) with true. cbn [andb].
  assert (Hv : valid_span (span_id (hi_tp i)) = false) by done. clearbody i. unfold continue_protocol_http. cbv zeta. rewrite Hmt.
  rewrite andb_false_r. cbn [andb Z.eqb negb k_event_type_http_request k_event_type_http_client Pos.eqb ht_span ht_ring].
  assert (injected_context (hs_maps sp) a = None) as ->
    by (unfold injected_context in *; by rewrite (proj1 Hks)).
  pose proof (initial_span c l t e (hs_maps sp) a) as Hs. pose proof (initial_ongoing c l t e (hs_maps sp) a) as Ho.
  assert (Hf : snd (fst (initial_context c l t e (hs_maps sp) a)) && nz (ha_ssl a) = false).
  { destruct Hssl as [-> |Hw]; [by rewrite andb_false_r|].
    rewrite (none_waits_not_found c l t e (hs_maps sp) a Hmt); [done|]. by eapply none_waits_kept. }
  destruct (initial_context c l t e (hs_maps sp) a) as [[[tp_p status] found] m1]. cbn [fst snd] in Hs, Ho, Hf.
  destruct Hs as [Hs|Hs]; [|by rewrite Hmt in Hs]. rewrite Hf.
  destruct (tp_step_reads_header c l t e (mk_http_state (put_info (set_maps sp m1) pc i) (ht_ring st)) a i tp_p pre tp post)
    as (j & Hj & H1 & H2 & H3); [done..| |done|].
  - fold pc. cbn [ht_span]. rewrite put_http. unfold http_of. cbn [hs_maps set_maps]. rewrite Ho. fold (http_of sp pc). by rewrite Hi.
  - exists j. rewrite <- Hs. done.
Qed.

(** ** Witnesses *)

Definition example_henv : henv :=
  mk_henv true true 1000 None None no_context (fun n => 100 + Z.of_nat n) (repeat 6 8) (repeat 5 16) (repeat 4 8).

Definition example_args (direction packet_type : Z) (l : list Z) : http_args :=
  mk_args example_pid_conn 0 direction packet_type l (list_umem l) (zlen l) 80 None k_lw_thread_none.

Definition example_http_state : http_state := mk_http_state (mk_hs empty_tmaps ∅ ∅ ∅ []) (mk_ring [] []).

(** A request, its response and the close of the socket. *)
Definition example_ops : list http_op :=
  [op_buffer empty_links example_task example_henv (example_args TCP_RECV PACKET_TYPE_REQUEST example_get);
   op_buffer empty_links example_task example_henv (example_args TCP_SEND PACKET_TYPE_RESPONSE example_status_line);
   op_sent 10; op_finish empty_links example_task; op_close empty_links example_task None None 900].

Lemma http_one_event_per_request_witness :
  let st' := fold_left (run_op example_conf example_pid_conn) example_ops example_http_state in
  length (hs_events (ht_span st')) = 1%nat
  /\ (length (hs_events (ht_span st')) + open_count (http_of (ht_span st') example_pid_conn) <= 0 + 1)%nat.
Proof.
  split; [by vm_compute|].
  apply (http_one_event_per_request example_conf example_pid_conn example_http_state example_ops); [reflexivity|].
  repeat constructor.
Defined.

Lemma http_capture_exact_witness :
  let '(i', ring') := http_send_large_buffer 15 example_info (mk_ring [] []) (list_umem (repeat 5 20)) 20
                        PACKET_TYPE_REQUEST TCP_RECV k_large_buf_action_init in
  lb_bytes_sent i' PACKET_TYPE_REQUEST = 15.
Proof.
  pose proof (http_capture_exact 15 example_info (mk_ring [] []) (list_umem (repeat 5 20)) 20
    PACKET_TYPE_REQUEST TCP_RECV k_large_buf_action_init ltac:(lia) ltac:(lia) ltac:(by vm_compute)) as H.
  destruct (http_send_large_buffer _ _ _ _ _ _ _ _) as [i' ring'].
  destruct H as (evs & l & _ & _ & _ & _ & Hs & _ & Hf). rewrite Hs, Hf; [reflexivity|done|].
  exists (repeat 5 20). by vm_compute.
Defined.

(** A second request on a connection whose first one was answered. *)
Definition example_answered : http_state :=
  fold_left (run_op example_conf example_pid_conn) (take 2 example_ops) example_http_state.

Lemma wire_context_reaches_span_witness :
  option_map http_info_complete (http_of (ht_span example_answered) example_pid_conn) = Some true
  /\ exists i, http_of (ht_span (protocol_http example_conf empty_links example_task example_henv example_answered
                       (example_args TCP_RECV PACKET_TYPE_REQUEST example_request_with_tp))) example_pid_conn = Some i
  /\ trace_id (hi_tp i) = trace_id example_wire_tp /\ span_id (hi_tp i) = repeat 6 8.
Proof.
  split; [vm_compute; reflexivity|].
  destruct (wire_context_reaches_span example_conf empty_links example_task example_henv example_answered
    (example_args TCP_RECV PACKET_TYPE_REQUEST example_request_with_tp) (take 16 example_get) example_wire_tp (drop 16 example_get))
    as (i & Hi & Ht & _ & Hs); try reflexivity.
  - unfold wf_tp, is_bytes, example_wire_tp, zlen. simpl. split_and!; try lia; repeat constructor; lia.
  - change (zlen (take 16 example_get)) with 16. intros j Hj.
    assert (Hc : forallb (fun j => negb (is_traceparent (shift (list_buf (take 16 example_get ++ make_tp_string_skb example_wire_tp)) j))) (zrange 16) = true)
      by (by vm_compute).
    rewrite forallb_forall in Hc. apply negb_true_iff, Hc, in_map_iff. exists (Z.to_nat j). split; [lia|]. apply in_seq. lia.
  - done.
  - by left.
  - intros old Hold. assert (Hc : option_map http_info_complete (http_of (ht_span example_answered) example_pid_conn) = Some true)
      by (vm_compute; reflexivity).
    cbn [ha_pid_conn example_args] in Hold. rewrite Hold in Hc. by injection Hc.
  - exists i. split; [exact Hi|]. split; [exact Ht|exact Hs].
Defined.
