(* ===== verification/H2Stream.v ===== *)
(** * The streams of the HTTP/2 handler ([bpf/generictracer/protocol_http2.h],
      [types/grpc_frames_ctx.h], [maps/h2_cut_frames.h]).

    The record of a stream in [ongoing_http2_grpc]: how it starts for a client and for a server, how it
    is reported, and the marks that say the HPACK tables of a connection can no longer be followed.
    [h2_events] is the list of records handed to the ring buffer; [pe_reserve] says which reservations
    succeed.  The per-CPU memory a program leaves for the next one of its chain is part of the
    state; lookups of per-CPU memory do not fail. *)

From Stdlib Require Import ZArith Lia ZifyBool List Bool.
From stdpp Require Import base list countable gmap.
From S2P Require Import Prelude TraceUtil Sampling H2Defs H2Sniff H2Huffman HpackParse Entry IovIter ConnInfo LargeBuf.
From S2P Require Import HttpInfo TraceMaps TraceParent TraceLife HttpSpan HttpTrace.

Local Open Scope Z_scope.

(** ** Constants *)

Definition http2_conn_flag_ssl : Z := 1.
Definition http2_conn_flag_new : Z := 2.
Definition h2_hpack_req_unreliable : Z := 1.
Definition h2_hpack_resp_unreliable : Z := 2.
Definition h2_hpack_new_connection : Z := 4.
Definition h2_hpack_unreliable : Z := Z.lor h2_hpack_req_unreliable h2_hpack_resp_unreliable.
Definition k_event_type_k_http2_request : Z := 7.
Definition k_event_type_k_http2_request_headers : Z := 25.
Definition k_event_type_k_http2_response_headers : Z := 26.
Definition k_kprobes_http2_ret_buf_size : Z := 64.
Definition k_h2_max_payload : Z := k_kprobes_http2_buf_size - k_h2_frame_header_len.

#[export] Hint Unfold http2_conn_flag_ssl http2_conn_flag_new h2_hpack_req_unreliable h2_hpack_resp_unreliable
  h2_hpack_new_connection k_event_type_k_http2_request k_event_type_k_http2_request_headers
  k_event_type_k_http2_response_headers k_kprobes_http2_ret_buf_size k_h2_max_payload : kconst.

Definition http2_flag_ssl (flags : Z) : Z := Z.land flags http2_conn_flag_ssl.
Definition http2_flag_new (flags : Z) : Z := Z.land flags http2_conn_flag_new.

(** ** State *)

Record h2_cut_frame := mk_cut { cut_skip : Z; cut_len : Z; cut_data : list Z }.

Record grpc_frames_ctx := mk_gctx {
  prev_info : http2_grpc_request;
  has_prev_info : bool;
  iterations : Z;
  terminate_search : bool;
  pos : Z;
  saved_buf_pos : Z;
  saved_stream_id : Z;
  g_args : http_args;
  g_stream : http2_conn_stream;
  huff : h2_tp_huff_candidate;
  huff_scan : h2_tp_huff_scan
}.

Record h2_state := mk_h2 {
  h2_span : hstate;
  h2_events : list http2_grpc_request;
  h2_cut_frames : gmap pid_connection_info h2_cut_frame;
  g_ctx : grpc_frames_ctx;
  http2_info_mem : http2_grpc_request;
  tp_info_mem : tp_info_pid;
  h2_joined_mem : list Z;
  h2_tp_huff_out : buf
}.

(** What one program of a chain asks of the kernel: the time, random identifiers, room in the ring
    buffer and tail calls, each by the position of the request in the program. *)
Record penv := mk_penv {
  pe_now : nat -> Z;
  pe_reserve : nat -> bool;
  pe_jump : nat -> bool;
  pe_span : list Z;
  pe_trace : list Z
}.

Definition h2_maps (st : h2_state) : tmaps := hs_maps (h2_span st).

Definition set_h2_span (st : h2_state) (x : hstate) : h2_state :=
  mk_h2 x (h2_events st) (h2_cut_frames st) (g_ctx st) (http2_info_mem st) (tp_info_mem st) (h2_joined_mem st) (h2_tp_huff_out st).
Definition set_h2_maps (st : h2_state) (m : tmaps) : h2_state := set_h2_span st (set_maps (h2_span st) m).
Definition submit (st : h2_state) (r : http2_grpc_request) : h2_state :=
  mk_h2 (h2_span st) (h2_events st ++ [r]) (h2_cut_frames st) (g_ctx st) (http2_info_mem st) (tp_info_mem st) (h2_joined_mem st)
    (h2_tp_huff_out st).
Definition set_cuts (st : h2_state) x : h2_state :=
  mk_h2 (h2_span st) (h2_events st) x (g_ctx st) (http2_info_mem st) (tp_info_mem st) (h2_joined_mem st) (h2_tp_huff_out st).
Definition set_g (st : h2_state) (g : grpc_frames_ctx) : h2_state :=
  mk_h2 (h2_span st) (h2_events st) (h2_cut_frames st) g (http2_info_mem st) (tp_info_mem st) (h2_joined_mem st) (h2_tp_huff_out st).
Definition set_info_mem (st : h2_state) (r : http2_grpc_request) : h2_state :=
  mk_h2 (h2_span st) (h2_events st) (h2_cut_frames st) (g_ctx st) r (tp_info_mem st) (h2_joined_mem st) (h2_tp_huff_out st).
Definition set_tp_mem (st : h2_state) (x : tp_info_pid) : h2_state :=
  mk_h2 (h2_span st) (h2_events st) (h2_cut_frames st) (g_ctx st) (http2_info_mem st) x (h2_joined_mem st) (h2_tp_huff_out st).
Definition set_joined (st : h2_state) (x : list Z) : h2_state :=
  mk_h2 (h2_span st) (h2_events st) (h2_cut_frames st) (g_ctx st) (http2_info_mem st) (tp_info_mem st) x (h2_tp_huff_out st).
Definition set_huff_out (st : h2_state) (x : buf) : h2_state :=
  mk_h2 (h2_span st) (h2_events st) (h2_cut_frames st) (g_ctx st) (http2_info_mem st) (tp_info_mem st) (h2_joined_mem st) x.

Definition set_prev (g : grpc_frames_ctx) (r : http2_grpc_request) (has : bool) : grpc_frames_ctx :=
  mk_gctx r has (iterations g) (terminate_search g) (pos g) (saved_buf_pos g) (saved_stream_id g) (g_args g) (g_stream g)
    (huff g) (huff_scan g).
Definition set_iterations (g : grpc_frames_ctx) (n : Z) : grpc_frames_ctx :=
  mk_gctx (prev_info g) (has_prev_info g) n (terminate_search g) (pos g) (saved_buf_pos g) (saved_stream_id g) (g_args g)
    (g_stream g) (huff g) (huff_scan g).
Definition set_terminate (g : grpc_frames_ctx) : grpc_frames_ctx :=
  mk_gctx (prev_info g) (has_prev_info g) (iterations g) true (pos g) (saved_buf_pos g) (saved_stream_id g) (g_args g)
    (g_stream g) (huff g) (huff_scan g).
Definition set_pos (g : grpc_frames_ctx) (p : Z) : grpc_frames_ctx :=
  mk_gctx (prev_info g) (has_prev_info g) (iterations g) (terminate_search g) p (saved_buf_pos g) (saved_stream_id g) (g_args g)
    (g_stream g) (huff g) (huff_scan g).
Definition set_saved (g : grpc_frames_ctx) (buf_pos stream_id : Z) : grpc_frames_ctx :=
  mk_gctx (prev_info g) (has_prev_info g) (iterations g) (terminate_search g) (pos g) buf_pos stream_id (g_args g)
    (g_stream g) (huff g) (huff_scan g).
Definition set_args (g : grpc_frames_ctx) (a : http_args) : grpc_frames_ctx :=
  mk_gctx (prev_info g) (has_prev_info g) (iterations g) (terminate_search g) (pos g) (saved_buf_pos g) (saved_stream_id g) a
    (g_stream g) (huff g) (huff_scan g).
Definition set_stream (g : grpc_frames_ctx) (s : http2_conn_stream) : grpc_frames_ctx :=
  mk_gctx (prev_info g) (has_prev_info g) (iterations g) (terminate_search g) (pos g) (saved_buf_pos g) (saved_stream_id g)
    (g_args g) s (huff g) (huff_scan g).
Definition set_huff (g : grpc_frames_ctx) (h : h2_tp_huff_candidate) (sc : h2_tp_huff_scan) : grpc_frames_ctx :=
  mk_gctx (prev_info g) (has_prev_info g) (iterations g) (terminate_search g) (pos g) (saved_buf_pos g) (saved_stream_id g)
    (g_args g) (g_stream g) h sc.

Definition set_stream_id (g : grpc_frames_ctx) (id : Z) : grpc_frames_ctx :=
  set_stream g (mk_stream (cs_pid_conn (g_stream g)) id).

Definition set_h2_conns (m : tmaps) x : tmaps :=
  mk_tmaps (server_traces m) (server_traces_aux m) (trace_map m) (outgoing_trace_map m) (incoming_trace_map m)
    (traces_ctx_v1 m) (go_trace_map m) (cp_support_connect_info m) (http_server_trace_index m) (ongoing_http m)
    (ongoing_http2_grpc m) x (backup_mem m).
Definition set_h2_grpc (m : tmaps) x : tmaps :=
  mk_tmaps (server_traces m) (server_traces_aux m) (trace_map m) (outgoing_trace_map m) (incoming_trace_map m)
    (traces_ctx_v1 m) (go_trace_map m) (cp_support_connect_info m) (http_server_trace_index m) (ongoing_http m)
    x (ongoing_http2_connections m) (backup_mem m).

(** ** Fields of a record *)

Definition set_hpack_flags (r : http2_grpc_request) (x : Z) : http2_grpc_request :=
  mk_h2_request (hr_flags r) (hr_ssl r) (hr_type r) (hr_parent_status r) (hr_conn_info r) (hr_start_monotime_ns r)
    (hr_end_monotime_ns r) (hr_data r) (hr_ret_data r) (hr_len r) (hr_stream_id r) x (hr_pid r) (hr_new_conn_id r) (hr_tp r).

(** The context and how its parent was found. *)
Definition set_h2_context (r : http2_grpc_request) (tp : tp_info) (parent_status : Z) : http2_grpc_request :=
  mk_h2_request (hr_flags r) (hr_ssl r) (hr_type r) parent_status (hr_conn_info r) (hr_start_monotime_ns r)
    (hr_end_monotime_ns r) (hr_data r) (hr_ret_data r) (hr_len r) (hr_stream_id r) (hr_hpack_flags r) (hr_pid r)
    (hr_new_conn_id r) tp.

Definition set_h2_end (r : http2_grpc_request) (now : Z) (ret_data : list Z) : http2_grpc_request :=
  mk_h2_request (hr_flags r) (hr_ssl r) (hr_type r) (hr_parent_status r) (hr_conn_info r) (hr_start_monotime_ns r)
    now (hr_data r) ret_data (hr_len r) (hr_stream_id r) (hr_hpack_flags r) (hr_pid r) (hr_new_conn_id r) (hr_tp r).

Definition set_tpp (x : tp_info_pid) (tp : tp_info) : tp_info_pid :=
  mk_tp_info_pid tp (tpp_pid x) (tpp_valid x) (tpp_written x) (tpp_req_type x) (tpp_response_sent x).

(** Every field but the captures is zeroed. *)
Definition empty_http2_info (r : http2_grpc_request) : http2_grpc_request :=
  mk_h2_request 0 0 0 0 (mk_conn (repeat 0 16) (repeat 0 16) 0 0) 0 0 (hr_data r) (hr_ret_data r) 0 0 0 zero_pid_info 0
    (tpp_tp no_context).

Definition uniqueHTTP2ConnId (rnd : Z) (pc : pid_connection_info) : Z :=
  Z.lor (u64 (Z.shiftl rnd 32)) (Z.lor (u32 (Z.shiftl (d_port (pc_conn pc)) 16)) (s_port (pc_conn pc))).

(** The per-stream key of [outgoing_trace_map]. *)
Definition stream_egress_key (s : http2_conn_stream) : egress_key :=
  sort_egress_key (mk_egress (s_port (pc_conn (cs_pid_conn s))) (d_port (pc_conn (cs_pid_conn s))) (cs_stream_id s)).

(** ** Contexts *)

(** The context a uprobe wrote for the stream replaces the inferred one. *)
Definition adopt_injected_trace (m : tmaps) (s_key : http2_conn_stream) (tp : tp_info) : option tp_info :=
  match outgoing_trace_map m !! stream_egress_key s_key with
  | Some injected =>
      if (tpp_pid injected =? pc_pid (cs_pid_conn s_key)) && nz (tpp_valid injected) && nz (tpp_written injected)
         && valid_trace (trace_id (tpp_tp injected))
      then
        Some (mk_tp_info (trace_id (tpp_tp injected)) (span_id (tpp_tp injected)) (parent_id (tpp_tp injected)) (ts tp)
                (flags (tpp_tp injected)))
      else None
  | None => None
  end.

(** Length and start of the HPACK block in the capture. *)
Definition h2_hpack_window (data : buf) : Z * Z :=
  let flags := data 4 in
  let padded := Z.land (Z.shiftr flags 3) 1 in
  let prefix := padded + Z.land (Z.shiftr flags 5) 1 * k_h2_priority_prefix_len in
  let frame_len := h2_frame_payload_len data in
  let raw_len := if frame_len <? k_h2_max_payload then frame_len else k_h2_max_payload in
  let skip := prefix + padded * data k_h2_frame_header_len in
  (if skip <? raw_len then raw_len - skip else 0, k_h2_frame_header_len + prefix).

(** ** Marks of unreadable header blocks *)

Definition poison_conn (fl : Z) (d : http2_conn_info_data) : http2_conn_info_data :=
  mk_h2_conn (hc_id d) (hc_flags d)
    (if nz (Z.land fl h2_hpack_req_unreliable) then 1 else hc_req_hpack_poisoned d)
    (if nz (Z.land fl h2_hpack_resp_unreliable) then 1 else hc_resp_hpack_poisoned d).

Definition poison_request (fl : Z) (r : http2_grpc_request) : http2_grpc_request :=
  let r :=
    if nz (Z.land fl h2_hpack_req_unreliable)
    then set_hpack_flags r (Z.lor (hr_hpack_flags r) h2_hpack_req_unreliable) else r in
  if nz (Z.land fl h2_hpack_resp_unreliable)
  then set_hpack_flags r (Z.lor (hr_hpack_flags r) h2_hpack_resp_unreliable) else r.

(** [prev]: the record passed is [prev_info] of the frame context, not NULL. *)
Definition http2_poison_hpack (st : h2_state) (s : http2_conn_stream) (prev : bool) (fl : Z) : h2_state :=
  let m := h2_maps st in
  let m := set_h2_conns m (alter (poison_conn fl) (cs_pid_conn s) (ongoing_http2_connections m)) in
  let m := set_h2_grpc m (alter (poison_request fl) s (ongoing_http2_grpc m)) in
  let g := g_ctx st in
  set_g (set_h2_maps st m) (if prev then set_prev g (poison_request fl (prev_info g)) (has_prev_info g) else g).

(** The marks of a connection as the flags of a record. *)
Definition conn_hpack_flags (o : option http2_conn_info_data) (missing : Z) : Z :=
  match o with
  | Some d => u8 (Z.lor (hc_req_hpack_poisoned d * h2_hpack_req_unreliable) (hc_resp_hpack_poisoned d * h2_hpack_resp_unreliable))
  | None => missing
  end.

Section streams.
Variables (c : tconf) (l : links) (t : task) (sam : option sampler).

(** The frame at the position of the scan, as an event of its own; whether there was room for it. *)
Definition http2_emit_hpack_event (e : penv) (k : nat) (st : h2_state) (frame : frame_header) (event_type : Z) : h2_state * bool :=
  if negb (pe_reserve e k) then (st, false)
  else
    let g := g_ctx st in
    let a := g_args g in
    let request := event_type =? k_event_type_k_http2_request_headers in
    let pc := cs_pid_conn (g_stream g) in
    let m := h2_maps st in
    let conn := ongoing_http2_connections m !! pc in
    let fresh := match conn with Some d => nz (http2_flag_new (hc_flags d)) | None => false end in
    let hpack := conn_hpack_flags conn h2_hpack_unreliable in
    let hpack := if fresh then Z.lor hpack h2_hpack_new_connection else hpack in
    let consume d := mk_h2_conn (hc_id d) (Z.land (hc_flags d) (u8 (Z.lnot http2_conn_flag_new))) (hc_req_hpack_poisoned d)
                       (hc_resp_hpack_poisoned d) in
    let m := if fresh then set_h2_conns m (alter consume pc (ongoing_http2_connections m)) else m in
    let at_pos := ushift (ha_u_buf a) (pos g) in
    let data :=
      if request then probe_read0 at_pos (Z.to_nat k_kprobes_http2_buf_size) else repeat 0 (Z.to_nat k_kprobes_http2_buf_size) in
    let ret_data :=
      if request then repeat 0 (Z.to_nat k_kprobes_http2_ret_buf_size)
      else probe_read0 at_pos (Z.to_nat k_kprobes_http2_ret_buf_size) in
    let event :=
      mk_h2_request event_type (ha_ssl a)
        (request_type_by_direction (ha_direction a) (if request then PACKET_TYPE_REQUEST else PACKET_TYPE_RESPONSE)) 0
        (mk_conn (repeat 0 16) (repeat 0 16) 0 0) 0 0 data ret_data (s32 (ha_bytes_len a - pos g)) (fh_stream_id frame) hpack
        (cur_pid t) (match conn with Some d => hc_id d | None => 0 end) (tpp_tp no_context) in
    (submit (set_h2_maps st m) event, true).

(** ** The start of a stream *)

Definition new_trace_id (e : penv) (tp : tp_info) : tp_info :=
  mk_tp_info (pe_trace e) (span_id tp) (parent_id tp) (ts tp) (flags tp).

(** A trace of its own, without a parent. *)
Definition start_new_trace (e : penv) (tp : tp_info) : tp_info :=
  sample_new_trace_for_pid
    (mk_tp_info (trace_id (new_trace_id e tp)) (span_id tp) (repeat 0 8) (ts tp) (flags tp)) sam.

Definition http2_grpc_start_finalize_server (e : penv) (st : h2_state) (s_key : http2_conn_stream) (found_tp : bool)
    (ssl orig_dport : Z) : h2_state :=
  let tp_p := tp_info_mem st in
  let tp := if negb found_tp then start_new_trace e (tpp_tp tp_p) else sample_remote_child_for_pid (tpp_tp tp_p) sam in
  let tp_p := set_tpp tp_p tp in
  let info := set_h2_context (http2_info_mem st) tp (hr_parent_status (http2_info_mem st)) in
  let m := set_trace_info_for_connection (h2_maps st) (hr_conn_info info) TRACE_TYPE_SERVER tp_p in
  let '(m, tp_p) :=
    server_or_client_trace c l m t k_event_type_http_request (hr_conn_info info) k_lw_thread_none tp_p ssl orig_dport 0 BPF_ANY in
  let m := set_server_traces m (<[trace_key_from_pid_tid l t := tp_p]> (server_traces m)) in
  let m := set_h2_grpc m (<[s_key := info]> (ongoing_http2_grpc m)) in
  let m := if http_server_index_enabled c then index_http_server_context m s_key (hr_tp info) else m in
  set_tp_mem (set_info_mem (set_h2_maps st m) info) tp_p.

(** The connect record of a client, refreshed for the stream. *)
Definition refresh_connect (now : Z) (cp : cp_support_data) : cp_support_data :=
  mk_cp_data (trace_key_from_pid_tid l t) now (cp_real_client cp) (cp_established cp) (cp_failed cp).

(** The record and the context a stream starts with, in per-CPU memory. *)
Definition prepare_stream (e : penv) (st : h2_state) (s_key : http2_conn_stream) (u_buf : umem)
    (len direction ssl orig_dport : Z) : h2_state :=
  let type := request_type_by_direction direction PACKET_TYPE_REQUEST in
  let conn := ongoing_http2_connections (h2_maps st) !! cs_pid_conn s_key in
  let i := empty_http2_info (http2_info_mem st) in
  let captured := clamp_umax (u32 len) k_kprobes_http2_buf_size in
  let data := overlay (probe_read0 u_buf (Z.to_nat captured)) (repeat 0 (Z.to_nat k_kprobes_http2_buf_size)) in
  let info :=
    mk_h2_request k_event_type_k_http2_request ssl type (hr_parent_status i)
      (fixup_connection_info (pc_conn (cs_pid_conn s_key)) (type =? k_event_type_http_client) orig_dport)
      (pe_now e 0) (hr_end_monotime_ns i) data (hr_ret_data i) len (cs_stream_id s_key)
      (conn_hpack_flags conn h2_hpack_unreliable) (cur_pid t) (match conn with Some d => hc_id d | None => 0 end) (hr_tp i) in
  let tp_p :=
    mk_tp_info_pid (mk_tp_info (repeat 0 16) (pe_span e) (repeat 0 8) (pe_now e 1) 1) (pc_pid (cs_pid_conn s_key)) 1 0 type
      (tpp_response_sent (tp_info_mem st)) in
  set_tp_mem (set_info_mem st info) tp_p.

(** The rest of [http2_grpc_start] for a client. *)
Definition start_client (e : penv) (st : h2_state) (s_key : http2_conn_stream) (ssl orig_dport : Z) : h2_state :=
  let pc := cs_pid_conn s_key in
  let tp_p := tp_info_mem st in
  let m := h2_maps st in
  let m := set_cp_support m (alter (refresh_connect (pe_now e 2)) pc (cp_support_connect_info m)) in
  let '(status, tp, m) := find_trace_for_client_request c l m t pc orig_dport k_lw_thread_none (tpp_tp tp_p) in
  let '(parent_status, tp) :=
    match adopt_injected_trace m s_key tp with Some tp => (k_parent_status_live, tp) | None => (status, tp) end in
  let found_tp := valid_trace (trace_id tp) || nz status in
  let tp := if negb found_tp then start_new_trace e tp else tp in
  let tp_p := set_tpp tp_p tp in
  let info := set_h2_context (http2_info_mem st) tp parent_status in
  let m := set_trace_info_for_connection m (hr_conn_info info) TRACE_TYPE_CLIENT tp_p in
  let '(m, tp_p) :=
    server_or_client_trace c l m t k_event_type_http_client (hr_conn_info info) k_lw_thread_none tp_p ssl orig_dport
      (cs_stream_id s_key) BPF_NOEXIST in
  let m := set_h2_grpc m (<[s_key := info]> (ongoing_http2_grpc m)) in
  set_tp_mem (set_info_mem (set_h2_maps st m) info) tp_p.

(** A stream that has a record already keeps it, but takes over the context of a uprobe. *)
Definition restart_stream (st : h2_state) (s_key : http2_conn_stream) (existing : http2_grpc_request) : h2_state :=
  if hr_type existing =? k_event_type_http_client then
    match adopt_injected_trace (h2_maps st) s_key (hr_tp existing) with
    | Some tp =>
        let m := h2_maps st in
        set_h2_maps st
          (set_h2_grpc m (<[s_key := set_h2_context existing tp k_parent_status_live]> (ongoing_http2_grpc m)))
    | None => st
    end
  else st.

(** The state, and whether the server's program is called next. *)
Definition http2_grpc_start (e : penv) (st : h2_state) (s_key : http2_conn_stream) (u_buf : umem)
    (len direction ssl orig_dport : Z) : h2_state * bool :=
  match ongoing_http2_grpc (h2_maps st) !! s_key with
  | Some existing => (restart_stream st s_key existing, false)
  | None =>
      let st := prepare_stream e st s_key u_buf len direction ssl orig_dport in
      if negb (request_type_by_direction direction PACKET_TYPE_REQUEST =? k_event_type_http_client) then (st, true)
      else (start_client e st s_key ssl orig_dport, false)
  end.

(** ** The end of a stream *)

(** The record is [prev_info] of the frame context. *)
Definition http2_grpc_end (e : penv) (st : h2_state) (stream : http2_conn_stream) (u_buf : umem) : h2_state :=
  let g := g_ctx st in
  let i := prev_info g in
  let conn := ongoing_http2_connections (h2_maps st) !! cs_pid_conn stream in
  let i := set_hpack_flags i (conn_hpack_flags conn (Z.lor (hr_hpack_flags i) h2_hpack_unreliable)) in
  let i := set_h2_end i (pe_now e 0) (hr_ret_data i) in
  let '(st, i) :=
    if pe_reserve e 0 then
      let i := set_h2_end i (hr_end_monotime_ns i) (probe_read0 u_buf (Z.to_nat k_kprobes_http2_ret_buf_size)) in
      (submit st i, i)
    else (st, i) in
  let m := h2_maps st in
  let m :=
    if hr_type i =? k_event_type_http_client then obi_ctx__restore_server c l m t (hr_tp i)
    else if (hr_type i =? k_event_type_http_request) && http_server_index_enabled c
    then unindex_http_server_trace m (pc_pid (cs_pid_conn stream)) (hr_tp i) else m in
  let m := set_h2_grpc m (delete stream (ongoing_http2_grpc m)) in
  let m := set_outgoing m (delete (stream_egress_key stream) (outgoing_trace_map m)) in
  set_g (set_h2_maps st m) (set_prev g i (has_prev_info g)).

End streams.

(** ** Lemmas: the maps of the handler *)

(** The streams and the connections are as before. *)
Definition same_h2 (m m' : tmaps) : Prop :=
  ongoing_http2_grpc m' = ongoing_http2_grpc m /\ ongoing_http2_connections m' = ongoing_http2_connections m.

#[export] Instance same_h2_preorder : PreOrder same_h2.
Proof. split; [done|]. intros m1 m2 m3 [Ha Hb] [Hc Hd]. split; congruence. Qed.

Create HintDb h2frame.

Lemma obi_set_h2 c m id tp : same_h2 m (obi_ctx__set c m id tp).
Proof. unfold obi_ctx__set. by destruct (negb _). Qed.

Lemma restore_h2 c l m t tp : same_h2 m (obi_ctx__restore_server c l m t tp).
Proof. by destruct (restore_frame c l m t tp) as (x & -> & _). Qed.

Lemma unindex_h2 m pid tp : same_h2 m (unindex_http_server_trace m pid tp).
Proof. unfold unindex_http_server_trace. cbv zeta. destruct (_ !! _); [|done]. by destruct (_ && _). Qed.

Lemma index_h2 m s tp : same_h2 m (index_http_server_context m s tp).
Proof.
  unfold index_http_server_context. destruct (_ || _); [done|]. cbv zeta. destruct (_ !! _); [|done].
  destruct (indexes_request _ _); [done|]. by destruct (_ && _).
Qed.

Lemma store_at_h2 m a x : same_h2 m (store_at m a x).
Proof. by destruct a. Qed.

Lemma backup_h2 m m' : same_but_backup m m' -> same_h2 m m'.
Proof. by intros [x ->]. Qed.

Lemma adopt_h2 c l m id tp a x f g : same_h2 m (snd (adopt_parent c l m id tp a x f g)).
Proof.
  unfold adopt_parent. destruct (negb _); cbn [snd].
  - destruct (parent_trace_is_stale _ _); [apply store_at_h2|done].
  - by destruct (nodejs_manual_parent_span_id _ _ _ _).
Qed.

Lemma client_find_h2 c l m t pc dport lw tp : same_h2 m (snd (find_trace_for_client_request c l m t pc dport lw tp)).
Proof.
  unfold find_trace_for_client_request, find_trace_for_client_request_with_t_key.
  pose proof (find_parent_ok c l m pc (cur_pid_tgid t) lw (trace_key_from_pid_tid l t) dport None) as [Hs _].
  destruct (find_parent_trace _ _ _ _ _ _ _ _ _) as [found m1]. cbn [snd] in Hs.
  transitivity m1; [by apply backup_h2|]. destruct (usable m1 found) as [[a x]|]; [apply adopt_h2|done].
Qed.

Lemma server_find_h2 c m conn tp type : same_h2 m (snd (find_trace_for_server_request c m conn tp type)).
Proof.
  unfold find_trace_for_server_request. cbv zeta. destruct (_ !! _); [done|]. destruct (_ && _); [|done].
  destruct (_ ≫= _); [|done]. destruct (negb _); [done|]. by destruct (_ || _).
Qed.

Lemma server_trace_h2 c l m t conn lw tp_p dport : same_h2 m (fst (server_trace c l m t conn lw tp_p dport)).
Proof.
  unfold server_trace. cbv zeta. destruct (server_key l t) as [k vt]. destruct (conflicting _ _); [done|]. cbn [fst].
  match goal with |- context [if negb vt then ?x else ?y] => assert (H : same_h2 m (if negb vt then x else y)) end.
  { destruct (negb vt); [|done]. etransitivity; [|apply obi_set_h2]. done. }
  by destruct (negb (lw =? _)).
Qed.

Lemma client_trace_h2 c l m t conn tp_p ssl sid fl : same_h2 m (fst (client_trace c l m t conn tp_p ssl sid fl)).
Proof.
  unfold client_trace. cbv zeta. destruct (nz ssl); [done|]. cbn [fst].
  destruct (negb _); [|done]. etransitivity; [|apply obi_set_h2]. done.
Qed.

Lemma server_or_client_h2 c l m t type conn lw tp_p ssl dport sid fl :
  same_h2 m (fst (server_or_client_trace c l m t type conn lw tp_p ssl dport sid fl)).
Proof. unfold server_or_client_trace. destruct (_ =? _); [apply server_trace_h2|apply client_trace_h2]. Qed.

#[export] Hint Resolve obi_set_h2 restore_h2 unindex_h2 index_h2 client_find_h2 server_find_h2 server_or_client_h2 : h2frame.

(** ** Lemmas: the operations on streams *)

Section stream_facts.
Variables (c : tconf) (l : links) (t : task) (sam : option sampler).

Lemma poison_conns st s prev fl :
  ongoing_http2_connections (h2_maps (http2_poison_hpack st s prev fl))
  = alter (poison_conn fl) (cs_pid_conn s) (ongoing_http2_connections (h2_maps st)).
Proof. done. Qed.

Lemma poison_streams st s prev fl :
  ongoing_http2_grpc (h2_maps (http2_poison_hpack st s prev fl)) = alter (poison_request fl) s (ongoing_http2_grpc (h2_maps st)).
Proof. done. Qed.

(** What an event of a frame leaves, and what it carries. *)
Lemma emit_spec e k st fr ty st' ok :
  http2_emit_hpack_event t e k st fr ty = (st', ok) ->
  (ok = false -> st' = st)
  /\ (ok = true -> exists ev fl, h2_events st' = h2_events st ++ [ev] /\ g_ctx st' = g_ctx st
      /\ ongoing_http2_grpc (h2_maps st') = ongoing_http2_grpc (h2_maps st)
      /\ ongoing_http2_connections (h2_maps st')
         = alter (fun d => mk_h2_conn (hc_id d) (fl (hc_flags d)) (hc_req_hpack_poisoned d) (hc_resp_hpack_poisoned d))
             (cs_pid_conn (g_stream (g_ctx st))) (ongoing_http2_connections (h2_maps st))
      /\ hr_flags ev = ty /\ hr_stream_id ev = fh_stream_id fr
      /\ let at_pos := ushift (ha_u_buf (g_args (g_ctx st))) (pos (g_ctx st)) in
         if ty =? k_event_type_k_http2_request_headers
         then hr_data ev = probe_read0 at_pos (Z.to_nat k_kprobes_http2_buf_size)
         else hr_ret_data ev = probe_read0 at_pos (Z.to_nat k_kprobes_http2_ret_buf_size)).
Proof.
  unfold http2_emit_hpack_event. destruct (negb (pe_reserve e k)); [intros [= <- <-]; by split|]. cbv zeta.
  set (fresh := match _ with Some _ => _ | None => false end). intros [= <- <-]. split; [done|]. intros _.
  eexists _, (fun f => if fresh then Z.land f (u8 (Z.lnot http2_conn_flag_new)) else f).
  cbn [h2_events submit set_h2_maps set_h2_span g_ctx]. split_and!; [reflexivity|done|..].
  - unfold h2_maps. cbn. by destruct fresh.
  - unfold h2_maps. cbn. destruct fresh; [done|]. cbn. rewrite <- (alter_id (fun d => d)) at 1; [|done].
    apply map_eq. intros pc. destruct (decide (pc = cs_pid_conn (g_stream (g_ctx st)))) as [->|];
      [|by rewrite !lookup_alter_ne]. rewrite !lookup_alter_eq. by destruct (_ !! _) as [[]|].
  - done.
  - done.
  - destruct (ty =? _); done.
Qed.

(** What a new stream leaves: its record, everything else of the handler as it was. *)
Lemma finalize_streams e st s found ssl dport :
  let st' := http2_grpc_start_finalize_server c l t sam e st s found ssl dport in
  h2_events st' = h2_events st /\ g_ctx st' = g_ctx st
  /\ ongoing_http2_connections (h2_maps st') = ongoing_http2_connections (h2_maps st)
  /\ ongoing_http2_grpc (h2_maps st') = <[s := http2_info_mem st']> (ongoing_http2_grpc (h2_maps st))
  /\ http2_info_mem st' = set_h2_context (http2_info_mem st) (hr_tp (http2_info_mem st')) (hr_parent_status (http2_info_mem st)).
Proof.
  unfold http2_grpc_start_finalize_server. cbv zeta.
  match goal with |- context [server_or_client_trace ?c ?l ?m ?t ?ty ?conn ?lw ?x ?ssl ?dp ?sid ?fl] =>
    pose proof (server_or_client_h2 c l m t ty conn lw x ssl dp sid fl) as [H1 H2];
    destruct (server_or_client_trace c l m t ty conn lw x ssl dp sid fl) as [m1 tp1] end.
  cbn [fst] in H1, H2. unfold h2_maps in *.
  cbn [h2_events g_ctx h2_span set_tp_mem set_info_mem set_h2_maps set_h2_span http2_info_mem hs_maps set_maps] in *.
  match goal with |- context [if http_server_index_enabled c then ?x else ?y] =>
    assert (Hm : same_h2 y (if http_server_index_enabled c then x else y)) by (destruct (http_server_index_enabled c); auto with h2frame; done) end.
  destruct Hm as [Hm1 Hm2]. rewrite Hm1, Hm2. cbn. rewrite H1, H2. done.
Qed.

Lemma index_server_traces m s tp : server_traces (index_http_server_context m s tp) = server_traces m.
Proof.
  unfold index_http_server_context. destruct (_ || _); [done|]. cbv zeta. destruct (_ !! _); [|done].
  destruct (indexes_request _ _); [done|]. by destruct (_ && _).
Qed.

(** The context of a server's stream is that of the thread that serves it. *)
Lemma finalize_context e st s found ssl dport :
  let st' := http2_grpc_start_finalize_server c l t sam e st s found ssl dport in
  hr_tp (http2_info_mem st')
  = (if found then sample_remote_child_for_pid (tpp_tp (tp_info_mem st)) sam else start_new_trace sam e (tpp_tp (tp_info_mem st)))
  /\ exists x, server_traces (h2_maps st') !! trace_key_from_pid_tid l t = Some x /\ tpp_tp x = hr_tp (http2_info_mem st').
Proof.
  unfold http2_grpc_start_finalize_server. cbv zeta. set (tp := if negb found then _ else _).
  unfold server_or_client_trace. change (k_event_type_http_request =? k_event_type_http_request) with true. cbv iota.
  match goal with |- context [server_trace c l ?m t ?conn ?lw ?x ?dp] =>
    assert (Hx : tpp_tp (snd (server_trace c l m t conn lw x dp)) = tp);
    [|destruct (server_trace c l m t conn lw x dp) as [m1 tp1]] end.
  { unfold server_trace. cbv zeta. destruct (server_key l t). by destruct (conflicting _ _). }
  cbn [snd] in Hx. split; [cbn; unfold tp; by destruct found|]. exists tp1. split; [|exact Hx]. unfold h2_maps.
  cbn [h2_span set_tp_mem set_info_mem set_h2_maps set_h2_span hs_maps set_maps].
  destruct (http_server_index_enabled c); rewrite ?index_server_traces; apply lookup_insert_eq.
Qed.

Lemma prepare_stream_same e st s u len d ssl dport :
  let st' := prepare_stream t e st s u len d ssl dport in
  h2_events st' = h2_events st /\ g_ctx st' = g_ctx st /\ h2_span st' = h2_span st.
Proof. done. Qed.

Lemma start_client_streams e st s ssl dport :
  let st' := start_client c l t sam e st s ssl dport in
  h2_events st' = h2_events st /\ g_ctx st' = g_ctx st
  /\ ongoing_http2_connections (h2_maps st') = ongoing_http2_connections (h2_maps st)
  /\ ongoing_http2_grpc (h2_maps st') = <[s := http2_info_mem st']> (ongoing_http2_grpc (h2_maps st))
  /\ http2_info_mem st'
     = set_h2_context (http2_info_mem st) (hr_tp (http2_info_mem st')) (hr_parent_status (http2_info_mem st')).
Proof.
  unfold start_client. cbv zeta.
  match goal with |- context [find_trace_for_client_request ?c ?l ?m ?t ?pc ?dp ?lw ?tp] =>
    pose proof (client_find_h2 c l m t pc dp lw tp) as [H1 H2];
    destruct (find_trace_for_client_request c l m t pc dp lw tp) as [[status tp1] m1] end.
  cbn [snd] in H1, H2. destruct (match adopt_injected_trace _ _ _ with Some _ => _ | None => _ end) as [ps tp2].
  match goal with |- context [server_or_client_trace ?c ?l ?m ?t ?ty ?conn ?lw ?x ?ssl ?dp ?sid ?fl] =>
    pose proof (server_or_client_h2 c l m t ty conn lw x ssl dp sid fl) as [H3 H4];
    destruct (server_or_client_trace c l m t ty conn lw x ssl dp sid fl) as [m2 tp3] end.
  cbn [fst] in H3, H4. unfold h2_maps in *. cbn in H1, H2, H3, H4 |- *. rewrite H3, H4, H1, H2. done.
Qed.

(** The end of a stream: the record leaves the map, and is reported when there is room. *)
Lemma end_streams e st s u :
  let st' := http2_grpc_end c l t e st s u in
  let r := prev_info (g_ctx st') in
  ongoing_http2_connections (h2_maps st') = ongoing_http2_connections (h2_maps st)
  /\ ongoing_http2_grpc (h2_maps st') = delete s (ongoing_http2_grpc (h2_maps st))
  /\ outgoing_trace_map (h2_maps st') !! stream_egress_key s = None
  /\ h2_events st' = h2_events st ++ (if pe_reserve e 0 then [r] else [])
  /\ g_ctx st' = set_prev (g_ctx st) r (has_prev_info (g_ctx st))
  /\ r = set_hpack_flags (set_h2_end (prev_info (g_ctx st)) (pe_now e 0) (hr_ret_data r))
           (conn_hpack_flags (ongoing_http2_connections (h2_maps st) !! cs_pid_conn s)
              (Z.lor (hr_hpack_flags (prev_info (g_ctx st))) h2_hpack_unreliable)).
Proof.
  unfold http2_grpc_end. cbv zeta. set (i := set_h2_end _ _ _).
  destruct (pe_reserve e 0); cbv beta iota; unfold h2_maps, submit;
    cbn [hr_type hr_tp set_h2_end h2_span set_g g_ctx set_h2_maps set_h2_span hs_maps set_maps h2_events prev_info set_prev
      ongoing_http2_connections ongoing_http2_grpc outgoing_trace_map set_h2_grpc set_outgoing has_prev_info].
  all: match goal with |- ongoing_http2_connections ?x = _ /\ _ => assert (Hm : same_h2 (hs_maps (h2_span st)) x) end;
    [destruct (_ =? _); auto with h2frame; destruct (_ && _); auto with h2frame; done|].
  all: destruct Hm as [-> ->]; rewrite lookup_delete_eq, ?app_nil_r; done.
Qed.

End stream_facts.
