(* ===== verification/H2Frames.v ===== *)
(** * The frame scan of the HTTP/2 handler ([bpf/generictracer/protocol_http2.h]).

    A buffer of an HTTP/2 connection is walked frame by frame by a chain of programs: [frames] looks
    for the frames that open, end or describe a stream, the start programs find the context of a
    new server stream, [end_frame] reports one.  Each program ends the chain or makes a tail call
    ([h2_prog]); a tail call that fails returns, and what the program then does is modelled too.
    [h2_cut_frames] keeps what a read ended inside of, so that the next read on the connection
    starts on a frame boundary. *)

From Stdlib Require Import ZArith Lia ZifyBool List Bool.
From stdpp Require Import base list countable gmap.
From S2P Require Import Prelude TraceUtil Sampling H2Defs H2Sniff H2Huffman HpackParse Entry IovIter ConnInfo LargeBuf.
From S2P Require Import HttpInfo TraceMaps TraceParent TraceLife HttpSpan HttpTrace H2Stream.

Local Open Scope Z_scope.

(** ** Definitions *)

Definition FramePushPromise : Z := 5.
Definition k_max_loop_iterations : Z := 4.
Definition k_loop_count : Z := 6.
Definition k_iterations : Z := k_max_loop_iterations * k_loop_count.

#[export] Hint Unfold FramePushPromise k_max_loop_iterations k_loop_count k_iterations : kconst.

(** ** One frame *)

(** The fields in host order. *)
Definition ntoh_frame (h : frame_header) : frame_header :=
  mk_fh (wrap 24 (bswap32 (u32 (Z.shiftl (fh_length h) 8)))) (fh_type h) (fh_flags h) (fh_ignore h)
    (wrap 31 (bswap32 (u32 (Z.shiftl (fh_stream_id h) 1)))).

(** A failed read leaves zeroes. *)
Definition next_frame (g : grpc_frames_ctx) : frame_header :=
  match probe_read (ushift (ha_u_buf (g_args g)) (pos g)) (Z.to_nat k_frame_header_len) with
  | None => mk_fh 0 0 0 0 0
  | Some b => ntoh_frame (load_frame_header (list_buf b))
  end.

Definition frame_size (frame : frame_header) : Z := u32 (fh_length frame + k_frame_header_len).

(** Bytes from the position of the scan to the end of the buffer. *)
Definition remaining (g : grpc_frames_ctx) : Z := u32 (ha_bytes_len (g_args g) - pos g).

Definition h2_tracks_cut_frames (g : grpc_frames_ctx) : bool :=
  (ha_direction (g_args g) =? TCP_RECV) && (ha_bytes_len (g_args g) <? k_iovec_max_len).

Definition h2_keeps_cut_frame (g : grpc_frames_ctx) (frame : frame_header) : bool :=
  if negb (h2_tracks_cut_frames g) then false
  else
    (remaining g <? k_frame_header_len)
    || (is_headers_frame frame && (remaining g <? frame_size frame) && (frame_size frame <=? k_kprobes_http2_buf_size)).

Definition h2_frame_plausible (frame : frame_header) : bool :=
  (fh_type frame <=? FrameContinuation) && (fh_length frame <=? k_h2_default_max_frame_size).

(** The length alone is converted. *)
Definition h2_frame_header_plausible (at_ : umem) : bool :=
  match probe_read at_ (Z.to_nat k_frame_header_len) with
  | None => false
  | Some b =>
      let h := load_frame_header (list_buf b) in
      h2_frame_plausible
        (mk_fh (wrap 24 (bswap32 (u32 (Z.shiftl (fh_length h) 8)))) (fh_type h) (fh_flags h) (fh_ignore h) (fh_stream_id h))
  end.

(** ** Reads that end inside a frame *)

(** What is kept of the frame the read ended in: [None] when nothing is. *)
Definition cut_of (g : grpc_frames_ctx) : option h2_cut_frame :=
  if negb (h2_tracks_cut_frames g) then None
  else
    let bytes_len := u32 (ha_bytes_len (g_args g)) in
    let p := u32 (pos g) in
    let cut :=
      if bytes_len <? p then Some (mk_cut (p - bytes_len) 0 [])
      else if p <? bytes_len then
        let frame := next_frame g in
        let rest := bytes_len - p in
        if h2_keeps_cut_frame g frame then
          let len := clamp_umax rest k_kprobes_http2_buf_size in
          Some (mk_cut 0 len (probe_read0 (ushift (ha_u_buf (g_args g)) (clamp_umax p k_iovec_max_len)) (Z.to_nat len)))
        else if (frame_size frame <=? rest) || is_invalid_frame frame || negb (h2_frame_plausible frame) then None
        else Some (mk_cut (frame_size frame - rest) 0 [])
      else Some (mk_cut 0 0 []) in
    match cut with
    | Some x => if nz (cut_skip x) || nz (cut_len x) then Some x else None
    | None => None
    end.

Definition h2_save_cut_frame (st : h2_state) : h2_state :=
  let g := g_ctx st in
  match cut_of g with
  | Some x => set_cuts st (<[ha_pid_conn (g_args g) := x]> (h2_cut_frames st))
  | None => st
  end.

Definition set_buffer (a : http_args) (u_buf : umem) (bytes_len : Z) : http_args :=
  mk_args (ha_pid_conn a) (ha_ssl a) (ha_direction a) (ha_packet_type a) (ha_small_buf a) u_buf bytes_len (ha_orig_dport a)
    (ha_sock a) (ha_lw_thread a).

(** Where the first whole frame of a read begins that continues a kept frame. *)
Definition next_after_kept (cut : h2_cut_frame) : Z :=
  let kept := clamp_umax (cut_len cut) k_kprobes_http2_buf_size in
  if k_frame_header_len <=? kept then
    let size := h2_frame_payload_len (list_buf (cut_data cut)) + k_frame_header_len in
    if kept <? size then size - kept else 0
  else 0.

Definition h2_resume_cut_frame (st : h2_state) : h2_state :=
  let g := g_ctx st in
  let a := g_args g in
  let pc := ha_pid_conn a in
  if negb (ha_direction a =? TCP_RECV) then st
  else
    match h2_cut_frames st !! pc with
    | None => st
    | Some cut =>
        let read_len := u32 (ha_bytes_len a) in
        if (read_len <=? cut_skip cut) && h2_tracks_cut_frames g then
          set_g (set_cuts st (<[pc := mk_cut (cut_skip cut - read_len) (cut_len cut) (cut_data cut)]> (h2_cut_frames st)))
            (set_pos g (s32 read_len))
        else
          let st :=
            if nz (cut_skip cut) && (cut_skip cut <? read_len)
               && ((read_len - cut_skip cut <? k_frame_header_len)
                   || h2_frame_header_plausible (ushift (ha_u_buf a) (cut_skip cut)))
            then set_g st (set_pos g (s32 (cut_skip cut)))
            else if negb (nz (cut_skip cut)) && nz (cut_len cut) then
              let kept := clamp_umax (cut_len cut) k_kprobes_http2_buf_size in
              let len := clamp_umax read_len k_iovec_max_len in
              let next := next_after_kept cut in
              if negb (nz next) || (len <? next + k_frame_header_len) || h2_frame_header_plausible (ushift (ha_u_buf a) next)
              then
                let joined :=
                  overlay (take (Z.to_nat kept) (cut_data cut) ++ probe_read0 (ha_u_buf a) (Z.to_nat len)) (h2_joined_mem st) in
                set_g (set_joined st joined) (set_args g (set_buffer a (list_umem joined) (s32 (kept + len))))
              else st
            else st in
          set_cuts st (delete pc (h2_cut_frames st))
    end.

(** ** The stream the scan is at *)

Definition update_prev_info (st : h2_state) : h2_state :=
  let g := g_ctx st in
  match ongoing_http2_grpc (h2_maps st) !! g_stream g with
  | Some r => set_g st (set_prev g r true)
  | None => set_g st (set_prev g (prev_info g) false)
  end.

Definition h2_response_direction (type direction : Z) : bool :=
  request_type_by_direction direction PACKET_TYPE_RESPONSE =? type.

Definition h2_forget_stream (st : h2_state) : h2_state :=
  let g := g_ctx st in
  set_g st (set_saved (set_prev g (prev_info g) false) (saved_buf_pos g) 0).

Definition h2_poison_unscanned (st : h2_state) : h2_state :=
  http2_poison_hpack st (g_stream (g_ctx st)) (has_prev_info (g_ctx st)) h2_hpack_unreliable.

(** ** Tail calls *)

Inductive h2_prog := P_frames | P_start | P_server | P_huffscan | P_huffman | P_finalize | P_commit | P_end.

(** The state a program leaves, and the program it calls, if any. *)
Definition outcome : Type := h2_state * option h2_prog.

(** [j]: the tail call is made; else the program goes on with [k]. *)
Definition h2_tail_call (j : bool) (st : h2_state) (p : h2_prog) (k : h2_state -> outcome) : outcome :=
  if j then (st, Some p) else k (h2_poison_unscanned st).

Definition finished (st : h2_state) : outcome := (st, None).

Definition resume_frame_scan (j : bool) (st : h2_state) : outcome :=
  let g := g_ctx st in
  let frame := next_frame g in
  let g :=
    if negb (h2_keeps_cut_frame g frame) then set_pos g (s32 (pos g + (fh_length frame + k_frame_header_len))) else g in
  let st := set_g st g in
  if negb (terminate_search g) && (pos g <? ha_bytes_len (g_args g)) then h2_tail_call j st P_frames finished
  else (h2_save_cut_frame st, None).

Section programs.
Variables (c : tconf) (l : links) (t : task) (sam : option sampler) (g_bpf_loop_enabled : bool).

(** ** Handlers of the scan *)

(** What a handler of the scan does: it leaves the program, or the scan goes on. *)
Inductive handled :=
  | left_program (o : outcome)
  | goes_on (st : h2_state).

(** [k]: the frames this program has handled before. *)
Definition handle_headers_frame (e : penv) (k : nat) (st : h2_state) (frame : frame_header) : handled :=
  let st := set_g st (set_stream_id (g_ctx st) (fh_stream_id frame)) in
  let st := update_prev_info st in
  let g := g_ctx st in
  if has_prev_info g then
    let st := set_g st (set_saved g (pos g) (cs_stream_id (g_stream g))) in
    let response := request_type_by_direction (ha_direction (g_args g)) PACKET_TYPE_RESPONSE =? hr_type (prev_info g) in
    let event_type := if response then k_event_type_k_http2_response_headers else k_event_type_k_http2_request_headers in
    let poison := if response then h2_hpack_resp_unreliable else h2_hpack_req_unreliable in
    let '(st, emitted) := http2_emit_hpack_event t e k st frame event_type in
    let st := if emitted then st else http2_poison_hpack st (g_stream (g_ctx st)) true poison in
    let capture_size := if response then k_kprobes_http2_ret_buf_size else k_kprobes_http2_buf_size in
    let st := if capture_size <? frame_size frame then http2_poison_hpack st (g_stream (g_ctx st)) true poison else st in
    if http_grpc_stream_ended frame then left_program (h2_tail_call (pe_jump e 0) st P_end finished) else goes_on st
  else if negb (is_flags_only_frame frame && http_grpc_stream_ended frame) then
    let '(st, emitted) := http2_emit_hpack_event t e k st frame k_event_type_k_http2_request_headers in
    let st := if emitted then st else http2_poison_hpack st (g_stream (g_ctx st)) false h2_hpack_req_unreliable in
    let st :=
      if k_kprobes_http2_buf_size <? frame_size frame
      then http2_poison_hpack st (g_stream (g_ctx st)) false h2_hpack_req_unreliable else st in
    left_program (h2_tail_call (pe_jump e 0) st P_start finished)
  else goes_on st.

Definition handle_data_stream_end (e : penv) (st : h2_state) (frame : frame_header) : handled :=
  let g := g_ctx st in
  let key := mk_stream (ha_pid_conn (g_args g)) (fh_stream_id frame) in
  match ongoing_http2_grpc (h2_maps st) !! key with
  | None => goes_on st
  | Some info =>
      if negb (h2_response_direction (hr_type info) (ha_direction (g_args g))) then goes_on st
      else
        let g := if negb (saved_stream_id g =? fh_stream_id frame) then set_saved g (pos g) (fh_stream_id frame) else g in
        let st := update_prev_info (set_g st (set_stream_id g (fh_stream_id frame))) in
        left_program (h2_tail_call (pe_jump e 0) st P_end finished)
  end.

(** The scan is over: a failed tail call loses this end only. *)
Definition handle_data_frame (e : penv) (st : h2_state) : outcome :=
  let g := g_ctx st in
  if negb (has_prev_info g) || negb (nz (saved_stream_id g)) then (st, None)
  else if h2_response_direction (hr_type (prev_info g)) (ha_direction (g_args g)) then
    let st := set_g st (set_stream g (mk_stream (ha_pid_conn (g_args g)) (saved_stream_id g))) in
    (st, if pe_jump e 0 then Some P_end else None)
  else (st, None).

(** ** The scan *)

Definition push_promise (st : h2_state) (frame : frame_header) : h2_state :=
  if fh_type frame =? FramePushPromise then
    let st := update_prev_info (set_g st (set_stream_id (g_ctx st) (fh_stream_id frame))) in
    http2_poison_hpack st (g_stream (g_ctx st)) (has_prev_info (g_ctx st)) h2_hpack_resp_unreliable
  else st.

(** The body of the loop from the test for invalid frames on: [inl] leaves the loop. *)
Definition step_over_frame (e : penv) (st : h2_state) (frame : frame_header) : outcome + (h2_state + h2_state) :=
  if is_invalid_frame frame then inr (inl (set_g st (set_terminate (g_ctx st))))
  else
    let after st :=
      let g := g_ctx st in
      if remaining g <=? frame_size frame then inr (inl (set_g st (set_terminate g)))
      else inr (inr (set_g st (set_pos g (s32 (pos g + frame_size frame))))) in
    if http_grpc_data_stream_ended frame then
      match handle_data_stream_end e st frame with
      | left_program o => inl o
      | goes_on st => after st
      end
    else after st.

(** [n] iterations left, [k] done: the program is left, or the loop ends. *)
Fixpoint frames_loop (e : penv) (n k : nat) (st : h2_state) : handled :=
  match n with
  | O => goes_on st
  | S n' =>
      let st := set_g st (set_iterations (g_ctx st) (u8 (iterations (g_ctx st) + 1))) in
      let g := g_ctx st in
      if ha_bytes_len (g_args g) <=? pos g then goes_on st
      else
        let frame := next_frame g in
        if h2_keeps_cut_frame g frame then goes_on (set_g st (set_terminate g))
        else
          let st := push_promise st frame in
          let headers := if is_headers_frame frame then handle_headers_frame e k st frame else goes_on st in
          match headers with
          | left_program o => left_program o
          | goes_on st =>
              match step_over_frame e st frame with
              | inl o => left_program o
              | inr (inl st) => goes_on st
              | inr (inr st) => frames_loop e n' (S k) st
              end
          end
  end.

Definition frames (e : penv) (st : h2_state) : outcome :=
  match frames_loop e (Z.to_nat k_max_loop_iterations) 0 st with
  | left_program o => o
  | goes_on st =>
      let g := g_ctx st in
      if negb (terminate_search g) && (iterations g <? k_iterations)
      then h2_tail_call (pe_jump e 0) st P_frames finished
      else
        let st :=
          if negb (terminate_search g) && (pos g <? ha_bytes_len (g_args g)) then h2_poison_unscanned st else st in
        handle_data_frame e (h2_save_cut_frame st)
  end.

(** ** The start of a stream *)

Definition start_frame (e : penv) (st : h2_state) : outcome :=
  let g := g_ctx st in
  let a := g_args g in
  let '(st, server) :=
    http2_grpc_start c l t sam e st (g_stream g) (ushift (ha_u_buf a) (pos g)) (s32 (ha_bytes_len a - pos g)) (ha_direction a)
      (ha_ssl a) (ha_orig_dport a) in
  if server then
    if pe_jump e 0 then (st, Some P_server)
    else resume_frame_scan (pe_jump e 1) (http2_poison_hpack st (g_stream g) false h2_hpack_unreliable)
  else resume_frame_scan (pe_jump e 0) st.

Definition empty_scan : h2_tp_huff_scan := mk_huff_scan (fun _ => 0) (fun _ => 0) 0 0 0 0.

Definition start_frame_server (e : penv) (st : h2_state) : outcome :=
  let g := g_ctx st in
  let data := list_buf (hr_data (http2_info_mem st)) in
  let '(hpack_len, hpack_off) := h2_hpack_window data in
  let tp_p := tp_info_mem st in
  let '(found, tp, cand) := parse_hpack_traceparent (shift data hpack_off) hpack_len (tpp_tp tp_p) in
  let st := set_tp_mem (set_g st (set_huff g cand empty_scan)) (set_tpp tp_p tp) in
  if nz found then h2_tail_call (pe_jump e 0) st P_finalize finished
  else if g_bpf_loop_enabled then
    if nz (cand_len cand) then h2_tail_call (pe_jump e 0) st P_huffman finished
    else h2_tail_call (pe_jump e 0) st P_huffscan finished
  else h2_tail_call (pe_jump e 0) st P_finalize finished.

Definition set_scan_done (s : h2_tp_huff_scan) : h2_tp_huff_scan :=
  mk_huff_scan (scan_at s) (scan_len s) (scan_count s) (scan_idx s) 1 (scan_resume s).

Definition h2_server_huffscan (st : h2_state) : h2_state * bool :=
  let g := g_ctx st in
  let data := list_buf (hr_data (http2_info_mem st)) in
  let '(hpack_len, hpack_off) := h2_hpack_window data in
  let '(found, scan) := find_hpack_traceparent_huffman data hpack_off hpack_len (set_scan_done (huff_scan g)) in
  if negb (nz found) then (set_g st (set_huff g (huff g) scan), false)
  else (set_g st (set_huff g (mk_candidate (scan_at scan 0) (scan_len scan 0)) scan), true).

Definition start_frame_server_huffscan (e : penv) (st : h2_state) : outcome :=
  let '(st, found) := h2_server_huffscan st in
  h2_tail_call (pe_jump e 0) st (if found then P_huffman else P_finalize) finished.

(** [out] is scratch memory: what a decoding leaves there is seen by no other. *)
Definition start_frame_server_huffman (e : penv) (st : h2_state) : outcome :=
  if negb g_bpf_loop_enabled then h2_tail_call (pe_jump e 0) st P_finalize finished
  else
    let g := g_ctx st in
    let scan := huff_scan g in
    let data := list_buf (hr_data (http2_info_mem st)) in
    let '(hpack_len, hpack_off) := h2_hpack_window data in
    let tp_p := tp_info_mem st in
    let '(found, tp) :=
      try_parse_tp_huffman_value (shift data hpack_off) hpack_len (huff g) (h2_tp_huff_out st) (tpp_tp tp_p) in
    let st := set_tp_mem st (set_tpp tp_p tp) in
    if nz found then h2_tail_call (pe_jump e 0) st P_commit finished
    else if negb (nz (scan_done scan)) then h2_tail_call (pe_jump e 0) st P_huffscan finished
    else
      let next_idx := u8 (scan_idx scan + 1) in
      if (next_idx <? scan_count scan) && (next_idx <? k_h2_tp_huff_max_candidates) then
        let next_idx := clamp_umax next_idx (k_h2_tp_huff_max_candidates - 1) in
        let g :=
          set_huff g (mk_candidate (scan_at scan next_idx) (scan_len scan next_idx))
            (mk_huff_scan (scan_at scan) (scan_len scan) (scan_count scan) next_idx (scan_done scan) (scan_resume scan)) in
        h2_tail_call (pe_jump e 0) (set_g st g) P_huffman finished
      else
        let finalize j st := h2_tail_call j st P_finalize finished in
        if scan_count scan =? k_h2_tp_huff_max_candidates then
          let resume := scan_at scan (k_h2_tp_huff_max_candidates - 1) in
          let g := set_huff g (huff g) (mk_huff_scan (scan_at scan) (scan_len scan) (scan_count scan) (scan_idx scan)
                                           (scan_done scan) resume) in
          h2_tail_call (pe_jump e 0) (set_g st g) P_huffscan (finalize (pe_jump e 1))
        else finalize (pe_jump e 0) st.

Definition h2_server_commit (e : penv) (st : h2_state) : outcome :=
  let g := g_ctx st in
  let found_tp := valid_trace (trace_id (tpp_tp (tp_info_mem st))) in
  resume_frame_scan (pe_jump e 0)
    (http2_grpc_start_finalize_server c l t sam e st (g_stream g) found_tp (ha_ssl (g_args g)) (ha_orig_dport (g_args g))).

Definition start_frame_server_finalize (e : penv) (st : h2_state) : outcome :=
  let g := g_ctx st in
  let tp_p := tp_info_mem st in
  let '(tp, m) :=
    if negb (valid_trace (trace_id (tpp_tp tp_p))) then
      let '(_, tp, m) :=
        find_trace_for_server_request c (h2_maps st) (pc_conn (cs_pid_conn (g_stream g))) (tpp_tp tp_p) k_event_type_http_request in
      (tp, m)
    else (tpp_tp tp_p, h2_maps st) in
  let tp :=
    if negb (valid_trace (trace_id tp)) then
      let data := list_buf (hr_data (http2_info_mem st)) in
      let '(hpack_len, hpack_off) := h2_hpack_window data in
      snd (find_hpack_traceparent_value (shift data hpack_off) hpack_len tp)
    else tp in
  h2_server_commit e (set_tp_mem (set_h2_maps st m) (set_tpp tp_p tp)).

Definition start_frame_server_commit (e : penv) (st : h2_state) : outcome := h2_server_commit e st.

(** ** The end of a stream *)

Definition end_frame (e : penv) (st : h2_state) : outcome :=
  let g := g_ctx st in
  let a := g_args g in
  let st :=
    if request_type_by_direction (ha_direction a) PACKET_TYPE_RESPONSE =? hr_type (prev_info g) then
      let buf_pos := clamp_umax (u32 (saved_buf_pos g)) k_iovec_max_len in
      let st := http2_grpc_end c l t e st (g_stream g) (ushift (ha_u_buf a) buf_pos) in
      h2_forget_stream (set_h2_span st (del_ssl (h2_span st) (ha_pid_conn a)))
    else st in
  resume_frame_scan (pe_jump e 0) st.

(** ** The chain *)

Definition run_prog (p : h2_prog) (e : penv) (st : h2_state) : outcome :=
  match p with
  | P_frames => frames e st
  | P_start => start_frame e st
  | P_server => start_frame_server e st
  | P_huffscan => start_frame_server_huffscan e st
  | P_huffman => start_frame_server_huffman e st
  | P_finalize => start_frame_server_finalize e st
  | P_commit => start_frame_server_commit e st
  | P_end => end_frame e st
  end.

(** The environment of the program that runs after [n] tail calls. *)
Definition limited (e : nat -> penv) (n : nat) : penv :=
  mk_penv (pe_now (e n)) (pe_reserve (e n)) (fun k => (n <? MAX_TAIL_CALL_CNT)%nat && pe_jump (e n) k) (pe_span (e n))
    (pe_trace (e n)).

(** [n] tail calls were made; [None] when the fuel runs out. *)
Fixpoint run_chain (fuel : nat) (e : nat -> penv) (n : nat) (p : h2_prog) (st : h2_state) : option h2_state :=
  match fuel with
  | O => None
  | S fuel =>
      match run_prog p (limited e n) st with
      | (st, Some q) => run_chain fuel e (S n) q st
      | (st, None) => Some st
      end
  end.

(** The frame context of a new buffer: [prev_info] alone is kept. *)
Definition reset_ctx (g : grpc_frames_ctx) (a : http_args) : grpc_frames_ctx :=
  mk_gctx (prev_info g) false 0 false 0 0 0 a (mk_stream (ha_pid_conn a) 0) (mk_candidate 0 0) empty_scan.

(** [n] tail calls were made before this program; the chain cannot outlast the kernel's limit. *)
Definition protocol_http2 (e : nat -> penv) (n : nat) (st : h2_state) (a : http_args) : option h2_state :=
  let st := h2_resume_cut_frame (set_g st (reset_ctx (g_ctx st) a)) in
  if pe_jump (limited e n) 0 then run_chain (S MAX_TAIL_CALL_CNT) e (S n) P_frames st else Some st.

End programs.
