(* ===== verification/H2Walk.v ===== *)
(** * What the frame scan promises ([bpf/generictracer/protocol_http2.h]).

    Properties of the chain of programs of [H2Frames] on a buffer that holds whole frames: every header
    block is handed to user space or the connection is marked, the marks stay, and the streams follow
    a machine that opens a stream once and reports it once. *)

From Stdlib Require Import ZArith Lia ZifyBool List Bool.
From stdpp Require Import base list countable gmap.
From S2P Require Import Prelude TraceUtil Sampling H2Defs H2Sniff H2Huffman HpackParse H2Txn H2Inject H2Send Entry.
From S2P Require Import ConnInfo LargeBuf HttpInfo TraceMaps TraceParent TraceLife HttpSpan HttpTrace H2Stream H2Frames.

Local Open Scope Z_scope.

(** ** Chains *)

(** An invariant of the programs of a chain: [I] holds when a program starts, [F] when the chain ends. *)
Definition chain_invariant (run : h2_prog -> penv -> h2_state -> outcome) (I : h2_prog -> h2_state -> Prop)
    (F : h2_state -> Prop) : Prop :=
  forall p e st, I p st -> match run p e st with (st', Some q) => I q st' | (st', None) => F st' end.

Lemma chain_result c l t sam bl I F fuel e n p st st' :
  chain_invariant (run_prog c l t sam bl) I F -> I p st -> run_chain c l t sam bl fuel e n p st = Some st' -> F st'.
Proof.
  intros Hinv. revert n p st. induction fuel as [|fuel IH]; intros n p st Hi; [done|]. cbn [run_chain].
  pose proof (Hinv p (limited e n) st Hi) as H. destruct (run_prog _ _ _ _ _ _ _ _) as [st1 [q|]]; [by apply IH|congruence].
Qed.

(** ** Tail calls that are refused *)

Definition no_jumps (e : penv) : Prop := forall k, pe_jump e k = false.

Lemma resume_stops st : snd (resume_frame_scan false st) = None.
Proof. unfold resume_frame_scan. cbv zeta. by destruct (_ && _). Qed.

Definition stays (o : handled) : Prop := match o with left_program o => snd o = None | goes_on _ => True end.

Lemma headers_stay t e k st frame : no_jumps e -> stays (handle_headers_frame t e k st frame).
Proof.
  intros He. unfold handle_headers_frame. cbv zeta. rewrite !He. destruct (has_prev_info _).
  - destruct (http2_emit_hpack_event _ _ _ _ _ _) as [st1 ?]. by destruct (http_grpc_stream_ended frame).
  - destruct (negb _); [|done]. by destruct (http2_emit_hpack_event _ _ _ _ _ _) as [st1 ?].
Qed.

Lemma data_end_stays e st frame : no_jumps e -> stays (handle_data_stream_end e st frame).
Proof.
  intros He. unfold handle_data_stream_end. cbv zeta. rewrite He. destruct (_ !! _); [|done]. by destruct (negb (h2_response_direction _ _)).
Qed.

Lemma loop_stays t e n k st : no_jumps e -> stays (frames_loop t e n k st).
Proof.
  intros He. revert k st. induction n as [|n IH]; intros k st; [done|]. cbn [frames_loop].
  set (st1 := set_g st _). destruct (_ <=? _); [done|]. cbv zeta. destruct (h2_keeps_cut_frame _ _); [done|].
  set (fr := next_frame _). set (hd := if is_headers_frame fr then _ else _).
  assert (Hh : stays hd) by (unfold hd; destruct (is_headers_frame fr); [by apply headers_stay|done]).
  destruct hd as [o|st2]; [exact Hh|]. unfold step_over_frame. destruct (is_invalid_frame fr); [done|]. cbv zeta.
  destruct (http_grpc_data_stream_ended fr).
  - pose proof (data_end_stays e st2 fr He) as Hd. destruct (handle_data_stream_end _ _ _); [exact Hd|].
    destruct (_ <=? _); [done|apply IH].
  - destruct (_ <=? _); [done|apply IH].
Qed.

Lemma run_stops c l t sam bl p e st : no_jumps e -> snd (run_prog c l t sam bl p e st) = None.
Proof.
  intros He. assert (Hc : snd (h2_server_commit c l t sam e st) = None)
    by (unfold h2_server_commit; rewrite He; apply resume_stops).
  destruct p; cbn [run_prog].
  - unfold frames. pose proof (loop_stays t e (Z.to_nat k_max_loop_iterations) 0 st He) as Hl.
    destruct (frames_loop _ _ _ _ _); [exact Hl|]. cbv zeta. destruct (_ && _); [by rewrite He|].
    unfold handle_data_frame. rewrite He. destruct (_ || _); [done|]. by destruct (h2_response_direction _ _).
  - unfold start_frame. destruct (http2_grpc_start _ _ _ _ _ _ _ _ _ _ _ _) as [st1 []]; rewrite !He; apply resume_stops.
  - unfold start_frame_server. destruct (h2_hpack_window _). destruct (parse_hpack_traceparent _ _ _) as [[? ?] ?].
    rewrite He. destruct (nz _); [done|]. destruct bl; [|done]. by destruct (nz _).
  - unfold start_frame_server_huffscan. destruct (h2_server_huffscan st). by rewrite He.
  - unfold start_frame_server_huffman. rewrite !He. destruct bl; [|done]. cbn [negb]. destruct (h2_hpack_window _).
    destruct (try_parse_tp_huffman_value _ _ _ _ _). destruct (nz _); [done|]. destruct (negb _); [done|]. cbv zeta.
    destruct (_ && _); [done|]. by destruct (_ =? _).
  - unfold start_frame_server_finalize. destruct (if negb _ then _ else _). unfold h2_server_commit. rewrite He. apply resume_stops.
  - exact Hc.
  - unfold end_frame. rewrite He. apply resume_stops.
Qed.

(** The chain always ends: the fuel covers the tail calls the kernel allows. *)
Lemma chain_total c l t sam bl fuel e n p st :
  (S MAX_TAIL_CALL_CNT <= fuel + n)%nat -> is_Some (run_chain c l t sam bl (S fuel) e n p st).
Proof.
  revert n p st. induction fuel as [|fuel IH]; intros n p st Hn.
  - assert (He : no_jumps (limited e n)).
    { intros k. cbn [limited pe_jump]. by rewrite (proj2 (Nat.ltb_ge _ _)) by lia. }
    cbn [run_chain]. pose proof (run_stops c l t sam bl p _ st He) as H.
    destruct (run_prog _ _ _ _ _ _ _ _) as [st1 q]. cbn [snd] in H. subst q. by eexists.
  - change (is_Some (match run_prog c l t sam bl p (limited e n) st with
      | (st, Some q) => run_chain c l t sam bl (S fuel) e (S n) q st | (st, None) => Some st end)).
    destruct (run_prog _ _ _ _ _ _ _ _) as [st1 [q|]]; [apply IH; lia|by eexists].
Qed.

Lemma protocol_total c l t sam bl e n st a : is_Some (protocol_http2 c l t sam bl e n st a).
Proof.
  unfold protocol_http2. cbv zeta. destruct (pe_jump _ _); [|by eexists]. apply (chain_total c l t sam bl MAX_TAIL_CALL_CNT). lia.
Qed.

(** Every chain is one of [run_chain], or none. *)
Lemma protocol_result c l t sam bl I F e n st a st' :
  let st0 := h2_resume_cut_frame (set_g st (reset_ctx (g_ctx st) a)) in
  chain_invariant (run_prog c l t sam bl) I F -> I P_frames st0 -> pe_jump (limited e n) 0 = true ->
  protocol_http2 c l t sam bl e n st a = Some st' -> F st'.
Proof. intros st0 Hinv Hi Hj. unfold protocol_http2. rewrite Hj. by eapply chain_result. Qed.

(** ** Whole frames *)

(** A frame whose header the scan reads exactly; DATA belongs to a stream. *)
Definition readable_frame (f : h2_frame) : Prop :=
  frame_wf f /\ zlen (fr_payload f) < 2 ^ 24 /\ fr_stream f < 2 ^ 24 /\ (fr_type f = FrameData -> fr_stream f <> 0).

(** The frames are the buffer, and a capture that starts in it can be read. *)
Record holds_frames (fs : list h2_frame) (a : http_args) : Prop := mk_holds {
  holds_ok : Forall readable_frame fs;
  holds_bytes : uagree (zlen (frames_bytes fs)) (ha_u_buf a) (list_umem (frames_bytes fs));
  holds_len : ha_bytes_len a = zlen (frames_bytes fs);
  holds_bound : zlen (frames_bytes fs) < 2 ^ 30;
  holds_readable : forall i, 0 <= i < zlen (frames_bytes fs) + k_kprobes_http2_buf_size -> is_Some (ha_u_buf a i)
}.

(** The header of a frame, up to the bit the reader drops. *)
Definition header_of (h : frame_header) (f : h2_frame) : Prop :=
  fh_length h = zlen (fr_payload f) /\ fh_type h = fr_type f /\ fh_flags h = fr_flags f /\ fh_stream_id h = fr_stream f.

Lemma ntoh_header len ty fl sid :
  0 <= len < 2 ^ 24 -> 0 <= sid < 2 ^ 24 ->
  exists ign, ntoh_frame (load_frame_header (list_buf (be_bytes 3 len ++ [ty; fl] ++ be_bytes 4 sid))) = mk_fh len ty fl ign sid.
Proof.
  intros Hlen Hsid. unfold load_frame_header, ntoh_frame. rewrite be_bytes_3, be_bytes_4. cbv zeta. rewrite !take_buf_S. unfold shift. lbuf.
  change (take_buf _ 0) with (@nil Z). cbn [fh_length fh_type fh_flags fh_ignore fh_stream_id]. eexists.
  rewrite swap_length, swap_stream_id by zdm. unfold be24. f_equal; zdm.
Qed.

Lemma frame_bytes_header f :
  frame_bytes f = (be_bytes 3 (zlen (fr_payload f)) ++ [fr_type f; fr_flags f] ++ be_bytes 4 (fr_stream f)) ++ fr_payload f.
Proof. unfold frame_bytes. by rewrite <- !app_assoc. Qed.

Lemma probe_read_within l1 l2 l3 u :
  uagree (zlen (l1 ++ l2 ++ l3)) u (list_umem (l1 ++ l2 ++ l3)) ->
  probe_read (ushift u (zlen l1)) (length l2) = Some l2.
Proof.
  intros Hu. rewrite <- (probe_read_at l1 l2 l3). apply probe_read_ext. intros i Hi. unfold ushift. apply Hu.
  rewrite !zlen_app. pose proof (zlen_nonneg l1). pose proof (zlen_nonneg l3). unfold zlen in *. lia.
Qed.

Lemma next_frame_at pre f post g :
  holds_frames (pre ++ f :: post) (g_args g) -> pos g = zlen (frames_bytes pre) -> header_of (next_frame g) f.
Proof.
  intros [Hok Hb _ _ _] Hp. apply Forall_app in Hok as [_ Hok]. apply Forall_cons_1 in Hok as [((Ht1 & Hf1 & Hs1 & Hbp) & Hl & Hs & _) _].
  unfold next_frame. rewrite Hp. rewrite frames_bytes_app, frames_bytes_cons, frame_bytes_header, <- app_assoc in Hb.
  rewrite (app_assoc (be_bytes 3 _)) in Hb.
  assert (Hh : probe_read (ushift (ha_u_buf (g_args g)) (zlen (frames_bytes pre))) (Z.to_nat k_frame_header_len)
    = Some (be_bytes 3 (zlen (fr_payload f)) ++ [fr_type f; fr_flags f] ++ be_bytes 4 (fr_stream f))).
  { rewrite <- (app_assoc (be_bytes 3 _)) in Hb.
    exact (probe_read_within _ (be_bytes 3 (zlen (fr_payload f)) ++ [fr_type f; fr_flags f] ++ be_bytes 4 (fr_stream f)) _ _ Hb). }
  rewrite Hh. pose proof (zlen_nonneg (fr_payload f)).
  destruct (ntoh_header (zlen (fr_payload f)) (fr_type f) (fr_flags f) (fr_stream f)) as [ign ->]; [lia|lia|]. by split_and!.
Qed.

Lemma frames_zlen pre f post :
  zlen (frames_bytes (pre ++ f :: post))
  = zlen (frames_bytes pre) + (k_frame_header_len + zlen (fr_payload f)) + zlen (frames_bytes post).
Proof. rewrite frames_bytes_app, frames_bytes_cons, !zlen_app, frame_bytes_zlen. kunfold. lia. Qed.

Lemma frames_zlen_snoc pre f : zlen (frames_bytes (pre ++ [f])) = zlen (frames_bytes pre) + (k_frame_header_len + zlen (fr_payload f)).
Proof. rewrite frames_zlen. change (frames_bytes []) with (@nil Z). change (zlen (@nil Z)) with 0. lia. Qed.

(** At a frame: its size, what is left, and no cut. *)
Lemma frame_at_pos pre f post g :
  holds_frames (pre ++ f :: post) (g_args g) -> pos g = zlen (frames_bytes pre) ->
  let fr := next_frame g in
  header_of fr f /\ frame_size fr = k_frame_header_len + zlen (fr_payload f)
  /\ remaining g = frame_size fr + zlen (frames_bytes post) /\ h2_keeps_cut_frame g fr = false
  /\ (ha_bytes_len (g_args g) <=? pos g) = false
  /\ s32 (pos g + frame_size fr) = zlen (frames_bytes (pre ++ [f]))
  /\ s32 (pos g + (fh_length fr + k_frame_header_len)) = zlen (frames_bytes (pre ++ [f])).
Proof.
  intros Hh Hp fr. pose proof (next_frame_at pre f post g Hh Hp) as Hf. fold fr in Hf. destruct Hh as [_ _ Hl Hbd _].
  pose proof (zlen_nonneg (frames_bytes pre)). pose proof (zlen_nonneg (fr_payload f)). pose proof (zlen_nonneg (frames_bytes post)).
  rewrite frames_zlen in Hl, Hbd. pose proof Hf as (Hfl & _).
  assert (Hfs : frame_size fr = k_frame_header_len + zlen (fr_payload f)).
  { unfold frame_size. rewrite Hfl, wrap_small; kunfold; lia. }
  assert (Hr : remaining g = frame_size fr + zlen (frames_bytes post)).
  { unfold remaining. rewrite Hl, Hp, wrap_small; kunfold; lia. }
  split_and!; [done|done|done| | | |].
  - unfold h2_keeps_cut_frame. rewrite Hr, Hfs. destruct (negb _); [done|]. kunfold.
    rewrite !(proj2 (Z.ltb_ge _ _)) by lia. by rewrite andb_false_r.
  - apply Z.leb_gt. kunfold. lia.
  - rewrite frames_zlen_snoc, Hfs, Hp, swrap_small; kunfold; lia.
  - rewrite frames_zlen_snoc, Hfl, Hp, swrap_small; kunfold; lia.
Qed.

(** ** Reads of a capture *)

Lemma probe_read_some m n : (forall i, 0 <= i < Z.of_nat n -> is_Some (m i)) -> is_Some (probe_read m n).
Proof.
  revert m. induction n as [|n IH]; intros m Hm; [by eexists|]. cbn [probe_read]. destruct (Hm 0 ltac:(lia)) as [b ->].
  destruct (IH (ushift m 1)) as [x ->]; [|by eexists]. intros i Hi. apply Hm. lia.
Qed.

(** A capture that is large enough starts with the frame. *)
Lemma capture_prefix pre f post a (n : nat) :
  holds_frames (pre ++ f :: post) a -> k_frame_header_len + zlen (fr_payload f) <= Z.of_nat n <= k_kprobes_http2_buf_size ->
  frame_bytes f `prefix_of` probe_read0 (ushift (ha_u_buf a) (zlen (frames_bytes pre))) n.
Proof.
  intros [_ Hb _ _ Hr] Hn. unfold probe_read0. rewrite frames_zlen in Hr. rewrite frames_bytes_app, frames_bytes_cons in Hb.
  pose proof (probe_read_within _ _ _ _ Hb) as Hf. pose proof (zlen_nonneg (frames_bytes pre)). pose proof (zlen_nonneg (frames_bytes post)).
  pose proof (zlen_nonneg (fr_payload f)).
  pose proof (frame_bytes_zlen f) as Hz. unfold zlen in Hz at 1.
  replace n with (length (frame_bytes f) + (n - length (frame_bytes f)))%nat by (kunfold; lia).
  set (p := ushift _ _) in *. set (k := (n - length (frame_bytes f))%nat).
  destruct (probe_read_some (ushift p (Z.of_nat (length (frame_bytes f)))) k) as [y Hy].
  - intros i Hi. unfold p, ushift. apply Hr. kunfold. lia.
  - rewrite (probe_read_app p _ k _ y Hf Hy). by exists y.
Qed.

(** ** Every header block is accounted for *)

(** One of the marks of the connection is set. *)
Definition unreliable (d : http2_conn_info_data) : Prop := hc_req_hpack_poisoned d <> 0 \/ hc_resp_hpack_poisoned d <> 0.

Definition marked (pc : pid_connection_info) (st : h2_state) : Prop :=
  exists d, ongoing_http2_connections (h2_maps st) !! pc = Some d /\ unreliable d.

(** A frame that carries fields; one of at most two octets that ends a stream is not looked at. *)
Definition header_block (f : h2_frame) : Prop :=
  fr_type f = FrameHeaders /\ fr_stream f <> 0
  /\ ~ (zlen (fr_payload f) <= 2 /\ Z.land (fr_flags f) k_flag_data_end_stream = k_flag_data_end_stream).

#[export] Instance header_block_dec f : Decision (header_block f).
Proof. unfold header_block. apply _. Defined.

(** An event that hands the whole frame to user space. *)
Definition handed_over (f : h2_frame) (ev : http2_grpc_request) : Prop :=
  hr_stream_id ev = fr_stream f
  /\ ((hr_flags ev = k_event_type_k_http2_request_headers /\ frame_bytes f `prefix_of` hr_data ev)
      \/ (hr_flags ev = k_event_type_k_http2_response_headers /\ frame_bytes f `prefix_of` hr_ret_data ev)).

(** The header blocks among [l] went out in their order, each in an event of its own after the events [evs0]; or the
    connection is marked. *)
Definition accounted (evs0 : list http2_grpc_request) (pc : pid_connection_info) (st : h2_state) (l : list h2_frame) : Prop :=
  marked pc st
  \/ exists new evs, h2_events st = evs0 ++ new /\ evs `sublist_of` new /\ Forall2 handed_over (filter header_block l) evs.

(** Between [st] and [st'] the block [f] went out. *)
Definition covers (pc : pid_connection_info) (st st' : h2_state) (f : h2_frame) : Prop :=
  header_block f -> marked pc st' \/ exists new, h2_events st' = h2_events st ++ new /\ Exists (handed_over f) new.

(** The record of the connection with identity [id] is there. *)
Definition known (pc : pid_connection_info) (id : Z) (st : h2_state) : Prop :=
  exists d, ongoing_http2_connections (h2_maps st) !! pc = Some d /\ hc_id d = id.

(** Events are added, marks stay. *)
Definition grows (pc : pid_connection_info) (st st' : h2_state) : Prop :=
  h2_events st `prefix_of` h2_events st'
  /\ forall d, ongoing_http2_connections (h2_maps st) !! pc = Some d ->
     exists d', ongoing_http2_connections (h2_maps st') !! pc = Some d' /\ hc_id d' = hc_id d
     /\ (hc_req_hpack_poisoned d <> 0 -> hc_req_hpack_poisoned d' <> 0)
     /\ (hc_resp_hpack_poisoned d <> 0 -> hc_resp_hpack_poisoned d' <> 0).

#[export] Instance grows_preorder pc : PreOrder (grows pc).
Proof.
  split.
  - intros st. split; [done|]. intros d Hd. by exists d.
  - intros st1 st2 st3 [E1 C1] [E2 C2]. split; [by etransitivity|]. intros d Hd.
    destruct (C1 d Hd) as (d1 & Hd1 & ? & ? & ?). destruct (C2 d1 Hd1) as (d2 & Hd2 & ? & ? & ?). exists d2.
    split_and!; [done|congruence|auto..].
Qed.

Lemma grows_marked pc st st' : grows pc st st' -> marked pc st -> marked pc st'.
Proof. intros [_ Hc] (d & Hd & Hu). destruct (Hc d Hd) as (d' & Hd' & _ & ? & ?). exists d'. split; [done|]. unfold unreliable in *. intuition. Qed.

Lemma grows_known pc id st st' : grows pc st st' -> known pc id st -> known pc id st'.
Proof. intros [_ Hc] (d & Hd & Hid). destruct (Hc d Hd) as (d' & Hd' & Hid' & _). exists d'. split; [done|congruence]. Qed.

Lemma grows_accounted evs0 pc st st' l : grows pc st st' -> accounted evs0 pc st l -> accounted evs0 pc st' l.
Proof.
  intros Hg [Hm|(new & evs & He & Hs & Hf)]; [left; by eapply grows_marked|right]. destruct Hg as [[more Hmore] _].
  exists (new ++ more), evs. split; [by rewrite Hmore, He, <- app_assoc|]. split; [by apply sublist_inserts_r|done].
Qed.

Lemma marked_accounted evs0 pc st l : marked pc st -> accounted evs0 pc st l.
Proof. by left. Qed.

Lemma accounted_app_l evs0 pc st l l' : accounted evs0 pc st (l ++ l') -> accounted evs0 pc st l.
Proof.
  intros [Hm|(new & evs & He & Hs & Hf)]; [by left|right]. rewrite filter_app in Hf. apply Forall2_app_inv_l in Hf as (evs1 & evs2 & H1 & _ & ->).
  exists new, evs1. split_and!; [done| |done]. etransitivity; [|exact Hs]. by apply sublist_inserts_r.
Qed.

(** The next frame is accounted for. *)
Lemma accounted_snoc evs0 pc st st' l f : grows pc st st' -> accounted evs0 pc st l -> covers pc st st' f -> accounted evs0 pc st' (l ++ [f]).
Proof.
  intros Hg Hl Hc. unfold accounted. rewrite filter_app, filter_cons, filter_nil. destruct (decide (header_block f)) as [Hf|Hf].
  - destruct (Hc Hf) as [Hm|(new & He & Hx)]; [by left|]. destruct Hl as [Hm|(new0 & evs & He0 & Hs & Hh)]; [left; by eapply grows_marked|right].
    apply Exists_exists in Hx as (ev & Hin & Hev). exists (new0 ++ new), (evs ++ [ev]). split; [by rewrite He, He0, <- app_assoc|]. split.
    + apply sublist_app; [done|]. by apply singleton_sublist_l.
    + apply Forall2_app; [done|]. by constructor.
  - rewrite app_nil_r. by eapply grows_accounted.
Qed.

Lemma covers_earlier pc st0 st st' f : grows pc st0 st -> covers pc st st' f -> covers pc st0 st' f.
Proof.
  intros [[more Hmore] _] Hc Hf. destruct (Hc Hf) as [Hm|(new & He & Hx)]; [by left|right]. exists (more ++ new).
  split; [by rewrite He, Hmore, <- app_assoc|]. apply Exists_app. by right.
Qed.

(** The position of the scan is kept, and the state grows. *)
Definition adv (pc : pid_connection_info) (st st' : h2_state) : Prop :=
  grows pc st st'
  /\ g_args (g_ctx st') = g_args (g_ctx st) /\ pos (g_ctx st') = pos (g_ctx st)
  /\ terminate_search (g_ctx st') = terminate_search (g_ctx st)
  /\ cs_pid_conn (g_stream (g_ctx st')) = cs_pid_conn (g_stream (g_ctx st)).

#[export] Instance adv_preorder pc : PreOrder (adv pc).
Proof.
  split; [done|]. intros st1 st2 st3 (? & ? & ? & ? & ?) (? & ? & ? & ? & ?). split; [by etransitivity|]. split_and!; congruence.
Qed.

(** What leaves events and connections alone. *)
Lemma grows_same pc st st' :
  h2_events st' = h2_events st -> ongoing_http2_connections (h2_maps st') = ongoing_http2_connections (h2_maps st) -> grows pc st st'.
Proof. intros He Hc. unfold grows. rewrite He, Hc. split; [done|]. intros d Hd. by exists d. Qed.

Lemma adv_poison pc st s prev fl : adv pc st (http2_poison_hpack st s prev fl).
Proof.
  split; [|by destruct prev]. split; [done|]. intros d Hd. rewrite poison_conns.
  destruct (decide (pc = cs_pid_conn s)) as [->|]; [|exists d; by rewrite lookup_alter_ne].
  rewrite lookup_alter_eq, Hd. eexists. split; [done|]. unfold poison_conn.
  cbn [hc_id hc_req_hpack_poisoned hc_resp_hpack_poisoned]. split_and!; [done|intros; by destruct (nz _)..].
Qed.

Lemma adv_emit pc t e k st fr ty st' ok : http2_emit_hpack_event t e k st fr ty = (st', ok) -> adv pc st st'.
Proof.
  intros H. apply emit_spec in H as [H0 H1]. destruct ok; [|by rewrite H0]. destruct (H1 eq_refl) as (ev & fl & He & Hg & _ & Hc & _).
  unfold adv. rewrite Hg. split; [|done]. split; [rewrite He; by eexists|]. intros d Hd. rewrite Hc.
  destruct (decide (pc = cs_pid_conn (g_stream (g_ctx st)))) as [->|]; [|exists d; by rewrite lookup_alter_ne].
  rewrite lookup_alter_eq, Hd. by eexists.
Qed.

Lemma adv_g pc st g :
  g_args g = g_args (g_ctx st) -> pos g = pos (g_ctx st) -> terminate_search g = terminate_search (g_ctx st) ->
  cs_pid_conn (g_stream g) = cs_pid_conn (g_stream (g_ctx st)) -> adv pc st (set_g st g).
Proof. intros. split; [by apply grows_same|]. done. Qed.

Lemma adv_prev pc st : adv pc st (update_prev_info st).
Proof. unfold update_prev_info. cbv zeta. destruct (_ !! _); by apply adv_g. Qed.

Lemma cuts_same st : h2_events (h2_save_cut_frame st) = h2_events st /\ h2_span (h2_save_cut_frame st) = h2_span st
  /\ g_ctx (h2_save_cut_frame st) = g_ctx st.
Proof. unfold h2_save_cut_frame. cbv zeta. by destruct (cut_of _). Qed.

Lemma adv_save pc st : adv pc st (h2_save_cut_frame st).
Proof.
  destruct (cuts_same st) as (He & Hs & Hg). unfold adv. rewrite Hg. split; [|done]. apply grows_same; [done|]. unfold h2_maps. by rewrite Hs.
Qed.

#[export] Hint Resolve adv_poison adv_prev adv_save : h2frame.

(** A header frame the scan goes on behind. *)
Lemma headers_adv pc t e k st fr st' : handle_headers_frame t e k st fr = goes_on st' -> adv pc st st'.
Proof.
  unfold handle_headers_frame. set (st0 := update_prev_info _).
  assert (A0 : adv pc st st0) by (etransitivity; [|apply adv_prev]; by apply adv_g). cbv zeta.
  destruct (has_prev_info (g_ctx st0)).
  - set (st1 := set_g st0 _). assert (A1 : adv pc st st1) by (etransitivity; [exact A0|by apply adv_g]).
    destruct (http2_emit_hpack_event _ _ _ st1 _ _) as [st2 ok] eqn:Hem. apply (adv_emit pc) in Hem.
    destruct (http_grpc_stream_ended fr); [done|]. intros [= <-]. etransitivity; [exact A1|]. etransitivity; [exact Hem|].
    destruct ok, (_ <? _); eauto with h2frame; [done|]. etransitivity; apply adv_poison.
  - destruct (negb _); [|by intros [= <-]]. by destruct (http2_emit_hpack_event _ _ _ st0 _ _).
Qed.

Lemma poison_marks pc id st s prev fl :
  known pc id st -> cs_pid_conn s = pc ->
  nz (Z.land fl h2_hpack_req_unreliable) || nz (Z.land fl h2_hpack_resp_unreliable) = true ->
  marked pc (http2_poison_hpack st s prev fl).
Proof.
  intros (d & Hd & _) <- Hfl. unfold marked. rewrite poison_conns, lookup_alter_eq, Hd. eexists. split; [done|]. unfold unreliable, poison_conn.
  cbn [hc_req_hpack_poisoned hc_resp_hpack_poisoned].
  destruct (nz (Z.land fl h2_hpack_req_unreliable)); [by left|]. destruct (nz (Z.land fl h2_hpack_resp_unreliable)); [by right|done].
Qed.

(** ** The programs behind the scan *)

(** The programs the scan calls for a frame keep its position; they call one another, or go back to the scan through
    [resume_frame_scan].  So they keep what an advance keeps. *)
Section programs.
Variables (c : tconf) (l : links) (t : task) (sam : option sampler) (bl : bool) (pc : pid_connection_info).
Variables (B : h2_state -> Prop) (OK : outcome -> Prop).
Hypothesis B_adv : forall st st', adv pc st st' -> B st -> B st'.
Hypothesis B_tail : forall j st p, p <> P_frames -> B st -> OK (h2_tail_call j st p finished).
Hypothesis B_resume : forall j st, B st -> OK (resume_frame_scan j st).

Lemma start_adv e st s u len d ssl dport :
  adv pc st (fst (http2_grpc_start c l t sam e st s u len d ssl dport)).
Proof.
  unfold http2_grpc_start. destruct (_ !! s) as [r|].
  - cbn [fst]. unfold restart_stream. destruct (_ =? _); [|done]. destruct (adopt_injected_trace _ _ _); [|done].
    split; [by apply grows_same|done].
  - cbv zeta. set (st1 := prepare_stream _ _ _ _ _ _ _ _ _). assert (A1 : adv pc st st1) by (split; [by apply grows_same|done]).
    destruct (negb _); [exact A1|]. cbn [fst]. etransitivity; [exact A1|].
    destruct (start_client_streams c l t sam e st1 s ssl dport) as (He & Hg & Hc & _ & _).
    split; [by apply grows_same|]. by rewrite Hg.
Qed.

Lemma start_ok e st : B st -> OK (start_frame c l t sam e st).
Proof.
  intros Hb. unfold start_frame. cbv zeta.
  match goal with |- context [http2_grpc_start ?c ?l ?t ?sam ?e ?st ?s ?u ?n ?d ?ssl ?dp] =>
    pose proof (start_adv e st s u n d ssl dp) as A; destruct (http2_grpc_start c l t sam e st s u n d ssl dp) as [st1 server] end.
  cbn [fst] in A. pose proof (B_adv st st1 A Hb) as Hb1. destruct server; [|by apply B_resume].
  destruct (pe_jump e 0); [by apply (B_tail true)|]. apply B_resume. eapply B_adv; [apply adv_poison|done].
Qed.

Lemma commit_ok e st : B st -> OK (h2_server_commit c l t sam e st).
Proof.
  intros Hb. unfold h2_server_commit. apply B_resume. eapply B_adv; [|exact Hb].
  match goal with |- context [http2_grpc_start_finalize_server c l t sam e st ?s ?found ?ssl ?dp] =>
    destruct (finalize_streams c l t sam e st s found ssl dp) as (He & Hg & Hc & _) end.
  split; [by apply grows_same|]. by rewrite Hg.
Qed.

Lemma end_ok e st : B st -> OK (end_frame c l t e st).
Proof.
  intros Hb. unfold end_frame. cbv zeta. apply B_resume. eapply B_adv; [|exact Hb]. destruct (_ =? _); [|done].
  match goal with |- context [http2_grpc_end c l t e st ?s ?u] =>
    destruct (end_streams c l t e st s u) as (Hc & _ & _ & He & Hg & _); set (st1 := http2_grpc_end c l t e st s u) in * end.
  split; [|cbn; by rewrite Hg]. split; [cbn; rewrite He; by eexists|]. intros d Hd. exists d. split; [|done]. unfold h2_maps in *. cbn. by rewrite Hc.
Qed.

Lemma programs_ok p e st : p <> P_frames -> B st -> OK (run_prog c l t sam bl p e st).
Proof.
  intros Hp Hi. destruct p; cbn [run_prog]; [done|by apply start_ok| | | | |by apply commit_ok|by apply end_ok].
  - unfold start_frame_server. destruct (h2_hpack_window _) as [n off]. destruct (parse_hpack_traceparent _ _ _) as [[found tp] cand]. cbv zeta.
    set (st1 := set_tp_mem _ _). assert (Hb : B st1) by (eapply B_adv; [|exact Hi]; split; [by apply grows_same|done]).
    destruct (nz found); [by apply B_tail|]. destruct bl; [|by apply B_tail]. destruct (nz _); by apply B_tail.
  - unfold start_frame_server_huffscan, h2_server_huffscan. cbv zeta. destruct (h2_hpack_window _) as [n off].
    destruct (find_hpack_traceparent_huffman _ _ _ _) as [found scan].
    destruct (negb (nz found)); (apply B_tail; [done|]); (eapply B_adv; [|exact Hi]); by apply adv_g.
  - unfold start_frame_server_huffman. destruct bl; cbn [negb]; [|by apply B_tail]. cbv zeta. destruct (h2_hpack_window _) as [n off].
    destruct (try_parse_tp_huffman_value _ _ _ _ _) as [found tp]. set (st1 := set_tp_mem _ _).
    assert (Hb : B st1) by (eapply B_adv; [|exact Hi]; split; [by apply grows_same|done]).
    destruct (nz found); [by apply B_tail|]. destruct (negb _); [by apply B_tail|]. destruct (_ && _).
    + apply B_tail; [done|]. eapply B_adv; [|exact Hb]. by apply adv_g.
    + destruct (_ =? _); [|by apply B_tail]. unfold h2_tail_call at 1. set (st2 := set_g st1 _).
      assert (Hb2 : B st2) by (eapply B_adv; [|exact Hb]; by apply adv_g).
      destruct (pe_jump e 0); [by apply (B_tail true)|]. apply B_tail; [done|]. eapply B_adv; [apply adv_poison|exact Hb2].
  - unfold start_frame_server_finalize. cbv zeta.
    match goal with |- context [find_trace_for_server_request c ?m ?conn ?tp ?ty] =>
      pose proof (server_find_h2 c m conn tp ty) as [_ Hc]; destruct (find_trace_for_server_request c m conn tp ty) as [[b1 tp1] m1] end.
    cbn [snd] in Hc. destruct (negb (valid_trace (trace_id (tpp_tp (tp_info_mem st)))));
      apply commit_ok; (eapply B_adv; [|exact Hi]); (split; [by apply grows_same|done]).
Qed.

End programs.

Section blocks.
Variables (c : tconf) (l : links) (t : task) (sam : option sampler) (bl : bool).
Variables (fs : list h2_frame) (pc : pid_connection_info) (id : Z) (evs0 : list http2_grpc_request).

(** The scan stands behind the frames [ahead]; one that is told to stop has nothing left to account for. *)
Record scanning (st : h2_state) (ahead : list h2_frame) : Prop := mk_scanning {
  sc_holds : holds_frames fs (g_args (g_ctx st));
  sc_pc : ha_pid_conn (g_args (g_ctx st)) = pc;
  sc_stream : cs_pid_conn (g_stream (g_ctx st)) = pc;
  sc_pos : pos (g_ctx st) = zlen (frames_bytes ahead);
  sc_conn : known pc id st;
  sc_stop : terminate_search (g_ctx st) = true -> accounted evs0 pc st fs
}.

Lemma scanning_adv st st' ahead : adv pc st st' -> scanning st ahead -> scanning st' ahead.
Proof.
  intros (Hg & Ha & Hp & Ht & Hs) [H1 H2 H3 H4 H5 H6]. constructor; try congruence.
  - by eapply grows_known.
  - rewrite Ht. intros Hstop. eapply grows_accounted; [exact Hg|auto].
Qed.

(** At a frame that is not handled yet, and at one that is. *)
Definition before (st : h2_state) : Prop :=
  exists ahead f rest, fs = ahead ++ f :: rest /\ scanning st ahead /\ accounted evs0 pc st ahead.
Definition behind (st : h2_state) : Prop :=
  exists ahead f rest, fs = ahead ++ f :: rest /\ scanning st ahead /\ accounted evs0 pc st (ahead ++ [f]).

Definition blocks_inv (p : h2_prog) (st : h2_state) : Prop :=
  match p with P_frames => before st | _ => behind st end.

Definition settled (st : h2_state) : Prop := known pc id st /\ accounted evs0 pc st fs.

Definition outcome_ok (o : outcome) : Prop :=
  match o with (st, Some q) => blocks_inv q st | (st, None) => settled st end.

Definition handled_ok (o : handled) (P : h2_state -> Prop) : Prop :=
  match o with left_program o => outcome_ok o | goes_on st => P st end.

Lemma behind_adv st st' : adv pc st st' -> behind st -> behind st'.
Proof.
  intros Ha (ahead & f & rest & Hfs & Hsc & Hacc). exists ahead, f, rest. split; [done|]. split; [by eapply scanning_adv|].
  eapply grows_accounted; [apply Ha|done].
Qed.

Lemma tail_call_ok j st p :
  known pc id st -> cs_pid_conn (g_stream (g_ctx st)) = pc -> blocks_inv p st ->
  outcome_ok (h2_tail_call j st p finished).
Proof.
  intros Hc Hs Hi. unfold h2_tail_call. destruct j; [done|]. split.
  - eapply grows_known; [apply adv_poison|done].
  - cbn. apply marked_accounted. by eapply poison_marks.
Qed.

Lemma tail_call_behind j st p : p <> P_frames -> behind st -> outcome_ok (h2_tail_call j st p finished).
Proof.
  intros Hp Hb. pose proof Hb as (ahead & f & rest & _ & Hsc & _). apply tail_call_ok; [apply Hsc|apply Hsc|by destruct p].
Qed.

Lemma resume_ok j st : behind st -> outcome_ok (resume_frame_scan j st).
Proof.
  intros (ahead & f & rest & Hfs & Hsc & Hacc). pose proof Hsc as [Hh Hpc Hst Hp Hcn Hstop].
  pose proof Hh as Hh'. rewrite Hfs in Hh'. destruct (frame_at_pos ahead f rest (g_ctx st) Hh' Hp) as (_ & _ & _ & Hk & _ & _ & Hnext).
  unfold resume_frame_scan. cbv zeta. rewrite Hk. cbn [negb]. set (g := set_pos (g_ctx st) _).
  assert (Hg : grows pc st (set_g st g)) by (by apply grows_same).
  assert (Hall : (terminate_search g = true \/ rest = []) -> accounted evs0 pc st fs)
    by (intros [?|Hr]; [by apply Hstop|rewrite Hfs, Hr; exact Hacc]).
  destruct (negb (terminate_search g) && (pos g <? ha_bytes_len (g_args g))) eqn:Hgo.
  - apply andb_prop in Hgo as [Hnt Hlt]. destruct rest as [|f' rest].
    { apply Z.ltb_lt in Hlt. cbn [g set_pos pos g_args] in Hlt. rewrite Hnext, (holds_len _ _ Hh), <- Hfs in Hlt. lia. }
    apply tail_call_ok; [exact Hcn|exact Hst|]. exists (ahead ++ [f]), f', rest. split; [by rewrite <- app_assoc|].
    split; [|by eapply grows_accounted]. by constructor.
  - assert (Hd : accounted evs0 pc st fs).
    { apply Hall. apply andb_false_iff in Hgo as [Hnt%negb_false_iff|Hge]; [by left|right].
      apply Z.ltb_ge in Hge. cbn [g set_pos pos g_args] in Hge. rewrite Hnext, (holds_len _ _ Hh) in Hge.
      destruct rest as [|f' rest]; [done|]. exfalso. rewrite Hfs in Hge.
      replace (ahead ++ f :: f' :: rest) with ((ahead ++ [f]) ++ f' :: rest) in Hge by (by rewrite <- app_assoc).
      rewrite frames_zlen in Hge. pose proof (zlen_nonneg (fr_payload f')). pose proof (zlen_nonneg (frames_bytes rest)). kunfold. lia. }
    assert (Hs : grows pc st (h2_save_cut_frame (set_g st g))) by (etransitivity; [exact Hg|apply (adv_save pc)]).
    split; [by eapply grows_known|by eapply grows_accounted].
Qed.

(** A frame that is not a header block needs no account. *)
Lemma not_headers fr f st st' : header_of fr f -> readable_frame f -> is_headers_frame fr = false -> covers pc st st' f.
Proof.
  intros (_ & Ht & _ & Hs) _ Hh (Hty & Hsid & _). unfold is_headers_frame, nz in Hh. rewrite Ht, Hs, Hty in Hh.
  rewrite (proj2 (Z.eqb_neq _ _) Hsid) in Hh. done.
Qed.

(** The event of a header frame, or the marks in its place. *)
Lemma emit_accounts e k st fr ty cap prev fl ahead f rest st1 ok :
  fs = ahead ++ f :: rest -> scanning st ahead -> header_of fr f -> frame_size fr = k_frame_header_len + zlen (fr_payload f) ->
  (ty = k_event_type_k_http2_request_headers /\ cap = k_kprobes_http2_buf_size)
  \/ (ty = k_event_type_k_http2_response_headers /\ cap = k_kprobes_http2_ret_buf_size) ->
  nz (Z.land fl h2_hpack_req_unreliable) || nz (Z.land fl h2_hpack_resp_unreliable) = true ->
  http2_emit_hpack_event t e k st fr ty = (st1, ok) ->
  let st2 := if ok then st1 else http2_poison_hpack st1 (g_stream (g_ctx st1)) prev fl in
  let st3 := if cap <? frame_size fr then http2_poison_hpack st2 (g_stream (g_ctx st2)) prev fl else st2 in
  adv pc st st3 /\ covers pc st st3 f.
Proof.
  intros Hfs Hsc (_ & _ & _ & Hsid) Hsz Hty Hfl Hem st2 st3.
  assert (A1 : adv pc st st1) by (by eapply adv_emit).
  assert (A2 : adv pc st1 st2) by (unfold st2; destruct ok; [done|apply adv_poison]).
  assert (A3 : adv pc st2 st3) by (unfold st3; destruct (_ <? _); [apply adv_poison|done]).
  assert (S1 : scanning st1 ahead) by (by eapply scanning_adv).
  assert (S2 : scanning st2 ahead) by (by eapply scanning_adv).
  split; [by etransitivity; [exact A1|etransitivity]|].
  destruct (Z.ltb_spec cap (frame_size fr)) as [Hbig|Hfit]; unfold st3 at 1.
  { intros _. left. eapply poison_marks; [apply S2|apply S2|done]. }
  destruct ok; unfold st2 at 1; [|intros _; left; eapply poison_marks; [apply S1|apply S1|done]].
  intros _. right. apply emit_spec in Hem as [_ Hem]. destruct (Hem eq_refl) as (ev & fl' & -> & _ & _ & _ & Hevt & Hevs & Hdata).
  exists [ev]. split; [done|]. constructor. split; [congruence|]. destruct Hsc as [Hh _ _ Hp _ _]. rewrite Hfs in Hh. rewrite Hp in Hdata.
  destruct Hty as [[-> ->]|[-> ->]]; cbn in Hdata; [left|right]; (split; [done|]); rewrite Hdata;
    apply (capture_prefix ahead f rest); try done; kunfold; lia.
Qed.

(** After an advance the frame is handled. *)
Lemma behind_of_adv st st' ahead f rest :
  fs = ahead ++ f :: rest -> scanning st ahead -> accounted evs0 pc st ahead -> adv pc st st' -> covers pc st st' f -> behind st'.
Proof.
  intros Hfs Hsc Ha Hadv Hf. exists ahead, f, rest. split; [done|]. split; [by eapply scanning_adv|]. by eapply accounted_snoc; [apply Hadv|..].
Qed.

Lemma headers_ok e k st fr ahead f rest :
  fs = ahead ++ f :: rest -> scanning st ahead -> accounted evs0 pc st ahead ->
  header_of fr f -> frame_size fr = k_frame_header_len + zlen (fr_payload f) ->
  handled_ok (handle_headers_frame t e k st fr) (fun st' => adv pc st st' /\ covers pc st st' f).
Proof.
  intros Hfs Hsc Hacc Hhd Hsz. unfold handle_headers_frame. set (st0 := update_prev_info _).
  assert (A0 : adv pc st st0) by (etransitivity; [|apply adv_prev]; by apply adv_g). cbv zeta.
  destruct (has_prev_info (g_ctx st0)) eqn:Hprev.
  - set (st1 := set_g st0 _). assert (A1 : adv pc st st1) by (etransitivity; [exact A0|by apply adv_g]).
    set (resp := _ =? _). destruct (http2_emit_hpack_event _ _ _ st1 _ _) as [st2 ok] eqn:Hem.
    assert (Hsc1 : scanning st1 ahead) by (by eapply scanning_adv).
    destruct (emit_accounts e k st1 fr (if resp then k_event_type_k_http2_response_headers else k_event_type_k_http2_request_headers)
      (if resp then k_kprobes_http2_ret_buf_size else k_kprobes_http2_buf_size) true
      (if resp then h2_hpack_resp_unreliable else h2_hpack_req_unreliable) ahead f rest st2 ok Hfs Hsc1 Hhd Hsz) as [A2 Hf];
      [destruct resp; [right|left]; done|by destruct resp|exact Hem|].
    set (st3 := if _ <? frame_size fr then _ else _) in *. cbn zeta.
    assert (A3 : adv pc st st3) by (by etransitivity). apply (covers_earlier pc st) in Hf; [|apply A1].
    destruct (http_grpc_stream_ended fr); [|exact (conj A3 Hf)]. apply tail_call_behind; [done|].
    exact (behind_of_adv st st3 ahead f rest Hfs Hsc Hacc A3 Hf).
  - destruct (negb (is_flags_only_frame fr && http_grpc_stream_ended fr)) eqn:Hfl.
    + destruct (http2_emit_hpack_event _ _ _ st0 _ _) as [st2 ok] eqn:Hem.
      assert (Hsc0 : scanning st0 ahead) by (by eapply scanning_adv).
      destruct (emit_accounts e k st0 fr k_event_type_k_http2_request_headers k_kprobes_http2_buf_size false h2_hpack_req_unreliable ahead f rest st2 ok Hfs Hsc0 Hhd Hsz)
        as [A2 Hf]; [by left|done|exact Hem|].
      set (st3 := if _ <? frame_size fr then _ else _) in *. assert (A3 : adv pc st st3) by (by etransitivity).
      apply (covers_earlier pc st) in Hf; [|apply A0].
      apply tail_call_behind; [done|]. exact (behind_of_adv st st3 ahead f rest Hfs Hsc Hacc A3 Hf).
    + split; [exact A0|]. intros (_ & _ & Hn). exfalso. apply Hn. apply negb_false_iff, andb_prop in Hfl as [H1 H2].
      destruct Hhd as (Hl & _ & Hf & _). unfold is_flags_only_frame in H1. apply Z.leb_le in H1.
      unfold http_grpc_stream_ended in H2. apply andb_prop in H2 as [_ H2]. apply Z.eqb_eq in H2. rewrite Hl in H1. rewrite Hf in H2. done.
Qed.

Lemma data_end_ok e st fr : behind st -> handled_ok (handle_data_stream_end e st fr) (fun st' => st' = st).
Proof.
  intros Hb. unfold handle_data_stream_end. cbv zeta. destruct (_ !! _); [|done]. destruct (negb (h2_response_direction _ _)); [done|].
  apply tail_call_behind; [done|]. eapply behind_adv; [|exact Hb].
  etransitivity; [|apply adv_prev]. destruct (negb _); by apply adv_g.
Qed.

Lemma step_over_ok e st fr ahead f rest :
  fs = ahead ++ f :: rest -> scanning st ahead -> accounted evs0 pc st (ahead ++ [f]) -> readable_frame f -> header_of fr f ->
  remaining (g_ctx st) = frame_size fr + zlen (frames_bytes rest) -> s32 (pos (g_ctx st) + frame_size fr) = zlen (frames_bytes (ahead ++ [f])) ->
  match step_over_frame e st fr with
  | inl o => outcome_ok o
  | inr (inl st') | inr (inr st') => before st'
  end.
Proof.
  intros Hfs Hsc Hacc (_ & _ & _ & Hdata) (_ & Hty & _ & Hsid) Hrem Hnext. unfold step_over_frame.
  assert (is_invalid_frame fr = false) as ->.
  { unfold is_invalid_frame. rewrite Hty, Hsid. destruct (Z.eqb_spec (fr_type f) FrameData) as [E|]; [|done]. apply Z.eqb_neq. auto. }
  cbv zeta.
  assert (Hafter : match (if remaining (g_ctx st) <=? frame_size fr then inr (inl (set_g st (set_terminate (g_ctx st))))
      else inr (inr (set_g st (set_pos (g_ctx st) (s32 (pos (g_ctx st) + frame_size fr)))))) with
    | inl o => outcome_ok o | inr (inl st') | inr (inr st') => before st' end).
  { pose proof (accounted_app_l _ _ _ _ _ Hacc) as Ha. pose proof Hsc as [H1 H2 H3 H4 H5 H6]. destruct (Z.leb_spec (remaining (g_ctx st)) (frame_size fr)).
    - assert (rest = []) as ->.
      { destruct rest as [|f' rest]; [done|]. rewrite frames_bytes_cons, zlen_app, frame_bytes_zlen in Hrem.
        pose proof (zlen_nonneg (fr_payload f')). pose proof (zlen_nonneg (frames_bytes rest)). kunfold. lia. }
      exists ahead, f, []. split; [done|]. split; [|exact Ha]. constructor; try done. intros _. rewrite Hfs. exact Hacc.
    - destruct rest as [|f' rest]; [change (zlen (frames_bytes [])) with 0 in Hrem; lia|].
      exists (ahead ++ [f]), f', rest. split; [by rewrite <- app_assoc|]. split; [|exact Hacc]. by constructor. }
  destruct (http_grpc_data_stream_ended fr); [|exact Hafter].
  pose proof (data_end_ok e st fr) as Hd. destruct (handle_data_stream_end e st fr) as [o|st'].
  - apply Hd. by exists ahead, f, rest.
  - rewrite Hd; [exact Hafter|]. by exists ahead, f, rest.
Qed.

Lemma push_adv st fr : adv pc st (push_promise st fr).
Proof.
  unfold push_promise. destruct (_ =? _); [|done]. cbv zeta. etransitivity; [|apply adv_poison].
  etransitivity; [|apply adv_prev]. by apply adv_g.
Qed.

Lemma loop_ok e n k st : before st -> handled_ok (frames_loop t e n k st) before.
Proof.
  revert k st. induction n as [|n IH]; intros k st; [done|]. intros (ahead & f & rest & Hfs & Hsc & Hacc). cbn [frames_loop].
  set (st1 := set_g st _). assert (A1 : adv pc st st1) by (by apply adv_g).
  pose proof (scanning_adv st st1 ahead A1 Hsc) as Hsc1. pose proof Hsc1 as [Hh _ _ Hp _ _]. pose proof Hh as Hh'. rewrite Hfs in Hh'.
  destruct (frame_at_pos ahead f rest (g_ctx st1) Hh' Hp) as (Hhd & Hsz & Hrem & Hk & Hpos & Hnext & _). cbv zeta. rewrite Hpos, Hk.
  set (fr := next_frame (g_ctx st1)) in *. set (st2 := push_promise st1 fr). assert (A2 : adv pc st st2) by (etransitivity; [exact A1|apply push_adv]).
  assert (Hok : readable_frame f) by (pose proof (holds_ok _ _ Hh') as [_ H%Forall_cons_1]%Forall_app; apply H).
  pose proof (scanning_adv st st2 ahead A2 Hsc) as Hsc2. pose proof (grows_accounted evs0 pc st st2 ahead (proj1 A2) Hacc) as Hacc2.
  set (hd := if is_headers_frame fr then _ else _).
  assert (Hhdl : handled_ok hd (fun st' => adv pc st2 st' /\ covers pc st2 st' f)).
  { unfold hd. destruct (is_headers_frame fr) eqn:Hih; [by eapply headers_ok|]. split; [done|]. by eapply not_headers. }
  destruct hd as [o|st3]; [exact Hhdl|]. destruct Hhdl as [A3 Hf].
  pose proof (scanning_adv st2 st3 ahead A3 Hsc2) as Hsc3.
  assert (A13 : adv pc st1 st3) by (etransitivity; [apply push_adv|exact A3]). destruct A13 as (_ & Hga & Hgp & _ & _).
  assert (Hs : match step_over_frame e st3 fr with inl o => outcome_ok o | inr (inl st') | inr (inr st') => before st' end).
  { eapply step_over_ok; [exact Hfs|exact Hsc3| |exact Hok|exact Hhd| |].
    - by eapply accounted_snoc; [apply A3|..].
    - unfold remaining. rewrite Hga, Hgp. exact Hrem.
    - by rewrite Hgp. }
  destruct (step_over_frame e st3 fr) as [o|[st4|st4]]; [exact Hs|exact Hs|]. by apply IH.
Qed.

Lemma frames_ok e st : before st -> outcome_ok (frames t e st).
Proof.
  intros Hb. unfold frames. pose proof (loop_ok e (Z.to_nat k_max_loop_iterations) 0 st Hb) as Hl.
  destruct (frames_loop _ _ _ _ _) as [o|st1]; [exact Hl|]. clear Hb st. cbn in Hl. cbv zeta.
  pose proof Hl as (ahead & f & rest & Hfs & Hsc & Hacc). pose proof Hsc as [Hh Hpc Hst Hp Hcn Hstop].
  destruct (negb (terminate_search (g_ctx st1)) && (iterations (g_ctx st1) <? k_iterations)); [by apply tail_call_ok|].
  pose proof Hh as Hh'. rewrite Hfs in Hh'. destruct (frame_at_pos ahead f rest (g_ctx st1) Hh' Hp) as (_ & _ & _ & _ & Hpos & _).
  assert ((pos (g_ctx st1) <? ha_bytes_len (g_args (g_ctx st1))) = true) as -> by (apply Z.leb_gt in Hpos; lia).
  rewrite andb_true_r. set (st2 := if negb _ then _ else _). set (st3 := h2_save_cut_frame st2).
  assert (A3 : adv pc st1 st3).
  { etransitivity; [|apply adv_save]. unfold st2. destruct (negb _); [apply adv_poison|done]. }
  assert (Hall : accounted evs0 pc st3 fs).
  { eapply grows_accounted; [apply adv_save|]. unfold st2. destruct (terminate_search (g_ctx st1)); [by apply Hstop|].
    apply marked_accounted. by eapply poison_marks. }
  pose proof (scanning_adv st1 st3 ahead A3 Hsc) as Hsc3. unfold handle_data_frame. cbv zeta.
  assert (Hset : settled st3) by (split; [apply Hsc3|exact Hall]).
  destruct (negb (has_prev_info (g_ctx st3)) || _); [exact Hset|]. destruct (h2_response_direction _ _); [|exact Hset].
  set (st4 := set_g st3 _). assert (A4 : adv pc st3 st4) by (apply adv_g; try done; cbn; rewrite (sc_pc _ _ Hsc3), (sc_stream _ _ Hsc3); done).
  destruct (pe_jump e 0); [|exact Hset]. exists ahead, f, rest. split; [done|]. split; [by eapply scanning_adv|].
  eapply grows_accounted; [apply A4|]. rewrite Hfs in Hall. rewrite cons_middle, app_assoc in Hall. by apply accounted_app_l in Hall.
Qed.

Lemma blocks_invariant : chain_invariant (run_prog c l t sam bl) blocks_inv settled.
Proof.
  intros p e st Hi. enough (outcome_ok (run_prog c l t sam bl p e st)) as H by exact H. destruct p; [by apply frames_ok|..];
    (apply (programs_ok c l t sam bl pc behind); [exact behind_adv|exact tail_call_behind|exact resume_ok|done|exact Hi]).
Qed.

End blocks.

(** A chain over whole frames accounts for all of them. *)
Lemma chain_accounts c l t sam bl e n st a fs d :
  holds_frames fs a -> fs <> [] -> h2_cut_frames st !! ha_pid_conn a = None -> pe_jump (limited e n) 0 = true ->
  ongoing_http2_connections (h2_maps st) !! ha_pid_conn a = Some d ->
  exists st', protocol_http2 c l t sam bl e n st a = Some st' /\ settled fs (ha_pid_conn a) (hc_id d) (h2_events st) st'.
Proof.
  intros Hh Hne Hcut Hj Hd. destruct (protocol_total c l t sam bl e n st a) as [st' Hst']. exists st'. split; [done|].
  refine (protocol_result c l t sam bl (blocks_inv fs (ha_pid_conn a) (hc_id d) (h2_events st)) _ e n st a st'
    (blocks_invariant c l t sam bl fs (ha_pid_conn a) (hc_id d) (h2_events st)) _ Hj Hst').
  destruct fs as [|f fs]; [done|].
  assert (Hr : h2_resume_cut_frame (set_g st (reset_ctx (g_ctx st) a)) = set_g st (reset_ctx (g_ctx st) a)).
  { unfold h2_resume_cut_frame. cbn. destruct (negb _); [done|]. by rewrite Hcut. }
  rewrite Hr. exists [], f, fs. split; [done|]. split; [|by right; exists [], []; rewrite app_nil_r]. constructor; try done. by exists d.
Qed.

(** C1: No header block is lost silently.  Take a buffer that holds whole frames, for a connection that is known and has no
    frame cut by an earlier receive, and a chain of programs whose first tail call succeeds.  Then the chain ends, and either the connection is
    left marked as one whose HPACK tables can no longer be followed, or the run adds to the ring, in the order of the frames, one
    event for every HEADERS frame of the buffer with the whole frame in it.  This holds when the ring refuses events, when a frame does not fit a
    capture, when any later tail call fails and when there are more frames than the scan looks at.  A HEADERS frame of at most two octets that ends its stream
    and one on stream 0 need no event.  The frames have stream identifiers below 2^24, DATA frames belong to a stream, the buffer is
    shorter than 2^30 octets, and memory is readable for one capture (256 octets) behind it. *)
Theorem h2_no_block_lost c l t sam bl e n st a fs d :
  holds_frames fs a -> fs <> [] -> h2_cut_frames st !! ha_pid_conn a = None -> pe_jump (limited e n) 0 = true ->
  ongoing_http2_connections (h2_maps st) !! ha_pid_conn a = Some d ->
  exists st', protocol_http2 c l t sam bl e n st a = Some st'
  /\ (marked (ha_pid_conn a) st'
      \/ exists new evs, h2_events st' = h2_events st ++ new /\ evs `sublist_of` new /\ Forall2 handed_over (filter header_block fs) evs).
Proof.
  intros Hh Hne Hcut Hj Hd. destruct (chain_accounts c l t sam bl e n st a fs d Hh Hne Hcut Hj Hd) as (st' & Hst' & _ & H). by exists st'.
Qed.

(** ** Witnesses *)

(** A buffer in the middle of readable memory. *)
Definition roomy_umem (l : list Z) : umem := fun i => Some (list_buf l i).

Definition example_h2_args (direction : Z) (u : umem) (n : Z) : http_args := mk_args example_pid_conn 0 direction 0 [] u n 80 None 0.

Definition frames_args (direction : Z) (fs : list h2_frame) : http_args :=
  example_h2_args direction (roomy_umem (frames_bytes fs)) (zlen (frames_bytes fs)).

Lemma roomy_agrees l : uagree (zlen l) (roomy_umem l) (list_umem l).
Proof.
  intros i Hi. unfold roomy_umem, list_umem. rewrite (proj2 (Z.leb_le 0 i)), list_buf_nth by lia. symmetry. apply nth_error_nth'. unfold zlen in Hi. lia.
Qed.

Definition readable_frameb (f : h2_frame) : bool :=
  (0 <=? fr_type f) && (fr_type f <? 256) && (0 <=? fr_flags f) && (fr_flags f <? 256) && (0 <=? fr_stream f) && (fr_stream f <? 2 ^ 24)
  && forallb byteb (fr_payload f) && (zlen (fr_payload f) <? 2 ^ 24) && negb ((fr_type f =? FrameData) && (fr_stream f =? 0)).

Lemma readable_frameb_ok f : readable_frameb f = true -> readable_frame f.
Proof.
  unfold readable_frameb. rewrite !andb_true_iff, negb_true_iff, andb_false_iff. intros ((((((((H1 & H2) & H3) & H4) & H5) & H6) & H7) & H8) & H9).
  split; [|split_and!; [lia|lia|intros E; destruct H9; lia]]. unfold frame_wf. split_and!; try lia.
  unfold is_bytes. apply Forall_forall. intros x Hx%list_elem_of_In. apply (proj1 (forallb_forall _ _) H7) in Hx. unfold byteb in Hx. lia.
Qed.

Lemma frames_args_hold direction fs :
  forallb readable_frameb fs = true -> (zlen (frames_bytes fs) <? 2 ^ 30) = true -> holds_frames fs (frames_args direction fs).
Proof.
  intros Hok Hb. constructor; [|apply roomy_agrees|done|lia|intros i _; by eexists].
  apply Forall_forall. intros f Hf%list_elem_of_In. apply readable_frameb_ok. by apply (proj1 (forallb_forall _ _) Hok).
Qed.

Definition example_h2_record : http2_grpc_request :=
  mk_h2_request k_event_type_k_http2_request 0 k_event_type_http_client 0 (pc_conn example_pid_conn) 90 0 [] [] 0 1 0 (mk_pid_info 5 5 1) 77
    (mk_tp_info (repeat 7 16) (repeat 3 8) (repeat 8 8) 90 1).

Definition example_gctx : grpc_frames_ctx := reset_ctx
  (mk_gctx example_h2_record false 0 false 0 0 0 (frames_args TCP_RECV []) (mk_stream example_pid_conn 0) (mk_candidate 0 0) empty_scan)
  (frames_args TCP_RECV []).

(** A connection that is known, with the streams [open]. *)
Definition example_h2_state (open : gmap http2_conn_stream http2_grpc_request) : h2_state :=
  mk_h2 (mk_hs (set_h2_grpc (set_h2_conns empty_tmaps {[example_pid_conn := mk_h2_conn 77 http2_conn_flag_new 0 0]}) open) ∅ ∅ ∅ [])
    [] ∅ example_gctx example_h2_record no_context [] (fun _ => 0).

Definition example_chain (n : nat) : penv :=
  mk_penv (fun k => 1000 + 10 * Z.of_nat n + Z.of_nat k) (fun _ => true) (fun _ => true) (repeat 11 8) (repeat 22 16).

(** Requests on two streams. *)
Definition example_requests : list h2_frame :=
  [mk_frame FrameHeaders 4 1 ([0x82; 0x87] ++ make_h2_tp_hpack example_wire_tp); mk_frame FrameHeaders 4 3 [0x82; 0x87]].

Lemma h2_no_block_lost_witness :
  exists st', protocol_http2 example_conf empty_links serving_task None true example_chain 2 (example_h2_state ∅)
    (frames_args TCP_RECV example_requests) = Some st'
  /\ (marked example_pid_conn st'
      \/ exists new evs, h2_events st' = h2_events (example_h2_state ∅) ++ new /\ evs `sublist_of` new
         /\ Forall2 handed_over (filter header_block example_requests) evs).
Proof.
  refine (h2_no_block_lost example_conf empty_links serving_task None true example_chain 2 (example_h2_state ∅)
    (frames_args TCP_RECV example_requests) example_requests (mk_h2_conn 77 http2_conn_flag_new 0 0) _ _ _ _ _);
    [by apply frames_args_hold; vm_compute|discriminate|vm_compute; reflexivity..].
Defined.

(** ** A capture that cannot be read *)

(** The event of a frame is filled with a read of the whole capture, not of the frame: when the buffer is
    followed by memory that cannot be read, the capture is all zeroes, and the connection is not
    marked. *)
Example short_buffer_capture_lost :
  let fs := [mk_frame FrameHeaders 4 1 [0x82; 0x87; 0x84]] in
  (fun st' => (map (fun ev => (hr_flags ev, hr_len ev, forallb (Z.eqb 0) (hr_data ev))) (h2_events st'),
               ongoing_http2_connections (h2_maps st') !! example_pid_conn))
  <$> protocol_http2 example_conf empty_links serving_task None true example_chain 2 (example_h2_state ∅)
        (example_h2_args TCP_RECV (list_umem (frames_bytes fs)) (zlen (frames_bytes fs)))
  = Some ([(k_event_type_k_http2_request_headers, 12, true)], Some (mk_h2_conn 77 0 0 0)).
Proof. vm_compute. reflexivity. Qed.
