(* ===== verification/H2Spans.v ===== *)
(** * The streams of a connection as a machine ([bpf/generictracer/protocol_http2.h]).

    The specification is a set of open streams and a list of reported spans: a stream that is not open
    may open, an open one may close, with its span reported, or unreported when the ring buffer is
    full.  The chain of programs of [H2Frames] refines it on every buffer of whole frames without
    PUSH_PROMISE; with PUSH_PROMISE it does not. *)

From Stdlib Require Import ZArith Lia ZifyBool List Bool.
From stdpp Require Import base list countable gmap.
From S2P Require Import Prelude TraceUtil Sampling H2Defs H2Sniff H2Huffman HpackParse H2Txn H2Inject H2Send Entry.
From S2P Require Import ConnInfo LargeBuf HttpInfo TraceMaps TraceParent TraceLife HttpSpan HttpTrace H2Stream H2Frames H2Walk.

Local Open Scope Z_scope.

(** ** The machine *)

(** The marks of unreadable header blocks are not part of a span. *)
Definition strip (r : http2_grpc_request) : http2_grpc_request := set_hpack_flags r 0.

Record streams := mk_streams {
  open_streams : gmap http2_conn_stream http2_grpc_request;
  reported : list http2_grpc_request
}.

Inductive streams_step : streams -> streams -> Prop :=
  | stream_opens o rep k r :
      o !! k = None -> hr_stream_id r = cs_stream_id k -> hr_end_monotime_ns r = 0 ->
      streams_step (mk_streams o rep) (mk_streams (<[k := r]> o) rep)
  | stream_reported o rep k r now ret :
      o !! k = Some r -> streams_step (mk_streams o rep) (mk_streams (delete k o) (rep ++ [set_h2_end r now ret]))
  | stream_dropped o rep k r :
      o !! k = Some r -> streams_step (mk_streams o rep) (mk_streams (delete k o) rep).

Definition is_span (r : http2_grpc_request) : Prop := hr_flags r = k_event_type_k_http2_request.

#[export] Instance is_span_dec r : Decision (is_span r).
Proof. unfold is_span. apply _. Defined.

(** The streams the handler keeps records of, and the spans among its events. *)
Definition streams_of (st : h2_state) : streams :=
  mk_streams (strip <$> ongoing_http2_grpc (h2_maps st)) (strip <$> filter is_span (h2_events st)).

(** Every record in the map is that of a span. *)
Definition records_ok (st : h2_state) : Prop := map_Forall (fun _ r => is_span r) (ongoing_http2_grpc (h2_maps st)).

(** ** Changes the machine does not see *)

Definition unseen (st st' : h2_state) : Prop := streams_of st' = streams_of st /\ (records_ok st -> records_ok st').

#[export] Instance unseen_preorder : PreOrder unseen.
Proof. split; [by split|]. intros st1 st2 st3 [Ha Hb] [Hc Hd]. split; [congruence|auto]. Qed.

Lemma strip_poison fl r : strip (poison_request fl r) = strip r.
Proof. unfold poison_request. cbv zeta. by destruct (nz (Z.land fl h2_hpack_req_unreliable)), (nz (Z.land fl h2_hpack_resp_unreliable)). Qed.

Lemma strip_span r r' : strip r = strip r' -> is_span r -> is_span r'.
Proof. intros H. apply (f_equal hr_flags) in H. cbn in H. unfold is_span. by rewrite H. Qed.

Lemma alter_poison fl s (m : gmap http2_conn_stream http2_grpc_request) : strip <$> alter (poison_request fl) s m = strip <$> m.
Proof.
  apply map_eq. intros k. rewrite !lookup_fmap. destruct (decide (k = s)) as [->|]; [|by rewrite lookup_alter_ne].
  rewrite lookup_alter_eq. destruct (m !! s); [|done]. cbn. by rewrite strip_poison.
Qed.

Lemma unseen_poison st s prev fl : unseen st (http2_poison_hpack st s prev fl).
Proof.
  split; [unfold streams_of; by rewrite poison_streams, alter_poison|]. intros Hr k r. rewrite poison_streams.
  destruct (decide (k = s)) as [->|]; [|rewrite lookup_alter_ne by done; apply Hr]. rewrite lookup_alter_eq.
  intros (r0 & Hr0 & ->)%fmap_Some_1. eapply strip_span; [symmetry; apply strip_poison|by eapply Hr].
Qed.

Lemma unseen_same st st' :
  h2_events st' = h2_events st -> ongoing_http2_grpc (h2_maps st') = ongoing_http2_grpc (h2_maps st) -> unseen st st'.
Proof. intros He Hm. unfold unseen, streams_of, records_ok. by rewrite He, Hm. Qed.

Lemma unseen_save st : unseen st (h2_save_cut_frame st).
Proof. destruct (cuts_same st) as (He & Hs & _). apply unseen_same; [done|]. unfold h2_maps. by rewrite Hs. Qed.

Lemma unseen_emit t e k st fr ty st' ok :
  http2_emit_hpack_event t e k st fr ty = (st', ok) -> ty <> k_event_type_k_http2_request -> unseen st st' /\ g_ctx st' = g_ctx st
  /\ ongoing_http2_grpc (h2_maps st') = ongoing_http2_grpc (h2_maps st).
Proof.
  intros H Hty. apply emit_spec in H as [H0 H1]. destruct ok; [|by rewrite H0].
  destruct (H1 eq_refl) as (ev & fl & He & Hg & Hm & _ & Hev & _). split; [|done]. unfold unseen, streams_of, records_ok.
  rewrite He, Hm, filter_app, filter_cons_False by (unfold is_span; congruence). by rewrite filter_nil, app_nil_r.
Qed.

(** The copy in the frame context is that of the stream's record. *)
Definition tracked (st : h2_state) : Prop :=
  exists r, ongoing_http2_grpc (h2_maps st) !! g_stream (g_ctx st) = Some r /\ strip r = strip (prev_info (g_ctx st)).

Lemma tracked_poison st fl : tracked st -> tracked (http2_poison_hpack st (g_stream (g_ctx st)) true fl).
Proof.
  intros (r & Hr & Hs). exists (poison_request fl r). rewrite poison_streams. cbn. rewrite lookup_alter_eq, Hr.
  split; [done|]. by rewrite !strip_poison.
Qed.

Section refinement.
Variables (c : tconf) (l : links) (t : task) (sam : option sampler) (bl : bool).
Variables (fs : list h2_frame) (pc : pid_connection_info) (s0 : streams).
Hypothesis no_push : Forall (fun f => fr_type f <> FramePushPromise) fs.

(** The machine has followed so far, and the scan stands at a frame. *)
Definition followed (st : h2_state) : Prop := rtc streams_step s0 (streams_of st) /\ records_ok st.

Record core (st : h2_state) : Prop := mk_core {
  co_at : exists ahead f rest, fs = ahead ++ f :: rest /\ pos (g_ctx st) = zlen (frames_bytes ahead);
  co_holds : holds_frames fs (g_args (g_ctx st));
  co_pc : ha_pid_conn (g_args (g_ctx st)) = pc;
  co_stream : cs_pid_conn (g_stream (g_ctx st)) = pc;
  co_followed : followed st
}.

Lemma followed_unseen st st' : unseen st st' -> followed st -> followed st'.
Proof. intros [Hs Hr] [Hf Ho]. split; [by rewrite Hs|auto]. Qed.

Lemma core_keep st st' :
  core st -> followed st' -> g_args (g_ctx st') = g_args (g_ctx st) -> pos (g_ctx st') = pos (g_ctx st) ->
  cs_pid_conn (g_stream (g_ctx st')) = cs_pid_conn (g_stream (g_ctx st)) -> core st'.
Proof. intros [H1 H2 H3 H4 H5] Hf Ha Hp Hs. constructor; rewrite ?Ha, ?Hp, ?Hs; done. Qed.

Lemma core_unseen st st' :
  core st -> unseen st st' -> g_args (g_ctx st') = g_args (g_ctx st) -> pos (g_ctx st') = pos (g_ctx st) ->
  cs_pid_conn (g_stream (g_ctx st')) = cs_pid_conn (g_stream (g_ctx st)) -> core st'.
Proof. intros Hc Hu. apply core_keep; [done|]. eapply followed_unseen; [exact Hu|apply Hc]. Qed.

(** The stream the end of the scan would close is the one the context describes. *)
Definition saved_ok (st : h2_state) : Prop :=
  has_prev_info (g_ctx st) = true -> saved_stream_id (g_ctx st) <> 0 ->
  saved_stream_id (g_ctx st) = cs_stream_id (g_stream (g_ctx st)) /\ tracked st.

Definition no_record (st : h2_state) : Prop :=
  has_prev_info (g_ctx st) = false /\ ongoing_http2_grpc (h2_maps st) !! g_stream (g_ctx st) = None.

(** The record a server's stream will get. *)
Definition prepared (st : h2_state) : Prop :=
  is_span (http2_info_mem st) /\ hr_stream_id (http2_info_mem st) = cs_stream_id (g_stream (g_ctx st))
  /\ hr_end_monotime_ns (http2_info_mem st) = 0.

Definition span_inv (p : h2_prog) (st : h2_state) : Prop :=
  core st /\
  match p with
  | P_frames => saved_ok st
  | P_end => has_prev_info (g_ctx st) = true /\ saved_ok st /\ tracked st
  | P_start => no_record st
  | _ => no_record st /\ prepared st
  end.

Definition span_outcome (o : outcome) : Prop :=
  match o with (st, Some q) => span_inv q st | (st, None) => followed st end.

Definition span_handled (o : handled) (P : h2_state -> Prop) : Prop :=
  match o with left_program o => span_outcome o | goes_on st => P st end.

Lemma tail_call_span j st p : span_inv p st -> span_outcome (h2_tail_call j st p finished).
Proof.
  intros Hi. unfold h2_tail_call. destruct j; [exact Hi|]. cbn. eapply followed_unseen; [apply unseen_poison|]. apply Hi.
Qed.

Lemma resume_span j st : core st -> saved_ok st -> span_outcome (resume_frame_scan j st).
Proof.
  intros Hc Hs. pose proof Hc as [(ahead & f & rest & Hfs & Hp) Hh Hpc Hst Hf]. pose proof Hh as Hh'. rewrite Hfs in Hh'.
  destruct (frame_at_pos ahead f rest (g_ctx st) Hh' Hp) as (_ & _ & _ & Hk & _ & _ & Hnext).
  unfold resume_frame_scan. cbv zeta. rewrite Hk. cbn [negb]. set (g := set_pos (g_ctx st) _).
  destruct (negb (terminate_search g) && (pos g <? ha_bytes_len (g_args g))) eqn:Hgo.
  - apply andb_prop in Hgo as [_ Hlt%Z.ltb_lt]. destruct rest as [|f' rest].
    { cbn [g set_pos pos g_args] in Hlt. rewrite Hnext, (holds_len _ _ Hh), <- Hfs in Hlt. lia. }
    apply tail_call_span. split; [|exact Hs]. constructor; try done. exists (ahead ++ [f]), f', rest. split; [by rewrite <- app_assoc|done].
  - cbn. eapply followed_unseen; [apply unseen_save|]. exact Hf.
Qed.

Lemma update_prev_spec st :
  let st' := update_prev_info st in
  unseen st st' /\ g_args (g_ctx st') = g_args (g_ctx st) /\ pos (g_ctx st') = pos (g_ctx st)
  /\ g_stream (g_ctx st') = g_stream (g_ctx st) /\ saved_stream_id (g_ctx st') = saved_stream_id (g_ctx st)
  /\ h2_maps st' = h2_maps st
  /\ (if has_prev_info (g_ctx st') then tracked st' else no_record st').
Proof.
  unfold update_prev_info. cbv zeta. destruct (_ !! _) as [r|] eqn:Hr; cbn [set_g g_ctx has_prev_info set_prev];
    (split_and!; [by apply unseen_same|done..|]); [by exists r|done].
Qed.

(** Marks of the stream the context describes. *)
Lemma poison_span st prev fl :
  core st -> core (http2_poison_hpack st (g_stream (g_ctx st)) prev fl)
  /\ (tracked st -> prev = true -> tracked (http2_poison_hpack st (g_stream (g_ctx st)) prev fl))
  /\ (no_record st -> no_record (http2_poison_hpack st (g_stream (g_ctx st)) prev fl))
  /\ has_prev_info (g_ctx (http2_poison_hpack st (g_stream (g_ctx st)) prev fl)) = has_prev_info (g_ctx st)
  /\ saved_stream_id (g_ctx (http2_poison_hpack st (g_stream (g_ctx st)) prev fl)) = saved_stream_id (g_ctx st)
  /\ g_stream (g_ctx (http2_poison_hpack st (g_stream (g_ctx st)) prev fl)) = g_stream (g_ctx st)
  /\ http2_info_mem (http2_poison_hpack st (g_stream (g_ctx st)) prev fl) = http2_info_mem st.
Proof.
  intros Hc. split; [eapply core_unseen; [exact Hc|apply unseen_poison|by destruct prev..]|]. split; [intros Ht ->; by apply tracked_poison|].
  split; [|by destruct prev]. intros [Hn Ha]. unfold no_record. rewrite poison_streams.
  assert (g_stream (g_ctx (http2_poison_hpack st (g_stream (g_ctx st)) prev fl)) = g_stream (g_ctx st)) as -> by (by destruct prev).
  rewrite lookup_alter_eq, Ha. split; [by destruct prev|done].
Qed.

(** The event of a header frame and the marks that go with it. *)
Lemma emit_span e k st fr ty prev fl cap st1 ok :
  core st -> ty <> k_event_type_k_http2_request -> http2_emit_hpack_event t e k st fr ty = (st1, ok) ->
  let st2 := if ok then st1 else http2_poison_hpack st1 (g_stream (g_ctx st1)) prev fl in
  let st3 := if cap <? frame_size fr then http2_poison_hpack st2 (g_stream (g_ctx st2)) prev fl else st2 in
  core st3 /\ (tracked st -> prev = true -> tracked st3) /\ (no_record st -> no_record st3)
  /\ has_prev_info (g_ctx st3) = has_prev_info (g_ctx st) /\ saved_stream_id (g_ctx st3) = saved_stream_id (g_ctx st)
  /\ g_stream (g_ctx st3) = g_stream (g_ctx st).
Proof.
  intros Hc Hty Hem st2 st3. destruct (unseen_emit t e k st fr ty st1 ok Hem Hty) as (Hu & Hg & Hm).
  assert (C1 : core st1) by (eapply core_unseen; [exact Hc|exact Hu|by rewrite Hg..]).
  assert (H2 : core st2 /\ (tracked st1 -> prev = true -> tracked st2) /\ (no_record st1 -> no_record st2)
    /\ has_prev_info (g_ctx st2) = has_prev_info (g_ctx st1) /\ saved_stream_id (g_ctx st2) = saved_stream_id (g_ctx st1)
    /\ g_stream (g_ctx st2) = g_stream (g_ctx st1)).
  { unfold st2. destruct ok; [done|]. destruct (poison_span st1 prev fl C1) as (? & ? & ? & ? & ? & ? & _). done. }
  destruct H2 as (C2 & T2 & A2 & P2 & S2 & G2).
  assert (H3 : core st3 /\ (tracked st2 -> prev = true -> tracked st3) /\ (no_record st2 -> no_record st3)
    /\ has_prev_info (g_ctx st3) = has_prev_info (g_ctx st2) /\ saved_stream_id (g_ctx st3) = saved_stream_id (g_ctx st2)
    /\ g_stream (g_ctx st3) = g_stream (g_ctx st2)).
  { unfold st3. destruct (_ <? _); [|done]. destruct (poison_span st2 prev fl C2) as (? & ? & ? & ? & ? & ? & _). done. }
  destruct H3 as (C3 & T3 & A3 & P3 & S3 & G3).
  assert (Ht : tracked st -> tracked st1) by (unfold tracked; by rewrite Hm, Hg).
  assert (Ha : no_record st -> no_record st1) by (unfold no_record; by rewrite Hm, Hg).
  split_and!; [done|auto|auto|congruence..].
Qed.

Lemma headers_span e k st fr :
  core st -> span_handled (handle_headers_frame t e k st fr) (fun st' => core st' /\ saved_ok st').
Proof.
  intros Hc. unfold handle_headers_frame. set (sta := set_g st _). destruct (update_prev_spec sta) as (Hu & Ha & Hp & Hg & _ & _ & Ht).
  set (st0 := update_prev_info sta) in *. cbv zeta.
  assert (C0 : core st0).
  { eapply core_unseen; [exact Hc| |by rewrite Ha|by rewrite Hp|by rewrite Hg]. etransitivity; [|exact Hu]. by apply unseen_same. }
  destruct (has_prev_info (g_ctx st0)) eqn:Hprev.
  - set (st1 := set_g st0 _). assert (C1 : core st1) by (eapply core_unseen; [exact C0|by apply unseen_same|done..]).
    set (resp := _ =? _). set (ty := if resp then _ else _).
    destruct (http2_emit_hpack_event _ _ _ st1 _ ty) as [st2 ok] eqn:Hem.
    destruct (emit_span e k st1 fr ty true (if resp then h2_hpack_resp_unreliable else h2_hpack_req_unreliable)
      (if resp then k_kprobes_http2_ret_buf_size else k_kprobes_http2_buf_size) st2 ok C1) as (C3 & T3 & _ & P3 & S3 & G3);
      [by unfold ty; destruct resp|exact Hem|].
    set (st3 := if _ <? frame_size fr then _ else _) in *.
    assert (Htr : tracked st3) by (by apply T3).
    assert (Hsv : saved_ok st3) by (intros _ _; split; [rewrite S3, G3|]; done).
    destruct (http_grpc_stream_ended fr); [|done]. apply tail_call_span. split; [done|]. split; [by rewrite P3|done].
  - destruct (negb _).
    + destruct (http2_emit_hpack_event _ _ _ st0 _ _) as [st2 ok] eqn:Hem.
      destruct (emit_span e k st0 fr k_event_type_k_http2_request_headers false h2_hpack_req_unreliable k_kprobes_http2_buf_size st2 ok C0)
        as (C3 & _ & A3 & _); [done|exact Hem|].
      apply tail_call_span. split; [done|]. by apply A3.
    + split; [done|]. intros H. by rewrite Hprev in H.
Qed.

Lemma data_end_span e st fr : core st -> span_handled (handle_data_stream_end e st fr) (fun st' => st' = st).
Proof.
  intros Hc. unfold handle_data_stream_end. cbv zeta. destruct (_ !! _) as [info|] eqn:Hi; [|done].
  destruct (negb (h2_response_direction _ _)); [done|]. set (g := if negb _ then _ else _). set (sta := set_g st _).
  destruct (update_prev_spec sta) as (Hu & Ha & Hp & Hg & Hs & _ & Ht). set (st1 := update_prev_info sta) in *.
  assert (Hga : g_args g = g_args (g_ctx st) /\ pos g = pos (g_ctx st) /\ g_stream g = g_stream (g_ctx st) /\ saved_stream_id g = fh_stream_id fr).
  { unfold g. destruct (Z.eqb_spec (saved_stream_id (g_ctx st)) (fh_stream_id fr)); done. }
  destruct Hga as (Hga & Hgp & Hgs & Hgv).
  assert (Hkey : g_stream (g_ctx sta) = mk_stream (ha_pid_conn (g_args (g_ctx st))) (fh_stream_id fr)).
  { cbn. rewrite Hgs, (co_stream _ Hc), (co_pc _ Hc). done. }
  assert (C1 : core st1).
  { eapply core_unseen; [exact Hc| |by rewrite Ha|by rewrite Hp|rewrite Hg; cbn; by rewrite Hgs].
    etransitivity; [|exact Hu]. by apply unseen_same. }
  assert (Hprev : has_prev_info (g_ctx st1) = true).
  { unfold st1, update_prev_info. cbv zeta. rewrite Hkey. change (h2_maps sta) with (h2_maps st). by rewrite Hi. }
  rewrite Hprev in Ht. apply tail_call_span. split; [done|]. split_and!; [done| |done].
  intros _ _. split; [|done]. rewrite Hs, Hg, Hkey. cbn. exact Hgv.
Qed.

Lemma step_over_span e st fr ahead f rest :
  fs = ahead ++ f :: rest -> pos (g_ctx st) = zlen (frames_bytes ahead) -> fr = next_frame (g_ctx st) -> core st -> saved_ok st ->
  match step_over_frame e st fr with
  | inl o => span_outcome o
  | inr (inl st') | inr (inr st') => core st' /\ saved_ok st'
  end.
Proof.
  intros Hfs Hp -> Hc Hsv. pose proof Hc as [_ Hh _ _ _]. pose proof Hh as Hh'. rewrite Hfs in Hh'.
  destruct (frame_at_pos ahead f rest (g_ctx st) Hh' Hp) as (_ & _ & Hrem & _ & _ & Hnext & _). set (fr := next_frame (g_ctx st)) in *.
  assert (Hterm : core (set_g st (set_terminate (g_ctx st))) /\ saved_ok (set_g st (set_terminate (g_ctx st))))
    by (split; [eapply core_unseen; [exact Hc|by apply unseen_same|done..]|exact Hsv]).
  unfold step_over_frame. destruct (is_invalid_frame fr); [exact Hterm|]. cbv zeta.
  assert (Hafter : match (if remaining (g_ctx st) <=? frame_size fr then inr (inl (set_g st (set_terminate (g_ctx st))))
      else inr (inr (set_g st (set_pos (g_ctx st) (s32 (pos (g_ctx st) + frame_size fr)))))) with
    | inl o => span_outcome o | inr (inl st') | inr (inr st') => core st' /\ saved_ok st' end).
  { destruct (Z.leb_spec (remaining (g_ctx st)) (frame_size fr)); [exact Hterm|]. split; [|exact Hsv]. destruct Hc as [_ H2 H3 H4 H5].
    destruct rest as [|f' rest]; [change (zlen (frames_bytes [])) with 0 in Hrem; lia|].
    constructor; try done. exists (ahead ++ [f]), f', rest. split; [by rewrite <- app_assoc|done]. }
  destruct (http_grpc_data_stream_ended fr); [|exact Hafter].
  pose proof (data_end_span e st fr Hc) as Hd. destruct (handle_data_stream_end e st fr) as [o|st']; [exact Hd|].
  cbn in Hd. subst st'. exact Hafter.
Qed.

Lemma loop_span e n k st : core st -> saved_ok st -> span_handled (frames_loop t e n k st) (fun st' => core st' /\ saved_ok st').
Proof.
  revert k st. induction n as [|n IH]; intros k st Hc Hsv; [done|]. cbn [frames_loop]. set (st1 := set_g st _).
  assert (C1 : core st1) by (eapply core_unseen; [exact Hc|by apply unseen_same|done..]). assert (S1 : saved_ok st1) by exact Hsv.
  clearbody st1. clear Hc Hsv st. pose proof C1 as [(ahead & f & rest & Hfs & Hp) Hh _ _ _]. pose proof Hh as Hh'. rewrite Hfs in Hh'.
  destruct (frame_at_pos ahead f rest (g_ctx st1) Hh' Hp) as ((_ & Hty & _) & _ & _ & Hk & Hpos & _). cbv zeta. rewrite Hpos, Hk.
  set (fr := next_frame (g_ctx st1)) in *.
  assert (push_promise st1 fr = st1) as ->.
  { unfold push_promise. rewrite Hty, (proj2 (Z.eqb_neq _ _)); [done|]. rewrite Hfs in no_push. apply Forall_app in no_push as [_ H%Forall_cons_1]. apply H. }
  set (hd := if is_headers_frame fr then _ else _).
  assert (Hhd : span_handled hd (fun st' => core st' /\ saved_ok st' /\ g_args (g_ctx st') = g_args (g_ctx st1) /\ pos (g_ctx st') = pos (g_ctx st1))).
  { unfold hd. destruct (is_headers_frame fr); [|done]. pose proof (headers_span e k st1 fr C1) as H.
    destruct (handle_headers_frame t e k st1 fr) as [o|st'] eqn:Hst'; [exact H|]. destruct H.
    apply (headers_adv pc) in Hst' as (_ & ? & ? & _). by split_and!. }
  destruct hd as [o|st3]; [exact Hhd|]. destruct Hhd as (C3 & S3 & Ha3 & Hp3).
  assert (Hfr : fr = next_frame (g_ctx st3)) by (unfold fr, next_frame; by rewrite Ha3, Hp3).
  pose proof (step_over_span e st3 fr ahead f rest Hfs (eq_trans Hp3 Hp) Hfr C3 S3) as Hs.
  destruct (step_over_frame e st3 fr) as [o|[st4|st4]]; [exact Hs|exact Hs|]. apply IH; apply Hs.
Qed.

Lemma frames_span e st : core st -> saved_ok st -> span_outcome (frames t e st).
Proof.
  intros Hc Hsv. unfold frames. pose proof (loop_span e (Z.to_nat k_max_loop_iterations) 0 st Hc Hsv) as Hl.
  destruct (frames_loop _ _ _ _ _) as [o|st1]; [exact Hl|]. clear Hc Hsv st. destruct Hl as [C1 S1]. cbv zeta.
  destruct (_ && _); [by apply tail_call_span|]. set (st2 := if _ && _ then _ else _). set (st3 := h2_save_cut_frame st2).
  assert (H2 : core st2 /\ saved_ok st2).
  { unfold st2. destruct (_ && _); [|done]. unfold h2_poison_unscanned.
    destruct (poison_span st1 (has_prev_info (g_ctx st1)) h2_hpack_unreliable C1) as (C2 & T2 & _ & P2 & V2 & G2 & _). split; [done|].
    intros Hp Hn. rewrite P2 in Hp. rewrite V2 in *. destruct (S1 Hp Hn) as [Hs Ht]. rewrite G2. split; [done|]. by apply T2. }
  destruct H2 as [C2 S2]. destruct (cuts_same st2) as (He3 & Hs3 & Hg3). fold st3 in He3, Hs3, Hg3.
  assert (C3 : core st3) by (eapply core_unseen; [exact C2|apply unseen_save|by rewrite Hg3..]).
  assert (Ht3 : tracked st2 -> tracked st3) by (unfold tracked, h2_maps; by rewrite Hs3, Hg3).
  assert (S3 : saved_ok st3) by (unfold saved_ok; rewrite Hg3; intros Hp Hn; destruct (S2 Hp Hn); auto).
  clearbody st3. unfold handle_data_frame. cbv zeta.
  destruct (has_prev_info (g_ctx st3)) eqn:Hprev; [|apply C3]. unfold nz.
  destruct (Z.eqb_spec (saved_stream_id (g_ctx st3)) 0) as [|Hn]; [apply C3|]. cbn [negb orb].
  destruct (h2_response_direction _ _); [|apply C3]. destruct (S3 Hprev Hn) as [Heq Ht].
  assert (Hstr : mk_stream (ha_pid_conn (g_args (g_ctx st3))) (saved_stream_id (g_ctx st3)) = g_stream (g_ctx st3)).
  { rewrite Heq, (co_pc _ C3), <- (co_stream _ C3). by destruct (g_stream (g_ctx st3)). }
  rewrite Hstr. assert (Hid : set_g st3 (set_stream (g_ctx st3) (g_stream (g_ctx st3))) = st3) by (by destruct st3 as [? ? ? [] ? ? ? ?]).
  rewrite Hid. destruct (pe_jump e 0); [|apply C3]. split; [done|]. by split_and!.
Qed.

(** A record for a stream without one. *)
Lemma opens st st' k r :
  followed st -> ongoing_http2_grpc (h2_maps st) !! k = None -> h2_events st' = h2_events st ->
  ongoing_http2_grpc (h2_maps st') = <[k := r]> (ongoing_http2_grpc (h2_maps st)) ->
  is_span r -> hr_stream_id r = cs_stream_id k -> hr_end_monotime_ns r = 0 -> followed st'.
Proof.
  intros [Hf Ho] Hk He Hm Hr Hid Hend. split.
  - eapply rtc_r; [exact Hf|]. unfold streams_of. rewrite He, Hm, fmap_insert. apply stream_opens; [|done|done]. by rewrite lookup_fmap, Hk.
  - unfold records_ok. rewrite Hm. by apply map_Forall_insert_2.
Qed.

Lemma start_span e st : core st -> no_record st -> span_outcome (start_frame c l t sam e st).
Proof.
  intros Hc [Hn Ha]. unfold start_frame. cbv zeta. unfold http2_grpc_start. rewrite Ha. cbv zeta.
  match goal with |- context [prepare_stream t e st ?s ?u ?n ?d ?ssl ?dp] => set (st1 := prepare_stream t e st s u n d ssl dp) end.
  assert (C1 : core st1) by (eapply core_unseen; [exact Hc|by apply unseen_same|done..]).
  assert (P1 : prepared st1) by done. assert (A1 : no_record st1) by (split; [exact Hn|exact Ha]).
  destruct (negb _).
  - destruct (pe_jump e 0); [done|]. destruct (poison_span st1 false h2_hpack_unreliable C1) as (C2 & _ & A2 & Hp & _).
    apply resume_span; [exact C2|]. intros H. change (g_stream (g_ctx st)) with (g_stream (g_ctx st1)) in H. rewrite Hp in H. destruct A1. congruence.
  - match goal with |- context [start_client c l t sam e st1 ?s ?ssl ?dp] =>
      destruct (start_client_streams c l t sam e st1 s ssl dp) as (He & Hg & _ & Hm & Hi); set (st2 := start_client c l t sam e st1 s ssl dp) in * end.
    assert (F2 : followed st2).
    { eapply opens; [apply C1|exact (proj2 A1)|exact He|exact Hm|..]; rewrite Hi; apply P1. }
    apply resume_span; [eapply core_keep; [exact C1|exact F2|by rewrite Hg..]|]. unfold saved_ok. rewrite Hg. intros H. destruct A1. congruence.
Qed.

Lemma commit_span e st : core st -> no_record st -> prepared st -> span_outcome (h2_server_commit c l t sam e st).
Proof.
  intros Hc Ha (P1 & P2 & P3). unfold h2_server_commit. cbv zeta.
  match goal with |- context [http2_grpc_start_finalize_server c l t sam e st ?s ?found ?ssl ?dp] =>
    destruct (finalize_streams c l t sam e st s found ssl dp) as (He & Hg & _ & Hm & Hi);
    set (st2 := http2_grpc_start_finalize_server c l t sam e st s found ssl dp) in * end.
  assert (F2 : followed st2).
  { eapply opens; [apply Hc|exact (proj2 Ha)|exact He|exact Hm|..]; rewrite Hi; done. }
  apply resume_span; [eapply core_keep; [exact Hc|exact F2|by rewrite Hg..]|]. unfold saved_ok. rewrite Hg. intros H. destruct Ha. congruence.
Qed.

(** The end of the stream the context describes. *)
Lemma closes e st u :
  followed st -> tracked st -> followed (http2_grpc_end c l t e st (g_stream (g_ctx st)) u).
Proof.
  intros [Hf Ho] (r & Hr & Hs). destruct (end_streams c l t e st (g_stream (g_ctx st)) u) as (_ & Hm & _ & He & _ & Hrep).
  set (st' := http2_grpc_end _ _ _ _ _ _ _) in *. set (r' := prev_info (g_ctx st')) in *.
  assert (Hprev : is_span (prev_info (g_ctx st))) by (eapply strip_span; [exact Hs|by eapply Ho]).
  assert (Hspan : is_span r') by (rewrite Hrep; exact Hprev).
  assert (Hstrip : strip r' = set_h2_end (strip r) (pe_now e 0) (hr_ret_data r')) by (rewrite Hrep at 1; rewrite Hs; done).
  assert (Hlk : open_streams (streams_of st) !! g_stream (g_ctx st) = Some (strip r)) by (cbn; by rewrite lookup_fmap, Hr).
  split.
  - eapply rtc_r; [exact Hf|]. unfold streams_of at 2. rewrite Hm, fmap_delete, He, filter_app, fmap_app. destruct (pe_reserve e 0).
    + rewrite filter_cons_True, filter_nil by done. cbn [fmap list_fmap]. rewrite Hstrip. by apply stream_reported.
    + rewrite filter_nil, app_nil_r. by eapply stream_dropped.
  - intros k x. rewrite Hm. intros [_ Hx]%lookup_delete_Some. by eapply Ho.
Qed.

Lemma end_span e st : core st -> has_prev_info (g_ctx st) = true -> saved_ok st -> tracked st -> span_outcome (end_frame c l t e st).
Proof.
  intros Hc Hp Hsv Ht. unfold end_frame. cbv zeta. destruct (_ =? _); [|by apply resume_span].
  match goal with |- context [http2_grpc_end c l t e st ?s ?u] =>
    pose proof (closes e st u (co_followed _ Hc) Ht) as F1; destruct (end_streams c l t e st s u) as (_ & _ & _ & _ & Hg & _);
    set (st1 := http2_grpc_end c l t e st s u) in * end.
  apply resume_span; [|done]. eapply core_keep; [exact Hc|exact F1|cbn; by rewrite Hg..].
Qed.

Lemma span_invariant : chain_invariant (run_prog c l t sam bl) span_inv followed.
Proof.
  intros p e st [Hc Hi]. enough (span_outcome (run_prog c l t sam bl p e st)) as H by exact H.
  assert (Hkeep : forall st', core st -> h2_events st' = h2_events st -> h2_maps st' = h2_maps st -> http2_info_mem st' = http2_info_mem st ->
    g_args (g_ctx st') = g_args (g_ctx st) -> pos (g_ctx st') = pos (g_ctx st) -> g_stream (g_ctx st') = g_stream (g_ctx st) ->
    has_prev_info (g_ctx st') = has_prev_info (g_ctx st) -> no_record st /\ prepared st -> core st' /\ no_record st' /\ prepared st').
  { intros st' C He Hm Hinfo Ha Hp Hs Hpv [[A1 A2] (P1 & P2 & P3)]. split; [|unfold no_record, prepared; by rewrite Hm, Hs, Hpv, Hinfo].
    eapply core_unseen; [exact C|apply unseen_same; [done|by rewrite Hm]|done|done|by rewrite Hs]. }
  assert (Hjump : forall j st' q, core st' -> no_record st' /\ prepared st' ->
    (q = P_finalize \/ q = P_huffman \/ q = P_huffscan \/ q = P_commit) -> span_outcome (h2_tail_call j st' q finished)).
  { intros j st' q C A [->|[->|[->| ->]]]; by apply tail_call_span. }
  destruct p; cbn [run_prog] in *; [by apply frames_span|by apply start_span| | | | |apply commit_span; [done|apply Hi..]|apply end_span; [done|apply Hi..]].
  - unfold start_frame_server. destruct (h2_hpack_window _) as [n off]. destruct (parse_hpack_traceparent _ _ _) as [[found tp] cand]. cbv zeta.
    set (st1 := set_tp_mem _ _). destruct (Hkeep st1) as [C1 A1]; [done..|].
    destruct (nz found); [by apply Hjump; auto|]. destruct bl; [|by apply Hjump; auto]. destruct (nz _); by apply Hjump; auto.
  - unfold start_frame_server_huffscan, h2_server_huffscan. cbv zeta. destruct (h2_hpack_window _) as [n off].
    destruct (find_hpack_traceparent_huffman _ _ _ _) as [found scan].
    destruct (negb (nz found)); match goal with |- context [h2_tail_call _ ?x _ _] => destruct (Hkeep x) as [C1 A1] end; try done; apply Hjump; auto.
  - unfold start_frame_server_huffman. destruct bl; cbn [negb]; [|by apply Hjump; auto]. cbv zeta. destruct (h2_hpack_window _) as [n off].
    destruct (try_parse_tp_huffman_value _ _ _ _ _) as [found tp]. set (st1 := set_tp_mem _ _). destruct (Hkeep st1) as [C1 A1]; [done..|].
    destruct (nz found); [by apply Hjump; auto|]. destruct (negb _); [by apply Hjump; auto|]. destruct (_ && _).
    + match goal with |- context [h2_tail_call _ ?x _ _] => destruct (Hkeep x) as [C2 A2] end; try done; apply Hjump; auto.
    + destruct (_ =? _); [|by apply Hjump; auto]. unfold h2_tail_call at 1. set (st2 := set_g st1 _). destruct (Hkeep st2) as [C2 A2]; [done..|].
      destruct (pe_jump e 0); [done|]. apply Hjump; [| |by left].
      * by apply poison_span.
      * unfold h2_poison_unscanned. destruct (poison_span st2 (has_prev_info (g_ctx st2)) h2_hpack_unreliable C2) as (_ & _ & HA & _ & _ & HG & HI).
        destruct A2 as [A2 P2]. split; [by apply HA|]. unfold prepared. by rewrite HG, HI.
  - unfold start_frame_server_finalize. cbv zeta. destruct Hi as [Ha Hp].
    match goal with |- context [find_trace_for_server_request c ?m ?conn ?tp ?ty] =>
      pose proof (server_find_h2 c m conn tp ty) as [Hm _]; destruct (find_trace_for_server_request c m conn tp ty) as [[b1 tp1] m1] end.
    cbn [snd] in Hm. destruct (negb (valid_trace (trace_id (tpp_tp (tp_info_mem st)))));
      (apply commit_span; [eapply core_unseen; [exact Hc|by apply unseen_same|done..]| |exact Hp]); [|exact Ha].
    destruct Ha as [Ha1 Ha2]. split; [exact Ha1|]. unfold h2_maps. cbn. rewrite Hm. exact Ha2.
Qed.

End refinement.

(** C2: the streams of a connection are opened once and reported once.  On a buffer of whole frames
    without PUSH_PROMISE, whatever the tail calls and the ring buffer do, the handler's records and
    spans follow the machine: a record is added only for a stream that has none, and a span is handed
    to user space only with the record of a stream that is open, which is removed with it.  So no
    span is reported twice, and none with the record of another stream. *)
Theorem h2_streams_refine c l t sam bl e n st a fs :
  holds_frames fs a -> fs <> [] -> Forall (fun f => fr_type f <> FramePushPromise) fs ->
  h2_cut_frames st !! ha_pid_conn a = None -> pe_jump (limited e n) 0 = true -> records_ok st ->
  exists st', protocol_http2 c l t sam bl e n st a = Some st'
  /\ rtc streams_step (streams_of st) (streams_of st') /\ records_ok st'.
Proof.
  intros Hh Hne Hpush Hcut Hj Hr. destruct (protocol_total c l t sam bl e n st a) as [st' Hst']. exists st'. split; [done|].
  refine (protocol_result c l t sam bl (span_inv fs (ha_pid_conn a) (streams_of st)) _ e n st a st'
    (span_invariant c l t sam bl fs (ha_pid_conn a) (streams_of st) Hpush) _ Hj Hst').
  destruct fs as [|f fs]; [done|].
  assert (Hres : h2_resume_cut_frame (set_g st (reset_ctx (g_ctx st) a)) = set_g st (reset_ctx (g_ctx st) a)).
  { unfold h2_resume_cut_frame. cbn. destruct (negb _); [done|]. by rewrite Hcut. }
  rewrite Hres. split; [|done]. constructor; try done. by exists [], f, fs.
Qed.

(** ** Witnesses *)

(** Two calls the process has made. *)
Definition example_open : gmap http2_conn_stream http2_grpc_request :=
  {[mk_stream example_pid_conn 1 := example_h2_record;
    mk_stream example_pid_conn 3 :=
      mk_h2_request k_event_type_k_http2_request 0 k_event_type_http_client 0 (pc_conn example_pid_conn) 95 0 [] [] 0 3 0
        (mk_pid_info 5 5 1) 77 (mk_tp_info (repeat 7 16) (repeat 4 8) (repeat 8 8) 95 1)]}.

Lemma example_open_ok : records_ok (example_h2_state example_open).
Proof. unfold records_ok. cbn. apply map_Forall_insert_2; [done|]. by apply map_Forall_insert_2. Qed.

(** The answers to both. *)
Definition example_answers : list h2_frame := [mk_frame FrameHeaders 4 1 [0x88]; mk_frame FrameData 1 1 [1; 2]; mk_frame FrameHeaders 5 3 [0x88]].

Lemma h2_streams_refine_witness :
  exists st', protocol_http2 example_conf empty_links serving_task None true example_chain 2 (example_h2_state example_open)
    (frames_args TCP_RECV example_answers) = Some st'
  /\ rtc streams_step (streams_of (example_h2_state example_open)) (streams_of st') /\ records_ok st'.
Proof.
  refine (h2_streams_refine example_conf empty_links serving_task None true example_chain 2 (example_h2_state example_open)
    (frames_args TCP_RECV example_answers) example_answers _ _ _ _ _ example_open_ok);
    [by apply frames_args_hold; vm_compute|discriminate|by repeat constructor|vm_compute; reflexivity..].
Defined.

(** ** PUSH_PROMISE *)

(** A PUSH_PROMISE makes the frame context describe its stream while the HEADERS saved for the end of
    the scan are still those of another: after the headers of an answer on stream 1 and a promise on
    stream 3, the span of stream 3 is reported although it has not ended and stays open, and the
    record of stream 1 is removed unreported. *)
Example push_promise_ends_wrong_stream :
  let fs := [mk_frame FrameHeaders 4 1 [0x88]; mk_frame FramePushPromise 4 3 [0; 0; 0; 2; 0x82]] in
  (fun st' => (map (fun ev => (hr_flags ev, hr_stream_id ev)) (h2_events st'),
               map (cs_stream_id ∘ fst) (map_to_list (ongoing_http2_grpc (h2_maps st')))))
  <$> protocol_http2 example_conf empty_links serving_task None true example_chain 2 (example_h2_state example_open)
        (frames_args TCP_RECV fs)
  = Some ([(k_event_type_k_http2_response_headers, 1); (k_event_type_k_http2_request, 3)], [3]).
Proof. vm_compute. reflexivity. Qed.
