(* ===== verification/H2Cut.v ===== *)
(** * Frames cut by a read ([h2_save_cut_frame], [h2_resume_cut_frame] of
      [bpf/generictracer/protocol_http2.h]).

    A receive may end inside a frame.  What is saved then, and how the next receive continues: with
    the bytes kept of a small HEADERS frame or of a frame header put in front, or with the rest of a
    larger frame skipped.  A frame may be cut by any number of receives; the chain of programs that handles
    each of them saves the same again. *)

From Stdlib Require Import ZArith Lia ZifyBool List Bool.
From stdpp Require Import base list countable gmap.
From S2P Require Import Prelude TraceUtil Sampling H2Defs H2Sniff H2Huffman HpackParse H2Txn H2Inject H2Send Entry IovIter.
From S2P Require Import ConnInfo LargeBuf HttpInfo TraceMaps TraceParent TraceLife HttpSpan HttpTrace H2Stream H2Frames H2Walk.

Local Open Scope Z_scope.

(** ** Receives *)

(** A receive the handler sees whole. *)
Record receives (pc : pid_connection_info) (a : http_args) (r : list Z) : Prop := mk_receives {
  re_bytes : uagree (zlen r) (ha_u_buf a) (list_umem r);
  re_len : ha_bytes_len a = zlen r;
  re_bound : 0 < zlen r < k_iovec_max_len;
  re_recv : ha_direction a = TCP_RECV;
  re_pc : ha_pid_conn a = pc
}.

(** The bytes the scan has in front of it. *)
Definition unread (st : h2_state) (x : list Z) : Prop :=
  let g := g_ctx st in
  uagree (zlen x) (ushift (ha_u_buf (g_args g)) (pos g)) (list_umem x) /\ ha_bytes_len (g_args g) - pos g = zlen x.

(** A frame whose type and size the tracer accepts. *)
Definition plausible (f : h2_frame) : Prop :=
  readable_frame f /\ fr_type f <= FrameContinuation /\ zlen (fr_payload f) <= k_h2_default_max_frame_size.

(** Too short for a header, or starts with one the tracer accepts. *)
Definition plausible_start (x : list Z) : Prop :=
  zlen x < k_frame_header_len \/ h2_frame_header_plausible (list_umem x) = true.

Lemma receives_tracks pc a r g : receives pc a r -> g_args g = a -> h2_tracks_cut_frames g = true.
Proof. intros [_ Hl Hb Hd _] Ha. unfold h2_tracks_cut_frames. rewrite Ha, Hd, Hl. kunfold. apply andb_true_intro. split; [done|lia]. Qed.

Lemma plausible_ext n u u' : k_frame_header_len <= n -> uagree n u u' -> h2_frame_header_plausible u = h2_frame_header_plausible u'.
Proof.
  intros Hn Hu. unfold h2_frame_header_plausible. rewrite (probe_read_ext _ u u'); [done|]. eapply uagree_le; [exact Hu|]. kunfold. lia.
Qed.

(** The bytes of a receive from an offset on. *)
Lemma receives_from pc a x y : receives pc a (x ++ y) -> uagree (zlen y) (ushift (ha_u_buf a) (zlen x)) (list_umem y).
Proof.
  intros [Hb _ _ _ _] i Hi. rewrite <- (list_umem_shift x y (zlen y)) by lia. unfold ushift. apply Hb. rewrite zlen_app.
  pose proof (zlen_nonneg x). lia.
Qed.

Lemma plausible_at pc a x y :
  receives pc a (x ++ y) -> plausible_start y -> (zlen y <? k_frame_header_len) || h2_frame_header_plausible (ushift (ha_u_buf a) (zlen x)) = true.
Proof.
  intros Hr [Hs|Hp]; [apply orb_true_intro; left; lia|]. destruct (Z.ltb_spec (zlen y) k_frame_header_len); [done|]. cbn [orb].
  rewrite (plausible_ext (zlen y) _ (list_umem y)); [done|lia|]. by eapply receives_from.
Qed.

(** What is remembered of a frame of which [q] was received: the octets, when the header is not complete or the frame is a
    HEADERS frame that fits a capture; else how many octets are still to be skipped. *)
Definition keeps (q : list Z) (f : h2_frame) : bool :=
  (zlen q <? k_frame_header_len)
  || ((fr_type f =? FrameHeaders) && nz (fr_stream f) && (zlen (frame_bytes f) <=? k_kprobes_http2_buf_size)).

Definition saved_as (q : list Z) (f : h2_frame) : h2_cut_frame :=
  if keeps q f then mk_cut 0 (zlen q) q else mk_cut (zlen (frame_bytes f) - zlen q) 0 [].

Definition nothing_cut (o : option h2_cut_frame) : Prop := match o with Some c => cut_skip c = 0 /\ cut_len c = 0 | None => True end.

(** Where a scan ends that ends inside a frame: on it, or, when other programs were called for it, behind it. *)
Definition stands_at (g : grpc_frames_ctx) (pre q : list Z) (f : h2_frame) : Prop :=
  pos g = zlen pre \/ (keeps q f = false /\ pos g = zlen pre + zlen (frame_bytes f)).

(** ** The end of the first receive *)

(** The nine octets of the header are there. *)
Lemma prefix_header f q x :
  frame_bytes f = q ++ x -> k_frame_header_len <= zlen q ->
  exists q', q = (be_bytes 3 (zlen (fr_payload f)) ++ [fr_type f; fr_flags f] ++ be_bytes 4 (fr_stream f)) ++ q'.
Proof.
  rewrite frame_bytes_header. set (h := be_bytes 3 _ ++ _). intros He Hq.
  assert (Hh : zlen h = 9) by (unfold h; rewrite !zlen_app, be_bytes_3, be_bytes_4; done).
  exists (drop 9 q). apply (f_equal (take 9)) in He. rewrite !take_app_le in He by (unfold zlen in *; kunfold; lia).
  rewrite (take_ge h) in He by (unfold zlen in *; lia). by rewrite He, take_drop.
Qed.

Section cut.
Variables (st : h2_state) (pc : pid_connection_info) (pre q x : list Z) (f : h2_frame).
Hypothesis first : receives pc (g_args (g_ctx st)) (pre ++ q).
Hypothesis at_boundary : pos (g_ctx st) = zlen pre.
Hypothesis frame_split : frame_bytes f = q ++ x.
Hypothesis inside : 0 < zlen q /\ 0 < zlen x.
Hypothesis frame_plausible : plausible f.

Lemma frame_zlen : zlen (frame_bytes f) = zlen q + zlen x.
Proof. by rewrite frame_split, zlen_app. Qed.

Lemma q_remaining : remaining (g_ctx st) = zlen q.
Proof.
  destruct first as [_ Hl Hb _ _]. rewrite zlen_app in Hl, Hb. pose proof (zlen_nonneg pre). unfold remaining.
  rewrite Hl, at_boundary, wrap_small; kunfold; lia.
Qed.

Lemma q_small : zlen q < k_iovec_max_len.
Proof. destruct first as [_ _ Hb _ _]. rewrite zlen_app in Hb. pose proof (zlen_nonneg pre). lia. Qed.

Lemma cut_header :
  k_frame_header_len <= zlen q ->
  let fr := next_frame (g_ctx st) in
  header_of fr f /\ frame_size fr = zlen (frame_bytes f) /\ is_headers_frame fr = (fr_type f =? FrameHeaders) && nz (fr_stream f)
  /\ is_invalid_frame fr = false /\ h2_frame_plausible fr = true.
Proof.
  intros Hq fr. destruct frame_plausible as (((Ht & Hf & Hs0 & Hbp) & Hlen & Hs & Hdata) & Hty & Hmax).
  destruct (prefix_header f q x frame_split Hq) as [q' Hqe].
  assert (Hh : header_of fr f).
  { unfold fr, next_frame. rewrite at_boundary. destruct first as [Hb _ _ _ _]. rewrite Hqe in Hb.
    pose proof (probe_read_within pre (be_bytes 3 (zlen (fr_payload f)) ++ [fr_type f; fr_flags f] ++ be_bytes 4 (fr_stream f)) q' _ Hb) as Hp.
    change (length _) with (Z.to_nat k_frame_header_len) in Hp. rewrite Hp.
    pose proof (zlen_nonneg (fr_payload f)).
    destruct (ntoh_header (zlen (fr_payload f)) (fr_type f) (fr_flags f) (fr_stream f)) as [ign ->]; [lia|lia|]. by split_and!. }
  split; [done|]. destruct Hh as (Hl & Hty' & _ & Hsid). split_and!.
  - unfold frame_size. rewrite Hl, frame_bytes_zlen, wrap_small; kunfold; pose proof (zlen_nonneg (fr_payload f)); lia.
  - unfold is_headers_frame. by rewrite Hty', Hsid.
  - unfold is_invalid_frame. rewrite Hty', Hsid. destruct (Z.eqb_spec (fr_type f) FrameData) as [E|]; [|done]. apply Z.eqb_neq. auto.
  - unfold h2_frame_plausible. rewrite Hty', Hl. apply andb_true_intro. split; lia.
Qed.

Lemma keeps_at : h2_keeps_cut_frame (g_ctx st) (next_frame (g_ctx st)) = keeps q f.
Proof.
  pose proof frame_zlen as Hf. unfold h2_keeps_cut_frame, keeps. rewrite (receives_tracks _ _ _ (g_ctx st) first eq_refl), q_remaining. cbn [negb].
  destruct (Z.ltb_spec (zlen q) k_frame_header_len) as [|Hbig]; [done|]. cbn [orb]. destruct (cut_header Hbig) as (_ & -> & -> & _).
  by rewrite (proj2 (Z.ltb_lt (zlen q) _)), andb_true_r by lia.
Qed.

Lemma saved_cut :
  cut_of (g_ctx st) = Some (saved_as q f).
Proof.
  pose proof frame_zlen as Hf. pose proof q_remaining as Hr. pose proof q_small as Hs. pose proof first as [Hb Hl Hbd _ _]. pose proof (zlen_nonneg pre).
  unfold cut_of, saved_as. rewrite (receives_tracks _ _ _ (g_ctx st) first eq_refl), keeps_at. cbn [negb]. unfold keeps.
  rewrite Hl, at_boundary. rewrite zlen_app in *. rewrite !wrap_small by (kunfold; lia).
  rewrite (proj2 (Z.ltb_ge (zlen pre + zlen q) (zlen pre))), (proj2 (Z.ltb_lt (zlen pre) (zlen pre + zlen q))) by lia.
  replace (zlen pre + zlen q - zlen pre) with (zlen q) by lia. set (fr := next_frame (g_ctx st)).
  assert (Hkept : zlen q <= k_kprobes_http2_buf_size ->
    mk_cut 0 (clamp_umax (zlen q) k_kprobes_http2_buf_size)
      (probe_read0 (ushift (ha_u_buf (g_args (g_ctx st))) (clamp_umax (zlen pre) k_iovec_max_len)) (Z.to_nat (clamp_umax (zlen q) k_kprobes_http2_buf_size)))
    = mk_cut 0 (zlen q) q).
  { intros Hle. unfold clamp_umax. rewrite (proj2 (Z.leb_le _ _) Hle), (proj2 (Z.leb_le (zlen pre) k_iovec_max_len)) by lia. f_equal.
    unfold probe_read0. assert (Hb' : uagree (zlen (pre ++ q ++ [])) (ha_u_buf (g_args (g_ctx st))) (list_umem (pre ++ q ++ []))) by (rewrite app_nil_r; rewrite zlen_app; exact Hb).
    replace (Z.to_nat (zlen q)) with (length q) by (unfold zlen; lia). by rewrite (probe_read_within pre q [] _ Hb'). }
  destruct (Z.ltb_spec (zlen q) k_frame_header_len) as [Hsm|Hbig]; cbn [orb].
  { rewrite Hkept by (kunfold; lia). cbn [cut_skip cut_len]. unfold nz. rewrite (proj2 (Z.eqb_neq (zlen q) 0)) by lia. done. }
  destruct (cut_header Hbig) as (_ & Hsz & Hih & Hinv & Hpl). fold fr in Hsz, Hih, Hinv, Hpl. rewrite Hsz, Hinv, Hpl.
  rewrite (proj2 (Z.leb_gt (zlen (frame_bytes f)) (zlen q))) by lia. set (hd := (fr_type f =? FrameHeaders) && nz (fr_stream f)). destruct (hd && _) eqn:Hk.
  - apply andb_prop in Hk as [_ Hk%Z.leb_le]. rewrite Hkept by lia. cbn [cut_skip cut_len]. unfold nz. rewrite (proj2 (Z.eqb_neq (zlen q) 0)) by lia. done.
  - cbn [negb orb cut_skip cut_len]. unfold nz. by rewrite (proj2 (Z.eqb_neq (zlen (frame_bytes f) - zlen q) 0)) by lia.
Qed.

End cut.

(** Wherever the scan ended, the same is saved. *)
Lemma saved_anywhere st pc pre q x f :
  receives pc (g_args (g_ctx st)) (pre ++ q) -> stands_at (g_ctx st) pre q f -> frame_bytes f = q ++ x -> 0 < zlen q /\ 0 < zlen x -> plausible f ->
  h2_cut_frames (h2_save_cut_frame st) !! pc = Some (saved_as q f).
Proof.
  intros Hr Hat Hf Hin Hpl. enough (cut_of (g_ctx st) = Some (saved_as q f)) as Hc.
  { unfold h2_save_cut_frame. cbv zeta. rewrite Hc. cbn. rewrite (re_pc _ _ _ Hr). apply lookup_insert_eq. }
  destruct Hat as [Hp|[Hk Hp]]; [by apply (saved_cut st pc pre q x f)|]. unfold cut_of, saved_as. rewrite (receives_tracks _ _ _ (g_ctx st) Hr eq_refl), Hk.
  pose proof Hr as [_ Hl Hb _ _]. rewrite zlen_app in Hl, Hb. pose proof (zlen_nonneg pre). pose proof (f_equal zlen Hf) as Hz. rewrite zlen_app in Hz.
  destruct Hpl as (_ & _ & Hmax). pose proof (frame_bytes_zlen f) as Hfz. cbn [negb]. rewrite Hl, Hp, !wrap_small by (kunfold; lia).
  rewrite (proj2 (Z.ltb_lt (zlen pre + zlen q) _)) by lia. cbn [cut_skip cut_len]. unfold nz.
  rewrite (proj2 (Z.eqb_neq (zlen pre + zlen (frame_bytes f) - (zlen pre + zlen q)) 0)) by lia. cbn [negb orb]. do 2 f_equal. lia.
Qed.

(** ** The start of the next receive *)

Section resume.
Variables (st : h2_state) (pc : pid_connection_info) (q x : list Z) (f : h2_frame).
Hypothesis saved_lookup : h2_cut_frames st !! pc = Some (saved_as q f).
Hypothesis frame_split : frame_bytes f = q ++ x.
Hypothesis inside : 0 < zlen q /\ 0 < zlen x.
Hypothesis frame_plausible : plausible f.
Variables (a2 : http_args) (r2 : list Z).
Hypothesis second : receives pc a2 r2.

(** The receive continues the frame: it ends behind it, or inside it. *)
Definition continues (rest : list Z) : Prop := r2 = x ++ rest /\ plausible_start rest.
Definition ends_inside (y : list Z) : Prop := x = r2 ++ y.

Definition resumed : h2_state := h2_resume_cut_frame (set_g st (reset_ctx (g_ctx st) a2)).

Lemma split_zlen : zlen (frame_bytes f) = zlen q + zlen x.
Proof. by rewrite frame_split, zlen_app. Qed.

Lemma kept_small : keeps q f = true -> zlen q <= k_kprobes_http2_buf_size.
Proof.
  pose proof split_zlen as Hf. unfold keeps. intros [Hk%Z.ltb_lt|[_ Hk%Z.leb_le]%andb_prop]%orb_prop; kunfold; lia.
Qed.

Lemma after_kept : keeps q f = true -> next_after_kept (mk_cut 0 (zlen q) q) = if k_frame_header_len <=? zlen q then zlen x else 0.
Proof.
  intros Hk%kept_small. unfold next_after_kept. cbn [cut_len cut_data]. unfold clamp_umax. rewrite (proj2 (Z.leb_le _ _) Hk).
  destruct (Z.leb_spec k_frame_header_len (zlen q)) as [Hq|]; [|done].
  destruct (prefix_header f q x frame_split Hq) as [q' Hqe].
  assert (Hlen : h2_frame_payload_len (list_buf q) = zlen (fr_payload f)).
  { rewrite Hqe, be_bytes_3. unfold h2_frame_payload_len. cbn [app]. lbuf. rewrite lor_bytes3 by (pose proof (zlen_nonneg (fr_payload f)); zdm).
    unfold be24. destruct frame_plausible as ((_ & Hmax & _) & _). pose proof (zlen_nonneg (fr_payload f)). zdm. }
  rewrite Hlen. pose proof split_zlen as Hf. rewrite frame_bytes_zlen in Hf. kunfold.
  rewrite (proj2 (Z.ltb_lt _ _)) by lia. lia.
Qed.

(** The kept bytes and the receive, joined. *)
Lemma resumed_kept :
  keeps q f = true -> (exists rest, continues rest) \/ (exists y, ends_inside y) -> unread resumed (q ++ r2) /\ h2_cut_frames resumed !! pc = None
  /\ (zlen q + zlen r2 < k_iovec_max_len -> receives pc (g_args (g_ctx resumed)) (q ++ r2) /\ pos (g_ctx resumed) = 0 /\ cs_pid_conn (g_stream (g_ctx resumed)) = pc).
Proof.
  intros Hk Hw. pose proof saved_lookup as Hs. unfold saved_as in Hs. rewrite Hk in Hs. unfold resumed. cbv zeta. unfold h2_resume_cut_frame.
  cbn [g_ctx set_g reset_ctx g_args h2_cut_frames]. pose proof second as [Hb2 Hl2 Hbd2 Hd2 Hpc2]. rewrite Hd2, Hpc2. cbn [negb Z.eqb].
  change (TCP_RECV =? TCP_RECV) with true. cbn [negb]. rewrite Hs. cbn [cut_skip cut_len cut_data].
  rewrite Hl2, wrap_small by (kunfold; lia). rewrite (proj2 (Z.leb_gt (zlen r2) 0)) by lia. cbn [andb nz Z.eqb negb].
  assert (Hq : nz (zlen q) = true) by (unfold nz; by rewrite (proj2 (Z.eqb_neq (zlen q) 0)) by lia). rewrite Hq. cbn [negb andb]. rewrite (after_kept Hk).
  set (next := if k_frame_header_len <=? zlen q then zlen x else 0). pose proof (kept_small Hk) as Hsm.
  assert (Hcl1 : clamp_umax (zlen r2) k_iovec_max_len = zlen r2) by (unfold clamp_umax; by rewrite (proj2 (Z.leb_le _ _)) by lia).
  assert (Hcl2 : clamp_umax (zlen q) k_kprobes_http2_buf_size = zlen q) by (unfold clamp_umax; by rewrite (proj2 (Z.leb_le _ _) Hsm)).
  rewrite Hcl1, Hcl2.
  assert (Hpl : negb (nz next) || (zlen r2 <? next + k_frame_header_len) || h2_frame_header_plausible (ushift (ha_u_buf a2) next) = true).
  { unfold next. destruct (_ <=? zlen q); [|done]. unfold nz. rewrite (proj2 (Z.eqb_neq (zlen x) 0)) by lia. cbn [negb orb].
    destruct Hw as [(rest & Hr & Hps)|(y & Hy)].
    - assert (Hse : receives pc a2 (x ++ rest)) by (by rewrite <- Hr). pose proof (plausible_at pc a2 x rest Hse Hps) as Hp.
      replace (zlen r2 <? zlen x + k_frame_header_len) with (zlen rest <? k_frame_header_len) by (rewrite Hr, zlen_app; apply Bool.eq_iff_eq_true; lia).
      exact Hp.
    - apply orb_true_intro. left. unfold ends_inside in Hy. rewrite Hy, zlen_app. pose proof (zlen_nonneg y). kunfold. lia. }
  rewrite Hpl. unfold unread. cbn [g_ctx set_cuts set_g set_args g_args set_buffer ha_u_buf ha_bytes_len pos set_joined reset_ctx].
  assert (Hrd : probe_read0 (ha_u_buf a2) (Z.to_nat (zlen r2)) = r2).
  { unfold probe_read0. replace (Z.to_nat (zlen r2)) with (length r2) by (unfold zlen; lia).
    rewrite (probe_read_ext _ _ (list_umem (r2 ++ []))); [by rewrite probe_read_list|]. rewrite app_nil_r. exact Hb2. }
  rewrite Hrd, take_ge by (unfold zlen; lia).
  assert (Hj : uagree (zlen (q ++ r2)) (list_umem (overlay (q ++ r2) (h2_joined_mem st))) (list_umem (q ++ r2))).
  { intros i Hi. unfold overlay, list_umem. rewrite (proj2 (Z.leb_le 0 i)) by lia. rewrite nth_error_app1; [done|]. unfold zlen in *. lia. }
  rewrite zlen_app in *. rewrite swrap_small by (kunfold; lia). split; [split; [intros i Hi; unfold ushift; rewrite Z.add_0_l; by apply Hj|lia]|split].
  - cbn. apply lookup_delete_eq.
  - intros Hbd. split; [|split; [done|exact Hpc2]]. constructor; cbn; rewrite ?zlen_app; [exact Hj|lia|lia|done|done].
Qed.

(** The rest of the frame is skipped. *)
Lemma resumed_skipped :
  keeps q f = false ->
  (forall rest, continues rest -> unread resumed rest /\ nothing_cut (h2_cut_frames resumed !! pc))
  /\ (forall y, ends_inside y -> unread resumed [] /\ h2_cut_frames resumed !! pc = Some (mk_cut (zlen y) 0 [])
      /\ receives pc (g_args (g_ctx resumed)) r2 /\ pos (g_ctx resumed) = zlen r2 /\ cs_pid_conn (g_stream (g_ctx resumed)) = pc
      /\ has_prev_info (g_ctx resumed) = false /\ terminate_search (g_ctx resumed) = false).
Proof.
  intros Hk. pose proof saved_lookup as Hs. unfold saved_as in Hs. rewrite Hk, split_zlen in Hs.
  replace (zlen q + zlen x - zlen q) with (zlen x) in Hs by lia. unfold resumed. unfold h2_resume_cut_frame.
  cbn [g_ctx set_g reset_ctx g_args h2_cut_frames]. pose proof second as [Hb2 Hl2 Hbd2 Hd2 Hpc2]. rewrite Hd2, Hpc2.
  change (TCP_RECV =? TCP_RECV) with true. cbn [negb]. rewrite Hs. cbn [cut_skip cut_len cut_data].
  rewrite Hl2, wrap_small by (kunfold; lia). rewrite (receives_tracks _ _ _ (reset_ctx _ a2) second eq_refl), andb_true_r.
  destruct (Z.leb_spec (zlen r2) (zlen x)) as [Hin|Hout].
  - unfold unread. cbn [g_ctx set_g set_pos reset_ctx g_args pos h2_cut_frames set_cuts g_stream cs_pid_conn has_prev_info terminate_search].
    rewrite lookup_insert_eq, Hl2, swrap_small by (kunfold; lia). split.
    + intros rest [Hr _]. assert (zlen rest = 0) as Hz by (rewrite Hr, zlen_app in Hin; pose proof (zlen_nonneg rest); lia).
      rewrite Hz. split; [split; [intros i Hi; lia|lia]|]. cbn. rewrite Hr, zlen_app. lia.
    + unfold ends_inside. intros y Hy. change (zlen (@nil Z)) with 0. split; [split; [intros i Hi; lia|lia]|]. split_and!; [|done|done|done|done|done].
      rewrite Hy, zlen_app. do 2 f_equal. lia.
  - split; [|unfold ends_inside; intros y Hy; rewrite Hy, zlen_app in Hout; pose proof (zlen_nonneg y); lia].
    intros rest [Hr Hps]. assert (Hse : receives pc a2 (x ++ rest)) by (by rewrite <- Hr).
    pose proof (plausible_at pc a2 x rest Hse Hps) as Hp. unfold nz at 1. rewrite (proj2 (Z.eqb_neq (zlen x) 0)) by lia. cbn [negb andb].
    rewrite (proj2 (Z.ltb_lt _ _) Hout). replace (zlen r2 - zlen x) with (zlen rest) by (rewrite Hr, zlen_app; lia). rewrite Hp. cbn [andb].
    unfold unread. cbn [g_ctx set_cuts set_g set_pos reset_ctx g_args pos h2_cut_frames]. rewrite swrap_small by (kunfold; lia). rewrite lookup_delete_eq.
    split; [|done]. split.
    + by eapply receives_from.
    + rewrite Hl2, Hr, zlen_app. lia.
Qed.

End resume.
(** ** A receive that ends inside the frame again *)

(** A header frame for which the scan calls another program. *)
Lemma headers_left pc t e k st fr o : handle_headers_frame t e k st fr = left_program o ->
  exists j st' p, adv pc st st' /\ p <> P_frames /\ o = h2_tail_call j st' p finished.
Proof.
  unfold handle_headers_frame. set (st0 := update_prev_info _).
  assert (A0 : adv pc st st0) by (etransitivity; [|apply adv_prev]; by apply adv_g). cbv zeta. destruct (has_prev_info (g_ctx st0)).
  - set (st1 := set_g st0 _). assert (A1 : adv pc st st1) by (etransitivity; [exact A0|by apply adv_g]).
    destruct (http2_emit_hpack_event _ _ _ st1 _ _) as [st2 ok] eqn:Hem. apply (adv_emit pc) in Hem.
    destruct (http_grpc_stream_ended fr); [|done]. intros [= <-]. do 3 eexists. split; [|split; [|reflexivity]; done].
    etransitivity; [exact A1|]. etransitivity; [exact Hem|]. destruct ok, (_ <? _); eauto with h2frame; [done|]. etransitivity; apply adv_poison.
  - destruct (negb _); [|done]. destruct (http2_emit_hpack_event _ _ _ st0 _ _) as [st2 ok] eqn:Hem. apply (adv_emit pc) in Hem.
    intros [= <-]. do 3 eexists. split; [|split; [|reflexivity]; done].
    etransitivity; [exact A0|]. etransitivity; [exact Hem|]. destruct ok, (_ <? _); eauto with h2frame; [done|]. etransitivity; apply adv_poison.
Qed.

Lemma data_end_left pc e st fr o : handle_data_stream_end e st fr = left_program o ->
  exists j st' p, adv pc st st' /\ p <> P_frames /\ o = h2_tail_call j st' p finished.
Proof.
  unfold handle_data_stream_end. cbv zeta. destruct (_ !! _); [|done]. destruct (negb (h2_response_direction _ _)); [done|]. intros [= <-].
  do 3 eexists. split; [|split; [|reflexivity]; done]. etransitivity; [|apply adv_prev]. destruct (negb _); by apply adv_g.
Qed.

Lemma data_end_goes e st fr st' : handle_data_stream_end e st fr = goes_on st' -> st' = st.
Proof. unfold handle_data_stream_end. cbv zeta. destruct (_ !! _); [|by intros [= <-]]. destruct (negb (h2_response_direction _ _)); [by intros [= <-]|done]. Qed.

(** The chain over a buffer that holds the beginning [q] of a frame and nothing else: whatever programs it calls, it ends with
    the frame saved, or a tail call failed and the connection is marked. *)
Section carry.
Variables (c : tconf) (l : links) (t : task) (sam : option sampler) (bl : bool).
Variables (pc : pid_connection_info) (id : Z) (a : http_args) (q x : list Z) (f : h2_frame).
Hypothesis got : receives pc a q.
Hypothesis frame_split : frame_bytes f = q ++ x.
Hypothesis inside : 0 < zlen q /\ 0 < zlen x.
Hypothesis frame_plausible : plausible f.

Definition steady (st : h2_state) : Prop :=
  g_args (g_ctx st) = a /\ pos (g_ctx st) = 0 /\ known pc id st /\ cs_pid_conn (g_stream (g_ctx st)) = pc.

Definition carried (st : h2_state) : Prop := marked pc st \/ h2_cut_frames st !! pc = Some (saved_as q f).

Definition carry_ok (o : outcome) : Prop := match o with (st, Some _) => steady st | (st, None) => carried st end.

Lemma steady_adv st st' : adv pc st st' -> steady st -> steady st'.
Proof.
  intros (Hg & Ha & Hp & _ & Hs) (H1 & H2 & H3 & H4). split_and!; [congruence..| |congruence]. by eapply grows_known.
Qed.

Lemma steady_tail j st p : steady st -> carry_ok (h2_tail_call j st p finished).
Proof. intros Hs. destruct j; [exact Hs|]. left. apply (poison_marks pc id); [apply Hs|apply Hs|done]. Qed.

Lemma save_carries st : g_args (g_ctx st) = a -> stands_at (g_ctx st) [] q f -> carried (h2_save_cut_frame st).
Proof. intros Ha Hst. right. apply (saved_anywhere st pc [] q x f); [by rewrite Ha|done..]. Qed.

Lemma steady_resume j st : steady st -> carry_ok (resume_frame_scan j st).
Proof.
  intros Hs. pose proof Hs as (Ha & Hp & _). pose proof got as [_ Hl Hb _ _]. unfold resume_frame_scan. cbv zeta.
  assert (Hr : receives pc (g_args (g_ctx st)) ([] ++ q)) by (by rewrite Ha).
  rewrite (keeps_at st pc [] q x f Hr Hp frame_split inside frame_plausible). destruct (keeps q f) eqn:Hk; cbn [negb].
  - assert (Hs' : steady (set_g st (g_ctx st))) by exact Hs. destruct (negb _ && _); [by apply steady_tail|]. apply save_carries; [done|by left].
  - assert (Hq : k_frame_header_len <= zlen q) by (unfold keeps in Hk; apply orb_false_elim in Hk as [Hk%Z.ltb_ge _]; lia).
    destruct (cut_header st pc [] q x f Hr Hp frame_split frame_plausible Hq) as ((Hfl & _) & _). pose proof (frame_bytes_zlen f) as Hfz.
    pose proof (f_equal zlen frame_split) as Hz. rewrite zlen_app in Hz. destruct frame_plausible as (_ & _ & Hmax). pose proof (zlen_nonneg (fr_payload f)).
    rewrite Hfl, Hp. rewrite (swrap_small 32 (0 + _)) by (kunfold; lia). set (st1 := set_g st _).
    assert ((pos (g_ctx st1) <? ha_bytes_len (g_args (g_ctx st1))) = false) as Hge.
    { apply Z.ltb_ge. cbn. rewrite Ha, Hl. kunfold. lia. }
    cbn [st1 g_ctx set_g] in Hge. cbn [terminate_search set_pos]. rewrite Hge, andb_false_r. apply save_carries; [done|]. right. split; [done|].
    cbn [st1 g_ctx set_g set_pos pos]. change (zlen (@nil Z)) with 0. kunfold. lia.
Qed.

Lemma steady_loop e n k st : steady st ->
  match frames_loop t e (S n) k st with
  | left_program o => carry_ok o
  | goes_on st' => steady st' /\ terminate_search (g_ctx st') = true
  end.
Proof.
  intros Hs0. cbn [frames_loop]. set (st1 := set_g st _). assert (Hs : steady st1) by exact Hs0. pose proof Hs as (Ha & Hp & _).
  pose proof got as [_ Hl Hb _ _]. assert (Hr : receives pc (g_args (g_ctx st1)) ([] ++ q)) by (by rewrite Ha). cbv zeta.
  rewrite (proj2 (Z.leb_gt (ha_bytes_len _) (pos _))) by (rewrite Ha, Hp, Hl; lia).
  rewrite (keeps_at st1 pc [] q x f Hr Hp frame_split inside frame_plausible). destruct (keeps q f) eqn:Hk; [by split|].
  assert (Hq : k_frame_header_len <= zlen q) by (unfold keeps in Hk; apply orb_false_elim in Hk as [Hk%Z.ltb_ge _]; lia).
  destruct (cut_header st1 pc [] q x f Hr Hp frame_split frame_plausible Hq) as (_ & Hsz & _ & Hinv & _).
  set (fr := next_frame (g_ctx st1)) in *. pose proof (steady_adv st1 _ (push_adv pc st1 fr) Hs) as Hs2. set (st2 := push_promise st1 fr) in *.
  assert (Hhd : match (if is_headers_frame fr then handle_headers_frame t e k st2 fr else goes_on st2) with
    left_program o => carry_ok o | goes_on st3 => steady st3 end).
  { destruct (is_headers_frame fr); [|done]. destruct (handle_headers_frame t e k st2 fr) as [o|st3] eqn:Hh.
    - apply (headers_left pc) in Hh as (j & st3 & p & A & _ & ->). apply steady_tail. by eapply steady_adv.
    - apply (headers_adv pc) in Hh. by eapply steady_adv. }
  destruct (if is_headers_frame fr then _ else _) as [o|st3]; [exact Hhd|]. unfold step_over_frame. rewrite Hinv, Hsz. cbv zeta.
  assert (Hrem : (remaining (g_ctx st3) <=? zlen (frame_bytes f)) = true).
  { apply Z.leb_le. destruct Hhd as (Ha3 & Hp3 & _). unfold remaining. rewrite Ha3, Hp3, Hl, wrap_small by (kunfold; lia).
    rewrite frame_split, zlen_app. lia. }
  rewrite Hrem. destruct (http_grpc_data_stream_ended fr); [|by split]. destruct (handle_data_stream_end e st3 fr) as [o|st4] eqn:Hd.
  - apply (data_end_left pc) in Hd as (j & st4 & p & A & _ & ->). apply steady_tail. by eapply steady_adv.
  - apply data_end_goes in Hd as ->. rewrite Hrem. by split.
Qed.

Lemma steady_frames e st : steady st -> carry_ok (frames t e st).
Proof.
  intros Hs. unfold frames. change (Z.to_nat k_max_loop_iterations) with 4%nat. pose proof (steady_loop e 3 0 st Hs) as Hl.
  destruct (frames_loop t e 4 0 st) as [o|st1]; [exact Hl|]. destruct Hl as [Hs1 Ht]. cbv zeta. rewrite Ht. cbn [negb andb].
  assert (Hc : carried (h2_save_cut_frame st1)) by (apply save_carries; [apply Hs1|left; apply Hs1]).
  pose proof (steady_adv st1 _ (adv_save pc st1) Hs1) as Hs2. set (st2 := h2_save_cut_frame st1) in *. unfold handle_data_frame. cbv zeta.
  destruct (_ || _); [exact Hc|]. destruct (h2_response_direction _ _); [|exact Hc].
  set (st3 := set_g st2 _). assert (Hs3 : steady st3).
  { apply (steady_adv st2); [|done]. apply adv_g; try done. destruct Hs2 as (Ha & _ & _ & ->). cbn. by rewrite Ha, (re_pc _ _ _ got). }
  destruct (pe_jump e 0); [exact Hs3|exact Hc].
Qed.

Lemma chain_carries : chain_invariant (run_prog c l t sam bl) (fun _ => steady) carried.
Proof.
  intros p e st Hs. enough (carry_ok (run_prog c l t sam bl p e st)) as H by exact H. destruct p; [by apply steady_frames|..];
    (apply (programs_ok c l t sam bl pc steady); [exact steady_adv|intros j st0 p0 _; apply steady_tail|exact steady_resume|done|done]).
Qed.
End carry.

(** The chain over a buffer that is skipped to its end: what is still to be skipped stays. *)
Definition at_end (pc : pid_connection_info) (cut : h2_cut_frame) (r : list Z) (st : h2_state) : Prop :=
  receives pc (g_args (g_ctx st)) r /\ pos (g_ctx st) = zlen r /\ has_prev_info (g_ctx st) = false /\ h2_cut_frames st !! pc = Some cut.

Lemma chain_skips c l t sam bl pc cut r :
  chain_invariant (run_prog c l t sam bl) (fun p st => p = P_frames /\ at_end pc cut r st) (fun st => h2_cut_frames st !! pc = Some cut).
Proof.
  intros p e st [-> (Hr & Hp & Hn & Hc)]. pose proof Hr as [_ Hl Hb _ _]. cbn [run_prog]. unfold frames.
  change (Z.to_nat k_max_loop_iterations) with 4%nat. cbn [frames_loop]. cbv zeta. cbn [g_ctx set_g set_iterations g_args pos].
  rewrite Hl, Hp, Z.leb_refl. cbn [g_ctx set_g set_iterations terminate_search g_args pos]. set (st1 := set_g st _).
  destruct (negb (terminate_search (g_ctx st)) && _); [unfold h2_tail_call; by destruct (pe_jump e 0)|].
  rewrite Hl, Hp, Z.ltb_irrefl, andb_false_r. assert (Hs : h2_save_cut_frame st1 = st1).
  { unfold h2_save_cut_frame, cut_of. cbv zeta. destruct (negb _); [done|]. cbn [st1 g_ctx set_g set_iterations g_args pos].
    rewrite Hl, Hp, wrap_small, Z.ltb_irrefl by (kunfold; lia). done. }
  rewrite Hs. unfold handle_data_frame. cbn [st1 g_ctx set_g set_iterations has_prev_info]. rewrite Hn. exact Hc.
Qed.

(** ** Any number of receives *)

Section receives.
Variables (c : tconf) (l : links) (t : task) (sam : option sampler) (bl : bool) (pc : pid_connection_info) (f : h2_frame).

(** [received q st]: receives have brought [q], not all, of the frame [f], and left the state [st].  The first of them ends
    inside the frame, with the scan where it stands then; every further one is handled by the chain of programs.  Between two receives the state may
    change, but for what is saved of this frame. *)
Inductive received : list Z -> h2_state -> Prop :=
  | received_first st pre q x :
      receives pc (g_args (g_ctx st)) (pre ++ q) -> stands_at (g_ctx st) pre q f ->
      frame_bytes f = q ++ x -> 0 < zlen q -> 0 < zlen x -> received q (h2_save_cut_frame st)
  | received_more q st st0 d a p y e n st' :
      received q st -> h2_cut_frames st0 !! pc = h2_cut_frames st !! pc -> ongoing_http2_connections (h2_maps st0) !! pc = Some d ->
      receives pc a p -> k_frame_header_len + zlen p <= k_iovec_max_len -> frame_bytes f = q ++ p ++ y -> 0 < zlen y ->
      pe_jump (limited e n) 0 = true -> protocol_http2 c l t sam bl e n st0 a = Some st' -> ~ marked pc st' -> received (q ++ p) st'.

Lemma resumed_known st a id : known pc id st -> known pc id (h2_resume_cut_frame (set_g st (reset_ctx (g_ctx st) a))).
Proof.
  intros Hk. unfold h2_resume_cut_frame. cbv zeta. destruct (negb _); [done|]. destruct (_ !! _); [|done]. destruct (_ && _); [done|].
  destruct (_ && _); [done|]. destruct (_ && _); [|done]. by destruct (_ || _).
Qed.

Lemma received_saved q st : plausible f -> received q st ->
  h2_cut_frames st !! pc = Some (saved_as q f) /\ exists x, frame_bytes f = q ++ x /\ 0 < zlen q /\ 0 < zlen x.
Proof.
  intros Hpl. induction 1 as [st pre q x Hr Hat Hf Hq Hx|q st st0 d a p y e n st' _ [IH (x & Hf & Hq & Hx)] Hst Hd Hr Hbd Hfp Hy Hj Hrun Hm].
  { split; [|by exists x]. by apply (saved_anywhere st pc pre q x f). }
  pose proof Hr as [_ _ Hbp _ _]. split; [|exists y; rewrite <- app_assoc, zlen_app; split_and!; [done|lia|done]].
  assert (Hxy : x = p ++ y) by (rewrite Hf in Hfp; by apply app_inv_head in Hfp). rewrite IH in Hst.
  pose proof (resumed_known st0 a (hc_id d) (ex_intro _ d (conj Hd eq_refl))) as Hkn.
  destruct (keeps q f) eqn:Hk.
  - edestruct (resumed_kept st0 pc q x f Hst Hf (conj Hq Hx) Hpl a p Hr Hk) as (_ & _ & Hrec); [right; by exists y|].
    destruct Hrec as (Hrec & Hpos & Hs).
    { unfold keeps in Hk. apply orb_prop in Hk as [Hk%Z.ltb_lt|[_ Hk%Z.leb_le]%andb_prop]; [lia|]. rewrite Hfp, !zlen_app in Hk. pose proof (zlen_nonneg y). kunfold. lia. }
    enough (carried pc (q ++ p) f st') as [H|H]; [done|exact H|].
    assert (Hinv := chain_carries c l t sam bl pc (hc_id d) _ (q ++ p) y f Hrec ltac:(by rewrite <- app_assoc) ltac:(rewrite zlen_app; lia) Hpl).
    refine (protocol_result c l t sam bl _ _ e n st0 a st' Hinv _ Hj Hrun). split_and!; [reflexivity|exact Hpos|exact Hkn|exact Hs].
  - destruct (resumed_skipped st0 pc q x f Hst Hf (conj Hq Hx) a p Hr Hk) as [_ Hskip].
    destruct (Hskip y Hxy) as (_ & Hcut & Hrec & Hpos & _ & Hn & _).
    assert (saved_as (q ++ p) f = mk_cut (zlen y) 0 []) as ->.
    { unfold saved_as. pose proof (f_equal zlen Hfp) as Hz. rewrite !zlen_app in Hz. assert (keeps (q ++ p) f = false) as ->; [|f_equal; rewrite zlen_app; lia].
      unfold keeps in *. apply orb_false_elim in Hk as [Hk1%Z.ltb_ge ->]. rewrite zlen_app, (proj2 (Z.ltb_ge _ _)) by lia. done. }
    eapply (protocol_result c l t sam bl _ _ e n st0 a st' (chain_skips c l t sam bl pc _ p)); [|done|exact Hrun]. by split_and!.
Qed.
End receives.

(** C3: A frame cut by receives does not put the scan out of step.  Let any number of receives of a connection have ended inside a
    frame, [q] of it received so far, with the scan of the first on the frame or, when it called other programs for it, behind it; the
    further ones were handled by the chain of programs, whatever it does, as long as their first tail call succeeds and the connection is known and not marked as unreliable.
    When the next receive completes the frame, the scan starts in front of the whole frame, if its octets are kept, and else on the
    first octet behind it, and nothing of the frame stays saved.  When it ends inside the frame too, the scan starts in front of what there is of the
    frame, if that is kept, and else nothing is left to scan and exactly the octets still missing are to be skipped.  They are kept exactly when fewer than nine were
    received or the frame is a HEADERS frame of a stream that fits a capture of 256.  The frame has a known type, at most 16384 octets of payload and a stream
    below 2^24; what follows it looks like a frame or is shorter than a header; receives are shorter than the 8192 octets the tracer copies, those
    inside the frame by nine. *)
Theorem h2_cut_frame_resumed c l t sam bl pc f q st st0 a r :
  plausible f -> received c l t sam bl pc f q st -> h2_cut_frames st0 !! pc = h2_cut_frames st !! pc -> receives pc a r ->
  let st2 := h2_resume_cut_frame (set_g st0 (reset_ctx (g_ctx st0) a)) in
  (forall rest, q ++ r = frame_bytes f ++ rest -> plausible_start rest ->
     unread st2 (if keeps q f then frame_bytes f ++ rest else rest) /\ nothing_cut (h2_cut_frames st2 !! pc))
  /\ (forall y, frame_bytes f = q ++ r ++ y ->
     if keeps q f then unread st2 (q ++ r) else unread st2 [] /\ h2_cut_frames st2 !! pc = Some (mk_cut (zlen y) 0 [])).
Proof.
  intros Hpl Hrec Hst Hr st2. destruct (received_saved _ _ _ _ _ _ _ _ _ Hpl Hrec) as [Hs (x & Hf & Hq & Hx)]. rewrite Hs in Hst.
  assert (Hin : forall y, frame_bytes f = q ++ r ++ y -> x = r ++ y) by (intros y Hy; rewrite Hf in Hy; by apply app_inv_head in Hy).
  assert (Hout : forall rest, q ++ r = frame_bytes f ++ rest -> r = x ++ rest) by (intros rest Hy; rewrite Hf, <- app_assoc in Hy; by apply app_inv_head in Hy).
  destruct (keeps q f) eqn:Hk.
  - pose proof (resumed_kept st0 pc q x f Hst Hf (conj Hq Hx) Hpl a r Hr Hk) as Hkept. split.
    + intros rest Hy Hps. rewrite <- Hy. destruct Hkept as (Hu & Hc & _); [left; exists rest; by split; [apply Hout|]|]. split; [done|]. change st2 with (resumed st0 a). by rewrite Hc.
    + intros y Hy. apply Hkept. right. exists y. by apply Hin.
  - destruct (resumed_skipped st0 pc q x f Hst Hf (conj Hq Hx) a r Hr Hk) as [Ha Hb]. split.
    + intros rest Hy Hps. apply Ha. by split; [apply Hout|].
    + intros y Hy. destruct (Hb y (Hin y Hy)) as (H1 & H2 & _). done.
Qed.

(** ** Witnesses *)

Definition cut_example : h2_frame := mk_frame FrameData 0 1 (repeat 5 40).

(** The first ten octets of a DATA frame behind a SETTINGS frame, then five octets of it, then the rest of it and a HEADERS frame. *)
Definition cut_pieces : list Z * list Z * list Z :=
  (frame_bytes (mk_frame 4 1 0 []) ++ take 10 (frame_bytes cut_example), take 5 (drop 10 (frame_bytes cut_example)),
   drop 15 (frame_bytes cut_example) ++ frame_bytes (mk_frame FrameHeaders 5 1 [0x88])).

Definition piece_args (r : list Z) : http_args := example_h2_args TCP_RECV (roomy_umem r) (zlen r).

Lemma roomy_receives r : 0 < zlen r < k_iovec_max_len -> receives example_pid_conn (piece_args r) r.
Proof. intros Hl. constructor; [apply roomy_agrees|done|done|done|done]. Qed.

Definition cut_state : h2_state := set_g (example_h2_state ∅) (set_pos (reset_ctx example_gctx (piece_args (fst (fst cut_pieces)))) 9).

Lemma h2_cut_frame_resumed_witness :
  exists st, protocol_http2 example_conf empty_links serving_task None true example_chain 2 (h2_save_cut_frame cut_state) (piece_args (snd (fst cut_pieces))) = Some st
  /\ unread (h2_resume_cut_frame (set_g st (reset_ctx (g_ctx st) (piece_args (snd cut_pieces))))) (frame_bytes (mk_frame FrameHeaders 5 1 [0x88])).
Proof.
  eexists. split; [vm_compute; reflexivity|]. match goal with |- unread (h2_resume_cut_frame (set_g ?s _)) _ => set (st := s) end.
  refine (proj1 (proj1 (h2_cut_frame_resumed example_conf empty_links serving_task None true example_pid_conn cut_example
    (take 10 (frame_bytes cut_example) ++ snd (fst cut_pieces)) st st (piece_args (snd cut_pieces)) (snd cut_pieces) _ _ _ _)
    (frame_bytes (mk_frame FrameHeaders 5 1 [0x88])) _ _)).
  - split; [|by vm_compute]. apply readable_frameb_ok. by vm_compute.
  - apply (received_more _ _ _ _ _ _ _ _ (h2_save_cut_frame cut_state) (h2_save_cut_frame cut_state) (mk_h2_conn 77 http2_conn_flag_new 0 0)
      (piece_args (snd (fst cut_pieces))) _ (drop 15 (frame_bytes cut_example)) example_chain 2);
      [|done|vm_compute; reflexivity|apply roomy_receives; by vm_compute|by vm_compute|by vm_compute|by vm_compute|by vm_compute|vm_compute; reflexivity|].
    + apply (received_first _ _ _ _ _ _ _ cut_state (frame_bytes (mk_frame 4 1 0 [])) _ (drop 10 (frame_bytes cut_example)));
        [apply roomy_receives; by vm_compute|by left|by vm_compute|by vm_compute|by vm_compute].
    + intros (d & Hd & Hu). vm_compute in Hd. injection Hd as <-. vm_compute in Hu. destruct Hu as [Hu|Hu]; by apply Hu.
  - done.
  - apply roomy_receives; by vm_compute.
  - by vm_compute.
  - right. by vm_compute.
Defined.
