(* ===== verification/H2Wire.v ===== *)
(** * The life of one stream ([bpf/generictracer/protocol_http2.h]).

    The chain of programs a new server stream goes through, from the HEADERS frame in a buffer to the
    record of the stream and the context of the thread that serves it, and the chain that ends a
    stream. *)

From Stdlib Require Import ZArith Lia ZifyBool List Bool.
From stdpp Require Import base list countable gmap.
From S2P Require Import H2Sock Prelude TraceUtil Sampling H2Defs H2Sniff H2Huffman H2Scan HpackParse H2Txn H2Inject H2Send Entry IovIter.
From S2P Require Import ConnInfo LargeBuf HttpInfo TraceMaps TraceParent TraceLife HttpSpan HttpTrace H2Stream H2Frames H2Walk H2Spans.

Local Open Scope Z_scope.

(** ** Steps of a chain *)

Lemma chain_step c l t sam bl fuel e n p st st' q :
  run_prog c l t sam bl p (limited e n) st = (st', Some q) ->
  run_chain c l t sam bl (S fuel) e n p st = run_chain c l t sam bl fuel e (S n) q st'.
Proof. intros H. cbn [run_chain]. by rewrite H. Qed.

Lemma chain_end c l t sam bl fuel e n p st st' :
  run_prog c l t sam bl p (limited e n) st = (st', None) -> run_chain c l t sam bl (S fuel) e n p st = Some st'.
Proof. intros H. cbn [run_chain]. by rewrite H. Qed.

(** ** The HPACK block in the capture *)

(** The block of a frame that fits lies inside the capture, whatever its flags and padding say. *)
Lemma window_bounds data :
  (forall i, 0 <= data i < 256) ->
  let '(len, off) := h2_hpack_window data in 0 <= len /\ k_h2_frame_header_len <= off /\ off + len <= k_kprobes_http2_buf_size.
Proof.
  intros Hd. unfold h2_hpack_window. set (pad := Z.land (Z.shiftr (data 4) 3) 1). set (prio := Z.land (Z.shiftr (data 4) 5) 1).
  assert (Hpad : 0 <= pad < 2) by (unfold pad; change 1 with (2 ^ 1 - 1); rewrite land_ones_mod by lia; change (2 ^ 1) with 2; zdm).
  assert (Hprio : 0 <= prio < 2) by (unfold prio; change 1 with (2 ^ 1 - 1); rewrite land_ones_mod by lia; change (2 ^ 1) with 2; zdm).
  pose proof (Hd 9) as H9. change k_h2_frame_header_len with 9. set (fl := h2_frame_payload_len data).
  assert (0 <= fl) by (unfold fl, h2_frame_payload_len; rewrite lor_bytes3 by apply Hd; unfold be24; pose proof (Hd 0); pose proof (Hd 1); pose proof (Hd 2); lia).
  assert (0 <= pad * data 9) by nia. set (pd := pad * data 9) in *. clearbody pd. cbv zeta. kunfold.
  destruct (Z.ltb_spec fl (256 - 9)); destruct (Z.ltb_spec (pad + prio * 5 + pd) (if fl <? 256 - 9 then fl else 256 - 9)); bdes; lia.
Qed.

(** The payload of a HEADERS frame, laid out as its flags say: pad length, priority fields, header block, padding. *)
Record laid_out (f : h2_frame) (priority block padding : list Z) : Prop := mk_laid_out {
  lo_payload : fr_payload f = headers_payload (fr_flags f) priority block padding;
  lo_priority : zlen priority = if nz (Z.land (fr_flags f) k_h2_flag_priority) then k_h2_priority_prefix_len else 0;
  lo_padding : nz (Z.land (fr_flags f) k_h2_flag_padded) = false -> padding = []
}.

Lemma flag_bit fl k : 0 <= k -> Z.land (Z.shiftr fl k) 1 = if nz (Z.land fl (2 ^ k)) then 1 else 0.
Proof.
  intros Hk. change 1 with (2 ^ 1 - 1) at 1. rewrite land_ones_mod, Z.pow_1_r, <- Z.bit0_mod, Z.shiftr_spec by lia. rewrite Z.add_0_l.
  assert (E : Z.land fl (2 ^ k) = if Z.testbit fl k then 2 ^ k else 0).
  { apply Z.bits_inj'. intros n Hn. rewrite Z.land_spec, Z.pow2_bits_eqb by lia. destruct (Z.testbit fl k) eqn:Hb.
    - rewrite Z.pow2_bits_eqb by lia. destruct (Z.eqb_spec k n) as [<-|]; [by rewrite Hb|by rewrite andb_false_r].
    - rewrite Z.bits_0. destruct (Z.eqb_spec k n) as [<-|]; [by rewrite Hb|by rewrite andb_false_r]. }
  rewrite E. unfold nz. destruct (Z.testbit fl k); [|done]. rewrite (proj2 (Z.eqb_neq (2 ^ k) 0)); [done|]. apply Z.pow_nonzero; lia.
Qed.

(** The window is the header block, behind the pad length and the priority fields and before the padding. *)
Lemma window_block f priority block padding rest :
  readable_frame f -> laid_out f priority block padding -> block <> [] -> zlen (fr_payload f) <= k_h2_max_payload ->
  exists prefix, h2_hpack_window (list_buf (frame_bytes f ++ rest)) = (zlen block, k_h2_frame_header_len + zlen prefix)
  /\ fr_payload f = prefix ++ block ++ padding.
Proof.
  intros (Hwf & _) [Hpay Hprio Hpad] Hne Hfit.
  destruct (frame_header_at [] f rest 0 Hwf ltac:(kunfold; lia)) as (Hl & _ & H4 & _ & _ & H9). specialize (H9 ltac:(lia)).
  set (data := list_buf (frame_bytes f ++ rest)) in *. change (h2_frame_payload_len data = zlen (fr_payload f)) in Hl.
  change (data 4 = fr_flags f) in H4. change (data k_h2_frame_header_len = list_buf (fr_payload f ++ rest) 0) in H9.
  unfold h2_hpack_window. rewrite Hl, H4, H9, !flag_bit by lia. change (2 ^ 3) with k_h2_flag_padded. change (2 ^ 5) with k_h2_flag_priority.
  assert (Hb : 0 < zlen block) by (unfold zlen; destruct block; [done|cbn; lia]). pose proof (zlen_nonneg padding). pose proof (zlen_nonneg priority).
  assert (Hz : (if zlen (fr_payload f) <? k_h2_max_payload then zlen (fr_payload f) else k_h2_max_payload) = zlen (fr_payload f))
    by (destruct (Z.ltb_spec (zlen (fr_payload f)) k_h2_max_payload); lia).
  assert (Hq : (if nz (Z.land (fr_flags f) k_h2_flag_priority) then 1 else 0) * k_h2_priority_prefix_len = zlen priority)
    by (rewrite Hprio; destruct (nz (Z.land (fr_flags f) k_h2_flag_priority)); lia).
  rewrite Hz, Hq. clear Hz Hq Hprio. unfold headers_payload in Hpay. cbv zeta. destruct (nz (Z.land (fr_flags f) k_h2_flag_padded)).
  - exists ([zlen padding] ++ priority). split; [|by rewrite Hpay, <- app_assoc]. rewrite Hpay, !zlen_app. change (zlen [zlen padding]) with 1.
    change (list_buf ((([zlen padding] ++ priority ++ block ++ padding) ++ rest)) 0) with (zlen padding). rewrite (proj2 (Z.ltb_lt _ _)) by lia. f_equal; lia.
  - rewrite (Hpad eq_refl) in *. exists priority. split; [|by rewrite Hpay]. rewrite Hpay. cbn [app]. rewrite !zlen_app. change (zlen (@nil Z)) with 0.
    rewrite (proj2 (Z.ltb_lt _ _)) by lia. f_equal; lia.
Qed.

(** ** The programs of a new server stream *)

Section new_stream.
Variables (c : tconf) (l : links) (t : task) (sam : option sampler) (bl : bool).
Variables (pc : pid_connection_info) (f : h2_frame).
Hypothesis ok : readable_frame f.
Hypothesis headers : fr_type f = FrameHeaders.
Hypothesis stream_nz : fr_stream f <> 0.
Hypothesis fits : 2 < zlen (fr_payload f) <= k_h2_max_payload.

Definition stream_of : http2_conn_stream := mk_stream pc (fr_stream f).

Lemma frames_new_stream e st :
  holds_frames [f] (g_args (g_ctx st)) -> pos (g_ctx st) = 0 -> cs_pid_conn (g_stream (g_ctx st)) = pc ->
  ongoing_http2_grpc (h2_maps st) !! stream_of = None -> pe_jump e 0 = true ->
  exists st', frames t e st = (st', Some P_start) /\ adv pc st st' /\ g_stream (g_ctx st') = stream_of
  /\ ongoing_http2_grpc (h2_maps st') !! stream_of = None.
Proof.
  intros Hh Hp Hpc Hno Hj. unfold frames. change (Z.to_nat k_max_loop_iterations) with 4%nat. cbn [frames_loop].
  set (st1 := set_g st _). change (h2_maps st) with (h2_maps st1) in Hno. assert (A1 : adv pc st st1) by (by apply adv_g).
  destruct (frame_at_pos [] f [] (g_ctx st1) Hh Hp) as (Hhd & Hsz & _ & Hk & Hpos & _). cbv zeta. rewrite Hpos, Hk.
  set (fr := next_frame (g_ctx st1)) in *. destruct Hhd as (Hl & Hty & Hfl & Hsid).
  assert (push_promise st1 fr = st1) as -> by (unfold push_promise; by rewrite Hty, headers).
  assert (is_headers_frame fr = true) as Hih.
  { unfold is_headers_frame, nz. rewrite Hty, Hsid, headers, (proj2 (Z.eqb_neq _ _) stream_nz). done. }
  rewrite Hih. unfold handle_headers_frame. set (st2 := update_prev_info _).
  assert (A2 : adv pc st1 st2) by (etransitivity; [|apply adv_prev]; by apply adv_g).
  assert (Hst2 : g_stream (g_ctx st2) = stream_of /\ has_prev_info (g_ctx st2) = false /\ h2_maps st2 = h2_maps st1).
  { unfold st2, update_prev_info. cbv zeta. cbn [g_ctx set_g g_stream set_stream_id set_stream].
    assert (cs_pid_conn (g_stream (g_ctx st1)) = pc) as -> by exact Hpc. rewrite Hsid.
    change (h2_maps (set_g st1 ?g)) with (h2_maps st1). fold stream_of. rewrite Hno. split; [|done].
    unfold stream_of. rewrite <- Hpc. done. }
  destruct Hst2 as (Hg2 & Hp2 & Hm2). cbv zeta. rewrite Hp2.
  assert (is_flags_only_frame fr = false) as -> by (unfold is_flags_only_frame; rewrite Hl; lia). cbn [andb negb].
  destruct (http2_emit_hpack_event t e 0 st2 fr k_event_type_k_http2_request_headers) as [st3 emitted] eqn:Hem.
  assert (A3 : adv pc st2 st3) by (by eapply adv_emit).
  assert (Hem3 : g_ctx st3 = g_ctx st2 /\ ongoing_http2_grpc (h2_maps st3) = ongoing_http2_grpc (h2_maps st2)).
  { apply emit_spec in Hem as [H0 H1]. destruct emitted; [|by rewrite H0]. by destruct (H1 eq_refl) as (ev & fl & _ & ? & ? & _). }
  destruct Hem3 as [Hg3 Hm3]. rewrite (proj2 (Z.ltb_ge k_kprobes_http2_buf_size (frame_size fr))) by (rewrite Hsz; kunfold; lia).
  rewrite Hj. unfold h2_tail_call. cbv iota. eexists. split; [reflexivity|].
  assert (Hno3 : ongoing_http2_grpc (h2_maps st3) !! stream_of = None) by (by rewrite Hm3, Hm2).
  destruct emitted.
  - split; [etransitivity; [exact A1|]; etransitivity; [exact A2|]; exact A3|]. split; [by rewrite Hg3|done].
  - split; [etransitivity; [exact A1|]; etransitivity; [exact A2|]; etransitivity; [exact A3|]; apply adv_poison|]. split; [exact (eq_trans (f_equal g_stream Hg3) Hg2)|].
    rewrite poison_streams. rewrite Hg3, Hg2, lookup_alter_eq. by rewrite Hno3.
Qed.

Lemma start_new_stream e st :
  holds_frames [f] (g_args (g_ctx st)) -> pos (g_ctx st) = 0 -> ha_direction (g_args (g_ctx st)) = TCP_RECV ->
  g_stream (g_ctx st) = stream_of -> ongoing_http2_grpc (h2_maps st) !! stream_of = None -> pe_jump e 0 = true ->
  exists st' z, start_frame c l t sam e st = (st', Some P_server) /\ g_ctx st' = g_ctx st /\ h2_maps st' = h2_maps st
  /\ hr_data (http2_info_mem st') = frame_bytes f ++ z /\ hr_type (http2_info_mem st') = k_event_type_http_request
  /\ hr_stream_id (http2_info_mem st') = fr_stream f
  /\ tpp_tp (tp_info_mem st') = mk_tp_info (repeat 0 16) (pe_span e) (repeat 0 8) (pe_now e 1) 1.
Proof.
  intros Hh Hp Hd Hg Hno Hj. unfold start_frame, http2_grpc_start. rewrite Hg, Hno. cbv zeta. rewrite Hd.
  change (request_type_by_direction TCP_RECV PACKET_TYPE_REQUEST) with k_event_type_http_request.
  change (negb (k_event_type_http_request =? k_event_type_http_client)) with true. rewrite Hj.
  eexists _, (drop (length (frame_bytes f)) (repeat 0 (Z.to_nat k_kprobes_http2_buf_size))). split; [reflexivity|]. split_and!; try done.
  cbn [http2_info_mem prepare_stream set_tp_mem set_info_mem hr_data]. destruct Hh as [_ Hb Hl Hbd _].
  change (frames_bytes [f]) with (frame_bytes f ++ []) in *. rewrite app_nil_r in *. rewrite Hl, Hp.
  pose proof (frame_bytes_zlen f) as Hz. pose proof (zlen_nonneg (fr_payload f)). kunfold.
  rewrite Z.sub_0_r, swrap_small, wrap_small by lia. unfold clamp_umax. rewrite (proj2 (Z.leb_le (zlen (frame_bytes f)) 256)) by lia.
  replace (Z.to_nat (zlen (frame_bytes f))) with (length (frame_bytes f)) by (unfold zlen; lia).
  assert (Hb' : uagree (zlen ([] ++ frame_bytes f ++ [])) (ha_u_buf (g_args (g_ctx st))) (list_umem ([] ++ frame_bytes f ++ [])))
    by (rewrite app_nil_r; exact Hb).
  unfold probe_read0. change 0 with (zlen (@nil Z)) at 1. rewrite (probe_read_within [] (frame_bytes f) [] _ Hb'). done.
Qed.

(** The name scan finds the field. *)
Lemma server_finds e st priority padding p1 form huffman tp p2 z :
  let block := p1 ++ tp_field form huffman k_hpack_value_len_tp (make_tp_string tp) ++ p2 in
  laid_out f priority block padding -> wf_tp tp -> h2_hpack_is_literal form = true ->
  (forall j, 0 <= j < zlen p1 -> ~ tp_name_at (list_buf block) j) ->
  hr_data (http2_info_mem st) = frame_bytes f ++ z -> pe_jump e 0 = true ->
  exists st', start_frame_server bl e st = (st', Some P_finalize)
  /\ g_args (g_ctx st') = g_args (g_ctx st) /\ pos (g_ctx st') = pos (g_ctx st) /\ g_stream (g_ctx st') = g_stream (g_ctx st)
  /\ h2_maps st' = h2_maps st /\ http2_info_mem st' = http2_info_mem st
  /\ tp_info_mem st' = set_tpp (tp_info_mem st) (tp_received tp (tpp_tp (tp_info_mem st))).
Proof.
  intros block Hlo Hwf Hform Hno Hdata Hj. unfold start_frame_server. rewrite Hdata.
  pose proof (make_tp_string_length tp Hwf) as Hs.
  assert (Hbl : zlen block = zlen p1 + zlen (tp_field form huffman k_hpack_value_len_tp (make_tp_string tp)) + zlen p2) by (unfold block; rewrite !zlen_app; lia).
  rewrite tp_field_length, Hs in Hbl. pose proof (zlen_nonneg p1). pose proof (zlen_nonneg p2).
  assert (Hne : block <> []) by (intros E; rewrite E in Hbl; change (zlen (@nil Z)) with 0 in Hbl; destruct huffman; lia).
  destruct (window_block f priority block padding z ok Hlo Hne ltac:(lia)) as (prefix & -> & Hpay). cbv zeta.
  assert (Hag : agree (zlen block) (shift (list_buf (frame_bytes f ++ z)) (k_h2_frame_header_len + zlen prefix)) (list_buf block)).
  { intros i Hi. rewrite frame_bytes_header, <- app_assoc. set (h := be_bytes 3 _ ++ _).
    assert (k_h2_frame_header_len = zlen h) as -> by (unfold h; by rewrite be_bytes_3, be_bytes_4).
    unfold shift. rewrite Hpay, <- zlen_app, <- !app_assoc, (app_assoc h prefix), list_buf_app_r by lia. apply list_buf_app_l. lia. }
  assert (Hparse : parse_hpack_traceparent (shift (list_buf (frame_bytes f ++ z)) (k_h2_frame_header_len + zlen prefix)) (zlen block) (tpp_tp (tp_info_mem st))
    = (1, tp_received tp (tpp_tp (tp_info_mem st)), mk_candidate 0 0)).
  { rewrite <- (parse_hpack_traceparent_plain p1 form huffman tp p2 (tpp_tp (tp_info_mem st)) Hwf Hform).
    - fold block. unfold parse_hpack_traceparent. destruct (Z.leb_spec k_h2_tp_hpack_huff_min (zlen block)); [|done].
      apply parse_loop_ext; [exact Hag|lia|kunfold; lia].
    - rewrite Hpay, !zlen_app in fits. pose proof (zlen_nonneg prefix). pose proof (zlen_nonneg padding). kunfold. destruct huffman; lia.
    - exact Hno. }
  rewrite Hparse. change (nz 1) with true. cbv iota. rewrite Hj. eexists. split; [reflexivity|]. by split_and!.
Qed.

(** Behind the only frame of the buffer the chain ends. *)
Lemma resume_at_last j st :
  holds_frames [f] (g_args (g_ctx st)) -> pos (g_ctx st) = 0 ->
  resume_frame_scan j st = (h2_save_cut_frame (set_g st (set_pos (g_ctx st) (zlen (frames_bytes [f])))), None).
Proof.
  intros Hh Hp. destruct (frame_at_pos [] f [] (g_ctx st) Hh Hp) as (_ & _ & _ & Hk & _ & _ & Hnext). unfold resume_frame_scan. cbv zeta.
  rewrite Hk. cbn [negb]. rewrite Hnext. cbn [app]. cbn [set_pos pos g_args terminate_search]. rewrite (holds_len _ _ Hh), Z.ltb_irrefl, andb_false_r. done.
Qed.

End new_stream.

(** The last program stores the span of a request whose context was received, and the scan ends with the buffer. *)
Lemma finalize_commits c l t sam e f st a s tp old :
  tpp_tp (tp_info_mem st) = tp_received tp old -> valid_trace (trace_id tp) = true ->
  g_stream (g_ctx st) = s -> g_args (g_ctx st) = a -> pos (g_ctx st) = 0 -> holds_frames [f] a ->
  exists st', start_frame_server_finalize c l t sam e st = (st', None)
  /\ h2_maps st' = h2_maps (http2_grpc_start_finalize_server c l t sam e st s true (ha_ssl a) (ha_orig_dport a)).
Proof.
  intros Hrec Hval Hs Ha Hp Hh. unfold start_frame_server_finalize. rewrite Hrec. cbn [tp_received trace_id]. rewrite Hval. cbn [negb trace_id]. cbv zeta.
  change (trace_id (tp_received tp old)) with (trace_id tp). rewrite Hval. cbn [negb]. rewrite <- Hrec.
  assert (Hid : set_tp_mem (set_h2_maps st (h2_maps st)) (set_tpp (tp_info_mem st) (tpp_tp (tp_info_mem st))) = st)
    by (by destruct st as [[] ? ? ? ? [] ? ?]).
  rewrite Hid. unfold h2_server_commit. cbv zeta. rewrite Hrec. change (trace_id (tp_received tp _)) with (trace_id tp). rewrite Hval, Hs, Ha.
  set (st4 := http2_grpc_start_finalize_server _ _ _ _ _ _ _ _ _ _).
  destruct (finalize_streams c l t sam e st s true (ha_ssl a) (ha_orig_dport a)) as (_ & Hg4 & _). change (g_ctx st4 = g_ctx st) in Hg4.
  eexists. split; [apply (resume_at_last f)|]; [by rewrite Hg4, Ha|by rewrite Hg4|].
  apply (f_equal hs_maps). exact (proj1 (proj2 (cuts_same (set_g st4 _)))).
Qed.

(** C4: The traceparent of a request reaches the span of its stream.  A server receives, in a buffer of its own, a HEADERS frame
    that opens a stream, with or without priority fields and padding, and whose header block carries a literal traceparent field, the name plain or Huffman coded,
    in the form the injector writes or any other; nothing before it in the block is named so, and the trace id is not zero.  Then the stream's record joins the
    trace of the field, with its span as parent and a span id of its own, and the thread that serves the stream gets the same context.  The frame fits the capture (247
    octets of payload), the stream is below 2^24 and not yet open, no frame of the connection was cut before, 256 octets can be read behind the buffer, and the four tail
    calls of the chain succeed within the kernel's limit. *)
Theorem h2_wire_context_reaches_span c l t sam bl e n st a fl sid priority padding p1 form huffman tp p2 :
  let block := p1 ++ tp_field form huffman k_hpack_value_len_tp (make_tp_string tp) ++ p2 in
  let payload := headers_payload fl priority block padding in
  let f := mk_frame FrameHeaders fl sid payload in
  let s := mk_stream (ha_pid_conn a) sid in
  zlen priority = (if nz (Z.land fl k_h2_flag_priority) then k_h2_priority_prefix_len else 0) ->
  (nz (Z.land fl k_h2_flag_padded) = false -> padding = []) ->
  holds_frames [f] a -> ha_direction a = TCP_RECV -> sid <> 0 -> zlen payload <= k_h2_max_payload ->
  wf_tp tp -> valid_trace (trace_id tp) = true -> h2_hpack_is_literal form = true ->
  (forall j, 0 <= j < zlen p1 -> ~ tp_name_at (list_buf block) j) ->
  h2_cut_frames st !! ha_pid_conn a = None -> ongoing_http2_grpc (h2_maps st) !! s = None ->
  (forall m, pe_jump (e m) 0 = true) -> (n + 4 <= MAX_TAIL_CALL_CNT)%nat ->
  exists st' r x, protocol_http2 c l t sam bl e n st a = Some st'
  /\ ongoing_http2_grpc (h2_maps st') !! s = Some r /\ hr_type r = k_event_type_http_request /\ hr_stream_id r = sid
  /\ trace_id (hr_tp r) = trace_id tp /\ parent_id (hr_tp r) = span_id tp /\ span_id (hr_tp r) = pe_span (e (2 + n)%nat)
  /\ server_traces (h2_maps st') !! trace_key_from_pid_tid l t = Some x /\ tpp_tp x = hr_tp r.
Proof.
  intros block payload f s Hprio Hpadn Hh Hdir Hsid Hfit Hwf Hval Hform Hno Hcut Hopen Hj Hn.
  assert (Hlo : laid_out f priority block padding) by done.
  assert (Hok : readable_frame f) by (pose proof (holds_ok _ _ Hh) as H; by apply Forall_cons_1 in H as [H _]).
  assert (Hpl : 2 < zlen (fr_payload f) <= k_h2_max_payload).
  { split; [|exact Hfit]. cbn [fr_payload f]. unfold payload, headers_payload, block. rewrite !zlen_app, tp_field_length, make_tp_string_length by done.
    pose proof (zlen_nonneg (if nz (Z.land fl k_h2_flag_padded) then [zlen padding] else [])). pose proof (zlen_nonneg priority). pose proof (zlen_nonneg padding).
    pose proof (zlen_nonneg p1). pose proof (zlen_nonneg p2). destruct huffman; lia. }
  assert (Hlim : forall m, (m < n + 4)%nat -> pe_jump (limited e m) 0 = true).
  { intros m Hm. cbn [limited pe_jump]. rewrite Hj, andb_true_r. apply Nat.ltb_lt. lia. }
  unfold protocol_http2. rewrite (Hlim n) by lia. cbv zeta.
  assert (Hres : h2_resume_cut_frame (set_g st (reset_ctx (g_ctx st) a)) = set_g st (reset_ctx (g_ctx st) a)).
  { unfold h2_resume_cut_frame. cbn. destruct (negb _); [done|]. by rewrite Hcut. }
  rewrite Hres. set (st0 := set_g st _).
  destruct (frames_new_stream t (ha_pid_conn a) f eq_refl Hsid Hpl (limited e (S n)) st0) as (st1 & H1 & A1 & Hg1 & Ho1);
    [exact Hh|done|done|exact Hopen|apply Hlim; lia|]. destruct A1 as (_ & Ha1 & Hp1 & _).
  destruct (start_new_stream c l t sam (ha_pid_conn a) f Hpl (limited e (S (S n))) st1) as (st2 & z & H2 & Hg2 & Hm2 & Hd2 & Ht2 & Hs2 & Htp2);
    [by rewrite Ha1|by rewrite Hp1|by rewrite Ha1|done|done|apply Hlim; lia|].
  destruct (server_finds bl f Hok Hpl (limited e (S (S (S n)))) st2 priority padding p1 form huffman tp p2 z Hlo Hwf Hform Hno Hd2)
    as (st3 & H3 & Ha3 & Hp3 & Hg3 & Hm3 & Hi3 & Htp3); [apply Hlim; lia|].
  assert (Hrec : tpp_tp (tp_info_mem st3) = tp_received tp (tpp_tp (tp_info_mem st2))) by (by rewrite Htp3).
  set (e4 := limited e (S (S (S (S n))))).
  destruct (finalize_commits c l t sam e4 f st3 a s tp (tpp_tp (tp_info_mem st2))) as (st4 & H4 & Hm4);
    [exact Hrec|exact Hval|by rewrite Hg3, Hg2, Hg1|by rewrite Ha3, Hg2, Ha1|by rewrite Hp3, Hg2, Hp1|exact Hh|].
  destruct (finalize_streams c l t sam e4 st3 s true (ha_ssl a) (ha_orig_dport a)) as (_ & _ & _ & Hst & Hinfo).
  destruct (finalize_context c l t sam e4 st3 s true (ha_ssl a) (ha_orig_dport a)) as (Htp & x & Hx & Hxt).
  set (st5 := http2_grpc_start_finalize_server _ _ _ _ _ _ _ _ _ _) in *.
  exists st4, (http2_info_mem st5), x. split.
  { unfold MAX_TAIL_CALL_CNT. erewrite chain_step by exact H1. erewrite chain_step by exact H2. erewrite chain_step by exact H3. by erewrite chain_end by exact H4. }
  rewrite Hm4, Hst, lookup_insert_eq.
  assert (Hf : hr_type (http2_info_mem st5) = k_event_type_http_request /\ hr_stream_id (http2_info_mem st5) = sid)
    by (rewrite Hinfo; cbn; rewrite Hi3; done).
  assert (Hids : trace_id (hr_tp (http2_info_mem st5)) = trace_id tp /\ parent_id (hr_tp (http2_info_mem st5)) = span_id tp
    /\ span_id (hr_tp (http2_info_mem st5)) = pe_span (e (2 + n)%nat)).
  { rewrite Htp, Hrec, Htp2. unfold sample_remote_child_for_pid. destruct sam as [sm|]; [destruct (nz (parent_based sm))|]; done. }
  destruct Hf, Hids as (? & ? & ?). by split_and!.
Qed.

(** ** The end of a stream *)

Section end_of_stream.
Variables (c : tconf) (l : links) (t : task) (pc : pid_connection_info) (f : h2_frame) (r : http2_grpc_request).
Hypothesis ok : readable_frame f.
Hypothesis headers : fr_type f = FrameHeaders.
Hypothesis stream_nz : fr_stream f <> 0.
Hypothesis ends : Z.land (fr_flags f) k_flag_data_end_stream = k_flag_data_end_stream.

(** The scan finds the stream and calls the program that ends it. *)
Lemma frames_end_stream e st :
  holds_frames [f] (g_args (g_ctx st)) -> pos (g_ctx st) = 0 -> cs_pid_conn (g_stream (g_ctx st)) = pc ->
  ongoing_http2_grpc (h2_maps st) !! stream_of pc f = Some r -> pe_jump e 0 = true ->
  exists st', frames t e st = (st', Some P_end) /\ adv pc st st' /\ g_stream (g_ctx st') = stream_of pc f
  /\ saved_buf_pos (g_ctx st') = 0 /\ strip (prev_info (g_ctx st')) = strip r.
Proof.
  intros Hh Hp Hpc Hopen Hj. unfold frames. change (Z.to_nat k_max_loop_iterations) with 4%nat. cbn [frames_loop].
  set (st1 := set_g st _). change (h2_maps st) with (h2_maps st1) in Hopen. assert (A1 : adv pc st st1) by (by apply adv_g).
  destruct (frame_at_pos [] f [] (g_ctx st1) Hh Hp) as ((Hl & Hty & Hfl & Hsid) & _ & _ & Hk & Hpos & _). cbv zeta. rewrite Hpos, Hk.
  set (fr := next_frame (g_ctx st1)) in *.
  assert (push_promise st1 fr = st1) as -> by (unfold push_promise; by rewrite Hty, headers).
  assert (is_headers_frame fr = true) as Hih.
  { unfold is_headers_frame, nz. rewrite Hty, Hsid, headers, (proj2 (Z.eqb_neq _ _) stream_nz). done. }
  assert (http_grpc_stream_ended fr = true) as Hend by (unfold http_grpc_stream_ended; by rewrite Hih, Hfl, ends).
  rewrite Hih. unfold handle_headers_frame. set (st2 := update_prev_info _).
  assert (A2 : adv pc st1 st2) by (etransitivity; [|apply adv_prev]; by apply adv_g).
  assert (Hst2 : g_stream (g_ctx st2) = stream_of pc f /\ has_prev_info (g_ctx st2) = true /\ prev_info (g_ctx st2) = r).
  { unfold st2, update_prev_info. cbv zeta. cbn [g_ctx set_g g_stream set_stream_id set_stream].
    assert (cs_pid_conn (g_stream (g_ctx st1)) = pc) as -> by exact Hpc. rewrite Hsid.
    change (h2_maps (set_g st1 ?g)) with (h2_maps st1). fold (stream_of pc f). rewrite Hopen. split; [|done]. unfold stream_of. by rewrite <- Hpc. }
  destruct Hst2 as (Hg2 & Hp2 & Hr2). cbv zeta. rewrite Hp2, Hend, Hj. set (st3 := set_g st2 _).
  assert (A3 : adv pc st st3) by (etransitivity; [exact A1|]; etransitivity; [exact A2|]; by apply adv_g).
  assert (Hpos3 : saved_buf_pos (g_ctx st3) = 0) by (destruct A2 as (_ & _ & Hpp & _); cbn; rewrite Hpp; exact Hp).
  assert (Hpr : forall st' fl, strip (prev_info (g_ctx (http2_poison_hpack st' (g_stream (g_ctx st')) true fl))) = strip (prev_info (g_ctx st'))
    /\ saved_buf_pos (g_ctx (http2_poison_hpack st' (g_stream (g_ctx st')) true fl)) = saved_buf_pos (g_ctx st')
    /\ g_stream (g_ctx (http2_poison_hpack st' (g_stream (g_ctx st')) true fl)) = g_stream (g_ctx st'))
    by (intros; split_and!; [apply strip_poison|done|done]).
  match goal with |- context [http2_emit_hpack_event t e ?k st3 fr ?ty] => destruct (http2_emit_hpack_event t e k st3 fr ty) as [st4 emitted] eqn:Hem end.
  assert (A4 : adv pc st st4) by (etransitivity; [exact A3|]; by eapply adv_emit).
  assert (Hg4 : g_ctx st4 = g_ctx st3).
  { apply emit_spec in Hem as [H0 H1]. destruct emitted; [|by rewrite H0]. by destruct (H1 eq_refl) as (ev & fl & _ & ? & _). }
  unfold h2_tail_call. cbv iota. eexists. split; [reflexivity|].
  set (fl := if _ =? hr_type _ then h2_hpack_resp_unreliable else _).
  set (st5 := if emitted then st4 else http2_poison_hpack st4 (g_stream (g_ctx st4)) true fl).
  assert (H5 : adv pc st st5 /\ g_stream (g_ctx st5) = stream_of pc f /\ saved_buf_pos (g_ctx st5) = 0 /\ strip (prev_info (g_ctx st5)) = strip r).
  { assert (H4 : g_stream (g_ctx st4) = stream_of pc f /\ saved_buf_pos (g_ctx st4) = 0 /\ strip (prev_info (g_ctx st4)) = strip r)
      by (rewrite Hg4; split_and!; [exact Hg2|exact Hpos3|cbn; by rewrite Hr2]). unfold st5. destruct emitted; [done|].
    destruct (Hpr st4 fl) as (-> & -> & ->). split; [|done]. etransitivity; [exact A4|apply adv_poison]. }
  destruct (_ <? frame_size fr); [|exact H5]. destruct (Hpr st5 fl) as (-> & -> & ->). split; [|apply H5].
  etransitivity; [apply H5|apply adv_poison].
Qed.

End end_of_stream.

(** A stream that ends is reported.  When the answer of an open stream ends it with a HEADERS frame,
    in the direction answers of the record's side travel, the last event of the chain is the span of
    the stream: its record, with the time, the first octets of the answer and the marks of the
    connection; the record and the per-stream context for the injector are gone. *)
Theorem h2_stream_end_reported c l t sam bl e n st a fl sid payload r :
  let f := mk_frame FrameHeaders fl sid payload in
  let s := stream_of (ha_pid_conn a) f in
  holds_frames [f] a -> sid <> 0 -> Z.land fl k_flag_data_end_stream = k_flag_data_end_stream ->
  ongoing_http2_grpc (h2_maps st) !! s = Some r -> h2_response_direction (hr_type r) (ha_direction a) = true ->
  h2_cut_frames st !! ha_pid_conn a = None ->
  (forall m, pe_jump (e m) 0 = true) -> pe_reserve (e (2 + n)%nat) 0 = true -> (n + 2 <= MAX_TAIL_CALL_CNT)%nat ->
  exists st' ev, protocol_http2 c l t sam bl e n st a = Some st' /\ last (h2_events st') = Some ev
  /\ strip ev = set_h2_end (strip r) (pe_now (e (2 + n)%nat) 0) (probe_read0 (ushift (ha_u_buf a) 0) (Z.to_nat k_kprobes_http2_ret_buf_size))
  /\ (forall d, ongoing_http2_connections (h2_maps st') !! ha_pid_conn a = Some d -> hr_hpack_flags ev = conn_hpack_flags (Some d) 0)
  /\ ongoing_http2_grpc (h2_maps st') !! s = None /\ outgoing_trace_map (h2_maps st') !! stream_egress_key s = None.
Proof.
  intros f s Hh Hsid Hend Hopen Hdir Hcut Hj Hres Hn.
  assert (Hlim : forall m, (m < n + 2)%nat -> pe_jump (limited e m) 0 = true).
  { intros m Hm. cbn [limited pe_jump]. rewrite Hj, andb_true_r. apply Nat.ltb_lt. lia. }
  unfold protocol_http2. rewrite (Hlim n) by lia. cbv zeta.
  assert (Hr0 : h2_resume_cut_frame (set_g st (reset_ctx (g_ctx st) a)) = set_g st (reset_ctx (g_ctx st) a)).
  { unfold h2_resume_cut_frame. cbn. destruct (negb _); [done|]. by rewrite Hcut. }
  rewrite Hr0. set (st0 := set_g st _).
  destruct (frames_end_stream t (ha_pid_conn a) f r eq_refl Hsid Hend (limited e (S n)) st0) as (st1 & H1 & A1 & Hg1 & Hb1 & Hr1);
    [exact Hh|done|done|exact Hopen|apply Hlim; lia|]. destruct A1 as (_ & Ha1 & Hp1 & _).
  set (e2 := limited e (S (S n))). set (st2 := http2_grpc_end c l t e2 st1 s (ushift (ha_u_buf a) 0)).
  destruct (end_streams c l t e2 st1 s (ushift (ha_u_buf a) 0)) as (Hc2 & Hm2 & Ho2 & He2 & Hg2 & Hr2). fold st2 in Hc2, Hm2, Ho2, He2, Hg2, Hr2.
  change (pe_reserve e2 0) with (pe_reserve (e (2 + n)%nat) 0) in He2. rewrite Hres in He2.
  set (st3 := h2_forget_stream (set_h2_span st2 (del_ssl (h2_span st2) (ha_pid_conn a)))).
  assert (Hty : hr_type (prev_info (g_ctx st1)) = hr_type r) by (apply (f_equal hr_type) in Hr1; exact Hr1).
  assert (H2 : run_prog c l t sam bl P_end e2 st1
    = (h2_save_cut_frame (set_g st3 (set_pos (g_ctx st3) (zlen (frames_bytes [f])))), None)).
  { cbn [run_prog]. unfold end_frame. rewrite Ha1, Hty. unfold h2_response_direction in Hdir. change (g_args (g_ctx st0)) with a. cbv zeta. rewrite Hdir, Hb1, Hg1.
    change (clamp_umax (u32 0) k_iovec_max_len) with 0. fold s. change (stream_of (ha_pid_conn a) f) with s. fold st2. fold st3.
    apply (resume_at_last f); cbn; rewrite Hg2; cbn; [by rewrite Ha1|by rewrite Hp1]. }
  eexists _, (prev_info (g_ctx st2)). split.
  { unfold MAX_TAIL_CALL_CNT. erewrite chain_step by exact H1. by erewrite chain_end by exact H2. }
  set (st4 := set_g st3 _). destruct (cuts_same st4) as (He4 & Hs4 & _). unfold h2_maps in *. rewrite He4, Hs4.
  change (h2_events st4) with (h2_events st2). change (hs_maps (h2_span st4)) with (hs_maps (h2_span st2)). rewrite He2, last_snoc.
  split_and!; [done| | | |exact Ho2].
  - rewrite Hr2 at 1. transitivity (set_h2_end (strip (prev_info (g_ctx st1))) (pe_now e2 0) (hr_ret_data (prev_info (g_ctx st2)))); [done|].
    rewrite Hr1. f_equal. unfold st2, http2_grpc_end. cbv zeta. change (pe_reserve e2 0) with (pe_reserve (e (2 + n)%nat) 0). by rewrite Hres.
  - intros d. rewrite Hc2. intros Hd. rewrite Hr2. cbn [set_hpack_flags hr_hpack_flags]. change (cs_pid_conn s) with (ha_pid_conn a). by rewrite Hd.
  - by rewrite Hm2, lookup_delete_eq.
Qed.

(** ** Witnesses *)

(** The request the injector writes, in a frame with priority fields and padding. *)
Definition padded_request : h2_frame :=
  mk_frame FrameHeaders 0x2d 1 (headers_payload 0x2d [0; 0; 0; 0; 16] ([0x82; 0x87] ++ tp_field 0 false k_hpack_value_len_tp (make_tp_string example_wire_tp) ++ []) [0; 0; 0]).

Lemma h2_wire_context_reaches_span_witness :
  exists st' r, protocol_http2 example_conf empty_links serving_task None true example_chain 2 (example_h2_state ∅) (frames_args TCP_RECV [padded_request]) = Some st'
  /\ ongoing_http2_grpc (h2_maps st') !! mk_stream example_pid_conn 1 = Some r /\ trace_id (hr_tp r) = trace_id example_wire_tp.
Proof.
  edestruct (h2_wire_context_reaches_span example_conf empty_links serving_task None true example_chain 2 (example_h2_state ∅)
    (frames_args TCP_RECV [padded_request]) 0x2d 1 [0; 0; 0; 0; 16] [0; 0; 0] [0x82; 0x87] 0 false example_wire_tp []) as (st' & r & x & H1 & H2 & _ & _ & H3 & _);
    [reflexivity|discriminate|apply frames_args_hold; by vm_compute|reflexivity|discriminate|vm_compute; discriminate| |by vm_compute|reflexivity| |vm_compute; reflexivity|vm_compute; reflexivity|reflexivity|unfold MAX_TAIL_CALL_CNT; lia|].
  - unfold wf_tp, is_bytes, example_wire_tp, zlen. simpl. split_and!; try lia; repeat constructor; lia.
  - intros j Hj [H _]. change (zlen [0x82; 0x87]) with 2 in Hj. assert (j = 0 \/ j = 1) as [-> | ->] by lia; vm_compute in H; done.
  - exists st', r. split; [exact H1|]. split; [exact H2|exact H3].
Defined.

Lemma h2_stream_end_reported_witness :
  exists st' ev, protocol_http2 example_conf empty_links serving_task None true example_chain 2
    (example_h2_state {[mk_stream example_pid_conn 1 := example_h2_record]})
    (frames_args TCP_RECV [mk_frame FrameHeaders 5 1 [0x88]]) = Some st'
  /\ last (h2_events st') = Some ev /\ trace_id (hr_tp ev) = repeat 7 16.
Proof.
  edestruct (h2_stream_end_reported example_conf empty_links serving_task None true example_chain 2
    (example_h2_state {[mk_stream example_pid_conn 1 := example_h2_record]}) (frames_args TCP_RECV [mk_frame FrameHeaders 5 1 [0x88]])
    5 1 [0x88] example_h2_record) as (st' & ev & H1 & H2 & H3 & _);
    [apply frames_args_hold; by vm_compute|discriminate|reflexivity|vm_compute; reflexivity..|reflexivity|reflexivity|unfold MAX_TAIL_CALL_CNT; lia|].
  exists st', ev. split; [exact H1|]. split; [exact H2|]. apply (f_equal (fun x => trace_id (hr_tp x))) in H3. exact H3.
Defined.
