(* ===== verification/TlsRecord.v ===== *)
(** * TLS record correlation keys ([bpf/common/tls_record.h]).

    The library's write BIO and the socket see the same ciphertext at different moments; the key
    derived from the head of a record is what lets them meet. *)

From Stdlib Require Import ZArith Lia ZifyBool List Bool.
From stdpp Require Import base list.
From S2P Require Import Prelude.

Local Open Scope Z_scope.

(** ** Definitions *)

Definition k_tls_hdr_len : Z := 5.
Definition k_tls_ct_change_cipher_spec : Z := 0x14.
Definition k_tls_ct_alert : Z := 0x15.
Definition k_tls_ct_handshake : Z := 0x16.
Definition k_tls_ct_app_data : Z := 0x17.
Definition k_tls_version_major : Z := 0x03.
Definition k_tls_prefix_max : Z := 32.
Definition k_tls_key_min_len : Z := k_tls_hdr_len + 16.

#[export] Hint Unfold k_tls_hdr_len k_tls_ct_change_cipher_spec k_tls_ct_alert k_tls_ct_handshake
  k_tls_ct_app_data k_tls_version_major k_tls_prefix_max k_tls_key_min_len : kconst.

(** The padding of the C structure is always zero. *)
Record tls_prefix_key := mk_tls_key { key_bytes : list Z; key_len : Z }.

Definition tls_record_plausible_start (hdr : buf) (avail : Z) : bool :=
  if avail <? k_tls_hdr_len then false
  else
    let content_type := hdr 0 in
    if negb (content_type =? k_tls_ct_change_cipher_spec) && negb (content_type =? k_tls_ct_alert)
       && negb (content_type =? k_tls_ct_handshake) && negb (content_type =? k_tls_ct_app_data)
    then false
    else hdr 1 =? k_tls_version_major.

Definition tls_record_key_len (hdr : buf) (avail : Z) : Z :=
  if negb (tls_record_plausible_start hdr avail) then 0
  else
    let fragment_len := Z.lor (Z.shiftl (hdr 3) 8) (hdr 4) in
    if fragment_len =? 0 then 0
    else
      let record_len := k_tls_hdr_len + fragment_len in
      let key_len := if record_len <? avail then record_len else avail in
      if key_len <? k_tls_key_min_len then 0
      else if k_tls_prefix_max <? key_len then k_tls_prefix_max
      else key_len.

(** The return value and the key. *)
Definition tls_prefix_key_from_buf (src : buf) (copied avail : Z) : Z * tls_prefix_key :=
  let key := mk_tls_key (repeat 0 (Z.to_nat k_tls_prefix_max)) 0 in
  if copied <? k_tls_hdr_len then (0, key)
  else
    let key_len := tls_record_key_len src avail in
    if (key_len =? 0) || (copied <? key_len) then (0, key)
    else
      let bytes :=
        map (fun i =>
               let idx := if i <? key_len then i else key_len - 1 in
               if i <? key_len then src idx else 0)
          (zrange (Z.to_nat k_tls_prefix_max)) in
      (key_len, mk_tls_key bytes (u8 key_len)).

(** ** The reference: records that can be correlated *)

Record tls_record := mk_tls_record { tr_type : Z; tr_minor : Z; tr_fragment : list Z }.

(** A fragment of at least an AEAD tag and at most the record layer's limit. *)
Definition tls_record_wf (r : tls_record) : Prop :=
  0x14 <= tr_type r <= 0x17 /\ 16 <= zlen (tr_fragment r) < 2 ^ 16.

Definition tls_record_bytes (r : tls_record) : list Z :=
  tr_type r :: 3 :: tr_minor r :: be_bytes 2 (zlen (tr_fragment r)) ++ tr_fragment r.

(** The first 32 bytes of the record, padded with zeroes. *)
Definition tls_key_of (r : tls_record) : tls_prefix_key :=
  let b := take 32 (tls_record_bytes r) in mk_tls_key (b ++ repeat 0 (32 - length b)) (zlen b).

(** ** Lemmas *)

Lemma tls_record_zlen r : zlen (tls_record_bytes r) = 5 + zlen (tr_fragment r).
Proof. unfold tls_record_bytes. rewrite be_bytes_2. unfold zlen. simpl length. lia. Qed.

Lemma key_len_at r s avail :
  tls_record_wf r -> zlen (tls_record_bytes r) <= avail ->
  tls_record_key_len (list_buf (tls_record_bytes r ++ s)) avail = Z.min 32 (zlen (tls_record_bytes r)).
Proof.
  intros [Ht Hf] Ha. rewrite tls_record_zlen in *.
  unfold tls_record_key_len, tls_record_plausible_start, tls_record_bytes. rewrite be_bytes_2. cbn [app]. lbuf.
  rewrite lor_bytes2 by (apply Z.mod_pos_bound; lia). kunfold.
  set (n := zlen (tr_fragment r)) in *.
  assert (n / 256 mod 256 * 256 + n mod 256 = n) as -> by zdm. change (3 =? 3) with true. bdes; lia.
Qed.

(** The copy loop writes the first [k] bytes and zeroes after them. *)
Lemma key_copy_spec l k :
  0 <= k <= 32 -> k <= zlen l ->
  map (fun i => let idx := if i <? k then i else k - 1 in if i <? k then list_buf l idx else 0) (zrange 32)
  = take (Z.to_nat k) l ++ repeat 0 (32 - Z.to_nat k).
Proof.
  unfold zlen. intros Hk Hl. match goal with |- map ?f _ = _ => set (f0 := f) end. apply (nth_ext _ _ 0 0).
  { unfold zrange. rewrite !length_map, length_seq, length_app, length_take, repeat_length. lia. }
  intros i Hi. unfold zrange in *. rewrite !length_map, length_seq in Hi. rewrite map_map.
  rewrite (nth_indep _ 0 (f0 (Z.of_nat 0))) by (by rewrite length_map, length_seq).
  rewrite (map_nth (fun x => f0 (Z.of_nat x))), seq_nth by done. rewrite Nat.add_0_l. unfold f0. cbv zeta. destruct (Z.ltb_spec (Z.of_nat i) k).
  - rewrite app_nth1 by (rewrite length_take; lia). rewrite list_buf_nth, Nat2Z.id by lia.
    rewrite <- (take_drop (Z.to_nat k) l) at 1. by rewrite app_nth1 by (rewrite length_take; lia).
  - rewrite app_nth2 by (rewrite length_take; lia). by rewrite nth_repeat.
Qed.

Lemma key_from_record r s copied :
  tls_record_wf r -> Z.min 32 (zlen (tls_record_bytes r)) <= copied ->
  tls_prefix_key_from_buf (list_buf (tls_record_bytes r ++ s)) copied (zlen (tls_record_bytes r ++ s))
  = (key_len (tls_key_of r), tls_key_of r).
Proof.
  intros Hwf Hc. pose proof (tls_record_zlen r) as Hz. destruct Hwf as [Ht Hf].
  unfold tls_prefix_key_from_buf. pose proof (zlen_nonneg s).
  rewrite key_len_at by (done || (rewrite zlen_app; lia)).
  set (k := Z.min 32 _) in *. assert (Hk : 21 <= k <= 32) by lia.
  rewrite (proj2 (Z.ltb_ge copied k_tls_hdr_len)) by (kunfold; lia).
  rewrite (proj2 (Z.eqb_neq k 0)), (proj2 (Z.ltb_ge copied k)) by lia. cbn [orb].
  change (Z.to_nat k_tls_prefix_max) with 32%nat.
  rewrite key_copy_spec by (rewrite ?zlen_app; lia).
  assert (take (Z.to_nat k) (tls_record_bytes r ++ s) = take 32 (tls_record_bytes r)) as E.
  { rewrite take_app_le by (unfold zlen in *; lia). destruct (Z.le_gt_cases 32 (zlen (tls_record_bytes r))).
    - by replace (Z.to_nat k) with 32%nat by lia.
    - rewrite !take_ge by (unfold zlen in *; lia). done. }
  assert (length (take 32 (tls_record_bytes r)) = Z.to_nat k) as El by (rewrite length_take; unfold zlen in *; lia).
  unfold tls_key_of. cbn [key_len]. rewrite E, El. unfold zlen at 1 2. rewrite El, Z2Nat.id by lia.
  by rewrite (wrap_small 8) by lia.
Qed.

(** ** Properties *)

(** Both observation points derive the same key, and only for the same record head.  A record
    handed to the BIO on its own and the same record on the socket with anything coalesced behind
    it give one key, its first 32 bytes and their count, whenever the copied bytes cover them; and
    two records share a key if and only if their first 32 bytes coincide. *)
Theorem tls_prefix_key_correlates r r' s s' copied copied' :
  tls_record_wf r -> tls_record_wf r' ->
  Z.min 32 (zlen (tls_record_bytes r)) <= copied -> Z.min 32 (zlen (tls_record_bytes r')) <= copied' ->
  let k := tls_prefix_key_from_buf (list_buf (tls_record_bytes r ++ s)) copied (zlen (tls_record_bytes r ++ s)) in
  let k' := tls_prefix_key_from_buf (list_buf (tls_record_bytes r' ++ s')) copied' (zlen (tls_record_bytes r' ++ s')) in
  21 <= fst k <= 32 /\ (snd k = snd k' <-> take 32 (tls_record_bytes r) = take 32 (tls_record_bytes r')).
Proof.
  intros Hwf Hwf' Hc Hc'. cbv zeta. rewrite !key_from_record by done. cbn [fst snd].
  pose proof (tls_record_zlen r) as Hz. pose proof (tls_record_zlen r') as Hz'. destruct Hwf as [_ Hf], Hwf' as [_ Hf'].
  unfold tls_key_of. cbn [key_len]. split.
  { unfold zlen in *. rewrite length_take. lia. }
  split; [|by intros ->]. intros H. pose proof (f_equal key_len H) as Hl. apply (f_equal key_bytes) in H as Hb. cbn [key_len key_bytes] in *. apply app_inj_1 in Hb as [? _]; [done|]. unfold zlen in Hl. by apply Nat2Z.inj.
Qed.

Lemma tls_prefix_key_correlates_witness :
  let r := mk_tls_record 0x17 3 (repeat 9 40) in
  let k := tls_prefix_key_from_buf (list_buf (tls_record_bytes r)) 45 45 in
  let k' := tls_prefix_key_from_buf (list_buf (tls_record_bytes r ++ [1; 2; 3])) 32 48 in
  snd k = snd k'.
Proof.
  pose proof (tls_prefix_key_correlates (mk_tls_record 0x17 3 (repeat 9 40)) (mk_tls_record 0x17 3 (repeat 9 40))
    [] [1; 2; 3] 45 32) as H.
  destruct H as [_ H]; [by vm_compute|by vm_compute|by vm_compute|by vm_compute|].
  rewrite app_nil_r in H. by apply H.
Defined.
