(* ===== verification/TlsPrefix.v ===== *)
(** * TLS connections behind memory BIOs ([bpf/generictracer/tls_prefix.h], [common/ssl_helpers.h],
      [ssl_args.h]).

    A runtime that encrypts into memory writes the ciphertext to the socket later and from elsewhere.
    The record is remembered by its head when the library hands it to the write BIO, and the
    connection whose socket carries the same head is bound to the SSL.  The maps are LRUs that forget
    entries on their own: [tls_op] has evictions as steps. *)

From Stdlib Require Import ZArith Lia ZifyBool List Bool.
From stdpp Require Import base list countable gmap.
From S2P Require Import Prelude TlsRecord Entry ConnInfo HttpInfo TraceMaps TraceParent HttpSpan.

Local Open Scope Z_scope.

(** ** State *)

Definition k_tls_prefix_max_age_ns : Z := 1000000000.
Definition FLAG_CONNECTED : Z := 1.

#[export] Hint Unfold k_tls_prefix_max_age_ns FLAG_CONNECTED : kconst.

Record pid_ptr_key := mk_ptr_key { ptr_of : Z; ptr_pid : Z }.
Record bio_ssl_info := mk_bio_info { bi_ssl : Z; bi_is_wbio : Z }.
Record ssl_bios := mk_bios { rbio : Z; wbio : Z }.
Record tls_prefix_val := mk_prefix_val { pv_ssl : Z; pv_ts_ns : Z; pv_pid : Z }.
Record ssl_pid_connection_info := mk_ssl_conn { sc_p_conn : pid_connection_info; sc_orig_dport : Z }.
Record ssl_args := mk_ssl_args { sa_ssl : Z; sa_buf : Z; sa_len_ptr : Z; sa_flags : Z }.

#[export] Instance pid_ptr_key_eq_dec : EqDecision pid_ptr_key.
Proof. solve_decision. Defined.
#[export] Instance pid_ptr_key_countable : Countable pid_ptr_key.
Proof. by refine (inj_countable' (fun k => (ptr_of k, ptr_pid k)) (fun '(a, b) => mk_ptr_key a b) _); intros []. Defined.
#[export] Instance tls_prefix_key_eq_dec : EqDecision tls_prefix_key.
Proof. solve_decision. Defined.
#[export] Instance tls_prefix_key_countable : Countable tls_prefix_key.
Proof. by refine (inj_countable' (fun k => (key_bytes k, key_len k)) (fun '(a, b) => mk_tls_key a b) _); intros []. Defined.

(** The maps only the TLS probes use. *)
Record tls_own := mk_tls_own {
  ssl_to_conn : gmap pid_ptr_key ssl_pid_connection_info;
  pid_tid_to_conn : gmap Z ssl_pid_connection_info;
  ssl_to_pid_tid : gmap pid_ptr_key Z;
  active_ssl_read_args : gmap Z ssl_args;
  active_ssl_write_args : gmap Z ssl_args;
  bio_to_ssl : gmap pid_ptr_key bio_ssl_info;
  ssl_to_bios : gmap pid_ptr_key ssl_bios;
  tls_prefix_to_ssl : gmap tls_prefix_key tls_prefix_val
}.

Record tls_state := mk_tls { tl_span : hstate; tl_own : tls_own }.

Definition set_ssl_to_conn (o : tls_own) x : tls_own :=
  mk_tls_own x (pid_tid_to_conn o) (ssl_to_pid_tid o) (active_ssl_read_args o) (active_ssl_write_args o) (bio_to_ssl o) (ssl_to_bios o)
    (tls_prefix_to_ssl o).
Definition set_read_args (o : tls_own) x : tls_own :=
  mk_tls_own (ssl_to_conn o) (pid_tid_to_conn o) (ssl_to_pid_tid o) x (active_ssl_write_args o) (bio_to_ssl o) (ssl_to_bios o)
    (tls_prefix_to_ssl o).
Definition set_write_args (o : tls_own) x : tls_own :=
  mk_tls_own (ssl_to_conn o) (pid_tid_to_conn o) (ssl_to_pid_tid o) (active_ssl_read_args o) x (bio_to_ssl o) (ssl_to_bios o)
    (tls_prefix_to_ssl o).
Definition set_bio_maps (o : tls_own) x y : tls_own :=
  mk_tls_own (ssl_to_conn o) (pid_tid_to_conn o) (ssl_to_pid_tid o) (active_ssl_read_args o) (active_ssl_write_args o) x y
    (tls_prefix_to_ssl o).
Definition set_prefixes (o : tls_own) x : tls_own :=
  mk_tls_own (ssl_to_conn o) (pid_tid_to_conn o) (ssl_to_pid_tid o) (active_ssl_read_args o) (active_ssl_write_args o) (bio_to_ssl o)
    (ssl_to_bios o) x.

Definition set_active_ssl (st : hstate) x : hstate :=
  mk_hs (hs_maps st) x (ongoing_tcp_req st) (connection_tracker st) (hs_events st).

(** ** The BIOs of an SSL *)

Definition ssl_bios_forget (o : tls_own) (pid ssl : Z) : tls_own :=
  match ssl_to_bios o !! mk_ptr_key ssl pid with
  | None => o
  | Some bios =>
      let b2s := bio_to_ssl o in
      let b2s := if nz (rbio bios) then delete (mk_ptr_key (rbio bios) pid) b2s else b2s in
      let b2s := if nz (wbio bios) then delete (mk_ptr_key (wbio bios) pid) b2s else b2s in
      set_bio_maps o b2s (delete (mk_ptr_key ssl pid) (ssl_to_bios o))
  end.

Definition ssl_bios_track (o : tls_own) (pid ssl r w : Z) : tls_own :=
  let o := ssl_bios_forget o pid ssl in
  let b2s := bio_to_ssl o in
  let b2s := if nz r then <[mk_ptr_key r pid := mk_bio_info ssl 0]> b2s else b2s in
  let b2s := if nz w then <[mk_ptr_key w pid := mk_bio_info ssl 1]> b2s else b2s in
  set_bio_maps o b2s (<[mk_ptr_key ssl pid := mk_bios r w]> (ssl_to_bios o)).

Definition bio_owner_is_current (o : tls_own) (pid bio : Z) (info : bio_ssl_info) : bool :=
  match ssl_to_bios o !! mk_ptr_key (bi_ssl info) pid with
  | None => false
  | Some bios => if nz (bi_is_wbio info) then wbio bios =? bio else rbio bios =? bio
  end.

Definition tls_prefix_needs_binding (o : tls_own) (pid ssl_ptr : Z) : bool :=
  match ssl_to_conn o !! mk_ptr_key ssl_ptr pid with
  | None => true
  | Some conn => sc_orig_dport conn =? 0
  end.

(** ** From the BIO to the socket *)

(** The key of the record at [u]; [None] when it cannot be read or has none. *)
Definition record_key (u : umem) (len : Z) : option tls_prefix_key :=
  match probe_read u (Z.to_nat k_tls_hdr_len) with
  | None => None
  | Some hdr =>
      let n := tls_record_key_len (list_buf hdr) (u32 len) in
      if n =? 0 then None
      else
        let n := clamp_umax n k_tls_prefix_max in
        match probe_read u (Z.to_nat n) with
        | None => None
        | Some bytes =>
            let record := bytes ++ repeat 0 (Z.to_nat (k_tls_prefix_max - n)) in
            let '(r, key) := tls_prefix_key_from_buf (list_buf record) n (u32 len) in
            if r =? 0 then None else Some key
        end
  end.

Definition tls_prefix_register_egress (o : tls_own) (now pid bio : Z) (u : umem) (len : Z) : tls_own :=
  if len <? k_tls_hdr_len then o
  else
    let bio_key := mk_ptr_key bio pid in
    match bio_to_ssl o !! bio_key with
    | None => o
    | Some info =>
        if negb (bio_owner_is_current o pid bio info) then set_bio_maps o (delete bio_key (bio_to_ssl o)) (ssl_to_bios o)
        else if negb (nz (bi_is_wbio info)) then o
        else if negb (tls_prefix_needs_binding o pid (bi_ssl info)) then o
        else
          match record_key u len with
          | None => o
          | Some key => set_prefixes o (<[key := mk_prefix_val (bi_ssl info) now pid]> (tls_prefix_to_ssl o))
          end
    end.

Definition set_active_ssl_connection (st : tls_state) (ssl_conn : ssl_pid_connection_info) (ssl : Z) : tls_state :=
  let pc := sc_p_conn ssl_conn in
  mk_tls (set_active_ssl (tl_span st) (<[pc := ssl]> (active_ssl_connections (tl_span st))))
    (set_ssl_to_conn (tl_own st) (<[mk_ptr_key ssl (pc_pid pc) := ssl_conn]> (ssl_to_conn (tl_own st)))).

Definition lookup_ssl_conn (o : tls_own) (pid ssl : Z) : option ssl_pid_connection_info := ssl_to_conn o !! mk_ptr_key ssl pid.

Definition tls_prefix_try_bind (st : tls_state) (now id : Z) (b : buf) (copied avail : Z) (p_conn : pid_connection_info)
    (orig_dport : Z) : tls_state * bool :=
  if negb (tls_record_plausible_start b copied) then (st, false)
  else
    let '(r, key) := tls_prefix_key_from_buf b copied avail in
    if r =? 0 then (st, false)
    else
      let o := tl_own st in
      match tls_prefix_to_ssl o !! key with
      | None => (st, false)
      | Some v =>
          if negb (pv_pid v =? pid_from_pid_tgid id) then (st, false)
          else
            let drop st := mk_tls (tl_span st) (set_prefixes (tl_own st) (delete key (tls_prefix_to_ssl (tl_own st)))) in
            if k_tls_prefix_max_age_ns <? u64 (now - pv_ts_ns v) then (drop st, false)
            else (drop (set_active_ssl_connection st (mk_ssl_conn p_conn orig_dport) (pv_ssl v)), true)
      end.

(** ** SSL calls that are on the stack during the socket call *)

Definition ssl_args_connected (a : ssl_args) : Z := u8 (Z.land (sa_flags a) FLAG_CONNECTED).
Definition set_ssl_args_connected (a : ssl_args) : ssl_args :=
  mk_ssl_args (sa_ssl a) (sa_buf a) (sa_len_ptr a) (Z.lor (sa_flags a) FLAG_CONNECTED).

(** The SSL pointer, 0 for none. *)
Definition unconnected_ssl_from_args (o : tls_own) (id direction : Z) : tls_own * Z :=
  let args :=
    if direction =? TCP_RECV then active_ssl_read_args o !! id
    else if direction =? TCP_SEND then active_ssl_write_args o !! id else None in
  match args with
  | None => (o, 0)
  | Some a =>
      if nz (ssl_args_connected a) then (o, 0)
      else
        let a' := set_ssl_args_connected a in
        (if direction =? TCP_RECV then set_read_args o (<[id := a']> (active_ssl_read_args o))
         else set_write_args o (<[id := a']> (active_ssl_write_args o)), sa_ssl a)
  end.

Definition connect_ssl_to_connection (st : tls_state) (id : Z) (conn : pid_connection_info) (direction orig_dport : Z) : tls_state :=
  let '(o, ssl) := unconnected_ssl_from_args (tl_own st) id direction in
  let st := mk_tls (tl_span st) o in
  if ssl =? 0 then st else set_active_ssl_connection st (mk_ssl_conn conn orig_dport) ssl.

(** [sock]: the ends of the socket, [None] when they cannot be read. *)
Definition connect_ssl_to_sock (st : tls_state) (id : Z) (sock : option connection_info) (direction : Z) : tls_state :=
  let '(o, ssl) := unconnected_ssl_from_args (tl_own st) id direction in
  let st := mk_tls (tl_span st) o in
  if ssl =? 0 then st
  else
    match sock with
    | None => st
    | Some conn =>
        set_active_ssl_connection st
          (mk_ssl_conn (mk_pid_conn (sort_connection_info conn) (pid_from_pid_tgid id)) (d_port conn)) ssl
    end.

(** ** Histories *)

(** What can happen to the maps: the probes, an eviction from one of the LRUs, and any other change of
    [ssl_to_conn]. *)
Inductive tls_op :=
  | op_set_bio (pid ssl r w : Z)
  | op_forget (pid ssl : Z)
  | op_bio_write (now pid bio : Z) (u : umem) (len : Z)
  | op_send (now id : Z) (b : buf) (copied avail : Z) (p_conn : pid_connection_info) (orig_dport : Z)
  | op_evict_bio (k : pid_ptr_key)
  | op_evict_ssl (k : pid_ptr_key)
  | op_evict_prefix (k : tls_prefix_key)
  | op_connection (k : pid_ptr_key) (c : option ssl_pid_connection_info).

Definition tls_apply (st : tls_state) (op : tls_op) : tls_state :=
  let o := tl_own st in
  match op with
  | op_set_bio pid ssl r w => mk_tls (tl_span st) (ssl_bios_track o pid ssl r w)
  | op_forget pid ssl => mk_tls (tl_span st) (ssl_bios_forget o pid ssl)
  | op_bio_write now pid bio u len => mk_tls (tl_span st) (tls_prefix_register_egress o now pid bio u len)
  | op_send now id b copied avail pc dport => fst (tls_prefix_try_bind st now id b copied avail pc dport)
  | op_evict_bio k => mk_tls (tl_span st) (set_bio_maps o (delete k (bio_to_ssl o)) (ssl_to_bios o))
  | op_evict_ssl k => mk_tls (tl_span st) (set_bio_maps o (bio_to_ssl o) (delete k (ssl_to_bios o)))
  | op_evict_prefix k => mk_tls (tl_span st) (set_prefixes o (delete k (tls_prefix_to_ssl o)))
  | op_connection k c => mk_tls (tl_span st) (set_ssl_to_conn o (partial_alter (fun _ => c) k (ssl_to_conn o)))
  end.

Definition tls_run (ops : list tls_op) (st : tls_state) : tls_state := foldl tls_apply st ops.

(** The BIOs the application last gave the SSL at this address, if it has not been freed since. *)
Definition bios_step (pid ssl : Z) (b : option ssl_bios) (op : tls_op) : option ssl_bios :=
  match op with
  | op_set_bio p s r w => if bool_decide (p = pid /\ s = ssl) then Some (mk_bios r w) else b
  | op_forget p s => if bool_decide (p = pid /\ s = ssl) then None else b
  | _ => b
  end.

Definition bios_of (ops : list tls_op) (pid ssl : Z) : option ssl_bios := foldl (bios_step pid ssl) None ops.

(** ** Lemmas *)

Lemma forget_bios o pid ssl : ssl_to_bios (ssl_bios_forget o pid ssl) = delete (mk_ptr_key ssl pid) (ssl_to_bios o).
Proof. unfold ssl_bios_forget. destruct (_ !! _) eqn:E; [done|]. by rewrite delete_id. Qed.

Lemma forget_prefixes o pid ssl : tls_prefix_to_ssl (ssl_bios_forget o pid ssl) = tls_prefix_to_ssl o.
Proof. unfold ssl_bios_forget. by destruct (_ !! _). Qed.

Lemma forget_conns o pid ssl : ssl_to_conn (ssl_bios_forget o pid ssl) = ssl_to_conn o.
Proof. unfold ssl_bios_forget. by destruct (_ !! _). Qed.

Lemma track_bios o pid ssl r w : ssl_to_bios (ssl_bios_track o pid ssl r w) = <[mk_ptr_key ssl pid := mk_bios r w]> (ssl_to_bios o).
Proof. unfold ssl_bios_track. cbn. by rewrite forget_bios, insert_delete_eq. Qed.

(** What [tls_prefix_register_egress] does to the maps of the history. *)
Lemma register_spec o now pid bio u len :
  let o' := tls_prefix_register_egress o now pid bio u len in
  ssl_to_bios o' = ssl_to_bios o
  /\ (tls_prefix_to_ssl o' = tls_prefix_to_ssl o
      \/ exists key ssl bios, record_key u len = Some key /\ ssl_to_bios o !! mk_ptr_key ssl pid = Some bios /\ wbio bios = bio
         /\ tls_prefix_to_ssl o' = <[key := mk_prefix_val ssl now pid]> (tls_prefix_to_ssl o)).
Proof.
  cbv zeta. unfold tls_prefix_register_egress. destruct (len <? _); [by split; [|left]|]. cbv zeta.
  destruct (bio_to_ssl o !! _) as [[ssl w]|]; [|by split; [|left]]. unfold bio_owner_is_current. cbn [bi_ssl bi_is_wbio].
  destruct (ssl_to_bios o !! mk_ptr_key ssl pid) as [bios|] eqn:Hb; [|by split; [|left]].
  destruct (nz w) eqn:Hw.
  - destruct (Z.eqb_spec (wbio bios) bio) as [E|]; cbn [negb]; [|by split; [|left]]. destruct (negb _); [by split; [|left]|].
    destruct (record_key u len) as [key|] eqn:Hk; [|by split; [|left]]. split; [done|right]. by exists key, ssl, bios.
  - by destruct (negb _); (split; [|left]).
Qed.

Lemma bind_spec st now id b copied avail pc dport :
  let '(st', ok) := tls_prefix_try_bind st now id b copied avail pc dport in
  ssl_to_bios (tl_own st') = ssl_to_bios (tl_own st)
  /\ (ok = false -> tls_prefix_to_ssl (tl_own st') ⊆ tls_prefix_to_ssl (tl_own st))
  /\ (ok = true -> exists key v, snd (tls_prefix_key_from_buf b copied avail) = key /\ tls_prefix_to_ssl (tl_own st) !! key = Some v
      /\ pv_pid v = pid_from_pid_tgid id /\ u64 (now - pv_ts_ns v) <= k_tls_prefix_max_age_ns
      /\ active_ssl_connections (tl_span st') !! pc = Some (pv_ssl v)
      /\ lookup_ssl_conn (tl_own st') (pc_pid pc) (pv_ssl v) = Some (mk_ssl_conn pc dport)
      /\ tls_prefix_to_ssl (tl_own st') = delete key (tls_prefix_to_ssl (tl_own st))).
Proof.
  unfold tls_prefix_try_bind. destruct (negb _); [by split_and!|]. destruct (tls_prefix_key_from_buf b copied avail) as [r key].
  destruct (r =? 0); [by split_and!|]. cbv zeta. destruct (tls_prefix_to_ssl (tl_own st) !! key) as [v|] eqn:Hv; [|by split_and!].
  destruct (Z.eqb_spec (pv_pid v) (pid_from_pid_tgid id)) as [Hp|]; cbn [negb]; [|by split_and!].
  destruct (Z.ltb_spec k_tls_prefix_max_age_ns (u64 (now - pv_ts_ns v))).
  - split; [done|]. split; [|done]. intros _. cbn. apply delete_subseteq.
  - split; [done|]. split; [done|]. intros _. exists key, v. unfold lookup_ssl_conn. cbn.
    split_and!; [done|done|done|done|apply lookup_insert_eq|apply lookup_insert_eq|done].
Qed.

(** ** Histories explain the maps *)

Definition wrote (ops : list tls_op) (key : tls_prefix_key) (v : tls_prefix_val) : Prop :=
  exists pre mid bio u len r, ops = pre ++ op_bio_write (pv_ts_ns v) (pv_pid v) bio u len :: mid
  /\ record_key u len = Some key /\ bios_of pre (pv_pid v) (pv_ssl v) = Some (mk_bios r bio).

Definition explained (ops : list tls_op) (st : tls_state) : Prop :=
  (forall pid ssl b, ssl_to_bios (tl_own st) !! mk_ptr_key ssl pid = Some b -> bios_of ops pid ssl = Some b)
  /\ (forall key v, tls_prefix_to_ssl (tl_own st) !! key = Some v -> wrote ops key v).

Lemma bios_snoc ops op pid ssl : bios_of (ops ++ [op]) pid ssl = bios_step pid ssl (bios_of ops pid ssl) op.
Proof. unfold bios_of. by rewrite foldl_app. Qed.

Lemma wrote_snoc ops op key v : wrote ops key v -> wrote (ops ++ [op]) key v.
Proof.
  intros (pre & mid & bio & u & len & r & -> & H). exists pre, (mid ++ [op]), bio, u, len, r. split; [|done]. by rewrite <- app_assoc.
Qed.

Lemma apply_explained ops st op : explained ops st -> explained (ops ++ [op]) (tls_apply st op).
Proof.
  intros [Hb Hp].
  assert (Hkeep : forall m, m ⊆ tls_prefix_to_ssl (tl_own st) -> forall key v, m !! key = Some v -> wrote (ops ++ [op]) key v).
  { intros m Hm key v Hv. apply wrote_snoc, Hp. by eapply lookup_weaken. }
  destruct op as [pid ssl r w|pid ssl|now pid bio u len|now id b copied avail pc dport|k|k|k|k c]; cbn [tls_apply]; split; cbn [tl_own].
  - intros p s x. rewrite track_bios, bios_snoc. cbn [bios_step]. destruct (bool_decide_reflect (pid = p /\ ssl = s)) as [[-> ->]|Hne].
    + rewrite lookup_insert_eq. by intros [= <-].
    + rewrite lookup_insert_ne by (intros [= -> ->]; by apply Hne). apply Hb.
  - apply Hkeep. unfold ssl_bios_track. cbn. by rewrite forget_prefixes.
  - intros p s x. rewrite forget_bios, bios_snoc. cbn [bios_step]. destruct (bool_decide_reflect (pid = p /\ ssl = s)) as [[-> ->]|Hne].
    + by rewrite lookup_delete_eq.
    + rewrite lookup_delete_ne by (intros [= -> ->]; by apply Hne). apply Hb.
  - apply Hkeep. by rewrite forget_prefixes.
  - intros p s x. rewrite bios_snoc. destruct (register_spec (tl_own st) now pid bio u len) as [-> _]. apply Hb.
  - destruct (register_spec (tl_own st) now pid bio u len) as [_ [->|(key & ssl & bs & Hk & Hs & Hw & ->)]]; [by apply Hkeep|].
    intros key' v. destruct (decide (key = key')) as [->|Hne]; [|rewrite lookup_insert_ne by done; by apply Hkeep].
    rewrite lookup_insert_eq. intros [= <-]. exists ops, [], bio, u, len, (rbio bs). split_and!; [done|done|]. cbn.
    rewrite (Hb pid ssl bs Hs). destruct bs. cbn in *. by subst.
  - intros p s x. rewrite bios_snoc. pose proof (bind_spec st now id b copied avail pc dport) as H.
    destruct (tls_prefix_try_bind _ _ _ _ _ _ _ _) as [st' ok]. destruct H as [H _]. cbn [fst]. rewrite H. apply Hb.
  - apply Hkeep. pose proof (bind_spec st now id b copied avail pc dport) as H.
    destruct (tls_prefix_try_bind _ _ _ _ _ _ _ _) as [st' ok]. cbn [fst]. destruct H as (_ & H0 & H1). destruct ok; [|by apply H0].
    destruct (H1 eq_refl) as (key & v & _ & _ & _ & _ & _ & _ & ->). apply delete_subseteq.
  - intros p s x. rewrite bios_snoc. apply Hb.
  - by apply Hkeep.
  - intros p s x. rewrite bios_snoc. cbn. intros [_ Hx]%lookup_delete_Some. by apply Hb.
  - by apply Hkeep.
  - intros p s x. rewrite bios_snoc. apply Hb.
  - apply Hkeep. cbn. apply delete_subseteq.
  - intros p s x. rewrite bios_snoc. apply Hb.
  - by apply Hkeep.
Qed.

Definition no_tls : tls_own := mk_tls_own ∅ ∅ ∅ ∅ ∅ ∅ ∅ ∅.

Lemma run_explained ops sp : explained ops (tls_run ops (mk_tls sp no_tls)).
Proof.
  induction ops as [|op ops IH] using rev_ind.
  - split; [intros ? ? ?|intros ? ?]; cbn; by rewrite lookup_empty.
  - unfold tls_run in *. rewrite foldl_app. by apply apply_explained.
Qed.

(** ** Properties *)

(** C20: a connection is bound only to the SSL whose record it carries.  After any history of SSL
    lifetimes, BIO writes, sends and evictions, in any number of processes, a send binds its
    connection to an SSL only if that process wrote a record with the same head, at most a second
    ago, to a BIO that was then the write BIO the application had last given this SSL, and the SSL
    had not been freed.  A BIO address that was reused, or whose owner was evicted, binds nothing.  The
    maps then name the SSL and the connection to each other, and the record is used up. *)
Theorem tls_bind_sound ops sp now id b copied avail pc dport st' :
  tls_prefix_try_bind (tls_run ops (mk_tls sp no_tls)) now id b copied avail pc dport = (st', true) ->
  exists pre mid ts bio u len key ssl r,
    ops = pre ++ op_bio_write ts (pid_from_pid_tgid id) bio u len :: mid
    /\ record_key u len = Some key /\ snd (tls_prefix_key_from_buf b copied avail) = key
    /\ u64 (now - ts) <= k_tls_prefix_max_age_ns /\ bios_of pre (pid_from_pid_tgid id) ssl = Some (mk_bios r bio)
    /\ active_ssl_connections (tl_span st') !! pc = Some ssl
    /\ lookup_ssl_conn (tl_own st') (pc_pid pc) ssl = Some (mk_ssl_conn pc dport)
    /\ tls_prefix_to_ssl (tl_own st') !! key = None.
Proof.
  intros H. pose proof (bind_spec (tls_run ops (mk_tls sp no_tls)) now id b copied avail pc dport) as Hs. rewrite H in Hs.
  destruct Hs as (_ & _ & Hs). destruct (Hs eq_refl) as (key & [ssl ts pid] & Hk & Hv & Hp & Hage & Ha & Hc & Hd).
  destruct (run_explained ops sp) as [_ Hex]. destruct (Hex key _ Hv) as (pre & mid & bio & u & len & r & Hops & Hr & Hbios).
  cbn in *. subst pid. exists pre, mid, ts, bio, u, len, key, ssl, r. split_and!; try done. rewrite Hd. apply lookup_delete_eq.
Qed.

(** The steps that leave the entry of [key] alone. *)
Definition leaves (key : tls_prefix_key) (op : tls_op) : Prop :=
  match op with
  | op_bio_write _ _ _ u len => record_key u len <> Some key
  | op_send _ _ b copied avail _ _ => snd (tls_prefix_key_from_buf b copied avail) <> key
  | op_evict_prefix k => k <> key
  | _ => True
  end.

Lemma apply_leaves key op st :
  leaves key op -> tls_prefix_to_ssl (tl_own (tls_apply st op)) !! key = tls_prefix_to_ssl (tl_own st) !! key.
Proof.
  destruct op as [pid ssl r w|pid ssl|now pid bio u len|now id b copied avail pc dport|k|k|k|k c]; cbn [tls_apply leaves tl_own]; intros H.
  - unfold ssl_bios_track. cbn. by rewrite forget_prefixes.
  - by rewrite forget_prefixes.
  - destruct (register_spec (tl_own st) now pid bio u len) as [_ [->|(k & ssl & bs & Hk & _ & _ & ->)]]; [done|].
    by rewrite lookup_insert_ne by congruence.
  - unfold tls_prefix_try_bind. destruct (negb _); [done|]. destruct (tls_prefix_key_from_buf b copied avail) as [r k]. cbn in H.
    destruct (r =? 0); [done|]. cbv zeta. destruct (tls_prefix_to_ssl (tl_own st) !! k); [|done]. destruct (negb _); [done|].
    destruct (_ <? _); cbn; by rewrite lookup_delete_ne.
  - done.
  - done.
  - cbn. by rewrite lookup_delete_ne.
  - done.
Qed.

Lemma run_leaves key ops st :
  Forall (leaves key) ops -> tls_prefix_to_ssl (tl_own (tls_run ops st)) !! key = tls_prefix_to_ssl (tl_own st) !! key.
Proof.
  revert st. induction ops as [|op ops IH]; intros st Hl; [done|]. apply Forall_cons in Hl as [H Hl]. cbn.
  fold (tls_run ops (tls_apply st op)). rewrite IH by done. by apply apply_leaves.
Qed.

(** The key depends on the octets that were copied. *)
Lemma key_from_agree b b' copied avail :
  agree copied b b' -> tls_prefix_key_from_buf b copied avail = tls_prefix_key_from_buf b' copied avail.
Proof.
  intros H. unfold tls_prefix_key_from_buf. destruct (Z.ltb_spec copied k_tls_hdr_len) as [|Hc]; [done|].
  assert (Hl : tls_record_key_len b avail = tls_record_key_len b' avail).
  { unfold tls_record_key_len, tls_record_plausible_start. rewrite !(H 0), !(H 1), !(H 3), !(H 4) by (unfold k_tls_hdr_len in Hc; lia). done. }
  rewrite Hl. destruct (_ || _) eqn:E; [done|]. apply orb_false_iff in E as [_ E%Z.ltb_ge]. f_equal. f_equal. apply map_ext_in. intros i Hi.
  unfold zrange in Hi. apply in_map_iff in Hi as (j & <- & _). cbv zeta. destruct (Z.ltb_spec (Z.of_nat j) (tls_record_key_len b' avail)); [|done]. apply H. lia.
Qed.

Lemma record_key_of r s u :
  tls_record_wf r -> uagree (zlen (tls_record_bytes r)) u (list_umem (tls_record_bytes r ++ s)) ->
  record_key u (zlen (tls_record_bytes r)) = Some (tls_key_of r).
Proof.
  intros Hwf Hu. pose proof (tls_record_zlen r) as Hz. pose proof Hwf as [_ Hf]. set (l := tls_record_bytes r) in *.
  assert (Hread : forall n : nat, Z.of_nat n <= zlen l -> probe_read u n = Some (take n l)).
  { intros n Hn. rewrite (probe_read_ext n u (list_umem (l ++ s))) by (intros i Hi; apply Hu; lia).
    rewrite <- (take_drop n l) at 1. rewrite <- app_assoc. etrans; [|apply (probe_read_list (take n l))]. f_equal.
    rewrite length_take. unfold zlen in Hn. lia. }
  unfold record_key. rewrite (Hread (Z.to_nat k_tls_hdr_len)) by (kunfold; lia). rewrite (wrap_small 32) by lia.
  assert (tls_record_key_len (list_buf (take (Z.to_nat k_tls_hdr_len) l)) (zlen l) = Z.min 32 (zlen l)) as ->.
  { pose proof (key_len_at r [] (zlen l) Hwf ltac:(done)) as Hk. rewrite app_nil_r in Hk. fold l in Hk. rewrite <- Hk.
    unfold l, tls_record_bytes. rewrite be_bytes_2. done. }
  rewrite (proj2 (Z.eqb_neq _ 0)) by lia. rewrite clamp_min by (kunfold; lia).
  replace (Z.min (Z.min 32 (zlen l)) k_tls_prefix_max) with (Z.min 32 (zlen l)) by (kunfold; lia). set (n := Z.min 32 (zlen l)).
  rewrite (Hread (Z.to_nat n)) by lia.
  pose proof (key_from_record r [] n Hwf ltac:(fold l; lia)) as Hkey. rewrite app_nil_r in Hkey. fold l in Hkey.
  rewrite (key_from_agree _ (list_buf l)).
  - rewrite Hkey. rewrite (proj2 (Z.eqb_neq _ 0)); [done|]. unfold tls_key_of. fold l. cbn [key_len]. unfold zlen in *. rewrite length_take. lia.
  - intros i Hi. rewrite list_buf_app_l by (unfold zlen in *; rewrite length_take; lia).
    rewrite <- (take_drop (Z.to_nat n) l) at 2. rewrite list_buf_app_l by (unfold zlen in *; rewrite length_take; lia). done.
Qed.

Lemma plausible_record r s copied :
  tls_record_wf r -> 5 <= copied -> tls_record_plausible_start (list_buf (tls_record_bytes r ++ s)) copied = true.
Proof.
  intros [Ht _] Hc. unfold tls_record_plausible_start, tls_record_bytes. cbn [app]. lbuf. kunfold. change (3 =? 3) with true. bdes; lia.
Qed.

(** A record written to the write BIO of an SSL without a peer is remembered. *)
Lemma write_remembered o pid ssl r w ts u s0 rec :
  w <> 0 -> tls_prefix_needs_binding o pid ssl = true -> tls_record_wf rec ->
  uagree (zlen (tls_record_bytes rec)) u (list_umem (tls_record_bytes rec ++ s0)) ->
  tls_prefix_to_ssl (tls_prefix_register_egress (ssl_bios_track o pid ssl r w) ts pid w u (zlen (tls_record_bytes rec))) !! tls_key_of rec
  = Some (mk_prefix_val ssl ts pid).
Proof.
  intros Hw Hn Hwf Hu. pose proof (tls_record_zlen rec) as Hz. pose proof Hwf as [_ Hf]. unfold tls_prefix_register_egress.
  rewrite (proj2 (Z.ltb_ge _ _)) by (kunfold; lia). cbv zeta.
  assert (bio_to_ssl (ssl_bios_track o pid ssl r w) !! mk_ptr_key w pid = Some (mk_bio_info ssl 1)) as ->.
  { unfold ssl_bios_track, nz. cbn. rewrite (proj2 (Z.eqb_neq _ _) Hw). apply lookup_insert_eq. }
  unfold bio_owner_is_current. cbn [bi_ssl bi_is_wbio nz]. rewrite track_bios, lookup_insert_eq. cbn [wbio]. rewrite Z.eqb_refl. cbn [nz negb Z.eqb].
  assert (tls_prefix_needs_binding (ssl_bios_track o pid ssl r w) pid ssl = true) as ->.
  { unfold tls_prefix_needs_binding, ssl_bios_track in *. cbn. by rewrite forget_conns. }
  cbn [negb]. rewrite (record_key_of rec s0 u Hwf Hu). cbn. apply lookup_insert_eq.
Qed.

(** The send that carries a remembered record. *)
Lemma bind_completes st pid ssl r w ts u s0 rec mid now id s copied pc dport :
  w <> 0 -> tls_prefix_needs_binding (tl_own st) pid ssl = true -> tls_record_wf rec ->
  uagree (zlen (tls_record_bytes rec)) u (list_umem (tls_record_bytes rec ++ s0)) ->
  Forall (leaves (tls_key_of rec)) mid -> pid_from_pid_tgid id = pid -> u64 (now - ts) <= k_tls_prefix_max_age_ns ->
  Z.min 32 (zlen (tls_record_bytes rec)) <= copied ->
  let st1 := tls_run (op_set_bio pid ssl r w :: op_bio_write ts pid w u (zlen (tls_record_bytes rec)) :: mid) st in
  let buf := tls_record_bytes rec ++ s in
  exists st', tls_prefix_try_bind st1 now id (list_buf buf) copied (zlen buf) pc dport = (st', true)
  /\ active_ssl_connections (tl_span st') !! pc = Some ssl
  /\ lookup_ssl_conn (tl_own st') (pc_pid pc) ssl = Some (mk_ssl_conn pc dport).
Proof.
  intros Hw Hn Hwf Hu Hmid Hid Hage Hc st1 buf. pose proof (tls_record_zlen rec) as Hz. pose proof Hwf as [_ Hf].
  assert (Hv : tls_prefix_to_ssl (tl_own st1) !! tls_key_of rec = Some (mk_prefix_val ssl ts pid)).
  { etransitivity; [exact (run_leaves _ mid (tls_apply (tls_apply st (op_set_bio pid ssl r w)) (op_bio_write ts pid w u (zlen (tls_record_bytes rec)))) Hmid)|].
    by eapply write_remembered. }
  unfold tls_prefix_try_bind. unfold buf. rewrite plausible_record by (done || lia). cbn [negb]. rewrite key_from_record by done.
  rewrite (proj2 (Z.eqb_neq _ 0)) by (unfold tls_key_of; cbn [key_len]; unfold zlen in *; rewrite length_take; lia).
  cbv zeta. rewrite Hv. cbn [pv_pid pv_ts_ns pv_ssl]. rewrite Hid, Z.eqb_refl. cbn [negb]. rewrite (proj2 (Z.ltb_ge _ _)) by lia.
  eexists. split; [done|]. unfold lookup_ssl_conn. cbn. split; apply lookup_insert_eq.
Qed.

(** C21: a memory-BIO connection finds its SSL.  An SSL without a known peer is given its BIOs and writes a
    record; unless the same head is written or sent by another meanwhile or the entry is evicted, and
    whatever else happens, the send that carries the record within a second binds the connection,
    whatever is coalesced behind the record and however little beyond its head was copied. *)
Theorem tls_bind_complete st pid ssl r w ts u s0 rec mid now id s copied pc dport :
  w <> 0 -> tls_prefix_needs_binding (tl_own st) pid ssl = true -> tls_record_wf rec ->
  uagree (zlen (tls_record_bytes rec)) u (list_umem (tls_record_bytes rec ++ s0)) ->
  Forall (leaves (tls_key_of rec)) mid -> pid_from_pid_tgid id = pid -> u64 (now - ts) <= k_tls_prefix_max_age_ns ->
  Z.min 32 (zlen (tls_record_bytes rec)) <= copied ->
  let st1 := tls_run (op_set_bio pid ssl r w :: op_bio_write ts pid w u (zlen (tls_record_bytes rec)) :: mid) st in
  let buf := tls_record_bytes rec ++ s in
  exists st', tls_prefix_try_bind st1 now id (list_buf buf) copied (zlen buf) pc dport = (st', true)
  /\ active_ssl_connections (tl_span st') !! pc = Some ssl
  /\ lookup_ssl_conn (tl_own st') (pc_pid pc) ssl = Some (mk_ssl_conn pc dport).
Proof. apply bind_completes. Qed.

(** ** Witnesses *)

Definition no_span : hstate := mk_hs empty_tmaps ∅ ∅ ∅ [].
Definition example_tls_record : tls_record := mk_tls_record 0x16 1 (repeat 9 40).
Definition example_bio_ops : list tls_op :=
  [op_set_bio 5 0x100 0x200 0x300; op_bio_write 1000 5 0x300 (list_umem (tls_record_bytes example_tls_record)) 45].
Definition example_tls_conn : pid_connection_info := mk_pid_conn (mk_conn (repeat 1 16) (repeat 2 16) 443 50000) 5.

Lemma tls_bind_sound_witness :
  exists pre mid ts bio u len ssl r, example_bio_ops = pre ++ op_bio_write ts 5 bio u len :: mid /\ bios_of pre 5 ssl = Some (mk_bios r bio).
Proof.
  assert (Hok : snd (tls_prefix_try_bind (tls_run example_bio_ops (mk_tls no_span no_tls)) 2000 (Z.shiftl 5 32)
    (list_buf (tls_record_bytes example_tls_record)) 45 45 example_tls_conn 443) = true) by (vm_compute; reflexivity).
  destruct (tls_prefix_try_bind _ _ _ _ _ _ _ _) as [st' ok] eqn:E in Hok. cbn [snd] in Hok. subst ok.
  destruct (tls_bind_sound example_bio_ops no_span 2000 (Z.shiftl 5 32) (list_buf (tls_record_bytes example_tls_record)) 45 45
    example_tls_conn 443 st' E) as (pre & mid & ts & bio & u & len & key & ssl & r & H1 & _ & _ & _ & H2 & _).
  exists pre, mid, ts, bio, u, len, ssl, r. split; [exact H1|exact H2].
Defined.

Lemma tls_bind_complete_witness :
  exists st', tls_prefix_try_bind (tls_run (example_bio_ops ++ [op_forget 5 0x777; op_evict_ssl (mk_ptr_key 0x100 5)]) (mk_tls no_span no_tls))
    2000 (Z.shiftl 5 32) (list_buf (tls_record_bytes example_tls_record ++ [1; 2; 3])) 32
    (zlen (tls_record_bytes example_tls_record ++ [1; 2; 3])) example_tls_conn 443 = (st', true)
  /\ active_ssl_connections (tl_span st') !! example_tls_conn = Some 0x100.
Proof.
  destruct (tls_bind_complete (mk_tls no_span no_tls) 5 0x100 0x200 0x300 1000 (list_umem (tls_record_bytes example_tls_record)) []
    example_tls_record [op_forget 5 0x777; op_evict_ssl (mk_ptr_key 0x100 5)] 2000 (Z.shiftl 5 32) [1; 2; 3] 32 example_tls_conn 443)
    as (st' & H1 & H2 & _); [discriminate|reflexivity|by vm_compute|intros i _; by rewrite app_nil_r| |reflexivity|by vm_compute|by vm_compute|].
  - apply Forall_cons_2; [exact I|]. apply Forall_cons_2; [exact I|]. apply Forall_nil_2.
  - exists st'. split; [exact H1|exact H2].
Defined.

(** ** An address that has a new owner *)

(** [ssl_bios_forget] follows the addresses the SSL was given, without asking whether the entry it deletes
    still names this SSL: when the BIOs of a first SSL were handed to a second one, releasing the first
    drops the associations of the second, and its records are not remembered. *)
Example forget_drops_new_owner :
  let ops := [op_set_bio 5 0x100 0x200 0x300; op_set_bio 5 0x101 0x200 0x300; op_forget 5 0x100] in
  let o := tl_own (tls_run ops (mk_tls no_span no_tls)) in
  ssl_to_bios o !! mk_ptr_key 0x101 5 = Some (mk_bios 0x200 0x300)
  /\ bio_to_ssl o !! mk_ptr_key 0x300 5 = None
  /\ tls_prefix_register_egress o 1000 5 0x300 (list_umem (tls_record_bytes example_tls_record)) 45 = o.
Proof. vm_compute. done. Qed.
