(* ===== verification/Sql.v ===== *)
(** * SQL statements in a buffer ([bpf/common/strings.h], [bpf/common/sql.h]).

    [stricmp] compares until a NUL of either string, and [is_sql_query_stmt] probes six bytes and
    compares them with each keyword; [find_sql_query] tries the first eight offsets. *)

From Stdlib Require Import ZArith Lia ZifyBool List Bool.
From stdpp Require Import base list.
From S2P Require Import Prelude.

Local Open Scope Z_scope.

(** ** Definitions *)

Definition k_max_query_offset : Z := 8.
Definition k_max_sql_op_len : Z := 6.

#[export] Hint Unfold k_max_query_offset k_max_sql_op_len : kconst.

Definition lowercase (c : Z) : Z := if (65 <=? c) && (c <=? 90) then c + 32 else c.

Fixpoint stricmp_from (n : nat) (i : Z) (s1 s2 : buf) : bool :=
  match n with
  | O => true
  | S n' =>
      if nz (s1 i) && nz (s2 i) then
        if negb (lowercase (s1 i) =? lowercase (s2 i)) then false else stricmp_from n' (i + 1) s1 s2
      else true
  end.

Definition stricmp (s1 s2 : buf) (n : Z) : bool := stricmp_from (Z.to_nat n) 0 s1 s2.

(** WITH, ALTER, SELECT, INSERT, UPDATE, DELETE, CREATE *)
Definition sql_ops : list (list Z) :=
  [[87; 73; 84; 72]; [65; 76; 84; 69; 82]; [83; 69; 76; 69; 67; 84]; [73; 78; 83; 69; 82; 84];
   [85; 80; 68; 65; 84; 69]; [68; 69; 76; 69; 84; 69]; [67; 82; 69; 65; 84; 69]].

Definition is_sql_query_stmt (data : umem) : bool :=
  match probe_read data (Z.to_nat k_max_sql_op_len) with
  | None => false
  | Some stmt =>
      if list_buf stmt 0 =? 0 then false
      else existsb (fun op => stricmp (list_buf stmt) (list_buf op) (zlen op)) sql_ops
  end.

Fixpoint find_sql_query_from (n : nat) (i : Z) (data : umem) : Z :=
  match n with
  | O => -1
  | S n' => if is_sql_query_stmt (ushift data i) then i else find_sql_query_from n' (i + 1) data
  end.

Definition find_sql_query (data : umem) : Z :=
  find_sql_query_from (Z.to_nat k_max_query_offset) 0 data.

(** ** The reference *)

(** [l] starts with the first [k] letters of [op], whatever their case. *)
Definition starts_ci (l op : list Z) (k : nat) : Prop :=
  map lowercase (take k l) = map lowercase (take k op).

(** The statement is a keyword, or a non-empty beginning of one cut by a NUL. *)
Definition sql_keyword (stmt : list Z) : Prop :=
  exists op k, In op sql_ops /\ (0 < k <= length op)%nat /\ starts_ci stmt op k
    /\ (k = length op \/ nth k stmt 0 = 0).

(** ** Lemmas *)

Lemma sql_ops_letters op : In op sql_ops -> Forall (fun c => 65 <= c <= 90) op /\ (4 <= length op <= 6)%nat.
Proof.
  intros H. repeat (destruct H as [<-|H]; [split; [repeat constructor; lia|simpl; lia]|]). done.
Qed.

Lemma lowercase_nz c : lowercase c = 0 <-> c = 0.
Proof. unfold lowercase. bdes_goal; lia. Qed.

Lemma stricmp_cons n a s b op :
  stricmp_from (S n) 0 (list_buf (a :: s)) (list_buf (b :: op))
  = if nz a && nz b then (lowercase a =? lowercase b) && stricmp_from n 0 (list_buf s) (list_buf op)
    else true.
Proof.
  assert (Hsh : forall m i, 0 <= i ->
    stricmp_from m (i + 1) (list_buf (a :: s)) (list_buf (b :: op)) = stricmp_from m i (list_buf s) (list_buf op)).
  { induction m as [|m IH]; intros i Hi; [done|]. cbn [stricmp_from].
    assert (E : forall x l, list_buf (x :: l) (i + 1) = list_buf l i).
    { intros x l. rewrite !list_buf_nth by lia. by replace (Z.to_nat (i + 1)) with (S (Z.to_nat i)) by lia. }
    rewrite !E, IH by lia. done. }
  cbn [stricmp_from]. change (list_buf (a :: s) 0) with a. change (list_buf (b :: op) 0) with b.
  rewrite (Hsh n 0) by lia. by destruct (nz a && nz b), (lowercase a =? lowercase b).
Qed.

(** A keyword matches when its letters do, up to a NUL of the text. *)
Lemma stricmp_spec op s :
  Forall (fun c => 65 <= c <= 90) op -> (length op <= length s)%nat ->
  stricmp_from (length op) 0 (list_buf s) (list_buf op) = true
  <-> exists k, (k <= length op)%nat /\ starts_ci s op k /\ (k = length op \/ nth k s 0 = 0).
Proof.
  revert s. induction op as [|b op IH]; intros s Hop Hlen.
  - split; [|done]. intros _. exists 0%nat. by split_and!; [|..|left].
  - destruct s as [|a s]; [simpl in Hlen; lia|]. apply Forall_cons in Hop as [Hb Hop].
    cbn [length]. rewrite stricmp_cons. simpl in Hlen. specialize (IH s Hop ltac:(lia)).
    assert (nz b = true) as -> by (unfold nz; lia). rewrite andb_true_r.
    destruct (Z.eq_dec a 0) as [->|Ha].
    { split; [|done]. intros _. exists 0%nat. split_and!; [lia|done|by right]. }
    assert (nz a = true) as -> by (unfold nz; lia).
    rewrite andb_true_iff, IH, Z.eqb_eq. unfold starts_ci. split.
    + intros [E (k & Hk & Hs & He)]. exists (S k). simpl. rewrite E, Hs. split_and!; [lia|done|].
      destruct He as [->|]; [by left|by right].
    + intros (k & Hk & Hs & He). destruct k as [|k]; [destruct He as [?|?]; done|].
      simpl in Hs. injection Hs as E Hs. split; [done|]. exists k. split_and!; [lia|done|].
      destruct He as [[= ->]|]; [by left|by right].
Qed.

Lemma stricmp_nil_first op s : Forall (fun c => 65 <= c <= 90) op -> op <> [] -> nth 0 s 0 <> 0 ->
  (length op <= length s)%nat ->
  (exists k, (k <= length op)%nat /\ starts_ci s op k /\ (k = length op \/ nth k s 0 = 0))
  <-> exists k, (0 < k <= length op)%nat /\ starts_ci s op k /\ (k = length op \/ nth k s 0 = 0).
Proof.
  intros Hop Hne H0 Hl. split; intros (k & Hk & Hs & He); exists k; split_and!; try done; try lia.
  destruct k; [|lia]. destruct He as [He|He]; [|done]. destruct op; [done|simpl in He; lia].
Qed.

Lemma is_sql_query_stmt_spec data stmt :
  probe_read data 6 = Some stmt ->
  is_sql_query_stmt data = true <-> nth 0 stmt 0 <> 0 /\ sql_keyword stmt.
Proof.
  intros Hr. unfold is_sql_query_stmt. change (Z.to_nat k_max_sql_op_len) with 6%nat. rewrite Hr.
  pose proof (probe_read_length _ _ _ Hr) as Hlen.
  change (list_buf stmt 0) with (nth 0 stmt 0). destruct (Z.eqb_spec (nth 0 stmt 0) 0) as [|H0].
  { split; [done|]. by intros [? _]. }
  assert (Hop : forall op, In op sql_ops ->
    (stricmp (list_buf stmt) (list_buf op) (zlen op) = true
     <-> exists k, (0 < k <= length op)%nat /\ starts_ci stmt op k /\ (k = length op \/ nth k stmt 0 = 0))).
  { intros op Hin. destruct (sql_ops_letters op Hin) as [Hl Hn]. unfold stricmp, zlen. rewrite Nat2Z.id.
    rewrite stricmp_spec by (done || lia). apply stricmp_nil_first; [done| |done|lia]. intros ->. simpl in Hn. lia. }
  rewrite existsb_exists. unfold sql_keyword. split.
  - intros (op & Hin & Hs). split; [done|]. apply Hop in Hs as (k & ? & ? & ?); [|done]. by exists op, k.
  - intros (_ & op & k & Hin & ? & ? & ?). exists op. split; [done|]. apply Hop; [done|]. by exists k.
Qed.

(** ** Properties *)

(** Which texts count as SQL.  On six readable bytes, [is_sql_query_stmt] answers true if and only
    if they begin, in any letter case, with one of the seven keywords, or with a non-empty
    beginning of one that a NUL byte cuts short: "S" followed by NUL is taken for SELECT. *)
Theorem is_sql_query_stmt_exact data stmt :
  probe_read data 6 = Some stmt ->
  is_sql_query_stmt data = true <-> nth 0 stmt 0 <> 0 /\ sql_keyword stmt.
Proof. apply is_sql_query_stmt_spec. Qed.

(** "S", NUL and four further bytes. *)
Lemma is_sql_query_stmt_exact_witness : is_sql_query_stmt (list_umem [83; 0; 1; 2; 3; 4]) = true.
Proof.
  apply (is_sql_query_stmt_exact (list_umem [83; 0; 1; 2; 3; 4]) [83; 0; 1; 2; 3; 4]); [by vm_compute|].
  split; [done|]. exists [83; 69; 76; 69; 67; 84], 1%nat. split_and!; [simpl; tauto|lia|simpl; lia|done|by right].
Defined.
