(* ===== verification/Postgres.v ===== *)
(** * PostgreSQL ([bpf/generictracer/protocol_postgres.h]).

    The classifier of a request segment and the capture of its payload.  [protocol_cache] is the
    map of classified connections; the configured limit and the availability of the scratch
    buffer are arguments. *)

From Stdlib Require Import ZArith Lia ZifyBool List Bool.
From stdpp Require Import base list gmap.
From S2P Require Import Prelude TraceUtil LargeBuf ConnInfo.

Local Open Scope Z_scope.

(** ** Definitions *)

Definition k_pg_hdr_size : Z := 5.
Definition k_pg_messages_in_packet_max : Z := 10.
Definition k_pg_msg_bind : Z := 66.
Definition k_pg_msg_execute : Z := 69.
Definition k_pg_msg_parse : Z := 80.
Definition k_pg_msg_query : Z := 81.

#[export] Hint Unfold k_pg_hdr_size k_pg_messages_in_packet_max k_pg_msg_bind k_pg_msg_execute
  k_pg_msg_parse k_pg_msg_query : kconst.

Record postgres_hdr := mk_pg_hdr { message_len : Z; message_type : Z }.

Definition postgres_parse_hdr (data : umem) : postgres_hdr :=
  let header := list_buf (probe_read0 data (Z.to_nat k_pg_hdr_size)) in
  mk_pg_hdr (bswap32 (le_word (take_buf (shift header 1) 4))) (header 0).

Definition pg_known_command (t : Z) : bool :=
  (t =? k_pg_msg_query) || (t =? k_pg_msg_parse) || (t =? k_pg_msg_bind) || (t =? k_pg_msg_execute).

(** The message loop: whether the segment is malformed and whether a known command was seen. *)
Fixpoint pg_loop (n : nat) (data : umem) (data_len message_size : Z) (known : bool) : bool * bool :=
  match n with
  | O => (false, known)
  | S n' =>
      if data_len <? u64 (message_size + k_pg_hdr_size) then (false, known)
      else
        let hdr := postgres_parse_hdr (ushift data message_size) in
        if message_len hdr <? 4 then (true, known)
        else
          let full_message_size := message_len hdr + 1 in
          if data_len <? u64 (message_size + full_message_size) then (false, known)
          else
            pg_loop n' data data_len (u64 (message_size + full_message_size))
              (known || pg_known_command (message_type hdr))
  end.

Definition is_postgres (cache : protocol_cache) (conn_info : connection_info) (data : umem)
    (data_len : Z) (ptype : protocol_type) : Z * protocol_type * protocol_cache :=
  if negb (bool_decide (ptype = k_protocol_type_postgres))
     && negb (bool_decide (ptype = k_protocol_type_unknown))
  then (0, ptype, cache)
  else if data_len <? k_pg_hdr_size then (0, ptype, cache)
  else
    let '(malformed, includes_known_command) :=
      pg_loop (Z.to_nat k_pg_messages_in_packet_max) data data_len 0 false in
    if malformed || negb includes_known_command then (0, ptype, cache)
    else (1, k_protocol_type_postgres, <[conn_info := k_protocol_type_postgres]> cache).

Section capture.
Context {C : Type}.

Definition postgres_send_large_buffer (postgres_max_captured_bytes : Z) (lb_mem : bool)
    (req : tcp_req C) (ring : ringbuf C) (u_buf : umem) (bytes_len packet_type direction : Z)
    (action : large_buf_action) : Z * tcp_req C * ringbuf C :=
  let bytes_sent := req_bytes_sent req packet_type in
  if (postgres_max_captured_bytes =? 0) || (postgres_max_captured_bytes <=? bytes_sent)
     || (bytes_len =? 0)
  then (0, req, ring)
  else if negb lb_mem then (0, req, ring)
  else
    let large_buf :=
      mk_lb packet_type action direction 0 (req_conn_info req) k_large_buf_layer_app
        k_large_buffer_source_kprobes (req_tp req) [] in
    let max_available_bytes :=
      clamp_umax (postgres_max_captured_bytes - bytes_sent) k_large_buf_max_postgres_captured_bytes in
    let available_bytes := Z.min bytes_len max_available_bytes in
    let '(consumed_bytes, _, ring) := large_buf_emit_chunks large_buf ring u_buf available_bytes in
    (0, req_add_bytes req packet_type consumed_bytes, ring).
End capture.

(** ** The reference: frontend messages *)

Record pg_message := mk_pg { pg_type : Z; pg_body : list Z }.

Definition pg_message_wf (m : pg_message) : Prop :=
  0 <= pg_type m < 256 /\ is_bytes (pg_body m) /\ zlen (pg_body m) < 2 ^ 32 - 4.

(** Type, length counting itself, body. *)
Definition pg_bytes (m : pg_message) : list Z :=
  pg_type m :: be_bytes 4 (zlen (pg_body m) + 4) ++ pg_body m.

(** What stops the walk: too few bytes for a header, a message longer than what is left, or a
    length no message can have. *)
Inductive pg_tail : list Z -> bool -> Prop :=
  | tail_short l : zlen l < 5 -> pg_tail l false
  | tail_split t len l : 0 <= len < 2 ^ 32 -> 4 <= len -> zlen l < len - 4 ->
      pg_tail (t :: be_bytes 4 len ++ l) false
  | tail_malformed t len l : 0 <= len < 4 -> pg_tail (t :: be_bytes 4 len ++ l) true.

(** ** Lemmas *)

(** The header read at the end of [pre]. *)
Lemma parse_hdr_at pre t len rest :
  0 <= len < 2 ^ 32 ->
  postgres_parse_hdr (ushift (list_umem (pre ++ t :: be_bytes 4 len ++ rest)) (zlen pre)) = mk_pg_hdr len t.
Proof.
  intros Hl. unfold postgres_parse_hdr, probe_read0.
  change (t :: be_bytes 4 len ++ rest) with ((t :: be_bytes 4 len) ++ rest).
  assert (Z.to_nat k_pg_hdr_size = length (t :: be_bytes 4 len)) as -> by (rewrite be_bytes_4; reflexivity).
  rewrite probe_read_at. f_equal. etrans; [|exact (be32_le_word len Hl)]. rewrite be_bytes_4.
  rewrite !take_buf_S. reflexivity.
Qed.

(** Five bytes are a type and a length. *)
Lemma header_split l : is_bytes l -> 5 <= zlen l ->
  exists t len rest, l = t :: be_bytes 4 len ++ rest /\ 0 <= len < 2 ^ 32 /\ 0 <= t < 256 /\ is_bytes rest.
Proof.
  intros Hb Hl. unfold zlen in Hl. destruct l as [|t [|a [|b [|c [|d rest]]]]]; simpl in Hl; try lia.
  unfold is_bytes in Hb. rewrite !Forall_cons in Hb. destruct Hb as (? & ? & ? & ? & ? & ?).
  exists t, (a * 16777216 + b * 65536 + c * 256 + d), rest. split_and!; try lia; [|done].
  rewrite be_bytes_4. cbn [app]. repeat f_equal; zdm.
Qed.

Lemma pg_loop_spec n pre l known :
  is_bytes l -> zlen (pre ++ l) < 2 ^ 32 ->
  exists ms tail (malformed : bool),
    l = concat (map pg_bytes ms) ++ tail /\ (length ms <= n)%nat /\ Forall pg_message_wf ms
    /\ (length ms = n /\ malformed = false \/ pg_tail tail malformed)
    /\ pg_loop n (list_umem (pre ++ l)) (zlen (pre ++ l)) (zlen pre) known
       = (malformed, known || existsb (fun m => pg_known_command (pg_type m)) ms).
Proof.
  revert pre l known. induction n as [|n IH]; intros pre l known Hb Hlen; cbn [pg_loop].
  { exists [], l, false. rewrite orb_false_r. split_and!; try done. by left. }
  pose proof (zlen_nonneg pre). pose proof (zlen_nonneg l). pose proof (zlen_app pre l) as Ea.
  rewrite (wrap_small 64) by (kunfold; lia).
  destruct (Z.ltb_spec (zlen (pre ++ l)) (zlen pre + k_pg_hdr_size)).
  { exists [], l, false. rewrite orb_false_r. split_and!; try done; [simpl; lia|]. right. constructor. kunfold. lia. }
  destruct (header_split l Hb ltac:(kunfold; lia)) as (t & len & rest & -> & Hr & Ht & Hbr).
  rewrite parse_hdr_at by done. cbn [message_len message_type].
  assert (Hz : zlen (t :: be_bytes 4 len ++ rest) = 5 + zlen rest)
    by (rewrite be_bytes_4; unfold zlen; simpl length; lia).
  destruct (Z.ltb_spec len 4).
  { exists [], (t :: be_bytes 4 len ++ rest), true. rewrite orb_false_r. split_and!; try done; [simpl; lia|].
    right. apply tail_malformed. lia. }
  rewrite (wrap_small 64) by lia.
  destruct (Z.ltb_spec (zlen (pre ++ t :: be_bytes 4 len ++ rest)) (zlen pre + (len + 1))).
  { exists [], (t :: be_bytes 4 len ++ rest), false. rewrite orb_false_r. split_and!; try done; [simpl; lia|].
    right. apply tail_split; [done|done|lia]. }
  destruct (zlen_split rest (len - 4) ltac:(lia)) as (body & rest' & -> & Hbody).
  apply Forall_app in Hbr as [Hbb Hbr]. set (m := mk_pg t body).
  assert (Hm : t :: be_bytes 4 len ++ body ++ rest' = pg_bytes m ++ rest').
  { unfold pg_bytes, m. cbn [pg_type pg_body app]. replace (zlen body + 4) with len by lia. by rewrite <- app_assoc. }
  rewrite Hm in *. rewrite app_assoc in *.
  assert (zlen pre + (len + 1) = zlen (pre ++ pg_bytes m)) as ->.
  { rewrite zlen_app. unfold pg_bytes, m. cbn [pg_type pg_body]. rewrite be_bytes_4. unfold zlen in *. simpl length. lia. }
  destruct (IH (pre ++ pg_bytes m) rest' (known || pg_known_command t) Hbr Hlen)
    as (ms & tail & mal & -> & Hn & Hwf & Htail & ->).
  exists (m :: ms), tail, mal. split_and!.
  - cbn [map concat]. by rewrite <- app_assoc.
  - simpl. lia.
  - constructor; [|done]. unfold pg_message_wf, m. cbn. split_and!; try done; lia.
  - destruct Htail as [[<- ->]|?]; [left; done|by right].
  - cbn [existsb]. by rewrite orb_assoc.
Qed.

(** ** Properties *)

(** PostgreSQL classification.  Any readable segment splits into complete frontend messages (at
    most ten) and a tail that is cut short, split, or malformed, and an unclassified or PostgreSQL
    connection is classified as PostgreSQL, in the result and in the cache, exactly when the
    segment has a header, the tail is not malformed and one of those messages is Query, Parse,
    Bind or Execute. *)
Theorem is_postgres_exact cache conn l ptype :
  is_bytes l -> zlen l < 2 ^ 32 -> ptype = k_protocol_type_postgres \/ ptype = k_protocol_type_unknown ->
  exists ms tail (malformed : bool),
    l = concat (map pg_bytes ms) ++ tail /\ (length ms <= 10)%nat /\ Forall pg_message_wf ms
    /\ (length ms = 10%nat /\ malformed = false \/ pg_tail tail malformed)
    /\ is_postgres cache conn (list_umem l) (zlen l) ptype
       = if (5 <=? zlen l) && negb malformed && existsb (fun m => pg_known_command (pg_type m)) ms
         then (1, k_protocol_type_postgres, <[conn := k_protocol_type_postgres]> cache)
         else (0, ptype, cache).
Proof.
  intros Hb Hlen Hp. destruct (pg_loop_spec 10 [] l false Hb Hlen) as (ms & tail & mal & E & Hn & Hwf & Ht & Hl).
  exists ms, tail, mal. split_and!; [done..|]. unfold is_postgres.
  assert (negb (bool_decide (ptype = k_protocol_type_postgres)) && negb (bool_decide (ptype = k_protocol_type_unknown)) = false) as ->
    by (destruct Hp as [-> | ->]; done).
  change (Z.to_nat k_pg_messages_in_packet_max) with 10%nat. change k_pg_hdr_size with 5.
  simpl app in Hl. change (zlen []) with 0 in Hl. rewrite Hl.
  rewrite Z.ltb_antisym. destruct (5 <=? zlen l); [|done]. cbn [negb andb orb].
  by destruct mal, (existsb _ ms).
Qed.

(** "Q" with the body "select 1\0". *)
Lemma is_postgres_exact_witness :
  let l := pg_bytes (mk_pg 81 [115; 101; 108; 101; 99; 116; 32; 49; 0]) in
  exists ms, fst (fst (is_postgres ∅ (mk_conn [] [] 1 2) (list_umem l) (zlen l) k_protocol_type_unknown)) = 1
    /\ (length ms <= 10)%nat /\ Forall pg_message_wf ms.
Proof.
  cbv zeta.
  destruct (is_postgres_exact ∅ (mk_conn [] [] 1 2) (pg_bytes (mk_pg 81 [115; 101; 108; 101; 99; 116; 32; 49; 0]))
    k_protocol_type_unknown) as (ms & tail & mal & _ & Hn & Hwf & _ & _);
    [unfold is_bytes; vm_compute; repeat constructor; done|by vm_compute|by right|].
  exists ms. split_and!; [by vm_compute|done|done].
Defined.

(** The PostgreSQL capture stays in its budget.  A call appends to the ring events that carry a
    prefix of the buffer, charges exactly those bytes to the packet's direction and nothing to the
    other, and never takes a direction past the configured limit. *)
Theorem postgres_capture_budget {C} max lb_mem (req : tcp_req C) ring u_buf bytes_len pt dir action :
  0 <= max <= k_large_buf_max_postgres_captured_bytes -> 0 <= bytes_len < 2 ^ 32 ->
  0 <= req_bytes_sent req pt <= max ->
  let '(r, req', ring') := postgres_send_large_buffer max lb_mem req ring u_buf bytes_len pt dir action in
  r = 0 /\ captured max req ring u_buf bytes_len pt action req' ring'.
Proof.
  intros Hmax Hlen Hs. unfold postgres_send_large_buffer.
  destruct (_ || _) eqn:Hg; [split; [done|]; apply captured_nothing; lia|].
  destruct lb_mem; cbn [negb]; [|split; [done|]; apply captured_nothing; lia].
  set (lb := mk_lb _ _ _ _ _ _ _ _ _).
  pose proof (captured_emit max lb req ring u_buf bytes_len pt k_large_buf_max_postgres_captured_bytes
    ltac:(kunfold; lia) Hlen ltac:(kunfold; lia) ltac:(lia)) as H.
  destruct (large_buf_emit_chunks _ _ _ _) as [[c lb'] ring']. done.
Qed.

Definition example_req : tcp_req unit :=
  mk_req tt (mk_tp_info (repeat 0 16) (repeat 0 8) (repeat 0 8) 0 0) 0 0 false 0 0 (repeat 0 128).

Lemma postgres_capture_budget_witness :
  let '(r, req', ring') := postgres_send_large_buffer 10 true example_req (mk_ring [] [])
    (list_umem (repeat 7 20)) 20 PACKET_TYPE_REQUEST 1 k_large_buf_action_init in
  r = 0 /\ captured 10 example_req (mk_ring [] []) (list_umem (repeat 7 20)) 20 PACKET_TYPE_REQUEST
            k_large_buf_action_init req' ring'.
Proof.
  apply (postgres_capture_budget 10 true example_req (mk_ring [] []) (list_umem (repeat 7 20)) 20
    PACKET_TYPE_REQUEST 1 k_large_buf_action_init); cbn; kunfold; lia.
Defined.
