(* ===== verification/Mysql.v ===== *)
(** * MySQL ([bpf/generictracer/protocol_mysql.h]).

    The classifier, which remembers a four-byte header that arrives in a buffer of its own, and
    the capture, which ships a remembered header ahead of the payload.  [mysql_state] is the map of
    remembered headers. *)

From Stdlib Require Import ZArith Lia ZifyBool List Bool.
From stdpp Require Import base list gmap.
From S2P Require Import Prelude TraceUtil LargeBuf ConnInfo Postgres Sql.

Local Open Scope Z_scope.

(** ** Definitions *)

Definition k_mysql_hdr_size : Z := 5.
Definition k_mysql_hdr_command_id_size : Z := 1.
Definition k_mysql_hdr_without_command_size : Z := 4.
Definition k_mysql_com_query : Z := 0x3.
Definition k_mysql_com_stmt_prepare : Z := 0x16.
Definition k_mysql_com_stmt_execute : Z := 0x17.
Definition k_mysql_payload_length_max : Z := 8192.

#[export] Hint Unfold k_mysql_hdr_size k_mysql_hdr_command_id_size k_mysql_hdr_without_command_size
  k_mysql_com_query k_mysql_com_stmt_prepare k_mysql_com_stmt_execute k_mysql_payload_length_max : kconst.

Record mysql_hdr := mk_mysql_hdr {
  my_payload_length : list Z;
  my_sequence_id : Z;
  my_command_id : Z;
  my_hdr_arrived : bool
}.

(** The four bytes of [struct mysql_state_data]: payload length, then sequence id. *)
Definition mysql_state := gmap connection_info (list Z).

Definition mysql_payload_length (l : list Z) : Z :=
  Z.lor (Z.lor (list_buf l 0) (Z.shiftl (list_buf l 1) 8)) (Z.shiftl (list_buf l 2) 16).

(** The return value and the map. *)
Definition mysql_store_state_data (st : mysql_state) (conn_info : connection_info) (data : umem)
    (data_len : Z) : Z * mysql_state :=
  if negb (data_len =? k_mysql_hdr_without_command_size) then (0, st)
  else
    (-1, <[conn_info := probe_read0 data (Z.to_nat k_mysql_hdr_without_command_size)]> st).

(** The header and the return value; [None] for -1. *)
Definition mysql_parse_fixup_header (st : mysql_state) (conn_info : connection_info) (data : umem)
    (data_len : Z) : option mysql_hdr :=
  let h := probe_read0 data (Z.to_nat k_mysql_hdr_size) in
  if mysql_payload_length (take 3 h) =? u64 (data_len - k_mysql_hdr_without_command_size) then
    Some (mk_mysql_hdr (take 3 h) (list_buf h 3) (list_buf h 4) false)
  else
    match st !! conn_info with
    | Some sd =>
        let cmd :=
          match probe_read data (Z.to_nat k_mysql_hdr_command_id_size) with
          | Some l => list_buf l 0
          | None => list_buf h 4
          end in
        Some (mk_mysql_hdr (take 3 sd) (list_buf sd 3) cmd true)
    | None => None
    end.

Definition data_offset (hdr : mysql_hdr) : Z :=
  if my_hdr_arrived hdr then k_mysql_hdr_size - k_mysql_hdr_without_command_size else k_mysql_hdr_size.

(** The [switch] on the command: is this a MySQL request or response? *)
Definition mysql_command_ok (hdr : mysql_hdr) (data : umem) (ptype : protocol_type) : bool :=
  let cmd := my_command_id hdr in
  if (cmd =? k_mysql_com_query) || (cmd =? k_mysql_com_stmt_prepare) then
    negb (find_sql_query (ushift data (data_offset hdr)) =? -1)
  else if cmd =? k_mysql_com_stmt_execute then bool_decide (ptype = k_protocol_type_mysql)
  else
    bool_decide (ptype = k_protocol_type_mysql)
    && (((my_sequence_id hdr =? 1) && negb (my_hdr_arrived hdr)) || (1 <? my_sequence_id hdr)).

Definition is_mysql (st : mysql_state) (cache : protocol_cache) (conn_info : connection_info)
    (data : umem) (data_len : Z) (ptype : protocol_type)
    : Z * protocol_type * mysql_state * protocol_cache :=
  if negb (bool_decide (ptype = k_protocol_type_mysql))
     && negb (bool_decide (ptype = k_protocol_type_unknown))
  then (0, ptype, st, cache)
  else
    let '(r, st) := mysql_store_state_data st conn_info data data_len in
    if r <? 0 then (0, ptype, st, cache)
    else
      match mysql_parse_fixup_header st conn_info data data_len with
      | None => (0, ptype, st, cache)
      | Some hdr =>
          if k_mysql_payload_length_max <? mysql_payload_length (my_payload_length hdr)
          then (0, ptype, st, cache)
          else if negb (mysql_command_ok hdr data ptype) then (0, ptype, st, cache)
          else (1, k_protocol_type_mysql, st, <[conn_info := k_protocol_type_mysql]> cache)
      end.

Definition mysql_send_large_buffer (mysql_max_captured_bytes : Z) (lb_mem : bool)
    (req : tcp_req connection_info) (conn : connection_info) (st : mysql_state)
    (ring : ringbuf connection_info) (u_buf : umem) (bytes_len packet_type direction : Z)
    (action : large_buf_action)
    : Z * tcp_req connection_info * mysql_state * ringbuf connection_info :=
  let bytes_sent := req_bytes_sent req packet_type in
  if (mysql_max_captured_bytes =? 0) || (mysql_max_captured_bytes <=? bytes_sent) || (bytes_len =? 0)
  then (0, req, st, ring)
  else
    let '(r, st) := mysql_store_state_data st conn u_buf bytes_len in
    if r <? 0 then (-1, req, st, ring)
    else if negb lb_mem then (0, req, st, ring)
    else
      let lb :=
        mk_lb packet_type action direction 0 conn k_large_buf_layer_app k_large_buffer_source_kprobes
          (req_tp req) [] in
      let max_available_bytes := mysql_max_captured_bytes - bytes_sent in
      let finish st lb ring max_available_bytes consumed_bytes :=
        let max_available_bytes := clamp_umax max_available_bytes k_large_buf_max_mysql_captured_bytes in
        let available_bytes := Z.min bytes_len max_available_bytes in
        let '(c, _, ring) := large_buf_emit_chunks lb ring u_buf available_bytes in
        (0, req_add_bytes req packet_type (u32 (consumed_bytes + c)), st, ring) in
      match st !! conn with
      | Some state_data =>
          let st := delete conn st in
          if max_available_bytes <? k_mysql_hdr_without_command_size then (0, req, st, ring)
          else
            let lb := lb_set_payload lb state_data in
            let '(_, ring) := events_ringbuf_output ring lb in
            finish st (lb_set_action lb k_large_buf_action_append) ring
              (max_available_bytes - k_mysql_hdr_without_command_size) k_mysql_hdr_without_command_size
      | None => finish st lb ring max_available_bytes 0
      end.

(** ** Lemmas *)

(** A command packet: length, sequence id, command and argument. *)
Definition mysql_header (len seq : Z) : list Z := le_bytes 3 len ++ [seq].
Definition mysql_packet (seq cmd : Z) (arg : list Z) : list Z :=
  mysql_header (1 + zlen arg) seq ++ cmd :: arg.

Lemma le_bytes_3 x : le_bytes 3 x = [x mod 256; x / 256 mod 256; x / 65536 mod 256].
Proof.
  unfold le_bytes. cbn -[Z.shiftr Z.modulo]. rewrite Z.shiftr_0_r. by rewrite !Z.shiftr_div_pow2 by lia.
Qed.

Lemma payload_length_le x : 0 <= x < 2 ^ 24 -> mysql_payload_length (le_bytes 3 x) = x.
Proof.
  intros Hx. unfold mysql_payload_length. rewrite le_bytes_3. lbuf.
  rewrite Z.lor_comm, (Z.lor_comm (x mod 256)), Z.lor_assoc, lor_bytes3 by (apply Z.mod_pos_bound; lia). zdm.
Qed.

Lemma probe_read0_list l1 l2 n : n = length l1 -> probe_read0 (list_umem (l1 ++ l2)) n = l1.
Proof. intros ->. unfold probe_read0. by rewrite probe_read_list. Qed.

Lemma is_sql_query_stmt_ext m m' : uagree 6 m m' -> is_sql_query_stmt m = is_sql_query_stmt m'.
Proof. intros H. unfold is_sql_query_stmt. by rewrite (probe_read_ext _ m m') by (kunfold; exact H). Qed.

Lemma find_sql_query_ext m m' : (forall a, 0 <= a -> m a = m' a) -> find_sql_query m = find_sql_query m'.
Proof.
  intros H. unfold find_sql_query. generalize (Z.to_nat k_max_query_offset). intros n.
  assert (Hn : forall n i, 0 <= i -> find_sql_query_from n i m = find_sql_query_from n i m'); [|by apply Hn].
  clear n. induction n as [|n IH]; intros i Hi; [done|]. cbn [find_sql_query_from].
  rewrite (is_sql_query_stmt_ext (ushift m i) (ushift m' i)) by (intros a Ha; apply H; lia).
  by rewrite IH by lia.
Qed.

(** The header of an unsplit packet. *)
Lemma fixup_whole st conn seq cmd arg :
  1 + zlen arg < 2 ^ 24 ->
  mysql_parse_fixup_header st conn (list_umem (mysql_packet seq cmd arg)) (zlen (mysql_packet seq cmd arg))
  = Some (mk_mysql_hdr (le_bytes 3 (1 + zlen arg)) seq cmd false).
Proof.
  intros Hl. pose proof (zlen_nonneg arg). unfold mysql_parse_fixup_header, mysql_packet, mysql_header.
  change (cmd :: arg) with ([cmd] ++ arg). rewrite app_assoc.
  rewrite probe_read0_list by (by rewrite le_bytes_3).
  assert (zlen (((le_bytes 3 (1 + zlen arg) ++ [seq]) ++ [cmd]) ++ arg) = 5 + zlen arg) as ->
    by (rewrite !zlen_app, le_bytes_3; unfold zlen; simpl length; lia).
  rewrite (wrap_small 64) by (kunfold; lia). kunfold.
  assert (take 3 ((le_bytes 3 (1 + zlen arg) ++ [seq]) ++ [cmd]) = le_bytes 3 (1 + zlen arg)) as ->
    by by rewrite le_bytes_3.
  rewrite payload_length_le, (proj2 (Z.eqb_eq _ _)) by lia. by rewrite le_bytes_3.
Qed.

(** The header of a packet whose first four bytes were stored, unless the rest looks like a packet
    of its own. *)
Lemma fixup_split st conn len seq cmd arg :
  st !! conn = Some (mysql_header len seq) -> zlen arg + 1 < 2 ^ 32 ->
  mysql_payload_length (take 3 (probe_read0 (list_umem (cmd :: arg)) 5)) <> u64 (zlen (cmd :: arg) - 4) ->
  mysql_parse_fixup_header st conn (list_umem (cmd :: arg)) (zlen (cmd :: arg))
  = Some (mk_mysql_hdr (le_bytes 3 len) seq cmd true).
Proof.
  intros Hst Hl Hne. unfold mysql_parse_fixup_header. change (Z.to_nat k_mysql_hdr_size) with 5%nat.
  change k_mysql_hdr_without_command_size with 4. rewrite (proj2 (Z.eqb_neq _ _) Hne), Hst.
  change (Z.to_nat k_mysql_hdr_command_id_size) with (length [cmd]).
  change (cmd :: arg) with ([cmd] ++ arg). rewrite probe_read_list.
  unfold mysql_header. by rewrite le_bytes_3.
Qed.

(** ** Properties *)

(** A split header does not change the classification.  When the four-byte header of a command
    arrives in a buffer of its own, the first call only remembers it, and the second call, on the
    rest of the packet, decides as one call on the whole packet would (for a command other than a
    response, and a rest that is not four bytes long and does not itself look like a whole
    packet). *)
Theorem mysql_split_header st cache conn ptype seq cmd arg :
  ptype = k_protocol_type_mysql \/ ptype = k_protocol_type_unknown ->
  is_bytes arg -> 1 + zlen arg < 2 ^ 24 -> 1 + zlen arg <> 4 ->
  cmd = k_mysql_com_query \/ cmd = k_mysql_com_stmt_prepare \/ cmd = k_mysql_com_stmt_execute ->
  let hdr := mysql_header (1 + zlen arg) seq in
  mysql_payload_length (take 3 (probe_read0 (list_umem (cmd :: arg)) 5)) <> u64 (zlen (cmd :: arg) - 4) ->
  let '(r1, p1, st1, cache1) := is_mysql st cache conn (list_umem hdr) (zlen hdr) ptype in
  let '(r2, p2, _, cache2) := is_mysql st1 cache1 conn (list_umem (cmd :: arg)) (zlen (cmd :: arg)) p1 in
  let '(r, p, _, cache') :=
    is_mysql st cache conn (list_umem (mysql_packet seq cmd arg)) (zlen (mysql_packet seq cmd arg)) ptype in
  r1 = 0 /\ st1 !! conn = Some hdr /\ (r2, p2, cache2) = (r, p, cache').
Proof.
  intros Hp Hb Hl H4 Hcmd hdr Hne. pose proof (zlen_nonneg arg).
  assert (Hpt : negb (bool_decide (ptype = k_protocol_type_mysql)) && negb (bool_decide (ptype = k_protocol_type_unknown)) = false)
    by (destruct Hp as [-> | ->]; done).
  assert (Hz4 : zlen hdr = 4) by (unfold hdr, mysql_header; rewrite le_bytes_3; done).
  assert (H1 : is_mysql st cache conn (list_umem hdr) (zlen hdr) ptype = (0, ptype, <[conn := hdr]> st, cache)).
  { unfold is_mysql. rewrite Hpt. unfold mysql_store_state_data. rewrite Hz4. cbn [negb Z.eqb Pos.eqb k_mysql_hdr_without_command_size].
    change (Z.to_nat 4) with 4%nat. rewrite <- (app_nil_r hdr) at 1. rewrite probe_read0_list; [done|].
    unfold hdr, mysql_header. by rewrite le_bytes_3. }
  rewrite H1.
  assert (Hz1 : zlen (cmd :: arg) = 1 + zlen arg) by (unfold zlen; simpl length; lia).
  assert (Hz : zlen (mysql_packet seq cmd arg) = 5 + zlen arg)
    by (unfold mysql_packet, mysql_header; rewrite le_bytes_3; unfold zlen; simpl length; lia).
  assert (Hstore : forall s n (m : umem), n <> 4 -> mysql_store_state_data s conn m n = (0, s)).
  { intros s n m Hn. unfold mysql_store_state_data. by rewrite (proj2 (Z.eqb_neq n k_mysql_hdr_without_command_size) Hn). }
  unfold is_mysql. rewrite Hpt, !Hstore by lia. cbv beta iota.
  change (0 <? 0) with false. cbv iota.
  erewrite fixup_split; [|apply lookup_insert_eq|lia|exact Hne].
  rewrite fixup_whole by lia. cbn [my_payload_length].
  assert (Hok : mysql_command_ok (mk_mysql_hdr (le_bytes 3 (1 + zlen arg)) seq cmd true) (list_umem (cmd :: arg)) ptype
    = mysql_command_ok (mk_mysql_hdr (le_bytes 3 (1 + zlen arg)) seq cmd false) (list_umem (mysql_packet seq cmd arg)) ptype).
  { unfold mysql_command_ok, data_offset. cbn [my_command_id my_hdr_arrived]. kunfold. change (5 - 4) with 1.
    rewrite (find_sql_query_ext (ushift (list_umem (cmd :: arg)) 1) (ushift (list_umem (mysql_packet seq cmd arg)) 5)).
    - destruct Hcmd as [-> |[-> | ->]]; done.
    - intros a Ha. unfold ushift, list_umem, mysql_packet, mysql_header. rewrite le_bytes_3, !(proj2 (Z.leb_le 0 _)) by lia.
      replace (Z.to_nat (1 + a)) with (S (Z.to_nat a)) by lia.
      by replace (Z.to_nat (5 + a)) with (S (S (S (S (S (Z.to_nat a)))))) by lia. }
  rewrite Hok. clear Hok. destruct (k_mysql_payload_length_max <? _).
  { split_and!; [done|apply lookup_insert_eq|done]. }
  match goal with |- context [negb ?b] => destruct b end; (split_and!; [done|apply lookup_insert_eq|done]).
Qed.

(** COM_QUERY "SELECT 1". *)
Lemma mysql_split_header_witness :
  let arg := [83; 69; 76; 69; 67; 84; 32; 49] in
  let '(_, p1, st1, cache1) := is_mysql ∅ ∅ (mk_conn [] [] 1 2) (list_umem (mysql_header 9 0)) 4 k_protocol_type_unknown in
  let '(r2, _, _, _) := is_mysql st1 cache1 (mk_conn [] [] 1 2) (list_umem (3 :: arg)) 9 p1 in
  r2 = 1.
Proof.
  pose proof (mysql_split_header ∅ ∅ (mk_conn [] [] 1 2) k_protocol_type_unknown 0 3
    [83; 69; 76; 69; 67; 84; 32; 49]) as H.
  cbv zeta in *. change (1 + zlen _) with 9 in H.
  change (zlen (mysql_header 9 0)) with 4 in H. change (zlen (3 :: [83; 69; 76; 69; 67; 84; 32; 49])) with 9 in H.
  destruct (is_mysql _ _ _ (list_umem (mysql_header 9 0)) _ _) as [[[r1 p1] st1] cache1].
  destruct (is_mysql _ _ _ (list_umem (3 :: _)) _ _) as [[[r2 p2] st2] cache2].
  destruct (is_mysql ∅ ∅ _ (list_umem (mysql_packet _ _ _)) _ _) as [[[r p] st'] cache'] eqn:E.
  destruct H as (_ & _ & H); [by right|repeat constructor; lia|lia|lia|by left|by vm_compute|].
  injection H as Hr _ _. rewrite Hr. apply (f_equal (fun x => fst (fst (fst x)))) in E. cbn [fst] in E. rewrite <- E. vm_compute. reflexivity.
Defined.

(** The events [evs] carry [hdr] and then [l], unless the ring dropped some. *)
Definition mysql_captured (max : Z) (req : tcp_req connection_info) (ring : ringbuf connection_info)
    (st : mysql_state) (conn : connection_info) (u_buf : umem) (bytes_len pt : Z)
    (req' : tcp_req connection_info) (ring' : ringbuf connection_info) (st' : mysql_state) : Prop :=
  exists hdr l evs,
    ring_events ring' = ring_events ring ++ evs
    /\ (ring_script ring = [] -> concat (map lb_buf evs) = hdr ++ l)
    /\ probe_read u_buf (length l) = Some l /\ zlen l <= bytes_len
    /\ (hdr = [] \/ st !! conn = Some hdr /\ st' !! conn = None)
    /\ req_bytes_sent req' pt = req_bytes_sent req pt + zlen hdr + zlen l
    /\ req_bytes_sent req' pt <= max.

Lemma mysql_captured_nothing max req ring st st' conn u_buf bytes_len pt :
  req_bytes_sent req pt <= max -> 0 <= bytes_len ->
  mysql_captured max req ring st conn u_buf bytes_len pt req ring st'.
Proof.
  intros. exists [], [], []. rewrite app_nil_r. change (zlen []) with 0. split_and!; try done; try lia. by left.
Qed.

(** The tail of the capture: at most the budget left after [extra] bytes of header. *)
Lemma mysql_emit_rest (lb : tcp_large_buffer connection_info) ring (req : tcp_req connection_info) u_buf bytes_len pt max extra :
  0 <= max <= k_large_buf_max_mysql_captured_bytes -> 0 <= bytes_len < 2 ^ 32 ->
  0 <= req_bytes_sent req pt -> 0 <= extra <= max - req_bytes_sent req pt ->
  let '(c, _, ring') := large_buf_emit_chunks lb ring u_buf
    (Z.min bytes_len (clamp_umax (max - req_bytes_sent req pt - extra) k_large_buf_max_mysql_captured_bytes)) in
  exists evs l, ring_events ring' = ring_events ring ++ evs /\ c = zlen l
    /\ concat (map lb_buf evs) = l /\ probe_read u_buf (length l) = Some l /\ zlen l <= bytes_len
    /\ req_bytes_sent (req_add_bytes req pt (u32 (extra + c))) pt = req_bytes_sent req pt + extra + zlen l
    /\ req_bytes_sent (req_add_bytes req pt (u32 (extra + c))) pt <= max.
Proof.
  intros Hmax Hlen Hs He. set (a := Z.min _ _).
  assert (Ha : 0 <= a <= Z.min bytes_len (max - req_bytes_sent req pt - extra))
    by (unfold a, clamp_umax; kunfold; bdes_goal; lia).
  pose proof (emit_chunks_spec lb ring u_buf a ltac:(lia)) as H.
  destruct (large_buf_emit_chunks _ _ _ _) as [[c lb1] ring1].
  destruct H as (evs & l & Hev & Hc & Hl & Hp & Hch & _). exists evs, l.
  assert (0 <= extra + c < 2 ^ 32) by (kunfold; lia).
  rewrite (wrap_small 32) by done.
  rewrite req_add_bytes_sent by (kunfold; lia). rewrite Bool.eqb_reflx.
  split_and!; try done; try lia. by eapply chunks_of_concat.
Qed.

(** A write to the ring appends the event, unless the ring drops it. *)
Lemma ringbuf_output_events {C} (ring : ringbuf C) lb :
  exists e, ring_events (snd (events_ringbuf_output ring lb)) = ring_events ring ++ e
    /\ (ring_script ring = [] -> concat (map lb_buf e) = lb_buf lb).
Proof.
  unfold events_ringbuf_output. destruct (ring_script ring) as [|[] s]; cbn.
  - exists [lb]. split; [done|]. intros _. cbn. by rewrite app_nil_r.
  - by exists [lb].
  - exists []. by rewrite app_nil_r.
Qed.

(** The MySQL capture.  A buffer of four bytes is only remembered.  Any other buffer is captured as
    PostgreSQL's is, except that a remembered header is forgotten and shipped ahead of it: the
    events then carry the header followed by a prefix of the buffer, both are charged to the
    packet's direction, and the configured limit is never exceeded. *)
Theorem mysql_capture_budget max lb_mem req conn st ring u_buf bytes_len pt dir action :
  0 <= max <= k_large_buf_max_mysql_captured_bytes -> 0 <= bytes_len < 2 ^ 32 ->
  0 <= req_bytes_sent req pt <= max -> (forall sd, st !! conn = Some sd -> zlen sd = 4) ->
  let '(r, req', st', ring') :=
    mysql_send_large_buffer max lb_mem req conn st ring u_buf bytes_len pt dir action in
  r = -1 /\ bytes_len = 4 /\ req' = req /\ ring' = ring
    /\ st' = <[conn := probe_read0 u_buf 4]> st
  \/ r = 0 /\ mysql_captured max req ring st conn u_buf bytes_len pt req' ring' st'.
Proof.
  intros Hmax Hlen Hs Hsd. unfold mysql_send_large_buffer.
  destruct (_ || _) eqn:Hg; cbv beta iota; [right; split; [done|]; apply mysql_captured_nothing; lia|].
  unfold mysql_store_state_data.
  destruct (Z.eqb_spec bytes_len k_mysql_hdr_without_command_size); cbn [negb]; cbv beta iota; change (-1 <? 0) with true; cbv iota; [by left|].
  change (0 <? 0) with false. cbv beta iota zeta.
  destruct lb_mem; cbn [negb]; cbv iota; [|right; split; [done|]; apply mysql_captured_nothing; lia].
  set (lb := mk_lb _ _ _ _ _ _ _ _ _).
  destruct (st !! conn) as [sd|] eqn:Hst.
  - destruct (Z.ltb_spec (max - req_bytes_sent req pt) k_mysql_hdr_without_command_size);
      [right; split; [done|]; apply mysql_captured_nothing; lia|].
    destruct (ringbuf_output_events ring (lb_set_payload lb sd)) as (e & He & Hsc).
    destruct (events_ringbuf_output ring _) as [ok ring1]. cbn [snd] in He.
    pose proof (mysql_emit_rest (lb_set_action (lb_set_payload lb sd) k_large_buf_action_append) ring1 req u_buf
      bytes_len pt max 4 Hmax Hlen ltac:(lia) ltac:(kunfold; lia)) as H1.
    change k_mysql_hdr_without_command_size with 4.
    destruct (large_buf_emit_chunks _ _ _ _) as [[c lb1] ring2].
    destruct H1 as (evs & l & Hev & Hc & Hcat & Hp & Hlb & Hreq & Hle). right. split; [done|].
    exists sd, l, (e ++ evs). split_and!; try done.
    + by rewrite Hev, He, <- app_assoc.
    + intros Hs0. rewrite map_app, concat_app, Hcat. by rewrite Hsc.
    + right. split; [done|]. apply lookup_delete_eq.
    + rewrite (Hsd sd eq_refl). lia.
  - pose proof (mysql_emit_rest lb ring req u_buf bytes_len pt max 0 Hmax Hlen ltac:(lia) ltac:(lia)) as H1.
    rewrite Z.sub_0_r in H1.
    destruct (large_buf_emit_chunks _ _ _ _) as [[c lb1] ring2].
    destruct H1 as (evs & l & Hev & Hc & Hcat & Hp & Hlb & Hreq & Hle). right. split; [done|].
    exists [], l, evs. change (zlen (@nil Z)) with 0. split_and!; try done. by left.
Qed.

Lemma mysql_capture_budget_witness :
  let conn := mk_conn [] [] 1 2 in
  let req := mk_req conn (mk_tp_info (repeat 0 16) (repeat 0 8) (repeat 0 8) 0 0) 0 0 false 0 0 (repeat 0 128) in
  let '(r, req', st', ring') := mysql_send_large_buffer 100 true req conn {[conn := [9; 0; 0; 0]]}
    (mk_ring [] []) (list_umem (repeat 7 20)) 20 PACKET_TYPE_REQUEST 1 k_large_buf_action_init in
  r = -1 /\ 20 = 4 /\ req' = req /\ ring' = mk_ring [] []
    /\ st' = <[conn := probe_read0 (list_umem (repeat 7 20)) 4]> {[conn := [9; 0; 0; 0]]}
  \/ r = 0 /\ mysql_captured 100 req (mk_ring [] []) {[conn := [9; 0; 0; 0]]} conn (list_umem (repeat 7 20)) 20
              PACKET_TYPE_REQUEST req' ring' st'.
Proof.
  apply (mysql_capture_budget 100 true
    (mk_req (mk_conn [] [] 1 2) (mk_tp_info (repeat 0 16) (repeat 0 8) (repeat 0 8) 0 0) 0 0 false 0 0 (repeat 0 128))
    (mk_conn [] [] 1 2) {[mk_conn [] [] 1 2 := [9; 0; 0; 0]]}); [kunfold; lia|lia|cbn; lia|].
  intros sd Hsd. vm_compute in Hsd. by injection Hsd as <-.
Defined.
