(* ===== verification/Mssql.v ===== *)
(** * Microsoft SQL Server ([bpf/generictracer/protocol_mssql.h]).

    The classifier of a segment of TDS packets, the wait for the end of a response, and the capture
    of the payload. *)

From Stdlib Require Import ZArith Lia ZifyBool List Bool.
From stdpp Require Import base list gmap.
From S2P Require Import Prelude TraceUtil LargeBuf ConnInfo.

Local Open Scope Z_scope.

(** ** Definitions *)

Definition k_mssql_hdr_size : Z := 8.
Definition k_mssql_messages_in_packet_max : Z := 10.
Definition k_mssql_status_eom : Z := 0x01.
Definition k_mssql_msg_sql_batch : Z := 0x01.
Definition k_mssql_msg_rpc : Z := 0x03.
Definition k_mssql_msg_response : Z := 0x04.
Definition k_mssql_msg_login7 : Z := 0x10.
Definition k_mssql_msg_prelogin : Z := 0x12.

#[export] Hint Unfold k_mssql_hdr_size k_mssql_messages_in_packet_max k_mssql_status_eom
  k_mssql_msg_sql_batch k_mssql_msg_rpc k_mssql_msg_response k_mssql_msg_login7
  k_mssql_msg_prelogin : kconst.

Record mssql_hdr := mk_mssql_hdr {
  ms_type : Z;
  ms_status : Z;
  ms_length : Z;
  ms_spid : Z;
  ms_packet_id : Z;
  ms_window : Z
}.

Definition mssql_parse_hdr (data : umem) : mssql_hdr :=
  let h := list_buf (probe_read0 data (Z.to_nat k_mssql_hdr_size)) in
  mk_mssql_hdr (h 0) (h 1) (bswap16 (le_word (take_buf (shift h 2) 2)))
    (bswap16 (le_word (take_buf (shift h 4) 2))) (h 6) (h 7).

Definition mssql_known_command (t : Z) : bool :=
  (t =? k_mssql_msg_sql_batch) || (t =? k_mssql_msg_rpc) || (t =? k_mssql_msg_response)
  || (t =? k_mssql_msg_login7) || (t =? k_mssql_msg_prelogin).

(** The packet loop: the offset it stops at and whether a known command was seen, [None] for the
    early return. *)
Fixpoint mssql_loop (n : nat) (data : umem) (data_len offset : Z) (known : bool) : option (Z * bool) :=
  match n with
  | O => Some (offset, known)
  | S n' =>
      if data_len <? u64 (offset + k_mssql_hdr_size) then Some (offset, known)
      else
        let hdr := mssql_parse_hdr (ushift data offset) in
        if (ms_length hdr <? k_mssql_hdr_size) || (u64 (data_len - offset) <? ms_length hdr) then None
        else
          mssql_loop n' data data_len (u64 (offset + ms_length hdr))
            (known || mssql_known_command (ms_type hdr))
  end.

Definition is_mssql (cache : protocol_cache) (conn_info : connection_info) (data : umem)
    (data_len : Z) (ptype : protocol_type) : Z * protocol_type * protocol_cache :=
  if negb (bool_decide (ptype = k_protocol_type_mssql))
     && negb (bool_decide (ptype = k_protocol_type_unknown))
  then (0, ptype, cache)
  else if data_len <? k_mssql_hdr_size then (0, ptype, cache)
  else
    match mssql_loop (Z.to_nat k_mssql_messages_in_packet_max) data data_len 0 false with
    | None => (0, ptype, cache)
    | Some (offset, includes_known_command) =>
        if negb (offset =? data_len) || negb includes_known_command then (0, ptype, cache)
        else (1, k_protocol_type_mssql, <[conn_info := k_protocol_type_mssql]> cache)
    end.

Section response.
Context {C : Type}.

Definition req_set_response (req : tcp_req C) (rbuf : list Z) (resp_len : Z) : tcp_req C :=
  mk_req (req_conn_info req) (req_tp req) (req_lb_req_bytes req) (req_lb_res_bytes req)
    (req_has_large_buffers req) (req_end_monotime_ns req) resp_len rbuf.

(** The scan for complete packets: [eom] and [found_complete_packet]. *)
Fixpoint mssql_eom_loop (n : nat) (u_buf : umem) (bytes_len offset : Z) (eom found : bool)
    : bool * bool :=
  match n with
  | O => (eom, found)
  | S n' =>
      if bytes_len <? u32 (offset + k_mssql_hdr_size) then (eom, found)
      else
        let hdr := mssql_parse_hdr (ushift u_buf offset) in
        if (ms_length hdr <? k_mssql_hdr_size) || (bytes_len <? u32 (offset + ms_length hdr))
        then (eom, found)
        else
          mssql_eom_loop n' u_buf bytes_len (u32 (offset + ms_length hdr))
            (if nz (Z.land (ms_status hdr) k_mssql_status_eom) then true else eom) true
  end.

(** -1 to wait for more data, 0 when the response is complete; and the request after it. *)
Definition mssql_response_eom (req : tcp_req C) (u_buf : umem) (bytes_len : Z) : Z * tcp_req C :=
  let rbuf :=
    if (req_resp_len req =? 0) && (k_mssql_hdr_size <=? bytes_len)
    then probe_read0 u_buf (Z.to_nat k_mssql_hdr_size) ++ drop (Z.to_nat k_mssql_hdr_size) (req_rbuf req)
    else req_rbuf req in
  let req := req_set_response req rbuf (u32 (req_resp_len req + bytes_len)) in
  let '(eom, found_complete_packet) :=
    mssql_eom_loop (Z.to_nat k_mssql_messages_in_packet_max) u_buf bytes_len 0 false false in
  if eom then (0, req)
  else if found_complete_packet then (-1, req)
  else if req_resp_len req <? k_mssql_hdr_size then (-1, req)
  else
    let first_hdr := mssql_parse_hdr (list_umem (req_rbuf req)) in
    if k_mssql_hdr_size <=? ms_length first_hdr then
      let prev_resp_len := u32 (req_resp_len req - bytes_len) in
      if (prev_resp_len <? ms_length first_hdr)
         && ((req_resp_len req <? ms_length first_hdr)
             || negb (nz (Z.land (ms_status first_hdr) k_mssql_status_eom)))
      then (-1, req)
      else (0, req)
    else (0, req).

Definition mssql_send_large_buffer (mssql_max_captured_bytes : Z) (lb_mem : bool)
    (req : tcp_req C) (ring : ringbuf C) (u_buf : umem) (bytes_len packet_type direction : Z)
    (action : large_buf_action) : tcp_req C * ringbuf C :=
  let bytes_sent := req_bytes_sent req packet_type in
  if (0 <? mssql_max_captured_bytes) && (bytes_sent <? mssql_max_captured_bytes) && (0 <? bytes_len)
  then
    if negb lb_mem then (req, ring)
    else
      let large_buf :=
        mk_lb packet_type action direction 0 (req_conn_info req) k_large_buf_layer_app
          k_large_buffer_source_kprobes (req_tp req) [] in
      let max_available_bytes :=
        clamp_umax (mssql_max_captured_bytes - bytes_sent) k_large_buf_max_mssql_captured_bytes in
      let available_bytes := Z.min bytes_len max_available_bytes in
      let '(consumed_bytes, _, ring) := large_buf_emit_chunks large_buf ring u_buf available_bytes in
      (req_add_bytes req packet_type consumed_bytes, ring)
  else (req, ring).
End response.

(** ** The reference: TDS packets *)

(** [tds_rest] is the server process id, the packet id and the window. *)
Record tds_packet := mk_tds { tds_type : Z; tds_status : Z; tds_rest : list Z; tds_body : list Z }.

Definition tds_wf (p : tds_packet) : Prop :=
  length (tds_rest p) = 4%nat /\ 8 + zlen (tds_body p) < 2 ^ 16.

(** Type, status, length counting the header, the rest of the header, the payload. *)
Definition tds_bytes (p : tds_packet) : list Z :=
  tds_type p :: tds_status p :: be_bytes 2 (8 + zlen (tds_body p)) ++ tds_rest p ++ tds_body p.

Definition tds_stream (ps : list tds_packet) : list Z := concat (map tds_bytes ps).

(** A buffer whose head is a whole packet. *)
Definition starts_packet (c : list Z) : Prop := exists p r, tds_wf p /\ c = tds_bytes p ++ r.

(** The results of handing the chunks of a response to [mssql_response_eom] one by one. *)
Fixpoint mssql_feed {C} (req : tcp_req C) (cs : list (list Z)) : list Z :=
  match cs with
  | [] => []
  | c :: cs' =>
      let '(r, req') := mssql_response_eom req (list_umem c) (zlen c) in r :: mssql_feed req' cs'
  end.

(** ** Lemmas *)

Lemma tds_bytes_zlen p : length (tds_rest p) = 4%nat -> zlen (tds_bytes p) = 8 + zlen (tds_body p).
Proof.
  intros Hr. unfold tds_bytes. rewrite be_bytes_2. unfold zlen. simpl length. rewrite length_app, Hr. lia.
Qed.

(** The header read at the end of [pre]. *)
Lemma mssql_hdr_at pre t st len rest4 more :
  0 <= len < 2 ^ 16 -> length rest4 = 4%nat ->
  let h := mssql_parse_hdr (ushift (list_umem (pre ++ t :: st :: be_bytes 2 len ++ rest4 ++ more)) (zlen pre)) in
  ms_type h = t /\ ms_status h = st /\ ms_length h = len.
Proof.
  intros Hl Hr. unfold mssql_parse_hdr, probe_read0.
  assert (t :: st :: be_bytes 2 len ++ rest4 ++ more = (t :: st :: be_bytes 2 len ++ rest4) ++ more) as ->
    by (cbn [app]; by rewrite <- app_assoc).
  assert (Z.to_nat k_mssql_hdr_size = length (t :: st :: be_bytes 2 len ++ rest4)) as ->
    by (rewrite be_bytes_2; cbn [app length]; rewrite Hr; done).
  rewrite probe_read_at. cbv zeta. cbn [ms_type ms_status ms_length]. split_and!; [done|done|].
  etrans; [|exact (be16_le_word len Hl)]. rewrite be_bytes_2. by rewrite !take_buf_S.
Qed.

(** Eight bytes are a header. *)
Lemma tds_header_split l : is_bytes l -> 8 <= zlen l ->
  exists t st len rest4 more, l = t :: st :: be_bytes 2 len ++ rest4 ++ more /\ 0 <= len < 2 ^ 16
    /\ length rest4 = 4%nat /\ is_bytes more.
Proof.
  intros Hb Hl. unfold zlen in Hl. destruct l as [|t [|st [|a [|b [|c [|d [|e [|f more]]]]]]]]; simpl in Hl; try lia.
  unfold is_bytes in Hb. rewrite !Forall_cons in Hb. destruct Hb as (? & ? & ? & ? & ? & ? & ? & ? & ?).
  exists t, st, (a * 256 + b), [c; d; e; f], more. split_and!; try lia; [|done|done].
  rewrite be_bytes_2. cbn [app]. repeat f_equal; zdm.
Qed.

(** The length field of a packet at the head of what follows [pre] is the one read there. *)
Lemma mssql_hdr_packet pre p r :
  tds_wf p ->
  let h := mssql_parse_hdr (ushift (list_umem (pre ++ tds_bytes p ++ r)) (zlen pre)) in
  ms_type h = tds_type p /\ ms_status h = tds_status p /\ ms_length h = 8 + zlen (tds_body p).
Proof.
  intros [Hr Hb]. unfold tds_bytes. cbn [app]. rewrite <- !app_assoc. pose proof (zlen_nonneg (tds_body p)).
  apply mssql_hdr_at; [lia|done].
Qed.

(** Eight bytes whose length field fits what is there start with a packet. *)
Lemma tds_packet_split pre l :
  is_bytes l -> 8 <= zlen l ->
  let h := mssql_parse_hdr (ushift (list_umem (pre ++ l)) (zlen pre)) in
  8 <= ms_length h <= zlen l ->
  exists p r, tds_wf p /\ l = tds_bytes p ++ r /\ is_bytes r.
Proof.
  intros Hb Hl. destruct (tds_header_split l Hb Hl) as (t & st & len & r4 & more & -> & Hr & H4 & Hm).
  destruct (mssql_hdr_at pre t st len r4 more Hr H4) as (_ & _ & Hlen). cbv zeta in *. rewrite Hlen. intros [Hge Hle].
  assert (zlen (t :: st :: be_bytes 2 len ++ r4 ++ more) = 8 + zlen more) as Hz
    by (rewrite be_bytes_2; unfold zlen; simpl length; rewrite length_app, H4; lia).
  destruct (zlen_split more (len - 8) ltac:(lia)) as (body & r & -> & Hbody).
  exists (mk_tds t st r4 body), r. unfold tds_wf, tds_bytes. cbn [tds_type tds_status tds_rest tds_body].
  rewrite Hbody. replace (8 + (len - 8)) with len by lia. split_and!; [done|lia| |].
  - cbn [app]. by rewrite <- !app_assoc.
  - by apply Forall_app in Hm as [_ ?].
Qed.

Lemma tds_stream_cons p ps : tds_stream (p :: ps) = tds_bytes p ++ tds_stream ps.
Proof. done. Qed.

(** Stopping where no packet follows. *)
Lemma mssql_loop_stop n pre l known k :
  (forall p ps, l = tds_stream (p :: ps) -> (length (p :: ps) <= n)%nat -> tds_wf p -> False) ->
  Some (zlen pre, known) = Some (zlen (pre ++ l), k)
  <-> exists ps, l = tds_stream ps /\ (length ps <= n)%nat /\ Forall tds_wf ps
      /\ k = known || existsb (fun p => mssql_known_command (tds_type p)) ps.
Proof.
  intros Hno. rewrite zlen_app. split.
  - intros [= H ->]. exists []. rewrite orb_false_r. split_and!; try done; [|simpl; lia].
    apply length_zero_iff_nil. unfold zlen in *. lia.
  - intros (ps & Hs & Hn & Hwf & ->). destruct ps as [|p ps].
    + subst l. change (zlen (tds_stream [])) with 0. by rewrite Z.add_0_r, orb_false_r.
    + apply Forall_cons in Hwf as [Hp _]. by destruct (Hno p ps).
Qed.

Lemma mssql_loop_spec n pre l known k :
  is_bytes l -> zlen (pre ++ l) < 2 ^ 32 ->
  mssql_loop n (list_umem (pre ++ l)) (zlen (pre ++ l)) (zlen pre) known = Some (zlen (pre ++ l), k)
  <-> exists ps, l = tds_stream ps /\ (length ps <= n)%nat /\ Forall tds_wf ps
      /\ k = known || existsb (fun p => mssql_known_command (tds_type p)) ps.
Proof.
  revert pre l known. induction n as [|n IH]; intros pre l known Hb Hlen; cbn [mssql_loop].
  { apply mssql_loop_stop. simpl. lia. }
  pose proof (zlen_nonneg pre). pose proof (zlen_nonneg l). pose proof (zlen_app pre l) as Ea.
  rewrite (wrap_small 64) by (kunfold; lia).
  destruct (Z.ltb_spec (zlen (pre ++ l)) (zlen pre + k_mssql_hdr_size)) as [Hs|Hs].
  { apply mssql_loop_stop. intros p ps -> _ [Hr _]. rewrite tds_stream_cons in *. rewrite (zlen_app (tds_bytes p)), tds_bytes_zlen in Ea by done.
    pose proof (zlen_nonneg (tds_body p)). pose proof (zlen_nonneg (tds_stream ps)). kunfold. lia. }
  rewrite (wrap_small 64 (_ - _)) by lia. change k_mssql_hdr_size with 8 in *.
  destruct (_ || _) eqn:Hg.
  - split; [done|]. intros (ps & -> & Hn & Hwf & _). exfalso. destruct ps as [|p ps]; [change (zlen (tds_stream [])) with 0 in *; lia|].
    apply Forall_cons in Hwf as [Hp _]. rewrite tds_stream_cons in *.
    destruct (mssql_hdr_packet pre p (tds_stream ps) Hp) as (_ & _ & E). cbv zeta in E. rewrite E in Hg.
    rewrite (zlen_app (tds_bytes p)), tds_bytes_zlen in Ea by apply Hp. pose proof (zlen_nonneg (tds_stream ps)).
    pose proof (zlen_nonneg (tds_body p)). lia.
  - destruct (tds_packet_split pre l Hb ltac:(lia)) as (p & r & Hp & -> & Hbr); [cbv zeta; lia|].
    destruct (mssql_hdr_packet pre p r Hp) as (Et & _ & E). cbv zeta in Et, E. rewrite Et, E.
    rewrite (zlen_app (tds_bytes p)), tds_bytes_zlen in Ea by apply Hp. pose proof (zlen_nonneg r).
    pose proof (zlen_nonneg (tds_body p)). rewrite (wrap_small 64) by lia.
    assert (zlen pre + (8 + zlen (tds_body p)) = zlen (pre ++ tds_bytes p)) as ->
      by (rewrite zlen_app, tds_bytes_zlen by apply Hp; lia).
    rewrite app_assoc in *. rewrite IH by done. split.
    + intros (ps & -> & Hn & Hwf & ->). exists (p :: ps). split_and!; [done|simpl; lia|by constructor|].
      cbn [existsb]. by rewrite orb_assoc.
    + intros (ps & Hst & Hn & Hwf & ->). destruct ps as [|q ps].
      { apply (f_equal zlen) in Hst. rewrite zlen_app, tds_bytes_zlen in Hst by apply Hp.
        change (zlen (tds_stream [])) with 0 in Hst. lia. }
      apply Forall_cons in Hwf as [Hq Hwf]. rewrite tds_stream_cons in Hst.
      destruct (mssql_hdr_packet pre q (tds_stream ps) Hq) as (Et' & _ & E'). cbv zeta in Et', E'.
      rewrite <- Hst, app_assoc in Et', E'. 
      assert (zlen (tds_bytes p) = zlen (tds_bytes q)) as Hz
        by (rewrite !tds_bytes_zlen by (apply Hp || apply Hq); congruence).
      apply app_inj_1 in Hst as [_ ->]; [|unfold zlen in Hz; lia].
      exists ps. split_and!; [done|simpl in Hn; lia|done|].
      cbn [existsb]. rewrite <- orb_assoc. do 3 f_equal. congruence.
Qed.

(** A chunk that starts with no whole packet: the scan finds nothing. *)
Lemma mssql_eom_none n c :
  is_bytes c -> zlen c < 2 ^ 32 - 2 ^ 16 -> ~ starts_packet c ->
  mssql_eom_loop n (list_umem c) (zlen c) 0 false false = (false, false).
Proof.
  intros Hb Hl Hno. destruct n as [|n]; [done|]. cbn [mssql_eom_loop]. change k_mssql_hdr_size with 8.
  rewrite !Z.add_0_l, (wrap_small 32 8) by lia. destruct (Z.ltb_spec (zlen c) 8); [done|].
  destruct (_ || _) eqn:Hg; [done|]. destruct Hno.
  destruct (tds_header_split c Hb ltac:(lia)) as (t & st & len & r4 & more & Ec & Hr & H4 & _).
  destruct (mssql_hdr_at [] t st len r4 more Hr H4) as (_ & _ & Hlen). cbv zeta in Hlen. change (zlen []) with 0 in Hlen.
  cbn [app] in Hlen. rewrite <- Ec in Hlen. rewrite Hlen, (wrap_small 32 len) in Hg by lia.
  destruct (tds_packet_split [] c Hb ltac:(lia)) as (p & r & Hp & E & _); [|by exists p, r].
  cbv zeta. change (zlen []) with 0. cbn [app]. rewrite Hlen. lia.
Qed.

(** A whole packet with its end-of-message bit, alone in the buffer. *)
Lemma mssql_eom_whole n p :
  tds_wf p -> nz (Z.land (tds_status p) 1) = true ->
  mssql_eom_loop (S n) (list_umem (tds_bytes p)) (zlen (tds_bytes p)) 0 false false = (true, true).
Proof.
  intros Hp He. pose proof (tds_bytes_zlen p (proj1 Hp)) as Hz. pose proof (zlen_nonneg (tds_body p)). destruct Hp as [Hr Hl].
  cbn [mssql_eom_loop]. change k_mssql_hdr_size with 8. rewrite !Z.add_0_l, (wrap_small 32 8) by lia.
  rewrite (proj2 (Z.ltb_ge _ 8)) by lia.
  destruct (mssql_hdr_packet [] p [] (conj Hr Hl)) as (_ & Es & El). cbv zeta in *. rewrite app_nil_r in *.
  change (zlen []) with 0 in *. cbn [app] in *. rewrite El, Es, (wrap_small 32) by lia.
  rewrite (proj2 (Z.ltb_ge (8 + _) 8)), (proj2 (Z.ltb_ge (zlen _) _)) by lia. cbn [orb]. change k_mssql_status_eom with 1.
  rewrite He. destruct n; [done|]. cbn [mssql_eom_loop]. change k_mssql_hdr_size with 8.
  rewrite (wrap_small 32) by lia. by rewrite (proj2 (Z.ltb_lt (zlen _) _)) by lia.
Qed.

(** A request that has saved the header of the packet [p] and seen [n] bytes of it. *)
Definition saved {C} (req : tcp_req C) (p : tds_packet) (n : Z) : Prop :=
  req_resp_len req = n /\ mssql_parse_hdr (list_umem (req_rbuf req)) = mssql_parse_hdr (list_umem (tds_bytes p)).

Lemma mssql_parse_hdr_prefix l l' : take 8 l = take 8 l' -> 8 <= zlen l -> 8 <= zlen l' ->
  mssql_parse_hdr (list_umem l) = mssql_parse_hdr (list_umem l').
Proof.
  unfold zlen. intros E Hl Hl'. unfold mssql_parse_hdr, probe_read0. change (Z.to_nat k_mssql_hdr_size) with 8%nat.
  assert (H : forall x, (8 <= length x)%nat -> probe_read (list_umem x) 8 = Some (take 8 x)).
  { intros x Hx. rewrite <- (take_drop 8 x) at 1. rewrite <- (probe_read_list (take 8 x) (drop 8 x)).
    f_equal. rewrite length_take. lia. }
  rewrite !H by lia. by rewrite E.
Qed.

Lemma mssql_feed_cons {C} (req : tcp_req C) c cs :
  mssql_feed req (c :: cs)
  = let '(r, req') := mssql_response_eom req (list_umem c) (zlen c) in r :: mssql_feed req' cs.
Proof. done. Qed.

(** One more chunk of a packet under way. *)
Lemma mssql_eom_more {C} (req : tcp_req C) p n c :
  tds_wf p -> nz (Z.land (tds_status p) 1) = true -> is_bytes c ->
  8 <= n -> saved req p n -> ~ starts_packet c -> 0 < zlen c -> n + zlen c <= zlen (tds_bytes p) ->
  let '(r, req') := mssql_response_eom req (list_umem c) (zlen c) in
  r = (if n + zlen c <? zlen (tds_bytes p) then -1 else 0) /\ saved req' p (n + zlen c).
Proof.
  intros Hp He Hb Hn [Hlen Hsv] Hno Hc Hle. pose proof (tds_bytes_zlen p (proj1 Hp)) as Hz. pose proof (proj2 Hp).
  unfold mssql_response_eom. rewrite Hlen. rewrite (proj2 (Z.eqb_neq n 0)) by lia. cbn [andb].
  rewrite mssql_eom_none by (done || lia). cbn [req_resp_len req_rbuf req_set_response]. rewrite Hsv.
  rewrite !(wrap_small 32) by lia. change k_mssql_hdr_size with 8. rewrite (proj2 (Z.ltb_ge _ 8)) by lia.
  destruct (mssql_hdr_packet [] p [] Hp) as (_ & Es & El). cbv zeta in *. rewrite app_nil_r in *.
  assert (Hsh : mssql_parse_hdr (ushift (list_umem (tds_bytes p)) 0) = mssql_parse_hdr (list_umem (tds_bytes p))) by done.
  change (zlen []) with 0 in *. cbn [app] in *. rewrite Hsh in Es, El. rewrite Es, El.
  rewrite (proj2 (Z.leb_le 8 _)) by (pose proof (zlen_nonneg (tds_body p)); lia).
  change k_mssql_status_eom with 1. rewrite He. cbn [negb]. rewrite orb_false_r.
  rewrite (proj2 (Z.ltb_lt (n + zlen c - zlen c) _)) by lia. cbn [andb]. rewrite Hz.
  destruct (Z.ltb_spec (n + zlen c) (8 + zlen (tds_body p))); done.
Qed.

Lemma mssql_feed_rest {C} cs (req : tcp_req C) p n :
  tds_wf p -> nz (Z.land (tds_status p) 1) = true -> is_bytes (concat cs) ->
  8 <= n -> saved req p n -> Forall (fun c => c <> [] /\ ~ starts_packet c) cs -> cs <> [] ->
  n + zlen (concat cs) = zlen (tds_bytes p) ->
  mssql_feed req cs = repeat (-1) (length cs - 1) ++ [0].
Proof.
  intros Hp He. revert req n. induction cs as [|c cs IH]; intros req n Hb Hn Hsv Hcs Hne Hsum; [done|].
  apply Forall_cons in Hcs as [[Hc Hno] Hcs]. cbn [concat] in Hsum, Hb. rewrite zlen_app in Hsum.
  apply Forall_app in Hb as [Hbc Hb]. pose proof (zlen_nonneg (concat cs)).
  assert (0 < zlen c) by (destruct c; [done|unfold zlen; simpl; lia]).
  pose proof (mssql_eom_more req p n c Hp He Hbc Hn Hsv Hno ltac:(lia) ltac:(lia)) as Hstep.
  cbn [mssql_feed]. destruct (mssql_response_eom req _ _) as [r req']. destruct Hstep as [-> Hsv'].
  destruct cs as [|c' cs].
  { cbn [concat] in Hsum. change (zlen []) with 0 in Hsum. by rewrite (proj2 (Z.ltb_ge _ _)) by lia. }
  rewrite (IH req' (n + zlen c)) by (done || lia).
  assert (0 < zlen (concat (c' :: cs))).
  { apply Forall_cons in Hcs as [[Hc' _] _]. destruct c'; [done|]. unfold zlen. simpl. lia. }
  rewrite (proj2 (Z.ltb_lt _ _)) by lia. cbn [length]. by rewrite !Nat.sub_succ, !Nat.sub_0_r.
Qed.

(** The capture stays in its budget, as the PostgreSQL one does. *)
Lemma mssql_capture_budget {C} max lb_mem (req : tcp_req C) ring u_buf bytes_len pt dir action :
  0 <= max <= k_large_buf_max_mssql_captured_bytes -> 0 <= bytes_len < 2 ^ 32 ->
  0 <= req_bytes_sent req pt <= max ->
  let '(req', ring') := mssql_send_large_buffer max lb_mem req ring u_buf bytes_len pt dir action in
  captured max req ring u_buf bytes_len pt action req' ring'.
Proof.
  intros Hmax Hlen Hs. unfold mssql_send_large_buffer.
  destruct (_ && _) eqn:Hg; [|apply captured_nothing; lia].
  destruct lb_mem; cbn [negb]; [|apply captured_nothing; lia].
  set (lb := mk_lb _ _ _ _ _ _ _ _ _).
  pose proof (captured_emit max lb req ring u_buf bytes_len pt k_large_buf_max_mssql_captured_bytes
    ltac:(kunfold; lia) Hlen ltac:(kunfold; lia) ltac:(lia)) as H.
  destruct (large_buf_emit_chunks _ _ _ _) as [[c lb'] ring']. done.
Qed.

(** ** Properties *)

(** TDS classification.  A readable segment on an unclassified or SQL Server connection is
    classified as SQL Server, in the result and in the cache, exactly when it is a sequence of one
    to ten whole TDS packets with nothing behind them and one of the packets is a batch, an RPC, a
    response, a login or a prelogin. *)
Theorem is_mssql_exact cache conn l ptype :
  is_bytes l -> zlen l < 2 ^ 32 -> ptype = k_protocol_type_mssql \/ ptype = k_protocol_type_unknown ->
  (is_mssql cache conn (list_umem l) (zlen l) ptype
     = (1, k_protocol_type_mssql, <[conn := k_protocol_type_mssql]> cache)
   \/ is_mssql cache conn (list_umem l) (zlen l) ptype = (0, ptype, cache))
  /\ (fst (fst (is_mssql cache conn (list_umem l) (zlen l) ptype)) = 1
      <-> exists ps, l = tds_stream ps /\ (length ps <= 10)%nat /\ Forall tds_wf ps
          /\ existsb (fun p => mssql_known_command (tds_type p)) ps = true).
Proof.
  intros Hb Hlen Hp. pose proof (mssql_loop_spec 10 [] l false true Hb Hlen) as Hl. cbn [app orb] in Hl.
  change (zlen []) with 0 in Hl. unfold is_mssql.
  assert (negb (bool_decide (ptype = k_protocol_type_mssql)) && negb (bool_decide (ptype = k_protocol_type_unknown)) = false) as ->
    by (destruct Hp as [-> | ->]; done).
  change (Z.to_nat k_mssql_messages_in_packet_max) with 10%nat. change k_mssql_hdr_size with 8.
  assert (Hiff : (exists ps, l = tds_stream ps /\ (length ps <= 10)%nat /\ Forall tds_wf ps
          /\ existsb (fun p => mssql_known_command (tds_type p)) ps = true)
    <-> mssql_loop 10 (list_umem l) (zlen l) 0 false = Some (zlen l, true)).
  { rewrite Hl. split; intros (ps & ? & ? & ? & H); exists ps; auto. }
  rewrite Hiff. clear Hl Hiff. destruct (Z.ltb_spec (zlen l) 8).
  { split; [by right|]. split; [done|]. cbn [mssql_loop]. change k_mssql_hdr_size with 8.
    pose proof (zlen_nonneg l). by rewrite (proj2 (Z.ltb_lt (zlen l) _)) by (rewrite (wrap_small 64); lia). }
  destruct (mssql_loop 10 _ _ _ _) as [[off known]|]; [|by split; [right|]].
  destruct (Z.eqb_spec off (zlen l)) as [->|Hne]; destruct known; cbn [negb orb];
    (split; [first [by left|by right]|]); split; try done; congruence.
Qed.

(** A prelogin packet. *)
Lemma is_mssql_exact_witness :
  fst (fst (is_mssql ∅ (mk_conn [] [] 1 2) (list_umem (tds_bytes (mk_tds 0x12 1 [0; 0; 1; 0] [255])))
    (zlen (tds_bytes (mk_tds 0x12 1 [0; 0; 1; 0] [255]))) k_protocol_type_unknown)) = 1.
Proof.
  apply (is_mssql_exact ∅ (mk_conn [] [] 1 2) (tds_bytes (mk_tds 0x12 1 [0; 0; 1; 0] [255])) k_protocol_type_unknown).
  - unfold is_bytes. vm_compute. repeat constructor; done.
  - by vm_compute.
  - by right.
  - exists [mk_tds 0x12 1 [0; 0; 1; 0] [255]]. split_and!; [done|simpl; lia| |by vm_compute].
    constructor; [|done]. split; [done|by vm_compute].
Defined.

(** The wait for a response ends with its last byte.  A response packet that carries the
    end-of-message bit and arrives in any number of non-empty chunks, the first one holding at
    least the header and none of the later ones looking like a packet of its own, makes every call
    but the last ask for more data, and the last report completion. *)
Theorem mssql_response_waits {C} (req : tcp_req C) p c cs :
  tds_wf p -> nz (Z.land (tds_status p) k_mssql_status_eom) = true -> req_resp_len req = 0 ->
  is_bytes (tds_bytes p) -> tds_bytes p = c ++ concat cs -> k_mssql_hdr_size <= zlen c ->
  Forall (fun c => c <> [] /\ ~ starts_packet c) cs ->
  mssql_feed req (c :: cs) = repeat (-1) (length cs) ++ [0].
Proof.
  intros Hp He H0 Hb Hc H8 Hcs. change k_mssql_status_eom with 1 in He. change k_mssql_hdr_size with 8 in H8.
  pose proof (tds_bytes_zlen p (proj1 Hp)) as Hz. pose proof (proj2 Hp).
  pose proof (f_equal zlen Hc) as Hzc. rewrite zlen_app in Hzc. pose proof (zlen_nonneg (concat cs)).
  destruct cs as [|c' cs].
  { cbn [concat] in Hc. rewrite app_nil_r in Hc. rewrite <- Hc in *. cbn [mssql_feed length repeat app].
    unfold mssql_response_eom. change (Z.to_nat k_mssql_messages_in_packet_max) with 10%nat.
    by rewrite mssql_eom_whole by done. }
  assert (0 < zlen (concat (c' :: cs))).
  { apply Forall_cons in Hcs as [[Hc' _] _]. destruct c'; [done|]. unfold zlen. simpl. lia. }
  rewrite Hc in Hb. apply Forall_app in Hb as [Hbc Hb].
  assert (Hpre : mssql_parse_hdr (list_umem c) = mssql_parse_hdr (list_umem (tds_bytes p))).
  { apply mssql_parse_hdr_prefix; [|lia|lia]. rewrite Hc, take_app_le by (unfold zlen in H8; lia). done. }
  assert (Hno : ~ starts_packet c).
  { intros (q & r & Hq & E). destruct (mssql_hdr_packet [] q r Hq) as (_ & _ & Eq).
    destruct (mssql_hdr_packet [] p [] Hp) as (_ & _ & Ep). cbv zeta in *. rewrite app_nil_r in Ep.
    change (zlen []) with 0 in *. cbn [app] in *. rewrite <- E in Eq.
    change (ushift (list_umem c) 0) with (list_umem c) in Eq.
    change (ushift (list_umem (tds_bytes p)) 0) with (list_umem (tds_bytes p)) in Ep.
    rewrite Hpre, Ep in Eq. apply (f_equal zlen) in E. rewrite zlen_app, tds_bytes_zlen in E by apply Hq.
    pose proof (zlen_nonneg r). lia. }
  rewrite mssql_feed_cons. unfold mssql_response_eom. rewrite H0, mssql_eom_none by (done || lia).
  cbn [req_resp_len req_rbuf req_set_response]. rewrite Z.add_0_l, !(wrap_small 32) by lia.
  change k_mssql_hdr_size with 8. rewrite (proj2 (Z.leb_le 8 (zlen c))), (proj2 (Z.ltb_ge (zlen c) 8)) by lia.
  cbn [andb Z.eqb]. set (rb := probe_read0 _ _ ++ _).
  assert (Hrb : mssql_parse_hdr (list_umem rb) = mssql_parse_hdr (list_umem (tds_bytes p))).
  { rewrite <- Hpre. unfold mssql_parse_hdr. change (Z.to_nat k_mssql_hdr_size) with 8%nat.
    assert (probe_read0 (list_umem rb) 8 = probe_read0 (list_umem c) 8) as ->; [|done].
    pose proof (probe_read_list (probe_read0 (list_umem c) 8) (drop 8 (req_rbuf req))) as E.
    rewrite probe_read0_length in E. unfold probe_read0 at 1. unfold rb. change (Z.to_nat 8) with 8%nat. by rewrite E. }
  rewrite Hrb. destruct (mssql_hdr_packet [] p [] Hp) as (_ & Es & El). cbv zeta in *. rewrite app_nil_r in *.
  change (ushift (list_umem ([] ++ tds_bytes p)) (zlen [])) with (list_umem (tds_bytes p)) in *. rewrite El.
  rewrite (proj2 (Z.leb_le 8 _)), Z.sub_diag, (proj2 (Z.ltb_lt 0 _)), (proj2 (Z.ltb_lt (zlen c) _)) by
    (pose proof (zlen_nonneg (tds_body p)); lia). cbn [andb orb].
  rewrite (mssql_feed_rest (c' :: cs) _ p (zlen c)); try done; try lia.
  cbn [length repeat app]. by rewrite Nat.sub_succ, Nat.sub_0_r.
Qed.

(** A nine-byte response: the header, then the payload. *)
Lemma mssql_response_waits_witness :
  mssql_feed (mk_req tt (mk_tp_info (repeat 0 16) (repeat 0 8) (repeat 0 8) 0 0) 0 0 false 0 0 (repeat 0 128))
    [[4; 1; 0; 9; 0; 0; 1; 0]; [7]] = [-1; 0].
Proof.
  apply (mssql_response_waits _ (mk_tds 4 1 [0; 0; 1; 0] [7]) [4; 1; 0; 9; 0; 0; 1; 0] [[7]]); try done.
  - unfold is_bytes. vm_compute. repeat constructor; done.
  - constructor; [|done]. split; [done|]. intros (q & r & Hq & E). apply (f_equal zlen) in E.
    rewrite zlen_app, tds_bytes_zlen in E by apply Hq. change (zlen [7]) with 1 in E.
    pose proof (zlen_nonneg r). pose proof (zlen_nonneg (tds_body q)). lia.
Defined.
