(* ===== verification/Sunrpc.v ===== *)
(** * ONC RPC ([bpf/generictracer/protocol_sunrpc.h]).

    The recogniser of a record-marked call or reply, against the message grammar of RFC 5531. *)

From Stdlib Require Import ZArith Lia ZifyBool List Bool.
From stdpp Require Import base list gmap.
From S2P Require Import Prelude ConnInfo.

Local Open Scope Z_scope.

(** ** Definitions *)

Definition k_sunrpc_rm_last_frag : Z := 0x80000000.
Definition k_sunrpc_rm_frag_len_mask : Z := 0x7fffffff.
Definition k_sunrpc_max_record : Z := Z.shiftl 1 20.
Definition k_sunrpc_min_record : Z := 20.
Definition k_sunrpc_rpc_version : Z := 2.
Definition k_sunrpc_msg_call : Z := 0.
Definition k_sunrpc_msg_reply : Z := 1.
Definition k_sunrpc_reply_accepted : Z := 0.
Definition k_sunrpc_reply_denied : Z := 1.
Definition k_sunrpc_reject_rpc_mismatch : Z := 0.
Definition k_sunrpc_reject_auth_error : Z := 1.
Definition k_sunrpc_max_auth_stat : Z := 13.
Definition k_sunrpc_auth_null : Z := 0.
Definition k_sunrpc_auth_unix : Z := 1.
Definition k_sunrpc_auth_short : Z := 2.
Definition k_sunrpc_auth_des : Z := 3.
Definition k_sunrpc_auth_kerb : Z := 4.
Definition k_sunrpc_auth_rsa : Z := 5.
Definition k_sunrpc_auth_rpcsec_gss : Z := 6.

#[export] Hint Unfold k_sunrpc_rm_last_frag k_sunrpc_rm_frag_len_mask k_sunrpc_min_record
  k_sunrpc_rpc_version k_sunrpc_msg_call k_sunrpc_msg_reply k_sunrpc_reply_accepted
  k_sunrpc_reply_denied k_sunrpc_reject_rpc_mismatch k_sunrpc_reject_auth_error
  k_sunrpc_max_auth_stat k_sunrpc_auth_null k_sunrpc_auth_unix k_sunrpc_auth_short
  k_sunrpc_auth_des k_sunrpc_auth_kerb k_sunrpc_auth_rsa k_sunrpc_auth_rpcsec_gss : kconst.

Definition sunrpc_read_u32_be (p : umem) : Z := bswap32 (le_word (probe_read0 p 4)).

Definition sunrpc_valid_program (prog : Z) : bool :=
  if (100000 <=? prog) && (prog <=? 101000) then true
  else if (0x20000000 <=? prog) && (prog <=? 0x2fffffff) then true
  else false.

Definition sunrpc_valid_auth_flavor (flavor : Z) : bool :=
  (flavor =? k_sunrpc_auth_null) || (flavor =? k_sunrpc_auth_unix) || (flavor =? k_sunrpc_auth_short)
  || (flavor =? k_sunrpc_auth_des) || (flavor =? k_sunrpc_auth_kerb) || (flavor =? k_sunrpc_auth_rsa)
  || (flavor =? k_sunrpc_auth_rpcsec_gss).

(** The advanced offset, [None] for -1. *)
Definition sunrpc_skip_opaque_auth (data : umem) (data_len off : Z) : option Z :=
  if (data_len <? off) || (u32 (data_len - off) <? 8) then None
  else
    let flavor := sunrpc_read_u32_be (ushift data off) in
    let length := sunrpc_read_u32_be (ushift data (off + 4)) in
    if negb (sunrpc_valid_auth_flavor flavor) then None
    else
      let remaining := u32 (data_len - off - 8) in
      if remaining <? length then None
      else
        let padded := Z.land (u32 (length + 3)) 0xfffffffc in
        if remaining <? padded then None
        else Some (u32 (off + (8 + padded))).

Definition sunrpc_parse_call_msg (rpc : umem) (rpc_len : Z) : bool :=
  if rpc_len <? 32 then false
  else if negb (sunrpc_read_u32_be (ushift rpc 4) =? k_sunrpc_msg_call) then false
  else if negb (sunrpc_read_u32_be (ushift rpc 8) =? k_sunrpc_rpc_version) then false
  else
    let prog := sunrpc_read_u32_be (ushift rpc 12) in
    let vers := sunrpc_read_u32_be (ushift rpc 16) in
    let proc := sunrpc_read_u32_be (ushift rpc 20) in
    if negb (sunrpc_valid_program prog) || (vers =? 0) || (0xffff <? proc) then false
    else
      match sunrpc_skip_opaque_auth rpc rpc_len 24 with
      | None => false
      | Some off =>
          match sunrpc_skip_opaque_auth rpc rpc_len off with
          | None => false
          | Some _ => true
          end
      end.

Definition sunrpc_validate_rejected_reply (body : umem) (body_len : Z) : bool :=
  if body_len <? 4 then false
  else
    let reject_stat := sunrpc_read_u32_be body in
    if reject_stat =? k_sunrpc_reject_rpc_mismatch then 12 <=? body_len
    else if reject_stat =? k_sunrpc_reject_auth_error then
      if body_len <? 8 then false
      else
        let auth_stat := sunrpc_read_u32_be (ushift body 4) in
        auth_stat <=? k_sunrpc_max_auth_stat
    else false.

Definition sunrpc_parse_reply_msg (rpc : umem) (rpc_len : Z) : bool :=
  if rpc_len <? 16 then false
  else if negb (sunrpc_read_u32_be (ushift rpc 4) =? k_sunrpc_msg_reply) then false
  else
    let reply_stat := sunrpc_read_u32_be (ushift rpc 8) in
    if k_sunrpc_reply_denied <? reply_stat then false
    else if reply_stat =? k_sunrpc_reply_denied then
      if rpc_len <? 12 then false
      else sunrpc_validate_rejected_reply (ushift rpc 12) (rpc_len - 12)
    else
      match sunrpc_skip_opaque_auth rpc rpc_len 12 with
      | None => false
      | Some off =>
          if rpc_len <? u32 (off + 4) then false
          else
            let accept_stat := sunrpc_read_u32_be (ushift rpc off) in
            accept_stat <=? 5
      end.

Definition sunrpc_record_looks_valid (data : umem) (data_len : Z) : bool :=
  if data_len <? 4 then false
  else
    let rm := sunrpc_read_u32_be data in
    if negb (nz (Z.land rm k_sunrpc_rm_last_frag)) then false
    else
      let rec_len := Z.land rm k_sunrpc_rm_frag_len_mask in
      if (rec_len <? k_sunrpc_min_record) || (k_sunrpc_max_record <? rec_len) then false
      else if data_len <? u32 (4 + rec_len) then false
      else
        let rpc := ushift data 4 in
        let msg_type := sunrpc_read_u32_be (ushift rpc 4) in
        if msg_type =? k_sunrpc_msg_call then sunrpc_parse_call_msg rpc rec_len
        else if msg_type =? k_sunrpc_msg_reply then sunrpc_parse_reply_msg rpc rec_len
        else false.

Definition is_sunrpc (cache : protocol_cache) (conn_info : connection_info) (data : umem)
    (data_len : Z) (ptype : protocol_type) : Z * protocol_type * protocol_cache :=
  if bool_decide (ptype = k_protocol_type_sunrpc) then (1, ptype, cache)
  else if negb (bool_decide (ptype = k_protocol_type_unknown)) then (0, ptype, cache)
  else if negb (sunrpc_record_looks_valid data data_len) then (0, ptype, cache)
  else (1, k_protocol_type_sunrpc, <[conn_info := k_protocol_type_sunrpc]> cache).

(** ** The reference: the RPC message grammar *)

Definition words (ws : list Z) : list Z := concat (map (be_bytes 4) ws).

Definition is_word (x : Z) : Prop := 0 <= x < 2 ^ 32.

Record opaque_auth := mk_auth { auth_flavor : Z; auth_body : list Z; auth_pad : list Z }.

Definition auth_wf (a : opaque_auth) : Prop :=
  0 <= auth_flavor a <= 6 /\ zlen (auth_body a) < 2 ^ 31
  /\ zlen (auth_pad a) <= 3 /\ (zlen (auth_body a) + zlen (auth_pad a)) mod 4 = 0.

Definition auth_bytes (a : opaque_auth) : list Z :=
  words [auth_flavor a; zlen (auth_body a)] ++ auth_body a ++ auth_pad a.

Inductive rpc_msg :=
  | rpc_call (xid prog vers proc : Z) (cred verf : opaque_auth) (args : list Z)
  | rpc_accepted (xid : Z) (verf : opaque_auth) (stat : Z) (results : list Z)
  | rpc_mismatch (xid low high : Z) (rest : list Z)
  | rpc_auth_error (xid stat : Z) (rest : list Z).

Definition rpc_bytes (m : rpc_msg) : list Z :=
  match m with
  | rpc_call xid prog vers proc cred verf args =>
      words [xid; 0; 2; prog; vers; proc] ++ auth_bytes cred ++ auth_bytes verf ++ args
  | rpc_accepted xid verf stat results => words [xid; 1; 0] ++ auth_bytes verf ++ words [stat] ++ results
  | rpc_mismatch xid low high rest => words [xid; 1; 1; 0; low; high] ++ rest
  | rpc_auth_error xid stat rest => words [xid; 1; 1; 1; stat] ++ rest
  end.

Definition rpc_wf (m : rpc_msg) : Prop :=
  match m with
  | rpc_call xid prog vers proc cred verf args =>
      is_word xid /\ (100000 <= prog <= 101000 \/ 0x20000000 <= prog <= 0x2fffffff)
      /\ 1 <= vers < 2 ^ 32 /\ 0 <= proc <= 0xffff /\ auth_wf cred /\ auth_wf verf
  | rpc_accepted xid verf stat results => is_word xid /\ auth_wf verf /\ 0 <= stat <= 5
  | rpc_mismatch xid low high rest => is_word xid /\ is_word low /\ is_word high
  | rpc_auth_error xid stat rest => is_word xid /\ 0 <= stat <= 13
  end.

(** A single-fragment record of at most a mebibyte. *)
Definition rpc_record (m : rpc_msg) : list Z := words [2 ^ 31 + zlen (rpc_bytes m)] ++ rpc_bytes m.

(** ** Lemmas *)

(** The memory starts with the bytes [l]. *)
Definition holds (mem : umem) (l : list Z) : Prop := uagree (zlen l) mem (list_umem l).

Lemma words_zlen ws : zlen (words ws) = 4 * zlen ws.
Proof.
  induction ws as [|x ws IH]; [done|]. unfold words in *. cbn [map concat]. rewrite be_bytes_4, zlen_app, IH.
  unfold zlen. simpl length. lia.
Qed.

Lemma words_cons x ws : words (x :: ws) = be_bytes 4 x ++ words ws.
Proof. done. Qed.

Lemma read_first mem x r : holds mem (be_bytes 4 x ++ r) -> is_word x -> sunrpc_read_u32_be mem = x.
Proof.
  intros Hm Hx. unfold sunrpc_read_u32_be, probe_read0.
  rewrite (probe_read_ext 4 mem (list_umem (be_bytes 4 x ++ r))).
  - change 4%nat with (length (be_bytes 4 x)). rewrite probe_read_list. by apply be32_le_word.
  - eapply uagree_le; [exact Hm|]. rewrite be_bytes_4. unfold zlen. simpl length. lia.
Qed.

Lemma holds_shift mem a b : holds mem (a ++ b) -> holds (ushift mem (zlen a)) b.
Proof.
  intros H i Hi. unfold ushift. pose proof (zlen_nonneg a). rewrite H by (rewrite zlen_app; lia).
  apply (list_umem_shift a b (zlen b)). lia.
Qed.

Lemma holds_app_l mem a b : holds mem (a ++ b) -> holds mem a.
Proof.
  intros H i Hi. pose proof (zlen_nonneg b). rewrite H by (rewrite zlen_app; lia). unfold list_umem, zlen in *.
  rewrite (proj2 (Z.leb_le 0 i)) by lia. by rewrite nth_error_app1 by lia.
Qed.

Lemma holds_ext mem mem' l : holds mem l -> (forall i, mem' i = mem i) -> holds mem' l.
Proof. intros H E i Hi. rewrite E. by apply H. Qed.

(** The [i]th word behind a prefix. *)
Lemma read_word mem pre ws r i off :
  holds mem (pre ++ words ws ++ r) -> Forall is_word ws -> (i < length ws)%nat ->
  off = zlen pre + 4 * Z.of_nat i -> sunrpc_read_u32_be (ushift mem off) = nth i ws 0.
Proof.
  revert pre off i. induction ws as [|x ws IH]; intros pre off i Hm Hws Hi ->; [simpl in Hi; lia|].
  apply Forall_cons in Hws as [Hx Hws]. rewrite words_cons, <- app_assoc in Hm. destruct i as [|i].
  - rewrite Z.add_0_r. eapply read_first; [|done]. by eapply holds_shift.
  - cbn [nth]. apply (IH (pre ++ be_bytes 4 x)); [by rewrite <- app_assoc|done|simpl in Hi; lia|].
    rewrite zlen_app, be_bytes_4. change (zlen [_; _; _; _]) with 4. lia.
Qed.

Lemma read_word0 mem ws r i off :
  holds mem (words ws ++ r) -> Forall is_word ws -> (i < length ws)%nat -> off = 4 * Z.of_nat i ->
  sunrpc_read_u32_be (ushift mem off) = nth i ws 0.
Proof. intros Hm Hw Hi ->. by apply (read_word mem [] ws r). Qed.

Lemma words_split n l : is_bytes l -> 4 * Z.of_nat n <= zlen l ->
  exists ws r, l = words ws ++ r /\ length ws = n /\ Forall is_word ws /\ is_bytes r.
Proof.
  revert l. induction n as [|n IH]; intros l Hb Hl; [by exists [], l|].
  unfold zlen in Hl. destruct l as [|a [|b [|c [|d l]]]]; simpl length in Hl; try lia.
  unfold is_bytes in Hb. rewrite !Forall_cons in Hb. destruct Hb as (? & ? & ? & ? & Hb).
  destruct (IH l Hb ltac:(unfold zlen; lia)) as (ws & r & -> & Hn & Hws & Hr).
  exists (a * 16777216 + b * 65536 + c * 256 + d :: ws), r. split_and!; [|simpl; lia| |done].
  - rewrite words_cons, be_bytes_4. cbn [app]. repeat f_equal; zdm.
  - constructor; [unfold is_word; lia|done].
Qed.

Lemma words_inj ws ws' r r' :
  words ws ++ r = words ws' ++ r' -> length ws = length ws' -> Forall is_word ws -> Forall is_word ws' ->
  ws = ws' /\ r = r'.
Proof.
  revert ws'. induction ws as [|x ws IH]; intros [|x' ws'] E Hl Hw Hw'; try done.
  apply Forall_cons in Hw as [Hx Hw], Hw' as [Hx' Hw']. rewrite !words_cons, <- !app_assoc in E.
  apply app_inj_1 in E as [E1 E2]; [|by rewrite !be_bytes_4].
  apply IH in E2 as [-> ->]; [|by injection Hl|done..]. split; [|done]. f_equal.
  rewrite <- (be32_le_word x), <- (be32_le_word x') by done. by rewrite E1.
Qed.

Lemma pad_mask n : 0 <= n < 2 ^ 31 -> Z.land (u32 (n + 3)) 0xfffffffc = n + (- n) mod 4.
Proof.
  intros Hn. rewrite (wrap_small 32) by lia.
  assert (Z.land (n + 3) 0xfffffffc = Z.shiftl (Z.shiftr (n + 3) 2) 2) as ->.
  { apply Z.bits_inj'. intros i Hi. rewrite Z.land_spec, Z.shiftl_spec by done.
    destruct (Z.ltb_spec i 2) as [H2|H2].
    - rewrite (Z.testbit_neg_r _ (i - 2)) by lia.
      assert (i = 0 \/ i = 1) as [-> | ->] by lia; by rewrite andb_false_r.
    - rewrite Z.shiftr_spec by lia. replace (i - 2 + 2) with i by lia.
      destruct (Z.ltb_spec i 32).
      + assert (Z.testbit 0xfffffffc i = true) as ->; [|by rewrite andb_true_r].
        change 0xfffffffc with (Z.shiftl (Z.ones 30) 2). rewrite Z.shiftl_spec by lia. apply Z.ones_spec_low. lia.
      + rewrite (Z.bits_above_log2 (n + 3) i); [done|lia|].
        apply Z.log2_lt_pow2; [lia|]. assert (2 ^ 32 <= 2 ^ i) by (apply Z.pow_le_mono_r; lia). lia. }
  rewrite Z.shiftr_div_pow2, Z.shiftl_mul_pow2 by lia. zdm.
Qed.

Lemma auth_bytes_zlen a : zlen (auth_bytes a) = 8 + zlen (auth_body a) + zlen (auth_pad a).
Proof. unfold auth_bytes. rewrite !zlen_app, words_zlen. change (zlen [_; _]) with 2. lia. Qed.

Lemma flavor_ok f : sunrpc_valid_auth_flavor f = true <-> 0 <= f <= 6.
Proof. unfold sunrpc_valid_auth_flavor. kunfold. lia. Qed.

(** An authentication field behind a prefix is skipped. *)
Lemma skip_at mem pre a rest :
  holds mem (pre ++ auth_bytes a ++ rest) -> auth_wf a -> zlen (pre ++ auth_bytes a ++ rest) < 2 ^ 31 ->
  sunrpc_skip_opaque_auth mem (zlen (pre ++ auth_bytes a ++ rest)) (zlen pre) = Some (zlen (pre ++ auth_bytes a)).
Proof.
  intros Hm (Hf & Hb & Hp & Hmod) Hlen. unfold sunrpc_skip_opaque_auth.
  pose proof (zlen_nonneg pre). pose proof (zlen_nonneg (auth_body a)). pose proof (zlen_nonneg (auth_pad a)).
  pose proof (zlen_nonneg rest). rewrite !zlen_app, !auth_bytes_zlen in *. unfold auth_bytes in Hm. rewrite <- app_assoc in Hm.
  assert (Hw : Forall is_word [auth_flavor a; zlen (auth_body a)]) by (repeat constructor; lia).
  rewrite (read_word mem pre _ _ 0 (zlen pre) Hm Hw), (read_word mem pre _ _ 1 (zlen pre + 4) Hm Hw) by (simpl; lia).
  cbn [nth]. rewrite !(wrap_small 32 (_ - _)) by lia. rewrite (proj2 (flavor_ok _) Hf). cbn [negb].
  rewrite pad_mask by lia. assert ((- zlen (auth_body a)) mod 4 = zlen (auth_pad a)) as -> by zdm.
  rewrite (wrap_small 32) by lia. bdes_goal; try lia. f_equal. lia.
Qed.

(** What is skipped is an authentication field. *)
Lemma skip_inv mem pre l off :
  holds mem (pre ++ l) -> is_bytes l -> zlen (pre ++ l) < 2 ^ 31 ->
  sunrpc_skip_opaque_auth mem (zlen (pre ++ l)) (zlen pre) = Some off ->
  exists a rest, l = auth_bytes a ++ rest /\ auth_wf a /\ is_bytes rest /\ off = zlen (pre ++ auth_bytes a).
Proof.
  intros Hm Hb Hlen Hs. pose proof (zlen_nonneg pre). pose proof (zlen_nonneg l). rewrite zlen_app in Hlen.
  assert (8 <= zlen l) as H8.
  { unfold sunrpc_skip_opaque_auth in Hs. rewrite zlen_app in Hs. rewrite (wrap_small 32 (_ - zlen pre)) in Hs by lia.
    destruct (_ || _) eqn:Hg in Hs; [done|lia]. }
  destruct (words_split 2 l Hb ltac:(lia)) as (ws & r & -> & Hn & Hws & Hr).
  destruct ws as [|f [|n [|]]]; try done. apply Forall_cons in Hws as Hw. destruct Hw as [Hf Hw].
  apply Forall_cons in Hw as [Hnw _]. unfold is_word in *. clear Hn.
  assert (zlen (words [f; n] ++ r) = 8 + zlen r) as Hz by (rewrite zlen_app, words_zlen; done).
  unfold sunrpc_skip_opaque_auth in Hs. rewrite zlen_app, Hz in Hs. rewrite Hz in Hlen. pose proof (zlen_nonneg r).
  rewrite (read_word mem pre _ _ 0 (zlen pre) Hm Hws), (read_word mem pre _ _ 1 (zlen pre + 4) Hm Hws) in Hs by (simpl; lia).
  cbn [nth] in Hs. rewrite !(wrap_small 32 (_ - _)) in Hs by lia.
  destruct (_ || _) in Hs; [done|]. destruct (sunrpc_valid_auth_flavor f) eqn:Hff; [|done]. cbn [negb] in Hs.
  apply flavor_ok in Hff. destruct (Z.ltb_spec (zlen pre + (8 + zlen r) - zlen pre - 8) n); [done|].
  rewrite pad_mask in Hs by lia. destruct (Z.ltb_spec (zlen pre + (8 + zlen r) - zlen pre - 8) (n + (- n) mod 4)); [done|].
  injection Hs as <-.
  destruct (zlen_split r n ltac:(lia)) as (body & r1 & -> & Hbody). rewrite (zlen_app body) in *.
  destruct (zlen_split r1 ((- n) mod 4)) as (pad & rest & -> & Hpad); [zdm|].
  exists (mk_auth f body pad), rest. unfold auth_wf, auth_bytes. cbn [auth_flavor auth_body auth_pad].
  rewrite Hbody, Hpad. split_and!; try lia; try zdm.
  - by rewrite <- !app_assoc.
  - apply Forall_app in Hr as [_ Hr]. by apply Forall_app in Hr as [_ ?].
  - rewrite !zlen_app, words_zlen, Hbody, Hpad. change (zlen [_; _]) with 2. rewrite (wrap_small 32); [lia|]. zdm.
Qed.

Lemma program_ok p : sunrpc_valid_program p = true <-> 100000 <= p <= 101000 \/ 0x20000000 <= p <= 0x2fffffff.
Proof. unfold sunrpc_valid_program. bdes_goal; lia. Qed.

(** The words of the header of a message, one after the other. *)
Ltac read_words Hm Hw :=
  repeat match goal with
  | |- context [sunrpc_read_u32_be (ushift ?mem ?off)] =>
      let i := eval compute in (Z.to_nat (off / 4)) in
      rewrite (read_word0 mem _ _ i off Hm Hw) by (simpl; lia)
  end; cbn [nth].

Lemma call_spec mem l :
  holds mem l -> is_bytes l -> zlen l < 2 ^ 31 ->
  sunrpc_parse_call_msg mem (zlen l) = true
  <-> exists xid prog vers proc cred verf args,
        l = rpc_bytes (rpc_call xid prog vers proc cred verf args) /\ rpc_wf (rpc_call xid prog vers proc cred verf args).
Proof.
  intros Hm Hb Hlen. unfold sunrpc_parse_call_msg. destruct (Z.ltb_spec (zlen l) 32) as [H32|H32].
  { split; [done|]. intros (x & p & v & q & c & f & args & -> & _). exfalso. cbn [rpc_bytes] in H32.
    rewrite !zlen_app, words_zlen, !auth_bytes_zlen in H32. change (zlen [_; _; _; _; _; _]) with 6 in H32.
    pose proof (zlen_nonneg (auth_body c)). pose proof (zlen_nonneg (auth_pad c)).
    pose proof (zlen_nonneg (auth_body f)). pose proof (zlen_nonneg (auth_pad f)). pose proof (zlen_nonneg args). lia. }
  destruct (words_split 6 l Hb ltac:(lia)) as (ws & r & -> & Hn & Hws & Hr).
  destruct ws as [|x [|t [|v [|p [|vs [|pr [|]]]]]]]; try done. clear Hn.
  read_words Hm Hws. rewrite !Forall_cons in Hws. destruct Hws as (Hx & Ht & Hv & Hp & Hvs & Hpr & _).
  change 24 with (zlen (words [x; t; v; p; vs; pr])). set (hd := words [x; t; v; p; vs; pr]) in *. kunfold.
  unfold is_word in *. split.
  - destruct (Z.eqb_spec t 0) as [Et|]; cbn [negb]; [|done]. destruct (Z.eqb_spec v 2) as [Ev|]; cbn [negb]; [|done].
    destruct (_ || _) eqn:Hg; [done|].
    apply orb_false_iff in Hg as [Hg Hg3]. apply orb_false_iff in Hg as [Hg1 Hg2]. apply negb_false_iff, program_ok in Hg1.
    destruct (sunrpc_skip_opaque_auth mem (zlen (hd ++ r)) (zlen hd)) as [off|] eqn:E1; [|done].
    apply skip_inv in E1 as (cred & r1 & -> & Hc & Hr1 & ->); [|done..].
    rewrite app_assoc in *. destruct (sunrpc_skip_opaque_auth _ _ _) as [off|] eqn:E2; [|done]. intros _.
    apply skip_inv in E2 as (verf & args & -> & Hvf & _ & _); [|done..].
    exists x, p, vs, pr, cred, verf, args. split; [cbn [rpc_bytes]; unfold hd; rewrite Et, Ev; by rewrite <- app_assoc|].
    cbn [rpc_wf]. split_and!; done || (unfold is_word; lia).
  - intros (x' & p' & v' & q' & cred & verf & args & E & Hwf). cbn [rpc_bytes rpc_wf] in *.
    destruct Hwf as (Hx' & Hp' & Hv' & Hq' & Hc & Hvf). 
    apply words_inj in E as [[= -> -> -> -> -> ->] ->]; [|done|unfold is_word in *; repeat constructor; lia..].
    rewrite (proj2 (program_ok _) Hp'). cbn [negb orb Z.eqb Pos.eqb].
    rewrite (proj2 (Z.eqb_neq _ _)), (proj2 (Z.ltb_ge _ _)) by lia. cbn [orb].
    rewrite skip_at by done. rewrite app_assoc in *. by rewrite skip_at by done.
Qed.

Lemma read_shift mem a b : sunrpc_read_u32_be (ushift (ushift mem a) b) = sunrpc_read_u32_be (ushift mem (a + b)).
Proof.
  unfold sunrpc_read_u32_be. f_equal. f_equal. apply probe_read0_ext. intros i _. unfold ushift. f_equal. lia.
Qed.

(** The messages a denied reply may be. *)
Lemma denied_spec mem x t s l :
  holds mem (words [x; t; s] ++ l) -> Forall is_word [x; t; s] -> is_bytes l -> zlen l < 2 ^ 31 ->
  sunrpc_validate_rejected_reply (ushift mem 12) (zlen l) = true
  <-> (exists low high rest, l = words [0; low; high] ++ rest /\ is_word low /\ is_word high)
      \/ (exists stat rest, l = words [1; stat] ++ rest /\ 0 <= stat <= 13).
Proof.
  intros Hm Hw Hb Hlen. unfold sunrpc_validate_rejected_reply. rewrite read_shift.
  destruct (Z.ltb_spec (zlen l) 4) as [H4|H4].
  { split; [done|]. intros [(a & b & r & -> & _)|(a & r & -> & _)]; exfalso; rewrite zlen_app, words_zlen in H4;
      pose proof (zlen_nonneg r); [change (zlen [_; _; _]) with 3 in H4|change (zlen [_; _]) with 2 in H4]; lia. }
  destruct (words_split 1 l Hb ltac:(lia)) as (ws & r & -> & Hn & Hws & Hr). destruct ws as [|j [|]]; try done. clear Hn.
  assert (Hz : zlen (words [j] ++ r) = 4 + zlen r) by (rewrite zlen_app, words_zlen; done). rewrite Hz in *.
  assert (Hj : is_word j) by (by apply Forall_cons in Hws as [? _]).
  rewrite app_assoc in Hm. change (words [x; t; s] ++ words [j]) with (words [x; t; s; j]) in Hm.
  assert (Hw4 : Forall is_word [x; t; s; j]) by (rewrite !Forall_cons in *; tauto).
  assert (sunrpc_read_u32_be (ushift mem 12) = j) as -> by (by apply (read_word0 mem _ _ 3 12 Hm Hw4); simpl; lia).
  assert (Hinj : forall v vs r', words [j] ++ r = words (v :: vs) ++ r' -> is_word v -> j = v /\ r = words vs ++ r').
  { intros v vs r' E Hv. rewrite (words_cons v), <- app_assoc in E. change (be_bytes 4 v) with (words [v]) in E.
    apply words_inj in E as [[= ->] ->]; [done|done|by apply Forall_singleton|by apply Forall_singleton]. }
  kunfold. destruct (Z.eqb_spec j 0) as [->|Hj0]; [|destruct (Z.eqb_spec j 1) as [->|Hj1]].
  - rewrite Z.leb_le. split.
    + intros H12. left. destruct (words_split 2 r Hr ltac:(lia)) as (ws & r' & -> & Hn & Hws' & _).
      destruct ws as [|a [|b [|]]]; try done. rewrite !Forall_cons in Hws'. exists a, b, r'. rewrite app_assoc. tauto.
    + intros [(a & b & r' & E & _)|(a & r' & E & _)]; apply Hinj in E as [E ->]; try (unfold is_word; lia).
      rewrite zlen_app, words_zlen. change (zlen [_; _]) with 2. pose proof (zlen_nonneg r'). lia.
  - split.
    + destruct (Z.ltb_spec (4 + zlen r) 8); [done|]. right.
      destruct (words_split 1 r Hr ltac:(lia)) as (ws & r' & -> & Hn & Hws' & _). destruct ws as [|a [|]]; try done.
      rewrite app_assoc in Hm. change (words [x; t; s; 1] ++ words [a]) with (words [x; t; s; 1; a]) in Hm.
      apply Forall_cons in Hws' as [Ha _]. exists a, r'. split; [by rewrite app_assoc|].
      assert (sunrpc_read_u32_be (ushift mem (12 + 4)) = a) as E; [|unfold is_word in Ha; lia].
      apply (read_word0 mem [x; t; s; 1; a] r' 4); [done| |simpl; lia|lia]. rewrite !Forall_cons in *. tauto.
    + intros [(a & b & r' & E & _)|(a & r' & E & Ha)]; apply Hinj in E as [E ->]; try (unfold is_word; lia).
      rewrite zlen_app, words_zlen. change (zlen [_]) with 1. pose proof (zlen_nonneg r').
      rewrite (proj2 (Z.ltb_ge _ _)) by lia. rewrite app_assoc in Hm.
      change (words [x; t; s; 1] ++ words [a]) with (words [x; t; s; 1; a]) in Hm.
      rewrite (read_word0 mem [x; t; s; 1; a] r' 4 (12 + 4) Hm); [cbn [nth]; lia| |simpl; lia|lia].
      rewrite !Forall_cons in *. unfold is_word in *. split_and!; try tauto; try lia.
  - split; [done|]. intros [(a & b & r' & E & _)|(a & r' & E & _)]; apply Hinj in E as [E _]; done || (unfold is_word; lia).
Qed.

(** The tail of an accepted reply: its verifier and its status. *)
Lemma accepted_spec mem hd l :
  holds mem (hd ++ l) -> is_bytes l -> zlen (hd ++ l) < 2 ^ 31 ->
  match sunrpc_skip_opaque_auth mem (zlen (hd ++ l)) (zlen hd) with
  | None => false
  | Some off => if zlen (hd ++ l) <? u32 (off + 4) then false else sunrpc_read_u32_be (ushift mem off) <=? 5
  end = true
  <-> exists verf stat results, l = auth_bytes verf ++ words [stat] ++ results /\ auth_wf verf /\ 0 <= stat <= 5.
Proof.
  intros Hm Hb Hlen. pose proof (zlen_nonneg hd). pose proof (zlen_nonneg l). split.
  - destruct (sunrpc_skip_opaque_auth _ _ _) as [off|] eqn:E; [|done].
    apply skip_inv in E as (verf & r & -> & Hv & Hr & ->); [|done..]. rewrite app_assoc in *.
    pose proof (zlen_app (hd ++ auth_bytes verf) r) as Ez. pose proof (zlen_nonneg (hd ++ auth_bytes verf)).
    pose proof (zlen_nonneg r). rewrite (wrap_small 32) by lia. destruct (Z.ltb_spec (zlen ((hd ++ auth_bytes verf) ++ r)) (zlen (hd ++ auth_bytes verf) + 4)); [done|].
    intros Hs. destruct (words_split 1 r Hr ltac:(lia)) as (ws & r' & -> & Hn & Hws & _). destruct ws as [|s [|]]; try done.
    rewrite (read_word mem _ [s] r' 0 _ Hm Hws) in Hs by (simpl; lia). cbn [nth] in Hs.
    apply Forall_cons in Hws as [Hs0 _]. unfold is_word in Hs0. exists verf, s, r'. split_and!; done || lia.
  - intros (verf & stat & results & -> & Hv & Hs). rewrite skip_at by done. rewrite app_assoc in *.
    pose proof (zlen_app (hd ++ auth_bytes verf) (words [stat] ++ results)) as Ez.
    pose proof (zlen_nonneg (hd ++ auth_bytes verf)). pose proof (zlen_nonneg results).
    rewrite (zlen_app (words _)), words_zlen in Ez. change (zlen [_]) with 1 in Ez.
    rewrite (wrap_small 32) by lia. rewrite (proj2 (Z.ltb_ge _ _)) by lia.
    rewrite (read_word mem _ [stat] results 0 _ Hm); [cbn [nth]; lia| |simpl; lia|lia].
    apply Forall_singleton. unfold is_word. lia.
Qed.

Definition is_reply (m : rpc_msg) : Prop := match m with rpc_call _ _ _ _ _ _ _ => False | _ => True end.

(** The first three words of a reply and what follows them. *)
Lemma reply_inj m x t s r :
  Forall is_word [x; t; s] -> is_reply m -> words [x; t; s] ++ r = rpc_bytes m -> rpc_wf m -> t = 1 /\
    ((s = 0 /\ exists verf stat results, r = auth_bytes verf ++ words [stat] ++ results /\ auth_wf verf /\ 0 <= stat <= 5)
     \/ s = 1 /\ ((exists low high rest, r = words [0; low; high] ++ rest /\ is_word low /\ is_word high)
      \/ (exists stat rest, r = words [1; stat] ++ rest /\ 0 <= stat <= 13))).
Proof.
  intros Hws. destruct m as [|x' verf stat res|x' low high rest|x' stat rest]; intros Hrep E Hwf; [done|..]; cbn [rpc_bytes rpc_wf] in E, Hwf.
  - apply words_inj in E as [[= _ -> ->] ->]; [|done|done|rewrite !Forall_cons; unfold is_word in *; split_and!; lia || done].
    split; [done|]. left. split; [done|]. exists verf, stat, res. tauto.
  - change (words [x'; 1; 1; 0; low; high]) with (words [x'; 1; 1] ++ words [0; low; high]) in E. rewrite <- app_assoc in E.
    apply words_inj in E as [[= _ -> ->] ->]; [|done|done|rewrite !Forall_cons; unfold is_word in *; split_and!; lia || done].
    split; [done|]. right. split; [done|]. left. exists low, high, rest. tauto.
  - change (words [x'; 1; 1; 1; stat]) with (words [x'; 1; 1] ++ words [1; stat]) in E. rewrite <- app_assoc in E.
    apply words_inj in E as [[= _ -> ->] ->]; [|done|done|rewrite !Forall_cons; unfold is_word in *; split_and!; lia || done].
    split; [done|]. right. split; [done|]. right. exists stat, rest. tauto.
Qed.

Lemma reply_spec mem l :
  holds mem l -> is_bytes l -> zlen l < 2 ^ 31 -> 20 <= zlen l ->
  sunrpc_parse_reply_msg mem (zlen l) = true <-> exists m, is_reply m /\ l = rpc_bytes m /\ rpc_wf m.
Proof.
  intros Hm Hb Hlen H20. unfold sunrpc_parse_reply_msg. rewrite (proj2 (Z.ltb_ge _ 16)), (proj2 (Z.ltb_ge _ 12)) by lia.
  destruct (words_split 3 l Hb ltac:(lia)) as (ws & r & -> & Hn & Hws & Hr).
  destruct ws as [|x [|t [|s [|]]]]; try done. clear Hn.
  rewrite (read_word0 mem _ _ 1 4 Hm Hws), (read_word0 mem _ _ 2 8 Hm Hws) by (simpl; lia). cbn [nth].
  assert (Hz : zlen (words [x; t; s] ++ r) = 12 + zlen r) by (rewrite zlen_app, words_zlen; done).
  assert (Hx : is_word x /\ is_word t /\ is_word s) by (rewrite !Forall_cons in Hws; tauto). unfold is_word in Hx.
  pose proof (zlen_nonneg r).
  pose proof (denied_spec mem x t s r Hm Hws Hr ltac:(lia)) as Hd.
  pose proof (accepted_spec mem (words [x; t; s]) r Hm Hr Hlen) as Ha. change (zlen (words [x; t; s])) with 12 in Ha.
  pose proof (fun m => reply_inj m x t s r ltac:(done)) as Hinj.
  kunfold. destruct (Z.eqb_spec t 1) as [->|Ht]; cbn [negb].
  2:{ split; [done|]. intros (m & Hrep & E & Hwf). by destruct (Hinj m Hrep E Hwf). }
  destruct (Z.ltb_spec 1 s) as [Hs|Hs].
  { split; [done|]. intros (m & Hrep & E & Hwf). destruct (Hinj m Hrep E Hwf) as (_ & [[-> _]|[-> _]]); lia. }
  destruct (Z.eqb_spec s 1) as [->|Hs1].
  - replace (zlen (words [x; 1; 1] ++ r) - 12) with (zlen r) by lia. rewrite Hd. split.
    + intros [(low & high & rest & -> & Hl & Hh)|(stat & rest & -> & Hst)].
      * exists (rpc_mismatch x low high rest). cbn [is_reply rpc_bytes rpc_wf]. unfold is_word in *. rewrite app_assoc. tauto.
      * exists (rpc_auth_error x stat rest). cbn [is_reply rpc_bytes rpc_wf]. unfold is_word in *. rewrite app_assoc. tauto.
    + intros (m & Hrep & E & Hwf). destruct (Hinj m Hrep E Hwf) as (_ & [[? _]|[_ ?]]); [lia|done].
  - assert (s = 0) as -> by lia. rewrite Ha. split.
    + intros (verf & stat & res & -> & Hv & Hst). exists (rpc_accepted x verf stat res).
      cbn [is_reply rpc_bytes rpc_wf]. unfold is_word in *. tauto.
    + intros (m & Hrep & E & Hwf). destruct (Hinj m Hrep E Hwf) as (_ & [[_ ?]|[? _]]); [done|lia].
Qed.

(** The record mark of a single fragment. *)
Lemma record_mark rm : is_word rm ->
  nz (Z.land rm k_sunrpc_rm_last_frag) = (2 ^ 31 <=? rm) /\ Z.land rm k_sunrpc_rm_frag_len_mask = rm mod 2 ^ 31.
Proof.
  unfold is_word. intros Hr. split; [|exact (land_ones_mod rm 31 ltac:(lia))]. unfold nz, k_sunrpc_rm_last_frag.
  assert (Z.land rm 0x80000000 = if 2 ^ 31 <=? rm then 2 ^ 31 else 0) as ->; [|by destruct (2 ^ 31 <=? rm)].
  apply Z.bits_inj'. intros i Hi. rewrite Z.land_spec. change 0x80000000 with (2 ^ 31). rewrite Z.pow2_bits_eqb by lia.
  destruct (Z.eqb_spec 31 i) as [<-|Hne].
  - rewrite andb_true_r, Z.testbit_eqb by lia. destruct (Z.leb_spec (2 ^ 31) rm).
    + rewrite Z.pow2_bits_true by lia. zdm.
    + rewrite Z.bits_0. zdm.
  - rewrite andb_false_r. destruct (2 ^ 31 <=? rm); [|by rewrite Z.bits_0]. by rewrite Z.pow2_bits_false.
Qed.

(** Dispatching on the message type loses nothing. *)
Lemma message_spec mem l :
  holds mem l -> is_bytes l -> 20 <= zlen l < 2 ^ 31 ->
  (let msg_type := sunrpc_read_u32_be (ushift mem 4) in
   if msg_type =? k_sunrpc_msg_call then sunrpc_parse_call_msg mem (zlen l)
   else if msg_type =? k_sunrpc_msg_reply then sunrpc_parse_reply_msg mem (zlen l) else false) = true
  <-> exists m, l = rpc_bytes m /\ rpc_wf m.
Proof.
  intros Hm Hb Hl. cbv zeta.
  transitivity (sunrpc_parse_call_msg mem (zlen l) = true \/ sunrpc_parse_reply_msg mem (zlen l) = true).
  { unfold sunrpc_parse_call_msg, sunrpc_parse_reply_msg. kunfold.
    destruct (Z.eqb_spec (sunrpc_read_u32_be (ushift mem 4)) 0) as [E|];
      destruct (Z.eqb_spec (sunrpc_read_u32_be (ushift mem 4)) 1) as [E'|]; cbn [negb]; try lia;
      destruct (zlen l <? 32), (zlen l <? 16); (split; [intros ?; first [done|by left|by right]|intros [?|?]; done]). }
  rewrite call_spec, reply_spec by (done || lia). split.
  - intros [(x & p & v & q & c & f & args & E & Hwf)|(m & _ & E & Hwf)]; eexists; eauto.
  - intros (m & E & Hwf). destruct m; [left; do 7 eexists; eauto|right; eexists; (split; [|split; [exact E|exact Hwf]]); done..].
Qed.

(** ** Properties *)

(** Which segments are taken for RPC.  A readable segment of an unclassified connection is
    classified as ONC RPC, in the result and in the cache, if and only if it begins with a
    single-fragment record of 20 bytes to one mebibyte that is, field by field, a call to a known
    program range with well-formed credentials and verifier, an accepted reply with a verifier and
    a defined status, or a denied reply of either kind; otherwise nothing changes. *)
Theorem is_sunrpc_exact cache conn l :
  is_bytes l -> zlen l < 2 ^ 32 ->
  (is_sunrpc cache conn (list_umem l) (zlen l) k_protocol_type_unknown
     = (1, k_protocol_type_sunrpc, <[conn := k_protocol_type_sunrpc]> cache)
   <-> exists m rest, l = rpc_record m ++ rest /\ rpc_wf m /\ 20 <= zlen (rpc_bytes m) <= 2 ^ 20)
  /\ (is_sunrpc cache conn (list_umem l) (zlen l) k_protocol_type_unknown
        = (1, k_protocol_type_sunrpc, <[conn := k_protocol_type_sunrpc]> cache)
      \/ is_sunrpc cache conn (list_umem l) (zlen l) k_protocol_type_unknown = (0, k_protocol_type_unknown, cache)).
Proof.
  intros Hb Hlen. unfold is_sunrpc. cbn [bool_decide]. rewrite !bool_decide_false by done. rewrite !bool_decide_true by done. cbn [negb].
  assert (Hv : sunrpc_record_looks_valid (list_umem l) (zlen l) = true
    <-> exists m rest, l = rpc_record m ++ rest /\ rpc_wf m /\ 20 <= zlen (rpc_bytes m) <= 2 ^ 20).
  2:{ rewrite <- Hv. destruct (sunrpc_record_looks_valid _ _); cbn [negb]; split; [done|by left|done|by right]. }
  unfold sunrpc_record_looks_valid. pose proof (zlen_nonneg l). destruct (Z.ltb_spec (zlen l) 4) as [H4|H4].
  { split; [done|]. intros (m & r & -> & _ & _). unfold rpc_record in H4. rewrite !zlen_app, words_zlen in H4.
    change (zlen [_]) with 1 in H4. pose proof (zlen_nonneg (rpc_bytes m)). pose proof (zlen_nonneg r). lia. }
  destruct (words_split 1 l Hb ltac:(lia)) as (ws & r & -> & Hn & Hws & Hr). destruct ws as [|rm [|]]; try done. clear Hn.
  assert (Hrm : is_word rm) by (by apply Forall_cons in Hws as [? _]).
  assert (Hh : holds (list_umem (words [rm] ++ r)) (words [rm] ++ r)) by done.
  change (sunrpc_read_u32_be (list_umem (words [rm] ++ r))) with (sunrpc_read_u32_be (ushift (list_umem (words [rm] ++ r)) 0)).
  rewrite (read_word0 _ _ _ 0 0 Hh Hws) by (simpl; lia). cbn [nth].
  destruct (record_mark rm Hrm) as [-> ->]. change k_sunrpc_max_record with (2 ^ 20). change k_sunrpc_min_record with 20.
  assert (Hz : zlen (words [rm] ++ r) = 4 + zlen r) by (rewrite zlen_app, words_zlen; done). rewrite Hz in *.
  unfold is_word in Hrm.
  assert (Hinj : forall m rest, words [rm] ++ r = rpc_record m ++ rest -> 20 <= zlen (rpc_bytes m) <= 2 ^ 20 ->
    rm = 2 ^ 31 + zlen (rpc_bytes m) /\ r = rpc_bytes m ++ rest).
  { intros m rest E Hm. unfold rpc_record in E. rewrite <- app_assoc in E.
    apply words_inj in E as [[= ->] ->]; [done|done|done|]. apply Forall_singleton. unfold is_word. lia. }
  destruct (Z.leb_spec (2 ^ 31) rm) as [H31|H31]; cbn [negb].
  2:{ split; [done|]. intros (m & rest & E & _ & Hm). apply Hinj in E as [E _]; [lia|done]. }
  assert (rm mod 2 ^ 31 = rm - 2 ^ 31) as -> by zdm.
  destruct ((_ <? 20) || _) eqn:Hg.
  { split; [done|]. intros (m & rest & E & _ & Hm). apply Hinj in E as [E _]; [lia|done]. }
  rewrite (wrap_small 32) by lia. destruct (Z.ltb_spec (4 + zlen r) (4 + (rm - 2 ^ 31))) as [Hs|Hs].
  { split; [done|]. intros (m & rest & E & _ & Hm). apply Hinj in E as [E ->]; [|done]. rewrite zlen_app in Hs.
    pose proof (zlen_nonneg rest). lia. }
  destruct (zlen_split r (rm - 2 ^ 31) ltac:(lia)) as (b & rest & -> & Hbl). apply Forall_app in Hr as [Hbb _].
  assert (Hhb : holds (ushift (list_umem (words [rm] ++ b ++ rest)) 4) b)
    by (apply (holds_app_l _ b rest), (holds_shift _ (words [rm])); done).
  rewrite <- Hbl. rewrite message_spec by (done || lia). split.
  - intros (m & -> & Hwf). exists m, rest. unfold rpc_record. rewrite <- app_assoc.
    replace (2 ^ 31 + zlen (rpc_bytes m)) with rm by lia. split_and!; done || lia.
  - intros (m & rest' & E & Hwf & Hm). apply Hinj in E as [E1 E2]; [|done].
    apply app_inj_1 in E2 as [-> _]; [by exists m|]. apply Nat2Z.inj. unfold zlen in *. lia.
Qed.

(** A portmapper NULL call. *)
Lemma is_sunrpc_exact_witness :
  let m := rpc_call 7 100000 2 0 (mk_auth 0 [] []) (mk_auth 0 [] []) [] in
  is_sunrpc ∅ (mk_conn [] [] 1 2) (list_umem (rpc_record m)) (zlen (rpc_record m)) k_protocol_type_unknown
  = (1, k_protocol_type_sunrpc, {[mk_conn [] [] 1 2 := k_protocol_type_sunrpc]}).
Proof.
  apply (is_sunrpc_exact ∅ (mk_conn [] [] 1 2)
    (rpc_record (rpc_call 7 100000 2 0 (mk_auth 0 [] []) (mk_auth 0 [] []) []))).
  - unfold is_bytes. vm_compute. repeat constructor; done.
  - by vm_compute.
  - eexists _, []. rewrite app_nil_r. split; [done|]. split; [|vm_compute; done].
    cbn [rpc_wf]. unfold is_word, auth_wf. split_and!; try lia; try (left; lia); by vm_compute.
Defined.
