(* ===== verification/Aerospike.v ===== *)
(** * Aerospike ([bpf/generictracer/protocol_aerospike.h]).

    The classifier of a data frame and the capture, which keeps a response open until the whole
    first frame was seen.  [aerospike_state] holds the bytes still missing per connection. *)

From Stdlib Require Import ZArith Lia ZifyBool List Bool.
From stdpp Require Import base list gmap.
From S2P Require Import Prelude TraceUtil LargeBuf ConnInfo.

Local Open Scope Z_scope.

(** ** Definitions *)

Definition k_aerospike_proto_header_len : Z := 8.
Definition k_aerospike_proto_version : Z := 2.
Definition k_aerospike_msg_type_as_msg : Z := 3.
Definition k_aerospike_as_msg_header_len : Z := 22.
Definition k_aerospike_max_body_len : Z := 128 * 1024 * 1024.

#[export] Hint Unfold k_aerospike_proto_header_len k_aerospike_proto_version
  k_aerospike_msg_type_as_msg k_aerospike_as_msg_header_len k_aerospike_max_body_len : kconst.

Definition aerospike_body_len (hdr : buf) : Z :=
  Z.lor (Z.lor (Z.lor (Z.lor (Z.lor (Z.shiftl (hdr 2) 40) (Z.shiftl (hdr 3) 32)) (Z.shiftl (hdr 4) 24))
    (Z.shiftl (hdr 5) 16)) (Z.shiftl (hdr 6) 8)) (hdr 7).

Definition is_aerospike (cache : protocol_cache) (conn_info : connection_info) (data : umem)
    (data_len : Z) (ptype : protocol_type) : Z * protocol_type * protocol_cache :=
  if bool_decide (ptype = k_protocol_type_aerospike) then (1, ptype, cache)
  else if negb (bool_decide (ptype = k_protocol_type_unknown)) then (0, ptype, cache)
  else if data_len <? k_aerospike_proto_header_len + k_aerospike_as_msg_header_len then (0, ptype, cache)
  else
    match probe_read data (Z.to_nat (k_aerospike_proto_header_len + 1)) with
    | None => (0, ptype, cache)
    | Some h =>
        let hdr := list_buf h in
        if negb (hdr 0 =? k_aerospike_proto_version) || negb (hdr 1 =? k_aerospike_msg_type_as_msg)
           || negb (hdr 8 =? k_aerospike_as_msg_header_len)
        then (0, ptype, cache)
        else
          let body_len := aerospike_body_len hdr in
          if (body_len <? k_aerospike_as_msg_header_len) || (k_aerospike_max_body_len <? body_len)
          then (0, ptype, cache)
          else (1, k_protocol_type_aerospike, <[conn_info := k_protocol_type_aerospike]> cache)
    end.

Definition aerospike_state := gmap connection_info Z.

Implicit Types (req : tcp_req connection_info) (ring : ringbuf connection_info) (st : aerospike_state).

(** The bytes emitted, and the ring; [lb_mem] says whether the scratch buffer is available. *)
Definition aerospike_emit_chunks (aerospike_max_captured_bytes : Z) (lb_mem : bool) req
    (conn : connection_info) ring (u_buf : umem) (bytes_len packet_type direction : Z)
    (action : large_buf_action) (sent_bytes : Z) : Z * ringbuf connection_info :=
  if negb lb_mem then (0, ring)
  else
    let lb :=
      mk_lb packet_type action direction 0 conn k_large_buf_layer_app k_large_buffer_source_kprobes
        (req_tp req) [] in
    let max_available_bytes :=
      clamp_umax (u32 (aerospike_max_captured_bytes - sent_bytes)) k_large_buf_max_aerospike_captured_bytes in
    let available_bytes := Z.min bytes_len max_available_bytes in
    let '(c, _, ring) := large_buf_emit_chunks lb ring u_buf available_bytes in (c, ring).

(** -1 to wait for more response data, 0 to continue; the request, the map and the ring. *)
Definition aerospike_send_large_buffer (aerospike_max_captured_bytes : Z) (lb_mem : bool) req
    (conn : connection_info) st ring (u_buf : umem) (bytes_len packet_type direction : Z)
    (action : large_buf_action)
    : Z * tcp_req connection_info * aerospike_state * ringbuf connection_info :=
  if (aerospike_max_captured_bytes =? 0) || (bytes_len =? 0) then (0, req, st, ring)
  else if packet_type =? PACKET_TYPE_REQUEST then
    if aerospike_max_captured_bytes <=? req_lb_req_bytes req then (0, req, st, ring)
    else
      let '(consumed, ring) :=
        aerospike_emit_chunks aerospike_max_captured_bytes lb_mem req conn ring u_buf bytes_len packet_type
          direction action (req_lb_req_bytes req) in
      (0, req_add_bytes req PACKET_TYPE_REQUEST consumed, st, ring)
  else if negb (req_end_monotime_ns req =? 0) then (0, req, st, ring)
  else
    let first_chunk := req_lb_res_bytes req =? 0 in
    let remaining :=
      if first_chunk then
        if bytes_len <? k_aerospike_proto_header_len then None
        else
          match probe_read u_buf (Z.to_nat k_aerospike_proto_header_len) with
          | None => None
          | Some h =>
              let hdr := list_buf h in
              if negb (hdr 0 =? k_aerospike_proto_version) then None
              else Some (s64 (k_aerospike_proto_header_len + aerospike_body_len hdr))
          end
      else st !! conn in
    match remaining with
    | None => (0, req, st, ring)
    | Some remaining =>
        let '(consumed, ring) :=
          aerospike_emit_chunks aerospike_max_captured_bytes lb_mem req conn ring u_buf bytes_len packet_type
            direction action (req_lb_res_bytes req) in
        let req := req_add_bytes req PACKET_TYPE_RESPONSE consumed in
        let remaining := s64 (remaining - bytes_len) in
        if (0 <? remaining) && (req_lb_res_bytes req <? aerospike_max_captured_bytes)
        then (-1, req, <[conn := remaining]> st, ring)
        else (0, req, delete conn st, ring)
    end.

(** ** The reference: frames and their delivery *)

Definition as_frame (type : Z) (body : list Z) : list Z := 2 :: type :: be_bytes 6 (zlen body) ++ body.

(** A response chunk handed to the capture. *)
Definition aerospike_capture (max dir : Z) (conn : connection_info) (c : list Z)
    (s : tcp_req connection_info * aerospike_state * ringbuf connection_info)
    : Z * (tcp_req connection_info * aerospike_state * ringbuf connection_info) :=
  let '(req, st, ring) := s in
  let action := if req_lb_res_bytes req =? 0 then k_large_buf_action_init else k_large_buf_action_append in
  let '(r, req, st, ring) :=
    aerospike_send_large_buffer max true req conn st ring (list_umem c) (zlen c) PACKET_TYPE_RESPONSE dir action in
  (r, (req, st, ring)).

(** ** Lemmas *)

Lemma be_bytes_6 x :
  be_bytes 6 x = [x / 1099511627776 mod 256; x / 4294967296 mod 256; x / 16777216 mod 256; x / 65536 mod 256;
                  x / 256 mod 256; x mod 256].
Proof.
  unfold be_bytes, le_bytes. cbn -[Z.shiftr Z.modulo]. rewrite Z.shiftr_0_r. by rewrite !Z.shiftr_div_pow2 by lia.
Qed.

Lemma body_len_spec a b c d e f g h l :
  0 <= c < 256 -> 0 <= d < 256 -> 0 <= e < 256 -> 0 <= f < 256 -> 0 <= g < 256 -> 0 <= h < 256 ->
  aerospike_body_len (list_buf (a :: b :: c :: d :: e :: f :: g :: h :: l))
  = c * 1099511627776 + d * 4294967296 + e * 16777216 + f * 65536 + g * 256 + h.
Proof.
  intros. unfold aerospike_body_len. lbuf. rewrite <- !Z.lor_assoc.
  rewrite (lor_bytes2 g) by lia. rewrite (lor_add_disjoint f _ 16), (Z.shiftl_mul_pow2 f) by lia.
  rewrite (lor_add_disjoint e _ 24), (Z.shiftl_mul_pow2 e) by lia. rewrite (lor_add_disjoint d _ 32), (Z.shiftl_mul_pow2 d) by lia.
  rewrite (lor_add_disjoint c _ 40), (Z.shiftl_mul_pow2 c) by lia. lia.
Qed.

Lemma body_len_frame n a b l : 0 <= n < 2 ^ 48 ->
  aerospike_body_len (list_buf (a :: b :: be_bytes 6 n ++ l)) = n.
Proof.
  intros Hn. rewrite be_bytes_6. cbn [app]. rewrite body_len_spec by (apply Z.mod_pos_bound; lia). zdm.
Qed.

(** The capture of a response of [total] bytes that has seen [seen] of them, before the chunk [c]. *)
Definition under_way (total seen : Z) (conn : connection_info) (c : list Z) req st : Prop :=
  req_lb_res_bytes req = seen /\ req_end_monotime_ns req = 0
  /\ (seen = 0 /\ 8 <= total < 2 ^ 48 /\ (exists t l, c = 2 :: t :: be_bytes 6 (total - 8) ++ l)
      \/ 0 < seen < total /\ total < 2 ^ 48 /\ st !! conn = Some (total - seen)).

(** What one call does once the bytes still missing are known. *)
Lemma emit_response max req conn ring c pt dir action :
  0 < max <= k_large_buf_max_aerospike_captured_bytes -> 0 <= req_lb_res_bytes req < max -> ring_script ring = [] ->
  let '(n, ring') := aerospike_emit_chunks max true req conn ring (list_umem c) (zlen c) pt dir action (req_lb_res_bytes req) in
  n = Z.min (zlen c) (max - req_lb_res_bytes req) /\ ring_script ring' = []
  /\ exists evs, ring_events ring' = ring_events ring ++ evs /\ concat (map lb_buf evs) = take (Z.to_nat n) c.
Proof.
  intros Hmax Hs Hr. unfold aerospike_emit_chunks. cbn [negb]. pose proof (zlen_nonneg c).
  rewrite (wrap_small 32) by (kunfold; lia). unfold clamp_umax. rewrite (proj2 (Z.leb_le _ _)) by (kunfold; lia).
  set (lb := mk_lb _ _ _ _ _ _ _ _ _). set (av := Z.min _ _).
  pose proof (emit_chunks_all lb ring c av Hr ltac:(lia) ltac:(kunfold; lia)) as He.
  destruct (large_buf_emit_chunks _ _ _ _) as [[n lb'] ring']. destruct He as (-> & ? & ?). done.
Qed.

(** One chunk: the wait goes on while the frame is incomplete and the budget not used up. *)
Lemma response_step max total seen conn c req st ring dir action :
  0 < max <= k_large_buf_max_aerospike_captured_bytes -> ring_script ring = [] ->
  under_way total seen conn c req st -> seen < max -> 0 < zlen c < 2 ^ 32 ->
  let '(r, req', st', ring') :=
    aerospike_send_large_buffer max true req conn st ring (list_umem c) (zlen c) PACKET_TYPE_RESPONSE dir action in
  ring_script ring' = [] /\ req_end_monotime_ns req' = 0 /\ req_lb_res_bytes req' = Z.min max (seen + zlen c)
  /\ (exists evs, ring_events ring' = ring_events ring ++ evs
        /\ concat (map lb_buf evs) = take (Z.to_nat (max - seen)) c)
  /\ if seen + zlen c <? Z.min total max
     then r = -1 /\ st' !! conn = Some (total - (seen + zlen c))
     else r = 0 /\ st' !! conn = None.
Proof.
  intros Hmax Hr (Hs & He & Hrem) Hlt Hc. unfold aerospike_send_large_buffer.
  rewrite (proj2 (Z.eqb_neq max 0)), (proj2 (Z.eqb_neq (zlen c) 0)) by lia. cbn [orb].
  change (PACKET_TYPE_RESPONSE =? PACKET_TYPE_REQUEST) with false. rewrite He. cbn [Z.eqb negb].
  match goal with |- context [match ?x with Some _ => _ | None => (0, req, st, ring) end] =>
    assert (x = Some (total - seen)) as -> end.
  { rewrite Hs. destruct Hrem as [(-> & Ht & t & l & ->)|(Ht & _ & Hst)].
    - cbn [Z.eqb]. change k_aerospike_proto_header_len with 8. 
      assert (8 <= zlen (2 :: t :: be_bytes 6 (total - 8) ++ l)) by (rewrite be_bytes_6; unfold zlen; simpl length; lia).
      rewrite (proj2 (Z.ltb_ge _ 8)) by lia. change (2 :: t :: be_bytes 6 (total - 8) ++ l) with ((2 :: t :: be_bytes 6 (total - 8)) ++ l).
      assert (Z.to_nat 8 = length (2 :: t :: be_bytes 6 (total - 8))) as -> by (by rewrite be_bytes_6).
      rewrite probe_read_list. change (list_buf (2 :: _) 0) with 2. cbn [Z.eqb negb Pos.eqb k_aerospike_proto_version].
      rewrite <- (app_nil_r (be_bytes 6 _)). rewrite body_len_frame by lia. rewrite swrap_small by lia. f_equal. lia.
    - by rewrite (proj2 (Z.eqb_neq seen 0)) by lia. }
  pose proof (emit_response max req conn ring c PACKET_TYPE_RESPONSE dir action Hmax ltac:(rewrite Hs; lia) Hr) as Hem.
  destruct (aerospike_emit_chunks _ _ _ _ _ _ _ _ _ _ _) as [n ring']. destruct Hem as (Hn & Hr' & evs & Hev & Hcat).
  rewrite Hs in Hn.
  assert (Hb : req_lb_res_bytes (req_add_bytes req PACKET_TYPE_RESPONSE n) = Z.min max (seen + zlen c)).
  { cbn. rewrite Hs, (wrap_small 32) by (kunfold; lia). lia. }
  rewrite Hb, swrap_small by lia.
  assert (Hevs : exists evs, ring_events ring' = ring_events ring ++ evs
    /\ concat (map lb_buf evs) = take (Z.to_nat (max - seen)) c).
  { exists evs. split; [done|]. rewrite Hcat, Hn. unfold zlen. destruct (Z.le_gt_cases (Z.of_nat (length c)) (max - seen)).
    - rewrite !take_ge by lia. done.
    - f_equal. lia. }
  destruct (Z.ltb_spec (seen + zlen c) (Z.min total max)) as [Hw|Hw].
  - rewrite (proj2 (Z.ltb_lt 0 _)), (proj2 (Z.ltb_lt _ max)) by lia. cbn [andb].
    split_and!; try done. etrans; [apply lookup_insert_eq|]. f_equal. lia.
  - assert ((0 <? total - seen - zlen c) && (Z.min max (seen + zlen c) <? max) = false) as -> by lia.
    split_and!; try done. apply lookup_delete_eq.
Qed.

(** The obligations of [feed_waits]. *)
Lemma aerospike_capture_step max total dir conn :
  0 < max <= k_large_buf_max_aerospike_captured_bytes ->
  forall seen c s,
  under_way total seen conn c (fst (fst s)) (snd (fst s)) /\ ring_script (snd s) = [] -> 0 < zlen c < 2 ^ 32 ->
  0 <= seen -> seen < Z.min total max ->
  let '(r, s') := aerospike_capture max dir conn c s in
  (exists evs, ring_events (snd s') = ring_events (snd s) ++ evs
     /\ concat (map lb_buf evs) = take (Z.to_nat (max - seen)) c)
  /\ if seen + zlen c <? Z.min total max
     then r = -1 /\ forall c', under_way total (seen + zlen c) conn c' (fst (fst s')) (snd (fst s')) /\ ring_script (snd s') = []
     else r = 0 /\ snd (fst s') !! conn = None /\ req_lb_res_bytes (fst (fst s')) = Z.min max (seen + zlen c).
Proof.
  intros Hmax seen c [[req st] ring] [Hu Hr] Hc Hs Hlt. cbn [fst snd] in *. unfold aerospike_capture.
  pose proof (response_step max total seen conn c req st ring dir
    (if req_lb_res_bytes req =? 0 then k_large_buf_action_init else k_large_buf_action_append)
    Hmax Hr Hu ltac:(lia) Hc) as Hstep.
  destruct (aerospike_send_large_buffer _ _ _ _ _ _ _ _ _ _ _) as [[[r req'] st'] ring']. cbn [fst snd].
  destruct Hstep as (Hr' & He & Hb & Hev & Hif). split; [done|].
  destruct (Z.ltb_spec (seen + zlen c) (Z.min total max)); destruct Hif as [-> Hst]; [|done].
  split; [done|]. intros c'. split; [|done]. destruct Hu as (_ & _ & Hrem).
  split_and!; [lia|done|]. right. split_and!; [lia|lia|destruct Hrem as [?|?]; lia|done].
Qed.

(** ** Properties *)

(** The wait for an Aerospike response.  A response whose first frame arrives in any number of
    non-empty chunks, the first holding at least the protocol header, keeps the capture waiting on
    every chunk up to the one that completes the frame or uses up the configured limit, and that
    chunk ends it: the state of the connection is dropped and the events carry, in order, exactly
    the bytes received up to the limit. *)
Theorem aerospike_response_waits max dir conn type body rest c cs req st ring :
  0 < max <= k_large_buf_max_aerospike_captured_bytes -> zlen body < 2 ^ 47 ->
  concat (c :: cs) = as_frame type body ++ rest -> k_aerospike_proto_header_len <= zlen c ->
  Forall (fun c => 0 < zlen c < 2 ^ 32) (c :: cs) ->
  req_lb_res_bytes req = 0 -> req_end_monotime_ns req = 0 -> ring_script ring = [] ->
  zlen (concat (removelast (c :: cs))) < Z.min (zlen (as_frame type body)) max <= zlen (concat (c :: cs)) ->
  let '(rs, (req', st', ring')) := feed (aerospike_capture max dir conn) (c :: cs) (req, st, ring) in
  rs = repeat (-1) (length cs) ++ [0]
  /\ (st' !! conn = None /\ req_lb_res_bytes req' = Z.min max (zlen (concat (c :: cs))))
  /\ exists evs, ring_events ring' = ring_events ring ++ evs
        /\ concat (map lb_buf evs) = take (Z.to_nat max) (concat (c :: cs)).
Proof.
  intros Hmax Hbody Hcat H8 Hcs Hb He Hr Hsum. set (total := zlen (as_frame type body)) in *.
  assert (Hz : total = 8 + zlen body)
    by (unfold total, as_frame; rewrite be_bytes_6; unfold zlen; simpl length; lia). pose proof (zlen_nonneg body).
  pose proof (feed_waits (aerospike_capture max dir conn) (fun s => ring_events (snd s)) total max
    (fun c => 0 < zlen c < 2 ^ 32)
    (fun seen c s => under_way total seen conn c (fst (fst s)) (snd (fst s)) /\ ring_script (snd s) = [])
    (fun seen s => snd (fst s) !! conn = None /\ req_lb_res_bytes (fst (fst s)) = Z.min max seen)) as Hw.
  specialize (Hw (aerospike_capture_step max total dir conn Hmax) 0 c cs (req, st, ring)).
  rewrite Z.sub_0_r, !Z.add_0_l in Hw. cbn [fst snd] in Hw.
  destruct (feed _ _ _) as [rs [[req' st'] ring']]. apply Hw; [|done|lia|done]. clear Hw. split; [|done].
  split_and!; [done|done|]. left. split_and!; [done|lia|lia|]. rewrite Hz. replace (8 + zlen body - 8) with (zlen body) by lia.
  unfold as_frame in Hcat. rewrite be_bytes_6 in *. cbn [concat app] in Hcat. change k_aerospike_proto_header_len with 8 in H8.
  unfold zlen in H8. destruct c as [|a0 [|a1 [|a2 [|a3 [|a4 [|a5 [|a6 [|a7 c]]]]]]]]; simpl length in H8; try lia.
  cbn [app] in Hcat. injection Hcat as -> -> -> -> -> -> -> -> _. exists type, c. done.
Qed.

(** The header, then the body. *)
Lemma aerospike_response_waits_witness :
  let req := mk_req (mk_conn [] [] 1 2) (mk_tp_info (repeat 0 16) (repeat 0 8) (repeat 0 8) 0 0) 0 0 false 0 0 [] in
  let '(rs, (req', _, _)) :=
    feed (aerospike_capture 100 1 (mk_conn [] [] 1 2)) [[2; 3; 0; 0; 0; 0; 0; 3]; [7; 8; 9]] (req, ∅, mk_ring [] []) in
  rs = [-1; 0] /\ req_lb_res_bytes req' = 11.
Proof.
  pose proof (aerospike_response_waits 100 1 (mk_conn [] [] 1 2) 3 [7; 8; 9] [] [2; 3; 0; 0; 0; 0; 0; 3] [[7; 8; 9]]
    (mk_req (mk_conn [] [] 1 2) (mk_tp_info (repeat 0 16) (repeat 0 8) (repeat 0 8) 0 0) 0 0 false 0 0 [])
    ∅ (mk_ring [] [])) as H1. cbv zeta.
  destruct (feed _ _ _) as [rs [[req' st'] ring']].
  destruct H1 as (-> & [_ ->] & _); try done; by repeat constructor.
Defined.
