(* ===== verification/Kafka.v ===== *)
(** * Kafka ([bpf/generictracer/protocol_kafka.h]).

    The classifier of Metadata requests and of the responses that answer them, and the capture of a
    response, which may arrive in several chunks.  [kafka_state] remembers a message size that
    arrived in a buffer of its own, per connection and direction; [kafka_ongoing_requests] holds
    the correlation id of the request under way and the bytes its response still misses. *)

From Stdlib Require Import ZArith Lia ZifyBool List Bool.
From stdpp Require Import base list gmap.
From S2P Require Import Prelude TraceUtil LargeBuf ConnInfo.

Local Open Scope Z_scope.

(** ** Definitions *)

Definition k_kafka_hdr_message_size : Z := 4.
Definition k_kafka_hdr_request_api_key : Z := 2.
Definition k_kafka_hdr_request_api_version : Z := 2.
Definition k_kafka_hdr_correlation_id : Z := 4.
Definition k_kafka_request_header_fields_without_message_size : Z :=
  k_kafka_hdr_request_api_key + k_kafka_hdr_request_api_version + k_kafka_hdr_correlation_id.
Definition k_kafka_min_response_message_size_value : Z := 4.
Definition k_kafka_api_key_metadata : Z := 3.
Definition k_kafka_min_metadata_api_version : Z := 10.
Definition k_kafka_max_metadata_api_version : Z := 13.
Definition k_kafka_message_size_max : Z := 8192.

#[export] Hint Unfold k_kafka_hdr_message_size k_kafka_hdr_request_api_key k_kafka_hdr_request_api_version
  k_kafka_hdr_correlation_id k_kafka_request_header_fields_without_message_size
  k_kafka_min_response_message_size_value k_kafka_api_key_metadata k_kafka_min_metadata_api_version
  k_kafka_max_metadata_api_version k_kafka_message_size_max : kconst.

Record kafka_request_hdr := mk_kreq_hdr {
  kq_message_size : Z;
  kq_request_api_key : Z;
  kq_request_api_version : Z;
  kq_correlation_id : Z
}.

Record kafka_response_hdr := mk_kres_hdr { kr_message_size : Z; kr_correlation_id : Z }.

Record kafka_correlation_data := mk_kcorr { kc_correlation_id : Z; kc_response_bytes_remaining : Z }.

(** The key is the connection and the direction; the value is the message size. *)
Definition kafka_state := gmap (connection_info * Z) Z.

Definition kafka_ongoing_requests := gmap connection_info kafka_correlation_data.

Implicit Types (st : kafka_state) (og : kafka_ongoing_requests) (cache : protocol_cache).

(** The big-endian words read into zeroed variables. *)
Definition read_be32 (p : umem) : Z := s32 (bswap32 (le_word (probe_read0 p 4))).
Definition read_be16 (p : umem) : Z := s16 (bswap16 (le_word (probe_read0 p 2))).

Definition kafka_read_message_size (data : umem) (data_len : Z) : Z :=
  if data_len <? k_kafka_hdr_message_size then -1
  else
    let message_size := read_be32 data in
    if (message_size <? k_kafka_min_response_message_size_value) || (k_kafka_message_size_max <? message_size)
    then 0
    else message_size.

(** The return value and the map. *)
Definition kafka_store_state_data st (conn_info : connection_info) (data : umem) (data_len direction : Z)
    : Z * kafka_state :=
  if negb (data_len =? k_kafka_hdr_message_size) then (0, st)
  else
    let message_size := kafka_read_message_size data data_len in
    if message_size =? -1 then (0, st)
    else (-1, <[(conn_info, direction) := message_size]> st).

(** The header, [None] for -1. *)
Definition kafka_check_request_header_fields_without_message_size (message_size : Z) (data : umem)
    (data_len : Z) : option kafka_request_hdr :=
  if data_len <? k_kafka_request_header_fields_without_message_size then None
  else
    let request_api_key := read_be16 data in
    if negb (request_api_key =? k_kafka_api_key_metadata) then None
    else
      let offset := k_kafka_hdr_request_api_key in
      let request_api_version := read_be16 (ushift data offset) in
      if (request_api_version <? k_kafka_min_metadata_api_version)
         || (k_kafka_max_metadata_api_version <? request_api_version)
      then None
      else
        let offset := u8 (offset + k_kafka_hdr_request_api_version) in
        let correlation_id := read_be32 (ushift data offset) in
        if correlation_id <? 0 then None
        else Some (mk_kreq_hdr message_size request_api_key request_api_version correlation_id).

Definition kafka_parse_fixup_request_header st (conn_info : connection_info) (data : umem)
    (data_len direction : Z) : option kafka_request_hdr :=
  let message_size := kafka_read_message_size data data_len in
  if message_size =? -1 then None
  else if u64 message_size =? u64 (data_len - k_kafka_hdr_message_size) then
    kafka_check_request_header_fields_without_message_size message_size (ushift data k_kafka_hdr_message_size)
      (u64 (data_len - k_kafka_hdr_message_size))
  else
    match st !! (conn_info, direction) with
    | Some state_message_size =>
        if u64 state_message_size =? data_len then
          kafka_check_request_header_fields_without_message_size state_message_size data data_len
        else None
    | None => None
    end.

Definition kafka_check_response_header_correlation_id (message_size : Z) (data : umem)
    : option kafka_response_hdr :=
  let correlation_id := read_be32 data in
  if correlation_id <? 0 then None else Some (mk_kres_hdr message_size correlation_id).

Definition kafka_parse_fixup_response_header st (conn_info : connection_info) (data : umem)
    (data_len direction : Z) : option kafka_response_hdr :=
  let message_size := kafka_read_message_size data data_len in
  if message_size =? -1 then None
  else if u64 message_size =? u64 (data_len - k_kafka_hdr_message_size) then
    kafka_check_response_header_correlation_id message_size (ushift data k_kafka_hdr_message_size)
  else
    match st !! (conn_info, direction) with
    | Some state_message_size =>
        if u64 state_message_size =? data_len then
          kafka_check_response_header_correlation_id state_message_size data
        else None
    | None => None
    end.

(** [state_data && state_data->message_size > 0 && (u32)state_data->message_size == bytes_len] *)
Definition message_size_from_state (state_data : option Z) (bytes_len : Z) : bool :=
  match state_data with
  | Some message_size => (0 <? message_size) && (u32 message_size =? bytes_len)
  | None => false
  end.

Definition kafka_read_response_correlation_id (state_data : option Z) (u_buf : umem) (bytes_len : Z) : Z :=
  if message_size_from_state state_data bytes_len then
    if bytes_len <? k_kafka_hdr_correlation_id then -1
    else
      match probe_read u_buf (Z.to_nat k_kafka_hdr_correlation_id) with
      | None => -1
      | Some _ => read_be32 u_buf
      end
  else if bytes_len <? k_kafka_hdr_message_size + k_kafka_hdr_correlation_id then -1
  else
    match probe_read (ushift u_buf k_kafka_hdr_message_size) (Z.to_nat k_kafka_hdr_correlation_id) with
    | None => -1
    | Some _ => read_be32 (ushift u_buf k_kafka_hdr_message_size)
    end.

Definition is_kafka st og cache (conn_info : connection_info) (data : umem) (data_len : Z)
    (ptype : protocol_type) (direction : Z)
    : Z * protocol_type * kafka_state * kafka_ongoing_requests * protocol_cache :=
  if negb (bool_decide (ptype = k_protocol_type_kafka))
     && negb (bool_decide (ptype = k_protocol_type_unknown))
  then (0, ptype, st, og, cache)
  else
    let '(r, st) := kafka_store_state_data st conn_info data data_len direction in
    if r <? 0 then (0, ptype, st, og, cache)
    else
      let found og := (1, k_protocol_type_kafka, st, og, <[conn_info := k_protocol_type_kafka]> cache) in
      match kafka_parse_fixup_request_header st conn_info data data_len direction with
      | Some req_hdr => found (<[conn_info := mk_kcorr (kq_correlation_id req_hdr) 0]> og)
      | None =>
          match kafka_parse_fixup_response_header st conn_info data data_len direction with
          | None => (0, ptype, st, og, cache)
          | Some res_hdr =>
              match og !! conn_info with
              | None => (0, ptype, st, og, cache)
              | Some correlation_data =>
                  if negb (kr_correlation_id res_hdr =? kc_correlation_id correlation_data)
                  then (0, ptype, st, og, cache)
                  else found og
              end
          end
      end.

Implicit Types (req : tcp_req connection_info) (ring : ringbuf connection_info).

(** The wire bytes of the response that starts in this chunk: [response_total_bytes]. *)
Definition kafka_response_total_bytes (state_data : option Z) (u_buf : umem) (bytes_len : Z) : Z :=
  let message_size :=
    if message_size_from_state state_data bytes_len then default 0 state_data
    else if k_kafka_hdr_message_size <=? bytes_len then read_be32 u_buf
    else 0 in
  if 0 <? message_size then s32 (message_size + k_kafka_hdr_message_size) else 0.

(** The emission of the chunk, behind a remembered message size if there is one: the bytes
    consumed, the map and the ring, or [None] where the function returns 0 with the map as it
    then is. *)
Definition kafka_emit (max_available_bytes : Z) (lb : tcp_large_buffer connection_info) st ring
    (state_data : option Z) (state_key : connection_info * Z) (u_buf : umem) (bytes_len : Z)
    : option Z * kafka_state * ringbuf connection_info :=
  let finish st lb ring max_available_bytes consumed_bytes :=
    let max_available_bytes := clamp_umax max_available_bytes k_large_buf_max_kafka_captured_bytes in
    let available_bytes := Z.min bytes_len max_available_bytes in
    let '(c, _, ring) := large_buf_emit_chunks lb ring u_buf available_bytes in
    (Some (u32 (consumed_bytes + c)), st, ring) in
  if message_size_from_state state_data bytes_len then
    let st := delete state_key st in
    if max_available_bytes <? k_kafka_hdr_message_size then (None, st, ring)
    else
      let lb := lb_set_payload lb (be_bytes 4 (default 0 state_data)) in
      let '(_, ring) := events_ringbuf_output ring lb in
      finish st (lb_set_action lb k_large_buf_action_append) ring
        (u32 (max_available_bytes - k_kafka_hdr_message_size)) k_kafka_hdr_message_size
  else finish st lb ring max_available_bytes 0.

(** -1 to wait for more data, 0 to continue; the request, the maps and the ring. *)
Definition kafka_send_large_buffer (kafka_max_captured_bytes : Z) (lb_mem : bool) req
    (conn : connection_info) st og ring (u_buf : umem) (bytes_len direction : Z)
    (action : large_buf_action)
    : Z * tcp_req connection_info * kafka_state * kafka_ongoing_requests * ringbuf connection_info :=
  if (kafka_max_captured_bytes =? 0) || (kafka_max_captured_bytes <=? req_lb_res_bytes req)
     || (bytes_len =? 0)
  then (0, req, st, og, ring)
  else
    let '(r, st) := kafka_store_state_data st conn u_buf bytes_len direction in
    if r <? 0 then (-1, req, st, og, ring)
    else
      let correlation_data := og !! conn in
      let capture_in_progress := 0 <? req_lb_res_bytes req in
      let state_data := st !! (conn, direction) in
      let starts :=
        match correlation_data with
        | None => capture_in_progress
        | Some cd =>
            capture_in_progress
            || (kafka_read_response_correlation_id state_data u_buf bytes_len =? kc_correlation_id cd)
        end in
      if negb starts then (0, req, st, og, ring)
      else
        let response_total_bytes :=
          if capture_in_progress then 0 else kafka_response_total_bytes state_data u_buf bytes_len in
        if negb lb_mem then (0, req, st, og, ring)
        else
          let lb :=
            mk_lb PACKET_TYPE_RESPONSE action direction 0 conn k_large_buf_layer_app
              k_large_buffer_source_kprobes (req_tp req) [] in
          let max_available_bytes := u32 (kafka_max_captured_bytes - req_lb_res_bytes req) in
          match kafka_emit max_available_bytes lb st ring state_data (conn, direction) u_buf bytes_len with
          | (None, st, ring) => (0, req, st, og, ring)
          | (Some consumed_bytes, st, ring) =>
              let req := req_add_bytes req PACKET_TYPE_RESPONSE consumed_bytes in
              let remaining :=
                if negb capture_in_progress then s32 (response_total_bytes - s32 (req_lb_res_bytes req))
                else
                  s32 (match correlation_data with Some cd => kc_response_bytes_remaining cd | None => 0 end
                       - s32 consumed_bytes) in
              let remaining :=
                if kafka_max_captured_bytes <=? req_lb_res_bytes req then 0 else remaining in
              if 0 <? remaining then
                let og :=
                  match correlation_data with
                  | Some cd => <[conn := mk_kcorr (kc_correlation_id cd) remaining]> og
                  | None => og
                  end in
                (-1, req, st, og, ring)
              else (0, req, st, delete conn og, ring)
          end.

(** ** The reference: Metadata requests and responses *)

(** Everything behind the message size. *)
Definition metadata_request (version corr : Z) (rest : list Z) : list Z :=
  be_bytes 2 3 ++ be_bytes 2 version ++ be_bytes 4 corr ++ rest.

Definition kafka_response (corr : Z) (body : list Z) : list Z := be_bytes 4 corr ++ body.

(** A message: its size, then its payload. *)
Definition kafka_message (payload : list Z) : list Z := be_bytes 4 (zlen payload) ++ payload.

(** Classifying a message that arrives in one buffer, or with its size in a buffer of its own. *)
Definition kafka_deliver (split : bool) st og cache (conn : connection_info) (payload : list Z)
    (ptype : protocol_type) (dir : Z)
    : Z * protocol_type * kafka_state * kafka_ongoing_requests * protocol_cache :=
  if split then
    let '(_, ptype, st, og, cache) :=
      is_kafka st og cache conn (list_umem (be_bytes 4 (zlen payload))) 4 ptype dir in
    is_kafka st og cache conn (list_umem payload) (zlen payload) ptype dir
  else is_kafka st og cache conn (list_umem (kafka_message payload)) (zlen (kafka_message payload)) ptype dir.

(** ** Lemmas *)

Lemma be_bytes_length n x : length (be_bytes n x) = n.
Proof. unfold be_bytes, le_bytes. by rewrite length_rev, length_map, length_seq. Qed.

Lemma read_be32_at pre x r off : 0 <= x < 2 ^ 32 -> off = zlen pre ->
  read_be32 (ushift (list_umem (pre ++ be_bytes 4 x ++ r)) off) = s32 x.
Proof.
  intros Hx ->. unfold read_be32, probe_read0. pose proof (probe_read_at pre (be_bytes 4 x) r) as E.
  rewrite be_bytes_length in E. rewrite E. by rewrite be32_le_word.
Qed.

Lemma read_be32_0 x r : 0 <= x < 2 ^ 32 -> read_be32 (list_umem (be_bytes 4 x ++ r)) = s32 x.
Proof. intros Hx. exact (read_be32_at [] x r 0 Hx eq_refl). Qed.

Lemma read_be16_at pre x r off : 0 <= x < 2 ^ 15 -> off = zlen pre ->
  read_be16 (ushift (list_umem (pre ++ be_bytes 2 x ++ r)) off) = x.
Proof.
  intros Hx ->. unfold read_be16, probe_read0. pose proof (probe_read_at pre (be_bytes 2 x) r) as E.
  rewrite be_bytes_length in E. rewrite E. rewrite be16_le_word by lia. apply swrap_small; lia.
Qed.

Lemma read_be32_ext m m' : (forall a, m a = m' a) -> read_be32 m = read_be32 m'.
Proof. intros H. unfold read_be32. by rewrite (probe_read0_ext 4 m m') by (intros a _; apply H). Qed.

Lemma read_be16_ext m m' : (forall a, m a = m' a) -> read_be16 m = read_be16 m'.
Proof. intros H. unfold read_be16. by rewrite (probe_read0_ext 2 m m') by (intros a _; apply H). Qed.

Lemma ushift_ushift m a b i : ushift (ushift m a) b i = ushift m (a + b) i.
Proof. unfold ushift. f_equal. lia. Qed.

Lemma kafka_message_zlen p : zlen (kafka_message p) = 4 + zlen p.
Proof. unfold kafka_message. rewrite zlen_app. unfold zlen. rewrite be_bytes_length. lia. Qed.

Lemma read_size_message p : 4 <= zlen p <= 8192 ->
  kafka_read_message_size (list_umem (kafka_message p)) (zlen (kafka_message p)) = zlen p.
Proof.
  intros Hp. unfold kafka_read_message_size. rewrite kafka_message_zlen. unfold kafka_message.
  rewrite read_be32_0, swrap_small by lia. kunfold. bdes_goal; lia.
Qed.

(** The fields of a Metadata request, at any offset of the buffer. *)
Lemma check_request_at pre v corr rest size off :
  10 <= v <= 13 -> 0 <= corr < 2 ^ 31 -> off = zlen pre ->
  kafka_check_request_header_fields_without_message_size size
    (ushift (list_umem (pre ++ metadata_request v corr rest)) off) (zlen (metadata_request v corr rest))
  = Some (mk_kreq_hdr size 3 v corr).
Proof.
  intros Hv Hc ->. unfold kafka_check_request_header_fields_without_message_size, metadata_request.
  assert (Hz : zlen (be_bytes 2 3 ++ be_bytes 2 v ++ be_bytes 4 corr ++ rest) = 8 + zlen rest)
    by (rewrite !zlen_app; unfold zlen; rewrite !be_bytes_length; lia).
  rewrite Hz. pose proof (zlen_nonneg rest). kunfold. rewrite (proj2 (Z.ltb_ge _ _)) by lia.
  rewrite read_be16_at by (done || lia). cbn [Z.eqb Pos.eqb negb].
  erewrite (read_be16_ext (ushift (ushift _ _) _)) by (intros a; apply ushift_ushift).
  rewrite (app_assoc pre), read_be16_at by (rewrite ?zlen_app; unfold zlen; rewrite ?be_bytes_length; lia).
  rewrite (proj2 (Z.ltb_ge v 10)), (proj2 (Z.ltb_ge 13 v)) by lia. cbn [orb].
  change (u8 (2 + 2)) with 4. erewrite (read_be32_ext (ushift (ushift _ _) _)) by (intros a; apply ushift_ushift).
  rewrite (app_assoc (pre ++ _)), read_be32_at by (rewrite ?zlen_app; unfold zlen; rewrite ?be_bytes_length; lia).
  rewrite swrap_small by lia. by rewrite (proj2 (Z.ltb_ge corr 0)) by lia.
Qed.

Lemma not_classified ptype : ptype = k_protocol_type_kafka \/ ptype = k_protocol_type_unknown ->
  negb (bool_decide (ptype = k_protocol_type_kafka)) && negb (bool_decide (ptype = k_protocol_type_unknown)) = false.
Proof. by intros [-> | ->]. Qed.

Lemma store_other st conn data len dir : len <> 4 -> kafka_store_state_data st conn data len dir = (0, st).
Proof. intros H. unfold kafka_store_state_data. by rewrite (proj2 (Z.eqb_neq len k_kafka_hdr_message_size)). Qed.

Lemma metadata_request_zlen v corr rest : zlen (metadata_request v corr rest) = 8 + zlen rest.
Proof. unfold metadata_request. rewrite !zlen_app. unfold zlen. rewrite !be_bytes_length. lia. Qed.

(** A whole Metadata request. *)
Lemma parse_request_whole st conn v corr rest dir :
  10 <= v <= 13 -> 0 <= corr < 2 ^ 31 -> 8 + zlen rest <= 8192 ->
  kafka_parse_fixup_request_header st conn (list_umem (kafka_message (metadata_request v corr rest)))
    (zlen (kafka_message (metadata_request v corr rest))) dir
  = Some (mk_kreq_hdr (8 + zlen rest) 3 v corr).
Proof.
  intros Hv Hc Hr. pose proof (zlen_nonneg rest). pose proof (metadata_request_zlen v corr rest) as Hz.
  unfold kafka_parse_fixup_request_header. rewrite read_size_message by lia. rewrite kafka_message_zlen.
  kunfold. rewrite !(wrap_small 64) by lia. rewrite (proj2 (Z.eqb_neq _ (-1))), (proj2 (Z.eqb_eq _ _)) by lia.
  replace (4 + zlen (metadata_request v corr rest) - 4) with (zlen (metadata_request v corr rest)) by lia.
  unfold kafka_message. rewrite check_request_at; [by rewrite Hz|done|done|unfold zlen; by rewrite be_bytes_length].
Qed.

(** The payload of a Metadata request whose size was remembered. *)
Lemma parse_request_split st conn v corr rest dir :
  10 <= v <= 13 -> 0 <= corr < 2 ^ 31 -> 8 + zlen rest <= 8192 -> st !! (conn, dir) = Some (8 + zlen rest) ->
  kafka_parse_fixup_request_header st conn (list_umem (metadata_request v corr rest))
    (zlen (metadata_request v corr rest)) dir
  = Some (mk_kreq_hdr (8 + zlen rest) 3 v corr).
Proof.
  intros Hv Hc Hr Hst. pose proof (zlen_nonneg rest). pose proof (metadata_request_zlen v corr rest) as Hz.
  unfold kafka_parse_fixup_request_header.
  assert (kafka_read_message_size (list_umem (metadata_request v corr rest)) (zlen (metadata_request v corr rest)) = 0) as ->.
  { unfold kafka_read_message_size. rewrite Hz. kunfold. rewrite (proj2 (Z.ltb_ge _ 4)) by lia.
    assert (metadata_request v corr rest = be_bytes 4 (196608 + v) ++ be_bytes 4 corr ++ rest) as ->.
    { unfold metadata_request. rewrite app_assoc. f_equal. rewrite !be_bytes_2, be_bytes_4. cbn [app]. repeat (apply (f_equal2 cons); [zdm|]). done. }
    rewrite read_be32_0, swrap_small by lia. bdes_goal; lia. }
  kunfold. rewrite Hz, (wrap_small 64 0), (wrap_small 64 (8 + _ - _)) by lia.
  rewrite (proj2 (Z.eqb_neq 0 (8 + zlen rest - 4))) by lia. cbn [Z.eqb].
  rewrite Hst, (wrap_small 64), Z.eqb_refl by lia.
  etrans; [|exact (check_request_at [] v corr rest (8 + zlen rest) 0 Hv Hc eq_refl)]. by rewrite Hz.
Qed.

(** The message size in a buffer of its own is remembered. *)
Lemma deliver_size st og cache conn n ptype dir :
  ptype = k_protocol_type_kafka \/ ptype = k_protocol_type_unknown -> 4 <= n <= 8192 ->
  is_kafka st og cache conn (list_umem (be_bytes 4 n)) 4 ptype dir = (0, ptype, <[(conn, dir) := n]> st, og, cache).
Proof.
  intros Hp Hn. unfold is_kafka. rewrite not_classified by done. unfold kafka_store_state_data, kafka_read_message_size.
  rewrite <- (app_nil_r (be_bytes 4 n)), read_be32_0, swrap_small by lia. kunfold.
  cbn [Z.eqb Pos.eqb negb]. change (4 <? 4) with false. cbv iota.
  rewrite (proj2 (Z.ltb_ge n 4)), (proj2 (Z.ltb_ge 8192 n)) by lia. cbn [orb].
  by rewrite (proj2 (Z.eqb_neq n (-1))) by lia.
Qed.

(** A response that does not read as a Metadata request, in one buffer. *)
Lemma parse_response_whole st conn corr body dir :
  0 <= corr < 2 ^ 31 -> corr / 65536 <> 3 -> 4 + zlen body <= 8192 ->
  let m := kafka_message (kafka_response corr body) in
  kafka_parse_fixup_request_header st conn (list_umem m) (zlen m) dir = None
  /\ kafka_parse_fixup_response_header st conn (list_umem m) (zlen m) dir = Some (mk_kres_hdr (4 + zlen body) corr).
Proof.
  intros Hc H3 Hb m. pose proof (zlen_nonneg body).
  assert (Hz : zlen (kafka_response corr body) = 4 + zlen body)
    by (unfold kafka_response; rewrite zlen_app; unfold zlen; rewrite be_bytes_length; lia).
  unfold kafka_parse_fixup_request_header, kafka_parse_fixup_response_header, m.
  rewrite read_size_message, kafka_message_zlen, Hz by lia. kunfold. rewrite !(wrap_small 64) by lia.
  rewrite (proj2 (Z.eqb_neq _ (-1))), (proj2 (Z.eqb_eq (4 + zlen body) _)) by lia.
  assert (zlen (be_bytes 4 (zlen (kafka_response corr body))) = 4) as H4 by (unfold zlen; by rewrite be_bytes_length).
  unfold kafka_message. split.
  - unfold kafka_check_request_header_fields_without_message_size. kunfold. destruct (_ <? _); [done|].
    unfold kafka_response at 2.
    assert (be_bytes 4 corr = be_bytes 2 (corr / 65536) ++ be_bytes 2 (corr mod 65536)) as ->.
    { rewrite be_bytes_4, !be_bytes_2. cbn [app]. repeat (apply (f_equal2 cons); [zdm|]). done. }
    rewrite <- app_assoc, read_be16_at by (done || zdm). rewrite (proj2 (Z.eqb_neq (corr / 65536) 3)) by done. done.
  - assert (read_be32 (ushift (list_umem (be_bytes 4 (zlen (kafka_response corr body)) ++ kafka_response corr body)) 4)
      = corr) as E by (unfold kafka_response at 2; rewrite read_be32_at, swrap_small by (done || lia); done).
    unfold kafka_check_response_header_correlation_id. rewrite E. by rewrite (proj2 (Z.ltb_ge corr 0)) by lia.
Qed.

(** The capture of a response of [total] bytes that has seen [seen] of them, before the chunk [c]. *)
Definition kafka_under_way (total corr seen dir : Z) (conn : connection_info) (c : list Z) req st og : Prop :=
  req_lb_res_bytes req = seen /\ st !! (conn, dir) = None /\ 8 <= total < 2 ^ 31
  /\ exists rem, og !! conn = Some (mk_kcorr corr rem)
  /\ (seen = 0 /\ (exists l, c = be_bytes 4 (total - 4) ++ be_bytes 4 corr ++ l) \/ 0 < seen /\ rem = total - seen).

(** Nothing was remembered: the chunk is emitted as it is. *)
Lemma kafka_emit_plain max lb st ring key c sent :
  0 < max <= k_large_buf_max_kafka_captured_bytes -> 0 <= sent < max -> ring_script ring = [] ->
  exists ring', kafka_emit (u32 (max - sent)) lb st ring None key (list_umem c) (zlen c)
      = (Some (Z.min (zlen c) (max - sent)), st, ring')
    /\ ring_script ring' = []
    /\ exists evs, ring_events ring' = ring_events ring ++ evs /\ concat (map lb_buf evs) = take (Z.to_nat (max - sent)) c.
Proof.
  intros Hmax Hs Hr. unfold kafka_emit. cbn [message_size_from_state]. pose proof (zlen_nonneg c).
  rewrite (wrap_small 32) by (kunfold; lia). unfold clamp_umax. rewrite (proj2 (Z.leb_le (max - sent) _)) by (kunfold; lia).
  pose proof (emit_chunks_all lb ring c (Z.min (zlen c) (max - sent)) Hr ltac:(lia) ltac:(kunfold; lia)) as He.
  destruct (large_buf_emit_chunks _ _ _ _) as [[n lb'] ring']. destruct He as (-> & Hr' & evs & Hev & Hcat).
  exists ring'. rewrite Z.add_0_l, (wrap_small 32) by (kunfold; lia). split_and!; [done|done|]. exists evs. split; [done|].
  rewrite Hcat. unfold zlen. destruct (Z.le_gt_cases (Z.of_nat (length c)) (max - sent)).
  - by rewrite !take_ge by lia.
  - f_equal. lia.
Qed.

(** The correlation id and the size read from the first chunk. *)
Lemma kafka_first_chunk total corr l :
  8 <= total < 2 ^ 31 -> 0 <= corr < 2 ^ 31 ->
  let c := be_bytes 4 (total - 4) ++ be_bytes 4 corr ++ l in
  kafka_read_response_correlation_id None (list_umem c) (zlen c) = corr
  /\ kafka_response_total_bytes None (list_umem c) (zlen c) = total.
Proof.
  intros Ht Hc c.
  assert (Hz : zlen c = 8 + zlen l) by (unfold c; rewrite !zlen_app; unfold zlen; rewrite !be_bytes_length; lia).
  pose proof (zlen_nonneg l). unfold kafka_read_response_correlation_id, kafka_response_total_bytes.
  cbn [message_size_from_state]. rewrite Hz. kunfold.
  rewrite (proj2 (Z.ltb_ge _ (4 + 4))), (proj2 (Z.leb_le 4 _)) by lia. unfold c. split.
  - pose proof (probe_read_at (be_bytes 4 (total - 4)) (be_bytes 4 corr) l) as E.
    rewrite be_bytes_length in E. change (zlen (be_bytes 4 (total - 4))) with 4 in E. change (Z.to_nat 4) with 4%nat. rewrite E.
    rewrite read_be32_at by (done || lia). apply swrap_small; lia.
  - rewrite read_be32_0, (swrap_small 32 (total - 4)) by lia. rewrite (proj2 (Z.ltb_lt 0 _)) by lia.
    rewrite swrap_small by lia. lia.
Qed.

(** One chunk of a response: the wait goes on while it is incomplete and the limit not reached. *)
Lemma kafka_response_step max total corr seen dir conn c req st og ring action :
  0 < max <= k_large_buf_max_kafka_captured_bytes -> 0 <= corr < 2 ^ 31 -> ring_script ring = [] ->
  kafka_under_way total corr seen dir conn c req st og -> seen < Z.min total max -> 0 < zlen c < 2 ^ 31 -> zlen c <> 4 ->
  exists r req' og' ring',
    kafka_send_large_buffer max true req conn st og ring (list_umem c) (zlen c) dir action = (r, req', st, og', ring')
    /\ ring_script ring' = [] /\ req_lb_res_bytes req' = Z.min max (seen + zlen c)
    /\ (exists evs, ring_events ring' = ring_events ring ++ evs
          /\ concat (map lb_buf evs) = take (Z.to_nat (max - seen)) c)
    /\ if seen + zlen c <? Z.min total max
       then r = -1 /\ og' !! conn = Some (mk_kcorr corr (total - (seen + zlen c)))
       else r = 0 /\ og' !! conn = None.
Proof.
  intros Hmax Hcorr Hr (Hs & Hst & Ht & rem & Hog & Hrem) Hlt Hc H4. unfold kafka_send_large_buffer.
  assert (Hs0 : 0 <= seen) by (destruct Hrem as [[-> _]|[? _]]; lia). rewrite Hs.
  rewrite (proj2 (Z.eqb_neq max 0)), (proj2 (Z.leb_gt max seen)), (proj2 (Z.eqb_neq (zlen c) 0)) by lia. cbn [orb].
  rewrite store_other by done. change (0 <? 0) with false. cbv iota. rewrite Hog, Hst.
  assert (Hstart : (0 <? seen) || (kafka_read_response_correlation_id None (list_umem c) (zlen c) =? corr) = true).
  { destruct Hrem as [[-> [l ->]]|[? _]]; [|by rewrite (proj2 (Z.ltb_lt 0 seen))].
    destruct (kafka_first_chunk total corr l Ht Hcorr) as [-> _]. by rewrite Z.eqb_refl. }
  cbn [kc_correlation_id kc_response_bytes_remaining]. rewrite Hstart. cbn [negb].
  set (lb := mk_lb _ _ _ _ _ _ _ _ _).
  destruct (kafka_emit_plain max lb st ring (conn, dir) c seen Hmax ltac:(lia) Hr) as (ring' & -> & Hr' & Hev).
  set (n := Z.min (zlen c) (max - seen)).
  assert (Hb : req_lb_res_bytes (req_add_bytes req PACKET_TYPE_RESPONSE n) = Z.min max (seen + zlen c))
    by (cbn; rewrite Hs, (wrap_small 32) by (kunfold; lia); lia).
  rewrite Hb.
  match goal with |- context [if negb (0 <? seen) then ?a else ?b] =>
    assert ((if negb (0 <? seen) then a else b) = total - seen - n) as -> end.
  { rewrite !(swrap_small 32 n), !(swrap_small 32 (Z.min max _)) by (kunfold; lia). destruct (Z.ltb_spec 0 seen) as [Hp|Hp]; cbn [negb].
    - destruct Hrem as [[? _]|[_ ->]]; [lia|]. rewrite swrap_small by (kunfold; lia). done.
    - destruct Hrem as [[-> [l ->]]|[? _]]; [|lia]. destruct (kafka_first_chunk total corr l Ht Hcorr) as [_ ->].
      rewrite swrap_small by (kunfold; lia). lia. }
  destruct (Z.ltb_spec (seen + zlen c) (Z.min total max)) as [Hw|Hw].
  - rewrite (proj2 (Z.leb_gt max _)), (proj2 (Z.ltb_lt 0 _)) by lia. do 4 eexists. split_and!; try done.
    etrans; [apply lookup_insert_eq|]. do 2 f_equal. lia.
  - assert ((0 <? (if max <=? Z.min max (seen + zlen c) then 0 else total - seen - n)) = false) as -> by (bdes_goal; lia).
    do 4 eexists. split_and!; try done. apply lookup_delete_eq.
Qed.

(** A response chunk handed to the capture. *)
Definition kafka_capture (max dir : Z) (conn : connection_info) (c : list Z)
    (s : tcp_req connection_info * kafka_state * kafka_ongoing_requests * ringbuf connection_info)
    : Z * (tcp_req connection_info * kafka_state * kafka_ongoing_requests * ringbuf connection_info) :=
  let '(req, st, og, ring) := s in
  let action := if req_lb_res_bytes req =? 0 then k_large_buf_action_init else k_large_buf_action_append in
  let '(r, req, st, og, ring) :=
    kafka_send_large_buffer max true req conn st og ring (list_umem c) (zlen c) dir action in
  (r, (req, st, og, ring)).

(** The obligations of [feed_waits]. *)
Lemma kafka_capture_step max total corr dir conn :
  0 < max <= k_large_buf_max_kafka_captured_bytes -> 0 <= corr < 2 ^ 31 ->
  forall seen c s,
  kafka_under_way total corr seen dir conn c (fst (fst (fst s))) (snd (fst (fst s))) (snd (fst s)) /\ ring_script (snd s) = [] ->
  0 < zlen c < 2 ^ 31 /\ zlen c <> 4 -> 0 <= seen -> seen < Z.min total max ->
  let '(r, s') := kafka_capture max dir conn c s in
  (exists evs, ring_events (snd s') = ring_events (snd s) ++ evs
     /\ concat (map lb_buf evs) = take (Z.to_nat (max - seen)) c)
  /\ if seen + zlen c <? Z.min total max
     then r = -1 /\ forall c', kafka_under_way total corr (seen + zlen c) dir conn c' (fst (fst (fst s')))
                           (snd (fst (fst s'))) (snd (fst s')) /\ ring_script (snd s') = []
     else r = 0 /\ snd (fst s') !! conn = None /\ req_lb_res_bytes (fst (fst (fst s'))) = Z.min max (seen + zlen c).
Proof.
  intros Hmax Hcorr seen c [[[req st] og] ring] [Hu Hr] [Hc H4] Hs Hlt. cbn [fst snd] in *. unfold kafka_capture.
  destruct (kafka_response_step max total corr seen dir conn c req st og ring
    (if req_lb_res_bytes req =? 0 then k_large_buf_action_init else k_large_buf_action_append)
    Hmax Hcorr Hr Hu Hlt Hc H4) as (r & req' & og' & ring' & -> & Hr' & Hb & Hev & Hif).
  cbn [fst snd]. split; [done|]. destruct (Z.ltb_spec (seen + zlen c) (Z.min total max)); destruct Hif as [-> Hog]; [|done].
  split; [done|]. intros c'. split; [|done]. destruct Hu as (_ & Hst & Ht & _). split_and!; [lia|done|lia|lia|].
  exists (total - (seen + zlen c)). split; [done|]. right. lia.
Qed.

(** ** Properties *)

(** Requests and responses are matched by correlation id.  A Metadata request of version 10 to 13
    is recognised whether its message size arrives with it or in a buffer of its own, with the same
    effect on the pending requests and the cache; a response that follows on the connection (and
    does not itself read as a Metadata request) is then recognised if and only if it carries the
    request's correlation id, and a recognised response leaves the pending request in place. *)
Theorem kafka_correlates split st og cache conn ptype v corr rest dir corr' body dir' :
  ptype = k_protocol_type_kafka \/ ptype = k_protocol_type_unknown ->
  10 <= v <= 13 -> 0 <= corr < 2 ^ 31 -> 8 + zlen rest <= 8192 ->
  0 <= corr' < 2 ^ 31 -> corr' / 65536 <> 3 -> 4 + zlen body <= 8192 ->
  let '(r, ptype1, st1, og1, cache1) := kafka_deliver split st og cache conn (metadata_request v corr rest) ptype dir in
  r = 1 /\ ptype1 = k_protocol_type_kafka /\ og1 = <[conn := mk_kcorr corr 0]> og
  /\ cache1 = <[conn := k_protocol_type_kafka]> cache
  /\ kafka_deliver false st1 og1 cache1 conn (kafka_response corr' body) ptype1 dir'
     = (b2z (corr' =? corr), k_protocol_type_kafka, st1, og1, cache1).
Proof.
  intros Hp Hv Hc Hr Hc' H3 Hb. pose proof (zlen_nonneg rest). pose proof (zlen_nonneg body).
  assert (Hreq : exists st1, kafka_deliver split st og cache conn (metadata_request v corr rest) ptype dir
    = (1, k_protocol_type_kafka, st1, <[conn := mk_kcorr corr 0]> og, <[conn := k_protocol_type_kafka]> cache)).
  { pose proof (metadata_request_zlen v corr rest) as Hz. unfold kafka_deliver. destruct split.
    - rewrite deliver_size by (done || lia). eexists. unfold is_kafka. rewrite not_classified by done.
      rewrite store_other by lia. change (0 <? 0) with false. cbv iota.
      rewrite parse_request_split by (done || (etrans; [apply lookup_insert_eq|by rewrite Hz])). done.
    - eexists. unfold is_kafka. rewrite not_classified by done. rewrite store_other by (rewrite kafka_message_zlen; lia).
      change (0 <? 0) with false. cbv iota. rewrite parse_request_whole by done. done. }
  destruct Hreq as [st1 ->]. split_and!; try done. unfold kafka_deliver, is_kafka. rewrite not_classified by (by left).
  assert (zlen (kafka_response corr' body) = 4 + zlen body) as Hz
    by (unfold kafka_response; rewrite zlen_app; unfold zlen; rewrite be_bytes_length; lia).
  rewrite store_other by (rewrite kafka_message_zlen; lia). change (0 <? 0) with false. cbv iota.
  destruct (parse_response_whole st1 conn corr' body dir' Hc' H3 Hb) as [-> ->].
  rewrite (lookup_insert_eq og). cbn [kr_correlation_id kc_correlation_id].
  destruct (Z.eqb_spec corr' corr); cbn [negb]; [|done].
  f_equal. apply insert_insert_eq.
Qed.

Lemma kafka_correlates_witness :
  let conn := mk_conn [] [] 1 2 in
  let '(_, ptype1, st1, og1, cache1) := kafka_deliver true ∅ ∅ ∅ conn (metadata_request 12 77 [0; 1]) k_protocol_type_unknown 1 in
  kafka_deliver false st1 og1 cache1 conn (kafka_response 77 [5]) ptype1 0
  = (1, k_protocol_type_kafka, st1, og1, cache1).
Proof.
  pose proof (kafka_correlates true ∅ ∅ ∅ (mk_conn [] [] 1 2) k_protocol_type_unknown 12 77 [0; 1] 1 77 [5] 0) as H.
  cbv zeta. destruct (kafka_deliver true _ _ _ _ _ _ _) as [[[[r p1] st1] og1] cache1].
  by apply H; [right|lia|lia|by vm_compute|lia|by vm_compute|by vm_compute].
Defined.

(** The wait for a Kafka response.  A response to the pending request that arrives in any number of
    chunks, the first holding at least its size and correlation id and none of exactly four bytes,
    keeps the capture waiting on every chunk up to the one that completes it or uses up the
    configured limit; that chunk ends the wait and drops the pending request, and the events
    carry, in order, exactly the bytes received up to the limit. *)
Theorem kafka_response_waits max dir conn corr body rest rem c cs req st og ring :
  0 < max <= k_large_buf_max_kafka_captured_bytes -> 0 <= corr < 2 ^ 31 -> zlen body < 2 ^ 30 ->
  concat (c :: cs) = kafka_message (kafka_response corr body) ++ rest -> 8 <= zlen c ->
  Forall (fun c => 0 < zlen c < 2 ^ 31 /\ zlen c <> k_kafka_hdr_message_size) (c :: cs) ->
  req_lb_res_bytes req = 0 -> st !! (conn, dir) = None -> og !! conn = Some (mk_kcorr corr rem) ->
  ring_script ring = [] ->
  zlen (concat (removelast (c :: cs))) < Z.min (8 + zlen body) max <= zlen (concat (c :: cs)) ->
  let '(rs, (req', _, og', ring')) := feed (kafka_capture max dir conn) (c :: cs) (req, st, og, ring) in
  rs = repeat (-1) (length cs) ++ [0]
  /\ (og' !! conn = None /\ req_lb_res_bytes req' = Z.min max (zlen (concat (c :: cs))))
  /\ exists evs, ring_events ring' = ring_events ring ++ evs
        /\ concat (map lb_buf evs) = take (Z.to_nat max) (concat (c :: cs)).
Proof.
  intros Hmax Hcorr Hbody Hcat H8 Hcs Hb Hst Hog Hr Hsum. pose proof (zlen_nonneg body).
  pose proof (feed_waits (kafka_capture max dir conn) (fun s => ring_events (snd s)) (8 + zlen body) max
    (fun c => 0 < zlen c < 2 ^ 31 /\ zlen c <> 4)
    (fun seen c s => kafka_under_way (8 + zlen body) corr seen dir conn c (fst (fst (fst s))) (snd (fst (fst s)))
                       (snd (fst s)) /\ ring_script (snd s) = [])
    (fun seen s => snd (fst s) !! conn = None /\ req_lb_res_bytes (fst (fst (fst s))) = Z.min max seen)
    (kafka_capture_step max (8 + zlen body) corr dir conn Hmax Hcorr) 0 c cs (req, st, og, ring)) as Hw.
  rewrite Z.sub_0_r, !Z.add_0_l in Hw. cbn [fst snd] in Hw.
  destruct (feed _ _ _) as [rs [[[req' st'] og'] ring']]. apply Hw; [|exact Hcs|lia|done]. clear Hw. split; [|done].
  split_and!; [done|done|lia|lia|]. exists rem. split; [done|]. left. split; [done|]. exists (drop 8 c).
  assert (Hz : zlen (kafka_response corr body) = 4 + zlen body)
    by (unfold kafka_response; rewrite zlen_app; unfold zlen; rewrite be_bytes_length; lia).
  unfold kafka_message in Hcat. rewrite Hz in Hcat. unfold kafka_response in Hcat. rewrite <- !app_assoc in Hcat.
  replace (8 + zlen body - 4) with (4 + zlen body) by lia. rewrite app_assoc in Hcat |- *.
  set (h := be_bytes 4 (4 + zlen body) ++ be_bytes 4 corr) in *.
  assert (length h = 8%nat) as Hh by (unfold h; by rewrite length_app, !be_bytes_length).
  rewrite <- (take_drop 8 c) at 1. f_equal. cbn [concat] in Hcat.
  apply (f_equal (take 8)) in Hcat. rewrite !take_app_le in Hcat by (unfold zlen in H8; lia).
  by rewrite Hcat, take_ge by lia.
Qed.

Lemma kafka_response_waits_witness :
  let conn := mk_conn [] [] 1 2 in
  let req := mk_req conn (mk_tp_info (repeat 0 16) (repeat 0 8) (repeat 0 8) 0 0) 0 0 false 0 0 [] in
  let '(rs, (req', _, _, _)) :=
    feed (kafka_capture 100 0 conn) [[0; 0; 0; 7; 0; 0; 0; 5]; [1; 2]; [3]]
      (req, ∅, {[conn := mk_kcorr 5 0]}, mk_ring [] []) in
  rs = [-1; -1; 0] /\ req_lb_res_bytes req' = 11.
Proof.
  pose proof (kafka_response_waits 100 0 (mk_conn [] [] 1 2) 5 [1; 2; 3] [] 0 [0; 0; 0; 7; 0; 0; 0; 5] [[1; 2]; [3]]
    (mk_req (mk_conn [] [] 1 2) (mk_tp_info (repeat 0 16) (repeat 0 8) (repeat 0 8) 0 0) 0 0 false 0 0 [])
    ∅ {[mk_conn [] [] 1 2 := mk_kcorr 5 0]} (mk_ring [] [])) as H1. cbv zeta.
  destruct (feed _ _ _) as [rs [[[req' st'] og'] ring']].
  destruct H1 as (-> & [_ ->] & _); try done; by repeat constructor.
Defined.
