(* ===== verification/TcpSpan.v ===== *)
(** * The TCP handler of the generic tracer ([bpf/generictracer/protocol_tcp.h], [failed_connect.h],
      [infer_packet_type] and [is_listening] of [protocol_common.h]).

    A connection that speaks no HTTP has at most one request in [ongoing_tcp_req]: a buffer in one
    direction starts it, a buffer in the other direction ends it, when the capture of its protocol
    does not wait for more.  [existing] is a pointer into the map; the definitions pass the record
    and write it back.  [tt_events] is the list of records handed to the ring buffer, which may
    refuse one ([te_accepts]); [te_now] numbers the calls of [bpf_ktime_get_ns]. *)

From Stdlib Require Import ZArith Lia ZifyBool List Bool.
From stdpp Require Import base list countable gmap.
From S2P Require Import Prelude TraceUtil Sampling Entry ConnInfo LargeBuf Postgres Mysql Mssql Aerospike Kafka.
From S2P Require Import HttpInfo TcpReq TraceMaps TraceParent TraceLife HttpSpan.

Local Open Scope Z_scope.

(** ** Definitions *)

Definition k_event_type_failed_connect : Z := 15.

#[export] Hint Unfold k_event_type_failed_connect : kconst.

(** Configuration, oracles and scratch memory of one run. *)
Record tcp_env := mk_tcp_env {
  mysql_max_captured_bytes : Z;
  postgres_max_captured_bytes : Z;
  kafka_max_captured_bytes : Z;
  mssql_max_captured_bytes : Z;
  aerospike_max_captured_bytes : Z;
  tcp_max_captured_bytes : Z;
  listening_ports : gset (Z * Z);
  te_netns : Z;
  (** [tcp_large_buffers_mem] is available *)
  te_lb_mem : bool;
  (** the ring buffer accepts the record of this run *)
  te_accepts : bool;
  te_sampler : option sampler;
  (** [tp_info_mem] before the run *)
  te_scratch : tp_info_pid;
  te_now : nat -> Z;
  te_span : list Z;
  te_trace : list Z
}.

(** The state of the captures: the ring and the maps of the protocols. *)
Record captures := mk_captures {
  ca_ring : ringbuf connection_info;
  ca_mysql : mysql_state;
  ca_kafka : kafka_state;
  ca_kafka_requests : kafka_ongoing_requests;
  ca_aerospike : aerospike_state
}.

Record tcp_state := mk_tcp_state { tt_span : hstate; tt_captures : captures; tt_events : list tcp_req_t }.

Definition tcp_of (st : tcp_state) (pc : pid_connection_info) : option tcp_req_t := ongoing_tcp_req (tt_span st) !! pc.

Definition set_tcp_reqs (sp : hstate) (x : gmap pid_connection_info tcp_req_t) : hstate :=
  mk_hs (hs_maps sp) (active_ssl_connections sp) x (connection_tracker sp) (hs_events sp).

Definition set_tcp_span (st : tcp_state) (sp : hstate) : tcp_state := mk_tcp_state sp (tt_captures st) (tt_events st).

Definition put_tcp (st : tcp_state) (pc : pid_connection_info) (q : tcp_req_t) : tcp_state :=
  set_tcp_span st (set_tcp_reqs (tt_span st) (<[pc := q]> (ongoing_tcp_req (tt_span st)))).

Definition del_tcp (st : tcp_state) (pc : pid_connection_info) : tcp_state :=
  set_tcp_span st (set_tcp_reqs (tt_span st) (delete pc (ongoing_tcp_req (tt_span st)))).

Definition is_listening (e : tcp_env) (port netns : Z) : bool := bool_decide ((port, netns) ∈ listening_ports e).

Definition infer_packet_type (direction : Z) (is_server : bool) : Z :=
  if ((direction =? TCP_RECV) && is_server) || ((direction =? TCP_SEND) && negb is_server)
  then PACKET_TYPE_REQUEST else PACKET_TYPE_RESPONSE.

(** ** Capture *)

Definition unknown_send_large_buffer (max : Z) (lb_mem : bool) (req : tcp_req connection_info) (conn : connection_info)
    (ring : ringbuf connection_info) (u_buf : umem) (bytes_len packet_type direction : Z) (action : large_buf_action)
    : tcp_req connection_info * ringbuf connection_info :=
  if negb lb_mem then (req, ring)
  else
    let lb :=
      mk_lb packet_type action direction 0 conn k_large_buf_layer_wire k_large_buffer_source_kprobes (req_tp req) [] in
    let max_available_bytes :=
      clamp_umax (u32 (max - req_bytes_sent req packet_type)) k_large_buf_max_tcp_captured_bytes in
    let available_bytes := Z.min (u32 bytes_len) max_available_bytes in
    let '(consumed_bytes, _, ring) := large_buf_emit_chunks lb ring u_buf available_bytes in
    (req_add_bytes req packet_type consumed_bytes, ring).

(** Negative when the capture of the protocol waits for more of the response. *)
Definition tcp_send_large_buffer (e : tcp_env) (ca : captures) (q : tcp_req_t) (conn : connection_info) (u_buf : umem)
    (bytes_len direction : Z) (ptype : protocol_type) (action : large_buf_action) : Z * tcp_req_t * captures :=
  let packet_type := infer_packet_type direction (tq_is_server q) in
  let r := tq_cap q in
  let with_ring ring := mk_captures ring (ca_mysql ca) (ca_kafka ca) (ca_kafka_requests ca) (ca_aerospike ca) in
  match ptype with
  | k_protocol_type_mysql =>
      let '(res, r, my, ring) :=
        mysql_send_large_buffer (mysql_max_captured_bytes e) (te_lb_mem e) r conn (ca_mysql ca) (ca_ring ca) u_buf
          bytes_len packet_type direction action in
      (res, set_cap q r, mk_captures ring my (ca_kafka ca) (ca_kafka_requests ca) (ca_aerospike ca))
  | k_protocol_type_postgres =>
      let '(res, r, ring) :=
        postgres_send_large_buffer (postgres_max_captured_bytes e) (te_lb_mem e) r (ca_ring ca) u_buf
          bytes_len packet_type direction action in
      (res, set_cap q r, with_ring ring)
  | k_protocol_type_kafka =>
      let '(res, r, ka, og, ring) :=
        kafka_send_large_buffer (kafka_max_captured_bytes e) (te_lb_mem e) r conn (ca_kafka ca) (ca_kafka_requests ca)
          (ca_ring ca) u_buf bytes_len direction action in
      (res, set_cap q r, mk_captures ring (ca_mysql ca) ka og (ca_aerospike ca))
  | k_protocol_type_mssql =>
      let '(r, ring) :=
        mssql_send_large_buffer (mssql_max_captured_bytes e) (te_lb_mem e) r (ca_ring ca) u_buf
          bytes_len packet_type direction action in
      if packet_type =? PACKET_TYPE_RESPONSE then
        let '(res, r) := mssql_response_eom r u_buf bytes_len in (res, set_cap q r, with_ring ring)
      else (0, set_cap q r, with_ring ring)
  | k_protocol_type_http | k_protocol_type_mqtt => (0, q, ca)
  | k_protocol_type_aerospike =>
      let '(res, r, ae, ring) :=
        aerospike_send_large_buffer (aerospike_max_captured_bytes e) (te_lb_mem e) r conn (ca_aerospike ca) (ca_ring ca)
          u_buf bytes_len packet_type direction action in
      (res, set_cap q r, mk_captures ring (ca_mysql ca) (ca_kafka ca) (ca_kafka_requests ca) ae)
  | k_protocol_type_sunrpc | k_protocol_type_nats | k_protocol_type_amqp | k_protocol_type_unknown =>
      let '(r, ring) :=
        unknown_send_large_buffer (tcp_max_captured_bytes e) (te_lb_mem e) r conn (ca_ring ca) u_buf
          bytes_len packet_type direction action in
      (0, set_cap q r, with_ring ring)
  end.

(** ** The context *)

Section tcp_handler.
Variables (c : tconf) (l : links) (t : task) (e : tcp_env).

Definition init_new_trace (now : Z) : tp_info :=
  sample_new_trace_for_pid (mk_tp_info (te_trace e) (te_span e) (repeat 0 8) now 0) (te_sampler e).

Definition set_tcp_trace_info (m : tmaps) (type : Z) (conn : connection_info) (lw_thread : Z) (tp : tp_info)
    (pid ssl orig_dport : Z) : tmaps :=
  let x := te_scratch e in
  let tp_p := mk_tp_info_pid tp pid 1 (tpp_written x) k_event_type_tcp_request (tpp_response_sent x) in
  let m := set_trace_info_for_connection m conn type tp_p in
  fst (server_or_client_trace c l m t type conn lw_thread tp_p ssl orig_dport 0 BPF_ANY).

Definition set_span (tp : tp_info) (span : list Z) : tp_info :=
  mk_tp_info (trace_id tp) span (parent_id tp) (ts tp) (flags tp).

Definition tcp_get_client_trace_info (m : tmaps) (q : tcp_req_t) (pc : pid_connection_info) (lw_thread orig_dport : Z)
    : tcp_req_t * tmaps :=
  let '(found, tp, m) := find_trace_for_client_request c l m t pc orig_dport lw_thread (tq_tp q) in
  (set_tcp_context q (if nz found then set_span tp (te_span e) else init_new_trace (te_now e 1)) found, m).

Definition tcp_get_or_set_trace_info (m : tmaps) (q : tcp_req_t) (pc : pid_connection_info) (lw_thread ssl orig_dport : Z)
    : tcp_req_t * tmaps :=
  if tq_direction q =? TCP_SEND then
    let '(q, m) := tcp_get_client_trace_info m q pc lw_thread orig_dport in
    (q, set_tcp_trace_info m TRACE_TYPE_CLIENT (pc_conn pc) lw_thread (tq_tp q) (pc_pid pc) ssl orig_dport)
  else
    let '(found, tp, m) := find_trace_for_server_request c m (pc_conn pc) (tq_tp q) k_event_type_tcp_request in
    let tp :=
      if found then sample_remote_child_for_pid (set_span tp (te_span e)) (te_sampler e)
      else init_new_trace (te_now e 1) in
    let q := set_tcp_context q tp (tq_parent_status q) in
    (q, set_tcp_trace_info m TRACE_TYPE_SERVER (pc_conn pc) lw_thread tp (pc_pid pc) ssl orig_dport).

(** ** The events *)

Definition output (st : tcp_state) (q : tcp_req_t) : tcp_state :=
  if te_accepts e then mk_tcp_state (tt_span st) (tt_captures st) (tt_events st ++ [q]) else st.

Definition finish_ongoing_tcp_req (st : tcp_state) (pc : pid_connection_info) : tcp_state :=
  match tcp_of st pc with
  | None => st
  | Some q =>
      let pending := (tq_end q =? 0) && bool_decide (tq_protocol_type q = k_protocol_type_unknown) in
      let q := if pending then set_tcp_end q (te_now e 0) 0 (tq_rbuf q) else q in
      let st := if pending then output (put_tcp st pc q) q else st in
      del_tcp (set_tcp_span st (cleanup_trace_info c l t (tt_span st) q pc)) pc
  end.

Definition empty_cap (conn : connection_info) (ts : Z) : tcp_req connection_info :=
  mk_req conn (mk_tp_info (repeat 0 16) (repeat 0 8) (repeat 0 8) ts 0) 0 0 false 0 0 (repeat 0 (Z.to_nat k_tcp_res_len)).

Definition init_failed_connect_tcp_req (pc : pid_connection_info) (orig_dport connect_ts end_ts : Z) : tcp_req_t :=
  set_tcp_end
    (mk_tcp_req k_event_type_failed_connect 0 TCP_SEND k_protocol_type_unknown false 0 0 connect_ts (extra_runtime_id l t) 0 0 0
       (repeat 0 (Z.to_nat k_tcp_max_len)) (cur_pid t)
       (empty_cap (fixup_connection_info (pc_conn pc) true orig_dport) connect_ts))
    end_ts 0 (repeat 0 (Z.to_nat k_tcp_res_len)).

Definition failed_to_connect_event (st : tcp_state) (pc : pid_connection_info) (lw_thread orig_dport connect_ts : Z)
    : tcp_state :=
  if te_accepts e then
    let q := init_failed_connect_tcp_req pc orig_dport connect_ts (te_now e 0) in
    let '(q, m) := tcp_get_client_trace_info (hs_maps (tt_span st)) q pc lw_thread orig_dport in
    output (set_tcp_span st (set_maps (tt_span st) m)) q
  else st.

(** ** A buffer *)

Definition is_unix_sock_server (direction orig_dport : Z) : bool := (direction =? TCP_RECV) && (orig_dport =? 0).

Definition fd_known (pc : pid_connection_info) (orig_dport side : Z) : bool :=
  bool_decide (is_Some (fd_info_for_conn l (populate_ephemeral_info empty_part (pc_conn pc) orig_dport (pc_pid pc) side))).

Definition server_side (pc : pid_connection_info) (direction orig_dport : Z) : bool :=
  let conn := pc_conn pc in
  let local_port := if d_port conn =? orig_dport then s_port conn else d_port conn in
  is_listening e local_port (te_netns e) || is_unix_sock_server direction orig_dport.

(** Whether the first buffer of a connection can start a request: not the answer of a connection
    whose client, or whose server, is this process. *)
Definition starts_request (m : tmaps) (pc : pid_connection_info) (direction orig_dport : Z) : bool :=
  if direction =? TCP_RECV then
    let real_client := match cp_support_connect_info m !! pc with Some tk => nz (cp_real_client tk) | None => false end in
    negb real_client && negb (fd_known pc orig_dport FD_CLIENT)
    && (server_side pc direction orig_dport || fd_known pc orig_dport FD_SERVER)
  else negb (fd_known pc orig_dport FD_SERVER).

Definition new_tcp_req (pc : pid_connection_info) (u_buf : umem) (bytes_len direction ssl orig_dport lw_thread : Z)
    (ptype : protocol_type) : tcp_req_t :=
  let len := clamp_umax (u32 bytes_len) k_tcp_max_len in
  mk_tcp_req k_event_type_tcp_request ssl direction ptype (server_side pc direction orig_dport) 0 len (te_now e 0)
    (extra_runtime_id l t) (pk_tid (fst (java_vt_translate_tid l (cur_tid t)))) (u32 bytes_len) (event_source lw_thread)
    (overlay (probe_read0 u_buf (Z.to_nat len)) (repeat 0 (Z.to_nat k_tcp_max_len))) (cur_pid t)
    (empty_cap (fixup_connection_info (pc_conn pc) (nz direction) orig_dport) (te_now e 2)).

Definition start_tcp_req (st : tcp_state) (pc : pid_connection_info) (u_buf : umem)
    (bytes_len direction ssl orig_dport lw_thread : Z) (ptype : protocol_type) : tcp_state :=
  let q := new_tcp_req pc u_buf bytes_len direction ssl orig_dport lw_thread ptype in
  let '(q, m) := tcp_get_or_set_trace_info (hs_maps (tt_span st)) q pc lw_thread ssl orig_dport in
  let '(_, q, ca) :=
    tcp_send_large_buffer e (tt_captures st) q (pc_conn pc) u_buf bytes_len direction ptype k_large_buf_action_init in
  put_tcp (mk_tcp_state (set_maps (tt_span st) m) ca (tt_events st)) pc q.

(** A buffer against the direction of the request. *)
Definition respond_tcp_req (st : tcp_state) (pc : pid_connection_info) (q : tcp_req_t) (u_buf : umem)
    (bytes_len direction : Z) (ptype : protocol_type) : tcp_state :=
  let action := if 0 <? req_lb_res_bytes (tq_cap q) then k_large_buf_action_append else k_large_buf_action_init in
  let '(res, q, ca) := tcp_send_large_buffer e (tt_captures st) q (pc_conn pc) u_buf bytes_len direction ptype action in
  let st := put_tcp (mk_tcp_state (tt_span st) ca (tt_events st)) pc q in
  if res <? 0 then st
  else if tq_end q =? 0 then
    let n := clamp_umax (u32 bytes_len) k_tcp_res_len in
    let q := set_tcp_end q (te_now e 0) n (tq_rbuf q) in
    let trace := set_tcp_end q (tq_end q) (tq_resp_len q) (overlay (probe_read0 u_buf (Z.to_nat n)) (tq_rbuf q)) in
    let st := output (put_tcp st pc q) trace in
    set_tcp_span st (cleanup_trace_info c l t (tt_span st) q pc)
  else st.

(** One more buffer of the request. *)
Definition append_tcp_req (st : tcp_state) (pc : pid_connection_info) (q : tcp_req_t) (u_buf : umem)
    (bytes_len direction : Z) (ptype : protocol_type) : tcp_state :=
  let half := k_tcp_max_len / 2 in
  let b :=
    if (0 <? tq_len q) && (tq_len q <? half) then
      let off := Z.to_nat (clamp_umax (tq_len q) half) in
      take off (tq_buf q) ++ probe_read0 u_buf (Z.to_nat half) ++ drop (off + Z.to_nat half) (tq_buf q)
    else tq_buf q in
  let len := u32 (tq_len q + bytes_len) in
  let q := set_tcp_lens q len len b in
  let '(_, q, ca) :=
    tcp_send_large_buffer e (tt_captures st) q (pc_conn pc) u_buf bytes_len direction ptype k_large_buf_action_append in
  put_tcp (mk_tcp_state (tt_span st) ca (tt_events st)) pc q.

Definition handle_unknown_tcp_connection (st : tcp_state) (pc : pid_connection_info) (u_buf : umem)
    (bytes_len direction ssl orig_dport lw_thread : Z) (ptype : protocol_type) : tcp_state :=
  let '(existing, st) :=
    match tcp_of st pc with
    | Some q => if (tq_direction q =? direction) && negb (tq_end q =? 0) then (None, del_tcp st pc) else (Some q, st)
    | None => (None, st)
    end in
  match existing with
  | None =>
      if starts_request (hs_maps (tt_span st)) pc direction orig_dport
      then start_tcp_req st pc u_buf bytes_len direction ssl orig_dport lw_thread ptype
      else st
  | Some q =>
      if negb (tq_direction q =? direction) then respond_tcp_req st pc q u_buf bytes_len direction ptype
      else append_tcp_req st pc q u_buf bytes_len direction ptype
  end.

End tcp_handler.

(** ** What a capture leaves alone *)

(** The capture changes only its own counters and, for a response, its length and first octets. *)
Definition cap_kept (r r' : tcp_req connection_info) : Prop :=
  req_conn_info r' = req_conn_info r /\ req_tp r' = req_tp r /\ req_end_monotime_ns r' = req_end_monotime_ns r.

Lemma cap_kept_refl r : cap_kept r r.
Proof. done. Qed.

Lemma cap_kept_add r p n : cap_kept r (req_add_bytes r p n).
Proof. unfold req_add_bytes, cap_kept. by destruct (_ =? _). Qed.

#[local] Hint Resolve cap_kept_refl cap_kept_add : core.

Lemma mysql_kept m lb r conn my ring u n p d a :
  cap_kept r (snd (fst (fst (mysql_send_large_buffer m lb r conn my ring u n p d a)))).
Proof. unfold mysql_send_large_buffer. cbv zeta. repeat (case_match; simplify_eq/=; auto). Qed.

Lemma postgres_kept m lb r ring u n p d a :
  cap_kept r (snd (fst (postgres_send_large_buffer m lb r ring u n p d a))).
Proof. unfold postgres_send_large_buffer. cbv zeta. repeat (case_match; simplify_eq/=; auto). Qed.

Lemma kafka_kept m lb r conn ka og ring u n d a :
  cap_kept r (snd (fst (fst (fst (kafka_send_large_buffer m lb r conn ka og ring u n d a))))).
Proof.
  unfold kafka_send_large_buffer. cbv zeta. destruct (_ || (n =? 0)); [done|].
  destruct (kafka_store_state_data ka conn u n d) as [res ka1]. destruct (res <? 0); [done|].
  destruct (negb _); [done|]. destruct (negb lb); [done|].
  destruct (kafka_emit _ _ _ _ _ _ _ _) as [[[k|] ka2] ring2]; [|done].
  match goal with |- context [if 0 <? ?x then _ else _] => destruct (0 <? x) end; cbn [fst snd]; apply cap_kept_add.
Qed.

Lemma mssql_kept m lb r ring u n p d a : cap_kept r (fst (mssql_send_large_buffer m lb r ring u n p d a)).
Proof. unfold mssql_send_large_buffer. cbv zeta. repeat (case_match; simplify_eq/=; auto). Qed.

Lemma eom_kept (r : tcp_req connection_info) u n : cap_kept r (snd (mssql_response_eom r u n)).
Proof.
  unfold mssql_response_eom. cbv zeta. destruct (mssql_eom_loop _ _ _ _ _ _) as [eom found].
  destruct eom; [done|]. destruct found; [done|]. destruct (_ <? _); [done|].
  repeat match goal with |- context [if ?b then _ else _] => destruct b end; done.
Qed.

Lemma aerospike_kept m lb r conn ae ring u n p d a :
  cap_kept r (snd (fst (fst (aerospike_send_large_buffer m lb r conn ae ring u n p d a)))).
Proof.
  unfold aerospike_send_large_buffer. cbv zeta. destruct (_ || _); [done|]. destruct (p =? _).
  { destruct (_ <=? _); [done|]. destruct (aerospike_emit_chunks _ _ _ _ _ _ _ _ _ _ _). apply cap_kept_add. }
  destruct (negb _); [done|].
  match goal with |- context [match ?x with None => _ | Some _ => _ end] => destruct x as [rem|] end; [|done].
  destruct (aerospike_emit_chunks _ _ _ _ _ _ _ _ _ _ _) as [k ring1]. destruct (_ && _); apply cap_kept_add.
Qed.

Lemma unknown_kept m lb r conn ring u n p d a :
  cap_kept r (fst (unknown_send_large_buffer m lb r conn ring u n p d a)).
Proof. unfold unknown_send_large_buffer. cbv zeta. repeat (case_match; simplify_eq/=; auto). Qed.

Lemma tcp_send_keeps e ca q conn u n d ptype a :
  exists r, snd (fst (tcp_send_large_buffer e ca q conn u n d ptype a)) = set_cap q r /\ cap_kept (tq_cap q) r.
Proof.
  assert (Hq : q = set_cap q (tq_cap q)) by (by destruct q).
  unfold tcp_send_large_buffer. cbv zeta. destruct ptype;
    repeat match goal with
      |- context [mysql_send_large_buffer ?m ?lb ?r ?x ?my ?ring ?u ?n ?p ?d ?a] =>
        pose proof (mysql_kept m lb r x my ring u n p d a); destruct (mysql_send_large_buffer m lb r x my ring u n p d a) as [[[? ?] ?] ?]
    | |- context [postgres_send_large_buffer ?m ?lb ?r ?ring ?u ?n ?p ?d ?a] =>
        pose proof (postgres_kept m lb r ring u n p d a); destruct (postgres_send_large_buffer m lb r ring u n p d a) as [[? ?] ?]
    | |- context [kafka_send_large_buffer ?m ?lb ?r ?x ?ka ?og ?ring ?u ?n ?d ?a] =>
        pose proof (kafka_kept m lb r x ka og ring u n d a); destruct (kafka_send_large_buffer m lb r x ka og ring u n d a) as [[[[? ?] ?] ?] ?]
    | |- context [aerospike_send_large_buffer ?m ?lb ?r ?x ?ae ?ring ?u ?n ?p ?d ?a] =>
        pose proof (aerospike_kept m lb r x ae ring u n p d a); destruct (aerospike_send_large_buffer m lb r x ae ring u n p d a) as [[[? ?] ?] ?]
    | |- context [unknown_send_large_buffer ?m ?lb ?r ?x ?ring ?u ?n ?p ?d ?a] =>
        pose proof (unknown_kept m lb r x ring u n p d a); destruct (unknown_send_large_buffer m lb r x ring u n p d a) as [? ?]
    | |- context [mssql_send_large_buffer ?m ?lb ?r ?ring ?u ?n ?p ?d ?a] =>
        pose proof (mssql_kept m lb r ring u n p d a); destruct (mssql_send_large_buffer m lb r ring u n p d a) as [r0 ?]
    end; cbn [fst snd] in *; try (by eexists); try (by exists (tq_cap q)).
  destruct (_ =? _); cbn [fst snd]; [|by eexists].
  pose proof (eom_kept r0 u n) as He. destruct (mssql_response_eom r0 u n) as [res r1]. cbn [fst snd] in *.
  exists r1. split; [done|]. destruct H as (?&?&?), He as (?&?&?). split_and!; congruence.
Qed.

(** ** The machine of a connection *)

(** No request, a request that waits for its answer, a request that was answered. *)
Inductive tcp_phase := tcp_idle | tcp_waiting (direction : Z) | tcp_answered (direction : Z).

Inductive tcp_input := tcp_buffer (direction : Z) | tcp_close.

(** One step, and the number of events it sends. *)
Inductive tcp_edge : tcp_phase -> tcp_input -> tcp_phase -> nat -> Prop :=
  | edge_ignored d : tcp_edge tcp_idle (tcp_buffer d) tcp_idle 0
  | edge_starts d : tcp_edge tcp_idle (tcp_buffer d) (tcp_waiting d) 0
  | edge_more d : tcp_edge (tcp_waiting d) (tcp_buffer d) (tcp_waiting d) 0
  | edge_partial d d' : d' <> d -> tcp_edge (tcp_waiting d) (tcp_buffer d') (tcp_waiting d) 0
  | edge_answer d d' n : d' <> d -> (n <= 1)%nat -> tcp_edge (tcp_waiting d) (tcp_buffer d') (tcp_answered d) n
  | edge_late d d' : d' <> d -> tcp_edge (tcp_answered d) (tcp_buffer d') (tcp_answered d) 0
  | edge_next d ph : tcp_edge tcp_idle (tcp_buffer d) ph 0 -> tcp_edge (tcp_answered d) (tcp_buffer d) ph 0
  | edge_close_pending d n : (n <= 1)%nat -> tcp_edge (tcp_waiting d) tcp_close tcp_idle n
  | edge_close_answered d : tcp_edge (tcp_answered d) tcp_close tcp_idle 0
  | edge_close_idle : tcp_edge tcp_idle tcp_close tcp_idle 0.

Inductive tcp_path : tcp_phase -> list tcp_input -> tcp_phase -> nat -> Prop :=
  | path_nil ph : tcp_path ph [] ph 0
  | path_cons ph i ph' n ins ph'' n' :
      tcp_edge ph i ph' n -> tcp_path ph' ins ph'' n' -> tcp_path ph (i :: ins) ph'' (n + n').

#[local] Hint Constructors tcp_edge tcp_path : core.

Definition phase_of (o : option tcp_req_t) : tcp_phase :=
  match o with
  | None => tcp_idle
  | Some q => if tq_end q =? 0 then tcp_waiting (tq_direction q) else tcp_answered (tq_direction q)
  end.

Definition tcp_phase_of (st : tcp_state) (pc : pid_connection_info) : tcp_phase := phase_of (tcp_of st pc).

Lemma put_tcp_of st pc q : tcp_of (put_tcp st pc q) pc = Some q.
Proof. apply lookup_insert_eq. Qed.

Lemma del_tcp_of st pc : tcp_of (del_tcp st pc) pc = None.
Proof. apply lookup_delete_eq. Qed.

Section machine.
Variables (c : tconf) (l : links) (t : task) (e : tcp_env).

Lemma cleanup_tcp_reqs sp q pc : ongoing_tcp_req (cleanup_trace_info c l t sp q pc) = ongoing_tcp_req sp.
Proof. unfold cleanup_trace_info. by destruct (_ =? _). Qed.

Lemma output_of st q pc : tcp_of (output e st q) pc = tcp_of st pc.
Proof. unfold output. by destruct (te_accepts e). Qed.

Lemma output_events st q : tt_events (output e st q) = tt_events st ++ (if te_accepts e then [q] else []).
Proof. unfold output. destruct (te_accepts e); [done|]. by rewrite app_nil_r. Qed.

Lemma cleanup_of st q pc : tcp_of (set_tcp_span st (cleanup_trace_info c l t (tt_span st) q pc)) pc = tcp_of st pc.
Proof. unfold tcp_of. cbn. by rewrite cleanup_tcp_reqs. Qed.

(** Fields of the record the context does not change. *)
Lemma context_keeps m q pc lw ssl dport :
  let q' := fst (tcp_get_or_set_trace_info c l t e m q pc lw ssl dport) in
  tq_end q' = tq_end q /\ tq_direction q' = tq_direction q /\ tq_buf q' = tq_buf q /\ tq_req_len q' = tq_req_len q
  /\ tq_len q' = tq_len q /\ tq_rbuf q' = tq_rbuf q /\ tq_start_monotime_ns q' = tq_start_monotime_ns q
  /\ tq_is_server q' = tq_is_server q /\ tq_resp_len q' = tq_resp_len q /\ tq_protocol_type q' = tq_protocol_type q.
Proof.
  unfold tcp_get_or_set_trace_info, tcp_get_client_trace_info. destruct (_ =? _).
  - by destruct (find_trace_for_client_request _ _ _ _ _ _ _ _) as [[? ?] ?].
  - by destruct (find_trace_for_server_request _ _ _ _ _) as [[? ?] ?].
Qed.

Lemma start_spec st pc u n d ssl dport lw ptype :
  let st' := start_tcp_req c l t e st pc u n d ssl dport lw ptype in
  tt_events st' = tt_events st /\ exists q, tcp_of st' pc = Some q /\ tq_end q = 0 /\ tq_direction q = d.
Proof.
  unfold start_tcp_req. cbv zeta. set (q0 := new_tcp_req _ _ _ _ _ _ _ _ _ _ _).
  pose proof (context_keeps (hs_maps (tt_span st)) q0 pc lw ssl dport) as Hc. cbv zeta in Hc.
  destruct (tcp_get_or_set_trace_info c l t e (hs_maps (tt_span st)) q0 pc lw ssl dport) as [q1 m]. cbn [fst] in Hc.
  match goal with |- context [tcp_send_large_buffer e ?ca q1 ?x u n d ptype ?a] =>
    pose proof (tcp_send_keeps e ca q1 x u n d ptype a) as Hs; destruct (tcp_send_large_buffer e ca q1 x u n d ptype a) as [[res q2] ca2] end.
  cbn [fst snd] in Hs. destruct Hs as (r & -> & Hr & Hr' & Hr''). split; [done|]. eexists. split; [apply put_tcp_of|].
  destruct Hc as (He & Hd & _). split; [|exact Hd]. unfold tq_end in *. cbn. by rewrite Hr'', He.
Qed.

Lemma append_spec st pc q u n d ptype :
  let st' := append_tcp_req e st pc q u n d ptype in
  tt_events st' = tt_events st /\ exists q', tcp_of st' pc = Some q' /\ tq_end q' = tq_end q /\ tq_direction q' = tq_direction q.
Proof.
  unfold append_tcp_req. cbv zeta.
  match goal with |- context [tcp_send_large_buffer e ?ca ?q1 ?x u n d ptype ?a] =>
    pose proof (tcp_send_keeps e ca q1 x u n d ptype a) as Hs; destruct (tcp_send_large_buffer e ca q1 x u n d ptype a) as [[res q2] ca2] end.
  cbn [fst snd] in Hs. destruct Hs as (r & -> & Hr & Hr' & Hr''). split; [done|]. eexists. split; [apply put_tcp_of|].
  split; [|done]. unfold tq_end. cbn. by rewrite Hr''.
Qed.

Lemma respond_spec st pc q u n d ptype :
  te_now e 0 <> 0 ->
  let st' := respond_tcp_req c l t e st pc q u n d ptype in
  exists evs q', tt_events st' = tt_events st ++ evs /\ tcp_of st' pc = Some q' /\ tq_direction q' = tq_direction q
  /\ (tq_end q <> 0 -> evs = [] /\ tq_end q' <> 0)
  /\ (tq_end q = 0 -> (tq_end q' = 0 /\ evs = []) \/ (tq_end q' <> 0 /\ (length evs <= 1)%nat)).
Proof.
  intros Hnow. unfold respond_tcp_req. cbv zeta.
  match goal with |- context [tcp_send_large_buffer e ?ca ?q1 ?x u n d ptype ?a] =>
    pose proof (tcp_send_keeps e ca q1 x u n d ptype a) as Hs; destruct (tcp_send_large_buffer e ca q1 x u n d ptype a) as [[res q2] ca2] end.
  cbn [fst snd] in Hs. destruct Hs as (r & -> & Hr & Hr' & Hr'').
  assert (He : tq_end (set_cap q r) = tq_end q) by exact Hr''.
  destruct (res <? 0).
  { exists [], (set_cap q r). rewrite app_nil_r. split_and!; [done|apply put_tcp_of|done|by rewrite He|left; by rewrite He]. }
  destruct (Z.eqb_spec (tq_end (set_cap q r)) 0) as [H0|H0].
  - eexists _, _. split_and!.
    + cbn [tt_events set_tcp_span]. rewrite output_events. reflexivity.
    + rewrite cleanup_of, output_of. apply put_tcp_of.
    + done.
    + congruence.
    + intros _. right. split; [exact Hnow|]. destruct (te_accepts e); simpl; lia.
  - exists [], (set_cap q r). rewrite app_nil_r. split_and!; [done|apply put_tcp_of|done|by rewrite He|congruence].
Qed.

Lemma handle_edge st pc u n d ssl dport lw ptype :
  te_now e 0 <> 0 ->
  let st' := handle_unknown_tcp_connection c l t e st pc u n d ssl dport lw ptype in
  exists evs, tt_events st' = tt_events st ++ evs
  /\ tcp_edge (tcp_phase_of st pc) (tcp_buffer d) (tcp_phase_of st' pc) (length evs).
Proof.
  intros Hnow. unfold handle_unknown_tcp_connection, tcp_phase_of.
  assert (Hstart : forall st0, tcp_of st0 pc = None -> let st' := if starts_request l e (hs_maps (tt_span st0)) pc d dport
      then start_tcp_req c l t e st0 pc u n d ssl dport lw ptype else st0 in
    tt_events st' = tt_events st0 /\ tcp_edge tcp_idle (tcp_buffer d) (phase_of (tcp_of st' pc)) 0).
  { intros st0 H0 st'. unfold st'. destruct (starts_request _ _ _ _ _ _); [|rewrite H0; by split].
    destruct (start_spec st0 pc u n d ssl dport lw ptype) as (Hev & q & Hq & Hqe & Hqd). split; [exact Hev|].
    rewrite Hq. cbn [phase_of]. rewrite Hqe, Hqd. constructor. }
  destruct (tcp_of st pc) as [q|] eqn:Hq; cbn [phase_of].
  2: { destruct (Hstart st Hq) as [H1 H2]. exists []. rewrite app_nil_r. by split. }
  destruct (Z.eqb_spec (tq_direction q) d) as [Hd|Hd], (Z.eqb_spec (tq_end q) 0) as [He|He]; cbn [andb negb].
  - destruct (append_spec st pc q u n d ptype) as (Hev & q' & Hq' & Hqe & Hqd). exists []. rewrite app_nil_r.
    split; [by rewrite (proj2 (Z.eqb_eq _ _) Hd)|]. rewrite (proj2 (Z.eqb_eq _ _) Hd). cbn [negb]. rewrite Hq'. cbn [phase_of].
    rewrite Hqe, He, Hqd, Hd. constructor.
  - destruct (Hstart (del_tcp st pc) (del_tcp_of st pc)) as [H1 H2]. exists []. rewrite app_nil_r. split; [exact H1|].
    rewrite Hd. by constructor.
  - destruct (respond_spec st pc q u n d ptype Hnow) as (evs & q' & Hev & Hq' & Hqd & _ & Hw). exists evs.
    rewrite (proj2 (Z.eqb_neq _ _) Hd). cbn [negb]. split; [exact Hev|]. rewrite Hq'. cbn [phase_of]. rewrite Hqd.
    destruct (Hw He) as [[-> ->]|[Hn Hl]]; [constructor; congruence|]. rewrite (proj2 (Z.eqb_neq _ _) Hn). constructor; [congruence|done].
  - destruct (respond_spec st pc q u n d ptype Hnow) as (evs & q' & Hev & Hq' & Hqd & Hw & _). exists evs.
    rewrite (proj2 (Z.eqb_neq _ _) Hd). cbn [negb]. split; [exact Hev|]. rewrite Hq'. cbn [phase_of]. rewrite Hqd.
    destruct (Hw He) as [-> Hn]. rewrite (proj2 (Z.eqb_neq _ _) Hn). constructor. congruence.
Qed.

Lemma finish_edge st pc :
  let st' := finish_ongoing_tcp_req c l t e st pc in
  exists evs, tt_events st' = tt_events st ++ evs
  /\ tcp_edge (tcp_phase_of st pc) tcp_close (tcp_phase_of st' pc) (length evs).
Proof.
  unfold finish_ongoing_tcp_req, tcp_phase_of. destruct (tcp_of st pc) as [q|] eqn:Hq.
  2: { exists []. rewrite app_nil_r, Hq. by split. }
  cbv zeta. rewrite del_tcp_of. cbn [phase_of]. destruct (Z.eqb_spec (tq_end q) 0) as [He|He]; cbn [andb].
  - destruct (bool_decide _).
    + eexists. split; [exact (output_events _ _)|]. constructor. destruct (te_accepts e); simpl; lia.
    + exists []. rewrite app_nil_r. split; [done|]. constructor. simpl. lia.
  - exists []. rewrite app_nil_r. by split.
Qed.

End machine.

(** What the probes do to one connection, each on a thread and at a time of its own. *)
Inductive tcp_op :=
  | top_buffer (l : links) (t : task) (e : tcp_env) (u_buf : umem) (bytes_len direction ssl orig_dport lw_thread : Z)
      (ptype : protocol_type)
  | top_close (l : links) (t : task) (e : tcp_env).

Definition run_tcp_op (c : tconf) (pc : pid_connection_info) (st : tcp_state) (op : tcp_op) : tcp_state :=
  match op with
  | top_buffer l t e u n d ssl dport lw ptype => handle_unknown_tcp_connection c l t e st pc u n d ssl dport lw ptype
  | top_close l t e => finish_ongoing_tcp_req c l t e st pc
  end.

Definition op_env (op : tcp_op) : tcp_env :=
  match op with top_buffer _ _ e _ _ _ _ _ _ _ => e | top_close _ _ e => e end.

Definition op_input (op : tcp_op) : tcp_input :=
  match op with top_buffer _ _ _ _ _ d _ _ _ _ => tcp_buffer d | top_close _ _ _ => tcp_close end.

(** Each event a path sends uses up the input that started its request and the one that ended it. *)
Lemma path_events ph ins ph' n :
  tcp_path ph ins ph' n -> (2 * n <= length ins + match ph with tcp_waiting _ => 1 | _ => 0 end)%nat.
Proof.
  assert (Hidle : forall d ph, tcp_edge tcp_idle (tcp_buffer d) ph 0 -> ph = tcp_idle \/ ph = tcp_waiting d)
    by (inversion 1; auto).
  induction 1 as [ph|ph i ph1 n ins ph2 n' He _ IH]; [simpl; lia|]. cbn [length].
  destruct He as [d|d|d|d d' ?|d d' k ? ?|d d' ?|d ph1 He|d k ?|d|]; try lia.
  apply Hidle in He as [->| ->]; lia.
Qed.

(** C24: TCP spans follow the request/answer machine.  Whatever buffers and closes the probes see on a
    connection, on any thread and with any protocol and capture, its record in [ongoing_tcp_req]
    moves along [tcp_edge]: a request waits until a buffer of the other direction completes it, an
    event is sent only by the step that answers a waiting request or closes it, late answers send
    none and the next request starts afresh.  From a connection without a record, the events sent
    are at most half the inputs: no request is reported twice. *)
Theorem tcp_follows_machine c pc st ops :
  Forall (fun op => te_now (op_env op) 0%nat <> 0) ops ->
  let st' := fold_left (run_tcp_op c pc) ops st in
  exists evs, tt_events st' = tt_events st ++ evs
  /\ tcp_path (tcp_phase_of st pc) (map op_input ops) (tcp_phase_of st' pc) (length evs)
  /\ (tcp_of st pc = None -> (2 * length evs <= length ops)%nat).
Proof.
  intros Hops. assert (Hp : let st' := fold_left (run_tcp_op c pc) ops st in
    exists evs, tt_events st' = tt_events st ++ evs
    /\ tcp_path (tcp_phase_of st pc) (map op_input ops) (tcp_phase_of st' pc) (length evs)).
  { revert st. induction Hops as [|op ops Hop _ IH]; intros st; cbn [fold_left map].
    { exists []. rewrite app_nil_r. split; [done|constructor]. }
    destruct (IH (run_tcp_op c pc st op)) as (evs2 & Hev2 & Hpath).
    assert (Hstep : exists evs1, tt_events (run_tcp_op c pc st op) = tt_events st ++ evs1
      /\ tcp_edge (tcp_phase_of st pc) (op_input op) (tcp_phase_of (run_tcp_op c pc st op) pc) (length evs1))
      by (destruct op; [by apply handle_edge|apply finish_edge]).
    destruct Hstep as (evs1 & Hev1 & Hedge). exists (evs1 ++ evs2). rewrite Hev2, Hev1, app_assoc. split; [done|].
    rewrite length_app. econstructor; eauto. }
  destruct Hp as (evs & Hev & Hpath). exists evs. split_and!; [exact Hev|exact Hpath|]. intros Hn.
  apply path_events in Hpath. unfold tcp_phase_of in Hpath. rewrite Hn, length_map in Hpath. simpl in Hpath. lia.
Qed.

(** ** One exchange *)

Lemma cleanup_trace_map c l t sp q pc :
  trace_map (hs_maps (cleanup_trace_info c l t sp q pc))
    !! trace_key_from_conn (pc_conn pc) (if tq_direction q =? TCP_RECV then TRACE_TYPE_SERVER else TRACE_TYPE_CLIENT) = None.
Proof.
  assert (Hd : forall m k tp, trace_map (obi_ctx__set c m k tp) = trace_map m)
    by (intros; unfold obi_ctx__set; by destruct (negb _)).
  unfold cleanup_trace_info. destruct (_ =? _); cbn [hs_maps set_maps].
  - unfold delete_server_trace. cbv zeta. destruct (negb _); [unfold obi_ctx__del; destruct (negb _)|]; apply lookup_delete_eq.
  - unfold delete_client_trace_info. cbv zeta. apply lookup_delete_eq.
Qed.

Definition plain_send (e : tcp_env) (q q' : tcp_req_t) : Prop :=
  exists r, q' = set_cap q r /\ cap_kept (tq_cap q) r /\ req_rbuf r = tq_rbuf q /\ req_resp_len r = tq_resp_len q.

Lemma unknown_send e ca q conn u n d a :
  let '(res, q', _) := tcp_send_large_buffer e ca q conn u n d k_protocol_type_unknown a in res = 0 /\ plain_send e q q'.
Proof.
  unfold tcp_send_large_buffer. cbv zeta.
  match goal with |- context [unknown_send_large_buffer ?m ?lb ?r ?x ?ring ?u ?n ?p ?d ?a] =>
    pose proof (unknown_kept m lb r x ring u n p d a) as Hk;
    assert (Hr : req_rbuf (fst (unknown_send_large_buffer m lb r x ring u n p d a)) = req_rbuf r
      /\ req_resp_len (fst (unknown_send_large_buffer m lb r x ring u n p d a)) = req_resp_len r)
  end.
  { unfold unknown_send_large_buffer. destruct (negb _); [done|]. cbv zeta.
    destruct (large_buf_emit_chunks _ _ _ _) as [[k lb] ring]. unfold req_add_bytes. cbn [fst]. by destruct (_ =? PACKET_TYPE_REQUEST). }
  destruct (unknown_send_large_buffer _ _ _ _ _ _ _ _ _ _) as [r ring]. cbn [fst] in *. split; [done|].
  exists r. destruct Hr. by split_and!.
Qed.

Lemma take_repeat {A} (x : A) n k : take k (repeat x n) = repeat x (k `min` n).
Proof. revert k. induction n as [|n IH]; intros [|k]; [done..|]. cbn. by rewrite IH. Qed.

Lemma drop_repeat {A} (x : A) n k : drop k (repeat x n) = repeat x (n - k).
Proof. revert k. induction n as [|n IH]; intros [|k]; [done..|]. cbn. by rewrite IH. Qed.

(** The first [k] octets of a buffer of [k] zeroes after [l] was read into it. *)
Lemma read_prefix l k :
  0 <= k -> zlen l < 2 ^ 32 ->
  overlay (probe_read0 (list_umem l) (Z.to_nat (clamp_umax (u32 (zlen l)) k))) (repeat 0 (Z.to_nat k))
  = take (Z.to_nat k) (l ++ repeat 0 (Z.to_nat k)).
Proof.
  intros Hk Hl. pose proof (zlen_nonneg l). rewrite (wrap_small 32), clamp_min by lia.
  set (n := Z.to_nat (Z.min (zlen l) k)).
  assert (probe_read0 (list_umem l) n = take n l) as ->.
  { rewrite <- (take_drop n l) at 1. apply probe_read0_list. rewrite length_take. unfold n, zlen in *. lia. }
  unfold overlay. rewrite take_app, length_take, drop_repeat, take_repeat. f_equal.
  - destruct (decide (zlen l <= k)); [|by replace n with (Z.to_nat k) by lia].
    rewrite !take_ge by (unfold n, zlen in *; lia). done.
  - f_equal. unfold n, zlen in *. lia.
Qed.

Lemma start_unknown c l t e st pc u n d ssl dport lw :
  let st' := start_tcp_req c l t e st pc u n d ssl dport lw k_protocol_type_unknown in
  let q0 := new_tcp_req l t e pc u n d ssl dport lw k_protocol_type_unknown in
  exists q, tcp_of st' pc = Some q /\ tq_end q = 0 /\ tq_direction q = d /\ tq_buf q = tq_buf q0 /\ tq_req_len q = u32 n
  /\ tq_len q = tq_len q0 /\ tq_rbuf q = tq_rbuf q0 /\ tq_start_monotime_ns q = te_now e 0 /\ tq_is_server q = tq_is_server q0.
Proof.
  cbv zeta. unfold start_tcp_req. cbv zeta. set (q0 := new_tcp_req _ _ _ _ _ _ _ _ _ _ _).
  pose proof (context_keeps c l t e (hs_maps (tt_span st)) q0 pc lw ssl dport) as Hc. cbv zeta in Hc.
  destruct (tcp_get_or_set_trace_info c l t e (hs_maps (tt_span st)) q0 pc lw ssl dport) as [q1 m]. cbn [fst] in Hc.
  match goal with |- context [tcp_send_large_buffer e ?ca q1 ?x u n d _ ?a] =>
    pose proof (unknown_send e ca q1 x u n d a) as Hs; destruct (tcp_send_large_buffer e ca q1 x u n d k_protocol_type_unknown a) as [[res q2] ca2] end.
  destruct Hs as (_ & r & -> & (Hr & Hr' & Hr'') & Hb & Hl). exists (set_cap q1 r). split; [apply put_tcp_of|].
  destruct Hc as (H1 & H2 & H3 & H4 & H5 & H6 & H7 & H8 & H9 & H10). unfold tq_end, tq_rbuf in *. cbn.
  split_and!; first [congruence | by etrans; [eassumption|]| by rewrite Hr'', H1 | by rewrite Hb, H6].
Qed.

(** An exchange of an unknown protocol is reported as it happened.  A buffer that can start a
    request, followed by a buffer of the other direction, sends one event: the first 256 octets of
    the request and the first 128 of the response, zero-padded, the length of the request, the
    clamped length of the response, the times of both and the role of the process; and the context
    stored for the connection is gone. *)
Theorem tcp_exchange_reported c l t e st pc l1 d ssl dport lw l' t' e' l2 d' ssl' dport' lw' :
  tcp_of st pc = None -> starts_request l e (hs_maps (tt_span st)) pc d dport = true -> d' <> d ->
  zlen l1 < 2 ^ 32 -> zlen l2 < 2 ^ 32 -> te_accepts e' = true ->
  let st1 := handle_unknown_tcp_connection c l t e st pc (list_umem l1) (zlen l1) d ssl dport lw k_protocol_type_unknown in
  let st2 := handle_unknown_tcp_connection c l' t' e' st1 pc (list_umem l2) (zlen l2) d' ssl' dport' lw' k_protocol_type_unknown in
  (exists ev, tt_events st2 = tt_events st ++ [ev]
   /\ tq_direction ev = d /\ tq_is_server ev = server_side e pc d dport
   /\ tq_buf ev = take 256 (l1 ++ repeat 0 256) /\ tq_req_len ev = zlen l1
   /\ tq_rbuf ev = take 128 (l2 ++ repeat 0 128) /\ tq_resp_len ev = Z.min (zlen l2) k_tcp_res_len
   /\ tq_start_monotime_ns ev = te_now e 0 /\ tq_end ev = te_now e' 0)
  /\ trace_map (hs_maps (tt_span st2))
       !! trace_key_from_conn (pc_conn pc) (if d =? TCP_RECV then TRACE_TYPE_SERVER else TRACE_TYPE_CLIENT) = None.
Proof.
  intros Hn Hs Hd Hl1 Hl2 Hacc st1 st2. pose proof (zlen_nonneg l1). pose proof (zlen_nonneg l2).
  pose proof (start_unknown c l t e st pc (list_umem l1) (zlen l1) d ssl dport lw) as Hq. cbv zeta in Hq.
  pose proof (start_spec c l t e st pc (list_umem l1) (zlen l1) d ssl dport lw k_protocol_type_unknown) as [Hev _].
  assert (Hst1 : st1 = start_tcp_req c l t e st pc (list_umem l1) (zlen l1) d ssl dport lw k_protocol_type_unknown)
    by (unfold st1, handle_unknown_tcp_connection; by rewrite Hn, Hs).
  rewrite <- Hst1 in Hq, Hev. clearbody st1. clear Hst1.
  destruct Hq as (q & Hq & H1 & H2 & H3 & H4 & H5 & H6 & H7 & H8).
  set (st2' := respond_tcp_req c l' t' e' st1 pc q (list_umem l2) (zlen l2) d' k_protocol_type_unknown).
  assert (Hst : st2 = st2').
  { unfold st2, handle_unknown_tcp_connection. rewrite Hq, H2, (proj2 (Z.eqb_neq d d')) by congruence. cbn [andb].
    by rewrite H2, (proj2 (Z.eqb_neq d d')) by congruence. }
  rewrite Hst. clear st2 Hst. unfold st2', respond_tcp_req. cbv zeta.
  match goal with |- context [tcp_send_large_buffer e' ?ca q ?x ?u ?n d' _ ?a] =>
    pose proof (unknown_send e' ca q x u n d' a) as Hu; destruct (tcp_send_large_buffer e' ca q x u n d' k_protocol_type_unknown a) as [[res q2] ca2] end.
  destruct Hu as (-> & r & -> & (Hr & Hr' & Hr'') & Hb & Hrl). cbn [Z.ltb Z.compare].
  assert (Hend : tq_end (set_cap q r) = 0) by (unfold tq_end in *; cbn; congruence). rewrite Hend. cbn [Z.eqb].
  split.
  - eexists. split.
    { cbn [tt_events set_tcp_span]. rewrite output_events, Hacc. cbn [tt_events put_tcp set_tcp_span]. by rewrite Hev. }
    split_and!; try assumption.
    + etrans; [exact H3|]. by apply read_prefix.
    + etrans; [exact H4|]. by apply wrap_small.
    + unfold tq_rbuf in *. cbn. rewrite Hb. unfold tq_rbuf. rewrite H6. by apply read_prefix.
    + unfold tq_resp_len. cbn. rewrite (wrap_small 32), clamp_min by lia. done.
    + done.
  - cbn [tt_span set_tcp_span]. rewrite <- H2.
    match goal with |- context [cleanup_trace_info c l' t' ?s ?x pc] => exact (cleanup_trace_map c l' t' s x pc) end.
Qed.

(** A request of two buffers counts at most 256 octets of the first one: the second buffer replaces
    [req_len], the length as it was, by [len], which was clamped for the copy. *)
Theorem tcp_append_forgets_length e st pc q u n d ptype :
  0 <= n -> n + tq_len q < 2 ^ 32 -> 0 <= tq_len q ->
  exists q', tcp_of (append_tcp_req e st pc q u n d ptype) pc = Some q' /\ tq_req_len q' = tq_len q + n.
Proof.
  intros Hn Hl Hq. unfold append_tcp_req. cbv zeta.
  match goal with |- context [tcp_send_large_buffer e ?ca ?q1 ?x u n d ptype ?a] =>
    pose proof (tcp_send_keeps e ca q1 x u n d ptype a) as Hs; destruct (tcp_send_large_buffer e ca q1 x u n d ptype a) as [[res q2] ca2] end.
  cbn [fst snd] in Hs. destruct Hs as (r & -> & _). eexists. split; [apply put_tcp_of|]. cbn. apply wrap_small. lia.
Qed.

(** ** A failed connect *)

Lemma client_find_keeps c l m t pc dport lw tp :
  let m' := snd (find_trace_for_client_request c l m t pc dport lw tp) in
  outgoing_trace_map m' = outgoing_trace_map m /\ dom (trace_map m') = dom (trace_map m)
  /\ traces_ctx_v1 m' = traces_ctx_v1 m /\ dom (server_traces m') = dom (server_traces m).
Proof.
  unfold find_trace_for_client_request, find_trace_for_client_request_with_t_key.
  pose proof (find_parent_ok c l m pc (cur_pid_tgid t) lw (trace_key_from_pid_tid l t) dport None) as [[b Hs] _].
  destruct (find_parent_trace _ _ _ _ _ _ _ _ _) as [a m1]. cbn [snd] in Hs. subst m1.
  destruct (usable _ a) as [[p x]|] eqn:Hu; [|done]. unfold adopt_parent.
  destruct (negb _); [|by destruct (nodejs_manual_parent_span_id _ _ _ _)]. cbn [snd].
  destruct (parent_trace_is_stale _ _); [|done].
  assert (Hd : is_Some (deref (set_backup m b) p)).
  { unfold usable in Hu. destruct a as [a|]; [|done]. destruct (deref (set_backup m b) a) eqn:Ha; [|done].
    destruct (_ && _); [|done]. injection Hu as -> _. by eexists. }
  destruct p; cbn [store_at]; split_and!; try done; destruct Hd as [y Hy]; cbn in Hy |- *;
    by rewrite dom_insert_lookup_L by (by eexists).
Qed.

(** A failed connect publishes a span and nothing else.  The event has the time of the connect as
    its start, also for the test against the parent, and whatever parent is found, no context is
    stored that a connection reusing the port could inherit: the contexts for outgoing traffic and
    of the thread are as before, and neither connections nor threads have gained or lost one. *)
Theorem failed_connect_leaves_no_context c l t e st pc lw dport ts0 :
  te_accepts e = true ->
  let st' := failed_to_connect_event c l t e st pc lw dport ts0 in
  (exists ev, tt_events st' = tt_events st ++ [ev] /\ tq_flags ev = k_event_type_failed_connect
    /\ tq_start_monotime_ns ev = ts0 /\ tq_end ev = te_now e 0
    /\ span_id (tq_tp ev) = te_span e)
  /\ outgoing_trace_map (hs_maps (tt_span st')) = outgoing_trace_map (hs_maps (tt_span st))
  /\ traces_ctx_v1 (hs_maps (tt_span st')) = traces_ctx_v1 (hs_maps (tt_span st))
  /\ dom (trace_map (hs_maps (tt_span st'))) = dom (trace_map (hs_maps (tt_span st)))
  /\ dom (server_traces (hs_maps (tt_span st'))) = dom (server_traces (hs_maps (tt_span st)))
  /\ ongoing_tcp_req (tt_span st') = ongoing_tcp_req (tt_span st).
Proof.
  intros Hacc st'. unfold st', failed_to_connect_event, tcp_get_client_trace_info. rewrite Hacc. cbv zeta.
  match goal with |- context [find_trace_for_client_request c l ?m t pc dport lw ?x] =>
    pose proof (client_find_keeps c l m t pc dport lw x) as Hk; destruct (find_trace_for_client_request c l m t pc dport lw x) as [[found tp] m1] end.
  cbn [snd] in Hk. destruct Hk as (H1 & H2 & H3 & H4). unfold output. rewrite Hacc. split; [|done].
  eexists. split_and!; [reflexivity|done..|]. cbn. by destruct (nz found).
Qed.

(** ** Witnesses *)

(** A server on port 80 that captures nothing. *)
Definition example_tcp_env (now : Z) : tcp_env :=
  mk_tcp_env 0 0 0 0 0 0 {[(80, 1)]} 1 true true None no_context (fun n => now + Z.of_nat n) (repeat 6 8) (repeat 5 16).

Definition example_server_conn : pid_connection_info := mk_pid_conn (mk_conn (repeat 1 16) (repeat 2 16) 80 40000) 5.

Definition example_tcp_state : tcp_state :=
  mk_tcp_state (mk_hs empty_tmaps ∅ ∅ ∅ []) (mk_captures (mk_ring [] []) ∅ ∅ ∅ ∅) [].

Definition example_tcp_buffer (direction now : Z) (b : list Z) : tcp_op :=
  top_buffer empty_links example_task (example_tcp_env now) (list_umem b) (zlen b) direction 0 40000 k_lw_thread_none
    k_protocol_type_unknown.

(** A request, an answer in two buffers, the next request, and the close that ends it. *)
Definition example_tcp_ops : list tcp_op :=
  [example_tcp_buffer TCP_RECV 100 [1; 2; 3]; example_tcp_buffer TCP_SEND 200 [4; 5]; example_tcp_buffer TCP_SEND 300 [6];
   example_tcp_buffer TCP_RECV 400 [7]; top_close empty_links example_task (example_tcp_env 500)].

Lemma tcp_follows_machine_witness :
  let st' := fold_left (run_tcp_op example_conf example_server_conn) example_tcp_ops example_tcp_state in
  length (tt_events st') = 2%nat
  /\ exists evs, tt_events st' = tt_events example_tcp_state ++ evs
     /\ tcp_path tcp_idle (map op_input example_tcp_ops) (tcp_phase_of st' example_server_conn) (length evs)
     /\ (tcp_of example_tcp_state example_server_conn = None -> (2 * length evs <= length example_tcp_ops)%nat).
Proof.
  split; [by vm_compute|].
  apply (tcp_follows_machine example_conf example_server_conn example_tcp_state example_tcp_ops). repeat constructor; done.
Defined.

Lemma tcp_exchange_reported_witness :
  exists ev, tt_events (fold_left (run_tcp_op example_conf example_server_conn)
    [example_tcp_buffer TCP_RECV 100 [1; 2; 3]; example_tcp_buffer TCP_SEND 200 [4; 5]] example_tcp_state) = [ev]
  /\ tq_req_len ev = 3 /\ tq_end ev = 200 /\ tq_is_server ev = true.
Proof.
  destruct (tcp_exchange_reported example_conf empty_links example_task (example_tcp_env 100) example_tcp_state example_server_conn
    [1; 2; 3] TCP_RECV 0 40000 k_lw_thread_none empty_links example_task (example_tcp_env 200) [4; 5] TCP_SEND 0 40000 k_lw_thread_none)
    as [(ev & Hev & _ & Hs & _ & Hr & _ & _ & _ & He) _]; [reflexivity|by vm_compute|done|done|done|done|].
  exists ev. split; [exact Hev|]. split; [exact Hr|]. split; [exact He|]. rewrite Hs. by vm_compute.
Defined.

Lemma failed_connect_leaves_no_context_witness :
  exists ev, tt_events (failed_to_connect_event example_conf empty_links example_task (example_tcp_env 100) example_tcp_state
    example_pid_conn k_lw_thread_none 80 50) = [ev] /\ tq_start_monotime_ns ev = 50.
Proof.
  destruct (failed_connect_leaves_no_context example_conf empty_links example_task (example_tcp_env 100) example_tcp_state
    example_pid_conn k_lw_thread_none 80 50) as [(ev & Hev & _ & Hs & _) _]; [reflexivity|].
  exists ev. split; [exact Hev|exact Hs].
Defined.

(** A thousand octets and then fifty are reported as 306. *)
Example tcp_append_forgets_length_example :
  exists q, tcp_of (fold_left (run_tcp_op example_conf example_server_conn)
    [example_tcp_buffer TCP_RECV 100 (repeat 1 1000); example_tcp_buffer TCP_RECV 200 (repeat 2 50)] example_tcp_state)
    example_server_conn = Some q /\ tq_req_len q = 306.
Proof. eexists. split; [vm_compute; reflexivity|reflexivity]. Qed.
