(* ===== verification/Dispatch.v ===== *)
(** * The dispatcher of the generic tracer ([bpf/generictracer/protocol_handler.c],
      [k_tracer_defs.h], the protocol helpers of [bpf/common/]).

    Every buffer a probe sees enters here: [make_protocol_args] prepares it, and
    [handle_buf_with_args] finds the parser it belongs to.  The result is the state and the tail
    call that is made ([route]); [run_route] runs the program behind it, for HTTP/2 the chain of
    programs of [H2Frames]. *)

From Stdlib Require Import ZArith Lia ZifyBool List Bool.
From stdpp Require Import base list countable gmap.
From S2P Require Import Prelude TraceUtil Sampling H2Sniff HpackParse H2Inject H1Inject Entry ConnInfo LargeBuf.
From S2P Require Import Postgres Mysql Mssql Sunrpc Aerospike Kafka.
From S2P Require Import HttpInfo TcpReq TraceMaps TraceParent TraceLife HttpSpan HttpTrace TcpSpan.
From S2P Require Import H2Defs H2Huffman H2Txn H2Send H2Stream H2Frames H2Walk.

Local Open Scope Z_scope.

(** ** Definitions *)

Record protocol_selector := mk_selector { sel_http : bool; sel_http2 : bool; sel_tcp : bool }.

Definition k_protocol_selector_all : protocol_selector := mk_selector true true true.

(** [call_protocol_args_t]: the fields of [http_args] and the ones only this program reads. *)
Record buf_args := mk_buf_args { ba_args : http_args; ba_protocols : protocol_selector; ba_protocol_type : protocol_type }.

(** What the HTTP/2 handler alone keeps: [h2_state] without the maps it shares. *)
Record h2_own := mk_h2_own {
  ho_events : list http2_grpc_request;
  ho_cut_frames : gmap pid_connection_info h2_cut_frame;
  ho_ctx : grpc_frames_ctx;
  ho_info : http2_grpc_request;
  ho_tp_info : tp_info_pid;
  ho_joined : list Z;
  ho_huff_out : buf
}.

(** The state of all handlers. *)
Record tracer_state := mk_tracer_state {
  ts_tcp : tcp_state;
  ts_cache : protocol_cache;
  ts_h2 : h2_own
}.

(** What a chain of HTTP/2 programs is given: the environment of each, the tail calls made before
    the first, and [g_bpf_loop_enabled]. *)
Record h2_chain_env := mk_h2_chain_env { h2e_progs : nat -> penv; h2e_calls : nat; h2e_loop : bool }.

Definition ts_span (st : tracer_state) : hstate := tt_span (ts_tcp st).

Definition ts_http (st : tracer_state) : http_state := mk_http_state (ts_span st) (ca_ring (tt_captures (ts_tcp st))).

Definition set_ring (ca : captures) (ring : ringbuf connection_info) : captures :=
  mk_captures ring (ca_mysql ca) (ca_kafka ca) (ca_kafka_requests ca) (ca_aerospike ca).

Definition set_ts_http (st : tracer_state) (h : http_state) : tracer_state :=
  mk_tracer_state (mk_tcp_state (ht_span h) (set_ring (tt_captures (ts_tcp st)) (ht_ring h)) (tt_events (ts_tcp st)))
    (ts_cache st) (ts_h2 st).

Definition ts_h2_state (st : tracer_state) : h2_state :=
  let o := ts_h2 st in
  mk_h2 (ts_span st) (ho_events o) (ho_cut_frames o) (ho_ctx o) (ho_info o) (ho_tp_info o) (ho_joined o) (ho_huff_out o).

Definition set_ts_h2 (st : tracer_state) (x : h2_state) : tracer_state :=
  mk_tracer_state (mk_tcp_state (h2_span x) (tt_captures (ts_tcp st)) (tt_events (ts_tcp st))) (ts_cache st)
    (mk_h2_own (h2_events x) (h2_cut_frames x) (g_ctx x) (http2_info_mem x) (tp_info_mem x) (h2_joined_mem x) (h2_tp_huff_out x)).

Definition set_ts_captures (st : tracer_state) (ca : captures) (cache : protocol_cache) : tracer_state :=
  mk_tracer_state (mk_tcp_state (ts_span st) ca (tt_events (ts_tcp st))) cache (ts_h2 st).

(** The tail call a buffer ends in, with the arguments as they are then. *)
Inductive route :=
  | route_none
  | route_http (a : http_args)
  | route_http2 (a : http_args)
  | route_tcp (a : http_args) (ptype : protocol_type).

(** ** The arguments *)

Definition already_tracked_http (sp : hstate) (pc : pid_connection_info) : bool :=
  match http_of sp pc with Some i => negb (nz (hi_delayed i) || nz (hi_submitted i)) | None => false end.

Definition already_tracked_http2 (sp : hstate) (pc : pid_connection_info) : bool :=
  bool_decide (is_Some (ongoing_http2_connections (hs_maps sp) !! pc)).

Definition protocol_type_for_conn_info (st : tracer_state) (pc : pid_connection_info) : protocol_type :=
  match ts_cache st !! pc_conn pc with
  | Some p => p
  | None => if already_tracked_http (ts_span st) pc then k_protocol_type_http else k_protocol_type_unknown
  end.

(** [packet_type] is what an earlier buffer left in the arguments. *)
Definition make_protocol_args (st : tracer_state) (pc : pid_connection_info) (lw_thread : Z) (protocols : protocol_selector)
    (u_buf : umem) (bytes_len ssl direction packet_type orig_dport : Z) (sk : option sock_bytes) : option buf_args :=
  if bytes_len <=? 0 then None
  else
    let n := Z.to_nat (clamp_umax (u32 bytes_len) MIN_HTTP2_SIZE) in
    let small_buf := overlay (probe_read0 u_buf n) (repeat 0 (Z.to_nat MIN_HTTP2_SIZE)) in
    Some (mk_buf_args (mk_args pc ssl direction packet_type small_buf u_buf bytes_len orig_dport sk lw_thread) protocols
            (protocol_type_for_conn_info st pc)).

Definition set_packet_type (a : http_args) (p : Z) : http_args :=
  mk_args (ha_pid_conn a) (ha_ssl a) (ha_direction a) p (ha_small_buf a) (ha_u_buf a) (ha_bytes_len a) (ha_orig_dport a)
    (ha_sock a) (ha_lw_thread a).

Definition skip_http2_preface (a : http_args) : http_args :=
  if (ha_bytes_len a <? MIN_HTTP2_SIZE) || negb (has_preface (list_buf (ha_small_buf a)) MIN_HTTP2_SIZE) then a
  else
    mk_args (ha_pid_conn a) (ha_ssl a) (ha_direction a) (ha_packet_type a) (ha_small_buf a)
      (ushift (ha_u_buf a) MIN_HTTP2_SIZE) (ha_bytes_len a - MIN_HTTP2_SIZE) (ha_orig_dport a) (ha_sock a) (ha_lw_thread a).

(** A connection that turns out to speak HTTP/2. *)
Definition new_http2_conn (st : tracer_state) (a : http_args) (rnd : Z) : tracer_state :=
  let pc := ha_pid_conn a in
  let flags := if nz (ha_ssl a) then Z.lor http2_conn_flag_new http2_conn_flag_ssl else http2_conn_flag_new in
  let data := mk_h2_conn (uniqueHTTP2ConnId rnd pc) flags 0 0 in
  let h := ts_h2_state st in
  let h := set_h2_maps h (set_h2_conns (h2_maps h) (<[pc := data]> (ongoing_http2_connections (h2_maps h)))) in
  set_ts_h2 st (set_cuts h (delete pc (h2_cut_frames h))).

(** ** The TCP classifiers *)

(** The first classifier that claims the buffer; each sees what the ones before it left. *)
Definition classify_tcp (st : tracer_state) (a : http_args) (ptype : protocol_type) : option protocol_type * tracer_state :=
  let conn := pc_conn (ha_pid_conn a) in
  let u := ha_u_buf a in
  let n := ha_bytes_len a in
  let ca := tt_captures (ts_tcp st) in
  let '(r, p, my, cache) := is_mysql (ca_mysql ca) (ts_cache st) conn u n ptype in
  let ca := mk_captures (ca_ring ca) my (ca_kafka ca) (ca_kafka_requests ca) (ca_aerospike ca) in
  if nz r then (Some p, set_ts_captures st ca cache)
  else
    let '(r, p, cache) := is_postgres cache conn u n p in
    if nz r then (Some p, set_ts_captures st ca cache)
    else
      let '(r, p, cache) := is_mssql cache conn u n p in
      if nz r then (Some p, set_ts_captures st ca cache)
      else
        let '(r, p, ka, og, cache) := is_kafka (ca_kafka ca) (ca_kafka_requests ca) cache conn u n p (ha_direction a) in
        let ca := mk_captures (ca_ring ca) (ca_mysql ca) ka og (ca_aerospike ca) in
        if nz r then (Some p, set_ts_captures st ca cache)
        else
          let '(r, p, cache) := is_sunrpc cache conn u n p in
          if nz r then (Some p, set_ts_captures st ca cache)
          else
            let '(r, p, cache) := is_aerospike cache conn u n p in
            (if nz r then Some p else None, set_ts_captures st ca cache).

Section dispatch.
Variables (c : tconf) (l : links) (t : task) (e : henv) (h : h2_chain_env).

(** ** A buffer no parser claims *)

(** A [Traceparent] header that arrives in a buffer of its own. *)
Definition split_header (st : http_state) (a : http_args) (i : http_info) : http_state * http_info :=
  let p := list_buf (probe_read0 (ha_u_buf a) (Z.to_nat TP_SIZE)) in
  let tp := hi_tp i in
  let tp :=
    sample_remote_child_for_pid
      (mk_tp_info (decode_hex (shift p 16) TRACE_ID_CHAR_LEN) (span_id tp) (decode_hex (shift p 49) SPAN_ID_CHAR_LEN)
         (ts tp) (hd 0 (decode_hex (shift p 66) FLAGS_CHAR_LEN))) (he_sampler e) in
  let i := set_context i tp (hi_parent_status i) in
  let sp := put_info (ht_span st) (ha_pid_conn a) i in
  let m := hs_maps sp in
  let t_key := trace_key_from_pid_tid l t in
  let m :=
    match server_traces m !! t_key with
    | Some x =>
        let x := mk_tp_info_pid tp (tpp_pid x) (tpp_valid x) (tpp_written x) (tpp_req_type x) (tpp_response_sent x) in
        set_trace_info_for_connection (set_server_traces m (<[t_key := x]> (server_traces m))) (pc_conn (ha_pid_conn a))
          TRACE_TYPE_SERVER x
    | None => m
    end in
  (mk_http_state (set_maps sp m) (ht_ring st), i).

(** More of an HTTP/1 exchange. *)
Definition continue_http (st : http_state) (a : http_args) (i : http_info) : http_state :=
  let pc := ha_pid_conn a in
  let reading := still_reading i in
  let responding := still_responding i in
  if reading || responding || response_unread i then
    let '(st, i) :=
      if reading && is_traceparent (list_buf (ha_small_buf a)) then split_header st a i else (st, i) in
    let packet_type :=
      if responding || unparsed_response_buffer i (ha_direction a) then PACKET_TYPE_RESPONSE else PACKET_TYPE_REQUEST in
    let sp := unclaimed_buffer (ht_span st) pc i (ha_direction a) (ha_bytes_len a) (he_now e 6) in
    capture e (mk_http_state sp (ht_ring st)) pc (default i (http_of sp pc)) a packet_type k_large_buf_action_append
  else st.

(** ** The dispatcher *)

(** Behind the test for a new HTTP/2 connection. *)
Definition handle_rest (st : tracer_state) (b : buf_args) (a : http_args) : tracer_state * route :=
  let pc := ha_pid_conn a in
  let sel := ba_protocols b in
  let h2 :=
    match ongoing_http2_connections (hs_maps (ts_span st)) !! pc with
    | Some h2g => http2_flag_ssl (hc_flags h2g) =? ha_ssl a
    | None => false
    end in
  if h2 then (st, if sel_http2 sel then route_http2 a else route_none)
  else
    let '(claimed, st) := if sel_tcp sel then classify_tcp st a (ba_protocol_type b) else (None, st) in
    match claimed with
    | Some p => (st, route_tcp a p)
    | None =>
        match http_of (ts_span st) pc with
        | Some i =>
            if sel_http sel && negb (nz (hi_submitted i)) then
              if nz (hi_ssl i) && negb (nz (ha_ssl a)) then (st, route_none)
              else (set_ts_http st (continue_http (ts_http st) a i), route_none)
            else (st, route_none)
        | None => (st, if sel_tcp sel then route_tcp a (ba_protocol_type b) else route_none)
        end
    end.

Definition handle_buf_with_args (st : tracer_state) (b : buf_args) (rnd : Z) : tracer_state * route :=
  let a := ba_args b in
  let sel := ba_protocols b in
  let small := list_buf (ha_small_buf a) in
  match (if sel_http sel then is_http small MIN_HTTP_SIZE else None) with
  | Some p => (st, route_http (set_packet_type a p))
  | None =>
      if negb (bool_decide (ba_protocol_type b = k_protocol_type_http))
         && (is_http2_or_grpc small MIN_HTTP2_SIZE
             || (negb (already_tracked_http2 (ts_span st) (ha_pid_conn a))
                 && looks_like_http2_frames (ha_u_buf a) (ha_bytes_len a)))
      then
        if sel_http2 sel then handle_rest (new_http2_conn st a rnd) b (skip_http2_preface a) else (st, route_none)
      else handle_rest st b a
  end.

(** The programs behind the tail call; a chain of HTTP/2 programs has a result ([protocol_total]). *)
Definition run_route (te : tcp_env) (st : tracer_state) (r : route) : tracer_state :=
  match r with
  | route_none => st
  | route_http2 a =>
      let x := ts_h2_state st in
      set_ts_h2 st (default x (protocol_http2 c l t (he_sampler e) (h2e_loop h) (h2e_progs h) (h2e_calls h) x a))
  | route_http a => set_ts_http st (protocol_http c l t e (ts_http st) a)
  | route_tcp a ptype =>
      mk_tracer_state
        (handle_unknown_tcp_connection c l t te (ts_tcp st) (ha_pid_conn a) (ha_u_buf a) (ha_bytes_len a) (ha_direction a)
           (ha_ssl a) (ha_orig_dport a) (ha_lw_thread a) ptype)
        (ts_cache st) (ts_h2 st)
  end.

(** [handle_buf_with_connection], [handle_light_weight_thread_buf]: one buffer from the probe to the
    end of its program, and the tail call it took. *)
Definition handle_buf (te : tcp_env) (st : tracer_state) (pc : pid_connection_info) (lw_thread : Z)
    (protocols : protocol_selector) (u_buf : umem) (bytes_len ssl direction packet_type orig_dport : Z)
    (sk : option sock_bytes) (rnd : Z) : tracer_state * route :=
  match make_protocol_args st pc lw_thread protocols u_buf bytes_len ssl direction packet_type orig_dport sk with
  | None => (st, route_none)
  | Some b => let '(st, r) := handle_buf_with_args st b rnd in (run_route te st r, r)
  end.

End dispatch.

(** ** What a classifier may answer *)

(** It declines and changes nothing, or it claims the connection for [x], which was its protocol
    before or was not known. *)
Definition classifier_ok (x : protocol_type) (conn : connection_info) (ptype : protocol_type) (cache : protocol_cache)
    (r : Z) (p : protocol_type) (cache' : protocol_cache) : Prop :=
  (r = 0 /\ p = ptype /\ cache' = cache)
  \/ (r = 1 /\ p = x /\ (ptype = x \/ ptype = k_protocol_type_unknown) /\ (cache' = <[conn := x]> cache \/ (cache' = cache /\ ptype = x))).

Ltac declines := left; done.
Ltac not_mine H1 H2 :=
  match goal with |- context [negb (bool_decide (?p = ?x)) && negb (bool_decide (?p = ?y))] =>
    destruct (bool_decide_reflect (p = x)) as [H1|H1], (bool_decide_reflect (p = y)) as [H2|H2] end; cbn [negb andb].

Lemma is_mysql_ok my cache conn u n ptype :
  let '(r, p, _, cache') := is_mysql my cache conn u n ptype in classifier_ok k_protocol_type_mysql conn ptype cache r p cache'.
Proof.
  unfold is_mysql. not_mine H1 H2; try declines.
  all: destruct (mysql_store_state_data my conn u n) as [r my1]; destruct (r <? 0); [declines|].
  all: destruct (mysql_parse_fixup_header my1 conn u n) as [hdr|]; [|declines].
  all: destruct (_ <? _); [declines|]; destruct (negb _); [declines|right; auto].
Qed.

Lemma is_postgres_ok cache conn u n ptype :
  let '(r, p, cache') := is_postgres cache conn u n ptype in classifier_ok k_protocol_type_postgres conn ptype cache r p cache'.
Proof.
  unfold is_postgres. not_mine H1 H2; try declines.
  all: destruct (n <? _); [declines|]; destruct (pg_loop _ _ _ _ _) as [m k]; destruct (_ || _); [declines|]; right; auto.
Qed.

Lemma is_mssql_ok cache conn u n ptype :
  let '(r, p, cache') := is_mssql cache conn u n ptype in classifier_ok k_protocol_type_mssql conn ptype cache r p cache'.
Proof.
  unfold is_mssql. not_mine H1 H2; try declines.
  all: destruct (n <? _); [declines|]; destruct (mssql_loop _ _ _ _ _) as [[o k]|]; [|declines]; destruct (_ || _); [declines|]; right; auto.
Qed.

Lemma is_kafka_ok ka og cache conn u n ptype d :
  let '(r, p, _, _, cache') := is_kafka ka og cache conn u n ptype d in classifier_ok k_protocol_type_kafka conn ptype cache r p cache'.
Proof.
  unfold is_kafka. not_mine H1 H2; try declines.
  all: destruct (kafka_store_state_data ka conn u n d) as [r ka1]; destruct (r <? 0); [declines|]; cbv zeta.
  all: destruct (kafka_parse_fixup_request_header ka1 conn u n d); [right; auto|].
  all: destruct (kafka_parse_fixup_response_header ka1 conn u n d); [|declines].
  all: destruct (og !! conn); [|declines]; destruct (negb _); [declines|right; auto].
Qed.

Lemma is_sunrpc_ok cache conn u n ptype :
  let '(r, p, cache') := is_sunrpc cache conn u n ptype in classifier_ok k_protocol_type_sunrpc conn ptype cache r p cache'.
Proof.
  unfold is_sunrpc. destruct (bool_decide_reflect (ptype = k_protocol_type_sunrpc)) as [H1|H1]; [right; subst; by auto 10|].
  destruct (bool_decide_reflect (ptype = k_protocol_type_unknown)) as [H2|H2]; cbn [negb]; [|declines].
  destruct (negb _); [declines|right; auto].
Qed.

Lemma is_aerospike_ok cache conn u n ptype :
  let '(r, p, cache') := is_aerospike cache conn u n ptype in classifier_ok k_protocol_type_aerospike conn ptype cache r p cache'.
Proof.
  unfold is_aerospike. destruct (bool_decide_reflect (ptype = k_protocol_type_aerospike)) as [H1|H1]; [right; subst; by auto 10|].
  destruct (bool_decide_reflect (ptype = k_protocol_type_unknown)) as [H2|H2]; cbn [negb]; [|declines].
  destruct (n <? _); [declines|]. destruct (probe_read _ _); [|declines]. cbv zeta.
  destruct (_ || _); [declines|]. destruct (_ || _); [declines|right; auto].
Qed.

(** What [classify_tcp] may answer, from the state and protocol type it was given. *)
Definition same_spans (st st' : tracer_state) : Prop :=
  ts_span st' = ts_span st /\ tt_events (ts_tcp st') = tt_events (ts_tcp st) /\ ts_h2 st' = ts_h2 st.

Definition classified (st : tracer_state) (conn : connection_info) (ptype : protocol_type)
    (res : option protocol_type * tracer_state) : Prop :=
  let '(claimed, st') := res in
  same_spans st st'
  /\ ((claimed = None /\ ts_cache st' = ts_cache st)
      \/ exists x, claimed = Some x /\ x <> k_protocol_type_unknown /\ x <> k_protocol_type_http
         /\ (ptype = x \/ ptype = k_protocol_type_unknown)
         /\ (ts_cache st' = <[conn := x]> (ts_cache st) \/ (ts_cache st' = ts_cache st /\ ptype = x))).

Lemma classified_step x st conn ptype ca r p cache rest :
  x <> k_protocol_type_unknown -> x <> k_protocol_type_http ->
  classifier_ok x conn ptype (ts_cache st) r p cache ->
  (p = ptype -> cache = ts_cache st -> classified st conn ptype rest) ->
  classified st conn ptype (if nz r then (Some p, set_ts_captures st ca cache) else rest).
Proof.
  intros Hx Hx' [(-> & -> & ->)|(-> & -> & Hp & Hc)] Hrest; [by apply Hrest|]. split_and!; [done..|].
  right. exists x. by split_and!.
Qed.

Lemma classify_ok st a ptype : classified st (pc_conn (ha_pid_conn a)) ptype (classify_tcp st a ptype).
Proof.
  unfold classify_tcp. cbv zeta. set (conn := pc_conn (ha_pid_conn a)). set (u := ha_u_buf a). set (n := ha_bytes_len a).
  pose proof (is_mysql_ok (ca_mysql (tt_captures (ts_tcp st))) (ts_cache st) conn u n ptype) as H.
  destruct (is_mysql _ _ _ _ _ _) as [[[r p] my] cache].
  eapply classified_step; [| |exact H|]; [done|done|]. intros -> ->. clear H.
  pose proof (is_postgres_ok (ts_cache st) conn u n ptype) as H. destruct (is_postgres _ _ _ _ _) as [[r1 p1] cache1].
  eapply classified_step; [| |exact H|]; [done|done|]. intros -> ->. clear H.
  pose proof (is_mssql_ok (ts_cache st) conn u n ptype) as H. destruct (is_mssql _ _ _ _ _) as [[r2 p2] cache2].
  eapply classified_step; [| |exact H|]; [done|done|]. intros -> ->. clear H. cbn [ca_kafka ca_kafka_requests].
  match goal with |- context [is_kafka ?ka ?og ?ch conn u n ptype ?d] =>
    pose proof (is_kafka_ok ka og ch conn u n ptype d) as H; destruct (is_kafka ka og ch conn u n ptype d) as [[[[r3 p3] ka1] og1] cache3] end.
  eapply classified_step; [| |exact H|]; [done|done|]. intros -> ->. clear H.
  pose proof (is_sunrpc_ok (ts_cache st) conn u n ptype) as H. destruct (is_sunrpc _ _ _ _ _) as [[r4 p4] cache4].
  eapply classified_step; [| |exact H|]; [done|done|]. intros -> ->. clear H.
  pose proof (is_aerospike_ok (ts_cache st) conn u n ptype) as H. destruct (is_aerospike _ _ _ _ _) as [[r5 p5] cache5].
  destruct H as [(-> & -> & ->)|(-> & -> & Hp & Hc)]; cbn; (split_and!; [done..|]); [by left|right; eexists; by split_and!].
Qed.

(** ** The cache *)

Lemma skip_preface_conn a : ha_pid_conn (skip_http2_preface a) = ha_pid_conn a.
Proof. unfold skip_http2_preface. by destruct (_ || _). Qed.

Section dispatch_facts.
Variables (c : tconf) (l : links) (t : task) (e : henv) (h : h2_chain_env).

(** The tail call behind the HTTP tests is for the connection's own protocol. *)
Lemma rest_route st b a x q :
  snd (handle_rest l t e st b a) = route_tcp x q ->
  q = ba_protocol_type b \/ (ba_protocol_type b = k_protocol_type_unknown /\ q <> k_protocol_type_http).
Proof.
  unfold handle_rest. cbv zeta.
  match goal with |- context [if ?h then (_, _) else _] => destruct h end; [by destruct (sel_http2 _)|].
  destruct (sel_tcp _).
  - pose proof (classify_ok st a (ba_protocol_type b)) as H. destruct (classify_tcp st a (ba_protocol_type b)) as [[y|] st1].
    + intros [= _ <-]. destruct H as (_ & [[? _]|(z & [= ->] & _ & Hz & Hp & _)]); [done|]. destruct Hp; [by left|by right].
    + destruct (http_of _ _); [|intros [= _ <-]; by left]. destruct (_ && _); [|done]. by destruct (_ && _).
  - destruct (http_of _ _); [|done]. destruct (_ && _); [|done]. by destruct (_ && _).
Qed.

Lemma rest_cache st b a conn p :
  ts_cache st !! conn = Some p -> p <> k_protocol_type_unknown ->
  (conn = pc_conn (ha_pid_conn a) -> ba_protocol_type b = p) ->
  ts_cache (fst (handle_rest l t e st b a)) !! conn = Some p.
Proof.
  intros Hc Hp Hb. unfold handle_rest. cbv zeta.
  match goal with |- context [if ?h then (_, _) else _] => destruct h end; [exact Hc|].
  set (res := if sel_tcp _ then _ else _).
  assert (Hres : ts_cache (snd res) !! conn = Some p).
  { unfold res. destruct (sel_tcp _); [|exact Hc]. pose proof (classify_ok st a (ba_protocol_type b)) as H.
    destruct (classify_tcp st a (ba_protocol_type b)) as [claimed st1]. cbn [snd].
    destruct H as (_ & [[_ ->]|(x & _ & _ & _ & Hx & [->|[-> _]])]); [done| |done].
    unfold protocol_cache in *. destruct (decide (conn = pc_conn (ha_pid_conn a))) as [He|Hne]; [|by rewrite lookup_insert_ne by congruence].
    rewrite He, lookup_insert_eq. specialize (Hb He). destruct Hx; congruence. }
  destruct res as [[x|] st1]; [exact Hres|]. cbn [snd] in Hres.
  destruct (http_of _ _); [|exact Hres]. destruct (_ && _); [|exact Hres]. destruct (_ && _); exact Hres.
Qed.

Lemma rest_http2 st b a a' :
  snd (handle_rest l t e st b a) = route_http2 a' ->
  a' = a /\ is_Some (ongoing_http2_connections (hs_maps (ts_span st)) !! ha_pid_conn a).
Proof.
  unfold handle_rest. cbv zeta.
  match goal with |- context [if ?h then (_, _) else _] => destruct h eqn:Hh end.
  - destruct (sel_http2 _); [|done]. intros [= <-]. split; [done|]. by destruct (_ !! _).
  - set (res := if sel_tcp _ then _ else _). destruct res as [[x|] st1]; [done|].
    destruct (http_of _ _); [|by destruct (sel_tcp _)]. destruct (_ && _); [|done]. by destruct (_ && _).
Qed.

Lemma rest_not_http st b a a' : snd (handle_rest l t e st b a) <> route_http a'.
Proof.
  unfold handle_rest. cbv zeta.
  match goal with |- context [if ?h then (_, _) else _] => destruct h end; [by destruct (sel_http2 _)|].
  set (res := if sel_tcp _ then _ else _). destruct res as [[x|] st1]; [done|].
  destruct (http_of _ _); [|by destruct (sel_tcp _)]. destruct (_ && _); [|done]. by destruct (_ && _).
Qed.

(** C25: a classified connection keeps its protocol.  Once the cache names the protocol of a
    connection, no buffer on this or on another connection, whatever its contents, changes it.  The
    recognisers of the protocols over TCP (MySQL, PostgreSQL, MSSQL, Kafka, SunRPC, Aerospike)
    claim the connection's later buffers only for that protocol: a buffer of the connection that
    goes to the TCP program goes there under the cached protocol.  The HTTP tests are not bound by
    the cache: a buffer goes to the HTTP/1 program only when it opens as an HTTP/1 request or
    response, and to the HTTP/2 program only when the connection was known as HTTP/2 before or,
    unless the cache says HTTP, the buffer opens as HTTP/2. *)
Theorem protocol_cache_stable te st pc lw sel u n ssl d pt dport sk rnd conn p :
  ts_cache st !! conn = Some p -> p <> k_protocol_type_unknown ->
  let '(st', r) := handle_buf c l t e h te st pc lw sel u n ssl d pt dport sk rnd in
  ts_cache st' !! conn = Some p
  /\ (conn = pc_conn pc ->
      match r with
      | route_none => True
      | route_tcp _ q => q = p
      | route_http a => is_http (list_buf (ha_small_buf a)) MIN_HTTP_SIZE = Some (ha_packet_type a)
      | route_http2 a =>
          is_Some (ongoing_http2_connections (hs_maps (ts_span st)) !! pc)
          \/ p <> k_protocol_type_http
             /\ (is_http2_or_grpc (list_buf (ha_small_buf a)) MIN_HTTP2_SIZE = true \/ looks_like_http2_frames u n = true)
      end).
Proof.
  intros Hc Hp. unfold handle_buf, make_protocol_args. destruct (n <=? 0); [done|]. cbv zeta.
  set (b := mk_buf_args _ _ _).
  assert (Hb : conn = pc_conn (ha_pid_conn (ba_args b)) -> ba_protocol_type b = p)
    by (intros ->; cbn in *; unfold protocol_type_for_conn_info; by rewrite Hc).
  assert (Hrest : forall st0 a, ts_cache st0 = ts_cache st -> ha_pid_conn a = pc -> 
    ts_cache (fst (handle_rest l t e st0 b a)) !! conn = Some p
    /\ (conn = pc_conn pc -> forall a' q, snd (handle_rest l t e st0 b a) = route_tcp a' q -> q = p)).
  { intros st0 a Hst Ha. split; [apply rest_cache; [by rewrite Hst|done|by rewrite Ha]|].
    intros Hconn a' q Hr. apply rest_route in Hr as [-> |[Hu _]]; [by apply Hb|]. rewrite (Hb Hconn) in Hu. congruence. }
  enough (H : ts_cache (fst (handle_buf_with_args l t e st b rnd)) !! conn = Some p
    /\ (conn = pc_conn pc ->
        match snd (handle_buf_with_args l t e st b rnd) with
        | route_none => True
        | route_tcp _ q => q = p
        | route_http a => is_http (list_buf (ha_small_buf a)) MIN_HTTP_SIZE = Some (ha_packet_type a)
        | route_http2 a =>
            is_Some (ongoing_http2_connections (hs_maps (ts_span st)) !! pc)
            \/ p <> k_protocol_type_http
               /\ (is_http2_or_grpc (list_buf (ha_small_buf a)) MIN_HTTP2_SIZE = true \/ looks_like_http2_frames u n = true)
        end)).
  { destruct (handle_buf_with_args l t e st b rnd) as [st1 r]. cbn [fst snd] in H. destruct H as [H1 H2].
    split; [destruct r; exact H1|exact H2]. }
  unfold handle_buf_with_args. cbv zeta. destruct (if sel_http _ then _ else None) as [q|] eqn:Hh.
  { split; [done|]. intros _. cbn. by destruct (sel_http (ba_protocols b)). }
  destruct (_ && _) eqn:H2.
  - destruct (sel_http2 _); [|by split]. rewrite andb_true_iff, orb_true_iff, andb_true_iff in H2. destruct H2 as [Hnh Hop].
    destruct (Hrest (new_http2_conn st (ba_args b) rnd) (skip_http2_preface (ba_args b))) as [H1 H2];
      [done|by rewrite skip_preface_conn|]. split; [exact H1|]. intros Hconn.
    destruct (snd (handle_rest _ _ _ _ _ _)) as [|a|a|a q] eqn:Hr; [done|by destruct (rest_not_http _ _ _ _ Hr)| |by eapply H2].
    right. apply rest_http2 in Hr as [-> _]. split.
    + rewrite <- (Hb Hconn). apply negb_true_iff in Hnh. by apply bool_decide_eq_false_1 in Hnh.
    + unfold skip_http2_preface. destruct Hop as [Hop|[_ Hop]]; [left|by right]. by destruct (_ || _).
  - destruct (Hrest st (ba_args b)) as [H1 H3]; [done|done|]. split; [exact H1|]. intros Hconn.
    destruct (snd (handle_rest _ _ _ _ _ _)) as [|a|a|a q] eqn:Hr; [done|by destruct (rest_not_http _ _ _ _ Hr)| |by eapply H3].
    left. by apply rest_http2 in Hr as [_ Hr].
Qed.

(** The classifiers decline the buffers of an HTTP connection. *)
Lemma rest_http st b a i :
  ba_protocol_type b = k_protocol_type_http -> http_of (ts_span st) (ha_pid_conn a) = Some i ->
  let '(st', r) := handle_rest l t e st b a in
  (r = route_none \/ r = route_http2 a)
  /\ (nz (hi_ssl i) && negb (nz (ha_ssl a)) = true -> same_spans st st').
Proof.
  intros Hb Hi. unfold handle_rest. cbv zeta.
  match goal with |- context [if ?h then (_, _) else _] => destruct h end; [split; [destruct (sel_http2 _); auto|done]|].
  set (res := if sel_tcp _ then _ else _).
  assert (Hres : fst res = None /\ same_spans st (snd res)).
  { unfold res. destruct (sel_tcp _); [|done]. pose proof (classify_ok st a (ba_protocol_type b)) as H.
    destruct (classify_tcp st a (ba_protocol_type b)) as [claimed st1]. cbn [fst snd].
    destruct H as (H1 & [[-> _]|(x & _ & H3 & H4 & [Hx|Hx] & _)]); [done|congruence..]. }
  destruct res as [claimed st1]. cbn [fst snd] in Hres. destruct Hres as (-> & Hsame). pose proof Hsame as (Hsp & _). rewrite Hsp, Hi.
  destruct (_ && negb (nz (hi_submitted i))); [|by auto]. destruct (nz (hi_ssl i) && _); [by auto|]. by split; [left|].
Qed.

(** A connection with an HTTP request in flight is not handed to the TCP parser.  While its record
    is neither submitted nor delayed and no protocol is cached for it, no buffer on it, whatever
    its contents, reaches the TCP program: it starts or answers HTTP, continues the exchange or is
    left alone.  Octets under a TLS exchange, seen in the clear and not HTTP, change nothing. *)
Theorem http_in_flight_not_tcp te st pc lw sel u n ssl d pt dport sk rnd i :
  http_of (ts_span st) pc = Some i -> hi_delayed i = 0 -> hi_submitted i = 0 -> ts_cache st !! pc_conn pc = None ->
  let '(st', r) := handle_buf c l t e h te st pc lw sel u n ssl d pt dport sk rnd in
  (forall a q, r <> route_tcp a q)
  /\ (hi_ssl i <> 0 -> ssl = 0 -> (forall a, r <> route_http a /\ r <> route_http2 a) -> same_spans st st').
Proof.
  intros Hi Hdl Hsub Hc. unfold handle_buf, make_protocol_args. destruct (n <=? 0); [done|]. cbv zeta.
  assert (Hp : protocol_type_for_conn_info st pc = k_protocol_type_http)
    by (unfold protocol_type_for_conn_info, already_tracked_http; by rewrite Hc, Hi, Hdl, Hsub).
  rewrite Hp. set (b := mk_buf_args _ _ _). unfold handle_buf_with_args. cbv zeta.
  destruct (if sel_http (ba_protocols b) then _ else None) as [p|].
  { split; [done|]. intros _ _ H. by destruct (H (set_packet_type (ba_args b) p)) as [? _]. }
  change (bool_decide (ba_protocol_type b = k_protocol_type_http)) with true. cbn [negb andb].
  pose proof (rest_http st b (ba_args b) i eq_refl Hi) as H. destruct (handle_rest l t e st b (ba_args b)) as [st1 r].
  destruct H as [[->| ->] H]; (split; [done|]); intros Hs Hssl Hne; [|by destruct (Hne (ba_args b)) as [_ ?]].
  apply H. cbn. rewrite Hssl. unfold nz. by rewrite (proj2 (Z.eqb_neq _ _) Hs).
Qed.

(** ** A header in a buffer of its own *)

Lemma header_small_buf tp rest :
  exists r, overlay (probe_read0 (list_umem (make_tp_string_skb tp ++ rest))
                       (Z.to_nat (clamp_umax (u32 (zlen (make_tp_string_skb tp ++ rest))) MIN_HTTP2_SIZE)))
              (repeat 0 (Z.to_nat MIN_HTTP2_SIZE))
            = [84; 114; 97; 99; 101; 112; 97; 114; 101; 110; 116; 58; 32] ++ r
  \/ 2 ^ 32 <= zlen (make_tp_string_skb tp ++ rest).
Proof.
  destruct (decide (zlen (make_tp_string_skb tp ++ rest) < 2 ^ 32)); [|exists []; right; lia].
  rewrite read_prefix by (kunfold; lia). rewrite skb_string, <- !app_assoc. eexists. left. reflexivity.
Qed.

Lemma put_maps s p i : hs_maps (put_info s p i) = hs_maps s
  \/ hs_maps (put_info s p i) = set_ongoing_http (hs_maps s) (<[p := i]> (ongoing_http (hs_maps s))).
Proof. unfold put_info. destruct (http_of s p); [by right|by left]. Qed.

(** The contexts of threads and connections. *)
Definition same_contexts (m m' : tmaps) : Prop := server_traces m' = server_traces m /\ trace_map m' = trace_map m.

Lemma put_contexts s p i : same_contexts (hs_maps s) (hs_maps (put_info s p i)).
Proof. destruct (put_maps s p i) as [->| ->]; done. Qed.

Lemma capture_contexts st pc i a p act :
  same_contexts (hs_maps (ht_span st)) (hs_maps (ht_span (capture e st pc i a p act))).
Proof.
  unfold capture. destruct (http_of _ _); [|done]. destruct (http_send_large_buffer _ _ _ _ _ _ _ _). apply put_contexts.
Qed.

(** The header is read into the record, and into the context of the thread. *)
Lemma split_header_reads st a i tp rest x :
  wf_tp tp -> ha_u_buf a = list_umem (make_tp_string_skb tp ++ rest) -> http_of (ht_span st) (ha_pid_conn a) = Some i ->
  server_traces (hs_maps (ht_span st)) !! trace_key_from_pid_tid l t = Some x ->
  let '(st', j) := split_header l t e st a i in
  http_of (ht_span st') (ha_pid_conn a) = Some j
  /\ j = set_context i (hi_tp j) (hi_parent_status i)
  /\ trace_id (hi_tp j) = trace_id tp /\ parent_id (hi_tp j) = span_id tp /\ span_id (hi_tp j) = span_id (hi_tp i)
  /\ exists x', server_traces (hs_maps (ht_span st')) !! trace_key_from_pid_tid l t = Some x' /\ tpp_tp x' = hi_tp j
     /\ trace_map (hs_maps (ht_span st')) !! trace_key_from_conn (pc_conn (ha_pid_conn a)) TRACE_TYPE_SERVER = Some x'.
Proof.
  intros Hwf Hu Hi Hx. pose proof Hwf as (_ & Htl & _ & Hsl & _). pose proof (make_tp_string_skb_zlen tp Htl Hsl) as Hz.
  unfold split_header. cbv zeta. rewrite Hu, probe_read0_list by (unfold zlen in Hz; kunfold; lia).
  destruct (header_fields (list_buf (make_tp_string_skb tp)) tp [] Hwf) as (_ & _ & _ & _ & _ & H6 & H7 & H8);
    [by rewrite app_nil_r|]. change TP_TID_PREFIX_SIZE with 16 in H6. rewrite H6, H7, H8.
  set (tp' := sample_remote_child_for_pid _ _). set (j := set_context i tp' (hi_parent_status i)).
  assert (Htp : trace_id tp' = trace_id tp /\ parent_id tp' = span_id tp /\ span_id tp' = span_id (hi_tp i)).
  { unfold tp', sample_remote_child_for_pid. destruct (he_sampler e) as [s|]; [destruct (nz _)|]; done. }
  destruct (put_contexts (ht_span st) (ha_pid_conn a) j) as [Hs _]. rewrite Hs, Hx.
  pose proof (put_http (ha_pid_conn a) (ht_span st) j) as Hp. rewrite Hi in Hp. split_and!; [exact Hp|done|apply Htp..|].
  eexists. split_and!; [apply lookup_insert_eq|done|apply lookup_insert_eq].
Qed.

Lemma continue_reads_header st a i tp rest x :
  wf_tp tp -> ha_u_buf a = list_umem (make_tp_string_skb tp ++ rest) -> is_traceparent (list_buf (ha_small_buf a)) = true ->
  http_of (ht_span st) (ha_pid_conn a) = Some i -> still_reading i = true -> unparsed_response_buffer i (ha_direction a) = false ->
  server_traces (hs_maps (ht_span st)) !! trace_key_from_pid_tid l t = Some x ->
  let st' := continue_http l t e st a i in
  exists j x', http_of (ht_span st') (ha_pid_conn a) = Some j
  /\ trace_id (hi_tp j) = trace_id tp /\ parent_id (hi_tp j) = span_id tp /\ span_id (hi_tp j) = span_id (hi_tp i)
  /\ server_traces (hs_maps (ht_span st')) !! trace_key_from_pid_tid l t = Some x' /\ tpp_tp x' = hi_tp j
  /\ trace_map (hs_maps (ht_span st')) !! trace_key_from_conn (pc_conn (ha_pid_conn a)) TRACE_TYPE_SERVER = Some x'.
Proof.
  intros Hwf Hu Htp Hi Hr Hun Hx st'. unfold st', continue_http. cbv zeta. rewrite Hr, Htp. cbn [orb andb].
  pose proof (split_header_reads st a i tp rest x Hwf Hu Hi Hx) as H. destruct (split_header l t e st a i) as [st1 j].
  destruct H as (Hj & Hje & Ht & Hp & Hs & x' & Hx1 & Hx2 & Hx3).
  assert (Hrj : still_reading j = true) by (rewrite Hje; exact Hr).
  assert (Hunj : unparsed_response_buffer j (ha_direction a) = false) by (rewrite Hje; exact Hun).
  unfold unclaimed_buffer. rewrite Hrj, Hunj. set (j1 := set_lens j _ _).
  rewrite put_http, Hj. cbn [default id].
    match goal with |- context [capture e ?s ?pc j1 a ?p ?act] =>
    destruct (capture_context e s pc j1 a p act) as (k & Hk & Hkt); [cbn [ht_span]; by rewrite put_http, Hj|];
    destruct (capture_contexts s pc j1 a p act) as [Hc1 Hc2] end.
  cbn [ht_span] in Hc1, Hc2. destruct (put_contexts (ht_span st1) (ha_pid_conn a) j1) as [Hd1 Hd2].
  exists k, x'. rewrite Hkt, Hc1, Hc2, Hd1, Hd2. done.
Qed.

(** A header that arrives alone is not missed.  When the injector's header reaches a server in a
    buffer of its own, behind the request line that started the record, the record, the context of
    the thread that serves it and the context of the connection all take the trace of the header,
    with its span as parent, and the record keeps its own span id. *)
Theorem split_header_reaches_span te st pc lw sel tp rest ssl d pt dport sk rnd i x :
  let buf := make_tp_string_skb tp ++ rest in
  wf_tp tp -> zlen buf < 2 ^ 31 -> sel_http sel = true ->
  http_of (ts_span st) pc = Some i -> hi_delayed i = 0 -> hi_submitted i = 0 -> still_reading i = true ->
  unparsed_response_buffer i d = false -> nz (hi_ssl i) && negb (nz ssl) = false ->
  ts_cache st !! pc_conn pc = None -> ongoing_http2_connections (hs_maps (ts_span st)) !! pc = None ->
  server_traces (hs_maps (ts_span st)) !! trace_key_from_pid_tid l t = Some x ->
  let st' := fst (handle_buf c l t e h te st pc lw sel (list_umem buf) (zlen buf) ssl d pt dport sk rnd) in
  exists j x', http_of (ts_span st') pc = Some j
  /\ trace_id (hi_tp j) = trace_id tp /\ parent_id (hi_tp j) = span_id tp /\ span_id (hi_tp j) = span_id (hi_tp i)
  /\ server_traces (hs_maps (ts_span st')) !! trace_key_from_pid_tid l t = Some x' /\ tpp_tp x' = hi_tp j
  /\ trace_map (hs_maps (ts_span st')) !! trace_key_from_conn (pc_conn pc) TRACE_TYPE_SERVER = Some x'.
Proof.
  intros buf Hwf Hlen Hsel Hi Hdl Hsub Hr Hun Hssl Hc Hh2 Hx st'. pose proof Hwf as (_ & Htl & _ & Hsl & _).
  pose proof (make_tp_string_skb_zlen tp Htl Hsl) as Hz.
  assert (Hn : 70 <= zlen buf) by (unfold buf; rewrite zlen_app; pose proof (zlen_nonneg rest); unfold TP_SIZE in Hz; lia).
  unfold st', handle_buf, make_protocol_args. rewrite (proj2 (Z.leb_gt _ _)) by lia. cbv zeta.
  assert (protocol_type_for_conn_info st pc = k_protocol_type_http) as ->
    by (unfold protocol_type_for_conn_info, already_tracked_http; by rewrite Hc, Hi, Hdl, Hsub).
  destruct (header_small_buf tp rest) as [r [Hsm|?]]; [|unfold buf in *; lia]. fold buf in Hsm. rewrite Hsm.
  unfold handle_buf_with_args. cbv zeta. cbn [ba_args ba_protocols ba_protocol_type ha_small_buf]. rewrite Hsel.
  change (is_http (list_buf ([84; 114; 97; 99; 101; 112; 97; 114; 101; 110; 116; 58; 32] ++ r)) MIN_HTTP_SIZE) with (@None Z).
  change (bool_decide (k_protocol_type_http = k_protocol_type_http)) with true. cbn [negb andb]. unfold handle_rest. cbv zeta.
  cbn [ba_protocols ba_protocol_type ha_pid_conn ha_ssl]. rewrite Hh2, Hsel.
  match goal with |- context [if sel_tcp sel then ?x else ?y] => set (res := if sel_tcp sel then x else y) end.
  assert (Hres : fst res = None /\ ts_span (snd res) = ts_span st).
  { unfold res. destruct (sel_tcp sel); [|done].
    match goal with |- context [classify_tcp st ?a ?p] => pose proof (classify_ok st a p) as H; destruct (classify_tcp st a p) as [claimed st1] end.
    destruct H as ((H1 & _) & [[-> _]|(y & _ & H3 & H4 & [Hy|Hy] & _)]); [done|congruence..]. }
  destruct res as [claimed st1]. cbn [fst snd] in Hres. destruct Hres as [-> Hsp]. rewrite Hsp, Hi, Hsub, Hssl. cbn [negb nz Z.eqb andb].
  match goal with |- context [continue_http l t e ?s ?a i] =>
    destruct (continue_reads_header s a i tp rest x) as (j & x' & H); try done; [cbn; by rewrite Hsp..|] end.
  by exists j, x'.
Qed.

End dispatch_facts.

(** ** Witnesses *)

Definition example_tracer_state (m : tmaps) (cache : protocol_cache) : tracer_state :=
  mk_tracer_state (mk_tcp_state (mk_hs m ∅ ∅ ∅ []) (mk_captures (mk_ring [] []) ∅ ∅ ∅ ∅) []) cache
    (mk_h2_own [] ∅ example_gctx example_h2_record no_context [] (fun _ => 0)).

Definition example_h2_chain : h2_chain_env := mk_h2_chain_env example_chain 2 true.

Lemma protocol_cache_stable_witness :
  ts_cache (fst (handle_buf example_conf empty_links example_task example_henv example_h2_chain (example_tcp_env 100)
    (example_tracer_state empty_tmaps {[pc_conn example_pid_conn := k_protocol_type_mysql]}) example_pid_conn k_lw_thread_none
    k_protocol_selector_all (list_umem [2; 3]) 2 0 TCP_SEND 0 80 None 7)) !! pc_conn example_pid_conn = Some k_protocol_type_mysql.
Proof.
  pose proof (protocol_cache_stable example_conf empty_links example_task example_henv example_h2_chain (example_tcp_env 100)
    (example_tracer_state empty_tmaps {[pc_conn example_pid_conn := k_protocol_type_mysql]}) example_pid_conn k_lw_thread_none
    k_protocol_selector_all (list_umem [2; 3]) 2 0 TCP_SEND 0 80 None 7 (pc_conn example_pid_conn) k_protocol_type_mysql
    ltac:(by vm_compute) ltac:(done)) as H.
  destruct (handle_buf _ _ _ _ _ _ _ _ _ _ _ _ _ _ _ _ _) as [st' r]. exact (proj1 H).
Defined.

Lemma http_in_flight_not_tcp_witness :
  snd (handle_buf example_conf empty_links serving_task example_henv example_h2_chain (example_tcp_env 100)
    (example_tracer_state serving_tmaps ∅) example_pid_conn k_lw_thread_none
    k_protocol_selector_all (list_umem [2; 3]) 2 0 TCP_RECV 0 80 None 7)
  <> route_tcp (example_args TCP_RECV PACKET_TYPE_REQUEST [2; 3]) k_protocol_type_unknown.
Proof.
  pose proof (http_in_flight_not_tcp example_conf empty_links serving_task example_henv example_h2_chain (example_tcp_env 100)
    (example_tracer_state serving_tmaps ∅) example_pid_conn k_lw_thread_none
    k_protocol_selector_all (list_umem [2; 3]) 2 0 TCP_RECV 0 80 None 7 example_info
    ltac:(by vm_compute) ltac:(done) ltac:(done) ltac:(by vm_compute)) as H.
  destruct (handle_buf _ _ _ _ _ _ _ _ _ _ _ _ _ _ _ _ _) as [st' r]. exact (proj1 H _ _).
Defined.

Lemma split_header_reaches_span_witness :
  exists j, http_of (ts_span (fst (handle_buf example_conf empty_links serving_task example_henv example_h2_chain (example_tcp_env 100)
    (example_tracer_state serving_tmaps ∅) example_pid_conn k_lw_thread_none k_protocol_selector_all
    (list_umem (make_tp_string_skb example_wire_tp ++ [])) (zlen (make_tp_string_skb example_wire_tp ++ [])) 0 TCP_RECV 0 80 None 7)))
    example_pid_conn = Some j
  /\ trace_id (hi_tp j) = trace_id example_wire_tp.
Proof.
  destruct (split_header_reaches_span example_conf empty_links serving_task example_henv example_h2_chain (example_tcp_env 100)
    (example_tracer_state serving_tmaps ∅) example_pid_conn k_lw_thread_none k_protocol_selector_all example_wire_tp []
    0 TCP_RECV 0 80 None 7 example_info example_server) as (j & x' & Hj & Ht & _);
    [|by vm_compute|done|by vm_compute|done|done|done|done|done|by vm_compute|by vm_compute|by vm_compute|].
  - unfold wf_tp, is_bytes, example_wire_tp, zlen. simpl. split_and!; try lia; repeat constructor; lia.
  - exists j. split; [exact Hj|exact Ht].
Defined.

(** ** A client that writes its headers one by one *)

(** The thread of [serving_task] makes a call on [example_pid_conn] while it serves another request. *)
Definition calling_info : http_info :=
  mk_http_info 0 k_event_type_http_client 0 0 (pc_conn example_pid_conn) 150 0 150 0 0
    (mk_tp_info (repeat 7 16) (repeat 3 8) (repeat 8 8) 150 1) (mk_pid_info 5 5 1) 10 0 5 0 0 0 [] 0 TCP_SEND 0 0 0 http_response_parsed.

Definition calling_tmaps : tmaps := set_ongoing_http example_tmaps {[example_pid_conn := calling_info]}.

(** Nothing asks whether the record is a server's: a client that sends its own header in a write of
    its own gets the span of that header as its parent, and the context of the request its thread
    serves is replaced by the client's. *)
Example split_header_replaces_server_context :
  let st' := fst (handle_buf example_conf empty_links serving_task example_henv example_h2_chain (example_tcp_env 100)
    (example_tracer_state calling_tmaps ∅) example_pid_conn k_lw_thread_none k_protocol_selector_all
    (list_umem (make_tp_string_skb (hi_tp calling_info))) 70 0 TCP_SEND 0 80 None 7) in
  (hi_tp <$> http_of (ts_span st') example_pid_conn) = Some (mk_tp_info (repeat 7 16) (repeat 3 8) (repeat 3 8) 150 1)
  /\ (span_id ∘ tpp_tp <$> server_traces (hs_maps (ts_span st')) !! trace_key_from_pid_tid empty_links serving_task)
     = Some (repeat 3 8)
  /\ span_id (tpp_tp example_server) = repeat 8 8.
Proof. vm_compute. done. Qed.
