(* ===== verification/H2Start.v ===== *)
(** * The first buffer of an HTTP/2 connection ([bpf/generictracer/protocol_handler.c],
      [protocol_http2.h]).

    The dispatcher and the HTTP/2 handler together: the connection preface opens the connection, forgets
    what an earlier connection between the same ends left, and is stepped over, so that the chain of
    programs starts at the first frame. *)

From Stdlib Require Import ZArith Lia ZifyBool List Bool.
From stdpp Require Import base list countable gmap.
From S2P Require Import Prelude TraceUtil Sampling H2Defs H2Sniff H2Huffman HpackParse H2Txn H2Inject H2Send Entry.
From S2P Require Import ConnInfo LargeBuf HttpInfo TcpReq TraceMaps TraceParent TraceLife HttpSpan HttpTrace TcpSpan.
From S2P Require Import H2Stream H2Frames H2Walk Dispatch.

Local Open Scope Z_scope.

(** ** The preface *)

(** The arguments the chain starts with. *)
Definition behind_preface (pc : pid_connection_info) (lw ssl d pt dport : Z) (sk : option sock_bytes) (u : umem) (n : Z) : http_args :=
  mk_args pc ssl d pt HTTP2_GRPC_PREFACE (ushift u MIN_HTTP2_SIZE) n dport sk lw.

Definition preface_small (u : umem) (n : Z) : list Z :=
  overlay (probe_read0 u (Z.to_nat (clamp_umax (u32 (MIN_HTTP2_SIZE + n)) MIN_HTTP2_SIZE))) (repeat 0 (Z.to_nat MIN_HTTP2_SIZE)).

Lemma preface_read u n :
  uagree MIN_HTTP2_SIZE u (list_umem HTTP2_GRPC_PREFACE) -> 0 <= n < 2 ^ 30 -> preface_small u n = HTTP2_GRPC_PREFACE.
Proof.
  intros Hu Hn. unfold preface_small. rewrite (wrap_small 32), clamp_min by (kunfold; lia). rewrite Z.min_r by lia.
  by rewrite (probe_read0_ext _ u (list_umem HTTP2_GRPC_PREFACE)).
Qed.

(** The connection the preface opens. *)
Definition opened (rnd : Z) (pc : pid_connection_info) (ssl : Z) : http2_conn_info_data :=
  mk_h2_conn (uniqueHTTP2ConnId rnd pc) (if nz ssl then Z.lor http2_conn_flag_new http2_conn_flag_ssl else http2_conn_flag_new) 0 0.

Lemma new_conn_maps st a rnd :
  ongoing_http2_connections (h2_maps (ts_h2_state (new_http2_conn st a rnd))) !! ha_pid_conn a
    = Some (opened rnd (ha_pid_conn a) (ha_ssl a))
  /\ h2_cut_frames (ts_h2_state (new_http2_conn st a rnd)) !! ha_pid_conn a = None
  /\ h2_events (ts_h2_state (new_http2_conn st a rnd)) = h2_events (ts_h2_state st).
Proof. split; [apply lookup_insert_eq|]. split; [apply lookup_delete_eq|done]. Qed.

Section start.
Variables (c : tconf) (l : links) (t : task) (e : henv) (h : h2_chain_env).

(** A buffer that starts with the preface reaches the HTTP/2 handler at its first frame. *)
Lemma preface_route te st pc lw sel u n ssl d pt dport sk rnd :
  uagree MIN_HTTP2_SIZE u (list_umem HTTP2_GRPC_PREFACE) -> 0 <= n < 2 ^ 30 -> sel_http2 sel = true -> ssl = 0 \/ ssl = 1 ->
  protocol_type_for_conn_info st pc <> k_protocol_type_http ->
  let a := behind_preface pc lw ssl d pt dport sk u n in
  handle_buf c l t e h te st pc lw sel u (MIN_HTTP2_SIZE + n) ssl d pt dport sk rnd
  = (run_route c l t e h te (new_http2_conn st a rnd) (route_http2 a), route_http2 a).
Proof.
  intros Hu Hn Hsel Hssl Hp a. unfold handle_buf, make_protocol_args. rewrite (proj2 (Z.leb_gt _ _)) by (kunfold; lia). cbv zeta.
  fold (preface_small u n). rewrite (preface_read u n Hu Hn). unfold handle_buf_with_args. cbv zeta.
  cbn [ba_args ba_protocols ba_protocol_type ha_small_buf ha_pid_conn]. rewrite Hsel.
  change (is_http (list_buf HTTP2_GRPC_PREFACE) MIN_HTTP_SIZE) with (@None Z).
  change (is_http2_or_grpc (list_buf HTTP2_GRPC_PREFACE) MIN_HTTP2_SIZE) with true. rewrite bool_decide_eq_false_2 by done.
  cbn [negb orb andb]. assert ((if sel_http sel then @None Z else None) = None) as -> by (by destruct (sel_http sel)).
  match goal with |- context [new_http2_conn st ?x rnd] =>
    assert (Ha : skip_http2_preface x = a); [|pose proof (new_conn_maps st x rnd) as (Hc & _)] end.
  { unfold skip_http2_preface. cbn [ha_bytes_len ha_small_buf]. rewrite (proj2 (Z.ltb_ge _ _)) by lia.
    change (has_preface (list_buf HTTP2_GRPC_PREFACE) MIN_HTTP2_SIZE) with true. cbn [negb orb].
    unfold a, behind_preface. cbn. f_equal. lia. }
  rewrite Ha. unfold handle_rest. cbv zeta. cbn [ha_pid_conn ha_ssl] in *. change (ha_pid_conn a) with pc. unfold h2_maps in Hc.
  change (h2_span (ts_h2_state ?s)) with (ts_span s) in Hc. rewrite Hc. cbn [ba_protocols]. rewrite Hsel. change (ha_ssl a) with ssl.
  assert ((http2_flag_ssl (hc_flags (opened rnd pc ssl)) =? ssl) = true) as -> by (by destruct Hssl; subst ssl). done.
Qed.

(** A connection preface is followed from its first frame.  Whatever earlier connections between the
    same ends left behind, a buffer that starts with the preface opens the connection anew, and goes
    to the HTTP/2 handler and to no other; of the frames behind the preface, every header block is
    handed to user space in full, in a new event of its own, or the new connection is left marked. *)
Theorem h2_preface_opens_connection te st pc lw sel u ssl d pt dport sk rnd fs :
  let n := zlen (frames_bytes fs) in
  let a := behind_preface pc lw ssl d pt dport sk u n in
  uagree MIN_HTTP2_SIZE u (list_umem HTTP2_GRPC_PREFACE) -> holds_frames fs a -> fs <> [] ->
  sel_http2 sel = true -> ssl = 0 \/ ssl = 1 -> protocol_type_for_conn_info st pc <> k_protocol_type_http ->
  pe_jump (limited (h2e_progs h) (h2e_calls h)) 0 = true ->
  let '(st', r) := handle_buf c l t e h te st pc lw sel u (MIN_HTTP2_SIZE + n) ssl d pt dport sk rnd in
  r = route_http2 a
  /\ known pc (uniqueHTTP2ConnId rnd pc) (ts_h2_state st')
  /\ accounted (ho_events (ts_h2 st)) pc (ts_h2_state st') fs.
Proof.
  intros n a Hu Hh Hne Hsel Hssl Hp Hj. rewrite (preface_route te st pc lw sel u n ssl d pt dport sk rnd Hu) by
    (try done; pose proof (zlen_nonneg (frames_bytes fs)); pose proof (holds_bound _ _ Hh); unfold n; lia).
  fold a. split; [done|]. destruct (new_conn_maps st a rnd) as (Hc & Hcut & _).
  destruct (chain_accounts c l t (he_sampler e) (h2e_loop h) (h2e_progs h) (h2e_calls h) _ a fs _ Hh Hne Hcut Hj Hc) as (x & Hx & Hk & Hacc).
  cbn [run_route]. rewrite Hx. exact (conj Hk Hacc).
Qed.

End start.

(** ** Witness *)

Definition example_first_buffer : list Z := HTTP2_GRPC_PREFACE ++ frames_bytes example_requests.

Lemma h2_preface_opens_connection_witness :
  known example_pid_conn (uniqueHTTP2ConnId 9 example_pid_conn)
    (ts_h2_state (fst (handle_buf example_conf empty_links serving_task example_henv example_h2_chain (example_tcp_env 100)
      (example_tracer_state empty_tmaps ∅) example_pid_conn k_lw_thread_none k_protocol_selector_all (roomy_umem example_first_buffer)
      (MIN_HTTP2_SIZE + zlen (frames_bytes example_requests)) 0 TCP_RECV 0 80 None 9))).
Proof.
  pose proof (h2_preface_opens_connection example_conf empty_links serving_task example_henv example_h2_chain (example_tcp_env 100)
    (example_tracer_state empty_tmaps ∅) example_pid_conn k_lw_thread_none k_protocol_selector_all (roomy_umem example_first_buffer)
    0 TCP_RECV 0 80 None 9 example_requests) as H.
  cbv zeta in H. destruct (handle_buf _ _ _ _ _ _ _ _ _ _ _ _ _ _ _ _ _ _) as [st' r].
  apply H; [| |discriminate|reflexivity|by left|by vm_compute|reflexivity].
  - intros i Hi. rewrite <- (roomy_agrees HTTP2_GRPC_PREFACE i Hi). unfold roomy_umem. f_equal. by apply list_buf_app_l.
  - destruct (frames_args_hold TCP_RECV example_requests eq_refl eq_refl) as [H1 H2 H3 H4 _].
    constructor; [exact H1| |exact H3|exact H4|intros i _; by eexists].
    intros i Hi. rewrite <- (H2 i Hi). cbn. unfold ushift, roomy_umem. f_equal. apply (list_buf_app_r HTTP2_GRPC_PREFACE). lia.
Defined.
