(* ===== verification/SslProbes.v ===== *)
(** * The OpenSSL probes ([bpf/generictracer/libssl.c], [ssl_defs.h], [common/ssl_connection.h]).

    The uprobes see the plain text of a TLS connection; what they need is the connection behind the SSL.
    It comes from the socket calls made inside SSL_read and SSL_write, from a record the socket
    carried ([TlsPrefix]), or from the thread.  Each probe is a step of [tls_tracer], the state of the
    dispatcher with the TLS maps; the plain text goes to [handle_buf].

    [ok] is the result of [valid_pid] for the running task, [mem] its memory by address. *)

From Stdlib Require Import ZArith Lia ZifyBool List Bool.
From stdpp Require Import base list countable gmap.
From S2P Require Import Prelude Entry ConnInfo LargeBuf TlsRecord HttpInfo TcpReq TraceMaps TraceParent TraceLife HttpSpan HttpTrace.
From S2P Require Import TlsPrefix TcpSpan H2Stream H2Frames H2Walk Dispatch.

Local Open Scope Z_scope.

(** ** State *)

Definition WITH_SSL : Z := 1.
Definition NO_SSL : Z := 0.

Record tls_tracer := mk_tt { tls_ts : tracer_state; tls_maps : tls_own }.

Definition set_ts_span (st : tracer_state) (sp : hstate) : tracer_state :=
  mk_tracer_state (mk_tcp_state sp (tt_captures (ts_tcp st)) (tt_events (ts_tcp st))) (ts_cache st) (ts_h2 st).

Definition tls_view (st : tls_tracer) : tls_state := mk_tls (ts_span (tls_ts st)) (tls_maps st).
Definition set_tls_view (st : tls_tracer) (x : tls_state) : tls_tracer := mk_tt (set_ts_span (tls_ts st) (tl_span x)) (tl_own x).
Definition set_tls_maps (st : tls_tracer) (o : tls_own) : tls_tracer := mk_tt (tls_ts st) o.
Definition set_tls_span (st : tls_tracer) (sp : hstate) : tls_tracer := mk_tt (set_ts_span (tls_ts st) sp) (tls_maps st).

Definition set_pid_tid_to_conn (o : tls_own) x : tls_own :=
  mk_tls_own (ssl_to_conn o) x (ssl_to_pid_tid o) (active_ssl_read_args o) (active_ssl_write_args o) (bio_to_ssl o) (ssl_to_bios o)
    (tls_prefix_to_ssl o).
Definition set_ssl_to_pid_tid (o : tls_own) x : tls_own :=
  mk_tls_own (ssl_to_conn o) (pid_tid_to_conn o) x (active_ssl_read_args o) (active_ssl_write_args o) (bio_to_ssl o) (ssl_to_bios o)
    (tls_prefix_to_ssl o).

Definition is_ssl_connection (sp : hstate) (conn : pid_connection_info) : option Z := active_ssl_connections sp !! conn.

Definition ssl_size_to_int (size : Z) : Z := s32 (Z.min (2 ^ 31 - 1) size).

Section probes.
Variables (c : tconf) (l : links) (t : task) (e : henv) (h : h2_chain_env) (te : tcp_env).
Variables (mem : Z -> umem) (packet_type rnd : Z).

(** ** [ssl_defs.h] *)

Definition finish_possible_delayed_tls_http_request (sp : hstate) (pid_conn : pid_connection_info) : hstate :=
  match http_of sp pid_conn with
  | Some info => if nz (hi_submitted info) then finish_http c l t sp pid_conn info None else sp
  | None => sp
  end.

Definition ssl_release_connection_state (st : tls_tracer) (id s : Z) : tls_tracer :=
  let pid := pid_from_pid_tgid id in
  let ssl_key := mk_ptr_key s pid in
  let st :=
    match ssl_to_conn (tls_maps st) !! ssl_key with
    | Some s_conn =>
        let sp := finish_possible_delayed_tls_http_request (ts_span (tls_ts st)) (sc_p_conn s_conn) in
        set_tls_span st (del_ssl sp (sc_p_conn s_conn))
    | None => st
    end in
  let o := tls_maps st in
  let o := set_ssl_to_conn o (delete ssl_key (ssl_to_conn o)) in
  let o := set_ssl_to_pid_tid o (delete ssl_key (ssl_to_pid_tid o)) in
  set_tls_maps st (ssl_bios_forget o pid s).

Definition ssl_release_thread_state (st : tls_tracer) (id : Z) : tls_tracer :=
  set_tls_maps st (set_pid_tid_to_conn (tls_maps st) (delete id (pid_tid_to_conn (tls_maps st)))).

(** The pointer of the SSL as an address: the connection of an SSL whose ends are not known. *)
Definition fake_connection (id ssl : Z) : ssl_pid_connection_info :=
  mk_ssl_conn (mk_pid_conn (mk_conn (le_bytes 8 ssl ++ repeat 0 8) (repeat 0 16) 0 0) (pid_from_pid_tgid id)) 0.

(** The connection of the thread, or of the thread that started the read of this SSL. *)
Definition connection_by_thread (o : tls_own) (id : Z) (ssl_key : pid_ptr_key) : option ssl_pid_connection_info :=
  match pid_tid_to_conn o !! id with
  | Some conn => Some conn
  | None =>
      match ssl_to_pid_tid o !! ssl_key with
      | Some pid_tid => pid_tid_to_conn o !! pid_tid
      | None => None
      end
  end.

Definition handle_ssl_buf (st : tls_tracer) (id : Z) (args : option ssl_args) (bytes_len direction : Z) : tls_tracer :=
  match args with
  | None => st
  | Some args =>
      let ssl := sa_ssl args in
      let ssl_key := mk_ptr_key ssl (pid_from_pid_tgid id) in
      let o := tls_maps st in
      let '(conn, o) :=
        match ssl_to_conn o !! ssl_key with
        | Some conn => (Some conn, o)
        | None =>
            match connection_by_thread o id ssl_key with
            | Some conn =>
                (Some conn,
                 set_ssl_to_conn (set_pid_tid_to_conn o (delete id (pid_tid_to_conn o))) (<[ssl_key := conn]> (ssl_to_conn o)))
            | None => (None, o)
            end
        end in
      let o := set_ssl_to_pid_tid o (delete ssl_key (ssl_to_pid_tid o)) in
      if bytes_len <=? 0 then set_tls_maps st o
      else
        let '(conn, o) :=
          match conn with
          | Some conn => (conn, o)
          | None => (fake_connection id ssl, set_ssl_to_conn o (<[ssl_key := fake_connection id ssl]> (ssl_to_conn o)))
          end in
        let ts :=
          fst (handle_buf c l t e h te (tls_ts st) (sc_p_conn conn) k_lw_thread_none k_protocol_selector_all (mem (sa_buf args))
                 bytes_len WITH_SSL direction packet_type (sc_orig_dport conn) None rnd) in
        mk_tt ts o
  end.

(** ** [libssl.c] *)

(** A 64-bit read of the task's memory; a fault leaves the zero. *)
Definition read_size (ptr : Z) : Z := le_word (probe_read0 (mem ptr) 8).

(** What [SSL_read] and [SSL_read_ex] remember of their arguments. *)
Definition ssl_read_entry (st : tls_tracer) (ok id ssl buf readbytes : Z) : tls_tracer :=
  if ok =? 0 then st
  else
    let ssl_key := mk_ptr_key ssl (pid_from_pid_tgid id) in
    let st :=
      match ssl_to_conn (tls_maps st) !! ssl_key with
      | Some s_conn => set_tls_span st (finish_possible_delayed_tls_http_request (ts_span (tls_ts st)) (sc_p_conn s_conn))
      | None => st
      end in
    let o := tls_maps st in
    let o := set_read_args o (<[id := mk_ssl_args ssl buf readbytes 0]> (active_ssl_read_args o)) in
    set_tls_maps st
      (match ssl_to_pid_tid o !! ssl_key with
       | Some _ => o
       | None => set_ssl_to_pid_tid o (<[ssl_key := id]> (ssl_to_pid_tid o))
       end).

Definition uprobe_ssl_read (st : tls_tracer) (ok id ssl buf : Z) : tls_tracer := ssl_read_entry st ok id ssl buf 0.

Definition uprobe_ssl_read_ex (st : tls_tracer) (ok id ssl buf readbytes : Z) : tls_tracer := ssl_read_entry st ok id ssl buf readbytes.

Definition uretprobe_ssl_read (st : tls_tracer) (ok id ret : Z) : tls_tracer :=
  if ok =? 0 then st
  else
    let o := tls_maps st in
    handle_ssl_buf (set_tls_maps st (set_read_args o (delete id (active_ssl_read_args o)))) id (active_ssl_read_args o !! id) ret TCP_RECV.

Definition uretprobe_ssl_read_ex (st : tls_tracer) (ok id ret : Z) : tls_tracer :=
  if ok =? 0 then st
  else
    let o := tls_maps st in
    let o' := set_read_args o (delete id (active_ssl_read_args o)) in
    match active_ssl_read_args o !! id with
    | None => set_tls_maps st o'
    | Some args =>
        if negb (ret =? 1) then
          set_tls_maps st (set_ssl_to_pid_tid o' (delete (mk_ptr_key (sa_ssl args) (pid_from_pid_tgid id)) (ssl_to_pid_tid o')))
        else handle_ssl_buf (set_tls_maps st o') id (Some args) (ssl_size_to_int (read_size (sa_len_ptr args))) TCP_RECV
    end.

(** What the variants of [SSL_write] remember of their arguments. *)
Definition ssl_write_entry (st : tls_tracer) (ok id ssl buf written : Z) : tls_tracer :=
  if ok =? 0 then st
  else
    let o := tls_maps st in
    set_tls_maps st (set_write_args o (<[id := mk_ssl_args ssl buf written 0]> (active_ssl_write_args o))).

Definition uprobe_ssl_write (st : tls_tracer) (ok id ssl buf : Z) : tls_tracer := ssl_write_entry st ok id ssl buf 0.

Definition uprobe_ssl_write_ex (st : tls_tracer) (ok id ssl buf written : Z) : tls_tracer := ssl_write_entry st ok id ssl buf written.

Definition uprobe_ssl_write_ex2 (st : tls_tracer) (ok id ssl buf written : Z) : tls_tracer := ssl_write_entry st ok id ssl buf written.

Definition uretprobe_ssl_write (st : tls_tracer) (ok id ret : Z) : tls_tracer :=
  if ok =? 0 then st
  else
    let o := tls_maps st in
    match active_ssl_write_args o !! id with
    | None => st
    | Some args => handle_ssl_buf (set_tls_maps st (set_write_args o (delete id (active_ssl_write_args o)))) id (Some args) ret TCP_SEND
    end.

Definition uretprobe_ssl_write_ex (st : tls_tracer) (ok id ret : Z) : tls_tracer :=
  if ok =? 0 then st
  else
    let o := tls_maps st in
    let st' := set_tls_maps st (set_write_args o (delete id (active_ssl_write_args o))) in
    match active_ssl_write_args o !! id with
    | None => st'
    | Some args =>
        if negb (ret =? 1) then st'
        else handle_ssl_buf st' id (Some args) (ssl_size_to_int (read_size (sa_len_ptr args))) TCP_SEND
    end.

Definition uretprobe_ssl_write_ex2 (st : tls_tracer) (ok id ret : Z) : tls_tracer := uretprobe_ssl_write_ex st ok id ret.

Definition uprobe_ssl_shutdown (st : tls_tracer) (ok id s : Z) : tls_tracer :=
  if ok =? 0 then st else ssl_release_thread_state (ssl_release_connection_state st id s) id.

Definition uprobe_ssl_set_bio (st : tls_tracer) (ok id ssl r w : Z) : tls_tracer :=
  if ok =? 0 then st else set_tls_maps st (ssl_bios_track (tls_maps st) (pid_from_pid_tgid id) ssl r w).

Definition uprobe_ssl_free (st : tls_tracer) (ok id ssl : Z) : tls_tracer :=
  if ok =? 0 then st else ssl_release_connection_state st id ssl.

Definition uprobe_bio_write (st : tls_tracer) (ok id now bio buf len : Z) : tls_tracer :=
  if ok =? 0 then st
  else set_tls_maps st (tls_prefix_register_egress (tls_maps st) now (pid_from_pid_tgid id) bio (mem buf) len).

End probes.

(** ** Properties *)

Section facts.
Variables (c : tconf) (l : links) (t : task) (e : henv) (h : h2_chain_env) (te : tcp_env).
Variables (mem : Z -> umem) (packet_type rnd : Z).

Lemma forget_twice o pid ssl : ssl_bios_forget (ssl_bios_forget o pid ssl) pid ssl = ssl_bios_forget o pid ssl.
Proof. unfold ssl_bios_forget at 1. by rewrite forget_bios, lookup_delete_eq. Qed.

(** What is left of an SSL that was released. *)
Definition released (o : tls_own) (pid ssl : Z) : Prop :=
  ssl_to_conn o !! mk_ptr_key ssl pid = None /\ ssl_to_pid_tid o !! mk_ptr_key ssl pid = None /\ ssl_to_bios o !! mk_ptr_key ssl pid = None.

Lemma forget_keeps o pid ssl :
  ssl_to_conn (ssl_bios_forget o pid ssl) = ssl_to_conn o /\ ssl_to_pid_tid (ssl_bios_forget o pid ssl) = ssl_to_pid_tid o.
Proof. unfold ssl_bios_forget. by destruct (_ !! _). Qed.

Lemma release_released st id s : released (tls_maps (ssl_release_connection_state c l t st id s)) (pid_from_pid_tgid id) s.
Proof.
  unfold released, ssl_release_connection_state. cbv zeta. set (st1 := match _ with Some _ => _ | None => _ end). cbn [set_tls_maps tls_maps].
  match goal with |- context [ssl_bios_forget ?o ?p ?x] => destruct (forget_keeps o p x) as [-> ->]; rewrite forget_bios end. cbn.
  by rewrite !lookup_delete_eq.
Qed.

Lemma own_eta o :
  mk_tls_own (ssl_to_conn o) (pid_tid_to_conn o) (ssl_to_pid_tid o) (active_ssl_read_args o) (active_ssl_write_args o) (bio_to_ssl o)
    (ssl_to_bios o) (tls_prefix_to_ssl o) = o.
Proof. by destruct o. Qed.

Lemma release_nothing st id s :
  released (tls_maps st) (pid_from_pid_tgid id) s -> ssl_release_connection_state c l t st id s = st.
Proof.
  intros (Hc & Hp & Hb). unfold ssl_release_connection_state. cbv zeta. rewrite Hc. unfold set_ssl_to_pid_tid, set_ssl_to_conn, set_tls_maps.
  cbn [ssl_to_conn pid_tid_to_conn ssl_to_pid_tid active_ssl_read_args active_ssl_write_args bio_to_ssl ssl_to_bios tls_prefix_to_ssl].
  rewrite !delete_id by done. rewrite own_eta. unfold ssl_bios_forget. rewrite Hb. by destruct st.
Qed.

(** An SSL is released once and completely.  After SSL_shutdown or SSL_free nothing is known of the SSL:
    its connection, the thread that reads from it and its BIOs are gone, and the connection is no longer
    taken for TLS, so that the next SSL at this address starts afresh.  Releasing it again changes nothing
    at all, so that a shutdown followed by a free reports no event twice. *)
Theorem ssl_release_once st ok id s :
  ok <> 0 ->
  let st' := uprobe_ssl_free c l t st ok id s in
  released (tls_maps st') (pid_from_pid_tgid id) s
  /\ (forall conn, lookup_ssl_conn (tls_maps st) (pid_from_pid_tgid id) s = Some conn ->
      is_ssl_connection (ts_span (tls_ts st')) (sc_p_conn conn) = None)
  /\ uprobe_ssl_free c l t st' ok id s = st'
  /\ (forall id', pid_from_pid_tgid id' = pid_from_pid_tgid id ->
      uprobe_ssl_shutdown c l t st' ok id' s = ssl_release_thread_state st' id').
Proof.
  intros Hok st'. unfold st', uprobe_ssl_shutdown, uprobe_ssl_free. rewrite (proj2 (Z.eqb_neq _ _) Hok).
  pose proof (release_released st id s) as Hr. split; [exact Hr|]. split; [|split].
  - intros conn Hc. unfold lookup_ssl_conn in Hc. unfold ssl_release_connection_state. cbv zeta. rewrite Hc. unfold is_ssl_connection. cbn.
    apply lookup_delete_eq.
  - by apply release_nothing.
  - intros id' E. rewrite release_nothing; [done|]. by rewrite E.
Qed.

(** ** Where plain text goes *)

(** The connection plain text of an SSL is handled under, by what is known. *)
Definition plaintext_conn (o : tls_own) (id ssl : Z) : ssl_pid_connection_info :=
  let key := mk_ptr_key ssl (pid_from_pid_tgid id) in
  match ssl_to_conn o !! key with
  | Some conn => conn
  | None => default (fake_connection id ssl) (connection_by_thread o id key)
  end.

Definition dispatched (st : tracer_state) (conn : ssl_pid_connection_info) (u : umem) (n direction : Z) : tracer_state :=
  fst (handle_buf c l t e h te st (sc_p_conn conn) k_lw_thread_none k_protocol_selector_all u n WITH_SSL direction packet_type
         (sc_orig_dport conn) None rnd).

Lemma ssl_buf_spec st id args n d :
  0 < n ->
  let conn := plaintext_conn (tls_maps st) id (sa_ssl args) in
  let st' := handle_ssl_buf c l t e h te mem packet_type rnd st id (Some args) n d in
  tls_ts st' = dispatched (tls_ts st) conn (mem (sa_buf args)) n d
  /\ lookup_ssl_conn (tls_maps st') (pid_from_pid_tgid id) (sa_ssl args) = Some conn
  /\ ssl_to_pid_tid (tls_maps st') !! mk_ptr_key (sa_ssl args) (pid_from_pid_tgid id) = None.
Proof.
  intros Hn. cbv zeta. unfold handle_ssl_buf, plaintext_conn, dispatched, lookup_ssl_conn. rewrite (proj2 (Z.leb_gt _ _) Hn).
  set (key := mk_ptr_key (sa_ssl args) (pid_from_pid_tgid id)). destruct (ssl_to_conn (tls_maps st) !! key) as [conn|] eqn:Hc.
  - cbn. split_and!; [done|done|apply lookup_delete_eq].
  - destruct (connection_by_thread (tls_maps st) id key) as [conn|]; cbn; (split_and!; [done|apply lookup_insert_eq|apply lookup_delete_eq]).
Qed.

(** Plain text is not lost for want of a connection, and not misplaced for good.  Plain text of an SSL
    whose connection is not known is handled all the same, under a connection made of the SSL's
    address; the SSL is still one that waits for its peer, so the next record its write BIO and a socket
    carry binds it, and plain text it reads or writes from then on is handled under the connection of
    that socket, as TLS, with the port the socket was connected to. *)
Theorem ssl_late_binding st ok id ssl buf n d r w ts_w rbuf rec s0 now s copied pc dport id' buf' n' :
  ok <> 0 -> 0 < n -> 0 < n' -> w <> 0 -> pid_from_pid_tgid id' = pid_from_pid_tgid id -> pc_pid pc = pid_from_pid_tgid id ->
  plaintext_conn (tls_maps st) id ssl = fake_connection id ssl ->
  tls_record_wf rec -> uagree (zlen (tls_record_bytes rec)) (mem rbuf) (list_umem (tls_record_bytes rec ++ s0)) ->
  u64 (now - ts_w) <= k_tls_prefix_max_age_ns -> Z.min 32 (zlen (tls_record_bytes rec)) <= copied ->
  let st1 := handle_ssl_buf c l t e h te mem packet_type rnd st id (Some (mk_ssl_args ssl buf 0 0)) n d in
  let st2 := uprobe_ssl_set_bio st1 ok id ssl r w in
  let st3 := uprobe_bio_write mem st2 ok id ts_w w rbuf (zlen (tls_record_bytes rec)) in
  let sent := tls_record_bytes rec ++ s in
  let '(v, bound) := tls_prefix_try_bind (tls_view st3) now id (list_buf sent) copied (zlen sent) pc dport in
  let st4 := set_tls_view st3 v in
  let st5 := uretprobe_ssl_write c l t e h te mem packet_type rnd (uprobe_ssl_write st4 ok id' ssl buf') ok id' n' in
  tls_ts st1 = dispatched (tls_ts st) (fake_connection id ssl) (mem buf) n d
  /\ bound = true /\ is_ssl_connection (ts_span (tls_ts st4)) pc = Some ssl
  /\ tls_ts st5 = dispatched (tls_ts st4) (mk_ssl_conn pc dport) (mem buf') n' TCP_SEND.
Proof.
  intros Hok Hn Hn' Hw Hid Hpid Hfake Hwf Hu Hage Hcop st1 st2 st3 sent.
  destruct (ssl_buf_spec st id (mk_ssl_args ssl buf 0 0) n d Hn) as (Hd & Hl & _). fold st1 in Hd, Hl. cbn [sa_ssl sa_buf] in Hd, Hl.
  rewrite Hfake in Hd, Hl.
  assert (Hneeds : tls_prefix_needs_binding (tls_maps st1) (pid_from_pid_tgid id) ssl = true)
    by (unfold tls_prefix_needs_binding, lookup_ssl_conn in *; by rewrite Hl).
  destruct (bind_completes (tls_view st1) (pid_from_pid_tgid id) ssl r w ts_w (mem rbuf) s0 rec [] now id s copied pc dport
    Hw Hneeds Hwf Hu (Forall_nil_2 _) eq_refl Hage Hcop) as (v & Hv & Ha & Hc).
  assert (E3 : tls_view st3 = tls_run [op_set_bio (pid_from_pid_tgid id) ssl r w;
    op_bio_write ts_w (pid_from_pid_tgid id) w (mem rbuf) (zlen (tls_record_bytes rec))] (tls_view st1)).
  { unfold st3, st2, uprobe_bio_write, uprobe_ssl_set_bio. by rewrite (proj2 (Z.eqb_neq _ _) Hok). }
  rewrite <- E3 in Hv. cbv zeta in Hv. fold sent in Hv. rewrite Hv. split; [exact Hd|]. split; [done|]. split; [exact Ha|].
  unfold uretprobe_ssl_write, uprobe_ssl_write, ssl_write_entry. rewrite (proj2 (Z.eqb_neq _ _) Hok). cbn [set_tls_maps tls_maps active_ssl_write_args set_write_args].
  rewrite lookup_insert_eq. destruct (ssl_buf_spec (set_tls_maps (set_tls_maps (set_tls_view st3 v)
    (set_write_args (tl_own v) (<[id':=mk_ssl_args ssl buf' 0 0]> (active_ssl_write_args (tl_own v)))))
    (set_write_args (set_write_args (tl_own v) (<[id':=mk_ssl_args ssl buf' 0 0]> (active_ssl_write_args (tl_own v))))
       (delete id' (<[id':=mk_ssl_args ssl buf' 0 0]> (active_ssl_write_args (tl_own v)))))) id' (mk_ssl_args ssl buf' 0 0) n' TCP_SEND Hn')
    as (H1 & _). etransitivity; [exact H1|]. cbn [sa_ssl sa_buf]. f_equal. unfold plaintext_conn. cbn.
  unfold lookup_ssl_conn in Hc. rewrite Hpid in Hc. by rewrite Hid, Hc.
Qed.

End facts.

(** ** Witnesses *)

Definition example_tls_tracer (o : tls_own) : tls_tracer := mk_tt (example_tracer_state empty_tmaps ∅) o.

(** An SSL bound to [example_tls_conn]. *)
Definition example_bound : tls_own :=
  set_ssl_to_conn no_tls {[mk_ptr_key 0x100 5 := mk_ssl_conn example_tls_conn 443]}.

Lemma ssl_release_once_witness :
  released (tls_maps (uprobe_ssl_free example_conf empty_links example_task (example_tls_tracer example_bound) 5 (Z.shiftl 5 32) 0x100)) 5 0x100.
Proof.
  exact (proj1 (ssl_release_once example_conf empty_links example_task (example_tls_tracer example_bound) 5 (Z.shiftl 5 32) 0x100
    ltac:(discriminate))).
Defined.

(** Memory with a TLS record at address 1 and a request at every other. *)
Definition example_mem (a : Z) : umem :=
  if a =? 1 then list_umem (tls_record_bytes example_tls_record) else list_umem [71; 69; 84; 32; 47; 32; 72; 84; 84; 80; 47; 49; 46; 49; 13; 10].

Lemma ssl_late_binding_witness :
  let st1 := handle_ssl_buf example_conf empty_links example_task example_henv example_h2_chain (example_tcp_env 100) example_mem 0 7
    (example_tls_tracer no_tls) (Z.shiftl 5 32) (Some (mk_ssl_args 0x100 2 0 0)) 16 TCP_SEND in
  let st2 := uprobe_ssl_set_bio st1 5 (Z.shiftl 5 32) 0x100 0x200 0x300 in
  let st3 := uprobe_bio_write example_mem st2 5 (Z.shiftl 5 32) 1000 0x300 1 (zlen (tls_record_bytes example_tls_record)) in
  let sent := tls_record_bytes example_tls_record ++ [1; 2] in
  snd (tls_prefix_try_bind (tls_view st3) 2000 (Z.shiftl 5 32) (list_buf sent) 40 (zlen sent) example_tls_conn 443) = true.
Proof.
  cbv zeta. pose proof (ssl_late_binding example_conf empty_links example_task example_henv example_h2_chain (example_tcp_env 100) example_mem 0 7
    (example_tls_tracer no_tls) 5 (Z.shiftl 5 32) 0x100 2 16 TCP_SEND 0x200 0x300 1000 1 example_tls_record [] 2000 [1; 2] 40 example_tls_conn 443
    (Z.shiftl 5 32 + 1) 2 16) as H. cbv zeta in H.
  destruct (tls_prefix_try_bind _ _ _ _ _ _ _ _) as [v bound]. apply H; try discriminate; try reflexivity.
  - by vm_compute.
  - intros i _. by rewrite app_nil_r.
Defined.
