(* ===== verification/KProbes.v ===== *)
(** * The socket probes of the generic tracer ([bpf/generictracer/k_tracer.c], [k_send_receive.h], [send_buffer.h],
      [common/sockaddr.h], [common/fd_info.h], [maps/fd_map.h]).

    Connections begin in connect and accept, carry buffers in [tcp_sendmsg] and [tcp_recvmsg], and end in
    [tcp_close].  A probe finds the buffer of the call (in the caller's memory, in the copy a sock_msg
    program left, or in what the socket filter captured), keeps ciphertext away from the parsers, and hands
    plain text to the dispatcher ([Dispatch.handle_buf]).

    [kstate] is the state of the dispatcher and the TLS maps ([tls_tracer]), the DNS maps, the maps of these
    probes, and, for the statements, the list of what was handed to the dispatcher.  [kenv] is what one probe
    reads: the running task and [valid_pid] for it, clock, kernel sockets by address, user memory, the CPU and
    its scratch memory.  The tail call into the dispatcher does not return.  The Java HTTP/1 reservations
    ([g_bpf_java_http1_enabled], off by default) are not represented. *)

From Stdlib Require Import ZArith Lia ZifyBool List Bool.
From stdpp Require Import base list countable gmap.
From S2P Require Import Prelude TraceUtil Sampling H2Defs Entry IovIter ConnInfo Packet LargeBuf TlsRecord HttpInfo TcpReq TraceMaps TraceParent Dns TraceLife.
From S2P Require Import HttpSpan HttpTrace TlsPrefix TcpSpan H2Stream H2Frames H2Walk Dispatch SslProbes.

Local Open Scope Z_scope.

(** ** Kernel sockets *)

Definition AF_INET6 : Z := 10.
Definition TCP_SYN_SENT : Z := 2.
Definition TCP_SYN_RECV : Z := 3.
Definition TCP_CLOSE : Z := 7.
Definition EINPROGRESS : Z := 115.
Definition k_backup_buffer_len : Z := 256.

#[export] Hint Unfold AF_INET6 TCP_SYN_SENT TCP_SYN_RECV TCP_CLOSE EINPROGRESS k_backup_buffer_len : kconst.

(** What is read of a [struct sock]; the port of the peer is in network order. *)
Record ksock := mk_ksock {
  skc_family : Z;
  skc_num : Z;
  skc_dport : Z;
  skc_rcv_saddr : list Z;
  skc_daddr : list Z;
  skc_v6_rcv_saddr : list Z;
  skc_v6_daddr : list Z;
  skc_state : Z;
  sk_bytes_acked : Z;
  sk_netns : Z;
  sk_counters : option sock_bytes
}.

Definition parse_sock_info (s : option ksock) : option connection_info :=
  match s with
  | None => None
  | Some s =>
      if skc_family s =? AF_INET then
        Some (mk_conn (ip4ip6_prefix ++ skc_rcv_saddr s) (ip4ip6_prefix ++ skc_daddr s) (skc_num s) (bswap16 (skc_dport s)))
      else if skc_family s =? AF_INET6 then
        Some (mk_conn (skc_v6_rcv_saddr s) (skc_v6_daddr s) (skc_num s) (bswap16 (skc_dport s)))
      else None
  end.

Definition tcp_never_connected (sk_state bytes_acked : Z) : bool :=
  if (sk_state =? TCP_SYN_SENT) || (sk_state =? TCP_SYN_RECV) then true
  else if negb (sk_state =? TCP_CLOSE) then false
  else bytes_acked =? 0.

Definition is_tcp_socket_never_connected (s : option ksock) : bool :=
  match s with None => true | Some s => tcp_never_connected (skc_state s) (sk_bytes_acked s) end.

Definition sock_port_ns_from_sk (s : option ksock) : Z * Z :=
  match s with None => (0, 0) | Some s => (skc_num s, sk_netns s) end.

(** ** State *)

Record sock_args := mk_sock_args { ka_addr : Z; ka_ts : Z; ka_fd : Z; ka_failed : Z }.

Record send_args := mk_send_args {
  sn_p_conn : pid_connection_info;
  sn_size : Z;
  sn_sock_ptr : Z;
  sn_orig_dport : Z;
  sn_buffer_read : Z
}.

Record recv_args := mk_recv_args { rv_sock_ptr : Z; rv_msg_ptr : Z; rv_iovec_ctx : iovec_iter_ctx }.

Record backup_buffer := mk_backup { bb_buf : list Z; bb_tcp_seq : Z }.

Record kprobe_maps := mk_kmaps {
  active_accept_args : gmap Z sock_args;
  active_connect_args : gmap Z sock_args;
  active_send_args : gmap Z send_args;
  active_send_sock_args : gmap Z send_args;
  active_recv_args : gmap Z recv_args;
  msg_buffers : gmap egress_key msg_buffer;
  sock_filter_buffers : gmap connection_info backup_buffer;
  unreadable_buffer_ports : gset Z;
  filter_ports : gset Z;
  km_listening_ports : gset (Z * Z);
  km_links : links
}.

(** The connection, memory, length and direction of a buffer given to the dispatcher. *)
Record handed := mk_handed { hd_conn : pid_connection_info; hd_mem : umem; hd_len : Z; hd_direction : Z }.

Record kstate := mk_ks { ks_tls : tls_tracer; ks_dns : dns_state; ks_maps : kprobe_maps; ks_handed : list handed }.

Definition set_accept_args (m : kprobe_maps) x : kprobe_maps :=
  mk_kmaps x (active_connect_args m) (active_send_args m) (active_send_sock_args m) (active_recv_args m) (msg_buffers m)
    (sock_filter_buffers m) (unreadable_buffer_ports m) (filter_ports m) (km_listening_ports m) (km_links m).
Definition set_connect_args (m : kprobe_maps) x : kprobe_maps :=
  mk_kmaps (active_accept_args m) x (active_send_args m) (active_send_sock_args m) (active_recv_args m) (msg_buffers m)
    (sock_filter_buffers m) (unreadable_buffer_ports m) (filter_ports m) (km_listening_ports m) (km_links m).
Definition set_send_args (m : kprobe_maps) x y : kprobe_maps :=
  mk_kmaps (active_accept_args m) (active_connect_args m) x y (active_recv_args m) (msg_buffers m)
    (sock_filter_buffers m) (unreadable_buffer_ports m) (filter_ports m) (km_listening_ports m) (km_links m).
Definition set_recv_args (m : kprobe_maps) x : kprobe_maps :=
  mk_kmaps (active_accept_args m) (active_connect_args m) (active_send_args m) (active_send_sock_args m) x (msg_buffers m)
    (sock_filter_buffers m) (unreadable_buffer_ports m) (filter_ports m) (km_listening_ports m) (km_links m).
Definition set_msg_buffers (m : kprobe_maps) x : kprobe_maps :=
  mk_kmaps (active_accept_args m) (active_connect_args m) (active_send_args m) (active_send_sock_args m) (active_recv_args m) x
    (sock_filter_buffers m) (unreadable_buffer_ports m) (filter_ports m) (km_listening_ports m) (km_links m).
Definition set_filter_buffers (m : kprobe_maps) x : kprobe_maps :=
  mk_kmaps (active_accept_args m) (active_connect_args m) (active_send_args m) (active_send_sock_args m) (active_recv_args m) (msg_buffers m)
    x (unreadable_buffer_ports m) (filter_ports m) (km_listening_ports m) (km_links m).
Definition set_unreadable (m : kprobe_maps) x : kprobe_maps :=
  mk_kmaps (active_accept_args m) (active_connect_args m) (active_send_args m) (active_send_sock_args m) (active_recv_args m) (msg_buffers m)
    (sock_filter_buffers m) x (filter_ports m) (km_listening_ports m) (km_links m).
Definition set_ports (m : kprobe_maps) listening filter : kprobe_maps :=
  mk_kmaps (active_accept_args m) (active_connect_args m) (active_send_args m) (active_send_sock_args m) (active_recv_args m) (msg_buffers m)
    (sock_filter_buffers m) (unreadable_buffer_ports m) filter listening (km_links m).
Definition set_km_links (m : kprobe_maps) x : kprobe_maps :=
  mk_kmaps (active_accept_args m) (active_connect_args m) (active_send_args m) (active_send_sock_args m) (active_recv_args m) (msg_buffers m)
    (sock_filter_buffers m) (unreadable_buffer_ports m) (filter_ports m) (km_listening_ports m) x.

Definition set_fd_map (l : links) x : links :=
  mk_links (clone_map l) (java_tasks l) (java_vt_threads l) (active_unix_socks l) x (nginx_upstream l) (puma_worker_tasks l)
    (puma_task_connections l) (nodejs_fd_map l) (fd_to_connection l) (ongoing_goroutines l) (python_thread_states l) (python_task_states l)
    (python_context_tasks l) (node_manual_ctx_shadow l) (user_u64 l).
Definition set_fd_to_connection (l : links) x : links :=
  mk_links (clone_map l) (java_tasks l) (java_vt_threads l) (active_unix_socks l) (fd_map l) (nginx_upstream l) (puma_worker_tasks l)
    (puma_task_connections l) (nodejs_fd_map l) x (ongoing_goroutines l) (python_thread_states l) (python_task_states l)
    (python_context_tasks l) (node_manual_ctx_shadow l) (user_u64 l).
Definition set_thread_links (l : links) clones vts : links :=
  mk_links clones (java_tasks l) vts (active_unix_socks l) (fd_map l) (nginx_upstream l) (puma_worker_tasks l)
    (puma_task_connections l) (nodejs_fd_map l) (fd_to_connection l) (ongoing_goroutines l) (python_thread_states l) (python_task_states l)
    (python_context_tasks l) (node_manual_ctx_shadow l) (user_u64 l).

Definition ks_ts (st : kstate) : tracer_state := tls_ts (ks_tls st).
Definition ks_span (st : kstate) : hstate := ts_span (ks_ts st).
Definition ks_tmaps (st : kstate) : tmaps := hs_maps (ks_span st).
Definition ks_links (st : kstate) : links := km_links (ks_maps st).

Definition with_maps (st : kstate) (f : kprobe_maps -> kprobe_maps) : kstate := mk_ks (ks_tls st) (ks_dns st) (f (ks_maps st)) (ks_handed st).
Definition with_span (st : kstate) (f : hstate -> hstate) : kstate :=
  mk_ks (set_tls_span (ks_tls st) (f (ks_span st))) (ks_dns st) (ks_maps st) (ks_handed st).
Definition with_tmaps (st : kstate) (f : tmaps -> tmaps) : kstate := with_span st (fun sp => set_maps sp (f (hs_maps sp))).
Definition with_view (st : kstate) (f : tls_state -> tls_state) : kstate :=
  mk_ks (set_tls_view (ks_tls st) (f (tls_view (ks_tls st)))) (ks_dns st) (ks_maps st) (ks_handed st).
Definition with_own (st : kstate) (f : tls_own -> tls_own) : kstate :=
  mk_ks (set_tls_maps (ks_tls st) (f (tls_maps (ks_tls st)))) (ks_dns st) (ks_maps st) (ks_handed st).
Definition with_tcp (st : kstate) (f : tcp_state -> tcp_state) : kstate :=
  let ts := ks_ts st in
  mk_ks (mk_tt (mk_tracer_state (f (ts_tcp ts)) (ts_cache ts) (ts_h2 ts)) (tls_maps (ks_tls st))) (ks_dns st) (ks_maps st) (ks_handed st).

(** The DNS probes work on the trace maps of the tracer. *)
Definition with_dns (st : kstate) (f : dns_state -> dns_state) : kstate :=
  let d := ks_dns st in
  let d := f (mk_dns (ks_tmaps st) (unconn_dns_socks d) (dns_pending d) (sock_pids d) (dns_events d)) in
  with_tmaps (mk_ks (ks_tls st) d (ks_maps st) (ks_handed st)) (fun _ => ds_maps d).

(** What one probe reads. *)
Record kenv := mk_kenv {
  ke_conf : tconf;
  ke_task : task;
  ke_ok : bool;
  ke_now : nat -> Z;
  ke_http : henv;
  ke_h2 : h2_chain_env;
  ke_tcp : tcp_env;
  ke_dns : dns_env;
  (** what an earlier buffer left in the arguments of the dispatcher, and a random word *)
  ke_packet_type : Z;
  ke_rnd : Z;
  ke_sock : Z -> option ksock;
  (** [socket->sk] by the address of the socket *)
  ke_socket_sk : Z -> Z;
  (** the message header at an address *)
  ke_msg : Z -> option msghdr;
  ke_iov : iov_env;
  (** [iovec_mem], and [msg_buffer_mem] of this CPU *)
  ke_scratch : list Z;
  ke_cpu : Z;
  ke_msg_mem : option (list Z);
  (** the memory behind an element of [sock_filter_buffers] *)
  ke_behind : umem
}.

Section probes.
Variable (e : kenv).

Definition cur_id : Z := cur_pid_tgid (ke_task e).
Definition set_listening (te : tcp_env) (ports : gset (Z * Z)) : tcp_env :=
  mk_tcp_env (mysql_max_captured_bytes te) (postgres_max_captured_bytes te) (kafka_max_captured_bytes te) (mssql_max_captured_bytes te)
    (aerospike_max_captured_bytes te) (tcp_max_captured_bytes te) ports (te_netns te) (te_lb_mem te) (te_accepts te) (te_sampler te)
    (te_scratch te) (te_now te) (te_span te) (te_trace te).
Definition tcp_env_of (st : kstate) : tcp_env := set_listening (ke_tcp e) (km_listening_ports (ks_maps st)).

(** [handle_buf_with_connection]: whether the tail call was made, after which the probe is over. *)
Definition handle_buf_with_connection (st : kstate) (pc : pid_connection_info) (u : umem) (bytes_len direction orig_dport sk : Z)
    : kstate * bool :=
  let n := s32 bytes_len in
  if n <=? 0 then (st, false)
  else
    let ts :=
      fst (handle_buf (ke_conf e) (ks_links st) (ke_task e) (ke_http e) (ke_h2 e) (tcp_env_of st) (ks_ts st) pc k_lw_thread_none
             k_protocol_selector_all u n NO_SSL direction (ke_packet_type e) orig_dport (ke_sock e sk ≫= sk_counters) (ke_rnd e)) in
    (mk_ks (mk_tt ts (tls_maps (ks_tls st))) (ks_dns st) (ks_maps st) (ks_handed st ++ [mk_handed pc u n direction]), true).

(** ** Accept *)

Definition obi_kprobe_security_socket_accept (st : kstate) (newsock : Z) : kstate :=
  if negb (ke_ok e) then st
  else with_maps st (fun m => set_accept_args m (<[cur_id := mk_sock_args newsock 0 0 0]> (active_accept_args m))).

Definition store_fd_info (st : kstate) (fd type : Z) (addr : list Z) (port pid : Z) : kstate :=
  let info := mk_fd_info (cur_tid (ke_task e)) fd type in
  with_maps st (fun m => set_km_links m (set_fd_map (km_links m) (<[mk_part addr pid port type := info]> (fd_map (km_links m))))).

Definition store_accept_fd_info (st : kstate) (pid fd : Z) (conn : connection_info) : kstate :=
  store_fd_info st fd FD_SERVER (d_addr conn) (d_port conn) pid.
Definition store_connect_fd_info (st : kstate) (pid fd : Z) (conn : connection_info) : kstate :=
  store_fd_info st fd FD_CLIENT (s_addr conn) (s_port conn) pid.

(** [bpf_map_update_elem(&pid_tid_to_conn, ...)] and [connection_tracker]. *)
Definition set_thread_conn (st : kstate) (info : ssl_pid_connection_info) : kstate :=
  with_own st (fun o => set_pid_tid_to_conn o (<[cur_id := info]> (pid_tid_to_conn o))).
Definition track_connection (st : kstate) (conn : connection_info) (time : Z) : kstate :=
  with_span st (fun sp => set_tracker sp (<[conn := time]> (connection_tracker sp))).

Definition obi_kretprobe_sys_accept4 (st : kstate) (fd : Z) : kstate :=
  if negb (ke_ok e) then st
  else
    let id := cur_id in
    let st :=
      match (if fd <? 0 then None else active_accept_args (ks_maps st) !! id) with
      | None => st
      | Some args =>
          let sk := ke_sock e (ke_socket_sk e (ka_addr args)) in
          let np := sock_port_ns_from_sk sk in
          let st := with_maps st (fun m => set_ports m ({[np]} ∪ km_listening_ports m) ({[np.1]} ∪ filter_ports m)) in
          match parse_sock_info sk with
          | None => st
          | Some conn =>
              let host_pid := pid_from_pid_tgid id in
              let st := store_accept_fd_info st host_pid fd conn in
              let sorted := sort_connection_info conn in
              let st := set_thread_conn st (mk_ssl_conn (mk_pid_conn sorted host_pid) (d_port conn)) in
              let st := with_maps st (fun m => set_km_links m (set_fd_to_connection (km_links m)
                          (<[mk_fd_key id fd := sorted]> (fd_to_connection (km_links m))))) in
              track_connection st sorted (ke_now e 0%nat)
          end
      end in
    with_maps st (fun m => set_accept_args m (delete id (active_accept_args m))).

(** ** Connect *)

Definition obi_kprobe_sys_connect (st : kstate) (fd : Z) : kstate :=
  if negb (ke_ok e) then st
  else with_maps st (fun m => set_connect_args m (<[cur_id := mk_sock_args 0 (ke_now e 0%nat) fd 0]> (active_connect_args m))).

Definition obi_kprobe_tcp_connect (st : kstate) (sk : Z) : kstate :=
  if negb (ke_ok e) then st
  else
    let st := with_dns st (fun d => store_sock_pid (ks_links st) d (ke_task e) (ke_now e 0%nat) (parse_sock_info (ke_sock e sk))) in
    match active_connect_args (ks_maps st) !! cur_id with
    | None => st
    | Some args =>
        let st :=
          match parse_sock_info (ke_sock e (ka_addr args)) with
          | None => st
          | Some conn =>
              with_tmaps st (fun m => set_cp_support m (delete (mk_pid_conn conn (pid_from_pid_tgid cur_id)) (cp_support_connect_info m)))
          end in
        with_maps st (fun m => set_connect_args m (<[cur_id := mk_sock_args sk (ka_ts args) (ka_fd args) (ka_failed args)]> (active_connect_args m)))
    end.

Definition set_established (d : cp_support_data) : cp_support_data := mk_cp_data (cp_t_key d) (cp_ts d) (cp_real_client d) 1 (cp_failed d).
Definition set_cp_failed (d : cp_support_data) : cp_support_data := mk_cp_data (cp_t_key d) (cp_ts d) (cp_real_client d) (cp_established d) 1.

Definition cp_support_established (st : kstate) (pc : pid_connection_info) : kstate :=
  with_tmaps st (fun m => set_cp_support m (alter set_established pc (cp_support_connect_info m))).

Definition setup_cp_support_conn_info (st : kstate) (pc : pid_connection_info) (real_client : bool) (now : Z) : kstate :=
  let keep :=
    negb real_client && match cp_support_connect_info (ks_tmaps st) !! pc with Some d => nz (cp_real_client d) | None => false end in
  if keep then st
  else
    let ct := mk_cp_data (trace_key_from_pid_tid (ks_links st) (ke_task e)) now (b2z real_client) (b2z (negb real_client)) 0 in
    with_tmaps st (fun m => set_cp_support m (<[pc := ct]> (cp_support_connect_info m))).

Definition obi_kretprobe_sys_connect (st : kstate) (res : Z) : kstate :=
  if negb (ke_ok e) then st
  else
    let id := cur_id in
    let st :=
      match (if (res <? 0) && negb (res =? - EINPROGRESS) then None else active_connect_args (ks_maps st) !! id) with
      | None => st
      | Some args =>
          match parse_sock_info (ke_sock e (ka_addr args)) with
          | None => st
          | Some conn =>
              let host_pid := pid_from_pid_tgid id in
              let st := store_connect_fd_info st host_pid (ka_fd args) conn in
              let pc := mk_pid_conn (sort_connection_info conn) host_pid in
              let st := set_thread_conn st (mk_ssl_conn pc (d_port conn)) in
              let st := setup_cp_support_conn_info st pc true (ke_now e 0%nat) in
              let st := if res =? 0 then cp_support_established st pc else st in
              let st := track_connection st (pc_conn pc) (ke_now e 1%nat) in
              if nz (ka_failed args)
              then with_tmaps st (fun m => set_cp_support m (alter set_cp_failed pc (cp_support_connect_info m)))
              else st
          end
      end in
    with_maps st (fun m => set_connect_args m (delete id (active_connect_args m))).

(** ** Send *)

Definition is_ssl (st : kstate) (pc : pid_connection_info) : option Z := is_ssl_connection (ks_span st) pc.

Definition del_send_args (st : kstate) (id : Z) : kstate :=
  with_maps st (fun m => set_send_args m (delete id (active_send_args m)) (active_send_sock_args m)).
Definition del_msg_buffer (st : kstate) (k : egress_key) : kstate :=
  with_maps st (fun m => set_msg_buffers m (delete k (msg_buffers m))).

Definition tcp_send_ssl_check (st : kstate) (ssl : Z) (pc : pid_connection_info) (orig_dport : Z) : kstate :=
  if ssl =? 0 then st
  else
    let st :=
      match lookup_ssl_conn (tls_maps (ks_tls st)) (pc_pid pc) ssl with
      | Some s_conn =>
          with_span st (fun sp => finish_possible_delayed_tls_http_request (ke_conf e) (ks_links st) (ke_task e) sp (sc_p_conn s_conn))
      | None => st
      end in
    with_own st (fun o => set_ssl_to_conn o (<[mk_ptr_key ssl (pc_pid pc) := mk_ssl_conn pc orig_dport]> (ssl_to_conn o))).

Definition setup_connection_to_pid_mapping (st : kstate) (pc : pid_connection_info) (orig_dport : Z) : kstate :=
  let known :=
    match pid_tid_to_conn (tls_maps (ks_tls st)) !! cur_id with
    | Some prev =>
        let c := pc_conn (sc_p_conn prev) in
        (d_port c =? d_port (pc_conn pc)) && (s_port c =? s_port (pc_conn pc))
    | None => false
    end in
  if known then st else set_thread_conn st (mk_ssl_conn pc orig_dport).

Definition try_bind (st : kstate) (now : Z) (b : list Z) (copied avail : Z) (pc : pid_connection_info) (orig_dport : Z) : kstate * option Z :=
  let '(x, bound) := tls_prefix_try_bind (tls_view (ks_tls st)) now cur_id (list_buf b) (u32 copied) (u32 avail) pc orig_dport in
  let st := with_view st (fun _ => x) in
  (st, if bound then is_ssl st pc else None).

(** The copy that a sock_msg program left for the connection, once: its octets and their number, 0 when it
    was taken before.  [None]: the per-CPU memory is not there and the probe gives up. *)
Definition take_msg_buffer (st : kstate) (k : egress_key) (mb : msg_buffer) : option (list Z * Z * kstate) :=
  let use_fallback := negb (cpu_id mb =? ke_cpu e) in
  match (if use_fallback then Some (fallback_buf mb) else ke_msg_mem e) with
  | None => None
  | Some b =>
      if mb_pos mb =? 0 then
        let size := if use_fallback then Z.min (real_size mb) k_kprobes_http2_buf_size else real_size mb in
        let mb := mk_msg_buffer (fallback_buf mb) (u16 size) (real_size mb) (cpu_id mb) in
        Some (b, size, with_maps st (fun m => set_msg_buffers m (<[k := mb]> (msg_buffers m))))
      else Some (b, 0, st)
  end.

(** The plain text [b] is remembered as read and given to the dispatcher. *)
Definition send_buffer_read (st : kstate) (pc : pid_connection_info) (orig_dport : Z) (k : egress_key) (sk args_size : Z) (b : list Z) (size : Z)
    : kstate * bool :=
  let s := mk_send_args pc args_size sk orig_dport 1 in
  let st := with_maps st (fun m => set_send_args m (<[cur_id := s]> (active_send_args m)) (<[sk := s]> (active_send_sock_args m))) in
  handle_buf_with_connection (del_msg_buffer st k) pc (list_umem b) size TCP_SEND orig_dport sk.

(** The buffer could not be read: the socket filter is asked for it. *)
Definition request_backup (st : kstate) (pc : pid_connection_info) (orig_dport sk : Z) : kstate :=
  let s := mk_send_args pc (u64 (-1)) sk orig_dport 0 in
  let empty := mk_backup (repeat 0 (Z.to_nat k_backup_buffer_len)) 0 in
  with_maps st (fun m => set_filter_buffers (set_send_args m (<[cur_id := s]> (active_send_args m)) (active_send_sock_args m))
                           (<[pc_conn pc := empty]> (sock_filter_buffers m))).

(** A send on a connection not known to be TLS: the SSL it turned out to have, the state, and whether the
    probe is over. *)
Definition send_plain (st : kstate) (pc : pid_connection_info) (orig_dport : Z) (k : egress_key) (sk : Z) (iter : kernel_iter) (size : Z)
    : option Z * kstate * bool :=
  let '(n, b) := read_msghdr_buf (ke_iov e) iter (ke_scratch e) size in
  let '(st, ssl) := try_bind st (ke_now e 0%nat) b n size pc orig_dport in
  match ssl with
  | Some _ => (ssl, del_msg_buffer st k, false)
  | None =>
      let found :=
        if negb (n =? 0) then Some (b, n, st)
        else match msg_buffers (ks_maps st) !! k with None => Some (b, 0, st) | Some mb => take_msg_buffer st k mb end in
      match found with
      | None => (None, st, true)
      | Some (b, n, st) =>
          if n =? 0 then (None, request_backup st pc orig_dport sk, true)
          else
            let '(st, ssl) := try_bind st (ke_now e 1%nat) b n n pc orig_dport in
            match ssl with
            | Some _ => (ssl, del_msg_buffer st k, false)
            | None =>
                let '(st, over) := send_buffer_read st pc orig_dport k sk size b n in
                (None, (if over then st else del_msg_buffer st k), over)
            end
      end
  end.

Definition obi_kprobe_tcp_sendmsg (st : kstate) (sk : Z) (iter : kernel_iter) (size : Z) : kstate :=
  if negb (ke_ok e) then st
  else
    match parse_sock_info (ke_sock e sk) with
    | None => st
    | Some conn =>
        let orig_dport := d_port conn in
        let k := make_egress_key conn in
        let pc := mk_pid_conn (sort_connection_info conn) (pid_from_pid_tgid cur_id) in
        let st := cp_support_established st pc in
        let st := with_view st (fun x => connect_ssl_to_connection x cur_id pc TCP_SEND orig_dport) in
        let st := setup_connection_to_pid_mapping st pc orig_dport in
        let '(ssl, st, over) :=
          match is_ssl st pc with
          | Some s => (Some s, st, false)
          | None => if nz size then send_plain st pc orig_dport k sk iter size else (None, st, false)
          end in
        if over then st
        else match ssl with None => st | Some s => del_send_args (tcp_send_ssl_check st s pc orig_dport) cur_id end
    end.

Definition obi_kprobe_tcp_rate_check_app_limited (st : kstate) (sk : Z) : kstate :=
  if negb (ke_ok e) then st
  else
    match parse_sock_info (ke_sock e sk) with
    | None => st
    | Some conn =>
        let orig_dport := d_port conn in
        let k := make_egress_key conn in
        let pc := mk_pid_conn (sort_connection_info conn) (pid_from_pid_tgid cur_id) in
        let st := with_view st (fun x => connect_ssl_to_connection x cur_id pc TCP_SEND orig_dport) in
        let st := setup_connection_to_pid_mapping st pc orig_dport in
        let st := cp_support_established st pc in
        let '(ssl, st, over) :=
          match is_ssl st pc, msg_buffers (ks_maps st) !! k with
          | Some s, _ => (Some s, st, false)
          | None, None => (None, st, false)
          | None, Some mb =>
              match take_msg_buffer st k mb with
              | None => (None, st, true)
              | Some (b, size, st) =>
                  if mb_pos mb =? 0 then
                    let '(st, ssl) := try_bind st (ke_now e 0%nat) b size size pc orig_dport in
                    match ssl with
                    | Some _ => (ssl, del_msg_buffer st k, false)
                    | None =>
                        let '(st, over) := send_buffer_read st pc orig_dport k sk size b size in
                        (None, (if over then st else del_msg_buffer st k), over)
                    end
                  else (None, del_msg_buffer st k, false)
              end
          end in
        if over then st else match ssl with None => st | Some s => tcp_send_ssl_check st s pc orig_dport end
    end.

(** A captured buffer as the memory it lies in. *)
Definition backup_umem (b : backup_buffer) : umem :=
  fun a => if a <? k_backup_buffer_len then list_umem (bb_buf b) a else ke_behind e a.

Definition flush_backup_send_buffer (st : kstate) (id : Z) (s : send_args) : kstate :=
  if nz (sn_buffer_read s) then st
  else
    match sock_filter_buffers (ks_maps st) !! pc_conn (sn_p_conn s) with
    | None => st
    | Some backup =>
        fst (handle_buf_with_connection (del_send_args st id) (sn_p_conn s) (backup_umem backup) (sn_size s) TCP_SEND (sn_orig_dport s) (sn_sock_ptr s))
    end.

Definition obi_kretprobe_tcp_sendmsg (st : kstate) (sent_len : Z) : kstate :=
  if negb (ke_ok e) then st
  else
    let id := cur_id in
    let st :=
      match active_send_args (ks_maps st) !! id with
      | None => st
      | Some s =>
          let st := if 0 <? sent_len then with_span st (fun sp => update_http_sent_len sp (sn_p_conn s) sent_len) else st in
          let st :=
            if sent_len <? MIN_HTTP_SIZE
            then with_span st (fun sp => finish_possible_delayed_http_request (ke_conf e) (ks_links st) (ke_task e) sp (sn_p_conn s))
            else st in
          flush_backup_send_buffer st id s
      end in
    del_send_args st id.

(** ** [k_send_receive.h] *)

Definition same_direction (sp : hstate) (pc : pid_connection_info) (direction : Z) : bool :=
  match http_of sp pc with
  | Some i =>
      if negb (nz (hi_submitted i)) then
        ((hi_type i =? k_event_type_http_request) && (direction =? TCP_SEND)) || ((hi_type i =? k_event_type_http_client) && (direction =? TCP_RECV))
      else false
  | None => false
  end.

(** One of the two lookups of [ensure_sent_event]: the state, and whether to go on to the next. *)
Definition ensure_one (st : kstate) (s : option send_args) (direction : Z) : kstate * bool :=
  match s with
  | None => (st, true)
  | Some s =>
      if same_direction (ks_span st) (sn_p_conn s) direction then (st, false)
      else (with_span st (fun sp => finish_possible_delayed_http_request (ke_conf e) (ks_links st) (ke_task e) sp (sn_p_conn s)), true)
  end.

Definition ensure_sent_event (st : kstate) (id sock_p direction : Z) : kstate :=
  let '(st, go) := ensure_one st (active_send_args (ks_maps st) !! id) direction in
  if go then fst (ensure_one st (active_send_sock_args (ks_maps st) !! sock_p) direction) else st.

Definition should_ignore_unreadable (sp : hstate) (pc : pid_connection_info) (unreadable : bool) : bool :=
  if negb unreadable then false
  else match http_of sp pc with None => false | Some i => negb (http_info_complete i) end.

Definition force_one (st : kstate) (pc : option pid_connection_info) (unreadable : bool) (key : trace_key) (sk : Z) (now : Z) : kstate * bool :=
  match pc with
  | None => (st, true)
  | Some pc =>
      if should_ignore_unreadable (ks_span st) pc unreadable then (st, false)
      else (with_span st (fun sp => force_finish_possible_delayed_http_request (ke_conf e) (ks_links st) (ke_task e) sp pc (Some key)
                                      (ke_sock e sk ≫= sk_counters) now), true)
  end.

Definition force_sent_event (st : kstate) (id sock_p : Z) (pc : pid_connection_info) (unreadable : bool) (key : trace_key) : kstate :=
  let '(st, go) := force_one st (sn_p_conn <$> active_send_args (ks_maps st) !! id) unreadable key sock_p (ke_now e 0%nat) in
  if negb go then st
  else
    let '(st, go) := force_one st (sn_p_conn <$> active_send_sock_args (ks_maps st) !! sock_p) unreadable key sock_p (ke_now e 1%nat) in
    if negb go then st
    else fst (force_one st (if is_empty_connection_info (pc_conn pc) then None else Some pc) unreadable key sock_p (ke_now e 2%nat)).

(** ** Close *)

Definition is_port_unreadable (st : kstate) (port : Z) : bool :=
  if port =? 0 then false else bool_decide (port ∈ unreadable_buffer_ports (ks_maps st)).

Definition is_conn_unreadable (st : kstate) (conn : connection_info) : bool :=
  is_port_unreadable st (d_port conn) || is_port_unreadable st (s_port conn).

Definition obi_kprobe_tcp_close_finish (st : kstate) (sk : Z) : kstate :=
  let id := cur_id in
  let key := trace_key_from_pid_tid (ks_links st) (ke_task e) in
  let parsed := parse_sock_info (ke_sock e sk) in
  let info :=
    match parsed with
    | Some conn => mk_pid_conn (sort_connection_info conn) (pid_from_pid_tgid id)
    | None => mk_pid_conn empty_conn 0
    end in
  let unreadable := match parsed with Some _ => is_conn_unreadable st (pc_conn info) | None => false end in
  let st := force_sent_event st id sk info unreadable key in
  let st :=
    match parsed with
    | None => st
    | Some _ =>
        let st := with_span st (fun sp => terminate_http_request_if_needed (ke_conf e) (ks_links st) (ke_task e) sp info (Some key)) in
        let st := with_tcp st (fun x => finish_ongoing_tcp_req (ke_conf e) (ks_links st) (ke_task e) (tcp_env_of st) x info) in
        let st := with_tmaps st (fun m => set_h2_conns m (delete info (ongoing_http2_connections m))) in
        with_span st (fun sp => set_tracker sp (delete (pc_conn info) (connection_tracker sp)))
    end in
  with_maps st (fun m => set_send_args m (delete id (active_send_args m)) (delete sk (active_send_sock_args m))).

Definition report_failed_connect (st : kstate) (pc : pid_connection_info) (orig_dport ts : Z) : kstate :=
  with_tcp st (fun x => failed_to_connect_event (ke_conf e) (ks_links st) (ke_task e) (tcp_env_of st) x pc k_lw_thread_none orig_dport ts).

Definition obi_kprobe_tcp_close (st : kstate) (sk : Z) : kstate :=
  if negb (ke_ok e) then st
  else
    let st :=
      match parse_sock_info (ke_sock e sk) with
      | None => st
      | Some conn =>
          let info := mk_pid_conn (sort_connection_info conn) (pid_from_pid_tgid cur_id) in
          let st :=
            match (if is_tcp_socket_never_connected (ke_sock e sk) then cp_support_connect_info (ks_tmaps st) !! info else None) with
            | Some ct => if negb (nz (cp_established ct)) && negb (nz (cp_failed ct)) then report_failed_connect st info (d_port conn) (cp_ts ct) else st
            | None => st
            end in
          with_tmaps st (fun m => set_cp_support m (delete info (cp_support_connect_info m)))
      end in
    obi_kprobe_tcp_close_finish st sk.

Definition obi_kprobe_sock_def_error_report (st : kstate) (sk : Z) : kstate :=
  if negb (ke_ok e) then st
  else
    let args := active_connect_args (ks_maps st) !! cur_id in
    match parse_sock_info (ke_sock e sk) with
    | None => st
    | Some conn =>
        let info := mk_pid_conn (sort_connection_info conn) (pid_from_pid_tgid cur_id) in
        match args with
        | Some args =>
            if nz (ka_failed args) then st
            else
              let st := report_failed_connect st info (d_port conn) (ka_ts args) in
              let st := with_tmaps st (fun m => set_cp_support m (alter set_cp_failed info (cp_support_connect_info m))) in
              with_maps st (fun m => set_connect_args m (<[cur_id := mk_sock_args (ka_addr args) (ka_ts args) (ka_fd args) 1]> (active_connect_args m)))
        | None =>
            match sock_pids (ks_dns st) !! pc_conn info with
            | Some p => if cp_id p =? cur_id then report_failed_connect st info (d_port conn) (cp_pid_ts p) else st
            | None => st
            end
        end
    end.

(** ** Receive *)

Definition setup_recvmsg (st : kstate) (sk msg : Z) : kstate :=
  let st := ensure_sent_event st cur_id sk TCP_RECV in
  let st := with_view st (fun x => connect_ssl_to_sock x cur_id (parse_sock_info (ke_sock e sk)) TCP_RECV) in
  let ctx := match ke_msg e msg with Some m => get_iovec_ctx (msg_iter m) | None => mk_iter 0 0 0 0 end in
  with_maps st (fun m => set_recv_args m (<[cur_id := mk_recv_args sk msg ctx]> (active_recv_args m))).

Definition obi_kprobe_tcp_recvmsg (st : kstate) (sk msg : Z) : kstate := if negb (ke_ok e) then st else setup_recvmsg st sk msg.

Definition obi_kprobe_sock_recvmsg (st : kstate) (sock msg : Z) : kstate :=
  if negb (ke_ok e) then st
  else let sk := ke_socket_sk e sock in if nz sk then setup_recvmsg st sk msg else st.

Definition del_recv_args (st : kstate) : kstate := with_maps st (fun m => set_recv_args m (delete cur_id (active_recv_args m))).

Definition obi_kretprobe_sock_recvmsg (st : kstate) (copied_len : Z) : kstate :=
  if negb (ke_ok e) then st
  else
    match active_recv_args (ks_maps st) !! cur_id with
    | None => st
    | Some args =>
        let sk := rv_sock_ptr args in
        let st :=
          match (if nz sk then parse_sock_info (ke_sock e sk) else None) with
          | None => st
          | Some local_conn =>
              let info := mk_pid_conn (sort_connection_info local_conn) (pid_from_pid_tgid cur_id) in
              let st := setup_cp_support_conn_info st info false (ke_now e 0%nat) in
              let st := setup_connection_to_pid_mapping st info (d_port local_conn) in
              with_dns st (fun d => recvmsg_dns (ke_conf e) (ks_links st) (ke_dns e) (ke_iov e) d cur_id sk local_conn (ke_msg e (rv_msg_ptr args))
                                      (rv_iovec_ctx args) copied_len (ke_scratch e))
          end in
        del_recv_args st
    end.

Definition mark_port_unreadable (st : kstate) (port : Z) : kstate :=
  if 0 <? port then with_maps st (fun m => set_unreadable m ({[port]} ∪ unreadable_buffer_ports m)) else st.

(** The buffer of a receive: the memory that holds it and its length, or none. *)
Definition recv_buffer (args : option recv_args) (copied_len : Z) : option umem * Z :=
  match args with
  | None => (None, copied_len)
  | Some args => let '(n, b) := read_iovec_ctx (ke_iov e) (rv_iovec_ctx args) (ke_scratch e) (u64 copied_len) in (Some (list_umem b), n)
  end.

(** Without a buffer, what the socket filter captured, or else its ports are marked. *)
Definition recv_backup (st : kstate) (conn : connection_info) (u : option umem) : option umem * kstate :=
  match u with
  | Some _ => (u, st)
  | None =>
      match sock_filter_buffers (ks_maps st) !! conn with
      | Some backup =>
          (Some (backup_umem backup), with_maps st (fun m => set_filter_buffers m (delete conn (sock_filter_buffers m))))
      | None => (None, mark_port_unreadable (mark_port_unreadable st (d_port conn)) (s_port conn))
      end
  end.

(** [in_sock] is 0 for a probe that has no socket. *)
Definition return_recvmsg (st : kstate) (in_sock copied_len : Z) : kstate :=
  let id := cur_id in
  let args := active_recv_args (ks_maps st) !! id in
  let sock_ptr := if nz in_sock then Some in_sock else rv_sock_ptr <$> args in
  match sock_ptr with
  | None => st
  | Some sk =>
      if copied_len <=? 0 then
        match parse_sock_info (ke_sock e sk) with
        | None => st
        | Some conn =>
            let info := mk_pid_conn (sort_connection_info conn) (pid_from_pid_tgid id) in
            let st := setup_cp_support_conn_info st info false (ke_now e 0%nat) in
            let st := cp_support_established st info in
            setup_connection_to_pid_mapping st info (d_port conn)
        end
      else if copied_len <=? 1 then st
      else if match args with Some a => (it_iov (rv_iovec_ctx a) =? 0) && (it_ubuf (rv_iovec_ctx a) =? 0) | None => false end then del_recv_args st
      else
        let '(u, n) := recv_buffer args copied_len in
        let st :=
          match parse_sock_info (ke_sock e sk) with
          | None => st
          | Some conn =>
              let info := mk_pid_conn (sort_connection_info conn) (pid_from_pid_tgid id) in
              let '(u, st) := recv_backup st (pc_conn info) u in
              let st := cp_support_established st info in
              let st := setup_connection_to_pid_mapping st info (d_port conn) in
              match is_ssl st info, u with
              | None, Some u =>
                  if nz n then fst (handle_buf_with_connection (del_recv_args st) info u n TCP_RECV (d_port conn) sk) else st
              | _, _ => st
              end
          end in
        del_recv_args st
  end.

Definition obi_kprobe_tcp_cleanup_rbuf (st : kstate) (sk copied : Z) : kstate := if negb (ke_ok e) then st else return_recvmsg st sk copied.
Definition obi_kretprobe_tcp_recvmsg (st : kstate) (copied_len : Z) : kstate := if negb (ke_ok e) then st else return_recvmsg st 0 copied_len.

(** ** Threads and processes *)

Definition obi_kretprobe_sys_clone (st : kstate) (tid : Z) : kstate :=
  if negb (ke_ok e) || (tid <? 0) then st
  else
    let parent := cur_tid (ke_task e) in
    let child := mk_pid_key (u32 tid) (pk_pid parent) (pk_ns parent) in
    with_maps st (fun m => set_km_links m (set_thread_links (km_links m) (<[child := parent]> (clone_map (km_links m))) (java_vt_threads (km_links m)))).

Definition obi_kprobe_sys_exit (st : kstate) : kstate :=
  if negb (ke_ok e) then st
  else
    let l := ks_links st in
    let task_key := cur_tid (ke_task e) in
    let task := mk_trace_key 0 task_key in
    let vt := java_vt_translate_tid l task_key in
    let st := with_maps st (fun m => set_km_links m (set_thread_links l (delete task_key (clone_map l)) (java_vt_threads l))) in
    let st := with_tmaps st (fun m => set_server_traces m (delete task (server_traces m))) in
    let st := if snd vt then with_tmaps st (fun m => set_server_traces m (delete (mk_trace_key 0 (fst vt)) (server_traces m))) else st in
    let st := with_tmaps st (fun m => obi_ctx__del (ke_conf e) m cur_id) in
    with_maps st (fun m => set_km_links m (set_thread_links (km_links m) (clone_map (km_links m)) (delete task_key (java_vt_threads (km_links m))))).

Definition obi_kprobe_inet_csk_listen_stop (st : kstate) (sk : Z) : kstate :=
  let np := sock_port_ns_from_sk (ke_sock e sk) in
  with_maps st (fun m => set_ports m (km_listening_ports m ∖ {[np]}) (filter_ports m ∖ {[np.1]})).

End probes.

(** ** Ciphertext *)

(** The connection of the socket [sk], as the running task uses it. *)
Definition conn_of (e : kenv) (conn : connection_info) : pid_connection_info :=
  mk_pid_conn (sort_connection_info conn) (pid_from_pid_tgid (cur_id e)).

(** The connection has an SSL, or the thread is inside an SSL call that has not met its socket yet. *)
Definition is_tls (e : kenv) (st : kstate) (pc : pid_connection_info) (direction : Z) : Prop :=
  is_Some (is_ssl st pc) \/ snd (unconnected_ssl_from_args (tls_maps (ks_tls st)) (cur_id e) direction) <> 0.

Lemma established_ssl st pc pc' : is_ssl (cp_support_established st pc) pc' = is_ssl st pc'.
Proof. done. Qed.

Lemma established_handed st pc : ks_handed (cp_support_established st pc) = ks_handed st.
Proof. done. Qed.

Lemma mapping_keeps e st pc dport :
  let st' := setup_connection_to_pid_mapping e st pc dport in
  (forall pc', is_ssl st' pc' = is_ssl st pc') /\ ks_handed st' = ks_handed st /\ ks_maps st' = ks_maps st.
Proof. unfold setup_connection_to_pid_mapping. cbv zeta. by match goal with |- context [if ?b then _ else _] => destruct b end. Qed.

Lemma connect_makes_ssl e st pc direction dport : is_tls e st pc direction ->
  is_Some (is_ssl (with_view st (fun x => connect_ssl_to_connection x (cur_id e) pc direction dport)) pc).
Proof.
  intros H. unfold with_view, connect_ssl_to_connection, is_ssl, is_ssl_connection, ks_span, ks_ts. cbn [ks_tls tl_own tls_view].
  unfold is_tls in H. destruct (unconnected_ssl_from_args (tls_maps (ks_tls st)) (cur_id e) direction) as [o ssl]. cbn [snd] in H.
  destruct (Z.eqb_spec ssl 0) as [->|Hne]; [destruct H; [|done]; exact H|]. cbn. rewrite lookup_insert_eq. by exists ssl.
Qed.

Lemma sock_makes_ssl e st conn direction : is_tls e st (conn_of e conn) direction ->
  is_Some (is_ssl (with_view st (fun x => connect_ssl_to_sock x (cur_id e) (Some conn) direction)) (conn_of e conn)).
Proof.
  intros H. unfold with_view, connect_ssl_to_sock, is_ssl, is_ssl_connection, ks_span, ks_ts. cbn [ks_tls tl_own tls_view].
  unfold is_tls in H. destruct (unconnected_ssl_from_args (tls_maps (ks_tls st)) (cur_id e) direction) as [o ssl]. cbn [snd] in H.
  destruct (Z.eqb_spec ssl 0) as [->|Hne]; [destruct H; [|done]; exact H|]. cbn. rewrite lookup_insert_eq. by exists ssl.
Qed.

Lemma ssl_check_handed e st s pc dport : ks_handed (tcp_send_ssl_check e st s pc dport) = ks_handed st.
Proof. unfold tcp_send_ssl_check. destruct (s =? 0); [done|]. by destruct (lookup_ssl_conn _ _ _). Qed.

Lemma recv_backup_keeps e st conn u : let st' := snd (recv_backup e st conn u) in ks_handed st' = ks_handed st /\ ks_tls st' = ks_tls st.
Proof.
  unfold recv_backup, mark_port_unreadable. destruct u; [done|]. destruct (_ !! _); [done|]. cbn [snd].
  destruct (0 <? d_port conn), (0 <? s_port conn); done.
Qed.

(** A receive that returns on a connection with an SSL hands nothing over. *)
Lemma recv_ssl_handed e st in_sock n :
  (forall sk conn, (if nz in_sock then Some in_sock else rv_sock_ptr <$> active_recv_args (ks_maps st) !! cur_id e) = Some sk ->
     parse_sock_info (ke_sock e sk) = Some conn -> is_Some (is_ssl st (conn_of e conn))) ->
  ks_handed (return_recvmsg e st in_sock n) = ks_handed st.
Proof.
  intros Hs. unfold return_recvmsg. cbv zeta. set (args := active_recv_args (ks_maps st) !! cur_id e) in *. destruct (if nz in_sock then _ else _) as [sk|] eqn:Hsk; [|done].
  destruct (n <=? 0).
  { destruct (parse_sock_info _) as [conn|]; [|done]. set (st1 := setup_cp_support_conn_info _ _ _ _ _).
    assert (H1 : ks_handed st1 = ks_handed st) by (unfold st1, setup_cp_support_conn_info; cbv zeta; by match goal with |- context [if ?b then _ else _] => destruct b end).
    destruct (mapping_keeps e (cp_support_established st1 (mk_pid_conn (sort_connection_info conn) (pid_from_pid_tgid (cur_id e)))) 
      (mk_pid_conn (sort_connection_info conn) (pid_from_pid_tgid (cur_id e))) (d_port conn)) as (_ & H2 & _). cbv zeta in H2. by rewrite H2, established_handed. }
  destruct (n <=? 1); [done|]. destruct (match args with Some _ => _ | None => false end); [done|].
  destruct (recv_buffer e args n) as [u k]. destruct (parse_sock_info (ke_sock e sk)) as [conn|] eqn:Hconn; [|done].
  specialize (Hs sk conn eq_refl Hconn). fold (conn_of e conn).
  pose proof (recv_backup_keeps e st (pc_conn (conn_of e conn)) u) as [Hb1 Hb2]. destruct (recv_backup e st _ u) as [u' st1]. cbn [snd] in *.
  destruct (mapping_keeps e (cp_support_established st1 (conn_of e conn)) (conn_of e conn) (d_port conn)) as (M1 & M2 & _). cbv zeta in *.
  rewrite M1, established_ssl. unfold is_ssl, ks_span, ks_ts in *. rewrite Hb2. destruct Hs as [s Hs]. rewrite Hs. cbn. rewrite M2. exact Hb1.
Qed.

Lemma ensure_keeps e st id sock_p direction :
  let st' := ensure_sent_event e st id sock_p direction in
  ks_handed st' = ks_handed st /\ tls_maps (ks_tls st') = tls_maps (ks_tls st).
Proof.
  assert (H1 : forall st s, let r := ensure_one e st s direction in ks_handed (fst r) = ks_handed st /\ tls_maps (ks_tls (fst r)) = tls_maps (ks_tls st)).
  { intros st0 [s|]; [|done]. unfold ensure_one. by destruct (same_direction _ _ _). }
  unfold ensure_sent_event. cbv zeta. pose proof (H1 st (active_send_args (ks_maps st) !! id)) as [E1 E2]. cbv zeta in E1, E2.
  destruct (ensure_one e st _ direction) as [st1 go]. cbn [fst] in *. destruct go; [|done].
  destruct (H1 st1 (active_send_sock_args (ks_maps st1) !! sock_p)) as [-> ->]. done.
Qed.

(** C26: Ciphertext is not parsed.  A send on a connection that is known to be TLS, or from inside an SSL write
    that has not met its socket yet, hands nothing to the parsers, whatever its octets look like, on the
    main path and on the backup path; neither does the return of a receive on such a connection; and a
    receive made inside an SSL read hands nothing over from its entry to its return. *)
Theorem tls_ciphertext_not_parsed e st sk conn :
  parse_sock_info (ke_sock e sk) = Some conn -> sk <> 0 ->
  (is_tls e st (conn_of e conn) TCP_SEND ->
     (forall iter size, ks_handed (obi_kprobe_tcp_sendmsg e st sk iter size) = ks_handed st)
     /\ ks_handed (obi_kprobe_tcp_rate_check_app_limited e st sk) = ks_handed st)
  /\ (is_Some (is_ssl st (conn_of e conn)) -> forall n, ks_handed (obi_kprobe_tcp_cleanup_rbuf e st sk n) = ks_handed st)
  /\ (snd (unconnected_ssl_from_args (tls_maps (ks_tls st)) (cur_id e) TCP_RECV) <> 0 -> ke_ok e = true ->
      forall msg n, ks_handed (obi_kretprobe_tcp_recvmsg e (obi_kprobe_tcp_recvmsg e st sk msg) n) = ks_handed st).
Proof.
  intros Hconn Hsk. split; [|split].
  - intros Htls. unfold obi_kprobe_tcp_sendmsg, obi_kprobe_tcp_rate_check_app_limited. rewrite Hconn. fold (conn_of e conn).
    destruct (ke_ok e); [|done]. cbn [negb]. cbv zeta. split.
    + intros iter size. set (st1 := with_view _ _).
      assert (H1 : is_Some (is_ssl st1 (conn_of e conn))) by (apply connect_makes_ssl, Htls).
      destruct (mapping_keeps e st1 (conn_of e conn) (d_port conn)) as (M1 & M2 & _). cbv zeta in *. rewrite M1. destruct H1 as [s ->].
      unfold del_send_args. cbn [with_maps ks_handed]. by rewrite ssl_check_handed, M2.
    + set (st1 := with_view _ _). assert (H1 : is_Some (is_ssl st1 (conn_of e conn))) by (apply connect_makes_ssl, Htls).
      destruct (mapping_keeps e st1 (conn_of e conn) (d_port conn)) as (M1 & M2 & _). cbv zeta in *. rewrite established_ssl, M1. destruct H1 as [s ->].
      by rewrite ssl_check_handed, established_handed, M2.
  - intros Hs n. unfold obi_kprobe_tcp_cleanup_rbuf. destruct (ke_ok e); [|done]. cbn [negb]. apply recv_ssl_handed. intros sk' conn'.
    unfold nz. rewrite (proj2 (Z.eqb_neq sk 0) Hsk). cbn [negb]. intros [= <-]. rewrite Hconn. by intros [= <-].
  - intros Hssl Hok msg n. unfold obi_kretprobe_tcp_recvmsg, obi_kprobe_tcp_recvmsg. rewrite Hok. cbn [negb].
    unfold setup_recvmsg. rewrite Hconn. destruct (ensure_keeps e st (cur_id e) sk TCP_RECV) as [E1 E2]. cbv zeta in *.
    set (st1 := ensure_sent_event e st (cur_id e) sk TCP_RECV) in *.
    assert (H1 : is_Some (is_ssl (with_view st1 (fun x => connect_ssl_to_sock x (cur_id e) (Some conn) TCP_RECV)) (conn_of e conn)))
      by (apply sock_makes_ssl; right; by rewrite E2).
    set (st2 := with_view st1 _) in *. rewrite recv_ssl_handed; [exact E1|]. intros sk' conn'. cbn [nz Z.eqb negb with_maps ks_maps active_recv_args set_recv_args].
    rewrite lookup_insert_eq. cbn. intros [= <-]. rewrite Hconn. intros [= <-]. exact H1.
Qed.

(** ** Close *)

(** Nothing is added to what is known of connections. *)
Record maps_wind_down (m m' : tmaps) : Prop := mk_maps_wd {
  wd_cp : forall pc, cp_support_connect_info m !! pc = None -> cp_support_connect_info m' !! pc = None;
  wd_h2 : ongoing_http2_connections m' = ongoing_http2_connections m;
  wd_http : forall pc, ongoing_http m !! pc = None -> ongoing_http m' !! pc = None
}.

Record winds_down (sp sp' : hstate) : Prop := mk_wd {
  wd_maps : maps_wind_down (hs_maps sp) (hs_maps sp');
  wd_ssl : forall pc, active_ssl_connections sp !! pc = None -> active_ssl_connections sp' !! pc = None;
  wd_tcp : ongoing_tcp_req sp' = ongoing_tcp_req sp;
  wd_tracker : connection_tracker sp' = connection_tracker sp
}.

#[export] Instance maps_wind_down_preorder : PreOrder maps_wind_down.
Proof. split; [by split|]. intros m1 m2 m3 [] []. split; eauto with f_equal. congruence. Qed.

#[export] Instance winds_down_preorder : PreOrder winds_down.
Proof. split; [by split|]. intros s1 s2 s3 [] []. split; [by etrans|eauto|congruence|congruence]. Qed.

Lemma wd_set_maps sp m : maps_wind_down (hs_maps sp) m -> winds_down sp (set_maps sp m).
Proof. by split. Qed.

Lemma wd_same m m' : cp_support_connect_info m' = cp_support_connect_info m -> ongoing_http2_connections m' = ongoing_http2_connections m ->
  ongoing_http m' = ongoing_http m -> maps_wind_down m m'.
Proof. intros E1 E2 E3. split; rewrite ?E1, ?E3; done. Qed.

Lemma wd_obi_del c m id : maps_wind_down m (obi_ctx__del c m id).
Proof. apply wd_same; unfold obi_ctx__del; by destruct (negb _). Qed.

Lemma wd_put_info sp pc i : winds_down sp (put_info sp pc i).
Proof.
  unfold put_info. destruct (http_of sp pc) as [j|] eqn:E; [|done]. apply wd_set_maps. split; [done|done|]. intros pc' H. cbn.
  rewrite lookup_insert_ne; [done|]. intros ->. unfold http_of in E. congruence.
Qed.

Lemma wd_del_http sp pc : winds_down sp (del_http sp pc).
Proof. apply wd_set_maps. split; [done|done|]. intros pc' H. cbn. apply lookup_delete_None. by right. Qed.

Lemma wd_del_ssl sp pc : winds_down sp (del_ssl sp pc).
Proof. split; [done| |done|done]. intros pc' H. apply lookup_delete_None. by right. Qed.

Lemma wd_thread_trace l t sp i ck : winds_down sp (cleanup_http_server_thread_trace l t sp i ck).
Proof.
  apply wd_set_maps, wd_same; unfold cleanup_http_server_thread_trace_for_key; destruct (http_server_thread_trace _ _); try done; by destruct (_ && _).
Qed.

Lemma wd_response_data c t sp pc i : winds_down sp (cleanup_http_server_response_data c t sp pc i).
Proof.
  apply wd_set_maps. destruct (negb _); [|by apply wd_same]. etrans; [|apply wd_obi_del]. by apply wd_same.
Qed.

Lemma wd_client_delete c l m t pc : maps_wind_down m (delete_client_trace_info c l m t pc).
Proof.
  unfold delete_client_trace_info. cbv zeta.
  set (m1 := match _ with Some _ => _ | None => m end).
  assert (H1 : maps_wind_down m m1).
  { unfold m1. destruct (_ ≫= _) as [tp|]; [|done]. destruct (restore_frame c l m t (tpp_tp tp)) as (x & -> & _). by apply wd_same. }
  split; cbn; [|apply H1|apply H1]. intros pc' H. apply lookup_delete_None. right. by apply H1.
Qed.

Lemma wd_server_delete c m t pc k : maps_wind_down m (delete_server_trace c m t pc k).
Proof.
  unfold delete_server_trace. cbv zeta.
  destruct (negb _); [etrans; [|apply wd_obi_del]|]; apply wd_same; done.
Qed.

Lemma wd_finish_http c l t sp pc i ck : winds_down sp (finish_http c l t sp pc i ck).
Proof.
  unfold finish_http. destruct (negb _); [done|].
  assert (Hs : winds_down sp (fst (submit_http_event sp pc i))).
  { unfold submit_http_event. destruct (_ || _); [done|]. etrans; [apply (wd_put_info sp pc (set_submitted i))|]. by split. }
  destruct (submit_http_event sp pc i) as [sp1 i1]. cbn [fst] in Hs. etrans; [exact Hs|].
  match goal with |- winds_down sp1 (del_ssl (if ?d then del_http ?s _ else ?s) _) => assert (H2 : winds_down sp1 s) end.
  { destruct (_ =? _); [|done]. etrans; [apply wd_thread_trace|]. destruct (http_server_index_enabled c); [|done].
    apply wd_set_maps, wd_same; unfold unindex_http_server_trace; cbv zeta; destruct (_ !! _); try done; by destruct (_ && _). }
  etrans; [exact H2|]. destruct (nz _); [etrans; [apply wd_del_http|]|]; apply wd_del_ssl.
Qed.

Lemma wd_force_finish c l t sp pc ck sk now : winds_down sp (force_finish_possible_delayed_http_request c l t sp pc ck sk now).
Proof.
  unfold force_finish_possible_delayed_http_request. cbv zeta. destruct (http_of sp pc) as [i|]; [|apply wd_del_http].
  set (sp1 := cleanup_incomplete_http_server_thread_trace l t sp i ck).
  assert (H1 : winds_down sp sp1) by (unfold sp1, cleanup_incomplete_http_server_thread_trace; destruct (_ && _); [apply wd_thread_trace|done]).
  etrans; [exact H1|]. etrans; [|apply wd_del_http]. destruct (nz _); [apply wd_finish_http|]. unfold force_finish_http. destruct (nz _); [done|].
  etrans; [apply wd_put_info|apply wd_finish_http].
Qed.

Lemma wd_terminate c l t sp pc ck : winds_down sp (terminate_http_request_if_needed c l t sp pc ck).
Proof.
  unfold terminate_http_request_if_needed. cbv zeta. etrans; [|apply wd_del_ssl]. destruct (http_of sp pc) as [i|]; [|done].
  destruct (_ =? _); [etrans; [apply wd_response_data|apply wd_thread_trace]|apply wd_set_maps, wd_client_delete].
Qed.

Lemma wd_tcp_cleanup c l t sp q pc : winds_down sp (cleanup_trace_info c l t sp q pc).
Proof. unfold cleanup_trace_info. destruct (_ =? _); apply wd_set_maps; [apply wd_server_delete|apply wd_client_delete]. Qed.

Lemma force_one_winds e st pc unreadable key sk now :
  let st' := fst (force_one e st pc unreadable key sk now) in
  winds_down (ks_span st) (ks_span st') /\ ks_maps st' = ks_maps st /\ ks_handed st' = ks_handed st.
Proof.
  unfold force_one. destruct pc as [pc|]; [|done]. destruct (should_ignore_unreadable _ _ _); [done|]. split; [|done]. apply wd_force_finish.
Qed.

Lemma force_sent_winds e st id sk pc unreadable key :
  let st' := force_sent_event e st id sk pc unreadable key in
  winds_down (ks_span st) (ks_span st') /\ ks_maps st' = ks_maps st /\ ks_handed st' = ks_handed st
  /\ (unreadable = false -> is_empty_connection_info (pc_conn pc) = false -> http_of (ks_span st') pc = None).
Proof.
  unfold force_sent_event. cbv zeta.
  pose proof (force_one_winds e st (sn_p_conn <$> active_send_args (ks_maps st) !! id) unreadable key sk (ke_now e 0%nat)) as (W1 & M1 & H1).
  assert (Hgo : forall st pc now, unreadable = false -> snd (force_one e st pc unreadable key sk now) = true) by (by intros ? [] ? ->).
  pose proof (Hgo st (sn_p_conn <$> active_send_args (ks_maps st) !! id) (ke_now e 0%nat)) as G1.
  destruct (force_one e st _ _ _ _ _) as [st1 go1]. cbn [fst snd] in *. destruct go1; cbn [negb]; [|split; [done|]; split; [done|]; split; [done|]; intros Hu; by specialize (G1 Hu)].
  pose proof (force_one_winds e st1 (sn_p_conn <$> active_send_sock_args (ks_maps st1) !! sk) unreadable key sk (ke_now e 1%nat)) as (W2 & M2 & H2).
  pose proof (Hgo st1 (sn_p_conn <$> active_send_sock_args (ks_maps st1) !! sk) (ke_now e 1%nat)) as G2.
  destruct (force_one e st1 _ _ _ _ _) as [st2 go2]. cbn [fst snd] in *.
  assert (W12 : winds_down (ks_span st) (ks_span st2)) by (by etrans).
  destruct go2; cbn [negb]; [|split; [done|]; split; [congruence|]; split; [congruence|]; intros Hu; by specialize (G2 Hu)].
  match goal with |- context [force_one e st2 ?o _ _ _ _] => pose proof (force_one_winds e st2 o unreadable key sk (ke_now e 2%nat)) as (W3 & M3 & H3) end.
  cbv zeta in *. split; [by etrans|]. split; [congruence|]. split; [congruence|]. intros -> ->. unfold force_one, should_ignore_unreadable. cbn [negb fst].
  unfold with_span, ks_span, ks_ts, http_of, force_finish_possible_delayed_http_request. cbn. apply lookup_delete_eq.
Qed.

Lemma finish_tcp_winds c l t te x pc :
  let x' := finish_ongoing_tcp_req c l t te x pc in
  tcp_of x' pc = None /\ maps_wind_down (hs_maps (tt_span x)) (hs_maps (tt_span x'))
  /\ (forall pc', active_ssl_connections (tt_span x) !! pc' = None -> active_ssl_connections (tt_span x') !! pc' = None)
  /\ connection_tracker (tt_span x') = connection_tracker (tt_span x).
Proof.
  unfold finish_ongoing_tcp_req. destruct (tcp_of x pc) as [q|] eqn:E; [|done]. cbv zeta. split; [apply del_tcp_of|].
  match goal with |- context [cleanup_trace_info c l t ?s ?q pc] => pose proof (wd_tcp_cleanup c l t s q pc) as W; set (s1 := s) in * end.
  assert (Hs1 : hs_maps s1 = hs_maps (tt_span x) /\ active_ssl_connections s1 = active_ssl_connections (tt_span x) /\ connection_tracker s1 = connection_tracker (tt_span x)).
  { unfold s1. destruct (_ && _); [|done]. unfold output. by destruct (te_accepts te). }
  destruct W as [Wm Ws _ Wt], Hs1 as (E1 & E2 & E3). rewrite E1 in Wm. rewrite E2 in Ws. rewrite E3 in Wt. done.
Qed.

(** C28: the close of a socket clears what the probes keep under its ends.  When the pid filter passes and
    the ends of the socket can be read, then after [tcp_close], whatever was going on, these entries are
    gone: the pending send of the thread and of the socket, the TCP request record of the connection, its
    mark as TLS, its HTTP/2 connection state, its connect record and the time it was accepted or connected;
    and its HTTP record, unless the buffers of one of its ports are marked unreadable or its ends are
    empty.  A close hands no buffer to the parsers.  The records of single HTTP/2 streams and the bindings
    of TLS sessions and threads to connections are not among what a close clears. *)
Theorem tcp_close_forgets e st sk conn :
  ke_ok e = true -> parse_sock_info (ke_sock e sk) = Some conn ->
  let pc := conn_of e conn in
  let st' := obi_kprobe_tcp_close e st sk in
  active_send_args (ks_maps st') !! cur_id e = None /\ active_send_sock_args (ks_maps st') !! sk = None
  /\ tcp_of (ts_tcp (ks_ts st')) pc = None /\ is_ssl st' pc = None
  /\ ongoing_http2_connections (ks_tmaps st') !! pc = None /\ cp_support_connect_info (ks_tmaps st') !! pc = None
  /\ connection_tracker (ks_span st') !! pc_conn pc = None
  /\ (is_conn_unreadable st (pc_conn pc) = false -> is_empty_connection_info (pc_conn pc) = false -> http_of (ks_span st') pc = None)
  /\ ks_handed st' = ks_handed st.
Proof.
  intros Hok Hconn pc. unfold obi_kprobe_tcp_close, obi_kprobe_tcp_close_finish. rewrite Hok, Hconn. cbn [negb]. fold (conn_of e conn). fold pc. cbv zeta.
  match goal with |- context [with_tmaps ?s (fun m => set_cp_support m (delete pc _))] => set (st1 := s); set (st2 := with_tmaps st1 _) end.
  assert (H1 : ks_maps st1 = ks_maps st /\ ks_handed st1 = ks_handed st).
  { unfold st1. destruct (if is_tcp_socket_never_connected _ then _ else _) as [ct|]; [|done]. by destruct (_ && _). }
  assert (H2 : ks_maps st2 = ks_maps st /\ ks_handed st2 = ks_handed st /\ cp_support_connect_info (ks_tmaps st2) !! pc = None).
  { unfold st2. cbn. split; [apply H1|]. split; [apply H1|]. apply lookup_delete_eq. }
  clearbody st2. clear st1 H1. destruct H2 as (M2 & D2 & C2).
  match goal with |- context [force_sent_event e st2 ?i ?s ?p ?u ?k] => destruct (force_sent_winds e st2 i s p u k) as (W3 & M3 & D3 & H3);
    set (st3 := force_sent_event e st2 i s p u k) in * end.
  cbv zeta in *. set (sp4 := terminate_http_request_if_needed (ke_conf e) (ks_links st3) (ke_task e) (ks_span st3) pc (Some (trace_key_from_pid_tid (ks_links st2) (ke_task e)))).
  pose proof (wd_terminate (ke_conf e) (ks_links st3) (ke_task e) (ks_span st3) pc (Some (trace_key_from_pid_tid (ks_links st2) (ke_task e)))) as W4.
  fold sp4 in W4. assert (S4 : active_ssl_connections sp4 !! pc = None) by (unfold sp4, terminate_http_request_if_needed; cbn; apply lookup_delete_eq).
  set (st4 := with_span st3 _). change (ks_span st4) with sp4 in *.
  destruct (finish_tcp_winds (ke_conf e) (ks_links st4) (ke_task e) (tcp_env_of e st4) (ts_tcp (ks_ts st4)) pc) as (T5 & W5 & S5 & R5).
  cbv zeta in *. change (tt_span (ts_tcp (ks_ts st4))) with sp4 in W5, S5, R5.
  set (x5 := finish_ongoing_tcp_req _ _ _ _ (ts_tcp (ks_ts st4)) pc) in *.
  cbn. split; [apply lookup_delete_eq|]. split; [apply lookup_delete_eq|]. split; [exact T5|]. split; [by apply S5|]. split; [apply lookup_delete_eq|].
  split; [apply W5, (wd_maps _ _ W4), (wd_maps _ _ W3), C2|]. split; [apply lookup_delete_eq|]. split.
  - intros Hu He. apply W5, (wd_maps _ _ W4). apply H3; [|exact He]. unfold is_conn_unreadable, is_port_unreadable in *. by rewrite M2.
  - congruence.
Qed.

(** ** A failed connect *)

Definition tcp_events (st : kstate) : list tcp_req_t := tt_events (ts_tcp (ks_ts st)).

Lemma store_at_cp m a x : cp_support_connect_info (store_at m a x) = cp_support_connect_info m.
Proof. by destruct a. Qed.

Lemma client_find_cp c l m t pc dport lw tp :
  cp_support_connect_info (snd (find_trace_for_client_request c l m t pc dport lw tp)) = cp_support_connect_info m.
Proof.
  unfold find_trace_for_client_request, find_trace_for_client_request_with_t_key.
  pose proof (find_parent_ok c l m pc (cur_pid_tgid t) lw (trace_key_from_pid_tid l t) dport None) as [[b Hs] _].
  destruct (find_parent_trace _ _ _ _ _ _ _ _ _) as [a m1]. cbn [snd] in Hs. subst m1.
  destruct (usable _ a) as [[p x]|]; [|done]. unfold adopt_parent.
  destruct (negb _); [|by destruct (nodejs_manual_parent_span_id _ _ _ _)]. cbn [snd].
  destruct (parent_trace_is_stale _ _); [|done]. by rewrite store_at_cp.
Qed.

(** The event of a failed connect, and what it leaves alone. *)
Lemma report_failed_spec e st pc dport ts0 :
  let st' := report_failed_connect e st pc dport ts0 in
  cp_support_connect_info (ks_tmaps st') = cp_support_connect_info (ks_tmaps st)
  /\ ongoing_tcp_req (ks_span st') = ongoing_tcp_req (ks_span st) /\ ks_maps st' = ks_maps st
  /\ exists new, tcp_events st' = tcp_events st ++ new
     /\ if te_accepts (ke_tcp e) then exists q, new = [q] /\ tq_flags q = k_event_type_failed_connect /\ tq_start_monotime_ns q = ts0
        else new = [].
Proof.
  unfold report_failed_connect, with_tcp, failed_to_connect_event, tcp_get_client_trace_info, output, tcp_env_of. cbn [set_listening te_accepts].
  destruct (te_accepts (ke_tcp e)) eqn:Ha;
    [|split; [done|]; split; [done|]; split; [done|]; exists []; by rewrite app_nil_r]. cbv zeta.
  match goal with |- context [find_trace_for_client_request ?c ?l ?m ?t ?pc ?d ?lw ?x] =>
    pose proof (client_find_cp c l m t pc d lw x) as Hk; destruct (find_trace_for_client_request c l m t pc d lw x) as [[found tp] m1] end.
  cbn [snd] in Hk. cbn. split; [exact Hk|]. split; [done|]. split; [done|]. eexists. split; [done|]. eexists. split; [done|]. done.
Qed.

(** A connect record of [pc] has been marked as failed. *)
Definition cp_marked (st : kstate) (pc : pid_connection_info) : Prop :=
  forall ct, cp_support_connect_info (ks_tmaps st) !! pc = Some ct -> cp_failed ct = 1.

(** The connect returns, with or without success: what is marked stays marked. *)
Lemma connect_ret_marked e st pc res args :
  active_connect_args (ks_maps st) !! cur_id e = Some args -> ka_failed args = 1 -> cp_marked st pc ->
  (forall conn, parse_sock_info (ke_sock e (ka_addr args)) = Some conn -> conn_of e conn = pc) ->
  let st' := obi_kretprobe_sys_connect e st res in
  cp_marked st' pc /\ tcp_events st' = tcp_events st /\ ongoing_tcp_req (ks_span st') = ongoing_tcp_req (ks_span st).
Proof.
  intros Hargs Hf Hm Hpc. unfold obi_kretprobe_sys_connect. destruct (ke_ok e); [|done]. cbn [negb]. cbv zeta.
  destruct (_ && _); [done|]. rewrite Hargs. destruct (parse_sock_info _) as [conn|] eqn:Hc; [|done]. specialize (Hpc conn eq_refl).
  fold (conn_of e conn). rewrite Hf, Hpc. cbn [nz Z.eqb negb].
  match goal with |- context [with_tmaps ?s (fun m => set_cp_support m (alter set_cp_failed pc _))] => set (st1 := s) end.
  assert (H1 : tcp_events st1 = tcp_events st /\ ongoing_tcp_req (ks_span st1) = ongoing_tcp_req (ks_span st)).
  { unfold st1, setup_cp_support_conn_info. cbv zeta. by destruct (_ && _), (res =? 0). }
  split; [|exact H1]. intros ct. cbn. rewrite lookup_alter_eq. by destruct (_ !! pc) as [d|]; [|done]; intros [= <-].
Qed.

(** The reports of failed connects among the events. *)
Definition is_failed_report (q : tcp_req_t) : bool := tq_flags q =? k_event_type_failed_connect.
Definition failed_reports (st : kstate) : list tcp_req_t := List.filter is_failed_report (tcp_events st).

(** The open TCP request of [pc], if any, is not a report of a failed connect: those are never stored. *)
Definition open_req_plain (st : kstate) (pc : pid_connection_info) : Prop :=
  forall q, ongoing_tcp_req (ks_span st) !! pc = Some q -> is_failed_report q = false.

Lemma finish_tcp_reports c l t te x pc :
  (forall q, tcp_of x pc = Some q -> is_failed_report q = false) ->
  List.filter is_failed_report (tt_events (finish_ongoing_tcp_req c l t te x pc)) = List.filter is_failed_report (tt_events x).
Proof.
  intros H. unfold finish_ongoing_tcp_req. destruct (tcp_of x pc) as [q|]; [|done]. specialize (H q eq_refl). cbn.
  destruct (_ && _); [|done]. unfold output. destruct (te_accepts te); [|done]. cbn. rewrite List.filter_app. cbn.
  change (is_failed_report (set_tcp_end q (te_now te 0) 0 (tq_rbuf q))) with (is_failed_report q). by rewrite H, app_nil_r.
Qed.

Lemma close_no_report e st sk conn : parse_sock_info (ke_sock e sk) = Some conn -> cp_marked st (conn_of e conn) ->
  open_req_plain st (conn_of e conn) -> failed_reports (obi_kprobe_tcp_close e st sk) = failed_reports st.
Proof.
  intros Hconn Hm Ht. unfold obi_kprobe_tcp_close, obi_kprobe_tcp_close_finish. rewrite Hconn. destruct (ke_ok e); [|done]. cbn [negb]. cbv zeta.
  fold (conn_of e conn). set (pc := conn_of e conn) in *.
  match goal with |- context [with_tmaps ?s (fun m => set_cp_support m (delete pc _))] => assert (E : s = st) end.
  { destruct (is_tcp_socket_never_connected _); [|done]. destruct (cp_support_connect_info (ks_tmaps st) !! pc) as [ct|] eqn:Hct; [|done]. rewrite (Hm ct Hct). by rewrite andb_false_r. }
  rewrite E. clear E. set (st2 := with_tmaps st _).
  match goal with |- context [force_sent_event e st2 ?i ?s ?p ?u ?k] => destruct (force_sent_winds e st2 i s p u k) as (W3 & _); set (st3 := force_sent_event e st2 i s p u k) in * end.
  cbv zeta in W3. assert (E3 : tcp_events st3 = tcp_events st).
  { unfold st3, force_sent_event. cbv zeta.
    assert (H : forall st pc u k sk n, tcp_events (fst (force_one e st pc u k sk n)) = tcp_events st).
    { intros s [p|] u k s' n; [|done]. unfold force_one. by destruct (should_ignore_unreadable _ _ _). }
    match goal with |- context [force_one e st2 ?a ?b ?c ?d ?f] => pose proof (H st2 a b c d f) as F1; destruct (force_one e st2 a b c d f) as [s1 []] end;
      cbn [negb fst] in *; change (tcp_events st2) with (tcp_events st) in F1; [|exact F1].
    match goal with |- context [force_one e s1 ?a ?b ?c ?d ?f] => pose proof (H s1 a b c d f) as F2; destruct (force_one e s1 a b c d f) as [s2 []] end;
      cbn [negb fst] in *; [|congruence]. rewrite H. congruence. }
  set (st4 := with_span st3 _).
  assert (T4 : tcp_of (ts_tcp (ks_ts st4)) pc = ongoing_tcp_req (ks_span st) !! pc).
  { unfold tcp_of. change (tt_span (ts_tcp (ks_ts st4))) with (terminate_http_request_if_needed (ke_conf e) (ks_links st3) (ke_task e) (ks_span st3) pc
      (Some (trace_key_from_pid_tid (ks_links st2) (ke_task e)))).
    rewrite (wd_tcp _ _ (wd_terminate _ _ _ _ _ _)), (wd_tcp _ _ W3). done. }
  unfold failed_reports. rewrite <- E3. change (tcp_events st3) with (tt_events (ts_tcp (ks_ts st4))).
  apply finish_tcp_reports. intros q. rewrite T4. apply Ht.
Qed.

(** The two probes of a connect that is under way. *)
Lemma connecting e1 e2 st fd sk : ke_ok e1 = true -> ke_ok e2 = true -> ke_task e2 = ke_task e1 ->
  let st' := obi_kprobe_tcp_connect e2 (obi_kprobe_sys_connect e1 st fd) sk in
  active_connect_args (ks_maps st') !! cur_id e1 = Some (mk_sock_args sk (ke_now e1 0%nat) fd 0)
  /\ tcp_events st' = tcp_events st /\ ongoing_tcp_req (ks_span st') = ongoing_tcp_req (ks_span st).
Proof.
  intros H1 H2 Ht. unfold obi_kprobe_tcp_connect, obi_kprobe_sys_connect. rewrite H1, H2. cbn [negb]. cbv zeta.
  assert (Hid : cur_id e2 = cur_id e1) by (unfold cur_id; by rewrite Ht). rewrite !Hid.
  match goal with |- context [with_dns ?s ?f] => set (st2 := with_dns s f); assert (E : active_connect_args (ks_maps st2) !! cur_id e1 = Some (mk_sock_args 0 (ke_now e1 0%nat) fd 0));
    [cbn; apply lookup_insert_eq|]; assert (F : tcp_events st2 = tcp_events st /\ ongoing_tcp_req (ks_span st2) = ongoing_tcp_req (ks_span st)) by done end.
  rewrite E. cbn [ka_addr ka_ts ka_fd ka_failed]. destruct (parse_sock_info (ke_sock e2 0)); (split; [cbn; apply lookup_insert_eq|exact F]).
Qed.

(** The error of a connect that is under way. *)
Lemma connect_error e st sk conn args : ke_ok e = true -> parse_sock_info (ke_sock e sk) = Some conn ->
  active_connect_args (ks_maps st) !! cur_id e = Some args -> ka_failed args = 0 ->
  let st' := obi_kprobe_sock_def_error_report e st sk in
  (exists new, tcp_events st' = tcp_events st ++ new
    /\ if te_accepts (ke_tcp e) then exists q, new = [q] /\ tq_flags q = k_event_type_failed_connect /\ tq_start_monotime_ns q = ka_ts args
       else new = [])
  /\ cp_marked st' (conn_of e conn) /\ ongoing_tcp_req (ks_span st') = ongoing_tcp_req (ks_span st)
  /\ active_connect_args (ks_maps st') !! cur_id e = Some (mk_sock_args (ka_addr args) (ka_ts args) (ka_fd args) 1).
Proof.
  intros Hok Hconn Hargs Hf. unfold obi_kprobe_sock_def_error_report. rewrite Hok, Hconn, Hargs, Hf. cbn [negb nz Z.eqb]. fold (conn_of e conn). cbv zeta.
  destruct (report_failed_spec e st (conn_of e conn) (d_port conn) (ka_ts args)) as (Hcp & Ht & Hm & Hev). cbv zeta in *.
  set (st1 := report_failed_connect _ _ _ _ _) in *. split; [exact Hev|]. split; [|split; [exact Ht|cbn; apply lookup_insert_eq]].
  intros ct. cbn. rewrite lookup_alter_eq, fmap_Some. by intros (d & _ & ->).
Qed.

(** C29: a refused connect is reported at most once.  When a thread connects a socket, the error is reported
    while the call is under way, the call returns, in whatever way, and the socket is closed, the events of
    failed connects grow by exactly one, starting when the connect began, when the ring has room at the
    time of the error, and by none when it has not: the close never reports the failure again, whatever TCP
    request or connect record an earlier connection between the same ends left open (a stored request is
    not itself a report of a failed connect).  The thread is the same at all five probes, the pid filter passes up to the error, and the ends of the socket read the
    same from the error on. *)
Theorem failed_connect_reported_once e1 e2 e3 e4 e5 st fd sk conn res :
  (forall e, In e [e2; e3; e4; e5] -> ke_task e = ke_task e1) -> (forall e, In e [e1; e2; e3] -> ke_ok e = true) ->
  (forall e, In e [e3; e4; e5] -> parse_sock_info (ke_sock e sk) = Some conn) -> open_req_plain st (conn_of e1 conn) ->
  let st3 := obi_kprobe_sock_def_error_report e3 (obi_kprobe_tcp_connect e2 (obi_kprobe_sys_connect e1 st fd) sk) sk in
  exists new, failed_reports (obi_kprobe_tcp_close e5 (obi_kretprobe_sys_connect e4 st3 res) sk) = failed_reports st ++ new
  /\ if te_accepts (ke_tcp e3) then exists q, new = [q] /\ tq_start_monotime_ns q = ke_now e1 0%nat else new = [].
Proof.
  intros Htask Hok Hsk Htcp st3.
  assert (Hid : forall e, In e [e2; e3; e4; e5] -> cur_id e = cur_id e1) by (intros; unfold cur_id; by rewrite Htask).
  assert (Hpc : forall e, In e [e2; e3; e4; e5] -> conn_of e conn = conn_of e1 conn) by (intros; unfold conn_of; by rewrite Hid).
  destruct (connecting e1 e2 st fd sk) as (A2 & E2 & T2); [apply Hok; simpl; tauto|apply Hok; simpl; tauto|apply Htask; simpl; tauto|].
  set (st2 := obi_kprobe_tcp_connect e2 _ sk) in *.
  destruct (connect_error e3 st2 sk conn (mk_sock_args sk (ke_now e1 0%nat) fd 0)) as ((new & Hq & Hnew) & M3 & T3 & A3);
    [apply Hok; simpl; tauto|apply Hsk; simpl; tauto|by rewrite (Hid e3) by (simpl; tauto)|done|].
  fold st3 in Hq, M3, T3, A3. cbn [ka_addr ka_ts ka_fd] in *.
  destruct (connect_ret_marked e4 st3 (conn_of e1 conn) res (mk_sock_args sk (ke_now e1 0%nat) fd 1)) as (M4 & E4 & T4).
  - rewrite (Hid e4) by (simpl; tauto). by rewrite <- (Hid e3) by (simpl; tauto).
  - done.
  - by rewrite <- (Hpc e3) by (simpl; tauto).
  - intros conn'. cbn [ka_addr]. rewrite Hsk by (simpl; tauto). intros [= <-]. apply Hpc. simpl; tauto.
  - exists new. rewrite (close_no_report e5 _ sk conn); [|apply Hsk; simpl; tauto|by rewrite (Hpc e5) by (simpl; tauto)|].
    + unfold failed_reports. rewrite E4, Hq, E2, List.filter_app. destruct (te_accepts (ke_tcp e3)); [|by subst new].
      destruct Hnew as (q & -> & Hfl & Hst). cbn [List.filter]. unfold is_failed_report at 2. rewrite Hfl, Z.eqb_refl.
      split; [done|]. by exists q.
    + rewrite (Hpc e5) by (simpl; tauto). intros q. rewrite T4, T3, T2. apply Htcp.
Qed.

(** ** The copies of a sock_msg program *)

Lemma handle_buf_effect e st pc u n d dport sk :
  let r := handle_buf_with_connection e st pc u n d dport sk in
  ks_maps (fst r) = ks_maps st /\ ks_handed (fst r) = ks_handed st ++ (if snd r then [mk_handed pc u (s32 n) d] else [])
  /\ (snd r = negb (s32 n <=? 0)).
Proof. unfold handle_buf_with_connection. cbv zeta. destruct (s32 n <=? 0); cbn; [by rewrite app_nil_r|done]. Qed.

Lemma try_bind_keeps e st now b copied avail pc dport :
  let st' := fst (try_bind e st now b copied avail pc dport) in ks_maps st' = ks_maps st /\ ks_handed st' = ks_handed st.
Proof. unfold try_bind. by destruct (tls_prefix_try_bind _ _ _ _ _ _ _ _). Qed.

(** The copies of [k] that have not been taken. *)
Definition untaken (st : kstate) (k : egress_key) : nat :=
  match msg_buffers (ks_maps st) !! k with Some mb => if mb_pos mb =? 0 then 1 else 0 | None => 0 end.

Definition parse_budget (st : kstate) (k : egress_key) : nat := (length (ks_handed st) + untaken st k)%nat.

Lemma untaken_del st k : untaken (del_msg_buffer st k) k = 0%nat.
Proof. unfold untaken. cbn. by rewrite lookup_delete_eq. Qed.

Lemma budget_same st st' k : ks_handed st' = ks_handed st -> msg_buffers (ks_maps st') = msg_buffers (ks_maps st) -> (parse_budget st' k <= parse_budget st k)%nat.
Proof. unfold parse_budget, untaken. intros -> ->. lia. Qed.

Lemma budget_del st st' k : ks_handed st' = ks_handed st -> (parse_budget (del_msg_buffer st' k) k <= parse_budget st k)%nat.
Proof. unfold parse_budget. rewrite untaken_del. cbn. intros ->. lia. Qed.

(** A copy that was there and not taken pays for the buffer that is handed over. *)
Lemma budget_read e st st' pc dport k sk args_size b n mb :
  msg_buffers (ks_maps st) !! k = Some mb -> mb_pos mb = 0 -> ks_handed st' = ks_handed st ->
  let '(r, over) := send_buffer_read e st' pc dport k sk args_size b n in
  (parse_budget (if over then r else del_msg_buffer r k) k <= parse_budget st k)%nat.
Proof.
  intros Hmb Hpos Hh. unfold send_buffer_read.
  match goal with |- context [handle_buf_with_connection e ?s pc ?u n TCP_SEND dport sk] =>
    destruct (handle_buf_effect e s pc u n TCP_SEND dport sk) as (M & H & O); destruct (handle_buf_with_connection e s pc u n TCP_SEND dport sk) as [r over] end.
  cbn [fst snd] in *. destruct over; [|apply budget_del; by rewrite H, app_nil_r]. unfold parse_budget, untaken. rewrite M, H, Hmb, Hpos. cbn.
  rewrite lookup_delete_eq, length_app, Hh. simpl. lia.
Qed.

(** A probe of the send path, whose buffers cannot be read. *)
Inductive send_probe := by_sendmsg (e : kenv) (sk : Z) (iter : kernel_iter) (size : Z) | by_rate_check (e : kenv) (sk : Z).

Definition run_send (st : kstate) (p : send_probe) : kstate :=
  match p with
  | by_sendmsg e sk iter size => obi_kprobe_tcp_sendmsg e st sk iter size
  | by_rate_check e sk => obi_kprobe_tcp_rate_check_app_limited e st sk
  end.

Definition unreadable_send (k : egress_key) (p : send_probe) : Prop :=
  let '(e, sk) := match p with by_sendmsg e sk _ _ => (e, sk) | by_rate_check e sk => (e, sk) end in
  (forall conn, parse_sock_info (ke_sock e sk) = Some conn -> make_egress_key conn = k)
  /\ match p with
     | by_sendmsg e _ iter size => fst (read_msghdr_buf (ke_iov e) iter (ke_scratch e) size) = 0
     | by_rate_check _ _ => True
     end.

Lemma take_buffer_spec e st k mb b n st' : msg_buffers (ks_maps st) !! k = Some mb -> take_msg_buffer e st k mb = Some (b, n, st') ->
  ks_handed st' = ks_handed st /\ ((mb_pos mb = 0 /\ (n = 0 -> (untaken st' k <= untaken st k)%nat)) \/ (n = 0 /\ st' = st)).
Proof.
  intros Hmb. unfold take_msg_buffer. cbv zeta. destruct (if negb _ then _ else _); [|done].
  destruct (Z.eqb_spec (mb_pos mb) 0) as [Hp|]; intros [= <- <- <-]; [|auto]. split; [done|]. left. split; [done|]. intros ->.
  unfold untaken. cbn. rewrite lookup_insert_eq, Hmb, Hp. done.
Qed.

Lemma send_plain_budget e st pc dport k sk iter size : fst (read_msghdr_buf (ke_iov e) iter (ke_scratch e) size) = 0 ->
  (parse_budget (snd (fst (send_plain e st pc dport k sk iter size))) k <= parse_budget st k)%nat.
Proof.
  intros Hn. unfold send_plain. destruct (read_msghdr_buf _ _ _ _) as [n b]. cbn [fst] in Hn. subst n.
  pose proof (try_bind_keeps e st (ke_now e 0%nat) b 0 size pc dport) as [M1 H1]. destruct (try_bind e st _ b 0 size pc dport) as [st1 ssl1]. cbn [fst] in *.
  destruct ssl1; [by apply budget_del|]. cbn [Z.eqb negb].
  destruct (msg_buffers (ks_maps st1) !! k) as [mb|] eqn:Hmb; [|by apply budget_same; cbn; rewrite ?H1, ?M1].
  destruct (take_msg_buffer e st1 k mb) as [[[b2 n2] st2]|] eqn:Ht; [|by apply budget_same; cbn; rewrite ?H1, ?M1].
  destruct (take_buffer_spec e st1 k mb b2 n2 st2 Hmb Ht) as [H2 Hcase]. destruct (Z.eqb_spec n2 0) as [->|Hn2].
  { cbn [fst snd]. unfold parse_budget. change (untaken (request_backup e st2 pc dport sk) k) with (untaken st2 k).
    change (ks_handed (request_backup e st2 pc dport sk)) with (ks_handed st2). rewrite H2, H1.
    assert (untaken st1 k = untaken st k) by (unfold untaken; by rewrite M1). destruct Hcase as [[_ Hu]|[_ ->]]; [specialize (Hu eq_refl)|]; lia. }
  destruct Hcase as [[Hpos _]|[-> _]]; [|done].
  pose proof (try_bind_keeps e st2 (ke_now e 1%nat) b2 n2 n2 pc dport) as [M3 H3]. destruct (try_bind e st2 _ b2 n2 n2 pc dport) as [st3 ssl3]. cbn [fst] in *.
  destruct ssl3; [apply budget_del; congruence|].
  pose proof (budget_read e st st3 pc dport k sk size b2 n2 mb) as Hb. rewrite <- M1 in Hb. specialize (Hb Hmb Hpos ltac:(congruence)).
  destruct (send_buffer_read e st3 pc dport k sk size b2 n2) as [st4 over]. exact Hb.
Qed.

Lemma prepared_budget e st pc dport k :
  let st1 := setup_connection_to_pid_mapping e (with_view st (fun x => connect_ssl_to_connection x (cur_id e) pc TCP_SEND dport)) pc dport in
  parse_budget st1 k = parse_budget st k /\ ks_maps st1 = ks_maps st.
Proof. destruct (mapping_keeps e (with_view st (fun x => connect_ssl_to_connection x (cur_id e) pc TCP_SEND dport)) pc dport) as (_ & H & M). cbv zeta in *.
  unfold parse_budget, untaken. by rewrite H, M. Qed.

Lemma check_budget e st s pc dport k : parse_budget (tcp_send_ssl_check e st s pc dport) k = parse_budget st k.
Proof.
  unfold parse_budget, untaken. rewrite ssl_check_handed. unfold tcp_send_ssl_check. destruct (s =? 0); [done|]. by destruct (lookup_ssl_conn _ _ _).
Qed.

Lemma run_send_budget k st p : unreadable_send k p -> (parse_budget (run_send st p) k <= parse_budget st k)%nat.
Proof.
  destruct p as [e sk iter size|e sk]; simpl; intros [Hk Hr].
  - unfold obi_kprobe_tcp_sendmsg. destruct (ke_ok e); [|done]. cbn [negb]. destruct (parse_sock_info _) as [conn|]; [|done]. rewrite (Hk conn eq_refl).
    cbv zeta. set (pc := mk_pid_conn _ _). destruct (prepared_budget e (cp_support_established st pc) pc (d_port conn) k) as [P _]. cbv zeta in P.
    set (st1 := setup_connection_to_pid_mapping _ _ _ _) in *. change (parse_budget (cp_support_established st pc) k) with (parse_budget st k) in P.
    assert (Hend : forall ssl st2 (over : bool), (parse_budget st2 k <= parse_budget st k)%nat ->
      (parse_budget (if over then st2 else match ssl with None => st2 | Some s => del_send_args (tcp_send_ssl_check e st2 s pc (d_port conn)) (cur_id e) end) k <= parse_budget st k)%nat).
    { intros [s|] st2 [] H; try done. change (parse_budget (tcp_send_ssl_check e st2 s pc (d_port conn)) k <= parse_budget st k)%nat. by rewrite check_budget. }
    destruct (is_ssl st1 pc) as [s|]; [apply (Hend (Some s) st1 false); lia|]. destruct (nz size); [|apply (Hend None st1 false); lia].
    pose proof (send_plain_budget e st1 pc (d_port conn) k sk iter size Hr) as H. destruct (send_plain e st1 pc _ k sk iter size) as [[ssl st2] over].
    apply Hend. cbn [fst snd] in H. lia.
  - unfold obi_kprobe_tcp_rate_check_app_limited. destruct (ke_ok e); [|done]. cbn [negb]. destruct (parse_sock_info _) as [conn|]; [|done]. rewrite (Hk conn eq_refl).
    cbv zeta. set (pc := mk_pid_conn _ _). destruct (prepared_budget e st pc (d_port conn) k) as [P M]. cbv zeta in P, M.
    set (st0 := setup_connection_to_pid_mapping _ _ _ _) in *. set (st1 := cp_support_established st0 pc).
    change (parse_budget st0 k) with (parse_budget st1 k) in P. change (ks_maps st0) with (ks_maps st1) in M. clearbody st1.
    assert (Hend : forall ssl st2 (over : bool), (parse_budget st2 k <= parse_budget st k)%nat ->
      (parse_budget (if over then st2 else match ssl with None => st2 | Some s => tcp_send_ssl_check e st2 s pc (d_port conn) end) k <= parse_budget st k)%nat).
    { intros [s|] st2 [] H; try done. by rewrite check_budget. }
    destruct (is_ssl st1 pc) as [s|]; [apply (Hend (Some s) st1 false); lia|].
    destruct (msg_buffers (ks_maps st1) !! k) as [mb|] eqn:Hmb; [|apply (Hend None st1 false); lia].
    destruct (take_msg_buffer e st1 k mb) as [[[b2 n2] st2]|] eqn:Ht; [|apply (Hend None st1 true); lia].
    destruct (take_buffer_spec e st1 k mb b2 n2 st2 Hmb Ht) as [H2 _]. destruct (Z.eqb_spec (mb_pos mb) 0) as [Hpos|].
    2:{ apply (Hend None (del_msg_buffer st2 k) false). etrans; [by apply (budget_del st1)|lia]. }
    pose proof (try_bind_keeps e st2 (ke_now e 0%nat) b2 n2 n2 pc (d_port conn)) as [M3 H3]. destruct (try_bind e st2 _ b2 n2 n2 pc _) as [st3 ssl3]. cbn [fst] in *.
    destruct ssl3 as [s|]; [apply (Hend (Some s) (del_msg_buffer st3 k) false); etrans; [apply (budget_del st1); congruence|lia]|].
    pose proof (budget_read e st1 st3 pc (d_port conn) k sk n2 b2 n2 mb Hmb Hpos ltac:(congruence)) as Hb.
    destruct (send_buffer_read e st3 pc (d_port conn) k sk n2 b2 n2) as [st4 over]. apply (Hend None _ over). lia.
Qed.

(** C27: A message that the injector extended is parsed once.  The kernel sends it in several pieces, each of
    which runs a probe of the send path whose own buffers cannot be read; however many pieces there are, on
    whichever CPU and by whichever of the two probes, the copy left for the connection is given to the
    parsers at most once, and without a copy nothing is. *)
Theorem msg_buffer_parsed_once k st ps :
  Forall (unreadable_send k) ps ->
  let st' := fold_left run_send ps st in
  (length (ks_handed st') + untaken st' k <= length (ks_handed st) + untaken st k)%nat /\ (untaken st k <= 1)%nat.
Proof.
  intros Hps. split.
  - change (parse_budget (fold_left run_send ps st) k <= parse_budget st k)%nat. revert st. induction Hps as [|p ps Hp _ IH]; intros st; [done|].
    simpl. etrans; [apply IH|by apply run_send_budget].
  - unfold untaken. destruct (msg_buffers (ks_maps st) !! k); [|lia]. destruct (_ =? _); lia.
Qed.

(** ** Buffers captured by the socket filter *)

(** A send whose buffer was not read has no length. *)
Definition unread_unsized (m : kprobe_maps) : Prop :=
  map_Forall (fun _ s => sn_buffer_read s = 0 -> sn_size s = u64 (-1)) (active_send_args m).

(** So the buffer that the socket filter captured for it is never given to the parsers when the send
    returns: the length -1 is refused. *)
Lemma captured_send_not_parsed e st sent_len : unread_unsized (ks_maps st) ->
  ks_handed (obi_kretprobe_tcp_sendmsg e st sent_len) = ks_handed st.
Proof.
  intros Hinv. unfold obi_kretprobe_tcp_sendmsg. destruct (ke_ok e); [|done]. cbn [negb]. cbv zeta.
  destruct (active_send_args (ks_maps st) !! cur_id e) as [s|] eqn:Hs; [|done]. specialize (Hinv _ _ Hs).
  set (st2 := if sent_len <? MIN_HTTP_SIZE then _ else _).
  assert (H2 : ks_handed st2 = ks_handed st) by (unfold st2; destruct (sent_len <? MIN_HTTP_SIZE), (0 <? sent_len); done).
  unfold flush_backup_send_buffer. destruct (Z.eqb_spec (sn_buffer_read s) 0) as [Hr|]; unfold nz;
    [rewrite Hr; cbn [Z.eqb negb]|rewrite (proj2 (Z.eqb_neq _ _)) by done; exact H2].
  destruct (sock_filter_buffers (ks_maps st2) !! _); [|exact H2]. rewrite (Hinv Hr). exact H2.
Qed.

Lemma unsized_same st st' : active_send_args (ks_maps st') = active_send_args (ks_maps st) -> unread_unsized (ks_maps st) -> unread_unsized (ks_maps st').
Proof. unfold unread_unsized. by intros ->. Qed.

Lemma check_maps e st s pc dport : ks_maps (tcp_send_ssl_check e st s pc dport) = ks_maps st.
Proof. unfold tcp_send_ssl_check. destruct (s =? 0); [done|]. by destruct (lookup_ssl_conn _ _ _). Qed.

Lemma take_send_args e st k mb b n st' : take_msg_buffer e st k mb = Some (b, n, st') -> active_send_args (ks_maps st') = active_send_args (ks_maps st).
Proof.
  unfold take_msg_buffer. cbv zeta. destruct (if negb _ then _ else _); [|done]. by destruct (mb_pos mb =? 0); intros [= _ _ <-].
Qed.

Lemma send_read_unsized e st pc dport k sk args_size b n : unread_unsized (ks_maps st) ->
  unread_unsized (ks_maps (fst (send_buffer_read e st pc dport k sk args_size b n))).
Proof.
  intros H. unfold send_buffer_read. match goal with |- context [handle_buf_with_connection e ?s pc ?u n TCP_SEND dport sk] =>
    destruct (handle_buf_effect e s pc u n TCP_SEND dport sk) as (M & _ & _) end. cbv zeta in M. rewrite M.
  by apply map_Forall_insert_2.
Qed.

Lemma send_plain_unsized e st pc dport k sk iter size : unread_unsized (ks_maps st) ->
  unread_unsized (ks_maps (snd (fst (send_plain e st pc dport k sk iter size)))).
Proof.
  intros H. unfold send_plain. destruct (read_msghdr_buf _ _ _ _) as [n b].
  pose proof (try_bind_keeps e st (ke_now e 0%nat) b n size pc dport) as [M1 _]. destruct (try_bind e st _ b n size pc dport) as [st1 ssl1]. cbn [fst] in *.
  rewrite <- M1 in H. destruct ssl1; [exact H|].
  destruct (if negb (n =? 0) then _ else _) as [[[b2 n2] st2]|] eqn:Hf; [|exact H].
  assert (H2 : unread_unsized (ks_maps st2)).
  { destruct (negb (n =? 0)); [by injection Hf as _ _ <-|]. destruct (msg_buffers (ks_maps st1) !! k) as [mb|]; [|by injection Hf as _ _ <-].
    by apply (unsized_same st1); [eapply take_send_args|]. }
  destruct (n2 =? 0); [by apply map_Forall_insert_2|].
  pose proof (try_bind_keeps e st2 (ke_now e 1%nat) b2 n2 n2 pc dport) as [M3 _]. destruct (try_bind e st2 _ b2 n2 n2 pc dport) as [st3 ssl3]. cbn [fst] in *.
  rewrite <- M3 in H2. destruct ssl3; [exact H2|].
  pose proof (send_read_unsized e st3 pc dport k sk size b2 n2 H2) as H4. destruct (send_buffer_read e st3 pc dport k sk size b2 n2) as [st4 over].
  by destruct over.
Qed.

(** Both probes of the send path keep it that way: no send is ever parsed from a captured buffer. *)
Lemma sendmsg_unsized e st sk iter size : unread_unsized (ks_maps st) -> unread_unsized (ks_maps (obi_kprobe_tcp_sendmsg e st sk iter size)).
Proof.
  intros H. unfold obi_kprobe_tcp_sendmsg. destruct (ke_ok e); [|done]. cbn [negb]. destruct (parse_sock_info _) as [conn|]; [|done]. cbv zeta.
  set (pc := mk_pid_conn _ _). match goal with |- context [setup_connection_to_pid_mapping e ?s pc ?d] => destruct (mapping_keeps e s pc d) as (_ & _ & M) end. cbv zeta in M.
  set (st1 := setup_connection_to_pid_mapping _ _ _ _) in *.
  assert (H1 : unread_unsized (ks_maps st1)) by (by rewrite M).
  assert (Hend : forall ssl st2 (over : bool), unread_unsized (ks_maps st2) ->
    unread_unsized (ks_maps (if over then st2 else match ssl with None => st2 | Some s => del_send_args (tcp_send_ssl_check e st2 s pc (d_port conn)) (cur_id e) end))).
  { intros [s|] st2 [] Hs; try done. unfold del_send_args. cbn. rewrite check_maps. by apply map_Forall_delete. }
  destruct (is_ssl st1 pc) as [s|]; [by apply (Hend (Some s) st1 false)|]. destruct (nz size); [|by apply (Hend None st1 false)].
  pose proof (send_plain_unsized e st1 pc (d_port conn) (make_egress_key conn) sk iter size H1) as H2.
  destruct (send_plain e st1 pc _ _ sk iter size) as [[ssl st2] over]. by apply Hend.
Qed.

Lemma rate_check_unsized e st sk : unread_unsized (ks_maps st) -> unread_unsized (ks_maps (obi_kprobe_tcp_rate_check_app_limited e st sk)).
Proof.
  intros H. unfold obi_kprobe_tcp_rate_check_app_limited. destruct (ke_ok e); [|done]. cbn [negb]. destruct (parse_sock_info _) as [conn|]; [|done]. cbv zeta.
  set (pc := mk_pid_conn _ _). match goal with |- context [setup_connection_to_pid_mapping e ?s pc ?d] => destruct (mapping_keeps e s pc d) as (_ & _ & M) end. cbv zeta in M.
  set (st0 := setup_connection_to_pid_mapping _ _ _ _) in *. set (st1 := cp_support_established st0 pc).
  assert (H1 : unread_unsized (ks_maps st1)) by (change (ks_maps st1) with (ks_maps st0); by rewrite M). clearbody st1.
  assert (Hend : forall ssl st2 (over : bool), unread_unsized (ks_maps st2) ->
    unread_unsized (ks_maps (if over then st2 else match ssl with None => st2 | Some s => tcp_send_ssl_check e st2 s pc (d_port conn) end))).
  { intros [s|] st2 [] Hs; try done. by rewrite check_maps. }
  destruct (is_ssl st1 pc) as [s|]; [by apply (Hend (Some s) st1 false)|].
  destruct (msg_buffers (ks_maps st1) !! _) as [mb|]; [|by apply (Hend None st1 false)].
  destruct (take_msg_buffer e st1 _ mb) as [[[b2 n2] st2]|] eqn:Ht; [|by apply (Hend None st1 true)].
  assert (H2 : unread_unsized (ks_maps st2)) by (by apply (unsized_same st1); [eapply take_send_args|]).
  destruct (mb_pos mb =? 0); [|by apply (Hend None (del_msg_buffer st2 (make_egress_key conn)) false)].
  pose proof (try_bind_keeps e st2 (ke_now e 0%nat) b2 n2 n2 pc (d_port conn)) as [M3 _]. destruct (try_bind e st2 _ b2 n2 n2 pc _) as [st3 ssl3]. cbn [fst] in *.
  rewrite <- M3 in H2. destruct ssl3 as [s|]; [by apply (Hend (Some s) (del_msg_buffer st3 (make_egress_key conn)) false)|].
  pose proof (send_read_unsized e st3 pc (d_port conn) (make_egress_key conn) sk n2 b2 n2 H2) as H4.
  destruct (send_buffer_read e st3 pc _ _ sk n2 b2 n2) as [st4 over]. apply (Hend None _ over). by destruct over.
Qed.

(** ** Examples *)

(** A client socket at address 77, from port 40000 to port 80. *)
Definition example_ksock (state acked : Z) : ksock :=
  mk_ksock AF_INET 40000 (bswap16 80) [10; 0; 0; 1] [10; 0; 0; 2] (repeat 0 16) (repeat 0 16) state acked 1 None.

Definition example_kenv (now : Z) (s : ksock) : kenv :=
  mk_kenv example_conf example_task true (fun k => now + Z.of_nat k) example_henv example_h2_chain (example_tcp_env now) (example_dns_env now) 0 0
    (fun a => if a =? 77 then Some s else None) (fun _ => 77) (fun _ => Some nameless_msg) (one_segment []) example_scratch 3 (Some example_scratch)
    (list_umem []).

Definition empty_kmaps : kprobe_maps := mk_kmaps ∅ ∅ ∅ ∅ ∅ ∅ ∅ ∅ ∅ ∅ empty_links.
Definition example_kstate (o : tls_own) (m : kprobe_maps) : kstate := mk_ks (example_tls_tracer o) example_dns_state m [].

Definition open_sock : ksock := example_ksock 1 1.
Definition refused_sock : ksock := example_ksock TCP_CLOSE 0.
Definition example_wire_conn : connection_info := mk_conn (ip4ip6_prefix ++ [10; 0; 0; 1]) (ip4ip6_prefix ++ [10; 0; 0; 2]) 40000 80.

(** The thread is inside SSL_write of an SSL that has not met its socket. *)
Definition writing_ssl : tls_own := set_write_args no_tls {[cur_pid_tgid example_task := mk_ssl_args 9000 0 0 0]}.

Lemma tls_ciphertext_not_parsed_witness :
  is_tls (example_kenv 5 open_sock) (example_kstate writing_ssl empty_kmaps) (conn_of (example_kenv 5 open_sock) example_wire_conn) TCP_SEND
  /\ ks_handed (obi_kprobe_tcp_sendmsg (example_kenv 5 open_sock) (example_kstate writing_ssl empty_kmaps) 77 one_segment_iter 30) = [].
Proof.
  assert (Ht : is_tls (example_kenv 5 open_sock) (example_kstate writing_ssl empty_kmaps) (conn_of (example_kenv 5 open_sock) example_wire_conn) TCP_SEND).
  { right. vm_compute. discriminate. }
  split; [exact Ht|].
  assert (Hs : parse_sock_info (ke_sock (example_kenv 5 open_sock) 77) = Some example_wire_conn) by (vm_compute; reflexivity).
  exact (proj1 (proj1 (tls_ciphertext_not_parsed (example_kenv 5 open_sock) (example_kstate writing_ssl empty_kmaps) 77 example_wire_conn Hs ltac:(discriminate)) Ht) one_segment_iter 30).
Defined.

(** The connection with something under each of its keys. *)
Definition example_ends : pid_connection_info := conn_of (example_kenv 5 open_sock) example_wire_conn.
Definition example_open_req : tcp_req_t :=
  init_failed_connect_tcp_req empty_links example_task example_ends 80 2 0.
Definition plain_open_req : tcp_req_t :=
  mk_tcp_req k_event_type_tcp_request 0 TCP_SEND k_protocol_type_unknown false 0 3 2 0 0 0 0 (tq_buf example_open_req)
    (tq_pid example_open_req) (tq_cap example_open_req).
Definition busy_state : kstate :=
  let s := mk_send_args example_ends 10 77 80 0 in
  with_span (example_kstate no_tls (set_send_args empty_kmaps {[cur_id (example_kenv 5 open_sock) := s]} {[77 := s]}))
    (fun _ => mk_hs (set_ongoing_http
                       (set_cp_support (set_h2_conns empty_tmaps {[example_ends := mk_h2_conn 1 0 0 0]})
                          {[example_ends := mk_cp_data (mk_trace_key 0 (mk_pid_key 5 5 1)) 2 1 1 0]})
                       {[example_ends := calling_info]})
                {[example_ends := 1]} {[example_ends := plain_open_req]} {[pc_conn example_ends := 2]} []).

Lemma tcp_close_forgets_witness :
  is_Some (http_of (ks_span busy_state) example_ends) /\ is_Some (tcp_of (ts_tcp (ks_ts busy_state)) example_ends)
  /\ is_ssl busy_state example_ends = Some 1
  /\ let st' := obi_kprobe_tcp_close (example_kenv 5 open_sock) busy_state 77 in
     active_send_args (ks_maps st') !! cur_id (example_kenv 5 open_sock) = None /\ active_send_sock_args (ks_maps st') !! 77 = None
     /\ tcp_of (ts_tcp (ks_ts st')) example_ends = None /\ is_ssl st' example_ends = None
     /\ ongoing_http2_connections (ks_tmaps st') !! example_ends = None /\ cp_support_connect_info (ks_tmaps st') !! example_ends = None
     /\ connection_tracker (ks_span st') !! pc_conn example_ends = None
     /\ (is_conn_unreadable busy_state (pc_conn example_ends) = false -> is_empty_connection_info (pc_conn example_ends) = false ->
         http_of (ks_span st') example_ends = None)
     /\ ks_handed st' = [].
Proof.
  split; [vm_compute; by eexists|]. split; [vm_compute; by eexists|]. split; [vm_compute; reflexivity|].
  apply (tcp_close_forgets (example_kenv 5 open_sock) busy_state 77 example_wire_conn).
  - reflexivity.
  - vm_compute. reflexivity.
Defined.

(** The ends still have an open TCP request of an earlier connection. *)
Lemma failed_connect_reported_once_witness :
  exists new, failed_reports (obi_kprobe_tcp_close (example_kenv 9 refused_sock) (obi_kretprobe_sys_connect (example_kenv 8 refused_sock)
      (obi_kprobe_sock_def_error_report (example_kenv 7 refused_sock) (obi_kprobe_tcp_connect (example_kenv 6 open_sock)
        (obi_kprobe_sys_connect (example_kenv 5 open_sock) busy_state 3) 77) 77) (-111)) 77)
    = failed_reports busy_state ++ new
  /\ exists q, new = [q] /\ tq_start_monotime_ns q = 5.
Proof.
  apply (failed_connect_reported_once (example_kenv 5 open_sock) (example_kenv 6 open_sock) (example_kenv 7 refused_sock) (example_kenv 8 refused_sock)
           (example_kenv 9 refused_sock) busy_state 3 77 example_wire_conn (-111)).
  - intros e [<-|[<-|[<-|[<-|[]]]]]; reflexivity.
  - intros e [<-|[<-|[<-|[]]]]; reflexivity.
  - intros e [<-|[<-|[<-|[]]]]; vm_compute; reflexivity.
  - intros q Hq. vm_compute in Hq. by injection Hq as <-.
Defined.

(** A copy of 20 octets for the connection, and three pieces that no probe can read. *)
Definition copied_maps : kprobe_maps :=
  set_msg_buffers empty_kmaps {[make_egress_key example_wire_conn := mk_msg_buffer (repeat 0 256) 0 20 3]}.
Definition three_pieces : list send_probe :=
  [by_sendmsg (example_kenv 5 open_sock) 77 (mk_kernel_iter (Some 9) 0 None None None 1) 8; by_rate_check (example_kenv 6 open_sock) 77;
   by_sendmsg (example_kenv 7 open_sock) 77 (mk_kernel_iter (Some 9) 0 None None None 1) 12].

Lemma msg_buffer_parsed_once_witness :
  let st := example_kstate no_tls copied_maps in
  let st' := fold_left run_send three_pieces st in
  length (ks_handed st') = 1%nat
  /\ (length (ks_handed st') + untaken st' (make_egress_key example_wire_conn) <= length (ks_handed st) + untaken st (make_egress_key example_wire_conn))%nat.
Proof.
  split; [vm_compute; reflexivity|].
  apply (msg_buffer_parsed_once (make_egress_key example_wire_conn) (example_kstate no_tls copied_maps) three_pieces).
  repeat constructor; try (vm_compute; reflexivity); intros conn Hc; vm_compute in Hc; injection Hc as <-; vm_compute; reflexivity.
Defined.

(** The connect record of an earlier connection is still there after [tcp_connect] has cleaned up: the
    socket of the new connect is recorded only after it has been looked at. *)
Example stale_connect_record_kept :
  let pc := conn_of (example_kenv 6 open_sock) example_wire_conn in
  let st := with_tmaps (example_kstate no_tls empty_kmaps)
              (fun m => set_cp_support m {[pc := mk_cp_data (mk_trace_key 0 (mk_pid_key 1 1 1)) 1 1 0 0]}) in
  is_Some (cp_support_connect_info (ks_tmaps (obi_kprobe_tcp_connect (example_kenv 6 open_sock) (obi_kprobe_sys_connect (example_kenv 5 open_sock) st 3) 77)) !! pc).
Proof. vm_compute. by eexists. Qed.

(** A connect that fails after the call has returned is reported by the error and again by the close. *)
Example late_failure_reported_twice :
  let st := obi_kretprobe_sys_connect (example_kenv 7 open_sock)
              (obi_kprobe_tcp_connect (example_kenv 6 open_sock) (obi_kprobe_sys_connect (example_kenv 5 open_sock) (example_kstate no_tls empty_kmaps) 3) 77)
              (- EINPROGRESS) in
  length (tcp_events (obi_kprobe_tcp_close (example_kenv 9 refused_sock) (obi_kprobe_sock_def_error_report (example_kenv 8 refused_sock) st 77) 77)) = 2%nat.
Proof. vm_compute. reflexivity. Qed.
