(* ===== verification/SkFilter.v ===== *)
(** * The socket filter of the generic tracer ([obi_socket__http_filter], [obi_socket_flt_buf] and
      [obi_socket__http_dns_filter] of [bpf/generictracer/k_tracer.c]).

    The filter sees every packet of the host.  It reads the headers ([Packet.read_sk_buff]), sends DNS
    packets to [Dns.handle_dns], copies the context of a client request to the connection it leaves on when
    another interface relays it, and captures the payload of the segments whose buffers the socket probes
    cannot read ([KProbes]).

    [fstate] is the state of the probes, the map of relayed connections, and the scratch element
    [backup_buffer_mem]; [fenv] is what the filter reads besides the packet: the configuration, the cookie of
    the packet's socket (0 for a relayed packet), the clock.  The context of the tail call to
    [obi_socket_flt_buf] is passed as arguments. *)

From Stdlib Require Import ZArith Lia ZifyBool List Bool.
From stdpp Require Import base list countable gmap.
From S2P Require Import Prelude TraceUtil Sampling H2Defs Entry IovIter ConnInfo Packet LargeBuf TlsRecord HttpInfo TcpReq TraceMaps TraceParent Dns TraceLife.
From S2P Require Import HttpSpan HttpTrace TlsPrefix TcpSpan H2Stream H2Frames H2Walk Dispatch SslProbes KProbes.

Local Open Scope Z_scope.

Record partial_connection_info := mk_partial { pp_s_addr : list Z; pp_s_port : Z; pp_d_port : Z; pp_tcp_seq : Z }.

#[export] Instance partial_connection_info_eq_dec : EqDecision partial_connection_info.
Proof. solve_decision. Defined.

#[export] Instance partial_connection_info_countable : Countable partial_connection_info.
Proof.
  refine (inj_countable' (fun c => (pp_s_addr c, pp_s_port c, pp_d_port c, pp_tcp_seq c)) (fun '(a, p, q, s) => mk_partial a p q s) _). by intros [].
Defined.

Record fstate := mk_fstate {
  fs_probes : kstate;
  tcp_connection_map : gmap partial_connection_info connection_info;
  backup_buffer_mem : backup_buffer
}.

Definition with_probes (st : fstate) (f : kstate -> kstate) : fstate := mk_fstate (f (fs_probes st)) (tcp_connection_map st) (backup_buffer_mem st).

Record fenv := mk_fenv { fe_conf : tconf; fe_dns : dns_env; fe_cookie : Z; fe_now : Z }.

Section filter.
Variable (e : fenv).

(** [partial] of [obi_socket_flt_buf]. *)
Definition partial_key (conn : connection_info) (tcp : protocol_info) : partial_connection_info :=
  mk_partial (s_addr conn) (s_port conn) (d_port conn) (pi_seq tcp).

(** A client request: remembered under its partial key where it has a socket and a context; given the
    context of the connection remembered there where it has neither. *)
Definition relay_request (st : fstate) (conn : connection_info) (tcp : protocol_info) : fstate :=
  let m := ks_tmaps (fs_probes st) in
  let partial := partial_key conn tcp in
  match trace_info_for_connection m conn TRACE_TYPE_CLIENT with
  | Some _ =>
      if nz (fe_cookie e) then mk_fstate (fs_probes st) (<[partial := conn]> (tcp_connection_map st)) (backup_buffer_mem st) else st
  | None =>
      if nz (fe_cookie e) then st
      else
        match tcp_connection_map st !! partial with
        | None => st
        | Some prev_conn =>
            match trace_info_for_connection m prev_conn TRACE_TYPE_CLIENT ≫= deref m with
            | None => st
            | Some trace_info =>
                if current_immediate_epoch (ts (tpp_tp trace_info)) =? current_immediate_epoch (fe_now e)
                then with_probes st (fun k => with_tmaps k (fun m => set_trace_info_for_connection m conn TRACE_TYPE_CLIENT trace_info))
                else st
            end
        end
  end.

(** The element a capture goes to: the one a send has asked for, unless it holds this segment already, or a
    new one on a connection whose buffers are known to be unreadable. *)
Definition capture_buf (st : fstate) (conn : connection_info) (tcp : protocol_info) : option (list Z) * fstate :=
  match sock_filter_buffers (ks_maps (fs_probes st)) !! conn with
  | Some b => if bb_tcp_seq b =? pi_seq tcp then (None, st) else (Some (bb_buf b), st)
  | None =>
      if is_conn_unreadable (fs_probes st) conn then
        let mem := mk_backup (bb_buf (backup_buffer_mem st)) (pi_seq tcp) in
        (Some (bb_buf mem), mk_fstate (fs_probes st) (tcp_connection_map st) mem)
      else (None, st)
  end.

Definition capture_segment (st : fstate) (skb : list Z) (conn : connection_info) (tcp : protocol_info) : fstate :=
  match capture_buf st conn tcp with
  | (None, st) => st
  | (Some b, st) =>
      let b := read_skb_bytes skb (pi_hdr_len tcp) b k_backup_buffer_len k_backup_buffer_len in
      with_probes st (fun k => with_maps k (fun m => set_filter_buffers m (<[conn := mk_backup b (pi_seq tcp)]> (sock_filter_buffers m))))
  end.

(** The connections that are looked at: the ones a connect or an accept recorded, the ones to a listening
    port, and the ones a send has asked for; [conn] is sorted. *)
Definition is_followed (st : kstate) (conn : connection_info) (orig_dport : Z) : bool :=
  match connection_tracker (ks_span st) !! conn with
  | Some _ => true
  | None => bool_decide (orig_dport ∈ filter_ports (ks_maps st)) || match sock_filter_buffers (ks_maps st) !! conn with Some _ => true | None => false end
  end.

Definition obi_socket_flt_buf (st : fstate) (skb : list Z) (conn : connection_info) (tcp : protocol_info) : fstate :=
  let orig_dport := d_port conn in
  let conn := sort_connection_info conn in
  if negb (is_followed (fs_probes st) conn orig_dport) then st
  else
    let b := skb_load skb (pi_hdr_len tcp) (Z.to_nat MIN_HTTP_SIZE) in
    let len := u32 (zlen skb - pi_hdr_len tcp) in
    let len := if MIN_HTTP_SIZE <? len then MIN_HTTP_SIZE else len in
    let st := match is_http (list_buf b) len with
              | Some t => if t =? PACKET_TYPE_REQUEST then relay_request st conn tcp else st
              | None => st
              end in
    capture_segment st skb conn tcp.

Definition obi_socket__http_dns_filter (st : fstate) (skb : list Z) : fstate :=
  let '(_, tcp, conn) := read_sk_buff skb empty_protocol_info empty_conn in
  with_probes st (fun k => with_dns k (fun d => snd (handle_dns (fe_conf e) (ks_links k) (fe_dns e) d skb conn tcp))).

Definition obi_socket__http_filter (st : fstate) (skb : list Z) : fstate :=
  let '(success, tcp, conn) := read_sk_buff skb empty_protocol_info empty_conn in
  if is_dns conn then obi_socket__http_dns_filter st skb
  else if negb success then st
  else if negb (tcp_closing tcp) && tcp_empty tcp skb then st
  else obi_socket_flt_buf st skb conn tcp.

End filter.

(** ** What a capture holds *)

(** The whole blocks of 16 octets of a payload, up to [n] of them, and zeroes for the rest. *)
Definition whole_blocks (n : nat) (data : list Z) : list Z :=
  let k := (16 * Nat.min n (length data / 16))%nat in take k data ++ repeat 0 (16 * n - k).

Lemma whole_blocks_length n data : length (whole_blocks n data) = (16 * n)%nat.
Proof.
  unfold whole_blocks. cbv zeta. rewrite length_app, length_take, repeat_length.
  pose proof (Nat.Div0.mul_div_le (length data) 16). lia.
Qed.

Section blocks.
Variables (skb : list Z) (off : Z).
Hypothesis (Hoff : 0 <= off <= zlen skb).
Let D := drop (Z.to_nat off) skb.

Lemma block_load k : skb_load skb (off + 16 * Z.of_nat k) 16 =
  if (16 * k + 16 <=? length D)%nat then take 16 (drop (16 * k) D) else repeat 0 16.
Proof.
  unfold skb_load, skb_load_bytes. rewrite (proj2 (Z.leb_le 0 _)) by lia. cbn [andb].
  assert (HD : zlen skb = off + Z.of_nat (length D)) by (unfold D, zlen in *; rewrite length_drop; lia).
  rewrite HD. destruct (Nat.leb_spec (16 * k + 16) (length D)).
  - rewrite (proj2 (Z.leb_le _ _)) by lia. unfold D. rewrite drop_drop. do 2 f_equal. lia.
  - rewrite (proj2 (Z.leb_gt _ _)) by lia. done.
Qed.

Lemma whole_blocks_step k : whole_blocks k D ++ skb_load skb (off + 16 * Z.of_nat k) 16 = whole_blocks (S k) D.
Proof.
  rewrite block_load. unfold whole_blocks. cbv zeta. pose proof (Nat.div_mod_eq (length D) 16). pose proof (Nat.mod_upper_bound (length D) 16).
  destruct (Nat.leb_spec (16 * k + 16) (length D)).
  - rewrite !Nat.min_l by (apply Nat.div_le_lower_bound; lia). rewrite !Nat.sub_diag. cbn [repeat]. rewrite !app_nil_r.
    rewrite take_take_drop. f_equal. lia.
  - assert (length D / 16 <= k)%nat by lia. rewrite !Nat.min_r by lia.
    rewrite <- app_assoc, <- repeat_app. do 2 f_equal. lia.
Qed.

Lemma capture_loop b n : forall j, (n + j = 16)%nat -> (j <= 15)%nat ->
  skb_blocks n skb (off + 16 * Z.of_nat j) (whole_blocks j D ++ drop (16 * j) b) (16 * j) (256 - 16 * Z.of_nat j)
  = (whole_blocks 15 D ++ drop 240 b, 240%nat, off + 240, 16).
Proof.
  induction n as [|n IH]; intros j Hn Hj; [lia|]. cbn [skb_blocks]. destruct (Z.leb_spec (256 - 16 * Z.of_nat j) 16) as [Hle|Hgt].
  - assert (j = 15%nat) as -> by lia. done.
  - rewrite take_app_length' by (by rewrite whole_blocks_length). rewrite drop_app_ge, whole_blocks_length, drop_drop by (rewrite whole_blocks_length; lia).
    rewrite app_assoc, whole_blocks_step. replace (16 * j + (16 * j + 16 - 16 * j))%nat with (16 * S j)%nat by lia.
    replace (16 * j + 16)%nat with (16 * S j)%nat by lia. rewrite <- (IH (S j)) by lia. f_equal; lia.
Qed.

(** The capture is the whole blocks of the payload: a rest shorter than a block is lost. *)
Lemma capture_blocks b : length b = 256%nat ->
  read_skb_bytes skb off b k_backup_buffer_len k_backup_buffer_len = whole_blocks 16 D.
Proof.
  intros Hb. unfold read_skb_bytes, k_backup_buffer_len. change (256 <? 256) with false. change (Z.to_nat (256 / 16)) with 16%nat. cbv iota.
  pose proof (capture_loop b 16 0 eq_refl ltac:(lia)) as H. change (whole_blocks 0 D ++ drop (16 * 0) b) with b in H.
  change (256 - 16 * Z.of_nat 0) with 256 in H. rewrite Z.add_0_r in H. change (16 * 0)%nat with 0%nat in H. rewrite H.
  change (u64 (16 - 1)) with 15. change (16 <=? 15) with false. cbv iota. change (Z.to_nat (15 + 1)) with 16%nat.
  rewrite take_app_length' by (by rewrite whole_blocks_length). rewrite drop_app_ge, whole_blocks_length, drop_drop by (rewrite whole_blocks_length; lia).
  rewrite app_assoc. change (off + 240) with (off + 16 * Z.of_nat 15). rewrite whole_blocks_step, drop_ge by lia. by rewrite app_nil_r.
Qed.
End blocks.

(** ** The filter on a frame *)

Lemma relay_keeps e st conn tcp : let st' := relay_request e st conn tcp in
  ks_maps (fs_probes st') = ks_maps (fs_probes st) /\ backup_buffer_mem st' = backup_buffer_mem st
  /\ ks_handed (fs_probes st') = ks_handed (fs_probes st) /\ (forall pc, is_ssl (fs_probes st') pc = is_ssl (fs_probes st) pc).
Proof.
  unfold relay_request. cbv zeta. destruct (trace_info_for_connection _ _ _); [by destruct (nz _)|]. destruct (nz _); [done|].
  destruct (_ !! _); [|done]. destruct (_ ≫= _); [|done]. by destruct (_ =? _).
Qed.

(** The connection a frame of this network and segment belongs to, as it stands in the packet. *)
Definition frame_conn (n : network) (s : segment) : connection_info :=
  mk_conn (fst (network_addrs n)) (snd (network_addrs n)) (sg_sport s) (sg_dport s).

(** A well-formed frame with a payload, on a connection that is not DNS, reaches [obi_socket_flt_buf]. *)
Lemma filter_frame e st macs n s :
  length macs = 12%nat -> network_ok n -> segment_ok s -> sg_payload s <> [] -> is_dns (frame_conn n s) = false ->
  let skb := frame macs n s in
  exists tcp, obi_socket__http_filter e st skb = obi_socket_flt_buf e st skb (frame_conn n s) tcp
  /\ 0 <= pi_hdr_len tcp <= zlen skb /\ drop (Z.to_nat (pi_hdr_len tcp)) skb = sg_payload s /\ pi_seq tcp = sg_seq s.
Proof.
  intros Hm Hn Hs Hp Hd skb. destruct (read_frame macs n s Hm Hn Hs) as (tcp & Hr & Hdrop & Hseq & _). fold skb in Hr, Hdrop.
  exists tcp. unfold obi_socket__http_filter. rewrite Hr. fold (frame_conn n s). rewrite Hd. cbn [negb].
  assert (Hl : (length skb = length macs + 2 + length (network_header n) + length (tcp_header s) + length (sg_payload s))%nat)
    by (unfold skb, frame; rewrite !length_app; change (length (be_bytes 2 _)) with 2%nat; lia).
  assert (Hdl : length (drop (Z.to_nat (pi_hdr_len tcp)) skb) = length (sg_payload s)) by (by rewrite Hdrop).
  rewrite length_drop in Hdl. assert (length (sg_payload s) <> 0%nat) by (by destruct (sg_payload s)).
  unfold tcp_empty. rewrite (proj2 (Z.eqb_neq (pi_hdr_len tcp) (zlen skb))) by (unfold zlen; lia). rewrite andb_false_r.
  split_and!; [done|lia|unfold zlen; lia|done|done].
Qed.

(** The segment is wanted: a send has asked for it and it is not the one that is there, or the buffers of the
    connection are known to be unreadable. *)
Definition wanted (st : fstate) (key : connection_info) (seq : Z) : Prop :=
  match sock_filter_buffers (ks_maps (fs_probes st)) !! key with
  | Some b => bb_tcp_seq b <> seq /\ length (bb_buf b) = 256%nat
  | None => is_conn_unreadable (fs_probes st) key = true /\ length (bb_buf (backup_buffer_mem st)) = 256%nat
  end.

Lemma capture_wanted st skb conn tcp : wanted st conn (pi_seq tcp) -> 0 <= pi_hdr_len tcp <= zlen skb ->
  let st' := capture_segment st skb conn tcp in
  let b := mk_backup (whole_blocks 16 (drop (Z.to_nat (pi_hdr_len tcp)) skb)) (pi_seq tcp) in
  fs_probes st' = with_maps (fs_probes st) (fun m => set_filter_buffers m (<[conn := b]> (sock_filter_buffers m))).
Proof.
  intros Hw Hr. unfold capture_segment, capture_buf, wanted in *. destruct (sock_filter_buffers (ks_maps (fs_probes st)) !! conn) as [b|] eqn:Hb.
  - destruct Hw as [Hne Hl]. rewrite (proj2 (Z.eqb_neq _ _) Hne). cbv zeta. cbn [with_probes fs_probes]. by rewrite capture_blocks.
  - destruct Hw as [-> Hl]. cbv zeta. cbn [with_probes fs_probes bb_buf]. by rewrite capture_blocks.
Qed.

(** A wanted segment of a followed connection is captured, and nothing else of the buffers changes. *)
Lemma filter_captures e st macs n s :
  length macs = 12%nat -> network_ok n -> segment_ok s -> sg_payload s <> [] -> is_dns (frame_conn n s) = false ->
  let key := sort_connection_info (frame_conn n s) in
  is_followed (fs_probes st) key (sg_dport s) = true -> wanted st key (sg_seq s) ->
  let k := fs_probes st in
  let k' := fs_probes (obi_socket__http_filter e st (frame macs n s)) in
  ks_maps k' = set_filter_buffers (ks_maps k) (<[key := mk_backup (whole_blocks 16 (sg_payload s)) (sg_seq s)]> (sock_filter_buffers (ks_maps k)))
  /\ ks_handed k' = ks_handed k /\ (forall pc, is_ssl k' pc = is_ssl k pc).
Proof.
  intros Hm Hn Hs Hp Hd key Hf Hw k k'. unfold k'. destruct (filter_frame e st macs n s Hm Hn Hs Hp Hd) as (tcp & -> & Hr & Hdrop & Hseq).
  unfold obi_socket_flt_buf. change (d_port (frame_conn n s)) with (sg_dport s). fold key. rewrite Hf. cbn [negb]. cbv zeta.
  match goal with |- context [capture_segment ?x _ _ _] => set (st1 := x) end.
  assert (H1 : ks_maps (fs_probes st1) = ks_maps k /\ backup_buffer_mem st1 = backup_buffer_mem st
    /\ ks_handed (fs_probes st1) = ks_handed k /\ (forall pc, is_ssl (fs_probes st1) pc = is_ssl k pc)).
  { unfold st1. destruct (is_http _ _) as [t|]; [|done]. destruct (t =? _); [apply relay_keeps|done]. }
  destruct H1 as (E1 & E2 & E3 & E4). rewrite capture_wanted; [|rewrite Hseq; unfold wanted, is_conn_unreadable, is_port_unreadable in *; by rewrite E1, E2|done].
  rewrite Hdrop, Hseq. cbn [with_maps ks_maps ks_handed]. rewrite E1, E3. split_and!; [done..|]. intros pc. rewrite <- E4. done.
Qed.

(** ** Receives without a buffer *)

(** A receive that returns without its entry having been seen, as a splice does. *)
Record spliced (e : kenv) (st : kstate) (sk : Z) (conn : connection_info) (n : Z) : Prop := mk_spliced {
  sp_ok : ke_ok e = true;
  sp_sock : sk <> 0;
  sp_conn : parse_sock_info (ke_sock e sk) = Some conn;
  sp_args : active_recv_args (ks_maps st) !! cur_id e = None;
  sp_len : 1 < n < 2 ^ 31
}.

Lemma spliced_return e st sk conn n : spliced e st sk conn n ->
  obi_kprobe_tcp_cleanup_rbuf e st sk n =
  let pc := conn_of e conn in
  let '(u, st1) := recv_backup e st (pc_conn pc) None in
  let st1 := setup_connection_to_pid_mapping e (cp_support_established st1 pc) pc (d_port conn) in
  del_recv_args e
    match is_ssl st1 pc, u with
    | None, Some u => fst (handle_buf_with_connection e (del_recv_args e st1) pc u n TCP_RECV (d_port conn) sk)
    | _, _ => st1
    end.
Proof.
  intros [Hok Hsk Hc Ha Hn]. unfold obi_kprobe_tcp_cleanup_rbuf, return_recvmsg. rewrite Hok, Ha. cbn [negb].
  assert (nz sk = true) as -> by (unfold nz; by rewrite (proj2 (Z.eqb_neq sk 0) Hsk)). cbv zeta.
  rewrite (proj2 (Z.leb_gt n 0)), (proj2 (Z.leb_gt n 1)) by lia. rewrite Hc. cbn [recv_buffer]. fold (conn_of e conn).
  destruct (recv_backup e st (pc_conn (conn_of e conn)) None) as [u st1].
  assert (nz n = true) as -> by (unfold nz; by rewrite (proj2 (Z.eqb_neq n 0)) by lia). done.
Qed.

(** With nothing captured the ports of the connection are marked, and nothing is handed over. *)
Lemma spliced_marks e st sk conn n : spliced e st sk conn n -> sock_filter_buffers (ks_maps st) !! sort_connection_info conn = None ->
  let st' := obi_kprobe_tcp_cleanup_rbuf e st sk n in
  sock_filter_buffers (ks_maps st') = sock_filter_buffers (ks_maps st) /\ filter_ports (ks_maps st') = filter_ports (ks_maps st)
  /\ active_recv_args (ks_maps st') = delete (cur_id e) (active_recv_args (ks_maps st))
  /\ connection_tracker (ks_span st') = connection_tracker (ks_span st) /\ ks_handed st' = ks_handed st /\ (forall pc, is_ssl st' pc = is_ssl st pc)
  /\ (0 < s_port conn -> 0 < d_port conn -> is_conn_unreadable st' (sort_connection_info conn) = true).
Proof.
  intros Hs Hb. cbv zeta. rewrite (spliced_return e st sk conn n Hs). unfold recv_backup. cbn [conn_of pc_conn]. rewrite Hb. cbv zeta.
  fold (conn_of e conn). set (key := sort_connection_info conn). set (st1 := mark_port_unreadable _ (s_port key)).
  assert (H1 : sock_filter_buffers (ks_maps st1) = sock_filter_buffers (ks_maps st) /\ filter_ports (ks_maps st1) = filter_ports (ks_maps st)
    /\ active_recv_args (ks_maps st1) = active_recv_args (ks_maps st) /\ ks_tls st1 = ks_tls st /\ ks_handed st1 = ks_handed st
    /\ (0 < s_port key -> s_port key ∈ unreadable_buffer_ports (ks_maps st1))).
  { unfold st1, mark_port_unreadable. destruct (0 <? d_port key), (Z.ltb_spec 0 (s_port key)); split_and!; try done; intros; cbn; try lia; set_solver. }
  destruct H1 as (B & F & A & T & H & U). destruct (mapping_keeps e (cp_support_established st1 (conn_of e conn)) (conn_of e conn) (d_port conn)) as (M1 & M2 & M3).
  cbv zeta in *. set (st2 := setup_connection_to_pid_mapping _ _ _ _) in *. rewrite M1.
  replace (match is_ssl (cp_support_established st1 (conn_of e conn)) (conn_of e conn) with Some _ => st2 | None => st2 end) with st2 by (by destruct (is_ssl _ _)).
  change (ks_maps (cp_support_established st1 (conn_of e conn))) with (ks_maps st1) in M3.
  assert (Htr : connection_tracker (ks_span st2) = connection_tracker (ks_span st)).
  { unfold st2, setup_connection_to_pid_mapping. match goal with |- context [if ?b then _ else _] => destruct b end;
      change (connection_tracker (ts_span (tls_ts (ks_tls st1))) = connection_tracker (ks_span st)); by rewrite T. }
  unfold del_recv_args. cbn [with_maps ks_maps ks_handed set_recv_args sock_filter_buffers filter_ports active_recv_args]. rewrite M3, M2, B, F, A.
  split_and!; try done.
  - intros pc. change (is_ssl st2 pc = is_ssl st pc). rewrite M1, established_ssl. unfold is_ssl, ks_span, ks_ts. by rewrite T.
  - intros Hp1 Hp2. assert (0 < s_port key) by (unfold key; destruct (sort_cases conn) as [-> | ->]; done).
    unfold is_conn_unreadable, is_port_unreadable. apply orb_true_iff. right. rewrite (proj2 (Z.eqb_neq (s_port key) 0)) by lia.
    cbn [with_maps ks_maps set_recv_args unreadable_buffer_ports]. rewrite M3. apply bool_decide_eq_true_2. auto.
Qed.

(** A captured buffer is handed over, unless the connection is TLS, and is gone. *)
Lemma spliced_hands e st sk conn n b : spliced e st sk conn n -> sock_filter_buffers (ks_maps st) !! sort_connection_info conn = Some b ->
  let st' := obi_kprobe_tcp_cleanup_rbuf e st sk n in
  ks_handed st' = ks_handed st ++ (match is_ssl st (conn_of e conn) with Some _ => [] | None => [mk_handed (conn_of e conn) (backup_umem e b) n TCP_RECV] end)
  /\ sock_filter_buffers (ks_maps st') = delete (sort_connection_info conn) (sock_filter_buffers (ks_maps st)).
Proof.
  intros Hs Hb. cbv zeta. rewrite (spliced_return e st sk conn n Hs). unfold recv_backup. cbn [conn_of pc_conn]. rewrite Hb. cbv zeta.
  fold (conn_of e conn). match goal with |- context [cp_support_established ?x _] => set (st1 := x) end.
  destruct (mapping_keeps e (cp_support_established st1 (conn_of e conn)) (conn_of e conn) (d_port conn)) as (M1 & M2 & M3). cbv zeta in *.
  set (st2 := setup_connection_to_pid_mapping _ _ _ _) in *. rewrite M1, established_ssl.
  change (is_ssl st1 (conn_of e conn)) with (is_ssl st (conn_of e conn)). destruct (is_ssl st (conn_of e conn)) as [x|].
  { unfold del_recv_args. cbn [with_maps ks_handed ks_maps set_recv_args sock_filter_buffers]. by rewrite M2, M3, app_nil_r. }
  destruct (handle_buf_effect e (del_recv_args e st2) (conn_of e conn) (backup_umem e b) n TCP_RECV (d_port conn) sk) as (H1 & H2 & H3). cbv zeta in *.
  assert (Hn : s32 n = n) by (apply swrap_small; destruct Hs; lia).
  rewrite Hn, (proj2 (Z.leb_gt n 0)) in H3 by (destruct Hs; lia). rewrite H3, Hn in H2. cbn [negb] in H2.
  unfold del_recv_args at 1 3. cbn [with_maps ks_handed ks_maps set_recv_args sock_filter_buffers]. rewrite H2, H1.
  unfold del_recv_args. cbn [with_maps ks_handed ks_maps set_recv_args sock_filter_buffers]. rewrite M2, M3. done.
Qed.

(** An unfollowed connection's segments pass. *)
Lemma filter_ignores e st macs n s :
  length macs = 12%nat -> network_ok n -> segment_ok s -> sg_payload s <> [] -> is_dns (frame_conn n s) = false ->
  is_followed (fs_probes st) (sort_connection_info (frame_conn n s)) (sg_dport s) = false ->
  obi_socket__http_filter e st (frame macs n s) = st.
Proof.
  intros Hm Hn Hs Hp Hd Hf. destruct (filter_frame e st macs n s Hm Hn Hs Hp Hd) as (tcp & -> & _).
  unfold obi_socket_flt_buf. change (d_port (frame_conn n s)) with (sg_dport s). by rewrite Hf.
Qed.

(** C30: what a splice hides is recovered, on the connections the filter follows.  A receive that returns
    without its entry having been seen, with nothing captured for the connection, reports nothing and marks
    the connection's ports, which differ and are not 0.  The next segment of the connection, in either
    direction and with either version of IP, well formed, with a payload and not to or from the DNS port,
    is then captured by the socket filter if the connection is followed: if a connect or an accept of it
    was recorded, or the segment goes to a filtered port.  The next such receive hands the capture to the
    dispatcher, as received data of that connection, once, unless the connection is marked as TLS; and
    nothing is handed over for a connection that is not followed.  Afterwards no capture is left.  A capture
    holds the whole 16-octet blocks of the segment's payload, at most 256 octets. *)
Theorem spliced_receive_recovered e1 e2 f st sk conn n1 n2 macs n s :
  spliced e1 (fs_probes st) sk conn n1 ->
  0 < s_port conn -> 0 < d_port conn -> s_port conn <> d_port conn ->
  let key := sort_connection_info conn in
  sock_filter_buffers (ks_maps (fs_probes st)) !! key = None -> length (bb_buf (backup_buffer_mem st)) = 256%nat ->
  length macs = 12%nat -> network_ok n -> segment_ok s -> sg_payload s <> [] -> is_dns (frame_conn n s) = false ->
  frame_conn n s = conn \/ frame_conn n s = swap_connection_info_order conn ->
  let st1 := with_probes st (fun k => obi_kprobe_tcp_cleanup_rbuf e1 k sk n1) in
  let st2 := obi_socket__http_filter f st1 (frame macs n s) in
  spliced e2 (fs_probes st2) sk conn n2 ->
  let k3 := obi_kprobe_tcp_cleanup_rbuf e2 (fs_probes st2) sk n2 in
  let b := mk_backup (whole_blocks 16 (sg_payload s)) (sg_seq s) in
  let tls := is_ssl (fs_probes st) (conn_of e2 conn) in
  ks_handed (fs_probes st2) = ks_handed (fs_probes st)
  /\ ks_handed k3 = ks_handed (fs_probes st)
       ++ (if is_followed (fs_probes st) key (sg_dport s) && negb (bool_decide (is_Some tls))
           then [mk_handed (conn_of e2 conn) (backup_umem e2 b) n2 TCP_RECV] else [])
  /\ sock_filter_buffers (ks_maps k3) !! key = None.
Proof.
  intros H1 Hp1 Hp2 Hne key Hb Hmem Hm Hn Hs Hp Hd Hfc st1 st2 H2 k3 b tls.
  destruct (spliced_marks e1 (fs_probes st) sk conn n1 H1 Hb) as (B1 & F1 & _ & T1 & HD1 & S1 & U1). cbv zeta in *.
  assert (Hkey : sort_connection_info (frame_conn n s) = key) by (destruct Hfc as [-> | ->]; [done|by apply sort_swap]).
  assert (Hf1 : is_followed (fs_probes st1) (sort_connection_info (frame_conn n s)) (sg_dport s) = is_followed (fs_probes st) key (sg_dport s)).
  { rewrite Hkey. unfold is_followed in *. cbn [st1 with_probes fs_probes]. by rewrite T1, F1, B1. }
  destruct (is_followed (fs_probes st) key (sg_dport s)); cbn [andb].
  - assert (Hw : wanted st1 (sort_connection_info (frame_conn n s)) (sg_seq s)).
    { rewrite Hkey. unfold wanted. cbn [st1 with_probes fs_probes backup_buffer_mem]. rewrite B1, Hb. split; [by apply U1|done]. }
    destruct (filter_captures f st1 macs n s Hm Hn Hs Hp Hd Hf1 Hw) as (C1 & C2 & C3). cbv zeta in *. fold st2 in C1, C2, C3. fold b in C1. rewrite Hkey in C1.
    destruct (spliced_hands e2 (fs_probes st2) sk conn n2 b H2) as (R1 & R2).
    { rewrite C1. cbn [set_filter_buffers sock_filter_buffers]. apply lookup_insert_eq. }
    unfold k3. cbv zeta in *. rewrite R1, R2, C2, C3. cbn [st1 with_probes fs_probes]. rewrite HD1, S1. fold tls.
    split; [done|]. split; [by destruct tls|]. apply lookup_delete_eq.
  - pose proof (filter_ignores f st1 macs n s Hm Hn Hs Hp Hd Hf1) as Hst. fold st2 in Hst. unfold k3. rewrite Hst in *.
    destruct (spliced_marks e2 (fs_probes st1) sk conn n2 H2) as (B2 & _ & _ & _ & HD2 & _); [cbn; by rewrite B1|]. cbv zeta in *.
    rewrite HD2, B2. cbn [st1 with_probes fs_probes]. rewrite HD1, B1, app_nil_r. done.
Qed.

(** ** Relayed requests *)

(** Every remembered connection has the source its key says. *)
Definition relay_ok (st : fstate) : Prop :=
  forall p c, tcp_connection_map st !! p = Some c -> s_addr c = pp_s_addr p /\ s_port c = pp_s_port p.

Lemma relay_inert e st conn tcp : relay_ok st ->
  let st' := relay_request e st conn tcp in trace_map (ks_tmaps (fs_probes st')) = trace_map (ks_tmaps (fs_probes st)) /\ relay_ok st'.
Proof.
  intros Hok. unfold relay_request, trace_info_for_connection, lookup_at. cbn [deref].
  destruct (trace_map (ks_tmaps (fs_probes st)) !! trace_key_from_conn conn TRACE_TYPE_CLIENT) as [own|] eqn:Hown.
  - destruct (nz _); [|done]. split; [done|]. intros p c. cbn [tcp_connection_map]. intros [[<- <-]|[_ H]]%lookup_insert_Some; [done|auto].
  - destruct (nz _); [done|]. destruct (tcp_connection_map st !! _) as [prev|] eqn:Hprev; [|done]. apply Hok in Hprev as [Ha Hp]. cbn in Ha, Hp.
    replace (trace_key_from_conn prev TRACE_TYPE_CLIENT) with (trace_key_from_conn conn TRACE_TYPE_CLIENT) by (unfold trace_key_from_conn; by rewrite Ha, Hp).
    by rewrite Hown.
Qed.

(** Capturing leaves the contexts and the relayed connections alone. *)
Lemma capture_keeps st skb conn tcp : let st' := capture_segment st skb conn tcp in
  ks_tmaps (fs_probes st') = ks_tmaps (fs_probes st) /\ tcp_connection_map st' = tcp_connection_map st.
Proof. unfold capture_segment, capture_buf. destruct (_ !! _); [by destruct (_ =? _)|]. by destruct (is_conn_unreadable _ _). Qed.

Lemma flt_buf_inert e st skb conn tcp : relay_ok st ->
  let st' := obi_socket_flt_buf e st skb conn tcp in trace_map (ks_tmaps (fs_probes st')) = trace_map (ks_tmaps (fs_probes st)) /\ relay_ok st'.
Proof.
  intros Hok. unfold obi_socket_flt_buf. destruct (is_followed _ _ _); [cbn [negb]; cbv zeta|done].
  match goal with |- context [capture_segment ?x _ _ _] => set (st1 := x) end.
  assert (H1 : trace_map (ks_tmaps (fs_probes st1)) = trace_map (ks_tmaps (fs_probes st)) /\ relay_ok st1).
  { unfold st1. destruct (is_http _ _) as [t|]; [|done]. destruct (t =? _); [by apply relay_inert|done]. }
  destruct (capture_keeps st1 skb (sort_connection_info conn) tcp) as [E1 E2]. cbv zeta in *. unfold relay_ok. rewrite E1, E2. exact H1.
Qed.

(** A packet as the filter gets it. *)
Definition run_filter (st : fstate) (p : fenv * list Z) : fstate := obi_socket__http_filter (fst p) st (snd p).

(** The filter invents no context.  Whatever packets it sees, other than DNS, and whatever they claim, every
    connection has after them the context it had before; in particular a request that another interface
    relays to a new destination needs no copy, because a context is found by its source alone. *)
Theorem filter_keeps_contexts st ps :
  relay_ok st -> Forall (fun p => is_dns (snd (read_sk_buff (snd p) empty_protocol_info empty_conn)) = false) ps ->
  let st' := fold_left run_filter ps st in
  relay_ok st'
  /\ (forall conn type, trace_info_for_connection (ks_tmaps (fs_probes st')) conn type ≫= deref (ks_tmaps (fs_probes st'))
                        = trace_info_for_connection (ks_tmaps (fs_probes st)) conn type ≫= deref (ks_tmaps (fs_probes st)))
  /\ (forall conn conn' type, s_addr conn' = s_addr conn -> s_port conn' = s_port conn ->
        trace_info_for_connection (ks_tmaps (fs_probes st')) conn' type = trace_info_for_connection (ks_tmaps (fs_probes st')) conn type).
Proof.
  intros Hok Hps st'.
  assert (H : relay_ok st' /\ trace_map (ks_tmaps (fs_probes st')) = trace_map (ks_tmaps (fs_probes st))).
  { unfold st'. clear st'. revert st Hok. induction Hps as [|p ps Hd _ IH]; intros st Hok; [done|]. cbn [fold_left].
    assert (Hs : trace_map (ks_tmaps (fs_probes (run_filter st p))) = trace_map (ks_tmaps (fs_probes st)) /\ relay_ok (run_filter st p)).
    { unfold run_filter, obi_socket__http_filter. destruct (read_sk_buff _ _ _) as [[ok tcp] conn]. cbn [snd] in Hd. rewrite Hd.
      destruct ok; [|done]. cbn [negb]. destruct (_ && _); [done|]. by apply flt_buf_inert. }
    destruct Hs as [E Hok']. destruct (IH _ Hok') as [Ho He]. by rewrite He, E. }
  destruct H as [Ho He]. split_and!; [done| |].
  - intros conn type. unfold trace_info_for_connection, lookup_at. cbn [deref]. rewrite He. destruct (_ !! _) eqn:Hl; [|done]. cbn. by rewrite He, Hl.
  - intros conn conn' type Ha Hp. unfold trace_info_for_connection, trace_key_from_conn. by rewrite Ha, Hp.
Qed.

(** ** Examples *)

(** A request of 20 octets from 10.0.0.1 port 40000 to 10.0.0.2 port 80. *)
Definition flt_payload : list Z := [71; 69; 84; 32; 47; 120; 32; 72; 84; 84; 80; 47; 49; 46; 49; 13; 10; 65; 58; 49].
Definition flt_net (dst : list Z) : network := net_ip4 0 [0; 60] (repeat 0 5) [0; 0] [10; 0; 0; 1] dst [].
Definition flt_segment : segment := mk_segment 40000 80 7 9 0 0x18 (repeat 0 6) [] flt_payload.
Definition flt_frame (dst : list Z) : list Z := frame (repeat 1 12) (flt_net dst) flt_segment.

Definition flt_maps : kprobe_maps := set_ports empty_kmaps ∅ {[80]}.
Definition flt_state (k : kstate) : fstate := mk_fstate k ∅ (mk_backup (repeat 0 256) 0).
Definition flt_env (cookie now : Z) : fenv := mk_fenv example_conf (example_dns_env now) cookie now.

Lemma flt_segment_ok : segment_ok flt_segment.
Proof. split; simpl; try lia; try reflexivity. exists 0. split; [lia|reflexivity]. Qed.

Lemma flt_net_ok dst : length dst = 4%nat -> network_ok (flt_net dst).
Proof. intros. repeat split; try reflexivity; [done|]. exists 0. split; [lia|reflexivity]. Qed.

Lemma spliced_receive_recovered_witness :
  let st := flt_state (example_kstate no_tls flt_maps) in
  let e := example_kenv 5 open_sock in
  let st1 := with_probes st (fun k => obi_kprobe_tcp_cleanup_rbuf e k 77 20) in
  let st2 := obi_socket__http_filter (flt_env 1 6) st1 (flt_frame [10; 0; 0; 2]) in
  let k3 := obi_kprobe_tcp_cleanup_rbuf e (fs_probes st2) 77 20 in
  is_followed (fs_probes st) (sort_connection_info example_wire_conn) 80 = true
  /\ ks_handed k3 = [mk_handed (conn_of e example_wire_conn) (backup_umem e (mk_backup (whole_blocks 16 flt_payload) 7)) 20 TCP_RECV]
  /\ sock_filter_buffers (ks_maps k3) !! example_wire_conn = None.
Proof.
  intros st e st1 st2 k3.
  assert (Hf : is_followed (fs_probes st) (sort_connection_info example_wire_conn) (sg_dport flt_segment) = true) by (vm_compute; reflexivity).
  assert (Ht : is_ssl (fs_probes st) (conn_of e example_wire_conn) = None) by (vm_compute; reflexivity).
  split; [exact Hf|].
  assert (H1 : spliced e (fs_probes st) 77 example_wire_conn 20) by (split; try reflexivity; try discriminate; lia).
  assert (H2 : spliced e (fs_probes st2) 77 example_wire_conn 20) by (split; try reflexivity; try discriminate; lia).
  pose proof (spliced_receive_recovered e e (flt_env 1 6) st 77 example_wire_conn 20 20 (repeat 1 12) (flt_net [10; 0; 0; 2]) flt_segment
    H1 eq_refl eq_refl ltac:(discriminate) eq_refl eq_refl eq_refl (flt_net_ok [10; 0; 0; 2] eq_refl) flt_segment_ok ltac:(discriminate) eq_refl
    (or_introl eq_refl) H2) as (_ & Hh & Hb).
  rewrite Hf, Ht in Hh. split; [exact Hh|exact Hb].
Defined.

(** The context of the connection of the request, at time 5. *)
Definition flt_info : tp_info_pid := mk_tp_info_pid (mk_tp_info (repeat 1 16) (repeat 2 8) (repeat 0 8) 5 1) 9 1 0 0 0.
Definition flt_traced : fstate :=
  flt_state (with_tmaps (example_kstate no_tls flt_maps) (fun m => set_trace_info_for_connection m example_wire_conn TRACE_TYPE_CLIENT flt_info)).
Definition flt_packets : list (fenv * list Z) := [(flt_env 1 6, flt_frame [10; 0; 0; 2]); (flt_env 0 7, flt_frame [10; 0; 9; 9])].

Lemma filter_keeps_contexts_witness :
  let st' := fold_left run_filter flt_packets flt_traced in
  trace_info_for_connection (ks_tmaps (fs_probes st')) (mk_conn (s_addr example_wire_conn) (ip4ip6_prefix ++ [10; 0; 9; 9]) 40000 80) TRACE_TYPE_CLIENT
  = trace_info_for_connection (ks_tmaps (fs_probes st')) example_wire_conn TRACE_TYPE_CLIENT
  /\ (trace_info_for_connection (ks_tmaps (fs_probes st')) example_wire_conn TRACE_TYPE_CLIENT ≫= deref (ks_tmaps (fs_probes st'))) = Some flt_info.
Proof.
  intros st'. destruct (filter_keeps_contexts flt_traced flt_packets) as (_ & H1 & H2).
  - intros p c H. done.
  - repeat constructor; vm_compute; reflexivity.
  - split; [by apply H2|]. refine (eq_trans (H1 example_wire_conn TRACE_TYPE_CLIENT) _). vm_compute. reflexivity.
Defined.

(** Of a segment of 20 octets the last four are lost, although the packet and the element have room for them. *)
Example capture_loses_short_block :
  whole_blocks 16 flt_payload = take 16 flt_payload ++ repeat 0 240
  /\ read_skb_bytes (flt_frame [10; 0; 0; 2]) 54 (repeat 0 256) (zlen flt_payload) k_backup_buffer_len = flt_payload ++ repeat 0 236.
Proof. by vm_compute. Qed.
