(* ===== verification/UnixSock.v ===== *)
(** * Unix sockets ([bpf/generictracer/k_unix_sock.h]).

    A Unix socket has no addresses: its connection is the pair of inode numbers of the two ends, larger
    first, written in the first words of the addresses.  The end that speaks first may not know the inode of
    its peer yet; what it recorded under the half-known connection is moved when the other end receives.

    [uenv] is the environment of a socket probe ([KProbes.kenv]) with the inode numbers of a socket and of
    its peer, by the address of the [struct sock]. *)

From Stdlib Require Import ZArith Lia ZifyBool List Bool.
From stdpp Require Import base list countable gmap.
From S2P Require Import Prelude TraceUtil Sampling H2Defs Entry IovIter ConnInfo Packet LargeBuf TlsRecord HttpInfo TcpReq TraceMaps TraceParent Dns TraceLife.
From S2P Require Import HttpSpan HttpTrace TlsPrefix TcpSpan H2Stream H2Frames H2Walk Dispatch SslProbes KProbes.

Local Open Scope Z_scope.

Record uenv := mk_uenv { ue_k : kenv; ue_inode : Z -> Z; ue_peer_inode : Z -> Z }.

(** [s_ip[0]] of an address that is otherwise zero. *)
Definition inode_addr (inode : Z) : list Z := le_bytes 4 (u32 inode) ++ repeat 0 12.

Definition connection_info_for_inode (inode peer_inode : Z) : connection_info :=
  if u32 inode <? u32 peer_inode then mk_conn (inode_addr peer_inode) (inode_addr inode) 0 0
  else mk_conn (inode_addr inode) (inode_addr peer_inode) 0 0.

Definition pid_connection_info_for_inode (id inode peer_inode : Z) : pid_connection_info :=
  mk_pid_conn (connection_info_for_inode inode peer_inode) (pid_from_pid_tgid id).

Definition set_unix_socks (l : links) x : links :=
  mk_links (clone_map l) (java_tasks l) (java_vt_threads l) x (fd_map l) (nginx_upstream l) (puma_worker_tasks l)
    (puma_task_connections l) (nodejs_fd_map l) (fd_to_connection l) (ongoing_goroutines l) (python_thread_states l) (python_task_states l)
    (python_context_tasks l) (node_manual_ctx_shadow l) (user_u64 l).

Section unix.
Variable (u : uenv).
Let e := ue_k u.
Let id := cur_id e.

(** The context the peer stored before it knew this end. *)
Definition move_context (st : kstate) (inode peer_inode : Z) : kstate :=
  let partial := connection_info_for_inode 0 peer_inode in
  match trace_info_for_connection (ks_tmaps st) partial TRACE_TYPE_CLIENT ≫= deref (ks_tmaps st) with
  | None => st
  | Some tp =>
      with_tmaps st (fun m => set_trace_info_for_connection (delete_trace_info_for_connection m partial TRACE_TYPE_CLIENT)
                                (connection_info_for_inode inode peer_inode) TRACE_TYPE_CLIENT tp)
  end.

(** The request this end recorded before it knew its peer: the TCP record, or else the HTTP record. *)
Definition move_request (st : kstate) (inode peer_inode : Z) : kstate :=
  let p_conn := pid_connection_info_for_inode id inode peer_inode in
  let partial := pid_connection_info_for_inode id inode 0 in
  match tcp_of (ts_tcp (ks_ts st)) partial with
  | Some req => with_tcp st (fun x => put_tcp (del_tcp x partial) p_conn req)
  | None =>
      match http_of (ks_span st) partial with
      | Some req => with_span st (fun sp => set_http (del_http sp partial) p_conn req)
      | None => st
      end
  end.

Definition obi_kprobe_unix_stream_recvmsg (st : kstate) (sock msg : Z) : kstate :=
  if negb (ke_ok e) then st
  else
    let sk := ke_socket_sk e sock in
    if negb (nz sk) then st
    else
      let inode := ue_inode u sk in
      let peer_inode := ue_peer_inode u sk in
      let st := if nz peer_inode then move_request (move_context st inode peer_inode) inode peer_inode else st in
      let st := ensure_sent_event e st id sk TCP_RECV in
      let ctx := match ke_msg e msg with Some m => get_iovec_ctx (msg_iter m) | None => mk_iter 0 0 0 0 end in
      with_maps st (fun m => set_recv_args m (<[id := mk_recv_args sk 0 ctx]> (active_recv_args m))).

Definition return_unix_recvmsg (st : kstate) (copied_len : Z) : kstate :=
  match active_recv_args (ks_maps st) !! id with
  | None => st
  | Some args =>
      if copied_len <=? 0 then st
      else
        let ctx := rv_iovec_ctx args in
        if (it_iov ctx =? 0) && (it_ubuf ctx =? 0) then del_recv_args e st
        else
          let '(read_len, b) := read_iovec_ctx (ke_iov e) ctx (ke_scratch e) copied_len in
          let sk := rv_sock_ptr args in
          let p_conn := pid_connection_info_for_inode id (ue_inode u sk) (ue_peer_inode u sk) in
          let st := del_recv_args e st in
          if nz read_len then fst (handle_buf_with_connection e st p_conn (list_umem b) read_len TCP_RECV 0 0) else st
  end.

Definition obi_kretprobe_unix_stream_recvmsg (st : kstate) (copied : Z) : kstate :=
  if negb (ke_ok e) then st else return_unix_recvmsg st copied.

Definition obi_kprobe_unix_stream_sendmsg (st : kstate) (sock : Z) (iter : kernel_iter) (size : Z) : kstate :=
  if negb (ke_ok e) then st
  else
    let sk := ke_socket_sk e sock in
    let inode := if nz sk then ue_inode u sk else 0 in
    let peer_inode := if nz sk then ue_peer_inode u sk else 0 in
    let pc := pid_connection_info_for_inode id inode peer_inode in
    let s := mk_send_args pc size sk 0 0 in
    let '(n, b) := read_msghdr_buf (ke_iov e) iter (ke_scratch e) size in
    if nz n then
      let st := with_maps st (fun m => set_send_args m (<[id := s]> (active_send_args m))
                                         (if nz sk then <[sk := s]> (active_send_sock_args m) else active_send_sock_args m)) in
      fst (handle_buf_with_connection e st pc (list_umem b) n TCP_SEND 0 0)
    else st.

Definition obi_kretprobe_unix_stream_sendmsg (st : kstate) (sent_len : Z) : kstate :=
  if negb (ke_ok e) then st
  else
    match active_send_args (ks_maps st) !! id with
    | None => st
    | Some s =>
        let inode := ue_inode u (sn_sock_ptr s) in
        let st :=
          if nz (sn_sock_ptr s) && nz inode then
            with_maps st (fun m => set_km_links m (set_unix_socks (km_links m) (<[id := inode]> (active_unix_socks (km_links m)))))
          else st in
        let st := if 0 <? sent_len then with_span st (fun sp => update_http_sent_len sp (sn_p_conn s) sent_len) else st in
        if sent_len <? MIN_HTTP_SIZE
        then with_span st (fun sp => finish_possible_delayed_http_request (ke_conf e) (ks_links st) (ke_task e) sp (sn_p_conn s))
        else st
    end.

End unix.

(** ** The name of a connection *)

Lemma inode_addr_inj x y : inode_addr x = inode_addr y -> u32 x = u32 y.
Proof.
  unfold inode_addr. intros H. apply app_inj_1 in H as [H _]; [|done]. apply (f_equal (@rev Z)) in H. fold (be_bytes 4 (u32 x)) in H.
  fold (be_bytes 4 (u32 y)) in H. rewrite <- (be32_le_word (u32 x)), <- (be32_le_word (u32 y)) by (apply wrap_range; lia). by rewrite H.
Qed.

(** Both ends give the connection the same name. *)
Lemma inode_conn_comm x y : u32 x <> u32 y -> connection_info_for_inode x y = connection_info_for_inode y x.
Proof.
  intros Hne. unfold connection_info_for_inode. destruct (Z.ltb_spec (u32 x) (u32 y)), (Z.ltb_spec (u32 y) (u32 x)); try done; lia.
Qed.

(** A known peer makes a name of its own. *)
Lemma inode_conn_known x y : 0 < x < 2 ^ 32 -> 0 < y < 2 ^ 32 -> connection_info_for_inode x y <> connection_info_for_inode x 0.
Proof.
  intros Hx Hy. unfold connection_info_for_inode. change (u32 0) with 0. rewrite !(wrap_small 32) by lia. rewrite (proj2 (Z.ltb_ge x 0)) by lia.
  destruct (Z.ltb_spec x y) as [Hlt|Hge]; intros H.
  - apply (f_equal s_addr), inode_addr_inj in H. rewrite !(wrap_small 32) in H by lia. lia.
  - apply (f_equal d_addr), inode_addr_inj in H. change (u32 0) with 0 in H. rewrite (wrap_small 32) in H by lia. lia.
Qed.

(** ** Receiving *)

Lemma ensure_idle e st id sk d : active_send_args (ks_maps st) !! id = None -> active_send_sock_args (ks_maps st) !! sk = None ->
  ensure_sent_event e st id sk d = st.
Proof. intros H1 H2. unfold ensure_sent_event. rewrite H1. cbn. by rewrite H2. Qed.

Lemma move_context_spec st x y tp :
  let ctx st c := trace_map (ks_tmaps st) !! trace_key_from_conn c TRACE_TYPE_CLIENT in
  ctx st (connection_info_for_inode 0 y) = Some tp ->
  let st' := move_context st x y in
  ctx st' (connection_info_for_inode x y) = Some tp
  /\ (trace_key_from_conn (connection_info_for_inode 0 y) TRACE_TYPE_CLIENT <> trace_key_from_conn (connection_info_for_inode x y) TRACE_TYPE_CLIENT ->
      ctx st' (connection_info_for_inode 0 y) = None).
Proof.
  intros ctx H. unfold ctx in *. unfold move_context, trace_info_for_connection, lookup_at. cbn [deref]. rewrite H. cbn [mbind option_bind deref]. rewrite H.
  unfold with_tmaps, with_span, ks_tmaps, ks_span, ks_ts. cbn. split; [apply lookup_insert_eq|].
  intros Hne. rewrite lookup_insert_ne by done. apply lookup_delete_eq.
Qed.

Lemma move_context_keeps st x y : let st' := move_context st x y in
  ks_maps st' = ks_maps st /\ ks_handed st' = ks_handed st /\ ongoing_tcp_req (ks_span st') = ongoing_tcp_req (ks_span st)
  /\ ongoing_http (ks_tmaps st') = ongoing_http (ks_tmaps st).
Proof. unfold move_context. by destruct (_ ≫= _). Qed.

Lemma move_request_spec u st x y : 0 < x < 2 ^ 32 -> 0 < y < 2 ^ 32 ->
  let full := pid_connection_info_for_inode (cur_id (ue_k u)) x y in
  let half := pid_connection_info_for_inode (cur_id (ue_k u)) x 0 in
  let st' := move_request u st x y in
  (forall q, tcp_of (ts_tcp (ks_ts st)) half = Some q -> tcp_of (ts_tcp (ks_ts st')) full = Some q /\ tcp_of (ts_tcp (ks_ts st')) half = None)
  /\ (forall i, tcp_of (ts_tcp (ks_ts st)) half = None -> http_of (ks_span st) half = Some i -> http_of (ks_span st') full = Some i /\ http_of (ks_span st') half = None)
  /\ ks_maps st' = ks_maps st /\ ks_handed st' = ks_handed st /\ trace_map (ks_tmaps st') = trace_map (ks_tmaps st).
Proof.
  intros Hx Hy full half. assert (Hne : full <> half) by (unfold full, half, pid_connection_info_for_inode; intros [= H]; by apply inode_conn_known in H).
  unfold move_request. fold full half. destruct (tcp_of _ half) as [q|] eqn:Hq.
  - split_and!; try done. intros q' [= <-]. unfold tcp_of, with_tcp, ks_ts. cbn. rewrite lookup_insert_eq, lookup_insert_ne, lookup_delete_eq by done. done.
  - destruct (http_of (ks_span st) half) as [i|] eqn:Hi; split_and!; try done.
    intros i' _ [= <-]. unfold http_of, with_span, ks_span, ks_ts. cbn. rewrite lookup_insert_eq, lookup_insert_ne, lookup_delete_eq by done. done.
Qed.

(** The entry of a receive, with the peer known and no send of the thread or the socket under way. *)
Lemma unix_recv_entry u st sock msg m :
  let e := ue_k u in
  let sk := ke_socket_sk e sock in
  ke_ok e = true -> sk <> 0 -> ue_peer_inode u sk <> 0 -> ke_msg e msg = Some m ->
  active_send_args (ks_maps st) !! cur_id e = None -> active_send_sock_args (ks_maps st) !! sk = None ->
  obi_kprobe_unix_stream_recvmsg u st sock msg =
  with_maps (move_request u (move_context st (ue_inode u sk) (ue_peer_inode u sk)) (ue_inode u sk) (ue_peer_inode u sk))
    (fun km => set_recv_args km (<[cur_id e := mk_recv_args sk 0 (get_iovec_ctx (msg_iter m))]> (active_recv_args km))).
Proof.
  intros e sk Hok Hsk Hy Hmsg Hs1 Hs2. unfold obi_kprobe_unix_stream_recvmsg. fold e sk. rewrite Hok, Hmsg. unfold nz at 1 2. cbn [negb].
  rewrite (proj2 (Z.eqb_neq sk 0)), (proj2 (Z.eqb_neq _ 0) Hy) by done. cbn [negb].
  destruct (move_context_keeps st (ue_inode u sk) (ue_peer_inode u sk)) as (K1 & _). cbv zeta in K1.
  assert (Hm : forall s x y, ks_maps (move_request u s x y) = ks_maps s)
    by (intros; unfold move_request; destruct (tcp_of _ _); [done|]; by destruct (http_of _ _)).
  rewrite ensure_idle by (by rewrite Hm, K1). done.
Qed.

(** The return of a receive whose buffers hold [data]. *)
Lemma unix_recv_return u st sk iter copied data :
  let e := ue_k u in
  ke_ok e = true -> active_recv_args (ks_maps st) !! cur_id e = Some (mk_recv_args sk 0 iter) ->
  0 < copied < 2 ^ 31 -> it_iov iter <> 0 \/ it_ubuf iter <> 0 ->
  k_iovec_max_len <= zlen (ke_scratch e) -> data <> [] -> iter_holds (ke_iov e) iter copied data ->
  let pc := pid_connection_info_for_inode (cur_id e) (ue_inode u sk) (ue_peer_inode u sk) in
  let st' := obi_kretprobe_unix_stream_recvmsg u st copied in
  let n := Z.min copied k_iovec_max_len in
  ks_handed st' = ks_handed st ++ [mk_handed pc (list_umem (overlay (take (Z.to_nat n) data) (ke_scratch e))) (Z.min n (zlen data)) TCP_RECV]
  /\ active_recv_args (ks_maps st') !! cur_id e = None.
Proof.
  intros e Hok Ha Hcp Hit Hscr Hdata Hh pc st' n. unfold st', obi_kretprobe_unix_stream_recvmsg, return_unix_recvmsg. fold e. rewrite Hok, Ha. cbn [negb].
  rewrite (proj2 (Z.leb_gt copied 0)) by lia. cbn [rv_iovec_ctx rv_sock_ptr].
  assert ((it_iov iter =? 0) && (it_ubuf iter =? 0) = false) as -> by lia.
  rewrite (read_iovec_front _ iter _ copied data) by (done || lia). fold n pc.
  assert (Hl : 0 < Z.min n (zlen data) < 2 ^ 31) by (assert (0 < zlen data) by (destruct data; [done|unfold zlen; cbn; lia]); unfold n; kunfold; lia).
  assert (nz (Z.min n (zlen data)) = true) as -> by (unfold nz; by rewrite (proj2 (Z.eqb_neq _ _)) by lia).
  match goal with |- context [handle_buf_with_connection ?a ?b ?c ?d ?f ?g ?h ?i] => destruct (handle_buf_effect a b c d f g h i) as (E1 & E2 & E3) end.
  cbv zeta in *. rewrite (swrap_small 32) in E2, E3 by lia. rewrite (proj2 (Z.leb_gt _ 0)) in E3 by lia. rewrite E3 in E2. rewrite E1, E2.
  unfold del_recv_args. cbn. split; [done|]. apply lookup_delete_eq.
Qed.

(** C31: The first message of a Unix socket is not lost.  The sender stored its context, and the receiver its
    records, before they knew each other.  After the receive has begun, with the receiver's inode [x] and the
    sender's [y], the context is found under the one name both ends use, and not under the half-known name
    any more when that is a different key; the receiver's TCP record, or else its HTTP record, has moved with
    it.  When the receive returns with data in its buffers, exactly that data is handed to the dispatcher, once, for that
    connection, and nothing is left of the call. *)
Theorem unix_first_message_joined u u' st sock msg m x y tp copied data :
  let e := ue_k u in
  let id := cur_id e in
  let sk := ke_socket_sk e sock in
  let ctx st c := trace_map (ks_tmaps st) !! trace_key_from_conn c TRACE_TYPE_CLIENT in
  ke_ok e = true -> sk <> 0 -> ue_inode u sk = x -> ue_peer_inode u sk = y -> 0 < x < 2 ^ 32 -> 0 < y < 2 ^ 32 -> x <> y ->
  active_send_args (ks_maps st) !! id = None -> active_send_sock_args (ks_maps st) !! sk = None ->
  ctx st (connection_info_for_inode y 0) = Some tp -> ke_msg e msg = Some m ->
  ke_ok (ue_k u') = true -> cur_id (ue_k u') = id -> ue_inode u' sk = x -> ue_peer_inode u' sk = y ->
  let iter := get_iovec_ctx (msg_iter m) in
  0 < copied < 2 ^ 31 -> it_iov iter <> 0 \/ it_ubuf iter <> 0 ->
  k_iovec_max_len <= zlen (ke_scratch (ue_k u')) -> data <> [] -> iter_holds (ke_iov (ue_k u')) iter copied data ->
  let full := pid_connection_info_for_inode id x y in
  let half := pid_connection_info_for_inode id x 0 in
  let st1 := obi_kprobe_unix_stream_recvmsg u st sock msg in
  let st2 := obi_kretprobe_unix_stream_recvmsg u' st1 copied in
  let n := Z.min copied k_iovec_max_len in
  ctx st1 (connection_info_for_inode x y) = Some tp /\ connection_info_for_inode y x = connection_info_for_inode x y
  /\ (y < x -> ctx st1 (connection_info_for_inode y 0) = None)
  /\ (forall q, tcp_of (ts_tcp (ks_ts st)) half = Some q -> tcp_of (ts_tcp (ks_ts st1)) full = Some q /\ tcp_of (ts_tcp (ks_ts st1)) half = None)
  /\ (forall i, tcp_of (ts_tcp (ks_ts st)) half = None -> http_of (ks_span st) half = Some i ->
        http_of (ks_span st1) full = Some i /\ http_of (ks_span st1) half = None)
  /\ ks_handed st2 = ks_handed st ++ [mk_handed full (list_umem (overlay (take (Z.to_nat n) data) (ke_scratch (ue_k u')))) (Z.min n (zlen data)) TCP_RECV]
  /\ active_recv_args (ks_maps st2) !! id = None.
Proof.
  intros e id sk ctx Hok Hsk Hx Hy Rx Ry Hne Hs1 Hs2 Hc Hmsg Hok' Hid Hx' Hy' iter Hcp Hit Hscr Hdata Hh full half st1 st2 n.
  assert (Hxy : connection_info_for_inode y x = connection_info_for_inode x y) by (apply inode_conn_comm; rewrite !(wrap_small 32); lia).
  assert (H0 : connection_info_for_inode 0 y = connection_info_for_inode y 0) by (apply inode_conn_comm; change (u32 0) with 0; rewrite (wrap_small 32); lia).
  destruct (move_context_spec st x y tp) as [C1 C2]; [by rewrite H0|]. destruct (move_context_keeps st x y) as (K1 & K2 & K3 & K4). cbv zeta in *.
  destruct (move_request_spec u (move_context st x y) x y Rx Ry) as (M1 & M2 & M3 & M4 & M5). cbv zeta in *. fold e id full half in M1, M2.
  assert (Hst1 : st1 = _) by (apply (unix_recv_entry u st sock msg m); fold e sk; first [done | rewrite Hy; lia]).
  fold e id sk iter in Hst1. rewrite Hx, Hy in Hst1. set (sb := move_request u (move_context st x y) x y) in *.
  assert (Hkeep : ks_tls st1 = ks_tls sb /\ ks_handed st1 = ks_handed st) by (rewrite Hst1; split; [done|by rewrite <- K2, <- M4]).
  destruct Hkeep as [Ht Hhd]. unfold ctx, ks_tmaps, ks_span, ks_ts in *. rewrite Ht, M5. split_and!; [done|done| | | | | ].
  - intros Hlt. rewrite <- H0. apply C2. rewrite H0. intros Hk. apply (f_equal (s_addr ∘ tmk_conn)) in Hk. cbn in Hk.
    unfold connection_info_for_inode in Hk. change (u32 0) with 0 in Hk. rewrite !(wrap_small 32), (proj2 (Z.ltb_ge y 0)), (proj2 (Z.ltb_ge x y)) in Hk by lia.
    apply inode_addr_inj in Hk. rewrite !(wrap_small 32) in Hk by lia. lia.
  - intros q Hq. apply M1. unfold tcp_of in *. change (tt_span (ts_tcp ?z)) with (ts_span z). by rewrite K3.
  - intros i Hq Hi. apply M2; unfold tcp_of, http_of in *; [change (tt_span (ts_tcp ?z)) with (ts_span z); by rewrite K3|by rewrite K4].
  - destruct (unix_recv_return u' st1 sk iter copied data) as [R1 _]; try done; [rewrite Hst1, Hid; apply lookup_insert_eq|].
    unfold st2. cbv zeta in R1. rewrite R1, Hhd, Hid, Hx', Hy'. done.
  - rewrite <- Hid. apply (unix_recv_return u' st1 sk iter copied data); try done. rewrite Hst1, Hid. apply lookup_insert_eq.
Qed.

(** ** Examples *)

Definition unix_data : list Z := [71; 69; 84; 32; 47].
(** The receiver's socket at address 77 has inode 900; its peer has inode 800. *)
Definition unix_kenv : kenv :=
  mk_kenv example_conf example_task true (fun k => 5 + Z.of_nat k) example_henv example_h2_chain (example_tcp_env 5) (example_dns_env 5) 0 0
    (fun _ => None) (fun _ => 77) (fun _ => Some nameless_msg) (one_segment unix_data) example_scratch 3 (Some example_scratch) (list_umem []).
Definition unix_env : uenv := mk_uenv unix_kenv (fun _ => 900) (fun _ => 800).
Definition unix_info : tp_info_pid := mk_tp_info_pid (mk_tp_info (repeat 1 16) (repeat 2 8) (repeat 0 8) 5 1) 9 1 0 0 0.
Definition unix_state : kstate :=
  with_tmaps (example_kstate no_tls empty_kmaps)
    (fun m => set_trace_info_for_connection m (connection_info_for_inode 800 0) TRACE_TYPE_CLIENT unix_info).

Lemma unix_first_message_joined_witness :
  let st1 := obi_kprobe_unix_stream_recvmsg unix_env unix_state 1 2 in
  let st2 := obi_kretprobe_unix_stream_recvmsg unix_env st1 5 in
  trace_map (ks_tmaps st1) !! trace_key_from_conn (connection_info_for_inode 900 800) TRACE_TYPE_CLIENT = Some unix_info
  /\ trace_map (ks_tmaps st1) !! trace_key_from_conn (connection_info_for_inode 800 0) TRACE_TYPE_CLIENT = None
  /\ length (ks_handed st2) = 1%nat.
Proof.
  intros st1 st2.
  destruct (unix_first_message_joined unix_env unix_env unix_state 1 2 nameless_msg 900 800 unix_info 5 unix_data) as (H1 & _ & H2 & _ & _ & H3 & _);
    [done|discriminate|done|done|lia|lia|discriminate|done|done|vm_compute; reflexivity|done|done|done|done|done|lia|left; discriminate
    |apply Z.leb_le; vm_compute; reflexivity|discriminate|apply one_segment_holds; [discriminate|apply Z.ltb_lt; vm_compute; reflexivity]|].
  split; [exact H1|]. split; [apply H2; lia|]. unfold st2, st1. rewrite H3. reflexivity.
Defined.
