(* ===== verification/Runtimes.v ===== *)
(** * Hand-over of requests inside nginx and Puma ([bpf/generictracer/nginx.c], [ruby.c], [parse_sockaddr_info] of
      [common/sockaddr.h]).

    nginx answers a request with a call to an upstream server that any event may start; Puma accepts a
    connection on one thread and serves it on another.  These probes record which request a call belongs to:
    [nginx_upstream] ties the descriptor of an upstream connection to the client of the request,
    [puma_task_connections] and [puma_worker_tasks] tie the work item a thread has taken to the connection it
    was made for.  The parent search ([TraceParent.find_parent_trace]) follows them.

    [rt_state] is the links and the contexts of the parent search, the accepted connection of each thread
    ([pid_tid_to_conn]) and the requests nginx is connecting for.  [rt_env] is what one probe reads: the task,
    [valid_pid], the name of the thread and the memory of the process, in which a read that faults yields
    zeroes.  The offsets of nginx's structures are configuration.  Between the probes other programs change
    the contexts ([rt_contexts]), accept connections ([rt_accept]) and record the descriptors of connections
    ([rt_descriptor]). *)

From Stdlib Require Import ZArith Lia ZifyBool List Bool.
From stdpp Require Import base list countable gmap.
From S2P Require Import Prelude TraceUtil Sampling H2Sniff ConnInfo Packet HttpInfo TraceMaps TraceParent Dns TraceLife TlsPrefix KProbes.

Local Open Scope Z_scope.

Definition k_comm_len : Z := 12.
Definition k_rb_ary_embedded_ptr_pos : Z := 0x10.
Definition k_rb_ary_heap_ptr_pos : Z := 0x20.
Definition PUMA_WORKER : list Z := [112; 117; 109; 97; 32; 115; 114; 118; 32; 116; 112].
Definition PUMA_SRV : list Z := [112; 117; 109; 97; 32; 115; 114; 118].
Definition PUMA_SRV_THREAD : list Z := [112; 117; 109; 97; 32; 115; 114; 118; 32; 116; 104].

Record ngx_offsets := mk_ngx {
  ngx_http_request_s_conn : Z;
  ngx_http_request_s_upstream : Z;
  ngx_http_upstream_s_conn : Z;
  ngx_connection_s_fd : Z;
  ngx_connection_s_sockaddr : Z
}.

Definition ngx_defaults : ngx_offsets := mk_ngx 0x8 0x48 0x10 0x18 0x68.

Record rt_state := mk_rt { rt_links : links; rt_maps : tmaps; rt_conns : gmap Z ssl_pid_connection_info; upstream_init_args : gmap Z Z }.

Record rt_env := mk_rt_env { rv_task : task; rv_ok : bool; rv_comm : option (list Z); rv_mem : umem }.

Definition rv_id (e : rt_env) : Z := cur_pid_tgid (rv_task e).

Definition set_rt_links (st : rt_state) (l : links) : rt_state := mk_rt l (rt_maps st) (rt_conns st) (upstream_init_args st).
Definition set_rt_maps (st : rt_state) (m : tmaps) : rt_state := mk_rt (rt_links st) m (rt_conns st) (upstream_init_args st).

Definition set_nginx_upstream (l : links) x : links :=
  mk_links (clone_map l) (java_tasks l) (java_vt_threads l) (active_unix_socks l) (fd_map l) x (puma_worker_tasks l) (puma_task_connections l)
    (nodejs_fd_map l) (fd_to_connection l) (ongoing_goroutines l) (python_thread_states l) (python_task_states l) (python_context_tasks l)
    (node_manual_ctx_shadow l) (user_u64 l).
Definition set_puma_tasks (l : links) x y : links :=
  mk_links (clone_map l) (java_tasks l) (java_vt_threads l) (active_unix_socks l) (fd_map l) (nginx_upstream l) x y
    (nodejs_fd_map l) (fd_to_connection l) (ongoing_goroutines l) (python_thread_states l) (python_task_states l) (python_context_tasks l)
    (node_manual_ctx_shadow l) (user_u64 l).

(** [bpf_probe_read] of [n] octets at an address into an integer. *)
Definition read_mem (mem : umem) (addr : Z) (n : nat) : Z := le_word (probe_read0 (ushift mem addr) n).

(** ** nginx *)

Definition parse_sockaddr_info (mem : umem) (pid addr : Z) (info : connection_info_part) : connection_info_part :=
  let sa_family := read_mem mem addr 2 in
  let '(a, port) :=
    if sa_family =? AF_INET then (ip4ip6_prefix ++ probe_read0 (ushift mem (addr + 4)) 4, read_mem mem (addr + 2) 2)
    else if sa_family =? AF_INET6 then (probe_read0 (ushift mem (addr + 8)) 16, read_mem mem (addr + 2) 2)
    else (part_addr info, part_port info) in
  mk_part a pid (bswap16 port) (part_type info).

Section nginx.
Variable (o : ngx_offsets).

Definition get_sock_info (mem : umem) (id conn_ptr : Z) (part : connection_info_part) : connection_info_part :=
  if conn_ptr =? 0 then part
  else
    let sockaddr_ptr := read_mem mem (conn_ptr + ngx_connection_s_sockaddr o) 8 in
    if sockaddr_ptr =? 0 then part else parse_sockaddr_info mem (pid_from_pid_tgid id) sockaddr_ptr part.

Definition obi_ngx_http_upstream_init (e : rt_env) (st : rt_state) (req : Z) : rt_state :=
  if negb (rv_ok e) then st
  else mk_rt (rt_links st) (rt_maps st) (rt_conns st) (<[rv_id e := req]> (upstream_init_args st)).

Definition obi_ngx_event_connect_peer_ret (e : rt_env) (st : rt_state) : rt_state :=
  if negb (rv_ok e) then st
  else
    match upstream_init_args st !! rv_id e with
    | None => st
    | Some req =>
        let mem := rv_mem e in
        let conn_ptr := read_mem mem (req + ngx_http_request_s_conn o) 8 in
        let up_ptr := read_mem mem (req + ngx_http_request_s_upstream o) 8 in
        let part := get_sock_info mem (rv_id e) conn_ptr empty_part in
        let part := mk_part (part_addr part) (part_pid part) (part_port part) FD_SERVER in
        let peer_conn := read_mem mem (up_ptr + ngx_http_upstream_s_conn o) 8 in
        let fd := s32 (read_mem mem (peer_conn + ngx_connection_s_fd o) 4) in
        if nz fd then
          let fdinfo := mk_fd_info (cur_tid (rv_task e)) fd FD_CLIENT in
          set_rt_links st (set_nginx_upstream (rt_links st) (<[fdinfo := part]> (nginx_upstream (rt_links st))))
        else st
    end.

End nginx.

(** ** Puma *)

(** [!obi_bpf_memcmp(buf, name, sizeof(name) - 1)]. *)
Definition comm_is (comm name : list Z) : bool := negb (nz (obi_bpf_memcmp (list_buf comm) (list_buf name) (zlen name))).

Definition rb_obj_alloc (e : rt_env) (st : rt_state) (item : Z) : rt_state :=
  match rv_comm e with
  | None => st
  | Some b =>
      if comm_is b PUMA_WORKER || comm_is b PUMA_SRV_THREAD then st
      else if comm_is b PUMA_SRV then
        match rt_conns st !! rv_id e with
        | None => st
        | Some info =>
            let host_pid := pid_from_pid_tgid (rv_id e) in
            let conn_part := populate_ephemeral_info empty_part (pc_conn (sc_p_conn info)) (sc_orig_dport info) host_pid FD_SERVER in
            set_rt_links st (set_puma_tasks (rt_links st) (puma_worker_tasks (rt_links st))
                               (<[mk_puma item host_pid := conn_part]> (puma_task_connections (rt_links st))))
        end
      else st
  end.

(** The probes on the entry of [rb_obj_call_init_kw] and on the return of [rb_obj_alloc]. *)
Definition obi_rb_obj_call_init_kw (e : rt_env) (st : rt_state) (item : Z) : rt_state := if negb (rv_ok e) then st else rb_obj_alloc e st item.
Definition obi_rb_obj_alloc_ret (e : rt_env) (st : rt_state) (item : Z) : rt_state := if negb (rv_ok e) then st else rb_obj_alloc e st item.

(** The head of a Ruby array: the first element of an embedded array, or of the heap block of a longer one, whose
    length is where an embedded array has its element; [None] for an empty array. *)
Definition array_head (mem : umem) (item_ptr : Z) : option Z :=
  let flags := read_mem mem item_ptr 8 in
  let embedded_arr := u16 (Z.land flags 0x2000) in
  let item := read_mem mem (item_ptr + k_rb_ary_embedded_ptr_pos) 8 in
  if item =? 0 then None
  else if nz embedded_arr then Some item
  else
    let heap_arr_ptr := read_mem mem (item_ptr + k_rb_ary_heap_ptr_pos) 8 in
    if heap_arr_ptr =? 0 then None else Some (read_mem mem heap_arr_ptr 8).

Definition obi_rb_ary_shift (c : tconf) (e : rt_env) (st : rt_state) (item_ptr : Z) : rt_state :=
  if negb (rv_ok e) then st
  else if item_ptr =? 0 then st
  else
    match array_head (rv_mem e) item_ptr with
    | None => st
    | Some item =>
        let id := rv_id e in
        let task_id := mk_puma item (pid_from_pid_tgid id) in
        match puma_task_connections (rt_links st) !! task_id with
        | Some conn_part =>
            let l := set_puma_tasks (rt_links st) (<[id := task_id]> (puma_worker_tasks (rt_links st))) (puma_task_connections (rt_links st)) in
            let m := rt_maps st in
            let m :=
              match server_traces_aux m !! conn_part with
              | Some tp => if nz (tpp_valid tp) then obi_ctx__set c m id (tpp_tp tp) else obi_ctx__del c m id
              | None => obi_ctx__del c m id
              end in
            set_rt_maps (set_rt_links st l) m
        | None => set_rt_maps st (obi_ctx__del c (rt_maps st) id)
        end
    end.

(** ** Histories *)

Inductive rt_event :=
  | rt_ngx_init (e : rt_env) (req : Z)
  | rt_ngx_connected (e : rt_env)
  | rt_new_object (e : rt_env) (item : Z)
  | rt_shift (e : rt_env) (item_ptr : Z)
  | rt_accept (id : Z) (info : ssl_pid_connection_info)
  | rt_descriptor (part : connection_info_part) (fd : fd_info)
  | rt_contexts (f : tmaps -> tmaps).

Definition rt_step (o : ngx_offsets) (c : tconf) (st : rt_state) (ev : rt_event) : rt_state :=
  match ev with
  | rt_ngx_init e req => obi_ngx_http_upstream_init e st req
  | rt_ngx_connected e => obi_ngx_event_connect_peer_ret o e st
  | rt_new_object e item => obi_rb_obj_call_init_kw e st item
  | rt_shift e item_ptr => obi_rb_ary_shift c e st item_ptr
  | rt_accept id info => mk_rt (rt_links st) (rt_maps st) (<[id := info]> (rt_conns st)) (upstream_init_args st)
  | rt_descriptor part fd => set_rt_links st (set_fd_map (rt_links st) (<[part := fd]> (fd_map (rt_links st))))
  | rt_contexts f => set_rt_maps st (f (rt_maps st))
  end.

Definition rt_run (o : ngx_offsets) (c : tconf) (st : rt_state) (h : list rt_event) : rt_state := fold_left (rt_step o c) h st.

(** ** Puma: the worker finds the request *)

Section histories.
Variables (o : ngx_offsets) (c : tconf).

(** A step that does not give the item at [k] another connection. *)
Definition spares_item (k : puma_task_id) (ev : rt_event) : Prop :=
  match ev with rt_new_object e item => mk_puma item (pid_from_pid_tgid (rv_id e)) <> k | _ => True end.

(** The thread takes a tracked item off an array. *)
Definition takes_item (st : rt_state) (id : Z) (ev : rt_event) : Prop :=
  match ev with
  | rt_shift e p => rv_id e = id
      /\ exists i, array_head (rv_mem e) p = Some i /\ is_Some (puma_task_connections (rt_links st) !! mk_puma i (pid_from_pid_tgid id))
  | _ => False
  end.

(** The thread keeps the item it has; it may take anything else off any array. *)
Fixpoint keeps_item (k : puma_task_id) (id : Z) (st : rt_state) (h : list rt_event) : Prop :=
  match h with [] => True | ev :: h' => spares_item k ev /\ ~ takes_item st id ev /\ keeps_item k id (rt_step o c st ev) h' end.

Ltac rt_unfold := unfold obi_ngx_http_upstream_init, obi_ngx_event_connect_peer_ret, obi_rb_obj_call_init_kw, rb_obj_alloc, obi_rb_ary_shift.

Lemma item_kept st ev k : spares_item k ev -> puma_task_connections (rt_links (rt_step o c st ev)) !! k = puma_task_connections (rt_links st) !! k.
Proof.
  intros H. destruct ev; cbn [rt_step spares_item] in *; rt_unfold; try done; repeat case_match; try done.
  cbn. by rewrite lookup_insert_ne.
Qed.

Lemma items_kept h : forall st k, Forall (spares_item k) h -> puma_task_connections (rt_links (rt_run o c st h)) !! k = puma_task_connections (rt_links st) !! k.
Proof.
  induction h as [|ev h IH]; intros st k H; [done|]. apply Forall_cons in H as [H Hh]. cbn [rt_run fold_left]. change (fold_left ?f h ?s) with (rt_run o c s h).
  rewrite IH by done. by apply item_kept.
Qed.

Lemma worker_kept st ev id : ~ takes_item st id ev -> puma_worker_tasks (rt_links (rt_step o c st ev)) !! id = puma_worker_tasks (rt_links st) !! id.
Proof.
  intros H. destruct ev as [e req|e|e item|e p|id' info|part fd|f]; cbn [rt_step takes_item] in *; rt_unfold; try done; repeat case_match; try done.
  all: cbn; rewrite lookup_insert_ne; [done|]; intros <-; apply H; split; [done|]; eexists; split; [done|]; by eexists.
Qed.

Lemma keeps_item_run h : forall st k id, keeps_item k id st h ->
  puma_task_connections (rt_links (rt_run o c st h)) !! k = puma_task_connections (rt_links st) !! k
  /\ puma_worker_tasks (rt_links (rt_run o c st h)) !! id = puma_worker_tasks (rt_links st) !! id.
Proof.
  induction h as [|ev h IH]; intros st k id H; [done|]. destruct H as (H1 & H2 & Hh). destruct (IH _ _ _ Hh) as [A B]. cbn [rt_run fold_left].
  change (fold_left ?f h ?s) with (rt_run o c s h). rewrite A, B. split; [by apply item_kept|by apply worker_kept].
Qed.

(** The thread that accepts connections. *)
Definition accepts_connections (e : rt_env) : Prop :=
  exists b, rv_comm e = Some b /\ comm_is b PUMA_WORKER = false /\ comm_is b PUMA_SRV_THREAD = false /\ comm_is b PUMA_SRV = true.

(** The endpoint a request on a connection is stored under. *)
Definition server_part (info : ssl_pid_connection_info) (pid : Z) : connection_info_part :=
  populate_ephemeral_info empty_part (pc_conn (sc_p_conn info)) (sc_orig_dport info) pid FD_SERVER.

(** Storing the context of a server request puts it where the links point. *)
Lemma server_trace_aux l m t conn lw tp dport :
  server_traces_aux (fst (server_trace c l m t conn lw tp dport)) !! populate_ephemeral_info empty_part conn dport (pid_from_pid_tgid (cur_pid_tgid t)) FD_SERVER
  = Some (set_response_sent tp 0).
Proof.
  unfold server_trace. destruct (server_key l t) as [k vt]. destruct (conflicting _ _); [by cbn; rewrite lookup_insert_eq|].
  cbv zeta. unfold obi_ctx__set. destruct vt, (g_traces_ctx_v1_enabled c), (negb (lw =? k_lw_thread_none)); cbn; by rewrite lookup_insert_eq.
Qed.

(** The descriptor of a call, where the connect was seen. *)
Definition call_descriptor (l : links) (p_conn : pid_connection_info) (dport : Z) : option fd_info :=
  fd_info_for_conn l (populate_ephemeral_info empty_part (pc_conn p_conn) dport (pc_pid p_conn) FD_CLIENT).

(** Node.js has not tied the descriptor to a request. *)
Definition node_spares (l : links) (id : Z) (fd : fd_info) : Prop :=
  nodejs_fd_map l !! Z.lor (u64 (Z.shiftl id 32)) (u64 (fi_fd fd)) = None.

Lemma search_reaches_puma l m p_conn id t_key dport k part x :
  (forall fd, call_descriptor l p_conn dport = Some fd -> node_spares l id fd /\ nginx_upstream l !! fd = None) ->
  python_thread_states l !! id = None ->
  puma_worker_tasks l !! id = Some k -> puma_task_connections l !! k = Some part -> server_traces_aux m !! part = Some x ->
  find_parent_trace c l m p_conn id k_lw_thread_none t_key dport None = (Some (at_aux part), m).
Proof.
  intros Hfd Hpy Hw Hk Hx.
  assert (find_nodejs_parent_trace l m p_conn dport id = None /\ find_nginx_parent_trace l m p_conn dport = None) as [Hn1 Hn2].
  { unfold find_nodejs_parent_trace, find_nginx_parent_trace. fold (call_descriptor l p_conn dport).
    destruct (call_descriptor l p_conn dport) as [fd|]; [|done]. destruct (Hfd fd eq_refl) as [Hn Hu]. unfold node_spares in Hn. by rewrite Hn, Hu. }
  unfold find_parent_trace. rewrite Hn1. unfold find_puma_parent_trace, find_python_parent_trace, resolve_python_current_task. rewrite Hpy, Hw, Hk. cbn.
  rewrite Hn2. unfold lookup_at. cbn [deref]. rewrite Hx. unfold matches_at. cbn. by rewrite Hx.
Qed.

(** C32: a request that Puma hands to a worker keeps its calls.  The accepting thread, by its name, creates the
    object of the connection it has accepted; a worker of the same process takes it off the head of the queue,
    embedded or on the heap; then, whatever objects are created, arrays shifted and connections made
    meanwhile, as long as the object is not created anew and the worker takes no other tracked object, a call
    of the worker, its connect seen or not, has as its parent the context that is, or will be, stored for the
    request of that connection, on whichever thread of the process it was read.  The thread is none of a
    Python runtime, and neither Node.js nor nginx has tied the descriptor of the call to a request.  At the
    hand-over the context of the worker is that of the request, if it has been read, and none otherwise. *)
Theorem puma_request_handed_over st e1 e2 item q info h1 h2 :
  rv_ok e1 = true -> rv_ok e2 = true -> accepts_connections e1 -> rt_conns st !! rv_id e1 = Some info ->
  let pid := pid_from_pid_tgid (rv_id e1) in
  pid_from_pid_tgid (rv_id e2) = pid -> q <> 0 -> array_head (rv_mem e2) q = Some item -> Forall (spares_item (mk_puma item pid)) h1 ->
  let st1 := rt_run o c (obi_rb_obj_call_init_kw e1 st item) h1 in
  let st2 := obi_rb_ary_shift c e2 st1 q in
  keeps_item (mk_puma item pid) (rv_id e2) st2 h2 ->
  let st' := rt_run o c st2 h2 in
  (g_traces_ctx_v1_enabled c = true ->
     traces_ctx_v1 (rt_maps st2) !! rv_id e2
     = (server_traces_aux (rt_maps st1) !! server_part info pid) ≫= fun tp => if nz (tpp_valid tp) then Some (mk_obi_ctx (trace_id (tpp_tp tp)) (span_id (tpp_tp tp))) else None)
  /\ forall t lw tp p_conn dport t_key,
       pid_from_pid_tgid (cur_pid_tgid t) = pid ->
       (forall fd, call_descriptor (rt_links st') p_conn dport = Some fd -> node_spares (rt_links st') (rv_id e2) fd /\ nginx_upstream (rt_links st') !! fd = None) ->
       python_thread_states (rt_links st') !! rv_id e2 = None ->
       let m := fst (server_trace c (rt_links st') (rt_maps st') t (pc_conn (sc_p_conn info)) lw tp (sc_orig_dport info)) in
       find_parent_trace c (rt_links st') m p_conn (rv_id e2) k_lw_thread_none t_key dport None = (Some (at_aux (server_part info pid)), m)
       /\ deref m (at_aux (server_part info pid)) = Some (set_response_sent tp 0).
Proof.
  intros Hok1 Hok2 (b & Hb & Hw & Ht & Hs) Hc pid Hpid Hq Hhead Hh1 st1 st2 Hh2 st'.
  assert (H1 : puma_task_connections (rt_links st1) !! mk_puma item pid = Some (server_part info pid)).
  { unfold st1. rewrite items_kept by done. unfold obi_rb_obj_call_init_kw, rb_obj_alloc. rewrite Hok1, Hb, Hw, Ht, Hs, Hc. cbn. by rewrite lookup_insert_eq. }
  assert (E2 : st2 = set_rt_maps (set_rt_links st1 (set_puma_tasks (rt_links st1) (<[rv_id e2 := mk_puma item pid]> (puma_worker_tasks (rt_links st1))) (puma_task_connections (rt_links st1))))
    (match server_traces_aux (rt_maps st1) !! server_part info pid with
     | Some tp => if nz (tpp_valid tp) then obi_ctx__set c (rt_maps st1) (rv_id e2) (tpp_tp tp) else obi_ctx__del c (rt_maps st1) (rv_id e2)
     | None => obi_ctx__del c (rt_maps st1) (rv_id e2) end)).
  { unfold st2, obi_rb_ary_shift. rewrite Hok2, (proj2 (Z.eqb_neq q 0)), Hhead, Hpid, H1 by done. done. }
  split.
  - intros Hen. rewrite E2. cbn [set_rt_maps rt_maps]. unfold obi_ctx__set, obi_ctx__del. rewrite Hen. cbn [negb].
    destruct (server_traces_aux (rt_maps st1) !! _) as [tp|]; cbn [mbind option_bind]; [destruct (nz (tpp_valid tp))|]; cbn;
      by rewrite ?lookup_insert_eq, ?lookup_delete_eq.
  - intros t lw tp p_conn dport t_key Htp Hfd Hpy m. destruct (keeps_item_run h2 st2 _ _ Hh2) as [A B]. fold st' in A, B.
    rewrite E2 in A, B. cbn in A, B. rewrite H1 in A. rewrite lookup_insert_eq in B.
    pose proof (server_trace_aux (rt_links st') (rt_maps st') t (pc_conn (sc_p_conn info)) lw tp (sc_orig_dport info)) as Hx. rewrite Htp in Hx.
    split; [|exact Hx]. by apply (search_reaches_puma _ _ p_conn _ t_key dport _ _ _ Hfd Hpy B A Hx).
Qed.

(** ** nginx: the upstream call finds the request *)

(** A socket address of IPv4 or IPv6 in memory. *)
Definition sockaddr_at (mem : umem) (sa : Z) (addr : list Z) (port : Z) : Prop :=
  0 <= port < 2 ^ 16 /\ probe_read0 (ushift mem (sa + 2)) 2 = be_bytes 2 port
  /\ ((read_mem mem sa 2 = AF_INET /\ addr = ip4ip6_prefix ++ probe_read0 (ushift mem (sa + 4)) 4)
      \/ (read_mem mem sa 2 = AF_INET6 /\ addr = probe_read0 (ushift mem (sa + 8)) 16)).

(** A request in nginx's memory: the address of its client, and the descriptor of its upstream connection. *)
Definition ngx_request (mem : umem) (req : Z) (addr : list Z) (port fd : Z) : Prop :=
  let conn := read_mem mem (req + ngx_http_request_s_conn o) 8 in
  let sa := read_mem mem (conn + ngx_connection_s_sockaddr o) 8 in
  let up := read_mem mem (req + ngx_http_request_s_upstream o) 8 in
  let peer := read_mem mem (up + ngx_http_upstream_s_conn o) 8 in
  conn <> 0 /\ sa <> 0 /\ sockaddr_at mem sa addr port /\ s32 (read_mem mem (peer + ngx_connection_s_fd o) 4) = fd /\ fd <> 0.

Lemma sockaddr_parsed mem pid sa addr port part : sockaddr_at mem sa addr port -> parse_sockaddr_info mem pid sa part = mk_part addr pid port (part_type part).
Proof.
  intros (Hp & Hb & Hf). assert (Hw : bswap16 (read_mem mem (sa + 2) 2) = port) by (unfold read_mem; rewrite Hb; by apply be16_le_word).
  unfold parse_sockaddr_info. destruct Hf as [[-> ->]|[-> ->]]; cbn [Z.eqb Pos.eqb AF_INET AF_INET6]; by rewrite Hw.
Qed.

Definition spares_init (id : Z) (ev : rt_event) : Prop := match ev with rt_ngx_init e _ => rv_id e <> id | _ => True end.

(** The descriptor a returning connect records, if it records one. *)
Definition recorded_descriptor (st : rt_state) (ev : rt_event) : option fd_info :=
  match ev with
  | rt_ngx_connected e =>
      match upstream_init_args st !! rv_id e with
      | Some req =>
          let up := read_mem (rv_mem e) (req + ngx_http_request_s_upstream o) 8 in
          let peer := read_mem (rv_mem e) (up + ngx_http_upstream_s_conn o) 8 in
          Some (mk_fd_info (cur_tid (rv_task e)) (s32 (read_mem (rv_mem e) (peer + ngx_connection_s_fd o) 4)) FD_CLIENT)
      | None => None
      end
  | _ => None
  end.

(** No later connect of the thread records the same descriptor again; it may record any other. *)
Fixpoint keeps_upstream (k : fd_info) (st : rt_state) (h : list rt_event) : Prop :=
  match h with [] => True | ev :: h' => recorded_descriptor st ev <> Some k /\ keeps_upstream k (rt_step o c st ev) h' end.

Lemma init_kept h : forall st id, Forall (spares_init id) h -> upstream_init_args (rt_run o c st h) !! id = upstream_init_args st !! id.
Proof.
  induction h as [|ev h IH]; intros st id H; [done|]. apply Forall_cons in H as [H Hh]. cbn [rt_run fold_left]. change (fold_left ?f h ?s) with (rt_run o c s h).
  rewrite IH by done. destruct ev; cbn [rt_step spares_init] in *; rt_unfold; try done; repeat case_match; try done. cbn. by rewrite lookup_insert_ne.
Qed.

Lemma upstream_kept h : forall st k, keeps_upstream k st h -> nginx_upstream (rt_links (rt_run o c st h)) !! k = nginx_upstream (rt_links st) !! k.
Proof.
  induction h as [|ev h IH]; intros st k H; [done|]. destruct H as [H Hh]. cbn [rt_run fold_left]. change (fold_left ?f h ?s) with (rt_run o c s h).
  rewrite IH by done. destruct ev as [e req|e|e item|e p|id' info|part fd|f]; cbn [rt_step recorded_descriptor] in *; rt_unfold; try done.
  - by destruct (negb _).
  - destruct (negb _); [done|]. destruct (upstream_init_args st !! rv_id e) as [req|]; [|done]. cbv zeta in *. destruct (nz _); [|done].
    cbn. rewrite lookup_insert_ne; [done|]. intros E. by rewrite E in H.
  - repeat case_match; done.
  - repeat case_match; done.
Qed.

Lemma search_reaches_nginx l m p_conn id t_key dport k part x :
  call_descriptor l p_conn dport = Some k -> node_spares l id k ->
  python_thread_states l !! id = None -> nginx_upstream l !! k = Some part -> server_traces_aux m !! part = Some x ->
  find_parent_trace c l m p_conn id k_lw_thread_none t_key dport None = (Some (at_aux part), m).
Proof.
  intros Hfd Hno Hpy Hk Hx. unfold find_parent_trace, find_nodejs_parent_trace, find_nginx_parent_trace, find_python_parent_trace, resolve_python_current_task.
  fold (call_descriptor l p_conn dport). unfold node_spares in Hno. rewrite Hfd, Hno, Hpy, Hk. cbn. unfold lookup_at. cbn [deref]. rewrite Hx.
  unfold matches_at. cbn. by rewrite Hx.
Qed.

(** C33: an upstream call of nginx belongs to the request it serves.  When nginx begins to connect for a request and
    the connect returns on the same worker thread, with no other request of that thread beginning in between,
    a call on the connection with the new descriptor has as its parent the context of the request that the
    client's address and port identify, whatever the other threads do, and whatever requests the thread begins
    and whatever other descriptors it connects afterwards.  The request's memory is readable with the
    configured offsets, the descriptor is not 0 and is recorded for the connection, Node.js has not tied it
    to a request, and the thread is none of a Python runtime.  (When a request of the thread begins between
    the two probes, the call is left without its request: [interleaved_init_loses_call].) *)
Theorem nginx_upstream_joined st e1 e2 req conn fd h1 h2 :
  rv_ok e1 = true -> rv_ok e2 = true -> rv_id e2 = rv_id e1 -> Forall (spares_init (rv_id e1)) h1 ->
  s_port conn <> d_port conn -> d_port conn <> 0 -> ngx_request (rv_mem e2) req (d_addr conn) (d_port conn) fd ->
  let k := mk_fd_info (cur_tid (rv_task e2)) fd FD_CLIENT in
  let st2 := obi_ngx_event_connect_peer_ret o e2 (rt_run o c (obi_ngx_http_upstream_init e1 st req) h1) in
  keeps_upstream k st2 h2 ->
  let st' := rt_run o c st2 h2 in
  forall t lw tp p_conn dport t_key,
    let part := mk_part (d_addr conn) (pid_from_pid_tgid (rv_id e1)) (d_port conn) FD_SERVER in
    pid_from_pid_tgid (cur_pid_tgid t) = pid_from_pid_tgid (rv_id e1) ->
    call_descriptor (rt_links st') p_conn dport = Some k -> node_spares (rt_links st') (rv_id e1) k -> python_thread_states (rt_links st') !! rv_id e1 = None ->
    let m := fst (server_trace c (rt_links st') (rt_maps st') t (sort_connection_info conn) lw tp (d_port conn)) in
    find_parent_trace c (rt_links st') m p_conn (rv_id e1) k_lw_thread_none t_key dport None = (Some (at_aux part), m)
    /\ deref m (at_aux part) = Some (set_response_sent tp 0).
Proof.
  intros Hok1 Hok2 Hid Hh1 Hne Hd0 (Hc & Hsa & Hat & Hfd & Hfd0) k st2 Hh2 st' t lw tp p_conn dport t_key part Ht Hfdi Hno Hpy m.
  set (st1 := rt_run o c (obi_ngx_http_upstream_init e1 st req) h1) in *.
  assert (Hargs : upstream_init_args st1 !! rv_id e2 = Some req).
  { unfold st1. rewrite Hid, init_kept by done. unfold obi_ngx_http_upstream_init. rewrite Hok1. cbn. by rewrite lookup_insert_eq. }
  assert (Hup : nginx_upstream (rt_links st') !! k = Some part).
  { unfold st'. rewrite upstream_kept by done. unfold st2, obi_ngx_event_connect_peer_ret. rewrite Hok2, Hargs. cbn [negb]. cbv zeta. unfold get_sock_info.
    rewrite (proj2 (Z.eqb_neq _ 0) Hc), (proj2 (Z.eqb_neq _ 0) Hsa), (sockaddr_parsed _ _ _ _ _ _ Hat), Hfd. unfold nz. rewrite (proj2 (Z.eqb_neq fd 0) Hfd0).
    cbn. rewrite lookup_insert_eq. unfold part. by rewrite Hid. }
  assert (Hpart : populate_ephemeral_info empty_part (sort_connection_info conn) (d_port conn) (pid_from_pid_tgid (rv_id e1)) FD_SERVER = part).
  { destruct (fixup_connection_info_orients conn empty_part (pid_from_pid_tgid (rv_id e1)) Hne Hd0) as (_ & _ & _ & Ha & Hp).
    unfold part. set (p := populate_ephemeral_info _ (sort_connection_info conn) _ _ FD_SERVER) in *. transitivity (mk_part (part_addr p) (pid_from_pid_tgid (rv_id e1)) (part_port p) FD_SERVER); [done|by rewrite Ha, Hp]. }
  pose proof (server_trace_aux (rt_links st') (rt_maps st') t (sort_connection_info conn) lw tp (d_port conn)) as Hx. rewrite Ht, Hpart in Hx.
  split; [|exact Hx]. by apply (search_reaches_nginx _ _ p_conn _ t_key dport _ _ _ Hfdi Hno Hpy Hup Hx).
Qed.

End histories.

(** ** Witnesses *)

Definition word8 (x : Z) : list Z := le_bytes 8 x.

(** A Ruby array on the heap: flags, an unused word, its length, another word and the pointer to its elements. *)
Definition heap_array (item : Z) : umem := list_umem (word8 0 ++ word8 0 ++ word8 0 ++ word8 1 ++ word8 0 ++ word8 48 ++ word8 item).

Definition puma_task (tid : Z) : task := mk_task (9 * 2 ^ 32 + tid) (mk_pid_key tid 9 1) (mk_pid_info 9 9 1).
Definition puma_env (tid : Z) (comm : list Z) (item : Z) : rt_env := mk_rt_env (puma_task tid) true (Some comm) (heap_array item).
Definition puma_info : ssl_pid_connection_info := mk_ssl_conn (mk_pid_conn (mk_conn (repeat 1 16) (repeat 2 16) 40000 80) 9) 40000.
Definition puma_start : rt_state := mk_rt empty_links empty_tmaps {[ 9 * 2 ^ 32 + 9 := puma_info ]} ∅.
Definition puma_conf : tconf := mk_tconf 1000 false false true false.
Definition rt_context : tp_info_pid := mk_tp_info_pid (mk_tp_info (repeat 1 16) (repeat 2 8) (repeat 0 8) 5 1) 9 1 0 0 0.
Definition upstream_conn : pid_connection_info := mk_pid_conn (mk_conn (repeat 3 16) (repeat 4 16) 50000 443) 9.

(** The acceptor, thread 9, creates object 77; thread 10 takes it, connects with descriptor 12, and then shifts an
    array of its own. *)
Definition puma_call_fd : fd_info := mk_fd_info (mk_pid_key 10 9 1) 12 FD_CLIENT.
Definition puma_history : list rt_event :=
  [rt_descriptor (populate_ephemeral_info empty_part (pc_conn upstream_conn) 443 9 FD_CLIENT) puma_call_fd;
   rt_shift (puma_env 10 PUMA_WORKER 1234) 8].
Definition puma_final : rt_state :=
  rt_run ngx_defaults puma_conf
    (obi_rb_ary_shift puma_conf (puma_env 10 PUMA_WORKER 77) (rt_run ngx_defaults puma_conf (obi_rb_obj_call_init_kw (puma_env 9 (PUMA_SRV ++ repeat 0 4) 0) puma_start 77) []) 8)
    puma_history.

Lemma puma_request_handed_over_witness :
  let m := fst (server_trace puma_conf (rt_links puma_final) (rt_maps puma_final) (puma_task 11) (pc_conn (sc_p_conn puma_info)) k_lw_thread_none rt_context 40000) in
  find_parent_trace puma_conf (rt_links puma_final) m upstream_conn (9 * 2 ^ 32 + 10) k_lw_thread_none (mk_trace_key 0 (mk_pid_key 10 9 1)) 443 None
    = (Some (at_aux (server_part puma_info 9)), m)
  /\ deref m (at_aux (server_part puma_info 9)) = Some rt_context.
Proof.
  assert (Ha : accepts_connections (puma_env 9 (PUMA_SRV ++ repeat 0 4) 0)) by (exists (PUMA_SRV ++ repeat 0 4); split_and!; vm_compute; reflexivity).
  assert (Hh : array_head (rv_mem (puma_env 10 PUMA_WORKER 77)) 8 = Some 77) by (vm_compute; reflexivity).
  assert (Hc : rt_conns puma_start !! rv_id (puma_env 9 (PUMA_SRV ++ repeat 0 4) 0) = Some puma_info) by (vm_compute; reflexivity).
  pose proof (puma_request_handed_over ngx_defaults puma_conf puma_start (puma_env 9 (PUMA_SRV ++ repeat 0 4) 0) (puma_env 10 PUMA_WORKER 77) 77 8 puma_info []
                puma_history eq_refl eq_refl Ha Hc eq_refl ltac:(discriminate) Hh (Forall_nil_2 _)) as H.
  destruct H as [_ H].
  { split; [exact I|]. split; [by intros []|]. split; [exact I|]. split; [|exact I].
    intros [_ (i & Hi & [x Hx])]. vm_compute in Hi. injection Hi as <-. vm_compute in Hx. discriminate. }
  assert (Hcd : call_descriptor (rt_links puma_final) upstream_conn 443 = Some puma_call_fd) by (vm_compute; reflexivity).
  assert (Hd : forall fd, call_descriptor (rt_links puma_final) upstream_conn 443 = Some fd ->
    node_spares (rt_links puma_final) (rv_id (puma_env 10 PUMA_WORKER 77)) fd /\ nginx_upstream (rt_links puma_final) !! fd = None).
  { intros fd Hfd. rewrite Hcd in Hfd. injection Hfd as <-. split; vm_compute; reflexivity. }
  exact (H (puma_task 11) k_lw_thread_none rt_context upstream_conn 443 (mk_trace_key 0 (mk_pid_key 10 9 1)) eq_refl Hd eq_refl).
Defined.

(** The memory of an nginx worker: the request at 0, its connection at 0x50, its upstream at 0xc0, the peer connection
    at 0xc8 with descriptor [fd], and the address of the client, 10.0.0.2 and [port], at 0xe8. *)
Definition ngx_memory_of (fd port : Z) : umem :=
  list_umem (repeat 0 8 ++ word8 0x50 ++ repeat 0 (Z.to_nat 0x38) ++ word8 0xc0 ++ repeat 0 (Z.to_nat 0x68) ++ word8 0xe8 ++ repeat 0 16 ++ word8 0xc8
             ++ repeat 0 8 ++ word8 fd ++ [2; 0] ++ be_bytes 2 port ++ [10; 0; 0; 2]).
Definition ngx_env_of (fd port : Z) : rt_env := mk_rt_env (puma_task 9) true None (ngx_memory_of fd port).
Definition ngx_client : connection_info := mk_conn (repeat 9 16) (ip4ip6_prefix ++ [10; 0; 0; 2]) 80 40001.
Definition ngx_call_part : connection_info_part := populate_ephemeral_info empty_part (pc_conn upstream_conn) 443 9 FD_CLIENT.
Definition ngx_connected : rt_state :=
  obi_ngx_event_connect_peer_ret ngx_defaults (ngx_env_of 7 40001)
    (obi_ngx_http_upstream_init (ngx_env_of 7 40001) (mk_rt empty_links empty_tmaps ∅ ∅) 0).
(** The descriptor of the call is recorded; then the thread serves another client with descriptor 8. *)
Definition ngx_history : list rt_event :=
  [rt_descriptor ngx_call_part (mk_fd_info (mk_pid_key 9 9 1) 7 FD_CLIENT);
   rt_ngx_init (ngx_env_of 8 40002) 0; rt_ngx_connected (ngx_env_of 8 40002)].
Definition ngx_final : rt_state := rt_run ngx_defaults puma_conf ngx_connected ngx_history.

Lemma nginx_upstream_joined_witness :
  let part := mk_part (d_addr ngx_client) 9 40001 FD_SERVER in
  let m := fst (server_trace puma_conf (rt_links ngx_final) (rt_maps ngx_final) (puma_task 9) (sort_connection_info ngx_client) k_lw_thread_none rt_context 40001) in
  find_parent_trace puma_conf (rt_links ngx_final) m upstream_conn (9 * 2 ^ 32 + 9) k_lw_thread_none (mk_trace_key 0 (mk_pid_key 9 9 1)) 443 None
    = (Some (at_aux part), m)
  /\ deref m (at_aux part) = Some rt_context.
Proof.
  assert (Hr : ngx_request ngx_defaults (ngx_memory_of 7 40001) 0 (d_addr ngx_client) (d_port ngx_client) 7).
  { split_and!; try discriminate; try (vm_compute; reflexivity). split_and!; try (vm_compute; reflexivity); try discriminate. left. split; vm_compute; reflexivity. }
  assert (Hk : keeps_upstream ngx_defaults puma_conf (mk_fd_info (mk_pid_key 9 9 1) 7 FD_CLIENT) ngx_connected ngx_history).
  { split; [done|]. split; [done|]. split; [|exact I]. vm_compute. discriminate. }
  pose proof (nginx_upstream_joined ngx_defaults puma_conf (mk_rt empty_links empty_tmaps ∅ ∅) (ngx_env_of 7 40001) (ngx_env_of 7 40001) 0 ngx_client 7 [] ngx_history
                eq_refl eq_refl eq_refl (Forall_nil_2 _) ltac:(discriminate) ltac:(discriminate) Hr Hk) as H.
  assert (Hd : call_descriptor (rt_links ngx_final) upstream_conn 443 = Some (mk_fd_info (mk_pid_key 9 9 1) 7 FD_CLIENT)) by (vm_compute; reflexivity).
  exact (H (puma_task 9) k_lw_thread_none rt_context upstream_conn 443 (mk_trace_key 0 (mk_pid_key 9 9 1)) eq_refl Hd eq_refl eq_refl).
Defined.

(** A worker keeps one request between the two probes.  When the request of the client at port 40002 begins before the
    connect for the client at port 40001 returns, as with an upstream whose name has to be resolved, both
    connects are recorded for the former, and the call with descriptor 7 is left without a request.  Both
    requests are in the worker's memory, the second, with descriptor 8, at 0x200. *)
Definition ngx_two_requests : umem :=
  fun a => if a <? 0x200 then ngx_memory_of 7 40001 a
           else list_umem (repeat 0 8 ++ word8 0x250 ++ repeat 0 (Z.to_nat 0x38) ++ word8 0x2c0 ++ repeat 0 (Z.to_nat 0x68) ++ word8 0x2e8 ++ repeat 0 16
                             ++ word8 0x2c8 ++ repeat 0 8 ++ word8 8 ++ [2; 0] ++ be_bytes 2 40002 ++ [10; 0; 0; 2]) (a - 0x200).
Example interleaved_init_loses_call :
  let e := mk_rt_env (puma_task 9) true None ngx_two_requests in
  let st := rt_run ngx_defaults puma_conf (mk_rt empty_links empty_tmaps ∅ ∅) [rt_ngx_init e 0; rt_ngx_init e 0x200; rt_ngx_connected e; rt_ngx_connected e] in
  nginx_upstream (rt_links st) !! mk_fd_info (mk_pid_key 9 9 1) 8 FD_CLIENT = Some (mk_part (d_addr ngx_client) 9 40002 FD_SERVER)
  /\ nginx_upstream (rt_links st) !! mk_fd_info (mk_pid_key 9 9 1) 7 FD_CLIENT = None.
Proof. split; vm_compute; reflexivity. Qed.

(** Any array the worker shifts clears the context of its thread, although the request is still the worker's. *)
Example own_array_clears_context :
  let served := rt_step ngx_defaults puma_conf
    (obi_rb_obj_call_init_kw (puma_env 9 (PUMA_SRV ++ repeat 0 4) 0)
       (mk_rt empty_links (set_server_traces_aux empty_tmaps {[ server_part puma_info 9 := rt_context ]}) {[ 9 * 2 ^ 32 + 9 := puma_info ]} ∅) 77)
    (rt_shift (puma_env 10 PUMA_WORKER 77) 8) in
  obi_ctx__get (rt_maps served) (9 * 2 ^ 32 + 10) = Some (mk_obi_ctx (repeat 1 16) (repeat 2 8))
  /\ obi_ctx__get (rt_maps (rt_step ngx_defaults puma_conf served (rt_shift (puma_env 10 PUMA_WORKER 1234) 8))) (9 * 2 ^ 32 + 10) = None.
Proof. split; vm_compute; reflexivity. Qed.
