(* ===== verification/Stats.v ===== *)
(** * TCP statistics ([bpf/statsolly/k_tcp.c], [tp_tcp.c], [failed_conn_port.h], [handshake_role.h], [types.h], [maps/*.h]).

    Probes and tracepoints on TCP sockets report, through one ring, the round-trip time of a connection when
    it is closed, failed and established connections, retransmissions, resets, and the sizes of the
    transfers.  Transfer sizes are batched: at most ten per socket and direction wait in [tcp_io_accum],
    and [tcp_close] flushes what is left.

    [senv] is what one run reads: the sockets by address, the running thread, whether each reservation in the
    ring finds room (by its number within the run), what the ring holds unread, and whether a new entry of
    an LRU map can be made.  An entry of the ring carries the flags it was submitted with and, for the
    statements, the socket it is about.  Evictions from the LRU maps are events of their own. *)

From Stdlib Require Import ZArith Lia ZifyBool List Bool.
From stdpp Require Import base list countable gmap.
From S2P Require Import Prelude Entry ConnInfo Packet Dns HttpSpan KProbes.

Local Open Scope Z_scope.

Definition k_max_srtt_allowed : Z := 60 * 1000000.
Definition k_tcp_io_batch_size : Z := 10.
Definition TCP_ESTABLISHED : Z := 1.
Definition TCP_TIME_WAIT : Z := 6.
Definition TCP_LAST_ACK : Z := 9.
Definition TCP_LISTEN : Z := 10.
Definition TCP_NEW_SYN_RECV : Z := 12.
Definition ENETUNREACH : Z := 101.
Definition ECONNRESET : Z := 104.
Definition ETIMEDOUT : Z := 110.
Definition ECONNREFUSED : Z := 111.
Definition EHOSTUNREACH : Z := 113.
Definition BPF_RB_NO_WAKEUP : Z := 1.
Definition BPF_RB_FORCE_WAKEUP : Z := 2.

Definition role_unknown : Z := 0.
Definition role_client : Z := 1.
Definition role_server : Z := 2.

Definition direction_receive : Z := 1.
Definition direction_transmit : Z := 2.

Definition reset_cause_unknown : Z := 0.
Definition reset_cause_application : Z := 1.
Definition reset_cause_timeout : Z := 2.

#[export] Hint Unfold k_max_srtt_allowed k_tcp_io_batch_size direction_receive direction_transmit role_client role_server : kconst.

(** ** Data *)

(** What is read of a [struct tcp_sock]; [inet_sport] is in network order. *)
Record tcp_sock := mk_tcp_sock {
  ts_sock : ksock;
  ts_inet_sport : Z;
  ts_segs_out : Z;
  ts_srtt_us : Z;
  ts_sk_err : Z
}.

(** What is written to [stats_events], by the kind its first octet names. *)
Inductive stat_event :=
  | ev_tcp_rtt (role srtt_us : Z) (conn : connection_info)
  | ev_tcp_failed_connection (reason role : Z) (conn : connection_info)
  | ev_tcp_retransmit (conn : connection_info)
  | ev_tcp_io (direction count : Z) (bytes : list Z) (conn : connection_info)
  | ev_tcp_successful_connection (role : Z) (conn : connection_info)
  | ev_tcp_reset (direction cause : Z) (conn : connection_info).

Definition stat_type (ev : stat_event) : Z :=
  match ev with
  | ev_tcp_rtt _ _ _ => 1
  | ev_tcp_failed_connection _ _ _ => 2
  | ev_tcp_retransmit _ => 3
  | ev_tcp_io _ _ _ _ => 4
  | ev_tcp_successful_connection _ _ => 5
  | ev_tcp_reset _ _ _ => 6
  end.

Record ring_entry := mk_entry { en_flags : Z; en_sock : Z; en_event : stat_event }.

Record tcp_io_accum_t := mk_accum { ac_bytes : list Z; ac_count : Z }.

Record sstate := mk_sstate {
  stats_events : list ring_entry;
  sock_role : gmap Z Z;
  tcp_sendmsg_sock : gmap Z Z;
  tcp_io_accum : gmap (Z * Z) tcp_io_accum_t
}.

Record senv := mk_senv {
  se_sock : Z -> option tcp_sock;
  se_pid_tgid : Z;
  se_room : nat -> bool;
  se_avail : nat -> Z;
  se_wakeup_bytes : Z;
  se_map_room : bool
}.

Definition set_accum (st : sstate) (m : gmap (Z * Z) tcp_io_accum_t) : sstate := mk_sstate (stats_events st) (sock_role st) (tcp_sendmsg_sock st) m.
Definition set_calls (st : sstate) (m : gmap Z Z) : sstate := mk_sstate (stats_events st) (sock_role st) m (tcp_io_accum st).
Definition set_role (st : sstate) (m : gmap Z Z) : sstate := mk_sstate (stats_events st) m (tcp_sendmsg_sock st) (tcp_io_accum st).

Definition read_sock {A} (s : option tcp_sock) (f : tcp_sock -> A) (zero : A) : A := match s with Some s => f s | None => zero end.

(** ** Sockets *)

Definition resolve_local_port (skc_num inet_sport : Z) : Z := if nz skc_num then skc_num else bswap16 inet_sport.

Definition parse_tcp_sock (s : option tcp_sock) : option connection_info := parse_sock_info (ts_sock <$> s).

Definition parse_full_sock_info (s : option tcp_sock) : option connection_info :=
  match parse_tcp_sock s with
  | None => None
  | Some info => Some (mk_conn (s_addr info) (d_addr info) (resolve_local_port (s_port info) (read_sock s ts_inet_sport 0)) (d_port info))
  end.

Definition failed_connect_owns_inet_sport (oldstate segs_out : Z) : bool := negb (oldstate =? TCP_SYN_SENT) || (0 <? segs_out).

Definition parse_failed_sock_info (s : option tcp_sock) (oldstate : Z) : option connection_info :=
  if negb (failed_connect_owns_inet_sport oldstate (read_sock s ts_segs_out 0)) then parse_tcp_sock s else parse_full_sock_info s.

Definition failed_connection_role (oldstate stored_role : Z) : Z :=
  if oldstate =? TCP_SYN_SENT then role_client else if oldstate =? TCP_SYN_RECV then role_server else stored_role.

(** ** The ring *)

Definition stats_events_flags (wakeup_bytes avail : Z) : Z :=
  if wakeup_bytes =? 0 then 0 else if wakeup_bytes <=? avail then BPF_RB_FORCE_WAKEUP else BPF_RB_NO_WAKEUP.

(** Submit the [k]-th reservation of the run. *)
Definition submit_stat (e : senv) (k : nat) (st : sstate) (sk : Z) (ev : stat_event) : sstate :=
  mk_sstate (stats_events st ++ [mk_entry (stats_events_flags (se_wakeup_bytes e) (se_avail e k)) sk ev]) (sock_role st) (tcp_sendmsg_sock st) (tcp_io_accum st).

(** ** Transfers *)

Definition flush_tcp_io_accum (e : senv) (k : nat) (st : sstate) (sk direction : Z) (accum : tcp_io_accum_t) : sstate :=
  if negb (se_room e k) then st
  else
    match parse_full_sock_info (se_sock e sk) with
    | None => st
    | Some conn => submit_stat e k st sk (ev_tcp_io direction (ac_count accum) (ac_bytes accum) conn)
    end.

Definition flush_and_delete_io_accum (e : senv) (k : nat) (st : sstate) (sk direction : Z) : sstate :=
  match tcp_io_accum st !! (sk, direction) with
  | None => st
  | Some accum =>
      let st := if 0 <? ac_count accum then flush_tcp_io_accum e k st sk direction accum else st in
      set_accum st (delete (sk, direction) (tcp_io_accum st))
  end.

Definition accumulate_tcp_io (e : senv) (st : sstate) (sk direction bytes : Z) : sstate :=
  match tcp_io_accum st !! (sk, direction) with
  | None => if se_map_room e then set_accum st (<[(sk, direction) := mk_accum (bytes :: repeat 0 9) 1]> (tcp_io_accum st)) else st
  | Some accum =>
      let idx := ac_count accum in
      if idx <? k_tcp_io_batch_size then
        let accum := mk_accum (<[Z.to_nat idx := bytes]> (ac_bytes accum)) (u8 (idx + 1)) in
        let st := set_accum st (<[(sk, direction) := accum]> (tcp_io_accum st)) in
        if k_tcp_io_batch_size <=? ac_count accum then
          let st := flush_tcp_io_accum e 0 st sk direction accum in
          set_accum st (delete (sk, direction) (tcp_io_accum st))
        else st
      else st
  end.

Definition obi_stats_kprobe_tcp_close_io_flush (e : senv) (st : sstate) (sk : Z) : sstate :=
  let st := flush_and_delete_io_accum e 0 st sk direction_transmit in
  flush_and_delete_io_accum e 1 st sk direction_receive.

Definition obi_stats_kprobe_tcp_sendmsg (e : senv) (st : sstate) (sk : Z) : sstate :=
  set_calls st (<[se_pid_tgid e := sk]> (tcp_sendmsg_sock st)).

Definition obi_stats_kretprobe_tcp_sendmsg (e : senv) (st : sstate) (sent : Z) : sstate :=
  match tcp_sendmsg_sock st !! se_pid_tgid e with
  | None => st
  | Some sk =>
      let st := set_calls st (delete (se_pid_tgid e) (tcp_sendmsg_sock st)) in
      if sent <=? 0 then st else accumulate_tcp_io e st sk direction_transmit (u32 sent)
  end.

Definition obi_stats_kprobe_tcp_cleanup_rbuf (e : senv) (st : sstate) (sk copied : Z) : sstate :=
  if copied <=? 0 then st else accumulate_tcp_io e st sk direction_receive (u32 copied).

(** ** Connections *)

Definition stored_role (st : sstate) (sk : Z) : Z := match sock_role st !! sk with Some r => r | None => role_unknown end.

Definition obi_stats_kprobe_tcp_close_srtt (e : senv) (st : sstate) (sk : Z) : sstate :=
  match parse_full_sock_info (se_sock e sk) with
  | None => st
  | Some conn =>
      if is_tcp_socket_never_connected (ts_sock <$> se_sock e sk) then st
      else
        let srtt_us := Z.shiftr (read_sock (se_sock e sk) ts_srtt_us 0) 3 in
        if srtt_us =? 0 then st
        else if k_max_srtt_allowed <? srtt_us then st
        else if negb (se_room e 0) then st
        else submit_stat e 0 st sk (ev_tcp_rtt (stored_role st sk) srtt_us conn)
  end.

Definition sk_err_to_reason (err : Z) : Z :=
  if err =? ECONNREFUSED then 1
  else if err =? ECONNRESET then 2
  else if err =? ETIMEDOUT then 3
  else if err =? EHOSTUNREACH then 4
  else if err =? ENETUNREACH then 5
  else if err =? 0 then 0
  else 255.

(** The arguments of [inet_sock_set_state]. *)
Record set_state_args := mk_args { protocol : Z; skaddr : Z; oldstate : Z; newstate : Z }.

Definition conn_role (st : sstate) (args : set_state_args) : sstate :=
  if negb (protocol args =? IPPROTO_TCP) then st
  else if ((oldstate args =? TCP_SYN_SENT) || (oldstate args =? TCP_SYN_RECV)) && (newstate args =? TCP_ESTABLISHED) then
    set_role st (<[skaddr args := if oldstate args =? TCP_SYN_SENT then role_client else role_server]> (sock_role st))
  else st.

Definition obi_stats_tp_tcp_destroy_sock (st : sstate) (sk : Z) : sstate := set_role st (delete sk (sock_role st)).

Definition tcp_failed_connection (e : senv) (st : sstate) (args : set_state_args) : sstate :=
  if negb (protocol args =? IPPROTO_TCP) then st
  else if negb (newstate args =? TCP_CLOSE) then st
  else if (oldstate args =? TCP_LAST_ACK) || (oldstate args =? TCP_TIME_WAIT) || (oldstate args =? TCP_LISTEN) then st
  else
    let sk := se_sock e (skaddr args) in
    let err := read_sock sk ts_sk_err 0 in
    if (err =? 0) && negb (oldstate args =? TCP_SYN_SENT) then st
    else
      match parse_failed_sock_info sk (oldstate args) with
      | None => st
      | Some conn =>
          if negb (se_room e 0) then st
          else submit_stat e 0 st (skaddr args)
                 (ev_tcp_failed_connection (sk_err_to_reason err) (failed_connection_role (oldstate args) (stored_role st (skaddr args))) conn)
      end.

Definition tcp_successful_connection (e : senv) (st : sstate) (args : set_state_args) : sstate :=
  if negb (protocol args =? IPPROTO_TCP) then st
  else if (newstate args =? TCP_ESTABLISHED) && ((oldstate args =? TCP_SYN_SENT) || (oldstate args =? TCP_SYN_RECV)) then
    match parse_tcp_sock (se_sock e (skaddr args)) with
    | None => st
    | Some conn =>
        if negb (se_room e 0) then st
        else submit_stat e 0 st (skaddr args) (ev_tcp_successful_connection (if oldstate args =? TCP_SYN_SENT then role_client else role_server) conn)
    end
  else st.

(** ** Retransmissions and resets *)

Definition obi_stats_raw_tp_tcp_retransmit_skb (e : senv) (st : sstate) (sk : Z) : sstate :=
  match parse_tcp_sock (se_sock e sk) with
  | None => st
  | Some conn => if negb (se_room e 0) then st else submit_stat e 0 st sk (ev_tcp_retransmit conn)
  end.

Definition tcp_reset_during_handshake (state : Z) : bool :=
  (state =? TCP_LISTEN) || (state =? TCP_SYN_SENT) || (state =? TCP_SYN_RECV) || (state =? TCP_NEW_SYN_RECV).

Definition sent_reset_cause (state : Z) (answers_segment : bool) : Z :=
  if answers_segment then reset_cause_unknown else if state =? TCP_CLOSE then reset_cause_application else reset_cause_timeout.

Definition submit_tcp_reset (e : senv) (st : sstate) (sk state direction cause : Z) : sstate :=
  match (if state =? TCP_CLOSE then parse_full_sock_info (se_sock e sk) else parse_tcp_sock (se_sock e sk)) with
  | None => st
  | Some conn => if negb (se_room e 0) then st else submit_stat e 0 st sk (ev_tcp_reset direction cause conn)
  end.

Definition sk_tcp_state (e : senv) (sk : Z) : Z := read_sock (se_sock e sk) (fun s => skc_state (ts_sock s)) 0.

Definition obi_stats_raw_tp_tcp_send_reset (e : senv) (st : sstate) (sk skb : Z) : sstate :=
  if sk =? 0 then st
  else if tcp_reset_during_handshake (sk_tcp_state e sk) then st
  else submit_tcp_reset e st sk (sk_tcp_state e sk) direction_transmit (sent_reset_cause (sk_tcp_state e sk) (nz skb)).

Definition obi_stats_raw_tp_tcp_receive_reset (e : senv) (st : sstate) (sk : Z) : sstate :=
  if tcp_reset_during_handshake (sk_tcp_state e sk) then st
  else submit_tcp_reset e st sk (sk_tcp_state e sk) direction_receive reset_cause_unknown.

(** ** Histories *)

Inductive stats_input :=
  | sv_set_state (e : senv) (args : set_state_args)
  | sv_destroy (sk : Z)
  | sv_close (e e' : senv) (sk : Z)
  | sv_sendmsg (e : senv) (sk : Z)
  | sv_sendmsg_ret (e : senv) (sent : Z)
  | sv_cleanup_rbuf (e : senv) (sk copied : Z)
  | sv_retransmit (e : senv) (sk : Z)
  | sv_send_reset (e : senv) (sk skb : Z)
  | sv_receive_reset (e : senv) (sk : Z)
  | sv_evict_accum (key : Z * Z)
  | sv_evict_call (pid_tgid : Z)
  | sv_evict_role (sk : Z).

(** The three programs on the tracepoint run one after the other, as do the two on [tcp_close]. *)
Definition stats_step (st : sstate) (ev : stats_input) : sstate :=
  match ev with
  | sv_set_state e args => tcp_successful_connection e (tcp_failed_connection e (conn_role st args) args) args
  | sv_destroy sk => obi_stats_tp_tcp_destroy_sock st sk
  | sv_close e e' sk => obi_stats_kprobe_tcp_close_srtt e' (obi_stats_kprobe_tcp_close_io_flush e st sk) sk
  | sv_sendmsg e sk => obi_stats_kprobe_tcp_sendmsg e st sk
  | sv_sendmsg_ret e sent => obi_stats_kretprobe_tcp_sendmsg e st sent
  | sv_cleanup_rbuf e sk copied => obi_stats_kprobe_tcp_cleanup_rbuf e st sk copied
  | sv_retransmit e sk => obi_stats_raw_tp_tcp_retransmit_skb e st sk
  | sv_send_reset e sk skb => obi_stats_raw_tp_tcp_send_reset e st sk skb
  | sv_receive_reset e sk => obi_stats_raw_tp_tcp_receive_reset e st sk
  | sv_evict_accum key => set_accum st (delete key (tcp_io_accum st))
  | sv_evict_call pid => set_calls st (delete pid (tcp_sendmsg_sock st))
  | sv_evict_role sk => set_role st (delete sk (sock_role st))
  end.

Definition stats_start : sstate := mk_sstate [] ∅ ∅ ∅.
Definition stats_run (h : list stats_input) : sstate := fold_left stats_step h stats_start.

(** ** Transfers are accounted for *)

(** The sizes that wait for a socket and direction, and the ones reported for it. *)
Definition pending (st : sstate) (k : Z * Z) : list Z :=
  match tcp_io_accum st !! k with None => [] | Some a => take (Z.to_nat (ac_count a)) (ac_bytes a) end.

Definition io_sizes (k : Z * Z) (en : ring_entry) : list Z :=
  match en_event en with
  | ev_tcp_io d n bytes _ => if decide ((en_sock en, d) = k) then take (Z.to_nat n) bytes else []
  | _ => []
  end.

Definition reported (st : sstate) (k : Z * Z) : list Z := concat (map (io_sizes k) (stats_events st)).
Definition io_accounted (st : sstate) (k : Z * Z) : list Z := reported st k ++ pending st k.

(** Every entry has room for one more size. *)
Definition accum_ok (a : tcp_io_accum_t) : Prop := length (ac_bytes a) = 10%nat /\ 1 <= ac_count a < k_tcp_io_batch_size.
Definition accums_ok (st : sstate) : Prop := forall k a, tcp_io_accum st !! k = Some a -> accum_ok a.

(** Every batch in the ring holds between one and ten sizes. *)
Definition batch_ok (en : ring_entry) : Prop :=
  match en_event en with ev_tcp_io _ n bytes _ => length bytes = 10%nat /\ 1 <= n <= k_tcp_io_batch_size | _ => True end.

Definition is_io (ev : stat_event) : bool := match ev with ev_tcp_io _ _ _ _ => true | _ => false end.

(** Runs that leave the transfers alone. *)
Record same_io (st st' : sstate) : Prop := mk_same_io {
  si_accum : tcp_io_accum st' = tcp_io_accum st;
  si_calls : tcp_sendmsg_sock st' = tcp_sendmsg_sock st;
  si_reported : forall k, reported st' k = reported st k;
  si_batches : Forall batch_ok (stats_events st) -> Forall batch_ok (stats_events st')
}.

Lemma same_io_refl st : same_io st st.
Proof. by split. Qed.

Lemma same_io_trans st1 st2 st3 : same_io st1 st2 -> same_io st2 st3 -> same_io st1 st3.
Proof. intros [A1 B1 C1 D1] [A2 B2 C2 D2]. split; [congruence|congruence|intros k; by rewrite C2|auto]. Qed.

Lemma same_io_role st m : same_io st (set_role st m).
Proof. by split. Qed.

Lemma reported_submit e n st sk ev k : reported (submit_stat e n st sk ev) k = reported st k ++ io_sizes k (mk_entry 0 sk ev).
Proof. unfold reported, submit_stat. cbn [stats_events]. rewrite map_app, concat_app. cbn. by rewrite app_nil_r. Qed.

Lemma submit_same_io e n st sk ev : is_io ev = false -> same_io st (submit_stat e n st sk ev).
Proof.
  intros H. split; [done|done| |].
  - intros k. rewrite reported_submit. destruct ev; try done; cbn; by rewrite app_nil_r.
  - intros Hb. apply Forall_app. split; [done|]. apply Forall_singleton. by destruct ev.
Qed.

Create HintDb stats_io.
#[export] Hint Resolve same_io_refl same_io_role : stats_io.
#[export] Hint Extern 1 (same_io _ (submit_stat _ _ _ _ _)) => apply submit_same_io; reflexivity : stats_io.

Ltac same_io := intros; repeat case_match; eauto with stats_io.

Lemma conn_role_io st args : same_io st (conn_role st args).
Proof. unfold conn_role. same_io. Qed.

Lemma failed_io e st args : same_io st (tcp_failed_connection e st args).
Proof. unfold tcp_failed_connection. same_io. Qed.

Lemma successful_io e st args : same_io st (tcp_successful_connection e st args).
Proof. unfold tcp_successful_connection. same_io. Qed.

Lemma srtt_io e st sk : same_io st (obi_stats_kprobe_tcp_close_srtt e st sk).
Proof. unfold obi_stats_kprobe_tcp_close_srtt. same_io. Qed.

Lemma retransmit_io e st sk : same_io st (obi_stats_raw_tp_tcp_retransmit_skb e st sk).
Proof. unfold obi_stats_raw_tp_tcp_retransmit_skb. same_io. Qed.

Lemma reset_io e st sk state d c : same_io st (submit_tcp_reset e st sk state d c).
Proof. unfold submit_tcp_reset. same_io. Qed.

#[export] Hint Resolve conn_role_io failed_io successful_io srtt_io retransmit_io reset_io : stats_io.

(** A run that moves the sizes [add] and, unless something is lost, accounts for them. *)
Record io_step (fine : Prop) (st st' : sstate) (add : Z * Z -> list Z) : Prop := mk_io_step {
  is_calls : tcp_sendmsg_sock st' = tcp_sendmsg_sock st;
  is_ok : accums_ok st';
  is_batches : Forall batch_ok (stats_events st');
  is_sub : forall k, io_accounted st' k `sublist_of` io_accounted st k ++ add k;
  is_eq : fine -> forall k, io_accounted st' k = io_accounted st k ++ add k
}.

Definition nothing : Z * Z -> list Z := fun _ => [].
Definition one (key : Z * Z) (x : Z) : Z * Z -> list Z := fun k => if decide (key = k) then [x] else [].

Lemma same_io_step P st st' : accums_ok st -> Forall batch_ok (stats_events st) -> same_io st st' -> io_step P st st' nothing.
Proof.
  intros Ha Hb [A B C D]. assert (He : forall k, io_accounted st' k = io_accounted st k ++ nothing k)
    by (intros k; unfold io_accounted, pending, nothing; rewrite A, C; by rewrite app_nil_r).
  split; [done| |auto| |auto].
  - intros k a. rewrite A. apply Ha.
  - intros k. rewrite He. done.
Qed.

Lemma io_step_trans P Q st1 st2 st3 add : io_step P st1 st2 nothing -> io_step Q st2 st3 add -> io_step (P /\ Q) st1 st3 add.
Proof.
  intros [A1 _ _ D1 E1] [A2 B2 C2 D2 E2]. split; [congruence|done|done| |].
  - intros k. etransitivity; [apply D2|]. apply sublist_app; [|done]. specialize (D1 k). unfold nothing in D1. by rewrite app_nil_r in D1.
  - intros [HP HQ] k. rewrite E2, E1 by done. unfold nothing. by rewrite app_nil_r.
Qed.

(** The environment loses nothing about a socket. *)
Definition fine (e : senv) (sk : Z) : Prop :=
  se_room e 0 = true /\ se_room e 1 = true /\ se_map_room e = true /\ is_Some (parse_full_sock_info (se_sock e sk)).

Lemma fine_room e sk n : fine e sk -> (n < 2)%nat -> se_room e n = true.
Proof. intros (H0 & H1 & _ & _) Hn. destruct n as [|[|n]]; [done|done|lia]. Qed.

(** Flushing an entry and removing it: its sizes are reported or, when the ring is full or the socket cannot be
    read, lost. *)
Lemma flushed e n st sk d a : (n < 2)%nat -> accums_ok (set_accum st (delete (sk, d) (tcp_io_accum st))) -> Forall batch_ok (stats_events st) ->
  length (ac_bytes a) = 10%nat -> 1 <= ac_count a <= k_tcp_io_batch_size ->
  let st1 := flush_tcp_io_accum e n st sk d a in
  let st' := set_accum st1 (delete (sk, d) (tcp_io_accum st1)) in
  tcp_sendmsg_sock st' = tcp_sendmsg_sock st /\ accums_ok st' /\ Forall batch_ok (stats_events st')
  /\ tcp_io_accum st' = delete (sk, d) (tcp_io_accum st)
  /\ exists b : bool, (fine e sk -> b = true)
     /\ forall k, reported st' k = reported st k ++ (if b then if decide ((sk, d) = k) then take (Z.to_nat (ac_count a)) (ac_bytes a) else [] else []).
Proof.
  intros Hn Ha Hb Hl Hc st1 st'. subst st' st1. unfold flush_tcp_io_accum. destruct (se_room e n) eqn:Er; cbn [negb].
  - destruct (parse_full_sock_info (se_sock e sk)) as [conn|] eqn:Ep.
    + split_and!; [done|done| |done|].
      * apply Forall_app. split; [done|]. by apply Forall_singleton.
      * exists true. split; [done|]. intros k. change (reported (set_accum ?s ?m) k) with (reported s k). rewrite reported_submit. done.
    + split_and!; try done. exists false. split; [intros (_ & _ & _ & [c Hc']); congruence|]. intros k. by rewrite app_nil_r.
  - split_and!; try done. exists false. split; [intros Hf; rewrite (fine_room e sk n Hf Hn) in Er; done|]. intros k. by rewrite app_nil_r.
Qed.

Lemma accums_delete st key : accums_ok st -> accums_ok (set_accum st (delete key (tcp_io_accum st))).
Proof. intros H k a Hk. cbn in Hk. apply lookup_delete_Some in Hk as [_ Hk]. by apply (H k). Qed.

Lemma flush_step e n st sk d : (n < 2)%nat -> accums_ok st -> Forall batch_ok (stats_events st) ->
  io_step (fine e sk) st (flush_and_delete_io_accum e n st sk d) nothing
  /\ tcp_io_accum (flush_and_delete_io_accum e n st sk d) = delete (sk, d) (tcp_io_accum st).
Proof.
  intros Hn Ha Hb. unfold flush_and_delete_io_accum. destruct (tcp_io_accum st !! (sk, d)) as [a|] eqn:El.
  2: { split; [apply same_io_step; eauto with stats_io|]. by rewrite delete_id. }
  destruct (Ha _ _ El) as [Hl Hc]. rewrite (proj2 (Z.ltb_lt 0 _)) by lia.
  destruct (flushed e n st sk d a Hn (accums_delete st _ Ha) Hb Hl) as (A & B & C & D & b & Hf & Hr); [lia|].
  split; [|done].
  assert (Hk : forall k, io_accounted (set_accum (flush_tcp_io_accum e n st sk d a) (delete (sk, d) (tcp_io_accum (flush_tcp_io_accum e n st sk d a)))) k
    = reported st k ++ (if decide ((sk, d) = k) then if b then pending st k else [] else pending st k)).
  { intros k. unfold io_accounted, pending at 1. rewrite Hr, D. destruct (decide ((sk, d) = k)) as [<-|Hne].
    - rewrite lookup_delete_eq. unfold pending. rewrite El. destruct b; by rewrite ?app_nil_r.
    - rewrite lookup_delete_ne by done. destruct b; by rewrite app_nil_r. }
  split; [done|done|done| |].
  - intros k. rewrite Hk. unfold nothing, io_accounted. rewrite app_nil_r. apply sublist_app; [done|].
    destruct (decide _); [|done]. destruct b; [done|]. apply sublist_nil_l.
  - intros Hfine k. rewrite Hk. unfold nothing, io_accounted. rewrite app_nil_r. f_equal. rewrite (Hf Hfine). by destruct (decide _).
Qed.

Lemma take_insert_end (l : list Z) n x : (n < length l)%nat -> take (S n) (<[n := x]> l) = take n l ++ [x].
Proof.
  intros Hn. rewrite (take_S_r _ _ x) by (apply list_lookup_insert_eq; done). f_equal. apply take_insert_ge. lia.
Qed.

Lemma accumulate_step e st sk d x : accums_ok st -> Forall batch_ok (stats_events st) ->
  io_step (fine e sk) st (accumulate_tcp_io e st sk d x) (one (sk, d) x).
Proof.
  intros Ha Hb. unfold accumulate_tcp_io. destruct (tcp_io_accum st !! (sk, d)) as [a|] eqn:El.
  - destruct (Ha _ _ El) as [Hl Hc]. rewrite (proj2 (Z.ltb_lt _ k_tcp_io_batch_size)) by lia. cbv zeta. cbn [ac_count].
    assert (Hu : u8 (ac_count a + 1) = ac_count a + 1) by (unfold u8; kunfold; apply Z.mod_small; lia). rewrite Hu.
    set (a' := mk_accum (<[Z.to_nat (ac_count a) := x]> (ac_bytes a)) (ac_count a + 1)).
    assert (Hl' : length (ac_bytes a') = 10%nat) by (cbn; by rewrite length_insert).
    assert (Hsz : take (Z.to_nat (ac_count a')) (ac_bytes a') = pending st (sk, d) ++ [x]).
    { unfold pending. rewrite El. cbn [a' ac_count ac_bytes]. replace (Z.to_nat (ac_count a + 1)) with (S (Z.to_nat (ac_count a))) by lia.
      apply take_insert_end. unfold k_tcp_io_batch_size in Hc. lia. }
    set (st1 := set_accum st (<[(sk, d) := a']> (tcp_io_accum st))).
    assert (Hd : delete (sk, d) (tcp_io_accum st1) = delete (sk, d) (tcp_io_accum st)) by (cbn; apply delete_insert_eq).
    case_match eqn:Efull.
    + destruct (flushed e 0 st1 sk d a') as (A & B & C & D & b & Hf & Hr); [lia| |done|done|cbn [a' ac_count]; lia|].
      { intros k a1. cbn [set_accum tcp_io_accum]. rewrite Hd. apply (accums_delete st (sk, d) Ha k a1). }
      rewrite Hd in D.
      assert (Hk : forall k, io_accounted (set_accum (flush_tcp_io_accum e 0 st1 sk d a') (delete (sk, d) (tcp_io_accum (flush_tcp_io_accum e 0 st1 sk d a')))) k
        = reported st k ++ (if decide ((sk, d) = k) then if b then pending st k ++ [x] else [] else pending st k)).
      { intros k. unfold io_accounted, pending at 1. rewrite Hr, D, Hsz. destruct (decide ((sk, d) = k)) as [<-|Hne].
        - rewrite lookup_delete_eq. destruct b; by rewrite ?app_nil_r.
        - rewrite lookup_delete_ne by done. destruct b; by rewrite app_nil_r. }
      split; [done|done|done| |].
      * intros k. rewrite Hk. unfold one, io_accounted. rewrite <- app_assoc. apply sublist_app; [done|].
        destruct (decide _); [destruct b; [done|apply sublist_nil_l]|by rewrite app_nil_r].
      * intros Hfine k. rewrite Hk, (Hf Hfine). unfold one, io_accounted. rewrite <- app_assoc. f_equal. destruct (decide _); by rewrite ?app_nil_r.
    + assert (Hk : forall k, io_accounted st1 k = io_accounted st k ++ one (sk, d) x k).
      { intros k. unfold io_accounted, one, pending at 1. cbn [st1 set_accum tcp_io_accum]. change (reported st1 k) with (reported st k).
        rewrite <- app_assoc. f_equal. destruct (decide ((sk, d) = k)) as [<-|Hne].
        - by rewrite lookup_insert_eq, Hsz.
        - rewrite lookup_insert_ne by done. by rewrite app_nil_r. }
      split; [done| |done|intros k; by rewrite Hk|auto].
      intros k a1 Hk1. cbn in Hk1. apply lookup_insert_Some in Hk1 as [[_ <-]|[_ Hk1]]; [|by apply (Ha k)].
      split; [done|]. cbn [a' ac_count] in *. lia.
  - assert (Hp : pending st (sk, d) = []) by (unfold pending; by rewrite El).
    destruct (se_map_room e) eqn:Er.
    + assert (Hk : forall k, io_accounted (set_accum st (<[(sk, d) := mk_accum (x :: repeat 0 9) 1]> (tcp_io_accum st))) k = io_accounted st k ++ one (sk, d) x k).
      { intros k. unfold io_accounted, one. change (reported (set_accum st ?m) k) with (reported st k). rewrite <- app_assoc. f_equal.
        destruct (decide ((sk, d) = k)) as [<-|Hne].
        - rewrite Hp. unfold pending. cbn [set_accum tcp_io_accum]. by rewrite lookup_insert_eq.
        - unfold pending. cbn [set_accum tcp_io_accum]. rewrite lookup_insert_ne by done. by rewrite app_nil_r. }
      split; [done| |done|intros k; by rewrite Hk|auto].
      intros k a1 Hk1. cbn in Hk1. apply lookup_insert_Some in Hk1 as [[_ <-]|[_ Hk1]]; [|by apply (Ha k)]. split; [done|]. cbn. kunfold. lia.
    + split; [done|done|done| |intros (_ & _ & Hm & _); congruence].
      intros k. by apply sublist_inserts_r.
Qed.

(** *** The specification *)

(** The calls in progress, by thread, and the transfers that were made, in order. *)
Record io_spec := mk_spec { sp_calls : gmap Z Z; sp_moved : list (Z * Z * Z) }.

Definition transfers (sp : io_spec) (ev : stats_input) : list (Z * Z * Z) :=
  match ev with
  | sv_sendmsg_ret e sent =>
      match sp_calls sp !! se_pid_tgid e with None => [] | Some sk => if sent <=? 0 then [] else [(sk, direction_transmit, u32 sent)] end
  | sv_cleanup_rbuf e sk copied => if copied <=? 0 then [] else [(sk, direction_receive, u32 copied)]
  | _ => []
  end.

Definition spec_step (sp : io_spec) (ev : stats_input) : io_spec :=
  mk_spec
    (match ev with
     | sv_sendmsg e sk => <[se_pid_tgid e := sk]> (sp_calls sp)
     | sv_sendmsg_ret e _ => delete (se_pid_tgid e) (sp_calls sp)
     | _ => sp_calls sp
     end)
    (sp_moved sp ++ transfers sp ev).

Definition sizes_of (k : Z * Z) (l : list (Z * Z * Z)) : list Z := omap (fun t => if decide (t.1 = k) then Some t.2 else None) l.
Definition spec_run (h : list stats_input) : io_spec := fold_left spec_step h (mk_spec ∅ []).

(** Nothing gets lost in a step. *)
Definition lossless (sp : io_spec) (ev : stats_input) : Prop :=
  match ev with
  | sv_close e _ sk | sv_cleanup_rbuf e sk _ => fine e sk
  | sv_sendmsg_ret e _ => match sp_calls sp !! se_pid_tgid e with Some sk => fine e sk | None => True end
  | sv_evict_accum _ | sv_evict_call _ => False
  | _ => True
  end.

Fixpoint lossless_run (sp : io_spec) (h : list stats_input) : Prop :=
  match h with [] => True | ev :: h' => lossless sp ev /\ lossless_run (spec_step sp ev) h' end.

Record coupled (good : Prop) (st : sstate) (sp : io_spec) : Prop := mk_coupled {
  cp_ok : accums_ok st;
  cp_batches : Forall batch_ok (stats_events st);
  cp_calls : tcp_sendmsg_sock st ⊆ sp_calls sp;
  cp_calls_eq : good -> tcp_sendmsg_sock st = sp_calls sp;
  cp_sub : forall k, io_accounted st k `sublist_of` sizes_of k (sp_moved sp);
  cp_eq : good -> forall k, io_accounted st k = sizes_of k (sp_moved sp)
}.

Lemma sizes_of_app k l l' : sizes_of k (l ++ l') = sizes_of k l ++ sizes_of k l'.
Proof. apply omap_app. Qed.

Lemma sizes_of_one k sk d x : sizes_of k [(sk, d, x)] = one (sk, d) x k.
Proof. unfold sizes_of, one. cbn. by destruct (decide _). Qed.

(** A step that moves what the specification moves, with the calls of both taken along. *)
Lemma coupled_step good P st st1 st' sp ev add :
  coupled good st sp -> io_step P st st1 add -> tcp_io_accum st' = tcp_io_accum st1 -> stats_events st' = stats_events st1 ->
  (forall k, sizes_of k (transfers sp ev) = add k) -> (good -> lossless sp ev -> P) ->
  tcp_sendmsg_sock st' ⊆ sp_calls (spec_step sp ev) -> (lossless sp ev -> tcp_sendmsg_sock st = sp_calls sp -> tcp_sendmsg_sock st' = sp_calls (spec_step sp ev)) ->
  coupled (good /\ lossless sp ev) st' (spec_step sp ev).
Proof.
  intros [H1 H2 H3 H4 H5 H6] [A B C D E] Ha Hr Hadd HP Hc Hce.
  assert (Hacc : forall k, io_accounted st' k = io_accounted st1 k) by (intros k; unfold io_accounted, pending, reported; by rewrite Ha, Hr).
  split; [intros k a; rewrite Ha; apply B|by rewrite Hr|done|intros [G L]; auto| |].
  - intros k. cbn [spec_step sp_moved]. rewrite sizes_of_app, Hadd, Hacc. etransitivity; [apply D|]. by apply sublist_app.
  - intros [G L] k. cbn [spec_step sp_moved]. rewrite sizes_of_app, Hadd, Hacc, E by auto. by rewrite H6.
Qed.

(** Steps without transfers. *)
Lemma coupled_same good st st' sp ev : coupled good st sp -> same_io st st' -> transfers sp ev = [] -> sp_calls (spec_step sp ev) = sp_calls sp ->
  coupled (good /\ lossless sp ev) st' (spec_step sp ev).
Proof.
  intros Hc Hs Ht Hk. apply (coupled_step good True st st' st' sp ev nothing Hc); try done.
  - apply same_io_step; [apply Hc|apply Hc|done].
  - intros k. by rewrite Ht.
  - rewrite Hk, (si_calls _ _ Hs). apply Hc.
  - intros _ G. by rewrite Hk, (si_calls _ _ Hs).
Qed.

Lemma close_step e e' st sk : accums_ok st -> Forall batch_ok (stats_events st) ->
  io_step (fine e sk) st (stats_step st (sv_close e e' sk)) nothing
  /\ forall d, d = direction_transmit \/ d = direction_receive -> pending (stats_step st (sv_close e e' sk)) (sk, d) = [].
Proof.
  intros Ha Hb. destruct (flush_step e 0 st sk direction_transmit) as [S1 D1]; [lia|done|done|].
  cbn [stats_step]. unfold obi_stats_kprobe_tcp_close_io_flush. set (st1 := flush_and_delete_io_accum e 0 st sk direction_transmit) in *.
  destruct (flush_step e 1 st1 sk direction_receive) as [S2 D2]; [lia|apply S1|apply S1|]. set (st2 := flush_and_delete_io_accum e 1 st1 sk direction_receive) in *.
  pose proof (srtt_io e' st2 sk) as Hs. pose proof (same_io_step True st2 _ (is_ok _ _ _ _ S2) (is_batches _ _ _ _ S2) Hs) as S3. split.
  - destruct (io_step_trans _ _ _ _ _ _ (io_step_trans _ _ _ _ _ _ S1 S2) S3) as [A B C D E]. split; auto.
  - intros d Hd. unfold pending. rewrite (si_accum _ _ Hs), D2, D1. destruct Hd as [->| ->]; [|by rewrite lookup_delete_eq].
    by rewrite lookup_delete_ne, lookup_delete_eq by (intros [=]).
Qed.

Lemma evict_step st key : accums_ok st -> Forall batch_ok (stats_events st) -> io_step False st (set_accum st (delete key (tcp_io_accum st))) nothing.
Proof.
  intros Ha Hb. split; [done|by apply accums_delete|done| |done]. intros k. unfold nothing, io_accounted. rewrite app_nil_r. apply sublist_app; [done|].
  unfold pending. cbn [set_accum tcp_io_accum]. destruct (decide (key = k)) as [->|Hne]; [rewrite lookup_delete_eq; apply sublist_nil_l|by rewrite lookup_delete_ne].
Qed.

Lemma missed_step st add : accums_ok st -> Forall batch_ok (stats_events st) -> io_step (forall k, add k = []) st st add.
Proof.
  intros Ha Hb. split; [done|done|done|intros k; by apply sublist_inserts_r|]. intros H k. by rewrite H, app_nil_r.
Qed.

Lemma coupled_ret good st sp e sent : coupled good st sp ->
  coupled (good /\ lossless sp (sv_sendmsg_ret e sent)) (obi_stats_kretprobe_tcp_sendmsg e st sent) (spec_step sp (sv_sendmsg_ret e sent)).
Proof.
  intros Hc. assert (Ha := cp_ok _ _ _ Hc). assert (Hb := cp_batches _ _ _ Hc). assert (Hk := cp_calls _ _ _ Hc).
  unfold obi_stats_kretprobe_tcp_sendmsg. destruct (tcp_sendmsg_sock st !! se_pid_tgid e) as [sk|] eqn:El.
  - assert (Es : sp_calls sp !! se_pid_tgid e = Some sk) by (by apply (lookup_weaken (tcp_sendmsg_sock st))).
    set (st1 := set_calls st (delete (se_pid_tgid e) (tcp_sendmsg_sock st))).
    assert (Hd : delete (se_pid_tgid e) (tcp_sendmsg_sock st) ⊆ delete (se_pid_tgid e) (sp_calls sp)) by (by apply delete_mono).
    destruct (sent <=? 0) eqn:E0.
    + apply (coupled_step good True st st _ sp _ nothing Hc); try done; [apply same_io_step; eauto with stats_io| |cbn; by intros _ ->].
      intros k. cbn [transfers]. by rewrite Es, E0.
    + pose proof (accumulate_step e st1 sk direction_transmit (u32 sent) Ha Hb) as S.
      set (st2 := accumulate_tcp_io e st1 sk direction_transmit (u32 sent)) in *.
      apply (coupled_step good (fine e sk) st (set_calls st2 (tcp_sendmsg_sock st)) _ sp _ (one (sk, direction_transmit) (u32 sent)) Hc); try done.
      * destruct S as [A B C D E]. by split.
      * intros k. cbn [transfers]. rewrite Es, E0. apply sizes_of_one.
      * cbn [lossless]. by rewrite Es.
      * rewrite (is_calls _ _ _ _ S). exact Hd.
      * rewrite (is_calls _ _ _ _ S). cbn. by intros _ ->.
  - apply (coupled_step good _ st st _ sp _ (fun k => sizes_of k (transfers sp (sv_sendmsg_ret e sent))) Hc (missed_step st _ Ha Hb)); try done.
    + intros G _ k. cbn [transfers]. rewrite <- (cp_calls_eq _ _ _ Hc G), El. done.
    + cbn. apply map_subseteq_spec. intros i x Hi. rewrite lookup_delete_ne by congruence. by apply (lookup_weaken (tcp_sendmsg_sock st)).
    + cbn. intros _ <-. by rewrite delete_id.
Qed.

Lemma coupled_next good st sp ev : coupled good st sp -> coupled (good /\ lossless sp ev) (stats_step st ev) (spec_step sp ev).
Proof.
  intros Hc. assert (Ha := cp_ok _ _ _ Hc). assert (Hb := cp_batches _ _ _ Hc). assert (Hk := cp_calls _ _ _ Hc).
  destruct ev as [e args|sk|e e' sk|e sk|e sent|e sk copied|e sk|e sk skb|e sk|key|pid|sk]; cbn [stats_step];
    try (apply (coupled_same _ st); [done| |done|done]; first [apply same_io_role|apply retransmit_io]).
  - apply (coupled_same _ st); [done| |done|done]. exact (same_io_trans _ _ _ (conn_role_io _ _) (same_io_trans _ _ _ (failed_io _ _ _) (successful_io _ _ _))).
  - destruct (close_step e e' st sk Ha Hb) as [S _]. cbn [stats_step] in S. apply (coupled_step good (fine e sk) st _ _ sp _ nothing Hc S); try done.
    + by rewrite (is_calls _ _ _ _ S).
    + intros _ G. by rewrite (is_calls _ _ _ _ S).
  - apply (coupled_step good True st st _ sp _ nothing Hc); try done; [apply same_io_step; eauto with stats_io|cbn; by apply insert_mono|cbn; by intros _ ->].
  - by apply coupled_ret.
  - unfold obi_stats_kprobe_tcp_cleanup_rbuf. destruct (copied <=? 0) eqn:E0.
    + apply (coupled_same _ st); [done|apply same_io_refl| |done]. cbn. by rewrite E0.
    + pose proof (accumulate_step e st sk direction_receive (u32 copied) Ha Hb) as S.
      apply (coupled_step good (fine e sk) st _ _ sp _ (one (sk, direction_receive) (u32 copied)) Hc S); try done.
      * intros k. cbn [transfers]. rewrite E0. apply sizes_of_one.
      * by rewrite (is_calls _ _ _ _ S).
      * intros _ G. by rewrite (is_calls _ _ _ _ S).
  - apply (coupled_same _ st); [done| |done|done]. unfold obi_stats_raw_tp_tcp_send_reset. same_io.
  - apply (coupled_same _ st); [done| |done|done]. unfold obi_stats_raw_tp_tcp_receive_reset. same_io.
  - apply (coupled_step good False st _ _ sp _ nothing Hc (evict_step st key Ha Hb)); done.
  - apply (coupled_step good False st _ _ sp _ nothing Hc (same_io_step _ st st Ha Hb (same_io_refl st))); try done.
    cbn. etransitivity; [apply delete_subseteq|done].
Qed.

Lemma coupled_run h : forall good st sp, coupled good st sp -> coupled (good /\ lossless_run sp h) (fold_left stats_step h st) (fold_left spec_step h sp).
Proof.
  induction h as [|ev h IH]; intros good st sp Hc; cbn [fold_left lossless_run].
  - destruct Hc as [A B C D E F]. split; tauto.
  - destruct (IH _ _ _ (coupled_next good st sp ev Hc)) as [A B C D E F]. split; tauto.
Qed.

(** C39: Transfers are counted once, in order, and none is missed.  Over every history of socket events, the sizes
    reported for a socket and direction followed by the ones that wait are a subsequence of the transfers
    made, and all of them when the ring and the maps had room and the sockets could be read; every batch
    holds between one and ten sizes, and after [tcp_close] none waits. *)
Theorem transfers_accounted (h : list stats_input) (k : Z * Z) :
  (reported (stats_run h) k ++ pending (stats_run h) k) `sublist_of` sizes_of k (sp_moved (spec_run h))
  /\ (lossless_run (mk_spec ∅ []) h -> reported (stats_run h) k ++ pending (stats_run h) k = sizes_of k (sp_moved (spec_run h)))
  /\ Forall batch_ok (stats_events (stats_run h))
  /\ forall e e' sk d, d = direction_transmit \/ d = direction_receive -> pending (stats_step (stats_run h) (sv_close e e' sk)) (sk, d) = [].
Proof.
  assert (Hc : coupled True stats_start (mk_spec ∅ [])) by (split; done).
  destruct (coupled_run h True _ _ Hc) as [A B _ _ E F]. split_and!; [apply E|intros L; apply F; done|exact B|].
  intros e e' sk. apply (close_step e e' (stats_run h) sk A B).
Qed.

(** ** Roles *)

(** Events that do not change the role of a socket. *)
Definition role_kept (sk : Z) (ev : stats_input) : Prop :=
  match ev with
  | sv_set_state _ args => skaddr args <> sk \/ newstate args <> TCP_ESTABLISHED
  | sv_destroy s | sv_evict_role s => s <> sk
  | _ => True
  end.

Lemma conn_role_lookup st args sk : skaddr args <> sk \/ newstate args <> TCP_ESTABLISHED -> sock_role (conn_role st args) !! sk = sock_role st !! sk.
Proof.
  intros H. unfold conn_role. destruct (negb _); [done|]. destruct (_ && _) eqn:E; [|done].
  apply andb_prop in E as [_ E]. apply Z.eqb_eq in E. cbn. destruct H as [H|H]; [by rewrite lookup_insert_ne|done].
Qed.

Lemma other_role_same e e' st args sk sent copied skb :
  sock_role (tcp_failed_connection e st args) = sock_role st
  /\ sock_role (tcp_successful_connection e st args) = sock_role st
  /\ sock_role (obi_stats_kprobe_tcp_close_srtt e' (obi_stats_kprobe_tcp_close_io_flush e st sk) sk) = sock_role st
  /\ sock_role (obi_stats_kretprobe_tcp_sendmsg e st sent) = sock_role st
  /\ sock_role (obi_stats_kprobe_tcp_cleanup_rbuf e st sk copied) = sock_role st
  /\ sock_role (obi_stats_raw_tp_tcp_retransmit_skb e st sk) = sock_role st
  /\ sock_role (obi_stats_raw_tp_tcp_send_reset e st sk skb) = sock_role st
  /\ sock_role (obi_stats_raw_tp_tcp_receive_reset e st sk) = sock_role st.
Proof.
  assert (Hf : forall n s d a, sock_role (flush_tcp_io_accum e n s sk d a) = sock_role s) by (intros; unfold flush_tcp_io_accum; by repeat case_match).
  assert (Hd : forall n s d, sock_role (flush_and_delete_io_accum e n s sk d) = sock_role s)
    by (intros; unfold flush_and_delete_io_accum; repeat case_match; cbn; by rewrite ?Hf).
  assert (Ha : forall s x d b, sock_role (accumulate_tcp_io e s x d b) = sock_role s)
    by (intros; unfold accumulate_tcp_io, flush_tcp_io_accum; by repeat case_match).
  split_and!; unfold tcp_failed_connection, tcp_successful_connection, obi_stats_kprobe_tcp_close_srtt, obi_stats_kprobe_tcp_close_io_flush,
    obi_stats_kretprobe_tcp_sendmsg, obi_stats_kprobe_tcp_cleanup_rbuf, obi_stats_raw_tp_tcp_retransmit_skb, obi_stats_raw_tp_tcp_send_reset,
    obi_stats_raw_tp_tcp_receive_reset, submit_tcp_reset; repeat case_match; cbn [submit_stat sock_role]; by rewrite ?Ha, ?Hd.
Qed.

Lemma role_kept_step st sk ev : role_kept sk ev -> sock_role (stats_step st ev) !! sk = sock_role st !! sk.
Proof.
  intros H. destruct ev as [e args|s|e e' s|e s|e sent|e s copied|e s|e s skb|e s|key|pid|s]; cbn [stats_step role_kept] in *; try done.
  - destruct (other_role_same e e (conn_role st args) args 0 0 0 0) as (Hf & _).
    destruct (other_role_same e e (tcp_failed_connection e (conn_role st args) args) args 0 0 0 0) as (_ & Hs & _). rewrite Hs, Hf. by apply conn_role_lookup.
  - cbn. by rewrite lookup_delete_ne.
  - by destruct (other_role_same e e' st (mk_args 0 0 0 0) s 0 0 0) as (_ & _ & -> & _).
  - by destruct (other_role_same e e st (mk_args 0 0 0 0) 0 sent 0 0) as (_ & _ & _ & -> & _).
  - by destruct (other_role_same e e st (mk_args 0 0 0 0) s 0 copied 0) as (_ & _ & _ & _ & -> & _).
  - by destruct (other_role_same e e st (mk_args 0 0 0 0) s 0 0 0) as (_ & _ & _ & _ & _ & -> & _).
  - by destruct (other_role_same e e st (mk_args 0 0 0 0) s 0 0 skb) as (_ & _ & _ & _ & _ & _ & -> & _).
  - by destruct (other_role_same e e st (mk_args 0 0 0 0) s 0 0 0) as (_ & _ & _ & _ & _ & _ & _ & ->).
  - cbn. by rewrite lookup_delete_ne.
Qed.

Lemma role_kept_run sk h : forall st, Forall (role_kept sk) h -> sock_role (fold_left stats_step h st) !! sk = sock_role st !! sk.
Proof.
  induction h as [|ev h IH]; intros st Hk; [done|]. apply Forall_cons in Hk as [H Hk]. cbn [fold_left]. rewrite IH by done. by apply role_kept_step.
Qed.

Definition handshake_role (old : Z) : Z := if old =? TCP_SYN_SENT then role_client else role_server.

(** What the tracer reads of a socket whose connection is [conn]. *)
Definition parses (e : senv) (sk : Z) (conn : connection_info) : Prop := parse_full_sock_info (se_sock e sk) = Some conn.

(** A failure of an established connection: not one of the states a normal close goes through. *)
Definition fails_from (old : Z) : Prop :=
  old <> TCP_LAST_ACK /\ old <> TCP_TIME_WAIT /\ old <> TCP_LISTEN /\ old <> TCP_SYN_SENT /\ old <> TCP_SYN_RECV.

Lemma failed_submits e st sk conn old err s : parses e sk conn -> se_sock e sk = Some s -> ts_sk_err s = err -> err <> 0 -> se_room e 0 = true -> fails_from old ->
  tcp_failed_connection e st (mk_args IPPROTO_TCP sk old TCP_CLOSE)
  = submit_stat e 0 st sk (ev_tcp_failed_connection (sk_err_to_reason err) (stored_role st sk) conn).
Proof.
  intros Hp Hs <- He Hr (H1 & H2 & H3 & H4 & H5). unfold tcp_failed_connection. cbn [protocol newstate oldstate skaddr]. rewrite !Z.eqb_refl. cbn [negb].
  rewrite (proj2 (Z.eqb_neq old TCP_LAST_ACK)), (proj2 (Z.eqb_neq old TCP_TIME_WAIT)), (proj2 (Z.eqb_neq old TCP_LISTEN)) by done. cbn [orb].
  unfold parse_failed_sock_info, failed_connect_owns_inet_sport, failed_connection_role.
  rewrite (proj2 (Z.eqb_neq old TCP_SYN_SENT)), (proj2 (Z.eqb_neq old TCP_SYN_RECV)) by done. cbn [negb orb].
  unfold parses in Hp. rewrite Hs in *. cbn [read_sock]. rewrite (proj2 (Z.eqb_neq (ts_sk_err s) 0)) by done. cbn [andb]. by rewrite Hp, Hr.
Qed.

(** C40: The end of a connection is reported with the part this host had in its handshake.  When a TCP socket is
    established from SYN_SENT or SYN_RECV it is reported as a client's or a server's connection, and, as
    long as the socket is neither destroyed, established again nor evicted, a failure of it and its
    round-trip time when it is closed carry the same role, whatever happens to other sockets between. *)
Theorem role_follows_connection st e0 sk old h :
  old = TCP_SYN_SENT \/ old = TCP_SYN_RECV -> Forall (role_kept sk) h ->
  let role := handshake_role old in
  let st1 := stats_step st (sv_set_state e0 (mk_args IPPROTO_TCP sk old TCP_ESTABLISHED)) in
  let st' := fold_left stats_step h st1 in
  (forall conn, parse_tcp_sock (se_sock e0 sk) = Some conn -> se_room e0 0 = true ->
     exists flags, stats_events st1 = stats_events st ++ [mk_entry flags sk (ev_tcp_successful_connection role conn)])
  /\ (forall e conn s from, parses e sk conn -> se_sock e sk = Some s -> ts_sk_err s <> 0 -> se_room e 0 = true -> fails_from from ->
       exists flags, stats_events (stats_step st' (sv_set_state e (mk_args IPPROTO_TCP sk from TCP_CLOSE)))
         = stats_events st' ++ [mk_entry flags sk (ev_tcp_failed_connection (sk_err_to_reason (ts_sk_err s)) role conn)])
  /\ (forall e conn s, parses e sk conn -> se_sock e sk = Some s -> tcp_never_connected (skc_state (ts_sock s)) (sk_bytes_acked (ts_sock s)) = false ->
       8 <= ts_srtt_us s -> ts_srtt_us s / 8 <= k_max_srtt_allowed -> se_room e 0 = true ->
       exists flags, stats_events (obi_stats_kprobe_tcp_close_srtt e st' sk) = stats_events st' ++ [mk_entry flags sk (ev_tcp_rtt role (ts_srtt_us s / 8) conn)]).
Proof.
  intros Hold Hk role st1 st'.
  assert (Hrole : sock_role (conn_role st (mk_args IPPROTO_TCP sk old TCP_ESTABLISHED)) = <[sk := role]> (sock_role st))
    by (by destruct Hold as [->| ->]).
  assert (Hst1 : st1 = tcp_successful_connection e0 (conn_role st (mk_args IPPROTO_TCP sk old TCP_ESTABLISHED)) (mk_args IPPROTO_TCP sk old TCP_ESTABLISHED)) by done.
  assert (Hr : stored_role st' sk = role).
  { unfold stored_role, st'. rewrite role_kept_run by done. rewrite Hst1.
    destruct (other_role_same e0 e0 (conn_role st (mk_args IPPROTO_TCP sk old TCP_ESTABLISHED)) (mk_args IPPROTO_TCP sk old TCP_ESTABLISHED) 0 0 0 0) as (_ & -> & _).
    by rewrite Hrole, lookup_insert_eq. }
  split_and!.
  - intros conn Hp Hroom. rewrite Hst1. unfold tcp_successful_connection. cbn [protocol newstate oldstate skaddr]. rewrite !Z.eqb_refl. cbn [negb andb].
    assert (Ho : (old =? TCP_SYN_SENT) || (old =? TCP_SYN_RECV) = true) by (by destruct Hold as [->| ->]). rewrite Ho, Hp, Hroom. cbn [negb].
    eexists. cbn [submit_stat stats_events]. f_equal. by destruct Hold as [->| ->].
  - intros e conn s from Hp Hs He Hroom Hfrom. cbn [stats_step]. change (conn_role st' (mk_args IPPROTO_TCP sk from TCP_CLOSE)) with
      (if ((from =? TCP_SYN_SENT) || (from =? TCP_SYN_RECV)) && false then set_role st' (<[sk := handshake_role from]> (sock_role st')) else st').
    rewrite andb_false_r. rewrite (failed_submits e st' sk conn from _ s Hp Hs eq_refl He Hroom Hfrom), Hr. eexists. done.
  - intros e conn s Hp Hs Hn Hlo Hhi Hroom. unfold obi_stats_kprobe_tcp_close_srtt. unfold parses in Hp. rewrite Hp, Hs. cbn [fmap option_fmap option_map is_tcp_socket_never_connected read_sock].
    rewrite Hn, Z.shiftr_div_pow2 by lia. change (2 ^ 3) with 8. rewrite (proj2 (Z.eqb_neq _ 0)) by zdm.
    rewrite (proj2 (Z.ltb_ge k_max_srtt_allowed _)) by lia. rewrite Hroom, Hr. cbn [negb]. eexists. done.
Qed.

(** ** Witnesses *)

Definition example_tcp_sock (err : Z) : tcp_sock :=
  mk_tcp_sock (mk_ksock AF_INET 0 0x5000 [10; 0; 0; 1] [10; 0; 0; 2] (repeat 0 16) (repeat 0 16) TCP_CLOSE 17 0 None) 0x409c 3 4000 err.
Definition example_stats_conn : connection_info := mk_conn (ip4ip6_prefix ++ [10; 0; 0; 1]) (ip4ip6_prefix ++ [10; 0; 0; 2]) 40000 80.
Definition example_senv (err : Z) : senv := mk_senv (fun _ => Some (example_tcp_sock err)) 71 (fun _ => true) (fun _ => 0) 0 true.

(** Eleven writes and a read on a socket, and its close. *)
Definition example_transfers : list stats_input :=
  concat (repeat [sv_sendmsg (example_senv 0) 5; sv_sendmsg_ret (example_senv 0) 100] 11)
  ++ [sv_cleanup_rbuf (example_senv 0) 5 7; sv_close (example_senv 0) (example_senv 0) 5].

Lemma transfers_accounted_witness :
  lossless_run (mk_spec ∅ []) example_transfers
  /\ reported (stats_run example_transfers) (5, direction_transmit) ++ pending (stats_run example_transfers) (5, direction_transmit)
     = sizes_of (5, direction_transmit) (sp_moved (spec_run example_transfers))
  /\ reported (stats_run example_transfers) (5, direction_transmit) = repeat 100 11.
Proof.
  assert (L : lossless_run (mk_spec ∅ []) example_transfers) by (vm_compute; repeat split; eexists; reflexivity).
  destruct (transfers_accounted example_transfers (5, direction_transmit)) as (_ & H & _).
  split; [exact L|]. split; [exact (H L)|vm_compute; reflexivity].
Defined.

Lemma role_follows_connection_witness :
  Forall (role_kept 5) [sv_destroy 6; sv_sendmsg (example_senv 0) 5]
  /\ exists flags, stats_events (obi_stats_kprobe_tcp_close_srtt (example_senv 0)
        (fold_left stats_step [sv_destroy 6; sv_sendmsg (example_senv 0) 5]
           (stats_step stats_start (sv_set_state (example_senv 0) (mk_args IPPROTO_TCP 5 TCP_SYN_SENT TCP_ESTABLISHED)))) 5)
      = stats_events (fold_left stats_step [sv_destroy 6; sv_sendmsg (example_senv 0) 5]
           (stats_step stats_start (sv_set_state (example_senv 0) (mk_args IPPROTO_TCP 5 TCP_SYN_SENT TCP_ESTABLISHED))))
        ++ [mk_entry flags 5 (ev_tcp_rtt role_client 500 example_stats_conn)].
Proof.
  assert (Hk : Forall (role_kept 5) [sv_destroy 6; sv_sendmsg (example_senv 0) 5])
    by (apply Forall_cons; split; [discriminate|apply Forall_cons; split; [exact I|apply Forall_nil_2]]).
  split; [exact Hk|].
  destruct (role_follows_connection stats_start (example_senv 0) 5 TCP_SYN_SENT [sv_destroy 6; sv_sendmsg (example_senv 0) 5] (or_introl eq_refl) Hk) as (_ & _ & H).
  apply (H (example_senv 0) example_stats_conn (example_tcp_sock 0)); try reflexivity; try (vm_compute; reflexivity); discriminate.
Defined.

(** A connect that is aborted before a SYN leaves is not given the port of an earlier connection of the socket. *)
Example unsent_connect_port :
  parse_failed_sock_info (Some (mk_tcp_sock (ts_sock (example_tcp_sock 0)) 0x409c 0 0 0)) TCP_SYN_SENT
  = Some (mk_conn (ip4ip6_prefix ++ [10; 0; 0; 1]) (ip4ip6_prefix ++ [10; 0; 0; 2]) 0 80).
Proof. reflexivity. Qed.
